(* ===== verification/_CoqProject ===== *)
-Q . S2P
Prelude.v
PacketDefs.v
Wire.v
Topic.v
BrokerTopic.v
FixedHeader.v
Props.v
Frame.v
ReasonCodes.v
ConnectAck.v
PublishResp.v
Control.v
Publish.v
Filters.v
Subscribe.v
Unsubscribe.v
Connect.v
PropPool.v
PacketIO.v
BrokerDefs.v
BrokerQos2.v
BrokerAuth.v
OutQueue.v
OutStream.v
OutAlloc.v
BrokerState.v
BrokerSubs.v
BrokerSend.v
BrokerRetained.v
BrokerOrphan.v
BrokerSession.v
BrokerFanout.v
BrokerWill.v
BrokerClose.v
BrokerPackets.v
BrokerPublish.v
BrokerConnect.v
BrokerAccept.v
BrokerStep.v
SnDefs.v
SnEncode.v
SnDecode.v
SnCodec.v
SnRead.v
PersistRecord.v
PersistStore.v
PersistRestore.v
PersistSafe.v
PersistCodec.v
PersistRoundtrip.v
PersistErase.v
Slots.v
ClientTables.v
ClientPublish.v
