(* ===== verification/Prelude.v ===== *)
(** * Verification of wolfMQTT

    wolfMQTT is an MQTT v3.1.1 and v5 client library with a small broker. This
    library models, in the C code's own structure, the parts that decide what
    goes over the wire, and proves what they promise.

    ** The program and its parts

    - The packet codec, [src/mqtt_packet.c]: for each packet type a function
      that writes a C structure into a transmit buffer and one that reads a
      received buffer into a structure. Both use the field codec (integers,
      Variable Byte Integers, UTF-8 strings), the fixed header and, for
      MQTT v5, the property codec, whose cells come from a fixed pool.
    - The packet transport, [MqttPacket_Read] and [MqttPacket_Write] there and
      [src/mqtt_socket.c]: they cut a byte stream into packets and may be left
      and entered again at any byte.
    - The broker, [src/mqtt_broker.c]: it decodes what its clients send,
      matches topics against filters and queues messages for subscribers.
    - The persistence of the broker's tables, [src/mqtt_broker_persist.c]: each
      change is written through to a key/value backend, and the tables are
      rebuilt from it when the broker starts again.
    - The client state machine, [src/mqtt_client.c], and the MQTT-SN variant,
      [src/mqtt_sn_*.c].

    ** Files of this library

    - [Prelude]: results of C calls, machine integers, buffers, the contracts
      and tactics shared by all files.
    - [PacketDefs]: constants and structures of [wolfmqtt/mqtt_packet.h].
    - [Wire]: [MqttDecode_Vbi], [MqttEncode_Vbi], [MqttDecode_Num],
      [MqttDecode_Int], [Utf8WellFormed], [MqttDecode_String],
      [MqttEncode_String] and [MqttEncode_Data].
    - [Topic]: validation of topic filters, shared subscriptions included, and
      of topic names.
    - [FixedHeader], [Props], [Frame]: the fixed header, the property codec
      with its table [gPropMatrix], and the generic packet layout on which the
      encoders of all packet types are proved.
    - [ReasonCodes]: the tables of reason codes allowed in each packet.
    - [Connect], [ConnectAck], [Publish], [PublishResp], [Filters],
      [Subscribe], [Unsubscribe], [Control]: the encoder and the decoder of
      each packet type; [Control] holds PING, DISCONNECT and AUTH.
    - [PropPool]: the static pool of property cells, [MqttProps_Add] and
      [MqttProps_Free] over an array, which implements the number of free
      cells the decoders count.
    - [PacketIO]: [MqttPacket_Read], [MqttPacket_Write], [MqttSocket_Read] and
      [MqttSocket_Write] over network callbacks given by a class.
    - [BrokerTopic]: the broker's [BrokerTopicMatch].
    - [BrokerDefs]: the structures of [wolfmqtt/mqtt_broker.h]. A client is
      its identity and session fields, its Will, its inbound QoS 2
      identifiers, its outbound queue and its transport.
    - [BrokerQos2]: the inbound QoS 2 identifiers, [BrokerInboundQos2_*], and
      the decision [BrokerHandle_Publish] takes by them.
    - [OutQueue]: a subscriber's outbound queue, from [BrokerOutPub_Alloc] over
      [BrokerNextPacketIdForQueue] and [BrokerClient_DrainOutQueue] to the
      acknowledgements [BrokerClient_OnPubAck], [..OnPubRec], [..OnPubReject]
      and [..OnPubComp].
    - [OutStream]: the byte stream the drains of a queue write. [OutAlloc]: what
      a queued copy of a message holds.
    - [BrokerState]: [MqttBroker] as a record of its tables, computations over
      it and the rules to prove that they end. A client is referred to by its
      address; following a pointer to a client that is not linked is undefined
      behaviour. The clock does not advance within an operation.
    - [BrokerSubs]: the subscription table, [BrokerSubs_Add] to
      [BrokerSubs_ReassociateClient].
    - [BrokerSend]: PINGRESP, SUBACK and DISCONNECT written by the broker, and
      that a drain or a forwarded message ends and keeps the client valid.
    - [BrokerRetained]: the retained messages, [BrokerRetained_*].
    - [BrokerOrphan]: sessions without a connection, [BrokerOrphan_*].
    - [BrokerSession]: the end of a connection and the return of its session,
      [BrokerSubs_OrphanClient], [BrokerSubs_EndClientSession],
      [BrokerClient_Remove].
    - [BrokerAuth]: the comparison of credentials, [BrokerBufCompare] and
      [BrokerStrCompare], and the check of [BrokerHandle_Connect].
    - [BrokerFanout]: the list of targets of a message, [BrokerFanout_Add], and
      the loop that delivers to those that are still linked.
    - [BrokerWill]: Wills published at once or put off, [BrokerPendingWill_*],
      [BrokerClient_PublishWill].
    - [BrokerClose]: the end of a connection for each reason,
      [BrokerClient_AbnormalClose], [BrokerClient_EndConnect], and the writes
      that were cut short, [BrokerClient_ResumeConnAck], [..ResumeDirect].
    - [BrokerPackets]: the handlers of PUBREC, PUBREL, PUBACK, PUBCOMP,
      SUBSCRIBE and UNSUBSCRIBE. [BrokerPublish]: the handler of PUBLISH.
    - [BrokerConnect], [BrokerAccept]: the stages of [BrokerHandle_Connect] in
      their order, and the whole of it.
    - [BrokerStep]: [BrokerClient_Process], [BrokerClient_Add],
      [MqttBroker_Init] and [MqttBroker_Step].
    - [PersistRecord]: the records of the persistence layer, what writes them and
      what reads their fields; [PersistCodec]: that these agree.
    - [PersistStore]: the backend's hooks, a class, and what is written and
      deleted while the broker runs, [BrokerPersist_Put*] and [BrokerPersist_Del*];
      [PersistErase]: what is left of a dropped session.
    - [PersistRestore]: [BrokerPersist_Restore]. [PersistSafe]: that it ends in
      well-formed tables on anything; [PersistRoundtrip]: that a restart gives
      the tables back.
    - [SnDefs]: constants and structures of [wolfmqtt/mqtt_sn_packet.h].
      [SnEncode], [SnDecode]: the MQTT-SN encoders and decoders of
      [src/mqtt_sn_packet.c]; [SnCodec]: that they fit together.
    - [SnRead]: [SN_Packet_Read], over datagrams and over DTLS, and
      [MqttSocket_Peek].
    - [Slots], [ClientTables]: the client's tables of in-flight identifiers,
      retained messages and inbound QoS 2 identifiers, [MqttClient_SendId*],
      [..Replay_*] and [..RecvQos2_*], and its Receive Maximum units. [ClientPublish]:
      [MqttPublishMsg] up to the wait for the acknowledgement.


    ** How the code is modelled

    A buffer is the list of its bytes, each an integer from 0 to 255; an
    access outside it is the value [UB] of [result], so that a theorem that
    excludes [UB] is a memory-safety statement. A negative return code is
    [Err]. A pointer a decoder stores into a structure is the list of bytes it
    points at. Integers are [Z]; where C wraps or narrows, [u8], [u16], [u32]
    and [i32] are written. An encoder is called with a NULL buffer to learn
    the size and again to write: its model, an [emit], is the number of bytes
    it reports together with the bytes it writes, and the theorems show that
    both agree. Decoders that allocate property cells are computations [M]
    over the number of free cells; on an error no partly filled structure is
    returned.

    The statements are phrased by a few contracts of [Prelude], [Wire] and
    [Frame]: [yields] and [meets] (no undefined behaviour, errors negative, a
    success satisfies a predicate, the free cells are accounted for);
    [decides] and [settles] (success exactly when a condition holds);
    [answers] and [transmits] (an encoder writes exactly these bytes exactly
    when the structure is valid and fits); [recognizes] (a decoder accepts
    exactly the buffers that start with these bytes).

    Fuel: loops over a Variable Byte Integer run at most 5 rounds, over UTF-8
    one more than the bytes left, over properties [MQTT_MAX_PROPS] + 1, over
    topics [MAX_MQTT_TOPICS] + 1, over the pool its length + 1, over the
    length bytes of a packet read [MQTT_PACKET_MAX_LEN_BYTES] + 1,
    over candidate packet identifiers 65535, over the clients of a step their
    number. Running
    out of fuel is [UB], so that the theorems that exclude [UB] prove the
    bounds sufficient, and the loops terminating.

    Build modelled: [WOLFMQTT_V5], [WOLFMQTT_BROKER] with its default
    features, UTF-8 validation, the static property pool,
    [WOLFMQTT_NONBLOCK], Maximum QoS 2; no [WOLFMQTT_MULTITHREAD], no TLS, no
    disconnect callback; the broker with
    dynamic memory, its handlers without the write-through to the backend. An allocation that may fail takes
    its outcome from a list, an argument of the model; the clock is an
    argument and stands still within a step. Reading from a closed socket
    fails, as [BrokerPosix_Read] does; what a write does is up to the network.

    ** What the theorems show

    - Round trips: for each packet type the encoder accepts exactly the
      structures that meet a stated predicate, reports the size it writes, and
      the decoder reads all fields back, under conditions that are stated
      where it asks for more than the encoder (Authentication Data with its
      Method, a Will Topic that is not empty). For CONNECT the predicate is
      compared with the valid packets: it lacks four Will Properties.
    - Safety and exactness of the decoders on arbitrary bytes: they end, read
      nothing outside what they were given, accept exactly (or, where the code
      is laxer, only) well-formed packets, and leak no property cell.
    - Equivalence of the validators with reference definitions: UTF-8 with
      RFC 3629, filters and the matcher with the rules of MQTT 4.7, fixed
      header flags with MQTT 2.2.2.
    - The pool refines lists over a number of free cells.
    - Packet reading and writing resume at any byte, and reading ends.
    - The inbound QoS 2 list implements a bounded set: a message is passed on
      the first time after a PUBREL, unless it is refused for want of room or
      memory, and never a second time.
    - An outbound queue keeps its counters, unique packet identifiers and
      in-flight limit over any sequence of operations and failures, and the
      bytes its drains write are its encoded packets in order, however the
      network cuts them; complete packets, if each fits the send buffer.
    - The subscription table implements a finite map with a cap for a client.
    - The retained list implements a bounded map from topics to messages, and
      a new subscriber gets exactly the messages its filter matches.
    - A session survives its connection with its messages in order, its QoS 2
      identifiers and its subscriptions; no sequence of connections,
      disconnections, take-overs, offline messages and expiry breaks the
      invariant of the session tables or leaves a dangling subscription.
    - The broker as a whole ([Broker_safe]): from [MqttBroker_Init] on, whatever
      arrives and whatever fails, each [MqttBroker_Step] ends without undefined
      behaviour and keeps all tables consistent. Each handler keeps the broker
      well-formed on any bytes.
    - What the handlers do: a message goes to exactly the matching subscribers,
      a SUBACK says what was done, a Will is published once and when due, to
      each matching subscription, with the bytes stated that go out directly,
      without the configured credentials nothing but the connection changes,
      and the keep-alive deadline is exact.
    - Persistence: from the records that the broker writes, listed in any order,
      a restart rebuilds the same sessions, queues, subscriptions and retained
      messages; from any other bytes, and with any failure, it ends in
      well-formed tables; a dropped session leaves no record and takes no other
      client's.
    - MQTT-SN: each encoder writes one frame of the announced length, each
      decoder accepts exactly the frames of its type, and what was encoded is
      decoded again, in either byte order of the host ([SN_Encode_Publish] reads
      a topic identifier in the host's order, an argument of the model). A
      datagram is delivered, as far as it fits the buffer, however often the
      network has nothing to deliver, and one without a whole header blocks the client for good.
    - The client's tables implement two finite maps, its Receive Maximum units
      balance, and a PUBLISH is refused without a trace or sent once and whole,
      through any send buffer that takes its headers and a byte of the payload.
    - Deviations from the protocol that the code shows are theorems too, with
      a concrete input: an empty level the matcher misses, Will Properties that
      are refused, the overrun of a property block, a PUBLISH
      the drain truncates, a session a smaller Receive Maximum blocks, a
      datagram completed with the next one, identifiers and retained messages the
      client loses or keeps too long.

    ** What is not modelled

    NULL for a transmit buffer or structure argument (each function returns
    [MQTT_CODE_ERROR_BAD_ARG] at once); logging and tracing; TLS, threads,
    WebSocket; the connect and disconnect calls of the socket layer;
    [MqttBroker_Start], [MqttBroker_Run], [MqttBroker_Stop] and
    [MqttBroker_Free], which open, loop over and close what the step works on;
    the static-memory build of the broker;
    the encryption of the broker's records and the POSIX backend, which is file
    input and output (the backend is a parameter); the wait loops of the client
    and of the MQTT-SN client, their pending responses and their requests other
    than PUBLISH; the payload callback of a PUBLISH; examples, tests and
    platform glue. *)
From Stdlib Require Export ZArith Lia.
From stdpp Require Export base list numbers option.

(** ** Results of C calls *)

(** What a modelled C call does: [Ok] a non-negative outcome, [Err rc] a
    negative return code, [UB] an access outside the object it may touch
    (or a loop that ran past its bound, which the theorems exclude). *)
Inductive result (A : Type) : Type :=
  | Ok (a : A)
  | Err (rc : Z)
  | UB.
Arguments Ok {A} a.
Arguments Err {A} rc.
Arguments UB {A}.

#[export] Instance result_ret : MRet result := fun A a => Ok a.
#[export] Instance result_bind : MBind result := fun A B f m =>
  match m with Ok a => f a | Err rc => Err rc | UB => UB end.

(** Decoders of MQTT v5 packets allocate property cells from a bounded pool;
    they are state-and-error computations over the number of free cells. *)
Definition M (A : Type) : Type := nat -> result A * nat.

#[export] Instance M_ret : MRet M := fun A a n => (Ok a, n).
#[export] Instance M_bind : MBind M := fun A B f m n =>
  match m n with
  | (Ok a, n') => f a n'
  | (Err rc, n') => (Err rc, n')
  | (UB, n') => (UB, n')
  end.

Definition lift {A} (r : result A) : M A := fun n => (r, n).
Definition throw {A} (rc : Z) : M A := fun n => (Err rc, n).

Open Scope Z_scope.

(** ** Machine integers *)

Definition u8 (z : Z) : Z := z mod 256.
Definition u16 (z : Z) : Z := z mod 65536.
Definition u32 (z : Z) : Z := z mod 4294967296.
(** Conversion to [int]: two's complement, as every supported compiler does. *)
Definition i32 (z : Z) : Z := (z + 2147483648) mod 4294967296 - 2147483648.

Lemma u8_small z : 0 <= z < 256 -> u8 z = z.
Proof. apply Z.mod_small. Qed.
Lemma u16_small z : 0 <= z < 65536 -> u16 z = z.
Proof. apply Z.mod_small. Qed.
Lemma u32_small z : 0 <= z < 4294967296 -> u32 z = z.
Proof. apply Z.mod_small. Qed.
Lemma i32_small z : -2147483648 <= z < 2147483648 -> i32 z = z.
Proof. intros. unfold i32. rewrite Z.mod_small; lia. Qed.
Lemma u8_range z : 0 <= u8 z < 256.
Proof. apply Z.mod_pos_bound. lia. Qed.
Lemma u16_range z : 0 <= u16 z < 65536.
Proof. apply Z.mod_pos_bound. lia. Qed.
Lemma u32_range z : 0 <= u32 z < 4294967296.
Proof. apply Z.mod_pos_bound. lia. Qed.

Create Rewrite HintDb wrap.
#[export] Hint Rewrite u8_small u16_small u32_small i32_small using lia : wrap.

(** [unwrap] removes every wrap-around the context proves harmless. *)
Ltac unwrap := autorewrite with wrap in *.

(** ** Bytes and buffers *)

Definition is_byte (b : Z) : Prop := 0 <= b < 256.
Abbreviation bytes := (Forall is_byte).

#[export] Instance is_byte_dec b : Decision (is_byte b).
Proof. unfold is_byte. apply _. Defined.

(** A property of bytes checked by evaluation holds of every byte. *)
Lemma byte_enum (f : Z -> bool) b :
  forallb f (map Z.of_nat (seq 0 256)) = true -> is_byte b -> f b = true.
Proof.
  intros Hall [Hlo Hhi].
  rewrite forallb_forall in Hall. apply Hall.
  apply in_map_iff. exists (Z.to_nat b). split; [lia|].
  apply in_seq. lia.
Qed.

Lemma Forall_sublist {A} (P : A -> Prop) (l l' : list A) : l' `sublist_of` l -> Forall P l -> Forall P l'.
Proof. rewrite !list.Forall_forall. intros Hs H x Hx. apply H. by eapply elem_of_sublist. Qed.

Definition len {A} (l : list A) : Z := Z.of_nat (length l).

Lemma len_nil {A} : len (@nil A) = 0.
Proof. reflexivity. Qed.
Lemma len_cons {A} (x : A) l : len (x :: l) = 1 + len l.
Proof. unfold len. simpl. lia. Qed.
Lemma len_app {A} (l k : list A) : len (l ++ k) = len l + len k.
Proof. unfold len. rewrite length_app. lia. Qed.
Lemma len_map {A B} (f : A -> B) l : len (map f l) = len l.
Proof. unfold len. by rewrite length_map. Qed.
Lemma len_nonneg {A} (l : list A) : 0 <= len l.
Proof. unfold len. lia. Qed.
Lemma len_take {A} (l : list A) n : 0 <= n <= len l -> len (take (Z.to_nat n) l) = n.
Proof. unfold len. rewrite length_take. lia. Qed.
Lemma len_replicate {A} (x : A) n : 0 <= n -> len (replicate (Z.to_nat n) x) = n.
Proof. unfold len. rewrite length_replicate. lia. Qed.

Create Rewrite HintDb lens.
#[export] Hint Rewrite @len_nil @len_cons @len_app : lens.

(** Read one byte of an object of [len buf] bytes. *)
Definition rd (buf : list Z) (i : Z) : result Z :=
  if 0 <=? i then
    match buf !! Z.to_nat i with Some b => Ok b | None => UB end
  else UB.

(** The [n] bytes at offset [i]. *)
Definition slice (buf : list Z) (i n : Z) : result (list Z) :=
  if (0 <=? i) && (0 <=? n) && (i + n <=? len buf)
  then Ok (take (Z.to_nat n) (drop (Z.to_nat i) buf))
  else UB.

(** [sits buf i bs]: the bytes [bs] are found in [buf] at offset [i]. *)
Definition sits (buf : list Z) (i : Z) (bs : list Z) : Prop :=
  exists pre post, buf = pre ++ bs ++ post /\ i = len pre.

Lemma sits_intro pre bs post : sits (pre ++ bs ++ post) (len pre) bs.
Proof. by exists pre, post. Qed.

Lemma sits_head bs post : sits (bs ++ post) 0 bs.
Proof. by exists [], post. Qed.

Lemma sits_app buf i a b :
  sits buf i (a ++ b) <-> sits buf i a /\ sits buf (i + len a) b.
Proof.
  split.
  - intros (pre & post & -> & ->). split.
    + exists pre, (b ++ post). by rewrite <- !app_assoc.
    + exists (pre ++ a), post. rewrite len_app. by rewrite <- !app_assoc.
  - intros [(pre & post & -> & ->) (pre' & post' & Heq & Hlen)].
    assert (pre' = pre ++ a) as ->.
    { rewrite app_assoc in Heq. apply app_inj_1 in Heq as [? ?]; [done|].
      unfold len in Hlen. rewrite length_app. lia. }
    rewrite app_assoc in Heq. apply app_inv_head in Heq as ->.
    exists pre, post'. by rewrite <- !app_assoc.
Qed.

Lemma sits_cons buf i b bs :
  sits buf i (b :: bs) <-> sits buf i [b] /\ sits buf (i + 1) bs.
Proof. change (b :: bs) with ([b] ++ bs). rewrite sits_app. done. Qed.

Lemma sits_bound buf i bs : sits buf i bs -> 0 <= i /\ i + len bs <= len buf.
Proof.
  intros (pre & post & -> & ->). rewrite !len_app.
  pose proof (len_nonneg pre). pose proof (len_nonneg post). lia.
Qed.

Lemma rd_sits buf i b bs : sits buf i (b :: bs) -> rd buf i = Ok b.
Proof.
  intros (pre & post & -> & ->). unfold rd, len.
  destruct (Z.leb_spec 0 (Z.of_nat (length pre))); [|lia].
  rewrite Nat2Z.id, lookup_app_r by lia.
  by rewrite Nat.sub_diag.
Qed.

Lemma slice_sits buf i bs n :
  sits buf i bs -> n = len bs -> slice buf i n = Ok bs.
Proof.
  intros Hs ->. pose proof (sits_bound _ _ _ Hs).
  destruct Hs as (pre & post & -> & ->). unfold slice.
  pose proof (len_nonneg bs).
  rewrite !(proj2 (Z.leb_le _ _)) by lia. simpl.
  unfold len. rewrite !Nat2Z.id, drop_app_length, take_app_length. done.
Qed.

Lemma rd_ok buf i : 0 <= i < len buf -> exists b, rd buf i = Ok b /\ buf !! Z.to_nat i = Some b.
Proof.
  intros Hi. unfold rd. rewrite (proj2 (Z.leb_le 0 i)) by lia.
  destruct (lookup_lt_is_Some_2 buf (Z.to_nat i)) as [b Hb]; [unfold len in *; lia|].
  exists b. by rewrite Hb.
Qed.

Lemma rd_byte buf i b : bytes buf -> rd buf i = Ok b -> is_byte b.
Proof.
  unfold rd. intros Hb. destruct (0 <=? i); [|done].
  destruct (buf !! Z.to_nat i) eqn:E; [|done]. intros [= <-].
  by eapply Forall_lookup_1.
Qed.

Lemma rd_inv buf i b : rd buf i = Ok b -> 0 <= i < len buf /\ buf !! Z.to_nat i = Some b.
Proof.
  unfold rd. destruct (Z.leb_spec 0 i); [|done].
  destruct (buf !! Z.to_nat i) eqn:E; [|done]. intros [= <-].
  apply lookup_lt_Some in E as E'. unfold len. split; [lia|done].
Qed.

Lemma sits_nil buf i : 0 <= i <= len buf -> sits buf i [].
Proof.
  intros Hi. exists (take (Z.to_nat i) buf), (drop (Z.to_nat i) buf).
  rewrite app_nil_l, take_drop, len_take by lia. done.
Qed.

Lemma sits_rd buf i b : rd buf i = Ok b -> sits buf i [b].
Proof.
  intros [Hi Hl]%rd_inv.
  exists (take (Z.to_nat i) buf), (drop (S (Z.to_nat i)) buf). split.
  - symmetry. by apply take_drop_middle.
  - rewrite len_take; lia.
Qed.

Lemma drop_rd buf i b :
  rd buf i = Ok b -> drop (Z.to_nat i) buf = b :: drop (Z.to_nat (i + 1)) buf.
Proof.
  intros [Hi Hl]%rd_inv. rewrite (drop_S _ _ _ Hl). do 2 f_equal. lia.
Qed.

Lemma rd_app_l buf ext j : j < len buf -> rd (buf ++ ext) j = rd buf j.
Proof.
  intros Hj. unfold rd. destruct (Z.leb_spec 0 j); [|done].
  rewrite lookup_app_l; [done|]. unfold len in Hj. lia.
Qed.

(** An object seen through its first [n] bytes. *)
Lemma split_at (buf : list Z) n :
  0 <= n <= len buf ->
  exists s ext, buf = s ++ ext /\ len s = n /\ s = take (Z.to_nat n) buf.
Proof.
  intros Hn. exists (take (Z.to_nat n) buf), (drop (Z.to_nat n) buf).
  rewrite take_drop, len_take by done. done.
Qed.

Lemma drop_end buf i : len buf <= i -> drop (Z.to_nat i) buf = ([] : list Z).
Proof. intros. apply drop_ge. unfold len in *. lia. Qed.

Lemma slice_ok buf i n :
  0 <= i -> 0 <= n -> i + n <= len buf ->
  slice buf i n = Ok (take (Z.to_nat n) (drop (Z.to_nat i) buf)).
Proof. intros. unfold slice. by rewrite !(proj2 (Z.leb_le _ _)) by lia. Qed.

Lemma slice_whole s : slice s 0 (len s) = Ok s.
Proof. rewrite slice_ok by (pose proof (len_nonneg s); lia). rewrite drop_0. unfold len. by rewrite Nat2Z.id, firstn_all. Qed.

Lemma slice_app_l buf ext i n :
  0 <= i -> 0 <= n -> i + n <= len buf -> slice (buf ++ ext) i n = slice buf i n.
Proof.
  intros Hi Hn Hl. rewrite !slice_ok; [|done..|rewrite len_app; pose proof (len_nonneg ext); lia].
  f_equal. unfold len in Hl. rewrite drop_app_le by lia. rewrite take_app_le; [done|].
  rewrite length_drop. lia.
Qed.

Lemma slice_inv buf i n s :
  slice buf i n = Ok s ->
  0 <= i /\ 0 <= n /\ i + n <= len buf /\ len s = n /\ sits buf i s.
Proof.
  unfold slice. destruct (_ && _) eqn:E; [|done]. intros [= <-].
  apply andb_true_iff in E as [E ?%Z.leb_le].
  apply andb_true_iff in E as [?%Z.leb_le ?%Z.leb_le].
  repeat split; try lia.
  - rewrite len_take; [done|]. unfold len in *. rewrite length_drop. lia.
  - exists (take (Z.to_nat i) buf), (drop (Z.to_nat n) (drop (Z.to_nat i) buf)).
    rewrite !take_drop. split; [done|]. rewrite len_take; lia.
Qed.

Lemma slice_bytes buf i n s : bytes buf -> slice buf i n = Ok s -> bytes s.
Proof.
  unfold slice. destruct (_ && _); [|done]. intros ? [= <-].
  by apply Forall_take, Forall_drop.
Qed.

(** ** Contracts *)

(** [yields r Q]: the call does not go out of bounds, an error it returns is
    negative, and a success satisfies [Q]. *)
Definition yields {A} (r : result A) (Q : A -> Prop) : Prop :=
  match r with Ok a => Q a | Err rc => rc < 0 | UB => False end.

(** [meets n0 m n Q]: the same for a computation started with [n] free
    property cells; a failing run leaves [n0] free cells. *)
Definition meets {A} (n0 : nat) (m : M A) (n : nat) (Q : A -> nat -> Prop) : Prop :=
  match m n with
  | (Ok a, n') => Q a n'
  | (Err rc, n') => rc < 0 /\ n' = n0
  | (UB, _) => False
  end.

Lemma yields_bind {A B} (r : result A) (k : A -> result B) Q :
  yields r (fun a => yields (k a) Q) -> yields (r ≫= k) Q.
Proof. by destruct r. Qed.

Lemma yields_mono {A} (r : result A) (P Q : A -> Prop) :
  yields r P -> (forall a, P a -> Q a) -> yields r Q.
Proof. destruct r; simpl; auto. Qed.

Lemma yields_Ok {A} (r : result A) Q : yields r Q -> forall a, r = Ok a -> Q a.
Proof. by intros H a ->. Qed.

Lemma meets_ret {A} n0 n (a : A) (Q : A -> nat -> Prop) : Q a n -> meets n0 (mret a) n Q.
Proof. done. Qed.

Lemma meets_throw {A} n0 n rc (Q : A -> nat -> Prop) :
  rc < 0 -> n = n0 -> meets n0 (throw rc) n Q.
Proof. intros. unfold meets, throw. done. Qed.

Lemma meets_bind {A B} n0 n (m : M A) (k : A -> M B) Q :
  meets n0 m n (fun a n' => meets n0 (k a) n' Q) -> meets n0 (m ≫= k) n Q.
Proof. unfold meets, mbind, M_bind. destruct (m n) as [[] ?]; auto. Qed.

Lemma meets_mono {A} n0 n (m : M A) (P Q : A -> nat -> Prop) :
  meets n0 m n P -> (forall a n', P a n' -> Q a n') -> meets n0 m n Q.
Proof. unfold meets. destruct (m n) as [[] ?]; auto. Qed.

Lemma meets_lift {A} n0 n (r : result A) (Q : A -> nat -> Prop) :
  yields r (fun a => Q a n) -> n = n0 -> meets n0 (lift r) n Q.
Proof. unfold meets, lift. destruct r; auto. Qed.

Lemma rd_yields buf i Q :
  0 <= i < len buf ->
  (forall b, rd buf i = Ok b -> Q b) -> yields (rd buf i) Q.
Proof. intros Hi HQ. destruct (rd_ok buf i Hi) as (b & Hb & _). rewrite Hb. by apply HQ. Qed.

Lemma slice_yields buf i n Q :
  0 <= i -> 0 <= n -> i + n <= len buf ->
  (forall s, slice buf i n = Ok s -> Q s) -> yields (slice buf i n) Q.
Proof.
  intros H1 H2 H3 HQ. destruct (slice buf i n) eqn:E; simpl; auto;
    rewrite slice_ok in E by done; congruence.
Qed.

(** [decides r P]: the call returns the truth value of [P]. *)
Definition decides (r : result bool) (P : Prop) : Prop :=
  exists b, r = Ok b /\ (b = true <-> P).

Lemma decides_iff r P Q : (P <-> Q) -> decides r Q -> decides r P.
Proof. intros HPQ (b & -> & Hb). exists b. by rewrite HPQ. Qed.

#[export] Instance decides_proper r : Proper (iff ==> iff) (decides r).
Proof. intros P P' HP. split; apply decides_iff; [symmetry|]; exact HP. Qed.

Lemma decides_false (P : Prop) : ~ P -> decides (Ok false) P.
Proof. exists false. split; [done|]. split; [done|tauto]. Qed.

Lemma decides_true (P : Prop) : P -> decides (Ok true) P.
Proof. exists true. split; [done|]. by split. Qed.

Lemma decides_bind (r : result bool) P {A} (k : bool -> result A) (Q : result A -> Prop) :
  decides r P -> (P -> Q (k true)) -> (~ P -> Q (k false)) -> Q (r ≫= k).
Proof.
  intros (b & -> & Hb) Ht Hf. destruct b; [by apply Ht, Hb|].
  apply Hf. rewrite <- Hb. done.
Qed.

(** [settles r P Q]: the call succeeds exactly when [P] holds, with a result
    that satisfies [Q]; otherwise it returns an error. *)
Definition settles {A} (r : result A) (P : Prop) (Q : A -> Prop) : Prop :=
  (P /\ exists a, r = Ok a /\ Q a) \/ (~ P /\ exists rc, rc < 0 /\ r = Err rc).

Lemma settles_ok {A} (a : A) (P : Prop) (Q : A -> Prop) : P -> Q a -> settles (Ok a) P Q.
Proof. intros. left. eauto. Qed.

Lemma settles_err {A} rc (P : Prop) (Q : A -> Prop) : rc < 0 -> ~ P -> settles (Err rc) P Q.
Proof. intros. right. eauto. Qed.

Lemma settles_iff {A} (r : result A) (P P' : Prop) Q : (P <-> P') -> settles r P' Q -> settles r P Q.
Proof. unfold settles. tauto. Qed.

Lemma settles_mono {A} (r : result A) P (Q Q' : A -> Prop) :
  settles r P Q -> (forall a, Q a -> Q' a) -> settles r P Q'.
Proof. intros [(H & a & E & Ha)|H] HQ; [left|right]; eauto 6. Qed.

#[export] Instance settles_proper {A} (r : result A) : Proper (iff ==> eq ==> iff) (settles r).
Proof. intros P P' HP Q ? <-. split; apply settles_iff; [symmetry|]; exact HP. Qed.

Lemma settles_bind {A B} (r : result A) (k : A -> result B) P P' Q Q' :
  settles r P Q -> (forall a, P -> Q a -> settles (k a) P' Q') -> settles (r ≫= k) (P /\ P') Q'.
Proof.
  intros [(H & a & -> & Ha)|[H (rc & Hrc & ->)]] Hk.
  - eapply settles_iff; [|by apply Hk]. tauto.
  - apply settles_err; tauto.
Qed.

Lemma settles_guard {A} (b : bool) rc (r : result A) (P P' : Prop) Q :
  rc < 0 -> (b = false <-> P) -> (P -> settles r P' Q) ->
  settles (if b then Err rc else r) (P /\ P') Q.
Proof.
  intros Hrc Hb Hr. destruct b.
  - apply settles_err; [done|]. rewrite <- Hb. by intros [? _].
  - eapply settles_iff; [|apply Hr; by apply Hb]. rewrite <- Hb. tauto.
Qed.

Lemma settles_decides {A} (d : result bool) rc (r : result A) (P P' : Prop) Q :
  rc < 0 -> decides d P -> (P -> settles r P' Q) ->
  settles (ok ← d; if negb ok then Err rc else r) (P /\ P') Q.
Proof.
  intros Hrc (b & -> & Hb) Hr. cbn [mbind result_bind].
  apply settles_guard; [done|by destruct b; rewrite <- Hb|done].
Qed.

(** ** Tactics shared by the components *)

(** Turn the boolean tests in the context into arithmetic. *)
Ltac tests :=
  repeat match goal with
  | H : (_ && _)%bool = true |- _ => apply andb_true_iff in H as [? ?]
  | H : (_ || _)%bool = false |- _ => apply orb_false_iff in H as [? ?]
  | H : negb _ = true |- _ => apply negb_true_iff in H
  | H : negb _ = false |- _ => apply negb_false_iff in H
  | H : (_ <? _) = true |- _ => apply Z.ltb_lt in H
  | H : (_ <? _) = false |- _ => apply Z.ltb_ge in H
  | H : (_ <=? _) = true |- _ => apply Z.leb_le in H
  | H : (_ <=? _) = false |- _ => apply Z.leb_gt in H
  | H : (_ =? _) = true |- _ => apply Z.eqb_eq in H
  | H : (_ =? _) = false |- _ => apply Z.eqb_neq in H
  | H : (_ >? _) = true |- _ => rewrite Z.gtb_ltb in H
  | H : (_ >? _) = false |- _ => rewrite Z.gtb_ltb in H
  | H : (_ >=? _) = true |- _ => rewrite Z.geb_leb in H
  | H : (_ >=? _) = false |- _ => rewrite Z.geb_leb in H
  end.

(** Decide the boolean test the goal branches on by arithmetic. *)
Ltac decide_test :=
  match goal with
  | |- context [if ?b then _ else _] =>
      first [ replace b with true by (symmetry; first
                [ apply Z.ltb_lt; lia | apply Z.leb_le; lia | apply Z.eqb_eq; lia
                | rewrite Z.gtb_ltb; apply Z.ltb_lt; lia | lia ])
            | replace b with false by (symmetry; first
                [ apply Z.ltb_ge; lia | apply Z.leb_gt; lia | apply Z.eqb_neq; lia
                | rewrite Z.gtb_ltb; apply Z.ltb_ge; lia | lia ]) ]; cbv match
  end.

(** Lengths of concatenations, written out for [lia]. *)
Ltac lens := autorewrite with lens in *.

(** A closed decidable proposition, by evaluation. *)
Ltac by_eval := apply (bool_decide_unpack _); vm_compute; exact I.
