(* ===== verification/PacketDefs.v ===== *)
(** * PacketDefs: the constants and structures of [wolfmqtt/mqtt_packet.h]

    The enumerators of the headers are abbreviations for their values. The
    structures are records of the fields that the packet encoders and decoders
    read or write; the fields that only the client and broker state machines
    use ([stat], [pendResp], [ctx], ...) are left out here. *)
From S2P Require Import Prelude.

(** Sizes and limits. *)
Abbreviation MQTT_DATA_LEN_SIZE := 2.
Abbreviation MQTT_DATA_INT_SIZE := 4.
Abbreviation MAX_MQTT_TOPICS := 12.
Abbreviation MQTT_MAX_PROPS := 30.
Abbreviation MQTT_PACKET_MAX_LEN_BYTES := 4.
Abbreviation MQTT_PACKET_LEN_ENCODE_MASK := 128.
Abbreviation MQTT_PACKET_MAX_REMAIN_LEN := 268435455.
Abbreviation MQTT_PACKET_HEADER_MIN_SIZE := 2.
Abbreviation MQTT_CONNECT_PROTOCOL_NAME_LEN := 4.
Abbreviation MQTT_CONNECT_PROTOCOL_LEVEL_4 := 4.
Abbreviation MQTT_CONNECT_PROTOCOL_LEVEL_5 := 5.
(** The [WOLFMQTT_V5] build. *)
Abbreviation MQTT_CONNECT_PROTOCOL_LEVEL := 5.
Abbreviation MQTT_SUBSCRIBE_NO_LOCAL := 4.
Abbreviation MQTT_SUBSCRIBE_OPTIONS_MASK := 60.

(** Property identifiers ([enum MqttPropertyType]). *)
Abbreviation MQTT_PROP_NONE := (0)%Z.
Abbreviation MQTT_PROP_PAYLOAD_FORMAT_IND := (1)%Z.
Abbreviation MQTT_PROP_MSG_EXPIRY_INTERVAL := (2)%Z.
Abbreviation MQTT_PROP_CONTENT_TYPE := (3)%Z.
Abbreviation MQTT_PROP_RESP_TOPIC := (8)%Z.
Abbreviation MQTT_PROP_CORRELATION_DATA := (9)%Z.
Abbreviation MQTT_PROP_SUBSCRIPTION_ID := (11)%Z.
Abbreviation MQTT_PROP_SESSION_EXPIRY_INTERVAL := (17)%Z.
Abbreviation MQTT_PROP_ASSIGNED_CLIENT_ID := (18)%Z.
Abbreviation MQTT_PROP_SERVER_KEEP_ALIVE := (19)%Z.
Abbreviation MQTT_PROP_AUTH_METHOD := (21)%Z.
Abbreviation MQTT_PROP_AUTH_DATA := (22)%Z.
Abbreviation MQTT_PROP_REQ_PROB_INFO := (23)%Z.
Abbreviation MQTT_PROP_WILL_DELAY_INTERVAL := (24)%Z.
Abbreviation MQTT_PROP_REQ_RESP_INFO := (25)%Z.
Abbreviation MQTT_PROP_RESP_INFO := (26)%Z.
Abbreviation MQTT_PROP_SERVER_REF := (28)%Z.
Abbreviation MQTT_PROP_REASON_STR := (31)%Z.
Abbreviation MQTT_PROP_RECEIVE_MAX := (33)%Z.
Abbreviation MQTT_PROP_TOPIC_ALIAS_MAX := (34)%Z.
Abbreviation MQTT_PROP_TOPIC_ALIAS := (35)%Z.
Abbreviation MQTT_PROP_MAX_QOS := (36)%Z.
Abbreviation MQTT_PROP_RETAIN_AVAIL := (37)%Z.
Abbreviation MQTT_PROP_USER_PROP := (38)%Z.
Abbreviation MQTT_PROP_MAX_PACKET_SZ := (39)%Z.
Abbreviation MQTT_PROP_WILDCARD_SUB_AVAIL := (40)%Z.
Abbreviation MQTT_PROP_SUBSCRIPTION_ID_AVAIL := (41)%Z.
Abbreviation MQTT_PROP_SHARED_SUBSCRIPTION_AVAIL := (42)%Z.
Abbreviation MQTT_PROP_TYPE_MAX := (255)%Z.

(** Reason codes ([enum MqttReasonCodes]). *)
Abbreviation MQTT_REASON_SUCCESS := (0)%Z.
Abbreviation MQTT_REASON_NORMAL_DISCONNECTION := (0)%Z.
Abbreviation MQTT_REASON_GRANTED_QOS_0 := (0)%Z.
Abbreviation MQTT_REASON_GRANTED_QOS_1 := (1)%Z.
Abbreviation MQTT_REASON_GRANTED_QOS_2 := (2)%Z.
Abbreviation MQTT_REASON_DISCONNECT_W_WILL_MSG := (4)%Z.
Abbreviation MQTT_REASON_NO_MATCH_SUB := (16)%Z.
Abbreviation MQTT_REASON_NO_SUB_EXIST := (17)%Z.
Abbreviation MQTT_REASON_CONT_AUTH := (24)%Z.
Abbreviation MQTT_REASON_REAUTH := (25)%Z.
Abbreviation MQTT_REASON_UNSPECIFIED_ERR := (128)%Z.
Abbreviation MQTT_REASON_MALFORMED_PACKET := (129)%Z.
Abbreviation MQTT_REASON_PROTOCOL_ERR := (130)%Z.
Abbreviation MQTT_REASON_IMPL_SPECIFIC_ERR := (131)%Z.
Abbreviation MQTT_REASON_UNSUP_PROTO_VER := (132)%Z.
Abbreviation MQTT_REASON_CLIENT_ID_NOT_VALID := (133)%Z.
Abbreviation MQTT_REASON_BAD_USER_OR_PASS := (134)%Z.
Abbreviation MQTT_REASON_NOT_AUTHORIZED := (135)%Z.
Abbreviation MQTT_REASON_SERVER_UNAVAILABLE := (136)%Z.
Abbreviation MQTT_REASON_SERVER_BUSY := (137)%Z.
Abbreviation MQTT_REASON_BANNED := (138)%Z.
Abbreviation MQTT_REASON_SERVER_SHUTTING_DOWN := (139)%Z.
Abbreviation MQTT_REASON_BAD_AUTH_METHOD := (140)%Z.
Abbreviation MQTT_REASON_KEEP_ALIVE_TIMEOUT := (141)%Z.
Abbreviation MQTT_REASON_SESSION_TAKEN_OVER := (142)%Z.
Abbreviation MQTT_REASON_TOPIC_FILTER_INVALID := (143)%Z.
Abbreviation MQTT_REASON_TOPIC_NAME_INVALID := (144)%Z.
Abbreviation MQTT_REASON_PACKET_ID_IN_USE := (145)%Z.
Abbreviation MQTT_REASON_PACKET_ID_NOT_FOUND := (146)%Z.
Abbreviation MQTT_REASON_RX_MAX_EXCEEDED := (147)%Z.
Abbreviation MQTT_REASON_TOPIC_ALIAS_INVALID := (148)%Z.
Abbreviation MQTT_REASON_PACKET_TOO_LARGE := (149)%Z.
Abbreviation MQTT_REASON_MSG_RATE_TOO_HIGH := (150)%Z.
Abbreviation MQTT_REASON_QUOTA_EXCEEDED := (151)%Z.
Abbreviation MQTT_REASON_ADMIN_ACTION := (152)%Z.
Abbreviation MQTT_REASON_PAYLOAD_FORMAT_INVALID := (153)%Z.
Abbreviation MQTT_REASON_RETAIN_NOT_SUPPORTED := (154)%Z.
Abbreviation MQTT_REASON_QOS_NOT_SUPPORTED := (155)%Z.
Abbreviation MQTT_REASON_USE_ANOTHER_SERVER := (156)%Z.
Abbreviation MQTT_REASON_SERVER_MOVED := (157)%Z.
Abbreviation MQTT_REASON_SS_NOT_SUPPORTED := (158)%Z.
Abbreviation MQTT_REASON_CON_RATE_EXCEED := (159)%Z.
Abbreviation MQTT_REASON_MAX_CON_TIME := (160)%Z.
Abbreviation MQTT_REASON_SUB_ID_NOT_SUP := (161)%Z.
Abbreviation MQTT_REASON_WILDCARD_SUB_NOT_SUP := (162)%Z.

(** Quality of service ([enum _MqttQoS]). *)
Abbreviation MQTT_QOS_0 := (0)%Z.
Abbreviation MQTT_QOS_1 := (1)%Z.
Abbreviation MQTT_QOS_2 := (2)%Z.
Abbreviation MQTT_QOS_3 := (3)%Z.

(** Packet types ([enum _MqttPacketType]). *)
Abbreviation MQTT_PACKET_TYPE_RESERVED := (0)%Z.
Abbreviation MQTT_PACKET_TYPE_CONNECT := (1)%Z.
Abbreviation MQTT_PACKET_TYPE_CONNECT_ACK := (2)%Z.
Abbreviation MQTT_PACKET_TYPE_PUBLISH := (3)%Z.
Abbreviation MQTT_PACKET_TYPE_PUBLISH_ACK := (4)%Z.
Abbreviation MQTT_PACKET_TYPE_PUBLISH_REC := (5)%Z.
Abbreviation MQTT_PACKET_TYPE_PUBLISH_REL := (6)%Z.
Abbreviation MQTT_PACKET_TYPE_PUBLISH_COMP := (7)%Z.
Abbreviation MQTT_PACKET_TYPE_SUBSCRIBE := (8)%Z.
Abbreviation MQTT_PACKET_TYPE_SUBSCRIBE_ACK := (9)%Z.
Abbreviation MQTT_PACKET_TYPE_UNSUBSCRIBE := (10)%Z.
Abbreviation MQTT_PACKET_TYPE_UNSUBSCRIBE_ACK := (11)%Z.
Abbreviation MQTT_PACKET_TYPE_PING_REQ := (12)%Z.
Abbreviation MQTT_PACKET_TYPE_PING_RESP := (13)%Z.
Abbreviation MQTT_PACKET_TYPE_DISCONNECT := (14)%Z.
Abbreviation MQTT_PACKET_TYPE_AUTH := (15)%Z.
Abbreviation MQTT_PACKET_TYPE_ANY := (16)%Z.

(** Fixed-header flags ([enum MqttPacketFlags]). *)
Abbreviation MQTT_PACKET_FLAG_RETAIN := (1)%Z.
Abbreviation MQTT_PACKET_FLAG_QOS_SHIFT := (1)%Z.
Abbreviation MQTT_PACKET_FLAG_QOS_MASK := (6)%Z.
Abbreviation MQTT_PACKET_FLAG_DUPLICATE := (8)%Z.

(** CONNECT flags ([enum MqttConnectFlags]). *)
Abbreviation MQTT_CONNECT_FLAG_RESERVED := (1)%Z.
Abbreviation MQTT_CONNECT_FLAG_CLEAN_SESSION := (2)%Z.
Abbreviation MQTT_CONNECT_FLAG_CLEAN_START := (2)%Z.
Abbreviation MQTT_CONNECT_FLAG_WILL_FLAG := (4)%Z.
Abbreviation MQTT_CONNECT_FLAG_WILL_QOS_SHIFT := (3)%Z.
Abbreviation MQTT_CONNECT_FLAG_WILL_QOS_MASK := (24)%Z.
Abbreviation MQTT_CONNECT_FLAG_WILL_RETAIN := (32)%Z.
Abbreviation MQTT_CONNECT_FLAG_PASSWORD := (64)%Z.
Abbreviation MQTT_CONNECT_FLAG_USERNAME := (128)%Z.

(** CONNACK flags and return codes. *)
Abbreviation MQTT_CONNECT_ACK_FLAG_SESSION_PRESENT := (1)%Z.
Abbreviation MQTT_CONNECT_ACK_CODE_ACCEPTED := (0)%Z.
Abbreviation MQTT_CONNECT_ACK_CODE_REFUSED_PROTO := (1)%Z.
Abbreviation MQTT_CONNECT_ACK_CODE_REFUSED_ID := (2)%Z.
Abbreviation MQTT_CONNECT_ACK_CODE_REFUSED_UNAVAIL := (3)%Z.
Abbreviation MQTT_CONNECT_ACK_CODE_REFUSED_BAD_USER_PWD := (4)%Z.
Abbreviation MQTT_CONNECT_ACK_CODE_REFUSED_NOT_AUTH := (5)%Z.

(** SUBACK return codes. *)
Abbreviation MQTT_SUBSCRIBE_ACK_CODE_SUCCESS_MAX_QOS0 := (0)%Z.
Abbreviation MQTT_SUBSCRIBE_ACK_CODE_SUCCESS_MAX_QOS1 := (1)%Z.
Abbreviation MQTT_SUBSCRIBE_ACK_CODE_SUCCESS_MAX_QOS2 := (2)%Z.
Abbreviation MQTT_SUBSCRIBE_ACK_CODE_FAILURE := (128)%Z.

(** Return codes of the library ([enum MqttPacketResponseCodes]). *)
Abbreviation MQTT_CODE_SUCCESS := (0)%Z.
Abbreviation MQTT_CODE_ERROR_BAD_ARG := (-1)%Z.
Abbreviation MQTT_CODE_ERROR_OUT_OF_BUFFER := (-2)%Z.
Abbreviation MQTT_CODE_ERROR_MALFORMED_DATA := (-3)%Z.
Abbreviation MQTT_CODE_ERROR_PACKET_TYPE := (-4)%Z.
Abbreviation MQTT_CODE_ERROR_PACKET_ID := (-5)%Z.
Abbreviation MQTT_CODE_ERROR_TLS_CONNECT := (-6)%Z.
Abbreviation MQTT_CODE_ERROR_TIMEOUT := (-7)%Z.
Abbreviation MQTT_CODE_ERROR_NETWORK := (-8)%Z.
Abbreviation MQTT_CODE_ERROR_MEMORY := (-9)%Z.
Abbreviation MQTT_CODE_ERROR_STAT := (-10)%Z.
Abbreviation MQTT_CODE_ERROR_PROPERTY := (-11)%Z.
Abbreviation MQTT_CODE_ERROR_SERVER_PROP := (-12)%Z.
Abbreviation MQTT_CODE_ERROR_CALLBACK := (-13)%Z.
Abbreviation MQTT_CODE_ERROR_SYSTEM := (-14)%Z.
Abbreviation MQTT_CODE_ERROR_NOT_FOUND := (-15)%Z.
Abbreviation MQTT_CODE_ERROR_PROPERTY_MISMATCH := (-17)%Z.
Abbreviation MQTT_CODE_ERROR_CONNECT_REFUSED := (-18)%Z.
Abbreviation MQTT_CODE_ERROR_SUBSCRIBE_REJECTED := (-19)%Z.
Abbreviation MQTT_CODE_ERROR_UNSUBSCRIBE_REJECTED := (-20)%Z.
Abbreviation MQTT_CODE_ERROR_PUBLISH_REJECTED := (-21)%Z.
Abbreviation MQTT_CODE_CONTINUE := (-101)%Z.
Abbreviation MQTT_CODE_STDIN_WAKE := (-102)%Z.
Abbreviation MQTT_CODE_PUB_CONTINUE := (-103)%Z.

(** ** Property data types and properties *)

Inductive MqttDataType : Set :=
  | MQTT_DATA_TYPE_NONE
  | MQTT_DATA_TYPE_BYTE
  | MQTT_DATA_TYPE_SHORT
  | MQTT_DATA_TYPE_INT
  | MQTT_DATA_TYPE_STRING
  | MQTT_DATA_TYPE_VAR_INT
  | MQTT_DATA_TYPE_BINARY
  | MQTT_DATA_TYPE_STRING_PAIR.

#[export] Instance MqttDataType_eq_dec : EqDecision MqttDataType.
Proof. solve_decision. Defined.

(** A counted field ([struct _MqttProp_Str], [struct _MqttProp_Bin]): its
    declared length and the object its pointer designates ([None] is NULL). *)
Record MqttProp_Str : Set := mkStr {
  str_len : Z;
  str_ptr : option (list Z)
}.

Record MqttProp : Set := mkProp {
  prop_type : Z;
  data_byte : Z;
  data_short : Z;
  data_int : Z;
  data_str : MqttProp_Str;
  data_bin : MqttProp_Str;
  data_str2 : MqttProp_Str
}.

#[export] Instance MqttProp_Str_eq_dec : EqDecision MqttProp_Str.
Proof. solve_decision. Defined.
#[export] Instance MqttProp_eq_dec : EqDecision MqttProp.
Proof. solve_decision. Defined.

(** ** Packet structures *)

(** A pointer that a decoder stores is represented by the bytes of the field
    of [rx_buf] it points at; a property list is the list of its nodes. *)
Record MqttMessage : Set := mkMessage {
  msg_packet_id : Z;
  msg_type : Z;
  msg_qos : Z;
  msg_retain : Z;
  msg_duplicate : Z;
  msg_topic_name : option (list Z);
  msg_topic_name_len : Z;
  msg_total_len : Z;
  msg_buffer : option (list Z);
  msg_buffer_len : Z;
  msg_buffer_pos : Z;
  msg_buffer_new : Z;
  msg_intBuf_len : Z;
  msg_intBuf_pos : Z;
  msg_props : list MqttProp;
  msg_protocol_level : Z
}.

Record MqttConnect : Set := mkConnect {
  mc_keep_alive_sec : Z;
  mc_clean_session : Z;
  mc_client_id : option (list Z);
  mc_protocol_level : Z;
  mc_enable_lwt : Z;
  mc_lwt_msg : option MqttMessage;
  mc_username : option (list Z);
  mc_password : option (list Z);
  mc_props : list MqttProp;
  mc_password_len : Z
}.

Record MqttConnectAck : Set := mkConnectAck {
  ca_flags : Z;
  ca_return_code : Z;
  ca_props : list MqttProp;
  ca_protocol_level : Z
}.

Record MqttPublishResp : Set := mkPublishResp {
  pr_packet_id : Z;
  pr_reason_code : Z;
  pr_props : list MqttProp;
  pr_protocol_level : Z
}.

Record MqttTopic : Set := mkTopic {
  topic_filter : option (list Z);
  topic_qos : Z;
  topic_sub_options : Z
}.

Record MqttSubscribe : Set := mkSubscribe {
  sub_packet_id : Z;
  sub_topic_count : Z;
  sub_topics : list MqttTopic;
  sub_props : list MqttProp;
  sub_protocol_level : Z
}.

Record MqttSubscribeAck : Set := mkSubscribeAck {
  sa_packet_id : Z;
  sa_return_codes : list Z;
  sa_return_code_count : Z;
  sa_props : list MqttProp;
  sa_protocol_level : Z
}.

Record MqttUnsubscribe : Set := mkUnsubscribe {
  un_packet_id : Z;
  un_topic_count : Z;
  un_topics : list MqttTopic;
  un_props : list MqttProp;
  un_protocol_level : Z
}.

Record MqttUnsubscribeAck : Set := mkUnsubscribeAck {
  ua_packet_id : Z;
  ua_props : list MqttProp;
  ua_reason_codes : option (list Z);
  ua_reason_code_count : Z;
  ua_protocol_level : Z
}.

(** [MqttDisconnect] and [MqttAuth]. *)
Record MqttDisconnect : Set := mkDisconnect {
  dc_reason_code : Z;
  dc_props : list MqttProp;
  dc_protocol_level : Z
}.

Record MqttAuth : Set := mkAuth {
  auth_reason_code : Z;
  auth_props : list MqttProp
}.
