(* ===== verification/Wire.v ===== *)
(** * Wire: the field encoders and decoders of [mqtt_packet.c]

    [MqttEncode_Vbi] / [MqttDecode_Vbi], [MqttEncode_Num] / [MqttDecode_Num],
    [MqttEncode_Int] / [MqttDecode_Int], [Utf8WellFormed],
    [MqttEncode_String] / [MqttDecode_String] and [MqttEncode_Data].

    A decoder gets the buffer, the offset [off] of its [buf] argument in it
    and the [buf_len] the caller passes. An encoder gets [buf], which says
    whether the C pointer is non-NULL, and returns its return code with the
    bytes it stores through [buf] (none when it is NULL). *)
From S2P Require Import Prelude PacketDefs.

(** What an encoder does: its return code and the bytes it writes. *)
Abbreviation emit := (result (Z * list Z)).

(** Two encoders one after the other, the write pointer advanced by the first
    one's return code. *)
Definition emit_app (e1 e2 : emit) : emit :=
  '(r1, b1) ← e1; '(r2, b2) ← e2; Ok (r1 + r2, b1 ++ b2).
Infix "+++" := emit_app (at level 60, right associativity).

Definition when (buf : bool) (bs : list Z) : list Z := if buf then bs else [].

(** ** Variable Byte Integer *)

Fixpoint MqttDecode_Vbi_loop (fuel : nat) (buf : list Z) (off buf_len : Z)
    (rc multiplier value : Z) : result (Z * Z) :=
  match fuel with
  | O => UB
  | S fuel =>
    if buf_len <? u32 (rc + 1) then Err MQTT_CODE_ERROR_OUT_OF_BUFFER
    else if 4 <=? rc then Err MQTT_CODE_ERROR_MALFORMED_DATA
    else
      encodedByte ← rd buf off;
      let value := u32 (value + u32 (Z.land encodedByte
                     (Z.lnot MQTT_PACKET_LEN_ENCODE_MASK) * multiplier)) in
      let multiplier := u32 (multiplier * MQTT_PACKET_LEN_ENCODE_MASK) in
      let rc := rc + 1 in
      if negb (Z.land encodedByte MQTT_PACKET_LEN_ENCODE_MASK =? 0) then
        MqttDecode_Vbi_loop fuel buf (off + 1) buf_len rc multiplier value
      else if (1 <? rc) && (encodedByte =? 0) then
        Err MQTT_CODE_ERROR_MALFORMED_DATA
      else Ok (value, rc)
  end.

(** Five rounds are enough: the fifth one returns an error. *)
Definition MqttDecode_Vbi (buf : list Z) (off buf_len : Z) : result (Z * Z) :=
  MqttDecode_Vbi_loop 5 buf off buf_len 0 1 0.

Fixpoint MqttEncode_Vbi_loop (fuel : nat) (buf : bool) (x rc : Z) : emit :=
  match fuel with
  | O => UB
  | S fuel =>
    let encodedByte := Z.land (Z.land x (Z.lnot MQTT_PACKET_LEN_ENCODE_MASK)) 255 in
    let x := Z.shiftr x 7 in
    let encodedByte :=
      if 0 <? x then Z.lor encodedByte MQTT_PACKET_LEN_ENCODE_MASK else encodedByte in
    let rc := rc + 1 in
    if (0 <? x) && (rc <? 4) then
      '(rc, bs) ← MqttEncode_Vbi_loop fuel buf x rc;
      Ok (rc, when buf [encodedByte] ++ bs)
    else Ok (rc, when buf [encodedByte])
  end.

Definition MqttEncode_Vbi (buf : bool) (x : Z) : emit :=
  if MQTT_PACKET_MAX_REMAIN_LEN <? x then Err MQTT_CODE_ERROR_MALFORMED_DATA
  else MqttEncode_Vbi_loop 4 buf x 0.

(** ** Two and four byte integers *)

Definition MqttDecode_Num (buf : list Z) (off buf_len : Z) : result (Z * Z) :=
  if buf_len <? MQTT_DATA_LEN_SIZE then Err MQTT_CODE_ERROR_OUT_OF_BUFFER
  else
    b0 ← rd buf off;
    b1 ← rd buf (off + 1);
    let l := u16 (Z.shiftl b0 8) in
    Ok (u16 (l + b1), MQTT_DATA_LEN_SIZE).

Definition MqttEncode_Num (buf : bool) (l : Z) : emit :=
  Ok (MQTT_DATA_LEN_SIZE, when buf [u8 (Z.shiftr l 8); Z.land l 255]).

Definition MqttDecode_Int (buf : list Z) (off buf_len : Z) : result (Z * Z) :=
  if buf_len <? MQTT_DATA_INT_SIZE then Err MQTT_CODE_ERROR_OUT_OF_BUFFER
  else
    b0 ← rd buf off;
    b1 ← rd buf (off + 1);
    b2 ← rd buf (off + 2);
    b3 ← rd buf (off + 3);
    let l := u32 (Z.shiftl b0 24) in
    let l := u32 (l + u32 (Z.shiftl b1 16)) in
    let l := u32 (l + u32 (Z.shiftl b2 8)) in
    Ok (u32 (l + b3), MQTT_DATA_INT_SIZE).

Definition MqttEncode_Int (buf : bool) (l : Z) : emit :=
  Ok (MQTT_DATA_INT_SIZE,
      when buf [u8 (Z.shiftr l 24); Z.land (Z.shiftr l 16) 255;
                Z.land (Z.shiftr l 8) 255; Z.land l 255]).

(** ** UTF-8 *)

(** One round of the loop of [Utf8WellFormed] per unit of fuel; [i] is the
    [word16] index of the next sequence. *)
Fixpoint Utf8WellFormed_loop (fuel : nat) (s : list Z) (n i : Z) : result bool :=
  match fuel with
  | O => UB
  | S fuel =>
    if i <? n then
      b0 ← rd s i;
      if b0 =? 0 then Ok false
      else if b0 <? 128 then Utf8WellFormed_loop fuel s n (u16 (i + 1))
      else if (b0 <? 194) || (244 <? b0) then Ok false
      else if b0 <? 224 then
        if u32 n <=? u32 (i + 1) then Ok false
        else
          b1 ← rd s (i + 1);
          if negb (Z.land b1 192 =? 128) then Ok false
          else Utf8WellFormed_loop fuel s n (u16 (i + 2))
      else if b0 <? 240 then
        if u32 n <=? u32 (i + 2) then Ok false
        else
          b1 ← rd s (i + 1);
          b2 ← rd s (i + 2);
          if negb (Z.land b1 192 =? 128) || negb (Z.land b2 192 =? 128) then Ok false
          else if (b0 =? 224) && (b1 <? 160) then Ok false
          else if (b0 =? 237) && (160 <=? b1) then Ok false
          else Utf8WellFormed_loop fuel s n (u16 (i + 3))
      else
        if u32 n <=? u32 (i + 3) then Ok false
        else
          b1 ← rd s (i + 1);
          b2 ← rd s (i + 2);
          b3 ← rd s (i + 3);
          if negb (Z.land b1 192 =? 128) || negb (Z.land b2 192 =? 128)
             || negb (Z.land b3 192 =? 128) then Ok false
          else if (b0 =? 240) && (b1 <? 144) then Ok false
          else if (b0 =? 244) && (144 <=? b1) then Ok false
          else Utf8WellFormed_loop fuel s n (u16 (i + 4))
    else Ok true
  end.

(** Every round advances [i], so [n + 1] rounds are enough. *)
Definition Utf8WellFormed (s : list Z) (n : Z) : result bool :=
  Utf8WellFormed_loop (S (Z.to_nat n)) s n 0.

Definition MqttEncode_Utf8Ok (str : option (list Z)) (n : Z) : result bool :=
  if n =? 0 then Ok true
  else match str with
       | None => Ok false
       | Some s => Utf8WellFormed s (u16 n)
       end.

(** ** Strings and binary data *)

(** [XSTRLEN]: a C string is the list of its characters; a zero character
    ends it, and a terminator follows the last element. *)
Fixpoint XSTRLEN (s : list Z) : Z :=
  match s with
  | [] => 0
  | c :: s' => if c =? 0 then 0 else 1 + XSTRLEN s'
  end.

(** The value, its length and the number of bytes consumed. *)
Definition MqttDecode_String (buf : list Z) (off buf_len : Z)
    : result (list Z * Z * Z) :=
  '(str_len, l) ← MqttDecode_Num buf off buf_len;
  if u32 (buf_len - l) <? str_len then Err MQTT_CODE_ERROR_OUT_OF_BUFFER
  else
    s ← slice buf (off + l) str_len;
    if 0 <? str_len then
      wf ← Utf8WellFormed s str_len;
      if negb wf then Err MQTT_CODE_ERROR_MALFORMED_DATA
      else if existsb (Z.eqb 0) s then Err MQTT_CODE_ERROR_MALFORMED_DATA
      else Ok (s, str_len, l + str_len)
    else Ok (s, str_len, l + str_len).

Definition MqttEncode_String (buf : bool) (str : list Z) : emit :=
  let str_len := XSTRLEN str in
  if 65535 <? str_len then Err MQTT_CODE_ERROR_BAD_ARG
  else
    '(l, bs) ← MqttEncode_Num buf (u16 str_len);
    Ok (l + str_len, bs ++ when buf (take (Z.to_nat str_len) str)).

Definition MqttEncode_Data (buf : bool) (data : option (list Z)) (data_len : Z) : emit :=
  '(l, bs) ← MqttEncode_Num buf data_len;
  if buf then
    body ← match data with
           | Some d => slice d 0 data_len
           | None => Ok (replicate (Z.to_nat data_len) 0)
           end;
    Ok (l + data_len, bs ++ body)
  else Ok (l + data_len, bs).

(** ** Variable Byte Integer: the encoder, the decoder and their relation *)

(** The digits of [x] in base 128, least significant first, all but the last
    marked. *)
Fixpoint vbi (fuel : nat) (x : Z) : list Z :=
  match fuel with
  | O => []
  | S fuel => if x <? 128 then [x] else x mod 128 + 128 :: vbi fuel (x / 128)
  end.

Lemma low_digit x : Z.land (Z.land x (Z.lnot MQTT_PACKET_LEN_ENCODE_MASK)) 255 = x mod 128.
Proof.
  rewrite <- Z.land_assoc. change (Z.land (Z.lnot 128) 255) with (Z.ones 7).
  by rewrite Z.land_ones by lia.
Qed.

Lemma mark_digit d : 0 <= d < 128 -> Z.lor d MQTT_PACKET_LEN_ENCODE_MASK = d + 128.
Proof.
  intros Hd. apply Z.eqb_eq.
  assert (H : ((128 <=? d) || (Z.lor d 128 =? d + 128)) = true).
  { apply (byte_enum (fun d => (128 <=? d) || (Z.lor d 128 =? d + 128)));
      [by vm_compute | unfold is_byte; lia]. }
  apply orb_true_iff in H as [H|H]; [apply Z.leb_le in H; lia | done].
Qed.

Lemma digit_of_byte b : is_byte b ->
  Z.land b (Z.lnot MQTT_PACKET_LEN_ENCODE_MASK) = b mod 128 /\
  (Z.land b MQTT_PACKET_LEN_ENCODE_MASK =? 0) = (b <? 128).
Proof.
  intros Hb.
  assert (H : ((Z.land b (Z.lnot 128) =? b mod 128) &&
               Bool.eqb (Z.land b 128 =? 0) (b <? 128)) = true).
  { apply (byte_enum (fun b => (Z.land b (Z.lnot 128) =? b mod 128) &&
               Bool.eqb (Z.land b 128 =? 0) (b <? 128))); [by vm_compute | done]. }
  apply andb_true_iff in H as [H1%Z.eqb_eq H2%Bool.eqb_prop]. done.
Qed.

Lemma vbi_bytes fuel x : 0 <= x -> bytes (vbi fuel x).
Proof.
  revert x. induction fuel as [|fuel IH]; intros x Hx; simpl; [constructor|].
  destruct (Z.ltb_spec x 128).
  - repeat constructor; lia.
  - constructor; [unfold is_byte; pose proof (Z.mod_pos_bound x 128); lia|].
    apply IH. apply Z.div_pos; lia.
Qed.

Lemma vbi_len fuel x : (0 < fuel)%nat -> 1 <= len (vbi fuel x) <= Z.of_nat fuel.
Proof.
  revert x. induction fuel as [|fuel IH]; intros x Hf; simpl; [lia|].
  destruct (x <? 128); rewrite len_cons; [rewrite len_nil; lia|].
  destruct fuel; [unfold len; simpl; lia|].
  specialize (IH (x / 128)). lia.
Qed.

Lemma MqttEncode_Vbi_loop_eq fuel buf x rc :
  (0 < fuel)%nat -> 0 <= x < 128 ^ Z.of_nat fuel -> rc = 4 - Z.of_nat fuel ->
  MqttEncode_Vbi_loop fuel buf x rc =
    Ok (rc + len (vbi fuel x), when buf (vbi fuel x)).
Proof.
  revert x rc. induction fuel as [|fuel IH]; intros x rc Hf Hx Hrc; [lia|].
  assert (Hpow : 128 ^ Z.of_nat (S fuel) = 128 * 128 ^ Z.of_nat fuel).
  { rewrite Nat2Z.inj_succ, Z.pow_succ_r by lia. done. }
  cbn [MqttEncode_Vbi_loop vbi]. rewrite low_digit, Z.shiftr_div_pow2 by lia.
  change (2 ^ 7) with 128.
  pose proof (Z.mod_pos_bound x 128 ltac:(lia)) as Hm.
  pose proof (Z.div_mod x 128 ltac:(lia)) as Hd.
  destruct (Z.ltb_spec x 128) as [Hlt|Hge].
  - rewrite Z.div_small, Z.mod_small by lia. simpl. by rewrite len_cons, len_nil.
  - assert (0 < x / 128) by (apply Z.div_str_pos; lia).
    assert (x / 128 < 128 ^ Z.of_nat fuel) by (apply Z.div_lt_upper_bound; lia).
    rewrite (proj2 (Z.ltb_lt 0 (x / 128))) by lia.
    rewrite mark_digit by lia.
    destruct fuel as [|fuel]; [change (128 ^ Z.of_nat 0) with 1 in *; lia|].
    rewrite (proj2 (Z.ltb_lt (rc + 1) 4)) by lia. simpl andb. cbv iota.
    rewrite IH by lia. rewrite len_cons.
    cbn [mbind result_bind].
    replace (rc + 1 + len (vbi (S fuel) (x / 128)))
      with (rc + (1 + len (vbi (S fuel) (x / 128)))) by lia.
    by destruct buf.
Qed.

(** What [MqttEncode_Vbi] does on its whole domain. *)
Lemma MqttEncode_Vbi_eq buf x :
  0 <= x <= MQTT_PACKET_MAX_REMAIN_LEN ->
  MqttEncode_Vbi buf x = Ok (len (vbi 4 x), when buf (vbi 4 x)).
Proof.
  intros Hx. unfold MqttEncode_Vbi.
  rewrite (proj2 (Z.ltb_ge _ _)) by lia.
  rewrite MqttEncode_Vbi_loop_eq by (change (128 ^ Z.of_nat 4) with 268435456; lia).
  done.
Qed.

Lemma MqttEncode_Vbi_inv buf x r bs :
  0 <= x -> MqttEncode_Vbi buf x = Ok (r, bs) ->
  x <= MQTT_PACKET_MAX_REMAIN_LEN /\ r = len (vbi 4 x) /\ bs = when buf (vbi 4 x).
Proof.
  intros Hx H. destruct (Z.le_gt_cases x MQTT_PACKET_MAX_REMAIN_LEN) as [Hle|Hgt].
  - rewrite MqttEncode_Vbi_eq in H by lia. by simplify_eq.
  - unfold MqttEncode_Vbi in H. by rewrite (proj2 (Z.ltb_lt _ _)) in H by lia.
Qed.

Lemma MqttDecode_Vbi_loop_vbi fuel buf off buf_len rc multiplier value x :
  (0 < fuel)%nat -> rc = 4 - Z.of_nat fuel -> multiplier = 128 ^ rc ->
  0 <= x < 128 ^ Z.of_nat fuel -> 0 <= value < multiplier -> (rc = 0 \/ x <> 0) ->
  sits buf off (vbi fuel x) -> rc + len (vbi fuel x) <= buf_len -> rc <= 3 ->
  0 <= rc ->
  MqttDecode_Vbi_loop (S fuel) buf off buf_len rc multiplier value =
    Ok (value + multiplier * x, rc + len (vbi fuel x)).
Proof.
  revert off rc multiplier value x.
  induction fuel as [|fuel IH];
    intros off rc multiplier value x Hf Hrc Hm Hx Hv Hnz Hs Hl Hr3 Hr0; [lia|].
  assert (Hpow : 128 ^ Z.of_nat (S fuel) = 128 * 128 ^ Z.of_nat fuel).
  { rewrite Nat2Z.inj_succ, Z.pow_succ_r by lia. done. }
  assert (Hmx : multiplier * 128 ^ Z.of_nat (S fuel) = 268435456).
  { subst. rewrite <- Z.pow_add_r by lia.
    replace (4 - Z.of_nat (S fuel) + Z.of_nat (S fuel)) with 4 by lia. done. }
  remember (S fuel) as fuel' eqn:Hfuel'.
  cbn [MqttDecode_Vbi_loop]. rewrite (u32_small (rc + 1)) by lia.
  pose proof (vbi_len fuel' x ltac:(lia)).
  rewrite (proj2 (Z.ltb_ge _ _)) by lia.
  rewrite (proj2 (Z.leb_gt 4 rc)) by lia.
  subst fuel'. cbn [vbi] in *.
  pose proof (Z.mod_pos_bound x 128 ltac:(lia)) as Hmod.
  pose proof (Z.div_mod x 128 ltac:(lia)) as Hdiv.
  destruct (Z.ltb_spec x 128) as [Hlt|Hge].
  - apply rd_sits in Hs as ->. cbn [mbind result_bind].
    destruct (digit_of_byte x ltac:(unfold is_byte; lia)) as [-> ->].
    rewrite (proj2 (Z.ltb_lt x 128)), Z.mod_small by lia. cbn [negb].
    rewrite (proj2 (andb_false_iff _ _)); last first.
    { destruct Hnz; [left; apply Z.ltb_ge; lia | right; by apply Z.eqb_neq]. }
    rewrite (u32_small (x * multiplier)) by nia.
    rewrite u32_small by nia. rewrite len_cons, len_nil. do 2 f_equal; lia.
  - apply sits_cons in Hs as [Hb Hs]. apply rd_sits in Hb as ->. cbn [mbind result_bind].
    destruct (digit_of_byte (x mod 128 + 128) ltac:(unfold is_byte; lia)) as [-> ->].
    rewrite (proj2 (Z.ltb_ge (x mod 128 + 128) 128)) by lia. cbn [negb].
    replace ((x mod 128 + 128) mod 128) with (x mod 128); last first.
    { replace (x mod 128 + 128) with (x mod 128 + 1 * 128) by lia.
      rewrite Z.mod_add, Z.mod_mod by lia. done. }
    assert (0 < x / 128) by (apply Z.div_str_pos; lia).
    assert (x / 128 < 128 ^ Z.of_nat fuel) by (apply Z.div_lt_upper_bound; lia).
    destruct fuel as [|fuel]; [change (128 ^ Z.of_nat 0) with 1 in *; lia|].
    assert (128 <= 128 ^ Z.of_nat (S fuel)).
    { rewrite Nat2Z.inj_succ, Z.pow_succ_r by lia.
      pose proof (Z.pow_pos_nonneg 128 (Z.of_nat fuel)). lia. }
    rewrite len_cons in *.
    rewrite (u32_small (x mod 128 * multiplier)) by nia.
    rewrite (u32_small (value + _)) by nia.
    rewrite (u32_small (multiplier * _)) by nia.
    rewrite (IH _ _ _ _ (x / 128)); try done; try lia; try nia.
    + f_equal; f_equal; [nia | lia].
    + subst. by rewrite Z.pow_add_r by lia.
Qed.

(** Decoding what [MqttEncode_Vbi] wrote. *)
Lemma MqttDecode_Vbi_sits buf off buf_len x :
  0 <= x <= MQTT_PACKET_MAX_REMAIN_LEN -> sits buf off (vbi 4 x) ->
  len (vbi 4 x) <= buf_len ->
  MqttDecode_Vbi buf off buf_len = Ok (x, len (vbi 4 x)).
Proof.
  intros Hx Hs Hl. unfold MqttDecode_Vbi.
  rewrite (MqttDecode_Vbi_loop_vbi 4 buf off buf_len 0 1 0 x); try done; try lia.
  f_equal. f_equal; lia.
Qed.

Lemma MqttDecode_Vbi_loop_inv fuel buf off buf_len rc multiplier value v n :
  bytes buf -> rc = 4 - Z.of_nat fuel -> 0 <= rc -> multiplier = 128 ^ rc ->
  0 <= value < multiplier ->
  MqttDecode_Vbi_loop (S fuel) buf off buf_len rc multiplier value = Ok (v, n) ->
  exists x, v = value + multiplier * x /\ 0 <= x < 128 ^ Z.of_nat fuel /\
    sits buf off (vbi fuel x) /\ n = rc + len (vbi fuel x) /\ n <= buf_len /\
    (rc = 0 \/ x <> 0).
Proof.
  revert off rc multiplier value.
  induction fuel as [|fuel IH]; intros off rc multiplier value Hb Hrc Hr0 Hm Hv H.
  { cbn [MqttDecode_Vbi_loop] in H. case_match; [done|].
    rewrite (proj2 (Z.leb_le 4 rc)) in H by lia. done. }
  assert (Hpow : 128 ^ Z.of_nat (S fuel) = 128 * 128 ^ Z.of_nat fuel).
  { rewrite Nat2Z.inj_succ, Z.pow_succ_r by lia. done. }
  assert (Hmx : multiplier * 128 ^ Z.of_nat (S fuel) = 268435456).
  { subst multiplier. rewrite <- Z.pow_add_r by lia.
    replace (rc + Z.of_nat (S fuel)) with 4 by lia. done. }
  pose proof (Z.pow_pos_nonneg 128 (Z.of_nat fuel) ltac:(lia) ltac:(lia)) as Hpp.
  remember (S fuel) as fuel' eqn:Hfuel'.
  cbn [MqttDecode_Vbi_loop] in H. rewrite (u32_small (rc + 1)) in H by lia.
  destruct (Z.ltb_spec buf_len (rc + 1)) as [|Hbl]; [done|].
  destruct (Z.leb_spec 4 rc) as [|Hrc4]; [done|].
  destruct (rd buf off) as [b| |] eqn:Erd; try done. cbn [mbind result_bind] in H.
  pose proof (rd_byte _ _ _ Hb Erd) as Hbyte.
  destruct (digit_of_byte b Hbyte) as [E1 E2]. rewrite E1, E2 in H.
  pose proof (Z.mod_pos_bound b 128 ltac:(lia)) as Hmod.
  pose proof (sits_rd _ _ _ Erd) as Hsb.
  rewrite (u32_small (b mod 128 * multiplier)) in H by nia.
  rewrite (u32_small (value + _)) in H by nia.
  rewrite (u32_small (multiplier * _)) in H by nia.
  subst fuel'.
  destruct (Z.ltb_spec b 128) as [Hlt|Hge]; cbn [negb] in H.
  - destruct ((1 <? rc + 1) && (b =? 0)) eqn:Ec; [done|]. simplify_eq.
    assert (b mod 128 = b) as -> by (apply Z.mod_small; unfold is_byte in *; lia).
    exists b. cbn [vbi]. rewrite (proj2 (Z.ltb_lt b 128)) by lia.
    change (len [b]) with 1. unfold is_byte in *.
    repeat split; try lia; try nia; try done.
    apply andb_false_iff in Ec as [Ec%Z.ltb_ge|Ec%Z.eqb_neq]; lia.
  - apply IH in H as (x & -> & Hx & Hs & -> & Hn & Hnz); try done; try lia; try nia; last first.
    { subst multiplier. rewrite Z.pow_add_r by lia. done. }
    assert (Hbm : b mod 128 = b - 128).
    { unfold is_byte in *. replace b with ((b - 128) + 1 * 128) at 1 by lia.
      rewrite Z.mod_add, Z.mod_small by lia. done. }
    assert (x <> 0) by lia.
    exists (128 * x + b mod 128).
    cbn [vbi].
    rewrite (proj2 (Z.ltb_ge (128 * x + b mod 128) 128)) by lia. cbv iota.
    assert (E : (128 * x + b mod 128) mod 128 = b mod 128).
    { rewrite (Z.mul_comm 128 x), Z.add_comm, Z.mod_add, Z.mod_mod by lia. done. }
    rewrite E. replace (b mod 128 + 128) with b by lia.
    replace ((128 * x + b mod 128) / 128) with x; last first.
    { rewrite Z.mul_comm, Z.div_add_l by lia. rewrite Z.div_small; lia. }
    rewrite len_cons. repeat split; try lia; try nia.
    by apply sits_cons.
Qed.

(** The decoder only accepts the encoding [MqttEncode_Vbi] writes. *)
Lemma MqttDecode_Vbi_inv buf off buf_len v n :
  bytes buf -> MqttDecode_Vbi buf off buf_len = Ok (v, n) ->
  0 <= v <= MQTT_PACKET_MAX_REMAIN_LEN /\ sits buf off (vbi 4 v) /\
  n = len (vbi 4 v) /\ 1 <= n <= 4 /\ n <= buf_len.
Proof.
  intros Hb H.
  destruct (MqttDecode_Vbi_loop_inv 4 buf off buf_len 0 1 0 v n)
    as (x & -> & Hx & Hs & -> & Hn & _); try done; try lia.
  change (128 ^ Z.of_nat 4) with 268435456 in Hx.
  replace (0 + 1 * x) with x by lia.
  pose proof (vbi_len 4 x). repeat split; try lia; done.
Qed.

(** ** UTF-8: the reference definition and the scanner *)

(** The code points of MQTT strings: Unicode scalar values other than U+0000. *)
Definition scalar (cp : Z) : Prop :=
  1 <= cp <= 1114111 /\ ~ (55296 <= cp <= 57343).

(** RFC 3629. *)
Definition utf8_encode (cp : Z) : list Z :=
  if cp <? 128 then [cp]
  else if cp <? 2048 then [192 + cp / 64; 128 + cp mod 64]
  else if cp <? 65536 then
    [224 + cp / 4096; 128 + (cp / 64) mod 64; 128 + cp mod 64]
  else
    [240 + cp / 262144; 128 + (cp / 4096) mod 64; 128 + (cp / 64) mod 64;
     128 + cp mod 64].

(** The texts: encodings of sequences of code points. *)
Inductive utf8_text : list Z -> Prop :=
  | utf8_nil : utf8_text []
  | utf8_cons cp rest :
      scalar cp -> utf8_text rest -> utf8_text (utf8_encode cp ++ rest).

Definition cont (b : Z) : Prop := 128 <= b < 192.

Lemma cont_test b : is_byte b -> (Z.land b 192 =? 128) = (128 <=? b) && (b <? 192).
Proof.
  intros Hb. apply Bool.eqb_prop.
  by apply (byte_enum (fun b => Bool.eqb (Z.land b 192 =? 128) ((128 <=? b) && (b <? 192)))).
Qed.

Lemma cont_spec b : is_byte b ->
  negb (Z.land b 192 =? 128) = false /\ cont b \/
  negb (Z.land b 192 =? 128) = true /\ ~ cont b.
Proof.
  intros Hb. rewrite (cont_test b Hb). unfold cont.
  destruct (Z.leb_spec 128 b), (Z.ltb_spec b 192); simpl; lia.
Qed.

(** The sequences a lead byte opens. *)
Definition opens (b0 : Z) (l rest : list Z) : Prop :=
  (1 <= b0 < 128 /\ l = rest) \/
  (194 <= b0 < 224 /\ exists b1, l = b1 :: rest /\ cont b1) \/
  (224 <= b0 < 240 /\ exists b1 b2, l = b1 :: b2 :: rest /\ cont b1 /\ cont b2 /\
     (b0 = 224 -> 160 <= b1) /\ (b0 = 237 -> b1 < 160)) \/
  (240 <= b0 <= 244 /\ exists b1 b2 b3, l = b1 :: b2 :: b3 :: rest /\
     cont b1 /\ cont b2 /\ cont b3 /\
     (b0 = 240 -> 144 <= b1) /\ (b0 = 244 -> b1 < 144)).

Ltac Zeucl := Z.div_mod_to_equations; lia.

Lemma utf8_encode_opens cp rest :
  scalar cp -> exists b0 l, utf8_encode cp ++ rest = b0 :: l /\ opens b0 l rest.
Proof.
  unfold scalar, utf8_encode, opens, cont. intros [Hr Hs].
  destruct (Z.ltb_spec cp 128); [|destruct (Z.ltb_spec cp 2048);
    [|destruct (Z.ltb_spec cp 65536)]];
    eexists _, _; (split; [reflexivity|]).
  - left. split; [lia|done].
  - right; left. split; [Zeucl|]. eexists; split; [reflexivity|Zeucl].
  - right; right; left. split; [Zeucl|].
    eexists _, _; split; [reflexivity|]. repeat split; try (intros; Zeucl); Zeucl.
  - right; right; right. split; [Zeucl|].
    eexists _, _, _; split; [reflexivity|]. repeat split; try (intros; Zeucl); Zeucl.
Qed.

Lemma opens_utf8_encode b0 l rest :
  opens b0 l rest -> exists cp, scalar cp /\ b0 :: l = utf8_encode cp ++ rest.
Proof.
  unfold scalar, utf8_encode, opens, cont.
  intros [[H ->]|[[H (b1 & -> & H1)]|[[H (b1 & b2 & -> & H1 & H2 & H3 & H4)]
         |[H (b1 & b2 & b3 & -> & H1 & H2 & H3 & H4 & H5)]]]].
  - exists b0. split; [lia|]. by rewrite (proj2 (Z.ltb_lt b0 128)) by lia.
  - remember ((b0 - 192) * 64 + (b1 - 128)) as cp eqn:Hcp. exists cp. split; [lia|].
    rewrite (proj2 (Z.ltb_ge cp 128)), (proj2 (Z.ltb_lt cp 2048)) by lia.
    simpl. do 2 f_equal; Zeucl.
  - remember ((b0 - 224) * 4096 + (b1 - 128) * 64 + (b2 - 128)) as cp eqn:Hcp.
    exists cp. split; [lia|].
    rewrite (proj2 (Z.ltb_ge cp 128)), (proj2 (Z.ltb_ge cp 2048)),
      (proj2 (Z.ltb_lt cp 65536)) by lia.
    simpl. do 3 f_equal; Zeucl.
  - remember ((b0 - 240) * 262144 + (b1 - 128) * 4096 + (b2 - 128) * 64 + (b3 - 128)) as cp eqn:Hcp.
    exists cp. split; [lia|].
    rewrite (proj2 (Z.ltb_ge cp 128)), (proj2 (Z.ltb_ge cp 2048)),
      (proj2 (Z.ltb_ge cp 65536)) by lia.
    simpl. do 4 f_equal; Zeucl.
Qed.

(** A text starts with a sequence that its first byte opens. *)
Lemma utf8_text_cons b0 l :
  utf8_text (b0 :: l) <-> exists rest, opens b0 l rest /\ utf8_text rest.
Proof.
  split.
  - inversion 1 as [|cp rest Hcp Hrest Heq].
    destruct (utf8_encode_opens cp rest Hcp) as (b & l' & Heq' & Ho).
    rewrite Heq' in Heq. simplify_eq. eauto.
  - intros (rest & Ho & Ht).
    destruct (opens_utf8_encode _ _ _ Ho) as (cp & Hcp & ->). by constructor.
Qed.

(** The same by the class of the lead byte. *)
Ltac lead :=
  intros; rewrite utf8_text_cons; unfold opens; split;
  [ intros (? & [[? ?]|[[? ?]|[[? ?]|[? ?]]]] & ?); try lia;
    repeat match goal with H : ex _ |- _ => destruct H end;
    destruct_and?; subst; split_and?; done
  | intros; repeat case_match; destruct_and?; try done ].

Lemma text_1 b0 l : 1 <= b0 < 128 -> utf8_text (b0 :: l) <-> utf8_text l.
Proof. lead. eexists. split; [left; split; [lia|reflexivity] | done]. Qed.

Lemma text_none b0 l : b0 < 1 \/ 128 <= b0 < 194 \/ 244 < b0 -> ~ utf8_text (b0 :: l).
Proof. rewrite utf8_text_cons. unfold opens. intros ? (? & ? & ?). lia. Qed.

Lemma text_2 b0 l :
  194 <= b0 < 224 ->
  utf8_text (b0 :: l) <->
  match l with b1 :: r => cont b1 /\ utf8_text r | _ => False end.
Proof.
  lead. eexists. split; [right; left; split; [lia|eexists; by split] | done].
Qed.

Lemma text_3 b0 l :
  224 <= b0 < 240 ->
  utf8_text (b0 :: l) <->
  match l with
  | b1 :: b2 :: r => cont b1 /\ cont b2 /\ (b0 = 224 -> 160 <= b1) /\
                     (b0 = 237 -> b1 < 160) /\ utf8_text r
  | _ => False
  end.
Proof.
  lead. eexists. split; [right; right; left; split; [lia|do 2 eexists; split_and!; done] | done].
Qed.

Lemma text_4 b0 l :
  240 <= b0 <= 244 ->
  utf8_text (b0 :: l) <->
  match l with
  | b1 :: b2 :: b3 :: r =>
      cont b1 /\ cont b2 /\ cont b3 /\ (b0 = 240 -> 144 <= b1) /\
      (b0 = 244 -> b1 < 144) /\ utf8_text r
  | _ => False
  end.
Proof.
  lead. eexists. split; [right; right; right; split; [lia|do 3 eexists; split_and!; done] | done].
Qed.

Section Utf8_loop.
(** The string [s] at the start of the object [s ++ ext]. *)
Context (s ext : list Z) (n : Z).
Hypotheses (Hs : bytes s) (Hn : len s = n) (Hmax : n <= 65535).

Lemma scan_rd (r : Z -> result bool) j P :
  0 <= j < n ->
  (forall b, is_byte b -> drop (Z.to_nat j) s = b :: drop (Z.to_nat (j + 1)) s ->
     decides (r b) P) ->
  decides (rd (s ++ ext) j ≫= r) P.
Proof using Hs Hn.
  intros Hj H. rewrite rd_app_l by lia.
  destruct (rd_ok s j) as (b & E & _); [lia|]. rewrite E.
  apply H; [by eapply rd_byte | by apply drop_rd].
Qed.

(** What is left after offset [i] when fewer than [k] bytes remain. *)
Lemma drop_short i k :
  0 <= i -> n < i + k -> len (drop (Z.to_nat i) s) < Z.max 1 k.
Proof using Hn. unfold len in *. rewrite length_drop. lia. Qed.

Lemma Utf8WellFormed_loop_spec fuel i :
  0 <= i <= n -> n - i < Z.of_nat fuel ->
  decides (Utf8WellFormed_loop fuel (s ++ ext) n i) (utf8_text (drop (Z.to_nat i) s)).
Proof using Hs Hn Hmax.
  revert i. induction fuel as [|fuel IH]; intros i Hi Hf; [lia|].
  cbn [Utf8WellFormed_loop]. destruct (Z.ltb_spec i n) as [Hlt|Hge]; last first.
  { exists true. split; [done|]. rewrite drop_end by lia. split; [constructor|done]. }
  apply scan_rd; [lia|]. intros b0 B0 ->.
  destruct (Z.eqb_spec b0 0) as [->|Hz]; [apply decides_false, text_none; lia|].
  destruct (Z.ltb_spec b0 128) as [H1|H1].
  { rewrite u16_small by lia. unfold is_byte in B0.
    eapply decides_iff; [apply text_1; lia | apply IH; lia]. }
  destruct ((b0 <? 194) || (244 <? b0)) eqn:Hlead.
  { apply decides_false, text_none.
    apply orb_true_iff in Hlead as [?%Z.ltb_lt|?%Z.ltb_lt]; lia. }
  tests.
  destruct (Z.ltb_spec b0 224) as [H2|H2]; [|destruct (Z.ltb_spec b0 240) as [H3|H3]];
    rewrite !u32_small by lia;
    (eapply decides_iff; [first [apply text_2; lia | apply text_3; lia | apply text_4; lia]|]).
  - destruct (Z.leb_spec n (i + 1)) as [Hend|Hin].
    { apply decides_false. rewrite drop_end by lia. tauto. }
    apply scan_rd; [lia|]. intros b1 B1 ->. rewrite <- Z.add_assoc.
    destruct (cont_spec b1 B1) as [[-> C1]|[-> C1]]; [|apply decides_false; tauto].
    rewrite u16_small by lia. eapply decides_iff; [|apply IH; lia].
    change (1 + 1) with 2. tauto.
  - destruct (Z.leb_spec n (i + 2)) as [Hend|Hin].
    { apply decides_false. pose proof (drop_short (i + 1) 2).
      destruct (drop _ s) as [|b1 [|b2 r]]; [tauto|tauto|]. lens. pose proof (len_nonneg r). lia. }
    apply scan_rd; [lia|]. intros b1 B1 ->. rewrite <- Z.add_assoc. change (1 + 1) with 2.
    apply scan_rd; [lia|]. intros b2 B2 ->. rewrite <- Z.add_assoc. change (2 + 1) with 3.
    destruct (cont_spec b1 B1) as [[-> C1]|[-> C1]]; [|apply decides_false; tauto].
    destruct (cont_spec b2 B2) as [[-> C2]|[-> C2]]; [|apply decides_false; tauto].
    cbn [orb].
    destruct ((b0 =? 224) && (b1 <? 160)) eqn:T1; [tests; apply decides_false; lia|].
    destruct ((b0 =? 237) && (160 <=? b1)) eqn:T2; [tests; apply decides_false; lia|].
    rewrite u16_small by lia. eapply decides_iff; [|apply IH; lia].
    apply andb_false_iff in T1, T2. rewrite Z.eqb_neq, Z.ltb_ge in T1.
    rewrite Z.eqb_neq, Z.leb_gt in T2. intuition lia.
  - destruct (Z.leb_spec n (i + 3)) as [Hend|Hin].
    { apply decides_false. pose proof (drop_short (i + 1) 3).
      destruct (drop _ s) as [|b1 [|b2 [|b3 r]]]; [tauto|tauto|tauto|].
      lens. pose proof (len_nonneg r). lia. }
    apply scan_rd; [lia|]. intros b1 B1 ->. rewrite <- Z.add_assoc. change (1 + 1) with 2.
    apply scan_rd; [lia|]. intros b2 B2 ->. rewrite <- Z.add_assoc. change (2 + 1) with 3.
    apply scan_rd; [lia|]. intros b3 B3 ->. rewrite <- Z.add_assoc. change (3 + 1) with 4.
    destruct (cont_spec b1 B1) as [[-> C1]|[-> C1]]; [|apply decides_false; tauto].
    destruct (cont_spec b2 B2) as [[-> C2]|[-> C2]]; [|apply decides_false; tauto].
    destruct (cont_spec b3 B3) as [[-> C3]|[-> C3]]; [|apply decides_false; tauto].
    cbn [orb].
    destruct ((b0 =? 240) && (b1 <? 144)) eqn:T1; [tests; apply decides_false; lia|].
    destruct ((b0 =? 244) && (144 <=? b1)) eqn:T2; [tests; apply decides_false; lia|].
    rewrite u16_small by lia. eapply decides_iff; [|apply IH; lia].
    apply andb_false_iff in T1, T2. rewrite Z.eqb_neq, Z.ltb_ge in T1.
    rewrite Z.eqb_neq, Z.leb_gt in T2. intuition lia.
Qed.
End Utf8_loop.

(** [Utf8WellFormed] never reads outside the string and accepts exactly the
    texts of RFC 3629 without U+0000. *)
Lemma Utf8WellFormed_decides s ext n :
  bytes s -> len s = n -> n <= 65535 -> decides (Utf8WellFormed (s ++ ext) n) (utf8_text s).
Proof.
  intros Hs Hn Hmax. unfold Utf8WellFormed. pose proof (len_nonneg s).
  change (utf8_text s) with (utf8_text (drop (Z.to_nat 0) s)).
  apply Utf8WellFormed_loop_spec; try done; lia.
Qed.

Lemma utf8_text_nonzero s : utf8_text s -> Forall (fun c => c <> 0) s.
Proof.
  induction 1 as [|cp rest [Hr _] _ IH]; [constructor|].
  apply Forall_app; split; [|done]. unfold utf8_encode.
  repeat case_match; tests; repeat constructor; Zeucl.
Qed.

Lemma nonzero_existsb s : Forall (fun c => c <> 0) s -> existsb (Z.eqb 0) s = false.
Proof. induction 1 as [|c s Hc _ IH]; [done|]. cbn [existsb]. by rewrite (proj2 (Z.eqb_neq 0 c)) by lia. Qed.

Lemma XSTRLEN_nonzero s : Forall (fun c => c <> 0) s -> XSTRLEN s = len s.
Proof.
  induction 1 as [|c s Hc _ IH]; [done|]. simpl.
  rewrite (proj2 (Z.eqb_neq c 0)) by lia. rewrite len_cons. lia.
Qed.

Lemma XSTRLEN_bound s : 0 <= XSTRLEN s <= len s.
Proof. induction s as [|c s IH]; simpl; [lens; lia|]. rewrite len_cons. case_match; lia. Qed.

(** The characters of a C string, its terminator excluded. *)
Definition cstr (s : list Z) : list Z := take (Z.to_nat (XSTRLEN s)) s.

Lemma cstr_len s : len (cstr s) = XSTRLEN s.
Proof. unfold cstr. apply len_take. pose proof (XSTRLEN_bound s). lia. Qed.

Lemma cstr_bytes s : bytes s -> bytes (cstr s).
Proof. by apply Forall_take. Qed.

Lemma cstr_id s : Forall (fun c => c <> 0) s -> cstr s = s.
Proof.
  intros H. unfold cstr. rewrite XSTRLEN_nonzero by done.
  unfold len. by rewrite Nat2Z.id, firstn_all.
Qed.

(** ** Two and four byte integers *)

Definition be16 (x : Z) : list Z := [x / 256; x mod 256].
Definition be32 (x : Z) : list Z :=
  [x / 16777216; x / 65536 mod 256; x / 256 mod 256; x mod 256].

Lemma land_255 x : Z.land x 255 = x mod 256.
Proof. change 255 with (Z.ones 8). by rewrite Z.land_ones by lia. Qed.

Lemma MqttEncode_Num_eq buf x :
  0 <= x < 65536 -> MqttEncode_Num buf x = Ok (2, when buf (be16 x)).
Proof.
  intros Hx. unfold MqttEncode_Num, be16. rewrite land_255, Z.shiftr_div_pow2 by lia.
  rewrite u8_small; [done|]. change (2 ^ 8) with 256. Zeucl.
Qed.

Lemma MqttEncode_Int_eq buf x :
  0 <= x < 4294967296 -> MqttEncode_Int buf x = Ok (4, when buf (be32 x)).
Proof.
  intros Hx. unfold MqttEncode_Int, be32. rewrite !land_255, !Z.shiftr_div_pow2 by lia.
  rewrite u8_small; [done|]. change (2 ^ 24) with 16777216. Zeucl.
Qed.

Lemma be16_bytes x : 0 <= x < 65536 -> bytes (be16 x).
Proof. intros. unfold be16. repeat constructor; Zeucl. Qed.
Lemma be32_bytes x : 0 <= x < 4294967296 -> bytes (be32 x).
Proof. intros. unfold be32. repeat constructor; Zeucl. Qed.

Lemma MqttDecode_Num_sits buf off buf_len x :
  0 <= x < 65536 -> sits buf off (be16 x) -> 2 <= buf_len ->
  MqttDecode_Num buf off buf_len = Ok (x, 2).
Proof.
  intros Hx Hs Hl. unfold MqttDecode_Num. decide_test.
  apply sits_cons in Hs as [H0 H1].
  rewrite (rd_sits _ _ _ _ H0), (rd_sits _ _ _ _ H1). cbn [mbind result_bind].
  rewrite Z.shiftl_mul_pow2 by lia. change (2 ^ 8) with 256.
  rewrite (u16_small (_ * _)) by Zeucl. rewrite u16_small by Zeucl.
  do 2 f_equal. Zeucl.
Qed.

Lemma MqttDecode_Int_sits buf off buf_len x :
  0 <= x < 4294967296 -> sits buf off (be32 x) -> 4 <= buf_len ->
  MqttDecode_Int buf off buf_len = Ok (x, 4).
Proof.
  intros Hx Hs Hl. unfold MqttDecode_Int. decide_test.
  apply sits_cons in Hs as [H0 Hs]. apply sits_cons in Hs as [H1 Hs].
  apply sits_cons in Hs as [H2 H3]. rewrite <- Z.add_assoc in H2. rewrite <- !Z.add_assoc in H3.
  change (1 + (1 + 1)) with 3 in H3. change (1 + 1) with 2 in H2.
  rewrite (rd_sits _ _ _ _ H0), (rd_sits _ _ _ _ H1), (rd_sits _ _ _ _ H2), (rd_sits _ _ _ _ H3).
  cbn [mbind result_bind]. rewrite !Z.shiftl_mul_pow2 by lia.
  change (2 ^ 8) with 256. change (2 ^ 16) with 65536. change (2 ^ 24) with 16777216.
  assert (x / 65536 = x / 256 / 256) as -> by by rewrite Z.div_div by lia.
  assert (x / 16777216 = x / 256 / 256 / 256) as -> by by rewrite !Z.div_div by lia.
  rewrite (u32_small (_ * 16777216)), (u32_small (_ * 65536)), (u32_small (_ * 256)) by Zeucl.
  rewrite (u32_small (_ * 16777216 + _ * 65536)) by Zeucl.
  rewrite (u32_small (_ * 16777216 + _ * 65536 + _ * 256)) by Zeucl.
  rewrite u32_small by Zeucl. do 2 f_equal. Zeucl.
Qed.

(** The decoders' contracts. *)
Lemma MqttDecode_Num_yields buf off buf_len :
  bytes buf -> 0 <= off -> off + buf_len <= len buf ->
  yields (MqttDecode_Num buf off buf_len)
    (fun '(x, n) => n = 2 /\ 2 <= buf_len /\ 0 <= x < 65536 /\ sits buf off (be16 x)).
Proof.
  intros Hb Ho Hl. unfold MqttDecode_Num.
  destruct (Z.ltb_spec buf_len 2); [done|].
  apply yields_bind, rd_yields; [lia|]. intros b0 E0.
  apply yields_bind, rd_yields; [lia|]. intros b1 E1.
  pose proof (rd_byte _ _ _ Hb E0). pose proof (rd_byte _ _ _ Hb E1). unfold is_byte in *.
  rewrite Z.shiftl_mul_pow2 by lia. change (2 ^ 8) with 256.
  rewrite (u16_small (b0 * 256)), u16_small by lia. simpl. repeat split; try lia.
  unfold be16. replace ((b0 * 256 + b1) / 256) with b0 by Zeucl.
  replace ((b0 * 256 + b1) mod 256) with b1 by Zeucl.
  apply sits_cons. split; by apply sits_rd.
Qed.

Lemma MqttDecode_Int_yields buf off buf_len :
  bytes buf -> 0 <= off -> off + buf_len <= len buf ->
  yields (MqttDecode_Int buf off buf_len)
    (fun '(x, n) => n = 4 /\ 4 <= buf_len /\ 0 <= x < 4294967296 /\ sits buf off (be32 x)).
Proof.
  intros Hb Ho Hl. unfold MqttDecode_Int.
  destruct (Z.ltb_spec buf_len 4); [done|].
  apply yields_bind, rd_yields; [lia|]. intros b0 E0.
  apply yields_bind, rd_yields; [lia|]. intros b1 E1.
  apply yields_bind, rd_yields; [lia|]. intros b2 E2.
  apply yields_bind, rd_yields; [lia|]. intros b3 E3.
  pose proof (rd_byte _ _ _ Hb E0). pose proof (rd_byte _ _ _ Hb E1).
  pose proof (rd_byte _ _ _ Hb E2). pose proof (rd_byte _ _ _ Hb E3). unfold is_byte in *.
  rewrite !Z.shiftl_mul_pow2 by lia.
  change (2 ^ 8) with 256. change (2 ^ 16) with 65536. change (2 ^ 24) with 16777216.
  rewrite (u32_small (b0 * 16777216)), (u32_small (b1 * 65536)), (u32_small (b2 * 256)) by lia.
  rewrite (u32_small (_ * 16777216 + _ * 65536)) by lia.
  rewrite (u32_small (_ * 16777216 + _ * 65536 + _ * 256)) by lia.
  rewrite u32_small by lia. simpl. repeat split; try lia.
  set (x := b0 * 16777216 + b1 * 65536 + b2 * 256 + b3).
  unfold be32. replace (x / 16777216) with b0 by (subst x; Zeucl).
  replace (x / 65536 mod 256) with b1 by (subst x; Zeucl).
  replace (x / 256 mod 256) with b2 by (subst x; Zeucl).
  replace (x mod 256) with b3 by (subst x; Zeucl).
  apply sits_cons; split; [by apply sits_rd|]. apply sits_cons; split; [by apply sits_rd|].
  apply sits_cons; split; apply sits_rd; by rewrite <- !Z.add_assoc.
Qed.

Lemma MqttDecode_Vbi_loop_yields fuel buf off buf_len rc multiplier value :
  bytes buf -> rc = 5 - Z.of_nat fuel -> 0 <= rc -> (0 < fuel)%nat ->
  0 <= off -> off + buf_len <= len buf + rc ->
  yields (MqttDecode_Vbi_loop fuel buf off buf_len rc multiplier value) (fun _ => True).
Proof.
  intros Hb. revert off rc multiplier value.
  induction fuel as [|fuel IH]; intros off rc m v Hrc Hr0 Hf Ho Hl; [lia|].
  cbn [MqttDecode_Vbi_loop]. rewrite u32_small by lia.
  destruct (Z.ltb_spec buf_len (rc + 1)); [done|].
  destruct (Z.leb_spec 4 rc); [done|].
  apply yields_bind, rd_yields; [lia|]. intros b _. cbv zeta.
  case_match; [|by case_match].
  apply IH; lia.
Qed.

Lemma MqttDecode_Vbi_yields buf off buf_len :
  bytes buf -> 0 <= off -> off + buf_len <= len buf ->
  yields (MqttDecode_Vbi buf off buf_len)
    (fun '(x, n) => 0 <= x <= MQTT_PACKET_MAX_REMAIN_LEN /\ sits buf off (vbi 4 x) /\
       n = len (vbi 4 x) /\ 1 <= n <= 4 /\ n <= buf_len).
Proof.
  intros Hb Ho Hl.
  pose proof (MqttDecode_Vbi_loop_yields 5 buf off buf_len 0 1 0 Hb) as H.
  fold (MqttDecode_Vbi buf off buf_len) in H. specialize (H ltac:(lia)).
  destruct (MqttDecode_Vbi buf off buf_len) as [[x n]|rc|] eqn:E; simpl in *.
  - by eapply MqttDecode_Vbi_inv.
  - apply H; lia.
  - apply H; lia.
Qed.

(** ** Strings and binary data *)

(** A counted field on the wire. *)
Definition counted (s : list Z) : list Z := be16 (len s) ++ s.

Lemma counted_len s : len (counted s) = 2 + len s.
Proof. unfold counted. rewrite len_app. done. Qed.

Lemma counted_bytes s : bytes s -> len s <= 65535 -> bytes (counted s).
Proof.
  intros. apply Forall_app; split; [|done]. apply be16_bytes. pose proof (len_nonneg s). lia.
Qed.

Lemma MqttDecode_String_yields buf off buf_len :
  bytes buf -> 0 <= off -> off + buf_len <= len buf -> buf_len < 4294967296 ->
  yields (MqttDecode_String buf off buf_len)
    (fun '(s, l, n) => sits buf off (counted s) /\ l = len s /\ n = 2 + l /\
       0 <= l <= 65535 /\ n <= buf_len /\ utf8_text s /\ bytes s).
Proof.
  intros Hb Ho Hl Hu. unfold MqttDecode_String.
  apply yields_bind. eapply yields_mono; [by apply MqttDecode_Num_yields|].
  intros [l n] (-> & Hn & Hx & Hs). rewrite u32_small by lia.
  destruct (Z.ltb_spec (buf_len - 2) l); [done|].
  apply yields_bind, slice_yields; [lia..|]. intros s Es.
  pose proof (slice_bytes _ _ _ _ Hb Es) as Hbs.
  apply slice_inv in Es as (_ & _ & _ & Hls & Hss).
  assert (Hc : sits buf off (counted s)).
  { unfold counted. rewrite Hls. by apply sits_app. }
  destruct (Utf8WellFormed_decides s [] l Hbs Hls ltac:(lia)) as (b & Ewf & Hwf).
  rewrite app_nil_r in Ewf. rewrite Ewf.
  destruct (Z.ltb_spec 0 l).
  - destruct b; [|done]. cbn [mbind result_bind negb].
    rewrite nonzero_existsb by (apply utf8_text_nonzero; tauto).
    simpl. split_and!; auto with lia. tauto.
  - simpl. split_and!; auto with lia.
    destruct s; [constructor|]. lens. pose proof (len_nonneg s). lia.
Qed.

Lemma MqttDecode_String_sits buf off buf_len s :
  bytes s -> utf8_text s -> sits buf off (counted s) -> len s <= 65535 ->
  2 + len s <= buf_len -> buf_len < 4294967296 ->
  MqttDecode_String buf off buf_len = Ok (s, len s, 2 + len s).
Proof.
  intros Hb Ht Hs Hl Hbl Hu. unfold MqttDecode_String. pose proof (len_nonneg s).
  apply sits_app in Hs as [Hs1 Hs2].
  rewrite (MqttDecode_Num_sits _ _ _ (len s)) by (done || lia). cbn [mbind result_bind].
  rewrite u32_small by lia. rewrite (proj2 (Z.ltb_ge _ _)) by lia.
  rewrite (slice_sits _ _ s) by done. cbn [mbind result_bind].
  destruct (Utf8WellFormed_decides s [] (len s) Hb eq_refl Hl) as (b & Ewf & Hwf).
  rewrite app_nil_r in Ewf. rewrite Ewf.
  cbn [mbind result_bind]. rewrite (proj2 Hwf Ht).
  rewrite nonzero_existsb by (by apply utf8_text_nonzero). by case_match.
Qed.

Lemma MqttEncode_String_eq buf s :
  len (cstr s) <= 65535 ->
  MqttEncode_String buf s = Ok (2 + len (cstr s), when buf (counted (cstr s))).
Proof.
  intros Hl. rewrite cstr_len in Hl. pose proof (XSTRLEN_bound s).
  unfold MqttEncode_String. rewrite (proj2 (Z.ltb_ge _ _)) by lia.
  rewrite u16_small, MqttEncode_Num_eq by lia. cbn [mbind result_bind].
  unfold counted. rewrite cstr_len. by destruct buf.
Qed.

(** The bytes [MqttEncode_Data] sends for a counted object: zeros stand for
    an absent one. [None]: the object is shorter than declared. *)
Definition field_bytes (f : MqttProp_Str) : option (list Z) :=
  match str_ptr f with
  | None => Some (replicate (Z.to_nat (str_len f)) 0)
  | Some d =>
      if str_len f <=? len d then Some (take (Z.to_nat (str_len f)) d) else None
  end.

Lemma field_bytes_len f d :
  0 <= str_len f -> field_bytes f = Some d -> len d = str_len f.
Proof.
  unfold field_bytes. intros Hl. destruct (str_ptr f) as [d'|].
  - destruct (Z.leb_spec (str_len f) (len d')); [|done]. intros [= <-]. by apply len_take.
  - intros [= <-]. by apply len_replicate.
Qed.

Lemma MqttEncode_Data_eq buf f d :
  0 <= str_len f < 65536 -> field_bytes f = Some d ->
  MqttEncode_Data buf (str_ptr f) (str_len f) = Ok (2 + len d, when buf (counted d)).
Proof.
  intros Hl Hd. pose proof (field_bytes_len _ _ (proj1 Hl) Hd) as Hlen.
  unfold MqttEncode_Data. rewrite MqttEncode_Num_eq by done. cbn [mbind result_bind].
  rewrite Hlen. destruct buf; [|done]. unfold counted. rewrite Hlen.
  unfold field_bytes in Hd. destruct (str_ptr f) as [d'|]; [|by simplify_eq].
  destruct (Z.leb_spec (str_len f) (len d')); [|done]. simplify_eq.
  by rewrite slice_ok by lia.
Qed.

Lemma MqttEncode_Data_null data n :
  0 <= n < 65536 -> MqttEncode_Data false data n = Ok (2 + n, []).
Proof. intros. unfold MqttEncode_Data. by rewrite MqttEncode_Num_eq. Qed.

(** ** The contract of an encoder *)

(** [answers e P n bs]: when [P] holds the encoder returns [n] and has written
    [bs]; otherwise it returns an error. *)
Definition answers (e : emit) (P : Prop) (n : Z) (bs : list Z) : Prop :=
  (P /\ e = Ok (n, bs)) \/ (~ P /\ exists rc, rc < 0 /\ e = Err rc).

Lemma answers_ok (P : Prop) n bs : P -> answers (Ok (n, bs)) P n bs.
Proof. by left. Qed.

Lemma answers_err (P : Prop) rc n bs : rc < 0 -> ~ P -> answers (Err rc) P n bs.
Proof. intros. right. split; [done|]. by exists rc. Qed.

Lemma answers_iff e (P Q : Prop) n bs : (P <-> Q) -> answers e Q n bs -> answers e P n bs.
Proof. intros HPQ [[H ->]|[H He]]; [left|right]; tauto. Qed.

(** Equivalent conditions are exchanged by rewriting. *)
#[export] Instance answers_proper e : Proper (iff ==> eq ==> eq ==> iff) (answers e).
Proof.
  intros P Q HPQ n ? <- bs ? <-. split; apply answers_iff; [symmetry|]; exact HPQ.
Qed.

Lemma answers_inv e P n bs r b : answers e P n bs -> e = Ok (r, b) -> P /\ r = n /\ b = bs.
Proof. intros [[H ->]|[H (rc & _ & ->)]]; [|done]. by intros [= <- <-]. Qed.

Lemma answers_holds e (P : Prop) n bs : answers e P n bs -> P -> e = Ok (n, bs).
Proof. intros [[_ ->]|[H _]]; tauto. Qed.

Lemma answers_err_rc e P n bs rc : answers e P n bs -> e = Err rc -> ~ P /\ rc < 0.
Proof. intros [[_ ->]|[H (rc' & Hrc & ->)]]; [done|]. by intros [= <-]. Qed.

Lemma answers_bind e (k : Z * list Z -> emit) P Q n bs m cs :
  answers e P n bs -> (P -> answers (k (n, bs)) Q m cs) -> answers (e ≫= k) (P /\ Q) m cs.
Proof.
  intros [[H ->]|[H (rc & Hrc & ->)]] Hk.
  - eapply answers_iff; [|by apply Hk]. tauto.
  - apply answers_err; tauto.
Qed.

Lemma answers_app e1 e2 P Q n bs m cs :
  answers e1 P n bs -> (P -> answers e2 Q m cs) ->
  answers (e1 +++ e2) (P /\ Q) (n + m) (bs ++ cs).
Proof.
  intros H1 H2. unfold emit_app. eapply answers_bind; [exact H1|]. intros HP.
  eapply answers_iff; [|eapply (answers_bind _ _ Q True); [by apply H2|]].
  - tauto.
  - intros _. by apply answers_ok.
Qed.

(** An argument check that fails makes the encoder return an error. *)
Lemma answers_guard (b : bool) rc e (P Q : Prop) n bs :
  rc < 0 -> (b = false <-> P) -> (P -> answers e Q n bs) ->
  answers (if b then Err rc else e) (P /\ Q) n bs.
Proof.
  intros Hrc Hb He. destruct b.
  - apply answers_err; [done|]. rewrite <- Hb. by intros [? _].
  - eapply answers_iff; [|apply He; by apply Hb]. rewrite <- Hb. tauto.
Qed.

Lemma answers_decides r rc e (P Q : Prop) n bs :
  rc < 0 -> decides r P -> (P -> answers e Q n bs) ->
  answers (ok ← r; if negb ok then Err rc else e) (P /\ Q) n bs.
Proof.
  intros Hrc (b & -> & Hb) He. cbn [mbind result_bind].
  apply answers_guard; [done|by destruct b; rewrite <- Hb|done].
Qed.

Lemma answers_eq e P n bs m cs : answers e P n bs -> n = m -> bs = cs -> answers e P m cs.
Proof. by intros ? <- <-. Qed.

(** A check that settles before the packet is written. *)
Lemma answers_settles {A} (r : result A) (k : A -> emit) (P P' : Prop) Q n bs :
  settles r P Q -> (forall a, P -> Q a -> answers (k a) P' n bs) -> answers (r ≫= k) (P /\ P') n bs.
Proof.
  intros [(H & a & -> & Ha)|[H (rc & Hrc & ->)]] Hk.
  - eapply answers_iff; [|by apply Hk]. tauto.
  - apply answers_err; tauto.
Qed.

(** The field encoders under this contract. *)
Lemma MqttEncode_Vbi_answers buf x :
  0 <= x ->
  answers (MqttEncode_Vbi buf x) (x <= MQTT_PACKET_MAX_REMAIN_LEN) (len (vbi 4 x)) (when buf (vbi 4 x)).
Proof.
  intros Hx. destruct (Z.le_gt_cases x MQTT_PACKET_MAX_REMAIN_LEN).
  - left. split; [done|]. by apply MqttEncode_Vbi_eq.
  - right. split; [lia|]. unfold MqttEncode_Vbi. rewrite (proj2 (Z.ltb_lt _ _)) by lia. eexists; split; [|reflexivity]; lia.
Qed.

Lemma MqttEncode_String_answers buf s :
  answers (MqttEncode_String buf s) (len (cstr s) <= 65535) (2 + len (cstr s))
    (when buf (counted (cstr s))).
Proof.
  destruct (Z.le_gt_cases (len (cstr s)) 65535).
  - left. split; [done|]. by apply MqttEncode_String_eq.
  - right. split; [lia|]. unfold MqttEncode_String. rewrite <- cstr_len.
    rewrite (proj2 (Z.ltb_lt _ _)) by lia. eexists; split; [|reflexivity]; lia.
Qed.

Lemma MqttEncode_Utf8Ok_decides s d n :
  0 <= n <= 65535 -> field_bytes (mkStr n s) = Some d -> bytes d ->
  decides (MqttEncode_Utf8Ok s n) (utf8_text d).
Proof.
  intros Hn Hd Hb. pose proof (field_bytes_len (mkStr n s) d ltac:(simpl; lia) Hd) as Hl.
  cbn [str_len] in Hl. unfold MqttEncode_Utf8Ok.
  destruct (Z.eqb_spec n 0) as [->|Hz].
  { apply decides_true. destruct d; [constructor|]. lens. pose proof (len_nonneg d). lia. }
  unfold field_bytes in Hd. cbn [str_ptr str_len] in Hd. destruct s as [s|].
  - destruct (Z.leb_spec n (len s)); [|done]. injection Hd as <-. rewrite u16_small by lia.
    rewrite <- (take_drop (Z.to_nat n) s) at 1. apply Utf8WellFormed_decides; [done|done|lia].
  - injection Hd as <-. apply decides_false. intros Ht%utf8_text_nonzero.
    destruct (Z.to_nat n) eqn:E; [lia|]. simpl in Ht. by inversion Ht.
Qed.

(** ** Properties *)

(** A Variable Byte Integer is decoded exactly where its encoding is found
    whole: what [MqttEncode_Vbi] writes is read back, in the number of bytes
    written, and [MqttDecode_Vbi] accepts nothing else, in particular no longer
    encoding of the same value. *)
Theorem MqttDecode_Vbi_exact buf off buf_len x n :
  bytes buf -> 0 <= x < 4294967296 ->
  MqttDecode_Vbi buf off buf_len = Ok (x, n) <->
  exists bs, MqttEncode_Vbi true x = Ok (n, bs) /\ sits buf off bs /\ n <= buf_len.
Proof.
  intros Hb Hx. split.
  - intros (? & ? & -> & ? & ?)%MqttDecode_Vbi_inv; [|done].
    exists (vbi 4 x). rewrite MqttEncode_Vbi_eq by lia. done.
  - intros (bs & E & Hs & Hn). destruct (MqttEncode_Vbi_inv true x n bs) as (? & -> & ->); [lia|done|].
    apply MqttDecode_Vbi_sits; [lia|done..].
Qed.

Lemma MqttDecode_Vbi_exact_witness :
  exists n, n = 2 /\ MqttDecode_Vbi [7; 193; 2; 9] 1 3 = Ok (321, n).
Proof.
  exists 2. split; [reflexivity|].
  apply (MqttDecode_Vbi_exact [7; 193; 2; 9] 1 3 321 2); [by_eval|lia|].
  exists [193; 2]. split_and!; [reflexivity|by exists [7], [9]|lia].
Defined.

(** C30: [Utf8WellFormed] reads nothing outside the string, ends, and accepts
    exactly the sequences of RFC 3629 encodings of Unicode scalar values other
    than U+0000: no overlong form, no surrogate, nothing above U+10FFFF. *)
Theorem Utf8WellFormed_exact s ext :
  bytes s -> len s <= 65535 ->
  exists b, Utf8WellFormed (s ++ ext) (len s) = Ok b /\ (b = true <-> utf8_text s).
Proof. intros Hb Hl. by apply Utf8WellFormed_decides. Qed.

Lemma Utf8WellFormed_exact_witness :
  exists b, Utf8WellFormed [226; 130; 172; 0] 3 = Ok b /\ (b = true <-> utf8_text [226; 130; 172]).
Proof. apply (Utf8WellFormed_exact [226; 130; 172] [0]); [by_eval|done]. Defined.

(** A string field is decoded exactly where a two-byte length, followed by
    that many bytes of well-formed UTF-8 without U+0000, lies within the bytes
    the caller allows. *)
Theorem MqttDecode_String_exact buf off buf_len s l n :
  bytes buf -> 0 <= off -> off + buf_len <= len buf -> buf_len < 4294967296 ->
  MqttDecode_String buf off buf_len = Ok (s, l, n) <->
  sits buf off (counted s) /\ utf8_text s /\ l = len s /\ l <= 65535 /\ n = 2 + l /\ n <= buf_len.
Proof.
  intros Hb Ho Hl Hm. split.
  - intros E. pose proof (MqttDecode_String_yields buf off buf_len Hb Ho Hl Hm) as H.
    rewrite E in H. destruct H as (? & ? & ? & ? & ? & ? & ?). split_and!; done || lia.
  - intros (Hs & Hu & -> & Hn & -> & Hle). apply MqttDecode_String_sits; try done.
    destruct Hs as (pre & post & E & _). rewrite E in Hb. unfold counted in Hb.
    rewrite !Forall_app in Hb. tauto.
Qed.

Lemma MqttDecode_String_exact_witness :
  exists s l n, s = [195; 169] /\ l = 2 /\ n = 4 /\
    MqttDecode_String [0; 2; 195; 169; 5] 0 5 = Ok (s, l, n).
Proof.
  exists [195; 169], 2, 4. split_and!; [reflexivity..|].
  apply (MqttDecode_String_exact [0; 2; 195; 169; 5] 0 5); [by_eval|lia|done|lia|].
  split_and!; [by exists [], [5]| |reflexivity|lia|reflexivity|lia].
  apply (utf8_cons 233 []); [split; lia|constructor].
Defined.
