(* ===== verification/Topic.v ===== *)
(** * Topic: Topic Filter and Topic Name validation of [mqtt_packet.c]

    [MqttPacket_TopicFilterValid_ex], [MqttPacket_TopicFilterValid],
    [MqttPacket_TopicFilterIsShared], [MqttPacket_TopicNameValid] and
    [MqttPacket_TopicFilterIsWildcard], and what they promise in terms of the
    levels of a topic. A [const char*] with its length is an optional object
    and a [word16]. *)
From S2P Require Import Prelude PacketDefs.

Abbreviation TOPIC_LEVEL_SEPERATOR := 47. (* '/' *)
Abbreviation TOPIC_LEVEL_SINGLE := 43. (* '+' *)
Abbreviation TOPIC_LEVEL_MULTI := 35. (* '#' *)

(** "$share/" *)
Definition share_prefix : list Z := [36; 115; 104; 97; 114; 101; 47].

(** The loop over the ShareName: the index it stops at, or [None] for
    [return 0]. *)
Fixpoint share_name_loop (fuel : nat) (filter : list Z) (n name_end : Z)
    : result (option Z) :=
  match fuel with
  | O => UB
  | S fuel =>
    if name_end <? n then
      c ← rd filter name_end;
      if negb (c =? TOPIC_LEVEL_SEPERATOR) then
        if (c =? TOPIC_LEVEL_SINGLE) || (c =? TOPIC_LEVEL_MULTI) then Ok None
        else share_name_loop fuel filter n (u16 (name_end + 1))
      else Ok (Some name_end)
    else Ok (Some name_end)
  end.

(** [filter[j] != '/'] *)
Definition not_sep_at (filter : list Z) (j : Z) : result bool :=
  p ← rd filter j; Ok (negb (p =? TOPIC_LEVEL_SEPERATOR)).

(** The loop over the characters from index [i]. *)
Fixpoint wildcard_loop (fuel : nat) (filter : list Z) (n i : Z) : result bool :=
  match fuel with
  | O => UB
  | S fuel =>
    if i <? n then
      c ← rd filter i;
      if c =? TOPIC_LEVEL_MULTI then
        bad ← (if negb (i =? 0) then not_sep_at filter (i - 1) else Ok false);
        if bad : bool then Ok false
        else if negb (i =? u16 (n - 1)) then Ok false
        else wildcard_loop fuel filter n (u16 (i + 1))
      else if c =? TOPIC_LEVEL_SINGLE then
        bad ← (if negb (i =? 0) then not_sep_at filter (i - 1) else Ok false);
        if bad : bool then Ok false
        else
          bad ← (if negb (i =? u16 (n - 1)) then not_sep_at filter (i + 1) else Ok false);
          if bad : bool then Ok false
          else wildcard_loop fuel filter n (u16 (i + 1))
      else wildcard_loop fuel filter n (u16 (i + 1))
    else Ok true
  end.

Definition MqttPacket_TopicFilterValid_ex (filter : option (list Z)) (n : Z)
    (protocol_level : Z) : result bool :=
  match filter with
  | None => Ok false
  | Some filter =>
    if n =? 0 then Ok false
    else
      shared ← (if (MQTT_CONNECT_PROTOCOL_LEVEL_5 <=? protocol_level) && (7 <=? n) then
                  p ← slice filter 0 7; Ok (bool_decide (p = share_prefix))
                else Ok false);
      if shared : bool then
        e ← share_name_loop (S (Z.to_nat n)) filter n 7;
        match e with
        | None => Ok false
        | Some name_end =>
            if (name_end =? 7) || (u16 (n - 1) <=? name_end) then Ok false
            else wildcard_loop (S (Z.to_nat n)) filter n (u16 (name_end + 1))
        end
      else wildcard_loop (S (Z.to_nat n)) filter n 0
  end.

Definition MqttPacket_TopicFilterValid (filter : option (list Z)) (n : Z) : result bool :=
  MqttPacket_TopicFilterValid_ex filter n MQTT_CONNECT_PROTOCOL_LEVEL_4.

Definition MqttPacket_TopicFilterIsShared (filter : option (list Z)) (n : Z) : result bool :=
  match filter with
  | None => Ok false
  | Some filter =>
    if 7 <=? n then p ← slice filter 0 7; Ok (bool_decide (p = share_prefix))
    else Ok false
  end.

(** The scan for a wildcard character shared by the two functions below:
    whether one of the [n] characters is '#' or '+'. *)
Fixpoint has_wildcard_loop (fuel : nat) (s : list Z) (n i : Z) : result bool :=
  match fuel with
  | O => UB
  | S fuel =>
    if i <? n then
      c ← rd s i;
      if (c =? TOPIC_LEVEL_MULTI) || (c =? TOPIC_LEVEL_SINGLE) then Ok true
      else has_wildcard_loop fuel s n (u16 (i + 1))
    else Ok false
  end.

Definition MqttPacket_TopicNameValid (topic_name : option (list Z)) (n : Z)
    (protocol_level : Z) : result bool :=
  match topic_name with
  | None => Ok false
  | Some s =>
    w ← has_wildcard_loop (S (Z.to_nat n)) s n 0;
    if w : bool then Ok false
    else if (n =? 0) && (protocol_level <? MQTT_CONNECT_PROTOCOL_LEVEL_5) then Ok false
    else Ok true
  end.

Definition MqttPacket_TopicFilterIsWildcard (filter : option (list Z)) (n : Z) : result bool :=
  match filter with
  | None => Ok false
  | Some s => has_wildcard_loop (S (Z.to_nat n)) s n 0
  end.

(** ** Topic levels *)

(** The levels of a topic or filter: its pieces between separators. *)
Fixpoint levels (s : list Z) : list (list Z) :=
  match s with
  | [] => [[]]
  | c :: s' =>
    match levels s' with
    | l :: ls => if c =? TOPIC_LEVEL_SEPERATOR then [] :: l :: ls else (c :: l) :: ls
    | [] => []
    end
  end.

(** No wildcard character. *)
Definition plain (l : list Z) : Prop :=
  Forall (fun c => c <> TOPIC_LEVEL_MULTI /\ c <> TOPIC_LEVEL_SINGLE) l.

(** The placement rules: a wildcard occupies a whole level, and '#' is the
    last one. *)
Fixpoint levels_ok (ls : list (list Z)) : Prop :=
  match ls with
  | [] => True
  | l :: ls' =>
    (plain l \/ l = [TOPIC_LEVEL_SINGLE] \/ (l = [TOPIC_LEVEL_MULTI] /\ ls' = [])) /\
    levels_ok ls'
  end.

(** A well-formed filter without shared-subscription constraints. *)
Definition filter_ok (s : list Z) : Prop := s <> [] /\ levels_ok (levels s).

(** A well-formed filter at a protocol level. *)
Definition filter_ok_at (protocol_level : Z) (s : list Z) : Prop :=
  if bool_decide (MQTT_CONNECT_PROTOCOL_LEVEL_5 <= protocol_level /\ share_prefix `prefix_of` s)
  then exists name rest, s = share_prefix ++ name ++ TOPIC_LEVEL_SEPERATOR :: rest /\
         name <> [] /\ plain name /\ Forall (fun c => c <> TOPIC_LEVEL_SEPERATOR) name /\
         filter_ok rest
  else filter_ok s.

(** ** The scanners in terms of lists *)

(** The rules character by character; [sep]: at the start of a level. *)
Fixpoint scan (sep : bool) (l : list Z) : bool :=
  match l with
  | [] => true
  | c :: r =>
    if c =? TOPIC_LEVEL_MULTI then sep && (match r with [] => true | _ => false end)
    else if c =? TOPIC_LEVEL_SINGLE then
      sep && (match r with [] => true | q :: _ => q =? TOPIC_LEVEL_SEPERATOR end) && scan false r
    else scan (c =? TOPIC_LEVEL_SEPERATOR) r
  end.

Lemma levels_cons s : exists l ls, levels s = l :: ls.
Proof.
  induction s as [|c s (l & ls & IH)]; simpl; [eauto|]. rewrite IH. case_match; eauto.
Qed.

Lemma plain_nil : plain [].
Proof. constructor. Qed.

Lemma plain_cons c l :
  plain (c :: l) <-> (c <> TOPIC_LEVEL_MULTI /\ c <> TOPIC_LEVEL_SINGLE) /\ plain l.
Proof. split; [by inversion 1 | intros [? ?]; by constructor]. Qed.

(** [scan] at the start of a level checks the rules; inside a level it checks
    that the rest of the level is plain. *)
Lemma scan_levels l :
  (scan true l = true <-> levels_ok (levels l)) /\
  (scan false l = true <->
     match levels l with l0 :: ls => plain l0 /\ levels_ok ls | [] => False end).
Proof.
  induction l as [|c r [IHt IHf]]; simpl.
  { split; split; auto using plain_nil. }
  destruct (levels_cons r) as (l0 & ls & E). rewrite E in *.
  destruct (Z.eqb_spec c TOPIC_LEVEL_MULTI) as [->|Hm].
  { simpl. split; split; try done.
    - destruct r; [|done]. simpl in E. simplify_eq. simpl. auto.
    - simpl. intros [[H|[H|[H ->]]] _].
      + apply plain_cons in H. tauto.
      + done.
      + injection H as ->. destruct r as [|q r]; [done|].
        simpl in E. destruct (levels_cons r) as (? & ? & E'). rewrite E' in E.
        by case_match.
    - rewrite plain_cons. tauto. }
  destruct (Z.eqb_spec c TOPIC_LEVEL_SINGLE) as [->|Hs].
  { simpl. split; split.
    - intros [Hq Hr]%andb_true_iff. apply IHf in Hr as [Hp Hr]. simpl. split; [|done].
      right; left. f_equal. destruct r as [|q r]; simpl in *; [by simplify_eq|].
      destruct (levels_cons r) as (? & ? & E'). rewrite E' in E. rewrite Hq in E. by simplify_eq.
    - simpl. intros [[H|[H|[H _]]] Hls]; [apply plain_cons in H; tauto| |done].
      injection H as ->. apply andb_true_iff. split.
      + destruct r as [|q r]; [done|]. simpl in E.
        destruct (levels_cons r) as (? & ? & E'). rewrite E' in E. by case_match.
      + apply IHf. split; [apply plain_nil | done].
    - done.
    - rewrite plain_cons. tauto. }
  destruct (Z.eqb_spec c TOPIC_LEVEL_SEPERATOR) as [->|Hsep].
  { rewrite IHt. simpl. split; (split; [|tauto]); auto using plain_nil. }
  rewrite IHf. simpl. rewrite plain_cons. split; split.
  - tauto.
  - intros [[H|[H|[H _]]] ?]; [tauto|congruence..].
  - tauto.
  - tauto.
Qed.

Section Scan.
(** The string [s] at the start of the object [s ++ ext]. *)
Context (s ext : list Z) (n : Z).
Hypotheses (Hn : len s = n) (Hmax : n <= 65535).

Lemma rd_str i : 0 <= i < n -> exists c, rd (s ++ ext) i = Ok c /\ rd s i = Ok c.
Proof using Hn.
  intros Hi. rewrite rd_app_l by lia. destruct (rd_ok s i) as (c & E & _); [lia|]. eauto.
Qed.

(** Whether index [i] starts a level. *)
Definition at_sep (i : Z) : bool :=
  (i =? 0) || match s !! Z.to_nat (i - 1) with Some p => p =? 47 | None => false end.

Lemma prev_test i (k : bool -> result bool) :
  0 <= i <= n ->
  ((if negb (i =? 0) then not_sep_at (s ++ ext) (i - 1) else Ok false) ≫= k) = k (negb (at_sep i)).
Proof using Hn.
  intros Hi. unfold at_sep, not_sep_at. destruct (Z.eqb_spec i 0); [done|].
  rewrite rd_app_l by lia. destruct (rd_ok s (i - 1)) as (p & E & ->); [lia|]. by rewrite E.
Qed.

Lemma at_sep_next i c : rd s i = Ok c -> at_sep (i + 1) = (c =? TOPIC_LEVEL_SEPERATOR).
Proof using.
  intros [Hi Hc]%rd_inv. unfold at_sep. rewrite (proj2 (Z.eqb_neq _ _)) by lia.
  replace (i + 1 - 1) with i by lia. by rewrite Hc.
Qed.

Lemma wildcard_loop_scan fuel i :
  0 <= i <= n -> n - i < Z.of_nat fuel ->
  wildcard_loop fuel (s ++ ext) n i = Ok (scan (at_sep i) (drop (Z.to_nat i) s)).
Proof using Hn Hmax.
  revert i. induction fuel as [|fuel IH]; intros i Hi Hf; [lia|].
  cbn [wildcard_loop]. destruct (Z.ltb_spec i n); [|by rewrite drop_end by lia].
  destruct (rd_str i) as (c & E' & E); [lia|]. rewrite E', (drop_rd _ _ _ E).
  cbn [mbind result_bind scan]. rewrite !u16_small by lia.
  rewrite !prev_test by lia.
  destruct (Z.eqb_spec c TOPIC_LEVEL_MULTI) as [->|Hm];
    [|destruct (Z.eqb_spec c TOPIC_LEVEL_SINGLE) as [->|Hs]].
  - destruct (at_sep i); [|done]. cbn [negb]. destruct (Z.eqb_spec i (n - 1)); cbn [negb].
    + rewrite IH by lia. by rewrite drop_end by lia.
    + destruct (rd_str (i + 1)) as (q & _ & E3); [lia|]. by rewrite (drop_rd _ _ _ E3).
  - destruct (at_sep i); [|done]. cbn [negb]. rewrite IH by lia.
    rewrite (at_sep_next _ _ E). destruct (Z.eqb_spec i (n - 1)); cbn [negb].
    + cbn [mbind result_bind]. by rewrite drop_end by lia.
    + unfold not_sep_at. destruct (rd_str (i + 1)) as (q & E2 & E3); [lia|].
      rewrite E2, (drop_rd _ _ _ E3). cbn [mbind result_bind].
      by destruct (q =? TOPIC_LEVEL_SEPERATOR).
  - rewrite IH by lia. by rewrite (at_sep_next _ _ E).
Qed.

Lemma has_wildcard_loop_plain fuel i :
  0 <= i <= n -> n - i < Z.of_nat fuel ->
  exists b, has_wildcard_loop fuel (s ++ ext) n i = Ok b /\ (b = false <-> plain (drop (Z.to_nat i) s)).
Proof using Hn Hmax.
  revert i. induction fuel as [|fuel IH]; intros i Hi Hf; [lia|].
  cbn [has_wildcard_loop]. destruct (Z.ltb_spec i n).
  - destruct (rd_str i) as (c & E' & E); [lia|]. rewrite E', (drop_rd _ _ _ E).
    setoid_rewrite plain_cons. cbn [mbind result_bind]. rewrite u16_small by lia.
    destruct (Z.eqb_spec c TOPIC_LEVEL_MULTI); [exists true; split; [done|split; [done|tauto]]|].
    destruct (Z.eqb_spec c TOPIC_LEVEL_SINGLE); [exists true; split; [done|split; [done|tauto]]|].
    destruct (IH (i + 1)) as (b & -> & Hb); [lia|lia|]. exists b. cbn [orb]. tauto.
  - exists false. rewrite drop_end by lia. split; [done|split; auto using plain_nil].
Qed.

(** The ShareName loop stops at the first separator, or fails at a
    wildcard before it. *)
Lemma share_name_loop_spec fuel i :
  0 <= i <= n -> n - i < Z.of_nat fuel ->
  exists name rest, drop (Z.to_nat i) s = name ++ rest /\
    Forall (fun c => c <> TOPIC_LEVEL_SEPERATOR) name /\
    match rest with [] => True | c :: _ => c = TOPIC_LEVEL_SEPERATOR end /\
    (share_name_loop fuel (s ++ ext) n i = Ok None /\ ~ plain name \/
     share_name_loop fuel (s ++ ext) n i = Ok (Some (i + len name)) /\ plain name).
Proof using Hn Hmax.
  revert i. induction fuel as [|fuel IH]; intros i Hi Hf; [lia|].
  cbn [share_name_loop]. destruct (Z.ltb_spec i n); last first.
  { exists [], []. rewrite drop_end, len_nil, Z.add_0_r by lia.
    split_and!; auto using plain_nil. }
  destruct (rd_str i) as (c & E' & E); [lia|]. rewrite E', (drop_rd _ _ _ E).
  cbn [mbind result_bind]. rewrite u16_small by lia.
  destruct (Z.eqb_spec c TOPIC_LEVEL_SEPERATOR) as [->|Hc]; cbn [negb].
  { exists [], (47 :: drop (Z.to_nat (i + 1)) s). rewrite len_nil, Z.add_0_r.
    split_and!; auto using plain_nil. }
  destruct (IH (i + 1)) as (name & rest & -> & Hname & Hrest & H'); [lia|lia|].
  exists (c :: name), rest. rewrite plain_cons, len_cons.
  replace (i + (1 + len name)) with (i + 1 + len name) by lia.
  split_and!; [done|by constructor|done|].
  destruct (Z.eqb_spec c TOPIC_LEVEL_SINGLE); [left; split; [done|tauto]|].
  destruct (Z.eqb_spec c TOPIC_LEVEL_MULTI); [left; split; [done|tauto]|].
  cbn [orb]. tauto.
Qed.
End Scan.

(** ** What the validators decide *)

Lemma share_prefix_take s :
  7 <= len s -> take 7 s = share_prefix <-> share_prefix `prefix_of` s.
Proof.
  intros Hl. split.
  - intros <-. by apply prefix_take.
  - intros [k ->]. done.
Qed.

Lemma share_test s ext n :
  len s = n -> 7 <= n ->
  decides (p ← slice (s ++ ext) 0 7; Ok (bool_decide (p = share_prefix)))
    (share_prefix `prefix_of` s).
Proof.
  intros Hn H7. rewrite slice_app_l, slice_ok by lia. cbn [mbind result_bind].
  exists (bool_decide (take 7 s = share_prefix)). split; [done|].
  rewrite bool_decide_eq_true. apply share_prefix_take. lia.
Qed.

Lemma prefix_share_len s : share_prefix `prefix_of` s -> 7 <= len s.
Proof. intros [k ->]. rewrite len_app. change (len share_prefix) with 7. pose proof (len_nonneg k). lia. Qed.

(** The filter after the ShareName. *)
Lemma shared_tail_decides s ext n :
  len s = n -> 0 < n <= 65535 -> share_prefix `prefix_of` s ->
  decides
    (e ← share_name_loop (S (Z.to_nat n)) (s ++ ext) n 7;
     match e with
     | None => Ok false
     | Some name_end =>
         if (name_end =? 7) || (u16 (n - 1) <=? name_end) then Ok false
         else wildcard_loop (S (Z.to_nat n)) (s ++ ext) n (u16 (name_end + 1))
     end)
    (exists name rest, s = share_prefix ++ name ++ TOPIC_LEVEL_SEPERATOR :: rest /\
       name <> [] /\ plain name /\ Forall (fun c => c <> TOPIC_LEVEL_SEPERATOR) name /\
       filter_ok rest).
Proof.
  intros Hn Hr Hp. pose proof (prefix_share_len _ Hp).
  destruct (share_name_loop_spec s ext n Hn ltac:(lia) (S (Z.to_nat n)) 7)
    as (name & rest & Hd & Hname & Hrest & Hcase); [lia|lia|].
  assert (Hs : s = share_prefix ++ name ++ rest).
  { rewrite <- Hd, <- (proj2 (share_prefix_take s ltac:(lia)) Hp). by rewrite take_drop. }
  assert (Huniq : forall name' rest', s = share_prefix ++ name' ++ 47 :: rest' ->
            Forall (fun c => c <> 47) name' -> name' = name /\ rest = 47 :: rest').
  { intros name' rest' Hs' Hn'. rewrite Hs in Hs'. apply app_inv_head in Hs'.
    clear - Hs' Hn' Hname Hrest. revert name' Hs' Hn'.
    induction name as [|c name IH]; intros [|c' name'] Hs' Hn'; simpl in *.
    - done.
    - subst rest. inversion Hn'. congruence.
    - simplify_eq. by inversion Hname.
    - simplify_eq. inversion Hname; inversion Hn'. destruct (IH ltac:(done) name'); subst; auto. }
  destruct Hcase as [[-> Hnp]|[-> Hpl]]; cbn [mbind result_bind].
  { apply decides_false. intros (name' & rest' & Hs' & _ & Hpl & Hf & _).
    destruct (Huniq _ _ Hs' Hf) as [-> _]. done. }
  assert (Hlen : n = 7 + len name + len rest).
  { subst n. rewrite Hs, !len_app. change (len share_prefix) with 7. lia. }
  pose proof (len_nonneg name). pose proof (len_nonneg rest).
  rewrite u16_small by lia.
  destruct (Z.eqb_spec (7 + len name) 7) as [He|He]; cbn [orb].
  { apply decides_false. intros (name' & rest' & Hs' & Hne & _ & Hf & _).
    destruct (Huniq _ _ Hs' Hf) as [-> _]. destruct name as [|x name]; [done|]. lens. pose proof (len_nonneg name). lia. }
  destruct (Z.leb_spec (n - 1) (7 + len name)) as [Hend|Hin].
  { apply decides_false. intros (name' & rest' & Hs' & _ & _ & Hf & Hok & _).
    destruct (Huniq _ _ Hs' Hf) as [-> ->]. destruct rest' as [|x rest']; [done|].
    lens. pose proof (len_nonneg rest'). lia. }
  destruct rest as [|c rest]; [lens; lia|]. subst c. lens.
  rewrite u16_small, (wildcard_loop_scan s ext n) by lia.
  assert (Hr7 : rd s (7 + len name) = Ok 47).
  { apply (rd_sits _ _ 47 rest). rewrite Hs, app_assoc.
    replace (7 + len name) with (len (share_prefix ++ name)) by (rewrite len_app; done).
    exists (share_prefix ++ name), []. by rewrite app_nil_r. }
  rewrite (at_sep_next _ _ _ Hr7). pose proof (drop_rd _ _ _ Hr7) as Hdr.
  assert (Hdrop : drop (Z.to_nat (7 + len name + 1)) s = rest).
  { assert (drop (Z.to_nat (7 + len name)) s = 47 :: rest) as Hx.
    { rewrite Hs, app_assoc. apply drop_app_length'. rewrite length_app.
      change (length share_prefix) with 7%nat. unfold len. lia. }
    congruence. }
  rewrite Hdrop. cbn [Z.eqb]. change (47 =? 47) with true.
  exists (scan true rest). split; [done|]. rewrite (proj1 (scan_levels rest)).
  split.
  - intros Hok. exists name, rest. split_and!; try done.
    + intros ->. done.
    + split; [|done]. intros ->. lens. lia.
  - intros (name' & rest' & Hs' & _ & _ & Hf & Hok & Hlv).
    destruct (Huniq _ _ Hs' Hf) as [_ ?]. by simplify_eq.
Qed.

Lemma MqttPacket_TopicFilterValid_ex_decides s ext n protocol_level :
  len s = n -> n <= 65535 ->
  decides (MqttPacket_TopicFilterValid_ex (Some (s ++ ext)) n protocol_level)
    (filter_ok_at protocol_level s).
Proof.
  intros Hn Hmax. unfold MqttPacket_TopicFilterValid_ex, filter_ok_at.
  pose proof (len_nonneg s).
  destruct (Z.eqb_spec n 0) as [Hz|Hz].
  { apply decides_false. destruct s; [|lens; pose proof (len_nonneg s); lia].
    rewrite bool_decide_eq_false_2; [by intros [? _]|].
    intros [_ Hp%prefix_share_len]. by lens. }
  assert (Hplain : decides (wildcard_loop (S (Z.to_nat n)) (s ++ ext) n 0) (filter_ok s)).
  { rewrite (wildcard_loop_scan s ext n) by lia. change (at_sep s 0) with true.
    exists (scan true s). split; [done|]. change (drop (Z.to_nat 0) s) with s.
    rewrite (proj1 (scan_levels s)). unfold filter_ok. split; [|tauto].
    intros. split; [|done]. intros ->. lens. lia. }
  destruct (Z.leb_spec MQTT_CONNECT_PROTOCOL_LEVEL_5 protocol_level);
    [destruct (Z.leb_spec 7 n)|]; cbn [andb].
  - apply (decides_bind _ _ _ (fun r => decides r _) (share_test s ext n Hn ltac:(lia))).
    + intros Hp. rewrite bool_decide_eq_true_2 by done. apply shared_tail_decides; [done|lia|done].
    + intros Hp. rewrite bool_decide_eq_false_2 by tauto. done.
  - rewrite bool_decide_eq_false_2; [done|]. intros [_ Hp%prefix_share_len]. lia.
  - rewrite bool_decide_eq_false_2; [done|]. lia.
Qed.

Lemma MqttPacket_TopicNameValid_decides s ext n protocol_level :
  len s = n -> n <= 65535 ->
  decides (MqttPacket_TopicNameValid (Some (s ++ ext)) n protocol_level)
    (plain s /\ (s <> [] \/ MQTT_CONNECT_PROTOCOL_LEVEL_5 <= protocol_level)).
Proof.
  intros Hn Hmax. pose proof (len_nonneg s). unfold MqttPacket_TopicNameValid.
  destruct (has_wildcard_loop_plain s ext n Hn Hmax (S (Z.to_nat n)) 0)
    as (b & -> & Hb); [lia|lia|]. change (drop (Z.to_nat 0) s) with s in Hb.
  cbn [mbind result_bind]. destruct b.
  { apply decides_false. intros [Hp _]. apply Hb in Hp. done. }
  destruct ((n =? 0) && _) eqn:E.
  - tests. apply decides_false. intros [_ [He|He]]; [|lia].
    destruct s; [done|]. lens. pose proof (len_nonneg s). lia.
  - apply decides_true. split; [tauto|]. apply andb_false_iff in E as [E|E]; tests; [|auto].
    left. intros ->. by lens.
Qed.

Lemma MqttPacket_TopicFilterIsShared_decides s ext n :
  len s = n ->
  decides (MqttPacket_TopicFilterIsShared (Some (s ++ ext)) n) (share_prefix `prefix_of` s).
Proof.
  intros Hn. unfold MqttPacket_TopicFilterIsShared.
  destruct (Z.leb_spec 7 n); [by apply (share_test s ext n)|].
  apply decides_false. intros Hp%prefix_share_len. lia.
Qed.

Lemma MqttPacket_TopicFilterIsWildcard_decides s ext n :
  len s = n -> n <= 65535 ->
  decides (MqttPacket_TopicFilterIsWildcard (Some (s ++ ext)) n) (~ plain s).
Proof.
  intros Hn Hmax. pose proof (len_nonneg s). unfold MqttPacket_TopicFilterIsWildcard.
  destruct (has_wildcard_loop_plain s ext n Hn Hmax (S (Z.to_nat n)) 0)
    as (b & -> & Hb); [lia|lia|]. change (drop (Z.to_nat 0) s) with s in Hb.
  exists b. split; [done|]. rewrite <- Hb. by destruct b.
Qed.

(** Without wildcards every rule on them holds. *)
Lemma plain_scan sep s : plain s -> scan sep s = true.
Proof.
  intros H. revert sep. induction H as [|c s [H1 H2] _ IH]; intros sep; [done|]. cbn [scan].
  rewrite (proj2 (Z.eqb_neq _ _) H1), (proj2 (Z.eqb_neq _ _) H2). apply IH.
Qed.

(** ** Properties *)

(** C31: [MqttPacket_TopicFilterValid_ex] reads nothing outside the filter,
    ends, and accepts exactly the well-formed filters: non-empty, a wildcard
    fills a whole level, '#' is last, and at protocol level 5 a shared
    subscription has a non-empty plain ShareName and a well-formed filter
    behind it. [MqttPacket_TopicFilterValid] is the same without shared
    subscriptions. *)
Theorem TopicFilterValid_exact s ext protocol_level :
  len s <= 65535 ->
  decides (MqttPacket_TopicFilterValid_ex (Some (s ++ ext)) (len s) protocol_level)
    (filter_ok_at protocol_level s) /\
  decides (MqttPacket_TopicFilterValid (Some (s ++ ext)) (len s)) (filter_ok s).
Proof.
  intros Hs. split; [by apply MqttPacket_TopicFilterValid_ex_decides|].
  apply (decides_iff _ _ (filter_ok_at MQTT_CONNECT_PROTOCOL_LEVEL_4 s));
    [|by apply MqttPacket_TopicFilterValid_ex_decides].
  unfold filter_ok_at. rewrite bool_decide_eq_false_2 by lia. done.
Qed.

(** "a/+/#", followed by a character that is not part of the filter. *)
Lemma TopicFilterValid_exact_witness :
  decides (MqttPacket_TopicFilterValid_ex (Some [97; 47; 43; 47; 35; 35]) 5 5)
    (filter_ok_at 5 [97; 47; 43; 47; 35]) /\
  MqttPacket_TopicFilterValid (Some [97; 47; 43; 47; 35; 35]) 5 = Ok true.
Proof.
  split; [|reflexivity]. apply (TopicFilterValid_exact [97; 47; 43; 47; 35] [35] 5). vm_compute. done.
Defined.

(** A name that [MqttPacket_TopicNameValid] accepts has no wildcard in the
    sense of [MqttPacket_TopicFilterIsWildcard], and a non-empty one is a
    well-formed filter of that one topic: the validators agree on names, and
    the empty name is left to protocol level 5. *)
Theorem TopicNameValid_exact s ext protocol_level :
  len s <= 65535 ->
  decides (MqttPacket_TopicNameValid (Some (s ++ ext)) (len s) protocol_level)
    (plain s /\ (s <> [] \/ MQTT_CONNECT_PROTOCOL_LEVEL_5 <= protocol_level)) /\
  decides (MqttPacket_TopicFilterIsWildcard (Some (s ++ ext)) (len s)) (~ plain s) /\
  (plain s -> s <> [] -> MqttPacket_TopicFilterValid (Some (s ++ ext)) (len s) = Ok true).
Proof.
  intros Hs. split_and!; [by apply MqttPacket_TopicNameValid_decides
    |by apply MqttPacket_TopicFilterIsWildcard_decides|].
  intros Hp Hne.
  destruct (MqttPacket_TopicFilterValid_ex_decides s ext (len s) 4 eq_refl Hs) as (b & E & Hb).
  unfold MqttPacket_TopicFilterValid. rewrite E. f_equal. apply Hb.
  unfold filter_ok_at. rewrite bool_decide_eq_false_2 by lia. split; [done|].
  by apply scan_levels, plain_scan.
Qed.

Lemma TopicNameValid_exact_witness :
  plain [97; 47; 98] /\ MqttPacket_TopicFilterValid (Some ([97; 47; 98] ++ [])) 3 = Ok true.
Proof.
  assert (H : plain [97; 47; 98]) by (repeat constructor; done).
  split; [exact H|]. apply (TopicNameValid_exact [97; 47; 98] [] 4); [vm_compute; done|exact H|done].
Defined.
