(* ===== verification/BrokerTopic.v ===== *)
(** * BrokerTopic: the topic matcher of the broker ([mqtt_broker.c])

    [BrokerTopicMatch] of a [WOLFMQTT_BROKER_WILDCARDS] build, compared with
    the level-by-level matching rule of MQTT 4.7. A C string is the list of
    its characters; a pointer into it is the suffix it points at. *)
From S2P Require Import Prelude PacketDefs Topic.

(** [*p], zero at the terminator. *)
Definition at0 (p : list Z) : Z := match p with [] => 0 | c :: _ => c end.

(** The loop that advances [t] to the next separator or the terminator. *)
Fixpoint skip_level (t : list Z) : list Z :=
  match t with
  | [] => []
  | c :: t' => if negb (c =? 0) && negb (c =? TOPIC_LEVEL_SEPERATOR) then skip_level t' else t
  end.

(** The main loop, which runs while neither pointer is at its terminator, and
    the tests after it. *)
Fixpoint BrokerTopicMatch_loop (fuel : nat) (f t : list Z) : result bool :=
  match fuel with
  | O => UB
  | S fuel =>
    if negb (at0 f =? 0) && negb (at0 t =? 0) then
      if at0 f =? TOPIC_LEVEL_MULTI then Ok (at0 (tail f) =? 0)
      else
        let step :=
          if at0 f =? TOPIC_LEVEL_SINGLE then Some (tail f, skip_level t)
          else if negb (at0 f =? at0 t) then None
          else Some (tail f, tail t) in
        match step with
        | None => Ok false
        | Some (f, t) =>
          if (at0 t =? TOPIC_LEVEL_SEPERATOR) && (at0 f =? TOPIC_LEVEL_SEPERATOR) then
            BrokerTopicMatch_loop fuel (tail f) (tail t)
          else if (at0 t =? TOPIC_LEVEL_SEPERATOR) || (at0 f =? TOPIC_LEVEL_SEPERATOR) then
            Ok ((at0 f =? TOPIC_LEVEL_SEPERATOR) && (at0 (tail f) =? TOPIC_LEVEL_MULTI) &&
                (at0 (tail (tail f)) =? 0) && (at0 t =? 0))
          else BrokerTopicMatch_loop fuel f t
        end
    else if at0 f =? TOPIC_LEVEL_MULTI then Ok (at0 (tail f) =? 0)
    else if (at0 f =? TOPIC_LEVEL_SINGLE) && (at0 (tail f) =? 0) && (at0 t =? 0) then Ok true
    else Ok ((at0 f =? 0) && (at0 t =? 0))
  end.

(** Every round advances [f]. *)
Definition BrokerTopicMatch (filter topic : option (list Z)) : result bool :=
  match filter, topic with
  | Some f, Some t =>
      if (at0 t =? 36) && ((at0 f =? TOPIC_LEVEL_SINGLE) || (at0 f =? TOPIC_LEVEL_MULTI))
      then Ok false
      else BrokerTopicMatch_loop (S (length f)) f t
  | _, _ => Ok false
  end.

(** ** The matching rule of MQTT 4.7 *)

(** A '+' level matches any one level, a '#' level any number of them, the
    parent included; other levels match themselves. *)
Fixpoint level_match (fs ts : list (list Z)) : bool :=
  match fs with
  | [] => match ts with [] => true | _ => false end
  | f :: fs' =>
    if bool_decide (f :: fs' = [[TOPIC_LEVEL_MULTI]]) then true
    else match ts with
         | [] => false
         | t :: ts' =>
             (bool_decide (f = [TOPIC_LEVEL_SINGLE]) || bool_decide (f = t)) &&
             level_match fs' ts'
         end
  end.

(** A topic that starts with '$' is not matched by a leading wildcard. *)
Definition topic_match (f t : list Z) : bool :=
  negb ((at0 t =? 36) && ((at0 f =? TOPIC_LEVEL_SINGLE) || (at0 f =? TOPIC_LEVEL_MULTI))) &&
  level_match (levels f) (levels t).

(** Every separator of the topic is followed by a character other than a
    separator: only the first level may be empty. *)
Fixpoint calm (t : list Z) : Prop :=
  match t with
  | [] => True
  | c :: r => (c = TOPIC_LEVEL_SEPERATOR -> r <> [] /\ at0 r <> TOPIC_LEVEL_SEPERATOR) /\ calm r
  end.

(** The characters of a C string. *)
Definition chars (s : list Z) : Prop := Forall (fun c => c <> 0) s.

(** ** The matcher follows the rule *)

Lemma at0_zero s : chars s -> (at0 s =? 0) = bool_decide (s = []).
Proof.
  destruct 1 as [|c s Hc _]; [done|]. cbn [at0].
  rewrite (proj2 (Z.eqb_neq c 0)) by done. by rewrite bool_decide_eq_false_2.
Qed.

Lemma chars_tail s : chars s -> chars (tail s).
Proof. destruct 1; [constructor | done]. Qed.

Lemma levels_sep s : levels (TOPIC_LEVEL_SEPERATOR :: s) = [] :: levels s.
Proof. simpl. destruct (levels_cons s) as (l & ls & ->). done. Qed.

Lemma levels_char c s l ls :
  c <> TOPIC_LEVEL_SEPERATOR -> levels s = l :: ls -> levels (c :: s) = (c :: l) :: ls.
Proof. intros Hc E. simpl. rewrite E. by rewrite (proj2 (Z.eqb_neq c 47)). Qed.

(** What [skip_level] leaves. *)
Lemma skip_level_spec t :
  chars t ->
  exists t0, match skip_level t with
    | [] => levels t = [t0] /\ (t <> [] -> t0 <> [])
    | c :: t'' => c = TOPIC_LEVEL_SEPERATOR /\ levels t = t0 :: levels t''
    end /\ (exists pre, t = pre ++ skip_level t).
Proof.
  induction 1 as [|c t Hc _ IH]; simpl.
  { exists []. split; [done|by exists []]. }
  rewrite (proj2 (Z.eqb_neq c 0)) by done. simpl.
  destruct (Z.eqb_spec c TOPIC_LEVEL_SEPERATOR) as [->|Hs]; simpl.
  { exists []. destruct (levels_cons t) as (l & ls & E). rewrite E.
    split; [done|by exists []]. }
  destruct IH as (t0 & IH & [pre Hpre]). exists (c :: t0).
  split; [|exists (c :: pre); by rewrite Hpre at 1].
  destruct (skip_level t) as [|d t'']; [by destruct IH as [-> ?]|by destruct IH as [-> ->]].
Qed.

Lemma calm_app pre t : calm (pre ++ t) -> calm t.
Proof. induction pre as [|c pre IH]; simpl; tauto. Qed.

Lemma levels_single s l : levels s = [l] -> s = l.
Proof.
  revert l. induction s as [|c s IH]; intros l; simpl; [by intros [= <-]|].
  destruct (levels_cons s) as (l' & ls & E). rewrite E. rewrite E in IH.
  destruct (c =? 47); [done|]. intros [= <- ->]. f_equal. by apply IH.
Qed.

Lemma level_match_nil fs : level_match (levels fs) [] = bool_decide (fs = [TOPIC_LEVEL_MULTI]).
Proof.
  destruct (levels_cons fs) as (l & ls & E). rewrite E. cbn [level_match].
  destruct (decide (l :: ls = [[TOPIC_LEVEL_MULTI]])) as [Hd|Hd].
  - rewrite !bool_decide_eq_true_2; [done| |done]. rewrite Hd in E. by apply levels_single.
  - rewrite !bool_decide_eq_false_2; [done| |done]. intros ->. by simplify_eq.
Qed.

Lemma level_match_cons f fs t ts :
  f :: fs <> [[TOPIC_LEVEL_MULTI]] ->
  level_match (f :: fs) (t :: ts) =
    (bool_decide (f = [TOPIC_LEVEL_SINGLE]) || bool_decide (f = t)) && level_match fs ts.
Proof. intros H. cbn [level_match]. by rewrite bool_decide_eq_false_2. Qed.

(** The claim about a round of the loop: [sep] when both pointers are at the
    start of a level. *)
Definition loop_claim (fuel : nat) (sep : bool) (f t : list Z) : Prop :=
  exists b, BrokerTopicMatch_loop fuel f t = Ok b /\
    (b = true -> level_match (levels f) (levels t) = true) /\
    (calm t -> (sep = true -> t <> [] ) ->
       level_match (levels f) (levels t) = true -> b = true).

Lemma loop_claim_eq fuel sep f t b :
  BrokerTopicMatch_loop fuel f t = Ok b -> level_match (levels f) (levels t) = b ->
  loop_claim fuel sep f t.
Proof. intros H <-. by eexists. Qed.

(** Comparing the first characters, outside a wildcard. *)
Lemma level_match_char c r t :
  c <> TOPIC_LEVEL_MULTI -> c <> TOPIC_LEVEL_SINGLE ->
  scan (c =? TOPIC_LEVEL_SEPERATOR) r = true ->
  level_match (levels (c :: r)) (levels (c :: t)) = level_match (levels r) (levels t).
Proof.
  intros Hm Hs Hscan. destruct (Z.eqb_spec c TOPIC_LEVEL_SEPERATOR) as [->|Hc].
  - rewrite !levels_sep. destruct (levels_cons r) as (l & ls & ->).
    by rewrite level_match_cons.
  - destruct (levels_cons r) as (l & ls & El), (levels_cons t) as (l' & ls' & El').
    rewrite (levels_char c r l ls), (levels_char c t l' ls') by done. rewrite El, El'.
    assert (Hp : plain l).
    { apply scan_levels in Hscan. rewrite El in Hscan. tauto. }
    rewrite !level_match_cons by
      (intros [= -> ->]; try apply plain_cons in Hp; tauto).
    rewrite (bool_decide_eq_false_2 (c :: l = _)) by congruence.
    rewrite (bool_decide_eq_false_2 (l = _)) by
      (intros ->; apply plain_cons in Hp; tauto).
    simpl. f_equal. apply bool_decide_ext. split; congruence.
Qed.

Lemma level_match_mismatch c d r t :
  c <> TOPIC_LEVEL_MULTI -> c <> TOPIC_LEVEL_SINGLE -> c <> d ->
  level_match (levels (c :: r)) (levels (d :: t)) = false.
Proof.
  intros Hm Hs Hd. simpl.
  destruct (levels_cons r) as (l & ls & ->), (levels_cons t) as (l' & ls' & ->).
  destruct (Z.eqb_spec c TOPIC_LEVEL_SEPERATOR), (Z.eqb_spec d TOPIC_LEVEL_SEPERATOR);
    try congruence; rewrite level_match_cons by congruence;
    by rewrite !bool_decide_eq_false_2 by congruence.
Qed.

Lemma level_match_end r t :
  r = [] \/ at0 r = TOPIC_LEVEL_SEPERATOR ->
  level_match (levels (TOPIC_LEVEL_SINGLE :: r)) t =
    match t with
    | [] => false
    | _ :: ts => match r with [] => bool_decide (ts = []) | _ :: r' => level_match (levels r') ts end
    end.
Proof.
  intros Hr. destruct r as [|c r].
  - destruct t as [|t0 ts]; [done|]. change (levels [43]) with [[43]].
    rewrite level_match_cons by done. by destruct ts.
  - destruct Hr as [Hr|Hr]; [done|]. simpl in Hr. subst c.
    rewrite (levels_char _ _ [] (levels r)); [|done|apply levels_sep].
    destruct (levels_cons r) as (l & ls & ->).
    destruct t as [|t0 ts]; [cbn [level_match]; by rewrite bool_decide_eq_false_2|].
    rewrite level_match_cons by done. by rewrite bool_decide_eq_true_2.
Qed.

(** The test for a final "/#" of the filter at the end of the topic. *)
Lemma parent_test r t :
  chars r -> chars t ->
  (at0 r =? TOPIC_LEVEL_SEPERATOR) && (at0 (tail r) =? TOPIC_LEVEL_MULTI) &&
  (at0 (tail (tail r)) =? 0) && (at0 t =? 0) =
  bool_decide (r = [TOPIC_LEVEL_SEPERATOR; TOPIC_LEVEL_MULTI] /\ t = []).
Proof.
  intros Hr Ht. rewrite (at0_zero t) by done.
  rewrite (at0_zero (tail (tail r))) by by apply chars_tail, chars_tail.
  destruct r as [|a [|b r]]; cbn [at0 tail].
  - by rewrite (bool_decide_eq_false_2 (_ /\ _)) by (intros [? ?]; congruence).
  - rewrite (bool_decide_eq_false_2 (_ /\ _)) by (intros [? ?]; congruence).
    by rewrite andb_false_r.
  - destruct (Z.eqb_spec a 47), (Z.eqb_spec b 35); cbn [andb];
      try (by rewrite bool_decide_eq_false_2 by (intros [? ?]; congruence)).
    subst. rewrite <- bool_decide_and. apply bool_decide_ext.
    split; [by intros [-> ->] | by intros [[= ->] ->]].
Qed.

(** The rounds of the loop: both pointers move to what is left of the current
    level. *)
Lemma loop_claim_next fuel r t :
  chars r -> chars t ->
  let body :=
    if (at0 t =? TOPIC_LEVEL_SEPERATOR) && (at0 r =? TOPIC_LEVEL_SEPERATOR) then
      BrokerTopicMatch_loop fuel (tail r) (tail t)
    else if (at0 t =? TOPIC_LEVEL_SEPERATOR) || (at0 r =? TOPIC_LEVEL_SEPERATOR) then
      Ok ((at0 r =? TOPIC_LEVEL_SEPERATOR) && (at0 (tail r) =? TOPIC_LEVEL_MULTI) &&
          (at0 (tail (tail r)) =? 0) && (at0 t =? 0))
    else BrokerTopicMatch_loop fuel r t in
  (exists r' t', r = 47 :: r' /\ t = 47 :: t' /\ body = BrokerTopicMatch_loop fuel r' t') \/
  (((exists t', t = 47 :: t' /\ at0 r <> 47) \/ (exists r', r = 47 :: r' /\ at0 t <> 47)) /\
     body = Ok (bool_decide (r = [47; 35] /\ t = []))) \/
  (at0 r <> 47 /\ at0 t <> 47 /\ body = BrokerTopicMatch_loop fuel r t).
Proof.
  intros Hr Ht body. subst body. rewrite parent_test by done.
  destruct (Z.eqb_spec (at0 t) 47) as [E|E], (Z.eqb_spec (at0 r) 47) as [E'|E']; simpl.
  - left. destruct r, t; try done. simpl in *. subst. eauto.
  - right; left. destruct t; [done|]. simpl in E. subst. eauto.
  - right; left. destruct r; [done|]. simpl in E'. subst. eauto.
  - auto.
Qed.

Section Loop.
Context (fuel : nat).

(** The induction hypothesis of the loop. *)
Hypothesis IH : forall sep f t,
  (length f < fuel)%nat -> chars f -> chars t -> plain t -> scan sep f = true ->
  (sep = false -> at0 f <> TOPIC_LEVEL_SEPERATOR /\ at0 t <> TOPIC_LEVEL_SEPERATOR) ->
  loop_claim fuel sep f t.

(** A plain character of the filter. *)
Lemma loop_claim_char sep c r t :
  (length r < fuel)%nat ->
  chars (c :: r) -> chars t -> plain t ->
  c <> TOPIC_LEVEL_MULTI -> c <> TOPIC_LEVEL_SINGLE ->
  scan (c =? TOPIC_LEVEL_SEPERATOR) r = true ->
  (sep = false -> c <> TOPIC_LEVEL_SEPERATOR) ->
  loop_claim (S fuel) sep (c :: r) t.
Proof using IH.
  intros Hf Hcf Hct Hpt Hm Hs Hscan Hsep.
  inversion Hcf as [|? ? Hc Hr]; subst. unfold loop_claim. cbn [BrokerTopicMatch_loop at0].
  rewrite (proj2 (Z.eqb_neq c 0)), (proj2 (Z.eqb_neq c TOPIC_LEVEL_MULTI)),
    (proj2 (Z.eqb_neq c TOPIC_LEVEL_SINGLE)) by done.
  destruct t as [|d t]; simpl negb; cbn [andb].
  { exists false. split_and!; [done|done|]. intros _ Hne. destruct sep; [by specialize (Hne eq_refl)|].
    destruct (levels_cons r) as (l & ls & El). rewrite (levels_char c r l ls) by auto.
    change (levels []) with [@nil Z]. rewrite level_match_cons by congruence.
    by rewrite !bool_decide_eq_false_2 by congruence. }
  inversion Hct as [|? ? Hd Ht]; subst. apply plain_cons in Hpt as [_ Hpt]. cbn [at0 tail].
  rewrite (proj2 (Z.eqb_neq d 0)) by done. cbn [negb].
  destruct (Z.eqb_spec c d) as [<-|Hcd]; cbn [negb]; last first.
  { exists false. by rewrite level_match_mismatch. }
  rewrite level_match_char by done.
  destruct (loop_claim_next fuel r t Hr Ht)
    as [(r' & t' & -> & -> & ->)|[[Hone ->]|(Hr47 & Ht47 & ->)]].
  - inversion Hr; inversion Ht; subst. apply plain_cons in Hpt as [_ Hpt].
    rewrite !levels_sep. destruct (levels_cons r') as (l & ls & El).
    rewrite El, level_match_cons, <- El by done. cbn [bool_decide].
    destruct (IH true r' t') as (b & -> & Hsnd & Hcmp); try done; [simpl in *; lia|].
    exists b. rewrite bool_decide_eq_false_2, bool_decide_eq_true_2 by done. cbn [orb andb].
    split_and!; [done|done|]. intros [_ [H47 Hcalm]] _. apply Hcmp; [done|].
    intros _. by apply H47.
  - eexists. split; [done|]. split.
    { intros [-> ->]%bool_decide_eq_true. done. }
    intros [Hc47 Hcalm] _. rewrite bool_decide_eq_true. simpl in Hc47.
    destruct Hone as [(t' & -> & Hr47)|(r' & -> & Ht47)].
    + destruct (Z.eqb_spec c TOPIC_LEVEL_SEPERATOR) as [->|Hcs].
      { by destruct (Hc47 eq_refl). }
      destruct r as [|e r].
      * rewrite levels_sep. by destruct (levels_cons t') as (? & ? & ->).
      * simpl in Hr47, Hscan. rewrite level_match_mismatch; [done|..|done];
          intros ->; simpl in Hscan; by rewrite ?andb_false_l in Hscan.
    + destruct t as [|e t].
      * destruct (Z.eqb_spec c TOPIC_LEVEL_SEPERATOR) as [->|Hcs].
        { by destruct (Hc47 eq_refl). }
        rewrite levels_sep. destruct (levels_cons r') as (l & ls & El).
        rewrite El. change (levels []) with [@nil Z]. rewrite level_match_cons, <- El by done.
        rewrite level_match_nil. rewrite bool_decide_eq_false_2, bool_decide_eq_true_2 by done.
        by intros ->%bool_decide_eq_true.
      * by rewrite level_match_mismatch.
  - destruct (IH (c =? TOPIC_LEVEL_SEPERATOR) r t) as (b & -> & Hsnd & Hcmp); try done.
    exists b. split_and!; [done|done|]. intros [H47 Hcalm] _. apply Hcmp; [done|].
    intros ?%Z.eqb_eq. by apply H47.
Qed.

(** A '+' level of the filter. *)
Lemma loop_claim_single r t :
  (length r < fuel)%nat -> chars r -> chars t -> plain t ->
  r = [] \/ at0 r = TOPIC_LEVEL_SEPERATOR -> scan false r = true ->
  loop_claim (S fuel) true (TOPIC_LEVEL_SINGLE :: r) t.
Proof using IH.
  intros Hf Hr Hct Hpt Hr0 Hscan. unfold loop_claim. cbn [BrokerTopicMatch_loop at0].
  rewrite level_match_end by done.
  pose proof (at0_zero t Hct) as Zt. rewrite Zt. change (43 =? 0) with false.
  destruct (decide (t = [])) as [->|Ht0].
  { rewrite bool_decide_eq_true_2 by done. cbn -[level_match].
    rewrite at0_zero by done. destruct (bool_decide_reflect (r = [])) as [->|Hne].
    - by exists true.
    - exists false. split_and!; [done|done|]. intros _ Hx. by specialize (Hx eq_refl). }
  rewrite bool_decide_eq_false_2 by done. cbn [negb andb tail].
  change (43 =? 35) with false. change (43 =? 43) with true. cbv iota.
  destruct (skip_level_spec t Hct) as (t0 & Hskip & [pre Hpre]).
  assert (Ht' : chars (skip_level t)).
  { rewrite Hpre in Hct. by apply Forall_app in Hct as [_ ?]. }
  assert (Hpt' : plain (skip_level t)).
  { rewrite Hpre in Hpt. by apply Forall_app in Hpt as [_ ?]. }
  assert (Hcalm' : calm t -> calm (skip_level t)).
  { rewrite Hpre at 1. apply calm_app. }
  destruct (loop_claim_next fuel r (skip_level t) Hr Ht')
    as [(r' & t' & Hrr & Htt & ->)|[[Hone ->]|(Hr47 & Ht47 & ->)]].
  - rewrite Htt in *. subst r. destruct Hskip as [_ ->].
    inversion Hr; inversion Ht'; subst. apply plain_cons in Hpt' as [_ Hpt'].
    destruct (IH true r' t') as (b & -> & Hsnd & Hcmp); try done; simpl in *; try lia.
    exists b. split_and!; [done|done|]. intros Hcalm _. destruct (Hcalm' Hcalm) as [H47 Hcalm2].
    apply Hcmp; [done|]. intros _. by apply H47.
  - eexists. split; [done|]. destruct Hone as [(t' & Htt & Hr47)|(r' & -> & Ht47)].
    + rewrite Htt in *. destruct Hskip as [_ ->]. destruct Hr0 as [->|?]; [|done].
      rewrite (bool_decide_eq_false_2 (levels t' = [])); [|by destruct (levels_cons t') as (? & ? & ->)].
      split; [|done]. by intros [? ?]%bool_decide_eq_true.
    + destruct (skip_level t) as [|d t'']; [|by destruct Hskip].
      destruct Hskip as [-> _]. rewrite level_match_nil.
      split; [intros [[= ->] _]%bool_decide_eq_true; done|].
      intros _ _ ->%bool_decide_eq_true. done.
  - destruct Hr0 as [->|?]; [|done].
    destruct (skip_level t) as [|d t'']; [|by destruct Hskip].
    destruct Hskip as [-> _].
    destruct (IH false [] []) as (b & -> & Hsnd & Hcmp); try done.
    exists b. split_and!; [done|done|]. intros _ _ _. by apply Hcmp.
Qed.
End Loop.

Lemma loop_claim_holds fuel sep f t :
  (length f < fuel)%nat -> chars f -> chars t -> plain t -> scan sep f = true ->
  (sep = false -> at0 f <> TOPIC_LEVEL_SEPERATOR /\ at0 t <> TOPIC_LEVEL_SEPERATOR) ->
  loop_claim fuel sep f t.
Proof.
  revert sep f t. induction fuel as [|fuel IH]; intros sep f t Hf Hcf Hct Hpt Hscan Hsep; [lia|].
  destruct f as [|c r].
  { (* the filter is exhausted *)
    apply (loop_claim_eq _ _ _ _ (at0 t =? 0)); [done|].
    rewrite at0_zero by done. destruct t as [|d t]; [done|].
    rewrite bool_decide_eq_false_2 by done. simpl.
    destruct (levels_cons t) as (l & ls & ->). by destruct (d =? 47). }
  simpl in Hscan, Hf. inversion Hcf as [|? ? Hc Hr]; subst.
  destruct (Z.eqb_spec c TOPIC_LEVEL_MULTI) as [->|Hm].
  { apply andb_true_iff in Hscan as [-> Hr0]. destruct r; [|done].
    apply (loop_claim_eq _ _ _ _ true); [|done].
    cbn [BrokerTopicMatch_loop]. by destruct (_ && _). }
  destruct (Z.eqb_spec c TOPIC_LEVEL_SINGLE) as [->|Hs]; last first.
  { apply loop_claim_char; try done; [lia|]. intros ->. by apply Hsep. }
  apply andb_true_iff in Hscan as [[-> Hr1]%andb_true_iff Hscan].
  apply loop_claim_single; try done; [lia|].
  destruct r; [by left|right; by apply Z.eqb_eq].
Qed.

(** ** What the broker's matcher computes *)

(** Every round but the last moves on in the filter. *)
Lemma BrokerTopicMatch_loop_total fuel f t :
  (length f < fuel)%nat -> exists b, BrokerTopicMatch_loop fuel f t = Ok b.
Proof.
  revert f t. induction fuel as [|fuel IH]; intros f t Hf; [lia|]. cbn [BrokerTopicMatch_loop]. cbv zeta.
  destruct (_ && _) eqn:E; [|destruct (at0 f =? TOPIC_LEVEL_MULTI); [by eexists|destruct (_ && _ && _); by eexists]].
  destruct f as [|c f]; [done|]. cbn [tail length] in *.
  assert (Hgo : forall t, exists b, BrokerTopicMatch_loop fuel f t = Ok b) by (intros; apply IH; lia).
  assert (Hgo2 : forall t, exists b, BrokerTopicMatch_loop fuel (tail f) t = Ok b)
    by (intros; apply IH; destruct f; cbn in *; lia).
  destruct (_ =? TOPIC_LEVEL_MULTI); [by eexists|].
  destruct (at0 (c :: f) =? TOPIC_LEVEL_SINGLE); clear E;
    [|destruct (at0 (c :: f) =? at0 t); cbn [negb]; [|by eexists]];
    (destruct (_ && _); [apply Hgo2|]; destruct (_ || _); [by eexists|apply Hgo]).
Qed.

Lemma BrokerTopicMatch_total f t : exists b, BrokerTopicMatch (Some f) (Some t) = Ok b.
Proof. unfold BrokerTopicMatch. destruct (_ && _); [by eexists|]. apply BrokerTopicMatch_loop_total. lia. Qed.

Lemma BrokerTopicMatch_runs f t :
  filter_ok f -> chars f -> chars t -> plain t -> t <> [] ->
  exists b, BrokerTopicMatch (Some f) (Some t) = Ok b /\
    (b = true -> topic_match f t = true) /\
    (calm t -> topic_match f t = true -> b = true).
Proof.
  intros [Hne Hok] Hf Ht Hp Hte. unfold BrokerTopicMatch, topic_match.
  destruct (_ && _); [by exists false|]. cbn [negb andb].
  destruct (loop_claim_holds (S (length f)) true f t) as (b & E & Hs & Hc); try done; [lia| |].
  - by apply scan_levels.
  - exists b. auto.
Qed.

(** The matcher never reads outside its strings, returns, and only matches
    what the rule matches: no subscriber gets a message on a topic outside
    its filter. *)
Theorem BrokerTopicMatch_sound f t :
  filter_ok f -> chars f -> chars t -> plain t -> t <> [] ->
  exists b, BrokerTopicMatch (Some f) (Some t) = Ok b /\ (b = true -> topic_match f t = true).
Proof.
  intros Hf Hcf Ht Hp Hne. destruct (BrokerTopicMatch_runs f t) as (b & E & Hs & _); eauto.
Qed.

(** C29: on topics in which every separator is followed by a non-empty level the
    matcher is exactly the level-by-level rule. *)
Theorem BrokerTopicMatch_exact f t :
  filter_ok f -> chars f -> chars t -> plain t -> t <> [] -> calm t ->
  BrokerTopicMatch (Some f) (Some t) = Ok (topic_match f t).
Proof.
  intros Hf Hcf Ht Hp Hne Hcalm. destruct (BrokerTopicMatch_runs f t) as (b & -> & Hs & Hc); try done.
  f_equal. destruct b, (topic_match f t); auto. symmetry. auto.
Qed.

(** Outside those topics it misses matches: "/#" does not match "//x". *)
Theorem BrokerTopicMatch_misses :
  exists f t, filter_ok f /\ chars f /\ chars t /\ plain t /\ t <> [] /\
    topic_match f t = true /\ BrokerTopicMatch (Some f) (Some t) = Ok false.
Proof.
  exists [47; 35], [47; 47; 120]. split_and!; try done.
  - split; [done|]. by apply scan_levels.
  - repeat constructor; done.
  - repeat constructor; done.
  - repeat constructor; done.
Qed.

(** "a/+/#" and the topic "a/b". *)
Lemma BrokerTopicMatch_sound_witness :
  let f := [97; 47; 43; 47; 35] in
  let t := [97; 47; 98] in
  exists b, b = true /\ BrokerTopicMatch (Some f) (Some t) = Ok b /\ topic_match f t = true.
Proof.
  intros f t. exists true. split; [done|]. split; [reflexivity|].
  destruct (BrokerTopicMatch_sound f t) as (b & E & Hb);
    [split; [done|by apply scan_levels]|by_eval..|].
  apply Hb. change (BrokerTopicMatch (Some f) (Some t)) with (Ok true) in E. congruence.
Defined.

Lemma BrokerTopicMatch_exact_witness :
  BrokerTopicMatch (Some [43; 47; 98]) (Some [97; 47; 98]) = Ok true.
Proof.
  apply (BrokerTopicMatch_exact [43; 47; 98] [97; 47; 98]);
    [split; [done|by apply scan_levels]|by_eval..|].
  cbn. split_and!; done.
Defined.
