(* ===== verification/FixedHeader.v ===== *)
(** * FixedHeader: the fixed header of every packet ([mqtt_packet.c])

    [MqttEncode_FixedHeader], [FixedHeaderFlagsExpected],
    [MqttPacket_FixedHeaderFlagsValid] and [MqttDecode_FixedHeader], with the
    macros of [mqtt_packet.h] that build and take apart its first byte. *)
From S2P Require Import Prelude PacketDefs Wire.

Definition MQTT_PACKET_TYPE_GET (x : Z) : Z := Z.land (Z.shiftr x 4) 15.
Definition MQTT_PACKET_TYPE_SET (x : Z) : Z := Z.shiftl (Z.land x 15) 4.
Definition MQTT_PACKET_FLAGS_GET (x : Z) : Z := Z.land x 15.
Definition MQTT_PACKET_FLAGS_GET_QOS (type_flags : Z) : Z :=
  Z.shiftr (Z.land (MQTT_PACKET_FLAGS_GET type_flags) MQTT_PACKET_FLAG_QOS_MASK)
    MQTT_PACKET_FLAG_QOS_SHIFT.
Definition MQTT_PACKET_FLAGS_SET_QOS (qos : Z) : Z :=
  Z.land (Z.shiftl qos MQTT_PACKET_FLAG_QOS_SHIFT) MQTT_PACKET_FLAG_QOS_MASK.

(** The first byte that [MqttEncode_FixedHeader] builds. *)
Definition type_flags_set (type retain qos duplicate : Z) : Z :=
  let f := u8 (MQTT_PACKET_TYPE_SET type) in
  let f := if negb (retain =? 0) then u8 (Z.lor f MQTT_PACKET_FLAG_RETAIN) else f in
  let f := if negb (qos =? 0) then u8 (Z.lor f (MQTT_PACKET_FLAGS_SET_QOS qos)) else f in
  if negb (duplicate =? 0) then u8 (Z.lor f MQTT_PACKET_FLAG_DUPLICATE) else f.

Definition MqttEncode_FixedHeader (tx_buf_len remain_len type retain qos duplicate : Z)
    : emit :=
  if tx_buf_len <? MQTT_PACKET_MAX_LEN_BYTES + 1 then Err MQTT_CODE_ERROR_OUT_OF_BUFFER
  else
    '(header_len, bs) ← MqttEncode_Vbi true (u32 remain_len);
    Ok (header_len + 1, type_flags_set type retain qos duplicate :: bs).

Definition FixedHeaderFlagsExpected (type : Z) : option Z :=
  if bool_decide (type ∈ [MQTT_PACKET_TYPE_CONNECT; MQTT_PACKET_TYPE_CONNECT_ACK;
       MQTT_PACKET_TYPE_PUBLISH_ACK; MQTT_PACKET_TYPE_PUBLISH_REC;
       MQTT_PACKET_TYPE_PUBLISH_COMP; MQTT_PACKET_TYPE_SUBSCRIBE_ACK;
       MQTT_PACKET_TYPE_UNSUBSCRIBE_ACK; MQTT_PACKET_TYPE_PING_REQ;
       MQTT_PACKET_TYPE_PING_RESP; MQTT_PACKET_TYPE_DISCONNECT; MQTT_PACKET_TYPE_AUTH])
  then Some 0
  else if bool_decide (type ∈ [MQTT_PACKET_TYPE_PUBLISH_REL; MQTT_PACKET_TYPE_SUBSCRIBE;
                               MQTT_PACKET_TYPE_UNSUBSCRIBE])
  then Some 2
  else None.

Definition MqttPacket_FixedHeaderFlagsValid (type_flags : Z) : bool :=
  let type := u8 (MQTT_PACKET_TYPE_GET type_flags) in
  let flags := u8 (MQTT_PACKET_FLAGS_GET type_flags) in
  if type =? MQTT_PACKET_TYPE_PUBLISH then
    let qos := u8 (MQTT_PACKET_FLAGS_GET_QOS type_flags) in
    let dup := negb (Z.land flags MQTT_PACKET_FLAG_DUPLICATE =? 0) in
    if MQTT_QOS_2 <? qos then false
    else if (qos =? MQTT_QOS_0) && dup then false
    else true
  else
    match FixedHeaderFlagsExpected type with
    | Some expected => flags =? expected
    | None => false
    end.

(** The fields [MqttDecode_FixedHeader] reports. *)
Record fixed_header : Set := mkHeader {
  fh_header_len : Z;
  fh_remain_len : Z;
  fh_qos : Z;
  fh_retain : Z;
  fh_duplicate : Z
}.

Definition MqttDecode_FixedHeader (rx_buf : list Z) (rx_buf_len type : Z)
    : result fixed_header :=
  if rx_buf_len <? 2 then Err MQTT_CODE_ERROR_OUT_OF_BUFFER
  else
    '(remain_len_u32, header_len) ← MqttDecode_Vbi rx_buf 1 (u32 (rx_buf_len - 1));
    if MQTT_PACKET_MAX_REMAIN_LEN <? remain_len_u32 then Err MQTT_CODE_ERROR_MALFORMED_DATA
    else
      type_flags ← rd rx_buf 0;
      if negb (MQTT_PACKET_TYPE_GET type_flags =? type) then Err MQTT_CODE_ERROR_PACKET_TYPE
      else if negb (MqttPacket_FixedHeaderFlagsValid type_flags) then
        Err MQTT_CODE_ERROR_MALFORMED_DATA
      else
        Ok {| fh_header_len := header_len + 1;
              fh_remain_len := i32 remain_len_u32;
              fh_qos := MQTT_PACKET_FLAGS_GET_QOS type_flags;
              fh_retain :=
                if negb (Z.land (MQTT_PACKET_FLAGS_GET type_flags) MQTT_PACKET_FLAG_RETAIN =? 0)
                then 1 else 0;
              fh_duplicate :=
                if negb (Z.land (MQTT_PACKET_FLAGS_GET type_flags) MQTT_PACKET_FLAG_DUPLICATE =? 0)
                then 1 else 0 |}.

(** ** Facts about the first byte, checked on all its values *)

(** The reserved flags of MQTT 2.2.2: PUBLISH carries DUP, QoS (not 3) and
    RETAIN with DUP clear at QoS 0; PUBREL, SUBSCRIBE and UNSUBSCRIBE carry
    0010; every other type carries 0000, and type 0 is forbidden. *)
Definition header_flags_ok (type flags : Z) : bool :=
  if type =? 3 then
    let qos := flags / 2 mod 4 in
    (qos <? 3) && negb ((qos =? 0) && (8 <=? flags))
  else if type =? 0 then false
  else if (type =? 6) || (type =? 8) || (type =? 10) then flags =? 2
  else flags =? 0.

Lemma FixedHeaderFlagsValid_byte b :
  is_byte b ->
  MqttPacket_FixedHeaderFlagsValid b = header_flags_ok (b / 16) (b mod 16).
Proof.
  intros Hb. apply Bool.eqb_prop.
  by apply (byte_enum (fun b =>
    Bool.eqb (MqttPacket_FixedHeaderFlagsValid b) (header_flags_ok (b / 16) (b mod 16)))).
Qed.

(** The arguments an encoder passes for the first byte. *)
Definition header_args (type retain qos duplicate : Z) : Prop :=
  0 <= type < 16 /\ 0 <= retain < 256 /\ 0 <= qos < 4 /\ 0 <= duplicate < 256 /\
  header_flags_ok type
    (8 * (if duplicate =? 0 then 0 else 1) + 2 * qos + (if retain =? 0 then 0 else 1)) = true.

Lemma type_flags_set_eq type retain qos duplicate :
  0 <= type < 16 -> 0 <= qos < 4 ->
  type_flags_set type retain qos duplicate =
    16 * type + 8 * (if duplicate =? 0 then 0 else 1) + 2 * qos + (if retain =? 0 then 0 else 1).
Proof.
  intros Ht Hq. apply Z.eqb_eq.
  destruct (Z.eqb_spec retain 0) as [->|Hr], (Z.eqb_spec duplicate 0) as [->|Hd];
    unfold type_flags_set; rewrite ?(proj2 (Z.eqb_neq retain 0)) by done;
    rewrite ?(proj2 (Z.eqb_neq duplicate 0)) by done;
    (assert (type ∈ [0;1;2;3;4;5;6;7;8;9;10;11;12;13;14;15]) as Hin
      by (rewrite !list_elem_of_In; simpl; lia));
    (assert (qos = 0 \/ qos = 1 \/ qos = 2 \/ qos = 3) as Hqs by lia);
    repeat (apply elem_of_cons in Hin as [->|Hin];
      [by destruct Hqs as [-> | [-> | [-> | ->]]]|]); by apply elem_of_nil in Hin.
Qed.

Lemma header_fields b :
  is_byte b ->
  MQTT_PACKET_TYPE_GET b = b / 16 /\ MQTT_PACKET_FLAGS_GET_QOS b = b mod 8 / 2 /\
  (Z.land (MQTT_PACKET_FLAGS_GET b) MQTT_PACKET_FLAG_RETAIN =? 0) = (b mod 2 =? 0) /\
  (Z.land (MQTT_PACKET_FLAGS_GET b) MQTT_PACKET_FLAG_DUPLICATE =? 0) = (b mod 16 <? 8).
Proof.
  intros Hb.
  pose proof (byte_enum (fun b =>
    (MQTT_PACKET_TYPE_GET b =? b / 16) && (MQTT_PACKET_FLAGS_GET_QOS b =? b mod 8 / 2) &&
    Bool.eqb (Z.land (MQTT_PACKET_FLAGS_GET b) MQTT_PACKET_FLAG_RETAIN =? 0) (b mod 2 =? 0) &&
    Bool.eqb (Z.land (MQTT_PACKET_FLAGS_GET b) MQTT_PACKET_FLAG_DUPLICATE =? 0) (b mod 16 <? 8))
    b eq_refl Hb) as H.
  cbv beta in H. rewrite !andb_true_iff, !Z.eqb_eq in H.
  destruct H as [[[H1 H2] H3%Bool.eqb_prop] H4%Bool.eqb_prop]. done.
Qed.

Lemma header_byte type retain qos duplicate :
  header_args type retain qos duplicate ->
  let b := type_flags_set type retain qos duplicate in
  is_byte b /\ MQTT_PACKET_TYPE_GET b = type /\ MqttPacket_FixedHeaderFlagsValid b = true /\
  MQTT_PACKET_FLAGS_GET_QOS b = qos /\
  (Z.land (MQTT_PACKET_FLAGS_GET b) MQTT_PACKET_FLAG_RETAIN =? 0) = (retain =? 0) /\
  (Z.land (MQTT_PACKET_FLAGS_GET b) MQTT_PACKET_FLAG_DUPLICATE =? 0) = (duplicate =? 0).
Proof.
  intros (Ht & Hr & Hq & Hd & Hok). rewrite type_flags_set_eq by done.
  assert (Hr1 : exists r, (if retain =? 0 then 0 else 1) = r /\ 0 <= r <= 1 /\ (r =? 0) = (retain =? 0)).
  { eexists; split; [reflexivity|]. destruct (retain =? 0); lia. }
  assert (Hd1 : exists d, (if duplicate =? 0 then 0 else 1) = d /\ 0 <= d <= 1 /\ (d =? 0) = (duplicate =? 0)).
  { eexists; split; [reflexivity|]. destruct (duplicate =? 0); lia. }
  destruct Hr1 as (r & Er & Hr1 & Zr), Hd1 as (d & Ed & Hd1 & Zd).
  rewrite Er, Ed in Hok. rewrite Er, Ed, <- Zr, <- Zd. cbv zeta.
  set (b := 16 * type + 8 * d + 2 * qos + r).
  assert (Hb : is_byte b) by (unfold is_byte, b; lia).
  destruct (header_fields b Hb) as (-> & -> & -> & ->).
  rewrite FixedHeaderFlagsValid_byte by done.
  assert (b / 16 = type /\ b mod 16 = 8 * d + 2 * qos + r) as [-> ->] by (subst b; Zeucl).
  split_and!; try done.
  - replace (b mod 8) with (2 * qos + r) by (subst b; apply (Z.mod_unique _ _ (2 * type + d)); lia).
    symmetry. apply (Z.div_unique _ _ _ r); lia.
  - replace (b mod 2) with r by (subst b; Zeucl). done.
  - destruct (Z.eqb_spec d 0), (Z.ltb_spec (8 * d + 2 * qos + r) 8); lia.
Qed.

(** ** Encoding and decoding a header *)

(** The bytes of a fixed header. *)
Definition header_bytes (type retain qos duplicate remain_len : Z) : list Z :=
  type_flags_set type retain qos duplicate :: vbi 4 remain_len.

Lemma header_bytes_len t r q d n : 2 <= len (header_bytes t r q d n) <= 5.
Proof. unfold header_bytes. rewrite len_cons. pose proof (vbi_len 4 n). lia. Qed.

Lemma MqttEncode_FixedHeader_eq tx_buf_len remain_len type retain qos duplicate :
  5 <= tx_buf_len -> 0 <= remain_len <= MQTT_PACKET_MAX_REMAIN_LEN ->
  MqttEncode_FixedHeader tx_buf_len remain_len type retain qos duplicate =
    Ok (len (header_bytes type retain qos duplicate remain_len),
        header_bytes type retain qos duplicate remain_len).
Proof.
  intros Ht Hr. unfold MqttEncode_FixedHeader. rewrite (proj2 (Z.ltb_ge _ _)) by lia.
  rewrite u32_small, MqttEncode_Vbi_eq by lia. cbn [mbind result_bind].
  unfold header_bytes. rewrite len_cons. do 2 f_equal. lia.
Qed.

Lemma MqttEncode_FixedHeader_inv tx_buf_len remain_len type retain qos duplicate h bs :
  MqttEncode_FixedHeader tx_buf_len remain_len type retain qos duplicate = Ok (h, bs) ->
  5 <= tx_buf_len /\ 0 <= u32 remain_len <= MQTT_PACKET_MAX_REMAIN_LEN /\
  h = len bs /\ bs = header_bytes type retain qos duplicate (u32 remain_len).
Proof.
  unfold MqttEncode_FixedHeader. destruct (Z.ltb_spec tx_buf_len (4 + 1)); [done|].
  pose proof (u32_range remain_len).
  destruct (MqttEncode_Vbi true (u32 remain_len)) as [[h' bs']| |] eqn:E; [|done..].
  apply MqttEncode_Vbi_inv in E as (Hle & -> & ->); [|lia].
  cbn [mbind result_bind when]. intros [= <- <-].
  unfold header_bytes. rewrite len_cons. repeat split; lia.
Qed.

Lemma MqttEncode_FixedHeader_yields tx_buf_len remain_len type retain qos duplicate :
  yields (MqttEncode_FixedHeader tx_buf_len remain_len type retain qos duplicate)
    (fun '(h, bs) => h = len bs).
Proof.
  pose proof (u32_range remain_len) as Hr. unfold MqttEncode_FixedHeader.
  case_match; [done|].
  destruct (Z.le_gt_cases (u32 remain_len) MQTT_PACKET_MAX_REMAIN_LEN).
  - rewrite MqttEncode_Vbi_eq by lia. simpl. rewrite len_cons. lia.
  - unfold MqttEncode_Vbi. by rewrite (proj2 (Z.ltb_lt _ _)) by lia.
Qed.

Lemma MqttDecode_FixedHeader_sits rx_buf rx_buf_len type retain qos duplicate remain_len :
  header_args type retain qos duplicate -> 0 <= remain_len <= MQTT_PACKET_MAX_REMAIN_LEN ->
  sits rx_buf 0 (header_bytes type retain qos duplicate remain_len) ->
  len (header_bytes type retain qos duplicate remain_len) <= rx_buf_len <= 2147483647 ->
  MqttDecode_FixedHeader rx_buf rx_buf_len type =
    Ok {| fh_header_len := len (header_bytes type retain qos duplicate remain_len);
          fh_remain_len := remain_len; fh_qos := qos;
          fh_retain := if retain =? 0 then 0 else 1;
          fh_duplicate := if duplicate =? 0 then 0 else 1 |}.
Proof.
  intros Ha Hr Hs Hl. pose proof (header_bytes_len type retain qos duplicate remain_len).
  unfold MqttDecode_FixedHeader. rewrite (proj2 (Z.ltb_ge _ _)) by lia.
  unfold header_bytes in *. apply sits_cons in Hs as [H0 H1]. rewrite len_cons in *.
  rewrite u32_small by lia.
  rewrite (MqttDecode_Vbi_sits _ _ _ remain_len) by (done || lia). cbn [mbind result_bind].
  rewrite (proj2 (Z.ltb_ge _ _)) by lia. rewrite (rd_sits _ _ _ _ H0). cbn [mbind result_bind].
  destruct (header_byte _ _ _ _ Ha) as (_ & -> & -> & -> & -> & ->).
  rewrite Z.eqb_refl, i32_small by lia. cbn [negb].
  do 2 f_equal; [lia|by destruct (retain =? 0)|by destruct (duplicate =? 0)].
Qed.

(** What a successful decoder has seen. *)
Definition header_seen (rx_buf : list Z) (type : Z) (fh : fixed_header) : Prop :=
  exists b, sits rx_buf 0 (b :: vbi 4 (fh_remain_len fh)) /\
    fh_header_len fh = 1 + len (vbi 4 (fh_remain_len fh)) /\
    b / 16 = type /\ header_flags_ok type (b mod 16) = true /\
    fh_qos fh = b mod 8 / 2 /\
    fh_retain fh = b mod 2 /\ fh_duplicate fh = b mod 16 / 8.

Lemma MqttDecode_FixedHeader_yields rx_buf rx_buf_len type :
  bytes rx_buf -> rx_buf_len <= len rx_buf -> rx_buf_len <= 2147483647 ->
  yields (MqttDecode_FixedHeader rx_buf rx_buf_len type)
    (fun fh => 2 <= fh_header_len fh <= 5 /\ fh_header_len fh <= rx_buf_len /\
       0 <= fh_remain_len fh <= MQTT_PACKET_MAX_REMAIN_LEN /\ 0 <= fh_qos fh <= 3 /\
       header_seen rx_buf type fh).
Proof.
  intros Hb Hl Hm. unfold MqttDecode_FixedHeader.
  destruct (Z.ltb_spec rx_buf_len 2); [done|]. rewrite u32_small by lia.
  apply yields_bind. eapply yields_mono; [apply MqttDecode_Vbi_yields; [done|lia|lia]|].
  intros [v n] (Hv & Hs & -> & Hn & Hle). rewrite (proj2 (Z.ltb_ge _ _)) by lia.
  apply yields_bind, rd_yields; [lia|]. intros b Eb.
  pose proof (rd_byte _ _ _ Hb Eb) as Hbb.
  destruct (header_fields b Hbb) as (E1 & E2 & E3 & E4). rewrite E1, E2, E3, E4.
  destruct (Z.eqb_spec (b / 16) type) as [Et|]; [|done]. cbn [negb].
  rewrite FixedHeaderFlagsValid_byte by done.
  destruct (header_flags_ok _ _) eqn:Eok; [|done]. cbn [negb yields fh_header_len fh_remain_len
    fh_qos]. rewrite i32_small by lia. unfold is_byte in *.
  split_and!; try lia; try Zeucl.
  exists b. cbn [fh_remain_len fh_header_len fh_qos fh_retain fh_duplicate].
  split_and!; try done; try lia.
  - apply sits_cons. split; [by apply sits_rd|done].
  - by rewrite <- Et.
  - destruct (Z.eqb_spec (b mod 2) 0); cbn [negb]; Zeucl.
  - destruct (Z.ltb_spec (b mod 16) 8); cbn [negb]; Zeucl.
Qed.

(** ** Properties *)

(** A fixed header that [MqttEncode_FixedHeader] builds from a type and
    flags that MQTT 2.2.2 allows together is decoded to the same
    type, flags and Remaining Length, in the number of bytes written. *)
Theorem FixedHeader_roundtrip tx_buf_len type retain qos duplicate remain_len h bs post rx_buf_len :
  header_args type retain qos duplicate -> 0 <= remain_len < 4294967296 ->
  MqttEncode_FixedHeader tx_buf_len remain_len type retain qos duplicate = Ok (h, bs) ->
  h <= rx_buf_len <= 2147483647 ->
  h = len bs /\ 2 <= h <= 5 /\
  MqttDecode_FixedHeader (bs ++ post) rx_buf_len type =
    Ok {| fh_header_len := h; fh_remain_len := remain_len; fh_qos := qos;
          fh_retain := if retain =? 0 then 0 else 1;
          fh_duplicate := if duplicate =? 0 then 0 else 1 |}.
Proof.
  intros Ha Hr (Htx & Hv & -> & ->)%MqttEncode_FixedHeader_inv Hrx.
  rewrite u32_small in * by lia. split; [done|]. split; [apply header_bytes_len|].
  apply MqttDecode_FixedHeader_sits; [done|done|apply sits_head|done].
Qed.

Lemma FixedHeader_roundtrip_witness :
  MqttDecode_FixedHeader [61; 193; 2; 0] 4 3 =
    Ok {| fh_header_len := 3; fh_remain_len := 321; fh_qos := 2; fh_retain := 1; fh_duplicate := 1 |}.
Proof.
  apply (FixedHeader_roundtrip 10 3 1 2 8 321 3 [61; 193; 2] [0] 4);
    [split_and!; try lia; reflexivity|lia|reflexivity|lia].
Defined.

(** For all 256 values of the first byte, [MqttPacket_FixedHeaderFlagsValid]
    accepts it exactly when its flags are the ones MQTT 2.2.2 prescribes for the type. *)
Theorem FixedHeaderFlagsValid_exact b :
  is_byte b -> MqttPacket_FixedHeaderFlagsValid b = header_flags_ok (b / 16) (b mod 16).
Proof. apply FixedHeaderFlagsValid_byte. Qed.

Lemma FixedHeaderFlagsValid_exact_witness :
  MqttPacket_FixedHeaderFlagsValid 56 = false /\
  MqttPacket_FixedHeaderFlagsValid 56 = header_flags_ok (56 / 16) (56 mod 16).
Proof. split; [reflexivity|]. apply (FixedHeaderFlagsValid_exact 56). split; lia. Defined.
