(* ===== verification/Props.v ===== *)
(** * Props: MQTT v5 properties ([mqtt_packet.c])

    The table [gPropMatrix] and the encoder and decoder of a property list.
    [MqttProps_Add] and [MqttProps_Free] are seen here through the number of
    free cells of the property pool; the file PropPool models the cells. *)
From S2P Require Import Prelude PacketDefs Wire Topic.

Definition mask_of (packets : list Z) : Z :=
  fold_right (fun t m => Z.lor (Z.shiftl 1 t) m) 0 packets.

Definition MqttPropMatrix : Set := Z * MqttDataType * Z.

Definition none_row : MqttPropMatrix := (MQTT_PROP_NONE, MQTT_DATA_TYPE_NONE, 0).

Definition gPropMatrix : list MqttPropMatrix := [
  none_row;
  (MQTT_PROP_PAYLOAD_FORMAT_IND, MQTT_DATA_TYPE_BYTE, mask_of [MQTT_PACKET_TYPE_PUBLISH]);
  (MQTT_PROP_MSG_EXPIRY_INTERVAL, MQTT_DATA_TYPE_INT,
    mask_of [MQTT_PACKET_TYPE_CONNECT; MQTT_PACKET_TYPE_PUBLISH]);
  (MQTT_PROP_CONTENT_TYPE, MQTT_DATA_TYPE_STRING, mask_of [MQTT_PACKET_TYPE_PUBLISH]);
  none_row; none_row; none_row; none_row;
  (MQTT_PROP_RESP_TOPIC, MQTT_DATA_TYPE_STRING, mask_of [MQTT_PACKET_TYPE_PUBLISH]);
  (MQTT_PROP_CORRELATION_DATA, MQTT_DATA_TYPE_BINARY, mask_of [MQTT_PACKET_TYPE_PUBLISH]);
  none_row;
  (MQTT_PROP_SUBSCRIPTION_ID, MQTT_DATA_TYPE_VAR_INT,
    mask_of [MQTT_PACKET_TYPE_PUBLISH; MQTT_PACKET_TYPE_SUBSCRIBE]);
  none_row; none_row; none_row; none_row; none_row;
  (MQTT_PROP_SESSION_EXPIRY_INTERVAL, MQTT_DATA_TYPE_INT,
    mask_of [MQTT_PACKET_TYPE_CONNECT; MQTT_PACKET_TYPE_CONNECT_ACK;
             MQTT_PACKET_TYPE_DISCONNECT]);
  (MQTT_PROP_ASSIGNED_CLIENT_ID, MQTT_DATA_TYPE_STRING,
    mask_of [MQTT_PACKET_TYPE_CONNECT_ACK]);
  (MQTT_PROP_SERVER_KEEP_ALIVE, MQTT_DATA_TYPE_SHORT,
    mask_of [MQTT_PACKET_TYPE_CONNECT_ACK]);
  none_row;
  (MQTT_PROP_AUTH_METHOD, MQTT_DATA_TYPE_STRING,
    mask_of [MQTT_PACKET_TYPE_CONNECT; MQTT_PACKET_TYPE_CONNECT_ACK; MQTT_PACKET_TYPE_AUTH]);
  (MQTT_PROP_AUTH_DATA, MQTT_DATA_TYPE_BINARY,
    mask_of [MQTT_PACKET_TYPE_CONNECT; MQTT_PACKET_TYPE_CONNECT_ACK; MQTT_PACKET_TYPE_AUTH]);
  (MQTT_PROP_REQ_PROB_INFO, MQTT_DATA_TYPE_BYTE, mask_of [MQTT_PACKET_TYPE_CONNECT]);
  (MQTT_PROP_WILL_DELAY_INTERVAL, MQTT_DATA_TYPE_INT, mask_of [MQTT_PACKET_TYPE_CONNECT]);
  (MQTT_PROP_REQ_RESP_INFO, MQTT_DATA_TYPE_BYTE, mask_of [MQTT_PACKET_TYPE_CONNECT]);
  (MQTT_PROP_RESP_INFO, MQTT_DATA_TYPE_STRING, mask_of [MQTT_PACKET_TYPE_CONNECT_ACK]);
  none_row;
  (MQTT_PROP_SERVER_REF, MQTT_DATA_TYPE_STRING,
    mask_of [MQTT_PACKET_TYPE_CONNECT_ACK; MQTT_PACKET_TYPE_DISCONNECT]);
  none_row; none_row;
  (MQTT_PROP_REASON_STR, MQTT_DATA_TYPE_STRING,
    mask_of [MQTT_PACKET_TYPE_CONNECT_ACK; MQTT_PACKET_TYPE_PUBLISH_ACK;
             MQTT_PACKET_TYPE_PUBLISH_REC; MQTT_PACKET_TYPE_PUBLISH_REL;
             MQTT_PACKET_TYPE_PUBLISH_COMP; MQTT_PACKET_TYPE_SUBSCRIBE_ACK;
             MQTT_PACKET_TYPE_UNSUBSCRIBE_ACK; MQTT_PACKET_TYPE_DISCONNECT;
             MQTT_PACKET_TYPE_AUTH]);
  none_row;
  (MQTT_PROP_RECEIVE_MAX, MQTT_DATA_TYPE_SHORT,
    mask_of [MQTT_PACKET_TYPE_CONNECT; MQTT_PACKET_TYPE_CONNECT_ACK]);
  (MQTT_PROP_TOPIC_ALIAS_MAX, MQTT_DATA_TYPE_SHORT,
    mask_of [MQTT_PACKET_TYPE_CONNECT; MQTT_PACKET_TYPE_CONNECT_ACK]);
  (MQTT_PROP_TOPIC_ALIAS, MQTT_DATA_TYPE_SHORT, mask_of [MQTT_PACKET_TYPE_PUBLISH]);
  (MQTT_PROP_MAX_QOS, MQTT_DATA_TYPE_BYTE, mask_of [MQTT_PACKET_TYPE_CONNECT_ACK]);
  (MQTT_PROP_RETAIN_AVAIL, MQTT_DATA_TYPE_BYTE, mask_of [MQTT_PACKET_TYPE_CONNECT_ACK]);
  (MQTT_PROP_USER_PROP, MQTT_DATA_TYPE_STRING_PAIR, 65535);
  (MQTT_PROP_MAX_PACKET_SZ, MQTT_DATA_TYPE_INT,
    mask_of [MQTT_PACKET_TYPE_CONNECT; MQTT_PACKET_TYPE_CONNECT_ACK]);
  (MQTT_PROP_WILDCARD_SUB_AVAIL, MQTT_DATA_TYPE_BYTE, mask_of [MQTT_PACKET_TYPE_CONNECT_ACK]);
  (MQTT_PROP_SUBSCRIPTION_ID_AVAIL, MQTT_DATA_TYPE_BYTE, mask_of [MQTT_PACKET_TYPE_CONNECT_ACK]);
  (MQTT_PROP_SHARED_SUBSCRIPTION_AVAIL, MQTT_DATA_TYPE_BYTE,
    mask_of [MQTT_PACKET_TYPE_CONNECT_ACK]);
  (MQTT_PROP_TYPE_MAX, MQTT_DATA_TYPE_NONE, 0)
].

(** [gPropMatrix[type]], guarded by the length of the table. *)
Definition prop_row (type : Z) : option MqttPropMatrix :=
  if type <? len gPropMatrix then gPropMatrix !! Z.to_nat type else None.

Definition prop_data (type : Z) : MqttDataType :=
  match prop_row type with Some (_, d, _) => d | None => MQTT_DATA_TYPE_NONE end.

Definition prop_allowed (packet type : Z) : bool :=
  match prop_row type with
  | Some (_, _, mask) => negb (Z.land mask (Z.shiftl 1 packet) =? 0)
  | None => false
  end.

(** The properties that a packet may carry more than once. *)
Definition repeatable (packet type : Z) : bool :=
  (type =? MQTT_PROP_USER_PROP) ||
  ((type =? MQTT_PROP_SUBSCRIPTION_ID) && (packet =? MQTT_PACKET_TYPE_PUBLISH)).

(** The duplicate guard over [seen_lo] and [seen_hi]; [None] is a duplicate. *)
Definition seen_check (packet type seen_lo seen_hi : Z) : option (Z * Z) :=
  if negb (repeatable packet type) then
    if type <? 32 then
      let bit := u32 (Z.shiftl 1 type) in
      if negb (Z.land seen_lo bit =? 0) then None else Some (Z.lor seen_lo bit, seen_hi)
    else
      let bit := u32 (Z.shiftl 1 (type - 32)) in
      if negb (Z.land seen_hi bit =? 0) then None else Some (seen_lo, Z.lor seen_hi bit)
  else Some (seen_lo, seen_hi).

(** ** Encoding *)

(** The [switch] on the data type. *)
Definition MqttEncode_Prop_value (buf : bool) (cur_prop : MqttProp) : emit :=
  match prop_data (prop_type cur_prop) with
  | MQTT_DATA_TYPE_BYTE =>
    if 1 <? data_byte cur_prop then Err MQTT_CODE_ERROR_PROPERTY
    else Ok (1, when buf [data_byte cur_prop])
  | MQTT_DATA_TYPE_SHORT =>
    if (prop_type cur_prop =? MQTT_PROP_TOPIC_ALIAS) && (data_short cur_prop =? 0)
    then Err MQTT_CODE_ERROR_PROPERTY
    else MqttEncode_Num buf (data_short cur_prop)
  | MQTT_DATA_TYPE_INT =>
    if (prop_type cur_prop =? MQTT_PROP_MAX_PACKET_SZ) && (data_int cur_prop =? 0)
    then Err MQTT_CODE_ERROR_PROPERTY
    else MqttEncode_Int buf (data_int cur_prop)
  | MQTT_DATA_TYPE_STRING =>
    let s := data_str cur_prop in
    name_ok ← (if prop_type cur_prop =? MQTT_PROP_RESP_TOPIC then
                 MqttPacket_TopicNameValid (str_ptr s) (str_len s) MQTT_CONNECT_PROTOCOL_LEVEL_5
               else Ok true);
    if negb name_ok then Err MQTT_CODE_ERROR_MALFORMED_DATA
    else
      utf8_ok ← MqttEncode_Utf8Ok (str_ptr s) (str_len s);
      if negb utf8_ok then Err MQTT_CODE_ERROR_MALFORMED_DATA
      else MqttEncode_Data buf (str_ptr s) (str_len s)
  | MQTT_DATA_TYPE_VAR_INT =>
    if (prop_type cur_prop =? MQTT_PROP_SUBSCRIPTION_ID) && (data_int cur_prop =? 0)
    then Err MQTT_CODE_ERROR_PROPERTY
    else MqttEncode_Vbi buf (data_int cur_prop)
  | MQTT_DATA_TYPE_BINARY =>
    MqttEncode_Data buf (str_ptr (data_bin cur_prop)) (str_len (data_bin cur_prop))
  | MQTT_DATA_TYPE_STRING_PAIR =>
    let s := data_str cur_prop in
    let s2 := data_str2 cur_prop in
    ok ← MqttEncode_Utf8Ok (str_ptr s) (str_len s);
    if negb ok then Err MQTT_CODE_ERROR_MALFORMED_DATA
    else
      ok ← MqttEncode_Utf8Ok (str_ptr s2) (str_len s2);
      if negb ok then Err MQTT_CODE_ERROR_MALFORMED_DATA
      else MqttEncode_Data buf (str_ptr s) (str_len s) +++
           MqttEncode_Data buf (str_ptr s2) (str_len s2)
  | MQTT_DATA_TYPE_NONE => Err MQTT_CODE_ERROR_PROPERTY
  end.

(** The loop over the list; [rc] and [prop_count] are the C variables. *)
Fixpoint MqttEncode_Props_loop (packet : Z) (props : list MqttProp) (buf : bool)
    (rc prop_count seen_lo seen_hi : Z) : emit :=
  match props with
  | [] => Ok (rc, [])
  | cur_prop :: next =>
    let prop_count := prop_count + 1 in
    if MQTT_MAX_PROPS <? prop_count then Err MQTT_CODE_ERROR_PROPERTY
    else if len gPropMatrix <=? prop_type cur_prop then Err MQTT_CODE_ERROR_PROPERTY
    else if negb (prop_allowed packet (prop_type cur_prop)) then
      Err MQTT_CODE_ERROR_PROPERTY_MISMATCH
    else
      match seen_check packet (prop_type cur_prop) seen_lo seen_hi with
      | None => Err MQTT_CODE_ERROR_PROPERTY
      | Some (seen_lo, seen_hi) =>
        '(t1, b1) ← MqttEncode_Vbi buf (prop_type cur_prop);
        '(t2, b2) ← MqttEncode_Prop_value buf cur_prop;
        let rc := rc + t1 + t2 in
        if MQTT_PACKET_MAX_REMAIN_LEN <? rc then Err MQTT_CODE_ERROR_OUT_OF_BUFFER
        else
          '(rc, bs) ← MqttEncode_Props_loop packet next buf rc prop_count seen_lo seen_hi;
          Ok (rc, b1 ++ b2 ++ bs)
      end
  end.

Definition MqttEncode_Props (packet : Z) (props : list MqttProp) (buf : bool) : emit :=
  MqttEncode_Props_loop packet props buf 0 0 0 0.

(** ** Decoding *)

(** A cell as [MqttProps_Add] hands it out, with the decoded type. *)
Definition no_str : MqttProp_Str := mkStr 0 None.
Definition new_prop (type : Z) : MqttProp := mkProp type 0 0 0 no_str no_str no_str.

(** The cases of the [switch]. [pbuf] is at offset [off] of the buffer and
    [pos] is [buf - pbuf]; each case returns the property and the bytes it
    consumed. *)
Definition MqttDecode_Prop_byte (type : Z) (buf : list Z) (off pos buf_len prop_len : Z)
    : result (MqttProp * Z) :=
  if (buf_len <=? pos) || (prop_len <? 1) then Err MQTT_CODE_ERROR_OUT_OF_BUFFER
  else
    b ← rd buf (off + pos);
    if 1 <? b then Err MQTT_CODE_ERROR_PROPERTY
    else Ok (mkProp type b 0 0 no_str no_str no_str, 1).

Definition MqttDecode_Prop_short (type : Z) (buf : list Z) (off pos buf_len prop_len : Z)
    : result (MqttProp * Z) :=
  if buf_len <? pos then Err MQTT_CODE_ERROR_OUT_OF_BUFFER
  else
    '(x, tmp) ← MqttDecode_Num buf (off + pos) (u32 (buf_len - pos));
    if prop_len <? tmp then Err MQTT_CODE_ERROR_MALFORMED_DATA
    else if (type =? MQTT_PROP_TOPIC_ALIAS) && (x =? 0) then
      Err MQTT_CODE_ERROR_MALFORMED_DATA
    else Ok (mkProp type 0 x 0 no_str no_str no_str, tmp).

Definition MqttDecode_Prop_int (type : Z) (buf : list Z) (off pos buf_len prop_len : Z)
    : result (MqttProp * Z) :=
  if (buf_len <? pos) || (prop_len <? MQTT_DATA_INT_SIZE) then
    Err MQTT_CODE_ERROR_OUT_OF_BUFFER
  else
    '(x, tmp) ← MqttDecode_Int buf (off + pos) (u32 (buf_len - pos));
    if (type =? MQTT_PROP_MAX_PACKET_SZ) && (x =? 0) then
      Err MQTT_CODE_ERROR_MALFORMED_DATA
    else Ok (mkProp type 0 0 x no_str no_str no_str, tmp).

Definition MqttDecode_Prop_string (type : Z) (buf : list Z) (off pos buf_len prop_len : Z)
    : result (MqttProp * Z) :=
  if buf_len <? pos then Err MQTT_CODE_ERROR_OUT_OF_BUFFER
  else
    '(s, n, tmp) ← MqttDecode_String buf (off + pos) (u32 (buf_len - pos));
    if tmp <=? u32 (buf_len - pos) then
      if prop_len <? tmp then Err MQTT_CODE_ERROR_MALFORMED_DATA
      else
        ok ← (if type =? MQTT_PROP_RESP_TOPIC then
                MqttPacket_TopicNameValid (Some s) n MQTT_CONNECT_PROTOCOL_LEVEL_5
              else Ok true);
        if negb ok then Err MQTT_CODE_ERROR_MALFORMED_DATA
        else Ok (mkProp type 0 0 0 (mkStr n (Some s)) no_str no_str, tmp)
    else Err MQTT_CODE_ERROR_PROPERTY.

Definition MqttDecode_Prop_var_int (type : Z) (buf : list Z) (off pos buf_len prop_len : Z)
    : result (MqttProp * Z) :=
  if buf_len <? u32 pos then Err MQTT_CODE_ERROR_OUT_OF_BUFFER
  else
    '(x, tmp) ← MqttDecode_Vbi buf (off + pos) (u32 (buf_len - pos));
    if prop_len <? tmp then Err MQTT_CODE_ERROR_MALFORMED_DATA
    else if (type =? MQTT_PROP_SUBSCRIPTION_ID) && (x =? 0) then
      Err MQTT_CODE_ERROR_MALFORMED_DATA
    else Ok (mkProp type 0 0 x no_str no_str no_str, tmp).

Definition MqttDecode_Prop_binary (type : Z) (buf : list Z) (off pos buf_len prop_len : Z)
    : result (MqttProp * Z) :=
  '(n, tmp) ← MqttDecode_Num buf (off + pos) (u32 (buf_len - pos));
  if prop_len <? tmp then Err MQTT_CODE_ERROR_MALFORMED_DATA
  else
    let pos := pos + tmp in
    let prop_len := prop_len - tmp in
    if n <=? u32 (buf_len - pos) then
      if prop_len <? n then Err MQTT_CODE_ERROR_MALFORMED_DATA
      else
        d ← slice buf (off + pos) n;
        Ok (mkProp type 0 0 0 no_str (mkStr n (Some d)) no_str, tmp + n)
    else Err MQTT_CODE_ERROR_PROPERTY.

Definition MqttDecode_Prop_pair (type : Z) (buf : list Z) (off pos buf_len prop_len : Z)
    : result (MqttProp * Z) :=
  '(s, n, tmp) ← MqttDecode_String buf (off + pos) (u32 (buf_len - pos));
  if tmp <=? u32 (buf_len - pos) then
    if prop_len <? tmp then Err MQTT_CODE_ERROR_MALFORMED_DATA
    else
      let pos := pos + tmp in
      let prop_len := prop_len - tmp in
      if 0 <? u32 (buf_len - pos) then
        '(s2, n2, tmp2) ← MqttDecode_String buf (off + pos) (u32 (buf_len - pos));
        if tmp2 <=? u32 (buf_len - pos) then
          if prop_len <? tmp2 then Err MQTT_CODE_ERROR_MALFORMED_DATA
          else Ok (mkProp type 0 0 0 (mkStr n (Some s)) no_str (mkStr n2 (Some s2)), tmp + tmp2)
        else Err MQTT_CODE_ERROR_PROPERTY
      else Err MQTT_CODE_ERROR_PROPERTY
  else Err MQTT_CODE_ERROR_PROPERTY.

Definition MqttDecode_Prop_value (type : Z) (buf : list Z) (off pos buf_len prop_len : Z)
    : result (MqttProp * Z) :=
  match prop_data type with
  | MQTT_DATA_TYPE_BYTE => MqttDecode_Prop_byte type buf off pos buf_len prop_len
  | MQTT_DATA_TYPE_SHORT => MqttDecode_Prop_short type buf off pos buf_len prop_len
  | MQTT_DATA_TYPE_INT => MqttDecode_Prop_int type buf off pos buf_len prop_len
  | MQTT_DATA_TYPE_STRING => MqttDecode_Prop_string type buf off pos buf_len prop_len
  | MQTT_DATA_TYPE_VAR_INT => MqttDecode_Prop_var_int type buf off pos buf_len prop_len
  | MQTT_DATA_TYPE_BINARY => MqttDecode_Prop_binary type buf off pos buf_len prop_len
  | MQTT_DATA_TYPE_STRING_PAIR => MqttDecode_Prop_pair type buf off pos buf_len prop_len
  | MQTT_DATA_TYPE_NONE => Err MQTT_CODE_ERROR_PROPERTY
  end.

(** One property, from its identifier on: the property, the bytes of the
    identifier and of the value, and the duplicate guard. *)
Definition MqttDecode_Prop (packet : Z) (buf : list Z)
    (off pos buf_len prop_len seen_lo seen_hi : Z) : result (MqttProp * Z * (Z * Z)) :=
  if buf_len <? pos then Err MQTT_CODE_ERROR_OUT_OF_BUFFER
  else
    '(type, tmp) ← MqttDecode_Vbi buf (off + pos) (u32 (buf_len - pos));
    if len gPropMatrix <=? type then Err MQTT_CODE_ERROR_PROPERTY
    else if negb (prop_allowed packet type) then Err MQTT_CODE_ERROR_PROPERTY_MISMATCH
    else
      match seen_check packet type seen_lo seen_hi with
      | None => Err MQTT_CODE_ERROR_PROPERTY
      | Some seen =>
        '(p, n) ← MqttDecode_Prop_value type buf off (pos + tmp) buf_len (u32 (prop_len - tmp));
        Ok (p, tmp + n, seen)
      end.

(** The loop. It returns the outcome with the list built so far and the free
    cells, which an error leaves to the caller to give back. *)
Fixpoint MqttDecode_Props_loop (fuel : nat) (packet : Z) (props : list MqttProp)
    (free : nat) (buf : list Z) (off buf_len prop_len total prop_count : Z)
    (saw_auth_method saw_auth_data : bool) (seen_lo seen_hi : Z)
    : result (Z * bool * bool) * list MqttProp * nat :=
  match fuel with
  | O => (UB, props, free)
  | S fuel =>
    if 0 <? i32 prop_len then
      let prop_count := prop_count + 1 in
      if MQTT_MAX_PROPS <? prop_count then (Err MQTT_CODE_ERROR_PROPERTY, props, free)
      else
        match free with
        | O => (Err MQTT_CODE_ERROR_MEMORY, props, free)
        | S free =>
          match MqttDecode_Prop packet buf off total buf_len prop_len seen_lo seen_hi with
          | Ok (p, n, (seen_lo, seen_hi)) =>
            MqttDecode_Props_loop fuel packet (props ++ [p]) free buf off buf_len
              (u32 (prop_len - n)) (total + n) prop_count
              (saw_auth_method || (prop_type p =? MQTT_PROP_AUTH_METHOD))
              (saw_auth_data || (prop_type p =? MQTT_PROP_AUTH_DATA)) seen_lo seen_hi
          | Err rc => (Err rc, props ++ [new_prop MQTT_PROP_TYPE_MAX], free)
          | UB => (UB, props, free)
          end
        end
    else (Ok (total, saw_auth_method, saw_auth_data), props, free)
  end.

(** Every property has its own round and a message carries at most
    [MQTT_MAX_PROPS] of them, so one more round is enough. [props] is the list
    the caller's head designates; the result is the list and the bytes
    consumed. *)
Definition MqttDecode_Props (packet : Z) (props : list MqttProp) (buf : list Z)
    (off buf_len prop_len : Z) : M (list MqttProp * Z) := fun free =>
  match MqttDecode_Props_loop (S (Z.to_nat MQTT_MAX_PROPS)) packet props free buf off
          buf_len prop_len 0 0 false false 0 0 with
  | (Ok (total, saw_auth_method, saw_auth_data), props, free) =>
    if saw_auth_data && negb saw_auth_method then
      (Err MQTT_CODE_ERROR_PROPERTY, (free + length props)%nat)
    else (Ok (props, total), free)
  | (Err rc, props, free) => (Err rc, (free + length props)%nat)
  | (UB, _, free) => (UB, free)
  end.

(** ** What a property is on the wire *)

(** The bytes of a counted field. *)
Definition field (f : MqttProp_Str) : list Z :=
  match field_bytes f with Some d => d | None => [] end.

Definition value_wire (p : MqttProp) : list Z :=
  match prop_data (prop_type p) with
  | MQTT_DATA_TYPE_BYTE => [data_byte p]
  | MQTT_DATA_TYPE_SHORT => be16 (data_short p)
  | MQTT_DATA_TYPE_INT => be32 (data_int p)
  | MQTT_DATA_TYPE_STRING => counted (field (data_str p))
  | MQTT_DATA_TYPE_VAR_INT => vbi 4 (data_int p)
  | MQTT_DATA_TYPE_BINARY => counted (field (data_bin p))
  | MQTT_DATA_TYPE_STRING_PAIR => counted (field (data_str p)) ++ counted (field (data_str2 p))
  | MQTT_DATA_TYPE_NONE => []
  end.

Definition prop_wire (p : MqttProp) : list Z := prop_type p :: value_wire p.
Definition props_wire (ps : list MqttProp) : list Z := concat (map prop_wire ps).

(** A property as C stores it: every member within its type, and objects as
    long as declared. *)
Definition str_rep (f : MqttProp_Str) : Prop :=
  0 <= str_len f < 65536 /\ is_Some (field_bytes f) /\ bytes (field f).

Definition prop_rep (p : MqttProp) : Prop :=
  0 <= prop_type p < 4294967296 /\ 0 <= data_byte p < 256 /\ 0 <= data_short p < 65536 /\
  0 <= data_int p < 4294967296 /\ str_rep (data_str p) /\ str_rep (data_bin p) /\
  str_rep (data_str2 p).

(** The conditions on a value: those of the protocol that the code checks. *)
Definition value_ok (p : MqttProp) : Prop :=
  match prop_data (prop_type p) with
  | MQTT_DATA_TYPE_BYTE => data_byte p <= 1
  | MQTT_DATA_TYPE_SHORT => prop_type p = MQTT_PROP_TOPIC_ALIAS -> data_short p <> 0
  | MQTT_DATA_TYPE_INT => prop_type p = MQTT_PROP_MAX_PACKET_SZ -> data_int p <> 0
  | MQTT_DATA_TYPE_STRING =>
      utf8_text (field (data_str p)) /\
      (prop_type p = MQTT_PROP_RESP_TOPIC ->
       is_Some (str_ptr (data_str p)) /\ plain (field (data_str p)))
  | MQTT_DATA_TYPE_VAR_INT =>
      data_int p <= MQTT_PACKET_MAX_REMAIN_LEN /\
      (prop_type p = MQTT_PROP_SUBSCRIPTION_ID -> data_int p <> 0)
  | MQTT_DATA_TYPE_BINARY => True
  | MQTT_DATA_TYPE_STRING_PAIR =>
      utf8_text (field (data_str p)) /\ utf8_text (field (data_str2 p))
  | MQTT_DATA_TYPE_NONE => False
  end.

Definition prop_ok (packet : Z) (p : MqttProp) : Prop :=
  prop_allowed packet (prop_type p) = true /\ value_ok p.

(** The types that must not repeat, in the order they appear. *)
Definition singles (packet : Z) (ps : list MqttProp) : list Z :=
  filter (fun t => repeatable packet t = false) (map prop_type ps).

Definition props_ok (packet : Z) (ps : list MqttProp) : Prop :=
  len ps <= MQTT_MAX_PROPS /\ Forall (prop_ok packet) ps /\ NoDup (singles packet ps).

(** Authentication Data requires an Authentication Method. *)
Definition auth_ok (ps : list MqttProp) : Prop :=
  MQTT_PROP_AUTH_DATA ∈ map prop_type ps -> MQTT_PROP_AUTH_METHOD ∈ map prop_type ps.

#[export] Instance auth_ok_dec ps : Decision (auth_ok ps).
Proof. unfold auth_ok. apply _. Defined.

(** What the decoder stores for a property: the members of its data type,
    with the bytes a peer received. *)
Definition norm_str (f : MqttProp_Str) : MqttProp_Str :=
  mkStr (str_len f) (Some (field f)).

Definition prop_norm (p : MqttProp) : MqttProp :=
  let t := prop_type p in
  match prop_data t with
  | MQTT_DATA_TYPE_BYTE => mkProp t (data_byte p) 0 0 no_str no_str no_str
  | MQTT_DATA_TYPE_SHORT => mkProp t 0 (data_short p) 0 no_str no_str no_str
  | MQTT_DATA_TYPE_INT | MQTT_DATA_TYPE_VAR_INT => mkProp t 0 0 (data_int p) no_str no_str no_str
  | MQTT_DATA_TYPE_STRING => mkProp t 0 0 0 (norm_str (data_str p)) no_str no_str
  | MQTT_DATA_TYPE_BINARY => mkProp t 0 0 0 no_str (norm_str (data_bin p)) no_str
  | MQTT_DATA_TYPE_STRING_PAIR =>
      mkProp t 0 0 0 (norm_str (data_str p)) no_str (norm_str (data_str2 p))
  | MQTT_DATA_TYPE_NONE => new_prop t
  end.

(** ** The table *)

Lemma prop_row_entry t row : prop_row t = Some row -> t < 44 /\ gPropMatrix !! Z.to_nat t = Some row.
Proof.
  unfold prop_row. change (len gPropMatrix) with 44. destruct (Z.ltb_spec t 44); [|done]. done.
Qed.

Lemma allowed_range packet t : 0 <= t -> prop_allowed packet t = true -> t < 44.
Proof.
  unfold prop_allowed. intros Ht. destruct (prop_row t) as [row|] eqn:E; [|done].
  by apply prop_row_entry in E as [? _].
Qed.

Lemma prop_type_cases (Q : Z -> Prop) t :
  0 <= t < 44 -> Forall Q (map Z.of_nat (seq 0 44)) -> Q t.
Proof.
  intros Ht HQ. rewrite Forall_forall in HQ. apply HQ.
  apply in_map_iff. exists (Z.to_nat t). split; [lia|]. apply in_seq. lia.
Qed.

(** ** Lengths and bytes *)

Lemma field_len f : str_rep f -> len (field f) = str_len f.
Proof.
  intros (Hl & [d Hd] & _). unfold field. rewrite Hd. eapply field_bytes_len; [lia|done].
Qed.

Lemma field_some n s : len s = n -> field (mkStr n (Some s)) = s.
Proof.
  intros <-. unfold field, field_bytes. simpl. rewrite Z.leb_refl.
  unfold len. by rewrite Nat2Z.id, firstn_all.
Qed.

Lemma str_rep_some n s : len s = n -> n <= 65535 -> bytes s -> str_rep (mkStr n (Some s)).
Proof.
  intros Hl Hn Hb. pose proof (len_nonneg s). unfold str_rep. rewrite field_some by done.
  unfold field_bytes. cbn [str_len str_ptr]. rewrite (proj2 (Z.leb_le n (len s))) by lia.
  split_and!; [lia|lia|by eexists|done].
Qed.

Lemma no_str_rep : str_rep no_str.
Proof. unfold str_rep. split_and!; [done|done|by eexists|constructor]. Qed.

Lemma norm_str_rep f : str_rep f -> str_rep (norm_str f).
Proof.
  intros H. pose proof (field_len _ H). destruct H as (Hl & _ & Hb).
  apply str_rep_some; [done|lia|done].
Qed.

Lemma field_norm f : str_rep f -> field (norm_str f) = field f.
Proof. intros H. apply field_some. by apply field_len. Qed.

Lemma value_wire_bytes p : prop_rep p -> value_ok p -> bytes (value_wire p).
Proof.
  intros (_ & Hb & Hs & Hi & Hs1 & Hs2 & Hs3) Hok.
  pose proof (field_len _ Hs1). pose proof (field_len _ Hs2). pose proof (field_len _ Hs3).
  destruct Hs1 as (? & _ & ?), Hs2 as (? & _ & ?), Hs3 as (? & _ & ?).
  unfold value_wire, value_ok in *. destruct (prop_data _).
  - done.
  - repeat constructor; lia.
  - by apply be16_bytes.
  - by apply be32_bytes.
  - apply counted_bytes; [done|lia].
  - apply vbi_bytes. lia.
  - apply counted_bytes; [done|lia].
  - apply Forall_app; split; (apply counted_bytes; [done|lia]).
Qed.

Lemma value_wire_len p : prop_rep p -> 0 <= len (value_wire p) <= 131074.
Proof.
  intros (_ & Hb & Hs & Hi & Hs1 & Hs2 & Hs3).
  pose proof (field_len _ Hs1). pose proof (field_len _ Hs2). pose proof (field_len _ Hs3).
  destruct Hs1 as (? & _ & ?), Hs2 as (? & _ & ?), Hs3 as (? & _ & ?).
  unfold value_wire. destruct (prop_data _); rewrite ?len_app, ?counted_len;
    pose proof (vbi_len 4 (data_int p)); first [lia | unfold len; simpl; lia].
Qed.

Lemma props_wire_app a b : props_wire (a ++ b) = props_wire a ++ props_wire b.
Proof. unfold props_wire. by rewrite map_app, concat_app. Qed.

Lemma props_wire_cons p ps : props_wire (p :: ps) = prop_wire p ++ props_wire ps.
Proof. done. Qed.

Lemma props_wire_bytes packet ps :
  Forall prop_rep ps -> Forall (prop_ok packet) ps -> bytes (props_wire ps).
Proof.
  intros Hr Hok. induction Hr as [|p ps Hp Hr IH]; [constructor|].
  inversion Hok as [|? ? [Ha Hv] Hok']; subst. rewrite props_wire_cons.
  apply Forall_app; split; [|by apply IH]. constructor; [|by apply value_wire_bytes].
  destruct Hp as (Ht & _). pose proof (allowed_range _ _ (proj1 Ht) Ha). unfold is_byte. lia.
Qed.

Lemma props_wire_len ps : Forall prop_rep ps -> 0 <= len (props_wire ps) <= 131075 * len ps.
Proof.
  induction 1 as [|p ps Hp Hr IH]; [by vm_compute|].
  rewrite props_wire_cons, len_app, (len_cons p). unfold prop_wire. rewrite len_cons.
  pose proof (value_wire_len _ Hp). lia.
Qed.

(** Every property takes at least two bytes. *)
Lemma prop_wire_pos packet p : prop_rep p -> prop_ok packet p -> 2 <= len (prop_wire p).
Proof.
  intros Hr [_ Hok]. unfold prop_wire. rewrite len_cons. unfold value_ok, value_wire in *.
  destruct (prop_data _); rewrite ?len_app, ?counted_len;
    repeat match goal with |- context [len (field ?f)] =>
      lazymatch goal with _ : 0 <= len (field f) |- _ => fail | _ => pose proof (len_nonneg (field f)) end
    end; pose proof (vbi_len 4 (data_int p)); first [done | lia | unfold len; simpl; lia].
Qed.

(** ** The duplicate guard *)

(** [seen_lo] and [seen_hi] hold the set [S] of types. *)
Definition seen_bits (lo hi : Z) (S : list Z) : Prop :=
  forall t, 0 <= t < 64 ->
    (if t <? 32 then Z.testbit lo t else Z.testbit hi (t - 32)) = bool_decide (t ∈ S).

Lemma seen_bits_empty : seen_bits 0 0 [].
Proof. intros t _. rewrite !Z.bits_0. by case_match. Qed.

Lemma land_bit w n : 0 <= n < 32 -> (Z.land w (u32 (Z.shiftl 1 n)) =? 0) = negb (Z.testbit w n).
Proof.
  intros Hn. rewrite Z.shiftl_1_l.
  assert (0 < 2 ^ n) by (apply Z.pow_pos_nonneg; lia).
  assert (2 ^ n < 2 ^ 32) by (apply Z.pow_lt_mono_r; lia). rewrite u32_small by lia.
  destruct (Z.testbit w n) eqn:E; cbn [negb].
  - apply Z.eqb_neq. intros H'. assert (Z.testbit (Z.land w (2 ^ n)) n = false) as Hb by by rewrite H', Z.bits_0.
    rewrite Z.land_spec, E, Z.pow2_bits_true in Hb by lia. done.
  - apply Z.eqb_eq. apply Z.bits_inj'. intros k Hk. rewrite Z.land_spec, Z.bits_0.
    destruct (Z.eq_dec k n) as [->|]; [by rewrite E|].
    by rewrite Z.pow2_bits_false, andb_false_r by lia.
Qed.

Lemma lor_bit w n k :
  0 <= n < 32 -> 0 <= k -> Z.testbit (Z.lor w (u32 (Z.shiftl 1 n))) k = (Z.testbit w k || (k =? n))%bool.
Proof.
  intros Hn Hk. rewrite Z.shiftl_1_l.
  assert (0 < 2 ^ n) by (apply Z.pow_pos_nonneg; lia).
  assert (2 ^ n < 2 ^ 32) by (apply Z.pow_lt_mono_r; lia). rewrite u32_small by lia.
  rewrite Z.lor_spec. f_equal. rewrite Z.pow2_bits_eqb by lia. apply Z.eqb_sym.
Qed.

(** The guard refuses exactly the singletons already in [S], and records the
    others. *)
Lemma seen_check_spec packet t lo hi S :
  0 <= t < 44 -> seen_bits lo hi S ->
  match seen_check packet t lo hi with
  | None => repeatable packet t = false /\ t ∈ S
  | Some (lo', hi') =>
      if repeatable packet t then lo' = lo /\ hi' = hi
      else (t ∉ S) /\ seen_bits lo' hi' (S ++ [t])
  end.
Proof.
  intros Ht HS. unfold seen_check. destruct (repeatable packet t); cbn [negb]; [done|].
  pose proof (HS t ltac:(lia)) as Hbit.
  assert (Happ : forall k, bool_decide (k ∈ S ++ [t]) = (bool_decide (k ∈ S) || (k =? t))%bool).
  { intros k. apply eq_true_iff_eq. rewrite orb_true_iff, !bool_decide_eq_true, Z.eqb_eq.
    rewrite elem_of_app, list_elem_of_singleton. done. }
  destruct (Z.ltb_spec t 32).
  - rewrite land_bit, negb_involutive by lia. rewrite Hbit. case_bool_decide; [done|].
    split; [done|]. intros k Hk. rewrite Happ, <- (HS k Hk). destruct (Z.ltb_spec k 32).
    + rewrite lor_bit by lia. done.
    + rewrite (proj2 (Z.eqb_neq k t)), orb_false_r by lia. done.
  - rewrite land_bit, negb_involutive by lia. rewrite Hbit. case_bool_decide; [done|].
    split; [done|]. intros k Hk. rewrite Happ, <- (HS k Hk). destruct (Z.ltb_spec k 32).
    + rewrite (proj2 (Z.eqb_neq k t)), orb_false_r by lia. done.
    + rewrite lor_bit by lia. f_equal. destruct (Z.eqb_spec k t), (Z.eqb_spec (k - 32) (t - 32)); lia.
Qed.

Lemma singles_cons packet p ps :
  singles packet (p :: ps) =
    (if repeatable packet (prop_type p) then [] else [prop_type p]) ++ singles packet ps.
Proof.
  unfold singles. cbn [map]. rewrite filter_cons.
  destruct (repeatable packet (prop_type p)) eqn:E; [by rewrite decide_False by done|].
  by rewrite decide_True by done.
Qed.

Lemma singles_app packet a b : singles packet (a ++ b) = singles packet a ++ singles packet b.
Proof. unfold singles. by rewrite map_app, list.filter_app. Qed.

(** ** What the encoder does *)

Lemma Data_answers buf f :
  str_rep f ->
  MqttEncode_Data buf (str_ptr f) (str_len f) =
    Ok (2 + len (field f), when buf (counted (field f))).
Proof.
  intros (Hl & [d Hd] & _). unfold field. rewrite Hd. by apply MqttEncode_Data_eq.
Qed.

Lemma Utf8Ok_decides f :
  str_rep f -> decides (MqttEncode_Utf8Ok (str_ptr f) (str_len f)) (utf8_text (field f)).
Proof.
  intros (Hl & [d Hd] & Hb). unfold field in *. rewrite Hd in *. destruct f as [n s].
  by apply MqttEncode_Utf8Ok_decides; [simpl in *; lia|..].
Qed.

Lemma RespTopic_decides p :
  str_rep (data_str p) ->
  decides
    (if prop_type p =? MQTT_PROP_RESP_TOPIC then
       MqttPacket_TopicNameValid (str_ptr (data_str p)) (str_len (data_str p))
         MQTT_CONNECT_PROTOCOL_LEVEL_5
     else Ok true)
    (prop_type p = MQTT_PROP_RESP_TOPIC ->
       is_Some (str_ptr (data_str p)) /\ plain (field (data_str p))).
Proof.
  intros Hrep. pose proof (field_len _ Hrep) as Hl. destruct Hrep as (Hr & [d Hd] & _).
  destruct (Z.eqb_spec (prop_type p) MQTT_PROP_RESP_TOPIC) as [Ht|Ht]; [|by apply decides_true].
  unfold field in *. rewrite Hd in *. unfold field_bytes in Hd.
  destruct (str_ptr (data_str p)) as [s|] eqn:E.
  - destruct (Z.leb_spec (str_len (data_str p)) (len s)); [|done]. injection Hd as <-.
    eapply decides_iff; [|rewrite <- (take_drop (Z.to_nat (str_len (data_str p))) s) at 1;
      by apply MqttPacket_TopicNameValid_decides; [|lia]].
    split; [|intros [? _] _; by split]. intros H'. specialize (H' Ht). split; [tauto|]. right. lia.
  - apply decides_false. intros H'. by destruct (proj1 (H' Ht)).
Qed.

(** One value: accepted when it satisfies the protocol, and then written as
    [value_wire]. *)
Lemma MqttEncode_Prop_value_answers buf p :
  prop_rep p ->
  answers (MqttEncode_Prop_value buf p) (value_ok p) (len (value_wire p))
    (when buf (value_wire p)).
Proof.
  intros (_ & Hb & Hs & Hi & Hs1 & Hs2 & Hs3).
  unfold MqttEncode_Prop_value, value_ok, value_wire.
  destruct (prop_data (prop_type p)).
  - apply answers_err; [lia|tauto].
  - eapply answers_iff; [|eapply (answers_guard _ _ _ (data_byte p <= 1) True); [lia| |]].
    + tauto.
    + rewrite Z.ltb_ge. done.
    + intros _. by apply answers_ok.
  - eapply answers_iff; [|eapply (answers_guard _ _ _ (prop_type p = MQTT_PROP_TOPIC_ALIAS -> data_short p <> 0) True); [lia| |]].
    + tauto.
    + rewrite andb_false_iff, !Z.eqb_neq. lia.
    + intros _. rewrite MqttEncode_Num_eq by lia. by apply answers_ok.
  - eapply answers_iff; [|eapply (answers_guard _ _ _ (prop_type p = MQTT_PROP_MAX_PACKET_SZ -> data_int p <> 0) True); [lia| |]].
    + tauto.
    + rewrite andb_false_iff, !Z.eqb_neq. lia.
    + intros _. rewrite MqttEncode_Int_eq by lia. by apply answers_ok.
  - eapply answers_iff; [apply and_comm|].
    eapply answers_decides; [lia|by apply RespTopic_decides|]. intros _.
    eapply answers_iff; [|eapply (answers_decides _ _ _ _ True); [lia|by apply Utf8Ok_decides|]].
    + tauto.
    + intros _. rewrite Data_answers, counted_len by done. by apply answers_ok.
  - eapply answers_iff; [apply and_comm|]. eapply answers_guard; [lia| |].
    + rewrite andb_false_iff, !Z.eqb_neq. lia.
    + intros _. apply MqttEncode_Vbi_answers. lia.
  - rewrite Data_answers, counted_len by done. by apply answers_ok.
  - eapply answers_decides; [lia|by apply Utf8Ok_decides|]. intros _.
    eapply answers_iff; [|eapply (answers_decides _ _ _ _ True); [lia|by apply Utf8Ok_decides|]].
    + tauto.
    + intros _. rewrite !Data_answers by done. unfold emit_app. cbn [mbind result_bind].
      rewrite len_app, !counted_len. left. split; [done|]. by destruct buf.
Qed.

(** The types of a list against the ones seen before it. *)
Definition distinct_from (packet : Z) (S : list Z) (ps : list MqttProp) : Prop :=
  NoDup (singles packet ps) /\ (forall t, t ∈ singles packet ps -> t ∉ S).

Lemma distinct_from_nil packet ps : distinct_from packet [] ps <-> NoDup (singles packet ps).
Proof. split; [by intros [? _]|]. split; [done|]. intros t _ Hin. by apply elem_of_nil in Hin. Qed.

Lemma distinct_from_cons_rep packet S p ps :
  repeatable packet (prop_type p) = true ->
  distinct_from packet S (p :: ps) <-> distinct_from packet S ps.
Proof. intros H. unfold distinct_from. by rewrite singles_cons, H. Qed.

Lemma distinct_from_cons packet S p ps :
  repeatable packet (prop_type p) = false ->
  distinct_from packet S (p :: ps) <->
  (prop_type p ∉ S) /\ distinct_from packet (S ++ [prop_type p]) ps.
Proof.
  intros H. unfold distinct_from. rewrite singles_cons, H. simpl. rewrite list.NoDup_cons.
  split.
  - intros [[Hni Hnd] Hs]. split; [by apply Hs; left|]. split; [done|].
    intros t Ht [HS| ->%list_elem_of_singleton]%elem_of_app; [|done].
    by apply (Hs t); [right|].
  - intros [HpS [Hnd Hs]]. split; [split; [|done]|].
    + intros Hin. apply (Hs _ Hin), elem_of_app. right. by left.
    + intros t [->|Ht]%elem_of_cons; [done|]. intros HS. apply (Hs _ Ht), elem_of_app. by left.
Qed.

Lemma MqttEncode_Props_loop_answers packet ps buf rc count lo hi S :
  Forall prop_rep ps -> seen_bits lo hi S -> 0 <= count <= MQTT_MAX_PROPS ->
  0 <= rc <= 131075 * count ->
  answers (MqttEncode_Props_loop packet ps buf rc count lo hi)
    (count + len ps <= MQTT_MAX_PROPS /\ Forall (prop_ok packet) ps /\ distinct_from packet S ps)
    (rc + len (props_wire ps)) (when buf (props_wire ps)).
Proof.
  intros Hrep. revert rc count lo hi S.
  induction Hrep as [|p ps Hp Hps IH]; intros rc count lo hi S HS Hc Hrc; cbn [MqttEncode_Props_loop].
  { left. split.
    - rewrite len_nil. split_and!; [lia|constructor|]. split; [constructor|].
      intros t Ht. by apply elem_of_nil in Ht.
    - change (props_wire []) with ([] : list Z). rewrite len_nil.
      do 2 f_equal; [lia|by destruct buf]. }
  rewrite len_cons. pose proof (len_nonneg ps). change (len gPropMatrix) with 44.
  destruct (Z.ltb_spec MQTT_MAX_PROPS (count + 1)); [apply answers_err; lia|].
  pose proof (proj1 Hp) as Ht.
  destruct (Z.leb_spec 44 (prop_type p)) as [Hbig|Hsmall].
  { apply answers_err; [lia|]. intros (_ & Hok & _). inversion Hok as [|? ? [Ha _] _]; subst.
    apply allowed_range in Ha; lia. }
  destruct (prop_allowed packet (prop_type p)) eqn:Ea; cbn [negb]; last first.
  { apply answers_err; [lia|]. intros (_ & Hok & _). inversion Hok as [|? ? [Ha _] _]; subst. congruence. }
  pose proof (seen_check_spec packet (prop_type p) lo hi S ltac:(lia) HS) as Hseen.
  destruct (seen_check packet (prop_type p) lo hi) as [[lo' hi']|]; last first.
  { destruct Hseen as [Hrp Hin]. apply answers_err; [lia|]. intros (_ & _ & Hd).
    by apply (distinct_from_cons _ _ _ _ Hrp) in Hd as [? _]. }
  rewrite MqttEncode_Vbi_eq by lia. cbn [mbind result_bind].
  assert (Hv : vbi 4 (prop_type p) = [prop_type p]).
  { cbn [vbi]. by rewrite (proj2 (Z.ltb_lt _ _)) by lia. }
  rewrite Hv. change (len [prop_type p]) with 1.
  pose proof (value_wire_len _ Hp) as Hvl.
  assert (exists S', seen_bits lo' hi' S' /\
            (distinct_from packet S (p :: ps) <-> distinct_from packet S' ps)) as (S' & HS' & HdS).
  { destruct (repeatable packet (prop_type p)) eqn:Erp.
    - destruct Hseen as [-> ->]. exists S. split; [done|]. by apply distinct_from_cons_rep.
    - destruct Hseen as [Hni Hb]. eexists; split; [exact Hb|]. rewrite distinct_from_cons by done. tauto. }
  eapply answers_iff; [|eapply answers_bind; [by apply MqttEncode_Prop_value_answers|]].
  2:{ intros Hval. cbv beta iota zeta.
      rewrite (proj2 (Z.ltb_ge _ _)) by lia.
      eapply (answers_eq _ _ (rc + 1 + len (value_wire p) + len (props_wire ps)) _ _ _).
      - eapply answers_iff; [|eapply (answers_bind _ _ _ True); [apply (IH _ _ _ _ _ HS'); lia|]].
        2:{ intros _. by apply answers_ok. }
        reflexivity.
      - rewrite props_wire_cons, len_app. unfold prop_wire. rewrite len_cons. lia.
      - rewrite props_wire_cons. unfold prop_wire. by destruct buf. }
  rewrite HdS. split.
  - intros (Hl & Hok & Hd). inversion Hok as [|? ? [_ Hv'] Hok']; subst.
    split_and!; try done; lia.
  - intros (Hv' & (Hl & Hok & Hd) & _). split_and!; [lia| |done].
    constructor; [by split|done].
Qed.

(** [MqttEncode_Props] accepts exactly the lists the protocol allows for the
    packet, and writes their properties one after the other. *)
Lemma MqttEncode_Props_answers packet ps buf :
  Forall prop_rep ps ->
  answers (MqttEncode_Props packet ps buf) (props_ok packet ps)
    (len (props_wire ps)) (when buf (props_wire ps)).
Proof.
  intros Hrep. unfold MqttEncode_Props, props_ok.
  eapply answers_iff; [|apply (MqttEncode_Props_loop_answers _ _ _ 0 0 0 0 []); try done].
  - by rewrite distinct_from_nil.
  - apply seen_bits_empty.
Qed.

(** ** What the decoder does *)

(** A property as the decoder leaves it: well formed for its data type, the
    members of other data types zero. *)
Definition prop_decoded (p : MqttProp) : Prop :=
  prop_rep p /\ value_ok p /\ prop_norm p = p.

Lemma decoded_rep p : prop_decoded p -> prop_rep p.
Proof. by intros [? _]. Qed.

(** What one case of the [switch] yields: the value found in the buffer. *)
Definition value_at (type : Z) (buf : list Z) (i : Z) (p : MqttProp) (n : Z) : Prop :=
  prop_type p = type /\ prop_decoded p /\ sits buf i (value_wire p) /\ n = len (value_wire p).

(** The string parsed at [pos], as a field. *)
Lemma string_field buf i s l n :
  sits buf i (counted s) -> l = len s -> l <= 65535 -> bytes s -> n = 2 + l ->
  str_rep (mkStr l (Some s)) /\ field (mkStr l (Some s)) = s /\
  norm_str (mkStr l (Some s)) = mkStr l (Some s) /\ n = len (counted s).
Proof.
  intros Hs -> Hl Hb ->. unfold norm_str. rewrite !field_some by done. rewrite counted_len.
  split_and!; try done. by apply str_rep_some.
Qed.

Definition value_found (type : Z) (buf : list Z) (off pos buf_len prop_len : Z)
    '((p, n) : MqttProp * Z) : Prop :=
  value_at type buf (off + pos) p n /\ pos + n <= buf_len /\ n <= prop_len.

(** Read the value that has been found off the definitions. *)
Ltac decoded_value Hd :=
  unfold value_found, value_at, prop_decoded, prop_rep, value_ok, prop_norm, value_wire;
  cbn [prop_type data_byte data_short data_int data_str data_bin data_str2];
  rewrite Hd in *;
  repeat match goal with
  | H : norm_str ?f = ?f |- _ => rewrite !H in *; clear H
  | H : field (mkStr ?l (Some ?s)) = ?s |- _ => rewrite !H in *; clear H
  end;
  pose proof no_str_rep; rewrite ?len_app; split_and!; try done; try lia.

Section Decode_value.
(** A property of type [type] at [pos] of the block at [off]. *)
Context (type : Z) (buf : list Z) (off pos buf_len prop_len : Z).
Hypotheses (Hb : bytes buf) (Ht : 0 <= type < 44) (Ho : 0 <= off) (Hp : 0 <= pos <= buf_len)
  (Hl : off + buf_len <= len buf) (Hm : buf_len < 2147483648).

Local Abbreviation found := (value_found type buf off pos buf_len prop_len).

Lemma MqttDecode_Prop_byte_yields :
  prop_data type = MQTT_DATA_TYPE_BYTE ->
  yields (MqttDecode_Prop_byte type buf off pos buf_len prop_len) found.
Proof using Hb Ht Ho Hp Hl Hm.
  intros Hd. unfold MqttDecode_Prop_byte.
  destruct (Z.leb_spec buf_len pos); [done|]. destruct (Z.ltb_spec prop_len 1); [done|]. cbn [orb].
  apply yields_bind, rd_yields; [lia|]. intros b Eb.
  destruct (Z.ltb_spec 1 b); [done|]. cbn [yields].
  pose proof (rd_byte _ _ _ Hb Eb) as Hbb. unfold is_byte in Hbb. apply sits_rd in Eb.
  decoded_value Hd.
Qed.

Lemma MqttDecode_Prop_short_yields :
  prop_data type = MQTT_DATA_TYPE_SHORT ->
  yields (MqttDecode_Prop_short type buf off pos buf_len prop_len) found.
Proof using Hb Ht Ho Hp Hl Hm.
  intros Hd. unfold MqttDecode_Prop_short.
  destruct (Z.ltb_spec buf_len pos); [done|]. rewrite u32_small by lia.
  apply yields_bind. eapply yields_mono; [apply MqttDecode_Num_yields; [done|lia|lia]|].
  intros [x n] (-> & H2 & Hx & Hs).
  destruct (Z.ltb_spec prop_len 2); [done|].
  destruct (_ && _) eqn:E; [done|]. cbn [yields].
  apply andb_false_iff in E. rewrite !Z.eqb_neq in E.
  decoded_value Hd.
Qed.

Lemma MqttDecode_Prop_int_yields :
  prop_data type = MQTT_DATA_TYPE_INT ->
  yields (MqttDecode_Prop_int type buf off pos buf_len prop_len) found.
Proof using Hb Ht Ho Hp Hl Hm.
  intros Hd. unfold MqttDecode_Prop_int.
  destruct (Z.ltb_spec buf_len pos); [done|]. destruct (Z.ltb_spec prop_len 4); [done|]. cbn [orb].
  rewrite u32_small by lia.
  apply yields_bind. eapply yields_mono; [apply MqttDecode_Int_yields; [done|lia|lia]|].
  intros [x n] (-> & H2 & Hx & Hs).
  destruct (_ && _) eqn:E; [done|]. cbn [yields].
  apply andb_false_iff in E. rewrite !Z.eqb_neq in E.
  decoded_value Hd.
Qed.

Lemma MqttDecode_Prop_var_int_yields :
  prop_data type = MQTT_DATA_TYPE_VAR_INT ->
  yields (MqttDecode_Prop_var_int type buf off pos buf_len prop_len) found.
Proof using Hb Ht Ho Hp Hl Hm.
  intros Hd. unfold MqttDecode_Prop_var_int.
  rewrite !u32_small by lia. destruct (Z.ltb_spec buf_len pos); [done|].
  apply yields_bind. eapply yields_mono; [apply MqttDecode_Vbi_yields; [done|lia|lia]|].
  intros [x n] (Hx & Hs & -> & H4 & Hn).
  destruct (Z.ltb_spec prop_len (len (vbi 4 x))); [done|].
  destruct (_ && _) eqn:E; [done|]. cbn [yields].
  apply andb_false_iff in E. rewrite !Z.eqb_neq in E.
  decoded_value Hd.
Qed.

Lemma MqttDecode_Prop_string_yields :
  prop_data type = MQTT_DATA_TYPE_STRING ->
  yields (MqttDecode_Prop_string type buf off pos buf_len prop_len) found.
Proof using Hb Ht Ho Hp Hl Hm.
  intros Hd. unfold MqttDecode_Prop_string.
  destruct (Z.ltb_spec buf_len pos); [done|]. rewrite u32_small by lia.
  apply yields_bind. eapply yields_mono; [apply MqttDecode_String_yields; [done|lia|lia|lia]|].
  intros [[s l] n] (Hs & Hls & Hn & Hr & Hnb & Ht8 & Hbs).
  destruct (Z.leb_spec n (buf_len - pos)); [|done].
  destruct (Z.ltb_spec prop_len n); [done|].
  destruct (string_field _ _ _ _ n Hs Hls ltac:(lia) Hbs ltac:(lia)) as (Hrep & Hf & Hnorm & Hlen).
  pose proof (RespTopic_decides (mkProp type 0 0 0 (mkStr l (Some s)) no_str no_str) Hrep) as Hrt.
  cbn [prop_type data_str str_ptr str_len] in Hrt.
  apply (decides_bind _ _ _ (fun r => yields r _) Hrt); [|done]. intros Hname. cbn [negb yields].
  decoded_value Hd.
Qed.

Lemma MqttDecode_Prop_binary_yields :
  prop_data type = MQTT_DATA_TYPE_BINARY ->
  yields (MqttDecode_Prop_binary type buf off pos buf_len prop_len) found.
Proof using Hb Ht Ho Hp Hl Hm.
  intros Hd. unfold MqttDecode_Prop_binary.
  rewrite (u32_small (buf_len - pos)) by lia.
  apply yields_bind. eapply yields_mono; [apply MqttDecode_Num_yields; [done|lia|lia]|].
  intros [l n] (-> & H2 & Hx & Hs).
  destruct (Z.ltb_spec prop_len 2); [done|]. rewrite u32_small by lia.
  destruct (Z.leb_spec l (buf_len - (pos + 2))); [|done].
  destruct (Z.ltb_spec (prop_len - 2) l); [done|].
  apply yields_bind, slice_yields; [lia..|]. intros d Ed.
  pose proof (slice_bytes _ _ _ _ Hb Ed) as Hbd.
  apply slice_inv in Ed as (_ & _ & _ & Hld & Hsd). cbn [yields].
  assert (Hc : sits buf (off + pos) (counted d)).
  { unfold counted. rewrite Hld. apply sits_app. split; [done|]. by rewrite <- Z.add_assoc. }
  destruct (string_field _ _ _ _ (2 + l) Hc (eq_sym Hld) ltac:(lia) Hbd ltac:(lia)) as (Hrep & Hf & Hnorm & Hlen).
  decoded_value Hd.
Qed.

Lemma MqttDecode_Prop_pair_yields :
  prop_data type = MQTT_DATA_TYPE_STRING_PAIR ->
  yields (MqttDecode_Prop_pair type buf off pos buf_len prop_len) found.
Proof using Hb Ht Ho Hp Hl Hm.
  intros Hd. unfold MqttDecode_Prop_pair.
  rewrite (u32_small (buf_len - pos)) by lia.
  apply yields_bind. eapply yields_mono; [apply MqttDecode_String_yields; [done|lia|lia|lia]|].
  intros [[s l] n] (Hs & Hls & Hn & Hr & Hnb & Ht8 & Hbs).
  destruct (Z.leb_spec n (buf_len - pos)); [|done].
  destruct (Z.ltb_spec prop_len n); [done|]. rewrite u32_small by lia.
  destruct (Z.ltb_spec 0 (buf_len - (pos + n))); [|done].
  apply yields_bind. eapply yields_mono; [apply MqttDecode_String_yields; [done|lia|lia|lia]|].
  intros [[s2 l2] n2] (Hs2 & Hls2 & Hn2 & Hr2 & Hnb2 & Ht82 & Hbs2).
  destruct (Z.leb_spec n2 (buf_len - (pos + n))); [|done].
  destruct (Z.ltb_spec (prop_len - n) n2); [done|]. cbn [yields].
  destruct (string_field _ _ _ _ n Hs Hls ltac:(lia) Hbs ltac:(lia)) as (Hrep & Hf & Hnorm & Hlen).
  destruct (string_field _ _ _ _ n2 Hs2 Hls2 ltac:(lia) Hbs2 ltac:(lia)) as (Hrep2 & Hf2 & Hnorm2 & Hlen2).
  decoded_value Hd.
  apply sits_app. rewrite <- Hlen, <- Z.add_assoc. done.
Qed.

Lemma MqttDecode_Prop_value_yields :
  yields (MqttDecode_Prop_value type buf off pos buf_len prop_len) found.
Proof using Hb Ht Ho Hp Hl Hm.
  unfold MqttDecode_Prop_value. destruct (prop_data type) eqn:Hd; [done|..].
  - by apply MqttDecode_Prop_byte_yields.
  - by apply MqttDecode_Prop_short_yields.
  - by apply MqttDecode_Prop_int_yields.
  - by apply MqttDecode_Prop_string_yields.
  - by apply MqttDecode_Prop_var_int_yields.
  - by apply MqttDecode_Prop_binary_yields.
  - by apply MqttDecode_Prop_pair_yields.
Qed.
End Decode_value.

Section Decode_value_sits.
(** A property that is on the wire at [pos] of the block at [off]. *)
Context (p : MqttProp) (buf : list Z) (off pos buf_len prop_len : Z).
Hypotheses (Hrep : prop_rep p) (Hok : value_ok p) (Hs : sits buf (off + pos) (value_wire p))
  (Hp : 0 <= pos) (Hl : pos + len (value_wire p) <= buf_len)
  (Hpl : len (value_wire p) <= prop_len) (Hm : buf_len < 2147483648).

Lemma MqttDecode_Prop_value_sits :
  MqttDecode_Prop_value (prop_type p) buf off pos buf_len prop_len =
    Ok (prop_norm p, len (value_wire p)).
Proof using Hrep Hok Hs Hp Hl Hpl Hm.
  destruct Hrep as (_ & Hb & Hsh & Hi & Hs1 & Hs2 & Hs3).
  pose proof (field_len _ Hs1) as Hl1. pose proof (field_len _ Hs2) as Hl2.
  pose proof (field_len _ Hs3) as Hl3.
  pose proof (RespTopic_decides (mkProp (prop_type p) 0 0 0 (norm_str (data_str p)) no_str no_str)
    (norm_str_rep _ Hs1)) as Hrt. cbn [prop_type data_str] in Hrt.
  rewrite field_norm in Hrt by done. cbn [norm_str str_ptr str_len] in Hrt.
  destruct Hs1 as (Hr1 & _ & Hb1), Hs2 as (Hr2 & _ & Hb2), Hs3 as (Hr3 & _ & Hb3).
  unfold MqttDecode_Prop_value, prop_norm, value_wire, value_ok, norm_str in *.
  destruct (prop_data (prop_type p)) eqn:Hd; [done|..].
  - unfold MqttDecode_Prop_byte. change (len [data_byte p]) with 1 in *.
    repeat decide_test. rewrite (rd_sits _ _ _ _ Hs). cbn [mbind result_bind orb].
    by decide_test.
  - unfold MqttDecode_Prop_short. change (len (be16 (data_short p))) with 2 in *.
    decide_test. rewrite u32_small by lia.
    rewrite (MqttDecode_Num_sits _ _ _ (data_short p)) by (done || lia).
    cbn [mbind result_bind]. decide_test. destruct (_ && _) eqn:E; [|done].
    tests. exfalso. by apply Hok.
  - unfold MqttDecode_Prop_int. change (len (be32 (data_int p))) with 4 in *.
    rewrite (proj2 (Z.ltb_ge buf_len pos)), (proj2 (Z.ltb_ge prop_len 4)) by lia. cbn [orb].
    rewrite u32_small by lia.
    rewrite (MqttDecode_Int_sits _ _ _ (data_int p)) by (done || lia).
    cbn [mbind result_bind]. destruct (_ && _) eqn:E; [|done]. tests. exfalso. by apply Hok.
  - unfold MqttDecode_Prop_string. rewrite counted_len in *.
    decide_test. rewrite u32_small by lia.
    rewrite (MqttDecode_String_sits _ _ _ (field (data_str p))) by (try apply Hok; done || lia).
    cbn [mbind result_bind]. decide_test. decide_test.
    rewrite Hl1. destruct Hrt as (b & Eb & Hbt).
    rewrite Eb. cbn [mbind result_bind]. rewrite (proj2 Hbt); [done|].
    intros Ht. split; [by eexists|]. by apply Hok.
  - unfold MqttDecode_Prop_var_int. pose proof (vbi_len 4 (data_int p)).
    rewrite !u32_small by lia. decide_test.
    rewrite (MqttDecode_Vbi_sits _ _ _ (data_int p)) by (done || lia).
    cbn [mbind result_bind]. decide_test. destruct (_ && _) eqn:E; [|done]. tests. exfalso. by apply Hok.
  - unfold MqttDecode_Prop_binary. rewrite counted_len in *. apply sits_app in Hs as [H1 H2].
    rewrite u32_small by lia.
    rewrite (MqttDecode_Num_sits _ _ _ (len (field (data_bin p)))) by (done || lia).
    cbn [mbind result_bind]. decide_test. rewrite u32_small by lia. decide_test. decide_test.
    rewrite (slice_sits _ _ (field (data_bin p))) by (done || by rewrite Z.add_assoc).
    cbn [mbind result_bind]. by rewrite Hl2.
  - unfold MqttDecode_Prop_pair. rewrite len_app, !counted_len in *.
    apply sits_app in Hs as [H1 H2]. rewrite counted_len in H2.
    rewrite (u32_small (buf_len - pos)) by lia.
    rewrite (MqttDecode_String_sits _ _ _ (field (data_str p))) by (try apply Hok; done || lia).
    cbn [mbind result_bind]. decide_test. decide_test. rewrite u32_small by lia. decide_test.
    rewrite (MqttDecode_String_sits _ _ _ (field (data_str2 p)))
      by (try apply Hok; try rewrite Z.add_assoc; done || lia).
    cbn [mbind result_bind]. decide_test. decide_test. by rewrite Hl1, Hl3.
Qed.
End Decode_value_sits.

(** ** The list *)

Definition saw (type : Z) (ps : list MqttProp) : bool :=
  existsb (fun p => prop_type p =? type) ps.

Lemma saw_spec type ps : saw type ps = true <-> type ∈ map prop_type ps.
Proof.
  unfold saw. rewrite existsb_exists. split.
  - intros (p & Hp & E%Z.eqb_eq). rewrite list_elem_of_In, in_map_iff. eauto.
  - rewrite list_elem_of_In, in_map_iff. intros (p & <- & Hp). exists p. split; [done|]. apply Z.eqb_refl.
Qed.

Lemma auth_ok_saw ps :
  (saw MQTT_PROP_AUTH_DATA ps && negb (saw MQTT_PROP_AUTH_METHOD ps)) = false <-> auth_ok ps.
Proof.
  unfold auth_ok. rewrite <- !saw_spec.
  destruct (saw MQTT_PROP_AUTH_DATA ps), (saw MQTT_PROP_AUTH_METHOD ps); cbn; intuition done.
Qed.

Definition decoded_list (packet : Z) (ps : list MqttProp) : Prop :=
  Forall prop_decoded ps /\ Forall (prop_ok packet) ps.

Lemma MqttDecode_Prop_yields packet buf off pos buf_len prop_len lo hi S :
  bytes buf -> 0 <= off -> 0 <= pos <= buf_len -> off + buf_len <= len buf ->
  buf_len < 2147483648 -> 0 < prop_len < 2147483648 -> seen_bits lo hi S ->
  yields (MqttDecode_Prop packet buf off pos buf_len prop_len lo hi)
    (fun '(p, n, (lo', hi')) =>
       prop_decoded p /\ prop_ok packet p /\ sits buf (off + pos) (prop_wire p) /\
       n = len (prop_wire p) /\ pos + n <= buf_len /\ n <= prop_len /\
       exists S', seen_bits lo' hi' S' /\
         forall ps, distinct_from packet S (p :: ps) <-> distinct_from packet S' ps).
Proof.
  intros Hb Ho Hp Hl Hm Hpl HS. unfold MqttDecode_Prop. rewrite (proj2 (Z.ltb_ge _ _)) by lia.
  rewrite u32_small by lia. apply yields_bind.
  eapply yields_mono; [apply MqttDecode_Vbi_yields; [done|lia|lia]|].
  intros [type n] (Ht & Hs & Hn & H4 & Hnb). change (len gPropMatrix) with 44.
  destruct (Z.leb_spec 44 type); [done|].
  destruct (prop_allowed packet type) eqn:Ea; [|done]. cbn [negb].
  assert (Hv : vbi 4 type = [type]) by (cbn [vbi]; by rewrite (proj2 (Z.ltb_lt _ _)) by lia).
  rewrite Hv in *. change (len [type]) with 1 in Hn. subst n. rewrite u32_small by lia.
  pose proof (seen_check_spec packet type lo hi S ltac:(lia) HS) as Hseen.
  destruct (seen_check packet type lo hi) as [[lo' hi']|]; [|done].
  apply yields_bind.
  eapply yields_mono; [apply MqttDecode_Prop_value_yields; [done|lia..]|].
  intros [p m] ((<- & Hdec & Hsv & ->) & Hpm & Hml).
  unfold yields, prop_wire. rewrite len_cons. split_and!; try lia; try done.
  - split; [done|]. apply Hdec.
  - apply sits_cons. split; [done|]. by rewrite <- Z.add_assoc.
  - destruct (repeatable packet (prop_type p)) eqn:Erp.
    + destruct Hseen as [-> ->]. exists S. split; [done|]. intros. by apply distinct_from_cons_rep.
    + destruct Hseen as [Hni Hbits]. exists (S ++ [prop_type p]). split; [done|].
      intros. rewrite distinct_from_cons by done. tauto.
Qed.

(** The loop: what it has added to the list is on the wire, and no cell is
    lost. *)
Lemma MqttDecode_Props_loop_spec fuel packet props free buf off buf_len prop_len total count m d lo hi S :
  bytes buf -> 0 <= off -> 0 <= total <= buf_len -> off + buf_len <= len buf ->
  buf_len < 2147483648 -> 0 <= prop_len < 2147483648 -> seen_bits lo hi S ->
  0 <= count <= MQTT_MAX_PROPS -> MQTT_MAX_PROPS + 1 <= count + Z.of_nat fuel ->
  match MqttDecode_Props_loop fuel packet props free buf off buf_len prop_len total count m d lo hi with
  | (Ok (total', m', d'), props', free') =>
      exists ps, props' = props ++ ps /\ free = (free' + length ps)%nat /\
        decoded_list packet ps /\ distinct_from packet S ps /\
        sits buf (off + total) (props_wire ps) /\ len (props_wire ps) = prop_len /\
        total' = total + prop_len /\ total' <= buf_len /\ count + len ps <= MQTT_MAX_PROPS /\
        m' = m || saw MQTT_PROP_AUTH_METHOD ps /\ d' = d || saw MQTT_PROP_AUTH_DATA ps
  | (Err rc, props', free') => rc < 0 /\ (free' + length props' = free + length props)%nat
  | (UB, _, _) => False
  end.
Proof.
  intros Hb Ho Ht Hl Hm Hpl HS Hc Hf.
  revert props free prop_len total count m d lo hi S Ht Hpl HS Hc Hf.
  induction fuel as [|fuel IH]; intros props free prop_len total count m d lo hi S Ht Hpl HS Hc Hf; [lia|].
  cbn [MqttDecode_Props_loop]. rewrite i32_small by lia.
  destruct (Z.ltb_spec 0 prop_len) as [Hpos|Hz]; last first.
  { exists []. rewrite !app_nil_r, !orb_false_r. change (props_wire []) with ([] : list Z).
    rewrite !len_nil. unfold decoded_list, distinct_from. split_and!; try done; try (cbn [length]; lia); try constructor.
    - intros t Hin. by apply elem_of_nil in Hin.
    - exists (take (Z.to_nat (off + total)) buf), (drop (Z.to_nat (off + total)) buf).
      rewrite app_nil_l, take_drop, len_take by lia. done.
    - rewrite len_nil. lia. }
  destruct (Z.ltb_spec MQTT_MAX_PROPS (count + 1)); [done|].
  destruct free as [|free]; [done|].
  pose proof (MqttDecode_Prop_yields packet buf off total buf_len prop_len lo hi S
    Hb Ho Ht Hl Hm ltac:(lia) HS) as Hprop.
  destruct (MqttDecode_Prop _ _ _ _ _ _ _ _) as [[[p n] [lo' hi']]|rc|]; [| |done]; last first.
  { split; [done|]. rewrite length_app. simpl. lia. }
  destruct Hprop as (Hdec & Hok & Hs & -> & Hn & Hnl & S' & HS' & Hdist).
  pose proof (prop_wire_pos packet p (decoded_rep _ Hdec) Hok). rewrite u32_small by lia.
  specialize (IH (props ++ [p]) free (prop_len - len (prop_wire p)) (total + len (prop_wire p))
    (count + 1) (m || (prop_type p =? MQTT_PROP_AUTH_METHOD))
    (d || (prop_type p =? MQTT_PROP_AUTH_DATA)) lo' hi' S'
    ltac:(lia) ltac:(lia) HS' ltac:(lia) ltac:(lia)).
  destruct (MqttDecode_Props_loop _ _ _ _ _ _ _ _ _ _ _ _ _ _) as [[[[[total' m'] d']|rc|] props'] free'];
    [| |done].
  - destruct IH as (ps & -> & -> & [Hd1 Hd2] & Hdd & Hsp & Hlen & -> & Htl & Hcl & -> & ->).
    exists (p :: ps). rewrite <- app_assoc, props_wire_cons, len_app, (len_cons p).
    rewrite Z.add_assoc in Hsp. unfold saw. cbn [existsb length]. rewrite !orb_assoc.
    split_and!; try done; try lia.
    + split; by constructor.
    + by apply Hdist.
    + apply sits_app. by split.
  - destruct IH as [? IH]. split; [done|]. rewrite length_app in IH. simpl in IH. lia.
Qed.

(** A property block of [n] bytes at [off] that holds the list [ps]. *)
Definition props_at (packet : Z) (buf : list Z) (off n : Z) (ps : list MqttProp) : Prop :=
  Forall prop_decoded ps /\ props_ok packet ps /\ auth_ok ps /\
  sits buf off (props_wire ps) /\ len (props_wire ps) = n.

(** [MqttDecode_Props] consumes the whole block or fails; a failure gives all
    cells back. *)
Lemma MqttDecode_Props_meets packet buf off buf_len prop_len n :
  bytes buf -> 0 <= off -> 0 <= buf_len < 2147483648 -> off + buf_len <= len buf ->
  0 <= prop_len < 2147483648 ->
  meets n (MqttDecode_Props packet [] buf off buf_len prop_len) n
    (fun '(ps, total) n' => props_at packet buf off prop_len ps /\ total = prop_len /\
       prop_len <= buf_len /\ n = (n' + length ps)%nat).
Proof.
  intros Hb Ho Hbl Hl Hpl. unfold meets, MqttDecode_Props.
  pose proof (MqttDecode_Props_loop_spec (S (Z.to_nat MQTT_MAX_PROPS)) packet [] n buf off
    buf_len prop_len 0 0 false false 0 0 [] Hb Ho ltac:(lia) Hl ltac:(lia) Hpl seen_bits_empty
    ltac:(lia) ltac:(lia)) as H.
  destruct (MqttDecode_Props_loop _ _ _ _ _ _ _ _ _ _ _ _ _ _) as [[[[[total' m'] d']|rc|] props'] free'];
    [| |done].
  - destruct H as (ps & -> & -> & [Hd1 Hd2] & Hdd & Hsp & Hlen & -> & Htl & Hcl & -> & ->).
    cbn [app orb]. rewrite Z.add_0_r in Hsp.
    destruct (_ && _) eqn:E; [done|]. apply auth_ok_saw in E. apply distinct_from_nil in Hdd.
    unfold props_at, props_ok. split_and!; try done; try lia.
  - simpl in H. destruct H. split; [done|lia].
Qed.

Lemma MqttDecode_Props_loop_sits fuel packet props free buf off buf_len prop_len total count m d lo hi S ps :
  Forall prop_rep ps -> Forall (prop_ok packet) ps -> distinct_from packet S ps ->
  sits buf (off + total) (props_wire ps) -> prop_len = len (props_wire ps) ->
  0 <= off -> 0 <= total -> total + prop_len <= buf_len -> buf_len < 2147483648 ->
  seen_bits lo hi S -> 0 <= count -> count + len ps <= MQTT_MAX_PROPS ->
  (length ps < fuel)%nat -> (length ps <= free)%nat ->
  MqttDecode_Props_loop fuel packet props free buf off buf_len prop_len total count m d lo hi =
    (Ok (total + prop_len, m || saw MQTT_PROP_AUTH_METHOD ps, d || saw MQTT_PROP_AUTH_DATA ps),
     props ++ map prop_norm ps, (free - length ps)%nat).
Proof.
  intros Hrep. revert fuel props free prop_len total count m d lo hi S.
  induction Hrep as [|p ps Hp Hps IH];
    intros fuel props free prop_len total count m d lo hi S Hok Hd Hs -> Ho Ht Hbl Hm HS Hc Hcl Hf Hfr;
    (destruct fuel as [|fuel]; [simpl in Hf; lia|]); cbn [MqttDecode_Props_loop].
  { change (len (props_wire [])) with 0. rewrite (Z.add_0_r total).
    unfold saw. cbn [existsb map length]. rewrite !orb_false_r.
    by rewrite app_nil_r, Nat.sub_0_r. }
  inversion Hok as [|? ? Hpok Hok']; subst.
  rewrite props_wire_cons, len_app in *. apply sits_app in Hs as [Hs1 Hs2].
  pose proof (prop_wire_pos packet p Hp Hpok) as Hpos. pose proof (props_wire_len ps Hps).
  rewrite i32_small, (proj2 (Z.ltb_lt _ _)) by lia.
  rewrite len_cons in Hcl. pose proof (len_nonneg ps).
  rewrite (proj2 (Z.ltb_ge _ _)) by lia.
  destruct free as [|free]; [simpl in Hfr; lia|].
  destruct Hpok as [Ha Hv]. pose proof (allowed_range packet (prop_type p) ltac:(apply Hp) Ha).
  unfold MqttDecode_Prop. rewrite (proj2 (Z.ltb_ge _ _)) by lia. rewrite u32_small by lia.
  unfold prop_wire in Hs1. apply sits_cons in Hs1 as [Hst Hsv]. pose proof (proj1 Hp) as Ht0.
  assert (Hvb : vbi 4 (prop_type p) = [prop_type p]) by (cbn [vbi]; by rewrite (proj2 (Z.ltb_lt _ _)) by lia).
  unfold prop_wire in Hpos, Hbl, Hs2 |- *. rewrite len_cons in *.
  rewrite (MqttDecode_Vbi_sits _ _ _ (prop_type p)) by (rewrite ?Hvb; change (len [prop_type p]) with 1; done || lia).
  rewrite Hvb. change (len [prop_type p]) with 1. cbn [mbind result_bind].
  change (len gPropMatrix) with 44. rewrite (proj2 (Z.leb_gt _ _)) by lia. rewrite Ha. cbn [negb].
  pose proof (seen_check_spec packet (prop_type p) lo hi S ltac:(lia) HS) as Hseen.
  destruct (seen_check packet (prop_type p) lo hi) as [[lo' hi']|]; last first.
  { destruct Hseen as [Hrp Hin]. by apply (distinct_from_cons _ _ _ _ Hrp) in Hd as [? _]. }
  assert (exists S', seen_bits lo' hi' S' /\ distinct_from packet S' ps) as (S' & HS' & Hd').
  { destruct (repeatable packet (prop_type p)) eqn:Erp.
    - destruct Hseen as [-> ->]. exists S. split; [done|]. by apply (distinct_from_cons_rep _ _ _ _ Erp).
    - destruct Hseen as [Hni Hb]. eexists; split; [exact Hb|]. by apply (distinct_from_cons _ _ _ _ Erp) in Hd as [_ ?]. }
  rewrite (u32_small (_ - 1)) by lia.
  rewrite MqttDecode_Prop_value_sits by (rewrite ?Z.add_assoc; done || lia). cbn [mbind result_bind].
  assert (Htn : prop_type (prop_norm p) = prop_type p).
  { unfold prop_norm. by destruct (prop_data _). }
  rewrite u32_small by lia. rewrite Htn.
  rewrite (IH fuel _ free _ _ _ _ _ _ _ S'); try done; try lia; [|by rewrite Z.add_assoc|simpl in *; lia..].
  unfold saw. cbn [existsb map length]. rewrite !orb_assoc, <- app_assoc.
  do 5 f_equal. lia.
Qed.

(** Decoding what [MqttEncode_Props] wrote. *)
Lemma MqttDecode_Props_written packet props buf off buf_len prop_len n ps :
  Forall prop_rep ps -> props_ok packet ps ->
  sits buf off (props_wire ps) -> prop_len = len (props_wire ps) ->
  0 <= off -> prop_len <= buf_len < 2147483648 -> (length ps <= n)%nat ->
  MqttDecode_Props packet props buf off buf_len prop_len n =
    (if decide (auth_ok ps) then (Ok (props ++ map prop_norm ps, prop_len), (n - length ps)%nat)
     else (Err MQTT_CODE_ERROR_PROPERTY, (n + length props)%nat)).
Proof.
  intros Hrep (Hl & Hok & Hd) Hs Hpl Ho Hbl Hn. unfold MqttDecode_Props.
  rewrite (MqttDecode_Props_loop_sits _ _ _ _ _ _ _ _ _ _ _ _ _ _ [] ps);
    try done; try lia; try (by rewrite Z.add_0_r).
  - cbn [orb]. destruct (decide (auth_ok ps)) as [Ha|Ha]; [by rewrite (proj2 (auth_ok_saw ps))|].
    destruct (saw MQTT_PROP_AUTH_DATA ps && negb (saw MQTT_PROP_AUTH_METHOD ps)) eqn:E.
    + f_equal. rewrite length_app, length_map. lia.
    + by destruct Ha; apply auth_ok_saw.
  - by apply distinct_from_nil.
  - apply seen_bits_empty.
  - unfold len in Hl. lia.
Qed.

Lemma MqttDecode_Props_sits packet props buf off buf_len prop_len n ps :
  Forall prop_rep ps -> props_ok packet ps -> auth_ok ps ->
  sits buf off (props_wire ps) -> prop_len = len (props_wire ps) ->
  0 <= off -> prop_len <= buf_len < 2147483648 -> (length ps <= n)%nat ->
  MqttDecode_Props packet props buf off buf_len prop_len n =
    (Ok (props ++ map prop_norm ps, prop_len), (n - length ps)%nat).
Proof. intros. by rewrite (MqttDecode_Props_written _ _ _ _ _ _ _ ps), decide_True. Qed.

(** ** Properties *)

(** C25: [MqttDecode_Props] reads nothing outside its block, ends, accepts
    exactly the blocks that hold a valid property list for the packet (at most
    [MQTT_MAX_PROPS], every type allowed and well formed, no duplicates,
    Authentication Data only with a Method), reports the list and consumes the
    whole block; a refused block gives every property cell back. *)
Theorem MqttDecode_Props_exact packet buf off buf_len prop_len n :
  bytes buf -> 0 <= off -> 0 <= buf_len < 2147483648 -> off + buf_len <= len buf ->
  0 <= prop_len <= buf_len ->
  match MqttDecode_Props packet [] buf off buf_len prop_len n with
  | (Ok (ps, total), n') =>
      props_at packet buf off prop_len ps /\ total = prop_len /\ n = (n' + length ps)%nat
  | (Err rc, n') =>
      rc < 0 /\ n' = n /\
      forall ps, props_at packet buf off prop_len ps -> (n < length ps)%nat
  | (UB, _) => False
  end.
Proof.
  intros Hb Ho Hl Hm Hp.
  pose proof (MqttDecode_Props_meets packet buf off buf_len prop_len n Hb Ho Hl Hm ltac:(lia)) as H.
  unfold meets in H. destruct (MqttDecode_Props packet [] buf off buf_len prop_len n) as [[[ps total]|rc|] n'] eqn:E.
  - tauto.
  - destruct H as [Hrc ->]. split_and!; [done..|]. intros ps (Hd & Hok & Ha & Hs & Hlen).
    destruct (Nat.lt_ge_cases n (length ps)) as [Hlt|Hge]; [done|].
    rewrite (MqttDecode_Props_sits packet [] buf off buf_len prop_len n ps) in E; try done; try lia.
    eapply list.Forall_impl; [exact Hd|]. apply decoded_rep.
  - done.
Qed.

(** PUBLISH: Message Expiry Interval 300 and Topic Alias 7. *)
Lemma MqttDecode_Props_exact_witness :
  exists ps, length ps = 2%nat /\
    MqttDecode_Props MQTT_PACKET_TYPE_PUBLISH [] [2; 0; 0; 1; 44; 35; 0; 7] 0 8 8 30%nat =
      (Ok (ps, 8), 28%nat) /\
    props_at MQTT_PACKET_TYPE_PUBLISH [2; 0; 0; 1; 44; 35; 0; 7] 0 8 ps.
Proof.
  eexists. split; [|split; [vm_compute; reflexivity|]]; [reflexivity|].
  exact (proj1 (MqttDecode_Props_exact MQTT_PACKET_TYPE_PUBLISH [2; 0; 0; 1; 44; 35; 0; 7] 0 8 8 30%nat
    ltac:(by_eval) ltac:(lia) ltac:(lia) ltac:(vm_compute; done) ltac:(lia))).
Defined.

(** C26: [MqttEncode_Props] accepts exactly the lists of [props_ok]: at most
    [MQTT_MAX_PROPS] properties, each of a type the matrix has for the packet
    and with a value the code takes for valid, and no type twice that may not
    repeat. It does not ask for an Authentication Method with Authentication
    Data. The measuring pass announces the number of bytes that the writing pass
    writes. From these, whatever surrounds them, [MqttDecode_Props] reads the
    list back, every value intact, if Authentication Data comes with its
    Method, and refuses it otherwise with every property cell given back. *)
Theorem MqttEncode_Props_roundtrip packet ps pre post :
  Forall prop_rep ps ->
  (props_ok packet ps <-> exists r, MqttEncode_Props packet ps true = Ok r) /\
  forall n bs buf_len cells, MqttEncode_Props packet ps true = Ok (n, bs) ->
    MqttEncode_Props packet ps false = Ok (n, []) /\ n = len bs /\
    (n <= buf_len < 2147483648 -> (length ps <= cells)%nat ->
     (auth_ok ps ->
      MqttDecode_Props packet [] (pre ++ bs ++ post) (len pre) buf_len n cells =
        (Ok (map prop_norm ps, n), (cells - length ps)%nat)) /\
     (~ auth_ok ps ->
      MqttDecode_Props packet [] (pre ++ bs ++ post) (len pre) buf_len n cells =
        (Err MQTT_CODE_ERROR_PROPERTY, cells))).
Proof.
  intros Hr. pose proof (MqttEncode_Props_answers packet ps true Hr) as Ht.
  pose proof (MqttEncode_Props_answers packet ps false Hr) as Hf. split.
  - destruct Ht as [[Hok ->]|[Hok (rc & _ & ->)]]; split; try done; [by eauto|]. by intros [? [=]].
  - intros n bs buf_len cells E. destruct (answers_inv _ _ _ _ _ _ Ht E) as (Hok & -> & ->).
    split_and!; [by apply (answers_holds _ _ _ _ Hf)|done|]. intros Hl Hc.
    rewrite (MqttDecode_Props_written packet [] _ _ _ _ _ ps) by (done || apply sits_intro || apply len_nonneg).
    split; intros Ha; [by rewrite decide_True|]. rewrite decide_False by done. by rewrite Nat.add_0_r.
Qed.

(** A user property with two strings, in a PUBACK. *)
Definition ex_user_prop : MqttProp :=
  mkProp MQTT_PROP_USER_PROP 0 0 0 (mkStr 1 (Some [107])) no_str (mkStr 2 (Some [118; 118])).

Lemma ex_user_prop_rep : prop_rep ex_user_prop.
Proof. by_eval. Qed.

(** Authentication Data alone, in a CONNECT. *)
Definition ex_auth_data : MqttProp := mkProp MQTT_PROP_AUTH_DATA 0 0 0 no_str (mkStr 1 (Some [7])) no_str.

Lemma ex_auth_data_rep : prop_rep ex_auth_data.
Proof. by_eval. Qed.

Lemma MqttEncode_Props_roundtrip_witness :
  MqttDecode_Props MQTT_PACKET_TYPE_PUBLISH_ACK [] ([9] ++ [38; 0; 1; 107; 0; 2; 118; 118] ++ [])
    (len [9]) 8 8 5%nat = (Ok (map prop_norm [ex_user_prop], 8), 4%nat) /\
  MqttDecode_Props MQTT_PACKET_TYPE_CONNECT [] ([9] ++ [22; 0; 1; 7] ++ []) (len [9]) 4 4 5%nat =
    (Err MQTT_CODE_ERROR_PROPERTY, 5%nat).
Proof.
  split.
  - apply (proj2 (MqttEncode_Props_roundtrip MQTT_PACKET_TYPE_PUBLISH_ACK [ex_user_prop] [9] []
      (Forall_cons_2 _ _ _ ex_user_prop_rep (Forall_nil_2 _))));
      [vm_compute; reflexivity|lia|cbn; lia|by_eval].
  - apply (proj2 (MqttEncode_Props_roundtrip MQTT_PACKET_TYPE_CONNECT [ex_auth_data] [9] []
      (Forall_cons_2 _ _ _ ex_auth_data_rep (Forall_nil_2 _))));
      [vm_compute; reflexivity|lia|cbn; lia|by_eval].
Defined.
