(* ===== verification/Frame.v ===== *)
(** * Frame: the parts that the packet encoders and decoders share

    Every encoder of [mqtt_packet.c] ends the same way: it encodes the fixed
    header for a computed Remaining Length, checks the room left in [tx_buf]
    and writes the rest; and every MQTT v5 packet carries a property block,
    the length of a property list followed by the list. *)
From S2P Require Import Prelude PacketDefs Wire FixedHeader Props.

(** ** Encoding *)

(** An encoder whose error return the caller does not test: [tx_payload]
    would move back by it. *)
Definition must (e : emit) : emit := match e with Err _ => UB | _ => e end.

(** The first pass: the length of the properties and of that length. *)
Definition props_length (packet : Z) (props : list MqttProp) : result (Z * Z) :=
  props_len ← match MqttEncode_Props packet props false with
              | Ok (n, _) => Ok n
              | Err _ => Err MQTT_CODE_ERROR_PROPERTY
              | UB => UB
              end;
  '(tmp_len, _) ← MqttEncode_Vbi false (u32 props_len);
  Ok (props_len, tmp_len).

(** The second pass writes them. *)
Definition write_props (packet : Z) (props : list MqttProp) (props_len : Z) : emit :=
  MqttEncode_Vbi true (u32 props_len) +++ MqttEncode_Props packet props true.

(** The fixed header, the room check and the rest of the packet. *)
Definition write_packet (tx_buf_len remain_len type retain qos duplicate : Z) (rest : emit)
    : emit :=
  '(header_len, hdr) ← MqttEncode_FixedHeader tx_buf_len remain_len type retain qos duplicate;
  if tx_buf_len <? header_len + remain_len then Err MQTT_CODE_ERROR_OUT_OF_BUFFER
  else
    '(_, bs) ← rest;
    Ok (header_len + remain_len, hdr ++ bs).

(** The property block of a list. *)
Definition props_block (ps : list MqttProp) : list Z :=
  vbi 4 (len (props_wire ps)) ++ props_wire ps.

(** A packet with this header and body. *)
Definition frame (type retain qos duplicate : Z) (body : list Z) : list Z :=
  header_bytes type retain qos duplicate (len body) ++ body.

(** The packet is encodable, and [tx_buf] has room for it (and for the five
    bytes the fixed header always asks for). *)
Definition room (tx_buf_len : Z) (body : list Z) : Prop :=
  len body <= MQTT_PACKET_MAX_REMAIN_LEN /\ MQTT_PACKET_MAX_LEN_BYTES + 1 <= tx_buf_len /\
  len (frame 0 0 0 0 body) <= tx_buf_len.

Lemma header_bytes_len_eq t r q d n : len (header_bytes t r q d n) = 1 + len (vbi 4 n).
Proof. unfold header_bytes. by rewrite len_cons. Qed.

Lemma frame_len t r q d body : len (frame t r q d body) = len (frame 0 0 0 0 body).
Proof. unfold frame. by rewrite !len_app, !header_bytes_len_eq. Qed.

Lemma frame_len_eq t r q d body :
  len (frame t r q d body) = 1 + len (vbi 4 (len body)) + len body.
Proof. unfold frame. by rewrite !len_app, !header_bytes_len_eq. Qed.

Lemma write_packet_answers tx_buf_len remain_len type retain qos duplicate rest P r bs :
  answers rest P r bs -> remain_len = len bs -> len bs < 4294967296 ->
  answers (write_packet tx_buf_len remain_len type retain qos duplicate rest)
    (P /\ room tx_buf_len bs)
    (len (frame type retain qos duplicate bs)) (frame type retain qos duplicate bs).
Proof.
  intros Hrest -> Hb. pose proof (len_nonneg bs). unfold write_packet, room.
  rewrite frame_len_eq.
  destruct (Z.le_gt_cases 5 tx_buf_len) as [H5|H5]; last first.
  { unfold MqttEncode_FixedHeader. rewrite (proj2 (Z.ltb_lt _ _)) by lia. apply answers_err; lia. }
  destruct (Z.le_gt_cases (len bs) MQTT_PACKET_MAX_REMAIN_LEN) as [Hm|Hm]; last first.
  { unfold MqttEncode_FixedHeader, MqttEncode_Vbi. rewrite u32_small by lia.
    rewrite (proj2 (Z.ltb_ge tx_buf_len _)), (proj2 (Z.ltb_lt _ _)) by lia. apply answers_err; lia. }
  rewrite MqttEncode_FixedHeader_eq by lia. cbn [mbind result_bind].
  rewrite header_bytes_len_eq, frame_len_eq.
  destruct (Z.ltb_spec tx_buf_len (1 + len (vbi 4 (len bs)) + len bs)).
  { apply answers_err; lia. }
  eapply answers_iff; [|eapply (answers_bind _ _ P True); [exact Hrest|]].
  - intuition lia.
  - intros _. by apply answers_ok.
Qed.

(** The same for a part that always succeeds. *)
Lemma write_packet_writes tx_buf_len remain_len type retain qos duplicate rest bs :
  (exists r, rest = Ok (r, bs)) -> remain_len = len bs -> len bs < 4294967296 ->
  answers (write_packet tx_buf_len remain_len type retain qos duplicate rest)
    (room tx_buf_len bs)
    (len (frame type retain qos duplicate bs)) (frame type retain qos duplicate bs).
Proof.
  intros [r Hr] Hl Hb.
  eapply answers_iff; [|apply (write_packet_answers _ _ _ _ _ _ _ True r); [|done..]]; [tauto|].
  rewrite Hr. by apply answers_ok.
Qed.

Lemma props_block_len ps :
  len (props_block ps) = len (vbi 4 (len (props_wire ps))) + len (props_wire ps).
Proof. apply len_app. Qed.

Lemma props_bounds packet ps :
  Forall prop_rep ps -> props_ok packet ps ->
  0 <= len (props_wire ps) <= 3932250 /\ 1 <= len (props_block ps) <= 3932254.
Proof.
  intros Hr (Hl & _). pose proof (props_wire_len _ Hr). rewrite props_block_len.
  pose proof (vbi_len 4 (len (props_wire ps))). lia.
Qed.

(** The first pass succeeds for the lists the protocol allows, and announces
    what the second one writes. *)
Lemma props_length_cases packet ps :
  Forall prop_rep ps ->
  (props_ok packet ps /\
   props_length packet ps = Ok (len (props_wire ps), len (vbi 4 (len (props_wire ps)))) /\
   write_props packet ps (len (props_wire ps)) = Ok (len (props_block ps), props_block ps)) \/
  (~ props_ok packet ps /\ props_length packet ps = Err MQTT_CODE_ERROR_PROPERTY).
Proof.
  intros Hrep. unfold props_length, write_props, props_block.
  destruct (MqttEncode_Props_answers packet ps false Hrep) as [[Hok ->]|[Hno (rc & _ & ->)]].
  - left. split; [done|]. pose proof (props_bounds _ _ Hrep Hok).
    rewrite (answers_holds _ _ _ _ (MqttEncode_Props_answers packet ps true Hrep) Hok).
    cbn [mbind result_bind]. rewrite u32_small, !MqttEncode_Vbi_eq by lia.
    unfold emit_app. cbn [mbind result_bind when]. rewrite len_app. done.
  - right. done.
Qed.

(** An encoder that computes the length of the properties first. *)
Lemma props_length_answers packet ps (k : Z * Z -> emit) Q n bs :
  Forall prop_rep ps ->
  (props_ok packet ps ->
   write_props packet ps (len (props_wire ps)) = Ok (len (props_block ps), props_block ps) ->
   answers (k (len (props_wire ps), len (vbi 4 (len (props_wire ps))))) Q n bs) ->
  answers (props_length packet ps ≫= k) (props_ok packet ps /\ Q) n bs.
Proof.
  intros Hrep Hk. destruct (props_length_cases packet ps Hrep) as [(Hok & -> & Hw)|[Hno ->]].
  - cbn [mbind result_bind]. eapply answers_iff; [|by apply Hk]. tauto.
  - apply answers_err; [lia|tauto].
Qed.

Lemma must_ok e n bs : e = Ok (n, bs) -> must e = Ok (n, bs).
Proof. by intros ->. Qed.

Lemma emit_app_ok e1 e2 n bs m cs :
  e1 = Ok (n, bs) -> e2 = Ok (m, cs) -> e1 +++ e2 = Ok (n + m, bs ++ cs).
Proof. by intros -> ->. Qed.

Lemma must_String s :
  len (cstr s) <= 65535 ->
  must (MqttEncode_String true s) = Ok (2 + len (cstr s), counted (cstr s)).
Proof. intros. by rewrite MqttEncode_String_eq. Qed.

(** ** Decoding *)

(** [MqttProps_Free], seen through the number of free cells. *)
Definition MqttProps_Free (ps : list MqttProp) : M unit := fun free =>
  (Ok tt, (free + length ps)%nat).

(** The rest of a decoder that frees the list [ps] when it fails. *)
Definition freeing {A} (ps : list MqttProp) (m : M A) : M A := fun free =>
  match m free with
  | (Err rc, free) => (Err rc, (free + length ps)%nat)
  | r => r
  end.

(** The property block at [pos]: its length, the caller's check of that length
    [props_len] (with the bytes [tmp] it took, the error code when it fails),
    and the properties. They are bounded by [limit]. The result is the list
    and the bytes consumed. *)
Definition read_props (packet : Z) (rx_buf : list Z) (pos limit : Z)
    (check : Z -> Z -> option Z) : M (list MqttProp * Z) :=
  '(props_len, tmp) ← lift (MqttDecode_Vbi rx_buf pos (u32 (limit - pos)));
  match check tmp props_len with
  | Some rc => throw rc
  | None =>
    if 0 <? props_len then
      '(props, n) ← MqttDecode_Props packet [] rx_buf (pos + tmp)
                       (u32 (limit - (pos + tmp))) props_len;
      mret (props, tmp + n)
    else mret ([], tmp)
  end.

(** A check of the announced length against what is left. *)
Definition within (room : Z) (rc : Z) : Z -> Z -> option Z :=
  fun _ props_len => if room <? props_len then Some rc else None.

(** A list as a decoder leaves it in a packet of this type. *)
Definition props_decoded (packet : Z) (ps : list MqttProp) : Prop :=
  Forall prop_decoded ps /\ props_ok packet ps /\ auth_ok ps.

Lemma props_decoded_nil packet : props_decoded packet [].
Proof.
  split; [constructor|]. split.
  - split; [rewrite len_nil; lia|]. split; constructor.
  - intros Hin. by apply elem_of_nil in Hin.
Qed.

Lemma props_decoded_rep packet ps : props_decoded packet ps -> Forall prop_rep ps.
Proof. intros [Hd _]. eapply Forall_impl; [apply decoded_rep|exact Hd]. Qed.

Lemma props_decoded_norm packet ps : props_decoded packet ps -> map prop_norm ps = ps.
Proof.
  intros [Hd _]. induction Hd as [|p ps Hp _ IH]; [done|]. simpl. rewrite IH.
  f_equal. apply Hp.
Qed.

Lemma meets_freeing {A} n0 n (ps : list MqttProp) (m : M A) Q :
  meets n m n Q -> n0 = (n + length ps)%nat -> meets n0 (freeing ps m) n Q.
Proof.
  intros H ->. unfold meets, freeing in *. destruct (m n) as [[a|rc|] n']; try done.
  destruct H as [? ->]. done.
Qed.

Lemma meets_free_throw {A} n0 n (ps : list MqttProp) rc (Q : A -> nat -> Prop) :
  rc < 0 -> n0 = (n + length ps)%nat -> meets n0 (MqttProps_Free ps ≫= fun _ => throw rc) n Q.
Proof. intros ? ->. done. Qed.

Lemma read_props_meets packet rx_buf pos limit check n :
  bytes rx_buf -> 0 <= pos <= limit -> limit <= len rx_buf -> limit < 2147483648 ->
  (forall tmp props_len rc, check tmp props_len = Some rc -> rc < 0) ->
  meets n (read_props packet rx_buf pos limit check) n
    (fun '(ps, k) n' => props_decoded packet ps /\ sits rx_buf pos (props_block ps) /\
       k = len (props_block ps) /\ 1 <= k /\ pos + k <= limit /\ n = (n' + length ps)%nat /\
       check (len (vbi 4 (len (props_wire ps)))) (len (props_wire ps)) = None).
Proof.
  intros Hb Hp Hl Hm Hrc. unfold read_props. rewrite u32_small by lia.
  apply meets_bind, meets_lift; [|done].
  eapply yields_mono; [apply MqttDecode_Vbi_yields; [done|lia|lia]|].
  intros [v k] (Hv & Hs & -> & Hk & Hkl).
  destruct (check _ _) eqn:Etl; [apply meets_throw; [by eapply Hrc|done]|]. rewrite u32_small by lia.
  destruct (Z.ltb_spec 0 v).
  - apply meets_bind. eapply meets_mono; [apply MqttDecode_Props_meets; [done|lia..]|].
    intros [ps tot] n' ((Hd & Hok & Ha & Hsp & Hlen) & -> & Hvl & Hn).
    apply meets_ret. unfold props_decoded. rewrite props_block_len, Hlen.
    split_and!; try done; try lia.
    unfold props_block. rewrite Hlen. by apply sits_app.
  - assert (v = 0) as -> by lia. apply meets_ret.
    change (props_block []) with (vbi 4 0). change (len (props_wire [])) with 0.
    split; [apply props_decoded_nil|]. cbn [length]. split_and!; try done; lia.
Qed.

Lemma read_props_sits packet rx_buf pos limit check n ps :
  Forall prop_rep ps -> props_ok packet ps -> auth_ok ps ->
  sits rx_buf pos (props_block ps) -> 0 <= pos -> pos + len (props_block ps) <= limit ->
  limit < 2147483648 -> (length ps <= n)%nat ->
  check (len (vbi 4 (len (props_wire ps)))) (len (props_wire ps)) = None ->
  read_props packet rx_buf pos limit check n =
    (Ok (map prop_norm ps, len (props_block ps)), (n - length ps)%nat).
Proof.
  intros Hrep Hok Ha Hs Hp Hl Hm Hn Htl. unfold read_props.
  pose proof (props_bounds _ _ Hrep Hok) as [Hw Hbl]. rewrite props_block_len in *.
  apply sits_app in Hs as [Hs1 Hs2]. rewrite u32_small by lia.
  pose proof (vbi_len 4 (len (props_wire ps))).
  rewrite (MqttDecode_Vbi_sits _ _ _ (len (props_wire ps))) by (done || lia).
  unfold mbind, M_bind, lift. rewrite Htl, u32_small by lia.
  destruct (Z.ltb_spec 0 (len (props_wire ps))) as [Hpos|Hz].
  - by rewrite (MqttDecode_Props_sits _ [] _ _ _ _ _ ps) by (done || lia).
  - destruct ps as [|p ps].
    + simpl. by rewrite Nat.sub_0_r.
    + inversion Hrep as [|? ? Hp1 _]; subst. destruct Hok as (_ & Hok & _).
      inversion Hok as [|? ? Hp2 _]; subst.
      pose proof (prop_wire_pos _ _ Hp1 Hp2). rewrite props_wire_cons, len_app in Hz.
      pose proof (len_nonneg (props_wire ps)). lia.
Qed.

(** The flags of the packets other than PUBLISH. *)
Definition fixed_qos (type : Z) : Z :=
  if (type =? 6) || (type =? 8) || (type =? 10) then 1 else 0.

Lemma fixed_header_args type :
  0 < type < 16 -> type <> 3 -> header_args type 0 (fixed_qos type) 0.
Proof.
  intros Ht H3. unfold header_args, fixed_qos, header_flags_ok.
  rewrite (proj2 (Z.eqb_neq type 3)), (proj2 (Z.eqb_neq type 0)) by lia.
  destruct (_ || _); cbn; split_and!; done || lia.
Qed.

Lemma header_seen_bytes rx_buf type fh :
  bytes rx_buf -> header_seen rx_buf type fh ->
  0 <= type < 16 /\
  header_args type (fh_retain fh) (fh_qos fh) (fh_duplicate fh) /\
  sits rx_buf 0 (header_bytes type (fh_retain fh) (fh_qos fh) (fh_duplicate fh) (fh_remain_len fh)) /\
  0 <= fh_retain fh <= 1 /\ 0 <= fh_duplicate fh <= 1.
Proof.
  intros Hb (b & Hs & _ & Ht & Hok & Hq & Hr & Hd).
  assert (Hby : is_byte b).
  { apply sits_cons in Hs as [Hs _]. by eapply rd_byte, rd_sits. }
  unfold is_byte in Hby.
  assert (0 <= type < 16) by (subst type; Zeucl).
  assert (Er : (if fh_retain fh =? 0 then 0 else 1) = fh_retain fh).
  { rewrite Hr. destruct (Z.eqb_spec (b mod 2) 0); Zeucl. }
  assert (Ed : (if fh_duplicate fh =? 0 then 0 else 1) = fh_duplicate fh).
  { rewrite Hd. destruct (Z.eqb_spec (b mod 16 / 8) 0); Zeucl. }
  assert (Hbits : b mod 16 = 8 * fh_duplicate fh + 2 * fh_qos fh + fh_retain fh).
  { rewrite Hq, Hr, Hd. Zeucl. }
  split; [done|]. split; [|split].
  - unfold header_args. rewrite Er, Ed, <- Hbits. rewrite Hq, Hr, Hd. split_and!; try done; Zeucl.
  - unfold header_bytes. rewrite type_flags_set_eq; [|done|rewrite Hq; Zeucl].
    rewrite Er, Ed. replace (16 * type + _ + _ + _) with b; [done|].
    rewrite <- Z.add_assoc, <- Z.add_assoc, Z.add_assoc. subst type.
    pose proof (Z.div_mod b 16 ltac:(lia)). lia.
  - rewrite Hr, Hd. Zeucl.
Qed.

(** What a decoder has seen when the fixed header is accepted. *)
Lemma header_seen_fixed rx_buf type fh :
  bytes rx_buf -> header_seen rx_buf type fh -> type <> 3 ->
  0 < type < 16 /\ sits rx_buf 0 (header_bytes type 0 (fixed_qos type) 0 (fh_remain_len fh)) /\
  fh_header_len fh = 1 + len (vbi 4 (fh_remain_len fh)).
Proof.
  intros Hb Hseen H3. destruct (header_seen_bytes _ _ _ Hb Hseen) as (Ht & Ha & Hs & Hr & Hd).
  destruct Hseen as (b & _ & Hl & _). destruct Ha as (_ & _ & Hq & _ & Hok).
  unfold header_flags_ok in Hok. rewrite (proj2 (Z.eqb_neq type 3)) in Hok by lia.
  destruct (Z.eqb_spec type 0); [done|]. split; [lia|]. split; [|done].
  unfold fixed_qos.
  assert (fh_retain fh = 0 /\ fh_duplicate fh = 0 /\
          fh_qos fh = if (type =? 6) || (type =? 8) || (type =? 10) then 1 else 0) as (E1 & E2 & E3).
  { destruct (_ || _); apply Z.eqb_eq in Hok;
      destruct (Z.eqb_spec (fh_retain fh) 0), (Z.eqb_spec (fh_duplicate fh) 0); lia. }
  by rewrite E1, E2, E3 in Hs.
Qed.

(** The packet of [type] in [rx_buf] whose header is [fh] has this body. *)
Lemma frame_sits rx_buf type retain qos duplicate body :
  sits rx_buf 0 (header_bytes type retain qos duplicate (len body)) ->
  sits rx_buf (len (header_bytes type retain qos duplicate (len body))) body ->
  sits rx_buf 0 (frame type retain qos duplicate body).
Proof. intros H1 H2. unfold frame. apply sits_app. by split. Qed.

(** What a decoder is given: [rx_buf] with [rx_buf_len] received bytes. *)
Definition rx_ok (rx_buf : list Z) (rx_buf_len : Z) : Prop :=
  bytes rx_buf /\ rx_buf_len <= len rx_buf /\ rx_buf_len < 2147483648.

(** The packet [w] has been received, and [rc] reports its length. *)
Definition received (rx_buf : list Z) (rx_buf_len : Z) (w : list Z) (rc : Z) : Prop :=
  sits rx_buf 0 w /\ rc = len w /\ rc <= rx_buf_len.

Lemma MqttDecode_FixedHeader_fixed rx_buf rx_buf_len type :
  rx_ok rx_buf rx_buf_len -> type <> 3 ->
  yields (MqttDecode_FixedHeader rx_buf rx_buf_len type)
    (fun fh => 2 <= fh_header_len fh <= 5 /\ fh_header_len fh <= rx_buf_len /\
       0 <= fh_remain_len fh <= MQTT_PACKET_MAX_REMAIN_LEN /\ 0 < type < 16 /\
       sits rx_buf 0 (header_bytes type 0 (fixed_qos type) 0 (fh_remain_len fh)) /\
       fh_header_len fh = 1 + len (vbi 4 (fh_remain_len fh))).
Proof.
  intros (Hb & Hl & Hm) H3.
  eapply yields_mono; [apply MqttDecode_FixedHeader_yields; [done|lia|lia]|].
  intros fh (H1 & H2 & H4 & _ & Hseen).
  destruct (header_seen_fixed _ _ _ Hb Hseen H3) as (? & ? & ?). done.
Qed.

Lemma received_frame rx_buf rx_buf_len type q fh body :
  sits rx_buf 0 (header_bytes type 0 q 0 (fh_remain_len fh)) ->
  fh_header_len fh = 1 + len (vbi 4 (fh_remain_len fh)) ->
  sits rx_buf (fh_header_len fh) body -> fh_remain_len fh = len body ->
  fh_header_len fh + fh_remain_len fh <= rx_buf_len ->
  received rx_buf rx_buf_len (frame type 0 q 0 body) (fh_header_len fh + fh_remain_len fh).
Proof.
  intros Hs Hh Hb Hl Hr. rewrite Hl in *. unfold received. rewrite frame_len_eq.
  split; [|lia]. apply frame_sits; [done|]. rewrite header_bytes_len_eq. by rewrite <- Hh.
Qed.

(** The header of a packet that is in the buffer. *)
Lemma MqttDecode_FixedHeader_frame rx_buf rx_buf_len type retain qos duplicate body :
  header_args type retain qos duplicate -> len body <= MQTT_PACKET_MAX_REMAIN_LEN ->
  received rx_buf rx_buf_len (frame type retain qos duplicate body)
    (len (frame type retain qos duplicate body)) -> rx_buf_len < 2147483648 ->
  exists h, 2 <= h <= 5 /\ len (frame type retain qos duplicate body) = h + len body /\
    h + len body <= rx_buf_len /\ 0 <= len body /\ sits rx_buf h body /\
    MqttDecode_FixedHeader rx_buf rx_buf_len type =
      Ok {| fh_header_len := h; fh_remain_len := len body; fh_qos := qos;
            fh_retain := if retain =? 0 then 0 else 1;
            fh_duplicate := if duplicate =? 0 then 0 else 1 |}.
Proof.
  intros Ha Hb (Hs & _ & Hl) Hm. rewrite frame_len_eq in *. pose proof (len_nonneg body).
  unfold frame in Hs. apply sits_app in Hs as [Hs1 Hs2]. rewrite header_bytes_len_eq in Hs2.
  pose proof (vbi_len 4 (len body)).
  exists (1 + len (vbi 4 (len body))). split_and!; try done; try lia.
  rewrite (MqttDecode_FixedHeader_sits _ _ _ _ _ _ _ Ha) by (done || (rewrite ?header_bytes_len_eq; lia)).
  by rewrite header_bytes_len_eq.
Qed.

(** An encoded number is found in one way at a place. *)
Lemma vbi_unique fuel buf i x y :
  0 <= x < 128 ^ Z.of_nat fuel -> 0 <= y -> (0 < fuel)%nat ->
  sits buf i (vbi fuel x) -> sits buf i (vbi fuel y) -> x = y.
Proof.
  revert i x y. induction fuel as [|fuel IH]; intros i x y Hx Hy Hf Sx Sy; [lia|]. cbn [vbi] in *.
  rewrite Nat2Z.inj_succ, Z.pow_succ_r in Hx by lia.
  pose proof (Z.mod_pos_bound x 128 ltac:(lia)). pose proof (Z.mod_pos_bound y 128 ltac:(lia)).
  destruct (Z.ltb_spec x 128), (Z.ltb_spec y 128);
    pose proof (rd_sits _ _ _ _ Sx) as Rx; pose proof (rd_sits _ _ _ _ Sy) as Ry;
    rewrite Rx in Ry; injection Ry; intros; try lia.
  rewrite sits_cons in Sx, Sy. destruct Sx as [_ Sx], Sy as [_ Sy].
  assert (Hf' : (0 < fuel)%nat) by (destruct fuel; [simpl in Hx; lia|lia]).
  assert (x / 128 = y / 128) by (apply (IH (i + 1)); try done; [split; [|apply Z.div_lt_upper_bound]|]; lia || (apply Z.div_pos; lia)).
  pose proof (Z.div_mod x 128). pose proof (Z.div_mod y 128). lia.
Qed.

(** A frame whose header is accepted has an encodable body. *)
Lemma frame_body_bound rx_buf rx_buf_len type fh t r q d body :
  rx_ok rx_buf rx_buf_len -> MqttDecode_FixedHeader rx_buf rx_buf_len type = Ok fh ->
  sits rx_buf 0 (frame t r q d body) -> len body <= MQTT_PACKET_MAX_REMAIN_LEN.
Proof.
  intros (Hb & Hl & Hm) E Hs.
  pose proof (MqttDecode_FixedHeader_yields rx_buf rx_buf_len type Hb Hl ltac:(lia)) as H.
  rewrite E in H. destruct H as (_ & _ & Hr & _ & b & Hv & _).
  unfold frame, header_bytes in Hs. rewrite <- app_comm_cons, sits_cons in Hs. rewrite sits_cons in Hv.
  destruct Hs as [_ Hs]. rewrite sits_app in Hs.
  rewrite <- (vbi_unique 4 rx_buf (0 + 1) (fh_remain_len fh) (len body)); try tauto; try lia.
  apply len_nonneg.
Qed.

(** A decoder that has succeeded has accepted the fixed header. *)
Lemma header_accepted {A} rx_buf rx_buf_len type (k : fixed_header -> M A) n a n' :
  (if rx_buf_len <=? 0 then throw MQTT_CODE_ERROR_BAD_ARG
   else lift (MqttDecode_FixedHeader rx_buf rx_buf_len type) ≫= k) n = (Ok a, n') ->
  exists fh, MqttDecode_FixedHeader rx_buf rx_buf_len type = Ok fh.
Proof.
  destruct (rx_buf_len <=? 0); [done|]. unfold mbind, M_bind, lift.
  destruct (MqttDecode_FixedHeader rx_buf rx_buf_len type); [eauto|done..].
Qed.

(** [recognizes n d good size]: the decoder [d] never leaves its objects; it
    accepts exactly what is [good] (with the length it reports) and fits in
    the [n] free property cells, of which it takes [size]; and an error is
    negative and gives back all cells. *)
Definition recognizes {A} (n : nat) (d : M (Z * A)) (good : Z -> A -> Prop) (size : A -> nat) : Prop :=
  match d n with
  | (Ok (rc, a), n') => good rc a /\ n = (n' + size a)%nat
  | (Err rc, n') => rc < 0 /\ n' = n /\ forall rc' a, good rc' a -> (n < size a)%nat
  | (UB, _) => False
  end.

Lemma recognizes_intro {A} n (d : M (Z * A)) good size :
  meets n d n (fun '(rc, a) n' => good rc a /\ n = (n' + size a)%nat) ->
  (forall rc a, good rc a -> (size a <= n)%nat -> exists x, d n = (Ok x, (n - size a)%nat)) ->
  recognizes n d good size.
Proof.
  unfold recognizes, meets. destruct (d n) as [[[rc a]|rc|] n'] eqn:E; [done| |done].
  intros [Hrc ->] Hc. split_and!; [done..|]. intros rc' a Hg.
  destruct (Nat.lt_ge_cases n (size a)) as [|Hge]; [done|]. by destruct (Hc rc' a Hg Hge).
Qed.

(** [transmits tx e ok body ready cells dec a]: the encoder [e] accepts its
    structure exactly when it is [ok] and [tx_buf] has room for the packet with
    this [body]; and from what it has written, whatever follows in the receive
    buffer, the decoder [dec] gets [a] if it is [ready], in as many bytes,
    taking that many property [cells]. *)
Definition transmits {A} (tx_buf_len : Z) (e : emit) (ok : Prop) (body : list Z) (ready : Prop)
    (cells : nat) (dec : list Z -> Z -> M (Z * A)) (a : A) : Prop :=
  (ok /\ room tx_buf_len body <-> exists r, e = Ok r) /\
  forall n bs, e = Ok (n, bs) ->
    n = len bs /\ n <= tx_buf_len /\
    forall rx_buf rx_buf_len free, ready -> rx_ok rx_buf rx_buf_len ->
      received rx_buf rx_buf_len bs n -> (cells <= free)%nat ->
      dec rx_buf rx_buf_len free = (Ok (n, a), (free - cells)%nat).

Lemma transmits_intro {A} tx_buf_len e ok type q body ready cells dec (a : A) w :
  w = frame type 0 q 0 body ->
  answers e (ok /\ room tx_buf_len body) (len w) w ->
  (forall rx_buf rx_buf_len free, ok -> len body <= MQTT_PACKET_MAX_REMAIN_LEN -> ready ->
     rx_ok rx_buf rx_buf_len -> received rx_buf rx_buf_len w (len w) -> (cells <= free)%nat ->
     dec rx_buf rx_buf_len free = (Ok (len w, a), (free - cells)%nat)) ->
  transmits tx_buf_len e ok body ready cells dec a.
Proof.
  intros -> He Hd. split.
  - destruct He as [[Hok ->]|[Hok (rc & _ & ->)]]; split; try done; [by eauto|]. by intros [? [=]].
  - intros n bs E. destruct (answers_inv _ _ _ _ _ _ He E) as ([Hok (Hb & _ & Hr)] & -> & ->).
    split_and!; [done|by rewrite frame_len|]. intros. by apply Hd.
Qed.

(** A packet that is all there is in the receive buffer. *)
Lemma transmits_run {A} tx_buf_len e ok body ready cells dec (a : A) n bs free :
  transmits tx_buf_len e ok body ready cells dec a -> e = Ok (n, bs) -> ready ->
  rx_ok bs n -> (cells <= free)%nat -> dec bs n free = (Ok (n, a), (free - cells)%nat).
Proof.
  intros [_ H] E Hr Hb Hc. destruct (H n bs E) as (-> & _ & Hd). apply Hd; try done.
  split_and!; [|done|lia]. exists [], []. by rewrite app_nil_r.
Qed.

Lemma bind_ok {A B} (m : M A) (k : A -> M B) n b n' :
  (m ≫= k) n = (Ok b, n') -> exists a n1, m n = (Ok a, n1) /\ k a n1 = (Ok b, n').
Proof. unfold mbind, M_bind. destruct (m n) as [[a|rc|] n1]; [eauto|done..]. Qed.

(** Reading the bytes of a known prefix. *)
Lemma meets_rd {A} n0 n rx_buf i (k : Z -> M A) Q :
  bytes rx_buf -> 0 <= i < len rx_buf -> n = n0 ->
  (forall b, is_byte b -> sits rx_buf i [b] -> meets n0 (k b) n Q) ->
  meets n0 (lift (rd rx_buf i) ≫= k) n Q.
Proof.
  intros Hb Hi Hn Hk. apply meets_bind, meets_lift; [|done]. apply rd_yields; [lia|].
  intros b Eb. apply Hk; [by eapply rd_byte|by apply sits_rd].
Qed.

Lemma meets_test {A} n0 n (b : bool) rc (m : M A) Q :
  rc < 0 -> n = n0 -> (b = false -> meets n0 m n Q) -> meets n0 (if b then throw rc else m) n Q.
Proof. intros ? ? H. destruct b; [by apply meets_throw|by apply H]. Qed.

(** Run a computation one step at a time. *)
Lemma run_lift {A B} (r : result A) (k : A -> M B) n a :
  r = Ok a -> (lift r ≫= k) n = k a n.
Proof. by intros ->. Qed.

Lemma meets_lift_ok {A B} n0 n (r : result A) (k : A -> M B) a Q :
  r = Ok a -> meets n0 (k a) n Q -> meets n0 (lift r ≫= k) n Q.
Proof. by intros ->. Qed.

Lemma run_bind {A B} (m : M A) (k : A -> M B) n a n' :
  m n = (Ok a, n') -> (m ≫= k) n = k a n'.
Proof. intros H. unfold mbind, M_bind. by rewrite H. Qed.

(** The cells a decoder takes for the property list of a v5 packet. *)
Definition cells (protocol_level : Z) (ps : list MqttProp) : nat :=
  if MQTT_CONNECT_PROTOCOL_LEVEL_5 <=? protocol_level then length ps else 0.

Lemma within_neg room rc0 tmp props_len rc :
  rc0 < 0 -> within room rc0 tmp props_len = Some rc -> rc < 0.
Proof. unfold within. case_match; [|done]. by intros ? [= <-]. Qed.

(** ** The reason code and properties at the end of a packet

    PUBACK, PUBREC, PUBREL, PUBCOMP and DISCONNECT leave out the properties,
    or both, when they are the default. *)

Definition nonempty {A} (l : list A) : bool := match l with [] => false | _ => true end.

(** [remain] is what the Remaining Length leaves for both. *)
Definition read_reason_props (packet : Z) (rx_buf : list Z) (rx_buf_len pos remain : Z)
    : M (Z * list MqttProp) :=
  '(reason_code, pos) ←
     (if 0 <? remain then
        if rx_buf_len <? pos + 1 then throw MQTT_CODE_ERROR_OUT_OF_BUFFER
        else b ← lift (rd rx_buf pos); mret (b, pos + 1)
      else mret (MQTT_REASON_SUCCESS, pos) : M (Z * Z));
  if 1 <? remain then
    if rx_buf_len <? pos then throw MQTT_CODE_ERROR_OUT_OF_BUFFER
    else
      '(props, _) ← read_props packet rx_buf pos rx_buf_len
                      (within (u32 (rx_buf_len - pos)) MQTT_CODE_ERROR_OUT_OF_BUFFER);
      mret (reason_code, props)
  else mret (reason_code, []).

(** The encoding of both, and the one a given Remaining Length announces. *)
Definition reason_tail (reason_code : Z) (ps : list MqttProp) : list Z :=
  (if negb (reason_code =? MQTT_REASON_SUCCESS) || nonempty ps then [reason_code] else []) ++
  (if nonempty ps then props_block ps else []).

Definition reason_tail_at (remain reason_code : Z) (ps : list MqttProp) : list Z :=
  (if 0 <? remain then [reason_code] else []) ++ (if 1 <? remain then props_block ps else []).

Lemma nonempty_wire packet ps :
  Forall prop_rep ps -> props_ok packet ps -> nonempty ps = true -> 2 <= len (props_wire ps).
Proof.
  intros Hrep (_ & Hok & _) Hne. destruct ps as [|p ps]; [done|].
  inversion Hrep; inversion Hok; subst. rewrite props_wire_cons, len_app.
  pose proof (len_nonneg (props_wire ps)). pose proof (prop_wire_pos packet p). intuition lia.
Qed.

Lemma reason_tail_at_len packet reason_code ps :
  Forall prop_rep ps -> props_ok packet ps ->
  reason_tail_at (len (reason_tail reason_code ps)) reason_code ps = reason_tail reason_code ps /\
  0 <= len (reason_tail reason_code ps) <= 3932255 /\
  (1 <? len (reason_tail reason_code ps)) = nonempty ps /\
  (reason_code = MQTT_REASON_SUCCESS \/ 0 < len (reason_tail reason_code ps)).
Proof.
  intros Hrep Hok. pose proof (props_bounds _ _ Hrep Hok) as [_ Hb]. unfold reason_tail_at, reason_tail.
  destruct (Z.eqb_spec reason_code MQTT_REASON_SUCCESS), (nonempty ps);
    cbn [negb orb app]; rewrite ?app_nil_r, ?len_cons, ?(len_nil (A:=Z));
    repeat decide_test; rewrite ?app_nil_r; split_and!; auto; try lia; try (apply Z.ltb_lt; lia).
Qed.

Lemma read_reason_props_meets packet rx_buf rx_buf_len pos remain n :
  rx_ok rx_buf rx_buf_len -> 0 <= pos <= rx_buf_len ->
  meets n (read_reason_props packet rx_buf rx_buf_len pos remain) n
    (fun '(reason_code, ps) n' => is_byte reason_code /\ props_decoded packet ps /\
       sits rx_buf pos (reason_tail_at remain reason_code ps) /\
       pos + len (reason_tail_at remain reason_code ps) <= rx_buf_len /\
       (remain <= 0 -> reason_code = MQTT_REASON_SUCCESS) /\ (remain <= 1 -> ps = []) /\
       n = (n' + length ps)%nat).
Proof.
  intros (Hb & Hl & Hm) Hp. unfold read_reason_props, reason_tail_at.
  apply meets_bind. apply (meets_mono _ _ _ (fun '(reason_code, pos') n' => n' = n /\
    is_byte reason_code /\ pos' = pos + len (if 0 <? remain then [reason_code] else []) /\
    pos' <= rx_buf_len /\ sits rx_buf pos (if 0 <? remain then [reason_code] else []) /\
    (remain <= 0 -> reason_code = MQTT_REASON_SUCCESS))).
  { destruct (Z.ltb_spec 0 remain).
    - apply meets_test; [lia|done|]. intros Hr%Z.ltb_ge.
      apply meets_rd; [done|lia|done|]. intros b Hbb Hbs. apply meets_ret.
      change (len [b]) with 1. split_and!; try done; lia.
    - apply meets_ret. change (len []) with 0. split_and!; try done; try lia.
      exists (take (Z.to_nat pos) rx_buf), (drop (Z.to_nat pos) rx_buf).
      rewrite app_nil_l, take_drop, len_take by lia. done. }
  intros [b pos'] n' (-> & Hbb & Hpos & Hpl & Hs & Hr0).
  pose proof (len_nonneg (if 0 <? remain then [b] else [])).
  destruct (Z.ltb_spec 1 remain).
  - rewrite (proj2 (Z.ltb_ge _ _)) by lia. apply meets_bind.
    eapply meets_mono; [apply read_props_meets; try done; try lia; intros ???; by apply within_neg|].
    intros [ps k] n' (Hd & Hps & -> & Hk1 & Hkl & Hn & _). apply meets_ret. rewrite len_app.
    split_and!; try done; try lia. apply sits_app. by rewrite <- Hpos.
  - apply meets_ret. rewrite app_nil_r. cbn [length]. pose proof (props_decoded_nil packet).
    split_and!; try done; lia.
Qed.

Lemma read_reason_props_sits packet rx_buf rx_buf_len pos reason_code ps n :
  Forall prop_rep ps -> props_ok packet ps -> auth_ok ps ->
  sits rx_buf pos (reason_tail reason_code ps) -> 0 <= pos ->
  pos + len (reason_tail reason_code ps) <= rx_buf_len -> rx_buf_len < 2147483648 ->
  (length ps <= n)%nat ->
  read_reason_props packet rx_buf rx_buf_len pos (len (reason_tail reason_code ps)) n =
    (Ok (reason_code, map prop_norm ps), (n - length ps)%nat).
Proof.
  intros Hrep Hok Ha Hs Hp Hl Hm Hn.
  destruct (reason_tail_at_len packet reason_code ps Hrep Hok) as (_ & Hb & Hne & Hz).
  unfold read_reason_props. rewrite Hne. pose proof (props_bounds _ _ Hrep Hok) as [Hw Hpb].
  unfold reason_tail in *.
  destruct (negb (reason_code =? MQTT_REASON_SUCCESS) || nonempty ps) eqn:E.
  - rewrite len_app in *. change (len [reason_code]) with 1 in *.
    pose proof (len_nonneg (if nonempty ps then props_block ps else [])).
    rewrite (proj2 (Z.ltb_lt 0 _)), (proj2 (Z.ltb_ge rx_buf_len (pos + 1))) by lia.
    apply sits_app in Hs as [Hs1 Hs2]. change (len [reason_code]) with 1 in Hs2.
    unfold mbind at 1, M_bind at 1. rewrite (run_lift _ _ _ _ (rd_sits _ _ _ _ Hs1)).
    cbn [mret M_ret]. destruct ps as [|p ps]; cbn [nonempty] in *.
    + cbn. by rewrite Nat.sub_0_r.
    + rewrite (proj2 (Z.ltb_ge rx_buf_len (pos + 1))) by lia.
      erewrite run_bind; [|apply (read_props_sits _ _ _ _ _ _ (p :: ps)); try done; try lia].
      * reflexivity.
      * unfold within. rewrite u32_small by lia.
        pose proof (props_block_len (p :: ps)). pose proof (vbi_len 4 (len (props_wire (p :: ps)))).
        rewrite (proj2 (Z.ltb_ge _ _)); [done|lia].
  - apply orb_false_iff in E as [E1 E2]. rewrite E2 in *. destruct ps; [|done].
    destruct Hz as [->|Hz]; [|done]. cbn. by rewrite Nat.sub_0_r.
Qed.
