(* ===== verification/ReasonCodes.v ===== *)
(** * ReasonCodes: the reason and return codes each packet may carry

    The allow-lists of [mqtt_packet.c]. *)
From S2P Require Import Prelude PacketDefs.

Definition MqttPacket_SubAckReturnCodeValid (code protocol_level : Z) : bool :=
  if (code =? MQTT_SUBSCRIBE_ACK_CODE_SUCCESS_MAX_QOS0) ||
     (code =? MQTT_SUBSCRIBE_ACK_CODE_SUCCESS_MAX_QOS1) ||
     (code =? MQTT_SUBSCRIBE_ACK_CODE_SUCCESS_MAX_QOS2) ||
     (code =? MQTT_SUBSCRIBE_ACK_CODE_FAILURE)
  then true
  else
    (MQTT_CONNECT_PROTOCOL_LEVEL_5 <=? protocol_level) &&
    bool_decide (code ∈ [MQTT_REASON_IMPL_SPECIFIC_ERR; MQTT_REASON_NOT_AUTHORIZED;
      MQTT_REASON_TOPIC_FILTER_INVALID; MQTT_REASON_PACKET_ID_IN_USE;
      MQTT_REASON_QUOTA_EXCEEDED; MQTT_REASON_SS_NOT_SUPPORTED;
      MQTT_REASON_SUB_ID_NOT_SUP; MQTT_REASON_WILDCARD_SUB_NOT_SUP]).

Definition MqttPacket_DisconnectReasonCodeValid (code : Z) : bool :=
  bool_decide (code ∈ [MQTT_REASON_SUCCESS; MQTT_REASON_DISCONNECT_W_WILL_MSG;
    MQTT_REASON_UNSPECIFIED_ERR; MQTT_REASON_MALFORMED_PACKET; MQTT_REASON_PROTOCOL_ERR;
    MQTT_REASON_IMPL_SPECIFIC_ERR; MQTT_REASON_NOT_AUTHORIZED; MQTT_REASON_SERVER_BUSY;
    MQTT_REASON_SERVER_SHUTTING_DOWN; MQTT_REASON_KEEP_ALIVE_TIMEOUT;
    MQTT_REASON_SESSION_TAKEN_OVER; MQTT_REASON_TOPIC_FILTER_INVALID;
    MQTT_REASON_TOPIC_NAME_INVALID; MQTT_REASON_RX_MAX_EXCEEDED;
    MQTT_REASON_TOPIC_ALIAS_INVALID; MQTT_REASON_PACKET_TOO_LARGE;
    MQTT_REASON_MSG_RATE_TOO_HIGH; MQTT_REASON_QUOTA_EXCEEDED; MQTT_REASON_ADMIN_ACTION;
    MQTT_REASON_PAYLOAD_FORMAT_INVALID; MQTT_REASON_RETAIN_NOT_SUPPORTED;
    MQTT_REASON_QOS_NOT_SUPPORTED; MQTT_REASON_USE_ANOTHER_SERVER; MQTT_REASON_SERVER_MOVED;
    MQTT_REASON_SS_NOT_SUPPORTED; MQTT_REASON_CON_RATE_EXCEED; MQTT_REASON_MAX_CON_TIME;
    MQTT_REASON_SUB_ID_NOT_SUP; MQTT_REASON_WILDCARD_SUB_NOT_SUP]).

Definition MqttPacket_UnsubAckReasonCodeValid (code : Z) : bool :=
  bool_decide (code ∈ [MQTT_REASON_SUCCESS; MQTT_REASON_NO_SUB_EXIST;
    MQTT_REASON_UNSPECIFIED_ERR; MQTT_REASON_IMPL_SPECIFIC_ERR; MQTT_REASON_NOT_AUTHORIZED;
    MQTT_REASON_TOPIC_FILTER_INVALID; MQTT_REASON_PACKET_ID_IN_USE]).

Definition MqttPacket_PublishRespReasonCodeValid (type code : Z) : bool :=
  if (type =? MQTT_PACKET_TYPE_PUBLISH_REL) || (type =? MQTT_PACKET_TYPE_PUBLISH_COMP) then
    bool_decide (code ∈ [MQTT_REASON_SUCCESS; MQTT_REASON_PACKET_ID_NOT_FOUND])
  else
    bool_decide (code ∈ [MQTT_REASON_SUCCESS; MQTT_REASON_NO_MATCH_SUB;
      MQTT_REASON_UNSPECIFIED_ERR; MQTT_REASON_IMPL_SPECIFIC_ERR; MQTT_REASON_NOT_AUTHORIZED;
      MQTT_REASON_TOPIC_NAME_INVALID; MQTT_REASON_PACKET_ID_IN_USE;
      MQTT_REASON_QUOTA_EXCEEDED; MQTT_REASON_PAYLOAD_FORMAT_INVALID]).

Definition MqttPacket_ConnectAckReturnCodeValid (code protocol_level : Z) : bool :=
  if MQTT_CONNECT_PROTOCOL_LEVEL_5 <=? protocol_level then
    bool_decide (code ∈ [MQTT_REASON_SUCCESS; MQTT_REASON_UNSPECIFIED_ERR;
      MQTT_REASON_MALFORMED_PACKET; MQTT_REASON_PROTOCOL_ERR; MQTT_REASON_IMPL_SPECIFIC_ERR;
      MQTT_REASON_UNSUP_PROTO_VER; MQTT_REASON_CLIENT_ID_NOT_VALID;
      MQTT_REASON_BAD_USER_OR_PASS; MQTT_REASON_NOT_AUTHORIZED;
      MQTT_REASON_SERVER_UNAVAILABLE; MQTT_REASON_SERVER_BUSY; MQTT_REASON_BANNED;
      MQTT_REASON_BAD_AUTH_METHOD; MQTT_REASON_TOPIC_NAME_INVALID;
      MQTT_REASON_PACKET_TOO_LARGE; MQTT_REASON_QUOTA_EXCEEDED;
      MQTT_REASON_PAYLOAD_FORMAT_INVALID; MQTT_REASON_RETAIN_NOT_SUPPORTED;
      MQTT_REASON_QOS_NOT_SUPPORTED; MQTT_REASON_USE_ANOTHER_SERVER;
      MQTT_REASON_SERVER_MOVED; MQTT_REASON_CON_RATE_EXCEED])
  else code <=? MQTT_CONNECT_ACK_CODE_REFUSED_NOT_AUTH.
