(* ===== verification/ConnectAck.v ===== *)
(** * ConnectAck: the CONNACK packet ([mqtt_packet.c])

    [MqttEncode_ConnectAck] and [MqttDecode_ConnectAck]. *)
From S2P Require Import Prelude PacketDefs Wire FixedHeader Props Frame ReasonCodes.

Definition MqttEncode_ConnectAck (tx_buf_len : Z) (connect_ack : MqttConnectAck) : emit :=
  if negb (Z.land (ca_flags connect_ack) 254 =? 0) then Err MQTT_CODE_ERROR_BAD_ARG
  else if negb (MqttPacket_ConnectAckReturnCodeValid (ca_return_code connect_ack)
                  (ca_protocol_level connect_ack)) then Err MQTT_CODE_ERROR_BAD_ARG
  else if negb (Z.land (ca_flags connect_ack) 1 =? 0) &&
          negb (ca_return_code connect_ack =? MQTT_CONNECT_ACK_CODE_ACCEPTED)
  then Err MQTT_CODE_ERROR_BAD_ARG
  else
    let head : emit := Ok (2, [ca_flags connect_ack; ca_return_code connect_ack]) in
    if MQTT_CONNECT_PROTOCOL_LEVEL_5 <=? ca_protocol_level connect_ack then
      '(props_len, tmp_len) ← props_length MQTT_PACKET_TYPE_CONNECT_ACK (ca_props connect_ack);
      write_packet tx_buf_len (2 + props_len + tmp_len) MQTT_PACKET_TYPE_CONNECT_ACK 0 0 0
        (head +++ write_props MQTT_PACKET_TYPE_CONNECT_ACK (ca_props connect_ack) props_len)
    else write_packet tx_buf_len 2 MQTT_PACKET_TYPE_CONNECT_ACK 0 0 0 head.

(** [connect_ack] may be NULL; then only the lengths are checked. *)
Definition MqttDecode_ConnectAck (rx_buf : list Z) (rx_buf_len : Z)
    (connect_ack : option MqttConnectAck) : M (Z * option MqttConnectAck) :=
  if rx_buf_len <=? 0 then throw MQTT_CODE_ERROR_BAD_ARG
  else
    fh ← lift (MqttDecode_FixedHeader rx_buf rx_buf_len MQTT_PACKET_TYPE_CONNECT_ACK);
    let header_len := fh_header_len fh in
    let remain_len := fh_remain_len fh in
    let v5 := match connect_ack with
              | Some ca => MQTT_CONNECT_PROTOCOL_LEVEL_5 <=? ca_protocol_level ca
              | None => false
              end in
    if (if v5 then remain_len <? 2 else negb (remain_len =? 2)) then
      throw MQTT_CODE_ERROR_MALFORMED_DATA
    else if rx_buf_len <? header_len + remain_len then throw MQTT_CODE_ERROR_OUT_OF_BUFFER
    else
      match connect_ack with
      | None => mret (header_len + remain_len, None)
      | Some ca =>
        flags ← lift (rd rx_buf header_len);
        return_code ← lift (rd rx_buf (header_len + 1));
        if negb (Z.land flags (Z.land (Z.lnot MQTT_CONNECT_ACK_FLAG_SESSION_PRESENT) 255) =? 0)
        then throw MQTT_CODE_ERROR_MALFORMED_DATA
        else if negb (return_code =? MQTT_CONNECT_ACK_CODE_ACCEPTED) &&
                negb (Z.land flags MQTT_CONNECT_ACK_FLAG_SESSION_PRESENT =? 0)
        then throw MQTT_CODE_ERROR_MALFORMED_DATA
        else if v5 then
          let packet_end := header_len + remain_len in
          let rx_payload := header_len + 2 in
          '(props, n) ← read_props MQTT_PACKET_TYPE_CONNECT_ACK rx_buf rx_payload packet_end
             (fun tmp => within (u32 (packet_end - (rx_payload + tmp)))
                           MQTT_CODE_ERROR_OUT_OF_BUFFER tmp);
          if negb (rx_payload + n =? packet_end) then
            MqttProps_Free props ≫= fun _ => throw MQTT_CODE_ERROR_MALFORMED_DATA
          else
            mret (header_len + remain_len,
                  Some (mkConnectAck flags return_code props (ca_protocol_level ca)))
        else
          mret (header_len + remain_len,
                Some (mkConnectAck flags return_code [] (ca_protocol_level ca)))
      end.

(** ** The packet *)

Definition connack_body (ca : MqttConnectAck) : list Z :=
  [ca_flags ca; ca_return_code ca] ++
  (if MQTT_CONNECT_PROTOCOL_LEVEL_5 <=? ca_protocol_level ca
   then props_block (ca_props ca) else []).

Definition connack_wire (ca : MqttConnectAck) : list Z :=
  frame MQTT_PACKET_TYPE_CONNECT_ACK 0 0 0 (connack_body ca).

Definition connack_rep (ca : MqttConnectAck) : Prop :=
  is_byte (ca_flags ca) /\ is_byte (ca_return_code ca) /\ Forall prop_rep (ca_props ca).

(** Session Present is the only flag, and only an accepted connection has it. *)
Definition session_flag_ok (ca : MqttConnectAck) : Prop :=
  ca_flags ca = 0 \/ (ca_flags ca = 1 /\ ca_return_code ca = MQTT_CONNECT_ACK_CODE_ACCEPTED).

Definition connack_ok (ca : MqttConnectAck) : Prop :=
  session_flag_ok ca /\
  MqttPacket_ConnectAckReturnCodeValid (ca_return_code ca) (ca_protocol_level ca) = true /\
  (MQTT_CONNECT_PROTOCOL_LEVEL_5 <= ca_protocol_level ca ->
   props_ok MQTT_PACKET_TYPE_CONNECT_ACK (ca_props ca)).

Lemma flag_bits f :
  is_byte f ->
  (Z.land f 254 =? 0) = (f <? 2) /\ (Z.land f 1 =? 0) = (f mod 2 =? 0).
Proof.
  intros Hb. pose proof (byte_enum (fun f => Bool.eqb (Z.land f 254 =? 0) (f <? 2) &&
    Bool.eqb (Z.land f 1 =? 0) (f mod 2 =? 0)) f eq_refl Hb) as H.
  apply andb_true_iff in H as [H1%Bool.eqb_prop H2%Bool.eqb_prop]. done.
Qed.

(** The tests on the flags decide [session_flag_ok]. *)
Lemma session_tests f c :
  is_byte f ->
  (negb (Z.land f 254 =? 0) = false /\ negb (Z.land f 1 =? 0) && negb (c =? 0) = false) <->
  (f = 0 \/ (f = 1 /\ c = 0)).
Proof.
  intros Hb. destruct (flag_bits f Hb) as [-> ->]. unfold is_byte in Hb.
  rewrite negb_false_iff, andb_false_iff, !negb_false_iff, Z.ltb_lt, !Z.eqb_eq.
  split; [intros [? [?|?]]; Zeucl | intros [->|[-> ->]]; split; [lia|by left|lia|by right]].
Qed.

(** ** Encoding *)

Lemma MqttEncode_ConnectAck_answers tx_buf_len ca :
  connack_rep ca ->
  answers (MqttEncode_ConnectAck tx_buf_len ca)
    (connack_ok ca /\ room tx_buf_len (connack_body ca))
    (len (connack_wire ca)) (connack_wire ca).
Proof.
  intros (Hf & Hc & Hp). unfold MqttEncode_ConnectAck, connack_ok, connack_wire, connack_body.
  unfold session_flag_ok. pose proof (session_tests (ca_flags ca) (ca_return_code ca) Hf) as Hs.
  destruct (negb (Z.land (ca_flags ca) 254 =? 0)); [apply answers_err; intuition done|].
  destruct (MqttPacket_ConnectAckReturnCodeValid _ _); [|apply answers_err; intuition done].
  cbn [negb]. destruct (_ && _); [apply answers_err; intuition done|].
  destruct (Z.leb_spec MQTT_CONNECT_PROTOCOL_LEVEL_5 (ca_protocol_level ca)).
  - eapply answers_iff; [|apply props_length_answers; [done|]].
    2:{ intros Hok Hw. pose proof (props_bounds _ _ Hp Hok) as [_ ?]. pose proof (props_block_len (ca_props ca)).
      apply write_packet_writes.
      - rewrite Hw. by eexists.
      - rewrite len_app. change (len [_; _]) with 2. lia.
      - rewrite len_app. change (len [_; _]) with 2. lia. }
    tauto.
  - rewrite app_nil_r.
    eapply answers_iff; [|apply write_packet_writes; [by eexists|done|done]].
    intuition lia.
Qed.

(** ** Decoding *)

(** What a successful decoder has found: the whole packet, with the fields it
    reports. *)
Definition connack_found (rx_buf : list Z) (rx_buf_len : Z) (rc : Z)
    (ca0 : MqttConnectAck) (ca : MqttConnectAck) : Prop :=
  ca_protocol_level ca = ca_protocol_level ca0 /\ session_flag_ok ca /\
  is_byte (ca_return_code ca) /\
  props_decoded MQTT_PACKET_TYPE_CONNECT_ACK (ca_props ca) /\
  received rx_buf rx_buf_len (connack_wire ca) rc.

Lemma MqttDecode_ConnectAck_meets rx_buf rx_buf_len ca0 n :
  rx_ok rx_buf rx_buf_len ->
  meets n (MqttDecode_ConnectAck rx_buf rx_buf_len (Some ca0)) n
    (fun '(rc, ca) n' => exists ca1, ca = Some ca1 /\
       connack_found rx_buf rx_buf_len rc ca0 ca1 /\ n = (n' + length (ca_props ca1))%nat).
Proof.
  intros Hrx. pose proof Hrx as (Hb & Hl & Hm). unfold MqttDecode_ConnectAck.
  apply meets_test; [lia|done|]. intros _.
  apply meets_bind, meets_lift; [|done].
  eapply yields_mono; [by apply MqttDecode_FixedHeader_fixed|].
  intros fh (H1 & H2 & H3 & _ & Hs & Hh). cbv zeta.
  remember (MQTT_CONNECT_PROTOCOL_LEVEL_5 <=? ca_protocol_level ca0) as v5 eqn:Hv5.
  apply meets_test; [lia|done|]. intros Hrem.
  apply meets_test; [lia|done|]. intros Hroom. tests.
  assert (2 <= fh_remain_len fh) by (destruct v5; tests; lia).
  apply meets_rd; [done|lia|done|]. intros flags Hfb Hfs.
  apply meets_rd; [done|lia|done|]. intros rcode Hcb Hcs.
  change (Z.land (Z.lnot MQTT_CONNECT_ACK_FLAG_SESSION_PRESENT) 255) with 254.
  apply meets_test; [lia|done|]. intros Hf1.
  apply meets_test; [lia|done|]. intros Hf2.
  assert (Hses : flags = 0 \/ (flags = 1 /\ rcode = 0)).
  { apply session_tests; [done|]. split; [done|]. by rewrite andb_comm. }
  assert (Hhead : sits rx_buf (fh_header_len fh) [flags; rcode]) by (apply sits_cons; done).
  destruct v5.
  - apply meets_bind. eapply meets_mono; [apply read_props_meets; try done; try lia; intros ???; by apply within_neg|].
    intros [ps k] n' (Hdec & Hps & Hk & Hk1 & Hpk & Hn & _).
    destruct (Z.eqb_spec (fh_header_len fh + 2 + k) (fh_header_len fh + fh_remain_len fh)) as [Hend|];
      [|by apply meets_free_throw].
    apply meets_ret. eexists; split; [done|]. split; [|done].
    unfold connack_found, connack_wire, connack_body. cbn [ca_protocol_level ca_props ca_return_code].
    split_and!; try done. rewrite <- Hv5.
    apply received_frame; [done|done| |rewrite len_app; change (len [_; _]) with 2; lia|lia].
    apply sits_app. by split.
  - apply meets_ret. eexists; split; [done|]. split; [|cbn; lia].
    unfold connack_found, connack_wire, connack_body. cbn [ca_protocol_level ca_props ca_return_code].
    split_and!; try done; [apply props_decoded_nil|]. rewrite <- Hv5.
    apply negb_false_iff, Z.eqb_eq in Hrem. by apply received_frame.
Qed.

(** Decoding a packet that is in the buffer. *)
Definition connack_norm (ca : MqttConnectAck) : MqttConnectAck :=
  mkConnectAck (ca_flags ca) (ca_return_code ca)
    (if MQTT_CONNECT_PROTOCOL_LEVEL_5 <=? ca_protocol_level ca
     then map prop_norm (ca_props ca) else [])
    (ca_protocol_level ca).

Lemma MqttDecode_ConnectAck_sits rx_buf rx_buf_len ca ca0 n :
  connack_rep ca -> connack_ok ca -> auth_ok (ca_props ca) ->
  len (connack_body ca) <= MQTT_PACKET_MAX_REMAIN_LEN ->
  received rx_buf rx_buf_len (connack_wire ca) (len (connack_wire ca)) ->
  rx_buf_len < 2147483648 -> ca_protocol_level ca0 = ca_protocol_level ca ->
  (cells (ca_protocol_level ca) (ca_props ca) <= n)%nat ->
  MqttDecode_ConnectAck rx_buf rx_buf_len (Some ca0) n =
    (Ok (len (connack_wire ca), Some (connack_norm ca)),
     (n - cells (ca_protocol_level ca) (ca_props ca))%nat).
Proof.
  intros (Hf & Hc & Hrep) (Hses & _ & Hprops) Ha Hbl Hrx Hm Hlvl Hn.
  destruct (MqttDecode_FixedHeader_frame rx_buf rx_buf_len 2 0 0 0 (connack_body ca))
    as (h & Hh & Hw & Hrl & Hb0 & Hs & E); [by split_and!|done..|].
  unfold connack_wire in *. rewrite Hw in *. clear Hw.
  unfold MqttDecode_ConnectAck. rewrite (proj2 (Z.leb_gt rx_buf_len 0)) by lia.
  rewrite (run_lift _ _ _ _ E). cbn [fh_header_len fh_remain_len]. rewrite Hlvl.
  unfold connack_body, cells, connack_norm in *.
  destruct (MQTT_CONNECT_PROTOCOL_LEVEL_5 <=? ca_protocol_level ca) eqn:Elvl.
  - rewrite len_app in *. change (len [_; _]) with 2 in *. apply Z.leb_le in Elvl.
    apply sits_app in Hs as [Hs1 Hs2]. apply sits_cons in Hs1 as [Hs0 Hs1].
    pose proof (props_bounds _ _ Hrep (Hprops Elvl)) as [Hw Hb].
    rewrite (proj2 (Z.ltb_ge _ _)), (proj2 (Z.ltb_ge _ _)) by lia.
    rewrite (run_lift _ _ _ _ (rd_sits _ _ _ _ Hs0)), (run_lift _ _ _ _ (rd_sits _ _ _ _ Hs1)).
    change (Z.land (Z.lnot MQTT_CONNECT_ACK_FLAG_SESSION_PRESENT) 255) with 254.
    apply session_tests in Hses as [T1 T2]; [|done]. rewrite andb_comm in T2. rewrite T1, T2.
    erewrite run_bind; [|apply (read_props_sits _ _ _ _ _ _ (ca_props ca)); try done; try lia; [by apply Hprops|]].
    2:{ unfold within. rewrite u32_small, (proj2 (Z.ltb_ge _ _)); [done| |].
        all: pose proof (props_block_len (ca_props ca)); lia. }
    cbv beta iota. rewrite (proj2 (Z.eqb_eq _ _)) by lia. done.
  - rewrite app_nil_r in *. change (len [_; _]) with 2 in *.
    apply sits_cons in Hs as [Hs0 Hs1].
    change (negb (2 =? 2)) with false. cbv match. rewrite (proj2 (Z.ltb_ge _ _)) by lia.
    rewrite (run_lift _ _ _ _ (rd_sits _ _ _ _ Hs0)), (run_lift _ _ _ _ (rd_sits _ _ _ _ Hs1)).
    change (Z.land (Z.lnot MQTT_CONNECT_ACK_FLAG_SESSION_PRESENT) 255) with 254.
    apply session_tests in Hses as [T1 T2]; [|done]. rewrite andb_comm in T2. rewrite T1, T2.
    by rewrite Nat.sub_0_r.
Qed.

(** ** Properties *)

(** [MqttEncode_ConnectAck] accepts a structure exactly when Session
    Present is its only flag and set for an accepted connection only, the
    return code is one of its protocol level and the properties may be in a
    CONNACK; and [MqttDecode_ConnectAck] gets flags, code and properties back
    from the bytes it writes. *)
Theorem ConnectAck_roundtrip tx_buf_len ca ca0 :
  connack_rep ca -> ca_protocol_level ca0 = ca_protocol_level ca ->
  transmits tx_buf_len (MqttEncode_ConnectAck tx_buf_len ca) (connack_ok ca) (connack_body ca)
    (auth_ok (ca_props ca)) (cells (ca_protocol_level ca) (ca_props ca))
    (fun rx_buf rx_buf_len => MqttDecode_ConnectAck rx_buf rx_buf_len (Some ca0))
    (Some (connack_norm ca)).
Proof.
  intros Hr Hl. eapply transmits_intro; [reflexivity|by apply MqttEncode_ConnectAck_answers|].
  intros rx_buf rx_buf_len free Hok Hb Ha (? & ? & ?) Hrec Hc. by apply MqttDecode_ConnectAck_sits.
Qed.

(** An MQTT v5 CONNACK with Session Present and Receive Maximum 10. *)
Definition ex_connack : MqttConnectAck :=
  mkConnectAck 1 0 [mkProp MQTT_PROP_RECEIVE_MAX 0 10 0 no_str no_str no_str] 5.

Lemma ex_connack_rep : connack_rep ex_connack.
Proof. by_eval. Qed.

Lemma ConnectAck_roundtrip_witness :
  MqttEncode_ConnectAck 64 ex_connack = Ok (8, [32; 6; 1; 0; 3; 33; 0; 10]) /\
  MqttDecode_ConnectAck [32; 6; 1; 0; 3; 33; 0; 10] 8 (Some (mkConnectAck 0 0 [] 5)) 30%nat =
    (Ok (8, Some ex_connack), 29%nat).
Proof.
  split; [reflexivity|].
  refine (transmits_run _ _ _ _ _ _ _ _ 8 _ 30
    (ConnectAck_roundtrip 64 ex_connack (mkConnectAck 0 0 [] 5) ex_connack_rep eq_refl) eq_refl _ _ _);
    by_eval.
Defined.

(** For every buffer, [MqttDecode_ConnectAck] reads nothing outside it and
    ends; what it accepts is a whole CONNACK in the received bytes, with the
    reported flags, code and properties; a failure leaves no property cell
    taken. *)
Theorem MqttDecode_ConnectAck_sound rx_buf rx_buf_len ca0 n :
  rx_ok rx_buf rx_buf_len ->
  meets n (MqttDecode_ConnectAck rx_buf rx_buf_len (Some ca0)) n
    (fun '(rc, ca) n' => exists ca1, ca = Some ca1 /\
       connack_found rx_buf rx_buf_len rc ca0 ca1 /\ n = (n' + length (ca_props ca1))%nat).
Proof. apply MqttDecode_ConnectAck_meets. Qed.

Lemma MqttDecode_ConnectAck_sound_witness :
  MqttDecode_ConnectAck [32; 2; 1; 0; 9] 5 (Some (mkConnectAck 0 0 [] 4)) 0%nat =
    (Ok (4, Some (mkConnectAck 1 0 [] 4)), 0%nat) /\
  meets 0 (MqttDecode_ConnectAck [32; 2; 1; 0; 9] 5 (Some (mkConnectAck 0 0 [] 4))) 0
    (fun '(rc, ca) n' => exists ca1, ca = Some ca1 /\
       connack_found [32; 2; 1; 0; 9] 5 rc (mkConnectAck 0 0 [] 4) ca1 /\
       0%nat = (n' + length (ca_props ca1))%nat).
Proof.
  split; [reflexivity|]. apply MqttDecode_ConnectAck_sound. split_and!; [by_eval|vm_compute; done..].
Defined.
