(* ===== verification/PublishResp.v ===== *)
(** * PublishResp: PUBACK, PUBREC, PUBREL and PUBCOMP ([mqtt_packet.c])

    [MqttEncode_PublishResp] and [MqttDecode_PublishResp]. *)
From S2P Require Import Prelude PacketDefs Wire FixedHeader Props Frame ReasonCodes.

(** The two blocks guarded by the protocol level compute the length of the
    properties and write the reason code and the properties. *)
Definition MqttEncode_PublishResp (tx_buf_len type : Z) (publish_resp : MqttPublishResp) : emit :=
  let v5 := MQTT_CONNECT_PROTOCOL_LEVEL_5 <=? pr_protocol_level publish_resp in
  let reason_code := pr_reason_code publish_resp in
  let props := pr_props publish_resp in
  let has_code := negb (reason_code =? MQTT_REASON_SUCCESS) || nonempty props in
  if pr_packet_id publish_resp =? 0 then Err MQTT_CODE_ERROR_PACKET_ID
  else if v5 && negb (MqttPacket_PublishRespReasonCodeValid type reason_code) then
    Err MQTT_CODE_ERROR_PROPERTY
  else
    '(props_len, tmp_len) ← (if v5 && nonempty props then props_length type props else Ok (0, 0));
    let remain_len := MQTT_DATA_LEN_SIZE + props_len + tmp_len in
    let remain_len := if v5 && has_code then remain_len + 1 else remain_len in
    let qos := if type =? MQTT_PACKET_TYPE_PUBLISH_REL then MQTT_QOS_1 else MQTT_QOS_0 in
    write_packet tx_buf_len remain_len type 0 qos 0
      (MqttEncode_Num true (pr_packet_id publish_resp) +++
       (if v5 && has_code then Ok (1, [reason_code]) else Ok (0, [])) +++
       (if v5 && nonempty props then write_props type props props_len else Ok (0, []))).

Definition MqttDecode_PublishResp (rx_buf : list Z) (rx_buf_len type : Z)
    (publish_resp : option MqttPublishResp) : M (Z * option MqttPublishResp) :=
  if rx_buf_len <=? 0 then throw MQTT_CODE_ERROR_BAD_ARG
  else
    fh ← lift (MqttDecode_FixedHeader rx_buf rx_buf_len type);
    let header_len := fh_header_len fh in
    let remain_len := fh_remain_len fh in
    let v5 := match publish_resp with
              | Some pr => MQTT_CONNECT_PROTOCOL_LEVEL_5 <=? pr_protocol_level pr
              | None => false
              end in
    if (if v5 then remain_len <? MQTT_DATA_LEN_SIZE else negb (remain_len =? MQTT_DATA_LEN_SIZE))
    then throw MQTT_CODE_ERROR_MALFORMED_DATA
    else
      match publish_resp with
      | None => mret (header_len + remain_len, None)
      | Some pr =>
        '(packet_id, tmp) ← lift (MqttDecode_Num rx_buf header_len (u32 (rx_buf_len - header_len)));
        if packet_id =? 0 then throw MQTT_CODE_ERROR_PACKET_ID
        else if v5 then
          '(reason_code, props) ← read_reason_props type rx_buf rx_buf_len (header_len + tmp)
                                    (remain_len - MQTT_DATA_LEN_SIZE);
          mret (header_len + remain_len,
                Some (mkPublishResp packet_id reason_code props (pr_protocol_level pr)))
        else
          mret (header_len + remain_len,
                Some (mkPublishResp packet_id (pr_reason_code pr) [] (pr_protocol_level pr)))
      end.

(** ** The packet *)

Definition resp_tail (pr : MqttPublishResp) : list Z :=
  if MQTT_CONNECT_PROTOCOL_LEVEL_5 <=? pr_protocol_level pr
  then reason_tail (pr_reason_code pr) (pr_props pr) else [].

Definition resp_body (pr : MqttPublishResp) : list Z := be16 (pr_packet_id pr) ++ resp_tail pr.

Definition resp_wire (type : Z) (pr : MqttPublishResp) : list Z :=
  frame type 0 (fixed_qos type) 0 (resp_body pr).

Definition resp_type (type : Z) : Prop :=
  type ∈ [MQTT_PACKET_TYPE_PUBLISH_ACK; MQTT_PACKET_TYPE_PUBLISH_REC;
          MQTT_PACKET_TYPE_PUBLISH_REL; MQTT_PACKET_TYPE_PUBLISH_COMP].

Definition resp_rep (pr : MqttPublishResp) : Prop :=
  0 <= pr_packet_id pr < 65536 /\ is_byte (pr_reason_code pr) /\ Forall prop_rep (pr_props pr).

Definition resp_ok (type : Z) (pr : MqttPublishResp) : Prop :=
  pr_packet_id pr <> 0 /\
  (MQTT_CONNECT_PROTOCOL_LEVEL_5 <= pr_protocol_level pr ->
   MqttPacket_PublishRespReasonCodeValid type (pr_reason_code pr) = true /\
   props_ok type (pr_props pr)).

Lemma resp_type_range type : resp_type type -> 0 < type < 16 /\ type <> 3 /\
  (if type =? MQTT_PACKET_TYPE_PUBLISH_REL then MQTT_QOS_1 else MQTT_QOS_0) = fixed_qos type.
Proof.
  unfold resp_type. intros H.
  repeat (apply elem_of_cons in H as [->|H]; [done|]). by apply elem_of_nil in H.
Qed.

(** ** Encoding *)

Lemma props_ok_empty packet ps : nonempty ps = false -> props_ok packet ps.
Proof. destruct ps; [|done]. intros _. apply props_decoded_nil. Qed.

(** The optional property block of an encoder. *)
Lemma opt_props_answers (v5 : bool) packet ps (k : Z * Z -> emit) Q n bs :
  Forall prop_rep ps ->
  (forall props_len tmp_len,
     (v5 = true -> props_ok packet ps) ->
     (if v5 && nonempty ps then write_props packet ps props_len else Ok (0, [])) =
       Ok (props_len + tmp_len, if v5 && nonempty ps then props_block ps else []) ->
     props_len + tmp_len = len (if v5 && nonempty ps then props_block ps else []) ->
     answers (k (props_len, tmp_len)) Q n bs) ->
  answers ((if v5 && nonempty ps then props_length packet ps else Ok (0, 0)) ≫= k)
    ((v5 = true -> props_ok packet ps) /\ Q) n bs.
Proof.
  intros Hrep Hk. destruct (v5 && nonempty ps) eqn:E.
  - apply andb_true_iff in E as [-> E].
    eapply answers_iff; [|apply props_length_answers; [exact Hrep|]].
    2:{ intros Hok Hw. rewrite props_block_len in Hw. pose proof (props_block_len ps).
      apply Hk; [done|rewrite Hw; f_equal; f_equal; lia|lia]. }
    intuition.
  - cbn [mbind result_bind].
    assert (v5 = true -> props_ok packet ps).
    { intros ->. by apply props_ok_empty. }
    eapply answers_iff; [|apply (Hk 0 0); done]. tauto.
Qed.

Lemma MqttEncode_PublishResp_answers tx_buf_len type pr :
  resp_type type -> resp_rep pr ->
  answers (MqttEncode_PublishResp tx_buf_len type pr)
    (resp_ok type pr /\ room tx_buf_len (resp_body pr))
    (len (resp_wire type pr)) (resp_wire type pr).
Proof.
  intros (Ht & Ht3 & Hq)%resp_type_range (Hid & Hc & Hrep).
  unfold MqttEncode_PublishResp, resp_ok, resp_wire, resp_body, resp_tail. rewrite Hq.
  rewrite <- Z.leb_le.
  destruct (Z.eqb_spec (pr_packet_id pr) 0); [apply answers_err; [lia|tauto]|].
  remember (MQTT_CONNECT_PROTOCOL_LEVEL_5 <=? pr_protocol_level pr) as v5 eqn:Ev5.
  destruct (v5 && negb _) eqn:Ecode.
  { apply andb_true_iff in Ecode as [-> Ecode%negb_true_iff]. apply answers_err; [lia|].
    intros [[_ H] _]. destruct (H eq_refl). congruence. }
  eapply answers_iff; [|eapply (opt_props_answers v5); [done|]].
  2:{ intros props_len tmp_len Hok Hw Hlen. rewrite Hw.
    rewrite MqttEncode_Num_eq by done. unfold reason_tail.
    assert (Hb : 0 <= props_len + tmp_len <= 3932254).
    { rewrite Hlen. destruct (v5 && nonempty _) eqn:E; [|unfold len; simpl; lia].
      apply andb_true_iff in E as [-> _]. pose proof (props_bounds _ _ Hrep (Hok eq_refl)). lia. }
    apply write_packet_writes.
    - destruct v5; cbn [andb]; [destruct (negb _ || _)|]; by eexists.
    - rewrite len_app. change (len (be16 _)) with 2. destruct v5; cbn [andb] in *.
      + rewrite len_app, <- Hlen. destruct (negb _ || _); unfold len; cbn [length]; lia.
      + change (len []) with 0 in *. lia.
    - rewrite len_app. change (len (be16 _)) with 2. destruct v5; cbn [andb] in *.
      + rewrite len_app, <- Hlen. destruct (negb _ || _); unfold len; cbn [length]; lia.
      + change (len []) with 0 in *. lia. }
  apply andb_false_iff in Ecode. rewrite negb_false_iff in Ecode.
  destruct v5, (MqttPacket_PublishRespReasonCodeValid type (pr_reason_code pr)); intuition done.
Qed.

(** ** Decoding *)

(** What a successful decoder has found, [remain] being the Remaining Length
    of the header. The properties are bounded by the bytes received, not by
    [remain]: see [MqttDecode_PublishResp_overrun]. *)
Definition resp_found (rx_buf : list Z) (rx_buf_len type rc : Z)
    (pr0 pr : MqttPublishResp) : Prop :=
  exists remain,
    let v5 := MQTT_CONNECT_PROTOCOL_LEVEL_5 <=? pr_protocol_level pr in
    let w := header_bytes type 0 (fixed_qos type) 0 remain ++ be16 (pr_packet_id pr) ++
             (if v5 then reason_tail_at (remain - 2) (pr_reason_code pr) (pr_props pr) else []) in
    rc = 1 + len (vbi 4 remain) + remain /\ 2 <= remain <= MQTT_PACKET_MAX_REMAIN_LEN /\
    (v5 = false -> remain = 2 /\ pr_reason_code pr = pr_reason_code pr0) /\
    sits rx_buf 0 w /\ len w <= rx_buf_len /\
    pr_protocol_level pr = pr_protocol_level pr0 /\ 0 < pr_packet_id pr < 65536 /\
    props_decoded type (pr_props pr).

Lemma MqttDecode_PublishResp_meets rx_buf rx_buf_len type pr0 n :
  rx_ok rx_buf rx_buf_len -> type <> 3 ->
  meets n (MqttDecode_PublishResp rx_buf rx_buf_len type (Some pr0)) n
    (fun '(rc, pr) n' => exists pr1, pr = Some pr1 /\
       resp_found rx_buf rx_buf_len type rc pr0 pr1 /\ n = (n' + length (pr_props pr1))%nat).
Proof.
  intros Hrx H3. pose proof Hrx as (Hb & Hl & Hm). unfold MqttDecode_PublishResp.
  apply meets_test; [lia|done|]. intros _.
  apply meets_bind, meets_lift; [|done].
  eapply yields_mono; [by apply MqttDecode_FixedHeader_fixed|].
  intros fh (Hf1 & Hf2 & Hf3 & _ & Hs & Hh). cbv zeta.
  remember (MQTT_CONNECT_PROTOCOL_LEVEL_5 <=? pr_protocol_level pr0) as v5 eqn:Hv5.
  apply meets_test; [lia|done|]. intros Hrem. rewrite u32_small by lia.
  apply meets_bind, meets_lift; [|done].
  eapply yields_mono; [apply MqttDecode_Num_yields; [done|lia|lia]|].
  intros [id tmp] (-> & H2 & Hid & Hsid).
  apply meets_test; [lia|done|]. intros Hid0%Z.eqb_neq.
  assert (Hhead : sits rx_buf 0 (header_bytes type 0 (fixed_qos type) 0 (fh_remain_len fh) ++ be16 id)).
  { apply sits_app. split; [done|]. by rewrite header_bytes_len_eq, <- Hh. }
  assert (Hhl : len (header_bytes type 0 (fixed_qos type) 0 (fh_remain_len fh) ++ be16 id) =
            fh_header_len fh + 2).
  { rewrite len_app, header_bytes_len_eq, <- Hh. done. }
  destruct v5.
  - apply Z.ltb_ge in Hrem. apply meets_bind.
    eapply meets_mono; [apply read_reason_props_meets; [done|lia]|].
    intros [rcode ps] n' (Hrb & Hd & Hst & Hlt & Hz & Hz' & Hn). apply meets_ret.
    eexists; split; [done|]. split; [|done]. exists (fh_remain_len fh).
    cbn [pr_protocol_level pr_packet_id pr_reason_code pr_props]. rewrite <- Hv5, app_assoc.
    split_and!; try done; try lia.
    + apply sits_app. rewrite Hhl. by split.
    + rewrite len_app. lia.
  - apply negb_false_iff, Z.eqb_eq in Hrem. apply meets_ret.
    eexists; split; [done|]. split; [|cbn; lia]. exists (fh_remain_len fh).
    cbn [pr_protocol_level pr_packet_id pr_reason_code pr_props]. rewrite <- Hv5, app_nil_r.
    pose proof (props_decoded_nil type). split_and!; try done; lia.
Qed.

Definition resp_norm (pr0 pr : MqttPublishResp) : MqttPublishResp :=
  if MQTT_CONNECT_PROTOCOL_LEVEL_5 <=? pr_protocol_level pr
  then mkPublishResp (pr_packet_id pr) (pr_reason_code pr) (map prop_norm (pr_props pr))
         (pr_protocol_level pr)
  else mkPublishResp (pr_packet_id pr) (pr_reason_code pr0) [] (pr_protocol_level pr).

Lemma MqttDecode_PublishResp_sits rx_buf rx_buf_len type pr pr0 n :
  resp_type type -> resp_rep pr -> resp_ok type pr -> auth_ok (pr_props pr) ->
  len (resp_body pr) <= MQTT_PACKET_MAX_REMAIN_LEN ->
  received rx_buf rx_buf_len (resp_wire type pr) (len (resp_wire type pr)) ->
  rx_buf_len < 2147483648 -> pr_protocol_level pr0 = pr_protocol_level pr ->
  (cells (pr_protocol_level pr) (pr_props pr) <= n)%nat ->
  MqttDecode_PublishResp rx_buf rx_buf_len type (Some pr0) n =
    (Ok (len (resp_wire type pr), Some (resp_norm pr0 pr)),
     (n - cells (pr_protocol_level pr) (pr_props pr))%nat).
Proof.
  intros (Ht & Ht3 & _)%resp_type_range (Hid & Hc & Hrep) (Hid0 & Hok) Ha Hbl Hrx Hm Hlvl Hn.
  destruct (MqttDecode_FixedHeader_frame rx_buf rx_buf_len type 0 (fixed_qos type) 0 (resp_body pr))
    as (h & Hh & Hw & Hrl & Hb0 & Hs & E); [by apply fixed_header_args|done..|].
  unfold resp_wire in *. rewrite Hw in *. unfold resp_body in Hs.
  apply sits_app in Hs as [Hs1 Hs2]. change (len (be16 _)) with 2 in Hs2.
  unfold MqttDecode_PublishResp. rewrite (proj2 (Z.leb_gt rx_buf_len 0)) by lia.
  rewrite (run_lift _ _ _ _ E). cbn [fh_header_len fh_remain_len]. rewrite Hlvl.
  assert (Hbody : len (resp_body pr) = 2 + len (resp_tail pr)) by (unfold resp_body; by rewrite len_app).
  rewrite Hbody in *.
  pose proof (len_nonneg (resp_tail pr)).
  assert (Hrem : (if MQTT_CONNECT_PROTOCOL_LEVEL_5 <=? pr_protocol_level pr
                  then 2 + len (resp_tail pr) <? 2 else negb (2 + len (resp_tail pr) =? 2)) = false).
  { unfold resp_tail in *. destruct (_ <=? _); [apply Z.ltb_ge; lia|done]. }
  rewrite Hrem, u32_small by lia.
  rewrite (run_lift _ _ _ _ (MqttDecode_Num_sits _ h (rx_buf_len - h) _ Hid Hs1 ltac:(lia))).
  rewrite (proj2 (Z.eqb_neq (pr_packet_id pr) 0)) by done.
  unfold resp_tail, resp_norm, cells in *.
  destruct (MQTT_CONNECT_PROTOCOL_LEVEL_5 <=? pr_protocol_level pr) eqn:Elvl.
  - apply Z.leb_le in Elvl. destruct (Hok Elvl) as [_ Hprops].
    erewrite run_bind; [|rewrite Z.add_simpl_l; apply read_reason_props_sits; try done; lia]. done.
  - by rewrite Nat.sub_0_r.
Qed.

(** ** Properties *)

(** For PUBACK, PUBREC, PUBREL and PUBCOMP, [MqttEncode_PublishResp]
    accepts a structure exactly when its packet identifier is not zero and, at
    protocol level 5, its reason code and properties are allowed for the type;
    and [MqttDecode_PublishResp] gets them back, the reason code and property
    length that the short forms leave out included. *)
Theorem PublishResp_roundtrip tx_buf_len type pr pr0 :
  resp_type type -> resp_rep pr -> pr_protocol_level pr0 = pr_protocol_level pr ->
  transmits tx_buf_len (MqttEncode_PublishResp tx_buf_len type pr) (resp_ok type pr) (resp_body pr)
    (auth_ok (pr_props pr)) (cells (pr_protocol_level pr) (pr_props pr))
    (fun rx_buf rx_buf_len => MqttDecode_PublishResp rx_buf rx_buf_len type (Some pr0))
    (Some (resp_norm pr0 pr)).
Proof.
  intros Ht Hr Hl. eapply transmits_intro; [reflexivity|by apply MqttEncode_PublishResp_answers|].
  intros rx_buf rx_buf_len free Hok Hb Ha (? & ? & ?) Hrec Hc. by apply MqttDecode_PublishResp_sits.
Qed.

(** PUBREL of MQTT v5 with reason "Packet Identifier not found". *)
Lemma PublishResp_roundtrip_witness :
  MqttEncode_PublishResp 64 MQTT_PACKET_TYPE_PUBLISH_REL (mkPublishResp 258 146 [] 5) =
    Ok (5, [98; 3; 1; 2; 146]) /\
  MqttDecode_PublishResp [98; 3; 1; 2; 146] 5 MQTT_PACKET_TYPE_PUBLISH_REL
    (Some (mkPublishResp 0 0 [] 5)) 0%nat = (Ok (5, Some (mkPublishResp 258 146 [] 5)), 0%nat).
Proof.
  split; [reflexivity|].
  refine (transmits_run _ _ _ _ _ _ _ _ 5 _ 0
    (PublishResp_roundtrip 64 MQTT_PACKET_TYPE_PUBLISH_REL (mkPublishResp 258 146 [] 5)
       (mkPublishResp 0 0 [] 5) _ _ eq_refl) eq_refl _ _ _); by_eval.
Defined.

(** For every buffer, [MqttDecode_PublishResp] reads nothing outside the
    received bytes and ends; what it accepts has the fixed header of the type,
    a packet identifier other than zero, and the reason code and properties it
    reports; a failure leaves no property cell taken. *)
Theorem MqttDecode_PublishResp_sound rx_buf rx_buf_len type pr0 n :
  rx_ok rx_buf rx_buf_len -> type <> MQTT_PACKET_TYPE_PUBLISH ->
  meets n (MqttDecode_PublishResp rx_buf rx_buf_len type (Some pr0)) n
    (fun '(rc, pr) n' => exists pr1, pr = Some pr1 /\
       resp_found rx_buf rx_buf_len type rc pr0 pr1 /\ n = (n' + length (pr_props pr1))%nat).
Proof. apply MqttDecode_PublishResp_meets. Qed.

Lemma MqttDecode_PublishResp_sound_witness :
  let rx_buf := [64; 2; 1; 2] in
  let pr0 := mkPublishResp 0 0 [] 4 in
  MqttDecode_PublishResp rx_buf 4 MQTT_PACKET_TYPE_PUBLISH_ACK (Some pr0) 3%nat =
    (Ok (4, Some (mkPublishResp 258 0 [] 4)), 3%nat) /\
  meets 3 (MqttDecode_PublishResp rx_buf 4 MQTT_PACKET_TYPE_PUBLISH_ACK (Some pr0)) 3
    (fun '(rc, pr) n' => exists pr1, pr = Some pr1 /\
       resp_found rx_buf 4 MQTT_PACKET_TYPE_PUBLISH_ACK rc pr0 pr1 /\
       3%nat = (n' + length (pr_props pr1))%nat).
Proof. split; [reflexivity|]. apply MqttDecode_PublishResp_sound; by_eval. Defined.

(** The property block is bounded by the bytes received, not by the packet:
    a PUBACK whose Remaining Length is 4, so that its property length can only
    be 0, is accepted with a property list that lies behind the packet. *)
Theorem MqttDecode_PublishResp_overrun :
  exists rx_buf rx_buf_len pr free,
    rx_ok rx_buf rx_buf_len /\ sits rx_buf 0 (header_bytes MQTT_PACKET_TYPE_PUBLISH_ACK 0 0 0 4) /\
    MqttDecode_PublishResp rx_buf rx_buf_len MQTT_PACKET_TYPE_PUBLISH_ACK
      (Some (mkPublishResp 0 0 [] 5)) 30%nat = (Ok (6, Some pr), free) /\
    6 + len (props_wire (pr_props pr)) = rx_buf_len.
Proof.
  exists [64; 4; 0; 1; 0; 6; 31; 0; 3; 97; 98; 99], 12.
  eexists _, _. split; [by_eval|]. split; [by exists [], [0; 1; 0; 6; 31; 0; 3; 97; 98; 99]|].
  split; [vm_compute; reflexivity|reflexivity].
Qed.
