(* ===== verification/Control.v ===== *)
(** * Control: PINGREQ, PINGRESP, DISCONNECT and AUTH ([mqtt_packet.c])

    [MqttEncode_Ping], [MqttDecode_Ping], [MqttEncode_Disconnect],
    [MqttDecode_Disconnect], [MqttEncode_Auth] and [MqttDecode_Auth]. *)
From S2P Require Import Prelude PacketDefs Wire FixedHeader Props Frame ReasonCodes PublishResp.

Definition MqttEncode_Ping (tx_buf_len : Z) : emit :=
  '(header_len, bs) ← MqttEncode_FixedHeader tx_buf_len 0 MQTT_PACKET_TYPE_PING_REQ 0 0 0;
  Ok (header_len + 0, bs).

Definition MqttDecode_Ping (rx_buf : list Z) (rx_buf_len : Z) : result Z :=
  if rx_buf_len <=? 0 then Err MQTT_CODE_ERROR_BAD_ARG
  else
    fh ← MqttDecode_FixedHeader rx_buf rx_buf_len MQTT_PACKET_TYPE_PING_RESP;
    if negb (fh_remain_len fh =? 0) then Err MQTT_CODE_ERROR_MALFORMED_DATA
    else Ok (fh_header_len fh + fh_remain_len fh).

(** [disconnect] may be NULL. *)
Definition MqttEncode_Disconnect (tx_buf_len : Z) (disconnect : option MqttDisconnect) : emit :=
  match disconnect with
  | None => write_packet tx_buf_len 0 MQTT_PACKET_TYPE_DISCONNECT 0 0 0 (Ok (0, []))
  | Some dc =>
    if MQTT_CONNECT_PROTOCOL_LEVEL_5 <=? dc_protocol_level dc then
      if negb (MqttPacket_DisconnectReasonCodeValid (dc_reason_code dc)) then
        Err MQTT_CODE_ERROR_BAD_ARG
      else
        '(props_len, tmp_len) ←
          (if true && nonempty (dc_props dc)
           then props_length MQTT_PACKET_TYPE_DISCONNECT (dc_props dc) else Ok (0, 0));
        let remain_len := props_len + tmp_len in
        let remain_len :=
          if negb (remain_len =? 0) || negb (dc_reason_code dc =? MQTT_REASON_SUCCESS)
          then remain_len + 1 else remain_len in
        write_packet tx_buf_len remain_len MQTT_PACKET_TYPE_DISCONNECT 0 0 0
          ((if negb (remain_len =? 0) || negb (dc_reason_code dc =? MQTT_REASON_SUCCESS)
            then Ok (1, [dc_reason_code dc]) else Ok (0, [])) +++
           (if true && nonempty (dc_props dc)
            then write_props MQTT_PACKET_TYPE_DISCONNECT (dc_props dc) props_len else Ok (0, [])))
    else write_packet tx_buf_len 0 MQTT_PACKET_TYPE_DISCONNECT 0 0 0 (Ok (0, []))
  end.

(** The decoder of the [WOLFMQTT_V5] build. *)
Definition MqttDecode_Disconnect (rx_buf : list Z) (rx_buf_len : Z) (disc : MqttDisconnect)
    : M (Z * MqttDisconnect) :=
  if rx_buf_len <=? 0 then throw MQTT_CODE_ERROR_BAD_ARG
  else
    fh ← lift (MqttDecode_FixedHeader rx_buf rx_buf_len MQTT_PACKET_TYPE_DISCONNECT);
    '(reason_code, props) ← read_reason_props MQTT_PACKET_TYPE_DISCONNECT rx_buf rx_buf_len
                              (fh_header_len fh) (fh_remain_len fh);
    mret (fh_header_len fh + fh_remain_len fh,
          mkDisconnect reason_code props (dc_protocol_level disc)).

Definition auth_reason (reason_code : Z) : bool :=
  (reason_code =? MQTT_REASON_SUCCESS) || (reason_code =? MQTT_REASON_CONT_AUTH) ||
  (reason_code =? MQTT_REASON_REAUTH).

Definition MqttEncode_Auth (tx_buf_len : Z) (auth : MqttAuth) : emit :=
  let reason_code := auth_reason_code auth in
  if tx_buf_len <=? 0 then Err MQTT_CODE_ERROR_BAD_ARG
  else if ((reason_code =? MQTT_REASON_CONT_AUTH) || (reason_code =? MQTT_REASON_REAUTH)) &&
          negb (saw MQTT_PROP_AUTH_METHOD (auth_props auth))
  then Err MQTT_CODE_ERROR_BAD_ARG
  else
    '(props_len, tmp_len) ← props_length MQTT_PACKET_TYPE_AUTH (auth_props auth);
    let remain_len := 1 + props_len + tmp_len in
    let remain_len :=
      if (reason_code =? MQTT_REASON_SUCCESS) && (props_len =? 0) then 0 else remain_len in
    write_packet tx_buf_len remain_len MQTT_PACKET_TYPE_AUTH 0 0 0
      (if remain_len =? 0 then Ok (0, [])
       else if auth_reason reason_code then
         Ok (1, [reason_code]) +++
         write_props MQTT_PACKET_TYPE_AUTH (auth_props auth) props_len
       else Err MQTT_CODE_ERROR_MALFORMED_DATA).

Definition MqttDecode_Auth (rx_buf : list Z) (rx_buf_len : Z) : M (Z * MqttAuth) :=
  if rx_buf_len <=? 0 then throw MQTT_CODE_ERROR_BAD_ARG
  else
    fh ← lift (MqttDecode_FixedHeader rx_buf rx_buf_len MQTT_PACKET_TYPE_AUTH);
    let rc := fh_header_len fh + fh_remain_len fh in
    let rx_payload := fh_header_len fh in
    if 0 <? fh_remain_len fh then
      if rx_buf_len <? rx_payload + 1 then throw MQTT_CODE_ERROR_OUT_OF_BUFFER
      else
        reason_code ← lift (rd rx_buf rx_payload);
        let rx_payload := rx_payload + 1 in
        if auth_reason reason_code then
          if rx_buf_len <? rx_payload then throw MQTT_CODE_ERROR_OUT_OF_BUFFER
          else
            '(props, _) ← read_props MQTT_PACKET_TYPE_AUTH rx_buf rx_payload rx_buf_len
              (fun tmp props_len =>
                 if u32 (rx_buf_len - rx_payload) <? props_len
                 then Some MQTT_CODE_ERROR_MALFORMED_DATA
                 else if rx_buf_len <? rx_payload + tmp
                 then Some MQTT_CODE_ERROR_OUT_OF_BUFFER
                 else None);
            if negb (nonempty props) then throw MQTT_CODE_ERROR_MALFORMED_DATA
            else mret (rc, mkAuth reason_code props)
        else throw MQTT_CODE_ERROR_MALFORMED_DATA
    else mret (rc, mkAuth MQTT_REASON_SUCCESS []).

(** ** The packets *)

Definition disc_body (dc : MqttDisconnect) : list Z :=
  if MQTT_CONNECT_PROTOCOL_LEVEL_5 <=? dc_protocol_level dc
  then reason_tail (dc_reason_code dc) (dc_props dc) else [].

Definition disc_wire (dc : MqttDisconnect) : list Z :=
  frame MQTT_PACKET_TYPE_DISCONNECT 0 0 0 (disc_body dc).

Definition disc_rep (dc : MqttDisconnect) : Prop :=
  is_byte (dc_reason_code dc) /\ Forall prop_rep (dc_props dc).

Definition disc_ok (dc : MqttDisconnect) : Prop :=
  MQTT_CONNECT_PROTOCOL_LEVEL_5 <= dc_protocol_level dc ->
  MqttPacket_DisconnectReasonCodeValid (dc_reason_code dc) = true /\
  props_ok MQTT_PACKET_TYPE_DISCONNECT (dc_props dc).

Definition auth_body (a : MqttAuth) : list Z :=
  if (auth_reason_code a =? MQTT_REASON_SUCCESS) && negb (nonempty (auth_props a)) then []
  else auth_reason_code a :: props_block (auth_props a).

Definition auth_wire (a : MqttAuth) : list Z := frame MQTT_PACKET_TYPE_AUTH 0 0 0 (auth_body a).

Definition auth_rep (a : MqttAuth) : Prop :=
  is_byte (auth_reason_code a) /\ Forall prop_rep (auth_props a).

Definition auth_packet_ok (a : MqttAuth) : Prop :=
  auth_reason (auth_reason_code a) = true /\
  (auth_reason_code a <> MQTT_REASON_SUCCESS -> saw MQTT_PROP_AUTH_METHOD (auth_props a) = true) /\
  props_ok MQTT_PACKET_TYPE_AUTH (auth_props a).

(** ** Encoding *)

Lemma MqttEncode_Ping_eq tx_buf_len :
  MqttEncode_Ping tx_buf_len =
    if tx_buf_len <? 5 then Err MQTT_CODE_ERROR_OUT_OF_BUFFER else Ok (2, [192; 0]).
Proof.
  unfold MqttEncode_Ping. destruct (Z.ltb_spec tx_buf_len 5).
  - unfold MqttEncode_FixedHeader. by rewrite (proj2 (Z.ltb_lt _ _)) by lia.
  - by rewrite MqttEncode_FixedHeader_eq by lia.
Qed.

Lemma wire_zero packet ps :
  Forall prop_rep ps -> props_ok packet ps -> (len (props_wire ps) =? 0) = negb (nonempty ps).
Proof.
  intros Hrep Hok. destruct ps as [|p ps]; [done|].
  apply Z.eqb_neq. pose proof (nonempty_wire packet (p :: ps) Hrep Hok eq_refl). lia.
Qed.

Lemma MqttEncode_Disconnect_answers tx_buf_len dc :
  disc_rep dc ->
  answers (MqttEncode_Disconnect tx_buf_len (Some dc))
    (disc_ok dc /\ room tx_buf_len (disc_body dc)) (len (disc_wire dc)) (disc_wire dc).
Proof.
  intros (Hc & Hrep). unfold MqttEncode_Disconnect, disc_ok, disc_wire, disc_body.
  rewrite <- Z.leb_le. destruct (_ <=? _); last first.
  { eapply answers_iff; [|apply write_packet_writes; [by eexists|done|done]]. intuition done. }
  destruct (MqttPacket_DisconnectReasonCodeValid _); cbn [negb].
  2:{ apply answers_err; [lia|]. intros [H _]. by destruct (H eq_refl). }
  eapply answers_iff; [|eapply (opt_props_answers true); [done|]].
  2:{ intros props_len tmp_len Hok Hw Hlen. rewrite Hw. cbn [andb] in *.
    pose proof (props_bounds _ _ Hrep (Hok eq_refl)) as [_ Hb].
    assert (Hz : (props_len + tmp_len =? 0) = negb (nonempty (dc_props dc))).
    { rewrite Hlen. destruct (nonempty _); [apply Z.eqb_neq; lia|done]. }
    destruct (reason_tail_at_len MQTT_PACKET_TYPE_DISCONNECT (dc_reason_code dc) (dc_props dc) Hrep (Hok eq_refl))
      as (_ & Htl & _). unfold reason_tail in *. rewrite Hz, negb_involutive, (orb_comm (nonempty _)).
    assert (Hlen' : len ((if negb (dc_reason_code dc =? 0) || nonempty (dc_props dc)
                   then [dc_reason_code dc] else []) ++
                   (if nonempty (dc_props dc) then props_block (dc_props dc) else [])) =
      (if negb (dc_reason_code dc =? 0) || nonempty (dc_props dc) then 1 else 0) + (props_len + tmp_len)).
    { rewrite len_app, <- Hlen. by destruct (_ || _). }
    apply write_packet_writes; [| |lia].
    - destruct (negb (dc_reason_code dc =? 0)), (nonempty (dc_props dc)); cbn [orb negb] in *;
        repeat decide_test; by eexists.
    - rewrite Hlen'. destruct (_ || _); lia. }
  intuition done.
Qed.

Lemma MqttEncode_Auth_answers tx_buf_len a :
  auth_rep a ->
  answers (MqttEncode_Auth tx_buf_len a)
    (auth_packet_ok a /\ room tx_buf_len (auth_body a)) (len (auth_wire a)) (auth_wire a).
Proof.
  intros (Hc & Hrep). unfold MqttEncode_Auth, auth_packet_ok, auth_wire.
  destruct (Z.leb_spec tx_buf_len 0).
  { apply answers_err; [lia|]. unfold room. lia. }
  assert (Hm : forall b, ((auth_reason_code a =? MQTT_REASON_CONT_AUTH) ||
      (auth_reason_code a =? MQTT_REASON_REAUTH)) && negb b = true ->
      auth_reason_code a <> 0 /\ b = false).
  { intros b. rewrite andb_true_iff, orb_true_iff, !Z.eqb_eq, negb_true_iff. intuition lia. }
  destruct (_ && negb (saw _ _)) eqn:Es.
  { apply Hm in Es as [Hn Hs]. apply answers_err; [lia|]. intros [(_ & H' & _) _].
    rewrite H' in Hs; done. }
  assert (Hmethod : auth_reason (auth_reason_code a) = true -> auth_reason_code a <> 0 ->
    saw MQTT_PROP_AUTH_METHOD (auth_props a) = true).
  { unfold auth_reason. rewrite !orb_true_iff, !Z.eqb_eq. intros Hr Hn.
    apply andb_false_iff in Es as [Es|Es]; [|by apply negb_false_iff in Es].
    apply orb_false_iff in Es. rewrite !Z.eqb_neq in Es. lia. }
  eapply answers_iff; [|apply props_length_answers with
    (Q := auth_reason (auth_reason_code a) = true /\ room tx_buf_len (auth_body a)); [exact Hrep|]].
  2:{ intros Hok Hw. pose proof (props_bounds _ _ Hrep Hok) as [Hwl Hbl]. unfold auth_body.
    pose proof (props_block_len (auth_props a)). rewrite (wire_zero _ _ Hrep Hok).
    destruct ((auth_reason_code a =? 0) && negb (nonempty (auth_props a))) eqn:E.
    - eapply answers_iff; [|apply (write_packet_answers _ _ _ _ _ _ _ (auth_reason (auth_reason_code a) = true) 0);
        [apply answers_ok|done|done]]; [reflexivity|].
      apply andb_true_iff in E as [->%Z.eqb_eq _]. done.
    - rewrite (proj2 (Z.eqb_neq (1 + len (props_wire (auth_props a)) + len (vbi 4 (len (props_wire (auth_props a))))) 0))
        by (pose proof (vbi_len 4 (len (props_wire (auth_props a)))); lia).
      apply write_packet_answers with (r := 1 + len (props_block (auth_props a))).
      + destruct (auth_reason _).
        * rewrite Hw. by apply answers_ok.
        * by apply answers_err.
      + rewrite len_cons. lia.
      + rewrite len_cons. lia. }
  split; intros; destruct_and?; split_and!; auto.
Qed.

(** ** Decoding *)

Lemma MqttDecode_Ping_yields rx_buf rx_buf_len :
  rx_ok rx_buf rx_buf_len ->
  yields (MqttDecode_Ping rx_buf rx_buf_len)
    (fun rc => rc = 2 /\ received rx_buf rx_buf_len [208; 0] rc).
Proof.
  intros Hrx. unfold MqttDecode_Ping. case_match; [done|].
  apply yields_bind. eapply yields_mono; [by apply MqttDecode_FixedHeader_fixed|].
  intros fh (Hf1 & Hf2 & Hf3 & _ & Hs & Hh).
  destruct (Z.eqb_spec (fh_remain_len fh) 0) as [Hz|]; [|done]. rewrite Hz in *.
  change (1 + len (vbi 4 0)) with 2 in Hh. simpl. rewrite Hh.
  split; [done|]. split; [exact Hs|]. split; [done|lia].
Qed.

(** What the decoder of a DISCONNECT has found, [remain] being the Remaining
    Length of the header. *)
Definition disc_found (rx_buf : list Z) (rx_buf_len rc : Z) (dc0 dc : MqttDisconnect) : Prop :=
  exists remain,
    let w := header_bytes MQTT_PACKET_TYPE_DISCONNECT 0 0 0 remain ++
             reason_tail_at remain (dc_reason_code dc) (dc_props dc) in
    rc = 1 + len (vbi 4 remain) + remain /\ 0 <= remain <= MQTT_PACKET_MAX_REMAIN_LEN /\
    sits rx_buf 0 w /\ len w <= rx_buf_len /\
    (remain = 0 -> dc_reason_code dc = MQTT_REASON_SUCCESS) /\
    (remain <= 1 -> dc_props dc = []) /\
    dc_protocol_level dc = dc_protocol_level dc0 /\ is_byte (dc_reason_code dc) /\
    props_decoded MQTT_PACKET_TYPE_DISCONNECT (dc_props dc).

Lemma MqttDecode_Disconnect_meets rx_buf rx_buf_len dc0 n :
  rx_ok rx_buf rx_buf_len ->
  meets n (MqttDecode_Disconnect rx_buf rx_buf_len dc0) n
    (fun '(rc, dc) n' => disc_found rx_buf rx_buf_len rc dc0 dc /\
       n = (n' + length (dc_props dc))%nat).
Proof.
  intros Hrx. unfold MqttDecode_Disconnect. apply meets_test; [lia|done|]. intros _.
  apply meets_bind, meets_lift; [|done].
  eapply yields_mono; [by apply MqttDecode_FixedHeader_fixed|].
  intros fh (Hf1 & Hf2 & Hf3 & _ & Hs & Hh).
  apply meets_bind. eapply meets_mono; [apply read_reason_props_meets; [done|lia]|].
  intros [rcode ps] n' (Hrb & Hd & Hst & Hlt & Hz & Hz' & Hn). apply meets_ret.
  split; [|done]. exists (fh_remain_len fh). cbn [dc_protocol_level dc_reason_code dc_props].
  split_and!; try done; try lia; try (intros; apply Hz; lia).
  - apply sits_app. rewrite header_bytes_len_eq, <- Hh. by split.
  - rewrite len_app, header_bytes_len_eq, <- Hh. lia.
Qed.

Definition disc_norm (dc0 dc : MqttDisconnect) : MqttDisconnect :=
  mkDisconnect (dc_reason_code dc) (map prop_norm (dc_props dc)) (dc_protocol_level dc0).

Lemma MqttDecode_Disconnect_sits rx_buf rx_buf_len dc dc0 n :
  disc_rep dc -> disc_ok dc -> auth_ok (dc_props dc) ->
  MQTT_CONNECT_PROTOCOL_LEVEL_5 <= dc_protocol_level dc ->
  received rx_buf rx_buf_len (disc_wire dc) (len (disc_wire dc)) ->
  rx_buf_len < 2147483648 -> (length (dc_props dc) <= n)%nat ->
  MqttDecode_Disconnect rx_buf rx_buf_len dc0 n =
    (Ok (len (disc_wire dc), disc_norm dc0 dc), (n - length (dc_props dc))%nat).
Proof.
  intros (Hc & Hrep) Hok Ha Hlvl Hrx Hm Hn. destruct (Hok Hlvl) as [_ Hprops].
  unfold disc_wire, disc_body in *. rewrite (proj2 (Z.leb_le _ _) Hlvl) in *.
  destruct (reason_tail_at_len MQTT_PACKET_TYPE_DISCONNECT (dc_reason_code dc) _ Hrep Hprops)
    as (_ & Hl & _).
  destruct (MqttDecode_FixedHeader_frame rx_buf rx_buf_len 14 0 0 0
    (reason_tail (dc_reason_code dc) (dc_props dc)))
    as (h & Hh & Hw & Hrl & Hb0 & Hs & E); [by apply fixed_header_args|lia|done..|].
  rewrite Hw in *. unfold MqttDecode_Disconnect. rewrite (proj2 (Z.leb_gt rx_buf_len 0)) by lia.
  rewrite (run_lift _ _ _ _ E). cbn [fh_header_len fh_remain_len].
  erewrite run_bind; [|apply read_reason_props_sits; try done; lia]. done.
Qed.

(** What the decoder of an AUTH has found. *)
Definition auth_found (rx_buf : list Z) (rx_buf_len rc : Z) (a : MqttAuth) : Prop :=
  exists remain,
    let w := header_bytes MQTT_PACKET_TYPE_AUTH 0 0 0 remain ++ auth_body a in
    rc = 1 + len (vbi 4 remain) + remain /\ 0 <= remain <= MQTT_PACKET_MAX_REMAIN_LEN /\
    sits rx_buf 0 w /\ len w <= rx_buf_len /\ (remain = 0 <-> auth_props a = []) /\
    auth_reason (auth_reason_code a) = true /\
    props_decoded MQTT_PACKET_TYPE_AUTH (auth_props a).

Lemma MqttDecode_Auth_meets rx_buf rx_buf_len n :
  rx_ok rx_buf rx_buf_len ->
  meets n (MqttDecode_Auth rx_buf rx_buf_len) n
    (fun '(rc, a) n' => auth_found rx_buf rx_buf_len rc a /\
       n = (n' + length (auth_props a))%nat).
Proof.
  intros Hrx. pose proof Hrx as (Hb & Hl & Hm). unfold MqttDecode_Auth.
  apply meets_test; [lia|done|]. intros _.
  apply meets_bind, meets_lift; [|done].
  eapply yields_mono; [by apply MqttDecode_FixedHeader_fixed|].
  intros fh (Hf1 & Hf2 & Hf3 & _ & Hs & Hh). cbv zeta.
  destruct (Z.ltb_spec 0 (fh_remain_len fh)) as [Hpos|Hz].
  - apply meets_test; [lia|done|]. intros Hr%Z.ltb_ge.
    apply meets_rd; [done|lia|done|]. intros rcode Hrb Hrs.
    destruct (auth_reason rcode) eqn:Ear; [|by apply meets_throw].
    apply meets_test; [lia|done|]. intros _.
    apply meets_bind. eapply meets_mono; [apply read_props_meets; try done; try lia|].
    { intros tmp pl rc. repeat case_match; congruence || (intros [= <-]; lia). }
    intros [ps k] n' (Hd & Hps & -> & Hk1 & Hkl & Hn & _).
    destruct ps as [|p ps]; [apply meets_throw; [lia|cbn in Hn; lia]|].
    apply meets_ret. split; [|done]. exists (fh_remain_len fh). unfold auth_body.
    cbn [auth_reason_code auth_props nonempty negb]. rewrite andb_false_r.
    split_and!; try done; try lia.
    + apply sits_app. rewrite header_bytes_len_eq, <- Hh. split; [done|]. apply sits_cons. by split.
    + rewrite len_app, header_bytes_len_eq, <- Hh, len_cons. lia.
    + split; [lia|done].
  - assert (fh_remain_len fh = 0) as E0 by lia. rewrite E0 in *.
    apply meets_ret. split; [|cbn; lia]. exists 0. change (auth_body (mkAuth _ _)) with ([] : list Z).
    rewrite app_nil_r. pose proof (props_decoded_nil MQTT_PACKET_TYPE_AUTH).
    split_and!; try done; try lia. rewrite header_bytes_len_eq. lia.
Qed.

Definition auth_norm (a : MqttAuth) : MqttAuth :=
  mkAuth (auth_reason_code a) (map prop_norm (auth_props a)).

Lemma MqttDecode_Auth_sits rx_buf rx_buf_len a n :
  auth_rep a -> auth_packet_ok a -> auth_ok (auth_props a) ->
  received rx_buf rx_buf_len (auth_wire a) (len (auth_wire a)) ->
  rx_buf_len < 2147483648 -> (length (auth_props a) <= n)%nat ->
  MqttDecode_Auth rx_buf rx_buf_len n =
    (Ok (len (auth_wire a), auth_norm a), (n - length (auth_props a))%nat).
Proof.
  intros (Hc & Hrep) (Hr & Hmeth & Hok) Ha Hrx Hm Hn.
  pose proof (props_bounds _ _ Hrep Hok) as [Hwl Hbl]. pose proof (props_block_len (auth_props a)).
  assert (Hbody : len (auth_body a) <= 3932255).
  { unfold auth_body. case_match; [done|]. rewrite len_cons. lia. }
  destruct (MqttDecode_FixedHeader_frame rx_buf rx_buf_len 15 0 0 0 (auth_body a))
    as (h & Hh & Hw & Hrl & Hb0 & Hs & E); [by apply fixed_header_args|lia|done..|].
  unfold auth_wire in *. rewrite Hw in *. clear Hw. unfold MqttDecode_Auth.
  rewrite (proj2 (Z.leb_gt rx_buf_len 0)) by lia.
  rewrite (run_lift _ _ _ _ E). cbn [fh_header_len fh_remain_len].
  unfold auth_body, auth_norm in *.
  destruct ((auth_reason_code a =? MQTT_REASON_SUCCESS) && negb (nonempty (auth_props a))) eqn:Es.
  - apply andb_true_iff in Es as [Es%Z.eqb_eq Hne]. destruct (auth_props a); [|done].
    rewrite Es. cbn. by rewrite Nat.sub_0_r.
  - assert (Hne : nonempty (auth_props a) = true).
    { destruct (nonempty _) eqn:Hne; [done|]. rewrite andb_true_r in Es. apply Z.eqb_neq in Es.
      specialize (Hmeth Es). by destruct (auth_props a). }
    rewrite len_cons in *. apply sits_cons in Hs as [Hs0 Hs1].
    rewrite (proj2 (Z.ltb_lt 0 _)), (proj2 (Z.ltb_ge rx_buf_len (h + 1))) by lia.
    rewrite (run_lift _ _ _ _ (rd_sits _ _ _ _ Hs0)), Hr.
    erewrite run_bind; [|apply (read_props_sits _ _ _ _ _ _ (auth_props a)); try done; try lia].
    + cbv beta iota. destruct (auth_props a); [done|]. done.
    + rewrite u32_small by lia. pose proof (vbi_len 4 (len (props_wire (auth_props a)))).
      rewrite !(proj2 (Z.ltb_ge _ _)); [done|lia..].
Qed.

(** ** Properties *)

(** [MqttEncode_Disconnect] accepts a v5 structure exactly when its reason
    code and properties are allowed in a DISCONNECT, sends nothing but the
    header for the default reason, and [MqttDecode_Disconnect] gets the reason
    code and the properties back. *)
Theorem Disconnect_roundtrip tx_buf_len dc dc0 :
  disc_rep dc -> MQTT_CONNECT_PROTOCOL_LEVEL_5 <= dc_protocol_level dc ->
  transmits tx_buf_len (MqttEncode_Disconnect tx_buf_len (Some dc)) (disc_ok dc) (disc_body dc)
    (auth_ok (dc_props dc)) (length (dc_props dc))
    (fun rx_buf rx_buf_len => MqttDecode_Disconnect rx_buf rx_buf_len dc0) (disc_norm dc0 dc).
Proof.
  intros Hr Hl. eapply transmits_intro; [reflexivity|by apply MqttEncode_Disconnect_answers|].
  intros rx_buf rx_buf_len free Hok Hb Ha (? & ? & ?) Hrec Hc. by apply MqttDecode_Disconnect_sits.
Qed.

Lemma Disconnect_roundtrip_witness :
  let dc := mkDisconnect 4 [mkProp MQTT_PROP_SESSION_EXPIRY_INTERVAL 0 0 60 no_str no_str no_str] 5 in
  MqttEncode_Disconnect 64 (Some dc) = Ok (9, [224; 7; 4; 5; 17; 0; 0; 0; 60]) /\
  MqttDecode_Disconnect [224; 7; 4; 5; 17; 0; 0; 0; 60] 9 (mkDisconnect 0 [] 5) 1%nat =
    (Ok (9, dc), 0%nat).
Proof.
  intros dc. split; [reflexivity|].
  refine (transmits_run _ _ _ _ _ _ _ _ 9 _ 1
    (Disconnect_roundtrip 64 dc (mkDisconnect 0 [] 5) _ _) eq_refl _ _ _); by_eval.
Defined.

(** [MqttEncode_Auth] accepts a structure exactly when the reason code is
    one of AUTH, a continued or repeated authentication names its method and
    the properties are allowed; and [MqttDecode_Auth] gets both back. *)
Theorem Auth_roundtrip tx_buf_len a :
  auth_rep a ->
  transmits tx_buf_len (MqttEncode_Auth tx_buf_len a) (auth_packet_ok a) (auth_body a)
    (auth_ok (auth_props a)) (length (auth_props a)) MqttDecode_Auth (auth_norm a).
Proof.
  intros Hr. eapply transmits_intro; [reflexivity|by apply MqttEncode_Auth_answers|].
  intros rx_buf rx_buf_len free Hok Hb Ha (? & ? & ?) Hrec Hc. by apply MqttDecode_Auth_sits.
Qed.

Lemma Auth_roundtrip_witness :
  let a := mkAuth MQTT_REASON_CONT_AUTH
             [mkProp MQTT_PROP_AUTH_METHOD 0 0 0 (mkStr 1 (Some [77])) no_str no_str] in
  MqttEncode_Auth 64 a = Ok (8, [240; 6; 24; 4; 21; 0; 1; 77]) /\
  MqttDecode_Auth [240; 6; 24; 4; 21; 0; 1; 77] 8 1%nat = (Ok (8, a), 0%nat).
Proof.
  intros a. split; [reflexivity|].
  refine (transmits_run _ _ _ _ _ _ _ _ 8 _ 1 (Auth_roundtrip 64 a _) eq_refl _ _ _); by_eval.
Defined.

(** For every buffer, the decoders of PINGRESP, DISCONNECT and AUTH read
    nothing outside the received bytes and end; a PINGRESP is the two bytes
    [208; 0]; what the other two accept has the header, reason code and
    properties they report; a failure leaves no property cell taken. *)
Theorem Control_decoders_sound rx_buf rx_buf_len dc0 n :
  rx_ok rx_buf rx_buf_len ->
  yields (MqttDecode_Ping rx_buf rx_buf_len)
    (fun rc => rc = 2 /\ received rx_buf rx_buf_len [208; 0] rc) /\
  meets n (MqttDecode_Disconnect rx_buf rx_buf_len dc0) n
    (fun '(rc, dc) n' => disc_found rx_buf rx_buf_len rc dc0 dc /\
       n = (n' + length (dc_props dc))%nat) /\
  meets n (MqttDecode_Auth rx_buf rx_buf_len) n
    (fun '(rc, a) n' => auth_found rx_buf rx_buf_len rc a /\
       n = (n' + length (auth_props a))%nat).
Proof.
  intros H. split_and!; [by apply MqttDecode_Ping_yields|by apply MqttDecode_Disconnect_meets
    |by apply MqttDecode_Auth_meets].
Qed.

Lemma Control_decoders_sound_witness :
  MqttDecode_Disconnect [224; 1; 139] 3 (mkDisconnect 0 [] 5) 0%nat =
    (Ok (3, mkDisconnect 139 [] 5), 0%nat) /\
  disc_found [224; 1; 139] 3 3 (mkDisconnect 0 [] 5) (mkDisconnect 139 [] 5).
Proof.
  split; [reflexivity|].
  exact (proj1 (proj1 (proj2 (Control_decoders_sound [224; 1; 139] 3 (mkDisconnect 0 [] 5) 0%nat
    ltac:(by_eval))))).
Defined.
