(* ===== verification/Publish.v ===== *)
(** * Publish: the PUBLISH packet ([mqtt_packet.c])

    [MqttEncode_Publish] and [MqttDecode_Publish]. A payload may be larger
    than the buffer: the encoder writes as much of it as fits, and the decoder
    reports as much of it as was received, with the whole size in
    [total_len]. *)
From S2P Require Import Prelude PacketDefs Wire Topic FixedHeader Props Frame.

(** The checks of the topic name: its length. *)
Definition publish_topic_len (publish : MqttMessage) : result Z :=
  match msg_topic_name publish with
  | None => Err MQTT_CODE_ERROR_BAD_ARG
  | Some topic_name =>
    let str_len := XSTRLEN topic_name in
    let level := msg_protocol_level publish in
    if 65535 <? str_len then Err MQTT_CODE_ERROR_BAD_ARG
    else
      ok ← MqttPacket_TopicNameValid (Some topic_name) (u16 str_len) level;
      if negb ok then Err MQTT_CODE_ERROR_MALFORMED_DATA
      else
        ok ← MqttEncode_Utf8Ok (Some topic_name) str_len;
        if negb ok then Err MQTT_CODE_ERROR_MALFORMED_DATA
        else if (MQTT_CONNECT_PROTOCOL_LEVEL_5 <=? level) && (str_len =? 0) &&
                negb (saw MQTT_PROP_TOPIC_ALIAS (msg_props publish))
        then Err MQTT_CODE_ERROR_BAD_ARG
        else Ok str_len
  end.

(** [variable_len] and [props_len]. *)
Definition publish_variable_len (publish : MqttMessage) : result (Z * Z) :=
  str_len ← publish_topic_len publish;
  let variable_len := str_len + MQTT_DATA_LEN_SIZE in
  variable_len ←
    (if MQTT_QOS_0 <? msg_qos publish then
       if msg_packet_id publish =? 0 then Err MQTT_CODE_ERROR_PACKET_ID
       else Ok (variable_len + MQTT_DATA_LEN_SIZE)
     else if negb (msg_duplicate publish =? 0) then Err MQTT_CODE_ERROR_BAD_ARG
     else Ok variable_len);
  if MQTT_CONNECT_PROTOCOL_LEVEL_5 <=? msg_protocol_level publish then
    '(props_len, tmp_len) ← props_length MQTT_PACKET_TYPE_PUBLISH (msg_props publish);
    Ok (variable_len + props_len + tmp_len, props_len)
  else Ok (variable_len, 0).

(** The payload length the fixed header announces. *)
Definition publish_payload_len (publish : MqttMessage) (use_cb : bool) : Z :=
  if (match msg_buffer publish with Some _ => true | None => use_cb end) &&
     (0 <? msg_total_len publish)
  then i32 (msg_total_len publish) else 0.

(** The variable header. *)
Definition publish_variable (publish : MqttMessage) (props_len : Z) : emit :=
  must (MqttEncode_String true (default [] (msg_topic_name publish))) +++
  (if MQTT_QOS_0 <? msg_qos publish then MqttEncode_Num true (msg_packet_id publish)
   else Ok (0, [])) +++
  (if MQTT_CONNECT_PROTOCOL_LEVEL_5 <=? msg_protocol_level publish
   then write_props MQTT_PACKET_TYPE_PUBLISH (msg_props publish) props_len else Ok (0, [])).

(** The part of the payload that is copied, and the bookkeeping for the rest;
    [room] is what the variable header leaves of [tx_buf]. *)
Definition publish_payload (publish : MqttMessage) (room payload_len : Z)
    : result (list Z * MqttMessage) :=
  if 0 <? payload_len then
    let payload_len := if room <? payload_len then room else payload_len in
    let payload_len :=
      if (0 <? msg_buffer_len publish) && (msg_buffer_len publish <? payload_len)
      then msg_buffer_len publish else payload_len in
    bs ← match msg_buffer publish with
         | Some buffer => slice buffer 0 payload_len
         | None => UB
         end;
    Ok (bs, mkMessage (msg_packet_id publish) MQTT_PACKET_TYPE_PUBLISH (msg_qos publish)
              (msg_retain publish) (msg_duplicate publish) (msg_topic_name publish)
              (msg_topic_name_len publish) (msg_total_len publish) (msg_buffer publish)
              (if msg_buffer_len publish =? 0 then msg_total_len publish
               else msg_buffer_len publish)
              payload_len (msg_buffer_new publish) payload_len 0 (msg_props publish)
              (msg_protocol_level publish))
  else
    Ok ([], mkMessage (msg_packet_id publish) MQTT_PACKET_TYPE_PUBLISH (msg_qos publish)
              (msg_retain publish) (msg_duplicate publish) (msg_topic_name publish)
              (msg_topic_name_len publish) (msg_total_len publish) (msg_buffer publish)
              (msg_buffer_len publish) (msg_buffer_pos publish) (msg_buffer_new publish)
              payload_len 0 (msg_props publish) (msg_protocol_level publish)).

Definition MqttEncode_Publish (tx_buf_len : Z) (publish : MqttMessage) (use_cb : bool)
    : result (Z * list Z * MqttMessage) :=
  if MQTT_QOS_2 <? msg_qos publish then Err MQTT_CODE_ERROR_BAD_ARG
  else
    '(variable_len, props_len) ← publish_variable_len publish;
    if match msg_buffer publish with Some _ => true | None => false end &&
       (0 <? msg_buffer_len publish) && (msg_total_len publish =? 0)
    then Err MQTT_CODE_ERROR_BAD_ARG
    else
      let payload_len := publish_payload_len publish use_cb in
      '(header_len, hdr) ← MqttEncode_FixedHeader tx_buf_len (variable_len + payload_len)
         MQTT_PACKET_TYPE_PUBLISH (msg_retain publish) (msg_qos publish) (msg_duplicate publish);
      let payload_len := if use_cb then 0 else payload_len in
      if tx_buf_len <? header_len + variable_len then Err MQTT_CODE_ERROR_OUT_OF_BUFFER
      else
        '(_, var) ← publish_variable publish props_len;
        '(payload, publish) ← publish_payload publish
                                (tx_buf_len - (header_len + variable_len)) payload_len;
        Ok (header_len + variable_len + msg_intBuf_len publish, hdr ++ var ++ payload, publish).

(** The property block of a PUBLISH and the test of an empty topic: the list
    and the bytes consumed, which [MqttDecode_Props_meets] shows to be the
    [tmp + props_len] the code adds to [variable_len]. *)
Definition publish_read_props (rx_buf : list Z) (rx_buf_len header_len variable_len : Z)
    (protocol_level topic_name_len : Z) : M (list MqttProp * Z) :=
  let rx_payload := header_len + variable_len in
  if MQTT_CONNECT_PROTOCOL_LEVEL_5 <=? protocol_level then
    if rx_buf_len <? rx_payload then throw MQTT_CODE_ERROR_OUT_OF_BUFFER
    else
      '(props, n) ← read_props MQTT_PACKET_TYPE_PUBLISH rx_buf rx_payload rx_buf_len
        (fun tmp props_len =>
           if rx_buf_len <? variable_len + (tmp + props_len) + header_len
           then Some MQTT_CODE_ERROR_OUT_OF_BUFFER else None);
      if (topic_name_len =? 0) && negb (saw MQTT_PROP_TOPIC_ALIAS props) then
        MqttProps_Free props ≫= fun _ => throw MQTT_CODE_ERROR_MALFORMED_DATA
      else mret (props, n)
  else mret ([], 0).

(** The packet identifier of a QoS 1 or 2 PUBLISH. *)
Definition publish_read_id (rx_buf : list Z) (rx_buf_len header_len variable_len : Z)
    (qos packet_id : Z) : result (Z * Z) :=
  let rx_payload := header_len + variable_len in
  if MQTT_QOS_0 <? qos then
    if rx_buf_len <? rx_payload + MQTT_DATA_LEN_SIZE then Err MQTT_CODE_ERROR_OUT_OF_BUFFER
    else
      '(packet_id, tmp) ← MqttDecode_Num rx_buf rx_payload (u32 (rx_buf_len - rx_payload));
      if packet_id =? 0 then Err MQTT_CODE_ERROR_PACKET_ID
      else if variable_len + tmp + header_len <=? rx_buf_len
      then Ok (packet_id, variable_len + tmp)
      else Err MQTT_CODE_ERROR_OUT_OF_BUFFER
  else Ok (packet_id, variable_len).

Definition MqttDecode_Publish (rx_buf : list Z) (rx_buf_len : Z) (publish : MqttMessage)
    : M (Z * MqttMessage) :=
  if rx_buf_len <=? 0 then throw MQTT_CODE_ERROR_BAD_ARG
  else
    fh ← lift (MqttDecode_FixedHeader rx_buf rx_buf_len MQTT_PACKET_TYPE_PUBLISH);
    let header_len := fh_header_len fh in
    let remain_len := fh_remain_len fh in
    '(topic_name, topic_name_len, variable_len) ←
       lift (MqttDecode_String rx_buf header_len (u32 (rx_buf_len - header_len)));
    if rx_buf_len <? variable_len + header_len then throw MQTT_CODE_ERROR_OUT_OF_BUFFER
    else
      ok ← lift (MqttPacket_TopicNameValid (Some topic_name) topic_name_len
                   (msg_protocol_level publish));
      if negb ok then throw MQTT_CODE_ERROR_MALFORMED_DATA
      else
        '(packet_id, variable_len) ←
           lift (publish_read_id rx_buf rx_buf_len header_len variable_len (fh_qos fh)
                   (msg_packet_id publish));
        '(props, n) ← publish_read_props rx_buf rx_buf_len header_len variable_len
                        (msg_protocol_level publish) topic_name_len;
        let variable_len := variable_len + n in
        if remain_len <? variable_len then
          MqttProps_Free props ≫= fun _ => throw MQTT_CODE_ERROR_OUT_OF_BUFFER
        else
          let payload_len := remain_len - variable_len in
          let left := rx_buf_len - (header_len + variable_len) in
          let buffer_len := if left <? payload_len then left else payload_len in
          buffer ← lift (slice rx_buf (header_len + variable_len) buffer_len);
          mret (header_len + variable_len + payload_len,
                mkMessage packet_id MQTT_PACKET_TYPE_PUBLISH (fh_qos fh) (fh_retain fh)
                  (fh_duplicate fh) (Some topic_name) topic_name_len payload_len (Some buffer)
                  buffer_len 0 1 (msg_intBuf_len publish) (msg_intBuf_pos publish) props
                  (msg_protocol_level publish)).

(** ** The packet *)

Definition pub_topic (m : MqttMessage) : list Z := cstr (default [] (msg_topic_name m)).

Definition pub_vars (m : MqttMessage) : list Z :=
  counted (pub_topic m) ++
  (if MQTT_QOS_0 <? msg_qos m then be16 (msg_packet_id m) else []) ++
  (if MQTT_CONNECT_PROTOCOL_LEVEL_5 <=? msg_protocol_level m
   then props_block (msg_props m) else []).

(** The header and the variable header of a PUBLISH with [n] payload bytes. *)
Definition pub_head (m : MqttMessage) (n : Z) : list Z :=
  header_bytes MQTT_PACKET_TYPE_PUBLISH (msg_retain m) (msg_qos m) (msg_duplicate m)
    (len (pub_vars m) + n) ++ pub_vars m.

(** A message as C stores it. [total_len] is below 2^31: see
    [MqttEncode_Publish_wraps] for larger values. *)
Definition pub_rep (m : MqttMessage) : Prop :=
  0 <= msg_packet_id m < 65536 /\ 0 <= msg_qos m < 256 /\ is_byte (msg_retain m) /\
  is_byte (msg_duplicate m) /\ bytes (default [] (msg_topic_name m)) /\
  0 <= msg_total_len m < 2143289344 /\ 0 <= msg_buffer_len m < 4294967296 /\
  Forall prop_rep (msg_props m) /\
  (forall b, msg_buffer m = Some b ->
     msg_total_len m <= len b \/ 0 < msg_buffer_len m <= len b).

Definition pub_topic_ok (level : Z) (topic : list Z) (ps : list MqttProp) : Prop :=
  len topic <= 65535 /\ plain topic /\ utf8_text topic /\
  (topic = [] -> MQTT_CONNECT_PROTOCOL_LEVEL_5 <= level /\ saw MQTT_PROP_TOPIC_ALIAS ps = true).

Definition pub_ok (m : MqttMessage) : Prop :=
  is_Some (msg_topic_name m) /\
  pub_topic_ok (msg_protocol_level m) (pub_topic m) (msg_props m) /\
  msg_qos m <= MQTT_QOS_2 /\
  (0 < msg_qos m -> msg_packet_id m <> 0) /\ (msg_qos m = 0 -> msg_duplicate m = 0) /\
  (MQTT_CONNECT_PROTOCOL_LEVEL_5 <= msg_protocol_level m ->
   props_ok MQTT_PACKET_TYPE_PUBLISH (msg_props m)) /\
  (is_Some (msg_buffer m) -> 0 < msg_buffer_len m -> msg_total_len m <> 0).

(** ** Encoding *)

Lemma pub_topic_nil m s : msg_topic_name m = Some s -> (XSTRLEN s =? 0) = true <-> pub_topic m = [].
Proof.
  intros E. unfold pub_topic. rewrite E, Z.eqb_eq, <- cstr_len. simpl.
  destruct (cstr s) as [|c l]; [done|]. rewrite len_cons. pose proof (len_nonneg l).
  split; [lia|done].
Qed.

Lemma publish_topic_len_settles m :
  bytes (default [] (msg_topic_name m)) ->
  settles (publish_topic_len m)
    (is_Some (msg_topic_name m) /\
     pub_topic_ok (msg_protocol_level m) (pub_topic m) (msg_props m))
    (fun n => n = len (pub_topic m)).
Proof.
  intros Hb. unfold publish_topic_len.
  destruct (msg_topic_name m) as [s|] eqn:E; last first.
  { apply settles_err; [lia|]. intros [[? ?] _]. done. }
  pose proof (pub_topic_nil _ _ E) as Hnil. simpl in Hb.
  assert (Ht : pub_topic m = cstr s) by (unfold pub_topic; by rewrite E). rewrite Ht in *.
  pose proof (cstr_len s) as Hl. pose proof (XSTRLEN_bound s). unfold pub_topic_ok.
  destruct (Z.ltb_spec 65535 (XSTRLEN s)); [apply settles_err; intuition lia|].
  rewrite u16_small by lia.
  pose proof (MqttPacket_TopicNameValid_decides (cstr s) (drop (Z.to_nat (XSTRLEN s)) s)
    (XSTRLEN s) (msg_protocol_level m) Hl ltac:(lia)) as Hname.
  unfold cstr in Hname at 1. rewrite take_drop in Hname.
  eapply settles_iff; [|eapply settles_decides; [lia|exact Hname|]].
  2:{ intros _. eapply settles_decides; [lia| |].
    - apply (MqttEncode_Utf8Ok_decides _ (cstr s)); [lia| |by apply cstr_bytes].
      unfold field_bytes, cstr. cbn [str_ptr str_len]. by rewrite (proj2 (Z.leb_le _ _)) by lia.
    - intros _. apply (settles_guard _ _ _ (cstr s = [] -> MQTT_CONNECT_PROTOCOL_LEVEL_5 <= msg_protocol_level m ->
        saw MQTT_PROP_TOPIC_ALIAS (msg_props m) = true) True); [lia| |].
      + rewrite <- Hnil, <- Z.leb_le.
        destruct (_ <=? _), (XSTRLEN s =? 0), (saw _ _); cbn; intuition done.
      + intros _. by apply settles_ok. }
  assert (is_Some (Some s)) by done.
  destruct (Z.le_gt_cases MQTT_CONNECT_PROTOCOL_LEVEL_5 (msg_protocol_level m)).
  - intuition lia.
  - destruct (decide (cstr s = [])) as [Hc|Hc]; [|intuition lia]. split; [intuition lia|].
    intros ((_ & [Hx|Hx]) & _); [done|lia].
Qed.

Definition pub_vars_ok (m : MqttMessage) : Prop :=
  (is_Some (msg_topic_name m) /\
   pub_topic_ok (msg_protocol_level m) (pub_topic m) (msg_props m)) /\
  (0 < msg_qos m -> msg_packet_id m <> 0) /\ (msg_qos m <= 0 -> msg_duplicate m = 0) /\
  (MQTT_CONNECT_PROTOCOL_LEVEL_5 <= msg_protocol_level m ->
   props_ok MQTT_PACKET_TYPE_PUBLISH (msg_props m)).

Lemma pub_vars_len m :
  Forall prop_rep (msg_props m) ->  pub_vars_ok m -> 2 <= len (pub_vars m) <= 3997793.
Proof.
  intros Hrep ((_ & Ht & _) & _ & _ & Hp). unfold pub_vars. rewrite !len_app, counted_len.
  pose proof (len_nonneg (pub_topic m)).
  assert (0 <= len (if MQTT_QOS_0 <? msg_qos m then be16 (msg_packet_id m) else []) <= 2)
    by (destruct (_ <? _); unfold len; simpl; lia).
  destruct (Z.leb_spec MQTT_CONNECT_PROTOCOL_LEVEL_5 (msg_protocol_level m)) as [Hv|Hv].
  - pose proof (props_bounds _ _ Hrep (Hp Hv)). lia.
  - change (len []) with 0. lia.
Qed.

(** The first pass announces the variable header that the second one writes. *)
Lemma publish_variable_len_settles m :
  bytes (default [] (msg_topic_name m)) -> 0 <= msg_packet_id m < 65536 ->
  Forall prop_rep (msg_props m) ->
  settles (publish_variable_len m) (pub_vars_ok m)
    (fun '(variable_len, props_len) => variable_len = len (pub_vars m) /\
       exists r, publish_variable m props_len = Ok (r, pub_vars m)).
Proof.
  intros Hb Hid Hrep. unfold publish_variable_len, pub_vars_ok.
  eapply settles_bind; [by apply publish_topic_len_settles|].
  intros n [[s Hs] (Hlen & _ & _ & _)] ->. cbv zeta.
  eapply settles_iff; [|eapply (settles_bind _ _
    ((0 < msg_qos m -> msg_packet_id m <> 0) /\ (msg_qos m <= 0 -> msg_duplicate m = 0)) _
    (fun n => n = len (counted (pub_topic m) ++ if MQTT_QOS_0 <? msg_qos m then be16 (msg_packet_id m) else [])))].
  1:{ apply and_assoc. }
  { rewrite len_app, counted_len. destruct (Z.ltb_spec MQTT_QOS_0 (msg_qos m)).
    - destruct (Z.eqb_spec (msg_packet_id m) 0); [apply settles_err; lia|].
      apply settles_ok; [lia|]. change (len (be16 _)) with 2. lia.
    - destruct (Z.eqb_spec (msg_duplicate m) 0); cbn [negb]; [|apply settles_err; lia].
      apply settles_ok; [lia|]. change (len []) with 0. lia. }
  intros n _ ->. unfold publish_variable, pub_vars. rewrite Hs. change (default [] (Some s)) with s.
  assert (Ht : cstr s = pub_topic m) by (unfold pub_topic; by rewrite Hs).
  rewrite must_String, Ht by (rewrite Ht; lia).
  rewrite MqttEncode_Num_eq by lia. rewrite app_assoc, <- Z.leb_le.
  assert (Hq : (if MQTT_QOS_0 <? msg_qos m then Ok (2, when true (be16 (msg_packet_id m))) else Ok (0, [])) =
    Ok (len (if MQTT_QOS_0 <? msg_qos m then be16 (msg_packet_id m) else []),
        if MQTT_QOS_0 <? msg_qos m then be16 (msg_packet_id m) else [])) by by destruct (_ <? _).
  rewrite Hq. destruct (_ <=? _).
  - destruct (props_length_cases MQTT_PACKET_TYPE_PUBLISH (msg_props m) Hrep)
      as [(Hok & E & Hw)|[Hno E]]; rewrite E; cbn [mbind result_bind].
    + apply settles_ok; [done|]. rewrite Hw, !len_app, props_block_len. split; [lia|].
      unfold emit_app. cbn [mbind result_bind]. rewrite <- app_assoc. by eexists.
    + apply settles_err; [lia|]. intros H. by apply Hno, H.
  - apply settles_ok; [done|]. rewrite app_nil_r. split; [done|].
    unfold emit_app. cbn [mbind result_bind]. rewrite app_nil_r. by eexists.
Qed.

(** The room a PUBLISH that announces [n] payload bytes needs: its headers. *)
Definition pub_room (tx_buf_len : Z) (m : MqttMessage) (n : Z) : Prop :=
  len (pub_vars m) + n <= MQTT_PACKET_MAX_REMAIN_LEN /\
  MQTT_PACKET_MAX_LEN_BYTES + 1 <= tx_buf_len /\ len (pub_head m n) <= tx_buf_len.

(** What the encoder has sent of the [n] payload bytes, and what it remembers
    of it: a prefix of the buffer, and all of it when it fits and
    [buffer_len] does not cut it. *)
Definition pub_sent (tx_buf_len : Z) (m : MqttMessage) (use_cb : bool) (n : Z)
    (payload : list Z) (m' : MqttMessage) : Prop :=
  (use_cb = true \/ n = 0 -> payload = []) /\
  (use_cb = false -> 0 < n -> exists b, msg_buffer m = Some b /\ payload `prefix_of` b /\
     msg_buffer_pos m' = len payload /\
     (n <= tx_buf_len - len (pub_head m n) -> msg_buffer_len m = 0 \/ n <= msg_buffer_len m ->
      len payload = n)) /\
  len payload <= n /\
  msg_intBuf_len m' = len payload /\ msg_intBuf_pos m' = 0 /\
  msg_type m' = MQTT_PACKET_TYPE_PUBLISH /\ msg_total_len m' = msg_total_len m.

Lemma publish_payload_len_eq m use_cb :
  pub_rep m ->
  publish_payload_len m use_cb =
    (if match msg_buffer m with Some _ => true | None => use_cb end then msg_total_len m else 0).
Proof.
  intros (_ & _ & _ & _ & _ & Ht & _). unfold publish_payload_len.
  destruct (match msg_buffer m with Some _ => true | None => use_cb end); cbn [andb]; [|done].
  destruct (Z.ltb_spec 0 (msg_total_len m)); [|lia]. apply i32_small. lia.
Qed.

Lemma publish_payload_sent tx_buf_len m use_cb n :
  pub_rep m -> n = publish_payload_len m use_cb -> len (pub_head m n) <= tx_buf_len ->
  exists payload m',
    publish_payload m (tx_buf_len - len (pub_head m n)) (if use_cb then 0 else n) = Ok (payload, m') /\
    pub_sent tx_buf_len m use_cb n payload m' /\ len payload <= tx_buf_len - len (pub_head m n).
Proof.
  intros Hrep Hn Hl. rewrite publish_payload_len_eq in Hn by done.
  destruct Hrep as (_ & _ & _ & _ & _ & Ht & Hbl & _ & Hobj).
  remember (tx_buf_len - len (pub_head m n)) as room eqn:Hroom.
  assert (Hn0 : 0 <= n) by (destruct (match msg_buffer m with Some _ => _ | None => _ end); lia).
  unfold publish_payload, pub_sent.
  destruct (Z.ltb_spec 0 (if use_cb then 0 else n)) as [Hpos|Hz].
  - destruct use_cb; [lia|].
    destruct (msg_buffer m) as [b|]; [|lia]. subst n. specialize (Hobj b eq_refl).
    set (k1 := if room <? msg_total_len m then room else msg_total_len m).
    set (k := if (0 <? msg_buffer_len m) && (msg_buffer_len m <? k1) then msg_buffer_len m else k1).
    assert (0 <= k <= room /\ k <= msg_total_len m /\ k <= len b /\
      (msg_total_len m <= room -> msg_buffer_len m = 0 \/ msg_total_len m <= msg_buffer_len m ->
       k = msg_total_len m)) as (Hk1 & Hk2 & Hk3 & Hk4).
    { unfold k, k1. destruct (Z.ltb_spec room (msg_total_len m)), (Z.ltb_spec 0 (msg_buffer_len m));
        cbn [andb]; try (destruct (Z.ltb_spec (msg_buffer_len m) room));
        try (destruct (Z.ltb_spec (msg_buffer_len m) (msg_total_len m))); lia. }
    rewrite slice_ok by lia. cbn [mbind result_bind].
    eexists _, _. split; [reflexivity|]. change (drop (Z.to_nat 0) b) with b.
    assert (Hkl : len (take (Z.to_nat k) b) = k) by (apply len_take; lia).
    cbn [msg_buffer_pos msg_intBuf_len msg_intBuf_pos msg_type msg_total_len].
    rewrite Hkl. split; [|lia]. split_and!; try done; try lia.
    intros _ _. exists b. split_and!; try done; [by apply prefix_take|by rewrite <- Hroom].
  - exists []. eexists. split; [reflexivity|]. change (len []) with 0.
    cbn [msg_buffer_pos msg_intBuf_len msg_intBuf_pos msg_type msg_total_len].
    split; [|lia]. split_and!; try done; try lia.
    + intros ->. lia.
    + destruct use_cb; lia.
Qed.

Lemma MqttEncode_Publish_settles tx_buf_len m use_cb :
  pub_rep m ->
  let n := publish_payload_len m use_cb in
  settles (MqttEncode_Publish tx_buf_len m use_cb) (pub_ok m /\ pub_room tx_buf_len m n)
    (fun '(rc, bs, m') => exists payload, bs = pub_head m n ++ payload /\ rc = len bs /\
       rc <= tx_buf_len /\ pub_sent tx_buf_len m use_cb n payload m').
Proof.
  intros Hrep. cbv zeta. pose proof Hrep as (Hid & Hq & Hr & Hd & Hb & Ht & Hbl & Hp & _).
  unfold MqttEncode_Publish, pub_ok.
  destruct (Z.ltb_spec MQTT_QOS_2 (msg_qos m)); [apply settles_err; intuition lia|].
  eapply settles_iff; [|eapply (settles_bind _ _ _
    ((is_Some (msg_buffer m) -> 0 < msg_buffer_len m -> msg_total_len m <> 0) /\
     pub_room tx_buf_len m (publish_payload_len m use_cb)));
    [by apply publish_variable_len_settles|]].
  2:{ intros [variable_len props_len] Hok (-> & r & Hvar).
    apply settles_guard; [lia| |].
    { destruct (msg_buffer m) as [b|]; cbn [andb].
      - rewrite andb_false_iff, Z.ltb_ge, Z.eqb_neq. split; [intros [?|?]; lia|].
        intros H'. specialize (H' ltac:(done)). lia.
      - split; [|done]. by intros _ [? ?]. }
    intros _. cbv zeta.
    pose proof (publish_payload_len_eq m use_cb Hrep) as Hn.
    remember (publish_payload_len m use_cb) as n eqn:En.
    assert (0 <= n < 2143289344) by (rewrite Hn; case_match; lia).
    pose proof (pub_vars_len m Hp Hok) as Hvl.
    assert (Hroom : pub_room tx_buf_len m n <->
      len (pub_vars m) + n <= MQTT_PACKET_MAX_REMAIN_LEN /\ 5 <= tx_buf_len /\
      1 + len (vbi 4 (len (pub_vars m) + n)) + len (pub_vars m) <= tx_buf_len).
    { unfold pub_room, pub_head. rewrite len_app, header_bytes_len_eq. reflexivity. }
    rewrite Hroom.
    destruct (Z.le_gt_cases 5 tx_buf_len); last first.
    { unfold MqttEncode_FixedHeader. rewrite (proj2 (Z.ltb_lt _ _)) by lia. apply settles_err; lia. }
    destruct (Z.le_gt_cases (len (pub_vars m) + n) MQTT_PACKET_MAX_REMAIN_LEN); last first.
    { unfold MqttEncode_FixedHeader, MqttEncode_Vbi. rewrite u32_small by lia.
      rewrite (proj2 (Z.ltb_ge tx_buf_len _)), (proj2 (Z.ltb_lt _ _)) by lia. apply settles_err; lia. }
    rewrite MqttEncode_FixedHeader_eq by lia. cbn [mbind result_bind]. rewrite header_bytes_len_eq.
    assert (Hhl : len (pub_head m n) = 1 + len (vbi 4 (len (pub_vars m) + n)) + len (pub_vars m))
      by (unfold pub_head; by rewrite len_app, header_bytes_len_eq).
    destruct (Z.ltb_spec tx_buf_len (1 + len (vbi 4 (len (pub_vars m) + n)) + len (pub_vars m)));
      [apply settles_err; lia|].
    rewrite Hvar. cbn [mbind result_bind]. rewrite <- Hhl.
    destruct (publish_payload_sent tx_buf_len m use_cb n Hrep En ltac:(lia))
      as (payload & m' & -> & Hsent & Hpl). cbn [mbind result_bind].
    apply settles_ok; [lia|]. exists payload. unfold pub_head in *. rewrite app_assoc, !len_app in *.
    split; [done|]. pose proof Hsent as (_ & _ & _ & -> & _). split_and!; try done; lia. }
  unfold pub_vars_ok. assert (Hq0 : msg_qos m <= 0 <-> msg_qos m = 0) by lia. rewrite Hq0.
  intuition lia.
Qed.

(** ** Decoding *)

Lemma publish_flags retain qos duplicate :
  header_args MQTT_PACKET_TYPE_PUBLISH retain qos duplicate ->
  0 <= qos <= MQTT_QOS_2 /\ (qos = 0 -> duplicate = 0).
Proof.
  intros (_ & Hr & Hq & Hd & Hok). unfold header_flags_ok in Hok.
  change (MQTT_PACKET_TYPE_PUBLISH =? 3) with true in Hok. cbv zeta match in Hok.
  apply andb_true_iff in Hok as [H1%Z.ltb_lt H2]. apply negb_true_iff, andb_false_iff in H2.
  rewrite Z.eqb_neq, Z.leb_gt in H2.
  destruct (Z.eqb_spec retain 0), (Z.eqb_spec duplicate 0); Zeucl.
Qed.

Lemma publish_args retain qos duplicate :
  is_byte retain -> is_byte duplicate -> 0 <= qos <= MQTT_QOS_2 -> (qos = 0 -> duplicate = 0) ->
  header_args MQTT_PACKET_TYPE_PUBLISH retain qos duplicate.
Proof.
  unfold is_byte, header_args, header_flags_ok. intros Hr Hd Hq Hqd.
  change (MQTT_PACKET_TYPE_PUBLISH =? 3) with true. cbv zeta match.
  split_and!; try lia. apply andb_true_iff. rewrite negb_true_iff, andb_false_iff.
  rewrite Z.ltb_lt, Z.eqb_neq, Z.leb_gt.
  destruct (Z.eqb_spec retain 0), (Z.eqb_spec duplicate 0); Zeucl.
Qed.

(** What the decoder has found: the headers, and the part of the payload that
    was received. *)
Definition pub_found (rx_buf : list Z) (rx_buf_len rc : Z) (m0 m : MqttMessage) : Prop :=
  exists topic payload,
    let head := pub_head m (msg_total_len m) in
    msg_topic_name m = Some topic /\ msg_topic_name_len m = len topic /\ bytes topic /\
    pub_topic_ok (msg_protocol_level m) topic (msg_props m) /\
    msg_buffer m = Some payload /\ sits rx_buf 0 (head ++ payload) /\
    msg_buffer_len m = len payload /\
    len payload = Z.min (msg_total_len m) (rx_buf_len - len head) /\
    len head <= rx_buf_len /\ rc = len head + msg_total_len m /\ 0 <= msg_total_len m /\
    0 <= msg_qos m <= MQTT_QOS_2 /\ (msg_qos m = 0 -> msg_duplicate m = 0) /\
    (0 < msg_qos m -> 0 < msg_packet_id m < 65536) /\
    props_decoded MQTT_PACKET_TYPE_PUBLISH (msg_props m) /\
    msg_protocol_level m = msg_protocol_level m0 /\
    msg_type m = MQTT_PACKET_TYPE_PUBLISH /\ msg_buffer_pos m = 0 /\ msg_buffer_new m = 1.

Lemma publish_read_id_yields rx_buf rx_buf_len header_len variable_len qos id0 :
  bytes rx_buf -> rx_buf_len <= len rx_buf -> rx_buf_len < 2147483648 ->
  0 <= header_len -> 0 <= variable_len -> header_len + variable_len <= rx_buf_len ->
  yields (publish_read_id rx_buf rx_buf_len header_len variable_len qos id0)
    (fun '(id, variable_len') =>
       let bs := if MQTT_QOS_0 <? qos then be16 id else [] in
       sits rx_buf (header_len + variable_len) bs /\ variable_len' = variable_len + len bs /\
       header_len + variable_len' <= rx_buf_len /\ (0 < qos -> 0 < id < 65536)).
Proof.
  intros Hb Hl Hm Hh Hv Hr. unfold publish_read_id.
  destruct (Z.ltb_spec MQTT_QOS_0 qos).
  - destruct (Z.ltb_spec rx_buf_len (header_len + variable_len + MQTT_DATA_LEN_SIZE)); [done|].
    rewrite u32_small by lia. apply yields_bind.
    eapply yields_mono; [apply MqttDecode_Num_yields; [done|lia|lia]|].
    intros [id n] (-> & _ & Hid & Hs). destruct (Z.eqb_spec id 0); [done|].
    rewrite (proj2 (Z.leb_le _ _)) by lia. simpl. change (len (be16 id)) with 2.
    split_and!; try done; lia.
  - simpl. change (len []) with 0. split_and!; try lia.
    exists (take (Z.to_nat (header_len + variable_len)) rx_buf), (drop (Z.to_nat (header_len + variable_len)) rx_buf).
    rewrite app_nil_l, take_drop, len_take by lia. done.
Qed.

Lemma publish_read_props_meets rx_buf rx_buf_len header_len variable_len level topic_len n :
  bytes rx_buf -> rx_buf_len <= len rx_buf -> rx_buf_len < 2147483648 ->
  0 <= header_len -> 0 <= variable_len -> header_len + variable_len <= rx_buf_len ->
  meets n (publish_read_props rx_buf rx_buf_len header_len variable_len level topic_len) n
    (fun '(ps, k) n' =>
       let bs := if MQTT_CONNECT_PROTOCOL_LEVEL_5 <=? level then props_block ps else [] in
       sits rx_buf (header_len + variable_len) bs /\ k = len bs /\
       header_len + variable_len + k <= rx_buf_len /\
       props_decoded MQTT_PACKET_TYPE_PUBLISH ps /\ n = (n' + length ps)%nat /\
       (MQTT_CONNECT_PROTOCOL_LEVEL_5 <= level -> topic_len = 0 ->
        saw MQTT_PROP_TOPIC_ALIAS ps = true)).
Proof.
  intros Hb Hl Hm Hh Hv Hr. unfold publish_read_props.
  destruct (Z.leb_spec MQTT_CONNECT_PROTOCOL_LEVEL_5 level).
  - apply meets_test; [lia|done|]. intros _. apply meets_bind.
    eapply meets_mono; [apply read_props_meets; try done; try lia|].
    { intros tmp pl rc. case_match; [by intros [= <-]|done]. }
    intros [ps k] n' (Hd & Hps & Hk & Hk1 & Hkl & Hn & _).
    destruct (_ && _) eqn:E; [by apply meets_free_throw|].
    apply meets_ret. split_and!; try done. intros _ ->. rewrite Z.eqb_refl in E.
    by apply negb_false_iff in E.
  - apply meets_ret. simpl. change (len []) with 0. pose proof (props_decoded_nil MQTT_PACKET_TYPE_PUBLISH).
    split_and!; try done; try lia.
    exists (take (Z.to_nat (header_len + variable_len)) rx_buf), (drop (Z.to_nat (header_len + variable_len)) rx_buf).
    rewrite app_nil_l, take_drop, len_take by lia. done.
Qed.

Lemma MqttDecode_Publish_meets rx_buf rx_buf_len m0 n :
  rx_ok rx_buf rx_buf_len ->
  meets n (MqttDecode_Publish rx_buf rx_buf_len m0) n
    (fun '(rc, m) n' => pub_found rx_buf rx_buf_len rc m0 m /\
       n = (n' + length (msg_props m))%nat).
Proof.
  intros (Hb & Hl & Hm). unfold MqttDecode_Publish. apply meets_test; [lia|done|]. intros _.
  apply meets_bind, meets_lift; [|done].
  eapply yields_mono; [apply MqttDecode_FixedHeader_yields; [done|lia|lia]|].
  intros fh (Hf1 & Hf2 & Hf3 & _ & Hseen).
  pose proof (header_seen_bytes _ _ _ Hb Hseen) as (_ & Hargs & Hs & _).
  destruct Hseen as (_ & _ & Hh & _). apply publish_flags in Hargs as [Hq Hdup].
  rewrite u32_small by lia.
  apply meets_bind, meets_lift; [|done].
  eapply yields_mono; [apply MqttDecode_String_yields; [done|lia|lia|lia]|].
  intros [[topic topic_len] vl] (Hst & -> & Hvl & Htl & Hvb & Ht8 & Htb).
  apply meets_test; [lia|done|]. intros _.
  apply meets_bind, meets_lift; [|done].
  pose proof (MqttPacket_TopicNameValid_decides topic [] (len topic) (msg_protocol_level m0) eq_refl ltac:(lia)) as Hname.
  rewrite app_nil_r in Hname. destruct Hname as (ok & -> & Hok). cbn [yields].
  apply meets_test; [lia|done|]. intros ->%negb_false_iff.
  destruct (proj1 Hok eq_refl) as [Hplain Hempty].
  apply meets_bind, meets_lift; [|done].
  eapply yields_mono; [apply publish_read_id_yields; [done|lia..]|].
  intros [id vl'] (Hsid & -> & Hidb & Hid).
  pose proof (len_nonneg (if MQTT_QOS_0 <? fh_qos fh then be16 id else [])).
  apply meets_bind. eapply meets_mono; [apply publish_read_props_meets; [done|lia..]|].
  intros [ps k] n' (Hsp & -> & Hpb & Hd & Hn & Halias).
  pose proof (len_nonneg (if MQTT_CONNECT_PROTOCOL_LEVEL_5 <=? msg_protocol_level m0 then props_block ps else [])).
  destruct (Z.ltb_spec (fh_remain_len fh) (vl + len (if MQTT_QOS_0 <? fh_qos fh then be16 id else []) +
    len (if MQTT_CONNECT_PROTOCOL_LEVEL_5 <=? msg_protocol_level m0 then props_block ps else [])));
    [by apply meets_free_throw|].
  set (vars := vl + len _ + len _) in *. cbv zeta.
  set (left := rx_buf_len - (fh_header_len fh + vars)).
  set (bl := if left <? fh_remain_len fh - vars then left else fh_remain_len fh - vars).
  assert (Hbl : bl = Z.min (fh_remain_len fh - vars) left)
    by (unfold bl; destruct (Z.ltb_spec left (fh_remain_len fh - vars)); lia).
  assert (Hleft : 0 <= left) by (unfold left, vars; lia).
  unfold mbind, M_bind, meets, lift. rewrite slice_ok by lia.
  set (payload := take (Z.to_nat bl) (drop (Z.to_nat (fh_header_len fh + vars)) rx_buf)).
  assert (len payload = bl /\ sits rx_buf (fh_header_len fh + vars) payload) as [Hpl Hps].
  { pose proof (slice_ok rx_buf (fh_header_len fh + vars) bl ltac:(lia) ltac:(lia) ltac:(lia)) as E.
    fold payload in E. apply slice_inv in E as (_ & _ & _ & ? & ?). done. }
  cbn [mret M_ret]. split; [|done].
  set (m := mkMessage _ _ _ _ _ _ _ _ _ _ _ _ _ _ _ _).
  assert (Hcs : cstr topic = topic) by (by apply cstr_id, utf8_text_nonzero).
  assert (Hvars : len (pub_vars m) = vars).
  { unfold pub_vars, pub_topic, m, vars. cbn [msg_topic_name msg_qos msg_packet_id msg_protocol_level msg_props from_option].
    rewrite !len_app, counted_len. simpl. rewrite Hcs. lia. }
  assert (Hhead : len (pub_head m (msg_total_len m)) = fh_header_len fh + vars).
  { unfold pub_head. rewrite len_app, header_bytes_len_eq, Hvars. unfold m. cbn [msg_total_len].
    replace (vars + (fh_remain_len fh - vars)) with (fh_remain_len fh) by lia. lia. }
  exists topic, payload. cbv zeta. rewrite Hhead.
  split_and!; try done; try lia.
  - unfold pub_topic_ok. cbn [msg_protocol_level msg_props m]. split_and!; try done; try lia.
    intros ->. destruct Hempty as [?|Hlv]; [done|]. split; [done|]. by apply Halias.
  - apply sits_app. rewrite Hhead. split; [|done].
    unfold pub_head. rewrite Hvars. unfold m at 1 2 3 4. cbn [msg_retain msg_qos msg_duplicate msg_total_len].
    replace (vars + (fh_remain_len fh - vars)) with (fh_remain_len fh) by lia.
    apply sits_app. split; [done|]. rewrite header_bytes_len_eq, <- Hh.
    unfold pub_vars, pub_topic, m. cbn [msg_topic_name msg_qos msg_packet_id msg_protocol_level msg_props].
    change (default [] (Some topic)) with topic. rewrite Hcs, Z.add_0_l.
    apply sits_app. split; [done|]. rewrite counted_len, <- Hvl.
    apply sits_app. split; [done|]. by rewrite Z.add_assoc in Hsp.
  - unfold m. cbn [msg_total_len]. rewrite Hpl. exact Hbl.
  - unfold m. cbn [msg_total_len]. lia.
  - apply Hq.
  - apply Hq.
Qed.

(** The record a decoder builds from a message that arrived in full. *)
Definition pub_norm (m0 m : MqttMessage) (payload : list Z) : MqttMessage :=
  mkMessage (if MQTT_QOS_0 <? msg_qos m then msg_packet_id m else msg_packet_id m0)
    MQTT_PACKET_TYPE_PUBLISH (msg_qos m)
    (if msg_retain m =? 0 then 0 else 1) (if msg_duplicate m =? 0 then 0 else 1)
    (Some (pub_topic m)) (len (pub_topic m)) (len payload) (Some payload) (len payload) 0 1
    (msg_intBuf_len m0) (msg_intBuf_pos m0)
    (if MQTT_CONNECT_PROTOCOL_LEVEL_5 <=? msg_protocol_level m
     then map prop_norm (msg_props m) else [])
    (msg_protocol_level m0).

Lemma publish_read_id_sits rx_buf rx_buf_len header_len variable_len qos id id0 :
  (0 < qos -> 0 < id < 65536) ->
  sits rx_buf (header_len + variable_len) (if MQTT_QOS_0 <? qos then be16 id else []) ->
  0 <= header_len -> 0 <= variable_len -> rx_buf_len < 2147483648 ->
  header_len + variable_len + len (if MQTT_QOS_0 <? qos then be16 id else []) <= rx_buf_len ->
  publish_read_id rx_buf rx_buf_len header_len variable_len qos id0 =
    Ok (if MQTT_QOS_0 <? qos then id else id0,
        variable_len + len (if MQTT_QOS_0 <? qos then be16 id else [])).
Proof.
  intros Hid Hs Hh Hv Hm Hl. unfold publish_read_id. destruct (Z.ltb_spec MQTT_QOS_0 qos).
  - change (len (be16 id)) with 2 in *.
    rewrite (proj2 (Z.ltb_ge _ _)), u32_small by lia.
    rewrite (MqttDecode_Num_sits _ _ _ id) by (done || lia). cbn [mbind result_bind].
    rewrite (proj2 (Z.eqb_neq id 0)), (proj2 (Z.leb_le _ _)) by lia. done.
  - change (len []) with 0. by rewrite Z.add_0_r.
Qed.

Lemma publish_read_props_sits rx_buf rx_buf_len header_len variable_len level (topic : list Z) ps n :
  Forall prop_rep ps ->
  (MQTT_CONNECT_PROTOCOL_LEVEL_5 <= level -> props_ok MQTT_PACKET_TYPE_PUBLISH ps) -> auth_ok ps ->
  (topic = [] -> MQTT_CONNECT_PROTOCOL_LEVEL_5 <= level /\ saw MQTT_PROP_TOPIC_ALIAS ps = true) ->
  let bs := if MQTT_CONNECT_PROTOCOL_LEVEL_5 <=? level then props_block ps else [] in
  sits rx_buf (header_len + variable_len) bs ->
  0 <= header_len -> 0 <= variable_len -> rx_buf_len < 2147483648 ->
  header_len + variable_len + len bs <= rx_buf_len -> (cells level ps <= n)%nat ->
  publish_read_props rx_buf rx_buf_len header_len variable_len level (len topic) n =
    (Ok (if MQTT_CONNECT_PROTOCOL_LEVEL_5 <=? level then map prop_norm ps else [], len bs),
     (n - cells level ps)%nat).
Proof.
  intros Hrep Hok Ha Halias bs Hs Hh Hv Hm Hl Hn. unfold publish_read_props, cells in *. subst bs.
  destruct (Z.leb_spec MQTT_CONNECT_PROTOCOL_LEVEL_5 level) as [H5|H5].
  - pose proof (props_bounds _ _ Hrep (Hok H5)) as [Hw Hb].
    rewrite (proj2 (Z.ltb_ge _ _)) by lia.
    erewrite run_bind; [|apply (read_props_sits _ _ _ _ _ _ ps); try done; try lia; [by apply Hok|]].
    + cbv beta iota.
      assert (Hsaw : saw MQTT_PROP_TOPIC_ALIAS (map prop_norm ps) = saw MQTT_PROP_TOPIC_ALIAS ps).
      { clear. induction ps as [|p ps IH]; [done|]. unfold saw in *. cbn [map existsb]. rewrite IH.
        f_equal. unfold prop_norm. by destruct (prop_data _). }
      rewrite Hsaw. destruct (Z.eqb_spec (len topic) 0) as [Hz|]; [|done].
      destruct topic as [|c t]; [|rewrite len_cons in Hz; pose proof (len_nonneg t); lia].
      by rewrite (proj2 (Halias eq_refl)).
    + rewrite (proj2 (Z.ltb_ge _ _)); [done|]. rewrite props_block_len in Hl. lia.
  - by rewrite Nat.sub_0_r.
Qed.

Lemma MqttDecode_Publish_sits rx_buf rx_buf_len m m0 n payload :
  pub_rep m -> pub_ok m -> auth_ok (msg_props m) ->
  let w := pub_head m (len payload) ++ payload in
  len (pub_vars m) + len payload <= MQTT_PACKET_MAX_REMAIN_LEN ->
  received rx_buf rx_buf_len w (len w) -> rx_buf_len < 2147483648 ->
  msg_protocol_level m0 = msg_protocol_level m ->
  (cells (msg_protocol_level m) (msg_props m) <= n)%nat ->
  MqttDecode_Publish rx_buf rx_buf_len m0 n =
    (Ok (len w, pub_norm m0 m payload), (n - cells (msg_protocol_level m) (msg_props m))%nat).
Proof.
  intros (Hid & Hq & Hr & Hd & Hb & _ & _ & Hrep & _)
    (_ & (Htl & Htp & Ht8 & Hta) & Hq2 & Hid0 & Hdup & Hprops & _) Ha w Hrl Hrx Hm Hlvl Hn.
  assert (Hw : w = frame MQTT_PACKET_TYPE_PUBLISH (msg_retain m) (msg_qos m) (msg_duplicate m)
                 (pub_vars m ++ payload)).
  { unfold w, frame, pub_head. by rewrite len_app, app_assoc. }
  clearbody w. subst w.
  destruct (MqttDecode_FixedHeader_frame rx_buf rx_buf_len MQTT_PACKET_TYPE_PUBLISH (msg_retain m)
    (msg_qos m) (msg_duplicate m) (pub_vars m ++ payload)) as (h & Hh & Hfl & Hl & _ & Hs & E);
    [apply publish_args; try done; lia|by rewrite len_app|done..|].
  rewrite Hfl, len_app in *. pose proof (len_nonneg payload). pose proof (len_nonneg (pub_topic m)).
  apply sits_app in Hs as [Hsv Hsp]. unfold pub_vars in Hsv.
  apply sits_app in Hsv as [Hst Hsv]. apply sits_app in Hsv as [Hsi Hsv].
  assert (Hvl : len (pub_vars m) = 2 + len (pub_topic m) +
    len (if MQTT_QOS_0 <? msg_qos m then be16 (msg_packet_id m) else []) +
    len (if MQTT_CONNECT_PROTOCOL_LEVEL_5 <=? msg_protocol_level m then props_block (msg_props m) else [])).
  { unfold pub_vars. rewrite !len_app, counted_len. lia. }
  rewrite counted_len in *.
  remember (if MQTT_QOS_0 <? msg_qos m then be16 (msg_packet_id m) else []) as ib eqn:Eib.
  remember (if MQTT_CONNECT_PROTOCOL_LEVEL_5 <=? msg_protocol_level m then props_block (msg_props m) else [])
    as pb eqn:Epb.
  pose proof (len_nonneg ib). pose proof (len_nonneg pb).
  unfold MqttDecode_Publish. rewrite (proj2 (Z.leb_gt rx_buf_len 0)) by lia.
  rewrite (run_lift _ _ _ _ E). cbn [fh_header_len fh_remain_len fh_qos fh_retain fh_duplicate].
  rewrite u32_small by lia.
  assert (Hcb : bytes (pub_topic m)) by (by apply cstr_bytes).
  rewrite (run_lift _ _ _ _ (MqttDecode_String_sits _ h (rx_buf_len - h) _ Hcb Ht8 Hst Htl ltac:(lia) ltac:(lia))).
  cbv beta iota. rewrite (proj2 (Z.ltb_ge rx_buf_len (2 + len (pub_topic m) + h))) by lia.
  pose proof (MqttPacket_TopicNameValid_decides (pub_topic m) [] (len (pub_topic m))
    (msg_protocol_level m0) eq_refl Htl) as (ok & Eok & Hok). rewrite app_nil_r in Eok.
  rewrite (run_lift _ _ _ _ Eok). rewrite (proj2 Hok); last first.
  { split; [done|]. rewrite Hlvl. destruct (decide (pub_topic m = [])); [right; by apply Hta|by left]. }
  cbn [negb].
  erewrite run_lift; [|apply (publish_read_id_sits _ _ _ _ _ (msg_packet_id m)); rewrite <- ?Eib; try done; lia].
  cbv beta iota. rewrite <- Eib, Hlvl.
  erewrite run_bind; [|apply (publish_read_props_sits _ _ _ _ _ _ (msg_props m)); rewrite <- ?Epb;
    try done; try lia; replace (h + (2 + len (pub_topic m) + len ib)) with (h + (2 + len (pub_topic m)) + len ib) by lia; exact Hsv].
  cbv beta iota zeta. rewrite <- Epb.
  rewrite (proj2 (Z.ltb_ge (len (pub_vars m) + len payload) _)) by lia.
  replace (len (pub_vars m) + len payload - (2 + len (pub_topic m) + len ib + len pb))
    with (len payload) by lia.
  rewrite (proj2 (Z.ltb_ge _ (len payload))) by lia.
  assert (Hsl : slice rx_buf (h + (2 + len (pub_topic m) + len ib + len pb)) (len payload) = Ok payload).
  { apply slice_sits; [|done]. rewrite <- Hvl. exact Hsp. }
  rewrite (run_lift _ _ _ _ Hsl).
  unfold pub_norm. rewrite <- Hvl, Hlvl. unfold mret, M_ret. do 3 f_equal. lia.
Qed.

(** ** Properties *)

(** [MqttEncode_Publish] accepts a message exactly when its topic, QoS,
    packet identifier, DUP flag, properties and lengths are valid and the
    headers fit in [tx_buf]; the Remaining Length announces the whole payload;
    and the bytes written are the headers and a prefix of the payload: all of
    it when it fits, nothing when a callback is to deliver it. What was
    written never exceeds [tx_buf]. *)
Theorem MqttEncode_Publish_exact tx_buf_len m use_cb :
  pub_rep m ->
  let n := publish_payload_len m use_cb in
  settles (MqttEncode_Publish tx_buf_len m use_cb) (pub_ok m /\ pub_room tx_buf_len m n)
    (fun '(rc, bs, m') => exists payload, bs = pub_head m n ++ payload /\ rc = len bs /\
       rc <= tx_buf_len /\ pub_sent tx_buf_len m use_cb n payload m').
Proof. apply MqttEncode_Publish_settles. Qed.

(** Topic "a/b" at QoS 1 with DUP and a user property; the payload is "hi". *)
Definition ex_publish : MqttMessage :=
  mkMessage 7 0 1 0 1 (Some [97; 47; 98]) 3 2 (Some [104; 105]) 0 0 0 0 0 [ex_user_prop] 5.
Definition ex_publish0 : MqttMessage := mkMessage 0 0 0 0 0 None 0 0 None 0 0 0 0 0 [] 5.
Definition ex_publish_wire : list Z :=
  [58; 18; 0; 3; 97; 47; 98; 0; 7; 8; 38; 0; 1; 107; 0; 2; 118; 118; 104; 105].

Lemma ex_publish_rep : pub_rep ex_publish.
Proof. split_and!; try by_eval. by intros b [= <-]; left. Qed.

(** Eighteen bytes are room for the headers only. *)
Lemma MqttEncode_Publish_exact_witness :
  let n := publish_payload_len ex_publish false in
  n = 2 /\
  settles (MqttEncode_Publish 19 ex_publish false) (pub_ok ex_publish /\ pub_room 19 ex_publish n)
    (fun '(rc, bs, m') => exists payload, bs = pub_head ex_publish n ++ payload /\ rc = len bs /\
       rc <= 19 /\ pub_sent 19 ex_publish false n payload m').
Proof. intros n. split; [reflexivity|]. apply (MqttEncode_Publish_exact 19 _ false ex_publish_rep). Defined.

(** C24: when [MqttEncode_Publish] reports the whole payload as written,
    [MqttDecode_Publish] gets topic, flags, packet identifier, properties and
    payload back from the bytes it wrote, and consumes all of them. *)
Theorem Publish_roundtrip tx_buf_len m m0 b rc bs m' rx_buf rx_buf_len n :
  pub_rep m -> msg_buffer m = Some b ->
  MqttEncode_Publish tx_buf_len m false = Ok (rc, bs, m') -> msg_intBuf_len m' = msg_total_len m ->
  auth_ok (msg_props m) -> msg_protocol_level m0 = msg_protocol_level m ->
  rx_ok rx_buf rx_buf_len -> received rx_buf rx_buf_len bs rc ->
  (cells (msg_protocol_level m) (msg_props m) <= n)%nat ->
  MqttDecode_Publish rx_buf rx_buf_len m0 n =
    (Ok (rc, pub_norm m0 m (take (Z.to_nat (msg_total_len m)) b)),
     (n - cells (msg_protocol_level m) (msg_props m))%nat).
Proof.
  intros Hrep Hbuf E Hall Ha Hl (Hrb & Hrl & Hrm) Hrec Hc.
  pose proof (MqttEncode_Publish_settles tx_buf_len m false Hrep) as H. cbv zeta in H.
  rewrite E, publish_payload_len_eq, Hbuf in H by done.
  destruct H as [[[Hok Hroom] (a & [= <-] & payload & -> & -> & _ & Hsent)]|[_ (? & _ & [=])]].
  destruct Hsent as (Hnil & Hpre & Hle & Hint & _). rewrite Hint in Hall.
  assert (payload = take (Z.to_nat (msg_total_len m)) b) as ->.
  { destruct (Z.ltb_spec 0 (msg_total_len m)) as [Hpos|Hz].
    - destruct (Hpre eq_refl Hpos) as (b' & Eb & [k Ek] & _).
      rewrite Hbuf in Eb. injection Eb as ->. rewrite Ek, <- Hall. unfold len. by rewrite Nat2Z.id, take_app_length.
    - pose proof (len_nonneg payload). assert (msg_total_len m = 0) as Hz' by lia.
      rewrite (Hnil (or_intror Hz')), Hz'. done. }
  set (p := take _ b) in *. rewrite <- Hall in Hrec, Hroom |- *.
  destruct Hroom as (Hmax & _ & _). apply MqttDecode_Publish_sits; try done.
Qed.

Lemma Publish_roundtrip_witness :
  MqttEncode_Publish 64 ex_publish false =
    Ok (20, ex_publish_wire,
        mkMessage 7 3 1 0 1 (Some [97; 47; 98]) 3 2 (Some [104; 105]) 2 2 0 2 0 [ex_user_prop] 5) /\
  MqttDecode_Publish ex_publish_wire 20 ex_publish0 30%nat =
    (Ok (20, pub_norm ex_publish0 ex_publish [104; 105]), 29%nat).
Proof.
  split; [reflexivity|].
  refine (Publish_roundtrip 64 ex_publish ex_publish0 [104; 105] 20 ex_publish_wire
    (mkMessage 7 3 1 0 1 (Some [97; 47; 98]) 3 2 (Some [104; 105]) 2 2 0 2 0 [ex_user_prop] 5)
    ex_publish_wire 20 30 ex_publish_rep eq_refl eq_refl eq_refl _ eq_refl _ _ _); [by_eval..| |by_eval].
  split_and!; [by exists [], []|reflexivity|lia].
Defined.

(** For every buffer, [MqttDecode_Publish] reads nothing outside the
    received bytes and ends; what it accepts has a valid fixed header, topic,
    packet identifier and property list lying in the buffer, and the reported
    payload is the part of it that was received, [total_len] the whole; a
    failure leaves no property cell taken. *)
Theorem MqttDecode_Publish_sound rx_buf rx_buf_len m0 n :
  rx_ok rx_buf rx_buf_len ->
  meets n (MqttDecode_Publish rx_buf rx_buf_len m0) n
    (fun '(rc, m) n' => pub_found rx_buf rx_buf_len rc m0 m /\
       n = (n' + length (msg_props m))%nat).
Proof. apply MqttDecode_Publish_meets. Qed.

(** The last byte of the payload has not arrived. *)
Lemma MqttDecode_Publish_sound_witness :
  exists m, MqttDecode_Publish ex_publish_wire 19 ex_publish0 30%nat = (Ok (20, m), 29%nat) /\
    msg_total_len m = 2 /\ msg_buffer m = Some [104] /\
    pub_found ex_publish_wire 19 20 ex_publish0 m.
Proof.
  eexists. split; [vm_compute; reflexivity|]. split; [reflexivity|]. split; [reflexivity|].
  exact (proj1 (MqttDecode_Publish_sound ex_publish_wire 19 ex_publish0 30%nat ltac:(by_eval))).
Defined.

(** The payload length is a [word32] in the structure and an [int] in the
    encoder: a message of 2^32 - 1 bytes delivered by a callback is accepted,
    and its header announces a Remaining Length of 2, less than the variable
    header alone. *)
Theorem MqttEncode_Publish_wraps :
  exists m tx_buf_len bs m',
    msg_total_len m = 4294967295 /\ len (pub_vars m) = 3 /\
    MqttEncode_Publish tx_buf_len m true = Ok (5, bs, m') /\
    bs = header_bytes MQTT_PACKET_TYPE_PUBLISH 0 0 0 2 ++ pub_vars m.
Proof.
  exists (mkMessage 0 0 0 0 0 (Some [97]) 1 4294967295 None 0 0 0 0 0 [] 4), 64.
  eexists _, _. split; [reflexivity|]. split; [reflexivity|]. split; vm_compute; reflexivity.
Qed.
