(* ===== verification/Filters.v ===== *)
(** * Filters: what SUBSCRIBE and UNSUBSCRIBE share ([mqtt_packet.c])

    Both packets carry a packet identifier, properties and a list of topic
    filters. Their encoders check the filters the same way, and their decoders
    differ in the loop over the payload only: the class [FilterPayload] states
    what that loop promises, and the two decoders are proved against it. The
    array [topics] of the structures is a list; a decoder reports the elements
    it has filled in. *)
From S2P Require Import Prelude PacketDefs Wire Topic FixedHeader Props Frame.

(** [topics[0 .. topic_count - 1]], the elements the loops visit. *)
Definition topics_used (topic_count : Z) (topics : list MqttTopic) : result (list MqttTopic) :=
  if topic_count <=? len topics then Ok (take (Z.to_nat topic_count) topics) else UB.

(** The checks of one topic filter and its length. [qos_ok] is the test of the
    requested QoS, which an UNSUBSCRIBE does not have. *)
Definition topic_filter_len (protocol_level : Z) (filter : option (list Z)) (qos_ok : bool)
    : result Z :=
  match filter with
  | None => Err MQTT_CODE_ERROR_BAD_ARG
  | Some topic_filter =>
    let str_len := XSTRLEN topic_filter in
    if 65535 <? str_len then Err MQTT_CODE_ERROR_BAD_ARG
    else if negb qos_ok then Err MQTT_CODE_ERROR_BAD_ARG
    else
      ok ← MqttPacket_TopicFilterValid_ex (Some topic_filter) (u16 str_len) protocol_level;
      if negb ok then Err MQTT_CODE_ERROR_MALFORMED_DATA
      else
        ok ← MqttEncode_Utf8Ok (Some topic_filter) str_len;
        if negb ok then Err MQTT_CODE_ERROR_MALFORMED_DATA else Ok str_len
  end.

(** The [packet_id], the properties and the payload that SUBSCRIBE and
    UNSUBSCRIBE share: [read] is the loop over the payload. *)
Definition decode_filters {T} (packet : Z) (rx_buf : list Z) (rx_buf_len protocol_level : Z)
    (read : list Z -> Z -> Z -> Z -> result (list T))
    : M (Z * Z * list T * list MqttProp) :=
  if rx_buf_len <=? 0 then throw MQTT_CODE_ERROR_BAD_ARG
  else
    fh ← lift (MqttDecode_FixedHeader rx_buf rx_buf_len packet);
    let header_len := fh_header_len fh in
    let remain_len := fh_remain_len fh in
    if rx_buf_len <? header_len + remain_len then throw MQTT_CODE_ERROR_OUT_OF_BUFFER
    else
      let rx_end := header_len + remain_len in
      '(packet_id, tmp) ← lift (MqttDecode_Num rx_buf header_len (u32 (rx_buf_len - header_len)));
      if packet_id =? 0 then throw MQTT_CODE_ERROR_PACKET_ID
      else
        let rx_payload := header_len + tmp in
        '(props, n) ←
          (if MQTT_CONNECT_PROTOCOL_LEVEL_5 <=? protocol_level then
             if rx_buf_len <? rx_payload then throw MQTT_CODE_ERROR_OUT_OF_BUFFER
             else read_props packet rx_buf rx_payload rx_buf_len (fun _ _ => None)
           else mret ([], 0));
        topics ← freeing props (lift (read rx_buf (rx_payload + n) rx_end protocol_level));
        mret (header_len + remain_len, packet_id, topics, props).

(** ** Encoding *)

(** The characters of a filter. *)
Definition filter_of (t : MqttTopic) : list Z := cstr (default [] (topic_filter t)).

(** A filter that is accepted at this protocol level. *)
Definition filter_accepted (level : Z) (filter : option (list Z)) : Prop :=
  is_Some filter /\ len (cstr (default [] filter)) <= 65535 /\
  filter_ok_at level (cstr (default [] filter)) /\ utf8_text (cstr (default [] filter)).

Lemma topic_filter_len_settles level filter qos_ok :
  bytes (default [] filter) ->
  settles (topic_filter_len level filter qos_ok)
    (qos_ok = true /\ filter_accepted level filter)
    (fun n => n = len (cstr (default [] filter))).
Proof.
  intros Hb. unfold topic_filter_len, filter_accepted.
  destruct filter as [s|]; last first.
  { apply settles_err; [lia|]. intros (_ & [? ?] & _). done. }
  change (default [] (Some s)) with s in *. assert (Hsome : is_Some (Some s)) by done.
  pose proof (cstr_len s) as Hl. pose proof (XSTRLEN_bound s).
  destruct (Z.ltb_spec 65535 (XSTRLEN s)); [apply settles_err; intuition lia|].
  destruct qos_ok; cbn [negb]; [|apply settles_err; [lia|]; by intros [? _]].
  rewrite u16_small by lia.
  pose proof (MqttPacket_TopicFilterValid_ex_decides (cstr s) (drop (Z.to_nat (XSTRLEN s)) s)
    (XSTRLEN s) level Hl ltac:(lia)) as Hv.
  unfold cstr in Hv at 1. rewrite take_drop in Hv.
  eapply settles_iff; [|eapply settles_decides; [lia|exact Hv|]].
  2:{ intros _. apply (settles_decides _ _ _ (utf8_text (cstr s)) True); [lia| |].
    - apply (MqttEncode_Utf8Ok_decides _ (cstr s)); [lia| |by apply cstr_bytes].
      unfold field_bytes, cstr. cbn [str_ptr str_len]. by rewrite (proj2 (Z.leb_le _ _)) by lia.
    - intros _. by apply settles_ok. }
  intuition lia.
Qed.

Lemma topics_used_all {A} (ts : list MqttTopic) count (k : list MqttTopic -> result A) :
  count = len ts -> (topics_used count ts ≫= k) = k ts.
Proof.
  intros ->. unfold topics_used. rewrite Z.leb_refl. cbn [mbind result_bind].
  unfold len. by rewrite Nat2Z.id, firstn_all.
Qed.

(** The end that SUBSCRIBE and UNSUBSCRIBE encoders share: packet identifier,
    properties and payload. *)
Lemma filters_write_answers tx_buf_len packet level id ps remain_len payload P bs :
  0 <= id < 65536 -> Forall prop_rep ps -> answers payload P (len bs) bs ->
  remain_len = 2 + len bs -> len bs <= 1073774592 ->
  let head := MqttEncode_Num true id in
  let body := be16 id ++
    (if MQTT_CONNECT_PROTOCOL_LEVEL_5 <=? level then props_block ps else []) ++ bs in
  answers
    (if MQTT_CONNECT_PROTOCOL_LEVEL_5 <=? level then
       '(props_len, tmp_len) ← props_length packet ps;
       write_packet tx_buf_len (remain_len + props_len + tmp_len) packet 0 MQTT_QOS_1 0
         (head +++ write_props packet ps props_len +++ payload)
     else write_packet tx_buf_len remain_len packet 0 MQTT_QOS_1 0 (head +++ payload))
    ((MQTT_CONNECT_PROTOCOL_LEVEL_5 <= level -> props_ok packet ps) /\ P /\ room tx_buf_len body)
    (len (frame packet 0 MQTT_QOS_1 0 body)) (frame packet 0 MQTT_QOS_1 0 body).
Proof.
  intros Hid Hrep Hpay -> Hb. cbv zeta. rewrite MqttEncode_Num_eq by done. cbn [when].
  rewrite <- (Z.leb_le MQTT_CONNECT_PROTOCOL_LEVEL_5 level).
  destruct (MQTT_CONNECT_PROTOCOL_LEVEL_5 <=? level).
  - eapply answers_iff; [|apply props_length_answers; [done|]].
    2:{ intros Hok Hw. pose proof (props_bounds _ _ Hrep Hok) as [_ ?]. pose proof (props_block_len ps).
      apply write_packet_answers with (r := 2 + (len (props_block ps) + len bs)).
      - rewrite Hw. eapply (answers_app _ _ True); [by apply answers_ok|intros _].
        eapply (answers_app _ _ True); [by apply answers_ok|intros _; exact Hpay].
      - rewrite !len_app. change (len (be16 _)) with 2. lia.
      - rewrite !len_app. change (len (be16 _)) with 2. lia. }
    tauto.
  - rewrite app_nil_l.
    eapply answers_iff; [|apply write_packet_answers with (r := 2 + len bs)].
    2:{ eapply (answers_app _ _ True); [by apply answers_ok|intros _; exact Hpay]. }
    + intuition done.
    + rewrite len_app. by change (len (be16 _)) with 2.
    + rewrite len_app. change (len (be16 _)) with 2. lia.
Qed.

(** ** Decoding *)

(** The packet identifier, the properties and the filters as they are sent. *)
Definition filters_body {T} (wire : Z -> list T -> list Z) (level id : Z)
    (ps : list MqttProp) (ts : list T) : list Z :=
  be16 id ++ (if MQTT_CONNECT_PROTOCOL_LEVEL_5 <=? level then props_block ps else []) ++ wire level ts.

(** What the loop over the payload promises: it accepts the lists that are
    [payload_ok], exactly filling the packet, stays within it, and reports them
    as [payload_norm] says. *)
Class FilterPayload {T} (read : list Z -> Z -> Z -> Z -> result (list T)) := {
  payload_wire : Z -> list T -> list Z;
  payload_ok : Z -> list T -> Prop;
  payload_norm : Z -> list T -> list T;
  payload_read_yields rx_buf pos rx_end level :
    bytes rx_buf -> 0 <= pos -> rx_end <= len rx_buf -> rx_end < 2147483648 ->
    yields (read rx_buf pos rx_end level)
      (fun ts => payload_ok level ts /\ payload_norm level ts = ts /\
         sits rx_buf pos (payload_wire level ts) /\
         pos + len (payload_wire level ts) = rx_end);
  payload_read_sits rx_buf pos rx_end level ts :
    payload_ok level ts -> sits rx_buf pos (payload_wire level ts) -> 0 <= pos ->
    pos + len (payload_wire level ts) = rx_end -> rx_end < 2147483648 ->
    read rx_buf pos rx_end level = Ok (payload_norm level ts)
}.

Section Decode_filters.
Context {T} (read : list Z -> Z -> Z -> Z -> result (list T)) `{!FilterPayload read}.
Context (packet : Z) (Hpacket : fixed_qos packet = MQTT_QOS_1).

Lemma packet_range : 0 < packet < 16 /\ packet <> 3.
Proof using Hpacket.
  unfold fixed_qos in Hpacket. destruct (_ || _) eqn:E; [|done].
  rewrite !orb_true_iff, !Z.eqb_eq in E. lia.
Qed.

Lemma decode_filters_meets rx_buf rx_buf_len level n :
  rx_ok rx_buf rx_buf_len ->
  meets n (decode_filters packet rx_buf rx_buf_len level read) n
    (fun '(rc, id, ts, ps) n' =>
       0 < id < 65536 /\ payload_ok level ts /\ payload_norm level ts = ts /\ props_decoded packet ps /\
       (level < MQTT_CONNECT_PROTOCOL_LEVEL_5 -> ps = []) /\
       received rx_buf rx_buf_len
         (frame packet 0 MQTT_QOS_1 0 (filters_body payload_wire level id ps ts)) rc /\
       n = (n' + length ps)%nat).
Proof using Hpacket.
  intros Hrx. pose proof Hrx as (Hb & Hl & Hm). pose proof packet_range as [Hp0 Hp3].
  unfold decode_filters. apply meets_test; [lia|done|]. intros _.
  apply meets_bind, meets_lift; [|done].
  eapply yields_mono; [by apply MqttDecode_FixedHeader_fixed|].
  intros fh (Hf1 & Hf2 & Hf3 & _ & Hs & Hh). rewrite Hpacket in Hs. cbv zeta.
  apply meets_test; [lia|done|]. intros Hroom%Z.ltb_ge. rewrite u32_small by lia.
  apply meets_bind, meets_lift; [|done].
  eapply yields_mono; [apply MqttDecode_Num_yields; [done|lia|lia]|].
  intros [id tmp] (-> & H2 & Hid & Hsid).
  apply meets_test; [lia|done|]. intros Hid0%Z.eqb_neq.
  apply meets_bind. apply (meets_mono _ _ _ (fun '(ps, k) n' =>
    let bs := if MQTT_CONNECT_PROTOCOL_LEVEL_5 <=? level then props_block ps else [] in
    props_decoded packet ps /\ sits rx_buf (fh_header_len fh + 2) bs /\ k = len bs /\
    n = (n' + length ps)%nat /\ (level < MQTT_CONNECT_PROTOCOL_LEVEL_5 -> ps = []))).
  { destruct (Z.leb_spec MQTT_CONNECT_PROTOCOL_LEVEL_5 level).
    - apply meets_test; [lia|done|]. intros _.
      eapply meets_mono; [apply read_props_meets; try done; lia|].
      intros [ps k] n' (Hd & Hps & Hk & _ & _ & Hn & _). split_and!; try done. lia.
    - apply meets_ret. pose proof (props_decoded_nil packet). cbn [length].
      split_and!; try done; try lia. by apply sits_nil; lia. }
  intros [ps k] n' (Hd & Hps & -> & Hn & Hv4).
  apply meets_bind. apply (meets_mono _ _ _ (fun ts n'' => n'' = n' /\ payload_ok level ts /\
    payload_norm level ts = ts /\
    sits rx_buf (fh_header_len fh + 2 +
      len (if MQTT_CONNECT_PROTOCOL_LEVEL_5 <=? level then props_block ps else [])) (payload_wire level ts) /\
    fh_header_len fh + 2 + len (if MQTT_CONNECT_PROTOCOL_LEVEL_5 <=? level then props_block ps else []) +
      len (payload_wire level ts) = fh_header_len fh + fh_remain_len fh)).
  { apply meets_freeing; [|lia]. apply meets_lift; [|done].
    pose proof (len_nonneg (if MQTT_CONNECT_PROTOCOL_LEVEL_5 <=? level then props_block ps else [])).
    eapply yields_mono; [apply payload_read_yields; [done|lia..]|]. done. }
  intros ts n'' (-> & Hok & Hnorm & Hst & Hend). apply meets_ret. split_and!; try done; try lia.
  assert (Hbody : len (filters_body payload_wire level id ps ts) = fh_remain_len fh).
  { unfold filters_body. rewrite !len_app. change (len (be16 id)) with 2. lia. }
  apply received_frame; try done.
  unfold filters_body. apply sits_app. split; [done|]. change (len (be16 id)) with 2.
  apply sits_app. by split.
Qed.

Lemma decode_filters_sits rx_buf rx_buf_len level id ts ps n :
  0 < id < 65536 -> payload_ok level ts ->
  Forall prop_rep ps ->
  (if MQTT_CONNECT_PROTOCOL_LEVEL_5 <=? level then props_ok packet ps /\ auth_ok ps else ps = []) ->
  (length ps <= n)%nat ->
  len (filters_body payload_wire level id ps ts) <= MQTT_PACKET_MAX_REMAIN_LEN ->
  let w := frame packet 0 MQTT_QOS_1 0 (filters_body payload_wire level id ps ts) in
  received rx_buf rx_buf_len w (len w) -> rx_buf_len < 2147483648 ->
  decode_filters packet rx_buf rx_buf_len level read n =
    (Ok (len w, id, payload_norm level ts, map prop_norm ps), (n - length ps)%nat).
Proof using Hpacket.
  intros Hid Hok Hrep Hps Hn Hmax w Hrx Hm. pose proof packet_range as [Hp0 Hp3].
  pose proof (fixed_header_args packet Hp0 Hp3) as Ha. rewrite Hpacket in Ha.
  destruct (MqttDecode_FixedHeader_frame _ _ _ _ _ _ _ Ha Hmax Hrx Hm)
    as (h & Hh & Hw & Hr & _ & Hs & E).
  unfold decode_filters. rewrite (proj2 (Z.leb_gt rx_buf_len 0)) by (pose proof (len_nonneg (filters_body payload_wire level id ps ts)); lia).
  rewrite (run_lift _ _ _ _ E). cbn [fh_header_len fh_remain_len]. cbv zeta.
  unfold w. rewrite Hw. remember (filters_body payload_wire level id ps ts) as body eqn:Eb.
  rewrite (proj2 (Z.ltb_ge _ _)) by lia.
  unfold filters_body in Eb. pose proof (len_nonneg (payload_wire level ts)) as Hpw.
  assert (Hb : len body = 2 + len (if MQTT_CONNECT_PROTOCOL_LEVEL_5 <=? level then props_block ps else [])
     + len (payload_wire level ts)).
  { rewrite Eb, !len_app. change (len (be16 id)) with 2. lia. }
  pose proof (len_nonneg (if MQTT_CONNECT_PROTOCOL_LEVEL_5 <=? level then props_block ps else [])) as Hpp.
  rewrite Eb in Hs. apply sits_app in Hs as [Hs1 Hs2]. change (len (be16 id)) with 2 in Hs2.
  apply sits_app in Hs2 as [Hs2 Hs3]. rewrite u32_small by lia.
  rewrite (run_lift _ _ _ _ (MqttDecode_Num_sits _ _ (rx_buf_len - h) id ltac:(lia) Hs1 ltac:(lia))).
  rewrite (proj2 (Z.eqb_neq id 0)) by lia. clear E Eb Hmax Hrx.
  destruct (MQTT_CONNECT_PROTOCOL_LEVEL_5 <=? level).
  - rewrite (proj2 (Z.ltb_ge _ _)) by lia. destruct Hps as [Hpo Hau].
    erewrite run_bind; [|apply (read_props_sits _ _ _ _ _ _ ps); try done; lia].
    unfold mbind, M_bind, freeing, lift. by rewrite (payload_read_sits _ _ _ _ ts) by (done || lia).
  - subst ps. change (len []) with 0 in *. unfold mbind, M_bind, freeing, lift, mret, M_ret.
    rewrite (payload_read_sits _ _ _ _ ts) by (done || lia). cbn [length map]. by rewrite Nat.sub_0_r.
Qed.
End Decode_filters.
