(* ===== verification/Subscribe.v ===== *)
(** * Subscribe: SUBSCRIBE and SUBACK ([mqtt_packet.c])

    [MqttEncode_Subscribe], [MqttDecode_Subscribe] and
    [MqttDecode_SubscribeAck]. *)
From S2P Require Import Prelude PacketDefs Wire Topic FixedHeader Props Frame ReasonCodes Filters.

Fixpoint subscribe_len_loop (protocol_level : Z) (topics : list MqttTopic) (remain_len : Z)
    : result Z :=
  match topics with
  | [] => Ok remain_len
  | topic :: topics =>
    str_len ← topic_filter_len protocol_level (topic_filter topic) (topic_qos topic <=? MQTT_QOS_2);
    subscribe_len_loop protocol_level topics (remain_len + (str_len + MQTT_DATA_LEN_SIZE) + 1)
  end.

(** The options byte of one topic. *)
Definition subscribe_options (protocol_level : Z) (topic : MqttTopic) : result Z :=
  let options := u8 (topic_qos topic) in
  let sub_options := topic_sub_options topic in
  if MQTT_CONNECT_PROTOCOL_LEVEL_5 <=? protocol_level then
    if negb (Z.land sub_options (Z.lnot MQTT_SUBSCRIBE_OPTIONS_MASK) =? 0) ||
       (Z.land (Z.shiftr sub_options 4) 3 =? 3)
    then Err MQTT_CODE_ERROR_MALFORMED_DATA
    else
      shared ← (if negb (Z.land sub_options MQTT_SUBSCRIBE_NO_LOCAL =? 0) then
                  MqttPacket_TopicFilterIsShared (topic_filter topic)
                    (u16 (XSTRLEN (default [] (topic_filter topic))))
                else Ok false);
      if shared : bool then Err MQTT_CODE_ERROR_MALFORMED_DATA
      else Ok (Z.lor options (u8 (Z.land sub_options MQTT_SUBSCRIBE_OPTIONS_MASK)))
  else Ok options.

Fixpoint subscribe_write_loop (protocol_level : Z) (topics : list MqttTopic) : emit :=
  match topics with
  | [] => Ok (0, [])
  | topic :: topics =>
    must (MqttEncode_String true (default [] (topic_filter topic))) +++
    (options ← subscribe_options protocol_level topic; Ok (1, [options])) +++
    subscribe_write_loop protocol_level topics
  end.

Definition MqttEncode_Subscribe (tx_buf_len : Z) (subscribe : MqttSubscribe) : emit :=
  let level := sub_protocol_level subscribe in
  if sub_packet_id subscribe =? 0 then Err MQTT_CODE_ERROR_PACKET_ID
  else if sub_topic_count subscribe <=? 0 then Err MQTT_CODE_ERROR_BAD_ARG
  else
    topics ← topics_used (sub_topic_count subscribe) (sub_topics subscribe);
    remain_len ← subscribe_len_loop level topics MQTT_DATA_LEN_SIZE;
    let head := MqttEncode_Num true (sub_packet_id subscribe) in
    let payload := subscribe_write_loop level topics in
    if MQTT_CONNECT_PROTOCOL_LEVEL_5 <=? level then
      '(props_len, tmp_len) ← props_length MQTT_PACKET_TYPE_SUBSCRIBE (sub_props subscribe);
      write_packet tx_buf_len (remain_len + props_len + tmp_len) MQTT_PACKET_TYPE_SUBSCRIBE
        0 MQTT_QOS_1 0
        (head +++ write_props MQTT_PACKET_TYPE_SUBSCRIBE (sub_props subscribe) props_len +++ payload)
    else
      write_packet tx_buf_len remain_len MQTT_PACKET_TYPE_SUBSCRIBE 0 MQTT_QOS_1 0
        (head +++ payload).

(** The test of a received options byte. *)
Definition subscribe_options_bad (protocol_level options : Z) (topic_filter : list Z)
    (filter_len : Z) : result bool :=
  if MQTT_CONNECT_PROTOCOL_LEVEL_5 <=? protocol_level then
    if negb (Z.land options 192 =? 0) || (MQTT_QOS_2 <? Z.land options 3) ||
       (Z.land (Z.shiftr options 4) 3 =? 3)
    then Ok true
    else if negb (Z.land options MQTT_SUBSCRIBE_NO_LOCAL =? 0) then
      MqttPacket_TopicFilterIsShared (Some topic_filter) filter_len
    else Ok false
  else Ok (negb (Z.land options 252 =? 0) || (MQTT_QOS_2 <? Z.land options 3)).

(** The loop over the payload from [rx_payload] to [rx_end]; [topics] are the
    elements filled in so far. *)
Fixpoint subscribe_read_loop (fuel : nat) (rx_buf : list Z) (rx_payload rx_end : Z)
    (protocol_level : Z) (topics : list MqttTopic) : result (list MqttTopic) :=
  match fuel with
  | O => UB
  | S fuel =>
    if rx_payload <? rx_end then
      if MAX_MQTT_TOPICS <=? len topics then Err MQTT_CODE_ERROR_OUT_OF_BUFFER
      else
        '(filter, filter_len, tmp) ← MqttDecode_String rx_buf rx_payload (u32 (rx_end - rx_payload));
        if rx_end <? rx_payload + tmp then Err MQTT_CODE_ERROR_OUT_OF_BUFFER
        else
          ok ← MqttPacket_TopicFilterValid_ex (Some filter) filter_len protocol_level;
          if negb ok then Err MQTT_CODE_ERROR_MALFORMED_DATA
          else
            let rx_payload := rx_payload + tmp in
            if rx_end <=? rx_payload then Err MQTT_CODE_ERROR_OUT_OF_BUFFER
            else
              options ← rd rx_buf rx_payload;
              bad ← subscribe_options_bad protocol_level options filter filter_len;
              if bad : bool then Err MQTT_CODE_ERROR_MALFORMED_DATA
              else
                subscribe_read_loop fuel rx_buf (rx_payload + 1) rx_end protocol_level
                  (topics ++ [mkTopic (Some filter) (Z.land options 3)
                                (u8 (Z.land options MQTT_SUBSCRIBE_OPTIONS_MASK))])
    else Ok topics
  end.

(** Every round fills in an element and there are [MAX_MQTT_TOPICS] of them. *)
Definition subscribe_read (rx_buf : list Z) (rx_payload rx_end protocol_level : Z)
    : result (list MqttTopic) :=
  topics ← subscribe_read_loop (S (Z.to_nat MAX_MQTT_TOPICS)) rx_buf rx_payload rx_end
             protocol_level [];
  if len topics =? 0 then Err MQTT_CODE_ERROR_MALFORMED_DATA else Ok topics.

Definition MqttDecode_Subscribe (rx_buf : list Z) (rx_buf_len : Z) (subscribe : MqttSubscribe)
    : M (Z * MqttSubscribe) :=
  '(rc, packet_id, topics, props) ←
     decode_filters MQTT_PACKET_TYPE_SUBSCRIBE rx_buf rx_buf_len
       (sub_protocol_level subscribe) subscribe_read;
  mret (rc, mkSubscribe packet_id (len topics) topics props (sub_protocol_level subscribe)).

(** The loop over the return codes. *)
Fixpoint suback_codes_ok (codes : list Z) (level : Z) : bool :=
  match codes with
  | [] => true
  | c :: codes => MqttPacket_SubAckReturnCodeValid c level && suback_codes_ok codes level
  end.

Definition MqttDecode_SubscribeAck (rx_buf : list Z) (rx_buf_len : Z)
    (subscribe_ack : MqttSubscribeAck) : M (Z * MqttSubscribeAck) :=
  let level := sa_protocol_level subscribe_ack in
  if rx_buf_len <=? 0 then throw MQTT_CODE_ERROR_BAD_ARG
  else
    fh ← lift (MqttDecode_FixedHeader rx_buf rx_buf_len MQTT_PACKET_TYPE_SUBSCRIBE_ACK);
    let header_len := fh_header_len fh in
    let remain_len := fh_remain_len fh in
    if remain_len <? MQTT_DATA_LEN_SIZE then throw MQTT_CODE_ERROR_MALFORMED_DATA
    else
      '(packet_id, tmp) ← lift (MqttDecode_Num rx_buf header_len (u32 (rx_buf_len - header_len)));
      let rx_payload := header_len + tmp in
      '(props, n) ←
        (if (MQTT_CONNECT_PROTOCOL_LEVEL_5 <=? level) && (MQTT_DATA_LEN_SIZE <? remain_len) then
           if rx_buf_len <? rx_payload then throw MQTT_CODE_ERROR_OUT_OF_BUFFER
           else read_props MQTT_PACKET_TYPE_SUBSCRIBE_ACK rx_buf rx_payload rx_buf_len
                  (within (u32 (rx_buf_len - rx_payload)) MQTT_CODE_ERROR_OUT_OF_BUFFER)
         else mret ([], 0));
      let rx_payload := rx_payload + n in
      let payload_len := remain_len - (rx_payload - header_len) in
      let buf_remain := rx_buf_len - rx_payload in
      if (payload_len <? 0) || (buf_remain <? 0) || (buf_remain <? payload_len) then
        MqttProps_Free props ≫= fun _ => throw MQTT_CODE_ERROR_OUT_OF_BUFFER
      else
        let return_code_count := u16 (if 65535 <? payload_len then 65535 else payload_len) in
        let payload_len := if MAX_MQTT_TOPICS <? payload_len then MAX_MQTT_TOPICS else payload_len in
        codes ← lift (slice rx_buf rx_payload payload_len);
        if negb (suback_codes_ok codes level) then
          MqttProps_Free props ≫= fun _ => throw MQTT_CODE_ERROR_MALFORMED_DATA
        else
          mret (header_len + remain_len,
                mkSubscribeAck packet_id
                  (codes ++ replicate (Z.to_nat (MAX_MQTT_TOPICS - payload_len)) 0)
                  return_code_count props level).

(** ** The packet *)

Definition options_of (level : Z) (t : MqttTopic) : Z :=
  if MQTT_CONNECT_PROTOCOL_LEVEL_5 <=? level
  then Z.lor (topic_qos t) (Z.land (topic_sub_options t) MQTT_SUBSCRIBE_OPTIONS_MASK)
  else topic_qos t.

Definition topic_wire (level : Z) (t : MqttTopic) : list Z :=
  counted (filter_of t) ++ [options_of level t].

Definition topics_wire (level : Z) (ts : list MqttTopic) : list Z :=
  concat (map (topic_wire level) ts).

Definition sub_body (s : MqttSubscribe) : list Z :=
  be16 (sub_packet_id s) ++
  (if MQTT_CONNECT_PROTOCOL_LEVEL_5 <=? sub_protocol_level s
   then props_block (sub_props s) else []) ++
  topics_wire (sub_protocol_level s) (sub_topics s).

Definition sub_wire (s : MqttSubscribe) : list Z :=
  frame MQTT_PACKET_TYPE_SUBSCRIBE 0 MQTT_QOS_1 0 (sub_body s).

(** MQTT 3.8.3.1: at level 5 the subscription options leave bits 6 and 7 and
    Retain Handling 3 unused, and No Local excludes a shared subscription. *)
Definition options_ok (level : Z) (t : MqttTopic) : Prop :=
  topic_qos t <= MQTT_QOS_2 /\
  (MQTT_CONNECT_PROTOCOL_LEVEL_5 <= level ->
   topic_sub_options t mod 4 = 0 /\ topic_sub_options t < 48 /\
   (Z.testbit (topic_sub_options t) 2 = true -> ~ share_prefix `prefix_of` filter_of t)).

Definition topic_ok (level : Z) (t : MqttTopic) : Prop :=
  filter_accepted level (topic_filter t) /\ options_ok level t.

Definition topic_rep (t : MqttTopic) : Prop :=
  bytes (default [] (topic_filter t)) /\ 0 <= topic_qos t < 256 /\ is_byte (topic_sub_options t).

(** A list of topics as the encoder gets it; the bound keeps the lengths
    within [int]. *)
Definition sub_rep (s : MqttSubscribe) : Prop :=
  0 <= sub_packet_id s < 65536 /\ sub_topic_count s = len (sub_topics s) /\
  sub_topic_count s <= 16384 /\ Forall topic_rep (sub_topics s) /\ Forall prop_rep (sub_props s).

Definition sub_ok (s : MqttSubscribe) : Prop :=
  sub_packet_id s <> 0 /\ sub_topics s <> [] /\
  Forall (topic_ok (sub_protocol_level s)) (sub_topics s) /\
  (MQTT_CONNECT_PROTOCOL_LEVEL_5 <= sub_protocol_level s ->
   props_ok MQTT_PACKET_TYPE_SUBSCRIBE (sub_props s)).

(** ** Encoding *)

(** The options byte, checked on all the values of its parts. *)
Lemma sub_options_bits so :
  is_byte so ->
  (negb (Z.land so (Z.lnot MQTT_SUBSCRIBE_OPTIONS_MASK) =? 0) || (Z.land (Z.shiftr so 4) 3 =? 3) = false <->
   so mod 4 = 0 /\ so < 48) /\
  negb (Z.land so MQTT_SUBSCRIBE_NO_LOCAL =? 0) = Z.testbit so 2 /\
  is_byte (Z.land so MQTT_SUBSCRIBE_OPTIONS_MASK).
Proof.
  intros Hb.
  pose proof (byte_enum (fun so =>
    Bool.eqb (negb (Z.land so (Z.lnot 60) =? 0) || (Z.land (Z.shiftr so 4) 3 =? 3))
      (negb ((so mod 4 =? 0) && (so <? 48))) &&
    Bool.eqb (negb (Z.land so 4 =? 0)) (Z.testbit so 2) &&
    (0 <=? Z.land so 60) && (Z.land so 60 <? 256)) so eq_refl Hb) as H.
  rewrite !andb_true_iff in H. destruct H as [[[H1 H2%Bool.eqb_prop] H3] H4].
  apply Bool.eqb_prop in H1. rewrite H1, negb_false_iff, andb_true_iff, Z.eqb_eq, Z.ltb_lt.
  unfold is_byte. tests. done.
Qed.

Lemma subscribe_options_settles level t :
  topic_rep t -> filter_accepted level (topic_filter t) -> topic_qos t <= MQTT_QOS_2 ->
  settles (subscribe_options level t) (options_ok level t) (fun o => o = options_of level t).
Proof.
  intros (Hb & Hq & Hso) ([f Hf] & Hl & _) Hq2. unfold subscribe_options, options_ok, options_of.
  unfold filter_of. rewrite Hf in *. change (default [] (Some f)) with f in *.
  rewrite <- (Z.leb_le MQTT_CONNECT_PROTOCOL_LEVEL_5 level), u8_small by lia.
  destruct (_ <=? _); [|apply settles_ok; [split; done|done]].
  destruct (sub_options_bits _ Hso) as (H1 & H2 & H3).
  destruct (_ || _); [apply settles_err; [lia|]|].
  { intros [_ H]. destruct (H eq_refl) as (? & ? & _). assert (true = false) by (by apply H1); done. }
  destruct (proj1 H1 eq_refl) as [Hm Hlt]. rewrite H2, (u8_small (Z.land _ _)) by (by unfold is_byte in H3).
  destruct (Z.testbit (topic_sub_options t) 2) eqn:Et.
  - rewrite u16_small by (pose proof (XSTRLEN_bound f); rewrite cstr_len in Hl; lia).
    pose proof (MqttPacket_TopicFilterIsShared_decides (cstr f) (drop (Z.to_nat (XSTRLEN f)) f)
      (XSTRLEN f) (cstr_len f)) as Hd. unfold cstr in Hd at 1. rewrite take_drop in Hd.
    apply (decides_bind _ _ _ (fun r => settles r _ _) Hd); intros Hs.
    + apply settles_err; [lia|]. intros [_ H]. destruct (H eq_refl) as (_ & _ & Hn). by apply Hn.
    + by apply settles_ok.
  - apply settles_ok; [|done]. by split.
Qed.

Lemma topics_wire_cons level t ts : topics_wire level (t :: ts) = topic_wire level t ++ topics_wire level ts.
Proof. done. Qed.

Lemma topic_wire_len level t :
  len (filter_of t) <= 65535 -> 3 <= len (topic_wire level t) <= 65538.
Proof.
  intros Hl. unfold topic_wire. rewrite len_app, counted_len. change (len [_]) with 1.
  pose proof (len_nonneg (filter_of t)). lia.
Qed.

Lemma topics_wire_len level ts :
  Forall (fun t => filter_accepted level (topic_filter t)) ts ->
  3 * len ts <= len (topics_wire level ts) <= 65538 * len ts.
Proof.
  induction 1 as [|t ts (_ & Hl & _) _ IH]; [by vm_compute|].
  rewrite topics_wire_cons, len_app, (len_cons t). pose proof (topic_wire_len level t Hl). lia.
Qed.

Definition lengths_ok (level : Z) (t : MqttTopic) : Prop :=
  filter_accepted level (topic_filter t) /\ topic_qos t <= MQTT_QOS_2.

(** The first loop adds up what the second one writes. *)
Lemma subscribe_len_loop_settles level ts remain_len :
  Forall topic_rep ts ->
  settles (subscribe_len_loop level ts remain_len) (Forall (lengths_ok level) ts)
    (fun n => n = remain_len + len (topics_wire level ts)).
Proof.
  intros Hrep. revert remain_len. induction Hrep as [|t ts Ht Hts IH]; intros remain_len.
  { apply settles_ok; [constructor|]. change (len (topics_wire level [])) with 0. lia. }
  cbn [subscribe_len_loop].
  eapply settles_iff; [|eapply settles_bind; [apply topic_filter_len_settles; apply Ht|]].
  2:{ intros n (_ & Hf) ->. eapply settles_mono; [apply IH|]. intros n ->.
    rewrite topics_wire_cons, len_app. unfold topic_wire. rewrite len_app, counted_len.
    change (len [_]) with 1. unfold filter_of. lia. }
  rewrite Z.leb_le. unfold lengths_ok at 1. split.
  - intros H. inversion H; subst. tauto.
  - intros [[? ?] ?]. by constructor.
Qed.

Lemma subscribe_write_loop_answers level ts :
  Forall topic_rep ts -> Forall (lengths_ok level) ts ->
  answers (subscribe_write_loop level ts) (Forall (options_ok level) ts)
    (len (topics_wire level ts)) (topics_wire level ts).
Proof.
  intros Hrep Hl. induction Hrep as [|t ts Ht Hts IH]; [by left|].
  inversion Hl as [|? ? [Hf Hq] Hl']; subst.
  cbn [subscribe_write_loop]. pose proof Hf as ([f Hs] & Hlen & _).
  rewrite Hs in *. change (default [] (Some f)) with f in *. rewrite must_String by done.
  destruct (subscribe_options_settles level t Ht ltac:(by rewrite Hs) Hq)
    as [(Ho & o & -> & ->)|(Ho & rc & Hrc & ->)].
  - cbn [mbind result_bind].
    destruct (IH Hl') as [(Hos & E)|(Hos & rc & Hrc & E)]; rewrite E.
    + left. split; [by constructor|]. unfold emit_app. cbn [mbind result_bind].
      rewrite topics_wire_cons, len_app. unfold topic_wire, filter_of. rewrite Hs.
      change (default [] (Some f)) with f. rewrite len_app, counted_len, <- !app_assoc.
      change (len [_]) with 1. do 2 f_equal. lia.
    + right. split; [|by exists rc]. intros H. by inversion H.
  - right. split; [|by exists rc]. intros H. by inversion H.
Qed.

Lemma MqttEncode_Subscribe_answers tx_buf_len s :
  sub_rep s ->
  answers (MqttEncode_Subscribe tx_buf_len s)
    (sub_ok s /\ room tx_buf_len (sub_body s)) (len (sub_wire s)) (sub_wire s).
Proof.
  intros (Hid & Hc & Hmax & Hts & Hps). unfold MqttEncode_Subscribe, sub_ok.
  destruct (Z.eqb_spec (sub_packet_id s) 0); [apply answers_err; [lia|tauto]|].
  destruct (Z.leb_spec (sub_topic_count s) 0).
  { apply answers_err; [lia|]. intros ((_ & Hne & _) & _). apply Hne.
    destruct (sub_topics s) as [|t ts]; [done|]. rewrite len_cons in Hc. pose proof (len_nonneg ts). lia. }
  rewrite topics_used_all by done.
  assert (Hne : sub_topics s <> []) by (intros E; rewrite E in Hc; change (len []) with 0 in Hc; lia).
  assert (Hsplit : forall ts, Forall (topic_ok (sub_protocol_level s)) ts <->
    Forall (lengths_ok (sub_protocol_level s)) ts /\ Forall (options_ok (sub_protocol_level s)) ts).
  { intros ts. rewrite <- list.Forall_and. apply list.Forall_iff. intros t.
    unfold topic_ok, lengths_ok, options_ok. tauto. }
  rewrite Hsplit.
  destruct (subscribe_len_loop_settles (sub_protocol_level s) (sub_topics s) MQTT_DATA_LEN_SIZE Hts)
    as [(Hlen & rl & -> & ->)|(Hno & rc & Hrc & ->)]; [|apply answers_err; [done|tauto]].
  cbn [mbind result_bind].
  pose proof (topics_wire_len (sub_protocol_level s) (sub_topics s)) as Hb.
  eapply answers_iff; [|apply filters_write_answers; [done|done|by apply subscribe_write_loop_answers|done|]].
  - unfold sub_body. tauto.
  - apply Z.le_trans with (65538 * len (sub_topics s)); [|lia]. apply Hb.
    eapply list.Forall_impl; [exact Hlen|]. by intros t [? _].
Qed.

(** ** Decoding *)

(** A topic as the decoder leaves it: the subscription options of an MQTT
    v3.1.1 packet are zero. *)
Definition topic_norm (level : Z) (t : MqttTopic) : MqttTopic :=
  mkTopic (Some (filter_of t)) (topic_qos t)
    (if MQTT_CONNECT_PROTOCOL_LEVEL_5 <=? level then topic_sub_options t else 0).

(** The topic read from a filter and an options byte. *)
Definition topic_read (filter : list Z) (options : Z) : MqttTopic :=
  mkTopic (Some filter) (Z.land options 3) (u8 (Z.land options MQTT_SUBSCRIBE_OPTIONS_MASK)).

(** The parts of an options byte, and an options byte from its parts. *)
Lemma options_bits o :
  is_byte o ->
  0 <= Z.land o 3 <= 3 /\ is_byte (Z.land o 60) /\ Z.land o 60 mod 4 = 0 /\
  Z.testbit (Z.land o 60) 2 = negb (Z.land o 4 =? 0) /\
  (Z.land o 192 = 0 <-> Z.lor (Z.land o 3) (Z.land (Z.land o 60) 60) = o) /\
  (Z.land o 252 = 0 <-> Z.land o 3 = o) /\
  (Z.land (Z.shiftr o 4) 3 <> 3 <-> Z.land o 60 < 48).
Proof.
  intros Hb.
  pose proof (byte_enum (fun o =>
    (0 <=? Z.land o 3) && (Z.land o 3 <=? 3) && (0 <=? Z.land o 60) && (Z.land o 60 <? 256) &&
    (Z.land o 60 mod 4 =? 0) &&
    Bool.eqb (Z.testbit (Z.land o 60) 2) (negb (Z.land o 4 =? 0)) &&
    Bool.eqb (Z.land o 192 =? 0) (Z.lor (Z.land o 3) (Z.land (Z.land o 60) 60) =? o) &&
    Bool.eqb (Z.land o 252 =? 0) (Z.land o 3 =? o) &&
    Bool.eqb (negb (Z.land (Z.shiftr o 4) 3 =? 3)) (Z.land o 60 <? 48)) o eq_refl Hb) as H.
  rewrite !andb_true_iff in H. destruct H as [[[[[H H5] H6] H7] H8] H9].
  apply Bool.eqb_prop in H6, H7, H8, H9. tests. unfold is_byte. split_and!; try lia; try done.
Qed.

Lemma options_parts q so :
  0 <= q <= 2 -> is_byte so -> so mod 4 = 0 -> so < 48 ->
  is_byte (Z.lor q (Z.land so 60)) /\ Z.land (Z.lor q (Z.land so 60)) 3 = q /\
  Z.land (Z.lor q (Z.land so 60)) 60 = so /\ Z.land q 3 = q /\ Z.land q 60 = 0.
Proof.
  intros Hq Hb Hm Hl.
  pose proof (byte_enum (fun so => implb ((so mod 4 =? 0) && (so <? 48)) (
    forallb (fun q => (0 <=? Z.lor q (Z.land so 60)) && (Z.lor q (Z.land so 60) <? 256) &&
      (Z.land (Z.lor q (Z.land so 60)) 3 =? q) && (Z.land (Z.lor q (Z.land so 60)) 60 =? so) &&
      (Z.land q 3 =? q) && (Z.land q 60 =? 0)) [0; 1; 2])) so eq_refl Hb) as H.
  cbv beta in H. rewrite (proj2 (Z.eqb_eq _ _) Hm), (proj2 (Z.ltb_lt _ _) Hl) in H.
  cbn [andb implb] in H. rewrite forallb_forall in H.
  assert (Hin : In q [0; 1; 2]) by (simpl; lia). apply H in Hin. rewrite !andb_true_iff in Hin.
  destruct Hin as [[[[[? ?] ?] ?] ?] ?]. tests. done.
Qed.

(** The test of the options byte is the one the encoder makes of the topic. *)
Lemma subscribe_options_bad_decides level options s :
  is_byte options -> utf8_text s ->
  decides (subscribe_options_bad level options s (len s))
    (~ (options_ok level (topic_read s options) /\ options_of level (topic_read s options) = options)).
Proof.
  intros Hb Ht%utf8_text_nonzero%cstr_id. unfold subscribe_options_bad, options_ok, options_of, filter_of.
  cbn [topic_read topic_filter topic_qos topic_sub_options]. change (default [] (Some s)) with s. rewrite Ht.
  destruct (options_bits options Hb) as (H3 & H60 & Hm & Hbit & H192 & H252 & H48).
  rewrite u8_small by done.
  destruct (Z.leb_spec MQTT_CONNECT_PROTOCOL_LEVEL_5 level) as [Hv|Hv]; last first.
  { eexists; split; [done|]. destruct (Z.eqb_spec (Z.land options 252) 0) as [E|E].
    - cbn [negb orb]. rewrite Z.ltb_lt, <- H252. intuition lia.
    - cbn [negb orb]. rewrite H252 in E. intuition. }
  rewrite Hm, Hbit, <- H192, <- H48.
  destruct (Z.eqb_spec (Z.land options 192) 0) as [E1|E1]; cbn [negb orb]; [|apply decides_true; tauto].
  destruct (Z.ltb_spec MQTT_QOS_2 (Z.land options 3)) as [E2|E2]; cbn [orb]; [apply decides_true; lia|].
  destruct (Z.eqb_spec (Z.land (Z.shiftr options 4) 3) 3) as [E3|E3].
  { apply decides_true. intros [(_ & H) _]. destruct (H Hv) as (_ & ? & _). done. }
  destruct (negb (Z.land options MQTT_SUBSCRIBE_NO_LOCAL =? 0)) eqn:E4.
  - pose proof (MqttPacket_TopicFilterIsShared_decides s [] (len s) eq_refl) as Hd.
    rewrite app_nil_r in Hd. destruct Hd as (b & -> & Hbs). exists b. split; [done|].
    rewrite Hbs. split.
    + intros Hs [[_ H] _]. destruct (H Hv) as (_ & _ & Hn). by apply Hn.
    + intros Hn. destruct (decide (share_prefix `prefix_of` s)) as [?|Hs]; [done|].
      by destruct Hn; split_and!.
  - apply decides_false. intros Hn. apply Hn. by split_and!.
Qed.

(** What SUBSCRIBE may carry, and what the decoder reports of it. *)
Definition topics_ok (level : Z) (ts : list MqttTopic) : Prop :=
  ts <> [] /\ len ts <= MAX_MQTT_TOPICS /\ Forall (fun t => topic_ok level t /\ topic_rep t) ts.

Definition topic_found (level : Z) (t : MqttTopic) : Prop :=
  (topic_ok level t /\ topic_rep t) /\ topic_norm level t = t.

Lemma topic_read_norm level t :
  topic_ok level t -> topic_rep t ->
  topic_read (filter_of t) (options_of level t) = topic_norm level t /\ is_byte (options_of level t).
Proof.
  intros (_ & Hq & Ho) (_ & Hq0 & Hso). unfold topic_read, topic_norm, options_of.
  destruct (Z.leb_spec MQTT_CONNECT_PROTOCOL_LEVEL_5 level) as [Hv|Hv].
  - destruct (Ho Hv) as (Hm & Hl & _).
    destruct (options_parts (topic_qos t) (topic_sub_options t)) as (H1 & -> & -> & _); [lia|done|done|done|].
    rewrite u8_small by done. by split.
  - split; [|unfold is_byte; lia]. destruct (options_parts (topic_qos t) 0) as (_ & _ & _ & -> & ->); [lia|done..].
Qed.

Lemma topic_read_found level filter options :
  is_byte options -> bytes filter -> utf8_text filter -> len filter <= 65535 ->
  filter_ok_at level filter -> options_ok level (topic_read filter options) ->
  options_of level (topic_read filter options) = options ->
  topic_found level (topic_read filter options) /\
  topic_wire level (topic_read filter options) = counted filter ++ [options].
Proof.
  intros Hb Hf Ht Hl Hok Ho Eo. destruct (options_bits options Hb) as (H3 & H60 & _).
  assert (Hc : filter_of (topic_read filter options) = filter).
  { unfold filter_of, topic_read. cbn. by apply cstr_id, utf8_text_nonzero. }
  assert (Hrep : topic_rep (topic_read filter options)).
  { split; [done|]. cbn. rewrite u8_small by done. split; [lia|done]. }
  assert (Htop : topic_ok level (topic_read filter options)).
  { split; [|done]. unfold filter_accepted. unfold filter_of in Hc. rewrite Hc. done. }
  destruct (topic_read_norm level _ Htop Hrep) as [Hn _]. rewrite Hc, Eo in Hn.
  split; [by split|]. unfold topic_wire. by rewrite Hc, Eo.
Qed.

(** The payload read from [pos] on. *)
Definition topics_at (level : Z) (rx_buf : list Z) (pos rx_end : Z) (ts : list MqttTopic) : Prop :=
  ts = [] /\ rx_end <= pos \/
  ts <> [] /\ sits rx_buf pos (topics_wire level ts) /\ pos + len (topics_wire level ts) = rx_end.

Lemma topics_at_cons level rx_buf pos rx_end t ts :
  sits rx_buf pos (topic_wire level t) -> pos + len (topic_wire level t) <= rx_end ->
  topics_at level rx_buf (pos + len (topic_wire level t)) rx_end ts ->
  topics_at level rx_buf pos rx_end (t :: ts).
Proof.
  intros Hs Hl Hts. right. rewrite topics_wire_cons, len_app, sits_app. split; [done|].
  destruct Hts as [[-> Hp]|(_ & Hst & He)].
  - change (topics_wire level []) with (@nil Z). change (len []) with 0.
    split; [split; [done|]|lia]. apply sits_nil. pose proof (sits_bound _ _ _ Hs).
    pose proof (len_nonneg (topic_wire level t)). lia.
  - split; [done|]. lia.
Qed.

Lemma subscribe_read_loop_yields fuel rx_buf pos rx_end level topics :
  bytes rx_buf -> 0 <= pos -> rx_end <= len rx_buf -> rx_end < 2147483648 ->
  MAX_MQTT_TOPICS - len topics < Z.of_nat fuel -> len topics <= MAX_MQTT_TOPICS ->
  yields (subscribe_read_loop fuel rx_buf pos rx_end level topics)
    (fun out => exists ts, out = topics ++ ts /\ len out <= MAX_MQTT_TOPICS /\
       Forall (topic_found level) ts /\ topics_at level rx_buf pos rx_end ts).
Proof.
  intros Hb. revert pos topics. induction fuel as [|fuel IH]; intros pos topics Hp Hl Hm Hf Hc; [lia|].
  cbn [subscribe_read_loop]. destruct (Z.ltb_spec pos rx_end) as [Hlt|Hge]; last first.
  { exists []. rewrite app_nil_r. split_and!; try done. by left. }
  destruct (Z.leb_spec MAX_MQTT_TOPICS (len topics)); [done|]. rewrite u32_small by lia.
  apply yields_bind. eapply yields_mono; [apply MqttDecode_String_yields; [done|lia..]|].
  intros [[s l] tmp] (Hs & -> & -> & Hls & Hle & Ht & Hbs). cbv zeta.
  destruct (Z.ltb_spec rx_end (pos + (2 + len s))); [done|].
  pose proof (MqttPacket_TopicFilterValid_ex_decides s [] (len s) level eq_refl ltac:(lia)) as Hd.
  rewrite app_nil_r in Hd. destruct Hd as (ok & -> & Hok). cbn [mbind result_bind].
  destruct ok; cbn [negb]; [|done]. assert (Hfok : filter_ok_at level s) by by apply Hok.
  destruct (Z.leb_spec rx_end (pos + (2 + len s))); [done|].
  apply yields_bind, rd_yields; [lia|]. intros o Eo.
  pose proof (rd_byte _ _ _ Hb Eo) as Hob. apply sits_rd in Eo.
  destruct (subscribe_options_bad_decides level o s Hob Ht) as (bad & -> & Hbad).
  cbn [mbind result_bind]. destruct bad; [done|].
  destruct (decide (options_ok level (topic_read s o) /\ options_of level (topic_read s o) = o))
    as [[Hopt Hopts]|Hno]; [|by assert (false = true) by (by apply Hbad)].
  destruct (topic_read_found level s o) as [Hfound Hwire]; try done; [lia|].
  assert (Hwl : pos + len (topic_wire level (topic_read s o)) = pos + (2 + len s) + 1).
  { rewrite Hwire, len_app, counted_len. change (len [o]) with 1. lia. }
  eapply yields_mono; [apply IH; try done; rewrite ?len_app; change (len [_]) with 1; lia|].
  intros out (ts & -> & Hlen & Hts & Hat). exists (topic_read s o :: ts).
  rewrite <- app_assoc in *. split_and!; [done|done|by constructor|].
  apply topics_at_cons; rewrite ?Hwl; [|lia|done].
  rewrite Hwire, sits_app, counted_len. by rewrite Z.add_assoc in *.
Qed.

Lemma subscribe_read_loop_sits fuel rx_buf pos rx_end level topics ts :
  Forall (fun t => topic_ok level t /\ topic_rep t) ts ->
  sits rx_buf pos (topics_wire level ts) -> 0 <= pos ->
  pos + len (topics_wire level ts) = rx_end -> rx_end < 2147483648 ->
  (length ts < fuel)%nat -> len topics + len ts <= MAX_MQTT_TOPICS ->
  subscribe_read_loop fuel rx_buf pos rx_end level topics = Ok (topics ++ map (topic_norm level) ts).
Proof.
  revert fuel pos topics. induction ts as [|t ts IH]; intros fuel pos topics Hts Hs Hp He Hm Hf Hc;
    (destruct fuel as [|fuel]; [simpl in Hf; lia|]); cbn [subscribe_read_loop].
  { change (len (topics_wire level [])) with 0 in He. rewrite (proj2 (Z.ltb_ge _ _)) by lia.
    by rewrite app_nil_r. }
  inversion Hts as [|? ? [Ht Hrep] Hts']; subst. rewrite topics_wire_cons, len_app in *.
  rewrite (len_cons t) in Hc. pose proof (len_nonneg ts). pose proof (len_nonneg (topics_wire level ts)).
  apply sits_app in Hs as [Hs Hs']. destruct (topic_read_norm level t Ht Hrep) as [Hn Ho].
  pose proof Ht as [(_ & Hl & Hfok & Hu) Hopt]. change (cstr (default [] (topic_filter t))) with (filter_of t) in *.
  assert (Hfb : bytes (filter_of t)) by by apply cstr_bytes, Hrep.
  pose proof (topic_wire_len level t Hl) as Htw. pose proof (len_nonneg (filter_of t)).
  assert (Etw : len (topic_wire level t) = 2 + len (filter_of t) + 1).
  { unfold topic_wire. by rewrite len_app, counted_len. }
  unfold topic_wire in Hs. apply sits_app in Hs as [Hs1 Hs2]. rewrite counted_len in Hs2.
  rewrite (proj2 (Z.ltb_lt _ _)), (proj2 (Z.leb_gt MAX_MQTT_TOPICS (len topics))), u32_small by lia.
  rewrite (MqttDecode_String_sits _ _ _ (filter_of t)) by (done || lia).
  cbn [mbind result_bind]. rewrite (proj2 (Z.ltb_ge _ _)) by lia.
  pose proof (MqttPacket_TopicFilterValid_ex_decides (filter_of t) [] (len (filter_of t)) level eq_refl ltac:(lia)) as Hd.
  rewrite app_nil_r in Hd. destruct Hd as (ok & -> & Hok). cbn [mbind result_bind].
  rewrite (proj2 Hok Hfok). cbn [negb]. cbv zeta. rewrite (proj2 (Z.leb_gt _ (pos + _))) by lia.
  rewrite (rd_sits _ _ _ _ Hs2). cbn [mbind result_bind].
  destruct (subscribe_options_bad_decides level _ (filter_of t) Ho Hu) as (bad & -> & Hbad).
  cbn [mbind result_bind]. rewrite Hn in Hbad. destruct bad.
  - assert (Hno : true = true) by done. apply Hbad in Hno. destruct Hno. split.
    + destruct Hopt as [Hq Hv5]. split; [done|]. intros Hv. destruct (Hv5 Hv) as (? & ? & ?).
      unfold topic_norm, filter_of. cbn. rewrite (proj2 (Z.leb_le _ _) Hv). split_and!; try done.
      change (cstr (default [] (topic_filter t))) with (filter_of t).
      by rewrite (cstr_id (filter_of t)) by by apply utf8_text_nonzero.
    + unfold options_of, topic_norm. cbn. by destruct (_ <=? _).
  - change (mkTopic (Some (filter_of t)) (Z.land (options_of level t) 3)
      (u8 (Z.land (options_of level t) MQTT_SUBSCRIBE_OPTIONS_MASK)))
      with (topic_read (filter_of t) (options_of level t)). rewrite Hn.
    simpl in Hf. rewrite Etw, !Z.add_assoc in Hs'. rewrite Z.add_assoc.
    rewrite (IH fuel); rewrite ?len_app; change (len [_]) with 1; try done; try lia.
    by rewrite <- app_assoc.
Qed.

(** The loop over the payload keeps the promises of [FilterPayload]. *)
#[export] Instance subscribe_payload : FilterPayload subscribe_read.
Proof.
  refine {| payload_wire := topics_wire; payload_ok := topics_ok;
            payload_norm level := map (topic_norm level) |}.
  - intros rx_buf pos rx_end level Hb Hp Hl Hm. unfold subscribe_read. apply yields_bind.
    eapply yields_mono; [apply subscribe_read_loop_yields; (done || lia)|].
    intros ts (ts' & -> & Hlen & Hts & Hat). rewrite app_nil_l in *.
    destruct Hat as [[-> _]|(Hne & Hs & He)]; [done|].
    destruct (Z.eqb_spec (len ts') 0); [done|]. cbn. split_and!; try done.
    + split_and!; try done. eapply list.Forall_impl; [exact Hts|]. by intros t [? _].
    + clear -Hts. induction Hts as [|t ts [_ Ht] _ IH]; [done|]. cbn. by rewrite Ht, IH.
  - intros rx_buf pos rx_end level ts (Hne & Hc & Hts) Hs Hp He Hm. unfold subscribe_read.
    rewrite (subscribe_read_loop_sits _ _ _ _ _ [] ts); try done.
    + cbn [mbind result_bind app]. destruct ts; [done|]. rewrite (proj2 (Z.eqb_neq _ _)); [done|].
      unfold len. simpl. lia.
    + unfold len in Hc. lia.
Defined.

(** A SUBSCRIBE that a decoder accepts, and that a receiver stores. *)
Definition sub_held (s : MqttSubscribe) : Prop :=
  0 < sub_packet_id s < 65536 /\ sub_topic_count s = len (sub_topics s) /\
  topics_ok (sub_protocol_level s) (sub_topics s) /\ Forall prop_rep (sub_props s) /\
  (if MQTT_CONNECT_PROTOCOL_LEVEL_5 <=? sub_protocol_level s
   then props_ok MQTT_PACKET_TYPE_SUBSCRIBE (sub_props s) /\ auth_ok (sub_props s)
   else sub_props s = []).

(** A decoder's view of a SUBSCRIBE. *)
Definition sub_norm (s : MqttSubscribe) : MqttSubscribe :=
  mkSubscribe (sub_packet_id s) (sub_topic_count s)
    (map (topic_norm (sub_protocol_level s)) (sub_topics s)) (map prop_norm (sub_props s))
    (sub_protocol_level s).

Lemma MqttDecode_Subscribe_meets rx_buf rx_buf_len s0 n :
  rx_ok rx_buf rx_buf_len ->
  meets n (MqttDecode_Subscribe rx_buf rx_buf_len s0) n
    (fun '(rc, s) n' => sub_held s /\ sub_norm s = s /\
       sub_protocol_level s = sub_protocol_level s0 /\
       received rx_buf rx_buf_len (sub_wire s) rc /\ n = (n' + length (sub_props s))%nat).
Proof.
  intros Hrx. unfold MqttDecode_Subscribe. apply meets_bind.
  eapply meets_mono; [by apply (decode_filters_meets subscribe_read)|].
  intros [[[rc id] ts] ps] n' (Hid & Hok & Hnorm & Hd & Hv4 & Hr & Hn). apply meets_ret.
  unfold sub_held, sub_norm. cbn [sub_packet_id sub_topic_count sub_topics sub_props sub_protocol_level].
  cbn [payload_norm payload_ok subscribe_payload] in *.
  rewrite Hnorm, (props_decoded_norm _ _ Hd). split_and!; try done; try lia.
  - by eapply props_decoded_rep.
  - destruct (Z.leb_spec MQTT_CONNECT_PROTOCOL_LEVEL_5 (sub_protocol_level s0)); [apply Hd|by apply Hv4].
Qed.

Lemma MqttDecode_Subscribe_sits rx_buf rx_buf_len s s0 n :
  sub_held s -> sub_protocol_level s0 = sub_protocol_level s -> (length (sub_props s) <= n)%nat ->
  len (sub_body s) <= MQTT_PACKET_MAX_REMAIN_LEN ->
  received rx_buf rx_buf_len (sub_wire s) (len (sub_wire s)) -> rx_buf_len < 2147483648 ->
  MqttDecode_Subscribe rx_buf rx_buf_len s0 n =
    (Ok (len (sub_wire s), sub_norm s), (n - length (sub_props s))%nat).
Proof.
  intros (Hid & Hc & Hts & Hrep & Hps) Hl Hn Hmax Hrx Hm. unfold MqttDecode_Subscribe. rewrite Hl.
  erewrite run_bind; [|by apply (decode_filters_sits subscribe_read MQTT_PACKET_TYPE_SUBSCRIBE eq_refl
    rx_buf rx_buf_len (sub_protocol_level s) (sub_packet_id s) (sub_topics s) (sub_props s) n)].
  cbn [payload_norm subscribe_payload]. unfold sub_norm, mret, M_ret.
  do 3 f_equal. rewrite Hc. unfold len. by rewrite length_map.
Qed.

(** ** SUBACK *)

(** The body of a SUBACK with this property block. *)
Definition suback_body (id : Z) (block codes : list Z) : list Z := be16 id ++ block ++ codes.

Definition suback_wire (id : Z) (block codes : list Z) : list Z :=
  frame MQTT_PACKET_TYPE_SUBSCRIBE_ACK 0 MQTT_QOS_0 0 (suback_body id block codes).

(** The property block; a packet of two bytes may leave it out. *)
Definition suback_block (level : Z) (ps : list MqttProp) (codes block : list Z) : Prop :=
  if MQTT_CONNECT_PROTOCOL_LEVEL_5 <=? level
  then block = props_block ps \/ (block = [] /\ ps = [] /\ codes = [])
  else block = [] /\ ps = [].

(** The return codes a decoder looks at and keeps, and the array they are in. *)
Definition suback_kept (codes : list Z) : list Z := take (Z.to_nat MAX_MQTT_TOPICS) codes.
Definition suback_array (codes : list Z) : list Z :=
  suback_kept codes ++ replicate (Z.to_nat (MAX_MQTT_TOPICS - len (suback_kept codes))) 0.

(** What the decoder reports of a packet with these properties and codes. *)
Definition suback_of (level id : Z) (ps : list MqttProp) (codes : list Z) : MqttSubscribeAck :=
  mkSubscribeAck id (suback_array codes) (Z.min 65535 (len codes)) ps level.

Lemma suback_count n : 0 <= n -> u16 (if 65535 <? n then 65535 else n) = Z.min 65535 n.
Proof. intros Hn. destruct (Z.ltb_spec 65535 n); rewrite u16_small; lia. Qed.

Lemma suback_kept_len (codes : list Z) :
  len (suback_kept codes) = if MAX_MQTT_TOPICS <? len codes then MAX_MQTT_TOPICS else len codes.
Proof.
  unfold suback_kept, len. rewrite length_take. destruct (Z.ltb_spec MAX_MQTT_TOPICS (Z.of_nat (length codes))); lia.
Qed.

Lemma suback_kept_slice rx_buf i codes :
  sits rx_buf i codes ->
  slice rx_buf i (if MAX_MQTT_TOPICS <? len codes then MAX_MQTT_TOPICS else len codes) =
    Ok (suback_kept codes).
Proof.
  intros Hs. apply slice_sits; [|by rewrite suback_kept_len].
  rewrite <- (take_drop (Z.to_nat MAX_MQTT_TOPICS) codes) in Hs. by apply sits_app in Hs as [? _].
Qed.

Lemma MqttDecode_SubscribeAck_meets rx_buf rx_buf_len sa0 n :
  rx_ok rx_buf rx_buf_len ->
  let level := sa_protocol_level sa0 in
  meets n (MqttDecode_SubscribeAck rx_buf rx_buf_len sa0) n
    (fun '(rc, sa) n' => exists ps block codes,
       sa = suback_of level (sa_packet_id sa) ps codes /\
       0 <= sa_packet_id sa < 65536 /\ suback_block level ps codes block /\
       suback_codes_ok (suback_kept codes) level = true /\
       props_decoded MQTT_PACKET_TYPE_SUBSCRIBE_ACK ps /\
       received rx_buf rx_buf_len (suback_wire (sa_packet_id sa) block codes) rc /\
       n = (n' + length ps)%nat).
Proof.
  intros Hrx. pose proof Hrx as (Hb & Hl & Hm). unfold MqttDecode_SubscribeAck. cbv zeta.
  set (level := sa_protocol_level sa0). apply meets_test; [lia|done|]. intros _.
  apply meets_bind, meets_lift; [|done].
  eapply yields_mono; [by apply MqttDecode_FixedHeader_fixed|].
  intros fh (Hf1 & Hf2 & Hf3 & _ & Hs & Hh). change (fixed_qos _) with MQTT_QOS_0 in Hs.
  apply meets_test; [lia|done|]. intros Hrem%Z.ltb_ge. rewrite u32_small by lia.
  apply meets_bind, meets_lift; [|done].
  eapply yields_mono; [apply MqttDecode_Num_yields; [done|lia|lia]|].
  intros [id tmp] (-> & H2 & Hid & Hsid).
  apply meets_bind. apply (meets_mono _ _ _ (fun '(ps, k) n' => exists block,
    props_decoded MQTT_PACKET_TYPE_SUBSCRIBE_ACK ps /\ sits rx_buf (fh_header_len fh + 2) block /\
    k = len block /\ n = (n' + length ps)%nat /\
    (if MQTT_CONNECT_PROTOCOL_LEVEL_5 <=? level
     then block = props_block ps \/ block = [] /\ ps = [] /\ fh_remain_len fh = 2
     else block = [] /\ ps = []))).
  { destruct (MQTT_CONNECT_PROTOCOL_LEVEL_5 <=? level); cbn [andb].
    1: destruct (Z.ltb_spec MQTT_DATA_LEN_SIZE (fh_remain_len fh)).
    - apply meets_test; [lia|done|]. intros _.
      eapply meets_mono; [apply read_props_meets; try done; try lia; intros ???; by apply within_neg|].
      intros [ps k] n' (Hd & Hps & Hk & _ & _ & Hn & _). exists (props_block ps).
      split_and!; try done. by left.
    - apply meets_ret. exists []. pose proof (props_decoded_nil MQTT_PACKET_TYPE_SUBSCRIBE_ACK).
      cbn [length]. split_and!; try done; try lia; [apply sits_nil; lia|]. right. split_and!; done || lia.
    - apply meets_ret. exists []. pose proof (props_decoded_nil MQTT_PACKET_TYPE_SUBSCRIBE_ACK).
      cbn [length]. split_and!; try done; try lia. apply sits_nil; lia. }
  intros [ps k] n' (block & Hd & Hps & -> & Hn & Hblk). pose proof (len_nonneg block).
  set (pl := fh_remain_len fh - (fh_header_len fh + 2 + len block - fh_header_len fh)).
  destruct ((pl <? 0) || (rx_buf_len - (fh_header_len fh + 2 + len block) <? 0) ||
            (rx_buf_len - (fh_header_len fh + 2 + len block) <? pl)) eqn:Et.
  { by apply meets_free_throw. }
  tests. rewrite suback_count by done.
  pose (codes := take (Z.to_nat pl) (drop (Z.to_nat (fh_header_len fh + 2 + len block)) rx_buf)).
  assert (Ecodes : slice rx_buf (fh_header_len fh + 2 + len block) pl = Ok codes) by (apply slice_ok; lia).
  apply slice_inv in Ecodes as (_ & _ & _ & Hcl & Hcs).
  rewrite <- Hcl. eapply meets_lift_ok; [by apply suback_kept_slice|].
  destruct (suback_codes_ok (suback_kept codes) level) eqn:Ecok; cbn [negb]; [|by apply meets_free_throw].
  apply meets_ret. exists ps, block, codes. cbn [sa_packet_id].
  split_and!; try done; try lia.
  - unfold suback_of, suback_array. by rewrite suback_kept_len.
  - unfold suback_block. destruct (MQTT_CONNECT_PROTOCOL_LEVEL_5 <=? level); [|done].
    destruct Hblk as [?|(-> & -> & Hr)]; [by left|right]. split_and!; try done.
    apply length_zero_iff_nil. unfold len in *. simpl in *. lia.
  - apply received_frame; try done.
    + unfold suback_body. apply sits_app. split; [done|]. change (len (be16 id)) with 2.
      apply sits_app. by split.
    + unfold suback_body. rewrite !len_app, Hcl. change (len (be16 id)) with 2. lia.
    + lia.
Qed.

Lemma MqttDecode_SubscribeAck_sits rx_buf rx_buf_len id ps codes sa0 n :
  let level := sa_protocol_level sa0 in
  let block := if MQTT_CONNECT_PROTOCOL_LEVEL_5 <=? level then props_block ps else [] in
  let w := suback_wire id block codes in
  0 <= id < 65536 -> Forall prop_rep ps ->
  (if MQTT_CONNECT_PROTOCOL_LEVEL_5 <=? level
   then props_ok MQTT_PACKET_TYPE_SUBSCRIBE_ACK ps /\ auth_ok ps else ps = []) ->
  suback_codes_ok (suback_kept codes) level = true -> (length ps <= n)%nat ->
  len (suback_body id block codes) <= MQTT_PACKET_MAX_REMAIN_LEN ->
  received rx_buf rx_buf_len w (len w) -> rx_buf_len < 2147483648 ->
  MqttDecode_SubscribeAck rx_buf rx_buf_len sa0 n =
    (Ok (len w, suback_of level id (map prop_norm ps) codes), (n - length ps)%nat).
Proof.
  intros level block w Hid Hrep Hps Hcok Hn Hmax Hrx Hm.
  destruct (MqttDecode_FixedHeader_frame _ _ _ _ _ _ _
    (fixed_header_args MQTT_PACKET_TYPE_SUBSCRIBE_ACK ltac:(lia) ltac:(lia)) Hmax Hrx Hm)
    as (h & Hh & Hw & Hr & Hb0 & Hs & E).
  unfold MqttDecode_SubscribeAck. fold level.
  rewrite (proj2 (Z.leb_gt rx_buf_len 0)) by lia.
  rewrite (run_lift _ _ _ _ E). cbn [fh_header_len fh_remain_len]. cbv zeta. clear E.
  unfold w. change (frame MQTT_PACKET_TYPE_SUBSCRIBE_ACK 0 (fixed_qos MQTT_PACKET_TYPE_SUBSCRIBE_ACK) 0
    (suback_body id block codes)) with (suback_wire id block codes) in Hw. rewrite Hw.
  assert (Hb : len (suback_body id block codes) = 2 + len block + len codes).
  { unfold suback_body. rewrite !len_app. change (len (be16 id)) with 2. lia. }
  pose proof (len_nonneg block) as Hbl. pose proof (len_nonneg codes) as Hcl.
  unfold suback_body in Hs. apply sits_app in Hs as [Hs1 Hs2]. change (len (be16 id)) with 2 in Hs2.
  apply sits_app in Hs2 as [Hs2 Hs3].
  rewrite (proj2 (Z.ltb_ge _ _)), u32_small by lia.
  rewrite (run_lift _ _ _ _ (MqttDecode_Num_sits _ _ (rx_buf_len - h) id ltac:(lia) Hs1 ltac:(lia))).
  assert (Hprops : ((if (MQTT_CONNECT_PROTOCOL_LEVEL_5 <=? level) &&
      (MQTT_DATA_LEN_SIZE <? len (suback_body id block codes))
    then if rx_buf_len <? h + 2 then throw MQTT_CODE_ERROR_OUT_OF_BUFFER
      else read_props MQTT_PACKET_TYPE_SUBSCRIBE_ACK rx_buf (h + 2) rx_buf_len
             (within (u32 (rx_buf_len - (h + 2))) MQTT_CODE_ERROR_OUT_OF_BUFFER)
    else mret ([], 0)) : M (list MqttProp * Z)) n =
    (Ok (map prop_norm ps, len block), (n - length ps)%nat)).
  { rewrite Hb in Hr |- *. clear Hw Hs3 Hb. subst block w. clear Hmax Hrx Hb0.
    destruct (MQTT_CONNECT_PROTOCOL_LEVEL_5 <=? level).
    - destruct Hps as [Hpo Hau]. pose proof (props_bounds _ _ Hrep Hpo) as [Hwl Hpbl].
      pose proof (props_block_len ps). rewrite (proj2 (Z.ltb_lt _ _)) by lia. cbn [andb].
      rewrite (proj2 (Z.ltb_ge _ _)) by lia. apply read_props_sits; try done; try lia.
      unfold within. rewrite u32_small by lia. pose proof (vbi_len 4 (len (props_wire ps))).
      by rewrite (proj2 (Z.ltb_ge _ _)) by lia.
    - subst ps. cbn. by rewrite Nat.sub_0_r. }
  erewrite run_bind; [|exact Hprops]. rewrite Hb.
  replace (2 + len block + len codes - (h + 2 + len block - h)) with (len codes) by lia.
  rewrite !(proj2 (Z.ltb_ge _ _)) by lia. cbn [orb]. rewrite suback_count by lia.
  rewrite (run_lift _ _ _ _ (suback_kept_slice _ _ _ Hs3)), Hcok. cbn [negb].
  unfold suback_of, suback_array, mret, M_ret. rewrite suback_kept_len, <- Hb, <- Hw. done.
Qed.

(** ** Properties *)

(** C28: [MqttEncode_Subscribe] accepts a structure exactly when its packet
    identifier is not zero, it has a topic, every filter is well-formed UTF-8
    and a valid filter of the protocol level, the options are valid and the
    properties may be in a SUBSCRIBE; the size it announces is the size it
    writes; and [MqttDecode_Subscribe] gets all of it back when the topics fit
    in its array. *)
Theorem Subscribe_roundtrip tx_buf_len s s0 :
  sub_rep s -> sub_protocol_level s0 = sub_protocol_level s ->
  transmits tx_buf_len (MqttEncode_Subscribe tx_buf_len s) (sub_ok s) (sub_body s)
    (sub_held s) (length (sub_props s))
    (fun rx_buf rx_buf_len => MqttDecode_Subscribe rx_buf rx_buf_len s0) (sub_norm s).
Proof.
  intros Hr Hl. eapply transmits_intro; [reflexivity|by apply MqttEncode_Subscribe_answers|].
  intros rx_buf rx_buf_len free Hok Hb Ha (? & ? & ?) Hrec Hc. by apply MqttDecode_Subscribe_sits.
Qed.

(** "a/+" at QoS 1 with Retain As Published, and "#" at QoS 2. *)
Definition ex_subscribe : MqttSubscribe :=
  mkSubscribe 10 2 [mkTopic (Some [97; 47; 43]) 1 8; mkTopic (Some [35]) 2 0]
    [mkProp MQTT_PROP_SUBSCRIPTION_ID 0 0 300 no_str no_str no_str] 5.

Definition ex_subscribe_wire : list Z :=
  [130; 16; 0; 10; 3; 11; 172; 2; 0; 3; 97; 47; 43; 9; 0; 1; 35; 2].

Lemma ex_topics_ok level :
  topic_ok level (mkTopic (Some [97; 47; 43]) 1 8) /\ topic_ok level (mkTopic (Some [35]) 2 0).
Proof.
  assert (Hf : forall s, scan true s = true -> s <> [] -> ~ share_prefix `prefix_of` s ->
            filter_ok_at level s).
  { intros s Hs Hne H. unfold filter_ok_at. rewrite bool_decide_eq_false_2 by tauto.
    split; [done|]. by apply scan_levels. }
  assert (Ht : forall s, forallb (fun c => (1 <=? c) && (c <? 128)) s = true -> utf8_text s).
  { induction s as [|c s IH]; [constructor|]. cbn. intros [? ?]%andb_true_iff. tests.
    apply text_1; auto. }
  split; (split; [split_and!; [eauto|by_eval| |by apply Ht]|]); try (apply Hf; by_eval).
  all: split_and!; [by_eval|]; intros _; split_and!; [by_eval..|intros [=]].
Qed.

Lemma ex_subscribe_held : sub_held ex_subscribe.
Proof.
  destruct (ex_topics_ok 5) as [H1 H2]. split; [by_eval|]. split; [by_eval|]. split; [|split; [by_eval|]].
  - split_and!; [done|by_eval|].
    apply Forall_cons_2; [|apply Forall_cons_2; [|done]]; (split; [done|by_eval]).
  - split; [|by_eval]. split_and!; [by_eval| |by_eval].
    apply Forall_cons_2; [|done]. split; [reflexivity|]. by_eval.
Qed.

Lemma Subscribe_roundtrip_witness :
  MqttEncode_Subscribe 64 ex_subscribe = Ok (18, ex_subscribe_wire) /\
  MqttDecode_Subscribe ex_subscribe_wire 18 (mkSubscribe 0 0 [] [] 5) 30%nat =
    (Ok (18, ex_subscribe), 29%nat).
Proof.
  split; [reflexivity|].
  refine (transmits_run _ _ _ _ _ _ _ _ 18 _ 30
    (Subscribe_roundtrip 64 ex_subscribe (mkSubscribe 0 0 [] [] 5) _ eq_refl) eq_refl
    ex_subscribe_held _ _); by_eval.
Defined.

(** For every buffer, [MqttDecode_Subscribe] reads nothing outside it and
    ends; it accepts exactly the buffers that start with a whole, valid
    SUBSCRIBE of at most [MAX_MQTT_TOPICS] topics, provided the property pool
    has cells for its properties; what it reports is that packet; and a
    refused one leaves no property cell taken. *)
Theorem MqttDecode_Subscribe_exact rx_buf rx_buf_len s0 n :
  rx_ok rx_buf rx_buf_len ->
  recognizes n (MqttDecode_Subscribe rx_buf rx_buf_len s0)
    (fun rc s => sub_held s /\ sub_norm s = s /\ sub_protocol_level s = sub_protocol_level s0 /\
       len (sub_body s) <= MQTT_PACKET_MAX_REMAIN_LEN /\ received rx_buf rx_buf_len (sub_wire s) rc)
    (fun s => length (sub_props s)).
Proof.
  intros Hrx. apply recognizes_intro.
  - pose proof (MqttDecode_Subscribe_meets rx_buf rx_buf_len s0 n Hrx) as H. unfold meets in *.
    destruct (MqttDecode_Subscribe rx_buf rx_buf_len s0 n) as [[[rc s]|rc|] n'] eqn:E; [|done..].
    destruct H as (? & ? & ? & Hr & ?). split_and!; try done.
    unfold MqttDecode_Subscribe, decode_filters in E. apply bind_ok in E as (? & ? & E & _).
    apply header_accepted in E as [fh E]. eapply frame_body_bound; [done|exact E|apply Hr].
  - intros rc s (? & ? & ? & ? & Hrec) Hn. eexists. apply MqttDecode_Subscribe_sits; try done; [|apply Hrx].
    destruct Hrec as (? & -> & ?). done.
Qed.

Lemma MqttDecode_Subscribe_exact_witness :
  recognizes 0 (MqttDecode_Subscribe ex_subscribe_wire 18 (mkSubscribe 0 0 [] [] 5))
    (fun rc s => sub_held s /\ sub_norm s = s /\ sub_protocol_level s = 5 /\
       len (sub_body s) <= MQTT_PACKET_MAX_REMAIN_LEN /\ received ex_subscribe_wire 18 (sub_wire s) rc)
    (fun s => length (sub_props s)) /\
  MqttDecode_Subscribe ex_subscribe_wire 18 (mkSubscribe 0 0 [] [] 5) 0%nat =
    (Err MQTT_CODE_ERROR_MEMORY, 0%nat).
Proof.
  split; [|reflexivity].
  apply (MqttDecode_Subscribe_exact ex_subscribe_wire 18 (mkSubscribe 0 0 [] [] 5)). by_eval.
Defined.

(** For every buffer, [MqttDecode_SubscribeAck] reads nothing outside it
    and ends; what it accepts is a whole SUBACK whose first [MAX_MQTT_TOPICS]
    return codes are valid for the protocol level, and it reports the number
    of codes in the packet with the first [MAX_MQTT_TOPICS] of them; a failure
    leaves no property cell taken. *)
Theorem MqttDecode_SubscribeAck_sound rx_buf rx_buf_len sa0 n :
  rx_ok rx_buf rx_buf_len ->
  let level := sa_protocol_level sa0 in
  meets n (MqttDecode_SubscribeAck rx_buf rx_buf_len sa0) n
    (fun '(rc, sa) n' => exists ps block codes,
       sa = suback_of level (sa_packet_id sa) ps codes /\
       0 <= sa_packet_id sa < 65536 /\ suback_block level ps codes block /\
       suback_codes_ok (suback_kept codes) level = true /\
       props_decoded MQTT_PACKET_TYPE_SUBSCRIBE_ACK ps /\
       received rx_buf rx_buf_len (suback_wire (sa_packet_id sa) block codes) rc /\
       n = (n' + length ps)%nat).
Proof. apply MqttDecode_SubscribeAck_meets. Qed.

Lemma MqttDecode_SubscribeAck_sound_witness :
  let rx_buf := [144; 4; 0; 10; 1; 128] in
  let sa0 := mkSubscribeAck 0 [] 0 [] 4 in
  exists ps block codes, codes = [1; 128] /\
    MqttDecode_SubscribeAck rx_buf 6 sa0 0%nat = (Ok (6, suback_of 4 10 ps codes), 0%nat) /\
    meets 0 (MqttDecode_SubscribeAck rx_buf 6 sa0) 0
      (fun '(rc, sa) n' => exists ps block codes,
         sa = suback_of 4 (sa_packet_id sa) ps codes /\
         0 <= sa_packet_id sa < 65536 /\ suback_block 4 ps codes block /\
         suback_codes_ok (suback_kept codes) 4 = true /\
         props_decoded MQTT_PACKET_TYPE_SUBSCRIBE_ACK ps /\
         received rx_buf 6 (suback_wire (sa_packet_id sa) block codes) rc /\
         0%nat = (n' + length ps)%nat) /\ block = ([] : list Z).
Proof.
  exists [], [], [1; 128]. split_and!; [done|reflexivity| |done].
  apply (MqttDecode_SubscribeAck_sound [144; 4; 0; 10; 1; 128] 6 (mkSubscribeAck 0 [] 0 [] 4) 0). by_eval.
Defined.
