(* ===== verification/Unsubscribe.v ===== *)
(** * Unsubscribe: UNSUBSCRIBE and UNSUBACK ([mqtt_packet.c])

    [MqttEncode_Unsubscribe], [MqttDecode_Unsubscribe],
    [MqttEncode_UnsubscribeAck] and [MqttDecode_UnsubscribeAck]. *)
From S2P Require Import Prelude PacketDefs Wire Topic FixedHeader Props Frame ReasonCodes Filters.

Fixpoint unsubscribe_len_loop (protocol_level : Z) (topics : list MqttTopic) (remain_len : Z)
    : result Z :=
  match topics with
  | [] => Ok remain_len
  | topic :: topics =>
    str_len ← topic_filter_len protocol_level (topic_filter topic) true;
    unsubscribe_len_loop protocol_level topics (remain_len + (str_len + MQTT_DATA_LEN_SIZE))
  end.

Fixpoint unsubscribe_write_loop (topics : list MqttTopic) : emit :=
  match topics with
  | [] => Ok (0, [])
  | topic :: topics =>
    must (MqttEncode_String true (default [] (topic_filter topic))) +++ unsubscribe_write_loop topics
  end.

Definition MqttEncode_Unsubscribe (tx_buf_len : Z) (unsubscribe : MqttUnsubscribe) : emit :=
  let level := un_protocol_level unsubscribe in
  if un_packet_id unsubscribe =? 0 then Err MQTT_CODE_ERROR_PACKET_ID
  else if un_topic_count unsubscribe <=? 0 then Err MQTT_CODE_ERROR_BAD_ARG
  else
    topics ← topics_used (un_topic_count unsubscribe) (un_topics unsubscribe);
    remain_len ← unsubscribe_len_loop level topics MQTT_DATA_LEN_SIZE;
    let head := MqttEncode_Num true (un_packet_id unsubscribe) in
    let payload := unsubscribe_write_loop topics in
    if MQTT_CONNECT_PROTOCOL_LEVEL_5 <=? level then
      '(props_len, tmp_len) ← props_length MQTT_PACKET_TYPE_UNSUBSCRIBE (un_props unsubscribe);
      write_packet tx_buf_len (remain_len + props_len + tmp_len) MQTT_PACKET_TYPE_UNSUBSCRIBE
        0 MQTT_QOS_1 0
        (head +++ write_props MQTT_PACKET_TYPE_UNSUBSCRIBE (un_props unsubscribe) props_len +++ payload)
    else
      write_packet tx_buf_len remain_len MQTT_PACKET_TYPE_UNSUBSCRIBE 0 MQTT_QOS_1 0
        (head +++ payload).

(** The loop over the payload; [filters] are the ones stored so far. *)
Fixpoint unsubscribe_read_loop (fuel : nat) (rx_buf : list Z) (rx_payload rx_end : Z)
    (protocol_level : Z) (filters : list (list Z)) : result (list (list Z)) :=
  match fuel with
  | O => UB
  | S fuel =>
    if rx_payload <? rx_end then
      if MAX_MQTT_TOPICS <=? len filters then Err MQTT_CODE_ERROR_OUT_OF_BUFFER
      else
        '(filter, filter_len, tmp) ← MqttDecode_String rx_buf rx_payload (u32 (rx_end - rx_payload));
        if rx_end <? rx_payload + tmp then Err MQTT_CODE_ERROR_OUT_OF_BUFFER
        else
          ok ← MqttPacket_TopicFilterValid_ex (Some filter) filter_len protocol_level;
          if negb ok then Err MQTT_CODE_ERROR_MALFORMED_DATA
          else
            unsubscribe_read_loop fuel rx_buf (rx_payload + tmp) rx_end protocol_level
              (filters ++ [filter])
    else Ok filters
  end.

Definition unsubscribe_read (rx_buf : list Z) (rx_payload rx_end protocol_level : Z)
    : result (list (list Z)) :=
  filters ← unsubscribe_read_loop (S (Z.to_nat MAX_MQTT_TOPICS)) rx_buf rx_payload rx_end
              protocol_level [];
  if len filters =? 0 then Err MQTT_CODE_ERROR_MALFORMED_DATA else Ok filters.

(** The filters are stored in the caller's array; its other fields stay. *)
Definition store_filter (t : MqttTopic) (filter : list Z) : MqttTopic :=
  mkTopic (Some filter) (topic_qos t) (topic_sub_options t).

Definition store_filters (topics : list MqttTopic) (filters : list (list Z))
    : result (list MqttTopic) :=
  if len filters <=? len topics then Ok (zip_with store_filter topics filters) else UB.

Definition MqttDecode_Unsubscribe (rx_buf : list Z) (rx_buf_len : Z)
    (unsubscribe : MqttUnsubscribe) : M (Z * MqttUnsubscribe) :=
  '(rc, packet_id, filters, props) ←
     decode_filters MQTT_PACKET_TYPE_UNSUBSCRIBE rx_buf rx_buf_len
       (un_protocol_level unsubscribe) unsubscribe_read;
  topics ← lift (store_filters (un_topics unsubscribe) filters);
  mret (rc, mkUnsubscribe packet_id (len filters) topics props (un_protocol_level unsubscribe)).

Definition MqttDecode_UnsubscribeAck (rx_buf : list Z) (rx_buf_len : Z)
    (unsubscribe_ack : MqttUnsubscribeAck) : M (Z * MqttUnsubscribeAck) :=
  let level := ua_protocol_level unsubscribe_ack in
  if rx_buf_len <=? 0 then throw MQTT_CODE_ERROR_BAD_ARG
  else
    fh ← lift (MqttDecode_FixedHeader rx_buf rx_buf_len MQTT_PACKET_TYPE_UNSUBSCRIBE_ACK);
    let header_len := fh_header_len fh in
    let remain_len := fh_remain_len fh in
    if rx_buf_len <? header_len + remain_len then throw MQTT_CODE_ERROR_OUT_OF_BUFFER
    else if (if MQTT_CONNECT_PROTOCOL_LEVEL_5 <=? level then remain_len <? MQTT_DATA_LEN_SIZE
             else negb (remain_len =? MQTT_DATA_LEN_SIZE))
    then throw MQTT_CODE_ERROR_MALFORMED_DATA
    else
      '(packet_id, tmp) ← lift (MqttDecode_Num rx_buf header_len (u32 (rx_buf_len - header_len)));
      let rx_payload := header_len + tmp in
      if MQTT_CONNECT_PROTOCOL_LEVEL_5 <=? level then
        let packet_end := header_len + remain_len in
        '(props, n) ←
          (if MQTT_DATA_LEN_SIZE <? remain_len then
             read_props MQTT_PACKET_TYPE_UNSUBSCRIBE_ACK rx_buf rx_payload packet_end
               (fun props_tmp props_len =>
                  within (u32 (packet_end - (rx_payload + props_tmp)))
                    MQTT_CODE_ERROR_OUT_OF_BUFFER props_tmp props_len)
           else mret ([], 0));
        let rx_payload := rx_payload + n in
        if packet_end <? rx_payload then throw MQTT_CODE_ERROR_OUT_OF_BUFFER
        else
          let reason_code_count := u16 (packet_end - rx_payload) in
          reason_codes ← lift (slice rx_buf rx_payload (packet_end - rx_payload));
          if negb (forallb MqttPacket_UnsubAckReasonCodeValid
                     (take (Z.to_nat reason_code_count) reason_codes))
          then MqttProps_Free props ≫= fun _ => throw MQTT_CODE_ERROR_MALFORMED_DATA
          else
            mret (header_len + remain_len,
                  mkUnsubscribeAck packet_id props (Some reason_codes) reason_code_count level)
      else
        mret (header_len + remain_len,
              mkUnsubscribeAck packet_id [] (ua_reason_codes unsubscribe_ack)
                (ua_reason_code_count unsubscribe_ack) level).

(** The check of [reason_codes[0 .. todo - 1]]. *)
Fixpoint unsuback_codes_check (todo : nat) (codes : list Z) : result bool :=
  match todo with
  | O => Ok true
  | S todo =>
    match codes with
    | [] => UB
    | c :: codes =>
      if negb (MqttPacket_UnsubAckReasonCodeValid c) then Ok false
      else unsuback_codes_check todo codes
    end
  end.

(** The reason codes to be sent. *)
Definition unsuback_codes (unsubscribe_ack : MqttUnsubscribeAck) : result (list Z) :=
  match ua_reason_codes unsubscribe_ack with
  | Some codes =>
    if 0 <? ua_reason_code_count unsubscribe_ack then
      ok ← unsuback_codes_check (Z.to_nat (ua_reason_code_count unsubscribe_ack)) codes;
      if negb ok then Err MQTT_CODE_ERROR_BAD_ARG
      else slice codes 0 (ua_reason_code_count unsubscribe_ack)
    else Ok []
  | None => Ok []
  end.

Definition MqttEncode_UnsubscribeAck (tx_buf_len : Z) (unsubscribe_ack : MqttUnsubscribeAck) : emit :=
  if ua_packet_id unsubscribe_ack =? 0 then Err MQTT_CODE_ERROR_PACKET_ID
  else
    let remain_len := MQTT_DATA_LEN_SIZE in
    let head := MqttEncode_Num true (ua_packet_id unsubscribe_ack) in
    if MQTT_CONNECT_PROTOCOL_LEVEL_5 <=? ua_protocol_level unsubscribe_ack then
      '(props_len, tmp_len) ← props_length MQTT_PACKET_TYPE_UNSUBSCRIBE_ACK (ua_props unsubscribe_ack);
      codes ← unsuback_codes unsubscribe_ack;
      write_packet tx_buf_len (remain_len + props_len + tmp_len + len codes)
        MQTT_PACKET_TYPE_UNSUBSCRIBE_ACK 0 MQTT_QOS_0 0
        (head +++ write_props MQTT_PACKET_TYPE_UNSUBSCRIBE_ACK (ua_props unsubscribe_ack) props_len +++
         Ok (len codes, codes))
    else
      write_packet tx_buf_len remain_len MQTT_PACKET_TYPE_UNSUBSCRIBE_ACK 0 MQTT_QOS_0 0 head.

(** ** UNSUBSCRIBE *)

(** The filters as they are sent. *)
Definition filters_wire (level : Z) (fs : list (list Z)) : list Z := concat (map counted fs).

Definition un_body (u : MqttUnsubscribe) : list Z :=
  filters_body filters_wire (un_protocol_level u) (un_packet_id u) (un_props u)
    (map filter_of (un_topics u)).

Definition un_wire (u : MqttUnsubscribe) : list Z :=
  frame MQTT_PACKET_TYPE_UNSUBSCRIBE 0 MQTT_QOS_1 0 (un_body u).

Definition un_rep (u : MqttUnsubscribe) : Prop :=
  0 <= un_packet_id u < 65536 /\ un_topic_count u = len (un_topics u) /\
  un_topic_count u <= 16384 /\
  Forall (fun t => bytes (default [] (topic_filter t))) (un_topics u) /\ Forall prop_rep (un_props u).

Definition un_ok (u : MqttUnsubscribe) : Prop :=
  un_packet_id u <> 0 /\ un_topics u <> [] /\
  Forall (fun t => filter_accepted (un_protocol_level u) (topic_filter t)) (un_topics u) /\
  (MQTT_CONNECT_PROTOCOL_LEVEL_5 <= un_protocol_level u ->
   props_ok MQTT_PACKET_TYPE_UNSUBSCRIBE (un_props u)).

Lemma filters_wire_cons level f fs : filters_wire level (f :: fs) = counted f ++ filters_wire level fs.
Proof. done. Qed.

Lemma filters_wire_len level ts :
  Forall (fun t => filter_accepted level (topic_filter t)) ts ->
  2 * len ts <= len (filters_wire level (map filter_of ts)) <= 65537 * len ts.
Proof.
  induction 1 as [|t ts (_ & Hl & _) _ IH]; [by vm_compute|].
  cbn [map]. rewrite filters_wire_cons, len_app, counted_len, (len_cons t).
  pose proof (len_nonneg (filter_of t)). unfold filter_of in *. lia.
Qed.

Lemma unsubscribe_len_loop_settles level ts remain_len :
  Forall (fun t => bytes (default [] (topic_filter t))) ts ->
  settles (unsubscribe_len_loop level ts remain_len)
    (Forall (fun t => filter_accepted level (topic_filter t)) ts)
    (fun n => n = remain_len + len (filters_wire level (map filter_of ts))).
Proof.
  intros Hrep. revert remain_len. induction Hrep as [|t ts Ht Hts IH]; intros remain_len.
  { apply settles_ok; [constructor|]. change (len _) with 0. lia. }
  cbn [unsubscribe_len_loop]. rewrite list.Forall_cons.
  eapply settles_iff; [|eapply settles_bind; [by apply topic_filter_len_settles|]].
  2:{ intros n _ ->. eapply settles_mono; [apply IH|]. intros n ->. cbn [map].
    rewrite filters_wire_cons, len_app, counted_len. unfold filter_of. lia. }
  tauto.
Qed.

Lemma unsubscribe_write_loop_eq level ts :
  Forall (fun t => filter_accepted level (topic_filter t)) ts ->
  unsubscribe_write_loop ts =
    Ok (len (filters_wire level (map filter_of ts)), filters_wire level (map filter_of ts)).
Proof.
  induction 1 as [|t ts (_ & Hl & _) _ IH]; [done|].
  cbn [unsubscribe_write_loop map]. rewrite must_String, IH by done. unfold emit_app.
  cbn [mbind result_bind]. by rewrite filters_wire_cons, len_app, counted_len.
Qed.

Lemma MqttEncode_Unsubscribe_answers tx_buf_len u :
  un_rep u ->
  answers (MqttEncode_Unsubscribe tx_buf_len u)
    (un_ok u /\ room tx_buf_len (un_body u)) (len (un_wire u)) (un_wire u).
Proof.
  intros (Hid & Hc & Hmax & Hts & Hps). unfold MqttEncode_Unsubscribe, un_ok.
  destruct (Z.eqb_spec (un_packet_id u) 0); [apply answers_err; [lia|tauto]|].
  destruct (Z.leb_spec (un_topic_count u) 0).
  { apply answers_err; [lia|]. intros ((_ & Hne & _) & _). apply Hne.
    destruct (un_topics u) as [|t ts]; [done|]. rewrite len_cons in Hc. pose proof (len_nonneg ts). lia. }
  rewrite topics_used_all by done.
  assert (Hne : un_topics u <> []) by (intros E; rewrite E in Hc; change (len []) with 0 in Hc; lia).
  destruct (unsubscribe_len_loop_settles (un_protocol_level u) (un_topics u) MQTT_DATA_LEN_SIZE Hts)
    as [(Hlen & rl & -> & ->)|(Hno & rc & Hrc & ->)]; [|apply answers_err; [done|tauto]].
  cbn [mbind result_bind].
  pose proof (filters_wire_len (un_protocol_level u) (un_topics u) Hlen) as Hb.
  eapply answers_iff; [|apply (filters_write_answers _ _ _ _ _ _ _ True)].
  - unfold un_body, filters_body. tauto.
  - done.
  - done.
  - by left; rewrite (unsubscribe_write_loop_eq (un_protocol_level u)).
  - done.
  - lia.
Qed.

(** A filter that a receiver stores. *)
Definition filter_held (level : Z) (f : list Z) : Prop :=
  bytes f /\ len f <= 65535 /\ filter_ok_at level f /\ utf8_text f.

Definition filters_ok (level : Z) (fs : list (list Z)) : Prop :=
  fs <> [] /\ len fs <= MAX_MQTT_TOPICS /\ Forall (filter_held level) fs.

Definition filters_at (level : Z) (rx_buf : list Z) (pos rx_end : Z) (fs : list (list Z)) : Prop :=
  fs = [] /\ rx_end <= pos \/
  fs <> [] /\ sits rx_buf pos (filters_wire level fs) /\ pos + len (filters_wire level fs) = rx_end.

Lemma filters_at_cons level rx_buf pos rx_end f fs :
  sits rx_buf pos (counted f) -> pos + len (counted f) <= rx_end ->
  filters_at level rx_buf (pos + len (counted f)) rx_end fs ->
  filters_at level rx_buf pos rx_end (f :: fs).
Proof.
  intros Hs Hl Hts. right. rewrite filters_wire_cons, len_app, sits_app. split; [done|].
  destruct Hts as [[-> Hp]|(_ & Hst & He)].
  - change (filters_wire level []) with (@nil Z). change (len []) with 0.
    split; [split; [done|]|lia]. apply sits_nil. pose proof (sits_bound _ _ _ Hs).
    pose proof (len_nonneg (counted f)). lia.
  - split; [done|]. lia.
Qed.

Lemma unsubscribe_read_loop_yields fuel rx_buf pos rx_end level filters :
  bytes rx_buf -> 0 <= pos -> rx_end <= len rx_buf -> rx_end < 2147483648 ->
  MAX_MQTT_TOPICS - len filters < Z.of_nat fuel -> len filters <= MAX_MQTT_TOPICS ->
  yields (unsubscribe_read_loop fuel rx_buf pos rx_end level filters)
    (fun out => exists fs, out = filters ++ fs /\ len out <= MAX_MQTT_TOPICS /\
       Forall (filter_held level) fs /\ filters_at level rx_buf pos rx_end fs).
Proof.
  intros Hb. revert pos filters. induction fuel as [|fuel IH]; intros pos filters Hp Hl Hm Hf Hc; [lia|].
  cbn [unsubscribe_read_loop]. destruct (Z.ltb_spec pos rx_end) as [Hlt|Hge]; last first.
  { exists []. rewrite app_nil_r. split_and!; try done. by left. }
  destruct (Z.leb_spec MAX_MQTT_TOPICS (len filters)); [done|]. rewrite u32_small by lia.
  apply yields_bind. eapply yields_mono; [apply MqttDecode_String_yields; [done|lia..]|].
  intros [[s l] tmp] (Hs & -> & -> & Hls & Hle & Ht & Hbs).
  destruct (Z.ltb_spec rx_end (pos + (2 + len s))); [done|].
  pose proof (MqttPacket_TopicFilterValid_ex_decides s [] (len s) level eq_refl ltac:(lia)) as Hd.
  rewrite app_nil_r in Hd. destruct Hd as (ok & -> & Hok). cbn [mbind result_bind].
  destruct ok; cbn [negb]; [|done]. assert (Hfok : filter_ok_at level s) by by apply Hok.
  eapply yields_mono; [apply IH; try done; rewrite ?len_app; change (len [_]) with 1; lia|].
  intros out (fs & -> & Hlen & Hts & Hat). exists (s :: fs).
  rewrite <- app_assoc in *. split_and!; [done|done|constructor; [by split_and!; lia||done|done]|].
  apply filters_at_cons; rewrite ?counted_len; [done|lia|done].
Qed.

Lemma unsubscribe_read_loop_sits fuel rx_buf pos rx_end level filters fs :
  Forall (filter_held level) fs -> sits rx_buf pos (filters_wire level fs) -> 0 <= pos ->
  pos + len (filters_wire level fs) = rx_end -> rx_end < 2147483648 ->
  (length fs < fuel)%nat -> len filters + len fs <= MAX_MQTT_TOPICS ->
  unsubscribe_read_loop fuel rx_buf pos rx_end level filters = Ok (filters ++ fs).
Proof.
  revert fuel pos filters. induction fs as [|f fs IH]; intros fuel pos filters Hts Hs Hp He Hm Hf Hc;
    (destruct fuel as [|fuel]; [simpl in Hf; lia|]); cbn [unsubscribe_read_loop].
  { change (len (filters_wire level [])) with 0 in He. rewrite (proj2 (Z.ltb_ge _ _)) by lia.
    by rewrite app_nil_r. }
  inversion Hts as [|? ? (Hb & Hl & Hok & Ht) Hts']; subst. rewrite filters_wire_cons, len_app, counted_len in *.
  rewrite (len_cons f) in Hc. pose proof (len_nonneg fs). pose proof (len_nonneg (filters_wire level fs)).
  apply sits_app in Hs as [Hs Hs']. pose proof (len_nonneg f). rewrite counted_len in Hs'.
  rewrite (proj2 (Z.ltb_lt _ _)), (proj2 (Z.leb_gt MAX_MQTT_TOPICS (len filters))), u32_small by lia.
  rewrite (MqttDecode_String_sits _ _ _ f) by (done || lia).
  cbn [mbind result_bind]. rewrite (proj2 (Z.ltb_ge _ _)) by lia.
  pose proof (MqttPacket_TopicFilterValid_ex_decides f [] (len f) level eq_refl ltac:(lia)) as Hd.
  rewrite app_nil_r in Hd. destruct Hd as (ok & -> & Hokk). cbn [mbind result_bind].
  rewrite (proj2 Hokk Hok). cbn [negb]. simpl in Hf.
  rewrite (IH fuel); rewrite ?len_app; change (len [_]) with 1; try done; try lia.
  by rewrite <- app_assoc.
Qed.

#[export] Instance unsubscribe_payload : FilterPayload unsubscribe_read.
Proof.
  refine {| payload_wire := filters_wire; payload_ok := filters_ok; payload_norm _ fs := fs |}.
  - intros rx_buf pos rx_end level Hb Hp Hl Hm. unfold unsubscribe_read. apply yields_bind.
    eapply yields_mono; [apply unsubscribe_read_loop_yields; (done || lia)|].
    intros fs (fs' & -> & Hlen & Hts & Hat). rewrite app_nil_l in *.
    destruct Hat as [[-> _]|(Hne & Hs & He)]; [done|].
    by destruct (Z.eqb_spec (len fs') 0).
  - intros rx_buf pos rx_end level fs (Hne & Hc & Hts) Hs Hp He Hm. unfold unsubscribe_read.
    rewrite (unsubscribe_read_loop_sits _ _ _ _ _ [] fs); try done.
    + cbn [mbind result_bind app]. destruct fs; [done|]. rewrite (proj2 (Z.eqb_neq _ _)); [done|].
      unfold len. simpl. lia.
    + unfold len in Hc. lia.
Defined.

(** An UNSUBSCRIBE that a decoder accepts. *)
Definition un_held (u : MqttUnsubscribe) : Prop :=
  0 < un_packet_id u < 65536 /\ un_topic_count u = len (un_topics u) /\
  filters_ok (un_protocol_level u) (map filter_of (un_topics u)) /\ Forall prop_rep (un_props u) /\
  (if MQTT_CONNECT_PROTOCOL_LEVEL_5 <=? un_protocol_level u
   then props_ok MQTT_PACKET_TYPE_UNSUBSCRIBE (un_props u) /\ auth_ok (un_props u)
   else un_props u = []).

(** A decoder's view of an UNSUBSCRIBE in an array of topics. *)
Definition un_norm (topics : list MqttTopic) (u : MqttUnsubscribe) : MqttUnsubscribe :=
  mkUnsubscribe (un_packet_id u) (un_topic_count u)
    (zip_with store_filter topics (map filter_of (un_topics u))) (map prop_norm (un_props u))
    (un_protocol_level u).

Lemma filter_of_store level topics fs :
  Forall (filter_held level) fs -> len fs <= len topics ->
  map filter_of (zip_with store_filter topics fs) = fs.
Proof.
  intros Hfs. revert topics. induction Hfs as [|f fs (_ & _ & _ & Ht) _ IH]; intros [|t topics] Hl; try done.
  rewrite !len_cons in Hl. cbn [zip_with map]. rewrite IH by lia. f_equal.
  unfold filter_of, store_filter. cbn. by apply cstr_id, utf8_text_nonzero.
Qed.

Lemma MqttDecode_Unsubscribe_meets rx_buf rx_buf_len u0 n :
  rx_ok rx_buf rx_buf_len -> len (un_topics u0) = MAX_MQTT_TOPICS ->
  meets n (MqttDecode_Unsubscribe rx_buf rx_buf_len u0) n
    (fun '(rc, u) n' => un_held u /\ un_norm (un_topics u0) u = u /\
       un_protocol_level u = un_protocol_level u0 /\
       received rx_buf rx_buf_len (un_wire u) rc /\ n = (n' + length (un_props u))%nat).
Proof.
  intros Hrx Harr. unfold MqttDecode_Unsubscribe. apply meets_bind.
  eapply meets_mono; [by apply (decode_filters_meets unsubscribe_read)|].
  intros [[[rc id] fs] ps] n' (Hid & Hok & _ & Hd & Hv4 & Hr & Hn).
  cbn [payload_ok payload_wire unsubscribe_payload] in *. pose proof Hok as (Hne & Hlen & Hfs).
  eapply meets_lift_ok.
  { unfold store_filters. rewrite (proj2 (Z.leb_le _ _)) by lia. reflexivity. }
  apply meets_ret. unfold un_held, un_norm, un_wire, un_body.
  cbn [un_packet_id un_topic_count un_topics un_props un_protocol_level].
  rewrite (filter_of_store (un_protocol_level u0)), (props_decoded_norm _ _ Hd) by (done || lia).
  split_and!; try done; try lia.
  - unfold len in *. rewrite length_zip_with. lia.
  - by eapply props_decoded_rep.
  - destruct (Z.leb_spec MQTT_CONNECT_PROTOCOL_LEVEL_5 (un_protocol_level u0)); [apply Hd|by apply Hv4].
Qed.

Lemma MqttDecode_Unsubscribe_sits rx_buf rx_buf_len u u0 n :
  un_held u -> len (un_topics u0) = MAX_MQTT_TOPICS ->
  un_protocol_level u0 = un_protocol_level u -> (length (un_props u) <= n)%nat ->
  len (un_body u) <= MQTT_PACKET_MAX_REMAIN_LEN ->
  received rx_buf rx_buf_len (un_wire u) (len (un_wire u)) -> rx_buf_len < 2147483648 ->
  MqttDecode_Unsubscribe rx_buf rx_buf_len u0 n =
    (Ok (len (un_wire u), un_norm (un_topics u0) u), (n - length (un_props u))%nat).
Proof.
  intros (Hid & Hc & Hts & Hrep & Hps) Harr Hl Hn Hmax Hrx Hm. unfold MqttDecode_Unsubscribe. rewrite Hl.
  erewrite run_bind; [|by apply (decode_filters_sits unsubscribe_read MQTT_PACKET_TYPE_UNSUBSCRIBE eq_refl
    rx_buf rx_buf_len (un_protocol_level u) (un_packet_id u) (map filter_of (un_topics u)) (un_props u) n)].
  cbn [payload_norm unsubscribe_payload]. destruct Hts as (_ & Hlen & _).
  assert (E : len (map filter_of (un_topics u)) = un_topic_count u) by (rewrite Hc; unfold len; by rewrite length_map).
  erewrite run_lift; [|unfold store_filters; rewrite (proj2 (Z.leb_le _ _)) by lia; reflexivity].
  rewrite E. done.
Qed.

(** ** UNSUBACK *)

(** The reason codes of the structure. *)
Definition unsuback_sent (ua : MqttUnsubscribeAck) : list Z :=
  match ua_reason_codes ua with
  | Some codes => take (Z.to_nat (ua_reason_code_count ua)) codes
  | None => []
  end.

(** The body of an UNSUBACK with this property block. *)
Definition unsuback_body (id : Z) (block codes : list Z) : list Z := be16 id ++ block ++ codes.

Definition unsuback_wire (id : Z) (block codes : list Z) : list Z :=
  frame MQTT_PACKET_TYPE_UNSUBSCRIBE_ACK 0 MQTT_QOS_0 0 (unsuback_body id block codes).

(** What is sent for the structure. *)
Definition ua_wire (ua : MqttUnsubscribeAck) : list Z :=
  if MQTT_CONNECT_PROTOCOL_LEVEL_5 <=? ua_protocol_level ua
  then unsuback_wire (ua_packet_id ua) (props_block (ua_props ua)) (unsuback_sent ua)
  else unsuback_wire (ua_packet_id ua) [] [].

Definition ua_body (ua : MqttUnsubscribeAck) : list Z :=
  if MQTT_CONNECT_PROTOCOL_LEVEL_5 <=? ua_protocol_level ua
  then unsuback_body (ua_packet_id ua) (props_block (ua_props ua)) (unsuback_sent ua)
  else unsuback_body (ua_packet_id ua) [] [].

Definition ua_rep (ua : MqttUnsubscribeAck) : Prop :=
  0 <= ua_packet_id ua < 65536 /\ Forall prop_rep (ua_props ua) /\
  0 <= ua_reason_code_count ua < 65536 /\
  (forall codes, ua_reason_codes ua = Some codes -> ua_reason_code_count ua <= len codes).

Definition ua_ok (ua : MqttUnsubscribeAck) : Prop :=
  ua_packet_id ua <> 0 /\
  (MQTT_CONNECT_PROTOCOL_LEVEL_5 <= ua_protocol_level ua ->
   props_ok MQTT_PACKET_TYPE_UNSUBSCRIBE_ACK (ua_props ua) /\
   forallb MqttPacket_UnsubAckReasonCodeValid (unsuback_sent ua) = true).

Lemma unsuback_codes_check_eq todo codes :
  (todo <= length codes)%nat ->
  unsuback_codes_check todo codes = Ok (forallb MqttPacket_UnsubAckReasonCodeValid (take todo codes)).
Proof.
  revert codes. induction todo as [|todo IH]; intros [|c codes] Hl; try done; [simpl in Hl; lia|].
  cbn [unsuback_codes_check take forallb]. destruct (MqttPacket_UnsubAckReasonCodeValid c); [|done].
  apply IH. simpl in Hl. lia.
Qed.

Lemma unsuback_codes_settles ua :
  ua_rep ua ->
  settles (unsuback_codes ua) (forallb MqttPacket_UnsubAckReasonCodeValid (unsuback_sent ua) = true)
    (fun codes => codes = unsuback_sent ua) /\ len (unsuback_sent ua) <= 65535.
Proof.
  intros (_ & _ & Hc & Hcodes). unfold unsuback_codes, unsuback_sent.
  destruct (ua_reason_codes ua) as [codes|]; [|split; [by apply settles_ok|done]].
  pose proof (Hcodes codes eq_refl) as Hl. rewrite len_take by lia. split; [|lia].
  destruct (Z.ltb_spec 0 (ua_reason_code_count ua)).
  - rewrite unsuback_codes_check_eq by (unfold len in Hl; lia). cbn [mbind result_bind].
    destruct (forallb _ _); [|by apply settles_err; [lia|]].
    cbn [negb]. rewrite slice_ok by lia. by apply settles_ok.
  - assert (ua_reason_code_count ua = 0) as -> by lia. by apply settles_ok.
Qed.

Lemma MqttEncode_UnsubscribeAck_answers tx_buf_len ua :
  ua_rep ua ->
  answers (MqttEncode_UnsubscribeAck tx_buf_len ua)
    (ua_ok ua /\ room tx_buf_len (ua_body ua)) (len (ua_wire ua)) (ua_wire ua).
Proof.
  intros Hrep0. pose proof Hrep0 as (Hid & Hrep & _).
  destruct (unsuback_codes_settles ua Hrep0) as [Hcodes Hcl].
  unfold MqttEncode_UnsubscribeAck, ua_ok, ua_wire, ua_body, unsuback_wire.
  destruct (Z.eqb_spec (ua_packet_id ua) 0); [apply answers_err; [lia|tauto]|].
  rewrite <- (Z.leb_le MQTT_CONNECT_PROTOCOL_LEVEL_5 (ua_protocol_level ua)).
  rewrite MqttEncode_Num_eq by done. cbn [when].
  destruct (MQTT_CONNECT_PROTOCOL_LEVEL_5 <=? ua_protocol_level ua); last first.
  { eapply answers_iff; [|apply write_packet_writes]; [|by eexists|done|done].
    intuition done. }
  set (sent := unsuback_sent ua) in *.
  eapply answers_iff; [|apply (props_length_answers _ _ _
    (forallb MqttPacket_UnsubAckReasonCodeValid sent = true /\
     room tx_buf_len (unsuback_body (ua_packet_id ua) (props_block (ua_props ua)) sent)) _ _ Hrep)].
  2:{ intros Hok Hw. pose proof (props_bounds _ _ Hrep Hok) as [Hwl Hbl].
    pose proof (props_block_len (ua_props ua)).
    destruct Hcodes as [(Hv & ? & -> & ->)|(Hv & rc & Hrc & ->)]; [|apply answers_err; [done|tauto]].
    cbn [mbind result_bind]. rewrite Hw.
    eapply answers_iff; [|apply write_packet_writes; [by eexists| |]].
    - tauto.
    - unfold unsuback_body. rewrite !len_app. change (len (be16 _)) with 2. lia.
    - unfold unsuback_body. rewrite !len_app. change (len (be16 _)) with 2. lia. }
  intuition done.
Qed.

(** The packet the decoder has seen; an MQTT v5 packet of two bytes has no
    properties. The count is a [word16]: it is reduced modulo 65536. *)
Definition ua_found (rx_buf : list Z) (rx_buf_len rc : Z) (ua0 ua : MqttUnsubscribeAck) : Prop :=
  ua_protocol_level ua = ua_protocol_level ua0 /\ 0 <= ua_packet_id ua < 65536 /\
  props_decoded MQTT_PACKET_TYPE_UNSUBSCRIBE_ACK (ua_props ua) /\
  if MQTT_CONNECT_PROTOCOL_LEVEL_5 <=? ua_protocol_level ua0 then
    exists codes block,
      ua_reason_codes ua = Some codes /\ ua_reason_code_count ua = u16 (len codes) /\
      forallb MqttPacket_UnsubAckReasonCodeValid (unsuback_sent ua) = true /\
      (block = props_block (ua_props ua) \/ block = [] /\ ua_props ua = [] /\ codes = []) /\
      received rx_buf rx_buf_len (unsuback_wire (ua_packet_id ua) block codes) rc
  else
    ua_props ua = [] /\ ua_reason_codes ua = ua_reason_codes ua0 /\
    ua_reason_code_count ua = ua_reason_code_count ua0 /\
    received rx_buf rx_buf_len (unsuback_wire (ua_packet_id ua) [] []) rc.

Lemma MqttDecode_UnsubscribeAck_meets rx_buf rx_buf_len ua0 n :
  rx_ok rx_buf rx_buf_len ->
  meets n (MqttDecode_UnsubscribeAck rx_buf rx_buf_len ua0) n
    (fun '(rc, ua) n' => ua_found rx_buf rx_buf_len rc ua0 ua /\
       n = (n' + length (ua_props ua))%nat).
Proof.
  intros Hrx. pose proof Hrx as (Hb & Hl & Hm). unfold MqttDecode_UnsubscribeAck, ua_found. cbv zeta.
  set (level := ua_protocol_level ua0). apply meets_test; [lia|done|]. intros _.
  apply meets_bind, meets_lift; [|done].
  eapply yields_mono; [by apply MqttDecode_FixedHeader_fixed|].
  intros fh (Hf1 & Hf2 & Hf3 & _ & Hs & Hh). change (fixed_qos _) with MQTT_QOS_0 in Hs.
  apply meets_test; [lia|done|]. intros Hroom%Z.ltb_ge.
  apply meets_test; [lia|done|]. intros Hrem. rewrite u32_small by lia.
  apply meets_bind, meets_lift; [|done].
  eapply yields_mono; [apply MqttDecode_Num_yields; [done|lia|lia]|].
  intros [id tmp] (-> & H2 & Hid & Hsid).
  destruct (MQTT_CONNECT_PROTOCOL_LEVEL_5 <=? level); tests; last first.
  { pose proof (props_decoded_nil MQTT_PACKET_TYPE_UNSUBSCRIBE_ACK). apply meets_ret.
    cbn [ua_protocol_level ua_packet_id ua_props ua_reason_codes ua_reason_code_count length].
    split_and!; try done; try lia. by apply received_frame. }
  apply meets_bind. apply (meets_mono _ _ _ (fun '(ps, k) n' => exists block,
    props_decoded MQTT_PACKET_TYPE_UNSUBSCRIBE_ACK ps /\ sits rx_buf (fh_header_len fh + 2) block /\
    k = len block /\ 2 + len block <= fh_remain_len fh /\ n = (n' + length ps)%nat /\
    (block = props_block ps \/ block = [] /\ ps = [] /\ fh_remain_len fh = 2))).
  { destruct (Z.ltb_spec MQTT_DATA_LEN_SIZE (fh_remain_len fh)).
    - eapply meets_mono; [apply read_props_meets; try done; try lia; intros ???; by apply within_neg|].
      intros [ps k] n' (Hd & Hps & Hk & _ & Hkl & Hn & _). exists (props_block ps).
      split_and!; try done; try lia. by left.
    - apply meets_ret. exists []. pose proof (props_decoded_nil MQTT_PACKET_TYPE_UNSUBSCRIBE_ACK).
      cbn [length]. change (len []) with 0. split_and!; try done; try lia; [apply sits_nil; lia|].
      right. split_and!; done || lia. }
  intros [ps k] n' (block & Hd & Hps & -> & Hbl & Hn & Hblk). pose proof (len_nonneg block).
  rewrite (proj2 (Z.ltb_ge _ _)) by lia.
  remember (fh_header_len fh + fh_remain_len fh - (fh_header_len fh + 2 + len block)) as pl eqn:Epl.
  destruct (slice rx_buf (fh_header_len fh + 2 + len block) pl) as [codes| |] eqn:Ecodes;
    [|rewrite slice_ok in Ecodes by lia; done..].
  apply slice_inv in Ecodes as (_ & _ & _ & Hcl & Hcs).
  eapply meets_lift_ok; [done|]. rewrite <- Hcl.
  destruct (forallb _ _) eqn:Ecok; cbn [negb]; [|by apply meets_free_throw].
  apply meets_ret. cbn [ua_protocol_level ua_packet_id ua_props ua_reason_codes ua_reason_code_count].
  split; [|done]. split_and!; try done; try lia. exists codes, block. split_and!; try done.
  - destruct Hblk as [?|(-> & -> & Hr)]; [by left|right]. split_and!; try done.
    apply length_zero_iff_nil. unfold len in *. simpl in *. lia.
  - apply received_frame; try done.
    + unfold unsuback_body. apply sits_app. split; [done|]. change (len (be16 id)) with 2.
      apply sits_app. by split.
    + unfold unsuback_body. rewrite !len_app, Hcl. change (len (be16 id)) with 2. lia.
Qed.

(** A decoder's view of an UNSUBACK. *)
Definition ua_norm (ua0 ua : MqttUnsubscribeAck) : MqttUnsubscribeAck :=
  if MQTT_CONNECT_PROTOCOL_LEVEL_5 <=? ua_protocol_level ua
  then mkUnsubscribeAck (ua_packet_id ua) (map prop_norm (ua_props ua)) (Some (unsuback_sent ua))
         (len (unsuback_sent ua)) (ua_protocol_level ua)
  else mkUnsubscribeAck (ua_packet_id ua) [] (ua_reason_codes ua0) (ua_reason_code_count ua0)
         (ua_protocol_level ua).

Lemma unsuback_body_len id block codes :
  len (unsuback_body id block codes) = 2 + len block + len codes.
Proof. unfold unsuback_body. rewrite !len_app. change (len (be16 _)) with 2. lia. Qed.

Lemma unsuback_v5_sits rx_buf rx_buf_len ua ua0 n :
  let level := ua_protocol_level ua0 in
  let codes := unsuback_sent ua in
  let w := unsuback_wire (ua_packet_id ua) (props_block (ua_props ua)) codes in
  MQTT_CONNECT_PROTOCOL_LEVEL_5 <= level -> ua_rep ua -> auth_ok (ua_props ua) ->
  props_ok MQTT_PACKET_TYPE_UNSUBSCRIBE_ACK (ua_props ua) ->
  forallb MqttPacket_UnsubAckReasonCodeValid codes = true -> (length (ua_props ua) <= n)%nat ->
  len (unsuback_body (ua_packet_id ua) (props_block (ua_props ua)) codes) <= MQTT_PACKET_MAX_REMAIN_LEN ->
  received rx_buf rx_buf_len w (len w) -> rx_buf_len < 2147483648 ->
  MqttDecode_UnsubscribeAck rx_buf rx_buf_len ua0 n =
    (Ok (len w, mkUnsubscribeAck (ua_packet_id ua) (map prop_norm (ua_props ua)) (Some codes)
                  (len codes) level), (n - length (ua_props ua))%nat).
Proof.
  intros level codes w Hlev Hrep0 Ha Hpo Hcodes Hn Hmax Hrx Hm. pose proof Hrep0 as (Hid & Hrep & _).
  destruct (unsuback_codes_settles ua Hrep0) as [_ Hsent]. fold codes in Hsent.
  pose proof (props_bounds _ _ Hrep Hpo) as [Hwl Hpbl].
  destruct (MqttDecode_FixedHeader_frame _ _ _ _ _ _ _
    (fixed_header_args MQTT_PACKET_TYPE_UNSUBSCRIBE_ACK ltac:(lia) ltac:(lia)) Hmax Hrx Hm)
    as (h & Hh & Hw & Hr & Hb0 & Hs & E).
  unfold MqttDecode_UnsubscribeAck. fold level. rewrite (proj2 (Z.leb_le _ _) Hlev).
  rewrite (proj2 (Z.leb_gt rx_buf_len 0)), (run_lift _ _ _ _ E) by lia.
  cbn [fh_header_len fh_remain_len]. cbv zeta. clear E.
  change (frame _ _ _ _ _) with w in Hw. rewrite Hw, unsuback_body_len in *.
  pose proof (props_block_len (ua_props ua)) as Hpl. pose proof (len_nonneg codes) as Hcl.
  unfold unsuback_body in Hs. apply sits_app in Hs as [Hs1 Hs2]. change (len (be16 _)) with 2 in Hs2.
  apply sits_app in Hs2 as [Hs2 Hs3]. rewrite !(proj2 (Z.ltb_ge _ _)), u32_small by lia.
  rewrite (run_lift _ _ _ _ (MqttDecode_Num_sits _ _ (rx_buf_len - h) _ Hid Hs1 ltac:(lia))).
  rewrite (proj2 (Z.ltb_lt _ _)) by lia.
  erewrite run_bind; [|apply (read_props_sits _ _ _ _ _ _ (ua_props ua)); try done; try lia].
  2:{ unfold within. pose proof (vbi_len 4 (len (props_wire (ua_props ua)))). rewrite u32_small by lia.
    by rewrite (proj2 (Z.ltb_ge _ _)) by lia. }
  cbv match. rewrite (proj2 (Z.ltb_ge _ _)) by lia.
  replace (_ - (h + 2 + len (props_block (ua_props ua)))) with (len codes) by lia.
  rewrite (run_lift _ _ _ _ (slice_sits _ _ _ (len codes) Hs3 eq_refl)), u16_small by lia.
  replace (take (Z.to_nat (len codes)) codes) with codes by (unfold len; by rewrite Nat2Z.id, firstn_all).
  by rewrite Hcodes.
Qed.

Lemma MqttDecode_UnsubscribeAck_sits rx_buf rx_buf_len ua ua0 n :
  ua_rep ua -> ua_ok ua -> auth_ok (ua_props ua) -> ua_protocol_level ua0 = ua_protocol_level ua ->
  (cells (ua_protocol_level ua) (ua_props ua) <= n)%nat ->
  len (ua_body ua) <= MQTT_PACKET_MAX_REMAIN_LEN ->
  received rx_buf rx_buf_len (ua_wire ua) (len (ua_wire ua)) -> rx_buf_len < 2147483648 ->
  MqttDecode_UnsubscribeAck rx_buf rx_buf_len ua0 n =
    (Ok (len (ua_wire ua), ua_norm ua0 ua), (n - cells (ua_protocol_level ua) (ua_props ua))%nat).
Proof.
  intros Hrep0 (Hid0 & Hok) Ha Hlev Hn Hmax Hrx Hm. pose proof Hrep0 as (Hid & _).
  unfold ua_wire, ua_body, ua_norm, cells in *.
  destruct (Z.leb_spec MQTT_CONNECT_PROTOCOL_LEVEL_5 (ua_protocol_level ua)) as [Hv|Hv].
  { destruct (Hok Hv) as [Hpo Hcodes]. rewrite <- Hlev in Hv |- *. by apply unsuback_v5_sits. }
  destruct (MqttDecode_FixedHeader_frame _ _ _ _ _ _ _
    (fixed_header_args MQTT_PACKET_TYPE_UNSUBSCRIBE_ACK ltac:(lia) ltac:(lia)) Hmax Hrx Hm)
    as (h & Hh & Hw & Hr & Hb0 & Hs & E).
  unfold MqttDecode_UnsubscribeAck. rewrite Hlev, (proj2 (Z.leb_gt _ (ua_protocol_level ua)) Hv).
  rewrite (proj2 (Z.leb_gt rx_buf_len 0)), (run_lift _ _ _ _ E) by lia.
  cbn [fh_header_len fh_remain_len]. cbv zeta. clear E.
  change (frame _ _ _ _ _) with (unsuback_wire (ua_packet_id ua) [] []) in Hw.
  rewrite Hw, unsuback_body_len in *. change (len []) with 0 in *.
  rewrite (proj2 (Z.ltb_ge _ _)), u32_small by lia. change (negb (2 + 0 + 0 =? MQTT_DATA_LEN_SIZE)) with false. cbv match.
  rewrite (run_lift _ _ _ _ (MqttDecode_Num_sits _ _ (rx_buf_len - h) _ Hid Hs ltac:(lia))).
  unfold mret, M_ret. by rewrite Nat.sub_0_r.
Qed.

(** ** Properties *)

(** [MqttEncode_Unsubscribe] accepts a structure exactly when its packet
    identifier is not zero, it has a topic, every filter is well-formed UTF-8
    and a valid filter of the protocol level and the properties may be in an
    UNSUBSCRIBE; and [MqttDecode_Unsubscribe] gets all of it back when the
    topics fit in its array. *)
Theorem Unsubscribe_roundtrip tx_buf_len u u0 :
  un_rep u -> un_protocol_level u0 = un_protocol_level u -> len (un_topics u0) = MAX_MQTT_TOPICS ->
  transmits tx_buf_len (MqttEncode_Unsubscribe tx_buf_len u) (un_ok u) (un_body u)
    (un_held u) (length (un_props u))
    (fun rx_buf rx_buf_len => MqttDecode_Unsubscribe rx_buf rx_buf_len u0) (un_norm (un_topics u0) u).
Proof.
  intros Hr Hl Ht. eapply transmits_intro; [reflexivity|by apply MqttEncode_Unsubscribe_answers|].
  intros rx_buf rx_buf_len free Hok Hb Ha (? & ? & ?) Hrec Hc. by apply MqttDecode_Unsubscribe_sits.
Qed.

Definition ex_unsubscribe : MqttUnsubscribe :=
  mkUnsubscribe 513 1 [mkTopic (Some [97; 47; 98]) 0 0] [] 4.
Definition ex_unsubscribe0 : MqttUnsubscribe :=
  mkUnsubscribe 0 0 (replicate 12 (mkTopic None 0 0)) [] 4.
Definition ex_unsubscribe_wire : list Z := [162; 7; 2; 1; 0; 3; 97; 47; 98].

Lemma ex_unsubscribe_held : un_held ex_unsubscribe.
Proof.
  split; [by_eval|]. split; [by_eval|]. split; [|by_eval]. split_and!; [done|by_eval|].
  apply Forall_cons_2; [|done]. split_and!; [by_eval..| |].
  - unfold filter_ok_at. rewrite bool_decide_eq_false_2 by by_eval. split; [done|].
    by apply scan_levels.
  - do 3 (apply text_1; [lia|]). constructor.
Qed.

Lemma Unsubscribe_roundtrip_witness :
  MqttEncode_Unsubscribe 64 ex_unsubscribe = Ok (9, ex_unsubscribe_wire) /\
  MqttDecode_Unsubscribe ex_unsubscribe_wire 9 ex_unsubscribe0 0%nat =
    (Ok (9, un_norm (un_topics ex_unsubscribe0) ex_unsubscribe), 0%nat).
Proof.
  split; [reflexivity|].
  refine (transmits_run _ _ _ _ _ _ _ _ 9 _ 0
    (Unsubscribe_roundtrip 64 ex_unsubscribe ex_unsubscribe0 _ eq_refl eq_refl) eq_refl
    ex_unsubscribe_held _ _); by_eval.
Defined.

(** For every buffer, [MqttDecode_Unsubscribe] reads nothing outside it and
    ends; it accepts exactly the buffers that start with a whole, valid
    UNSUBSCRIBE of at most [MAX_MQTT_TOPICS] topics, provided the property
    pool has cells for its properties; what it reports is that packet; and a
    refused one leaves no property cell taken. *)
Theorem MqttDecode_Unsubscribe_exact rx_buf rx_buf_len u0 n :
  rx_ok rx_buf rx_buf_len -> len (un_topics u0) = MAX_MQTT_TOPICS ->
  recognizes n (MqttDecode_Unsubscribe rx_buf rx_buf_len u0)
    (fun rc u => un_held u /\ un_norm (un_topics u0) u = u /\
       un_protocol_level u = un_protocol_level u0 /\
       len (un_body u) <= MQTT_PACKET_MAX_REMAIN_LEN /\ received rx_buf rx_buf_len (un_wire u) rc)
    (fun u => length (un_props u)).
Proof.
  intros Hrx Ht. apply recognizes_intro.
  - pose proof (MqttDecode_Unsubscribe_meets rx_buf rx_buf_len u0 n Hrx Ht) as H. unfold meets in *.
    destruct (MqttDecode_Unsubscribe rx_buf rx_buf_len u0 n) as [[[rc u]|rc|] n'] eqn:E; [|done..].
    destruct H as (? & ? & ? & Hr & ?). split_and!; try done.
    unfold MqttDecode_Unsubscribe, decode_filters in E. apply bind_ok in E as (? & ? & E & _).
    apply header_accepted in E as [fh E]. eapply frame_body_bound; [done|exact E|apply Hr].
  - intros rc u (? & ? & ? & ? & Hrec) Hn. eexists. apply MqttDecode_Unsubscribe_sits; try done; [|apply Hrx].
    destruct Hrec as (? & -> & ?). done.
Qed.

(** A filter longer than the packet. *)
Lemma MqttDecode_Unsubscribe_exact_witness :
  let rx_buf := [162; 7; 2; 1; 0; 4; 97; 47; 98] in
  recognizes 2 (MqttDecode_Unsubscribe rx_buf 9 ex_unsubscribe0)
    (fun rc u => un_held u /\ un_norm (un_topics ex_unsubscribe0) u = u /\
       un_protocol_level u = un_protocol_level ex_unsubscribe0 /\
       len (un_body u) <= MQTT_PACKET_MAX_REMAIN_LEN /\ received rx_buf 9 (un_wire u) rc)
    (fun u => length (un_props u)) /\
  MqttDecode_Unsubscribe rx_buf 9 ex_unsubscribe0 2%nat = (Err MQTT_CODE_ERROR_OUT_OF_BUFFER, 2%nat).
Proof. intros rx_buf. split; [|reflexivity]. apply MqttDecode_Unsubscribe_exact; by_eval. Defined.

(** [MqttEncode_UnsubscribeAck] accepts a structure exactly when its packet
    identifier is not zero and, at protocol level 5, its reason codes are codes
    of an UNSUBACK and its properties are allowed in one; and
    [MqttDecode_UnsubscribeAck] gets identifier, properties and codes back. *)
Theorem UnsubscribeAck_roundtrip tx_buf_len ua ua0 :
  ua_rep ua -> ua_protocol_level ua0 = ua_protocol_level ua ->
  transmits tx_buf_len (MqttEncode_UnsubscribeAck tx_buf_len ua) (ua_ok ua) (ua_body ua)
    (auth_ok (ua_props ua)) (cells (ua_protocol_level ua) (ua_props ua))
    (fun rx_buf rx_buf_len => MqttDecode_UnsubscribeAck rx_buf rx_buf_len ua0) (ua_norm ua0 ua).
Proof.
  intros Hr Hl.
  apply transmits_intro with (type := MQTT_PACKET_TYPE_UNSUBSCRIBE_ACK) (q := MQTT_QOS_0) (w := ua_wire ua).
  - unfold ua_wire, ua_body. by case_match.
  - by apply MqttEncode_UnsubscribeAck_answers.
  - intros rx_buf rx_buf_len free Hok Hb Ha (? & ? & ?) Hrec Hc. by apply MqttDecode_UnsubscribeAck_sits.
Qed.

Lemma ex_unsuback_rep : ua_rep (mkUnsubscribeAck 513 [] (Some [0; 17]) 2 5).
Proof. split_and!; try by_eval. by intros codes [= <-]. Qed.

Lemma UnsubscribeAck_roundtrip_witness :
  let ua := mkUnsubscribeAck 513 [] (Some [0; 17]) 2 5 in
  MqttEncode_UnsubscribeAck 64 ua = Ok (7, [176; 5; 2; 1; 0; 0; 17]) /\
  MqttDecode_UnsubscribeAck [176; 5; 2; 1; 0; 0; 17] 7 (mkUnsubscribeAck 0 [] None 0 5) 0%nat =
    (Ok (7, ua), 0%nat).
Proof.
  intros ua. split; [reflexivity|].
  refine (transmits_run _ _ _ _ _ _ _ _ 7 _ 0
    (UnsubscribeAck_roundtrip 64 ua (mkUnsubscribeAck 0 [] None 0 5) ex_unsuback_rep eq_refl)
    eq_refl _ _ _); by_eval.
Defined.

(** For every buffer, [MqttDecode_UnsubscribeAck] reads nothing outside it
    and ends; what it accepts is a whole UNSUBACK with the reported identifier,
    properties and reason codes, whose count is a [word16]; a failure leaves no
    property cell taken. *)
Theorem MqttDecode_UnsubscribeAck_sound rx_buf rx_buf_len ua0 n :
  rx_ok rx_buf rx_buf_len ->
  meets n (MqttDecode_UnsubscribeAck rx_buf rx_buf_len ua0) n
    (fun '(rc, ua) n' => ua_found rx_buf rx_buf_len rc ua0 ua /\
       n = (n' + length (ua_props ua))%nat).
Proof. apply MqttDecode_UnsubscribeAck_meets. Qed.

Lemma MqttDecode_UnsubscribeAck_sound_witness :
  let ua0 := mkUnsubscribeAck 0 [] None 0 4 in
  MqttDecode_UnsubscribeAck [176; 2; 2; 1] 4 ua0 0%nat =
    (Ok (4, mkUnsubscribeAck 513 [] None 0 4), 0%nat) /\
  ua_found [176; 2; 2; 1] 4 4 ua0 (mkUnsubscribeAck 513 [] None 0 4).
Proof.
  intros ua0. split; [reflexivity|].
  exact (proj1 (MqttDecode_UnsubscribeAck_sound [176; 2; 2; 1] 4 ua0 0%nat ltac:(by_eval))).
Defined.
