(* ===== verification/Connect.v ===== *)
(** * Connect: CONNECT ([mqtt_packet.c])

    [MqttEncode_Connect] and [MqttDecode_Connect], with the list of properties
    that a Will may have. *)
From S2P Require Import Prelude PacketDefs Wire Topic FixedHeader Props Frame.

(** ["MQTT"]. *)
Definition MQTT_CONNECT_PROTOCOL_NAME : list Z := [77; 81; 84; 84].
(** [sizeof(MqttConnectPacket)]. *)
Abbreviation CONNECT_PACKET_SIZE := 10.

Definition MqttWillProps_ValidateType (type : Z) : bool :=
  (type =? MQTT_PROP_WILL_DELAY_INTERVAL) ||
  (type =? MQTT_PROP_PAYLOAD_FORMAT_IND) ||
  (type =? MQTT_PROP_MSG_EXPIRY_INTERVAL) ||
  (type =? MQTT_PROP_CONTENT_TYPE) ||
  (type =? MQTT_PROP_RESP_TOPIC) ||
  (type =? MQTT_PROP_CORRELATION_DATA) ||
  (type =? MQTT_PROP_USER_PROP).

(** The level a CONNECT is sent with; it is written back to the structure. *)
Definition connect_level (mc : MqttConnect) : Z :=
  if mc_protocol_level mc =? 0 then MQTT_CONNECT_PROTOCOL_LEVEL else mc_protocol_level mc.

Definition connect_set_level (mc : MqttConnect) (level : Z) : MqttConnect :=
  mkConnect (mc_keep_alive_sec mc) (mc_clean_session mc) (mc_client_id mc) level
    (mc_enable_lwt mc) (mc_lwt_msg mc) (mc_username mc) (mc_password mc) (mc_props mc)
    (mc_password_len mc).

(** The checks and the length of a string field. *)
Definition connect_str_len (s : list Z) : result Z :=
  let str_len := XSTRLEN s in
  if 65535 <? str_len then Err MQTT_CODE_ERROR_BAD_ARG
  else
    ok ← MqttEncode_Utf8Ok (Some s) str_len;
    if negb ok then Err MQTT_CODE_ERROR_MALFORMED_DATA else Ok (str_len + MQTT_DATA_LEN_SIZE).

(** The loop over the Will Properties. *)
Fixpoint will_props_check (will_prop_count : Z) (props : list MqttProp) : bool :=
  match props with
  | [] => true
  | will_prop :: props =>
    let will_prop_count := will_prop_count + 1 in
    if (MQTT_MAX_PROPS <? will_prop_count) || negb (MqttWillProps_ValidateType (prop_type will_prop))
    then false
    else will_props_check will_prop_count props
  end.

(** The Will: the bytes it takes and the length of its properties. *)
Definition connect_lwt_len (protocol_level : Z) (lwt_msg : option MqttMessage) : result (Z * Z) :=
  match lwt_msg with
  | None => Err MQTT_CODE_ERROR_BAD_ARG
  | Some lwt =>
    match msg_topic_name lwt with
    | None => Err MQTT_CODE_ERROR_BAD_ARG
    | Some topic_name =>
      if bool_decide (msg_buffer lwt = None) && negb (msg_total_len lwt =? 0)
      then Err MQTT_CODE_ERROR_BAD_ARG
      else
        let str_len := XSTRLEN topic_name in
        if 65535 <? str_len then Err MQTT_CODE_ERROR_BAD_ARG
        else
          ok ← MqttPacket_TopicNameValid (Some topic_name) (u16 str_len) protocol_level;
          if negb ok then Err MQTT_CODE_ERROR_MALFORMED_DATA
          else
            ok ← MqttEncode_Utf8Ok (Some topic_name) str_len;
            if negb ok then Err MQTT_CODE_ERROR_MALFORMED_DATA
            else if MQTT_QOS_2 <? msg_qos lwt then Err MQTT_CODE_ERROR_BAD_ARG
            else if 65535 <? msg_total_len lwt then Err MQTT_CODE_ERROR_BAD_ARG
            else
              let n := str_len + MQTT_DATA_LEN_SIZE + (msg_total_len lwt + MQTT_DATA_LEN_SIZE) in
              if MQTT_CONNECT_PROTOCOL_LEVEL_5 <=? protocol_level then
                if negb (will_props_check 0 (msg_props lwt)) then Err MQTT_CODE_ERROR_PROPERTY
                else
                  '(lwt_props_len, tmp_len) ← props_length MQTT_PACKET_TYPE_CONNECT (msg_props lwt);
                  Ok (n + lwt_props_len + tmp_len, lwt_props_len)
              else Ok (n, 0)
    end
  end.

(** The length of the password: the explicit one, or that of a C string. *)
Definition connect_password_len (mc : MqttConnect) (password : list Z) : result Z :=
  let str_len := if 0 <? mc_password_len mc then mc_password_len mc else XSTRLEN password in
  if 65535 <? str_len then Err MQTT_CODE_ERROR_BAD_ARG else Ok str_len.

(** The connect flags; [MQTT_CONNECT_FLAG_SET_QOS] and [.._GET_QOS]. *)
Definition CONNECT_FLAG_SET_QOS (qos : Z) : Z :=
  Z.land (Z.shiftl qos MQTT_CONNECT_FLAG_WILL_QOS_SHIFT) MQTT_CONNECT_FLAG_WILL_QOS_MASK.
Definition CONNECT_FLAG_GET_QOS (flags : Z) : Z :=
  Z.shiftr (Z.land flags MQTT_CONNECT_FLAG_WILL_QOS_MASK) MQTT_CONNECT_FLAG_WILL_QOS_SHIFT.

Definition connect_flags (mc : MqttConnect) : Z :=
  let flags := 0 in
  let flags := if negb (mc_clean_session mc =? 0)
               then Z.lor flags MQTT_CONNECT_FLAG_CLEAN_SESSION else flags in
  let flags :=
    if negb (mc_enable_lwt mc =? 0) then
      let flags := Z.lor flags MQTT_CONNECT_FLAG_WILL_FLAG in
      match mc_lwt_msg mc with
      | Some lwt =>
        let flags := if negb (msg_qos lwt =? 0)
                     then Z.lor flags (CONNECT_FLAG_SET_QOS (msg_qos lwt)) else flags in
        if negb (msg_retain lwt =? 0) then Z.lor flags MQTT_CONNECT_FLAG_WILL_RETAIN else flags
      | None => flags
      end
    else flags in
  let flags := match mc_username mc with
               | Some _ => Z.lor flags MQTT_CONNECT_FLAG_USERNAME | None => flags end in
  match mc_password mc with
  | Some _ => Z.lor flags MQTT_CONNECT_FLAG_PASSWORD | None => flags
  end.

(** The payload: client identifier, Will, user name and password. *)
Definition connect_write_lwt (protocol_level lwt_props_len : Z) (lwt : MqttMessage) : emit :=
  (if MQTT_CONNECT_PROTOCOL_LEVEL_5 <=? protocol_level
   then write_props MQTT_PACKET_TYPE_CONNECT (msg_props lwt) lwt_props_len else Ok (0, [])) +++
  must (MqttEncode_String true (default [] (msg_topic_name lwt))) +++
  MqttEncode_Data true (msg_buffer lwt) (u16 (msg_total_len lwt)).

Definition connect_write_payload (mc : MqttConnect) (lwt_props_len password_len : Z) : emit :=
  must (MqttEncode_String true (default [] (mc_client_id mc))) +++
  (if negb (mc_enable_lwt mc =? 0) then
     match mc_lwt_msg mc with
     | Some lwt => connect_write_lwt (mc_protocol_level mc) lwt_props_len lwt
     | None => UB
     end
   else Ok (0, [])) +++
  match mc_username mc with
  | Some username => must (MqttEncode_String true username)
  | None => Ok (0, [])
  end +++
  match mc_password mc with
  | Some password => MqttEncode_Data true (Some password) password_len
  | None => Ok (0, [])
  end.

(** The [MqttConnectPacket] at the start of the variable header. *)
Definition connect_packet (mc : MqttConnect) : emit :=
  Ok (8, [0; MQTT_CONNECT_PROTOCOL_NAME_LEN] ++ MQTT_CONNECT_PROTOCOL_NAME ++
         [mc_protocol_level mc; connect_flags mc]) +++
  MqttEncode_Num true (mc_keep_alive_sec mc).

(** [MqttEncode_Connect] once the protocol level is set. *)
Definition connect_encode (tx_buf_len : Z) (mc : MqttConnect) (client_id : list Z) : emit :=
  let level := mc_protocol_level mc in
  if negb (level =? MQTT_CONNECT_PROTOCOL_LEVEL_4) && negb (level =? MQTT_CONNECT_PROTOCOL_LEVEL_5)
  then Err MQTT_CODE_ERROR_BAD_ARG
  else if (level =? MQTT_CONNECT_PROTOCOL_LEVEL_4) && bool_decide (mc_password mc <> None) &&
          bool_decide (mc_username mc = None)
  then Err MQTT_CODE_ERROR_BAD_ARG
  else
    '(props_len, tmp_len) ←
       (if MQTT_CONNECT_PROTOCOL_LEVEL_5 <=? level
        then props_length MQTT_PACKET_TYPE_CONNECT (mc_props mc) else Ok (0, 0));
    client_len ← connect_str_len client_id;
    if (client_len =? MQTT_DATA_LEN_SIZE) && (mc_clean_session mc =? 0) &&
       (level =? MQTT_CONNECT_PROTOCOL_LEVEL_4)
    then Err MQTT_CODE_ERROR_BAD_ARG
    else
      '(lwt_len, lwt_props_len) ←
         (if negb (mc_enable_lwt mc =? 0) then connect_lwt_len level (mc_lwt_msg mc) else Ok (0, 0));
      username_len ← match mc_username mc with
                     | Some username => connect_str_len username | None => Ok 0 end;
      '(password_len, n) ← match mc_password mc with
                           | Some password => l ← connect_password_len mc password;
                                              Ok (u16 l, l + MQTT_DATA_LEN_SIZE)
                           | None => Ok (0, 0) end;
      write_packet tx_buf_len
        (CONNECT_PACKET_SIZE + props_len + tmp_len + client_len + lwt_len + username_len + n)
        MQTT_PACKET_TYPE_CONNECT 0 0 0
        (connect_packet mc +++
         (if MQTT_CONNECT_PROTOCOL_LEVEL_5 <=? level
          then write_props MQTT_PACKET_TYPE_CONNECT (mc_props mc) props_len else Ok (0, [])) +++
         connect_write_payload mc lwt_props_len password_len).

(** The result and the structure as the call leaves it. *)
Definition MqttEncode_Connect (tx_buf_len : Z) (mc : MqttConnect) : emit * MqttConnect :=
  match mc_client_id mc with
  | None => (Err MQTT_CODE_ERROR_BAD_ARG, mc)
  | Some client_id =>
    let mc := connect_set_level mc (connect_level mc) in
    (connect_encode tx_buf_len mc client_id, mc)
  end.

(** ** The decoder *)

(** The checks of the connect flags. *)
Definition connect_flags_bad (protocol_level flags : Z) : bool :=
  negb (Z.land flags MQTT_CONNECT_FLAG_RESERVED =? 0) ||
  ((Z.land flags MQTT_CONNECT_FLAG_WILL_FLAG =? 0) &&
   negb (Z.land flags (Z.lor MQTT_CONNECT_FLAG_WILL_QOS_MASK MQTT_CONNECT_FLAG_WILL_RETAIN) =? 0)) ||
  (negb (Z.land flags MQTT_CONNECT_FLAG_WILL_FLAG =? 0) &&
   (CONNECT_FLAG_GET_QOS flags =? MQTT_QOS_3)) ||
  ((protocol_level =? MQTT_CONNECT_PROTOCOL_LEVEL_4) &&
   negb (Z.land flags MQTT_CONNECT_FLAG_PASSWORD =? 0) &&
   (Z.land flags MQTT_CONNECT_FLAG_USERNAME =? 0)).

(** [(packet.flags & flag) ? 1 : 0]. *)
Definition flag_bit (flags flag : Z) : Z := if Z.land flags flag =? 0 then 0 else 1.

(** A string field that must end within the packet. *)
Definition connect_string (rx_buf : list Z) (rx_buf_len rx_end pos : Z)
    : result (list Z * Z * Z) :=
  '(s, n, tmp) ← MqttDecode_String rx_buf pos (u32 (rx_buf_len - pos));
  if rx_end <? pos + tmp then Err MQTT_CODE_ERROR_OUT_OF_BUFFER else Ok (s, n, pos + tmp).

Definition connect_password (rx_buf : list Z) (rx_buf_len rx_end pos : Z) : result (list Z * Z) :=
  '(plen, tmp) ← MqttDecode_Num rx_buf pos (u32 (rx_buf_len - pos));
  if u32 (rx_buf_len - pos - tmp) <? plen then Err MQTT_CODE_ERROR_OUT_OF_BUFFER
  else if rx_end <? pos + tmp + plen then Err MQTT_CODE_ERROR_OUT_OF_BUFFER
  else password ← slice rx_buf (pos + tmp) plen; Ok (password, pos + tmp + plen).

(** The properties of a level; only level 5 has them on the wire. *)
Definition connect_props (rx_buf : list Z) (rx_buf_len level pos : Z) : M (list MqttProp * Z) :=
  if level =? MQTT_CONNECT_PROTOCOL_LEVEL_5 then
    if rx_buf_len <? pos then throw MQTT_CODE_ERROR_OUT_OF_BUFFER
    else read_props MQTT_PACKET_TYPE_CONNECT rx_buf pos rx_buf_len (fun _ _ => None)
  else mret ([], 0).

(** The Will topic and payload. *)
Definition connect_will_fields (rx_buf : list Z) (rx_buf_len rx_end level pos : Z)
    : result (list Z * Z * list Z * Z * Z) :=
  '(topic, topic_len, pos) ← connect_string rx_buf rx_buf_len rx_end pos;
  ok ← (if topic_len =? 0 then Ok false
        else MqttPacket_TopicNameValid (Some topic) topic_len level);
  if negb ok then Err MQTT_CODE_ERROR_MALFORMED_DATA
  else
    '(lwt_len, tmp) ← MqttDecode_Num rx_buf pos (u32 (rx_buf_len - pos));
    let pos := pos + tmp in
    if rx_end <? pos + lwt_len then Err MQTT_CODE_ERROR_OUT_OF_BUFFER
    else
      buffer ← slice rx_buf pos lwt_len;
      Ok (topic, topic_len, buffer, lwt_len, pos + lwt_len).

(** The Will message in the caller's structure. *)
Definition connect_will (rx_buf : list Z) (rx_buf_len rx_end level flags pos : Z)
    (lwt_msg : option MqttMessage) : M (MqttMessage * Z) :=
  match lwt_msg with
  | None => throw MQTT_CODE_ERROR_BAD_ARG
  | Some lwt =>
    '(props, n) ← connect_props rx_buf rx_buf_len level pos;
    freeing props (
      if negb (forallb (fun p => MqttWillProps_ValidateType (prop_type p)) props)
      then throw MQTT_CODE_ERROR_PROPERTY
      else
        '(topic, topic_len, buffer, total_len, pos) ←
           lift (connect_will_fields rx_buf rx_buf_len rx_end level (pos + n));
        mret (mkMessage (msg_packet_id lwt) (msg_type lwt) (CONNECT_FLAG_GET_QOS flags)
                (flag_bit flags MQTT_CONNECT_FLAG_WILL_RETAIN) (msg_duplicate lwt)
                (Some topic) topic_len total_len (Some buffer) total_len 0
                (msg_buffer_new lwt) (msg_intBuf_len lwt) (msg_intBuf_pos lwt)
                props (msg_protocol_level lwt), pos))
  end.

(** User name and password. *)
Definition connect_login (rx_buf : list Z) (rx_buf_len rx_end flags pos : Z)
    : result (option (list Z) * option (list Z) * Z) :=
  '(username, pos) ←
     (if Z.land flags MQTT_CONNECT_FLAG_USERNAME =? 0 then Ok (None, pos)
      else '(s, _, pos) ← connect_string rx_buf rx_buf_len rx_end pos; Ok (Some s, pos));
  '(password, pos) ←
     (if Z.land flags MQTT_CONNECT_FLAG_PASSWORD =? 0 then Ok (None, pos)
      else '(s, pos) ← connect_password rx_buf rx_buf_len rx_end pos; Ok (Some s, pos));
  if negb (pos =? rx_end) then Err MQTT_CODE_ERROR_MALFORMED_DATA
  else Ok (username, password, rx_end).

(** What follows the [MqttConnectPacket]; the lists that a failure leaves
    behind are freed. *)
Definition connect_payload (rx_buf : list Z) (rx_buf_len rx_end level flags keep_alive pos : Z)
    (mc : MqttConnect) : M MqttConnect :=
  '(props, n) ← connect_props rx_buf rx_buf_len level pos;
  freeing props (
    '(client_id, _, pos) ← lift (connect_string rx_buf rx_buf_len rx_end (pos + n));
    '(lwt_msg, lwt_props, pos) ←
       (if Z.land flags MQTT_CONNECT_FLAG_WILL_FLAG =? 0 then mret (mc_lwt_msg mc, [], pos)
        else '(lwt, pos) ← connect_will rx_buf rx_buf_len rx_end level flags pos (mc_lwt_msg mc);
             mret (Some lwt, msg_props lwt, pos));
    freeing lwt_props (
      '(username, password, _) ← lift (connect_login rx_buf rx_buf_len rx_end flags pos);
      mret (mkConnect keep_alive (flag_bit flags MQTT_CONNECT_FLAG_CLEAN_SESSION) (Some client_id)
              level (flag_bit flags MQTT_CONNECT_FLAG_WILL_FLAG) lwt_msg username password props
              (len (default [] password))))).

Definition MqttDecode_Connect (rx_buf : list Z) (rx_buf_len : Z) (mc : MqttConnect)
    : M (Z * MqttConnect) :=
  if rx_buf_len <=? 0 then throw MQTT_CODE_ERROR_BAD_ARG
  else
    fh ← lift (MqttDecode_FixedHeader rx_buf rx_buf_len MQTT_PACKET_TYPE_CONNECT);
    let header_len := fh_header_len fh in
    let remain_len := fh_remain_len fh in
    if rx_buf_len <? header_len + remain_len then throw MQTT_CODE_ERROR_OUT_OF_BUFFER
    else if (remain_len <? CONNECT_PACKET_SIZE) || (rx_buf_len <? header_len + CONNECT_PACKET_SIZE)
    then throw MQTT_CODE_ERROR_OUT_OF_BUFFER
    else
      packet ← lift (slice rx_buf header_len CONNECT_PACKET_SIZE);
      '(protocol_len, _) ← lift (MqttDecode_Num packet 0 MQTT_DATA_LEN_SIZE);
      protocol_name ← lift (slice packet 2 MQTT_CONNECT_PROTOCOL_NAME_LEN);
      if negb (protocol_len =? MQTT_CONNECT_PROTOCOL_NAME_LEN) ||
         bool_decide (protocol_name <> MQTT_CONNECT_PROTOCOL_NAME)
      then throw MQTT_CODE_ERROR_MALFORMED_DATA
      else
        level ← lift (rd packet 6);
        flags ← lift (rd packet 7);
        if connect_flags_bad level flags then throw MQTT_CODE_ERROR_MALFORMED_DATA
        else
          '(keep_alive, _) ← lift (MqttDecode_Num packet 8 MQTT_DATA_LEN_SIZE);
          mc ← connect_payload rx_buf rx_buf_len (header_len + remain_len) level flags keep_alive
                 (header_len + CONNECT_PACKET_SIZE) mc;
          mret (header_len + remain_len, mc).

(** ** The packet *)

(** The property block of a level. *)
Definition v5_block (level : Z) (ps : list MqttProp) : list Z :=
  if level =? MQTT_CONNECT_PROTOCOL_LEVEL_5 then props_block ps else [].

Definition will_topic (lwt : MqttMessage) : list Z := cstr (default [] (msg_topic_name lwt)).
Definition will_payload (lwt : MqttMessage) : list Z :=
  take (Z.to_nat (msg_total_len lwt)) (default [] (msg_buffer lwt)).

Definition will_wire (level : Z) (lwt : MqttMessage) : list Z :=
  v5_block level (msg_props lwt) ++ counted (will_topic lwt) ++ counted (will_payload lwt).

(** The optional parts of the payload. *)
Definition will_part (mc : MqttConnect) : list Z :=
  if mc_enable_lwt mc =? 0 then []
  else match mc_lwt_msg mc with Some lwt => will_wire (mc_protocol_level mc) lwt | None => [] end.

Definition user_part (mc : MqttConnect) : list Z :=
  match mc_username mc with Some u => counted (cstr u) | None => [] end.

Definition password_bytes (mc : MqttConnect) (password : list Z) : list Z :=
  if 0 <? mc_password_len mc then take (Z.to_nat (mc_password_len mc)) password else cstr password.

Definition password_part (mc : MqttConnect) : list Z :=
  match mc_password mc with Some p => counted (password_bytes mc p) | None => [] end.

Definition client_bytes (mc : MqttConnect) : list Z := cstr (default [] (mc_client_id mc)).

Definition connect_head (level flags keep_alive : Z) : list Z :=
  [0; MQTT_CONNECT_PROTOCOL_NAME_LEN] ++ MQTT_CONNECT_PROTOCOL_NAME ++ [level; flags] ++ be16 keep_alive.

Definition connect_body (mc : MqttConnect) : list Z :=
  connect_head (mc_protocol_level mc) (connect_flags mc) (mc_keep_alive_sec mc) ++
  v5_block (mc_protocol_level mc) (mc_props mc) ++
  counted (client_bytes mc) ++ will_part mc ++ user_part mc ++ password_part mc.

Definition connect_wire (mc : MqttConnect) : list Z :=
  frame MQTT_PACKET_TYPE_CONNECT 0 MQTT_QOS_0 0 (connect_body mc).

(** The structures as C stores them. *)
Definition will_rep (lwt : MqttMessage) : Prop :=
  bytes (default [] (msg_topic_name lwt)) /\ 0 <= msg_qos lwt /\ 0 <= msg_total_len lwt < 4294967296 /\
  (forall b, msg_buffer lwt = Some b -> msg_total_len lwt <= len b) /\ Forall prop_rep (msg_props lwt).

Definition connect_rep (mc : MqttConnect) : Prop :=
  0 <= mc_keep_alive_sec mc < 65536 /\ 0 <= mc_protocol_level mc < 256 /\
  bytes (default [] (mc_client_id mc)) /\
  (mc_enable_lwt mc <> 0 -> forall lwt, mc_lwt_msg mc = Some lwt -> will_rep lwt) /\
  bytes (default [] (mc_username mc)) /\ 0 <= mc_password_len mc < 65536 /\
  (forall p, mc_password mc = Some p -> mc_password_len mc <= len p) /\ Forall prop_rep (mc_props mc).

(** What the encoder asks for: the checks of [connect_encode], as a predicate.
    It is not quite what the protocol asks for, see [connect_valid]. *)
Definition text_ok (s : list Z) : Prop := len (cstr s) <= 65535 /\ utf8_text (cstr s).

Definition will_ok (level : Z) (lwt : MqttMessage) : Prop :=
  is_Some (msg_topic_name lwt) /\ (msg_buffer lwt = None -> msg_total_len lwt = 0) /\
  text_ok (default [] (msg_topic_name lwt)) /\ plain (will_topic lwt) /\
  (will_topic lwt <> [] \/ MQTT_CONNECT_PROTOCOL_LEVEL_5 <= level) /\
  msg_qos lwt <= MQTT_QOS_2 /\ msg_total_len lwt <= 65535 /\
  (level = MQTT_CONNECT_PROTOCOL_LEVEL_5 ->
   Forall (fun p => MqttWillProps_ValidateType (prop_type p) = true) (msg_props lwt) /\
   props_ok MQTT_PACKET_TYPE_CONNECT (msg_props lwt)).

Definition connect_ok (mc : MqttConnect) : Prop :=
  let level := mc_protocol_level mc in
  (level = MQTT_CONNECT_PROTOCOL_LEVEL_4 \/ level = MQTT_CONNECT_PROTOCOL_LEVEL_5) /\
  (level = MQTT_CONNECT_PROTOCOL_LEVEL_4 -> is_Some (mc_password mc) -> is_Some (mc_username mc)) /\
  (level = MQTT_CONNECT_PROTOCOL_LEVEL_5 -> props_ok MQTT_PACKET_TYPE_CONNECT (mc_props mc)) /\
  text_ok (default [] (mc_client_id mc)) /\
  (level = MQTT_CONNECT_PROTOCOL_LEVEL_4 -> client_bytes mc = [] -> mc_clean_session mc <> 0) /\
  (mc_enable_lwt mc <> 0 -> exists lwt, mc_lwt_msg mc = Some lwt /\ will_ok level lwt) /\
  (forall u, mc_username mc = Some u -> text_ok u) /\
  (forall p, mc_password mc = Some p -> len (password_bytes mc p) <= 65535).

(** ** Encoding *)

Lemma connect_str_len_settles s :
  bytes s -> settles (connect_str_len s) (text_ok s) (fun n => n = len (counted (cstr s)) /\ n <= 65537).
Proof.
  intros Hb. unfold connect_str_len, text_ok. rewrite cstr_len. pose proof (XSTRLEN_bound s).
  apply settles_guard; [lia|apply Z.ltb_ge|]. intros Hl.
  eapply settles_iff; [|eapply (settles_decides _ _ _ (utf8_text (cstr s)) True); [lia| |]]; [tauto| |].
  - apply (MqttEncode_Utf8Ok_decides _ (cstr s)); [lia| |by apply cstr_bytes].
    unfold field_bytes, cstr. cbn [str_ptr str_len]. by rewrite (proj2 (Z.leb_le _ _)) by lia.
  - intros _. apply settles_ok; [done|]. rewrite counted_len, cstr_len. lia.
Qed.

Lemma will_props_check_spec count ps :
  0 <= count <= MQTT_MAX_PROPS ->
  will_props_check count ps = true <->
  count + len ps <= MQTT_MAX_PROPS /\ Forall (fun p => MqttWillProps_ValidateType (prop_type p) = true) ps.
Proof.
  revert count. induction ps as [|p ps IH]; intros count Hc.
  { split; [intros _; split; [|constructor]; unfold len; simpl; lia|done]. }
  cbn [will_props_check]. rewrite len_cons, list.Forall_cons. pose proof (len_nonneg ps).
  destruct (Z.ltb_spec MQTT_MAX_PROPS (count + 1)); cbn [orb].
  { split; [done|]. lia. }
  destruct (MqttWillProps_ValidateType (prop_type p)); cbn [negb].
  - rewrite IH by lia. intuition lia.
  - split; [done|]. by intros [_ [? _]].
Qed.

(** The properties of a level, in both passes. *)
Lemma connect_props_settles level ps :
  level = MQTT_CONNECT_PROTOCOL_LEVEL_4 \/ level = MQTT_CONNECT_PROTOCOL_LEVEL_5 ->
  Forall prop_rep ps ->
  settles
    (if MQTT_CONNECT_PROTOCOL_LEVEL_5 <=? level
     then props_length MQTT_PACKET_TYPE_CONNECT ps else Ok (0, 0))
    (level = MQTT_CONNECT_PROTOCOL_LEVEL_5 -> props_ok MQTT_PACKET_TYPE_CONNECT ps)
    (fun '(props_len, tmp_len) => props_len + tmp_len = len (v5_block level ps) /\
       len (v5_block level ps) <= 3932254 /\
       (if MQTT_CONNECT_PROTOCOL_LEVEL_5 <=? level
        then write_props MQTT_PACKET_TYPE_CONNECT ps props_len else Ok (0, [])) =
       Ok (len (v5_block level ps), v5_block level ps)).
Proof.
  intros [->| ->] Hrep; [by apply settles_ok|].
  change (v5_block MQTT_CONNECT_PROTOCOL_LEVEL_5 ps) with (props_block ps).
  change (MQTT_CONNECT_PROTOCOL_LEVEL_5 <=? MQTT_CONNECT_PROTOCOL_LEVEL_5) with true.
  destruct (props_length_cases MQTT_PACKET_TYPE_CONNECT ps Hrep) as [(Hok & -> & Hw)|[Hno ->]].
  - apply settles_ok; [done|]. pose proof (props_bounds _ _ Hrep Hok).
    split_and!; [|lia|done]. rewrite props_block_len. lia.
  - apply settles_err; [lia|tauto].
Qed.

Lemma will_payload_len lwt :
  will_rep lwt -> (msg_buffer lwt = None -> msg_total_len lwt = 0) ->
  len (will_payload lwt) = msg_total_len lwt.
Proof.
  intros (_ & _ & Ht & Hb & _) Hn. unfold will_payload. destruct (msg_buffer lwt) as [b|].
  - apply len_take. pose proof (Hb b eq_refl). simpl. lia.
  - rewrite Hn by done. done.
Qed.

(** The payload of the Will as [MqttEncode_Data] writes it. *)
Lemma will_data lwt :
  will_rep lwt -> (msg_buffer lwt = None -> msg_total_len lwt = 0) -> msg_total_len lwt <= 65535 ->
  MqttEncode_Data true (msg_buffer lwt) (u16 (msg_total_len lwt)) =
    Ok (len (counted (will_payload lwt)), counted (will_payload lwt)).
Proof.
  intros Hrep Hn Hl. pose proof (will_payload_len lwt Hrep Hn) as Hp.
  destruct Hrep as (_ & _ & Ht & Hb & _). rewrite u16_small by lia.
  rewrite counted_len. apply (MqttEncode_Data_eq true (mkStr (msg_total_len lwt) (msg_buffer lwt)));
    cbn [str_len str_ptr]; [lia|].
  unfold field_bytes, will_payload. cbn [str_ptr str_len]. destruct (msg_buffer lwt) as [b|].
  - by rewrite (proj2 (Z.leb_le _ _)) by by apply Hb.
  - by rewrite Hn.
Qed.

Lemma will_topic_decides lwt level topic :
  msg_topic_name lwt = Some topic -> XSTRLEN topic <= 65535 ->
  decides (MqttPacket_TopicNameValid (Some topic) (u16 (XSTRLEN topic)) level)
    (plain (will_topic lwt) /\ (will_topic lwt <> [] \/ MQTT_CONNECT_PROTOCOL_LEVEL_5 <= level)).
Proof.
  intros Ht Hl. pose proof (XSTRLEN_bound topic). rewrite u16_small by lia.
  pose proof (MqttPacket_TopicNameValid_decides (cstr topic) (drop (Z.to_nat (XSTRLEN topic)) topic)
    (XSTRLEN topic) level (cstr_len topic) ltac:(lia)) as Hv.
  unfold cstr in Hv at 1. rewrite take_drop in Hv. unfold will_topic. rewrite Ht. exact Hv.
Qed.

(** The Will Properties, and the Will as a whole. *)
Lemma connect_lwt_props_settles level lwt n :
  level = MQTT_CONNECT_PROTOCOL_LEVEL_4 \/ level = MQTT_CONNECT_PROTOCOL_LEVEL_5 -> will_rep lwt ->
  (msg_buffer lwt = None -> msg_total_len lwt = 0) -> len (will_topic lwt) <= 65535 ->
  msg_total_len lwt <= 65535 -> n = len (counted (will_topic lwt)) + len (counted (will_payload lwt)) ->
  settles
    (if MQTT_CONNECT_PROTOCOL_LEVEL_5 <=? level then
       if negb (will_props_check 0 (msg_props lwt)) then Err MQTT_CODE_ERROR_PROPERTY
       else
         '(lwt_props_len, tmp_len) ← props_length MQTT_PACKET_TYPE_CONNECT (msg_props lwt);
         Ok (n + lwt_props_len + tmp_len, lwt_props_len)
     else Ok (n, 0))
    (level = MQTT_CONNECT_PROTOCOL_LEVEL_5 ->
       Forall (fun p => MqttWillProps_ValidateType (prop_type p) = true) (msg_props lwt) /\
       props_ok MQTT_PACKET_TYPE_CONNECT (msg_props lwt))
    (fun '(n, lwt_props_len) => n = len (will_wire level lwt) /\ n <= 4100000 /\
       connect_write_lwt level lwt_props_len lwt = Ok (n, will_wire level lwt)).
Proof.
  intros Hlev Hrep Hnull Ht Hl ->. pose proof Hrep as (_ & _ & _ & _ & Hps).
  pose proof (will_data lwt Hrep Hnull Hl) as Hdata. unfold connect_write_lwt, will_wire.
  rewrite Hdata. unfold will_topic in *. rewrite must_String, <- (counted_len (cstr _)) by done.
  pose proof (will_payload_len lwt Hrep Hnull) as Hpl.
  pose proof (counted_len (will_payload lwt)). pose proof (counted_len (cstr (default [] (msg_topic_name lwt)))).
  pose proof (connect_props_settles level (msg_props lwt) Hlev Hps) as Hp.
  destruct Hlev as [->| ->].
  { apply settles_ok; [done|]. unfold emit_app. cbn [mbind result_bind app v5_block]. split_and!; [|lia|done].
    change (v5_block MQTT_CONNECT_PROTOCOL_LEVEL_4 (msg_props lwt)) with (@nil Z). rewrite app_nil_l, len_app. lia. }
  change (MQTT_CONNECT_PROTOCOL_LEVEL_5 <=? MQTT_CONNECT_PROTOCOL_LEVEL_5) with true in *.
  pose proof (will_props_check_spec 0 (msg_props lwt) ltac:(lia)) as Hw.
  destruct (will_props_check 0 (msg_props lwt)); cbn [negb]; last first.
  { apply settles_err; [lia|]. intros H1. destruct (H1 eq_refl) as [Hf (Hlen & _)].
    assert (false = true) by (apply Hw; split; [lia|done]). done. }
  assert (Hf : Forall (fun p => MqttWillProps_ValidateType (prop_type p) = true) (msg_props lwt)) by by apply Hw.
  destruct Hp as [(Hok & [pl tl] & -> & Hsum & Hbl & Hwr)|(Hno & rc & Hrc & ->)].
  - apply settles_ok; [by auto|]. rewrite Hwr, !len_app.
    unfold emit_app. cbn [mbind result_bind]. split_and!; [lia|lia|]. do 2 f_equal. lia.
  - apply settles_err; [done|]. intros H1. apply Hno. intros _. by apply H1.
Qed.

Lemma connect_lwt_len_settles level lwt :
  level = MQTT_CONNECT_PROTOCOL_LEVEL_4 \/ level = MQTT_CONNECT_PROTOCOL_LEVEL_5 -> will_rep lwt ->
  settles (connect_lwt_len level (Some lwt)) (will_ok level lwt)
    (fun '(n, lwt_props_len) => n = len (will_wire level lwt) /\ n <= 4100000 /\
       connect_write_lwt level lwt_props_len lwt = Ok (n, will_wire level lwt)).
Proof.
  intros Hlev Hrep. pose proof Hrep as (Hbt & _ & Ht & _ & Hps). unfold connect_lwt_len, will_ok, text_ok.
  destruct (msg_topic_name lwt) as [topic|] eqn:Etopic.
  2:{ apply settles_err; [lia|]. by intros [[? ?] _]. }
  change (default [] (Some topic)) with topic in *. rewrite cstr_len.
  destruct (bool_decide (msg_buffer lwt = None) && negb (msg_total_len lwt =? 0)) eqn:Eb.
  { apply settles_err; [lia|]. apply andb_true_iff in Eb as [Eb1%bool_decide_eq_true Eb2]. tests.
    intros (_ & H & _). by apply Eb2, H. }
  assert (Hnull : msg_buffer lwt = None -> msg_total_len lwt = 0).
  { intros E. rewrite bool_decide_eq_true_2 in Eb by done. cbn [andb] in Eb. by tests. }
  pose proof (XSTRLEN_bound topic). cbv zeta.
  destruct (Z.ltb_spec 65535 (XSTRLEN topic)); [apply settles_err; [lia|]; intuition lia|].
  destruct (will_topic_decides lwt level topic Etopic) as (ok & -> & Hok); [lia|].
  cbn [mbind result_bind]. destruct ok; cbn [negb]; [|apply settles_err; [lia|]; intuition done].
  destruct (MqttEncode_Utf8Ok_decides (Some topic) (cstr topic) (XSTRLEN topic)) as (ok & -> & Hutf);
    [lia| |by apply cstr_bytes|].
  { unfold field_bytes, cstr. cbn [str_ptr str_len]. by rewrite (proj2 (Z.leb_le _ _)) by lia. }
  cbn [mbind result_bind]. destruct ok; cbn [negb]; [|apply settles_err; [lia|]; intuition done].
  destruct (Z.ltb_spec MQTT_QOS_2 (msg_qos lwt)); [apply settles_err; [lia|]; intuition lia|].
  destruct (Z.ltb_spec 65535 (msg_total_len lwt)); [apply settles_err; [lia|]; intuition lia|].
  assert (Etop : will_topic lwt = cstr topic) by (unfold will_topic; by rewrite Etopic).
  eapply settles_iff; [|apply connect_lwt_props_settles; try done].
  - intuition done.
  - rewrite Etop, cstr_len. lia.
  - rewrite !counted_len, Etop, cstr_len, will_payload_len by done. lia.
Qed.

(** The optional parts, in both passes. *)
Lemma will_part_settles mc :
  mc_protocol_level mc = MQTT_CONNECT_PROTOCOL_LEVEL_4 \/
  mc_protocol_level mc = MQTT_CONNECT_PROTOCOL_LEVEL_5 -> connect_rep mc ->
  settles
    (if negb (mc_enable_lwt mc =? 0)
     then connect_lwt_len (mc_protocol_level mc) (mc_lwt_msg mc) else Ok (0, 0))
    (mc_enable_lwt mc <> 0 -> exists lwt, mc_lwt_msg mc = Some lwt /\ will_ok (mc_protocol_level mc) lwt)
    (fun '(n, lwt_props_len) => n = len (will_part mc) /\ n <= 4100000 /\
       (if negb (mc_enable_lwt mc =? 0) then
          match mc_lwt_msg mc with
          | Some lwt => connect_write_lwt (mc_protocol_level mc) lwt_props_len lwt
          | None => UB
          end
        else Ok (0, [])) = Ok (n, will_part mc)).
Proof.
  intros Hlev (_ & _ & _ & Hlwt & _). unfold will_part.
  destruct (Z.eqb_spec (mc_enable_lwt mc) 0) as [E|E]; cbn [negb].
  { apply settles_ok; [done|]. split_and!; done. }
  destruct (mc_lwt_msg mc) as [lwt|] eqn:El.
  - eapply settles_iff; [|by apply connect_lwt_len_settles; [|apply Hlwt]].
    split; [intros H; destruct (H E) as (? & [= <-] & ?); done|by exists lwt].
  - apply settles_err; [lia|]. intros H. destruct (H E) as (? & ? & _). done.
Qed.

Lemma user_part_settles mc :
  connect_rep mc ->
  settles (match mc_username mc with Some username => connect_str_len username | None => Ok 0 end)
    (forall u, mc_username mc = Some u -> text_ok u)
    (fun n => n = len (user_part mc) /\ n <= 65537 /\
       match mc_username mc with
       | Some username => must (MqttEncode_String true username)
       | None => Ok (0, [])
       end = Ok (n, user_part mc)).
Proof.
  intros (_ & _ & _ & _ & Hu & _). unfold user_part. destruct (mc_username mc) as [u|]; [|by apply settles_ok].
  change (default [] (Some u)) with u in Hu.
  destruct (connect_str_len_settles u Hu) as [(Hok & n & -> & -> & Hn)|(Hno & rc & Hrc & ->)].
  - apply settles_ok; [by intros ? [= <-]|]. split_and!; [done|done|].
    destruct Hok as [Hl _]. by rewrite must_String, counted_len.
  - apply settles_err; [done|]. intros H. by apply Hno, H.
Qed.

Lemma password_part_settles mc :
  connect_rep mc ->
  settles (match mc_password mc with
           | Some password => l ← connect_password_len mc password; Ok (u16 l, l + MQTT_DATA_LEN_SIZE)
           | None => Ok (0, 0)
           end)
    (forall p, mc_password mc = Some p -> len (password_bytes mc p) <= 65535)
    (fun '(password_len, n) => n = len (password_part mc) /\ n <= 65537 /\
       match mc_password mc with
       | Some password => MqttEncode_Data true (Some password) password_len
       | None => Ok (0, [])
       end = Ok (n, password_part mc)).
Proof.
  intros (_ & _ & _ & _ & _ & Hl & Hp & _). unfold password_part.
  destruct (mc_password mc) as [p|]; [|by apply settles_ok]. specialize (Hp p eq_refl).
  pose proof (XSTRLEN_bound p) as Hx. unfold connect_password_len.
  assert (Hb : exists l, (if 0 <? mc_password_len mc then mc_password_len mc else XSTRLEN p) = l /\
    0 <= l <= len p /\ password_bytes mc p = take (Z.to_nat l) p).
  { unfold password_bytes, cstr. destruct (0 <? mc_password_len mc); eexists; split_and!; done || lia. }
  destruct Hb as (l & -> & Hlp & Epb).
  assert (Hlen : len (password_bytes mc p) = l) by (rewrite Epb; by apply len_take).
  destruct (Z.ltb_spec 65535 l); cbn [mbind result_bind].
  { apply settles_err; [lia|]. intros H1. specialize (H1 p eq_refl). lia. }
  apply settles_ok; [intros ? [= <-]; lia|].
  rewrite u16_small, counted_len by lia. split_and!; [lia|lia|].
  replace (l + MQTT_DATA_LEN_SIZE) with (2 + len (password_bytes mc p)) by lia.
  apply (MqttEncode_Data_eq true (mkStr l (Some p))); cbn [str_len str_ptr]; [lia|].
  unfold field_bytes. cbn [str_len str_ptr]. by rewrite (proj2 (Z.leb_le _ _)), Epb by lia.
Qed.

Lemma connect_encode_answers tx_buf_len mc client_id :
  connect_rep mc -> mc_client_id mc = Some client_id ->
  answers (connect_encode tx_buf_len mc client_id)
    (connect_ok mc /\ room tx_buf_len (connect_body mc)) (len (connect_wire mc)) (connect_wire mc).
Proof.
  intros Hrep Hc. pose proof Hrep as (Hka & _ & Hcb & _ & _ & _ & _ & Hps). rewrite Hc in Hcb.
  unfold connect_encode, connect_ok, connect_wire, client_bytes. rewrite Hc.
  change (default [] (Some client_id)) with client_id in *.
  destruct (negb (mc_protocol_level mc =? 4) && negb (mc_protocol_level mc =? 5)) eqn:El.
  { apply answers_err; [lia|]. apply andb_true_iff in El as [? ?]. tests. intuition. }
  assert (Hlev : mc_protocol_level mc = 4 \/ mc_protocol_level mc = 5).
  { apply andb_false_iff in El as [?|?]; tests; auto. }
  destruct ((mc_protocol_level mc =? 4) && bool_decide (mc_password mc <> None) &&
            bool_decide (mc_username mc = None)) eqn:Epw.
  { apply answers_err; [lia|]. rewrite !andb_true_iff, !bool_decide_eq_true in Epw.
    destruct Epw as [[E4 Hp] Hu]. tests. intros ((_ & H & _) & _).
    destruct (H E4) as [? ?]; [|congruence]. destruct (mc_password mc); [by eexists|done]. }
  assert (Hlogin : mc_protocol_level mc = 4 -> is_Some (mc_password mc) -> is_Some (mc_username mc)).
  { intros E4 [p Hp]. rewrite E4, Hp in Epw. cbn in Epw. destruct (mc_username mc); [by eexists|done]. }
  assert (Ebody : connect_body mc = connect_head (mc_protocol_level mc) (connect_flags mc) (mc_keep_alive_sec mc) ++
    v5_block (mc_protocol_level mc) (mc_props mc) ++ counted (cstr client_id) ++
    will_part mc ++ user_part mc ++ password_part mc) by (unfold connect_body, client_bytes; by rewrite Hc).
  eapply answers_iff; [|eapply answers_settles; [by apply connect_props_settles|]].
  2:{ intros [pl tl] Hok1 (Hsum & Hbl & Hw1).
    eapply answers_settles; [by apply connect_str_len_settles|]. intros cl [Hcl1 Hcl2] (-> & Hcl).
    rewrite counted_len in *.
    eapply (answers_guard _ _ _ (mc_protocol_level mc = 4 -> cstr client_id = [] -> mc_clean_session mc <> 0));
      [lia| |intros _].
    { destruct (cstr client_id) as [|c s]; [|rewrite len_cons; pose proof (len_nonneg s);
        rewrite (proj2 (Z.eqb_neq _ _)) by lia; done].
      change (2 + len [] =? 2) with true. cbn [andb].
      destruct (Z.eqb_spec (mc_clean_session mc) 0), (Z.eqb_spec (mc_protocol_level mc) 4); cbn [andb];
        intuition (congruence || lia). }
    eapply answers_settles; [by apply will_part_settles|]. intros [wl wpl] Hok3 (-> & Hwl & Hw3).
    eapply answers_settles; [by apply user_part_settles|]. intros ul Hok4 (-> & Hul & Hw4).
    eapply answers_settles; [by apply password_part_settles|]. intros [pwl n] Hok5 (-> & Hpl & Hw5).
    apply write_packet_writes.
    - eexists. rewrite Hw1. unfold connect_write_payload. rewrite Hw3, Hw4, Hw5, Hc.
      change (default [] (Some client_id)) with client_id. rewrite must_String by done.
      unfold connect_packet. rewrite MqttEncode_Num_eq, Ebody by done. reflexivity.
    - rewrite Ebody, !len_app, counted_len. change (len (connect_head _ _ _)) with 10. lia.
    - rewrite Ebody, !len_app, counted_len. change (len (connect_head _ _ _)) with 10. lia. }
  unfold text_ok. intuition done.
Qed.

(** ** Decoding *)

(** The flags byte of its bits. *)
Definition flags_byte (clean will : bool) (qos : Z) (retain user password : bool) : Z :=
  (if clean then 2 else 0) + (if will then 4 + 8 * qos + (if retain then 32 else 0) else 0) +
  (if password then 64 else 0) + (if user then 128 else 0).

Definition has (f : Z) (flag : Z) : bool := negb (Z.land f flag =? 0).

Lemma flags_byte_bits level clean will qos retain user password :
  0 <= qos <= 2 ->
  let f := flags_byte clean will qos retain user password in
  is_byte f /\ has f 2 = clean /\ has f 4 = will /\ has f 64 = password /\ has f 128 = user /\
  (will = true -> CONNECT_FLAG_GET_QOS f = qos /\ has f 32 = retain) /\
  connect_flags_bad level f = (level =? 4) && password && negb user.
Proof.
  intros Hq. assert (Hqs : qos = 0 \/ qos = 1 \/ qos = 2) by lia.
  unfold connect_flags_bad, is_byte.
  destruct Hqs as [->|[->| ->]], clean, will, retain, user, password; destruct (level =? 4);
    vm_compute; split_and!; done.
Qed.

(** A flags byte that passes the checks is the one of its bits. *)
Lemma connect_flags_good level f :
  is_byte f -> connect_flags_bad level f = false ->
  0 <= CONNECT_FLAG_GET_QOS f <= 2 /\
  f = flags_byte (has f 2) (has f 4) (CONNECT_FLAG_GET_QOS f) (has f 32) (has f 128) (has f 64) /\
  (level = 4 -> has f 64 = true -> has f 128 = true).
Proof.
  intros Hb Hgood.
  pose proof (byte_enum (fun f => forallb (fun level => implb (negb (connect_flags_bad level f))
    ((0 <=? CONNECT_FLAG_GET_QOS f) && (CONNECT_FLAG_GET_QOS f <=? 2) &&
     (f =? flags_byte (has f 2) (has f 4) (CONNECT_FLAG_GET_QOS f) (has f 32) (has f 128) (has f 64)) &&
     implb (level =? 4) (implb (has f 64) (has f 128)))) [4; 5]) f ltac:(by vm_compute) Hb) as H.
  cbv beta in H. rewrite forallb_forall in H.
  set (l := if level =? 4 then 4 else 5).
  assert (Hl : In l [4; 5] /\ (l =? 4) = (level =? 4))
    by (unfold l; destruct (level =? 4); simpl; auto).
  destruct Hl as [Hin Hl]. apply H in Hin. unfold connect_flags_bad in Hin, Hgood.
  rewrite Hl, Hgood in Hin. cbn [negb implb] in Hin.
  rewrite !andb_true_iff in Hin. destruct Hin as [[[? ?] ?] Hlev]. tests. split_and!; try done.
  intros -> Hp. rewrite Hp in Hlev. by destruct (has f 128).
Qed.

Definition opt_bool {A} (o : option A) : bool := match o with Some _ => true | None => false end.

(** The flags the encoder sends. *)
Lemma connect_flags_eq mc lwt :
  (mc_enable_lwt mc <> 0 -> mc_lwt_msg mc = Some lwt) -> 0 <= msg_qos lwt <= 2 ->
  connect_flags mc =
    flags_byte (negb (mc_clean_session mc =? 0)) (negb (mc_enable_lwt mc =? 0)) (msg_qos lwt)
      (negb (msg_retain lwt =? 0)) (opt_bool (mc_username mc)) (opt_bool (mc_password mc)).
Proof.
  intros Hlwt Hq. unfold connect_flags.
  assert (Hqs : msg_qos lwt = 0 \/ msg_qos lwt = 1 \/ msg_qos lwt = 2) by lia.
  destruct (Z.eqb_spec (mc_enable_lwt mc) 0) as [E|E]; cbn [negb].
  - destruct (_ =? 0), (mc_username mc), (mc_password mc); reflexivity.
  - rewrite (Hlwt E). destruct (msg_retain lwt =? 0), (mc_clean_session mc =? 0),
      (mc_username mc), (mc_password mc); destruct Hqs as [->|[->| ->]]; reflexivity.
Qed.

Lemma counted_sits buf i n s :
  sits buf i (be16 n) -> sits buf (i + 2) s -> len s = n -> sits buf i (counted s).
Proof. intros Hn Hs <-. by apply sits_app. Qed.

Lemma connect_string_yields rx_buf rx_buf_len rx_end pos :
  rx_ok rx_buf rx_buf_len -> 0 <= pos <= rx_buf_len ->
  yields (connect_string rx_buf rx_buf_len rx_end pos)
    (fun '(s, n, pos') => sits rx_buf pos (counted s) /\ n = len s /\ 0 <= n <= 65535 /\
       pos' = pos + len (counted s) /\ pos' <= rx_end /\ utf8_text s /\ bytes s).
Proof.
  intros (Hb & Hl & Hm) Hp. unfold connect_string. rewrite u32_small by lia.
  apply yields_bind. eapply yields_mono; [apply MqttDecode_String_yields; [done|lia..]|].
  intros [[s n] tmp] (Hs & -> & -> & Hn & Hle & Ht & Hbs).
  destruct (Z.ltb_spec rx_end (pos + (2 + len s))); [done|]. cbn [yields]. rewrite counted_len. split_and!; done || lia.
Qed.

Lemma connect_string_sits rx_buf rx_buf_len rx_end pos s :
  rx_ok rx_buf rx_buf_len -> bytes s -> utf8_text s -> len s <= 65535 ->
  sits rx_buf pos (counted s) -> 0 <= pos -> pos + len (counted s) <= rx_end -> rx_end <= rx_buf_len ->
  connect_string rx_buf rx_buf_len rx_end pos = Ok (s, len s, pos + len (counted s)).
Proof.
  intros (Hb & Hl & Hm) Hbs Ht Hn Hs Hp He Hr. unfold connect_string. rewrite counted_len in *.
  pose proof (len_nonneg s). rewrite u32_small by lia.
  rewrite (MqttDecode_String_sits _ _ _ s) by (done || lia). cbn [mbind result_bind].
  by rewrite (proj2 (Z.ltb_ge _ _)) by lia.
Qed.

Lemma connect_password_yields rx_buf rx_buf_len rx_end pos :
  rx_ok rx_buf rx_buf_len -> 0 <= pos <= rx_buf_len ->
  yields (connect_password rx_buf rx_buf_len rx_end pos)
    (fun '(s, pos') => sits rx_buf pos (counted s) /\ len s <= 65535 /\
       pos' = pos + len (counted s) /\ pos' <= rx_end /\ bytes s).
Proof.
  intros (Hb & Hl & Hm) Hp. unfold connect_password. rewrite u32_small by lia.
  apply yields_bind. eapply yields_mono; [apply MqttDecode_Num_yields; [done|lia..]|].
  intros [plen tmp] (-> & H2 & Hpl & Hs). rewrite u32_small by lia.
  destruct (Z.ltb_spec (rx_buf_len - pos - 2) plen); [done|].
  destruct (Z.ltb_spec rx_end (pos + 2 + plen)); [done|].
  apply yields_bind, slice_yields; [lia..|]. intros s Es.
  pose proof (slice_bytes _ _ _ _ Hb Es). apply slice_inv in Es as (_ & _ & _ & Hls & Hss).
  cbn [yields mbind result_bind]. rewrite counted_len, Hls. split_and!; try done; try lia.
  by eapply counted_sits.
Qed.

Lemma connect_password_sits rx_buf rx_buf_len rx_end pos s :
  rx_ok rx_buf rx_buf_len -> len s <= 65535 -> sits rx_buf pos (counted s) -> 0 <= pos ->
  pos + len (counted s) <= rx_end -> rx_end <= rx_buf_len ->
  connect_password rx_buf rx_buf_len rx_end pos = Ok (s, pos + len (counted s)).
Proof.
  intros (Hb & Hl & Hm) Hn Hs Hp He Hr. unfold connect_password. rewrite counted_len in *.
  pose proof (len_nonneg s). apply sits_app in Hs as [Hs1 Hs2]. change (len (be16 _)) with 2 in Hs2.
  rewrite u32_small by lia. rewrite (MqttDecode_Num_sits _ _ _ (len s)) by (done || lia).
  cbn [mbind result_bind]. rewrite u32_small by lia. rewrite !(proj2 (Z.ltb_ge _ _)) by lia.
  rewrite (slice_sits _ _ s) by done. cbn [mbind result_bind]. do 2 f_equal. lia.
Qed.

Lemma connect_props_meets rx_buf rx_buf_len level pos n :
  rx_ok rx_buf rx_buf_len -> 0 <= pos <= rx_buf_len ->
  meets n (connect_props rx_buf rx_buf_len level pos) n
    (fun '(ps, k) n' => props_decoded MQTT_PACKET_TYPE_CONNECT ps /\
       (level <> MQTT_CONNECT_PROTOCOL_LEVEL_5 -> ps = []) /\
       sits rx_buf pos (v5_block level ps) /\ k = len (v5_block level ps) /\ pos + k <= rx_buf_len /\
       n = (n' + length ps)%nat).
Proof.
  intros (Hb & Hl & Hm) Hp. unfold connect_props, v5_block.
  destruct (Z.eqb_spec level MQTT_CONNECT_PROTOCOL_LEVEL_5).
  - apply meets_test; [lia|done|]. intros _.
    eapply meets_mono; [apply read_props_meets; try done; lia|].
    intros [ps k] n' (Hd & Hs & Hk & H1 & Hkl & Hn & _). by split_and!.
  - apply meets_ret. pose proof (props_decoded_nil MQTT_PACKET_TYPE_CONNECT). cbn [length].
    change (len []) with 0. split_and!; try done; try lia. apply sits_nil; lia.
Qed.

Lemma connect_props_sits rx_buf rx_buf_len level pos ps n :
  rx_ok rx_buf rx_buf_len -> Forall prop_rep ps ->
  (level = MQTT_CONNECT_PROTOCOL_LEVEL_5 -> props_ok MQTT_PACKET_TYPE_CONNECT ps /\ auth_ok ps) ->
  sits rx_buf pos (v5_block level ps) -> 0 <= pos -> pos + len (v5_block level ps) <= rx_buf_len ->
  let taken := if level =? MQTT_CONNECT_PROTOCOL_LEVEL_5 then ps else [] in
  (length taken <= n)%nat ->
  connect_props rx_buf rx_buf_len level pos n =
    (Ok (map prop_norm taken, len (v5_block level ps)), (n - length taken)%nat).
Proof.
  intros (Hb & Hl & Hm) Hrep Hok Hs Hp Hle. unfold connect_props, v5_block in *.
  destruct (Z.eqb_spec level MQTT_CONNECT_PROTOCOL_LEVEL_5) as [E|E]; cbv zeta; intros Hn.
  - destruct (Hok E) as [Hpo Ha]. pose proof (props_bounds _ _ Hrep Hpo).
    rewrite (proj2 (Z.ltb_ge _ _)) by lia. apply read_props_sits; done.
  - cbn. by rewrite Nat.sub_0_r.
Qed.

Lemma topic_name_decides s level :
  len s <= 65535 ->
  decides (if len s =? 0 then Ok false else MqttPacket_TopicNameValid (Some s) (len s) level)
    (plain s /\ s <> []).
Proof.
  intros Hl. destruct (Z.eqb_spec (len s) 0) as [E|E].
  - apply decides_false. intros [_ Hn]. destruct s; [done|]. rewrite len_cons in E.
    pose proof (len_nonneg s). lia.
  - assert (Hn : s <> []) by (intros ->; done).
    pose proof (MqttPacket_TopicNameValid_decides s [] (len s) level eq_refl Hl) as Hd.
    rewrite app_nil_r in Hd. eapply decides_iff; [|exact Hd]. tauto.
Qed.

Lemma connect_will_fields_yields rx_buf rx_buf_len rx_end level pos :
  rx_ok rx_buf rx_buf_len -> 0 <= pos <= rx_buf_len -> rx_end <= rx_buf_len ->
  yields (connect_will_fields rx_buf rx_buf_len rx_end level pos)
    (fun '(topic, topic_len, buffer, total_len, pos') =>
       sits rx_buf pos (counted topic ++ counted buffer) /\ topic_len = len topic /\
       total_len = len buffer /\ len topic <= 65535 /\ len buffer <= 65535 /\
       pos' = pos + len (counted topic ++ counted buffer) /\ pos' <= rx_end /\
       utf8_text topic /\ bytes topic /\ bytes buffer /\ plain topic /\ topic <> []).
Proof.
  intros Hrx Hp He. pose proof Hrx as (Hb & Hl & Hm). unfold connect_will_fields.
  apply yields_bind. eapply yields_mono; [by apply connect_string_yields|].
  intros [[topic tl] pos1] (Hs & -> & Hn & -> & Hle & Ht & Hbt). pose proof (counted_len topic).
  destruct (topic_name_decides topic level ltac:(lia)) as (ok & -> & Hok). cbn [mbind result_bind].
  destruct ok; cbn [negb]; [|done]. assert (Hpl : plain topic /\ topic <> []) by by apply Hok.
  rewrite u32_small by lia. apply yields_bind. eapply yields_mono; [apply MqttDecode_Num_yields; [done|lia..]|].
  intros [n tmp] (-> & H2 & Hnn & Hs2). cbv zeta.
  destruct (Z.ltb_spec rx_end (pos + len (counted topic) + 2 + n)); [done|].
  apply yields_bind, slice_yields; [lia..|]. intros buffer Es.
  pose proof (slice_bytes _ _ _ _ Hb Es). apply slice_inv in Es as (_ & _ & _ & Hls & Hss).
  cbn [yields]. rewrite len_app, (counted_len buffer), sits_app.
  split_and!; try done; try lia; try apply Hpl. by eapply counted_sits.
Qed.

Lemma connect_will_fields_sits rx_buf rx_buf_len rx_end level pos topic buffer :
  rx_ok rx_buf rx_buf_len -> bytes topic -> utf8_text topic -> len topic <= 65535 ->
  plain topic -> topic <> [] -> len buffer <= 65535 ->
  sits rx_buf pos (counted topic ++ counted buffer) -> 0 <= pos ->
  pos + len (counted topic ++ counted buffer) <= rx_end -> rx_end <= rx_buf_len ->
  connect_will_fields rx_buf rx_buf_len rx_end level pos =
    Ok (topic, len topic, buffer, len buffer, pos + len (counted topic ++ counted buffer)).
Proof.
  intros Hrx Hbt Ht Hl Hpl Hne Hlb Hs Hp He Hr. pose proof Hrx as (Hb & Hll & Hm).
  unfold connect_will_fields. rewrite len_app in *. pose proof (counted_len buffer). pose proof (len_nonneg buffer).
  pose proof (counted_len topic). pose proof (len_nonneg topic).
  apply sits_app in Hs as [Hs1 Hs2].
  rewrite (connect_string_sits _ _ _ _ topic) by (done || lia). cbn [mbind result_bind].
  destruct (topic_name_decides topic level Hl) as (ok & -> & Hok). cbn [mbind result_bind].
  rewrite (proj2 Hok (conj Hpl Hne)). cbn [negb].
  apply sits_app in Hs2 as [Hs2 Hs3]. change (len (be16 _)) with 2 in Hs3.
  rewrite u32_small by lia. rewrite (MqttDecode_Num_sits _ _ _ (len buffer)) by (done || lia).
  cbn [mbind result_bind]. cbv zeta. rewrite (proj2 (Z.ltb_ge _ _)) by lia.
  rewrite (slice_sits _ _ buffer) by done. cbn [mbind result_bind]. do 2 f_equal. lia.
Qed.

Lemma connect_login_yields rx_buf rx_buf_len rx_end flags pos :
  rx_ok rx_buf rx_buf_len -> 0 <= pos <= rx_buf_len -> rx_end <= rx_buf_len ->
  yields (connect_login rx_buf rx_buf_len rx_end flags pos)
    (fun '(username, password, pos') =>
       let w := match username with Some u => counted u | None => [] end ++
                match password with Some p => counted p | None => [] end in
       opt_bool username = has flags 128 /\ opt_bool password = has flags 64 /\
       sits rx_buf pos w /\ pos' = rx_end /\ pos + len w = rx_end /\
       (forall u, username = Some u -> len u <= 65535 /\ utf8_text u /\ bytes u) /\
       (forall p, password = Some p -> len p <= 65535 /\ bytes p)).
Proof.
  intros Hrx Hp He. pose proof Hrx as (Hb & Hl & Hm). unfold connect_login, has.
  apply yields_bind. apply (yields_mono _ (fun '(username, pos') =>
    let w := match username with Some u => counted u | None => [] end in
    opt_bool username = negb (Z.land flags 128 =? 0) /\ sits rx_buf pos w /\ pos' = pos + len w /\
    pos' <= rx_buf_len /\
    (forall u, username = Some u -> len u <= 65535 /\ utf8_text u /\ bytes u))).
  { destruct (Z.land flags 128 =? 0).
    - cbn [yields]. change (len []) with 0. split_and!; try done; try lia. apply sits_nil. lia.
    - apply yields_bind. eapply yields_mono; [by apply connect_string_yields|].
      intros [[s n] pos'] (Hs & -> & Hn & -> & Hle & Ht & Hbs). cbn [yields opt_bool negb].
      split_and!; try done; try lia. intros u [= <-]. split_and!; done || lia. }
  intros [username pos1] (Eu & Hsu & -> & Hle & Hu).
  pose proof (len_nonneg (match username with Some u => counted u | None => [] end)).
  apply yields_bind. apply (yields_mono _ (fun '(password, pos') =>
    let w := match password with Some p => counted p | None => [] end in
    opt_bool password = negb (Z.land flags 64 =? 0) /\
    sits rx_buf (pos + len (match username with Some u => counted u | None => [] end)) w /\
    pos' = pos + len (match username with Some u => counted u | None => [] end) + len w /\
    (forall p, password = Some p -> len p <= 65535 /\ bytes p))).
  { destruct (Z.land flags 64 =? 0).
    - cbn [yields]. change (len []) with 0. split_and!; try done; try lia. apply sits_nil. lia.
    - apply yields_bind. eapply yields_mono; [apply connect_password_yields; [done|lia]|].
      intros [s pos'] (Hs & Hn & -> & Hle2 & Hbs). cbn [yields opt_bool negb].
      split_and!; try done; try lia. by intros u [= <-]. }
  intros [password pos2] (Ep & Hsp & -> & Hpw).
  destruct (Z.eqb_spec (pos + len (match username with Some u => counted u | None => [] end) +
    len (match password with Some p => counted p | None => [] end)) rx_end); [|done].
  cbn [yields negb]. rewrite sits_app, len_app. split_and!; try done. lia.
Qed.

Lemma connect_login_sits rx_buf rx_buf_len rx_end flags pos username password :
  let w := match username with Some u => counted u | None => [] end ++
           match password with Some p => counted p | None => [] end in
  rx_ok rx_buf rx_buf_len -> has flags 128 = opt_bool username -> has flags 64 = opt_bool password ->
  (forall u, username = Some u -> len u <= 65535 /\ utf8_text u /\ bytes u) ->
  (forall p, password = Some p -> len p <= 65535) ->
  sits rx_buf pos w -> 0 <= pos -> pos + len w = rx_end -> rx_end <= rx_buf_len ->
  connect_login rx_buf rx_buf_len rx_end flags pos = Ok (username, password, rx_end).
Proof.
  intros w Hrx Hfu Hfp Hu Hp Hs H0 He Hr. unfold connect_login. unfold has in Hfu, Hfp.
  apply (f_equal negb) in Hfu, Hfp. rewrite negb_involutive in Hfu, Hfp. rewrite Hfu, Hfp. subst w.
  rewrite len_app in He. apply sits_app in Hs as [Hs1 Hs2].
  pose proof (len_nonneg (match password with Some p => counted p | None => [] end)) as Hpn.
  pose proof (len_nonneg (match username with Some u => counted u | None => [] end)) as Hun.
  assert (Hus : (if negb (opt_bool username) then Ok (None, pos)
    else '(s, _, pos) ← connect_string rx_buf rx_buf_len rx_end pos; Ok (Some s, pos)) =
    Ok (username, pos + len (match username with Some u => counted u | None => [] end))).
  { destruct username as [u|]; cbn [opt_bool negb]; [|by rewrite Z.add_0_r].
    destruct (Hu u eq_refl) as (Hl & Ht & Hb). by rewrite (connect_string_sits _ _ _ _ u) by (done || lia). }
  rewrite Hus. cbn [mbind result_bind].
  assert (Hps : (if negb (opt_bool password)
    then Ok (None, pos + len (match username with Some u => counted u | None => [] end))
    else '(s, pos) ← connect_password rx_buf rx_buf_len rx_end
           (pos + len (match username with Some u => counted u | None => [] end)); Ok (Some s, pos)) =
    Ok (password, rx_end)).
  { destruct password as [p|]; cbn [opt_bool negb].
    - rewrite (connect_password_sits _ _ _ _ p) by (try done; try lia; by apply Hp).
      cbn [mbind result_bind]. do 2 f_equal. lia.
    - do 2 f_equal. change (len []) with 0 in He. lia. }
  rewrite Hps. cbn [mbind result_bind]. by rewrite Z.eqb_refl.
Qed.

(** The Will that is read into the caller's structure [lwt0]. *)
Definition will_of (lwt0 : MqttMessage) (qos retain : Z) (topic buffer : list Z) (ps : list MqttProp)
    : MqttMessage :=
  mkMessage (msg_packet_id lwt0) (msg_type lwt0) qos retain (msg_duplicate lwt0)
    (Some topic) (len topic) (len buffer) (Some buffer) (len buffer) 0
    (msg_buffer_new lwt0) (msg_intBuf_len lwt0) (msg_intBuf_pos lwt0) ps (msg_protocol_level lwt0).

Lemma connect_will_meets rx_buf rx_buf_len rx_end level flags pos lwt_msg n :
  rx_ok rx_buf rx_buf_len -> 0 <= pos <= rx_buf_len -> rx_end <= rx_buf_len ->
  meets n (connect_will rx_buf rx_buf_len rx_end level flags pos lwt_msg) n
    (fun '(lwt, pos') n' => exists lwt0 topic buffer ps,
       lwt_msg = Some lwt0 /\
       lwt = will_of lwt0 (CONNECT_FLAG_GET_QOS flags) (flag_bit flags 32) topic buffer ps /\
       sits rx_buf pos (v5_block level ps ++ counted topic ++ counted buffer) /\
       pos' = pos + len (v5_block level ps ++ counted topic ++ counted buffer) /\ pos' <= rx_end /\
       props_decoded MQTT_PACKET_TYPE_CONNECT ps /\ (level <> MQTT_CONNECT_PROTOCOL_LEVEL_5 -> ps = []) /\
       Forall (fun p => MqttWillProps_ValidateType (prop_type p) = true) ps /\
       len topic <= 65535 /\ len buffer <= 65535 /\ utf8_text topic /\ bytes topic /\
       plain topic /\ topic <> [] /\ n = (n' + length ps)%nat).
Proof.
  intros Hrx Hp He. unfold connect_will. destruct lwt_msg as [lwt0|]; [|by apply meets_throw].
  apply meets_bind. eapply meets_mono; [by apply connect_props_meets|].
  intros [ps k] n' (Hd & Hps & Hs & -> & Hk & Hn). apply meets_freeing; [|lia].
  destruct (forallb _ ps) eqn:Ef; cbn [negb]; [|by apply meets_throw].
  pose proof (len_nonneg (v5_block level ps)).
  apply meets_bind, meets_lift; [|done].
  eapply yields_mono; [apply connect_will_fields_yields; [done|lia|done]|].
  intros [[[[topic tl] buffer] bl] pos'] (Hs2 & -> & -> & Htl & Hbl & -> & Hle & Ht & Hbt & Hbb & Hpl & Hne).
  apply meets_ret. exists lwt0, topic, buffer, ps. rewrite sits_app, (len_app (v5_block level ps)), Z.add_assoc.
  split_and!; try done; try lia.
  apply list.Forall_forall. intros p Hin. rewrite forallb_forall in Ef. by apply Ef, list_elem_of_In.
Qed.

Lemma will_props_auth ps :
  Forall (fun p => MqttWillProps_ValidateType (prop_type p) = true) ps -> auth_ok ps.
Proof.
  intros Hf Hin. exfalso. apply list_elem_of_fmap in Hin as (p & Hp & Hin).
  rewrite list.Forall_forall in Hf. apply Hf in Hin. rewrite <- Hp in Hin. done.
Qed.

(** What a decoder keeps of a Will. *)
Definition will_norm (lwt0 : MqttMessage) (level : Z) (lwt : MqttMessage) : MqttMessage :=
  will_of lwt0 (msg_qos lwt) (if msg_retain lwt =? 0 then 0 else 1) (will_topic lwt) (will_payload lwt)
    (if level =? MQTT_CONNECT_PROTOCOL_LEVEL_5 then map prop_norm (msg_props lwt) else []).

Definition will_cells (level : Z) (lwt : MqttMessage) : nat :=
  if level =? MQTT_CONNECT_PROTOCOL_LEVEL_5 then length (msg_props lwt) else 0.

Lemma connect_will_sits rx_buf rx_buf_len rx_end level flags pos lwt0 lwt n :
  rx_ok rx_buf rx_buf_len -> will_rep lwt -> will_ok level lwt -> will_topic lwt <> [] ->
  CONNECT_FLAG_GET_QOS flags = msg_qos lwt -> has flags 32 = negb (msg_retain lwt =? 0) ->
  sits rx_buf pos (will_wire level lwt) -> 0 <= pos -> pos + len (will_wire level lwt) <= rx_end ->
  rx_end <= rx_buf_len -> (will_cells level lwt <= n)%nat ->
  connect_will rx_buf rx_buf_len rx_end level flags pos (Some lwt0) n =
    (Ok (will_norm lwt0 level lwt, pos + len (will_wire level lwt)), (n - will_cells level lwt)%nat).
Proof.
  intros Hrx Hrep (Ht & Hnull & [Htl Hut] & Hpl & _ & Hq & Hbl & Hps) Hne Hfq Hfr Hs Hp He Hr Hn.
  pose proof (will_payload_len lwt Hrep Hnull) as Hpll. pose proof Hrep as (Hbt & _ & _ & _ & Hprep).
  unfold will_wire in *. rewrite len_app in *. apply sits_app in Hs as [Hs1 Hs2].
  pose proof (len_nonneg (v5_block level (msg_props lwt))).
  pose proof (len_nonneg (counted (will_topic lwt) ++ counted (will_payload lwt))).
  unfold connect_will. erewrite run_bind; [|apply connect_props_sits; try done; try lia].
  2:{ intros E. destruct (Hps E) as [Hv Hpo]. split; [done|by apply will_props_auth]. }
  2:{ unfold will_cells in Hn. destruct (level =? 5); [exact Hn|apply Nat.le_0_l]. }
  cbv match. unfold freeing.
  assert (Ev : forallb (fun p => MqttWillProps_ValidateType (prop_type p))
    (map prop_norm (if level =? MQTT_CONNECT_PROTOCOL_LEVEL_5 then msg_props lwt else [])) = true).
  { destruct (Z.eqb_spec level MQTT_CONNECT_PROTOCOL_LEVEL_5) as [E|]; [|done].
    destruct (Hps E) as [Hv _]. clear -Hv. induction Hv as [|p ps Hp _ IH]; [done|]. cbn.
    rewrite IH, andb_true_r. unfold prop_norm. by destruct (prop_data (prop_type p)). }
  rewrite Ev. cbn [negb].
  erewrite run_lift; [|apply (connect_will_fields_sits _ _ _ _ _ (will_topic lwt) (will_payload lwt)); try done; try lia].
  2:{ by apply cstr_bytes. }
  unfold mret, M_ret, will_norm, will_of, will_cells, flag_bit. rewrite Z.add_assoc, Hfq. unfold has in Hfr.
  apply (f_equal negb) in Hfr. rewrite !negb_involutive in Hfr. rewrite Hfr.
  by destruct (level =? MQTT_CONNECT_PROTOCOL_LEVEL_5).
Qed.

(** A CONNECT that a decoder accepts; the level is whatever the sender says. *)
Definition connect_held (mc : MqttConnect) : Prop :=
  let level := mc_protocol_level mc in
  connect_rep mc /\ is_Some (mc_client_id mc) /\ text_ok (default [] (mc_client_id mc)) /\
  (level = MQTT_CONNECT_PROTOCOL_LEVEL_4 -> is_Some (mc_password mc) -> is_Some (mc_username mc)) /\
  (level = MQTT_CONNECT_PROTOCOL_LEVEL_5 ->
   props_ok MQTT_PACKET_TYPE_CONNECT (mc_props mc) /\ auth_ok (mc_props mc)) /\
  (mc_enable_lwt mc <> 0 ->
   exists lwt, mc_lwt_msg mc = Some lwt /\ will_ok level lwt /\ will_topic lwt <> []) /\
  (forall u, mc_username mc = Some u -> text_ok u) /\
  (forall p, mc_password mc = Some p -> len (password_bytes mc p) <= 65535).

(** What a decoder reports of it, in the caller's structure [mc0]. *)
Definition connect_norm (mc0 mc : MqttConnect) : MqttConnect :=
  let level := mc_protocol_level mc in
  let password := option_map (password_bytes mc) (mc_password mc) in
  mkConnect (mc_keep_alive_sec mc) (if mc_clean_session mc =? 0 then 0 else 1)
    (Some (client_bytes mc)) level (if mc_enable_lwt mc =? 0 then 0 else 1)
    (if mc_enable_lwt mc =? 0 then mc_lwt_msg mc0
     else match mc_lwt_msg mc0, mc_lwt_msg mc with
          | Some lwt0, Some lwt => Some (will_norm lwt0 level lwt)
          | _, _ => None
          end)
    (option_map cstr (mc_username mc)) password
    (if level =? MQTT_CONNECT_PROTOCOL_LEVEL_5 then map prop_norm (mc_props mc) else [])
    (len (default [] password)).

(** The property cells it takes. *)
Definition connect_cells (mc : MqttConnect) : nat :=
  (if mc_protocol_level mc =? MQTT_CONNECT_PROTOCOL_LEVEL_5 then length (mc_props mc) else 0) +
  (if mc_enable_lwt mc =? 0 then 0
   else match mc_lwt_msg mc with Some lwt => will_cells (mc_protocol_level mc) lwt | None => 0 end).

(** The payload of the packet, after the [MqttConnectPacket]. *)
Definition connect_rest (mc : MqttConnect) : list Z :=
  v5_block (mc_protocol_level mc) (mc_props mc) ++
  counted (client_bytes mc) ++ will_part mc ++ user_part mc ++ password_part mc.

(** The fields of the flags byte that [connect_flags] makes. *)
Definition flags_of (mc : MqttConnect) (flags : Z) : Prop :=
  is_byte flags /\ has flags 2 = negb (mc_clean_session mc =? 0) /\
  has flags 4 = negb (mc_enable_lwt mc =? 0) /\ has flags 64 = opt_bool (mc_password mc) /\
  has flags 128 = opt_bool (mc_username mc) /\
  (forall lwt, mc_enable_lwt mc <> 0 -> mc_lwt_msg mc = Some lwt ->
   CONNECT_FLAG_GET_QOS flags = msg_qos lwt /\ has flags 32 = negb (msg_retain lwt =? 0)) /\
  connect_flags_bad (mc_protocol_level mc) flags = false.

Lemma connect_flags_held mc : connect_held mc -> flags_of mc (connect_flags mc).
Proof.
  intros (Hrep & _ & _ & Hlogin & _ & Hwill & _).
  assert (Hl : exists lwt, (mc_enable_lwt mc <> 0 -> mc_lwt_msg mc = Some lwt) /\ 0 <= msg_qos lwt <= 2).
  { destruct (decide (mc_enable_lwt mc = 0)) as [E|E].
    - exists (will_of (mkMessage 0 0 0 0 0 None 0 0 None 0 0 0 0 0 [] 0) 0 0 [] [] []). cbn. split; [done|lia].
    - destruct (Hwill E) as (lwt & Hs & (_ & _ & _ & _ & _ & Hq & _) & _). exists lwt.
      destruct Hrep as (_ & _ & _ & Hlwt & _). destruct (Hlwt E lwt Hs) as (_ & Hq0 & _). split; [done|lia]. }
  destruct Hl as (lwt & Hlwt & Hq). rewrite (connect_flags_eq mc lwt Hlwt Hq).
  destruct (flags_byte_bits (mc_protocol_level mc) (negb (mc_clean_session mc =? 0)) (negb (mc_enable_lwt mc =? 0))
    (msg_qos lwt) (negb (msg_retain lwt =? 0)) (opt_bool (mc_username mc)) (opt_bool (mc_password mc)) Hq)
    as (Hb & Hfc & Hfw & Hfp & Hfu & Hfq & Hbad).
  split_and!; try done.
  - intros lwt' E Hs. rewrite Hlwt in Hs by done. injection Hs as <-. apply Hfq.
    by rewrite (proj2 (Z.eqb_neq _ _) E).
  - rewrite Hbad. destruct (Z.eqb_spec (mc_protocol_level mc) 4) as [E|]; [|done].
    destruct (mc_password mc); [|by rewrite andb_false_r].
    destruct (Hlogin E) as [u ->]; [by eexists|]. done.
Qed.

(** Its Will, in the caller's structure. *)
Lemma connect_will_part_sits rx_buf rx_buf_len rx_end flags pos mc mc0 n :
  rx_ok rx_buf rx_buf_len -> connect_held mc -> flags_of mc flags ->
  (mc_enable_lwt mc <> 0 -> is_Some (mc_lwt_msg mc0)) ->
  sits rx_buf pos (will_part mc) -> 0 <= pos -> pos + len (will_part mc) <= rx_end ->
  rx_end <= rx_buf_len ->
  let k := if mc_enable_lwt mc =? 0 then 0%nat
    else match mc_lwt_msg mc with Some lwt => will_cells (mc_protocol_level mc) lwt | None => 0%nat end in
  (k <= n)%nat ->
  exists ps,
  ((if Z.land flags MQTT_CONNECT_FLAG_WILL_FLAG =? 0 then mret (mc_lwt_msg mc0, [], pos)
   else '(lwt, pos) ← connect_will rx_buf rx_buf_len rx_end (mc_protocol_level mc) flags pos (mc_lwt_msg mc0);
        mret (Some lwt, msg_props lwt, pos)) : M (option MqttMessage * list MqttProp * Z)) n =
    (Ok (mc_lwt_msg (connect_norm mc0 mc), ps, pos + len (will_part mc)), (n - k)%nat).
Proof.
  intros Hrx (Hrep & _ & _ & _ & _ & Hwill & _) (_ & _ & Hfw & _ & _ & Hfq & _) Hlwt0 Hs Hp He Hr k Hn.
  unfold has in Hfw. apply (f_equal negb) in Hfw. rewrite !negb_involutive in Hfw. rewrite Hfw.
  subst k. unfold will_part, connect_norm in *. cbn [mc_lwt_msg].
  destruct (Z.eqb_spec (mc_enable_lwt mc) 0) as [E|E].
  { exists []. cbn. by rewrite Z.add_0_r, Nat.sub_0_r. }
  destruct (Hwill E) as (lwt & Hlwt & Hok & Hne). destruct (Hlwt0 E) as [lwt0 Hlwt0'].
  destruct (Hfq lwt E Hlwt) as [Hq Hret]. rewrite Hlwt, Hlwt0' in *. destruct Hrep as (_ & _ & _ & Hlrep & _).
  eexists. erewrite run_bind; [|apply (connect_will_sits _ _ _ _ _ _ _ lwt); try done; by apply Hlrep].
  reflexivity.
Qed.

Lemma flag_bit_has flags flag x :
  has flags flag = negb (x =? 0) -> flag_bit flags flag = if x =? 0 then 0 else 1.
Proof.
  unfold has, flag_bit. intros H%(f_equal negb). rewrite !negb_involutive in H. by rewrite H.
Qed.

Lemma connect_login_held rx_buf rx_buf_len rx_end flags pos mc :
  rx_ok rx_buf rx_buf_len -> connect_held mc -> flags_of mc flags ->
  sits rx_buf pos (user_part mc ++ password_part mc) -> 0 <= pos ->
  pos + len (user_part mc ++ password_part mc) = rx_end -> rx_end <= rx_buf_len ->
  connect_login rx_buf rx_buf_len rx_end flags pos =
    Ok (option_map cstr (mc_username mc), option_map (password_bytes mc) (mc_password mc), rx_end).
Proof.
  intros Hrx (Hrep & _ & _ & _ & _ & _ & Hu & Hp) (_ & _ & _ & Hfp & Hfu & _) Hs H0 He Hr.
  destruct Hrep as (_ & _ & _ & _ & Hub & _).
  assert (Ew : user_part mc ++ password_part mc =
    match option_map cstr (mc_username mc) with Some u => counted u | None => [] end ++
    match option_map (password_bytes mc) (mc_password mc) with Some p => counted p | None => [] end).
  { unfold user_part, password_part. by destruct (mc_username mc), (mc_password mc). }
  rewrite Ew in *. apply connect_login_sits; try done.
  - rewrite Hfu. by destruct (mc_username mc).
  - rewrite Hfp. by destruct (mc_password mc).
  - destruct (mc_username mc) as [u|]; [|done]. intros ? [= <-].
    destruct (Hu u eq_refl) as [? ?]. split_and!; try done. by apply cstr_bytes.
  - destruct (mc_password mc) as [p|]; [|done]. intros ? [= <-]. by apply Hp.
Qed.

Lemma connect_payload_sits rx_buf rx_buf_len rx_end flags pos mc mc0 n :
  rx_ok rx_buf rx_buf_len -> connect_held mc -> flags_of mc flags ->
  (mc_enable_lwt mc <> 0 -> is_Some (mc_lwt_msg mc0)) ->
  sits rx_buf pos (connect_rest mc) -> 0 <= pos -> pos + len (connect_rest mc) = rx_end ->
  rx_end <= rx_buf_len -> (connect_cells mc <= n)%nat ->
  connect_payload rx_buf rx_buf_len rx_end (mc_protocol_level mc) flags (mc_keep_alive_sec mc) pos mc0 n =
    (Ok (connect_norm mc0 mc), (n - connect_cells mc)%nat).
Proof.
  intros Hrx Hheld Hfl Hlwt0 Hs Hp He Hr Hn. pose proof Hheld as (Hrep & [c Hc] & [Hcl Hct] & _ & Hps & _ & Hu & Hpw).
  pose proof Hrep as (_ & _ & Hcb & _ & Hub & _ & _ & Hprep).
  unfold connect_rest, connect_cells in *. rewrite !len_app in He.
  apply sits_app in Hs as [Hs1 Hs2]. apply sits_app in Hs2 as [Hs2 Hs3]. apply sits_app in Hs3 as [Hs3 Hs4].
  pose proof (len_nonneg (v5_block (mc_protocol_level mc) (mc_props mc))).
  pose proof (len_nonneg (counted (client_bytes mc))). pose proof (len_nonneg (will_part mc)).
  pose proof (len_nonneg (user_part mc)). pose proof (len_nonneg (password_part mc)).
  set (taken := if mc_protocol_level mc =? MQTT_CONNECT_PROTOCOL_LEVEL_5 then mc_props mc else []).
  assert (Htaken : (if mc_protocol_level mc =? MQTT_CONNECT_PROTOCOL_LEVEL_5
    then length (mc_props mc) else 0%nat) = length taken) by (unfold taken; by destruct (_ =? _)).
  rewrite Htaken in *. unfold connect_payload.
  erewrite run_bind; [|apply connect_props_sits; try done; try lia; fold taken; lia].
  cbv match. fold taken. unfold freeing at 1.
  rewrite (run_lift _ _ _ _ (connect_string_sits _ _ rx_end _ (client_bytes mc) Hrx
    (cstr_bytes _ Hcb) Hct Hcl Hs2 ltac:(lia) ltac:(lia) Hr)).
  destruct (connect_will_part_sits _ rx_buf_len rx_end flags _ mc mc0 (n - length taken)%nat Hrx Hheld Hfl Hlwt0
    Hs3 ltac:(lia) ltac:(lia) Hr ltac:(lia)) as [ps Ew].
  erewrite run_bind; [|exact Ew]. cbv match. unfold freeing at 1.
  erewrite run_lift; [|apply connect_login_held; try done; [lia|rewrite len_app; lia]].
  destruct Hfl as (_ & Hfc & Hfw & _). cbv match. unfold mret, M_ret.
  rewrite (flag_bit_has _ _ _ Hfc), (flag_bit_has _ _ _ Hfw), Nat.sub_add_distr.
  unfold connect_norm, taken. cbn [mc_lwt_msg].
  by destruct (mc_protocol_level mc =? MQTT_CONNECT_PROTOCOL_LEVEL_5).
Qed.

(** What the decoder builds is acceptable and is a decoder's view of itself. *)
Lemma will_of_held level lwt0 qos retain topic buffer ps :
  0 <= qos <= 2 -> retain = 0 \/ retain = 1 -> len topic <= 65535 -> len buffer <= 65535 ->
  utf8_text topic -> bytes topic -> plain topic -> topic <> [] ->
  props_decoded MQTT_PACKET_TYPE_CONNECT ps -> (level <> MQTT_CONNECT_PROTOCOL_LEVEL_5 -> ps = []) ->
  Forall (fun p => MqttWillProps_ValidateType (prop_type p) = true) ps ->
  let lwt := will_of lwt0 qos retain topic buffer ps in
  will_rep lwt /\ will_ok level lwt /\ will_topic lwt = topic /\ will_payload lwt = buffer /\
  will_norm lwt0 level lwt = lwt.
Proof.
  intros Hq Hret Htl Hbl Hut Hbt Hpl Hne Hd Hps Hv lwt. pose proof (len_nonneg buffer).
  assert (Et : will_topic lwt = topic) by (unfold will_topic; by apply cstr_id, utf8_text_nonzero).
  assert (Eb : will_payload lwt = buffer).
  { unfold will_payload. cbn. unfold len. by rewrite Nat2Z.id, firstn_all. }
  split_and!; try done.
  - split_and!; cbn; try done; try lia; [by intros b [= <-]|by eapply props_decoded_rep].
  - unfold will_ok, text_ok. change (cstr (default [] (msg_topic_name lwt))) with (will_topic lwt).
    rewrite Et. split_and!; cbn; try done; try lia; [by left|]. intros _. split; [done|apply Hd].
  - unfold will_norm. rewrite Et, Eb. cbn [lwt will_of msg_qos msg_retain msg_props].
    rewrite (props_decoded_norm _ _ Hd).
    assert ((if retain =? 0 then 0 else 1) = retain) as -> by (destruct Hret as [->| ->]; done).
    destruct (Z.eqb_spec level MQTT_CONNECT_PROTOCOL_LEVEL_5); [done|]. unfold lwt. by rewrite Hps.
Qed.

Definition will_read (mc0 : MqttConnect) (level flags : Z) (lwt_msg : option MqttMessage) : Prop :=
  if has flags 4 then
    exists lwt0 topic buffer ps,
      mc_lwt_msg mc0 = Some lwt0 /\
      lwt_msg = Some (will_of lwt0 (CONNECT_FLAG_GET_QOS flags) (flag_bit flags 32) topic buffer ps) /\
      props_decoded MQTT_PACKET_TYPE_CONNECT ps /\ (level <> MQTT_CONNECT_PROTOCOL_LEVEL_5 -> ps = []) /\
      Forall (fun p => MqttWillProps_ValidateType (prop_type p) = true) ps /\
      len topic <= 65535 /\ len buffer <= 65535 /\ utf8_text topic /\ bytes topic /\
      plain topic /\ topic <> []
  else lwt_msg = mc_lwt_msg mc0.

Lemma will_read_held mc0 level flags lwt_msg :
  0 <= CONNECT_FLAG_GET_QOS flags <= 2 -> has flags 4 = true -> will_read mc0 level flags lwt_msg ->
  exists lwt0 lwt, mc_lwt_msg mc0 = Some lwt0 /\ lwt_msg = Some lwt /\ will_rep lwt /\
    will_ok level lwt /\ will_topic lwt <> [] /\ will_norm lwt0 level lwt = lwt /\
    msg_qos lwt = CONNECT_FLAG_GET_QOS flags /\ msg_retain lwt = flag_bit flags 32.
Proof.
  intros Hq Hf Hr. unfold will_read in Hr. rewrite Hf in Hr.
  destruct Hr as (lwt0 & topic & buffer & ps & H0 & -> & Hd & Hps & Hv & Htl & Hbl & Hut & Hbt & Hpl & Hne).
  destruct (will_of_held level lwt0 (CONNECT_FLAG_GET_QOS flags) (flag_bit flags 32) topic buffer ps)
    as (H1 & H2 & H3 & _ & H5); try done.
  { unfold flag_bit. destruct (_ =? 0); auto. }
  eexists lwt0, _. split_and!; try done. by rewrite H3.
Qed.

(** The structure made of what was read. *)
Definition connect_made (keep_alive level flags : Z) (client : list Z) (lwt_msg : option MqttMessage)
    (username password : option (list Z)) (ps : list MqttProp) : MqttConnect :=
  mkConnect keep_alive (flag_bit flags MQTT_CONNECT_FLAG_CLEAN_SESSION) (Some client) level
    (flag_bit flags MQTT_CONNECT_FLAG_WILL_FLAG) lwt_msg username password ps
    (len (default [] password)).

Lemma password_bytes_made keep_alive level flags client lwt_msg username p ps :
  password_bytes (connect_made keep_alive level flags client lwt_msg username (Some p) ps) p = p.
Proof.
  unfold password_bytes, connect_made. cbn [mc_password_len]. change (default [] (Some p)) with p.
  destruct (Z.ltb_spec 0 (len p)); [unfold len; by rewrite Nat2Z.id, firstn_all|].
  destruct p; [done|]. rewrite len_cons in *. pose proof (len_nonneg p). lia.
Qed.

Lemma flag_bit_eq flags flag : (flag_bit flags flag =? 0) = negb (has flags flag).
Proof. unfold flag_bit, has. rewrite negb_involutive. by destruct (Z.land flags flag =? 0). Qed.

Lemma opt_cstr (username : option (list Z)) :
  (forall u, username = Some u -> utf8_text u) -> option_map cstr username = username.
Proof.
  destruct username as [u|]; [|done]. intros Hu. cbn. rewrite cstr_id; [done|].
  by apply utf8_text_nonzero, Hu.
Qed.

Lemma opt_password keep_alive level flags client lwt_msg username password ps :
  option_map (password_bytes (connect_made keep_alive level flags client lwt_msg username password ps))
    password = password.
Proof. destruct password as [p|]; [|done]. cbn. by rewrite password_bytes_made. Qed.

Section Made.
Context (mc0 : MqttConnect) (keep_alive level flags : Z) (client : list Z)
  (lwt_msg : option MqttMessage) (username password : option (list Z)) (ps : list MqttProp).
Context (Hlevel : is_byte level) (Hflags : is_byte flags) (Hka : 0 <= keep_alive < 65536)
  (Hgood : connect_flags_bad level flags = false)
  (Hclient : bytes client /\ utf8_text client /\ len client <= 65535)
  (Hwill : will_read mc0 level flags lwt_msg)
  (Hu : opt_bool username = has flags 128) (Hp : opt_bool password = has flags 64)
  (Hut : forall u, username = Some u -> len u <= 65535 /\ utf8_text u /\ bytes u)
  (Hpt : forall p, password = Some p -> len p <= 65535 /\ bytes p)
  (Hd : props_decoded MQTT_PACKET_TYPE_CONNECT ps)
  (Hps : level <> MQTT_CONNECT_PROTOCOL_LEVEL_5 -> ps = []).

Let mc := connect_made keep_alive level flags client lwt_msg username password ps.

Lemma made_client : client_bytes mc = client.
Proof using Hclient. change (cstr client = client). by apply cstr_id, utf8_text_nonzero, Hclient. Qed.

Lemma made_username : option_map cstr username = username.
Proof using Hut. apply opt_cstr. intros u Hs. by apply Hut. Qed.

Lemma made_password : option_map (password_bytes mc) password = password.
Proof using. apply opt_password. Qed.

Lemma made_parts :
  user_part mc = match username with Some u => counted u | None => [] end /\
  password_part mc = match password with Some p => counted p | None => [] end.
Proof using Hut.
  assert (E : forall f (o : option (list Z)), match o with Some u => counted (f u) | None => [] end =
    match option_map f o with Some u => counted u | None => [] end) by (by intros f []).
  unfold user_part, password_part. change (mc_username mc) with username.
  change (mc_password mc) with password. rewrite (E cstr), (E (password_bytes mc)). by rewrite made_username, made_password.
Qed.

Lemma made_enable : (mc_enable_lwt mc =? 0) = negb (has flags 4).
Proof using. apply flag_bit_eq. Qed.

Lemma made_will :
  mc_enable_lwt mc <> 0 ->
  exists lwt0 lwt, mc_lwt_msg mc0 = Some lwt0 /\ lwt_msg = Some lwt /\
    will_rep lwt /\ will_ok level lwt /\ will_topic lwt <> [] /\ will_norm lwt0 level lwt = lwt /\
    msg_qos lwt = CONNECT_FLAG_GET_QOS flags /\ msg_retain lwt = flag_bit flags 32.
Proof using Hflags Hgood Hwill.
  intros E%Z.eqb_neq. rewrite made_enable in E. tests.
  destruct (connect_flags_good level flags Hflags Hgood) as (Hq & _).
  by apply will_read_held.
Qed.

Lemma made_rep : connect_rep mc.
Proof using All.
  assert (0 <= len (default [] password) < 65536).
  { pose proof (len_nonneg (default [] password)). destruct password as [p|]; [|done].
    destruct (Hpt p eq_refl). change (default [] (Some p)) with p in *. lia. }
  split_and!; cbn; try done; try apply Hlevel; try apply Hka; try lia; try apply Hclient.
  - intros E lwt Hs. destruct (made_will E) as (_ & lwt' & _ & Hs' & ? & _). by simplify_eq.
  - destruct username as [u|]; [by apply Hut|constructor].
  - intros p ->. done.
  - by eapply props_decoded_rep.
Qed.

Lemma made_held : connect_held mc.
Proof using All.
  destruct (connect_flags_good level flags Hflags Hgood) as (_ & _ & Hlogin).
  split; [apply made_rep|]. split_and!.
  - by eexists.
  - unfold text_ok. change (cstr (default [] (mc_client_id mc))) with (client_bytes mc).
    rewrite made_client. split; apply Hclient.
  - intros E4 [p Hs]. cbn in Hs, E4. rewrite Hs in Hp. cbn in Hp. rewrite (Hlogin E4) in Hu by done.
    cbn. destruct username; [by eexists|done].
  - intros _. split; apply Hd.
  - intros E. destruct (made_will E) as (_ & lwt & _ & Hs & _ & ? & ? & _). by exists lwt.
  - intros u Hs. cbn in Hs. pose proof made_username as Eu. rewrite Hs in Eu. cbn in Eu.
    injection Eu as Eu. unfold text_ok. rewrite Eu. split; by apply Hut.
  - intros p Hs. cbn in Hs. pose proof made_password as Ep. rewrite Hs in Ep. cbn in Ep.
    injection Ep as Ep. rewrite Ep. by apply Hpt.
Qed.

Lemma made_norm : connect_norm mc0 mc = mc.
Proof using All.
  assert (Ebit : forall flag, (if flag_bit flags flag =? 0 then 0 else 1) = flag_bit flags flag).
  { intros flag. unfold flag_bit. by destruct (Z.land flags flag =? 0). }
  assert (Eps : (if level =? MQTT_CONNECT_PROTOCOL_LEVEL_5 then map prop_norm ps else []) = ps).
  { rewrite (props_decoded_norm _ _ Hd). destruct (Z.eqb_spec level MQTT_CONNECT_PROTOCOL_LEVEL_5); [done|].
    by rewrite Hps. }
  assert (Elwt : (if mc_enable_lwt mc =? 0 then mc_lwt_msg mc0
    else match mc_lwt_msg mc0, mc_lwt_msg mc with
         | Some lwt0, Some lwt => Some (will_norm lwt0 level lwt)
         | _, _ => None
         end) = lwt_msg).
  { destruct (Z.eqb_spec (mc_enable_lwt mc) 0) as [E|E].
    - pose proof made_enable as En. rewrite E in En. unfold will_read in Hwill.
      by destruct (has flags 4).
    - destruct (made_will E) as (lwt0 & lwt & -> & Hs & _ & _ & _ & Hn & _).
      change (mc_lwt_msg mc) with lwt_msg. by rewrite Hs, Hn. }
  unfold connect_norm. change (mc_protocol_level mc) with level. rewrite made_client, Elwt.
  change (mc_username mc) with username. change (mc_password mc) with password.
  rewrite made_username, made_password. change (mc_props mc) with ps. rewrite Eps.
  unfold mc, connect_made. cbn [mc_keep_alive_sec mc_clean_session mc_enable_lwt]. by rewrite !Ebit.
Qed.

(** The flags it would be sent with are the ones received. *)
Lemma made_flags : connect_flags mc = flags.
Proof using All.
  destruct (connect_flags_good level flags Hflags Hgood) as (Hq & Hf & _).
  assert (Hl : exists lwt, (mc_enable_lwt mc <> 0 -> mc_lwt_msg mc = Some lwt) /\
    0 <= msg_qos lwt <= 2 /\ (mc_enable_lwt mc <> 0 ->
    msg_qos lwt = CONNECT_FLAG_GET_QOS flags /\ msg_retain lwt = flag_bit flags 32)).
  { destruct (decide (mc_enable_lwt mc = 0)) as [E|E].
    - exists (will_of (mkMessage 0 0 0 0 0 None 0 0 None 0 0 0 0 0 [] 0) 0 0 [] [] []). cbn.
      split; [done|]. split; [lia|done].
    - destruct (made_will E) as (lwt0 & lwt & _ & Hs & _ & _ & _ & _ & Hmq & Hmr). exists lwt.
      split; [done|]. split; [by rewrite Hmq|done]. }
  destruct Hl as (lwt & Hlwt & Hq2 & Hw). rewrite (connect_flags_eq mc lwt Hlwt Hq2), made_enable.
  change (mc_username mc) with username. change (mc_password mc) with password. rewrite Hu, Hp.
  change (mc_clean_session mc) with (flag_bit flags 2). rewrite flag_bit_eq, !negb_involutive.
  symmetry. etransitivity; [exact Hf|]. unfold flags_byte. destruct (has flags 4) eqn:E4; [|done].
  destruct Hw as [-> ->]; [|by rewrite flag_bit_eq, negb_involutive].
  apply Z.eqb_neq. by rewrite made_enable, E4.
Qed.
End Made.

Lemma will_wire_of level lwt0 qos retain topic buffer ps :
  utf8_text topic ->
  will_wire level (will_of lwt0 qos retain topic buffer ps) =
    v5_block level ps ++ counted topic ++ counted buffer.
Proof.
  intros Ht. unfold will_wire, will_topic, will_payload. cbn.
  rewrite cstr_id by by apply utf8_text_nonzero. do 3 f_equal. unfold len. by rewrite Nat2Z.id, firstn_all.
Qed.

(** The Will of the packet, if the flags announce one. *)
Lemma connect_will_part_meets rx_buf rx_buf_len rx_end level flags pos mc0 n :
  rx_ok rx_buf rx_buf_len -> 0 <= pos <= rx_end -> rx_end <= rx_buf_len ->
  meets n
    ((if Z.land flags MQTT_CONNECT_FLAG_WILL_FLAG =? 0 then mret (mc_lwt_msg mc0, [], pos)
      else '(lwt, pos) ← connect_will rx_buf rx_buf_len rx_end level flags pos (mc_lwt_msg mc0);
           mret (Some lwt, msg_props lwt, pos)) : M (option MqttMessage * list MqttProp * Z)) n
    (fun '(lwt_msg, wps, pos') n' => exists bs,
       will_read mc0 level flags lwt_msg /\
       bs = (if has flags 4 then match lwt_msg with Some lwt => will_wire level lwt | None => [] end else []) /\
       (length wps = if has flags 4 then
          match lwt_msg with Some lwt => will_cells level lwt | None => 0%nat end else 0%nat) /\
       sits rx_buf pos bs /\ pos' = pos + len bs /\ pos' <= rx_end /\ n = (n' + length wps)%nat).
Proof.
  intros Hrx Hp He. pose proof Hrx as (_ & Hl & _). unfold will_read, has.
  destruct (Z.land flags MQTT_CONNECT_FLAG_WILL_FLAG =? 0); cbn [negb].
  - apply meets_ret. exists []. change (len []) with 0. cbn [length].
    split_and!; try done; try lia. apply sits_nil. lia.
  - apply meets_bind. eapply meets_mono; [apply connect_will_meets; [done|lia|done]|].
    intros [lwt pos'] n' (lwt0 & topic & buffer & ps & H0 & -> & Hs & -> & Hle & Hd & Hps & Hv & Htl & Hbl & Hut & Hbt & Hpl & Hne & Hn).
    apply meets_ret. rewrite <- (will_wire_of level lwt0 (CONNECT_FLAG_GET_QOS flags) (flag_bit flags 32)) in * by done.
    eexists. split_and!; [|reflexivity| |done|done|done|done].
    + exists lwt0, topic, buffer, ps. split_and!; done.
    + unfold will_cells. cbn. destruct (Z.eqb_spec level 5); [done|]. by rewrite Hps.
Qed.

Lemma connect_payload_meets rx_buf rx_buf_len rx_end level flags keep_alive pos mc0 n :
  rx_ok rx_buf rx_buf_len -> 0 <= pos <= rx_buf_len -> rx_end <= rx_buf_len ->
  is_byte level -> is_byte flags -> 0 <= keep_alive < 65536 -> connect_flags_bad level flags = false ->
  meets n (connect_payload rx_buf rx_buf_len rx_end level flags keep_alive pos mc0) n
    (fun mc n' => connect_held mc /\ connect_norm mc0 mc = mc /\
       mc_protocol_level mc = level /\ connect_flags mc = flags /\ mc_keep_alive_sec mc = keep_alive /\
       sits rx_buf pos (connect_rest mc) /\ pos + len (connect_rest mc) = rx_end /\
       n = (n' + connect_cells mc)%nat).
Proof.
  intros Hrx Hp He Hlb Hfb Hka Hgood. pose proof Hrx as (_ & Hl & _). unfold connect_payload.
  apply meets_bind. eapply meets_mono; [by apply connect_props_meets|].
  intros [ps k] n1 (Hd & Hps & Hs1 & -> & Hk & Hn1). apply meets_freeing; [|lia].
  pose proof (len_nonneg (v5_block level ps)).
  apply meets_bind, meets_lift; [|done].
  eapply yields_mono; [apply connect_string_yields; [done|lia]|].
  intros [[client cl] pos2] (Hs2 & -> & Hcl & -> & Hle2 & Hct & Hcb). pose proof (len_nonneg (counted client)).
  apply meets_bind. eapply meets_mono; [apply connect_will_part_meets; [done|lia|done]|].
  intros [[lwt_msg wps] pos3] n3 (bs & Hw & Ebs & Ewps & Hs3 & -> & Hle3 & Hn3). pose proof (len_nonneg bs).
  apply meets_freeing; [|done]. apply meets_bind, meets_lift; [|done].
  eapply yields_mono; [apply connect_login_yields; [done|lia|done]|].
  intros [[username password] pos4] (Hu & Hpw & Hs4 & -> & He4 & Hut & Hpt). apply meets_ret.
  fold (connect_made keep_alive level flags client lwt_msg username password ps).
  set (mc := connect_made keep_alive level flags client lwt_msg username password ps).
  assert (Hclient : bytes client /\ utf8_text client /\ len client <= 65535) by (split_and!; [done|done|lia]).
  assert (Hrest : connect_rest mc = v5_block level ps ++ counted client ++ bs ++
    match username with Some u => counted u | None => [] end ++
    match password with Some p => counted p | None => [] end).
  { destruct (made_parts keep_alive level flags client lwt_msg username password ps Hut) as [E1 E2].
    unfold connect_rest, mc. rewrite E1, E2, made_client by done.
    do 3 f_equal. unfold will_part. rewrite made_enable, Ebs. by destruct (has flags 4). }
  split_and!.
  - by apply (made_held mc0).
  - by apply made_norm.
  - done.
  - by apply (made_flags mc0).
  - done.
  - rewrite Hrest, !sits_app. rewrite !sits_app in Hs4. split_and!; try done; by apply Hs4.
  - rewrite Hrest, !len_app in *. lia.
  - unfold connect_cells, mc. rewrite made_enable.
    change (mc_protocol_level _) with level. change (mc_props _) with ps. change (mc_lwt_msg _) with lwt_msg.
    assert (E : (if level =? 5 then length ps else 0%nat) = length ps)
      by (destruct (Z.eqb_spec level 5); [done|by rewrite Hps]).
    rewrite E. destruct (has flags 4); cbn [negb] in *; lia.
Qed.

Lemma sits_whole (buf bs : list Z) : sits buf 0 bs -> len bs = len buf -> buf = bs.
Proof.
  intros (pre & post & -> & Hp) Hl. rewrite !len_app in Hl. unfold len in *.
  destruct pre; [|simpl in Hp; lia]. destruct post; [by rewrite app_nil_r|simpl in Hl; lia].
Qed.

Lemma connect_body_eq mc :
  connect_body mc = connect_head (mc_protocol_level mc) (connect_flags mc) (mc_keep_alive_sec mc) ++ connect_rest mc.
Proof. done. Qed.

Lemma MqttDecode_Connect_meets rx_buf rx_buf_len mc0 n :
  rx_ok rx_buf rx_buf_len ->
  meets n (MqttDecode_Connect rx_buf rx_buf_len mc0) n
    (fun '(rc, mc) n' => connect_held mc /\ connect_norm mc0 mc = mc /\
       received rx_buf rx_buf_len (connect_wire mc) rc /\ n = (n' + connect_cells mc)%nat).
Proof.
  intros Hrx. pose proof Hrx as (Hb & Hl & Hm). unfold MqttDecode_Connect.
  apply meets_test; [lia|done|]. intros _. apply meets_bind, meets_lift; [|done].
  eapply yields_mono; [by apply MqttDecode_FixedHeader_fixed|].
  intros fh (Hf1 & Hf2 & Hf3 & _ & Hs & Hh). change (fixed_qos _) with MQTT_QOS_0 in Hs. cbv zeta.
  apply meets_test; [lia|done|]. intros Hroom%Z.ltb_ge.
  apply meets_test; [lia|done|]. intros [Hr1%Z.ltb_ge Hr2%Z.ltb_ge]%orb_false_iff.
  apply meets_bind, meets_lift; [|done]. apply slice_yields; [lia..|]. intros packet Ep.
  pose proof (slice_bytes _ _ _ _ Hb Ep) as Hpb. apply slice_inv in Ep as (_ & _ & _ & Hpl & Hps).
  apply meets_bind, meets_lift; [|done].
  eapply yields_mono; [apply MqttDecode_Num_yields; [done|lia|lia]|]. intros [protocol_len ?] (-> & _ & _ & Hs0).
  apply meets_bind, meets_lift; [|done]. apply slice_yields; [lia..|]. intros name Ename.
  apply slice_inv in Ename as (_ & _ & _ & _ & Hs2).
  apply meets_test; [lia|done|]. intros [Hpn%negb_false_iff%Z.eqb_eq Hname%bool_decide_eq_false]%orb_false_iff.
  apply dec_stable in Hname. subst protocol_len name.
  apply meets_rd; [done|lia|done|]. intros level Hlevel Hs6.
  apply meets_rd; [done|lia|done|]. intros flags Hflags Hs7.
  apply meets_test; [lia|done|]. intros Hgood.
  apply meets_bind, meets_lift; [|done].
  eapply yields_mono; [apply MqttDecode_Num_yields; [done|lia|lia]|]. intros [ka ?] (-> & _ & Hka & Hs8).
  assert (Ehead : packet = connect_head level flags ka).
  { apply sits_whole; [|done]. unfold connect_head. change [0; MQTT_CONNECT_PROTOCOL_NAME_LEN] with (be16 4).
    rewrite !sits_app. split_and!; try done. apply sits_cons. by split. }
  apply meets_bind. eapply meets_mono; [apply connect_payload_meets; done || lia|].
  intros mc n' (Hheld & Hnorm & <- & <- & <- & Hsr & He & Hn). apply meets_ret.
  split_and!; try done.
  - apply received_frame; try done.
    + rewrite connect_body_eq. apply sits_app. split; [by rewrite <- Ehead|]. by rewrite <- Ehead, Hpl.
    + rewrite connect_body_eq, len_app, <- Ehead, Hpl. lia.
Qed.

Lemma connect_head_reads level flags ka :
  is_byte level -> is_byte flags -> 0 <= ka < 65536 ->
  let p := connect_head level flags ka in
  MqttDecode_Num p 0 MQTT_DATA_LEN_SIZE = Ok (4, 2) /\
  slice p 2 MQTT_CONNECT_PROTOCOL_NAME_LEN = Ok MQTT_CONNECT_PROTOCOL_NAME /\
  rd p 6 = Ok level /\ rd p 7 = Ok flags /\ MqttDecode_Num p 8 MQTT_DATA_LEN_SIZE = Ok (ka, 2).
Proof.
  intros Hl Hf Hk p. split_and!; [done|done|done|done|].
  apply MqttDecode_Num_sits; [done| |done].
  by exists (take 8 p), [].
Qed.

Lemma MqttDecode_Connect_sits rx_buf rx_buf_len mc mc0 n :
  bytes rx_buf -> rx_buf_len <= len rx_buf -> connect_held mc ->
  (mc_enable_lwt mc <> 0 -> is_Some (mc_lwt_msg mc0)) -> (connect_cells mc <= n)%nat ->
  len (connect_body mc) <= MQTT_PACKET_MAX_REMAIN_LEN ->
  received rx_buf rx_buf_len (connect_wire mc) (len (connect_wire mc)) -> rx_buf_len < 2147483648 ->
  MqttDecode_Connect rx_buf rx_buf_len mc0 n =
    (Ok (len (connect_wire mc), connect_norm mc0 mc), (n - connect_cells mc)%nat).
Proof.
  intros Hb Hl Hheld Hlwt0 Hn Hmax Hrx Hm. pose proof (connect_flags_held mc Hheld) as Hfl.
  pose proof Hheld as ((Hka & Hlev & _) & _). pose proof Hfl as (Hfb & _ & _ & _ & _ & _ & Hgood).
  destruct (MqttDecode_FixedHeader_frame _ _ _ _ _ _ _
    (fixed_header_args MQTT_PACKET_TYPE_CONNECT ltac:(lia) ltac:(lia)) Hmax Hrx Hm)
    as (h & Hh & Hw & Hr & Hb0 & Hs & E).
  unfold MqttDecode_Connect. rewrite (proj2 (Z.leb_gt rx_buf_len 0)), (run_lift _ _ _ _ E) by lia.
  cbn [fh_header_len fh_remain_len]. cbv zeta. clear E.
  change (frame _ _ _ _ _) with (connect_wire mc) in Hw. rewrite Hw.
  assert (Hbl : len (connect_body mc) = 10 + len (connect_rest mc)).
  { rewrite connect_body_eq, len_app. by change (len (connect_head _ _ _)) with 10. }
  pose proof (len_nonneg (connect_rest mc)).
  rewrite !(proj2 (Z.ltb_ge _ _)) by lia. cbn [orb].
  rewrite connect_body_eq in Hs. apply sits_app in Hs as [Hs1 Hs2]. change (len (connect_head _ _ _)) with 10 in Hs2.
  rewrite (run_lift _ _ _ _ (slice_sits _ _ _ CONNECT_PACKET_SIZE Hs1 eq_refl)).
  destruct (connect_head_reads _ _ _ Hlev Hfb Hka) as (E1 & E2 & E3 & E4 & E5).
  rewrite (run_lift _ _ _ _ E1), (run_lift _ _ _ _ E2). change (negb (4 =? MQTT_CONNECT_PROTOCOL_NAME_LEN)) with false.
  rewrite bool_decide_eq_false_2 by tauto. cbn [orb].
  rewrite (run_lift _ _ _ _ E3), (run_lift _ _ _ _ E4), Hgood, (run_lift _ _ _ _ E5).
  erewrite run_bind; [|apply connect_payload_sits; try done; lia]. done.
Qed.

(** ** Properties *)

(** A Will and a CONNECT by the rules of the protocol, with the conditions on
    the values of properties that the code has: a Will Topic that is not empty,
    any of the seven Will Properties, and Authentication Data with its Method
    only. *)
Definition will_valid (level : Z) (lwt : MqttMessage) : Prop :=
  is_Some (msg_topic_name lwt) /\ (msg_buffer lwt = None -> msg_total_len lwt = 0) /\
  text_ok (default [] (msg_topic_name lwt)) /\ plain (will_topic lwt) /\ will_topic lwt <> [] /\
  msg_qos lwt <= MQTT_QOS_2 /\ msg_total_len lwt <= 65535 /\
  (level = MQTT_CONNECT_PROTOCOL_LEVEL_5 ->
   len (msg_props lwt) <= MQTT_MAX_PROPS /\
   Forall (fun p => MqttWillProps_ValidateType (prop_type p) = true /\ value_ok p) (msg_props lwt) /\
   NoDup (filter (fun t => t <> MQTT_PROP_USER_PROP) (map prop_type (msg_props lwt)))).

Definition connect_valid (mc : MqttConnect) : Prop :=
  let level := mc_protocol_level mc in
  (level = MQTT_CONNECT_PROTOCOL_LEVEL_4 \/ level = MQTT_CONNECT_PROTOCOL_LEVEL_5) /\
  (level = MQTT_CONNECT_PROTOCOL_LEVEL_4 -> is_Some (mc_password mc) -> is_Some (mc_username mc)) /\
  (level = MQTT_CONNECT_PROTOCOL_LEVEL_5 ->
   props_ok MQTT_PACKET_TYPE_CONNECT (mc_props mc) /\ auth_ok (mc_props mc)) /\
  text_ok (default [] (mc_client_id mc)) /\
  (level = MQTT_CONNECT_PROTOCOL_LEVEL_4 -> client_bytes mc = [] -> mc_clean_session mc <> 0) /\
  (mc_enable_lwt mc <> 0 -> exists lwt, mc_lwt_msg mc = Some lwt /\ will_valid level lwt) /\
  (forall u, mc_username mc = Some u -> text_ok u) /\
  (forall p, mc_password mc = Some p -> len (password_bytes mc p) <= 65535).

(** The matrix of the properties lets those of the Will into a CONNECT. *)
Definition will_props_known (mc : MqttConnect) : Prop :=
  mc_protocol_level mc = MQTT_CONNECT_PROTOCOL_LEVEL_5 -> mc_enable_lwt mc <> 0 ->
  forall lwt, mc_lwt_msg mc = Some lwt ->
  Forall (fun p => prop_type p ∈ [MQTT_PROP_WILL_DELAY_INTERVAL; MQTT_PROP_MSG_EXPIRY_INTERVAL; MQTT_PROP_USER_PROP])
    (msg_props lwt).

(** What a sender must have for its CONNECT to be read back: an Authentication
    Method with Authentication Data, and a Will Topic that is not empty. *)
Definition connect_readable (mc : MqttConnect) : Prop :=
  (mc_protocol_level mc = MQTT_CONNECT_PROTOCOL_LEVEL_5 -> auth_ok (mc_props mc)) /\
  (mc_enable_lwt mc <> 0 -> forall lwt, mc_lwt_msg mc = Some lwt -> will_topic lwt <> []).

Lemma singles_connect ps :
  singles MQTT_PACKET_TYPE_CONNECT ps = filter (fun t => t <> MQTT_PROP_USER_PROP) (map prop_type ps).
Proof.
  unfold singles. apply list_filter_iff. intros t. unfold repeatable.
  change (MQTT_PACKET_TYPE_CONNECT =? MQTT_PACKET_TYPE_PUBLISH) with false. rewrite andb_false_r, orb_false_r.
  apply Z.eqb_neq.
Qed.

(** Of the seven Will Properties the matrix has three in a CONNECT. *)
Lemma will_prop_types t :
  MqttWillProps_ValidateType t = true /\ prop_allowed MQTT_PACKET_TYPE_CONNECT t = true <->
  t ∈ [MQTT_PROP_WILL_DELAY_INTERVAL; MQTT_PROP_MSG_EXPIRY_INTERVAL; MQTT_PROP_USER_PROP].
Proof.
  rewrite !elem_of_cons, elem_of_nil. split.
  - intros [H Ha]. unfold MqttWillProps_ValidateType in H. rewrite !orb_true_iff, !Z.eqb_eq in H.
    repeat destruct H as [H|H]; subst t; first [by auto | by vm_compute in Ha].
  - by intros [->|[->|[->|[]]]].
Qed.

Lemma will_ok_valid level lwt :
  will_ok level lwt /\ will_topic lwt <> [] <->
  will_valid level lwt /\
  (level = MQTT_CONNECT_PROTOCOL_LEVEL_5 ->
   Forall (fun p => prop_type p ∈ [MQTT_PROP_WILL_DELAY_INTERVAL; MQTT_PROP_MSG_EXPIRY_INTERVAL; MQTT_PROP_USER_PROP])
     (msg_props lwt)).
Proof.
  unfold will_ok, will_valid, props_ok, prop_ok. rewrite singles_connect. set (ps := msg_props lwt).
  assert (Hall : Forall (fun p => MqttWillProps_ValidateType (prop_type p) = true) ps /\
      Forall (fun p => prop_allowed MQTT_PACKET_TYPE_CONNECT (prop_type p) = true /\ value_ok p) ps <->
    Forall (fun p => MqttWillProps_ValidateType (prop_type p) = true /\ value_ok p) ps /\
      Forall (fun p => prop_type p ∈ [MQTT_PROP_WILL_DELAY_INTERVAL; MQTT_PROP_MSG_EXPIRY_INTERVAL; MQTT_PROP_USER_PROP]) ps).
  { rewrite !list.Forall_forall.
    assert (Ht : forall p, MqttWillProps_ValidateType (prop_type p) = true /\ prop_allowed MQTT_PACKET_TYPE_CONNECT (prop_type p) = true <->
      prop_type p ∈ [MQTT_PROP_WILL_DELAY_INTERVAL; MQTT_PROP_MSG_EXPIRY_INTERVAL; MQTT_PROP_USER_PROP])
      by (intros p; apply will_prop_types).
    naive_solver. }
  split.
  - intros [(H1 & H2 & H3 & H4 & H5 & H6 & H7 & H8) Hne]. split; [split_and!; try done|]; intros Hl; specialize (H8 Hl); tauto.
  - intros [(H1 & H2 & H3 & H4 & Hne & H6 & H7 & H8) Hk]. split; [|done]. split_and!; try done; [by left|].
    intros Hl. specialize (H8 Hl). specialize (Hk Hl). tauto.
Qed.

(** What is accepted and can be read back is what is valid, but for the other
    four Will Properties. *)
Lemma connect_ok_valid mc :
  connect_ok mc /\ connect_readable mc <-> connect_valid mc /\ will_props_known mc.
Proof.
  unfold connect_ok, connect_valid, connect_readable, will_props_known. cbv zeta. split.
  - intros [(H1 & H2 & H3 & H4 & H5 & H6 & H7 & H8) [Ha Ht]].
    assert (Hw : mc_enable_lwt mc <> 0 -> exists lwt, mc_lwt_msg mc = Some lwt /\
      will_ok (mc_protocol_level mc) lwt /\ will_topic lwt <> []).
    { intros E. destruct (H6 E) as (lwt & El & Hok). exists lwt. split_and!; [done..|]. by apply Ht. }
    split; [split_and!; try done; [auto|]|].
    + intros E. destruct (Hw E) as (lwt & El & Hok%will_ok_valid). exists lwt. tauto.
    + intros Hl E lwt El. destruct (Hw E) as (lwt' & El' & Hok%will_ok_valid). rewrite El in El'. injection El' as <-.
      by apply Hok.
  - intros [(H1 & H2 & H3 & H4 & H5 & H6 & H7 & H8) Hk].
    assert (Hw : mc_enable_lwt mc <> 0 -> exists lwt, mc_lwt_msg mc = Some lwt /\
      will_ok (mc_protocol_level mc) lwt /\ will_topic lwt <> []).
    { intros E. destruct (H6 E) as (lwt & El & Hv). exists lwt. split; [done|]. apply will_ok_valid. auto. }
    split; [split_and!; try done|split].
    + intros Hl. by apply H3.
    + intros E. destruct (Hw E) as (lwt & El & Hok & _). by exists lwt.
    + intros Hl. by apply H3.
    + intros E lwt El. destruct (Hw E) as (lwt' & El' & _ & Hne). rewrite El in El'. by injection El' as <-.
Qed.

Lemma connect_ok_held mc :
  connect_rep mc -> is_Some (mc_client_id mc) -> connect_ok mc -> connect_readable mc -> connect_held mc.
Proof.
  intros Hr Hc (_ & Hup & Hps & Hcl & _ & Hw & Hu & Hp) [Ha Ht]. split_and!; try done.
  - intros Hl. split; [by apply Hps|by apply Ha].
  - intros He. destruct (Hw He) as (lwt & El & Hok). exists lwt. split_and!; [done..|].
    by apply (Ht He).
Qed.

(** C21: [MqttEncode_Connect] fills in the default protocol level. It accepts
    exactly the structures of [connect_ok] that fit the buffer: level 4 or 5,
    UTF-8 texts of at most 65535 bytes, a user name with a v3.1.1 password, a
    clean session with an empty v3.1.1 identifier, and a valid Will and valid
    properties; the connect flags and the size it announces agree with the
    fields it writes. When Authentication Data comes with its Method, the Will
    Topic is not empty and the receiver has a structure for a Will,
    [MqttDecode_Connect] gets every field back, flags and Will included. The
    structures that are accepted and meet the first two of these conditions are
    exactly the valid ones of [connect_valid] whose Will has no properties but
    Will Delay Interval, Message Expiry Interval and User Property: with the
    other four a Will is refused. *)
Theorem Connect_roundtrip tx_buf_len mc mc0 client_id :
  connect_rep mc -> mc_client_id mc = Some client_id ->
  let mc' := snd (MqttEncode_Connect tx_buf_len mc) in
  mc' = connect_set_level mc (connect_level mc) /\
  transmits tx_buf_len (fst (MqttEncode_Connect tx_buf_len mc)) (connect_ok mc') (connect_body mc')
    (connect_readable mc' /\ (mc_enable_lwt mc' <> 0 -> is_Some (mc_lwt_msg mc0))) (connect_cells mc')
    (fun rx_buf rx_buf_len => MqttDecode_Connect rx_buf rx_buf_len mc0) (connect_norm mc0 mc') /\
  (connect_ok mc' /\ connect_readable mc' <-> connect_valid mc' /\ will_props_known mc').
Proof.
  intros Hr Hc. unfold MqttEncode_Connect. rewrite Hc. cbn [fst snd]. split; [done|].
  set (mc' := connect_set_level mc (connect_level mc)).
  assert (Hc' : mc_client_id mc' = Some client_id) by done.
  assert (Hr' : connect_rep mc').
  { destruct Hr as (? & Hlv & Hrest). split; [done|]. split; [|exact Hrest].
    cbn. unfold connect_level. case_match; [lia|exact Hlv]. }
  split; [|apply connect_ok_valid].
  eapply transmits_intro; [reflexivity|by apply connect_encode_answers|].
  intros rx_buf rx_buf_len free Hok Hb [Hrd Hlwt0] (? & ? & ?) Hrec Hcells.
  apply MqttDecode_Connect_sits; try done. apply connect_ok_held; [done|by rewrite Hc'|done..].
Qed.

(** MQTT v5: client "c", keep alive 60, clean start, Session Expiry 10, a Will
    "bye" on topic "w" at QoS 1 with a Will Delay, user "u", password "p". *)
Definition ex_will : MqttMessage :=
  mkMessage 0 0 1 1 0 (Some [119]) 1 3 (Some [98; 121; 101]) 3 0 0 0 0
    [mkProp MQTT_PROP_WILL_DELAY_INTERVAL 0 0 5 no_str no_str no_str] 0.
Definition ex_connect : MqttConnect :=
  mkConnect 60 1 (Some [99]) 0 1 (Some ex_will) (Some [117]) (Some [112])
    [mkProp MQTT_PROP_SESSION_EXPIRY_INTERVAL 0 0 10 no_str no_str no_str] 0.
Definition ex_connect0 : MqttConnect :=
  mkConnect 0 0 None 0 0 (Some (mkMessage 0 0 0 0 0 None 0 0 None 0 0 0 0 0 [] 0)) None None [] 0.
Definition ex_connect_wire : list Z :=
  [16; 39; 0; 4; 77; 81; 84; 84; 5; 238; 0; 60; 5; 17; 0; 0; 0; 10; 0; 1; 99;
   5; 24; 0; 0; 0; 5; 0; 1; 119; 0; 3; 98; 121; 101; 0; 1; 117; 0; 1; 112].

Lemma ex_connect_rep : connect_rep ex_connect.
Proof.
  split_and!; try by_eval; [|by intros p [= <-]].
  intros _ lwt [= <-]. split_and!; try by_eval. by intros b [= <-].
Qed.

Lemma ex_connect_readable : connect_readable (connect_set_level ex_connect 5).
Proof. split; [by_eval|]. by intros _ lwt [= <-]. Qed.

Lemma Connect_roundtrip_witness :
  fst (MqttEncode_Connect 64 ex_connect) = Ok (41, ex_connect_wire) /\
  MqttDecode_Connect ex_connect_wire 41 ex_connect0 30%nat =
    (Ok (41, connect_norm ex_connect0 (connect_set_level ex_connect 5)), 28%nat).
Proof.
  split; [reflexivity|].
  refine (transmits_run _ _ _ _ _ _ _ _ 41 _ 30
    (proj1 (proj2 (Connect_roundtrip 64 ex_connect ex_connect0 [99] ex_connect_rep eq_refl))) eq_refl
    (conj ex_connect_readable (fun _ => mk_is_Some _ _ eq_refl)) _ _); by_eval.
Defined.



(** [MqttWillProps_ValidateType] and [gPropMatrix] disagree: of the seven
    Will Properties the former allows, [MqttEncode_Props] lets only three into
    a CONNECT, so a Will with a Payload Format Indicator, Content Type,
    Response Topic or Correlation Data cannot be sent. *)
Theorem Will_properties_refused tx_buf_len mc client_id lwt p :
  connect_rep mc -> mc_client_id mc = Some client_id ->
  connect_level mc = MQTT_CONNECT_PROTOCOL_LEVEL_5 ->
  mc_enable_lwt mc <> 0 -> mc_lwt_msg mc = Some lwt -> p ∈ msg_props lwt ->
  prop_type p ∈ [MQTT_PROP_PAYLOAD_FORMAT_IND; MQTT_PROP_CONTENT_TYPE; MQTT_PROP_RESP_TOPIC;
                 MQTT_PROP_CORRELATION_DATA] ->
  MqttWillProps_ValidateType (prop_type p) = true /\
  exists rc, rc < 0 /\ fst (MqttEncode_Connect tx_buf_len mc) = Err rc.
Proof.
  intros Hr Hc Hl He Hw Hp Ht. split.
  { rewrite !elem_of_cons, elem_of_nil in Ht. by destruct Ht as [->|[->|[->|[->|[]]]]]. }
  unfold MqttEncode_Connect. rewrite Hc. cbn [fst].
  destruct (connect_encode_answers tx_buf_len (connect_set_level mc (connect_level mc)) client_id)
    as [[[Hok _] _]|[_ H]]; [|done| |exact H].
  { rewrite Hl. destruct Hr as (? & _ & Hrest). split; [done|]. split; [cbn; lia|exact Hrest]. }
  exfalso. destruct Hok as (_ & _ & _ & _ & _ & Hwill & _).
  destruct (Hwill He) as (lwt' & El & Hlwt). cbn in El. rewrite Hw in El. injection El as <-.
  destruct Hlwt as (_ & _ & _ & _ & _ & _ & _ & H5). destruct (H5 Hl) as [_ (_ & Hall & _)].
  rewrite list.Forall_forall in Hall. destruct (Hall p Hp) as [Hal _].
  rewrite !elem_of_cons, elem_of_nil in Ht. destruct Ht as [Ht|[Ht|[Ht|[Ht|[]]]]]; rewrite Ht in Hal; done.
Qed.

Definition ex_will_ct : MqttMessage :=
  mkMessage 0 0 0 0 0 (Some [119]) 1 0 None 0 0 0 0 0
    [mkProp MQTT_PROP_CONTENT_TYPE 0 0 0 (mkStr 1 (Some [120])) no_str no_str] 0.
Definition ex_connect_ct : MqttConnect :=
  mkConnect 60 1 (Some [99]) 5 1 (Some ex_will_ct) None None [] 0.

Lemma ex_connect_ct_rep : connect_rep ex_connect_ct.
Proof. split_and!; try by_eval; [|done]. intros _ lwt [= <-]. split_and!; try by_eval. done. Qed.

Lemma Will_properties_refused_witness :
  MqttWillProps_ValidateType MQTT_PROP_CONTENT_TYPE = true /\
  exists rc, rc < 0 /\ fst (MqttEncode_Connect 64 ex_connect_ct) = Err rc.
Proof.
  exact (Will_properties_refused 64 ex_connect_ct [99] ex_will_ct
    (mkProp MQTT_PROP_CONTENT_TYPE 0 0 0 (mkStr 1 (Some [120])) no_str no_str)
    ex_connect_ct_rep eq_refl eq_refl ltac:(done) eq_refl ltac:(by_eval) ltac:(by_eval)).
Defined.
