(* ===== verification/PropPool.v ===== *)
(** * PropPool: the static pool of property cells ([mqtt_packet.c])

    [clientPropStack] with [MqttProps_Add] and [MqttProps_Free]. The decoders
    are modelled over the number of free cells and over lists of properties;
    here the cells, their [next] links and the search for a free cell are
    modelled as they are, and shown to implement that view. *)
From S2P Require Import Prelude PacketDefs Wire Props Frame.

(** A cell: the property and the index its [next] designates. *)
Abbreviation cell := (MqttProp * option nat)%type.

(** A cell as it is handed out. *)
Definition fresh : cell := (new_prop MQTT_PROP_TYPE_MAX, None).

Definition with_next (p : MqttProp) (next : option nat) : cell := (p, next).

Definition clientPropStack_init : list cell :=
  replicate (Z.to_nat MQTT_MAX_PROPS) (new_prop MQTT_PROP_NONE, None).

(** Without [WOLFMQTT_MULTITHREAD] there is no lock to set up. *)
Definition MqttProps_Init : Z := MQTT_CODE_SUCCESS.
Definition MqttProps_ShutDown : Z := MQTT_CODE_SUCCESS.

(** The last cell of a list: [cur] is visited after [prev]. *)
Fixpoint list_end (fuel : nat) (pool : list cell) (prev cur : option nat) : result (option nat) :=
  match fuel with
  | O => UB
  | S fuel =>
    match cur with
    | None => Ok prev
    | Some i =>
      match pool !! i with
      | Some (_, next) => list_end fuel pool (Some i) next
      | None => UB
      end
    end
  end.

(** The search for a free cell, from index [i] on. *)
Fixpoint find_free (pool : list cell) (i : nat) : option nat :=
  match pool with
  | [] => None
  | (p, _) :: pool => if prop_type p =? MQTT_PROP_NONE then Some i else find_free pool (S i)
  end.

Definition set_next (pool : list cell) (i : nat) (next : option nat) : list cell :=
  match pool !! i with Some (p, _) => <[i := with_next p next]> pool | None => pool end.

(** A list has as many cells as the pool at most, so that many rounds and one
    more reach its end. The result is the pool, the list's new head and the
    cell that was added. *)
Definition MqttProps_Add (pool : list cell) (head : option nat)
    : result (list cell * option nat * option nat) :=
  prev ← list_end (S (length pool)) pool None head;
  match find_free pool 0 with
  | Some i =>
    let pool := <[i := fresh]> pool in
    match prev with
    | None => Ok (pool, Some i, Some i)
    | Some j => Ok (set_next pool j (Some i), head, Some i)
    end
  | None => Ok (pool, head, None)
  end.

Fixpoint props_free_loop (fuel : nat) (pool : list cell) (head : option nat) : result (list cell) :=
  match fuel with
  | O => UB
  | S fuel =>
    match head with
    | None => Ok pool
    | Some i =>
      match pool !! i with
      | Some (p, next) =>
        props_free_loop fuel
          (<[i := with_next (mkProp MQTT_PROP_NONE (data_byte p) (data_short p) (data_int p)
                               (data_str p) (data_bin p) (data_str2 p)) next]> pool) next
      | None => UB
      end
    end
  end.

Definition MqttProps_Free_pool (pool : list cell) (head : option nat) : result (list cell) :=
  props_free_loop (S (length pool)) pool head.

(** ** Lists in the pool *)

(** The list at [head] has the cells [cs] and holds [ps]; its cells are in use. *)
Inductive chain (pool : list cell) : option nat -> list nat -> list MqttProp -> Prop :=
  | chain_nil : chain pool None [] []
  | chain_cons i p next cs ps :
      pool !! i = Some (p, next) -> prop_type p <> MQTT_PROP_NONE ->
      chain pool next cs ps -> chain pool (Some i) (i :: cs) (p :: ps).

Definition is_free (c : cell) : bool := prop_type (c.1) =? MQTT_PROP_NONE.
Definition free_cells (pool : list cell) : nat := length (List.filter is_free pool).

Lemma chain_det pool head cs ps cs' ps' :
  chain pool head cs ps -> chain pool head cs' ps' -> cs = cs' /\ ps = ps'.
Proof.
  intros H. revert cs' ps'. induction H as [|i p next cs ps Hi _ _ IH]; intros cs' ps' H'; inversion H'; subst; [done|].
  simplify_eq. edestruct IH as [-> ->]; [eassumption|done].
Qed.

Lemma chain_suffix pool head a i b ps :
  chain pool head (a ++ i :: b) ps -> exists qs, chain pool (Some i) (i :: b) qs.
Proof.
  revert head ps. induction a as [|j a IH]; intros head ps H; inversion H; subst; [by eexists|].
  by eapply IH.
Qed.

(** A list does not run into itself. *)
Lemma chain_NoDup pool head cs ps : chain pool head cs ps -> NoDup cs.
Proof.
  induction 1 as [|i p next cs ps Hi Ht Hc IH]; constructor; [|done].
  intros Hin. apply list_elem_of_split in Hin as (a & b & ->).
  destruct (chain_suffix _ _ _ _ _ _ Hc) as [qs Hs].
  edestruct (chain_det pool (Some i) (i :: a ++ i :: b)) as [E _]; [by econstructor|exact Hs|].
  injection E as E. apply (f_equal length) in E. rewrite length_app in E. simpl in E. lia.
Qed.

Lemma chain_used pool head cs ps i :
  chain pool head cs ps -> i ∈ cs -> exists c, pool !! i = Some c /\ is_free c = false.
Proof.
  induction 1 as [|j p next cs ps Hj Ht _ IH]; [by intros ?%elem_of_nil|].
  intros [->|Hi]%elem_of_cons; [|by apply IH]. eexists. split; [done|]. by apply Z.eqb_neq.
Qed.

Lemma chain_length pool head cs ps : chain pool head cs ps -> (length ps <= length pool)%nat /\ length cs = length ps.
Proof.
  intros H. assert (E : length cs = length ps) by (induction H; simpl; congruence).
  split; [|done]. rewrite <- E. clear E.
  assert (Hsub : cs ⊆ seq 0 (length pool)).
  { intros i Hi. destruct (chain_used _ _ _ _ _ H Hi) as (c & Hc & _).
    apply lookup_lt_Some in Hc. apply list_elem_of_In, in_seq. lia. }
  apply chain_NoDup in H. apply NoDup_submseteq in Hsub; [|done].
  apply submseteq_length in Hsub. by rewrite length_seq in Hsub.
Qed.

(** A list keeps its cells and contents when other cells change. *)
Lemma chain_frame pool pool' head cs ps :
  chain pool head cs ps -> (forall i, i ∈ cs -> pool' !! i = pool !! i) -> chain pool' head cs ps.
Proof.
  induction 1 as [|i p next cs ps Hi Ht _ IH]; intros Hf; [constructor|].
  econstructor; [rewrite Hf; [done|by left]|done|]. apply IH. intros j Hj. apply Hf. by right.
Qed.

Lemma list_end_chain fuel pool prev head cs ps :
  chain pool head cs ps -> (length cs < fuel)%nat ->
  list_end fuel pool prev head = Ok (match list.last cs with Some j => Some j | None => prev end).
Proof.
  intros H. revert fuel prev. induction H as [|i p next cs ps Hi Ht Hc IH]; intros [|fuel] prev Hl;
    try (simpl in Hl; lia); [done|].
  cbn [list_end]. rewrite Hi. simpl in Hl. rewrite IH by lia. destruct cs as [|j cs]; [done|].
  change (list.last (i :: j :: cs)) with (list.last (j :: cs)).
  destruct (list.last (j :: cs)) eqn:E; [done|]. by apply last_None in E.
Qed.

Lemma find_free_spec pool i0 :
  match find_free pool i0 with
  | Some i => exists k c, i = (i0 + k)%nat /\ pool !! k = Some c /\ is_free c = true
  | None => free_cells pool = 0%nat
  end.
Proof.
  revert i0. induction pool as [|[p next] pool IH]; intros i0; [done|]. cbn [find_free].
  unfold free_cells. cbn [List.filter]. change (is_free (p, next)) with (prop_type p =? MQTT_PROP_NONE).
  destruct (prop_type p =? MQTT_PROP_NONE) eqn:E.
  - exists 0%nat, (p, next). split_and!; [lia|done|done].
  - specialize (IH (S i0)). destruct (find_free pool (S i0)) as [i|]; [|done].
    destruct IH as (k & c & -> & Hk & Hc). exists (S k), c. split_and!; [lia|done|done].
Qed.

Lemma free_cells_insert pool i c c' :
  pool !! i = Some c ->
  (free_cells (<[i := c']> pool) + (if is_free c then 1 else 0) =
   free_cells pool + (if is_free c' then 1 else 0))%nat.
Proof.
  revert i. induction pool as [|d pool IH]; intros [|i] H; try done; unfold free_cells in *.
  - injection H as ->. cbn [insert list_insert List.filter]. destruct (is_free c), (is_free c'); simpl; lia.
  - change (<[S i := c']> (d :: pool)) with (d :: <[i := c']> pool). cbn [List.filter].
    specialize (IH i H). destruct (is_free d); cbn [length]; lia.
Qed.

(** Putting a fresh cell at the end of a list. *)
Lemma chain_snoc pool head cs ps i :
  chain pool head cs ps -> i ∉ cs ->
  let pool1 := <[i := fresh]> pool in
  (i < length pool)%nat ->
  match list.last cs with
  | None => chain pool1 (Some i) (cs ++ [i]) (ps ++ [new_prop MQTT_PROP_TYPE_MAX])
  | Some j => chain (set_next pool1 j (Some i)) head (cs ++ [i]) (ps ++ [new_prop MQTT_PROP_TYPE_MAX])
  end.
Proof.
  intros H Hi pool1 Hl. assert (Hnew : pool1 !! i = Some fresh)
    by by apply list_lookup_insert_eq.
  assert (Hone : chain pool1 (Some i) [i] [new_prop MQTT_PROP_TYPE_MAX])
    by (econstructor; [done|done|constructor]).
  pose proof (chain_NoDup _ _ _ _ H) as Hnd.
  induction H as [|k p next cs ps Hk Ht Hc IH]; [done|].
  rewrite list.NoDup_cons in Hnd. destruct Hnd as [Hkc Hnd].
  rewrite not_elem_of_cons in Hi. destruct Hi as [Hik Hi]. specialize (IH Hi Hnd).
  assert (Hk1 : pool1 !! k = Some (p, next)) by by unfold pool1; rewrite list_lookup_insert_ne.
  destruct cs as [|k2 cs].
  - inversion Hc; subst. cbn. unfold set_next. rewrite Hk1. econstructor.
    + apply list_lookup_insert_eq. by eapply lookup_lt_Some.
    + done.
    + eapply chain_frame; [exact Hone|]. intros m ->%list_elem_of_singleton. by apply list_lookup_insert_ne.
  - change (list.last (k :: k2 :: cs)) with (list.last (k2 :: cs)).
    destruct (list.last (k2 :: cs)) as [j|] eqn:Ej; [|by apply last_None in Ej].
    econstructor; [|done|exact IH]. unfold set_next.
    assert (Hkj : k <> j) by (intros ->; apply Hkc; by apply last_Some_elem_of).
    destruct (pool1 !! j) as [[q ?]|]; [by rewrite list_lookup_insert_ne|done].
Qed.

Lemma set_next_lookup pool j next i : i <> j -> set_next pool j next !! i = pool !! i.
Proof. intros. unfold set_next. case_match; [|done]. case_match. by rewrite list_lookup_insert_ne. Qed.

Lemma set_next_free pool j next : free_cells (set_next pool j next) = free_cells pool.
Proof.
  unfold set_next. destruct (pool !! j) as [[p n]|] eqn:E; [|done].
  pose proof (free_cells_insert pool j (p, n) (with_next p next) E) as H.
  change (is_free (with_next p next)) with (is_free (p, n)) in H. destruct (is_free (p, n)); lia.
Qed.

Lemma MqttProps_Add_spec pool head cs ps :
  chain pool head cs ps ->
  match free_cells pool with
  | O => MqttProps_Add pool head = Ok (pool, head, None)
  | S free =>
    exists pool' head' i, MqttProps_Add pool head = Ok (pool', head', Some i) /\
      free_cells pool' = free /\ length pool' = length pool /\
      (exists c, pool !! i = Some c /\ is_free c = true) /\
      chain pool' head' (cs ++ [i]) (ps ++ [new_prop MQTT_PROP_TYPE_MAX]) /\
      (forall j, j <> i -> j ∉ cs -> pool' !! j = pool !! j)
  end.
Proof.
  intros H. pose proof (chain_length _ _ _ _ H) as [Hlen Hcs]. unfold MqttProps_Add.
  rewrite (list_end_chain _ _ _ _ _ _ H) by lia. cbn [mbind result_bind].
  pose proof (find_free_spec pool 0) as Hf. destruct (find_free pool 0) as [i|]; [|rewrite Hf].
  2:{ reflexivity. }
  destruct Hf as (k & c & -> & Hk & Hc). cbn [Nat.add].
  assert (Hi : k ∉ cs).
  { intros Hin. destruct (chain_used _ _ _ _ _ H Hin) as (c' & Hc' & Hu). congruence. }
  pose proof (free_cells_insert pool k c fresh Hk) as Hfree.
  rewrite Hc in Hfree. cbn in Hfree. destruct (free_cells pool) as [|free]; [lia|].
  pose proof (lookup_lt_Some _ _ _ Hk) as Hlt.
  pose proof (chain_snoc pool head cs ps k H Hi Hlt) as Hch. cbv zeta in Hch.
  set (pool1 := <[k := fresh]> pool) in *.
  assert (Hp1 : length pool1 = length pool) by apply length_insert.
  destruct (list.last cs) as [j|] eqn:Ej.
  - exists (set_next pool1 j (Some k)), head, k. split_and!; try done.
    + rewrite set_next_free. lia.
    + unfold set_next. destruct (pool1 !! j) as [[? ?]|]; [by rewrite length_insert|done].
    + by exists c.
    + intros m Hm Hmc. rewrite set_next_lookup; [by apply list_lookup_insert_ne|].
      intros ->. apply Hmc. by apply last_Some_elem_of.
  - exists pool1, (Some k), k. split_and!; try done; [lia|by exists c|].
    intros m Hm _. by apply list_lookup_insert_ne.
Qed.

Lemma MqttProps_Free_spec fuel pool head cs ps :
  chain pool head cs ps -> (length cs < fuel)%nat ->
  exists pool', props_free_loop fuel pool head = Ok pool' /\
    free_cells pool' = (free_cells pool + length ps)%nat /\ length pool' = length pool /\
    (forall j, j ∉ cs -> pool' !! j = pool !! j).
Proof.
  intros H. pose proof (chain_NoDup _ _ _ _ H) as Hnd. revert fuel pool head ps H Hnd.
  induction cs as [|i cs IH]; intros [|fuel] pool head ps H Hnd Hl; try (simpl in Hl; lia).
  { inversion H; subst. exists pool. split_and!; [done|simpl; lia|done|done]. }
  inversion H as [|? p next ? ps' Hi Ht Hc]; subst. rewrite list.NoDup_cons in Hnd. destruct Hnd as [Hic Hnd].
  cbn [props_free_loop]. rewrite Hi.
  set (c' := with_next (mkProp _ _ _ _ _ _ _) next).
  pose proof (free_cells_insert pool i (p, next) c' Hi) as Hfree.
  change (is_free c') with true in Hfree. change (is_free (p, next)) with (prop_type p =? 0) in Hfree.
  rewrite (proj2 (Z.eqb_neq _ _) Ht) in Hfree.
  edestruct (IH fuel (<[i := c']> pool) next ps') as (pool' & -> & Hf & Hlen & Hout).
  - eapply chain_frame; [exact Hc|]. intros j Hj. apply list_lookup_insert_ne. by intros ->.
  - done.
  - simpl in Hl. lia.
  - exists pool'. split_and!; [done|simpl; lia|by rewrite Hlen, length_insert|].
    intros j [Hji Hj]%not_elem_of_cons. rewrite Hout by done. by apply list_lookup_insert_ne.
Qed.

(** ** The pool and the lists of its clients

    Several lists live in the pool at once; an operation on one of them must
    leave the others alone. [heads] are the clients' list heads. *)

(** The client fills in the cell it was given. *)
Definition set_prop (pool : list cell) (i : nat) (p : MqttProp) : list cell :=
  match pool !! i with Some (_, next) => <[i := with_next p next]> pool | None => pool end.

Inductive pool_op : Type :=
  | op_new                               (** a new, empty list *)
  | op_add (h : nat) (p : MqttProp)      (** [MqttProps_Add], then store [p] *)
  | op_free (h : nat).                   (** [MqttProps_Free], then forget it *)

(** An operation on the cells; the flag says whether a cell was available. *)
Definition pool_run (op : pool_op) (pool : list cell) (heads : list (option nat))
    : result (list cell * list (option nat) * bool) :=
  match op with
  | op_new => Ok (pool, heads ++ [None], true)
  | op_add h p =>
    match heads !! h with
    | None => UB
    | Some head =>
      '(pool, head, new_prop) ← MqttProps_Add pool head;
      match new_prop with
      | Some i => Ok (set_prop pool i p, <[h := head]> heads, true)
      | None => Ok (pool, heads, false)
      end
    end
  | op_free h =>
    match heads !! h with
    | None => UB
    | Some head => pool ← MqttProps_Free_pool pool head; Ok (pool, <[h := None]> heads, true)
    end
  end.

(** The same on a number of free cells and on the lists themselves: the view
    the decoders are modelled with. *)
Definition count_run (op : pool_op) (free : nat) (lists : list (list MqttProp))
    : option (nat * list (list MqttProp) * bool) :=
  match op with
  | op_new => Some (free, lists ++ [[]], true)
  | op_add h p =>
    ps ← lists !! h;
    match free with
    | O => Some (free, lists, false)
    | S free => Some (free, <[h := ps ++ [p]]> lists, true)
    end
  | op_free h => ps ← lists !! h; Some ((free + length ps)%nat, <[h := []]> lists, true)
  end.

(** The cells hold the lists, each in cells of its own. *)
Definition pool_holds (pool : list cell) (heads : list (option nat)) (free : nat)
    (lists : list (list MqttProp)) : Prop :=
  free_cells pool = free /\
  exists css, length css = length heads /\ length lists = length heads /\
    (forall h head cs ps, heads !! h = Some head -> css !! h = Some cs -> lists !! h = Some ps ->
     chain pool head cs ps) /\
    (forall h1 h2 c1 c2 i, h1 <> h2 -> css !! h1 = Some c1 -> css !! h2 = Some c2 -> i ∈ c1 -> i ∉ c2).

Lemma set_prop_chain pool head cs i ps q p :
  chain pool head (cs ++ [i]) (ps ++ [q]) -> i ∉ cs -> prop_type p <> MQTT_PROP_NONE ->
  chain (set_prop pool i p) head (cs ++ [i]) (ps ++ [p]).
Proof.
  revert head ps. induction cs as [|k cs IH]; intros head ps H Hi Hp.
  - inversion H as [|? q' next ? qs Hl Ht Hc E1 E2 E3]; subst. inversion Hc; subst.
    destruct ps as [|? [|? ?]]; try done. unfold set_prop. rewrite Hl.
    econstructor; [by apply list_lookup_insert_eq, (lookup_lt_Some _ _ _ Hl)|done|constructor].
  - inversion H as [|? q' next ? qs Hl Ht Hc E1 E2 E3]; subst.
    apply not_elem_of_cons in Hi as [Hik Hi].
    destruct ps as [|p0 ps].
    { inversion E3; subst. inversion Hc; subst. by destruct cs. }
    cbn in E3. simplify_eq. econstructor; [|done|by apply IH].
    unfold set_prop. destruct (pool !! i) as [[? ?]|]; [by rewrite list_lookup_insert_ne|done].
Qed.

Lemma set_prop_lookup pool i p j : j <> i -> set_prop pool i p !! j = pool !! j.
Proof. intros. unfold set_prop. case_match; [|done]. case_match. by rewrite list_lookup_insert_ne. Qed.

Lemma set_prop_free pool i p c :
  pool !! i = Some c -> is_free c = false -> prop_type p <> MQTT_PROP_NONE ->
  free_cells (set_prop pool i p) = free_cells pool.
Proof.
  intros Hi Hc Hp. unfold set_prop. rewrite Hi. destruct c as [q next].
  pose proof (free_cells_insert pool i (q, next) (with_next p next) Hi) as H.
  rewrite Hc in H. change (is_free (with_next p next)) with (prop_type p =? 0) in H.
  rewrite (proj2 (Z.eqb_neq _ _) Hp) in H. lia.
Qed.

(** Changing the list of one client keeps the others. *)
Lemma holds_update pool pool' heads lists css h head' cs cs' ps' :
  length css = length heads -> length lists = length heads -> css !! h = Some cs ->
  (forall h head cs ps, heads !! h = Some head -> css !! h = Some cs -> lists !! h = Some ps ->
   chain pool head cs ps) ->
  (forall h1 h2 c1 c2 i, h1 <> h2 -> css !! h1 = Some c1 -> css !! h2 = Some c2 -> i ∈ c1 -> i ∉ c2) ->
  chain pool' head' cs' ps' ->
  (forall i, i ∈ cs' -> i ∈ cs \/ (exists c, pool !! i = Some c /\ is_free c = true)) ->
  (forall i, i ∉ cs -> i ∉ cs' -> pool' !! i = pool !! i) ->
  pool_holds pool' (<[h := head']> heads) (free_cells pool') (<[h := ps']> lists).
Proof.
  intros Hl1 Hl2 Hcs Hch Hdis Hnew Hfresh Hsame. split; [done|].
  pose proof (lookup_lt_Some _ _ _ Hcs) as Hlt. exists (<[h := cs']> css). rewrite !length_insert.
  assert (Hother : forall k c i, k <> h -> css !! k = Some c -> i ∈ c -> (i ∉ cs) /\ (i ∉ cs')).
  { intros k c i Hk Hc Hi. assert (Hn : i ∉ cs) by (by eapply (Hdis k h)). split; [done|].
    intros Hi'. destruct (Hfresh i Hi') as [|(d & Hd & Hf)]; [done|].
    destruct (lookup_lt_is_Some_2 heads k) as [hd Hhd]; [apply lookup_lt_Some in Hc; lia|].
    destruct (lookup_lt_is_Some_2 lists k) as [ps Hps]; [apply lookup_lt_Some in Hc; lia|].
    destruct (chain_used _ _ _ _ i (Hch k hd c ps Hhd Hc Hps) Hi) as (d' & Hd' & Hf'). congruence. }
  split_and!; [done|done| |].
  - intros k head c ps Hk Hc Hps. destruct (decide (k = h)) as [->|Hne].
    + rewrite list_lookup_insert_eq in Hk by lia. rewrite list_lookup_insert_eq in Hc by lia.
      rewrite list_lookup_insert_eq in Hps by lia. by simplify_eq.
    + rewrite list_lookup_insert_ne in Hk by done. rewrite list_lookup_insert_ne in Hc by done.
      rewrite list_lookup_insert_ne in Hps by done.
      eapply chain_frame; [by eapply Hch|]. intros i Hi.
      destruct (Hother k c i Hne Hc Hi) as [? ?]. by apply Hsame.
  - intros h1 h2 c1 c2 i Hne H1 H2 Hi. destruct (decide (h1 = h)) as [->|Hn1].
    + rewrite list_lookup_insert_eq in H1 by lia. rewrite list_lookup_insert_ne in H2 by done. simplify_eq.
      intros Hi2. by destruct (Hother h2 c2 i (not_eq_sym Hne) H2 Hi2).
    + rewrite list_lookup_insert_ne in H1 by done. destruct (decide (h2 = h)) as [->|Hn2].
      * rewrite list_lookup_insert_eq in H2 by lia. simplify_eq. by destruct (Hother h1 c1 i Hn1 H1 Hi).
      * rewrite list_lookup_insert_ne in H2 by done. by eapply (Hdis h1 h2).
Qed.

Lemma holds_lists pool heads free lists h ps :
  pool_holds pool heads free lists -> lists !! h = Some ps ->
  exists head, heads !! h = Some head.
Proof.
  intros (_ & css & _ & Hl & _) Hps. apply lookup_lt_is_Some_2. apply lookup_lt_Some in Hps. lia.
Qed.

(** The operations of a client, one by one. *)
Lemma pool_new_step pool heads free lists :
  pool_holds pool heads free lists -> pool_holds pool (heads ++ [None]) free (lists ++ [[]]).
Proof.
  intros (Hfree & css & Hl1 & Hl2 & Hch & Hdis).
  split; [done|].
  exists (css ++ [[]]). rewrite !length_app. split_and!; [simpl; lia|simpl; lia| |].
  + intros k head cs ps Hk Hc Hps. destruct (decide (k < length heads)%nat).
    * rewrite lookup_app_l in Hk by lia. rewrite lookup_app_l in Hc by lia.
      rewrite lookup_app_l in Hps by lia. by eapply Hch.
    * rewrite lookup_app_r in Hk by lia. rewrite lookup_app_r in Hc by lia.
      rewrite lookup_app_r in Hps by lia. rewrite Hl1 in Hc. rewrite Hl2 in Hps.
      destruct (k - length heads)%nat; [|done]. simplify_eq/=. constructor.
  + intros h1 h2 c1 c2 i Hne H1 H2 Hi. apply lookup_app_Some in H1 as [H1|[_ H1]]; last first.
    { destruct (h1 - length css)%nat; [|done]. simplify_eq/=. by apply elem_of_nil in Hi. }
    apply lookup_app_Some in H2 as [H2|[_ H2]]; [by eapply (Hdis h1 h2)|].
    destruct (h2 - length css)%nat; [|done]. simplify_eq/=. apply not_elem_of_nil.
Qed.

Lemma pool_add_step pool heads free lists free' lists' b h p :
  pool_holds pool heads free lists ->
  count_run (op_add h p) free lists = Some (free', lists', b) -> prop_type p <> MQTT_PROP_NONE ->
  exists pool' heads', pool_run (op_add h p) pool heads = Ok (pool', heads', b) /\
    pool_holds pool' heads' free' lists'.
Proof.
  intros Hh Hrun Hp. pose proof Hh as (Hfree & css & Hl1 & Hl2 & Hch & Hdis).
  cbn [count_run pool_run] in *.
  destruct (lists !! h) as [ps|] eqn:Eps; [|done]. cbn in Hrun.
  destruct (holds_lists _ _ _ _ _ _ Hh Eps) as [head Ehead]. rewrite Ehead.
  destruct (lookup_lt_is_Some_2 css h) as [cs Ecs]; [apply lookup_lt_Some in Eps; lia|].
  pose proof (MqttProps_Add_spec pool head cs ps (Hch _ _ _ _ Ehead Ecs Eps)) as Hadd.
  rewrite Hfree in Hadd. destruct free as [|free]; simplify_eq.
  + rewrite Hadd. by exists pool, heads.
  + destruct Hadd as (pool1 & head1 & i & -> & Hf1 & Hlen & (c & Hc & Hcf) & Hch1 & Hsame).
    cbn [mbind result_bind]. eexists _, _. split; [reflexivity|].
    assert (Hi : i ∉ cs).
    { intros Hin. destruct (chain_used _ _ _ _ i (Hch _ _ _ _ Ehead Ecs Eps) Hin) as (? & ? & ?). congruence. }
    destruct (chain_used _ _ _ _ i Hch1) as (c1 & Hc1 & Hu1); [apply elem_of_app; right; by left|].
    rewrite <- Hf1, <- (set_prop_free pool1 i p c1 Hc1 Hu1 Hp).
    eapply (holds_update pool); try done; [by apply set_prop_chain with (q := new_prop MQTT_PROP_TYPE_MAX)| |].
    * intros j [Hj|Hj%list_elem_of_singleton]%elem_of_app; [by left|]. subst j. right. by exists c.
    * intros j Hj1 Hj2. rewrite not_elem_of_app in Hj2. destruct Hj2 as [_ Hj2].
      rewrite set_prop_lookup; [|intros ->; apply Hj2; by left]. apply Hsame; [|done].
      intros ->. apply Hj2. by left.
Qed.

Lemma pool_free_step pool heads free lists free' lists' b h :
  pool_holds pool heads free lists ->
  count_run (op_free h) free lists = Some (free', lists', b) ->
  exists pool' heads', pool_run (op_free h) pool heads = Ok (pool', heads', b) /\
    pool_holds pool' heads' free' lists'.
Proof.
  intros Hh Hrun. pose proof Hh as (Hfree & css & Hl1 & Hl2 & Hch & Hdis).
  cbn [count_run pool_run] in *.
  destruct (lists !! h) as [ps|] eqn:Eps; [|done]. cbn in Hrun. simplify_eq.
  destruct (holds_lists _ _ _ _ _ _ Hh Eps) as [head Ehead]. rewrite Ehead.
  destruct (lookup_lt_is_Some_2 css h) as [cs Ecs]; [apply lookup_lt_Some in Eps; lia|].
  pose proof (Hch _ _ _ _ Ehead Ecs Eps) as Hc. destruct (chain_length _ _ _ _ Hc) as [Hlen Hcl].
  destruct (MqttProps_Free_spec (S (length pool)) pool head cs ps Hc) as (pool' & Er & Hf & Hl & Hsame); [lia|].
  unfold MqttProps_Free_pool. rewrite Er. cbn [mbind result_bind]. eexists _, _. split; [reflexivity|].
  rewrite <- Hf. apply (holds_update pool pool' heads lists css h None cs [] []); try done; [constructor| |].
  + intros i Hi. by apply elem_of_nil in Hi.
  + intros i Hi _. by apply Hsame.
Qed.

(** A client fills its cells in with real property types. *)
Definition op_ok (op : pool_op) : Prop :=
  match op with op_add _ p => prop_type p <> MQTT_PROP_NONE | _ => True end.

Lemma pool_run_step op pool heads free lists free' lists' b :
  pool_holds pool heads free lists -> count_run op free lists = Some (free', lists', b) -> op_ok op ->
  exists pool' heads', pool_run op pool heads = Ok (pool', heads', b) /\
    pool_holds pool' heads' free' lists'.
Proof.
  intros Hh Hrun Hok. destruct op as [|h p|h].
  - injection Hrun as <- <- <-. exists pool, (heads ++ [None]). split; [done|]. by apply pool_new_step.
  - by eapply pool_add_step.
  - by eapply pool_free_step.
Qed.

(** A run of operations on the cells, and on the lists. *)
Fixpoint pool_runs (ops : list pool_op) (pool : list cell) (heads : list (option nat))
    : result (list cell * list (option nat) * list bool) :=
  match ops with
  | [] => Ok (pool, heads, [])
  | op :: ops =>
    '(pool, heads, b) ← pool_run op pool heads;
    '(pool, heads, bs) ← pool_runs ops pool heads;
    Ok (pool, heads, b :: bs)
  end.

Fixpoint count_runs (ops : list pool_op) (free : nat) (lists : list (list MqttProp))
    : option (nat * list (list MqttProp) * list bool) :=
  match ops with
  | [] => Some (free, lists, [])
  | op :: ops =>
    '(free, lists, b) ← count_run op free lists;
    '(free, lists, bs) ← count_runs ops free lists;
    Some (free, lists, b :: bs)
  end.

Lemma pool_runs_steps ops pool heads free lists free' lists' bs :
  pool_holds pool heads free lists -> count_runs ops free lists = Some (free', lists', bs) ->
  Forall op_ok ops ->
  exists pool' heads', pool_runs ops pool heads = Ok (pool', heads', bs) /\
    pool_holds pool' heads' free' lists'.
Proof.
  revert pool heads free lists bs. induction ops as [|op ops IH]; intros pool heads free lists bs Hh Hrun Hok.
  { cbn in Hrun. simplify_eq. by exists pool, heads. }
  apply list.Forall_cons in Hok as [Hop Hok]. cbn [count_runs] in Hrun.
  destruct (count_run op free lists) as [[[free1 lists1] b]|] eqn:E1; [|done]. cbn in Hrun.
  destruct (count_runs ops free1 lists1) as [[[free2 lists2] bs']|] eqn:E2; [|done]. cbn in Hrun. simplify_eq.
  destruct (pool_run_step op pool heads free lists free1 lists1 b Hh E1 Hop) as (pool1 & heads1 & Er1 & Hh1).
  destruct (IH pool1 heads1 free1 lists1 bs' Hh1 E2 Hok) as (pool2 & heads2 & Er2 & Hh2).
  exists pool2, heads2. cbn [pool_runs]. rewrite Er1. cbn [mbind result_bind]. by rewrite Er2.
Qed.

Lemma pool_holds_init : pool_holds clientPropStack_init [] (Z.to_nat MQTT_MAX_PROPS) [].
Proof.
  split; [done|]. exists []. split_and!; done.
Qed.

(** ** Properties *)

(** C27: the pool of [MQTT_MAX_PROPS] cells implements lists of properties: any
    sequence of creating, extending and freeing lists, by any number of clients
    at once, ends, succeeds or fails for want of a cell exactly as counting the
    free cells says, never lets two lists share a cell, and leaves in the cells
    exactly the lists and the number of free cells of the abstract run. *)
Theorem PropPool_refines ops free lists bs :
  count_runs ops (Z.to_nat MQTT_MAX_PROPS) [] = Some (free, lists, bs) -> Forall op_ok ops ->
  exists pool heads, pool_runs ops clientPropStack_init [] = Ok (pool, heads, bs) /\
    pool_holds pool heads free lists.
Proof. apply pool_runs_steps, pool_holds_init. Qed.

(** Two lists, one of which is freed and extended again. *)
Lemma PropPool_refines_witness :
  let p := new_prop MQTT_PROP_USER_PROP in
  let q := new_prop MQTT_PROP_REASON_STR in
  exists pool heads,
    pool_runs [op_new; op_new; op_add 0 p; op_add 1 q; op_free 0; op_add 1 p; op_add 0 q]
      clientPropStack_init [] = Ok (pool, heads, [true; true; true; true; true; true; true]) /\
    pool_holds pool heads 27 [[q]; [q; p]].
Proof. intros p q. apply PropPool_refines; [reflexivity|]. repeat constructor; done. Defined.
