(* ===== verification/PacketIO.v ===== *)
(** * PacketIO: reading and writing packets ([mqtt_packet.c], [mqtt_socket.c])

    [MqttSocket_Read] and [MqttSocket_Write] in the non-blocking build and
    without TLS, and the re-entrant [MqttPacket_Read] and [MqttPacket_Write].
    The network callbacks belong to the application: the classes [Reader] and
    [Transport] hold them and state what the callers rely on. *)
From S2P Require Import Prelude PacketDefs Wire FixedHeader.

(** ** The network *)

(** [net_read net n] is the read callback asked for [n] bytes: its return code
    and the bytes it stored. *)
Class Reader (Net : Type) := {
  net_read : Net -> Z -> Z * list Z * Net
}.

(** A network that is a stream: [net_stream] are the bytes the peer has sent
    and [net_patience] bounds how often it has nothing to deliver. *)
Class Transport (Net : Type) := {
  #[global] transport_reader :: Reader Net;
  net_stream : Net -> list Z;
  net_patience : Net -> nat;
  net_read_law net n :
    0 < n -> net_stream net <> [] ->
    let '(rc, bs, net') := net_read net n in
    net_stream net = bs ++ net_stream net' /\ (net_patience net' <= net_patience net)%nat /\
    ((rc <= 0 /\ bs = [] /\ (net_patience net' < net_patience net)%nat) \/
     (rc = len bs /\ 0 < rc <= n))
}.

(** ** The client's state *)

Inductive MqttPkStat : Set := MQTT_PK_BEGIN | MQTT_PK_READ_HEAD | MQTT_PK_READ.

#[export] Instance MqttPkStat_eq_dec : EqDecision MqttPkStat.
Proof. solve_decision. Defined.

(** [client->packet], [client->read] and the receive buffer. *)
Record NetIO : Set := mkIO {
  pk_stat : MqttPkStat;
  pk_header_len : Z;
  pk_remain_len : Z;
  rd_pos : Z;
  rd_total : Z;
  io_rx : list Z
}.

Definition set_stat (st : NetIO) (stat : MqttPkStat) : NetIO :=
  mkIO stat (pk_header_len st) (pk_remain_len st) (rd_pos st) (rd_total st) (io_rx st).
Definition set_lens (st : NetIO) (header_len remain_len : Z) : NetIO :=
  mkIO (pk_stat st) header_len remain_len (rd_pos st) (rd_total st) (io_rx st).
Definition set_read (st : NetIO) (pos total : Z) (rx : list Z) : NetIO :=
  mkIO (pk_stat st) (pk_header_len st) (pk_remain_len st) pos total rx.

(** The callback stores [bs] at [i]. *)
Definition put (rx : list Z) (i : Z) (bs : list Z) : result (list Z) :=
  if (0 <=? i) && (i + len bs <=? len rx)
  then Ok (take (Z.to_nat i) rx ++ bs ++ drop (Z.to_nat (i + len bs)) rx) else UB.

Definition MqttPacket_HandleNetError (rc : Z) : Z := rc.

Section Read.
Context {Net : Type} `{!Reader Net}.

(** A return code with the state and the network it leaves behind. *)
Local Abbreviation outcome := (result (Z * NetIO * Net)).

(** [MqttSocket_Read(client, &rx_buf[off], buf_len, ..)]. *)
Definition MqttSocket_Read (st : NetIO) (net : Net) (off buf_len : Z) : outcome :=
  if buf_len <=? 0 then Ok (MQTT_CODE_ERROR_BAD_ARG, st, net)
  else if buf_len <=? rd_pos st then Ok (MQTT_CODE_ERROR_OUT_OF_BUFFER, st, net)
  else
    let '(rc, bs, net) := net_read net (buf_len - rd_pos st) in
    rx ← put (io_rx st) (off + rd_pos st) bs;
    if rc <? 0 then Ok (rc, set_read st (rd_pos st) (rd_total st) rx, net)
    else
      let rc := if buf_len - rd_pos st <? rc then buf_len - rd_pos st else rc in
      let pos := rd_pos st + rc in
      let total := rd_total st + rc in
      let rc := if pos <? buf_len then MQTT_CODE_CONTINUE else rc in
      if 0 <? rc then
        Ok (if buf_len <? pos then buf_len else pos, set_read st 0 total rx, net)
      else Ok (rc, set_read st pos total rx, net).

(** The loop over the Remaining Length bytes: [inl] is an early return. *)
Fixpoint read_len_loop (fuel : nat) (rx_buf_len i : Z) (st : NetIO) (net : Net)
    : result (Z * NetIO * Net + Z * NetIO * Net) :=
  match fuel with
  | O => UB
  | S fuel =>
    if i <? MQTT_PACKET_MAX_LEN_BYTES then
      b ← rd (io_rx st) (1 + i);
      if Z.land b MQTT_PACKET_LEN_ENCODE_MASK =? 0 then Ok (inr (i, st, net))
      else if i =? MQTT_PACKET_MAX_LEN_BYTES - 1 then
        Ok (inl (MqttPacket_HandleNetError MQTT_CODE_ERROR_MALFORMED_DATA, st, net))
      else if rx_buf_len <=? pk_header_len st then
        Ok (inl (MQTT_CODE_ERROR_OUT_OF_BUFFER, st, net))
      else
        '(rc, st, net) ← MqttSocket_Read st net (pk_header_len st) 1;
        if rc <? 0 then Ok (inl (MqttPacket_HandleNetError rc, st, net))
        else if negb (rc =? 1) then
          Ok (inl (MqttPacket_HandleNetError MQTT_CODE_ERROR_NETWORK, st, net))
        else
          read_len_loop fuel rx_buf_len (i + 1)
            (set_lens st (pk_header_len st + 1) (pk_remain_len st)) net
    else Ok (inr (i, st, net))
  end.

(** [case MQTT_PK_READ] and the end of the function. *)
Definition packet_read_rest (rx_buf_len : Z) (st : NetIO) (net : Net) : outcome :=
  let remain_read := pk_remain_len st in
  let st := set_stat st MQTT_PK_READ in
  if rx_buf_len <? pk_header_len st then Ok (MQTT_CODE_ERROR_OUT_OF_BUFFER, st, net)
  else
    let remain_read := if rx_buf_len - pk_header_len st <? remain_read
                       then rx_buf_len - pk_header_len st else remain_read in
    '(rc, st, net) ←
       (if 0 <? pk_remain_len st
        then MqttSocket_Read st net (pk_header_len st) remain_read
        else Ok (0, st, net));
    if 0 <? pk_remain_len st then
      if rc <=? 0 then Ok (MqttPacket_HandleNetError rc, st, net)
      else if remain_read <? rc then
        Ok (MqttPacket_HandleNetError MQTT_CODE_ERROR_NETWORK, st, net)
      else
        let n := pk_header_len st + rc in
        Ok (if rx_buf_len <? n then rx_buf_len else n, set_stat st MQTT_PK_BEGIN, net)
    else
      let n := pk_header_len st + remain_read in
      Ok (if rx_buf_len <? n then rx_buf_len else n, set_stat st MQTT_PK_BEGIN, net).

(** [case MQTT_PK_READ_HEAD]. *)
Definition packet_read_head (rx_buf_len : Z) (st : NetIO) (net : Net) : outcome :=
  let st := set_stat st MQTT_PK_READ_HEAD in
  r ← read_len_loop (S (Z.to_nat MQTT_PACKET_MAX_LEN_BYTES)) rx_buf_len
        (pk_header_len st - MQTT_PACKET_HEADER_MIN_SIZE) st net;
  match r with
  | inl out => Ok out
  | inr (i, st, net) =>
    if rx_buf_len <? pk_header_len st - (i + 1) then Ok (MQTT_CODE_ERROR_OUT_OF_BUFFER, st, net)
    else
      match MqttDecode_Vbi (io_rx st) 1 (u32 (rx_buf_len - (pk_header_len st - (i + 1)))) with
      | UB => UB
      | Err rc => Ok (MqttPacket_HandleNetError rc, st, net)
      | Ok (remain_len, rc) =>
        if MQTT_PACKET_MAX_REMAIN_LEN <? remain_len
        then Ok (MqttPacket_HandleNetError MQTT_CODE_ERROR_MALFORMED_DATA, st, net)
        else packet_read_rest rx_buf_len (set_lens st (rc + 1) remain_len) net
      end
  end.

Definition MqttPacket_Read (rx_buf_len : Z) (st : NetIO) (net : Net) : outcome :=
  if rx_buf_len <? MQTT_PACKET_MAX_LEN_BYTES + 1 then Ok (MQTT_CODE_ERROR_OUT_OF_BUFFER, st, net)
  else
    match pk_stat st with
    | MQTT_PK_BEGIN =>
      let st := set_lens st MQTT_PACKET_HEADER_MIN_SIZE 0 in
      '(rc, st, net) ← MqttSocket_Read st net 0 (pk_header_len st);
      if rc <? 0 then Ok (MqttPacket_HandleNetError rc, st, net)
      else if negb (rc =? pk_header_len st)
      then Ok (MqttPacket_HandleNetError MQTT_CODE_ERROR_NETWORK, st, net)
      else packet_read_head rx_buf_len st net
    | MQTT_PK_READ_HEAD => packet_read_head rx_buf_len st net
    | MQTT_PK_READ => packet_read_rest rx_buf_len st net
    end.

(** A client that calls it again as long as it returns an error: the number
  of calls is the fuel. *)
Fixpoint read_packet (calls : nat) (rx_buf_len : Z) (st : NetIO) (net : Net) : outcome :=
  match calls with
  | O => UB
  | S calls =>
    '(rc, st, net) ← MqttPacket_Read rx_buf_len st net;
    if rc <? 0 then read_packet calls rx_buf_len st net else Ok (rc, st, net)
  end.
End Read.

(** ** Buffers *)

Lemma put_prefix (rx w : list Z) k bs :
  0 <= k -> take (Z.to_nat k) rx = take (Z.to_nat k) w -> bs `prefix_of` drop (Z.to_nat k) w ->
  k <= len w -> k + len bs <= len rx ->
  exists rx', put rx k bs = Ok rx' /\ len rx' = len rx /\
    take (Z.to_nat (k + len bs)) rx' = take (Z.to_nat (k + len bs)) w.
Proof.
  intros Hk Ht [more Hd] Hw Hl. unfold put. rewrite !(proj2 (Z.leb_le _ _)) by lia. cbn [andb].
  eexists. split; [reflexivity|]. pose proof (len_nonneg bs).
  assert (Htl : length (take (Z.to_nat k) rx) = Z.to_nat k) by (rewrite length_take; unfold len in *; lia).
  split.
  - rewrite !len_app. unfold len in *. rewrite length_drop, Htl. lia.
  - assert (E : Z.to_nat (k + len bs) = (length (take (Z.to_nat k) rx) + length bs)%nat)
      by (rewrite Htl; unfold len; lia).
    rewrite E, app_assoc, <- length_app, take_app_length, Ht.
    assert (Ew : w = (take (Z.to_nat k) w ++ bs) ++ more) by (rewrite <- app_assoc, <- Hd; by rewrite take_drop).
    rewrite Ew at 3. by rewrite take_app_length.
Qed.

Lemma rd_take (a b : list Z) k i :
  take (Z.to_nat k) a = take (Z.to_nat k) b -> 0 <= i < k -> rd a i = rd b i.
Proof.
  intros Ht Hi. unfold rd. destruct (Z.leb_spec 0 i); [|done].
  rewrite <- (lookup_take_lt a (Z.to_nat k)), <- (lookup_take_lt b (Z.to_nat k)) by lia. by rewrite Ht.
Qed.

(** Only the last byte of a Remaining Length has no continuation bit. *)
Lemma vbi_marks fuel x i b :
  0 <= x < 128 ^ Z.of_nat fuel -> vbi fuel x !! i = Some b ->
  (Z.land b MQTT_PACKET_LEN_ENCODE_MASK =? 0) = bool_decide (S i = length (vbi fuel x)).
Proof.
  revert x i. induction fuel as [|fuel IH]; intros x i Hx; [done|]. cbn [vbi].
  rewrite Nat2Z.inj_succ, Z.pow_succ_r in Hx by lia.
  destruct (Z.ltb_spec x 128) as [Hs|Hs].
  - destruct i as [|i]; [|done]. intros [= <-].
    rewrite (proj2 (digit_of_byte x ltac:(unfold is_byte; lia))). by rewrite (proj2 (Z.ltb_lt _ _)).
  - pose proof (Z.mod_pos_bound x 128 ltac:(lia)).
    assert (Hq : 0 <= x / 128 < 128 ^ Z.of_nat fuel)
      by (split; [apply Z.div_pos; lia|apply Z.div_lt_upper_bound; lia]).
    destruct i as [|i]; cbn [length].
    + intros [= <-]. rewrite (proj2 (digit_of_byte (x mod 128 + 128) ltac:(unfold is_byte; lia))).
      rewrite (proj2 (Z.ltb_ge _ _)) by lia. symmetry. apply bool_decide_eq_false.
      destruct fuel as [|fuel]; [cbn in Hq; assert (1 <= x / 128) by (apply Z.div_le_lower_bound; lia); lia|]. pose proof (vbi_len (S fuel) (x / 128) ltac:(lia)).
      unfold len in *. lia.
    + intros Hi. rewrite (IH _ _ Hq Hi). apply bool_decide_ext. lia.
Qed.


(** ** Reading is total *)

(** A read callback that stores what it was asked for at most. *)
Class Bounded (Net : Type) `{!Reader Net} := {
  net_read_fits (net : Net) n :
    0 < n -> let '(_, bs, _) := net_read net n in len bs <= n /\ bytes bs
}.

(** The state between two calls, for a receive buffer of [n] bytes. *)
Record reader_ok (n : Z) (st : NetIO) : Prop := {
  ro_pos : 0 <= rd_pos st;
  ro_rx : len (io_rx st) = n;
  ro_bytes : bytes (io_rx st);
  ro_head : pk_stat st <> MQTT_PK_BEGIN -> 2 <= pk_header_len st <= 5;
  ro_remain : 0 <= pk_remain_len st
}.

Lemma put_bytes rx i bs rx' : bytes rx -> bytes bs -> put rx i bs = Ok rx' -> bytes rx' /\ len rx' = len rx.
Proof.
  intros Hr Hb E. unfold put in E. destruct (_ && _) eqn:Ec; [|done]. injection E as <-.
  apply andb_true_iff in Ec as [?%Z.leb_le ?%Z.leb_le]. pose proof (len_nonneg bs). split.
  - apply Forall_app. split; [by apply Forall_take|]. apply Forall_app. split; [done|by apply Forall_drop].
  - rewrite !len_app. unfold len in *. rewrite length_take, length_drop. lia.
Qed.

Section Total.
Context {Net : Type} `{!Reader Net} `{!Bounded Net}.
Context (n : Z).
Implicit Types (st : NetIO) (net : Net).

(** The length of a packet: at most the buffer; of a network that only fails,
    at most that of a fixed header. *)
Context (cap : Z) (Hle : cap <= n).
Context (Hfails : cap < n -> forall net k, 0 < k -> (net_read net k).1.1 <= 0).

(** What a call leaves behind. *)
Definition reads {A} (ok : A -> NetIO -> Prop) (r : result (A * NetIO * Net)) : Prop :=
  exists a st net, r = Ok (a, st, net) /\ ok a st.

Lemma reader_ok_stat st stat :
  reader_ok n st -> (stat <> MQTT_PK_BEGIN -> 2 <= pk_header_len st <= 5) -> reader_ok n (set_stat st stat).
Proof using. by intros []. Qed.

Lemma reader_ok_lens st h r : reader_ok n st -> (pk_stat st <> MQTT_PK_BEGIN -> 2 <= h <= 5) -> 0 <= r -> reader_ok n (set_lens st h r).
Proof using. by intros []. Qed.

Lemma MqttSocket_Read_total st net off k :
  reader_ok n st -> 0 <= off -> off + k <= n ->
  reads (fun rc st' => reader_ok n st' /\ rc <= Z.max 0 k /\ (0 < rc -> cap = n) /\ pk_stat st' = pk_stat st /\
    pk_header_len st' = pk_header_len st /\ pk_remain_len st' = pk_remain_len st) (MqttSocket_Read st net off k).
Proof using Bounded0 Hle Hfails.
  intros Hst Ho Hk. pose proof Hst as [Hp Hl Hb Hh Hr]. unfold MqttSocket_Read.
  destruct (Z.leb_spec k 0); [eexists _, _, _; split; [done|]; split_and!; done || lia|].
  destruct (Z.leb_spec k (rd_pos st)); [eexists _, _, _; split; [done|]; split_and!; done || lia|].
  pose proof (net_read_fits net (k - rd_pos st) ltac:(lia)) as Hfit.
  pose proof (fun H => Hfails H net (k - rd_pos st) ltac:(lia)) as Hf.
  destruct (net_read net (k - rd_pos st)) as [[rc bs] net'] eqn:Er. destruct Hfit as [Hfit Hbs]. cbn [fst] in Hf.
  destruct (put (io_rx st) (off + rd_pos st) bs) as [rx| |] eqn:Ep.
  2,3: unfold put in Ep; rewrite !(proj2 (Z.leb_le _ _)) in Ep by lia; done.
  destruct (put_bytes _ _ _ _ Hb Hbs Ep) as [Hb' Hl']. cbn [mbind result_bind].
  destruct (Z.ltb_spec rc 0).
  { eexists _, _, _. split; [done|]. split_and!; try done; [constructor; cbn; try done; lia|lia..]. }
  cbv zeta. set (rc' := if k - rd_pos st <? rc then k - rd_pos st else rc).
  assert (0 <= rc' <= k - rd_pos st) by (unfold rc'; destruct (Z.ltb_spec (k - rd_pos st) rc); lia).
  destruct (0 <? (if rd_pos st + rc' <? k then MQTT_CODE_CONTINUE else rc')) eqn:Epos;
    (eexists _, _, _; split; [done|]; split_and!; try done; [constructor; cbn; try done; lia|..]).
  - destruct (Z.ltb_spec k (rd_pos st + rc')); lia.
  - intros _. destruct (Z.ltb_spec (rd_pos st + rc') k); [done|]. assert (0 < rc') by lia. destruct (Z.eq_dec cap n); [done|].
    specialize (Hf ltac:(lia)). unfold rc' in *. destruct (Z.ltb_spec (k - rd_pos st) rc); lia.
  - destruct (Z.ltb_spec (rd_pos st + rc') k); lia.
  - destruct (Z.ltb_spec (rd_pos st + rc') k); lia.
Qed.

Context (Hn : 5 <= n < 2147483648) (Hcap : 5 <= cap).

(** A return before the read is complete. *)
Ltac early_read := eexists _, _, _; split; [done|]; split; [done|unfold MqttPacket_HandleNetError; lia].

Lemma packet_read_rest_total st net :
  reader_ok n st -> 2 <= pk_header_len st <= 5 ->
  reads (fun rc st' => reader_ok n st' /\ rc <= cap) (packet_read_rest n st net).
Proof using Bounded0 Hle Hn Hcap Hfails.
  intros Hst Hh. unfold packet_read_rest. cbv zeta. cbn [pk_header_len pk_remain_len set_stat].
  assert (Hst1 : reader_ok n (set_stat st MQTT_PK_READ)) by by apply reader_ok_stat.
  pose proof (ro_remain _ _ Hst).
  destruct (Z.ltb_spec n (pk_header_len st)); [early_read|].
  set (k := if n - pk_header_len st <? pk_remain_len st then n - pk_header_len st else pk_remain_len st).
  assert (0 <= k <= n - pk_header_len st) by (unfold k; destruct (Z.ltb_spec (n - pk_header_len st) (pk_remain_len st)); lia).
  destruct (Z.ltb_spec 0 (pk_remain_len st)).
  - destruct (MqttSocket_Read_total (set_stat st MQTT_PK_READ) net (pk_header_len st) k)
      as (rc & st' & net' & -> & Hst' & Hrc & Hrn & _ & Eh & Er); [done|lia|lia|]. cbn [mbind result_bind].
    cbn [pk_header_len pk_remain_len set_stat] in Eh, Er. rewrite Er, (proj2 (Z.ltb_lt _ _)) by done.
    destruct (Z.leb_spec rc 0); [early_read|].
    destruct (Z.ltb_spec k rc); [lia|]. eexists _, _, _. split; [done|].
    split; [by apply reader_ok_stat; [|lia]|]. rewrite (Hrn ltac:(lia)). destruct (Z.ltb_spec n (pk_header_len st' + rc)); lia.
  - cbn [mbind result_bind pk_remain_len set_stat]. rewrite (proj2 (Z.ltb_ge _ _)) by lia.
    eexists _, _, _. split; [done|]. split; [by apply reader_ok_stat|]. cbn [pk_header_len set_stat].
    assert (k = 0) as -> by (unfold k; destruct (Z.ltb_spec (n - pk_header_len st) (pk_remain_len st)); lia).
    destruct (Z.ltb_spec n (pk_header_len st + 0)); lia.
Qed.

Lemma read_len_loop_total fuel i st net :
  reader_ok n st -> pk_stat st = MQTT_PK_READ_HEAD -> pk_header_len st = i + 2 -> 0 <= i <= 3 ->
  4 < Z.of_nat fuel + i -> (0 < fuel)%nat ->
  exists r, read_len_loop fuel n i st net = Ok r /\
    match r with
    | inl (rc, st', _) => reader_ok n st' /\ rc <= 0
    | inr (i', st', _) => reader_ok n st' /\ pk_header_len st' = i' + 2 /\ 0 <= i' <= 3
    end.
Proof using Bounded0 Hle Hn Hcap Hfails.
  revert i st net. induction fuel as [|fuel IH]; intros i st net Hst Es Eh Hi Hf Hpos; [lia|]. cbn [read_len_loop].
  destruct (Z.ltb_spec i MQTT_PACKET_MAX_LEN_BYTES); [|by eexists (inr _)].
  destruct (rd_ok (io_rx st) (1 + i)) as (b & -> & _); [rewrite (ro_rx _ _ Hst); lia|]. cbn [mbind result_bind].
  destruct (_ =? 0); [by eexists (inr _)|].
  destruct (Z.eqb_spec i (MQTT_PACKET_MAX_LEN_BYTES - 1)); [by eexists (inl _)|].
  destruct (Z.leb_spec n (pk_header_len st)); [by eexists (inl _)|].
  destruct (MqttSocket_Read_total st net (pk_header_len st) 1) as (rc & st' & net' & -> & Hst' & Hrc & _ & Es' & Eh' & Er);
    [done|lia|lia|]. cbn [mbind result_bind].
  destruct (Z.ltb_spec rc 0); [eexists (inl _); split; [done|]; split; [done|]; unfold MqttPacket_HandleNetError; lia|].
  destruct (negb _); [by eexists (inl _)|]. apply IH; try done; cbn; try lia; [|congruence].
  apply reader_ok_lens; [done|lia|by destruct Hst'].
Qed.

Lemma packet_read_head_total st net :
  reader_ok n st -> 2 <= pk_header_len st <= 5 ->
  reads (fun rc st' => reader_ok n st' /\ rc <= cap) (packet_read_head n st net).
Proof using Bounded0 Hle Hn Hcap Hfails.
  intros Hst Hh. unfold packet_read_head. cbv zeta.
  destruct (read_len_loop_total (S (Z.to_nat MQTT_PACKET_MAX_LEN_BYTES)) (pk_header_len st - MQTT_PACKET_HEADER_MIN_SIZE)
    (set_stat st MQTT_PK_READ_HEAD) net) as (r & Er & Hr); [by apply reader_ok_stat|done|cbn; lia|lia|lia|lia|].
  cbn [pk_header_len set_stat]. rewrite Er. cbn [mbind result_bind].
  destruct r as [[[rc st'] net']|[[i st'] net']]; [destruct Hr; early_read|].
  destruct Hr as (Hst' & Eh & Hi). rewrite Eh.
  replace (i + 2 - (i + 1)) with 1 by lia. rewrite (proj2 (Z.ltb_ge n 1)) by lia.
  rewrite u32_small by lia.
  pose proof (MqttDecode_Vbi_yields (io_rx st') 1 (n - 1) (ro_bytes _ _ Hst') ltac:(lia)
                ltac:(rewrite (ro_rx _ _ Hst'); lia)) as Hv.
  destruct (MqttDecode_Vbi _ _ _) as [[remain k]|rc|]; cbn [yields] in Hv; [|early_read|done].
  destruct (_ <? remain); [early_read|].
  apply packet_read_rest_total; [apply reader_ok_lens; [done|lia|lia]|cbn; lia].
Qed.

Lemma MqttPacket_Read_total st net :
  reader_ok n st -> reads (fun rc st' => reader_ok n st' /\ rc <= cap) (MqttPacket_Read n st net).
Proof using Bounded0 Hle Hn Hcap Hfails.
  intros Hst. pose proof (ro_head _ _ Hst) as Hh. unfold MqttPacket_Read.
  rewrite (proj2 (Z.ltb_ge n _)) by lia. destruct (pk_stat st) eqn:Es.
  - destruct (MqttSocket_Read_total (set_lens st MQTT_PACKET_HEADER_MIN_SIZE 0) net 0 MQTT_PACKET_HEADER_MIN_SIZE)
      as (rc & st' & net' & E & Hst' & Hrc & _ & _ & Eh & _); [by apply reader_ok_lens|lia|lia|].
    cbn [pk_header_len set_lens] in *. rewrite E. cbn [mbind result_bind].
    destruct (_ <? 0); [early_read|].
    destruct (negb _); [early_read|].
    apply packet_read_head_total; [done|lia].
  - apply packet_read_head_total; [done|by apply Hh].
  - apply packet_read_rest_total; [done|by apply Hh].
Qed.
End Total.

(** ** Reassembly

    A packet [pkt] followed by [rest] arrives in any pieces. *)
Section Resume.
Context {Net : Type} `{!Transport Net}.
Context (type_flags : Z) (body rest : list Z) (rx_buf_len : Z).

Definition pkt : list Z := type_flags :: vbi 4 (len body) ++ body.
Definition hdr_len : Z := 1 + len (vbi 4 (len body)).

Context (Hbody : len body <= MQTT_PACKET_MAX_REMAIN_LEN)
  (Hfits : len pkt <= rx_buf_len) (Hmin : 5 <= rx_buf_len < 2147483648).

(** The first [k] bytes of the packet are in the buffer. *)
Definition arrived (k : Z) (st : NetIO) (net : Net) : Prop :=
  len (io_rx st) = rx_buf_len /\
  take (Z.to_nat k) (io_rx st) = take (Z.to_nat k) pkt /\
  net_stream net = drop (Z.to_nat k) pkt ++ rest.

(** Where a call has left off. *)
Definition halted (k : Z) (st : NetIO) (net : Net) : Prop :=
  arrived k st net /\
  match pk_stat st with
  | MQTT_PK_BEGIN => rd_pos st = k /\ 0 <= k < 2
  | MQTT_PK_READ_HEAD => rd_pos st = 0 /\ pk_header_len st = k /\ 2 <= k <= hdr_len
  | MQTT_PK_READ =>
      pk_header_len st = hdr_len /\ pk_remain_len st = len body /\
      k = hdr_len + rd_pos st /\ 0 <= rd_pos st < len body
  end.

(** What is left to do: bytes to come and failures of the transport. *)
Definition left_to_do (k : Z) (net : Net) : nat := (Z.to_nat (len pkt - k) + net_patience net)%nat.

(** The packet has been read and the state is ready for the next one. *)
Definition complete (rc : Z) (st : NetIO) (net : Net) : Prop :=
  rc = len pkt /\ take (length pkt) (io_rx st) = pkt /\ len (io_rx st) = rx_buf_len /\
  pk_stat st = MQTT_PK_BEGIN /\ rd_pos st = 0 /\ net_stream net = rest.

Lemma hdr_len_bound : 2 <= hdr_len <= 5.
Proof using. unfold hdr_len. pose proof (vbi_len 4 (len body)). lia. Qed.

Lemma pkt_len : len pkt = hdr_len + len body.
Proof using. unfold pkt, hdr_len. rewrite len_cons, len_app. lia. Qed.

(** A read of [n] bytes at [off], of which [rd_pos] are there. *)
Lemma socket_read_arrives st net off n k :
  arrived k st net -> k = off + rd_pos st -> 0 <= rd_pos st < n -> 0 <= off -> off + n <= len pkt ->
  exists rc st' net' k',
    MqttSocket_Read st net off n = Ok (rc, st', net') /\ arrived k' st' net' /\ k <= k' /\
    (net_patience net' <= net_patience net)%nat /\
    pk_stat st' = pk_stat st /\ pk_header_len st' = pk_header_len st /\
    pk_remain_len st' = pk_remain_len st /\
    ((rc < 0 /\ rd_pos st' = k' - off /\ k' < off + n /\
      (left_to_do k' net' < left_to_do k net)%nat) \/
     (rc = n /\ rd_pos st' = 0 /\ k' = off + n)).
Proof using Hfits.
  intros (Hl & Ht & Hs) Hk Hp Ho Hn. unfold MqttSocket_Read.
  rewrite (proj2 (Z.leb_gt n 0)), (proj2 (Z.leb_gt n (rd_pos st))) by lia.
  assert (Hne : net_stream net <> []).
  { rewrite Hs. intros [E _]%app_eq_nil. apply (f_equal length) in E. rewrite length_drop in E.
    unfold len in *. change (length (@nil Z)) with 0%nat in E. lia. }
  pose proof (net_read_law net (n - rd_pos st) ltac:(lia) Hne) as Hlaw.
  destruct (net_read net (n - rd_pos st)) as [[rc bs] net'] eqn:Er. destruct Hlaw as (Hst & Hpat & Hlaw).
  assert (Hbs : len bs <= n - rd_pos st) by (destruct Hlaw as [(_ & -> & _)|[-> ?]]; [change (len []) with 0|]; lia).
  pose proof (len_nonneg bs).
  assert (Hpre : bs `prefix_of` drop (Z.to_nat k) pkt).
  { rewrite Hs in Hst. apply app_eq_inv in Hst as [(l & E & _)|(l & E & _)]; [by exists l|].
    assert (Hl0 : l = []); [|subst l; rewrite app_nil_r in E; subst bs; done].
    apply (f_equal length) in E. rewrite length_app, length_drop in E. unfold len in *.
    destruct l; [done|]. cbn [length] in E. lia. }
  destruct (put_prefix (io_rx st) pkt k bs) as (rx' & Eput & Hlrx & Htake); [lia|done|done|lia|lia|].
  rewrite Hk in Eput at 1. rewrite Eput. cbn [mbind result_bind].
  assert (Hst' : net_stream net' = drop (Z.to_nat (k + len bs)) pkt ++ rest).
  { rewrite Hs in Hst. destruct Hpre as [more Hd]. rewrite Hd, <- app_assoc in Hst.
    apply app_inv_head in Hst. rewrite <- Hst. f_equal.
    replace (Z.to_nat (k + len bs)) with (Z.to_nat k + length bs)%nat by (unfold len; lia).
    by rewrite <- drop_drop, Hd, drop_app_length. }
  assert (Harr : forall pos total, arrived (k + len bs) (set_read st pos total rx') net')
    by (intros; split_and!; [by rewrite <- Hl|done|done]).
  destruct Hlaw as [(Hrc & -> & Hpl)|(-> & Hrc)].
  - change (len []) with 0 in *. rewrite Z.add_0_r in Harr.
    assert (Hdec : (left_to_do k net' < left_to_do k net)%nat) by (unfold left_to_do; lia).
    destruct (Z.ltb_spec rc 0).
    + eexists _, _, _, k. split; [reflexivity|]. split_and!; try done; try lia. left.
      cbn [rd_pos set_read]. split_and!; done || lia.
    + assert (rc = 0) as -> by lia. rewrite (proj2 (Z.ltb_ge (n - rd_pos st) 0)), (proj2 (Z.ltb_lt (rd_pos st + 0) n)) by lia.
      eexists _, _, _, k. split; [reflexivity|]. split_and!; try done; try lia. left.
      cbn [rd_pos set_read]. split_and!; done || lia.
  - rewrite (proj2 (Z.ltb_ge (len bs) 0)), (proj2 (Z.ltb_ge (n - rd_pos st) (len bs))) by lia.
    destruct (Z.ltb_spec (rd_pos st + len bs) n).
    + eexists _, _, _, (k + len bs). split; [reflexivity|]. split_and!; try done; try lia. left.
      cbn [rd_pos set_read]. split_and!; try done; try lia. unfold left_to_do. lia.
    + rewrite (proj2 (Z.ltb_lt _ _)), (proj2 (Z.ltb_ge n (rd_pos st + len bs))) by lia.
      eexists _, _, _, (k + len bs). split; [reflexivity|]. split_and!; try done; try lia. right.
      cbn [rd_pos set_read]. split_and!; done || lia.
Qed.

(** What a call that is not complete may return. *)
Definition waits (k : Z) (net0 : Net) (rc : Z) (st : NetIO) (net : Net) : Prop :=
  rc < 0 /\ exists k', halted k' st net /\ (left_to_do k' net < left_to_do k net0)%nat.

Lemma read_rest_resumes st net k :
  arrived k st net -> pk_header_len st = hdr_len -> pk_remain_len st = len body ->
  k = hdr_len + rd_pos st -> 0 <= rd_pos st -> (rd_pos st < len body \/ body = [] /\ rd_pos st = 0) ->
  exists rc st' net', packet_read_rest rx_buf_len st net = Ok (rc, st', net') /\
    (waits k net rc st' net' \/ complete rc st' net').
Proof using All.
  intros Harr Hh Hr Hk Hp Hor. pose proof hdr_len_bound. pose proof pkt_len. pose proof (len_nonneg body).
  unfold packet_read_rest. cbv zeta. cbn [set_stat pk_header_len pk_remain_len]. rewrite Hh, Hr.
  rewrite (proj2 (Z.ltb_ge rx_buf_len hdr_len)), (proj2 (Z.ltb_ge (rx_buf_len - hdr_len) (len body))) by lia.
  destruct Hor as [Hlt|[-> Hz]].
  - rewrite (proj2 (Z.ltb_lt 0 _)) by lia.
    destruct (socket_read_arrives (set_stat st MQTT_PK_READ) net hdr_len (len body) k)
      as (rc & st' & net' & k' & -> & Harr' & Hkk & Hpat & Hs1 & Hs2 & Hs3 & Hcase); try done; try lia.
    cbn [set_stat pk_stat pk_header_len pk_remain_len] in Hs1, Hs2, Hs3. cbn [mbind result_bind].
    rewrite Hs3, Hr, (proj2 (Z.ltb_lt 0 _)), Hs2, Hh by lia.
    destruct Hcase as [(Hrc & Hpos & Hk' & Hdec)|(-> & Hpos & ->)].
    + rewrite (proj2 (Z.leb_le rc 0)) by lia. eexists _, _, _. split; [reflexivity|]. left.
      split; [done|]. exists k'. split; [|done]. split; [done|]. rewrite Hs1. split_and!; try done; lia.
    + rewrite (proj2 (Z.leb_gt _ 0)), (proj2 (Z.ltb_ge _ _)) by lia.
      rewrite (proj2 (Z.ltb_ge _ _)) by lia. eexists _, _, _. split; [reflexivity|]. right.
      destruct Harr' as (Hl & Ht & Hst). split; [lia|].
      replace (Z.to_nat (hdr_len + len body)) with (length pkt) in * by (unfold len in *; lia).
      rewrite (firstn_all pkt) in Ht. rewrite drop_all in Hst. split_and!; done.
  - change (len []) with 0 in *. rewrite (proj2 (Z.ltb_ge 0 0)) by lia. cbn [mbind result_bind pk_remain_len set_stat].
    rewrite Hr, (proj2 (Z.ltb_ge 0 0)) by lia. cbn [pk_header_len set_stat]. rewrite Hh.
    rewrite (proj2 (Z.ltb_ge _ _)) by lia. eexists _, _, _. split; [reflexivity|]. right.
    destruct Harr as (Hl & Ht & Hst). split; [lia|].
    replace (Z.to_nat k) with (length pkt) in * by (unfold len in *; lia).
    rewrite (firstn_all pkt) in Ht. rewrite drop_all in Hst. split_and!; done.
Qed.

(** The byte that decides whether the Remaining Length goes on. *)
Lemma pkt_mark st net k :
  arrived k st net -> 2 <= k <= hdr_len ->
  exists b, rd (io_rx st) (1 + (k - 2)) = Ok b /\
    (Z.land b MQTT_PACKET_LEN_ENCODE_MASK =? 0) = bool_decide (k = hdr_len).
Proof using Hbody.
  intros (Hl & Ht & _) Hk. rewrite (rd_take _ pkt k) by (done || lia).
  pose proof pkt_len. pose proof hdr_len_bound. pose proof (len_nonneg body).
  destruct (rd_ok pkt (1 + (k - 2))) as (b & Eb & Elk); [lia|]. exists b. split; [done|].
  unfold hdr_len in *. unfold pkt in Elk.
  replace (Z.to_nat (1 + (k - 2))) with (S (Z.to_nat (k - 2))) in Elk by lia.
  change ((vbi 4 (len body) ++ body) !! Z.to_nat (k - 2) = Some b) in Elk.
  rewrite lookup_app_l in Elk by (unfold len in *; lia).
  rewrite (vbi_marks 4 (len body) _ b) by (done || lia). apply bool_decide_ext.
  unfold len in *. lia.
Qed.

(** The loop over the Remaining Length. *)
Lemma read_len_loop_resumes fuel st net k :
  arrived k st net -> pk_stat st = MQTT_PK_READ_HEAD -> pk_header_len st = k -> rd_pos st = 0 ->
  2 <= k <= hdr_len -> (Z.to_nat (hdr_len - k) < fuel)%nat ->
  (exists rc st' net', read_len_loop fuel rx_buf_len (k - 2) st net = Ok (inl (rc, st', net')) /\
     waits k net rc st' net') \/
  (exists st' net', read_len_loop fuel rx_buf_len (k - 2) st net = Ok (inr (hdr_len - 2, st', net')) /\
     arrived hdr_len st' net' /\ pk_header_len st' = hdr_len /\ rd_pos st' = 0 /\
     (left_to_do hdr_len net' <= left_to_do k net)%nat).
Proof using All.
  pose proof hdr_len_bound. pose proof pkt_len. pose proof (len_nonneg body).
  revert st net k. induction fuel as [|fuel IH]; intros st net k Harr Hstat Hh Hp Hk Hf; [lia|].
  cbn [read_len_loop]. rewrite (proj2 (Z.ltb_lt _ MQTT_PACKET_MAX_LEN_BYTES)) by lia.
  destruct (pkt_mark st net k Harr Hk) as (b & Eb & Em). rewrite Eb. cbn [mbind result_bind]. rewrite Em. clear Eb Em.
  destruct (decide (k = hdr_len)) as [->|Hne].
  { rewrite bool_decide_eq_true_2 by done. right. by exists st, net. }
  rewrite bool_decide_eq_false_2 by done.
  rewrite (proj2 (Z.eqb_neq (k - 2) _)), Hh, (proj2 (Z.leb_gt rx_buf_len k)) by lia.
  destruct (socket_read_arrives st net k 1 k)
    as (rc & st' & net' & k' & -> & Harr' & Hkk & Hpat & Hs1 & Hs2 & Hs3 & Hcase); try done; try lia.
  cbn [mbind result_bind]. destruct Hcase as [(Hrc & Hpos & Hk' & Hdec)|(-> & Hpos & ->)].
  - rewrite (proj2 (Z.ltb_lt rc 0)) by lia. left. eexists _, _, _. split; [reflexivity|].
    split; [done|]. exists k'. split; [|done]. split; [done|]. rewrite Hs1, Hstat.
    assert (k' = k) by lia. subst k'. split_and!; lia.
  - cbn. replace (k - 2 + 1) with (k + 1 - 2) by lia. rewrite Hs2, Hh, Hs3.
    destruct (IH (set_lens st' (k + 1) (pk_remain_len st)) net' (k + 1))
      as [(rc & st2 & net2 & E & Hrc & k2 & Hhalt & Hdec)|(st2 & net2 & E & Harr2 & Hh2 & Hp2 & Hdec)];
      try done; try lia.
    + cbn. by rewrite Hs1.
    + left. exists rc, st2, net2. split; [done|]. split; [done|]. exists k2. split; [done|].
      unfold left_to_do in *. lia.
    + right. exists st2, net2. split_and!; try done. unfold left_to_do in *. lia.
Qed.

Lemma read_head_resumes st net k :
  arrived k st net -> pk_header_len st = k -> rd_pos st = 0 -> 2 <= k <= hdr_len ->
  exists rc st' net', packet_read_head rx_buf_len st net = Ok (rc, st', net') /\
    (waits k net rc st' net' \/ complete rc st' net').
Proof using All.
  intros Harr Hh Hp Hk. pose proof hdr_len_bound. pose proof pkt_len. pose proof (len_nonneg body).
  unfold packet_read_head. cbv zeta. cbn [set_stat pk_header_len]. rewrite Hh.
  destruct (read_len_loop_resumes (S (Z.to_nat MQTT_PACKET_MAX_LEN_BYTES)) (set_stat st MQTT_PK_READ_HEAD) net k)
    as [(rc & st' & net' & -> & Hw)|(st' & net' & -> & Harr' & Hh' & Hp' & Hdec)]; try done; try lia.
  { exists rc, st', net'. split; [done|]. by left. }
  cbn [mbind result_bind]. rewrite Hh', (proj2 (Z.ltb_ge _ _)), u32_small by lia.
  assert (Hs : sits (io_rx st') 1 (vbi 4 (len body))).
  { destruct Harr' as (Hl & Ht & _).
    exists [type_flags], (drop (Z.to_nat hdr_len) (io_rx st')). split; [|done].
    rewrite <- (take_drop (Z.to_nat hdr_len) (io_rx st')) at 1. rewrite Ht. unfold pkt, hdr_len.
    rewrite app_assoc. f_equal. replace (Z.to_nat (1 + len (vbi 4 (len body)))) with (S (length (vbi 4 (len body))))
      by (unfold len; lia). cbn. by rewrite take_app_length. }
  rewrite (MqttDecode_Vbi_sits _ _ _ (len body)) by (try done; unfold hdr_len in *; lia).
  rewrite (proj2 (Z.ltb_ge _ _)) by lia.
  replace (len (vbi 4 (len body)) + 1) with hdr_len by (unfold hdr_len; lia).
  destruct (read_rest_resumes (set_lens st' hdr_len (len body)) net' hdr_len) as (rc & st2 & net2 & E & Hcase);
    try done; cbn [set_lens pk_header_len pk_remain_len rd_pos]; try lia.
  { destruct (decide (body = [])) as [Eb|Eb]; [by right|left].
    assert (length body <> 0%nat) by (by intros ?%length_zero_iff_nil). unfold len. lia. }
  exists rc, st2, net2. split; [done|]. destruct Hcase as [(Hrc & k2 & Hhalt & Hd2)|Hc]; [left|by right].
  split; [done|]. exists k2. split; [done|]. lia.
Qed.

(** One call, wherever the last one left off. *)
Lemma MqttPacket_Read_step st net k :
  halted k st net ->
  exists rc st' net', MqttPacket_Read rx_buf_len st net = Ok (rc, st', net') /\
    (waits k net rc st' net' \/ complete rc st' net').
Proof using All.
  intros [Harr Hstat]. pose proof hdr_len_bound. pose proof pkt_len. pose proof (len_nonneg body).
  unfold MqttPacket_Read. cbv zeta. rewrite (proj2 (Z.ltb_ge _ _)) by lia.
  destruct (pk_stat st) eqn:Es.
  - destruct Hstat as [Hp Hk]. cbn [set_lens pk_header_len].
    destruct (socket_read_arrives (set_lens st MQTT_PACKET_HEADER_MIN_SIZE 0) net 0 MQTT_PACKET_HEADER_MIN_SIZE k)
      as (rc & st' & net' & k' & -> & Harr' & Hkk & Hpat & Hs1 & Hs2 & Hs3 & Hcase);
      try done; cbn [set_lens rd_pos]; try lia.
    cbn [mbind result_bind]. cbn [set_lens pk_stat pk_header_len] in *.
    destruct Hcase as [(Hrc & Hpos & Hk' & Hdec)|(-> & Hpos & ->)].
    + rewrite (proj2 (Z.ltb_lt rc 0)) by lia. eexists _, _, _. split; [reflexivity|]. left.
      split; [done|]. exists k'. split; [|done]. split; [done|]. rewrite Hs1, Es. lia.
    + rewrite Hs2. change (MQTT_PACKET_HEADER_MIN_SIZE <? 0) with false.
      change (negb (MQTT_PACKET_HEADER_MIN_SIZE =? MQTT_PACKET_HEADER_MIN_SIZE)) with false. cbv match.
      destruct (read_head_resumes st' net' 2) as (rc & st2 & net2 & E & Hc); try done; try lia.
      exists rc, st2, net2. split; [done|]. destruct Hc as [(Hrc & k2 & Hhalt & Hd2)|Hc]; [left|by right].
      split; [done|]. exists k2. split; [done|]. unfold left_to_do in *. lia.
  - destruct Hstat as (Hp & Hh & Hk). by apply read_head_resumes.
  - destruct Hstat as (Hh & Hr & Hk & Hp & Hp2). apply read_rest_resumes; try done. by left.
Qed.

(** A client that keeps calling gets the packet. *)
Lemma read_packet_completes calls st net k :
  halted k st net -> (left_to_do k net < calls)%nat ->
  exists rc st' net', read_packet calls rx_buf_len st net = Ok (rc, st', net') /\ complete rc st' net'.
Proof using All.
  pose proof pkt_len. pose proof hdr_len_bound. pose proof (len_nonneg body).
  revert st net k. induction calls as [|calls IH]; intros st net k Hh Hc; [lia|].
  destruct (MqttPacket_Read_step st net k Hh) as (rc & st' & net' & E & Hcase).
  cbn [read_packet]. rewrite E. cbn [mbind result_bind].
  destruct Hcase as [(Hrc & k' & Hh' & Hdec)|Hcomp].
  - rewrite (proj2 (Z.ltb_lt rc 0)) by lia. apply (IH st' net' k' Hh'). lia.
  - destruct Hcomp as (-> & Hcomp). rewrite (proj2 (Z.ltb_ge _ 0)) by lia.
    by exists (len pkt), st', net'.
Qed.
End Resume.

(** ** Writing *)

(** [net_write net bs] is the write callback given [bs]: its return code, the
    number of bytes taken; [net_sent] are the bytes sent so far. *)
Class Sender (Net : Type) := {
  net_write : Net -> list Z -> Z * Net;
  net_sent : Net -> list Z;
  net_write_law net bs :
    bs <> [] ->
    let '(rc, net') := net_write net bs in
    (rc <= 0 /\ net_sent net' = net_sent net) \/
    (0 < rc <= len bs /\ net_sent net' = net_sent net ++ take (Z.to_nat rc) bs)
}.

(** [client->write], [packet_sz_max], [keep_alive_sec] and [last_tx_time]. *)
Record WriteIO : Set := mkWrite {
  wr_pos : Z;
  wr_total : Z;
  wr_packet_sz_max : Z;
  wr_keep_alive_sec : Z;
  wr_last_tx_time : Z
}.

Definition set_write (w : WriteIO) (pos total : Z) : WriteIO :=
  mkWrite pos total (wr_packet_sz_max w) (wr_keep_alive_sec w) (wr_last_tx_time w).
Definition set_tx_time (w : WriteIO) (now : Z) : WriteIO :=
  mkWrite (wr_pos w) (wr_total w) (wr_packet_sz_max w) (wr_keep_alive_sec w) now.

Section Write.
Context {Net : Type} `{!Sender Net}.

Definition MqttSocket_Write (w : WriteIO) (net : Net) (buf : list Z) (buf_len : Z)
    : result (Z * WriteIO * Net) :=
  if buf_len <=? 0 then Ok (MQTT_CODE_ERROR_BAD_ARG, w, net)
  else if buf_len <=? wr_pos w then Ok (MQTT_CODE_ERROR_OUT_OF_BUFFER, w, net)
  else
    bs ← slice buf (wr_pos w) (buf_len - wr_pos w);
    let '(rc, net) := net_write net bs in
    if rc <? 0 then Ok (rc, w, net)
    else
      let rc := if buf_len - wr_pos w <? rc then buf_len - wr_pos w else rc in
      let pos := wr_pos w + rc in
      let total := wr_total w + rc in
      let rc := if pos <? buf_len then MQTT_CODE_CONTINUE else rc in
      if 0 <? rc then Ok (pos, set_write w 0 total, net)
      else Ok (rc, set_write w pos total, net).

(** [now] is the clock that is read when the packet has left. *)
Definition MqttPacket_Write (now : Z) (w : WriteIO) (net : Net) (tx_buf : list Z) (tx_buf_len : Z)
    : result (Z * WriteIO * Net) :=
  '(rc, w, net) ←
     (if (0 <? wr_packet_sz_max w) && (0 <? tx_buf_len) && (wr_packet_sz_max w <? u32 tx_buf_len)
      then Ok (MQTT_CODE_ERROR_SERVER_PROP, w, net)
      else MqttSocket_Write w net tx_buf tx_buf_len);
  let rc := MqttPacket_HandleNetError rc in
  if (rc =? tx_buf_len) && negb (wr_keep_alive_sec w =? 0)
  then Ok (rc, set_tx_time w now, net) else Ok (rc, w, net).

(** [pos] bytes of the packet have been sent after [base]. *)
Definition sent_upto (base buf : list Z) (w : WriteIO) (net : Net) : Prop :=
  0 <= wr_pos w < len buf /\ net_sent net = base ++ take (Z.to_nat (wr_pos w)) buf.

Lemma MqttSocket_Write_step base buf w net :
  sent_upto base buf w net ->
  exists rc w' net', MqttSocket_Write w net buf (len buf) = Ok (rc, w', net') /\
    wr_packet_sz_max w' = wr_packet_sz_max w /\ wr_keep_alive_sec w' = wr_keep_alive_sec w /\
    wr_last_tx_time w' = wr_last_tx_time w /\
    ((rc < 0 /\ wr_pos w <= wr_pos w' /\ sent_upto base buf w' net') \/
     (rc = len buf /\ wr_pos w' = 0 /\ net_sent net' = base ++ buf)).
Proof using.
  intros [Hp Hs]. unfold MqttSocket_Write.
  rewrite (proj2 (Z.leb_gt (len buf) 0)), (proj2 (Z.leb_gt (len buf) (wr_pos w))) by lia.
  rewrite slice_ok by lia. cbn [mbind result_bind].
  set (bs := take _ (drop _ buf)).
  assert (Hbs : len bs = len buf - wr_pos w).
  { unfold bs. apply len_take. unfold len in *. rewrite length_drop. lia. }
  assert (Hne : bs <> []) by (intros E; rewrite E in Hbs; change (len []) with 0 in Hbs; lia).
  assert (Hbuf : drop (Z.to_nat (wr_pos w)) buf = bs).
  { unfold bs. rewrite firstn_all2; [done|]. unfold len in *. rewrite length_drop. lia. }
  pose proof (net_write_law net bs Hne) as Hlaw.
  destruct (net_write net bs) as [rc net'] eqn:Ew.
  assert (Hadd : forall n, 0 <= n -> take (Z.to_nat (wr_pos w)) buf ++ take (Z.to_nat n) bs =
    take (Z.to_nat (wr_pos w + n)) buf).
  { intros n Hn. rewrite <- Hbuf, Z2Nat.inj_add by lia. by rewrite take_take_drop. }
  destruct Hlaw as [[Hrc Hs']|[Hrc Hs']].
  - destruct (Z.ltb_spec rc 0).
    + eexists _, _, _. split; [reflexivity|]. split_and!; try done. left.
      split_and!; [done|lia|]. split; [done|]. by rewrite Hs'.
    + assert (rc = 0) as -> by lia.
      rewrite (proj2 (Z.ltb_ge (len buf - wr_pos w) 0)), (proj2 (Z.ltb_lt (wr_pos w + 0) _)) by lia.
      eexists _, _, _. split; [reflexivity|]. split_and!; try done. left. unfold sent_upto. cbn [set_write wr_pos].
      rewrite Z.add_0_r, Hs'. split_and!; done || lia.
  - rewrite (proj2 (Z.ltb_ge rc 0)), (proj2 (Z.ltb_ge (len buf - wr_pos w) rc)) by lia.
    rewrite Hs, <- app_assoc, Hadd in Hs' by lia.
    destruct (Z.ltb_spec (wr_pos w + rc) (len buf)).
    + eexists _, _, _. split; [reflexivity|]. split_and!; try done. left. unfold sent_upto. cbn [set_write wr_pos].
      split_and!; done || lia.
    + rewrite (proj2 (Z.ltb_lt 0 rc)) by lia. eexists _, _, _. split; [reflexivity|]. split_and!; try done. right.
      split_and!; [lia|done|]. rewrite Hs'. f_equal. apply firstn_all2. unfold len in *. lia.
Qed.

(** A packet larger than the server allows is not sent at all; another one
  is sent once and whole, in as many calls as the network needs. *)
Lemma MqttPacket_Write_step now base buf w net :
  sent_upto base buf w net -> 0 <= wr_packet_sz_max w -> len buf < 2147483648 ->
  if (0 <? wr_packet_sz_max w) && (wr_packet_sz_max w <? len buf)
  then MqttPacket_Write now w net buf (len buf) = Ok (MQTT_CODE_ERROR_SERVER_PROP, w, net)
  else
    exists rc w' net', MqttPacket_Write now w net buf (len buf) = Ok (rc, w', net') /\
      wr_packet_sz_max w' = wr_packet_sz_max w /\
      ((rc < 0 /\ wr_pos w <= wr_pos w' /\ sent_upto base buf w' net' /\
        wr_last_tx_time w' = wr_last_tx_time w) \/
       (rc = len buf /\ wr_pos w' = 0 /\ net_sent net' = base ++ buf /\
        (wr_keep_alive_sec w <> 0 -> wr_last_tx_time w' = now))).
Proof using.
  intros Hs Hmax Hl. pose proof Hs as [Hp _]. unfold MqttPacket_Write.
  rewrite (proj2 (Z.ltb_lt 0 (len buf))), andb_true_r, u32_small by lia.
  destruct ((0 <? wr_packet_sz_max w) && (wr_packet_sz_max w <? len buf)) eqn:E.
  { cbn [mbind result_bind]. unfold MqttPacket_HandleNetError.
    by rewrite (proj2 (Z.eqb_neq _ _)) by lia. }
  destruct (MqttSocket_Write_step base buf w net Hs) as (rc & w' & net' & -> & Hm & Hk & Ht & Hcase).
  cbn [mbind result_bind]. unfold MqttPacket_HandleNetError. rewrite Hk.
  destruct Hcase as [(Hrc & Hpp & Hs')|(-> & Hp0 & Hs')].
  - rewrite (proj2 (Z.eqb_neq rc (len buf))) by lia. cbn [andb]. exists rc, w', net'.
    split_and!; try done. left. done.
  - rewrite Z.eqb_refl. cbn [andb]. destruct (Z.eqb_spec (wr_keep_alive_sec w) 0); cbn [negb].
    + exists (len buf), w', net'. split_and!; try done. right. split_and!; done.
    + exists (len buf), (set_tx_time w' now), net'. split_and!; try done. right. split_and!; done.
Qed.
End Write.

(** ** A network with a script

    It hands out its stream in the pieces a script asks for, and then whole; a
    negative or zero number in the script is a return code. *)
Record ScriptNet : Set := mkScript { script : list Z; stream : list Z; outbox : list Z }.

Definition script_read (net : ScriptNet) (n : Z) : Z * list Z * ScriptNet :=
  match script net with
  | [] => let bs := take (Z.to_nat n) (stream net) in
          (len bs, bs, mkScript [] (drop (Z.to_nat n) (stream net)) (outbox net))
  | k :: script =>
    if k <=? 0 then (k, [], mkScript script (stream net) (outbox net))
    else let bs := take (Z.to_nat (Z.min k n)) (stream net) in
         (len bs, bs, mkScript script (drop (Z.to_nat (Z.min k n)) (stream net)) (outbox net))
  end.

Definition script_write (net : ScriptNet) (bs : list Z) : Z * ScriptNet :=
  match script net with
  | [] => (len bs, mkScript [] (stream net) (outbox net ++ bs))
  | k :: script =>
    if k <=? 0 then (k, mkScript script (stream net) (outbox net))
    else let n := Z.min k (len bs) in
         (n, mkScript script (stream net) (outbox net ++ take (Z.to_nat n) bs))
  end.

Lemma take_some (s : list Z) n : s <> [] -> 0 < n -> 0 < len (take (Z.to_nat n) s) <= n.
Proof.
  intros Hs Hn. unfold len. rewrite length_take. destruct s; [done|]. simpl. lia.
Qed.

#[export] Instance script_transport : Transport ScriptNet.
Proof.
  refine {| transport_reader := {| net_read := script_read |}; net_stream := stream; net_patience net := length (script net) |}.
  intros [sc st out] n Hn Hne. cbn [net_read]. unfold script_read. cbn [script stream outbox] in *.
  destruct sc as [|k sc]; [|destruct (Z.leb_spec k 0)]; cbn [script stream outbox length].
  - rewrite take_drop. split_and!; [done|lia|]. right. split; [done|]. by apply take_some.
  - split_and!; [done|lia|]. left. split_and!; [done|done|lia].
  - rewrite take_drop. split_and!; [done|lia|]. right. split; [done|].
    pose proof (take_some st (Z.min k n) Hne ltac:(lia)). lia.
Defined.

#[export] Instance script_sender : Sender ScriptNet.
Proof.
  refine {| net_write := script_write; net_sent := outbox |}.
  intros [sc st out] bs Hne. unfold script_write. cbn [script stream outbox] in *.
  assert (0 < len bs) by (destruct bs; [done|]; unfold len; simpl; lia).
  destruct sc as [|k sc]; [|destruct (Z.leb_spec k 0)]; cbn [outbox].
  - right. split; [lia|]. unfold len. by rewrite Nat2Z.id, firstn_all.
  - by left.
  - right. split; [lia|done].
Defined.

(** ** Properties *)

(** C23: however the network cuts the stream into pieces, and however often it
    has nothing to deliver or times out, a client that keeps calling
    [MqttPacket_Read], and whose buffer has room for it, gets the next packet of
    the stream: the whole packet at the start of its buffer, its length as
    return code, the rest of the stream untouched and the read state ready for
    the next packet. As many calls are enough as the packet has bytes and the
    network has interruptions. *)
Theorem MqttPacket_Read_reassembles {Net} `{!Transport Net} type_flags body rest rx_buf_len st net calls :
  len body <= MQTT_PACKET_MAX_REMAIN_LEN -> len (pkt type_flags body) <= rx_buf_len ->
  5 <= rx_buf_len < 2147483648 ->
  pk_stat st = MQTT_PK_BEGIN -> rd_pos st = 0 -> len (io_rx st) = rx_buf_len ->
  net_stream net = pkt type_flags body ++ rest ->
  (length (pkt type_flags body) + net_patience net < calls)%nat ->
  exists st' net',
    read_packet calls rx_buf_len st net = Ok (len (pkt type_flags body), st', net') /\
    take (length (pkt type_flags body)) (io_rx st') = pkt type_flags body /\
    pk_stat st' = MQTT_PK_BEGIN /\ rd_pos st' = 0 /\ net_stream net' = rest.
Proof.
  intros Hb Hf Hm Hst Hpos Hrx Hnet Hc.
  destruct (read_packet_completes type_flags body rest rx_buf_len Hb Hf Hm calls st net 0)
    as (rc & st' & net' & E & -> & ? & ? & ? & ? & ?).
  - split; [|by rewrite Hst]. split_and!; done.
  - unfold left_to_do, len in *. lia.
  - exists st', net'. done.
Qed.

(** PUBACK 258 in pieces of one byte, with an empty read, an error and the
    first byte of another packet. *)
Lemma MqttPacket_Read_reassembles_witness :
  let st := mkIO MQTT_PK_BEGIN 0 0 0 0 (replicate 8 0) in
  let net := mkScript [1; 0; 1; -8; 1; 1] [64; 2; 1; 2; 208] [] in
  exists st' net',
    read_packet 20 8 st net = Ok (4, st', net') /\
    take 4 (io_rx st') = [64; 2; 1; 2] /\
    pk_stat st' = MQTT_PK_BEGIN /\ rd_pos st' = 0 /\ net_stream net' = [208].
Proof.
  intros st net.
  apply (MqttPacket_Read_reassembles 64 [1; 2] [208] 8 st net 20);
    [by_eval..|vm_compute; lia].
Defined.

(** One call of [MqttPacket_Read], wherever the last one stopped, either
    completes the packet or returns an error and keeps everything that has
    arrived, with fewer bytes or interruptions to come: calls can stop and
    resume at any byte. *)
Theorem MqttPacket_Read_resumes {Net} `{!Transport Net} type_flags body rest rx_buf_len st net k :
  len body <= MQTT_PACKET_MAX_REMAIN_LEN -> len (pkt type_flags body) <= rx_buf_len ->
  5 <= rx_buf_len < 2147483648 ->
  halted type_flags body rest rx_buf_len k st net ->
  exists rc st' net', MqttPacket_Read rx_buf_len st net = Ok (rc, st', net') /\
    ((rc < 0 /\ exists k', halted type_flags body rest rx_buf_len k' st' net' /\
        (left_to_do type_flags body k' net' < left_to_do type_flags body k net)%nat) \/
     complete type_flags body rest rx_buf_len rc st' net').
Proof. intros Hb Hf Hm H. by apply (MqttPacket_Read_step type_flags body rest rx_buf_len Hb Hf Hm). Qed.

(** The header has arrived, and one byte of the body. *)
Lemma MqttPacket_Read_resumes_witness :
  let st := mkIO MQTT_PK_READ 2 2 1 3 [64; 2; 1; 0; 0; 0; 0; 0] in
  let net := mkScript [] [2; 208] [] in
  exists rc st' net', MqttPacket_Read 8 st net = Ok (rc, st', net') /\
    ((rc < 0 /\ exists k', halted 64 [1; 2] [208] 8 k' st' net' /\
        (left_to_do 64 [1; 2]%Z k' net' < left_to_do 64 [1; 2]%Z 3%Z net)%nat) \/
     complete 64 [1; 2] [208] 8 rc st' net').
Proof.
  intros st net. apply MqttPacket_Read_resumes; [by_eval..|].
  split; [split_and!; reflexivity|]. split_and!; by_eval.
Defined.

(** C32: a packet larger than the server's Maximum Packet Size is not sent at
    all; another one is sent once and whole, after what was sent before, in as
    many calls of [MqttPacket_Write] as the network needs: each call sends a
    further part and says so by a negative code, or completes the packet and
    returns its length, and only then the keep-alive clock is reset. *)
Theorem MqttPacket_Write_resumes {Net} `{!Sender Net} now base buf w net :
  sent_upto base buf w net -> 0 <= wr_packet_sz_max w -> len buf < 2147483648 ->
  if (0 <? wr_packet_sz_max w) && (wr_packet_sz_max w <? len buf)
  then MqttPacket_Write now w net buf (len buf) = Ok (MQTT_CODE_ERROR_SERVER_PROP, w, net)
  else
    exists rc w' net', MqttPacket_Write now w net buf (len buf) = Ok (rc, w', net') /\
      wr_packet_sz_max w' = wr_packet_sz_max w /\
      ((rc < 0 /\ wr_pos w <= wr_pos w' /\ sent_upto base buf w' net' /\
        wr_last_tx_time w' = wr_last_tx_time w) \/
       (rc = len buf /\ wr_pos w' = 0 /\ net_sent net' = base ++ buf /\
        (wr_keep_alive_sec w <> 0 -> wr_last_tx_time w' = now))).
Proof. apply MqttPacket_Write_step. Qed.

(** The last two bytes of a packet whose first two have been sent. *)
Lemma MqttPacket_Write_resumes_witness :
  let w := mkWrite 2 2 0 60 7 in
  let net := mkScript [] [] [9; 64; 2] in
  exists rc w' net', MqttPacket_Write 100 w net [64; 2; 1; 2] (len [64; 2; 1; 2]) = Ok (rc, w', net') /\
    wr_packet_sz_max w' = 0 /\
    ((rc < 0 /\ 2 <= wr_pos w' /\ sent_upto [9] [64; 2; 1; 2] w' net' /\ wr_last_tx_time w' = 7) \/
     (rc = 4 /\ wr_pos w' = 0 /\ net_sent net' = [9; 64; 2; 1; 2] /\
      (60 <> 0 -> wr_last_tx_time w' = 100))).
Proof.
  intros w net. apply (MqttPacket_Write_resumes 100 [9] [64; 2; 1; 2] w net);
    [split; [by_eval|reflexivity]|by_eval..].
Defined.
