(* ===== verification/BrokerDefs.v ===== *)
(** * BrokerDefs: the structures of the broker ([wolfmqtt/mqtt_broker.h])

    The records of a build with dynamic memory. A linked list is the list of
    its nodes, from the head; its tail pointer is the last node. The address of
    a [BrokerClient] is a number, by which a subscription refers to it. A heap
    string is the list of its characters without the terminator, [None] is
    NULL. The fields of [BrokerClient] are grouped into records of fields that
    are used together. *)
From S2P Require Import Prelude PacketDefs Wire FixedHeader PacketIO.

(** ** Limits *)

Abbreviation BROKER_RX_BUF_SZ := (4096)%Z.
Abbreviation BROKER_TX_BUF_SZ := (4096)%Z.
Abbreviation BROKER_MAX_SUBS_PER_CLIENT := (8)%Z.
Abbreviation BROKER_MAX_USERNAME_LEN := (64)%Z.
Abbreviation BROKER_MAX_PASSWORD_LEN := (64)%Z.
Abbreviation BROKER_MAX_FILTER_LEN := (128)%Z.
Abbreviation BROKER_MAX_RETAINED := (16)%Z.
Abbreviation BROKER_MAX_WILL_PAYLOAD_LEN := (256)%Z.
Abbreviation BROKER_MAX_PENDING_WILLS := (4)%Z.
Abbreviation BROKER_MAX_WILL_DELAY_SEC := (3600)%Z.
Abbreviation BROKER_CONNECT_TIMEOUT_SEC := (10)%Z.
Abbreviation BROKER_MAX_INBOUND_QOS2 := (16)%Z.
Abbreviation BROKER_MAX_INFLIGHT_PER_SUB := (16)%Z.
Abbreviation BROKER_MAX_PERSIST_SESSIONS := (64)%Z.
Abbreviation BROKER_MAX_OFFLINE_MSGS_PER_SUB := (32)%Z.
Abbreviation BROKER_MAX_QUEUED_MSGS_PER_SUB := (48)%Z.
Abbreviation BROKER_FANOUT_STACK_TARGETS := (16)%Z.
Abbreviation WOLFMQTT_MAX_QOS := (2)%Z.
Abbreviation BROKER_SOCKET_INVALID := (-1)%Z.
(** The Session Expiry Interval of a session that never expires. *)
Abbreviation NEVER_EXPIRES := (4294967295)%Z.

(** ** The allocator

    [WOLFMQTT_MALLOC] may fail at any call: the outcomes of the coming calls
    are a list, and calls after its end succeed. *)
Definition heap : Set := list bool.

Definition malloc (mem : heap) : bool * heap :=
  match mem with [] => (true, []) | ok :: mem => (ok, mem) end.

(** ** Outbound messages *)

Inductive BrokerOutPubState : Set :=
  | BROKER_OUTQ_QUEUED
  | BROKER_OUTQ_PUBLISH_SENT
  | BROKER_OUTQ_PUBREL_SENT.

#[export] Instance BrokerOutPubState_eq_dec : EqDecision BrokerOutPubState.
Proof. solve_decision. Defined.

Record BrokerOutPub : Set := mkOutPub {
  op_topic : list Z;
  op_payload : option (list Z);
  op_payload_len : Z;
  op_qos : Z;
  op_packet_id : Z;
  op_retain : Z;
  op_state : BrokerOutPubState;
  op_retransmit_dup : Z;
  op_enq_time : Z;
  op_enqueue_seq : Z;
  op_protocol_level : Z;
  op_props : list MqttProp
}.

Definition set_op_state (e : BrokerOutPub) (state : BrokerOutPubState) : BrokerOutPub :=
  mkOutPub (op_topic e) (op_payload e) (op_payload_len e) (op_qos e) (op_packet_id e)
    (op_retain e) state (op_retransmit_dup e) (op_enq_time e) (op_enqueue_seq e)
    (op_protocol_level e) (op_props e).
Definition set_op_dup (e : BrokerOutPub) (dup : Z) : BrokerOutPub :=
  mkOutPub (op_topic e) (op_payload e) (op_payload_len e) (op_qos e) (op_packet_id e)
    (op_retain e) (op_state e) dup (op_enq_time e) (op_enqueue_seq e)
    (op_protocol_level e) (op_props e).

(** [out_q_head], [out_q_count], [out_q_inflight] and [out_q_pending_len]. *)
Record OutQ : Set := mkOutQ {
  out_q : list BrokerOutPub;
  out_q_count : Z;
  out_q_inflight : Z;
  out_q_pending_len : Z
}.

(** ** Inbound QoS 2 identifiers *)

Record Qos2 : Set := mkQos2 {
  qos2_pending : list Z;
  qos2_pending_count : Z
}.

(** ** The Will of a client *)

Record Will : Set := mkWill {
  has_will : Z;
  will_topic : option (list Z);
  will_payload : option (list Z);
  will_payload_len : Z;
  will_qos : Z;
  will_retain : Z;
  will_delay_sec : Z
}.

(** ** Clients *)

(** The session fields. *)
Record ClientInfo : Set := mkInfo {
  bc_sock : Z;
  bc_client_id : option (list Z);
  bc_protocol_level : Z;
  bc_keep_alive_sec : Z;
  bc_last_rx : Z;
  bc_clean_session : Z;
  bc_connected : Z;
  bc_sub_count : Z;
  bc_session_expiry_sec : Z;
  bc_session_established : Z;
  bc_client_receive_max : Z
}.

(** The transport: the network callbacks, [client.write], [client.read] and
    [client.packet], the buffers, and the packet a write is in progress of. *)
Record Link (Net : Type) : Type := mkLink {
  lk_net : Net;
  lk_write : WriteIO;
  lk_tx : list Z;
  lk_read : NetIO;
  direct_pending_len : Z;
  connack_pending_len : Z;
  connack_refused : Z
}.
Arguments mkLink {Net}.
Arguments lk_net {Net}.
Arguments lk_write {Net}.
Arguments lk_tx {Net}.
Arguments lk_read {Net}.
Arguments direct_pending_len {Net}.
Arguments connack_pending_len {Net}.
Arguments connack_refused {Net}.

Record BrokerClient (Net : Type) : Type := mkClient {
  bc_addr : Z;
  bc_info : ClientInfo;
  bc_will : Will;
  bc_qos2 : Qos2;
  bc_outq : OutQ;
  bc_link : Link Net
}.
Arguments mkClient {Net}.
Arguments bc_addr {Net}.
Arguments bc_info {Net}.
Arguments bc_will {Net}.
Arguments bc_qos2 {Net}.
Arguments bc_outq {Net}.
Arguments bc_link {Net}.

Section Setters.
Context {Net : Type}.
Implicit Types (bc : BrokerClient Net) (l : Link Net).

Definition with_info bc (i : ClientInfo) : BrokerClient Net :=
  mkClient (bc_addr bc) i (bc_will bc) (bc_qos2 bc) (bc_outq bc) (bc_link bc).
Definition with_will bc (w : Will) : BrokerClient Net :=
  mkClient (bc_addr bc) (bc_info bc) w (bc_qos2 bc) (bc_outq bc) (bc_link bc).
Definition with_qos2 bc (q : Qos2) : BrokerClient Net :=
  mkClient (bc_addr bc) (bc_info bc) (bc_will bc) q (bc_outq bc) (bc_link bc).
Definition with_outq bc (q : OutQ) : BrokerClient Net :=
  mkClient (bc_addr bc) (bc_info bc) (bc_will bc) (bc_qos2 bc) q (bc_link bc).
Definition with_link bc l : BrokerClient Net :=
  mkClient (bc_addr bc) (bc_info bc) (bc_will bc) (bc_qos2 bc) (bc_outq bc) l.

Definition set_tx l (tx : list Z) : Link Net :=
  mkLink (lk_net l) (lk_write l) tx (lk_read l) (direct_pending_len l)
    (connack_pending_len l) (connack_refused l).
Definition set_io l (net : Net) (w : WriteIO) : Link Net :=
  mkLink net w (lk_tx l) (lk_read l) (direct_pending_len l) (connack_pending_len l)
    (connack_refused l).
Definition set_direct l (n : Z) : Link Net :=
  mkLink (lk_net l) (lk_write l) (lk_tx l) (lk_read l) n (connack_pending_len l)
    (connack_refused l).
Definition set_connack l (n refused : Z) : Link Net :=
  mkLink (lk_net l) (lk_write l) (lk_tx l) (lk_read l) (direct_pending_len l) n refused.
End Setters.

Definition set_sock (i : ClientInfo) (sock connected : Z) : ClientInfo :=
  mkInfo sock (bc_client_id i) (bc_protocol_level i) (bc_keep_alive_sec i) (bc_last_rx i)
    (bc_clean_session i) connected (bc_sub_count i) (bc_session_expiry_sec i)
    (bc_session_established i) (bc_client_receive_max i).
Definition set_last_rx (i : ClientInfo) (now : Z) : ClientInfo :=
  mkInfo (bc_sock i) (bc_client_id i) (bc_protocol_level i) (bc_keep_alive_sec i) now
    (bc_clean_session i) (bc_connected i) (bc_sub_count i) (bc_session_expiry_sec i)
    (bc_session_established i) (bc_client_receive_max i).
Definition set_sub_count (i : ClientInfo) (n : Z) : ClientInfo :=
  mkInfo (bc_sock i) (bc_client_id i) (bc_protocol_level i) (bc_keep_alive_sec i) (bc_last_rx i)
    (bc_clean_session i) (bc_connected i) n (bc_session_expiry_sec i)
    (bc_session_established i) (bc_client_receive_max i).
Definition set_expiry (i : ClientInfo) (sec : Z) : ClientInfo :=
  mkInfo (bc_sock i) (bc_client_id i) (bc_protocol_level i) (bc_keep_alive_sec i) (bc_last_rx i)
    (bc_clean_session i) (bc_connected i) (bc_sub_count i) sec
    (bc_session_established i) (bc_client_receive_max i).

(** ** The broker's tables *)

(** [BrokerSub]: [sub_client] is the address of the client, NULL once the
    client is gone. *)
Record BrokerSub : Set := mkSub {
  sub_filter : list Z;
  sub_client_id : option (list Z);
  sub_client : option Z;
  sub_qos : Z
}.

(** [BrokerOrphanSession]: what is kept of a session between connections. *)
Record BrokerOrphanSession : Set := mkOrphan {
  o_client_id : list Z;
  o_protocol_level : Z;
  o_session_expiry_sec : Z;
  o_orphan_since : Z;
  o_outq : OutQ;
  o_qos2 : Qos2
}.

Record BrokerRetainedMsg : Set := mkRetained {
  rm_topic : list Z;
  rm_payload : option (list Z);
  rm_payload_len : Z;
  rm_store_time : Z;
  rm_expiry_sec : Z;
  rm_qos : Z;
  rm_pending_delete : Z
}.

Record BrokerPendingWill : Set := mkPendingWill {
  pw_client_id : list Z;
  pw_topic : list Z;
  pw_payload : option (list Z);
  pw_payload_len : Z;
  pw_qos : Z;
  pw_retain : Z;
  pw_publish_time : Z
}.
