(* ===== verification/BrokerQos2.v ===== *)
(** * BrokerQos2: inbound QoS 2 identifiers ([mqtt_broker.c])

    The identifiers a client has sent a QoS 2 PUBLISH with and not yet a
    PUBREL: [BrokerInboundQos2_*] of a dynamic-memory build, and the decision
    [BrokerHandle_Publish] takes with them. A set with a cap is the
    specification. *)
From stdpp Require Import gmap.
From S2P Require Import Prelude PacketDefs BrokerDefs.

(** ** Operations *)

Fixpoint qos2_contains_loop (cur : list Z) (packet_id : Z) : bool :=
  match cur with
  | [] => false
  | id :: next => if id =? packet_id then true else qos2_contains_loop next packet_id
  end.

Definition BrokerInboundQos2_Contains (q : Qos2) (packet_id : Z) : bool :=
  if packet_id =? 0 then false else qos2_contains_loop (qos2_pending q) packet_id.

Definition BrokerInboundQos2_Add (mem : heap) (q : Qos2) (packet_id : Z) : Z * heap * Qos2 :=
  if packet_id =? 0 then (MQTT_CODE_ERROR_BAD_ARG, mem, q)
  else if BrokerInboundQos2_Contains q packet_id then (MQTT_CODE_SUCCESS, mem, q)
  else if BROKER_MAX_INBOUND_QOS2 <=? qos2_pending_count q then
    (MQTT_CODE_ERROR_OUT_OF_BUFFER, mem, q)
  else
    let '(ok, mem) := malloc mem in
    if negb ok then (MQTT_CODE_ERROR_MEMORY, mem, q)
    else (MQTT_CODE_SUCCESS, mem,
          mkQos2 (packet_id :: qos2_pending q) (qos2_pending_count q + 1)).

(** The first node with the identifier is unlinked: [None] when there is none. *)
Fixpoint qos2_unlink (cur : list Z) (packet_id : Z) : option (list Z) :=
  match cur with
  | [] => None
  | id :: next =>
    if id =? packet_id then Some next
    else match qos2_unlink next packet_id with
         | Some next => Some (id :: next)
         | None => None
         end
  end.

Definition BrokerInboundQos2_Remove (q : Qos2) (packet_id : Z) : Qos2 :=
  if packet_id =? 0 then q
  else
    match qos2_unlink (qos2_pending q) packet_id with
    | None => q
    | Some pending =>
        mkQos2 pending (if 0 <? qos2_pending_count q then qos2_pending_count q - 1
                        else qos2_pending_count q)
    end.

Definition BrokerInboundQos2_Clear : Qos2 := mkQos2 [] 0.

Definition BrokerInboundQos2_HasPending (q : Qos2) : bool := 0 <? qos2_pending_count q.

(** The state of the old client and the new one's, in that order. *)
Definition BrokerInboundQos2_Takeover (old : ClientInfo) (old_q new_q : Qos2) : bool * Qos2 * Qos2 :=
  let old_persists := bc_clean_session old =? 0 in
  let old_persists :=
    if MQTT_CONNECT_PROTOCOL_LEVEL_5 <=? bc_protocol_level old
    then negb (bc_session_expiry_sec old =? 0) else old_persists in
  if negb old_persists || negb (BrokerInboundQos2_HasPending old_q) then (false, old_q, new_q)
  else (true, BrokerInboundQos2_Clear, old_q).

(** The decision of [BrokerHandle_Publish] about a QoS 2 PUBLISH. *)
Inductive Qos2Verdict : Set :=
  | Qos2_New
  | Qos2_Duplicate
  | Qos2_Refused (rc : Z).

#[export] Instance Qos2Verdict_eq_dec : EqDecision Qos2Verdict.
Proof. solve_decision. Defined.

Definition publish_qos2_check (mem : heap) (q : Qos2) (packet_id : Z) : Qos2Verdict * heap * Qos2 :=
  if BrokerInboundQos2_Contains q packet_id then (Qos2_Duplicate, mem, q)
  else
    let '(add_rc, mem, q) := BrokerInboundQos2_Add mem q packet_id in
    if negb (add_rc =? MQTT_CODE_SUCCESS) then (Qos2_Refused add_rc, mem, q) else (Qos2_New, mem, q).

(** What a client sends of its QoS 2 handshakes, and how the broker takes it:
    a PUBLISH by the verdict, a PUBREL by whether its identifier was tracked. *)
Inductive Qos2Event : Set :=
  | Q2_Publish (packet_id : Z)
  | Q2_PubRel (packet_id : Z).

#[export] Instance Qos2Event_eq_dec : EqDecision Qos2Event.
Proof. solve_decision. Defined.

Definition q2_step (mem : heap) (q : Qos2) (ev : Qos2Event) : (Qos2Verdict + bool) * heap * Qos2 :=
  match ev with
  | Q2_Publish id => let '(v, mem, q) := publish_qos2_check mem q id in (inl v, mem, q)
  | Q2_PubRel id =>
      (inr (BrokerInboundQos2_Contains q id), mem, BrokerInboundQos2_Remove q id)
  end.

Fixpoint q2_run (mem : heap) (q : Qos2) (evs : list Qos2Event) : list (Qos2Verdict + bool) * heap * Qos2 :=
  match evs with
  | [] => ([], mem, q)
  | ev :: evs =>
    let '(out, mem, q) := q2_step mem q ev in
    let '(outs, mem, q) := q2_run mem q evs in
    (out :: outs, mem, q)
  end.

(** ** Specification: a set of at most [BROKER_MAX_INBOUND_QOS2] identifiers *)

Definition q2_spec_step (mem : heap) (T : gset Z) (ev : Qos2Event)
    : (Qos2Verdict + bool) * heap * gset Z :=
  match ev with
  | Q2_Publish id =>
    if decide (id ∈ T) then (inl Qos2_Duplicate, mem, T)
    else if decide (BROKER_MAX_INBOUND_QOS2 <= Z.of_nat (size T))
    then (inl (Qos2_Refused MQTT_CODE_ERROR_OUT_OF_BUFFER), mem, T)
    else
      let '(ok, mem) := malloc mem in
      if negb ok then (inl (Qos2_Refused MQTT_CODE_ERROR_MEMORY), mem, T)
      else (inl Qos2_New, mem, {[id]} ∪ T)
  | Q2_PubRel id => (inr (bool_decide (id ∈ T)), mem, T ∖ {[id]})
  end.

Fixpoint q2_spec_run (mem : heap) (T : gset Z) (evs : list Qos2Event)
    : list (Qos2Verdict + bool) * heap * gset Z :=
  match evs with
  | [] => ([], mem, T)
  | ev :: evs =>
    let '(out, mem, T) := q2_spec_step mem T ev in
    let '(outs, mem, T) := q2_spec_run mem T evs in
    (out :: outs, mem, T)
  end.

(** The decoders refuse a Packet Identifier of zero. *)
Definition q2_id (ev : Qos2Event) : Z := match ev with Q2_Publish id | Q2_PubRel id => id end.
Definition q2_valid (ev : Qos2Event) : Prop := q2_id ev <> 0.

#[export] Instance q2_valid_dec ev : Decision (q2_valid ev).
Proof. unfold q2_valid. apply _. Defined.

(** The list and its counter represent a set. *)
Record qos2_rep (q : Qos2) (T : gset Z) : Prop := {
  q2_elements : forall id, id ∈ qos2_pending q <-> id ∈ T;
  q2_nodup : NoDup (qos2_pending q);
  q2_count : qos2_pending_count q = len (qos2_pending q);
  q2_nonzero : 0 ∉ T;
  q2_cap : len (qos2_pending q) <= BROKER_MAX_INBOUND_QOS2
}.

(** ** The operations implement the set *)

Lemma qos2_contains_spec l id : qos2_contains_loop l id = bool_decide (id ∈ l).
Proof.
  induction l as [|x l IH]; cbn [qos2_contains_loop]; [done|].
  destruct (Z.eqb_spec x id) as [->|Hne]; [symmetry; apply bool_decide_eq_true; constructor|].
  rewrite IH. apply bool_decide_ext. rewrite elem_of_cons. split; [by right|intros [?|?]; congruence].
Qed.

Lemma qos2_unlink_spec l id :
  NoDup l ->
  match qos2_unlink l id with
  | None => id ∉ l
  | Some l' => id ∈ l /\ NoDup l' /\ len l' = len l - 1 /\ forall x, x ∈ l' <-> x ∈ l /\ x <> id
  end.
Proof.
  induction 1 as [|x l Hx Hl IH]; cbn [qos2_unlink]; [by apply not_elem_of_nil|].
  destruct (Z.eqb_spec x id) as [->|Hne].
  - rewrite len_cons. split_and!; [constructor|done|lia|].
    intros y. rewrite elem_of_cons. split; [intros Hy; split; [by right|congruence]|].
    intros [[->|?] ?]; done.
  - destruct (qos2_unlink l id) as [l'|].
    + destruct IH as (Hin & Hnd & Hlen & Hel). rewrite !len_cons. split_and!; [by constructor| |lia|].
      * constructor; [|done]. rewrite Hel. by intros [? _].
      * intros y. rewrite !elem_of_cons, Hel. split; [intros [->|[? ?]]; auto|]. intros [[->|?] ?]; auto.
    + rewrite not_elem_of_cons. done.
Qed.

Lemma qos2_rep_size q T : qos2_rep q T -> qos2_pending_count q = Z.of_nat (size T).
Proof.
  intros H. rewrite (q2_count _ _ H). unfold len. f_equal.
  rewrite <- (size_list_to_set (C := gset Z)) by apply (q2_nodup _ _ H). f_equal.
  apply set_eq. intros x. rewrite elem_of_list_to_set. apply (q2_elements _ _ H).
Qed.

Lemma BrokerInboundQos2_Contains_spec q T id :
  qos2_rep q T -> BrokerInboundQos2_Contains q id = bool_decide (id ∈ T).
Proof.
  intros H. unfold BrokerInboundQos2_Contains. destruct (Z.eqb_spec id 0) as [->|].
  - symmetry. apply bool_decide_eq_false, (q2_nonzero _ _ H).
  - rewrite qos2_contains_spec. apply bool_decide_ext, (q2_elements _ _ H).
Qed.

Lemma BrokerInboundQos2_Remove_rep q T id :
  qos2_rep q T -> qos2_rep (BrokerInboundQos2_Remove q id) (T ∖ {[id]}).
Proof.
  intros H. pose proof H as [He Hn Hc Hz Hcap]. unfold BrokerInboundQos2_Remove.
  assert (Hnone : id ∉ T -> qos2_rep q (T ∖ {[id]})).
  { intros Hid. by replace (T ∖ {[id]}) with T by set_solver. }
  destruct (Z.eqb_spec id 0) as [->|]; [by apply Hnone|].
  pose proof (qos2_unlink_spec (qos2_pending q) id Hn) as Hu.
  destruct (qos2_unlink (qos2_pending q) id) as [l|].
  - destruct Hu as (Hin & Hnd & Hlen & Hel). pose proof (len_nonneg l).
    rewrite (proj2 (Z.ltb_lt _ _)) by lia. constructor; cbn [qos2_pending qos2_pending_count].
    + intros x. rewrite Hel, He. set_solver.
    + done.
    + lia.
    + set_solver.
    + lia.
  - apply Hnone. by rewrite <- He.
Qed.

Lemma publish_qos2_check_rep mem q T id :
  qos2_rep q T -> id <> 0 ->
  exists v mem' q' T',
    publish_qos2_check mem q id = (v, mem', q') /\
    q2_spec_step mem T (Q2_Publish id) = (inl v, mem', T') /\ qos2_rep q' T'.
Proof.
  intros H Hid. pose proof H as [He Hn Hc Hz Hcap]. unfold publish_qos2_check, BrokerInboundQos2_Add.
  cbn [q2_spec_step]. rewrite (BrokerInboundQos2_Contains_spec _ _ _ H).
  destruct (decide (id ∈ T)) as [Hin|Hin].
  { rewrite bool_decide_eq_true_2 by done. by eexists _, _, _, _. }
  rewrite bool_decide_eq_false_2 by done. rewrite (proj2 (Z.eqb_neq id 0)) by done.
  rewrite <- (qos2_rep_size _ _ H).
  destruct (Z.leb_spec BROKER_MAX_INBOUND_QOS2 (qos2_pending_count q)).
  { rewrite decide_True by done. by eexists _, _, _, _. }
  rewrite decide_False by lia. destruct (malloc mem) as [[|] mem']; cbn [negb Z.eqb].
  - eexists _, _, _, _. split; [reflexivity|]. split; [reflexivity|].
    constructor; cbn [qos2_pending qos2_pending_count].
    + intros x. rewrite elem_of_cons, He. set_solver.
    + constructor; [by rewrite He|done].
    + rewrite len_cons. lia.
    + set_solver.
    + rewrite len_cons. lia.
  - by eexists _, _, _, _.
Qed.

Lemma q2_step_rep mem q T ev :
  qos2_rep q T -> q2_valid ev ->
  exists out mem' q' T',
    q2_step mem q ev = (out, mem', q') /\ q2_spec_step mem T ev = (out, mem', T') /\ qos2_rep q' T'.
Proof.
  intros H Hv. destruct ev as [id|id].
  - destruct (publish_qos2_check_rep mem q T id H Hv) as (v & mem' & q' & T' & E & Es & Hr).
    exists (inl v), mem', q', T'. split_and!; [|done|done]. cbn [q2_step]. by rewrite E.
  - eexists _, _, _, _. split; [reflexivity|]. split; [|by apply BrokerInboundQos2_Remove_rep].
    cbn [q2_spec_step]. by rewrite (BrokerInboundQos2_Contains_spec _ _ _ H).
Qed.

Lemma q2_run_rep mem q T evs :
  qos2_rep q T -> Forall q2_valid evs ->
  exists outs mem' q' T',
    q2_run mem q evs = (outs, mem', q') /\ q2_spec_run mem T evs = (outs, mem', T') /\ qos2_rep q' T'.
Proof.
  intros H Hv. revert mem q T H. induction Hv as [|ev evs Hev _ IH]; intros mem q T H.
  { by eexists [], mem, q, T. }
  destruct (q2_step_rep mem q T ev H Hev) as (out & mem1 & q1 & S1 & E & Es & H1).
  destruct (IH mem1 q1 S1 H1) as (outs & mem2 & q2 & S2 & E2 & Es2 & H2).
  exists (out :: outs), mem2, q2, S2. cbn [q2_run q2_spec_run]. rewrite E, Es, E2, Es2. done.
Qed.

Lemma qos2_rep_empty : qos2_rep BrokerInboundQos2_Clear ∅.
Proof. constructor; [set_solver|constructor|done|set_solver|by vm_compute]. Qed.

Lemma qos2_rep_has_pending q T : qos2_rep q T -> BrokerInboundQos2_HasPending q = bool_decide (T <> ∅).
Proof.
  intros H. unfold BrokerInboundQos2_HasPending. rewrite (qos2_rep_size _ _ H).
  destruct (decide (T = ∅)) as [->|Hne].
  - rewrite bool_decide_eq_false_2 by tauto. by rewrite size_empty.
  - rewrite bool_decide_eq_true_2 by done. apply Z.ltb_lt.
    assert (size T <> 0%nat) by (rewrite size_empty_iff; set_solver). lia.
Qed.

Lemma q2_spec_run_length mem T evs : length (q2_spec_run mem T evs).1.1 = length evs.
Proof.
  revert mem T. induction evs as [|ev evs IH]; intros mem T; [done|]. cbn [q2_spec_run].
  destruct (q2_spec_step mem T ev) as [[out mem1] S1]. specialize (IH mem1 S1).
  destruct (q2_spec_run mem1 S1 evs) as [[outs mem2] S2]. cbn in *. by rewrite IH.
Qed.

Lemma q2_spec_run_app mem T a b :
  q2_spec_run mem T (a ++ b) =
    let '(o1, mem, T) := q2_spec_run mem T a in
    let '(o2, mem, T) := q2_spec_run mem T b in (o1 ++ o2, mem, T).
Proof.
  revert mem T. induction a as [|ev a IH]; intros mem T; cbn [q2_spec_run app].
  { by destruct (q2_spec_run mem T b) as [[? ?] ?]. }
  destruct (q2_spec_step mem T ev) as [[out mem1] S1]. rewrite IH.
  destruct (q2_spec_run mem1 S1 a) as [[o1 mem2] S2].
  by destruct (q2_spec_run mem2 S2 b) as [[o2 mem3] S3].
Qed.

(** ** The history of an identifier *)

(** Before event [i] the identifier is being delivered: it was tracked at the
    start, or a PUBLISH with it was delivered, and no PUBREL followed. *)
Definition q2_tracked (T : gset Z) (evs : list Qos2Event) (outs : list (Qos2Verdict + bool)) (i : nat) (id : Z) : Prop :=
  (id ∈ T /\ forall k, (k < i)%nat -> evs !! k <> Some (Q2_PubRel id)) \/
  (exists k, (k < i)%nat /\ evs !! k = Some (Q2_Publish id) /\ outs !! k = Some (inl Qos2_New) /\
     forall j, (k < j < i)%nat -> evs !! j <> Some (Q2_PubRel id)).

Lemma q2_tracked_0 T evs outs id : q2_tracked T evs outs 0 id <-> id ∈ T.
Proof. split; [intros [[? _]|(k & ? & _)]; [done|lia]|]. intros ?. left. split; [done|lia]. Qed.

Lemma q2_tracked_S T evs outs i id :
  q2_tracked T evs outs (S i) id <->
    (q2_tracked T evs outs i id /\ evs !! i <> Some (Q2_PubRel id)) \/
    (evs !! i = Some (Q2_Publish id) /\ outs !! i = Some (inl Qos2_New)).
Proof.
  split.
  - intros [[Hid Hno]|(k & Hk & He & Ho & Hno)].
    + left. split; [left|apply Hno; lia]. split; [done|]. intros j Hj. apply Hno. lia.
    + destruct (decide (k = i)) as [->|]; [by right|]. left. split; [right|apply Hno; lia].
      exists k. split_and!; [lia|done..|]. intros j Hj. apply Hno. lia.
  - assert (Hlt : forall j, (j < S i)%nat -> j <> i -> (j < i)%nat) by lia.
    intros [[[[Hid Hno]|(k & Hk & He & Ho & Hno)] Hi]|[He Ho]].
    + left. split; [done|]. intros j Hj. destruct (decide (j = i)) as [->|]; [done|]. apply Hno. lia.
    + right. exists k. split_and!; [lia|done..|]. intros j Hj. destruct (decide (j = i)) as [->|]; [done|]. apply Hno. lia.
    + right. exists i. split_and!; [lia|done..|lia].
Qed.

Lemma malloc_false mem ok mem' : malloc mem = (ok, mem') -> false ∈ mem' \/ ok = false -> false ∈ mem.
Proof. destruct mem as [|b mem]; [intros [= <- <-] [?|?]; done|]. intros [= <- <-] [?|?]; [by right|subst; by left]. Qed.

(** A step, in terms of the set before it. *)
Lemma q2_spec_step_sets mem T ev out mem' T' :
  q2_spec_step mem T ev = (out, mem', T') ->
  (false ∈ mem' -> false ∈ mem) /\
  forall x, x ∈ T' <-> (x ∈ T /\ ev <> Q2_PubRel x) \/ (ev = Q2_Publish x /\ out = inl Qos2_New).
Proof.
  destruct ev as [id|id]; cbn [q2_spec_step].
  2: { intros [= <- <- <-]. split; [done|]. intros x. rewrite elem_of_difference, elem_of_singleton. naive_solver. }
  destruct (decide (id ∈ T)) as [Hid|Hid]; [intros [= <- <- <-]; split; [done|]; naive_solver|].
  destruct (decide _); [intros [= <- <- <-]; split; [done|]; naive_solver|].
  destruct (malloc mem) as [[|] mem1] eqn:Em; intros [= <- <- <-];
    (split; [intros ?; eapply malloc_false; [exact Em|by left]|]); intros x; [set_solver|naive_solver].
Qed.

(** A run, cut at an event. *)
Lemma q2_spec_run_split mem T evs outs mem' T' i ev :
  q2_spec_run mem T evs = (outs, mem', T') -> evs !! i = Some ev ->
  exists memi Ti out memj Tj, q2_spec_run mem T (take i evs) = (take i outs, memi, Ti) /\
    q2_spec_step memi Ti ev = (out, memj, Tj) /\ outs !! i = Some out /\
    q2_spec_run mem T (take (S i) evs) = (take (S i) outs, memj, Tj).
Proof.
  intros E Hi. rewrite (take_S_r _ _ _ Hi). rewrite <- (take_drop_middle evs i ev Hi) in E.
  rewrite q2_spec_run_app in E |- *. cbn [q2_spec_run] in E |- *. pose proof (q2_spec_run_length mem T (take i evs)) as Hl.
  destruct (q2_spec_run mem T (take i evs)) as [[o1 memi] Ti] eqn:E1.
  destruct (q2_spec_step memi Ti ev) as [[out memj] Tj] eqn:E2.
  destruct (q2_spec_run memj Tj (drop (S i) evs)) as [[o2 mem3] T3]. injection E as <- _ _. cbn in Hl.
  rewrite length_take_le in Hl by (apply lookup_lt_Some in Hi; lia).
  exists memi, Ti, out, memj, Tj.
  assert (Ho : (o1 ++ out :: o2) !! i = Some out) by (rewrite lookup_app_r, Hl, Nat.sub_diag; [done|lia]).
  rewrite (take_S_r _ _ _ Ho), <- Hl, take_app_length. rewrite Hl. done.
Qed.

(** The set before each event holds the identifiers that are being delivered. *)
Lemma q2_spec_run_at mem T evs outs mem' T' i :
  q2_spec_run mem T evs = (outs, mem', T') -> (i <= length evs)%nat ->
  exists memi Ti, q2_spec_run mem T (take i evs) = (take i outs, memi, Ti) /\
    (false ∈ memi -> false ∈ mem) /\ (forall x, x ∈ Ti <-> q2_tracked T evs outs i x).
Proof.
  intros E. induction i as [|i IH]; intros Hi.
  { exists mem, T. split_and!; [done|done|]. intros x. by rewrite q2_tracked_0. }
  destruct IH as (memi & Ti & Ei & Hm & Hset); [lia|].
  destruct (lookup_lt_is_Some_2 evs i ltac:(lia)) as [ev Hev].
  destruct (q2_spec_run_split _ _ _ _ _ _ i ev E Hev) as (memi' & Ti' & out & memj & Tj & Ei' & Es & Ho & Ej).
  rewrite Ei in Ei'. injection Ei' as <- <-. destruct (q2_spec_step_sets _ _ _ _ _ _ Es) as [Hm' Hset'].
  exists memj, Tj. split_and!; [done|by auto|]. intros x.
  rewrite q2_tracked_S, Hset', Hset, Hev, Ho. naive_solver.
Qed.

(** ** Properties *)



(** Through any sequence of PUBLISH and PUBREL and any failures of the
    allocator, the list of tracked identifiers and its counter behave as a set
    of at most [BROKER_MAX_INBOUND_QOS2] identifiers: an identifier in the set
    is a duplicate, a new one is added when there is room and memory and
    refused with the code for the cap or for memory otherwise, and PUBREL
    removes it. *)
Theorem BrokerInboundQos2_refines mem q T evs :
  qos2_rep q T -> Forall q2_valid evs ->
  exists outs mem' q' T',
    q2_run mem q evs = (outs, mem', q') /\ q2_spec_run mem T evs = (outs, mem', T') /\
    qos2_rep q' T' /\ BrokerInboundQos2_HasPending q' = bool_decide (T' <> ∅).
Proof.
  intros H Hv. destruct (q2_run_rep mem q T evs H Hv) as (outs & mem' & q' & T' & E & Es & Hr).
  exists outs, mem', q', T'. split_and!; try done. by apply qos2_rep_has_pending.
Qed.

Lemma BrokerInboundQos2_refines_witness :
  let evs := map Q2_Publish (map Z.of_nat (seq 1 17)) ++ [Q2_Publish 3; Q2_PubRel 3; Q2_Publish 18] in
  exists outs mem' q' T',
    q2_run [true; false] BrokerInboundQos2_Clear evs = (outs, mem', q') /\
    q2_spec_run [true; false] ∅ evs = (outs, mem', T') /\
    qos2_rep q' T' /\ BrokerInboundQos2_HasPending q' = bool_decide (T' <> ∅).
Proof.
  intros evs. refine (BrokerInboundQos2_refines _ _ _ evs qos2_rep_empty _). by_eval.
Defined.
