(* ===== verification/BrokerAuth.v ===== *)
(** * BrokerAuth: the comparison of credentials ([mqtt_broker.c])

    [BrokerBufCompare], [BrokerStrLenBounded] and [BrokerStrCompare], whose loops
    do not depend on the secrets they compare, and the credential check of
    [BrokerHandle_Connect]. *)
From S2P Require Import Prelude PacketDefs Wire Topic BrokerDefs.

(** ** Operations *)

(** [0u - (unsigned int)(i < len)]. *)
Definition below_mask (i n : Z) : Z := u32 (0 - (if i <? n then 1 else 0)).

Fixpoint buf_compare_loop (fuel : nat) (a : list Z) (len_a : Z) (b : list Z) (len_b i cmp_len acc : Z) : result Z :=
  match fuel with
  | O => UB
  | S fuel =>
    if i <? cmp_len then
      x ← rd a (Z.land i (below_mask i len_a));
      y ← rd b (Z.land i (below_mask i len_b));
      buf_compare_loop fuel a len_a b len_b (i + 1) cmp_len (Z.lor acc (Z.lxor x y))
    else Ok acc
  end.

Definition BrokerBufCompare (a : list Z) (len_a : Z) (b : list Z) (len_b cmp_len : Z) : result Z :=
  acc ← buf_compare_loop (S (Z.to_nat cmp_len)) a len_a b len_b 0 cmp_len 0;
  let acc := Z.lor acc (Z.lxor len_a len_b) in
  let acc := Z.lor acc (if cmp_len <=? len_a then 1 else 0) in
  Ok (Z.lor acc (if cmp_len <=? len_b then 1 else 0)).

Fixpoint str_len_loop (fuel : nat) (s : list Z) (len idx done i max_len : Z) : result Z :=
  match fuel with
  | O => UB
  | S fuel =>
    if i <? max_len then
      c ← rd s idx;
      let atNul := if c =? 0 then 1 else 0 in
      let done := Z.lor done atNul in
      let step := if done =? 0 then 1 else 0 in
      str_len_loop fuel s (len + step) (idx + step) done (i + 1) max_len
    else Ok len
  end.

Definition BrokerStrLenBounded (s : list Z) (max_len : Z) : result Z :=
  str_len_loop (S (Z.to_nat max_len)) s 0 0 0 0 max_len.

Definition BrokerStrCompare (a b : list Z) (cmp_len : Z) : result Z :=
  len_a ← BrokerStrLenBounded a cmp_len;
  len_b ← BrokerStrLenBounded b cmp_len;
  BrokerBufCompare a len_a b len_b cmp_len.

(** A heap string or buffer with the terminator behind it. *)
Definition terminated (s : list Z) : list Z := s ++ [0].

(** The configured name rejects the client's. *)
Definition user_differs (auth_user username : option (list Z)) : result bool :=
  match auth_user with
  | None => Ok false
  | Some a =>
    match username with
    | None => Ok true
    | Some u =>
      c ← rd (terminated u) 0;
      if c =? 0 then Ok true
      else r ← BrokerStrCompare (terminated a) (terminated u) BROKER_MAX_USERNAME_LEN; Ok (negb (r =? 0))
    end
  end.

Definition pass_differs (auth_pass password : option (list Z)) (password_len : Z) : result bool :=
  match auth_pass with
  | None => Ok false
  | Some a =>
    match password with
    | None => Ok true
    | Some p =>
      if password_len =? 0 then Ok true
      else
        len_a ← BrokerStrLenBounded (terminated a) BROKER_MAX_PASSWORD_LEN;
        r ← BrokerBufCompare (terminated a) len_a (terminated p) password_len BROKER_MAX_PASSWORD_LEN;
        Ok (negb (r =? 0))
    end
  end.

(** Whether the connection is authorised: [auth_ok], or no credentials are
    configured. *)
Definition auth_check (auth_user auth_pass username password : option (list Z)) (password_len : Z) : result bool :=
  match auth_user, auth_pass with
  | None, None => Ok true
  | _, _ =>
    let auth_ok := match auth_user, auth_pass with Some _, Some _ => true | _, _ => false end in
    user_bad ← user_differs auth_user username;
    let auth_ok := if (user_bad : bool) then false else auth_ok in
    pass_bad ← pass_differs auth_pass password password_len;
    Ok (if (pass_bad : bool) then false else auth_ok)
  end.

(** ** The comparison *)

Lemma below_mask_land i n : 0 <= i < 2147483648 -> Z.land i (below_mask i n) = if i <? n then i else 0.
Proof.
  intros Hi. unfold below_mask. destruct (i <? n); [|apply Z.land_0_r].
  change (u32 (0 - 1)) with (Z.ones 32). rewrite Z.land_ones by lia. apply Z.mod_small. lia.
Qed.

Lemma lor_zero a b : Z.lor a b = 0 <-> a = 0 /\ b = 0.
Proof. apply Z.lor_eq_0_iff. Qed.

(** The bytes a round looks at. *)
Definition seen (a : list Z) (la i : Z) : Z := default 0 (a !! Z.to_nat (if i <? la then i else 0)).

Lemma rd_seen a la i : 0 <= i < 2147483648 -> la <= len a -> 0 < len a -> rd a (Z.land i (below_mask i la)) = Ok (seen a la i).
Proof.
  intros Hi Hl Hn. rewrite below_mask_land by done. unfold rd, seen. destruct (Z.ltb_spec i la) as [H|H].
  - rewrite (proj2 (Z.leb_le 0 i)) by lia. destruct (lookup_lt_is_Some_2 a (Z.to_nat i)) as [x ->]; [unfold len in *; lia|done].
  - change (0 <=? 0) with true. cbn [Z.to_nat]. destruct (lookup_lt_is_Some_2 a (Z.to_nat 0)) as [x E]; [unfold len in *; lia|].
    change (Z.to_nat 0) with 0%nat in *. by rewrite E.
Qed.

Lemma buf_compare_loop_spec fuel a la b lb i n r :
  la <= len a -> lb <= len b -> 0 < len a -> 0 < len b -> 0 <= i -> n < 2147483648 -> (Z.to_nat (n - i) < fuel)%nat ->
  exists r', buf_compare_loop fuel a la b lb i n r = Ok r' /\
    (r' = 0 <-> r = 0 /\ forall j, i <= j < n -> seen a la j = seen b lb j).
Proof.
  intros Hla Hlb Ha Hb. revert i r. induction fuel as [|fuel IH]; intros i r Hi Hn Hf; [lia|].
  cbn [buf_compare_loop]. destruct (Z.ltb_spec i n) as [Hlt|Hge].
  - rewrite !rd_seen by (done || lia). cbn [mbind result_bind].
    destruct (IH (i + 1) (Z.lor r (Z.lxor (seen a la i) (seen b lb i)))) as (r' & -> & Hr); [lia|lia|lia|].
    exists r'. split; [done|]. rewrite Hr, lor_zero, Z.lxor_eq_0_iff. split.
    + intros [[H0 H1] H2]. split; [done|]. intros j Hj. destruct (Z.eq_dec j i) as [->|]; [done|apply H2; lia].
    + intros [H0 H1]. split; [split; [done|apply H1; lia]|]. intros j Hj. apply H1. lia.
  - exists r. split; [done|]. split; [intros ->; split; [done|lia]|by intros []].
Qed.

(** [BrokerBufCompare] answers 0 only for equal contents shorter than the
    bound, and for those unless they are empty. *)
Lemma BrokerBufCompare_spec a la b lb n :
  0 <= la <= len a -> 0 <= lb <= len b -> 0 < len a -> 0 < len b -> 0 <= n < 2147483648 ->
  exists r, BrokerBufCompare a la b lb n = Ok r /\
    (r = 0 -> la < n /\ lb < n /\ take (Z.to_nat la) a = take (Z.to_nat lb) b) /\
    (0 < la -> la < n -> lb < n -> take (Z.to_nat la) a = take (Z.to_nat lb) b -> r = 0).
Proof.
  intros Hla Hlb Ha Hb Hn. unfold BrokerBufCompare.
  destruct (buf_compare_loop_spec (S (Z.to_nat n)) a la b lb 0 n 0) as (r' & -> & Hr); [lia..|].
  cbn [mbind result_bind]. eexists. split; [done|]. rewrite !lor_zero, Z.lxor_eq_0_iff, Hr.
  assert (Hbit : forall x y : Z, (if x <=? y then 1 else 0) = 0 <-> y < x).
  { intros x y. destruct (Z.leb_spec x y); lia. }
  rewrite !Hbit. split.
  - intros [[[[_ H] El] Hl1] Hl2]. split; [done|]. split; [done|]. subst lb. apply list_eq. intros k.
    destruct (decide (k < Z.to_nat la)%nat) as [Hk|Hk]; [|by rewrite !lookup_take_ge by lia].
    rewrite !lookup_take_lt by done. specialize (H (Z.of_nat k) ltac:(lia)). unfold seen in H.
    rewrite (proj2 (Z.ltb_lt _ _)), Nat2Z.id in H by lia.
    destruct (lookup_lt_is_Some_2 a k) as [x Ex]; [unfold len in *; lia|].
    destruct (lookup_lt_is_Some_2 b k) as [y Ey]; [unfold len in *; lia|].
    rewrite Ex, Ey in *. cbn in H. by subst.
  - intros Hpos Hl1 Hl2 E. assert (El : la = lb).
    { apply (f_equal (@length Z)) in E. rewrite !length_take in E. unfold len in *. lia. }
    subst lb. split; [split; [split; [split; [done|]|done]|done]|done].
    intros j Hj. unfold seen. apply (f_equal (fun l => l !! Z.to_nat (if j <? la then j else 0))) in E.
    rewrite !lookup_take_lt in E by (destruct (Z.ltb_spec j la); lia). by rewrite E.
Qed.

(** Past the terminator the length stays. *)
Lemma str_len_loop_done fuel s n idx done i max :
  done <> 0 -> 0 <= idx < len s -> 0 <= i -> (Z.to_nat (max - i) < fuel)%nat ->
  str_len_loop fuel s n idx done i max = Ok n.
Proof.
  revert done i. induction fuel as [|fuel IH]; intros done i Hd Hidx Hi Hf; [lia|]. cbn [str_len_loop].
  destruct (Z.ltb_spec i max); [|done]. unfold rd. rewrite (proj2 (Z.leb_le 0 idx)) by lia.
  destruct (lookup_lt_is_Some_2 s (Z.to_nat idx)) as [c ->]; [unfold len in *; lia|]. cbn [mbind result_bind].
  cbv zeta. assert (Hd' : Z.lor done (if c =? 0 then 1 else 0) <> 0) by (rewrite lor_zero; tauto).
  rewrite (proj2 (Z.eqb_neq _ _) Hd'), !Z.add_0_r. apply IH; [done|done|lia|lia].
Qed.

Lemma str_len_loop_spec fuel s i max :
  Forall (fun c => c <> 0) s -> 0 <= i <= len s -> i <= max -> (Z.to_nat (max - i) < fuel)%nat ->
  str_len_loop fuel (terminated s) i i 0 i max = Ok (Z.min max (len s)).
Proof.
  intros Hs. revert i. induction fuel as [|fuel IH]; intros i Hi Hm Hf; [lia|]. cbn [str_len_loop].
  destruct (Z.ltb_spec i max); [|f_equal; lia]. unfold terminated, rd. rewrite (proj2 (Z.leb_le 0 i)) by lia.
  destruct (Z.eq_dec i (len s)) as [->|Hne].
  - replace (Z.to_nat (len s)) with (length s) by (unfold len; lia). rewrite lookup_app_r, Nat.sub_diag by done. cbn [lookup list_lookup mbind result_bind].
    cbv zeta. change (Z.lor 0 (if 0 =? 0 then 1 else 0) =? 0) with false. cbv iota. rewrite Z.add_0_r.
    rewrite str_len_loop_done; [f_equal; lia|done| |lia|lia]. rewrite len_app. change (len [0]) with 1. lia.
  - rewrite lookup_app_l by (unfold len in *; lia).
    destruct (lookup_lt_is_Some_2 s (Z.to_nat i)) as [c E]; [unfold len in *; lia|]. rewrite E. cbn [mbind result_bind].
    rewrite list.Forall_forall in Hs. specialize (Hs c (list_elem_of_lookup_2 _ _ _ E)).
    cbv zeta. rewrite (proj2 (Z.eqb_neq c 0) Hs). change (Z.lor 0 0) with 0. rewrite Z.eqb_refl.
    apply IH; lia.
Qed.

Lemma BrokerStrLenBounded_spec s max :
  Forall (fun c => c <> 0) s -> 0 <= max -> BrokerStrLenBounded (terminated s) max = Ok (Z.min max (len s)).
Proof. intros Hs Hm. apply str_len_loop_spec; [done|pose proof (len_nonneg s); lia|lia|lia]. Qed.

Lemma take_terminated s n : 0 <= n <= len s -> take (Z.to_nat n) (terminated s) = take (Z.to_nat n) s.
Proof. intros Hn. unfold terminated. rewrite take_app_le; [done|unfold len in Hn; lia]. Qed.

Lemma take_all (s : list Z) : take (Z.to_nat (len s)) s = s.
Proof. apply take_ge. unfold len. lia. Qed.

Lemma len_terminated s : len (terminated s) = len s + 1.
Proof. unfold terminated. rewrite len_app. reflexivity. Qed.

(** Comparing a C string with contents of [lb] bytes. *)
Lemma compare_string a b lb n :
  Forall (fun c => c <> 0) a -> 0 < lb <= len b -> 0 <= n < 2147483648 ->
  exists r, (len_a ← BrokerStrLenBounded (terminated a) n; BrokerBufCompare (terminated a) len_a (terminated b) lb n) = Ok r /\
    (r = 0 <-> a = take (Z.to_nat lb) b /\ lb < n).
Proof.
  intros Ha Hlb Hn. rewrite BrokerStrLenBounded_spec by (done || lia). cbn [mbind result_bind].
  pose proof (len_nonneg a). pose proof (len_terminated a). pose proof (len_terminated b).
  destruct (BrokerBufCompare_spec (terminated a) (Z.min n (len a)) (terminated b) lb n) as (r & -> & Hz & Heq); [lia..|].
  exists r. split; [done|]. rewrite !take_terminated in Hz, Heq by lia. split.
  - intros Hr0. destruct (Hz Hr0) as (Hz1 & Hz2 & Hz3). rewrite Z.min_r, take_all in Hz3 by lia. done.
  - intros [-> Hl]. assert (El : len (take (Z.to_nat lb) b) = lb) by (apply len_take; lia). rewrite El in *.
    rewrite Z.min_r in Heq by lia. apply Heq; [lia|lia|lia|]. rewrite take_take. f_equal. lia.
Qed.

Lemma user_differs_spec auth_user username :
  (forall a, auth_user = Some a -> Forall (fun c => c <> 0) a) ->
  (forall u, username = Some u -> Forall (fun c => c <> 0) u) ->
  exists b, user_differs auth_user username = Ok b /\
    (b = false <-> forall a, auth_user = Some a -> username = Some a /\ 0 < len a < BROKER_MAX_USERNAME_LEN).
Proof.
  intros Ha Hu. unfold user_differs. destruct auth_user as [a|]; [|by exists false].
  specialize (Ha a eq_refl). destruct username as [u|].
  2: { exists true. split; [done|]. split; [done|]. intros H. by destruct (H a eq_refl). }
  specialize (Hu u eq_refl). destruct u as [|c u].
  { exists true. split; [done|]. split; [done|]. intros H. destruct (H a eq_refl) as [[= <-] [? _]]. done. }
  change (rd (terminated (c :: u)) 0) with (Ok c : result Z). cbn [mbind result_bind].
  pose proof (Hu : Forall _ (c :: u)) as Hu'. apply list.Forall_cons in Hu' as [Hc _]. rewrite (proj2 (Z.eqb_neq c 0) Hc).
  set (s := c :: u) in *. assert (Hpos : 0 < len s) by (unfold s; rewrite len_cons; pose proof (len_nonneg u); lia).
  unfold BrokerStrCompare. destruct (Z.le_gt_cases BROKER_MAX_USERNAME_LEN (len s)) as [Hbig|Hsmall].
  - rewrite (BrokerStrLenBounded_spec a), (BrokerStrLenBounded_spec s) by (done || lia). cbn [mbind result_bind].
    pose proof (len_nonneg a). pose proof (len_terminated a). pose proof (len_terminated s).
    destruct (BrokerBufCompare_spec (terminated a) (Z.min BROKER_MAX_USERNAME_LEN (len a)) (terminated s)
      (Z.min BROKER_MAX_USERNAME_LEN (len s)) BROKER_MAX_USERNAME_LEN) as (r & -> & Hz & _); [lia..|].
    cbn [mbind result_bind]. exists (negb (r =? 0)). split; [done|]. destruct (Z.eqb_spec r 0) as [->|Hr]; cbn [negb].
    + destruct (Hz eq_refl) as (_ & H3 & _). lia.
    + split; [done|]. intros H'. destruct (H' a eq_refl) as [[= E] Hl]. rewrite <- E in Hl. lia.
  - destruct (compare_string a s (len s) BROKER_MAX_USERNAME_LEN) as (r & E & Hr); [done|lia|lia|].
    rewrite (BrokerStrLenBounded_spec s) by (done || lia). rewrite Z.min_r by lia.
    destruct (BrokerStrLenBounded (terminated a) BROKER_MAX_USERNAME_LEN) as [la|rc|]; cbn [mbind result_bind] in *; [|done..].
    rewrite E. cbn [mbind result_bind]. exists (negb (r =? 0)). split; [done|]. rewrite take_all in Hr.
    destruct (Z.eqb_spec r 0) as [H0|H0]; cbn [negb].
    + split; [intros _ a' [= <-]|done]. destruct (proj1 Hr H0) as [-> _]. split; [done|lia].
    + split; [done|]. intros H'. destruct (H' a eq_refl) as [[= E'] Hl]. destruct H0. apply Hr. split; [by rewrite E'|lia].
Qed.

Lemma pass_differs_spec auth_pass password :
  (forall a, auth_pass = Some a -> Forall (fun c => c <> 0) a) ->
  exists b, pass_differs auth_pass password (len (default [] password)) = Ok b /\
    (b = false <-> forall a, auth_pass = Some a -> password = Some a /\ 0 < len a < BROKER_MAX_PASSWORD_LEN).
Proof.
  intros Ha. unfold pass_differs. destruct auth_pass as [a|]; [|by exists false].
  specialize (Ha a eq_refl). destruct password as [p|]; cbn [default from_option id].
  2: { exists true. split; [done|]. split; [done|]. intros H. by destruct (H a eq_refl). }
  destruct (Z.eqb_spec (len p) 0) as [E0|E0].
  { exists true. split; [done|]. split; [done|]. intros H. destruct (H a eq_refl) as [[= ->] [? _]]. lia. }
  pose proof (len_nonneg p). destruct (compare_string a p (len p) BROKER_MAX_PASSWORD_LEN) as (r & E & Hr); [done|lia|lia|].
  destruct (BrokerStrLenBounded (terminated a) BROKER_MAX_PASSWORD_LEN) as [la|rc|]; cbn [mbind result_bind] in *; [|done..].
  rewrite E. cbn [mbind result_bind]. exists (negb (r =? 0)). split; [done|]. rewrite take_all in Hr.
  destruct (Z.eqb_spec r 0) as [H0|H0]; cbn [negb].
  - split; [intros _ a' [= <-]|done]. destruct (proj1 Hr H0) as [-> ?]. split; [done|lia].
  - split; [done|]. intros H'. destruct (H' a eq_refl) as [[= E'] Hl]. destruct H0. apply Hr. split; [by rewrite E'|rewrite E'; lia].
Qed.

(** The contract of the credential check: nothing is configured, or both
    credentials are configured and are the client's. *)
Definition authorised (auth_user auth_pass username password : option (list Z)) : Prop :=
  (auth_user = None /\ auth_pass = None) \/
  (exists u p, auth_user = Some u /\ auth_pass = Some p /\ username = Some u /\ password = Some p /\
     0 < len u < BROKER_MAX_USERNAME_LEN /\ 0 < len p < BROKER_MAX_PASSWORD_LEN).

Lemma auth_check_spec auth_user auth_pass username password :
  (forall a, auth_user = Some a -> Forall (fun c => c <> 0) a) ->
  (forall a, auth_pass = Some a -> Forall (fun c => c <> 0) a) ->
  (forall u, username = Some u -> Forall (fun c => c <> 0) u) ->
  exists b, auth_check auth_user auth_pass username password (len (default [] password)) = Ok b /\
    (b = true <-> authorised auth_user auth_pass username password).
Proof.
  intros Ha Hp Hu. destruct (user_differs_spec auth_user username Ha Hu) as (bu & Eu & Hbu).
  destruct (pass_differs_spec auth_pass password Hp) as (bp & Ep & Hbp). unfold auth_check, authorised.
  destruct auth_user as [a|], auth_pass as [p|]; rewrite ?Eu, ?Ep; cbn [mbind result_bind].
  - eexists. split; [done|]. split.
    + destruct bp; [done|]. destruct bu; [done|]. intros _. right. exists a, p.
      destruct (proj1 Hbu eq_refl a eq_refl) as [-> ?]. destruct (proj1 Hbp eq_refl p eq_refl) as [-> ?]. split_and!; done || lia.
    + intros [[? _]|(u & q & [= <-] & [= <-] & -> & -> & Hl1 & Hl2)]; [done|].
      assert (bu = false) as -> by (apply Hbu; intros ? [= <-]; split; [done|lia]).
      assert (bp = false) as -> by (apply Hbp; intros ? [= <-]; split; [done|lia]). done.
  - eexists. split; [done|]. split; [by destruct bu, bp|]. intros [[? _]|(? & ? & _ & ? & _)]; done.
  - eexists. split; [done|]. split; [by destruct bu, bp|]. intros [[_ ?]|(? & ? & ? & _)]; done.
  - exists true. split; [done|]. split; [by left|done].
Qed.

(** ** Properties *)

(** C12: the comparison of credentials, which takes the same steps for every
    secret, decides exactly: BrokerHandle_Connect authorises a client exactly
    if no credentials are configured, or both are, and its user name and its
    password are those, neither of them empty and both shorter than
    BROKER_MAX_USERNAME_LEN and BROKER_MAX_PASSWORD_LEN. The check reads nothing
    outside the strings, and a half configured pair authorises nobody. *)
Theorem auth_check_exact auth_user auth_pass username password :
  (forall a, auth_user = Some a -> Forall (fun c => c <> 0) a) ->
  (forall a, auth_pass = Some a -> Forall (fun c => c <> 0) a) ->
  (forall u, username = Some u -> Forall (fun c => c <> 0) u) ->
  exists b, auth_check auth_user auth_pass username password (len (default [] password)) = Ok b /\
    (b = true <-> authorised auth_user auth_pass username password).
Proof. apply auth_check_spec. Qed.

(** The password is a prefix of the configured one. *)
Lemma auth_check_exact_witness :
  auth_check (Some [117]) (Some [112; 119]) (Some [117]) (Some [112; 119]) 2 = Ok true /\
  auth_check (Some [117]) (Some [112; 119]) (Some [117]) (Some [112]) 1 = Ok false /\
  authorised (Some [117]) (Some [112; 119]) (Some [117]) (Some [112; 119]) /\
  ~ authorised (Some [117]) (Some [112; 119]) (Some [117]) (Some [112]).
Proof.
  assert (Hok : forall (s : option (list Z)) l, s = Some l -> s = Some [117] \/ s = Some [112; 119] \/ s = Some [112] ->
    Forall (fun c => c <> 0) l).
  { intros s l E H. rewrite E in H. destruct H as [[= ->]|[[= ->]|[= ->]]]; by repeat constructor. }
  split; [reflexivity|]. split; [reflexivity|]. split.
  - destruct (auth_check_exact (Some [117]) (Some [112; 119]) (Some [117]) (Some [112; 119])) as (b & E & H);
      [intros a Ea; apply (Hok _ _ Ea); tauto..|]. apply H. vm_compute in E. congruence.
  - destruct (auth_check_exact (Some [117]) (Some [112; 119]) (Some [117]) (Some [112])) as (b & E & H);
      [intros a Ea; apply (Hok _ _ Ea); tauto..|]. intros Hx. apply H in Hx. vm_compute in E. congruence.
Defined.
