(* ===== verification/OutQueue.v ===== *)
(** * OutQueue: the outbound queue of a subscriber ([mqtt_broker.c])

    A message for a subscriber is a [BrokerOutPub] in its queue: allocation,
    packet identifiers, [BrokerClient_DrainOutQueue], which sends what the
    in-flight window allows, and the handlers of the subscriber's
    acknowledgements. *)
From stdpp Require Import relations.
From S2P Require Import Prelude PacketDefs Wire FixedHeader Props Frame PublishResp Publish PacketIO BrokerDefs.

(** ** Copies on the heap *)

(** A string or binary field; [None] is a failed allocation. *)
Definition clone_str (mem : heap) (s : MqttProp_Str) : result (option MqttProp_Str * heap) :=
  match str_ptr s with
  | Some bs =>
    if 0 <? str_len s then
      let '(ok, mem) := malloc mem in
      if ok then copy ← slice bs 0 (str_len s); Ok (Some (mkStr (str_len s) (Some copy)), mem)
      else Ok (None, mem)
    else Ok (Some no_str, mem)
  | None => Ok (Some no_str, mem)
  end.

Definition clone_prop (mem : heap) (src : MqttProp) : result (option MqttProp * heap) :=
  let '(ok, mem) := malloc mem in
  if negb ok then Ok (None, mem)
  else
    '(s, mem) ← clone_str mem (data_str src);
    match s with
    | None => Ok (None, mem)
    | Some s =>
      '(s2, mem) ← clone_str mem (data_str2 src);
      match s2 with
      | None => Ok (None, mem)
      | Some s2 =>
        '(b, mem) ← clone_str mem (data_bin src);
        match b with
        | None => Ok (None, mem)
        | Some b =>
          Ok (Some (mkProp (prop_type src) (data_byte src) (data_short src) (data_int src) s b s2),
              mem)
        end
      end
    end.

Fixpoint BrokerProps_Clone (mem : heap) (src : list MqttProp) : result (option (list MqttProp) * heap) :=
  match src with
  | [] => Ok (Some [], mem)
  | p :: src =>
    '(dst, mem) ← clone_prop mem p;
    match dst with
    | None => Ok (None, mem)
    | Some dst =>
      '(tail, mem) ← BrokerProps_Clone mem src;
      Ok (match tail with Some tail => Some (dst :: tail) | None => None end, mem)
    end
  end.

Definition BrokerOutPub_Alloc (mem : heap) (topic : list Z) (payload : option (list Z))
    (payload_len : Z) (src_props : list MqttProp) : result (option BrokerOutPub * heap) :=
  let '(ok, mem) := malloc mem in
  if negb ok then Ok (None, mem)
  else
    let '(ok, mem) := malloc mem in
    if negb ok then Ok (None, mem)
    else
      '(copy, mem) ←
         (match payload with
          | Some bs =>
            if 0 <? payload_len then
              let '(ok, mem) := malloc mem in
              if ok then copy ← slice bs 0 payload_len; Ok (Some (Some copy, payload_len), mem)
              else Ok (None, mem)
            else Ok (Some (None, 0), mem)
          | None => Ok (Some (None, 0), mem)
          end);
      match copy with
      | None => Ok (None, mem)
      | Some (copy, n) =>
        '(props, mem) ← BrokerProps_Clone mem src_props;
        match props with
        | None => Ok (None, mem)
        | Some props =>
          Ok (Some (mkOutPub topic copy n MQTT_QOS_0 0 0 BROKER_OUTQ_QUEUED 0 0 0 0 props), mem)
        end
      end.

(** What the callers fill in. *)
Definition outpub_for (e : BrokerOutPub) (qos packet_id retain level : Z) : BrokerOutPub :=
  mkOutPub (op_topic e) (op_payload e) (op_payload_len e) qos packet_id retain
    BROKER_OUTQ_QUEUED (op_retransmit_dup e) (op_enq_time e) (op_enqueue_seq e) level (op_props e).

Definition BrokerClient_EnqueueOutPub (q : OutQ) (e : BrokerOutPub) : OutQ :=
  mkOutQ (out_q q ++ [e]) (out_q_count q + 1) (out_q_inflight q) (out_q_pending_len q).

Definition BrokerClient_FreeOutQueue : OutQ := mkOutQ [] 0 0 0.

(** ** Packet identifiers *)

Fixpoint BrokerPacketIdInQueue (q : list BrokerOutPub) (packet_id : Z) : bool :=
  match q with
  | [] => false
  | out :: next => if op_packet_id out =? packet_id then true else BrokerPacketIdInQueue next packet_id
  end.

Definition next_id (candidate : Z) : Z :=
  let c := u16 (candidate + 1) in if c =? 0 then 1 else c.

(** The loop tries each candidate, from [first] around to [first] again; it
    returns the identifier and the new [next_packet_id]. *)
Fixpoint next_packet_id_loop (fuel : nat) (q : list BrokerOutPub) (next_packet_id candidate first : Z)
    : result (Z * Z) :=
  match fuel with
  | O => UB
  | S fuel =>
    if negb (BrokerPacketIdInQueue q candidate) then Ok (candidate, next_id candidate)
    else
      let candidate := next_id candidate in
      if negb (candidate =? first) then next_packet_id_loop fuel q next_packet_id candidate first
      else Ok (0, next_packet_id)
  end.

Definition BrokerNextPacketIdForQueue (next_packet_id : Z) (q : list BrokerOutPub) : result (Z * Z) :=
  let candidate := if next_packet_id =? 0 then 1 else next_packet_id in
  next_packet_id_loop (Z.to_nat 65535) q next_packet_id candidate candidate.

(** ** Direct writes *)

Definition BROKER_FORCE_ZERO (buf : list Z) (n : Z) : list Z :=
  replicate (Z.to_nat n) 0 ++ drop (Z.to_nat n) buf.

Section Drain.
Context {Net : Type} `{!Sender Net}.
Implicit Types (bc : BrokerClient Net) (l : Link Net).

(** [MqttPacket_Write(&bc->client, bc->tx_buf, n)]; [now] is the clock. *)
Definition client_write (now : Z) l (n : Z) : result (Z * Link Net) :=
  '(rc, w, net) ← MqttPacket_Write now (lk_write l) (lk_net l) (lk_tx l) n;
  Ok (rc, set_io l net w).

Definition BrokerClient_WriteDirect (now : Z) bc (packet_len : Z) : result (Z * BrokerClient Net) :=
  let l := bc_link bc in
  if packet_len <=? 0 then Ok (MQTT_CODE_ERROR_BAD_ARG, bc)
  else if negb (direct_pending_len l =? 0) && negb (direct_pending_len l =? packet_len)
  then Ok (MQTT_CODE_ERROR_SYSTEM, bc)
  else
    '(rc, l) ← client_write now l packet_len;
    Ok (rc, with_link bc (set_direct l (if rc =? MQTT_CODE_CONTINUE then packet_len else 0))).

Definition BrokerClient_WriteResp (now : Z) bc (packet_len : Z) : result (Z * BrokerClient Net) :=
  '(rc, bc) ← BrokerClient_WriteDirect now bc packet_len;
  if (rc =? packet_len) || (rc =? MQTT_CODE_CONTINUE) then Ok (rc, bc)
  else Ok (MQTT_CODE_ERROR_NETWORK, bc).

(** ** The drain *)

(** What the loop changes besides the list: [sent] is its counter. *)
Record Drain : Type := mkDrain {
  dr_count : Z;
  dr_inflight : Z;
  dr_pending_len : Z;
  dr_sent : Z;
  dr_link : Link Net
}.

Definition dr_pend (d : Drain) (n : Z) (l : Link Net) : Drain :=
  mkDrain (dr_count d) (dr_inflight d) n (dr_sent d) l.
Definition dr_done (d : Drain) : Drain :=
  mkDrain (dr_count d) (dr_inflight d) (dr_pending_len d) (dr_sent d + 1) (dr_link d).
Definition dr_unlink (d : Drain) : Drain :=
  mkDrain (dr_count d - 1) (dr_inflight d) (dr_pending_len d) (dr_sent d) (dr_link d).

(** What becomes of the entry the loop looks at: the return code if the
    function returns, and the entry if it stays in the queue. *)
Local Abbreviation outcome := (result (option Z * option BrokerOutPub * Drain)).

(** The re-sent PUBREL of an entry restored from an orphan session. *)
Definition drain_pubrel (now : Z) (cur : BrokerOutPub) (d : Drain) : outcome :=
  let l := dr_link d in
  match MqttEncode_PublishResp (len (lk_tx l)) MQTT_PACKET_TYPE_PUBLISH_REL
          (mkPublishResp (op_packet_id cur) MQTT_REASON_SUCCESS [] (op_protocol_level cur)) with
  | UB => UB
  | Err _ => Ok (None, Some cur, d)
  | Ok (rel_rc, bs) =>
    if rel_rc <=? 0 then Ok (None, Some cur, d)
    else
      tx ← put (lk_tx l) 0 bs;
      let l := set_tx l tx in
      if negb (dr_pending_len d =? 0) && negb (dr_pending_len d =? rel_rc)
      then Ok (Some MQTT_CODE_ERROR_SYSTEM, Some cur, dr_pend d (dr_pending_len d) l)
      else
        '(wr_rc, l) ← client_write now l rel_rc;
        if wr_rc =? MQTT_CODE_CONTINUE then Ok (Some wr_rc, Some cur, dr_pend d rel_rc l)
        else
          let d := dr_pend d 0 l in
          if negb (wr_rc =? rel_rc)
          then Ok (Some (if wr_rc <? 0 then wr_rc else MQTT_CODE_ERROR_NETWORK), Some cur, d)
          else Ok (None, Some (set_op_dup cur 0), dr_done d)
  end.

(** [out_pub]. *)
Definition outpub_message (cur : BrokerOutPub) : MqttMessage :=
  mkMessage (op_packet_id cur) 0 (op_qos cur) (op_retain cur) (op_retransmit_dup cur)
    (Some (op_topic cur)) 0 (op_payload_len cur) (op_payload cur) 0 0 0 0 0 (op_props cur)
    (op_protocol_level cur).

(** The write of a PUBLISH that did not complete. *)
Definition drain_write_failed (cur : BrokerOutPub) (wr_rc : Z) (d : Drain) : outcome :=
  let w := lk_write (dr_link d) in
  let ret := Some (if wr_rc <? 0 then wr_rc else MQTT_CODE_ERROR_NETWORK) in
  if (0 <? wr_pos w) && (MQTT_QOS_0 <? op_qos cur) then Ok (ret, Some (set_op_dup cur 1), d)
  else if (0 <? wr_pos w) && negb (wr_rc =? MQTT_CODE_ERROR_TIMEOUT) then
    let l := set_io (dr_link d) (lk_net (dr_link d)) (set_write w 0 (wr_total w)) in
    Ok (ret, None, dr_unlink (dr_pend d (dr_pending_len d) l))
  else Ok (ret, Some cur, d).

Definition drain_publish (now : Z) (cur : BrokerOutPub) (d : Drain) : outcome :=
  let l := dr_link d in
  let drop_entry enc_rc :=
    if negb (dr_pending_len d =? 0)
    then Ok (Some (if enc_rc <? 0 then enc_rc else MQTT_CODE_ERROR_SYSTEM), Some cur, d)
    else
      Ok (None, None, dr_unlink (dr_pend d (dr_pending_len d)
                        (set_tx l (BROKER_FORCE_ZERO (lk_tx l) (len (lk_tx l)))))) in
  match MqttEncode_Publish (len (lk_tx l)) (outpub_message cur) false with
  | UB => UB
  | Err enc_rc => drop_entry enc_rc
  | Ok (enc_rc, bs, _) =>
    if enc_rc <=? 0 then drop_entry enc_rc
    else
      tx ← put (lk_tx l) 0 bs;
      let l := set_tx l tx in
      if negb (dr_pending_len d =? 0) && negb (dr_pending_len d =? enc_rc)
      then Ok (Some MQTT_CODE_ERROR_SYSTEM, Some cur, dr_pend d (dr_pending_len d) l)
      else
        '(wr_rc, l) ← client_write now l enc_rc;
        if wr_rc =? MQTT_CODE_CONTINUE then
          let cur := if (MQTT_QOS_0 <? op_qos cur) && (0 <? wr_pos (lk_write l))
                     then set_op_dup cur 1 else cur in
          Ok (Some wr_rc, Some cur, dr_pend d enc_rc l)
        else
          let d := dr_pend d 0 (set_tx l (BROKER_FORCE_ZERO (lk_tx l) enc_rc)) in
          if negb (wr_rc =? enc_rc) then drain_write_failed cur wr_rc d
          else
            let cur := set_op_dup cur 0 in
            let d := dr_done d in
            if op_qos cur =? MQTT_QOS_0 then Ok (None, None, dr_unlink d)
            else
              Ok (None, Some (set_op_state cur BROKER_OUTQ_PUBLISH_SENT),
                  mkDrain (dr_count d) (dr_inflight d + 1) (dr_pending_len d) (dr_sent d) (dr_link d))
  end.

Definition drain_entry (now : Z) (cur : BrokerOutPub) (d : Drain) : outcome :=
  if decide (op_state cur = BROKER_OUTQ_QUEUED) then drain_publish now cur d
  else if bool_decide (op_state cur = BROKER_OUTQ_PUBREL_SENT) && negb (op_retransmit_dup cur =? 0)
  then drain_pubrel now cur d
  else Ok (None, Some cur, d).

(** The walk over the queue: the return code and the queue it leaves. *)
Fixpoint drain_loop (now effective_cap : Z) (q : list BrokerOutPub) (d : Drain)
    : result (Z * list BrokerOutPub * Drain) :=
  match q with
  | [] => Ok (dr_sent d, [], d)
  | cur :: next =>
    if bool_decide (op_state cur = BROKER_OUTQ_QUEUED) && (MQTT_QOS_0 <? op_qos cur) &&
       (effective_cap <=? dr_inflight d)
    then Ok (dr_sent d, cur :: next, d)
    else
      '(ret, kept, d) ← drain_entry now cur d;
      let keep q := match kept with Some cur => cur :: q | None => q end in
      match ret with
      | Some rc => Ok (rc, keep next, d)
      | None => '(rc, next, d) ← drain_loop now effective_cap next d; Ok (rc, keep next, d)
      end
  end.

Definition effective_cap (client_receive_max : Z) : Z :=
  if negb (client_receive_max =? 0) && (client_receive_max <? BROKER_MAX_INFLIGHT_PER_SUB)
  then client_receive_max else BROKER_MAX_INFLIGHT_PER_SUB.

Definition BrokerClient_DrainOutQueue (now : Z) bc : result (Z * BrokerClient Net) :=
  let q := bc_outq bc in
  let l := bc_link bc in
  if match out_q q with [] => true | _ => false end || negb (connack_pending_len l =? 0) ||
     negb (direct_pending_len l =? 0)
  then Ok (0, bc)
  else
    '(rc, out_q, d) ←
       drain_loop now (effective_cap (bc_client_receive_max (bc_info bc))) (out_q q)
         (mkDrain (out_q_count q) (out_q_inflight q) (out_q_pending_len q) 0 l);
    Ok (rc, with_link (with_outq bc (mkOutQ out_q (dr_count d) (dr_inflight d) (dr_pending_len d)))
              (dr_link d)).

(** ** Acknowledgements *)

(** The entries before the match, the match and the entries after it. *)
Fixpoint find_outpub (q : list BrokerOutPub) (packet_id : Z) (expected : BrokerOutPubState)
    : option (list BrokerOutPub * BrokerOutPub * list BrokerOutPub) :=
  match q with
  | [] => None
  | cur :: next =>
    if (op_packet_id cur =? packet_id) && bool_decide (op_state cur = expected)
    then Some ([], cur, next)
    else match find_outpub next packet_id expected with
         | Some (before, e, after) => Some (cur :: before, e, after)
         | None => None
         end
  end.

Definition BrokerClient_FindOutPub (q : OutQ) (packet_id : Z) (expected : BrokerOutPubState)
    : option (list BrokerOutPub * BrokerOutPub * list BrokerOutPub) :=
  if packet_id =? 0 then None else find_outpub (out_q q) packet_id expected.

Definition BrokerClient_UnlinkOutPub (q : OutQ) (before : list BrokerOutPub) (e : BrokerOutPub)
    (after : list BrokerOutPub) : OutQ :=
  mkOutQ (before ++ after) (out_q_count q - 1)
    (if negb (bool_decide (op_state e = BROKER_OUTQ_QUEUED)) && (0 <? out_q_inflight q)
     then out_q_inflight q - 1 else out_q_inflight q)
    (out_q_pending_len q).

Definition drain_quietly (now : Z) bc : result (BrokerClient Net) :=
  '(_, bc) ← BrokerClient_DrainOutQueue now bc; Ok bc.

Definition BrokerClient_OnPubAck (now : Z) bc (packet_id : Z) : result (BrokerClient Net) :=
  match BrokerClient_FindOutPub (bc_outq bc) packet_id BROKER_OUTQ_PUBLISH_SENT with
  | None => Ok bc
  | Some (before, e, after) =>
      drain_quietly now (with_outq bc (BrokerClient_UnlinkOutPub (bc_outq bc) before e after))
  end.

Definition BrokerClient_OnPubRec bc (packet_id : Z) : Z * BrokerClient Net :=
  match BrokerClient_FindOutPub (bc_outq bc) packet_id BROKER_OUTQ_PUBLISH_SENT with
  | None => (0, bc)
  | Some (before, e, after) =>
    if negb (op_qos e =? MQTT_QOS_2) then (-1, bc)
    else
      let q := bc_outq bc in
      (1, with_outq bc (mkOutQ (before ++ set_op_state e BROKER_OUTQ_PUBREL_SENT :: after)
                          (out_q_count q) (out_q_inflight q) (out_q_pending_len q)))
  end.

Definition BrokerClient_OnPubReject (now : Z) bc (packet_id : Z) : result (BrokerClient Net) :=
  match BrokerClient_FindOutPub (bc_outq bc) packet_id BROKER_OUTQ_PUBLISH_SENT with
  | None => Ok bc
  | Some (before, e, after) =>
    if negb (op_qos e =? MQTT_QOS_2) then Ok bc
    else drain_quietly now (with_outq bc (BrokerClient_UnlinkOutPub (bc_outq bc) before e after))
  end.

Definition BrokerClient_OnPubComp (now : Z) bc (packet_id : Z) : result (BrokerClient Net) :=
  match BrokerClient_FindOutPub (bc_outq bc) packet_id BROKER_OUTQ_PUBREL_SENT with
  | None => Ok bc
  | Some (before, e, after) =>
      drain_quietly now (with_outq bc (BrokerClient_UnlinkOutPub (bc_outq bc) before e after))
  end.

(** ** Forwarding a message

    What [BrokerHandle_Publish], [BrokerRetained_DeliverToClient] and
    [BrokerClient_PublishWillImmediate] do for one subscriber with room in its
    queue: a return code, and the allocator and [next_packet_id] afterwards. *)
Definition forward (mem : heap) (next_packet_id : Z) bc (topic : list Z) (payload : option (list Z))
    (payload_len : Z) (props : list MqttProp) (qos retain : Z)
    : result (Z * heap * Z * BrokerClient Net) :=
  '(e, mem) ← BrokerOutPub_Alloc mem topic payload payload_len props;
  match e with
  | None => Ok (MQTT_CODE_ERROR_MEMORY, mem, next_packet_id, bc)
  | Some e =>
    '(packet_id, next_packet_id) ←
       (if MQTT_QOS_1 <=? qos then BrokerNextPacketIdForQueue next_packet_id (out_q (bc_outq bc))
        else Ok (0, next_packet_id));
    if (MQTT_QOS_1 <=? qos) && (packet_id =? 0)
    then Ok (MQTT_CODE_ERROR_PACKET_ID, mem, next_packet_id, bc)
    else
      let e := outpub_for e qos packet_id retain (bc_protocol_level (bc_info bc)) in
      Ok (MQTT_CODE_SUCCESS, mem, next_packet_id,
          with_outq bc (BrokerClient_EnqueueOutPub (bc_outq bc) e))
  end.
End Drain.
Arguments Drain : clear implicits.

(** ** Packet identifiers are fresh *)

Lemma BrokerPacketIdInQueue_spec q id :
  BrokerPacketIdInQueue q id = bool_decide (id ∈ map op_packet_id q).
Proof.
  induction q as [|e q IH]; cbn [BrokerPacketIdInQueue map].
  { symmetry. apply bool_decide_eq_false. by apply not_elem_of_nil. }
  destruct (Z.eqb_spec (op_packet_id e) id) as [<-|Hne].
  - symmetry. apply bool_decide_eq_true. by left.
  - rewrite IH. apply bool_decide_ext. rewrite elem_of_cons. split; [by right|intros [?|?]; congruence].
Qed.

(** The [k]-th candidate. *)
Definition candidate (first k : Z) : Z := (first - 1 + k) mod 65535 + 1.

Lemma candidate_range first k : 1 <= candidate first k <= 65535.
Proof. unfold candidate. pose proof (Z.mod_pos_bound (first - 1 + k) 65535 ltac:(lia)). lia. Qed.

Lemma candidate_0 first : 1 <= first <= 65535 -> candidate first 0 = first.
Proof. intros. unfold candidate. rewrite Z.mod_small; lia. Qed.

Lemma candidate_next first k : next_id (candidate first k) = candidate first (k + 1).
Proof.
  unfold next_id, candidate, u16.
  pose proof (Z.mod_pos_bound (first - 1 + k) 65535 ltac:(lia)) as Hb.
  replace (first - 1 + (k + 1)) with (first - 1 + k + 1) by lia.
  rewrite <- (Zplus_mod_idemp_l (first - 1 + k) 1 65535).
  remember ((first - 1 + k) mod 65535) as m eqn:Em. clear Em.
  destruct (Z.eqb_spec ((m + 1 + 1) mod 65536) 0) as [E|E].
  - assert (m = 65534) as -> by (destruct (Z.eq_dec m 65534); [done|rewrite Z.mod_small in E; lia]). done.
  - assert (m <> 65534) by (intros ->; done). rewrite !Z.mod_small by lia. lia.
Qed.

Lemma candidate_first first k :
  1 <= first <= 65535 -> 0 < k <= 65535 -> (candidate first k =? first) = (k =? 65535).
Proof.
  intros Hf Hk. unfold candidate. apply Bool.eq_true_iff_eq. rewrite !Z.eqb_eq. split.
  - intros E. assert ((first - 1 + k) mod 65535 = first - 1) as E' by lia.
    destruct (Z.lt_ge_cases (first - 1 + k) 65535).
    + rewrite Z.mod_small in E' by lia. lia.
    + rewrite <- (Z.mod_unique (first - 1 + k) 65535 1 (first - 1 + k - 65535)) in E' by lia. lia.
  - intros ->. rewrite <- (Z.mod_unique (first - 1 + 65535) 65535 1 (first - 1)) by lia. lia.
Qed.

(** Every identifier is a candidate. *)
Lemma candidate_onto first id :
  1 <= first <= 65535 -> 1 <= id <= 65535 -> exists k, 0 <= k < 65535 /\ candidate first k = id.
Proof.
  intros Hf Hi. exists ((id - first) mod 65535). pose proof (Z.mod_pos_bound (id - first) 65535 ltac:(lia)).
  split; [lia|]. unfold candidate. rewrite Zplus_mod_idemp_r.
  replace (first - 1 + (id - first)) with (id - 1) by lia. rewrite Z.mod_small; lia.
Qed.

Lemma next_packet_id_loop_spec fuel q next first k :
  1 <= first <= 65535 -> 0 <= k -> k + Z.of_nat fuel = 65535 -> (0 < fuel)%nat ->
  (forall j, 0 <= j < k -> candidate first j ∈ map op_packet_id q) ->
  exists id next', next_packet_id_loop fuel q next (candidate first k) first = Ok (id, next') /\
    ((1 <= id <= 65535 /\ (id ∉ map op_packet_id q) /\ next' = next_id id) \/
     (id = 0 /\ next' = next /\ forall id, 1 <= id <= 65535 -> id ∈ map op_packet_id q)).
Proof.
  intros Hf. revert k. induction fuel as [|fuel IH]; intros k Hk Hsum Hpos Hused; [lia|].
  cbn [next_packet_id_loop]. rewrite BrokerPacketIdInQueue_spec.
  destruct (decide (candidate first k ∈ map op_packet_id q)) as [Hin|Hout].
  - rewrite bool_decide_eq_true_2 by done. cbn [negb]. rewrite candidate_next, candidate_first by lia.
    assert (Hused' : forall j, 0 <= j < k + 1 -> candidate first j ∈ map op_packet_id q).
    { intros j Hj. destruct (decide (j = k)) as [->|]; [done|]. apply Hused. lia. }
    destruct (Z.eqb_spec (k + 1) 65535) as [Ek|Ek]; cbn [negb].
    + exists 0, next. split; [done|]. right. split_and!; [done..|]. intros id Hid.
      destruct (candidate_onto first id Hf Hid) as (j & Hj & <-). apply Hused'. lia.
    + apply IH; [lia..|done].
  - rewrite bool_decide_eq_false_2 by done. cbn [negb]. eexists _, _. split; [reflexivity|]. left.
    pose proof (candidate_range first k). done.
Qed.

Lemma BrokerNextPacketIdForQueue_spec next q :
  0 <= next < 65536 ->
  exists id next', BrokerNextPacketIdForQueue next q = Ok (id, next') /\
    ((1 <= id <= 65535 /\ (id ∉ map op_packet_id q) /\ next' = next_id id) \/
     (id = 0 /\ next' = next /\ forall id, 1 <= id <= 65535 -> id ∈ map op_packet_id q)).
Proof.
  intros Hn. unfold BrokerNextPacketIdForQueue. cbv zeta.
  remember (if next =? 0 then 1 else next) as first eqn:Ef.
  assert (Hf : 1 <= first <= 65535) by (subst first; destruct (Z.eqb_spec next 0); lia).
  pose proof (next_packet_id_loop_spec (Z.to_nat 65535) q next first 0 Hf) as Hloop.
  rewrite candidate_0 in Hloop by done. apply Hloop; [lia..|]. intros j Hj. lia.
Qed.

(** A queue with fewer than 65535 entries has an identifier to spare. *)
Lemma ids_pigeonhole (l : list Z) :
  (forall id, 1 <= id <= 65535 -> id ∈ l) -> 65535 <= len l.
Proof.
  intros Hall. assert (Hn : NoDup (seqZ 1 65535)) by apply NoDup_seqZ.
  assert (Hs : seqZ 1 65535 ⊆ l) by (intros x [? ?]%elem_of_seqZ; apply Hall; lia).
  pose proof (submseteq_length _ _ (NoDup_submseteq _ _ Hn Hs)) as Hl.
  rewrite length_seqZ in Hl. unfold len. lia.
Qed.

(** ** The invariant of a queue *)

Definition sent (e : BrokerOutPub) : Prop := op_state e <> BROKER_OUTQ_QUEUED.

#[export] Instance sent_dec e : Decision (sent e).
Proof. unfold sent. apply _. Defined.

(** The identifiers in use: those of the QoS 1 and 2 messages. *)
Definition ids (q : list BrokerOutPub) : list Z :=
  map op_packet_id (filter (fun e => op_qos e <> MQTT_QOS_0) q).

Record outpub_ok (e : BrokerOutPub) : Prop := {
  ok_qos : 0 <= op_qos e <= MQTT_QOS_2;
  ok_id : op_qos e <> MQTT_QOS_0 -> 1 <= op_packet_id e <= 65535;
  ok_qos0 : op_qos e = MQTT_QOS_0 ->
    op_packet_id e = 0 /\ op_state e = BROKER_OUTQ_QUEUED /\ op_retransmit_dup e = 0;
  ok_rel : op_state e = BROKER_OUTQ_PUBREL_SENT -> op_qos e = MQTT_QOS_2;
  ok_dup : 0 <= op_retransmit_dup e <= 1
}.

Definition inflight (q : list BrokerOutPub) : Z := len (filter sent q).

Record outq_ok (q : OutQ) : Prop := {
  oq_count : out_q_count q = len (out_q q);
  oq_inflight : out_q_inflight q = inflight (out_q q);
  oq_entries : Forall outpub_ok (out_q q);
  oq_ids : NoDup (ids (out_q q))
}.

Lemma ids_app a b : ids (a ++ b) = ids a ++ ids b.
Proof. unfold ids. by rewrite list.filter_app, map_app. Qed.

Lemma ids_cons e q : ids (e :: q) = (if decide (op_qos e <> MQTT_QOS_0) then [op_packet_id e] else []) ++ ids q.
Proof. unfold ids. rewrite filter_cons. by destruct (decide _). Qed.

Lemma inflight_app a b : inflight (a ++ b) = inflight a + inflight b.
Proof. unfold inflight. by rewrite list.filter_app, len_app. Qed.

Definition weight (e : BrokerOutPub) : Z :=
  match op_state e with BROKER_OUTQ_QUEUED => 0 | _ => 1 end.

Lemma inflight_cons e q : inflight (e :: q) = weight e + inflight q.
Proof.
  unfold inflight, weight. rewrite filter_cons. destruct (decide (sent e)) as [Hs|Hs]; unfold sent in Hs.
  - rewrite len_cons. by destruct (op_state e).
  - destruct (op_state e); [lia|by destruct Hs..].
Qed.

Lemma inflight_nonneg q : 0 <= inflight q.
Proof. apply len_nonneg. Qed.

(** A change of the flag or of the state keeps the entry valid. *)
Lemma outpub_ok_dup e dup :
  outpub_ok e -> dup = op_retransmit_dup e \/ dup = 0 \/ (dup = 1 /\ op_qos e <> MQTT_QOS_0) ->
  outpub_ok (set_op_dup e dup).
Proof.
  intros [Hq Hi H0 Hr Hd] Hdup. constructor; cbn; try done; [|lia].
  intros E. destruct (H0 E) as (? & ? & ?). split_and!; [done..|lia].
Qed.

Lemma outpub_ok_state e :
  outpub_ok e -> op_qos e <> MQTT_QOS_0 ->
  outpub_ok (set_op_state (set_op_dup e 0) BROKER_OUTQ_PUBLISH_SENT).
Proof. intros [Hq Hi H0 Hr Hd] Hqos. by constructor; cbn. Qed.

(** ** What the drain does to an entry *)

Inductive entry_step (cur : BrokerOutPub) {Net} (d : Drain Net) : option BrokerOutPub -> Drain Net -> Prop :=
  | entry_kept dup d' :
      dr_count d' = dr_count d -> dr_inflight d' = dr_inflight d ->
      dup = op_retransmit_dup cur \/ dup = 0 \/ (dup = 1 /\ op_qos cur <> MQTT_QOS_0) ->
      entry_step cur d (Some (set_op_dup cur dup)) d'
  | entry_gone d' :
      op_state cur = BROKER_OUTQ_QUEUED ->
      dr_count d' = dr_count d - 1 -> dr_inflight d' = dr_inflight d ->
      entry_step cur d None d'
  | entry_sent d' :
      op_state cur = BROKER_OUTQ_QUEUED -> op_qos cur <> MQTT_QOS_0 ->
      dr_count d' = dr_count d -> dr_inflight d' = dr_inflight d + 1 ->
      entry_step cur d (Some (set_op_state (set_op_dup cur 0) BROKER_OUTQ_PUBLISH_SENT)) d'.

Section Invariant.
Context {Net : Type} `{!Sender Net}.
Implicit Types (d : Drain Net) (bc : BrokerClient Net).

Lemma set_op_dup_id e : set_op_dup e (op_retransmit_dup e) = e.
Proof. by destruct e. Qed.

Lemma entry_unchanged cur d d' :
  dr_count d' = dr_count d -> dr_inflight d' = dr_inflight d -> entry_step cur d (Some cur) d'.
Proof.
  intros. rewrite <- (set_op_dup_id cur) at 2. apply entry_kept; auto.
Qed.

Lemma drain_entry_step now cur d ret kept d' :
  drain_entry now cur d = Ok (ret, kept, d') -> entry_step cur d kept d'.
Proof.
  unfold drain_entry. destruct (decide _) as [Hq|Hq].
  - unfold drain_publish.
    assert (Hdrop : forall enc_rc,
      (if negb (dr_pending_len d =? 0)
       then Ok (Some (if enc_rc <? 0 then enc_rc else MQTT_CODE_ERROR_SYSTEM), Some cur, d)
       else Ok (None, None, dr_unlink (dr_pend d (dr_pending_len d)
                 (set_tx (dr_link d) (BROKER_FORCE_ZERO (lk_tx (dr_link d)) (len (lk_tx (dr_link d)))))))) =
      Ok (ret, kept, d') -> entry_step cur d kept d').
    { intros enc_rc. destruct (negb _); intros [= <- <- <-]; [by apply entry_unchanged|by apply entry_gone]. }
    destruct (MqttEncode_Publish _ _ _) as [[[enc_rc bs] m]|enc_rc|]; [|apply Hdrop|done].
    destruct (enc_rc <=? 0); [apply Hdrop|]. clear Hdrop.
    destruct (put _ _ _) as [tx| |]; cbn [mbind result_bind]; [|done..].
    destruct (negb _ && negb _); [intros [= <- <- <-]; by apply entry_unchanged|].
    destruct (client_write _ _ _) as [[wr_rc l]| |]; cbn [mbind result_bind]; [|done..].
    destruct (wr_rc =? MQTT_CODE_CONTINUE).
    + intros [= <- <- <-]. destruct (Z.ltb_spec MQTT_QOS_0 (op_qos cur)); cbn [andb].
      * destruct (0 <? _); [apply entry_kept; try done; right; right; split; [done|lia]|by apply entry_unchanged].
      * by apply entry_unchanged.
    + destruct (negb (wr_rc =? enc_rc)).
      * unfold drain_write_failed. cbv zeta. destruct (0 <? wr_pos _); cbn [andb].
        -- destruct (Z.ltb_spec MQTT_QOS_0 (op_qos cur)).
           ++ intros [= <- <- <-]. apply entry_kept; try done. right. right. split; [done|lia].
           ++ destruct (negb _); intros [= <- <- <-]; [by apply entry_gone|by apply entry_unchanged].
        -- intros [= <- <- <-]. by apply entry_unchanged.
      * cbv zeta. change (op_qos (set_op_dup cur 0)) with (op_qos cur).
        destruct (Z.eqb_spec (op_qos cur) MQTT_QOS_0); intros [= <- <- <-]; [by apply entry_gone|by apply entry_sent].
  - destruct (_ && _); [|intros [= <- <- <-]; by apply entry_unchanged]. unfold drain_pubrel.
    destruct (MqttEncode_PublishResp _ _ _) as [[rel_rc bs]| |]; [|intros [= <- <- <-]; by apply entry_unchanged|done].
    destruct (rel_rc <=? 0); [intros [= <- <- <-]; by apply entry_unchanged|].
    destruct (put _ _ _) as [tx| |]; cbn [mbind result_bind]; [|done..].
    destruct (negb _ && negb _); [intros [= <- <- <-]; by apply entry_unchanged|].
    destruct (client_write _ _ _) as [[wr_rc l]| |]; cbn [mbind result_bind]; [|done..].
    destruct (wr_rc =? MQTT_CODE_CONTINUE); [intros [= <- <- <-]; by apply entry_unchanged|].
    destruct (negb _); intros [= <- <- <-]; [by apply entry_unchanged|].
    apply entry_kept; auto.
Qed.

(** [drained q d q' d']: entries stay, leave or are sent, the counters follow,
    and the window [cap] is respected. *)
Definition window cap (n n' : Z) : Prop := n <= n' /\ (n' <= cap \/ n' = n).

Lemma drain_loop_ok now cap q d rc q' d' :
  drain_loop now cap q d = Ok (rc, q', d') -> Forall outpub_ok q ->
  dr_count d' - dr_count d = len q' - len q /\
  dr_inflight d' - dr_inflight d = inflight q' - inflight q /\
  window cap (dr_inflight d) (dr_inflight d') /\
  Forall outpub_ok q' /\ ids q' `sublist_of` ids q.
Proof.
  intros E Hok. revert d rc q' d' E. induction Hok as [|cur q Hcur Hq IH]; intros d rc q' d'; cbn [drain_loop].
  { intros [= <- <- <-]. split_and!; [lia|lia|split; [lia|by right]|constructor|done]. }
  destruct (bool_decide _ && _ && _) eqn:Ecap.
  { intros [= <- <- <-]. split_and!; try lia; [split; [lia|by right]|by constructor|done]. }
  destruct (drain_entry now cur d) as [[[ret kept] d1]| |] eqn:Ee; cbn [mbind result_bind]; [|done..].
  pose proof (drain_entry_step _ _ _ _ _ _ Ee) as Hstep.
  set (keep := fun q => match kept with Some cur => cur :: q | None => q end).
  (* the rest of the queue, walked or left alone *)
  assert (Hrest : forall rest d2 rc2,
    (ret = None -> drain_loop now cap q d1 = Ok (rc2, rest, d2)) -> (ret <> None -> rest = q /\ d2 = d1) ->
    dr_count d2 - dr_count d1 = len rest - len q /\
    dr_inflight d2 - dr_inflight d1 = inflight rest - inflight q /\
    window cap (dr_inflight d1) (dr_inflight d2) /\ Forall outpub_ok rest /\ ids rest `sublist_of` ids q).
  { intros rest d2 rc2 Hloop Hsame. destruct ret.
    - destruct (Hsame ltac:(done)) as [-> ->]. split_and!; try lia; [split; [lia|by right]|done..].
    - by eapply IH, Hloop. }
  assert (Hfin : forall rest d2,
    dr_count d2 - dr_count d1 = len rest - len q /\
    dr_inflight d2 - dr_inflight d1 = inflight rest - inflight q /\
    window cap (dr_inflight d1) (dr_inflight d2) /\ Forall outpub_ok rest /\ ids rest `sublist_of` ids q ->
    dr_count d2 - dr_count d = len (keep rest) - len (cur :: q) /\
    dr_inflight d2 - dr_inflight d = inflight (keep rest) - inflight (cur :: q) /\
    window cap (dr_inflight d) (dr_inflight d2) /\
    Forall outpub_ok (keep rest) /\ ids (keep rest) `sublist_of` ids (cur :: q)).
  { intros rest d2 (Hc & Hi & Hw & Hf & Hs). unfold keep, window in *. rewrite (len_cons cur q), (inflight_cons cur q).
    destruct Hstep as [dup d1 Ec Ei Hdup|d1 Est Ec Ei|d1 Est Hqos Ec Ei].
    - rewrite len_cons, inflight_cons. change (weight (set_op_dup cur dup)) with (weight cur).
      split_and!; try lia.
      + constructor; [|done]. by apply (outpub_ok_dup cur dup).
      + rewrite !ids_cons. change (op_qos (set_op_dup cur dup)) with (op_qos cur).
        change (op_packet_id (set_op_dup cur dup)) with (op_packet_id cur). by apply sublist_app.
    - unfold weight. rewrite Est. split_and!; try lia; [done|].
      rewrite ids_cons. by apply sublist_inserts_l.
    - rewrite len_cons, inflight_cons. unfold weight. cbn [op_state set_op_state]. rewrite Est.
      rewrite bool_decide_eq_true_2 in Ecap by done. cbn [andb] in Ecap.
      rewrite (proj2 (Z.ltb_lt MQTT_QOS_0 (op_qos cur))) in Ecap by (destruct (ok_qos _ Hcur); lia).
      cbn [andb] in Ecap. apply Z.leb_gt in Ecap. split_and!; try lia.
      + constructor; [|done]. by apply (outpub_ok_state cur).
      + rewrite !ids_cons. cbn [op_qos op_packet_id set_op_state set_op_dup]. by apply sublist_app. }
  destruct ret as [r|].
  - intros [= <- <- <-]. apply Hfin, (Hrest q d1 0); done.
  - destruct (drain_loop now cap q d1) as [[[rc2 rest] d2]| |] eqn:El; cbn [mbind result_bind]; [|done..].
    intros [= <- <- <-]. apply Hfin, (Hrest rest d2 rc2); done.
Qed.

(** ** Every operation keeps the invariant *)

Lemma BrokerClient_DrainOutQueue_ok now bc rc bc' :
  BrokerClient_DrainOutQueue now bc = Ok (rc, bc') -> outq_ok (bc_outq bc) ->
  outq_ok (bc_outq bc') /\ bc_info bc' = bc_info bc /\
  window (effective_cap (bc_client_receive_max (bc_info bc)))
    (out_q_inflight (bc_outq bc)) (out_q_inflight (bc_outq bc')).
Proof.
  intros E [Hc Hi He Hn]. unfold BrokerClient_DrainOutQueue in E.
  destruct (_ || _ || _); [injection E as <- <-; by split_and!; [| |split; [lia|by right]]|].
  destruct (drain_loop _ _ _ _) as [[[rc1 q1] d1]| |] eqn:El; cbn [mbind result_bind] in E; [|done..].
  injection E as <- <-. destruct (drain_loop_ok _ _ _ _ _ _ _ El He) as (Hc' & Hi' & Hw & He' & Hs).
  cbn [dr_count dr_inflight] in *. split_and!; [|done|done].
  constructor; cbn [out_q out_q_count out_q_inflight bc_outq with_link with_outq]; try done; try lia.
  by eapply sublist_NoDup.
Qed.

Lemma find_outpub_spec q id expected before e after :
  find_outpub q id expected = Some (before, e, after) ->
  q = before ++ e :: after /\ op_packet_id e = id /\ op_state e = expected.
Proof.
  revert before. induction q as [|cur q IH]; intros before; [done|]. cbn [find_outpub].
  destruct ((op_packet_id cur =? id) && bool_decide (op_state cur = expected)) eqn:Em.
  - intros [= <- <- <-]. apply andb_true_iff in Em as [->%Z.eqb_eq Hs%bool_decide_eq_true]. done.
  - destruct (find_outpub q id expected) as [[[b e'] a]|]; [|done]. intros [= <- <- <-].
    destruct (IH b eq_refl) as (-> & ? & ?). done.
Qed.

Lemma FindOutPub_spec q id expected before e after :
  BrokerClient_FindOutPub q id expected = Some (before, e, after) ->
  id <> 0 /\ out_q q = before ++ e :: after /\ op_packet_id e = id /\ op_state e = expected.
Proof.
  unfold BrokerClient_FindOutPub. destruct (Z.eqb_spec id 0); [done|]. intros H%find_outpub_spec. done.
Qed.

Lemma UnlinkOutPub_ok q before e after :
  outq_ok q -> out_q q = before ++ e :: after -> sent e ->
  outq_ok (BrokerClient_UnlinkOutPub q before e after) /\
  out_q_inflight (BrokerClient_UnlinkOutPub q before e after) = out_q_inflight q - 1.
Proof.
  intros [Hc Hi He Hn] Hq Hs. unfold BrokerClient_UnlinkOutPub.
  rewrite Hq in *. rewrite inflight_app, inflight_cons in Hi.
  assert (weight e = 1) by (unfold weight, sent in *; by destruct (op_state e)).
  pose proof (inflight_nonneg before). pose proof (inflight_nonneg after).
  rewrite bool_decide_eq_false_2, (proj2 (Z.ltb_lt 0 _)) by (done || lia). cbn [negb andb].
  split; [|done]. rewrite len_app, len_cons in Hc.
  constructor; cbn [out_q out_q_count out_q_inflight].
  - rewrite len_app. lia.
  - rewrite inflight_app. lia.
  - apply Forall_app in He as [? [_ ?]%list.Forall_cons]. by apply Forall_app.
  - eapply sublist_NoDup; [exact Hn|]. rewrite !ids_app, ids_cons.
    apply sublist_app; [done|]. by apply sublist_inserts_l.
Qed.

Lemma OnPubRec_ok bc id :
  outq_ok (bc_outq bc) ->
  let '(_, bc') := BrokerClient_OnPubRec bc id in
  outq_ok (bc_outq bc') /\ out_q_inflight (bc_outq bc') = out_q_inflight (bc_outq bc) /\
  bc_info bc' = bc_info bc.
Proof.
  intros Hok. unfold BrokerClient_OnPubRec.
  destruct (BrokerClient_FindOutPub _ _ _) as [[[before e] after]|] eqn:Ef; [|done].
  apply FindOutPub_spec in Ef as (Hid & Hq & He & Hs).
  destruct (Z.eqb_spec (op_qos e) MQTT_QOS_2) as [Hqos|]; cbn [negb]; [|done].
  split_and!; [|done|done]. destruct Hok as [Hc Hi Hent Hn]. rewrite Hq in *.
  constructor; cbn [bc_outq with_outq out_q out_q_count out_q_inflight].
  - rewrite len_app, len_cons in *. done.
  - rewrite inflight_app, inflight_cons in *. rewrite Hi. unfold weight. cbn [op_state set_op_state].
    by rewrite Hs.
  - apply Forall_app in Hent as [? [He0 ?]%list.Forall_cons]. apply Forall_app. split; [done|].
    constructor; [|done]. destruct He0. constructor; cbn; try done. intros E. rewrite E in Hqos. done.
  - rewrite ids_app, ids_cons in *. done.
Qed.

Lemma drain_quietly_ok now bc bc' :
  drain_quietly now bc = Ok bc' -> outq_ok (bc_outq bc) ->
  outq_ok (bc_outq bc') /\ bc_info bc' = bc_info bc /\
  window (effective_cap (bc_client_receive_max (bc_info bc)))
    (out_q_inflight (bc_outq bc)) (out_q_inflight (bc_outq bc')).
Proof.
  unfold drain_quietly. destruct (BrokerClient_DrainOutQueue now bc) as [[rc bc1]| |] eqn:E;
    cbn [mbind result_bind]; [|done..]. intros [= <-] Hok. by eapply BrokerClient_DrainOutQueue_ok.
Qed.

(** An acknowledged entry leaves the queue and the window moves on. *)
Lemma unlink_drain_ok now bc before e after bc' :
  drain_quietly now (with_outq bc (BrokerClient_UnlinkOutPub (bc_outq bc) before e after)) = Ok bc' ->
  outq_ok (bc_outq bc) -> out_q (bc_outq bc) = before ++ e :: after -> sent e ->
  outq_ok (bc_outq bc') /\ bc_info bc' = bc_info bc /\
  window (effective_cap (bc_client_receive_max (bc_info bc)))
    (out_q_inflight (bc_outq bc) - 1) (out_q_inflight (bc_outq bc')).
Proof.
  intros E Hok Hq Hs. destruct (UnlinkOutPub_ok _ _ _ _ Hok Hq Hs) as [Hok' Hi].
  destruct (drain_quietly_ok _ _ _ E Hok') as (? & ? & Hw). split_and!; [done..|].
  cbn [bc_outq with_outq] in Hw. rewrite <- Hi. exact Hw.
Qed.

Lemma Alloc_fields mem topic payload n props e mem' :
  BrokerOutPub_Alloc mem topic payload n props = Ok (Some e, mem') -> op_retransmit_dup e = 0.
Proof.
  unfold BrokerOutPub_Alloc. destruct (malloc mem) as [[|] mem1]; [|done]. cbn [negb].
  destruct (malloc mem1) as [[|] mem2]; [|done]. cbn [negb].
  destruct (match payload with Some _ => _ | None => _ end) as [[[[copy k]|] mem3]| |];
    cbn [mbind result_bind]; try done.
  destruct (BrokerProps_Clone mem3 props) as [[[ps|] mem4]| |]; cbn [mbind result_bind]; try done.
  by intros [= <- _].
Qed.

Lemma EnqueueOutPub_ok q e :
  outq_ok q -> outpub_ok e -> op_state e = BROKER_OUTQ_QUEUED ->
  (op_qos e <> MQTT_QOS_0 -> op_packet_id e ∉ map op_packet_id (out_q q)) ->
  outq_ok (BrokerClient_EnqueueOutPub q e).
Proof.
  intros [Hc Hi He Hn] Hok Hst Hfresh.
  constructor; cbn [BrokerClient_EnqueueOutPub out_q out_q_count out_q_inflight].
  - rewrite len_app. change (len [_]) with 1. lia.
  - rewrite inflight_app, inflight_cons. unfold weight. rewrite Hst. change (inflight []) with 0. lia.
  - apply Forall_app. split; [done|]. by apply Forall_singleton.
  - rewrite ids_app, ids_cons. destruct (decide _) as [Hq|Hq]; cbn [app]; [|by rewrite app_nil_r].
    apply list.NoDup_app. split_and!; [done| |repeat constructor; by apply not_elem_of_nil].
    intros x Hx [->|[]%elem_of_nil]%elem_of_cons. apply (Hfresh Hq).
    unfold ids in Hx. apply list_elem_of_fmap in Hx as (y & -> & [_ Hy]%list_elem_of_filter).
    apply list_elem_of_fmap. by exists y.
Qed.

Lemma forward_ok mem next bc topic payload n props qos retain rc mem' next' bc' :
  forward mem next bc topic payload n props qos retain = Ok (rc, mem', next', bc') ->
  0 <= next < 65536 -> 0 <= qos <= MQTT_QOS_2 -> outq_ok (bc_outq bc) ->
  outq_ok (bc_outq bc') /\ bc_info bc' = bc_info bc /\ 0 <= next' < 65536 /\
  out_q_inflight (bc_outq bc') = out_q_inflight (bc_outq bc).
Proof.
  intros E Hnext Hqos Hok. unfold forward in E.
  destruct (BrokerOutPub_Alloc mem topic payload n props) as [[[e|] mem1]| |] eqn:Ea;
    cbn [mbind result_bind] in E; [|by injection E as <- <- <- <-|done..].
  apply Alloc_fields in Ea. destruct (BrokerNextPacketIdForQueue_spec next (out_q (bc_outq bc)) Hnext)
    as (id & nx & Eid & Hid).
  destruct (Z.leb_spec MQTT_QOS_1 qos) as [H1|H1].
  - rewrite Eid in E. cbn [mbind result_bind andb] in E.
    assert (Hnx : 0 <= nx < 65536).
    { destruct Hid as [(? & _ & ->)|(_ & -> & _)]; [|lia]. unfold next_id. cbv zeta.
      pose proof (u16_range (id + 1)). destruct (u16 (id + 1) =? 0); lia. }
    destruct (Z.eqb_spec id 0) as [->|Hne]; injection E as <- <- <- <-; [done|].
    destruct Hid as [(Hr & Hfresh & _)|(? & _)]; [|done].
    split_and!; [|done|lia|lia|done]. apply EnqueueOutPub_ok; [done| |done|done].
    constructor; cbn; first [lia | done | intros; exfalso; lia].
  - cbn [mbind result_bind andb] in E. injection E as <- <- <- <-. split_and!; [|done|lia|lia|done].
    apply EnqueueOutPub_ok; [done| |done|cbn; lia].
    constructor; cbn; first [lia | done | intros; exfalso; lia].
Qed.
End Invariant.

(** ** Steps

    Everything that changes the queue of a connected client, with the
    allocator's outcomes and the broker's [next_packet_id]. *)

Section Steps.
Context {Net : Type} `{!Sender Net}.

Inductive outq_step : Z * BrokerClient Net -> Z * BrokerClient Net -> Prop :=
  | step_forward mem next bc topic payload n props qos retain rc mem' next' bc' :
      0 <= qos <= MQTT_QOS_2 ->
      forward mem next bc topic payload n props qos retain = Ok (rc, mem', next', bc') ->
      outq_step (next, bc) (next', bc')
  | step_drain now next bc rc bc' :
      BrokerClient_DrainOutQueue now bc = Ok (rc, bc') -> outq_step (next, bc) (next, bc')
  | step_puback now next bc id bc' :
      BrokerClient_OnPubAck now bc id = Ok bc' -> outq_step (next, bc) (next, bc')
  | step_pubrec next bc id :
      outq_step (next, bc) (next, snd (BrokerClient_OnPubRec bc id))
  | step_reject now next bc id bc' :
      BrokerClient_OnPubReject now bc id = Ok bc' -> outq_step (next, bc) (next, bc')
  | step_pubcomp now next bc id bc' :
      BrokerClient_OnPubComp now bc id = Ok bc' -> outq_step (next, bc) (next, bc').

Definition window_ok (bc : BrokerClient Net) : Prop :=
  out_q_inflight (bc_outq bc) <= effective_cap (bc_client_receive_max (bc_info bc)).

Lemma effective_cap_nonneg n : 0 <= n -> 0 <= effective_cap n <= BROKER_MAX_INFLIGHT_PER_SUB.
Proof. intros Hn. unfold effective_cap. destruct (negb _ && _) eqn:E; lia. Qed.

(** An acknowledgement that finds its entry, or none. *)
Lemma ack_ok now bc id expected bc' (keep : bool) :
  match BrokerClient_FindOutPub (bc_outq bc) id expected with
  | None => Ok bc
  | Some (before, e, after) =>
    if keep then Ok bc
    else drain_quietly now (with_outq bc (BrokerClient_UnlinkOutPub (bc_outq bc) before e after))
  end = Ok bc' ->
  expected <> BROKER_OUTQ_QUEUED -> outq_ok (bc_outq bc) -> window_ok bc ->
  outq_ok (bc_outq bc') /\ window_ok bc' /\ bc_info bc' = bc_info bc.
Proof.
  intros E Hexp Hok Hw. destruct (BrokerClient_FindOutPub _ _ _) as [[[before e] after]|] eqn:Ef;
    [|by injection E as <-].
  destruct keep; [by injection E as <-|].
  apply FindOutPub_spec in Ef as (_ & Hq & _ & Hs).
  assert (Hse : sent e) by (unfold sent; congruence).
  destruct (unlink_drain_ok _ _ _ _ _ _ E Hok Hq Hse) as (Hok' & Hi & [Hle Hwin]).
  split; [done|]. split; [|done]. unfold window_ok in *. rewrite Hi. lia.
Qed.

Lemma outq_step_ok st st' :
  outq_step st st' -> 0 <= fst st < 65536 -> outq_ok (bc_outq (snd st)) -> window_ok (snd st) ->
  0 <= fst st' < 65536 /\ outq_ok (bc_outq (snd st')) /\ window_ok (snd st') /\
  bc_info (snd st') = bc_info (snd st).
Proof.
  destruct 1 as [mem next bc topic payload n props qos retain rc mem' next' bc' Hqos E|now next bc rc bc' E
    |now next bc id bc' E|next bc id|now next bc id bc' E|now next bc id bc' E]; cbn [fst snd]; intros Hn Hok Hw.
  - destruct (forward_ok _ _ _ _ _ _ _ _ _ _ _ _ _ E Hn Hqos Hok) as (? & Hi & ? & Hf).
    split_and!; try done; try lia. unfold window_ok in *. by rewrite Hf, Hi.
  - destruct (BrokerClient_DrainOutQueue_ok _ _ _ _ E Hok) as (? & Hi & [Hle Hwin]).
    split_and!; try done; try lia. unfold window_ok in *. rewrite Hi. lia.
  - destruct (ack_ok now bc id BROKER_OUTQ_PUBLISH_SENT bc' false E) as (? & ? & ?); done.
  - pose proof (OnPubRec_ok bc id Hok) as H. destruct (BrokerClient_OnPubRec bc id) as [rc bc'].
    cbn [snd]. destruct H as (? & Hf & Hi). split_and!; try done; try lia. unfold window_ok in *. by rewrite Hf, Hi.
  - unfold BrokerClient_OnPubReject in E.
    destruct (BrokerClient_FindOutPub _ _ _) as [[[before e] after]|] eqn:Ef; [|by injection E as <-].
    assert (E' : match BrokerClient_FindOutPub (bc_outq bc) id BROKER_OUTQ_PUBLISH_SENT with
                 | None => Ok bc
                 | Some (before, e, after) =>
                   if negb (op_qos e =? MQTT_QOS_2) then Ok bc
                   else drain_quietly now (with_outq bc (BrokerClient_UnlinkOutPub (bc_outq bc) before e after))
                 end = Ok bc') by by rewrite Ef.
    rewrite Ef in E'. destruct (ack_ok now bc id BROKER_OUTQ_PUBLISH_SENT bc' (negb (op_qos e =? MQTT_QOS_2)))
      as (? & ? & ?); [by rewrite Ef|done..].
  - destruct (ack_ok now bc id BROKER_OUTQ_PUBREL_SENT bc' false E) as (? & ? & ?); done.
Qed.

Lemma outq_steps_ok st st' :
  rtc outq_step st st' -> 0 <= fst st < 65536 -> outq_ok (bc_outq (snd st)) -> window_ok (snd st) ->
  outq_ok (bc_outq (snd st')) /\ window_ok (snd st') /\ bc_info (snd st') = bc_info (snd st).
Proof.
  induction 1 as [st|st st1 st' Hstep _ IH]; intros Hn Hok Hw; [done|].
  destruct (outq_step_ok _ _ Hstep Hn Hok Hw) as (Hn1 & Hok1 & Hw1 & <-). by apply IH.
Qed.

Lemma empty_queue_ok : outq_ok BrokerClient_FreeOutQueue.
Proof. by constructor; cbn; [| |constructor|constructor]. Qed.
End Steps.

(** ** Properties *)

Section Examples.

Definition ex_info (receive_max level : Z) : ClientInfo := mkInfo 3 (Some [97]) level 0 0 1 1 0 0 1 receive_max.
Definition ex_will : Will := mkWill 0 None None 0 0 0 0.
Definition ex_link (script : list Z) (tx : Z) : Link ScriptNet :=
  mkLink (mkScript script [] []) (mkWrite 0 0 0 0 0) (replicate (Z.to_nat tx) 0)
    (mkIO MQTT_PK_BEGIN 0 0 0 0 (replicate (Z.to_nat BROKER_RX_BUF_SZ) 0)) 0 0 0.
Definition ex_client (receive_max level : Z) (q : OutQ) (l : Link ScriptNet) : BrokerClient ScriptNet :=
  mkClient 1 (ex_info receive_max level) ex_will (mkQos2 [] 0) q l.
Definition ex_entry (qos id dup : Z) (state : BrokerOutPubState) (payload : list Z) : BrokerOutPub :=
  mkOutPub [116] (Some payload) (len payload) qos id 0 state dup 0 0 4 [].
End Examples.

(** C16: the invariant of an outbound queue. Whatever sequence of forwarded
    messages, drains, PUBACKs, PUBRECs, rejections and PUBCOMPs a client's
    queue goes through from the empty one, with allocations and writes failing
    at any point: the counters are the number of entries and of entries sent
    but not acknowledged, no more messages are in flight than the subscriber's
    Receive Maximum and BROKER_MAX_INFLIGHT_PER_SUB allow, every QoS 1 or 2
    entry has a packet identifier of 1 to 65535 that no other such entry has,
    and only QoS 2 entries wait for a PUBCOMP. *)
Theorem OutQueue_invariant {Net} `{!Sender Net} next (bc : BrokerClient Net) next' bc' :
  0 <= next < 65536 -> 0 <= bc_client_receive_max (bc_info bc) ->
  bc_outq bc = BrokerClient_FreeOutQueue -> rtc outq_step (next, bc) (next', bc') ->
  outq_ok (bc_outq bc') /\ window_ok bc' /\
  inflight (out_q (bc_outq bc')) <= BROKER_MAX_INFLIGHT_PER_SUB.
Proof.
  intros Hn Hr Hq Hsteps. pose proof (effective_cap_nonneg _ Hr) as Hcap.
  destruct (outq_steps_ok _ _ Hsteps Hn) as (Hok & Hw & Hi); cbn [fst snd] in *.
  - rewrite Hq. apply empty_queue_ok.
  - unfold window_ok. rewrite Hq. cbn. lia.
  - split_and!; [done..|]. rewrite <- (oq_inflight _ Hok). unfold window_ok in Hw. rewrite Hi in Hw. lia.
Qed.

Lemma OutQueue_invariant_witness :
  let bc := ex_client 1 4 BrokerClient_FreeOutQueue (ex_link [3] 32) in
  exists next' bc', rtc outq_step (1, bc) (next', bc') /\ len (out_q (bc_outq bc')) = 2 /\
    outq_ok (bc_outq bc').
Proof.
  eexists _, _. split; [|split].
  - eapply rtc_l; [eapply (step_forward [] 1 _ [116] (Some [104; 105]) 2 [] 2 0); [lia|vm_compute; reflexivity]|].
    eapply rtc_l; [eapply (step_forward [true; true] 2 _ [116] None 0 [] 1 1); [lia|vm_compute; reflexivity]|].
    eapply rtc_l; [eapply (step_drain 9 3); vm_compute; reflexivity|].
    eapply rtc_l; [eapply (step_drain 9 3); vm_compute; reflexivity|].
    eapply rtc_l; [eapply (step_pubrec 3 _ 1)|]. apply rtc_refl.
  - vm_compute. reflexivity.
  - eapply (OutQueue_invariant 1 (ex_client 1 4 BrokerClient_FreeOutQueue (ex_link [3] 32)) 3); [lia|cbn; lia|done|].
    eapply rtc_l; [eapply (step_forward [] 1 _ [116] (Some [104; 105]) 2 [] 2 0); [lia|vm_compute; reflexivity]|].
    eapply rtc_l; [eapply (step_forward [true; true] 2 _ [116] None 0 [] 1 1); [lia|vm_compute; reflexivity]|].
    eapply rtc_l; [eapply (step_drain 9 3); vm_compute; reflexivity|].
    eapply rtc_l; [eapply (step_drain 9 3); vm_compute; reflexivity|].
    eapply rtc_l; [eapply (step_pubrec 3 _ 1)|]. apply rtc_refl.
Defined.

(** Packet identifiers. BrokerNextPacketIdForQueue always answers (its
    loop of at most 65535 candidates needs no more): with an identifier of 1
    to 65535 that no entry of the queue has, whenever the queue has fewer than
    65535 entries, and with 0 only when every identifier is taken. *)
Theorem BrokerNextPacketIdForQueue_fresh next q :
  0 <= next < 65536 ->
  exists id next', BrokerNextPacketIdForQueue next q = Ok (id, next') /\ 0 <= next' < 65536 /\
    ((1 <= id <= 65535 /\ (id ∉ map op_packet_id q)) \/
     (id = 0 /\ 65535 <= len q /\ forall id, 1 <= id <= 65535 -> id ∈ map op_packet_id q)) /\
    (len q < 65535 -> id <> 0).
Proof.
  intros Hn. destruct (BrokerNextPacketIdForQueue_spec next q Hn) as (id & next' & -> & H).
  exists id, next'. split; [done|]. destruct H as [(Hr & Hf & ->)|(-> & -> & Hall)].
  - split; [|split; [by left|lia]]. unfold next_id. cbv zeta. pose proof (u16_range (id + 1)).
    destruct (u16 (id + 1) =? 0); lia.
  - pose proof (ids_pigeonhole _ Hall) as Hp. unfold len in Hp. rewrite length_map in Hp.
    split; [lia|]. split; [by right|]. unfold len. lia.
Qed.

Lemma BrokerNextPacketIdForQueue_fresh_witness :
  let q := [ex_entry 1 65535 0 BROKER_OUTQ_PUBLISH_SENT []] in
  BrokerNextPacketIdForQueue 65535 q = Ok (1, 2) /\
  exists id next', BrokerNextPacketIdForQueue 65535 q = Ok (id, next') /\ id <> 0.
Proof.
  split; [vm_compute; reflexivity|].
  destruct (BrokerNextPacketIdForQueue_fresh 65535 [ex_entry 1 65535 0 BROKER_OUTQ_PUBLISH_SENT []] ltac:(lia))
    as (id & next' & E & _ & _ & H).
  exists id, next'. split; [exact E|]. apply H. by_eval.
Defined.

(** A PUBACK completes a QoS 2 delivery. OnPubAck looks for a sent PUBLISH
    with the identifier and does not ask for its QoS, so the answer to a QoS 1
    message ends the QoS 2 handshake of the entry, which the functions for
    PUBREC and for a rejecting PUBREC refuse for a QoS 1 entry. *)
Theorem OnPubAck_completes_qos2 :
  let bc q := ex_client 0 4 q (ex_link [] 32) in
  let q qos := mkOutQ [ex_entry qos 5 0 BROKER_OUTQ_PUBLISH_SENT [104]] 1 1 0 in
  BrokerClient_OnPubAck 0 (bc (q 2)) 5 = Ok (bc BrokerClient_FreeOutQueue) /\
  BrokerClient_OnPubRec (bc (q 1)) 5 = (-1, bc (q 1)) /\
  BrokerClient_OnPubReject 0 (bc (q 1)) 5 = Ok (bc (q 1)).
Proof. by split_and!; vm_compute. Qed.

(** A reclaimed session can be stuck. A client that returns with a
    smaller Receive Maximum, whose PUBREL is behind a message to send again,
    fills its window with the PUBREL's entry: the drain stops at the message
    and never re-sends the PUBREL that would free the window, whenever it is
    called; with a larger window it sends both. *)
Theorem DrainOutQueue_stuck :
  let q := mkOutQ [ex_entry 1 7 1 BROKER_OUTQ_QUEUED [104]; ex_entry 2 5 1 BROKER_OUTQ_PUBREL_SENT [105]] 2 1 0 in
  let bc receive_max := ex_client receive_max 5 q (ex_link [] 32) in
  outq_ok (bc_outq (bc 1)) /\ window_ok (bc 1) /\
  (forall now, BrokerClient_DrainOutQueue now (bc 1) = Ok (0, bc 1)) /\
  (exists bc', BrokerClient_DrainOutQueue 0 (bc 2) = Ok (2, bc')).
Proof.
  split_and!.
  - constructor; [done|done| |by_eval]. repeat constructor; cbn; lia || done.
  - by vm_compute.
  - done.
  - eexists. vm_compute. reflexivity.
Qed.

(** The drain sends half a packet. A QoS 0 PUBLISH from a v3.1.1 client
    that fills the 4096 bytes of the receive buffer is one byte longer for a
    v5 subscriber; MqttEncode_Publish then writes what fits, and the drain takes
    it for the packet: 4096 bytes go out behind a fixed header that announces
    4097, and the entry is gone. *)
Theorem DrainOutQueue_truncates :
  let e := mkOutPub [116] (Some (replicate (Z.to_nat 4090) 120)) 4090 0 0 0 BROKER_OUTQ_QUEUED 0 0 0 5 [] in
  let bc := ex_client 0 5 (mkOutQ [e] 1 0 0) (ex_link [] BROKER_TX_BUF_SZ) in
  exists bc', BrokerClient_DrainOutQueue 0 bc = Ok (1, bc') /\ out_q (bc_outq bc') = [] /\
    len (net_sent (lk_net (bc_link bc'))) = 4096 /\
    take 3 (net_sent (lk_net (bc_link bc'))) = header_bytes 3 0 0 0 (4097 - 3).
Proof. eexists. split; [vm_compute; reflexivity|]. by split_and!; vm_compute. Qed.
