(* ===== verification/OutStream.v ===== *)
(** * OutStream: the byte stream of an outbound queue ([mqtt_broker.c])

    [BrokerClient_DrainOutQueue] may stop inside a packet and is called again
    later. The stream it writes is determined by the queue: whole packets, in
    queue order, however the network cuts them. *)
From S2P Require Import Prelude PacketDefs Wire FixedHeader Props Frame ReasonCodes PublishResp Publish PacketIO BrokerDefs OutQueue.

(** ** The packets of a queue *)

(** The packet of an entry, if it can be encoded. *)
Definition publish_frame (tx_len : Z) (e : BrokerOutPub) : option (list Z) :=
  match MqttEncode_Publish tx_len (outpub_message e) false with
  | Ok (rc, bs, _) => if rc <=? 0 then None else Some bs
  | _ => None
  end.

Definition rel_frame (tx_len : Z) (e : BrokerOutPub) : option (list Z) :=
  match MqttEncode_PublishResp tx_len MQTT_PACKET_TYPE_PUBLISH_REL
          (mkPublishResp (op_packet_id e) MQTT_REASON_SUCCESS [] (op_protocol_level e)) with
  | Ok (rc, bs) => if rc <=? 0 then None else Some bs
  | _ => None
  end.

Definition queued (e : BrokerOutPub) : bool := bool_decide (op_state e = BROKER_OUTQ_QUEUED).
Definition rel_due (e : BrokerOutPub) : bool :=
  bool_decide (op_state e = BROKER_OUTQ_PUBREL_SENT) && negb (op_retransmit_dup e =? 0).
Definition capped (cap n : Z) (e : BrokerOutPub) : bool :=
  queued e && (MQTT_QOS_0 <? op_qos e) && (cap <=? n).

(** The packet of an entry, and the messages in flight once it is sent. *)
Definition frame_of (tx_len : Z) (e : BrokerOutPub) : option (list Z) :=
  if queued e then publish_frame tx_len e else if rel_due e then rel_frame tx_len e else None.

Definition after (e : BrokerOutPub) (n : Z) : Z :=
  if queued e && negb (op_qos e =? MQTT_QOS_0) then n + 1 else n.

(** The packets a drain is to send, [n] messages being in flight. *)
Fixpoint frames (tx_len cap n : Z) (q : list BrokerOutPub) : list (list Z) :=
  match q with
  | [] => []
  | e :: q =>
    if capped cap n e then []
    else match frame_of tx_len e with
         | Some f => f :: frames tx_len cap (after e n) q
         | None => frames tx_len cap n q
         end
  end.

(** The packet of the first entry with something to send. *)
Fixpoint front (tx_len cap n : Z) (q : list BrokerOutPub) : option (list Z) :=
  match q with
  | [] => None
  | e :: q =>
    if capped cap n e then None
    else match frame_of tx_len e with
         | Some f => Some f
         | None => if queued e then None else front tx_len cap n q
         end
  end.

(** The same packets, [head] having been sent of the first. *)
Definition wires (head : list Z) (fs : list (list Z)) : list (list Z) :=
  match fs with
  | [] => []
  | f :: fs => (head ++ drop (length head) f) :: fs
  end.

Lemma wires_nil fs : wires [] fs = fs.
Proof. by destruct fs. Qed.

(** An entry that sends nothing, or is no longer there. *)
Definition silent (tx_len : Z) (kept : option BrokerOutPub) : Prop :=
  match kept with Some e => queued e = false /\ frame_of tx_len e = None | None => True end.

Definition keep (kept : option BrokerOutPub) (q : list BrokerOutPub) : list BrokerOutPub :=
  match kept with Some e => e :: q | None => q end.

Lemma silent_frames tx_len cap n kept q :
  silent tx_len kept -> frames tx_len cap n (keep kept q) = frames tx_len cap n q /\
    front tx_len cap n (keep kept q) = front tx_len cap n q.
Proof.
  destruct kept as [e|]; [|done]. intros [Hq Hr]. cbn [keep frames front]. unfold capped.
  by rewrite Hr, Hq.
Qed.

(** ** Encoding an entry *)

Definition entry_rep (e : BrokerOutPub) : Prop := pub_rep (outpub_message e).

Lemma publish_frame_cases tx_len e :
  pub_rep (outpub_message e) ->
  (exists f m, MqttEncode_Publish tx_len (outpub_message e) false = Ok (len f, f, m) /\
     publish_frame tx_len e = Some f /\ 0 < len f <= tx_len) \/
  (exists rc, MqttEncode_Publish tx_len (outpub_message e) false = Err rc /\ rc < 0 /\
     publish_frame tx_len e = None).
Proof.
  intros Hrep. unfold publish_frame.
  destruct (MqttEncode_Publish_settles tx_len (outpub_message e) false Hrep)
    as [(_ & [[rc bs] m] & -> & (payload & Hbs & -> & Hle & _))|(_ & rc & Hrc & ->)];
    [left|right; by exists rc].
  assert (0 < len bs).
  { rewrite Hbs. unfold pub_head, header_bytes. rewrite !len_app, len_cons.
    pose proof (len_nonneg payload). pose proof (len_nonneg (pub_vars (outpub_message e))).
    pose proof (len_nonneg (vbi 4 (len (pub_vars (outpub_message e)) +
      publish_payload_len (outpub_message e) false))). lia. }
  exists bs, m. by rewrite (proj2 (Z.leb_gt (len bs) 0)).
Qed.

(** The DUP flag is in the first byte only. *)
Definition alike (f f' : list Z) : Prop := length f = length f' /\ tail f = tail f'.

Lemma alike_drop f f' k : alike f f' -> (0 < k)%nat -> drop k f = drop k f'.
Proof.
  intros [Hl Ht] Hk. destruct k as [|k]; [lia|].
  destruct f, f'; try done. cbn in *. by subst.
Qed.

Lemma variable_len_dup e dup :
  0 < op_qos e ->
  publish_variable_len (outpub_message (set_op_dup e dup)) = publish_variable_len (outpub_message e).
Proof.
  intros Hq. unfold publish_variable_len. cbn [outpub_message set_op_dup msg_qos op_qos].
  by rewrite (proj2 (Z.ltb_lt MQTT_QOS_0 (op_qos e))).
Qed.

Lemma payload_dup e dup room n :
  publish_payload (outpub_message (set_op_dup e dup)) room n =
    ('(bs, m) ← publish_payload (outpub_message e) room n;
     Ok (bs, mkMessage (msg_packet_id m) (msg_type m) (msg_qos m) (msg_retain m) dup (msg_topic_name m)
               (msg_topic_name_len m) (msg_total_len m) (msg_buffer m) (msg_buffer_len m)
               (msg_buffer_pos m) (msg_buffer_new m) (msg_intBuf_len m) (msg_intBuf_pos m)
               (msg_props m) (msg_protocol_level m))).
Proof.
  unfold publish_payload. destruct (0 <? n); [|done]. cbn [outpub_message set_op_dup msg_buffer].
  cbv zeta. change (op_payload (set_op_dup e dup)) with (op_payload e).
  destruct (op_payload e) as [b|]; [|done].
  by destruct (slice b 0 _).
Qed.

Lemma publish_frame_dup tx_len e dup :
  0 < op_qos e ->
  match publish_frame tx_len e, publish_frame tx_len (set_op_dup e dup) with
  | Some f, Some f' => alike f f'
  | None, None => True
  | _, _ => False
  end.
Proof.
  intros Hq. unfold publish_frame, MqttEncode_Publish. rewrite variable_len_dup by done.
  change (msg_qos (outpub_message (set_op_dup e dup))) with (msg_qos (outpub_message e)).
  change (msg_buffer (outpub_message (set_op_dup e dup))) with (msg_buffer (outpub_message e)).
  change (msg_buffer_len (outpub_message (set_op_dup e dup))) with (msg_buffer_len (outpub_message e)).
  change (msg_total_len (outpub_message (set_op_dup e dup))) with (msg_total_len (outpub_message e)).
  change (msg_retain (outpub_message (set_op_dup e dup))) with (msg_retain (outpub_message e)).
  change (publish_payload_len (outpub_message (set_op_dup e dup)) false)
    with (publish_payload_len (outpub_message e) false).
  destruct (MQTT_QOS_2 <? _); [done|].
  destruct (publish_variable_len _) as [[n pl]| |]; cbn [mbind result_bind]; [|done..].
  destruct (_ && _); [done|]. unfold MqttEncode_FixedHeader. destruct (_ <? _); [done|].
  destruct (MqttEncode_Vbi _ _) as [[h bs]| |]; cbn [mbind result_bind]; [|done..].
  destruct (tx_len <? _); [done|]. cbv zeta.
  change (publish_variable (outpub_message (set_op_dup e dup)) pl)
    with (publish_variable (outpub_message e) pl).
  destruct (publish_variable _ _) as [[x var]| |]; cbn [mbind result_bind]; [|done..].
  rewrite payload_dup.
  destruct (publish_payload _ _ _) as [[payload m]| |]; cbn [mbind result_bind]; [|done..].
  cbn [msg_intBuf_len]. destruct (_ <=? 0); done.
Qed.

Lemma rel_frame_cases tx_len e :
  0 <= op_packet_id e < 65536 ->
  (exists f, MqttEncode_PublishResp tx_len MQTT_PACKET_TYPE_PUBLISH_REL
       (mkPublishResp (op_packet_id e) MQTT_REASON_SUCCESS [] (op_protocol_level e)) = Ok (len f, f) /\
     rel_frame tx_len e = Some f /\ 0 < len f <= tx_len) \/
  (exists rc, MqttEncode_PublishResp tx_len MQTT_PACKET_TYPE_PUBLISH_REL
       (mkPublishResp (op_packet_id e) MQTT_REASON_SUCCESS [] (op_protocol_level e)) = Err rc /\
     rel_frame tx_len e = None).
Proof.
  intros Hid. unfold rel_frame.
  set (pr := mkPublishResp (op_packet_id e) MQTT_REASON_SUCCESS [] (op_protocol_level e)).
  destruct (MqttEncode_PublishResp_answers tx_len MQTT_PACKET_TYPE_PUBLISH_REL pr) as [[[_ Hr] ->]|(_ & rc & _ & ->)];
    [by_eval|split; [exact Hid|split; [unfold is_byte; cbn; lia|constructor]]| |right; by exists rc].
  left. destruct Hr as (_ & _ & Hr).
  rewrite <- (frame_len MQTT_PACKET_TYPE_PUBLISH_REL 0 (fixed_qos MQTT_PACKET_TYPE_PUBLISH_REL) 0) in Hr.
  change (len (resp_wire MQTT_PACKET_TYPE_PUBLISH_REL pr) <= tx_len) in Hr.
  assert (0 < len (resp_wire MQTT_PACKET_TYPE_PUBLISH_REL pr)).
  { unfold resp_wire. rewrite frame_len_eq. pose proof (len_nonneg (resp_body pr)).
    pose proof (len_nonneg (vbi 4 (len (resp_body pr)))). lia. }
  exists (resp_wire MQTT_PACKET_TYPE_PUBLISH_REL pr). by rewrite (proj2 (Z.leb_gt _ 0)).
Qed.

(** ** Whole packets *)

(** The PUBLISH and the PUBREL of an entry: complete MQTT packets, whatever the
    size of the send buffer. *)
Definition publish_packet (e : BrokerOutPub) : list Z :=
  let n := publish_payload_len (outpub_message e) false in
  pub_head (outpub_message e) n ++ take (Z.to_nat n) (default [] (op_payload e)).

Definition pubrel_of (e : BrokerOutPub) : MqttPublishResp :=
  mkPublishResp (op_packet_id e) MQTT_REASON_SUCCESS [] (op_protocol_level e).

Definition entry_packet (e : BrokerOutPub) : option (list Z) :=
  if queued e then Some (publish_packet e)
  else if rel_due e then Some (resp_wire MQTT_PACKET_TYPE_PUBLISH_REL (pubrel_of e)) else None.

(** The packets of the queue, as far as the in-flight window [cap] goes, [n]
    messages being in flight. *)
Fixpoint packets_due (cap n : Z) (q : list BrokerOutPub) : list (list Z) :=
  match q with
  | [] => []
  | e :: q =>
    if capped cap n e then []
    else match entry_packet e with
         | Some f => f :: packets_due cap (after e n) q
         | None => packets_due cap n q
         end
  end.

(** The packet of the entry is one the encoders accept, and fits the send
    buffer whole. *)
Definition entry_fits (tx_len : Z) (e : BrokerOutPub) : Prop :=
  (queued e = true ->
   pub_ok (outpub_message e) /\
   pub_room tx_len (outpub_message e) (publish_payload_len (outpub_message e) false) /\
   len (pub_head (outpub_message e) (publish_payload_len (outpub_message e) false)) +
     publish_payload_len (outpub_message e) false <= tx_len) /\
  (rel_due e = true ->
   resp_ok MQTT_PACKET_TYPE_PUBLISH_REL (pubrel_of e) /\ room tx_len (resp_body (pubrel_of e))).

(** It is enough to run the encoders. *)
Definition fits_dec (tx_len : Z) (e : BrokerOutPub) : bool :=
  if queued e then
    match MqttEncode_Publish tx_len (outpub_message e) false with
    | Ok _ => len (pub_head (outpub_message e) (publish_payload_len (outpub_message e) false)) +
                publish_payload_len (outpub_message e) false <=? tx_len
    | _ => false
    end
  else if rel_due e then
    match MqttEncode_PublishResp tx_len MQTT_PACKET_TYPE_PUBLISH_REL (pubrel_of e) with Ok _ => true | _ => false end
  else true.

Lemma pubrel_answers tx_len e :
  entry_rep e ->
  answers (MqttEncode_PublishResp tx_len MQTT_PACKET_TYPE_PUBLISH_REL (pubrel_of e))
    (resp_ok MQTT_PACKET_TYPE_PUBLISH_REL (pubrel_of e) /\ room tx_len (resp_body (pubrel_of e)))
    (len (resp_wire MQTT_PACKET_TYPE_PUBLISH_REL (pubrel_of e))) (resp_wire MQTT_PACKET_TYPE_PUBLISH_REL (pubrel_of e)).
Proof.
  intros Hrep. apply MqttEncode_PublishResp_answers; [by_eval|]. split; [apply Hrep|].
  split; [unfold is_byte; cbn; lia|constructor].
Qed.

Lemma entry_fits_dec tx_len e : entry_rep e -> fits_dec tx_len e = true -> entry_fits tx_len e.
Proof.
  intros Hrep. unfold fits_dec. destruct (queued e) eqn:Eq.
  - pose proof (MqttEncode_Publish_settles tx_len _ false Hrep) as [([Hok Hroom] & [[rc bs] m] & -> & _)|(_ & rc & _ & ->)]; [|done].
    intros Hl%Z.leb_le. split; [done|]. unfold rel_due, queued in *. by destruct (op_state e).
  - destruct (rel_due e) eqn:Er; intros H; (split; [by rewrite Eq|rewrite Er; intros Hd]); [|done].
    by destruct (pubrel_answers tx_len e Hrep) as [[? _]|(_ & rc & _ & E)]; [|rewrite E in H].
Qed.

Lemma publish_frame_whole tx_len e :
  entry_rep e -> entry_fits tx_len e -> queued e = true -> publish_frame tx_len e = Some (publish_packet e).
Proof.
  intros Hrep [Hfit _] Hq. destruct (Hfit Hq) as (Hok & Hroom & Hall).
  destruct (publish_frame_cases tx_len e Hrep) as [(f & m' & E & -> & _)|(rc & E & _)];
    pose proof (MqttEncode_Publish_settles tx_len _ false Hrep) as [(_ & [[rc' bs] m2] & E' & p & Hbs & _ & _ & Hs)|(Hno & _)];
    try (by destruct Hno); rewrite E in E'; [|done].
  injection E' as _ <- <-. f_equal. rewrite Hbs. unfold publish_packet. f_equal.
  destruct Hs as (Hnil & Hpre & Hle & _). set (n := publish_payload_len _ false) in *. pose proof (len_nonneg p).
  destruct (Z.ltb_spec 0 n) as [Hn|Hn].
  - destruct (Hpre eq_refl Hn) as (b & Eb & [more ->] & _ & Hwhole). cbn in Eb. rewrite Eb. unfold default, id.
    rewrite <- (Hwhole ltac:(lia) (or_introl eq_refl)). unfold len. by rewrite Nat2Z.id, take_app_length.
  - assert (En : n = 0) by lia. rewrite (Hnil (or_intror En)). by rewrite En.
Qed.

Lemma rel_frame_whole tx_len e :
  entry_rep e -> entry_fits tx_len e -> rel_due e = true ->
  rel_frame tx_len e = Some (resp_wire MQTT_PACKET_TYPE_PUBLISH_REL (pubrel_of e)).
Proof.
  intros Hrep [_ Hfit] Hr. unfold rel_frame. change (mkPublishResp _ _ _ _) with (pubrel_of e).
  destruct (pubrel_answers tx_len e Hrep) as [[_ ->]|(Hno & _)]; [|by destruct Hno; apply Hfit].
  rewrite (proj2 (Z.leb_gt _ 0)); [done|]. unfold resp_wire. rewrite frame_len_eq.
  pose proof (len_nonneg (resp_body (pubrel_of e))). pose proof (len_nonneg (vbi 4 (len (resp_body (pubrel_of e))))). lia.
Qed.

(** When every entry fits, the packets a drain is to send are whole. *)
Lemma frames_whole tx_len cap n q :
  Forall entry_rep q -> Forall (entry_fits tx_len) q -> frames tx_len cap n q = packets_due cap n q.
Proof.
  intros Hrep Hfit. revert n. induction Hrep as [|e q He _ IH]; intros n; [done|].
  apply list.Forall_cons in Hfit as [Hf Hfit]. cbn [frames packets_due]. destruct (capped cap n e); [done|].
  unfold frame_of, entry_packet. destruct (queued e) eqn:Eq.
  - rewrite publish_frame_whole by done. f_equal. by apply IH.
  - destruct (rel_due e) eqn:Er; [rewrite rel_frame_whole by done; f_equal|]; by apply IH.
Qed.

(** ** Writing one packet *)

Section Stream.
Context {Net : Type} `{!Sender Net}.
Implicit Types (d : Drain Net) (bc : BrokerClient Net).

Lemma BROKER_FORCE_ZERO_len buf n : 0 <= n <= len buf -> len (BROKER_FORCE_ZERO buf n) = len buf.
Proof.
  intros Hn. unfold BROKER_FORCE_ZERO. rewrite len_app, len_replicate by lia.
  unfold len in *. rewrite length_drop. lia.
Qed.

Lemma put_front (tx f : list Z) :
  len f <= len tx -> exists tx', put tx 0 f = Ok tx' /\ len tx' = len tx /\ take (length f) tx' = f.
Proof.
  intros Hl. pose proof (len_nonneg f).
  destruct (put_prefix tx f 0 f ltac:(lia) eq_refl (ex_intro _ [] (eq_sym (app_nil_r f))) ltac:(lia) ltac:(lia))
    as (tx' & E & Hl' & Ht).
  exists tx'. split; [exact E|]. split; [exact Hl'|]. unfold len in Ht. rewrite Z.add_0_l, Nat2Z.id in Ht.
  by rewrite firstn_all in Ht.
Qed.

(** No other packet of the broker is being written. *)
Definition quiet (l : Link Net) : Prop :=
  wr_packet_sz_max (lk_write l) = 0 /\ direct_pending_len l = 0 /\ connack_pending_len l = 0.

(** The code writes the rest of [f] from the buffer; the stream becomes that
    of the packet [head ++ drop (length head) f]. *)
Lemma client_write_step now (l : Link Net) base head f :
  net_sent (lk_net l) = base ++ head -> wr_pos (lk_write l) = len head -> len head < len f ->
  quiet l -> take (length f) (lk_tx l) = f -> len f < 2147483648 ->
  let wire := head ++ drop (length head) f in
  exists rc l', client_write now l (len f) = Ok (rc, l') /\ lk_tx l' = lk_tx l /\
    quiet l' /\
    ((rc < 0 /\ exists head', head' ++ drop (length head') f = wire /\ wr_pos (lk_write l') = len head' /\
        len head' < len f /\ net_sent (lk_net l') = base ++ head') \/
     (rc = len f /\ wr_pos (lk_write l') = 0 /\ net_sent (lk_net l') = base ++ wire)).
Proof.
  intros Hnet Hpos Hlt (Hmax & Hdir & Hcon) Htx Hf. cbv zeta. set (wire := head ++ drop (length head) f).
  assert (Hwl : len wire = len f).
  { unfold wire. rewrite len_app. unfold len in *. rewrite length_drop. lia. }
  assert (Hwh : take (length head) wire = head) by (unfold wire; by rewrite take_app_length).
  assert (Hwt : drop (length head) wire = drop (length head) f) by (unfold wire; by rewrite drop_app_length).
  assert (Hext : MqttPacket_Write now (lk_write l) (lk_net l) (lk_tx l) (len f) =
                 MqttPacket_Write now (lk_write l) (lk_net l) wire (len wire)).
  { rewrite Hwl. unfold MqttPacket_Write, MqttSocket_Write. rewrite Hpos.
    assert (Hsl : slice (lk_tx l) (len head) (len f - len head) = slice wire (len head) (len f - len head)).
    { assert (len f <= len (lk_tx l)).
      { rewrite <- Htx. unfold len. rewrite length_take. lia. }
      pose proof (len_nonneg head). rewrite !slice_ok by lia. f_equal.
      replace (Z.to_nat (len head)) with (length head) by (unfold len; lia). rewrite Hwt.
      rewrite (take_ge (drop _ f)) by (rewrite length_drop; unfold len; lia).
      rewrite take_drop_commute. f_equal. transitivity (take (length f) (lk_tx l)); [|exact Htx].
      f_equal. unfold len in *. lia. }
    by rewrite Hsl. }
  unfold client_write. rewrite Hext.
  assert (Hs : sent_upto base wire (lk_write l) (lk_net l)).
  { split; [rewrite Hpos; pose proof (len_nonneg head); lia|]. rewrite Hnet, Hpos.
    unfold len. rewrite Nat2Z.id. by rewrite Hwh. }
  pose proof (MqttPacket_Write_step now base wire (lk_write l) (lk_net l) Hs ltac:(lia) ltac:(lia)) as Hw.
  rewrite Hmax in Hw. change (0 <? 0) with false in Hw. cbn [andb] in Hw.
  destruct Hw as (rc & w' & net' & -> & Hm' & Hcase). cbn [mbind result_bind].
  exists rc, (set_io l net' w'). split; [done|]. split; [done|]. split; [by split|].
  destruct Hcase as [(Hrc & Hle & [Hp' Hs'] & _)|(-> & Hp & Hs' & _)]; [left|right].
  - split; [done|]. exists (take (Z.to_nat (wr_pos w')) wire).
    assert (Hhl : length (take (Z.to_nat (wr_pos w')) wire) = Z.to_nat (wr_pos w'))
      by (rewrite length_take; unfold len in *; lia).
    assert (Hdrop : drop (Z.to_nat (wr_pos w')) f = drop (Z.to_nat (wr_pos w')) wire).
    { replace (Z.to_nat (wr_pos w')) with (length head + (Z.to_nat (wr_pos w') - length head))%nat
        by (unfold len in *; lia). by rewrite <- !drop_drop, Hwt. }
    rewrite Hhl, Hdrop, take_drop. unfold len in *. rewrite Hhl. cbn [lk_write lk_net set_io].
    split_and!; [done|lia|lia|done].
  - cbn [lk_write lk_net set_io]. rewrite Hwl. done.
Qed.

(** ** The state of a stream

    [base ++ head] is on the wire; [head] is the part of the first packet. *)
Context (txl cap : Z) (Htxl : txl < 2147483648).

Record streaming (base head : list Z) (q : list BrokerOutPub) (d : Drain Net) : Prop := {
  st_max : quiet (dr_link d);
  st_tx : len (lk_tx (dr_link d)) = txl;
  st_rep : Forall entry_rep q;
  st_net : net_sent (lk_net (dr_link d)) = base ++ head;
  st_pos : wr_pos (lk_write (dr_link d)) = len head;
  st_busy : (head = [] /\ dr_pending_len d = 0) \/
    exists f, front txl cap (dr_inflight d) q = Some f /\ len head < len f /\
      (dr_pending_len d = 0 \/ dr_pending_len d = len f)
}.

(** The packets the stream goes on with. *)
Definition todo (head : list Z) (q : list BrokerOutPub) (d : Drain Net) : list (list Z) :=
  wires head (frames txl cap (dr_inflight d) q).

Lemma silent_streaming base head kept q d :
  silent txl kept -> match kept with Some e => entry_rep e | None => True end ->
  streaming base head q d ->
  streaming base head (keep kept q) d /\ todo head (keep kept q) d = todo head q d.
Proof.
  intros Hs Hrep [Hm Ht Hr Hn Hp Hb].
  destruct (silent_frames txl cap (dr_inflight d) kept q Hs) as [Hfr Hfo].
  split; [|unfold todo; by rewrite Hfr]. constructor; try done.
  - destruct kept; [by constructor|done].
  - by rewrite Hfo.
Qed.

(** ** One entry

    [walked]: the entry had nothing to send. [written]: its packet is on the
    wire. [halted_in]: the write stopped inside its packet, which the next
    drain goes on with. [abandoned]: half of a QoS 0 packet is on the wire, and
    the entry is gone. *)
Inductive entry_out (base head : list Z) (cur : BrokerOutPub) (next : list BrokerOutPub)
    (d : Drain Net) : option Z -> option BrokerOutPub -> Drain Net -> Prop :=
  | walked kept d' :
      silent txl kept -> match kept with Some e => entry_rep e | None => True end ->
      streaming base head next d' -> dr_sent d' = dr_sent d ->
      todo head (cur :: next) d = todo head next d' ->
      entry_out base head cur next d None kept d'
  | written wire kept d' :
      silent txl kept -> match kept with Some e => entry_rep e | None => True end ->
      streaming (base ++ wire) [] next d' -> dr_sent d' = dr_sent d + 1 ->
      todo head (cur :: next) d = wire :: todo [] next d' ->
      entry_out base head cur next d None kept d'
  | halted_in rc head' kept d' :
      rc < 0 -> streaming base head' (keep kept next) d' ->
      todo head (cur :: next) d = todo head' (keep kept next) d' ->
      todo head (cur :: next) d <> [] ->
      entry_out base head cur next d (Some rc) kept d'
  | abandoned rc wire part d' :
      rc < 0 -> rc <> MQTT_CODE_CONTINUE -> op_qos cur = MQTT_QOS_0 -> part `prefix_of` wire -> part <> [] ->
      streaming (base ++ part) [] next d' ->
      todo head (cur :: next) d = wire :: todo [] next d' ->
      entry_out base head cur next d (Some rc) None d'.

(** The state before the packet [f] of [cur] is written. *)
Lemma streaming_head base head cur next d f :
  streaming base head (cur :: next) d -> 0 < len f ->
  front txl cap (dr_inflight d) (cur :: next) = Some f ->
  len head < len f /\ (dr_pending_len d = 0 \/ dr_pending_len d = len f).
Proof.
  intros H Hf Hfr. destruct (st_busy _ _ _ _ H) as [[-> ->]|(f' & E & Hl & Hp)].
  - split; [done|by left].
  - rewrite Hfr in E. injection E as <-. done.
Qed.

Lemma front_cons n e q f :
  capped cap n e = false -> frame_of txl e = Some f -> front txl cap n (e :: q) = Some f.
Proof. intros Hc Hf. cbn [front]. by rewrite Hc, Hf. Qed.

Lemma todo_cons head cur next d f :
  capped cap (dr_inflight d) cur = false -> frame_of txl cur = Some f ->
  todo head (cur :: next) d =
    (head ++ drop (length head) f) ::
      frames txl cap (after cur (dr_inflight d)) next.
Proof. intros Hc Hf. unfold todo. cbn [frames]. by rewrite Hc, Hf. Qed.

(** [cut]: the write stopped with [head] of [f] on the wire, [wire] being what
    the packet is there in the end. *)
Definition cut (base wire head f : list Z) (l : Link Net) : Prop :=
  head ++ drop (length head) f = wire /\ wr_pos (lk_write l) = len head /\ len head < len f /\
  net_sent (lk_net l) = base ++ head.

(** The packet is written from the buffer. *)
Lemma write_front now base head cur next d f :
  streaming base head (cur :: next) d -> capped cap (dr_inflight d) cur = false ->
  frame_of txl cur = Some f -> 0 < len f <= txl ->
  negb (dr_pending_len d =? 0) && negb (dr_pending_len d =? len f) = false /\
  exists tx, put (lk_tx (dr_link d)) 0 f = Ok tx /\ exists rc l',
    client_write now (set_tx (dr_link d) tx) (len f) = Ok (rc, l') /\
    len (lk_tx l') = txl /\ quiet l' /\
    ((rc < 0 /\ exists head', cut base (head ++ drop (length head) f) head' f l') \/
     (rc = len f /\ wr_pos (lk_write l') = 0 /\
      net_sent (lk_net l') = base ++ head ++ drop (length head) f)).
Proof.
  intros Hst Hc Hf Hlen.
  destruct (streaming_head _ _ _ _ _ f Hst ltac:(lia) (front_cons _ _ _ _ Hc Hf)) as [Hlt Hpend].
  split.
  { destruct Hpend as [->| ->]; [done|]. rewrite Z.eqb_refl. by destruct (negb _). }
  pose proof (st_tx _ _ _ _ Hst) as Htl.
  destruct (put_front (lk_tx (dr_link d)) f ltac:(lia)) as (tx & Etx & Hltx & Htake).
  exists tx. split; [exact Etx|].
  destruct (client_write_step now (set_tx (dr_link d) tx) base head f (st_net _ _ _ _ Hst)
              (st_pos _ _ _ _ Hst) Hlt (st_max _ _ _ _ Hst) Htake ltac:(lia))
    as (rc & l' & Ew & Htx & Hm & Hcase).
  exists rc, l'. split; [exact Ew|]. rewrite Htx. split; [by rewrite <- Htl|]. split; [exact Hm|]. exact Hcase.
Qed.

(** The drain stops in the packet of [cur], which may now carry DUP. *)
Lemma halt_streaming base head head' cur cur' next d d' f f' :
  streaming base head (cur :: next) d -> capped cap (dr_inflight d) cur = false ->
  frame_of txl cur = Some f ->
  cut base (head ++ drop (length head) f) head' f (dr_link d') ->
  len (lk_tx (dr_link d')) = txl -> quiet (dr_link d') ->
  dr_inflight d' = dr_inflight d -> dr_pending_len d' = 0 \/ dr_pending_len d' = len f ->
  capped cap (dr_inflight d) cur' = false -> frame_of txl cur' = Some f' ->
  after cur' (dr_inflight d) = after cur (dr_inflight d) -> entry_rep cur' ->
  f' = f \/ (alike f f' /\ head' <> []) ->
  streaming base head' (cur' :: next) d' /\
  todo head (cur :: next) d = todo head' (cur' :: next) d'.
Proof.
  intros Hst Hc Hf (Hw & Hp & Hlt & Hn) Htx Hm Hi Hpend Hc' Hf' Ha Hrep Halike.
  assert (Hlf : len f' = len f) by (destruct Halike as [->|[[H _] _]]; unfold len; congruence).
  split.
  - constructor; try done; rewrite ?Hi.
    + constructor; [done|]. by destruct (proj1 (list.Forall_cons _ _ _) (st_rep _ _ _ _ Hst)).
    + right. exists f'. rewrite Hlf. by rewrite (front_cons _ _ _ f').
  - rewrite (todo_cons head cur next d f Hc Hf), (todo_cons head' cur' next d' f')
      by (rewrite ?Hi; done).
    rewrite Hi, Ha, <- Hw. f_equal. f_equal.
    destruct Halike as [->|[H Hne]]; [done|]. apply alike_drop; [exact H|].
    destruct head'; [done|cbn; lia].
Qed.

(** [cur] is done with, [out] being on the wire for it. *)
Lemma next_streaming base head out cur next d d' f :
  streaming base head (cur :: next) d -> capped cap (dr_inflight d) cur = false ->
  frame_of txl cur = Some f ->
  len (lk_tx (dr_link d')) = txl -> quiet (dr_link d') ->
  wr_pos (lk_write (dr_link d')) = 0 -> dr_pending_len d' = 0 ->
  dr_inflight d' = after cur (dr_inflight d) ->
  net_sent (lk_net (dr_link d')) = base ++ out ->
  streaming (base ++ out) [] next d' /\
  todo head (cur :: next) d = (head ++ drop (length head) f) :: todo [] next d'.
Proof.
  intros Hst Hc Hf Htx Hm Hp Hpend Hi Hn. split.
  - constructor; try done.
    + by destruct (proj1 (list.Forall_cons _ _ _) (st_rep _ _ _ _ Hst)).
    + by rewrite app_nil_r.
    + by left.
  - rewrite (todo_cons head cur next d f Hc Hf). unfold todo. by rewrite wires_nil, Hi.
Qed.

(** An entry that has no packet is walked over. *)
Lemma walk_streaming base head cur next d d' :
  streaming base head (cur :: next) d -> capped cap (dr_inflight d) cur = false ->
  frame_of txl cur = None ->
  quiet (dr_link d') -> lk_net (dr_link d') = lk_net (dr_link d) -> lk_write (dr_link d') = lk_write (dr_link d) ->
  len (lk_tx (dr_link d')) = txl -> dr_inflight d' = dr_inflight d ->
  dr_pending_len d' = dr_pending_len d ->
  streaming base head next d' /\ todo head (cur :: next) d = todo head next d'.
Proof.
  intros [Hm Ht Hr Hn Hp Hb] Hc Hf Hm' En Ew Etx Ei Ep. unfold todo. cbn [frames front] in *.
  rewrite Hc, Hf in *. rewrite Ei. split; [|done].
  constructor; rewrite ?En, ?Ew, ?Ei, ?Ep; try done.
  - by destruct (proj1 (list.Forall_cons _ _ _) Hr).
  - destruct (queued cur); [|exact Hb]. destruct Hb as [Hb|(f & [=] & _)]. by left.
Qed.

Lemma idle_pending base head cur next d :
  streaming base head (cur :: next) d -> capped cap (dr_inflight d) cur = false ->
  queued cur = true -> frame_of txl cur = None -> dr_pending_len d = 0.
Proof.
  intros [_ _ _ _ _ Hb] Hc Hq Hf. cbn [front] in Hb. rewrite Hc, Hf, Hq in Hb.
  by destruct Hb as [[_ Hb]|(f & [=] & _)].
Qed.

Lemma entry_rep_dup e dup : entry_rep e -> is_byte dup -> entry_rep (set_op_dup e dup).
Proof. intros (H1 & H2 & H3 & _ & Hr) Hd. exact (conj H1 (conj H2 (conj H3 (conj Hd Hr)))). Qed.

(** DUP does not change the length of a PUBLISH, nor its bytes but the first. *)
Lemma frame_of_dup e f :
  queued e = true -> 0 < op_qos e -> frame_of txl e = Some f ->
  exists f', frame_of txl (set_op_dup e 1) = Some f' /\ alike f f'.
Proof.
  intros Hq Hqos Hf. unfold frame_of in *. change (queued (set_op_dup e 1)) with (queued e).
  rewrite Hq in *. pose proof (publish_frame_dup txl e 1 Hqos) as Hd. rewrite Hf in Hd.
  destruct (publish_frame txl (set_op_dup e 1)) as [f'|]; [by exists f'|done].
Qed.

(** The shapes of an unfinished and of a finished write of [cur]'s packet [f]. *)
Lemma halt_same base head head' cur next d d' f rc :
  streaming base head (cur :: next) d -> capped cap (dr_inflight d) cur = false ->
  frame_of txl cur = Some f -> cut base (head ++ drop (length head) f) head' f (dr_link d') ->
  len (lk_tx (dr_link d')) = txl -> quiet (dr_link d') ->
  dr_inflight d' = dr_inflight d -> dr_pending_len d' = 0 \/ dr_pending_len d' = len f -> rc < 0 ->
  entry_out base head cur next d (Some rc) (Some cur) d'.
Proof.
  intros Hst Hc Hf Hcut Ht Hm Hi Hp Hrc. destruct (proj1 (list.Forall_cons _ _ _) (st_rep _ _ _ _ Hst)) as [Hrep _].
  destruct (halt_streaming base head head' cur cur next d d' f f) as [H1 H2]; try done; [by left|].
  apply (halted_in _ _ _ _ _ rc head' (Some cur)); [done|exact H1|exact H2|]. by rewrite (todo_cons _ _ _ _ f).
Qed.

Lemma halt_dup base head head' cur next d d' f rc :
  streaming base head (cur :: next) d -> capped cap (dr_inflight d) cur = false ->
  frame_of txl cur = Some f -> cut base (head ++ drop (length head) f) head' f (dr_link d') ->
  len (lk_tx (dr_link d')) = txl -> quiet (dr_link d') ->
  dr_inflight d' = dr_inflight d -> dr_pending_len d' = 0 \/ dr_pending_len d' = len f -> rc < 0 ->
  queued cur = true -> 0 < op_qos cur -> 0 < wr_pos (lk_write (dr_link d')) ->
  entry_out base head cur next d (Some rc) (Some (set_op_dup cur 1)) d'.
Proof.
  intros Hst Hc Hf Hcut Ht Hm Hi Hp Hrc Hq Hqos Hpos.
  destruct (proj1 (list.Forall_cons _ _ _) (st_rep _ _ _ _ Hst)) as [Hrep _].
  destruct (frame_of_dup cur f Hq Hqos Hf) as (f' & Hf' & Hal).
  destruct (halt_streaming base head head' cur (set_op_dup cur 1) next d d' f f') as [H1 H2]; try done.
  - by apply entry_rep_dup.
  - right. split; [done|]. intros ->. destruct Hcut as (_ & Hp' & _). rewrite Hp' in Hpos. done.
  - apply (halted_in _ _ _ _ _ rc head' (Some (set_op_dup cur 1))); [done|exact H1|exact H2|].
    by rewrite (todo_cons _ _ _ _ f).
Qed.

Lemma sent_out base head cur next kept d d' f :
  streaming base head (cur :: next) d -> capped cap (dr_inflight d) cur = false ->
  frame_of txl cur = Some f -> net_sent (lk_net (dr_link d')) = base ++ head ++ drop (length head) f ->
  silent txl kept -> match kept with Some e => entry_rep e | None => True end ->
  len (lk_tx (dr_link d')) = txl -> quiet (dr_link d') ->
  wr_pos (lk_write (dr_link d')) = 0 -> dr_pending_len d' = 0 ->
  dr_inflight d' = after cur (dr_inflight d) -> dr_sent d' = dr_sent d + 1 ->
  entry_out base head cur next d None kept d'.
Proof.
  intros Hst Hc Hf Hn Hs Hk Ht Hm Hw Hp Hi Hse.
  destruct (next_streaming base head (head ++ drop (length head) f) cur next d d' f) as [Hst' Htodo];
    try done. by eapply written.
Qed.

Lemma write_failed_out base head head' cur next d d' f rc :
  streaming base head (cur :: next) d -> capped cap (dr_inflight d) cur = false -> queued cur = true ->
  frame_of txl cur = Some f -> cut base (head ++ drop (length head) f) head' f (dr_link d') ->
  len (lk_tx (dr_link d')) = txl -> quiet (dr_link d') ->
  dr_inflight d' = dr_inflight d -> dr_pending_len d' = 0 -> rc < 0 -> rc <> MQTT_CODE_CONTINUE ->
  exists ret kept d'', drain_write_failed cur rc d' = Ok (ret, kept, d'') /\
    entry_out base head cur next d ret kept d''.
Proof.
  intros Hst Hc Hq Hf Hcut Ht Hm Hi Hp Hrc Hnc. unfold drain_write_failed. cbv zeta.
  destruct (proj1 (list.Forall_cons _ _ _) (st_rep _ _ _ _ Hst)) as [Hrep _].
  rewrite (proj2 (Z.ltb_lt rc 0)) by lia.
  destruct (Z.ltb_spec 0 (wr_pos (lk_write (dr_link d')))) as [Hpos|]; cbn [andb].
  2: { eexists _, _, _. split; [reflexivity|]. eapply halt_same; eauto. }
  destruct (Z.ltb_spec MQTT_QOS_0 (op_qos cur)).
  { eexists _, _, _. split; [reflexivity|]. eapply halt_dup; eauto. }
  destruct (negb (rc =? MQTT_CODE_ERROR_TIMEOUT)).
  2: { eexists _, _, _. split; [reflexivity|]. eapply halt_same; eauto. }
  assert (Hq0 : op_qos cur = MQTT_QOS_0) by (destruct Hrep as (_ & Hr & _); cbn in Hr; lia).
  eexists _, _, _. split; [reflexivity|]. destruct Hcut as (Hwire & Hp' & Hl' & Hn').
  match goal with |- entry_out _ _ _ _ _ _ _ ?d1 =>
    destruct (next_streaming base head head' cur next d d1 f Hst Hc Hf) as [Hst' Htodo]; try done end.
  { unfold after. by rewrite Hq, Hq0. }
  apply (abandoned _ _ _ _ _ rc (head ++ drop (length head) f) head'); try done.
  - by exists (drop (length head') f).
  - intros ->. rewrite Hp' in *. done.
Qed.

Lemma drain_publish_out now base head cur next d :
  streaming base head (cur :: next) d -> capped cap (dr_inflight d) cur = false -> queued cur = true ->
  exists ret kept d', drain_publish now cur d = Ok (ret, kept, d') /\
    entry_out base head cur next d ret kept d'.
Proof.
  intros Hst Hc Hq. pose proof (st_tx _ _ _ _ Hst) as Htx.
  destruct (proj1 (list.Forall_cons _ _ _) (st_rep _ _ _ _ Hst)) as [Hrep _].
  assert (Hfo : frame_of txl cur = publish_frame txl cur) by (unfold frame_of; by rewrite Hq).
  unfold drain_publish. rewrite Htx.
  destruct (publish_frame_cases txl cur Hrep) as [(f & m & -> & Hf & Hlen)|(rc & -> & Hrc & Hf)].
  2: { rewrite Hf in Hfo. rewrite (idle_pending _ _ _ _ _ Hst Hc Hq Hfo). cbn [Z.eqb negb].
    pose proof (idle_pending _ _ _ _ _ Hst Hc Hq Hfo) as Hidle.
    eexists _, _, _. split; [reflexivity|].
    match goal with |- entry_out _ _ _ _ _ _ _ ?d1 =>
      destruct (walk_streaming base head cur next d d1 Hst Hc Hfo) as [Hst' Htodo]; try done end.
    { exact (st_max _ _ _ _ Hst). }
    { cbn. rewrite BROKER_FORCE_ZERO_len; [done|]. pose proof (len_nonneg (lk_tx (dr_link d))). lia. }
    by apply walked. }
  rewrite Hf in Hfo. rewrite (proj2 (Z.leb_gt (len f) 0)) by lia.
  destruct (write_front now base head cur next d f Hst Hc Hfo Hlen)
    as (-> & tx & -> & rc & l' & Ew & Hlt & Hm & Hcase). cbn [mbind result_bind].
  rewrite Ew. cbn [mbind result_bind].
  assert (Hz : len (BROKER_FORCE_ZERO (lk_tx l') (len f)) = txl)
    by (rewrite BROKER_FORCE_ZERO_len; lia).
  destruct Hcase as [(Hrc & head' & Hcut)|(-> & Hpos & Hnet)].
  - destruct (Z.eqb_spec rc MQTT_CODE_CONTINUE) as [->|Hnc].
    + eexists _, _, _. split; [reflexivity|].
      destruct (Z.ltb_spec MQTT_QOS_0 (op_qos cur)); cbn [andb]; [|eapply halt_same; eauto].
      destruct (Z.ltb_spec 0 (wr_pos (lk_write l'))); [eapply halt_dup|eapply halt_same]; eauto.
    + rewrite (proj2 (Z.eqb_neq rc (len f))) by lia. cbn [negb]. eapply write_failed_out; eauto.
  - rewrite (proj2 (Z.eqb_neq (len f) MQTT_CODE_CONTINUE)) by lia. rewrite Z.eqb_refl. cbn [negb]. cbv zeta.
    change (op_qos (set_op_dup cur 0)) with (op_qos cur).
    destruct (Z.eqb_spec (op_qos cur) MQTT_QOS_0) as [E|E]; eexists _, _, _; (split; [reflexivity|]);
      eapply sent_out; try done; try (unfold after; rewrite Hq, ?E; try done; by rewrite (proj2 (Z.eqb_neq _ _) E)).
    by apply entry_rep_dup.
Qed.

Lemma drain_pubrel_out now base head cur next d :
  streaming base head (cur :: next) d -> queued cur = false -> rel_due cur = true ->
  exists ret kept d', drain_pubrel now cur d = Ok (ret, kept, d') /\
    entry_out base head cur next d ret kept d'.
Proof.
  intros Hst Hq Hr. pose proof (st_tx _ _ _ _ Hst) as Htx.
  assert (Hc : capped cap (dr_inflight d) cur = false) by (unfold capped; by rewrite Hq).
  destruct (proj1 (list.Forall_cons _ _ _) (st_rep _ _ _ _ Hst)) as [Hrep _].
  assert (Hfo : frame_of txl cur = rel_frame txl cur) by (unfold frame_of; by rewrite Hq, Hr).
  unfold drain_pubrel. rewrite Htx.
  destruct (rel_frame_cases txl cur (proj1 Hrep)) as [(f & -> & Hf & Hlen)|(rc & -> & Hf)].
  2: { rewrite Hf in Hfo. eexists _, _, _. split; [reflexivity|].
    destruct (walk_streaming base head cur next d d Hst Hc Hfo (st_max _ _ _ _ Hst)) as [Hst' Htodo]; try done.
    by apply walked. }
  rewrite Hf in Hfo. rewrite (proj2 (Z.leb_gt (len f) 0)) by lia.
  destruct (write_front now base head cur next d f Hst Hc Hfo Hlen)
    as (-> & tx & -> & rc & l' & Ew & Hlt & Hm & Hcase). cbn [mbind result_bind].
  rewrite Ew. cbn [mbind result_bind].
  destruct Hcase as [(Hrc & head' & Hcut)|(-> & Hpos & Hnet)].
  - destruct (Z.eqb_spec rc MQTT_CODE_CONTINUE) as [->|Hnc].
    + eexists _, _, _. split; [reflexivity|]. eapply halt_same; eauto.
    + rewrite (proj2 (Z.eqb_neq rc (len f))), (proj2 (Z.ltb_lt rc 0)) by lia. cbn [negb].
      eexists _, _, _. split; [reflexivity|]. eapply halt_same; eauto.
  - rewrite (proj2 (Z.eqb_neq (len f) MQTT_CODE_CONTINUE)) by lia. rewrite Z.eqb_refl. cbn [negb].
    eexists _, _, _. split; [reflexivity|]. eapply sent_out; try done.
    + split; [exact Hq|]. unfold frame_of. change (queued (set_op_dup cur 0)) with (queued cur). rewrite Hq.
      unfold rel_due. cbn [op_retransmit_dup set_op_dup]. by rewrite andb_false_r.
    + by apply entry_rep_dup.
    + unfold after. by rewrite Hq.
Qed.

Lemma drain_entry_out now base head cur next d :
  streaming base head (cur :: next) d -> capped cap (dr_inflight d) cur = false ->
  exists ret kept d', drain_entry now cur d = Ok (ret, kept, d') /\
    entry_out base head cur next d ret kept d'.
Proof.
  intros Hst Hc. unfold drain_entry.
  destruct (decide (op_state cur = BROKER_OUTQ_QUEUED)) as [Hs|Hs].
  { apply drain_publish_out; [done..|]. by apply bool_decide_eq_true_2. }
  assert (Hq : queued cur = false) by by apply bool_decide_eq_false_2.
  change (bool_decide _ && negb _) with (rel_due cur).
  destruct (rel_due cur) eqn:Hr; [by apply drain_pubrel_out|].
  destruct (proj1 (list.Forall_cons _ _ _) (st_rep _ _ _ _ Hst)) as [Hrep _].
  assert (Hfo : frame_of txl cur = None) by (unfold frame_of; by rewrite Hq, Hr).
  pose proof (st_tx _ _ _ _ Hst) as Htx.
  eexists _, _, _. split; [reflexivity|].
  destruct (walk_streaming base head cur next d d Hst Hc Hfo (st_max _ _ _ _ Hst)) as [Hst' Htodo]; try done.
  by apply walked.
Qed.

(** ** The walk

    [fs] are the packets to send, [sent] the count the loop starts with. Either
    all of them go out, and nothing is left; or the walk stops with an error,
    some of them are out, and the rest is what the next drain sends: from the
    beginning of a packet, from inside it, or after a half of it, when it was a
    QoS 0 message that is dropped. *)
Definition stream_out (base : list Z) (fs : list (list Z)) (sent rc : Z) (q' : list BrokerOutPub)
    (d' : Drain Net) : Prop :=
  exists out rest, fs = out ++ rest /\
    ((rc = sent + len out /\ rest = [] /\ streaming (base ++ concat out) [] q' d' /\ todo [] q' d' = []) \/
     (rc < 0 /\ rest <> [] /\
      exists head', streaming (base ++ concat out) head' q' d' /\ todo head' q' d' = rest) \/
     (rc < 0 /\ rc <> MQTT_CODE_CONTINUE /\
      exists wire part, rest = wire :: todo [] q' d' /\ part `prefix_of` wire /\ part <> [] /\
        streaming ((base ++ concat out) ++ part) [] q' d')).

Lemma stream_out_keep base fs sent rc kept q' d' :
  silent txl kept -> match kept with Some e => entry_rep e | None => True end ->
  stream_out base fs sent rc q' d' -> stream_out base fs sent rc (keep kept q') d'.
Proof.
  intros Hs Hk (out & rest & -> & H). exists out, rest. split; [done|].
  destruct H as [(-> & -> & Hst & Ht)|[(Hrc & Hne & h & Hst & Ht)|(Hrc & Hnc & w & p & E & Hp & Hne & Hst)]];
    [left|right; left|right; right];
    destruct (silent_streaming _ _ _ _ _ Hs Hk Hst) as [Hst' Ht'].
  - by rewrite Ht'.
  - split; [done|]. split; [done|]. exists h. by rewrite Ht'.
  - split; [done|]. split; [done|]. exists w, p. by rewrite Ht'.
Qed.

Lemma stream_out_cons base wire fs sent rc q' d' :
  stream_out (base ++ wire) fs (sent + 1) rc q' d' -> stream_out base (wire :: fs) sent rc q' d'.
Proof.
  intros (out & rest & -> & H). exists (wire :: out), rest. split; [done|].
  assert (E : (base ++ wire) ++ concat out = base ++ concat (wire :: out)) by (cbn; by rewrite <- app_assoc).
  rewrite E in H. rewrite len_cons. replace (sent + (1 + len out)) with (sent + 1 + len out) by lia. exact H.
Qed.

Lemma drain_loop_stream now base head q d :
  streaming base head q d ->
  exists rc q' d', drain_loop now cap q d = Ok (rc, q', d') /\
    stream_out base (todo head q d) (dr_sent d) rc q' d'.
Proof.
  revert base head d. induction q as [|cur next IH]; intros base head d Hst; cbn [drain_loop].
  { eexists _, _, _. split; [reflexivity|]. pose proof (st_busy _ _ _ _ Hst) as [[-> Hp]|(f & [=] & _)].
    exists [], []. split; [done|]. left. cbn [concat]. rewrite app_nil_r. split; [unfold len; cbn; lia|done]. }
  change (bool_decide _ && _ && _) with (capped cap (dr_inflight d) cur).
  destruct (capped cap (dr_inflight d) cur) eqn:Hc.
  { eexists _, _, _. split; [reflexivity|]. pose proof (st_busy _ _ _ _ Hst) as Hb.
    cbn [front] in Hb. rewrite Hc in Hb. destruct Hb as [[-> Hp]|(f & [=] & _)].
    assert (Ht : todo [] (cur :: next) d = []) by (unfold todo; cbn [frames]; by rewrite Hc).
    exists [], []. split; [done|]. left. cbn [concat]. rewrite app_nil_r. split; [unfold len; cbn; lia|done]. }
  destruct (drain_entry_out now base head cur next d Hst Hc) as (ret & kept & d1 & -> & Hout).
  cbn [mbind result_bind]. change (match kept with Some cur => cur :: next | None => next end) with (keep kept next).
  destruct Hout as [kept d1 Hs Hk Hst1 Hse Ht|wire kept d1 Hs Hk Hst1 Hse Ht|rc head' kept d1 Hrc Hst1 Ht Hne
                   |rc wire part d1 Hrc Hnc Hq Hp Hne Hst1 Ht].
  - destruct (IH _ _ _ Hst1) as (rc & q' & d' & -> & Hso). cbn [mbind result_bind].
    eexists _, _, _. split; [reflexivity|]. rewrite Ht, <- Hse. by apply (stream_out_keep _ _ _ _ kept).
  - destruct (IH _ _ _ Hst1) as (rc & q' & d' & -> & Hso). cbn [mbind result_bind].
    eexists _, _, _. split; [reflexivity|]. rewrite Ht. apply stream_out_cons. rewrite <- Hse.
    by apply (stream_out_keep _ _ _ _ kept).
  - eexists _, _, _. split; [reflexivity|]. exists [], (todo head (cur :: next) d). split; [done|].
    right. left. cbn [concat]. rewrite app_nil_r. split; [done|]. split; [done|]. by exists head'.
  - eexists _, _, _. split; [reflexivity|]. exists [], (todo head (cur :: next) d). split; [done|].
    right. right. cbn [concat]. rewrite app_nil_r. split; [done|]. split; [done|]. exists wire, part.
    by rewrite Ht.
Qed.
End Stream.

(** ** A drain, and drains in a row *)

Section Drains.
Context {Net : Type} `{!Sender Net}.
Implicit Types (bc : BrokerClient Net).

(** The state [BrokerClient_DrainOutQueue] hands to its loop. *)
Definition drain_of bc : Drain Net :=
  mkDrain (out_q_count (bc_outq bc)) (out_q_inflight (bc_outq bc)) (out_q_pending_len (bc_outq bc)) 0
    (bc_link bc).

Definition cap_of bc : Z := effective_cap (bc_client_receive_max (bc_info bc)).

(** [base ++ head] has been sent, [head] being a part of the packet to send next. *)
Definition out_stream (base head : list Z) bc : Prop :=
  len (lk_tx (bc_link bc)) < 2147483648 /\
  streaming (len (lk_tx (bc_link bc))) (cap_of bc) base head (out_q (bc_outq bc)) (drain_of bc).

(** The packets a drain is to send: in queue order, as far as the window goes. *)
Definition out_todo (head : list Z) bc : list (list Z) :=
  todo (len (lk_tx (bc_link bc))) (cap_of bc) head (out_q (bc_outq bc)) (drain_of bc).

Lemma drained_stream bc base head q d :
  len (lk_tx (bc_link bc)) < 2147483648 ->
  streaming (len (lk_tx (bc_link bc))) (cap_of bc) base head q d ->
  let bc' := with_link (with_outq bc (mkOutQ q (dr_count d) (dr_inflight d) (dr_pending_len d))) (dr_link d) in
  out_stream base head bc' /\
  out_todo head bc' = todo (len (lk_tx (bc_link bc))) (cap_of bc) head q d.
Proof.
  intros Ht [Hm Hl Hr Hn Hp Hb]. cbv zeta. unfold out_stream, out_todo, todo. cbn. rewrite Hl.
  split; [|done]. split; [done|]. by constructor.
Qed.

(** What a drain does to the stream, [fs] being the packets it is to send. *)
Definition drain_out (base : list Z) (fs : list (list Z)) (rc : Z) bc' : Prop :=
  exists out rest, fs = out ++ rest /\
    ((rc = len out /\ rest = [] /\ out_stream (base ++ concat out) [] bc' /\ out_todo [] bc' = []) \/
     (rc < 0 /\ rest <> [] /\
      exists head, out_stream (base ++ concat out) head bc' /\ out_todo head bc' = rest) \/
     (rc < 0 /\ rc <> MQTT_CODE_CONTINUE /\
      exists wire part, rest = wire :: out_todo [] bc' /\ part `prefix_of` wire /\ part <> [] /\
        out_stream ((base ++ concat out) ++ part) [] bc')).

Lemma drain_stream now base head bc :
  out_stream base head bc ->
  exists rc bc', BrokerClient_DrainOutQueue now bc = Ok (rc, bc') /\
    drain_out base (out_todo head bc) rc bc'.
Proof.
  intros [Ht Hst]. unfold BrokerClient_DrainOutQueue. destruct (st_max _ _ _ _ _ _ Hst) as (_ & Hd & Hc).
  cbn [dr_link drain_of] in Hd, Hc. rewrite Hd, Hc, !Z.eqb_refl. cbn [negb]. rewrite !orb_false_r.
  destruct (match out_q (bc_outq bc) with [] => true | _ => false end) eqn:Eq.
  { exists 0, bc. split; [done|]. exists [], [].
    assert (Hq : out_q (bc_outq bc) = []) by by destruct (out_q _). unfold out_todo, todo, out_stream.
    pose proof (st_busy _ _ _ _ _ _ Hst) as Hb. rewrite Hq in *.
    destruct Hb as [[-> Hp]|(f & [=] & _)]. cbn [concat frames wires app]. rewrite app_nil_r.
    split; [done|]. by left. }
  change (effective_cap (bc_client_receive_max (bc_info bc))) with (cap_of bc).
  change (mkDrain _ _ _ _ _) with (drain_of bc).
  destruct (drain_loop_stream _ (cap_of bc) Ht now _ _ _ _ Hst) as (rc & q' & d' & -> & out & rest & E & Hso).
  cbn [mbind result_bind]. eexists _, _. split; [reflexivity|]. exists out, rest. split; [exact E|].
  destruct Hso as [(-> & -> & H & Htodo)|[(Hrc & Hne & h & H & Htodo)|(Hrc & Hnc & w & p & -> & Hp & Hne & H)]];
    [left|right; left|right; right]; destruct (drained_stream bc _ _ _ _ Ht H) as [H1 H2].
  - split; [cbn; lia|]. split; [done|]. split; [exact H1|]. by rewrite H2.
  - split; [done|]. split; [done|]. exists h. split; [exact H1|]. by rewrite H2.
  - split; [done|]. split; [done|]. exists w, p. rewrite H2. by split_and!.
Qed.

(** ** Drains until the queue is idle *)

(** The broker's main loop drains again when the socket takes more: one call
    per element of [nows]. *)
Fixpoint drain_calls (nows : list Z) bc : result (Z * BrokerClient Net) :=
  match nows with
  | [] => Ok (MQTT_CODE_CONTINUE, bc)
  | now :: nows =>
    '(rc, bc) ← BrokerClient_DrainOutQueue now bc;
    if rc =? MQTT_CODE_CONTINUE then drain_calls nows bc else Ok (rc, bc)
  end.

(** The part of the next packet that is sent is a part of what is to be sent. *)
Lemma out_stream_sent base head bc rest :
  out_stream base head bc -> out_todo head bc = rest -> rest <> [] ->
  net_sent (lk_net (bc_link bc)) `prefix_of` base ++ concat rest.
Proof.
  intros [_ Hst] <-. unfold out_todo, todo. pose proof (st_net _ _ _ _ _ _ Hst) as Hn.
  change (net_sent (lk_net (bc_link bc)) = base ++ head) in Hn. rewrite Hn.
  destruct (frames _ _ _ _) as [|f fs]; [done|]. intros _. cbn [wires concat].
  rewrite <- app_assoc. apply prefix_app. by exists (drop (length head) f ++ concat fs).
Qed.

(** However the network cuts the writes of the calls, the bytes sent are the
    packets due, in order, as far as the calls have come. *)
Lemma drain_calls_stream nows base head bc :
  out_stream base head bc -> net_sent (lk_net (bc_link bc)) `prefix_of` base ++ concat (out_todo head bc) ->
  exists rc bc', drain_calls nows bc = Ok (rc, bc') /\
    net_sent (lk_net (bc_link bc')) `prefix_of` base ++ concat (out_todo head bc) /\
    (0 <= rc -> out_stream (base ++ concat (out_todo head bc)) [] bc' /\ out_todo [] bc' = []).
Proof.
  revert base head bc. induction nows as [|now nows IH]; intros base head bc Hst Hpre; cbn [drain_calls].
  { by eexists _, _. }
  destruct (drain_stream now base head bc Hst) as (rc & bc' & -> & out & rest & E & H). cbn [mbind result_bind].
  rewrite E, concat_app, app_assoc in Hpre |- *.
  destruct (Z.eqb_spec rc MQTT_CODE_CONTINUE) as [->|Hrc].
  - destruct H as [(H & _)|[(_ & Hne & h & Hst' & Ht)|(_ & [] & _)]]; [pose proof (len_nonneg out); lia| |done].
    rewrite <- Ht. apply IH; [exact Hst'|]. rewrite Ht. by eapply out_stream_sent.
  - eexists _, _. split; [reflexivity|].
    destruct H as [(_ & -> & Hst' & Ht)|[(Hneg & Hne & h & Hst' & Ht)|(Hneg & _ & w & part & -> & [more ->] & _ & Hst')]].
    + cbn [concat]. rewrite app_nil_r. split; [|done]. pose proof (st_net _ _ _ _ _ _ (proj2 Hst')) as Hs.
      rewrite app_nil_r in Hs. cbn [drain_of dr_link] in Hs. by rewrite Hs.
    + split; [|lia]. by eapply out_stream_sent.
    + split; [|lia]. pose proof (st_net _ _ _ _ _ _ (proj2 Hst')) as Hs. rewrite app_nil_r in Hs.
      cbn [drain_of dr_link] in Hs. rewrite Hs. cbn [concat]. apply prefix_app. exists (more ++ concat (out_todo [] bc')).
      by rewrite app_assoc.
Qed.
End Drains.

(** ** Properties *)

(** What one drain sends. In a state where [head], a proper part of the
    next packet, has gone out after the bytes [base], BrokerClient_DrainOutQueue
    answers. Of the packets due, in queue order as far as the in-flight window
    goes, a number is written whole. Either these are all, their number is the
    return code and nothing is left to send; or the code is negative and the
    rest is what the next drain sends, going on inside the packet the write
    stopped in. The one exception is a QoS 0 packet that fails half-sent: its
    entry is dropped. *)
Theorem BrokerClient_DrainOutQueue_stream {Net} `{!Sender Net} now base head (bc : BrokerClient Net) :
  out_stream base head bc ->
  exists rc bc', BrokerClient_DrainOutQueue now bc = Ok (rc, bc') /\
    exists out rest, out_todo head bc = out ++ rest /\
    ((rc = len out /\ rest = [] /\ out_stream (base ++ concat out) [] bc' /\ out_todo [] bc' = []) \/
     (rc < 0 /\ rest <> [] /\
      exists head, out_stream (base ++ concat out) head bc' /\ out_todo head bc' = rest) \/
     (rc < 0 /\ rc <> MQTT_CODE_CONTINUE /\
      exists wire part, rest = wire :: out_todo [] bc' /\ part `prefix_of` wire /\ part <> [] /\
        out_stream ((base ++ concat out) ++ part) [] bc')).
Proof. exact (drain_stream now base head bc). Qed.

(** C19: the bytes of an outbound queue do not depend on the network. However
    it cuts the writes of a row of drains, each of which may stop inside a
    packet: at every stop, after an error too, the bytes sent are a prefix of
    the encoded packets that were due at the start, in queue order as far as
    the in-flight window goes; and once a call returns a count they are all of
    them, and nothing is left. When every entry can be encoded and fits the send
    buffer, these are complete MQTT packets: the PUBLISH with its whole payload
    of an entry that waits to be sent, the PUBREL of one that repeats it. (What
    does not fit is cut: see [DrainOutQueue_truncates].) *)
Theorem drain_calls_whole {Net} `{!Sender Net} nows base (bc : BrokerClient Net) :
  out_stream base [] bc ->
  exists rc bc', drain_calls nows bc = Ok (rc, bc') /\
    net_sent (lk_net (bc_link bc')) `prefix_of` base ++ concat (out_todo [] bc) /\
    (0 <= rc -> net_sent (lk_net (bc_link bc')) = base ++ concat (out_todo [] bc) /\ out_todo [] bc' = []) /\
    (Forall (entry_fits (len (lk_tx (bc_link bc)))) (out_q (bc_outq bc)) ->
     out_todo [] bc = packets_due (cap_of bc) (out_q_inflight (bc_outq bc)) (out_q (bc_outq bc))).
Proof.
  intros Hst. pose proof (proj2 Hst) as Hs. pose proof (st_net _ _ _ _ _ _ Hs) as Hn. rewrite app_nil_r in Hn.
  destruct (drain_calls_stream nows base [] bc Hst) as (rc & bc' & E & Hp & H).
  { cbn [drain_of dr_link] in Hn. rewrite Hn. by exists (concat (out_todo [] bc)). }
  exists rc, bc'. split_and!; [done|done| |].
  - intros Hrc. destruct (H Hrc) as [[_ Hs'] Ht]. split; [|done].
    rewrite <- (app_nil_r (base ++ _)). exact (st_net _ _ _ _ _ _ Hs').
  - intros Hfit. unfold out_todo, todo. rewrite wires_nil. apply frames_whole; [exact (st_rep _ _ _ _ _ _ Hs)|exact Hfit].
Qed.

(** A QoS 1 message, a QoS 2 message in need of its PUBREL, and a QoS 0 one. *)
Definition ex_stream_queue : list BrokerOutPub :=
  [ex_entry 1 7 0 BROKER_OUTQ_QUEUED [104; 105]; ex_entry 2 5 1 BROKER_OUTQ_PUBREL_SENT [];
   ex_entry 0 0 0 BROKER_OUTQ_QUEUED [120]].
Definition ex_stream (script : list Z) : BrokerClient ScriptNet :=
  ex_client 0 4
    (mkOutQ ex_stream_queue 3 1 0) (ex_link script 16).

Lemma ex_stream_ok script : out_stream [] [] (ex_stream script).
Proof.
  split; [by vm_compute|]. constructor; try done; [|by left].
  repeat apply List.Forall_cons; [..|apply List.Forall_nil]; unfold entry_rep, pub_rep; cbn -[Z.lt Z.le];
    split_and!; try by_eval; first [apply List.Forall_nil | intros b [= <-]; left; lia].
Qed.

Lemma BrokerClient_DrainOutQueue_stream_witness :
  exists rc bc', BrokerClient_DrainOutQueue 0 (ex_stream [4; MQTT_CODE_CONTINUE]) = Ok (rc, bc') /\
    rc = MQTT_CODE_CONTINUE /\ net_sent (lk_net (bc_link bc')) = [50; 7; 0; 1].
Proof.
  destruct (BrokerClient_DrainOutQueue_stream 0 [] [] _ (ex_stream_ok [4; MQTT_CODE_CONTINUE]))
    as (rc & bc' & E & _).
  exists rc, bc'. split; [exact E|]. vm_compute in E. by injection E as <- <-.
Defined.

Lemma ex_stream_fits script :
  Forall (entry_fits (len (lk_tx (bc_link (ex_stream script))))) (out_q (bc_outq (ex_stream script))).
Proof.
  pose proof (st_rep _ _ _ _ _ _ (proj2 (ex_stream_ok script))) as Hrep.
  change (Forall entry_rep ex_stream_queue) in Hrep. change (Forall (entry_fits 16) ex_stream_queue).
  apply List.Forall_forall. intros e He. apply entry_fits_dec; [by apply (proj1 (List.Forall_forall _ _) Hrep)|].
  by repeat destruct He as [<-|He]; [..|destruct He].
Qed.

Lemma drain_calls_whole_witness :
  exists rc bc', drain_calls [0; 0; 0; 0] (ex_stream [4; MQTT_CODE_CONTINUE; 9; MQTT_CODE_CONTINUE]) = Ok (rc, bc') /\
    rc = 2 /\ net_sent (lk_net (bc_link bc')) = concat (packets_due (cap_of (ex_stream [])) 1 ex_stream_queue) /\
    packets_due (cap_of (ex_stream [])) 1 ex_stream_queue =
      [[50; 7; 0; 1; 116; 0; 7; 104; 105]; [98; 2; 0; 5]; [48; 4; 0; 1; 116; 120]].
Proof.
  destruct (drain_calls_whole [0; 0; 0; 0] [] _ (ex_stream_ok [4; MQTT_CODE_CONTINUE; 9; MQTT_CODE_CONTINUE]))
    as (rc & bc' & E & _ & Hall & Hwhole).
  assert (Erc : rc = 2) by (vm_compute in E; by injection E as <- _).
  specialize (Hwhole (ex_stream_fits _)). destruct (Hall ltac:(lia)) as [Hs _]. rewrite Hwhole in Hs.
  exists rc, bc'. split; [exact E|]. split; [exact Erc|]. split; [exact Hs|by vm_compute].
Defined.
