(* ===== verification/OutAlloc.v ===== *)
(** * OutAlloc: what a queued message holds ([mqtt_broker.c])

    [BrokerOutPub_Alloc] and [BrokerProps_Clone] are total on messages whose
    lengths do not exceed their buffers, and the entry they build is a copy of
    the message; a failed allocation is the only reason for none. *)
From S2P Require Import Prelude PacketDefs Wire FixedHeader Props Frame PublishResp Publish PacketIO BrokerDefs OutQueue.

(** ** Messages that can be copied *)

Definition str_fits (s : MqttProp_Str) : Prop :=
  match str_ptr s with Some bs => str_len s <= len bs | None => True end.

Record prop_fits (p : MqttProp) : Prop := {
  pf_str : str_fits (data_str p);
  pf_str2 : str_fits (data_str2 p);
  pf_bin : str_fits (data_bin p)
}.

Definition payload_fits (payload : option (list Z)) (n : Z) : Prop :=
  match payload with Some bs => n <= len bs | None => True end.

(** ** The copies *)

Definition copy_str (s : MqttProp_Str) : MqttProp_Str :=
  match str_ptr s with
  | Some bs => if 0 <? str_len s then mkStr (str_len s) (Some (take (Z.to_nat (str_len s)) bs)) else no_str
  | None => no_str
  end.

Definition copy_prop (p : MqttProp) : MqttProp :=
  mkProp (prop_type p) (data_byte p) (data_short p) (data_int p)
    (copy_str (data_str p)) (copy_str (data_bin p)) (copy_str (data_str2 p)).

Definition copy_payload (payload : option (list Z)) (n : Z) : option (list Z) * Z :=
  match payload with
  | Some bs => if 0 <? n then (Some (take (Z.to_nat n) bs), n) else (None, 0)
  | None => (None, 0)
  end.

Definition outpub_copy (topic : list Z) (payload : option (list Z)) (n : Z) (props : list MqttProp) : BrokerOutPub :=
  let '(bs, n) := copy_payload payload n in
  mkOutPub topic bs n MQTT_QOS_0 0 0 BROKER_OUTQ_QUEUED 0 0 0 0 (map copy_prop props).

(** [r] ends with a copy [a], or with none for want of memory. *)
Definition copies {A} (mem : heap) (r : result (option A * heap)) (a : A) : Prop :=
  exists o mem', r = Ok (o, mem') /\ (o = Some a \/ (o = None /\ mem <> [])) /\ (mem = [] -> mem' = []).

Lemma malloc_spec mem : exists ok mem', malloc mem = (ok, mem') /\ (mem = [] -> ok = true /\ mem' = []).
Proof. destruct mem as [|ok mem]; [by exists true, []|by exists ok, mem]. Qed.

Lemma copies_some {A} mem mem' (a : A) : (mem = [] -> mem' = []) -> copies mem (Ok (Some a, mem')) a.
Proof. intros H. exists (Some a), mem'. auto. Qed.

Lemma copies_none {A} mem mem' (a : A) : mem <> [] -> copies mem (Ok (None, mem')) a.
Proof. intros H. exists None, mem'. split; [done|]. split; [by right|done]. Qed.

Lemma clone_str_copies mem s : str_fits s -> copies mem (clone_str mem s) (copy_str s).
Proof.
  intros H. unfold clone_str, copy_str, str_fits in *. destruct (str_ptr s) as [bs|]; [|by apply copies_some].
  destruct (Z.ltb_spec 0 (str_len s)); [|by apply copies_some].
  destruct (malloc_spec mem) as ([|] & mem' & -> & Hm).
  - rewrite slice_ok by lia. cbn [mbind result_bind]. apply copies_some. intros E. by apply Hm.
  - apply copies_none. intros E. by destruct (Hm E).
Qed.

(** A copy, then the rest of the function. *)
Lemma copies_bind {A C} mem0 mem (r : result (option A * heap)) a (k : A -> heap -> result (option C * heap)) c :
  copies mem r a -> (mem0 = [] -> mem = []) ->
  (forall mem', (mem0 = [] -> mem' = []) -> copies mem0 (k a mem') c) ->
  copies mem0 ('(o, mem) ← r; match o with None => Ok (None, mem) | Some x => k x mem end) c.
Proof.
  intros (o & mem' & -> & Ho & Hm) H0 Hk. cbn [mbind result_bind].
  destruct Ho as [->|[-> Hne]]; [apply Hk; auto|]. apply copies_none. auto.
Qed.

Lemma clone_prop_copies mem p : prop_fits p -> copies mem (clone_prop mem p) (copy_prop p).
Proof.
  intros [H1 H2 H3]. unfold clone_prop. destruct (malloc_spec mem) as ([|] & mem1 & -> & Hm); cbn [negb].
  2: { apply copies_none. intros E. by destruct (Hm E). }
  eapply (copies_bind mem mem1 _ _ (fun s mem => _)); [by apply clone_str_copies|by apply Hm|]. intros mem2 Hm2.
  eapply (copies_bind mem mem2 _ _ (fun s mem => _)); [by apply clone_str_copies|done|]. intros mem3 Hm3.
  eapply (copies_bind mem mem3 _ _ (fun s mem => _)); [by apply clone_str_copies|done|]. intros mem4 Hm4.
  by apply copies_some.
Qed.

Lemma BrokerProps_Clone_copies mem ps : Forall prop_fits ps -> copies mem (BrokerProps_Clone mem ps) (map copy_prop ps).
Proof.
  intros H. revert mem. induction H as [|p ps Hp _ IH]; intros mem; cbn [BrokerProps_Clone map]; [by apply copies_some|].
  eapply (copies_bind mem mem _ _ (fun dst mem => _)); [by apply clone_prop_copies|done|]. intros mem' Hm.
  destruct (IH mem') as (o & mem2 & -> & Ho & Hm2). cbn [mbind result_bind].
  destruct Ho as [->|[-> Hne]]; [apply copies_some; auto|apply copies_none; auto].
Qed.

Lemma BrokerOutPub_Alloc_copies mem topic payload n props :
  payload_fits payload n -> Forall prop_fits props ->
  copies mem (BrokerOutPub_Alloc mem topic payload n props) (outpub_copy topic payload n props).
Proof.
  intros Hpay Hprops. unfold BrokerOutPub_Alloc, outpub_copy.
  destruct (malloc_spec mem) as ([|] & mem1 & -> & Hm1); cbn [negb].
  2: { apply copies_none. intros E. by destruct (Hm1 E). }
  destruct (malloc_spec mem1) as ([|] & mem2 & -> & Hm2); cbn [negb].
  2: { apply copies_none. intros E. destruct (Hm1 E) as [_ E1]. by destruct (Hm2 E1). }
  assert (H02 : mem = [] -> mem2 = []) by (intros E; apply Hm2, Hm1; exact E).
  eapply (copies_bind mem mem2 _ (copy_payload payload n) (fun c mem => _)); [|done|].
  - unfold copy_payload, payload_fits in *. destruct payload as [bs|]; [|by apply copies_some].
    destruct (Z.ltb_spec 0 n); [|by apply copies_some].
    destruct (malloc_spec mem2) as ([|] & mem3 & -> & Hm3).
    + rewrite slice_ok by lia. cbn [mbind result_bind]. apply copies_some. intros E. by apply Hm3.
    + apply copies_none. intros E. by destruct (Hm3 E).
  - intros mem3 Hm3. destruct (copy_payload payload n) as [bs k].
    eapply (copies_bind mem mem3 _ _ (fun ps mem => _)); [by apply BrokerProps_Clone_copies|done|].
    intros mem4 Hm4. by apply copies_some.
Qed.
