(* ===== verification/BrokerState.v ===== *)
(** * BrokerState: the broker's state and its computations ([mqtt_broker.c])

    The tables of [MqttBroker], computations over them, and the rules by which
    the other broker files prove that a computation ends without undefined
    behaviour in a state with a property. *)
From stdpp Require Import relations.
From S2P Require Import Prelude PacketDefs Wire FixedHeader Props Frame PublishResp Publish PacketIO BrokerDefs OutQueue.

(** ** The state *)

(** The retained messages: [retained], [retained_count] and
    [retained_delivering]. *)
Record Retained : Set := mkRt {
  rt_list : list BrokerRetainedMsg;
  rt_count : Z;
  rt_delivering : Z
}.

(** [br_mem] are the allocator's outcomes, [br_cells] the free cells of the
    property pool. A list is a linked list from its head. *)
Record Broker (Net : Type) : Type := mkBroker {
  br_mem : heap;
  br_cells : nat;
  br_clients : list (BrokerClient Net);
  br_clients_gen : Z;
  br_subs : list BrokerSub;
  br_subs_gen : Z;
  br_retained : Retained;
  br_wills : list BrokerPendingWill;
  br_orphans : list BrokerOrphanSession;
  br_orphan_count : Z;
  br_next_packet_id : Z;
  br_next_auto_id : Z
}.
Arguments mkBroker {Net}.
Arguments br_mem {Net}.
Arguments br_cells {Net}.
Arguments br_clients {Net}.
Arguments br_clients_gen {Net}.
Arguments br_subs {Net}.
Arguments br_subs_gen {Net}.
Arguments br_retained {Net}.
Arguments br_wills {Net}.
Arguments br_orphans {Net}.
Arguments br_orphan_count {Net}.
Arguments br_next_packet_id {Net}.
Arguments br_next_auto_id {Net}.

Section Setters.
Context {Net : Type}.
Implicit Types (br : Broker Net).

Definition set_mem br (x : heap) : Broker Net :=
  mkBroker x (br_cells br) (br_clients br) (br_clients_gen br) (br_subs br) (br_subs_gen br)
    (br_retained br) (br_wills br) (br_orphans br) (br_orphan_count br) (br_next_packet_id br)
    (br_next_auto_id br).
Definition set_cells br (x : nat) : Broker Net :=
  mkBroker (br_mem br) x (br_clients br) (br_clients_gen br) (br_subs br) (br_subs_gen br)
    (br_retained br) (br_wills br) (br_orphans br) (br_orphan_count br) (br_next_packet_id br)
    (br_next_auto_id br).
Definition set_clients br (x : list (BrokerClient Net)) : Broker Net :=
  mkBroker (br_mem br) (br_cells br) x (br_clients_gen br) (br_subs br) (br_subs_gen br)
    (br_retained br) (br_wills br) (br_orphans br) (br_orphan_count br) (br_next_packet_id br)
    (br_next_auto_id br).
Definition set_clients_gen br (x : Z) : Broker Net :=
  mkBroker (br_mem br) (br_cells br) (br_clients br) x (br_subs br) (br_subs_gen br)
    (br_retained br) (br_wills br) (br_orphans br) (br_orphan_count br) (br_next_packet_id br)
    (br_next_auto_id br).
Definition set_subs br (x : list BrokerSub) (gen : Z) : Broker Net :=
  mkBroker (br_mem br) (br_cells br) (br_clients br) (br_clients_gen br) x gen
    (br_retained br) (br_wills br) (br_orphans br) (br_orphan_count br) (br_next_packet_id br)
    (br_next_auto_id br).
Definition set_retained br (x : Retained) : Broker Net :=
  mkBroker (br_mem br) (br_cells br) (br_clients br) (br_clients_gen br) (br_subs br)
    (br_subs_gen br) x (br_wills br) (br_orphans br) (br_orphan_count br) (br_next_packet_id br)
    (br_next_auto_id br).
Definition set_wills br (x : list BrokerPendingWill) : Broker Net :=
  mkBroker (br_mem br) (br_cells br) (br_clients br) (br_clients_gen br) (br_subs br)
    (br_subs_gen br) (br_retained br) x (br_orphans br) (br_orphan_count br)
    (br_next_packet_id br) (br_next_auto_id br).
Definition set_orphans br (x : list BrokerOrphanSession) (n : Z) : Broker Net :=
  mkBroker (br_mem br) (br_cells br) (br_clients br) (br_clients_gen br) (br_subs br)
    (br_subs_gen br) (br_retained br) (br_wills br) x n (br_next_packet_id br)
    (br_next_auto_id br).
Definition set_packet_id br (x : Z) : Broker Net :=
  mkBroker (br_mem br) (br_cells br) (br_clients br) (br_clients_gen br) (br_subs br)
    (br_subs_gen br) (br_retained br) (br_wills br) (br_orphans br) (br_orphan_count br) x
    (br_next_auto_id br).
Definition set_auto_id br (x : Z) : Broker Net :=
  mkBroker (br_mem br) (br_cells br) (br_clients br) (br_clients_gen br) (br_subs br)
    (br_subs_gen br) (br_retained br) (br_wills br) (br_orphans br) (br_orphan_count br)
    (br_next_packet_id br) x.
End Setters.

(** ** Computations

    A handler reads and changes the broker's state. Return codes are values;
    the one failure is undefined behaviour. *)

Definition B (Net A : Type) : Type := Broker Net -> result (A * Broker Net).

#[export] Instance B_ret Net : MRet (B Net) := fun A a br => Ok (a, br).
#[export] Instance B_bind Net : MBind (B Net) := fun A C f m br =>
  match m br with Ok (a, br) => f a br | Err rc => Err rc | UB => UB end.

Section Computations.
Context {Net : Type}.
Implicit Types (br : Broker Net).

Definition get : B Net (Broker Net) := fun br => Ok (br, br).
Definition modify (f : Broker Net -> Broker Net) : B Net unit := fun br => Ok (tt, f br).

(** A result of a function on a part of the state. *)
Definition of_result {A} (r : result A) : B Net A := fun br =>
  match r with Ok a => Ok (a, br) | Err rc => Err rc | UB => UB end.

Definition alloc : B Net bool := fun br =>
  let '(ok, mem) := malloc (br_mem br) in Ok (ok, set_mem br mem).

(** A decoder, over the free cells of the pool: its error or its value. *)
Definition decode {A} (m : M A) : B Net (Z + A) := fun br =>
  match m (br_cells br) with
  | (Ok a, n) => Ok (inr a, set_cells br n)
  | (Err rc, n) => Ok (inl rc, set_cells br n)
  | (UB, _) => UB
  end.

(** [MqttProps_Free]. *)
Definition free_props (ps : list MqttProp) : B Net unit :=
  modify (fun br => set_cells br (br_cells br + length ps)%nat).

(** [MqttProps_Add]: whether there was a cell. *)
Definition add_prop : B Net bool := fun br =>
  match br_cells br with O => Ok (false, br) | S n => Ok (true, set_cells br n) end.

(** Access through a [BrokerClient] pointer: undefined unless the client is
    linked into [broker->clients], as [BrokerClient_Free] frees it. *)
Fixpoint client_at (cs : list (BrokerClient Net)) (addr : Z) : option (BrokerClient Net) :=
  match cs with
  | [] => None
  | bc :: cs => if bc_addr bc =? addr then Some bc else client_at cs addr
  end.

Fixpoint client_put (cs : list (BrokerClient Net)) (bc : BrokerClient Net) : list (BrokerClient Net) :=
  match cs with
  | [] => []
  | c :: cs => if bc_addr c =? bc_addr bc then bc :: cs else c :: client_put cs bc
  end.

Definition deref (addr : Z) : B Net (BrokerClient Net) := fun br =>
  match client_at (br_clients br) addr with Some bc => Ok (bc, br) | None => UB end.

(** [bc] is the client's new contents. *)
Definition store (bc : BrokerClient Net) : B Net unit :=
  modify (fun br => set_clients br (client_put (br_clients br) bc)).

(** Run a function on the client. *)
Definition on_client {A} (addr : Z) (f : BrokerClient Net -> result (A * BrokerClient Net)) : B Net A :=
  bc ← deref addr;
  '(a, bc) ← of_result (f bc);
  _ ← store bc;
  mret a.
End Computations.

(** [BROKER_STR_VALID]. *)
Definition BROKER_STR_VALID (s : option (list Z)) : bool :=
  match s with Some (_ :: _) => true | _ => false end.

(** ** Rules

    [ends m Q br]: from [br], [m] ends without undefined behaviour, and its value
    and state satisfy [Q]. *)

Definition ends {Net A} (m : B Net A) (Q : A -> Broker Net -> Prop) (br : Broker Net) : Prop :=
  exists a br', m br = Ok (a, br') /\ Q a br'.

Section Rules.
Context {Net : Type}.
Implicit Types (br : Broker Net) (bc : BrokerClient Net) (cs : list (BrokerClient Net)).

Lemma ends_ret {A} (a : A) (Q : A -> Broker Net -> Prop) br : Q a br -> ends (mret a) Q br.
Proof. intros H. by exists a, br. Qed.

Lemma ends_bind {A C} (m : B Net A) (f : A -> B Net C) Q br :
  ends m (fun a br' => ends (f a) Q br') br -> ends (m ≫= f) Q br.
Proof.
  intros (a & br' & E & c & br'' & E' & HQ). exists c, br''. split; [|done].
  unfold mbind, B_bind. by rewrite E.
Qed.

Lemma ends_mono {A} (m : B Net A) (Q Q' : A -> Broker Net -> Prop) br :
  ends m Q br -> (forall a br', Q a br' -> Q' a br') -> ends m Q' br.
Proof. intros (a & br' & E & HQ) Hi. exists a, br'. auto. Qed.

(** The rest runs in what is known of the state after [m]. *)
Lemma ends_then {A C} (m : B Net A) (f : A -> B Net C) P Q br :
  ends m P br -> (forall a br', P a br' -> ends (f a) Q br') -> ends (m ≫= f) Q br.
Proof. intros Hm Hf. apply ends_bind. by eapply ends_mono. Qed.

Lemma ends_conj {A} (m : B Net A) (Q Q' : A -> Broker Net -> Prop) br :
  ends m Q br -> ends m Q' br -> ends m (fun a br' => Q a br' /\ Q' a br') br.
Proof. intros (a & br' & E & H) (a' & br'' & E' & H'). exists a, br'. rewrite E in E'. by injection E' as <- <-. Qed.

Lemma ends_get (Q : Broker Net -> Broker Net -> Prop) br : Q br br -> ends get Q br.
Proof. intros H. by exists br, br. Qed.

Lemma ends_modify f (Q : unit -> Broker Net -> Prop) br : Q tt (f br) -> ends (modify f) Q br.
Proof. intros H. by exists tt, (f br). Qed.

Lemma ends_of_result {A} (r : result A) a (Q : A -> Broker Net -> Prop) br :
  r = Ok a -> Q a br -> ends (of_result r) Q br.
Proof. intros -> H. by exists a, br. Qed.

(** An allocation; it succeeds when no failure is to come. *)
Lemma ends_alloc (Q : bool -> Broker Net -> Prop) br :
  (forall ok mem, (br_mem br = [] -> ok = true /\ mem = []) -> Q ok (set_mem br mem)) -> ends alloc Q br.
Proof.
  intros H. unfold ends, alloc. destruct (malloc (br_mem br)) as [ok mem] eqn:E.
  exists ok, (set_mem br mem). split; [done|]. apply H. intros E'. rewrite E' in E. by injection E as <- <-.
Qed.

Lemma ends_deref addr bc (Q : BrokerClient Net -> Broker Net -> Prop) br :
  client_at (br_clients br) addr = Some bc -> Q bc br -> ends (deref addr) Q br.
Proof. intros E H. exists bc, br. unfold deref. by rewrite E. Qed.

Lemma ends_on_client {A} addr bc (f : BrokerClient Net -> result (A * BrokerClient Net)) a bc' Q br :
  client_at (br_clients br) addr = Some bc -> f bc = Ok (a, bc') ->
  Q a (set_clients br (client_put (br_clients br) bc')) ->
  ends (on_client addr f) Q br.
Proof.
  intros E Ef H. unfold on_client. apply ends_bind, (ends_deref addr bc); [done|].
  apply ends_bind, (ends_of_result _ (a, bc')); [done|]. cbn.
  apply ends_bind, ends_modify, ends_ret. exact H.
Qed.

(** ** Clients by address *)

Definition addrs (cs : list (BrokerClient Net)) : list Z := map (@bc_addr Net) cs.

Lemma client_at_addr cs addr bc : client_at cs addr = Some bc -> bc_addr bc = addr.
Proof.
  induction cs as [|c cs IH]; [done|]. cbn. destruct (Z.eqb_spec (bc_addr c) addr); [by intros [= <-]|done].
Qed.

Lemma client_at_in cs addr bc : client_at cs addr = Some bc -> bc ∈ cs.
Proof.
  induction cs as [|c cs IH]; [done|]. cbn. destruct (_ =? _); [intros [= <-]; by left|].
  intros H. right. auto.
Qed.

Lemma client_at_some cs addr : addr ∈ addrs cs <-> is_Some (client_at cs addr).
Proof.
  induction cs as [|c cs IH]; cbn [addrs map client_at].
  - split; [by intros []%elem_of_nil|by intros []].
  - rewrite elem_of_cons. destruct (Z.eqb_spec (bc_addr c) addr) as [<-|Hne].
    + split; [by eexists|by left].
    + fold (addrs cs). rewrite <- IH. split; [by intros [?|?]|by right].
Qed.

Lemma client_in_at cs bc : NoDup (addrs cs) -> bc ∈ cs -> client_at cs (bc_addr bc) = Some bc.
Proof.
  induction cs as [|c cs IH]; [by intros _ []%elem_of_nil|]. cbn [addrs map]. intros [Hn Hd]%list.NoDup_cons.
  intros [->|Hin]%elem_of_cons; cbn [client_at]; [by rewrite Z.eqb_refl|].
  destruct (Z.eqb_spec (bc_addr c) (bc_addr bc)) as [E|]; [|auto].
  destruct Hn. rewrite E. apply list_elem_of_fmap. by exists bc.
Qed.

Lemma addrs_put cs bc : addrs (client_put cs bc) = addrs cs.
Proof.
  induction cs as [|c cs IH]; [done|]. cbn. destruct (Z.eqb_spec (bc_addr c) (bc_addr bc)) as [E|];
    cbn; [by rewrite E|]. f_equal. exact IH.
Qed.

Lemma client_at_put cs bc addr :
  client_at (client_put cs bc) addr =
    if (addr =? bc_addr bc) && bool_decide (addr ∈ addrs cs) then Some bc else client_at cs addr.
Proof.
  induction cs as [|c cs IH]; cbn [client_put client_at addrs map].
  { rewrite bool_decide_eq_false_2 by apply not_elem_of_nil. by rewrite andb_false_r. }
  destruct (Z.eqb_spec (bc_addr c) (bc_addr bc)) as [E|E]; cbn [client_at].
  - rewrite (Z.eqb_sym (bc_addr bc)), E, (Z.eqb_sym (bc_addr bc)).
    destruct (Z.eqb_spec addr (bc_addr bc)) as [Ea|Ea]; cbn [andb]; [|done].
    by rewrite bool_decide_eq_true_2 by (rewrite Ea; by left).
  - rewrite IH. fold (addrs cs). destruct (Z.eqb_spec (bc_addr c) addr) as [Ea|Ea].
    + by rewrite <- Ea, (proj2 (Z.eqb_neq _ _)).
    + rewrite (bool_decide_ext (addr ∈ bc_addr c :: addrs cs) (addr ∈ addrs cs)); [done|].
      rewrite elem_of_cons. split; [intros [?|?]; congruence|by right].
Qed.

Lemma elem_of_put cs bc c : c ∈ client_put cs bc -> c = bc \/ c ∈ cs.
Proof.
  induction cs as [|c' cs IH]; [by intros []%elem_of_nil|]. cbn [client_put].
  destruct (_ =? _); intros [->|H]%elem_of_cons; [by left|right; by right|right; by left|].
  destruct (IH H); [by left|right; by right].
Qed.

Lemma Forall_put (P : BrokerClient Net -> Prop) cs bc :
  Forall P cs -> P bc -> Forall P (client_put cs bc).
Proof.
  intros H Hb. induction H as [|c cs Hc Hcs IH]; [constructor|]. cbn. by destruct (_ =? _); constructor.
Qed.
End Rules.

(** One step by a lemma about it, then the rest. *)
Tactic Notation "after" uconstr(t) := eapply ends_then; [by eapply t|cbv beta].
