(* ===== verification/BrokerSubs.v ===== *)
(** * BrokerSubs: the subscription table ([mqtt_broker.c])

    [broker->subs]: adding, updating and removing subscriptions, and the
    functions that hand a session's subscriptions over. The table implements a
    finite map from clients and filters to the granted QoS, with at most
    [BROKER_MAX_SUBS_PER_CLIENT] entries for a client. *)
From stdpp Require Import gmap.
From S2P Require Import Prelude PacketDefs Wire FixedHeader PacketIO BrokerDefs BrokerState.

(** ** Operations *)

Section Subs.
Context {Net : Type}.
Implicit Types (br : Broker Net) (bc : BrokerClient Net).

(** [cur->client == bc] and the filter is the same; [filter] holds
    [filter_len] bytes. *)
Definition sub_is (addr : Z) (filter : list Z) (s : BrokerSub) : bool :=
  bool_decide (sub_client s = Some addr) && (u16 (len (sub_filter s)) =? len filter) &&
  bool_decide (take (length filter) (sub_filter s) = filter).

Definition set_sub_qos (s : BrokerSub) (qos : Z) : BrokerSub :=
  mkSub (sub_filter s) (sub_client_id s) (sub_client s) qos.
Definition set_sub_client (s : BrokerSub) (client : option Z) : BrokerSub :=
  mkSub (sub_filter s) (sub_client_id s) client (sub_qos s).

(** The loop of [BrokerSubs_Add] over the table: the updated table if the
    subscription was there. *)
Fixpoint subs_update (subs : list BrokerSub) (addr : Z) (filter : list Z) (qos : Z)
    : option (list BrokerSub) :=
  match subs with
  | [] => None
  | cur :: next =>
    if sub_is addr filter cur then Some (set_sub_qos cur qos :: next)
    else match subs_update next addr filter qos with
         | Some next => Some (cur :: next)
         | None => None
         end
  end.

Definition BrokerSubs_Add (addr : Z) (filter : list Z) (qos : Z) : B Net Z :=
  br ← get;
  match subs_update (br_subs br) addr filter qos with
  | Some subs => _ ← modify (fun br => set_subs br subs (br_subs_gen br)); mret MQTT_CODE_SUCCESS
  | None =>
    bc ← deref addr;
    if BROKER_MAX_SUBS_PER_CLIENT <=? bc_sub_count (bc_info bc) then mret MQTT_CODE_ERROR_MEMORY
    else
      ok ← alloc;
      if negb ok then mret MQTT_CODE_ERROR_MEMORY
      else
        ok ← alloc;
        if negb ok then mret MQTT_CODE_ERROR_MEMORY
        else
          '(ok, id) ← (if BROKER_STR_VALID (bc_client_id (bc_info bc))
                       then ok ← alloc; mret (ok, bc_client_id (bc_info bc))
                       else mret (true, None));
          if negb ok then mret MQTT_CODE_ERROR_MEMORY
          else
            let sub := mkSub (cstr filter) id (Some addr) qos in
            _ ← modify (fun br => set_subs br (sub :: br_subs br) (u32 (br_subs_gen br + 1)));
            _ ← store (with_info bc (set_sub_count (bc_info bc) (bc_sub_count (bc_info bc) + 1)));
            mret 1
  end.

(** The loop of [BrokerSubs_Remove]. *)
Fixpoint subs_remove (subs : list BrokerSub) (addr : Z) (filter : list Z) : option (list BrokerSub) :=
  match subs with
  | [] => None
  | cur :: next =>
    if sub_is addr filter cur then Some next
    else match subs_remove next addr filter with
         | Some next => Some (cur :: next)
         | None => None
         end
  end.

Definition BrokerSubs_Remove (addr : Z) (filter : list Z) : B Net unit :=
  br ← get;
  match subs_remove (br_subs br) addr filter with
  | None => mret tt
  | Some subs =>
    _ ← modify (fun br => set_subs br subs (u32 (br_subs_gen br + 1)));
    bc ← deref addr;
    if 0 <? bc_sub_count (bc_info bc)
    then store (with_info bc (set_sub_count (bc_info bc) (bc_sub_count (bc_info bc) - 1)))
    else mret tt
  end.

(** The loops that drop every subscription for which [drop] holds: the rest,
    and [subs_gen]. *)
Fixpoint subs_drop (drop : BrokerSub -> bool) (subs : list BrokerSub) (gen : Z) : list BrokerSub * Z :=
  match subs with
  | [] => ([], gen)
  | cur :: next =>
    if drop cur then subs_drop drop next (u32 (gen + 1))
    else let '(next, gen) := subs_drop drop next gen in (cur :: next, gen)
  end.

Definition subs_drop_all (drop : BrokerSub -> bool) : B Net unit :=
  modify (fun br => let '(subs, gen) := subs_drop drop (br_subs br) (br_subs_gen br) in
                    set_subs br subs gen).

Definition of_client (addr : Z) (s : BrokerSub) : bool := bool_decide (sub_client s = Some addr).

Definition BrokerSubs_RemoveClient (addr : Z) : B Net unit :=
  _ ← subs_drop_all (of_client addr);
  bc ← deref addr;
  store (with_info bc (set_sub_count (bc_info bc) 0)).

Definition BrokerClient_FindByClientId (client_id : list Z) (exclude : Z) : B Net (option (BrokerClient Net)) :=
  br ← get;
  match client_id with
  | [] => mret None
  | _ =>
    mret (List.find (fun bc => negb (bc_addr bc =? exclude) && BROKER_STR_VALID (bc_client_id (bc_info bc)) &&
                          bool_decide (bc_client_id (bc_info bc) = Some client_id)) (br_clients br))
  end.

(** The subscription belongs to the session [client_id]: by its client, or by
    the stored identifier when it has none. *)
Definition sub_belongs (cs : list (BrokerClient Net)) (client_id : list Z) (s : BrokerSub) : result bool :=
  match sub_client s with
  | Some addr =>
    match client_at cs addr with
    | None => UB
    | Some c => Ok (bool_decide (bc_client_id (bc_info c) = Some client_id))
    end
  | None => Ok (BROKER_STR_VALID (sub_client_id s) && bool_decide (sub_client_id s = Some client_id))
  end.

Fixpoint subs_remove_id (cs : list (BrokerClient Net)) (client_id : list Z) (subs : list BrokerSub) (gen : Z)
    : result (list BrokerSub * Z) :=
  match subs with
  | [] => Ok ([], gen)
  | cur :: next =>
    remove ← sub_belongs cs client_id cur;
    if (remove : bool) then subs_remove_id cs client_id next (u32 (gen + 1))
    else '(next, gen) ← subs_remove_id cs client_id next gen; Ok (cur :: next, gen)
  end.

Definition BrokerSubs_RemoveByClientId (client_id : list Z) : B Net unit :=
  match client_id with
  | [] => mret tt
  | _ =>
    br ← get;
    '(subs, gen) ← of_result (subs_remove_id (br_clients br) client_id (br_subs br) (br_subs_gen br));
    modify (fun br => set_subs br subs gen)
  end.

Fixpoint subs_reassociate (cs : list (BrokerClient Net)) (client_id : list Z) (addr : Z)
    (subs : list BrokerSub) : result (list BrokerSub * Z) :=
  match subs with
  | [] => Ok ([], 0)
  | s :: next =>
    owned ← sub_belongs cs client_id s;
    '(next, count) ← subs_reassociate cs client_id addr next;
    Ok (if (owned : bool) then (set_sub_client s (Some addr) :: next, count + 1) else (s :: next, count))
  end.

Definition BrokerSubs_ReassociateClient (client_id : list Z) (addr : Z) : B Net Z :=
  match client_id with
  | [] => mret 0
  | _ =>
    br ← get;
    '(subs, count) ← of_result (subs_reassociate (br_clients br) client_id addr (br_subs br));
    _ ← modify (fun br => set_subs br subs (br_subs_gen br));
    if 0 <? count then
      bc ← deref addr;
      _ ← store (with_info bc (set_sub_count (bc_info bc) (bc_sub_count (bc_info bc) + count)));
      mret count
    else mret count
  end.
End Subs.

(** ** The table as a finite map *)

Definition sub_entry (s : BrokerSub) : option (Z * list Z * Z) :=
  match sub_client s with Some addr => Some (addr, sub_filter s, sub_qos s) | None => None end.

Definition sub_table (subs : list BrokerSub) : gmap (Z * list Z) Z :=
  list_to_map (omap sub_entry subs).

(** The keys of the table. *)
Definition sub_keys (subs : list BrokerSub) : list (Z * list Z) := (omap sub_entry subs).*1.

(** The filters as they are stored: topic filters without NUL. *)
Definition filter_ok (f : list Z) : Prop := len f <= 65535 /\ Forall (fun c => c <> 0) f.

Record table_ok (subs : list BrokerSub) : Prop := {
  tb_filters : Forall (fun s => filter_ok (sub_filter s)) subs;
  tb_unique : NoDup (sub_keys subs)
}.

(** The number of subscriptions of a client. *)
Definition owned (addr : Z) (T : gmap (Z * list Z) Z) : Z :=
  Z.of_nat (size (filter (fun kv => kv.1.1 = addr) T)).

Lemma sub_keys_cons s subs :
  sub_keys (s :: subs) =
    match sub_client s with Some a => (a, sub_filter s) :: sub_keys subs | None => sub_keys subs end.
Proof. unfold sub_keys. cbn. unfold sub_entry at 1. by destruct (sub_client s). Qed.

Lemma table_ok_cons s subs :
  table_ok (s :: subs) <->
  filter_ok (sub_filter s) /\ table_ok subs /\
  match sub_client s with Some a => (a, sub_filter s) ∉ sub_keys subs | None => True end.
Proof.
  split.
  - intros [Hf Hu]. apply list.Forall_cons in Hf as [H1 H2]. rewrite sub_keys_cons in Hu.
    destruct (sub_client s) as [a|]; [apply list.NoDup_cons in Hu as [Hn Hu]|]; by split_and!; [|constructor|].
  - intros (H1 & [H2 H3] & H4). constructor; [by constructor|]. rewrite sub_keys_cons.
    destruct (sub_client s); [by constructor|done].
Qed.

Lemma sub_table_cons s subs :
  sub_table (s :: subs) =
    match sub_client s with
    | Some a => <[(a, sub_filter s) := sub_qos s]> (sub_table subs)
    | None => sub_table subs
    end.
Proof. unfold sub_table. cbn. unfold sub_entry at 1. by destruct (sub_client s). Qed.

Lemma sub_table_none subs k : k ∉ sub_keys subs -> sub_table subs !! k = None.
Proof. apply not_elem_of_list_to_map_1. Qed.

Lemma sub_is_spec addr f s :
  filter_ok (sub_filter s) -> len f <= 65535 ->
  sub_is addr f s = bool_decide (sub_client s = Some addr /\ sub_filter s = f).
Proof.
  intros [Hl _] Hf. unfold sub_is. rewrite u16_small by (pose proof (len_nonneg (sub_filter s)); lia).
  destruct (decide (sub_client s = Some addr)) as [E|E].
  - rewrite (bool_decide_eq_true_2 _ E). cbn [andb]. destruct (decide (sub_filter s = f)) as [Ef|Ef].
    + rewrite Ef, Z.eqb_refl, firstn_all. cbn [andb]. rewrite !bool_decide_eq_true_2; done.
    + rewrite (bool_decide_eq_false_2 (_ /\ _)) by tauto.
      destruct (Z.eqb_spec (len (sub_filter s)) (len f)) as [El|]; cbn [andb]; [|done].
      apply bool_decide_eq_false_2. intros Et. apply Ef. rewrite <- Et. unfold len in El.
      rewrite take_ge by lia. done.
  - rewrite (bool_decide_eq_false_2 (sub_client s = _)) by done. cbn [andb].
    symmetry. apply bool_decide_eq_false_2. tauto.
Qed.

(** An update keeps the keys; the map gets the new QoS. *)
Lemma subs_update_spec subs addr f qos :
  table_ok subs -> len f <= 65535 ->
  match subs_update subs addr f qos with
  | Some subs' =>
    table_ok subs' /\ map sub_client subs' = map sub_client subs /\
    is_Some (sub_table subs !! (addr, f)) /\ sub_keys subs' = sub_keys subs /\
    sub_table subs' = <[(addr, f) := qos]> (sub_table subs)
  | None => (addr, f) ∉ sub_keys subs
  end.
Proof.
  intros Hok Hf. induction subs as [|s subs IH]; [by apply not_elem_of_nil|].
  apply table_ok_cons in Hok as (H1 & H2 & H3). cbn [subs_update].
  rewrite sub_is_spec by done. destruct (decide (sub_client s = Some addr /\ sub_filter s = f)) as [[Ec Ef]|Hne].
  - rewrite bool_decide_eq_true_2 by done. split_and!.
    + apply table_ok_cons. done.
    + done.
    + rewrite sub_table_cons, Ec, Ef, lookup_insert_eq. by eexists.
    + rewrite !sub_keys_cons. done.
    + rewrite !sub_table_cons. cbn [sub_client set_sub_qos sub_filter sub_qos]. rewrite Ec, Ef.
      by rewrite insert_insert_eq.
  - rewrite bool_decide_eq_false_2 by done. specialize (IH H2).
    destruct (subs_update subs addr f qos) as [subs'|].
    + destruct IH as (I1 & I2 & I3 & I4 & I5). split_and!.
      * apply table_ok_cons. split; [done|]. split; [done|]. by rewrite I4.
      * cbn. by rewrite I2.
      * rewrite sub_table_cons. destruct (sub_client s) as [a|] eqn:Es; [|done].
        destruct (decide ((a, sub_filter s) = (addr, f))) as [E|]; [injection E as E1 E2; subst; tauto|].
        by rewrite lookup_insert_ne.
      * rewrite !sub_keys_cons, I4. done.
      * rewrite !sub_table_cons, I5. destruct (sub_client s) as [a|] eqn:Es; [|done].
        apply insert_insert_ne. intros E. injection E as E1 E2. subst. tauto.
    + rewrite sub_keys_cons. destruct (sub_client s) as [a|] eqn:Es; [|done].
      intros [E|?]%elem_of_cons; [injection E as E1 E2; subst|]; tauto.
Qed.

Lemma sub_keys_sublist subs subs' : subs' `sublist_of` subs -> sub_keys subs' `sublist_of` sub_keys subs.
Proof.
  induction 1 as [|s l l' _ IH|s l l' _ IH]; [done| |]; rewrite !sub_keys_cons;
    destruct (sub_client s); [by apply sublist_skip|done|by apply sublist_cons|done].
Qed.

Lemma table_ok_sublist subs subs' : table_ok subs -> subs' `sublist_of` subs -> table_ok subs'.
Proof.
  intros [Hf Hu] Hs. constructor.
  - rewrite list.Forall_forall in *. intros s Hin. apply Hf.
    eapply elem_of_submseteq; [exact Hin|]. by apply sublist_submseteq.
  - eapply sublist_NoDup; [exact Hu|]. by apply sub_keys_sublist.
Qed.

Lemma subs_remove_spec subs addr f :
  table_ok subs -> len f <= 65535 ->
  match subs_remove subs addr f with
  | Some subs' =>
    table_ok subs' /\ subs' `sublist_of` subs /\ is_Some (sub_table subs !! (addr, f)) /\
    sub_table subs' = delete (addr, f) (sub_table subs)
  | None => (addr, f) ∉ sub_keys subs
  end.
Proof.
  intros Hok Hf. induction subs as [|s subs IH]; [by apply not_elem_of_nil|].
  apply table_ok_cons in Hok as (H1 & H2 & H3). cbn [subs_remove].
  rewrite sub_is_spec by done. destruct (decide (sub_client s = Some addr /\ sub_filter s = f)) as [[Ec Ef]|Hne].
  - rewrite bool_decide_eq_true_2 by done. rewrite Ec, Ef in H3. split_and!.
    + done.
    + by apply sublist_cons.
    + rewrite sub_table_cons, Ec, Ef, lookup_insert_eq. by eexists.
    + rewrite sub_table_cons, Ec, Ef, delete_insert_id; [done|by apply sub_table_none].
  - rewrite bool_decide_eq_false_2 by done. specialize (IH H2).
    destruct (subs_remove subs addr f) as [subs'|].
    + destruct IH as (I1 & I2 & I3 & I4). split_and!.
      * apply table_ok_cons. split; [done|]. split; [done|]. destruct (sub_client s) as [a|] eqn:Es; [|done].
        intros Hin. apply H3. eapply elem_of_submseteq; [exact Hin|].
        by apply sublist_submseteq, sub_keys_sublist.
      * by apply sublist_skip.
      * rewrite sub_table_cons. destruct (sub_client s) as [a|] eqn:Es; [|done].
        destruct (decide ((a, sub_filter s) = (addr, f))) as [E|]; [injection E as E1 E2; subst; tauto|].
        by rewrite lookup_insert_ne.
      * rewrite !sub_table_cons, I4. destruct (sub_client s) as [a|] eqn:Es; [|done].
        symmetry. apply delete_insert_ne. intros E. injection E as E1 E2. subst. tauto.
    + rewrite sub_keys_cons. destruct (sub_client s) as [a|] eqn:Es; [|done].
      intros [E|?]%elem_of_cons; [injection E as E1 E2; subst|]; tauto.
Qed.

Lemma subs_drop_spec drop subs gen :
  let '(subs', _) := subs_drop drop subs gen in
  subs' = base.filter (fun s => drop s = false) subs /\ subs' `sublist_of` subs.
Proof.
  revert gen. induction subs as [|s subs IH]; intros gen; [done|].
  cbn [subs_drop]. rewrite filter_cons. destruct (drop s) eqn:E; cbn.
  - specialize (IH (u32 (gen + 1))). destruct (subs_drop drop subs _) as [subs' gen'].
    destruct IH as [-> Hs]. split; [done|by apply sublist_cons].
  - specialize (IH gen). destruct (subs_drop drop subs gen) as [subs' gen'].
    destruct IH as [-> Hs]. split; [done|by apply sublist_skip].
Qed.

(** Without the subscriptions of [addr]. *)
Lemma sub_table_drop subs addr :
  table_ok subs ->
  sub_table (base.filter (fun s => of_client addr s = false) subs) =
    base.filter (fun kv => kv.1.1 <> addr) (sub_table subs).
Proof.
  intros Hok. induction subs as [|s subs IH]; [cbn; change (sub_table []) with (∅ : gmap (Z * list Z) Z); by rewrite map_filter_empty|].
  apply table_ok_cons in Hok as (_ & Hok & Hk). specialize (IH Hok). rewrite filter_cons.
  destruct (decide (of_client addr s = false)) as [E|E]; unfold of_client in E.
  - apply bool_decide_eq_false in E. rewrite !sub_table_cons, IH.
    destruct (sub_client s) as [a|] eqn:Es; [|done]. rewrite map_filter_insert_True; [done|].
    cbn. congruence.
  - apply not_false_iff_true, bool_decide_eq_true in E. rewrite sub_table_cons, E, IH. rewrite E in Hk.
    rewrite map_filter_insert_False by (cbn; tauto). by rewrite delete_id by by apply sub_table_none.
Qed.

Lemma owned_insert_new T a f q addr :
  T !! (a, f) = None -> owned addr (<[(a, f) := q]> T) = owned addr T + (if a =? addr then 1 else 0).
Proof.
  intros H. unfold owned. destruct (Z.eqb_spec a addr) as [->|Hne].
  - rewrite map_filter_insert_True by done. rewrite map_size_insert_None; [lia|].
    apply map_lookup_filter_None. by left.
  - rewrite map_filter_insert_False by done. rewrite delete_id by done. lia.
Qed.

Lemma owned_insert_old T a f q addr :
  is_Some (T !! (a, f)) -> owned addr (<[(a, f) := q]> T) = owned addr T.
Proof.
  intros [q0 H]. unfold owned. f_equal. destruct (decide (a = addr)) as [->|Hne].
  - rewrite map_filter_insert_True by done. rewrite map_size_insert_Some; [done|].
    exists q0. by apply map_lookup_filter_Some.
  - rewrite map_filter_insert_False by done. f_equal. apply map_eq. intros k.
    rewrite !map_lookup_filter. destruct (decide (k = (a, f))) as [->|Hk].
    + rewrite lookup_delete_eq, H. cbn. by rewrite option_guard_False.
    + by rewrite lookup_delete_ne.
Qed.

Lemma owned_delete T a f addr :
  is_Some (T !! (a, f)) -> owned addr (delete (a, f) T) = owned addr T - (if a =? addr then 1 else 0).
Proof.
  intros [q H]. rewrite <- (insert_delete_id T (a, f) q H) at 2.
  rewrite owned_insert_new by apply lookup_delete_eq. lia.
Qed.

Lemma owned_drop T a addr :
  owned addr (base.filter (fun kv => kv.1.1 <> a) T) = if a =? addr then 0 else owned addr T.
Proof.
  unfold owned. destruct (Z.eqb_spec a addr) as [->|Hne].
  - assert (E : base.filter (fun kv => kv.1.1 = addr) (base.filter (fun kv => kv.1.1 <> addr) T) = ∅).
    { apply map_empty. intros k. apply map_lookup_filter_None. right. intros q H.
      apply map_lookup_filter_Some in H as [_ H]. exact H. }
    by rewrite E.
  - rewrite map_filter_filter_l; [done|]. intros k q _ Hk. cbn in *. congruence.
Qed.

(** ** The operations implement the map *)

Section Refinement.
Context {Net : Type}.
Implicit Types (br : Broker Net) (bc : BrokerClient Net).

(** The table, the clients it refers to and their counts are those of [T]. *)
Record subs_rep br (T : gmap (Z * list Z) Z) : Prop := {
  sr_addrs : NoDup (addrs (br_clients br));
  sr_ok : table_ok (br_subs br);
  sr_table : sub_table (br_subs br) = T;
  sr_linked : forall a, Some a ∈ map sub_client (br_subs br) -> a ∈ addrs (br_clients br);
  sr_counts : forall bc, bc ∈ br_clients br -> bc_sub_count (bc_info bc) = owned (bc_addr bc) T
}.

(** What a connected client does to its subscriptions. *)
Inductive SubEvent : Set :=
  | Sub_Add (addr : Z) (filter : list Z) (qos : Z)
  | Sub_Remove (addr : Z) (filter : list Z)
  | Sub_End (addr : Z).

Definition sub_op (ev : SubEvent) : B Net Z :=
  match ev with
  | Sub_Add addr filter qos => BrokerSubs_Add addr filter qos
  | Sub_Remove addr filter => _ ← BrokerSubs_Remove addr filter; mret 0
  | Sub_End addr => _ ← BrokerSubs_RemoveClient addr; mret 0
  end.

(** The contract: a subscription of a new filter answers 1, of a known one 0;
    it fails when the client has [BROKER_MAX_SUBS_PER_CLIENT] filters, or when
    an allocation fails ([oom]). *)
Inductive sub_spec (T : gmap (Z * list Z) Z) (oom : Prop) : SubEvent -> Z -> gmap (Z * list Z) Z -> Prop :=
  | spec_update addr f qos :
      is_Some (T !! (addr, f)) -> sub_spec T oom (Sub_Add addr f qos) 0 (<[(addr, f) := qos]> T)
  | spec_full addr f qos :
      T !! (addr, f) = None -> BROKER_MAX_SUBS_PER_CLIENT <= owned addr T ->
      sub_spec T oom (Sub_Add addr f qos) MQTT_CODE_ERROR_MEMORY T
  | spec_oom addr f qos :
      T !! (addr, f) = None -> oom -> sub_spec T oom (Sub_Add addr f qos) MQTT_CODE_ERROR_MEMORY T
  | spec_new addr f qos :
      T !! (addr, f) = None -> owned addr T < BROKER_MAX_SUBS_PER_CLIENT ->
      sub_spec T oom (Sub_Add addr f qos) 1 (<[(addr, f) := qos]> T)
  | spec_remove addr f : sub_spec T oom (Sub_Remove addr f) 0 (delete (addr, f) T)
  | spec_end addr : sub_spec T oom (Sub_End addr) 0 (base.filter (fun kv => kv.1.1 <> addr) T).

Definition ev_addr (ev : SubEvent) : Z :=
  match ev with Sub_Add addr _ _ | Sub_Remove addr _ | Sub_End addr => addr end.

Definition ev_ok (ev : SubEvent) : Prop :=
  match ev with Sub_Add _ f _ | Sub_Remove _ f => filter_ok f | Sub_End _ => True end.

(** The subscription count of one client changes. *)
Lemma counts_put cs bc n T T' :
  NoDup (addrs cs) -> bc ∈ cs ->
  (forall c, c ∈ cs -> bc_sub_count (bc_info c) = owned (bc_addr c) T) ->
  n = owned (bc_addr bc) T' -> (forall a, a <> bc_addr bc -> owned a T' = owned a T) ->
  forall c, c ∈ client_put cs (with_info bc (set_sub_count (bc_info bc) n)) ->
    bc_sub_count (bc_info c) = owned (bc_addr c) T'.
Proof.
  intros Hnd Hin Hc -> Ho c Hput. set (bc' := with_info bc _) in *.
  destruct (decide (bc_addr c = bc_addr bc)) as [E|E].
  - assert (Hat : client_at (client_put cs bc') (bc_addr c) = Some c)
      by (apply client_in_at; [by rewrite addrs_put|done]).
    rewrite client_at_put, E in Hat. cbn [bc_addr with_info bc'] in Hat. rewrite Z.eqb_refl in Hat.
    rewrite bool_decide_eq_true_2 in Hat by (apply list_elem_of_fmap; by exists bc).
    injection Hat as <-. done.
  - destruct (elem_of_put _ _ _ Hput) as [->|Hin']; [done|]. by rewrite (Hc _ Hin'), Ho.
Qed.

Lemma subs_rep_put br subs gen bc n T T' mem :
  subs_rep br T -> bc ∈ br_clients br -> table_ok subs -> sub_table subs = T' ->
  (forall a, Some a ∈ map sub_client subs -> a ∈ addrs (br_clients br)) ->
  n = owned (bc_addr bc) T' -> (forall a, a <> bc_addr bc -> owned a T' = owned a T) ->
  subs_rep (set_clients (set_subs (set_mem br mem) subs gen)
     (client_put (br_clients br) (with_info bc (set_sub_count (bc_info bc) n)))) T'.
Proof.
  intros [Ha _ _ _ Hc] Hin Hok HT Hl Hn Ho. constructor; cbn [br_clients br_subs set_clients set_subs set_mem]; rewrite ?addrs_put; try done.
  by eapply counts_put.
Qed.

Lemma BrokerSubs_Add_ok addr f qos br T :
  subs_rep br T -> addr ∈ addrs (br_clients br) -> filter_ok f ->
  ends (BrokerSubs_Add addr f qos) (fun rc br' => exists T',
    sub_spec T (br_mem br <> []) (Sub_Add addr f qos) rc T' /\ subs_rep br' T' /\
    addrs (br_clients br') = addrs (br_clients br) /\ (br_mem br = [] -> br_mem br' = [])) br.
Proof.
  intros Hrep Haddr Hf. pose proof Hrep as [Ha Hok HT Hl Hc]. destruct Hf as [Hfl Hf0].
  unfold BrokerSubs_Add. apply ends_bind, ends_get.
  pose proof (subs_update_spec (br_subs br) addr f qos Hok Hfl) as Hup.
  destruct (subs_update (br_subs br) addr f qos) as [subs|].
  { destruct Hup as (H1 & H2 & H3 & _ & H5). apply ends_bind, ends_modify, ends_ret.
    rewrite HT in H3, H5. exists (<[(addr, f) := qos]> T). split; [by apply spec_update|].
    split; [|done]. constructor; cbn; try done; [by rewrite H2|].
    intros bc Hin. rewrite owned_insert_old by done. auto. }
  assert (HN : T !! (addr, f) = None) by (rewrite <- HT; by apply sub_table_none).
  apply client_at_some in Haddr as Hat. destruct Hat as [bc Hat].
  apply ends_bind, (ends_deref addr bc); [done|].
  pose proof (client_at_in _ _ _ Hat) as Hin. pose proof (client_at_addr _ _ _ Hat) as Eaddr.
  destruct (Z.leb_spec BROKER_MAX_SUBS_PER_CLIENT (bc_sub_count (bc_info bc))) as [Hfull|Hroom];
    rewrite (Hc bc Hin), Eaddr in *.
  { apply ends_ret. exists T. split; [by apply spec_full|]. done. }
  assert (Hfail : forall mem, br_mem br <> [] ->
    ends (mret MQTT_CODE_ERROR_MEMORY) (fun rc br' => exists T',
      sub_spec T (br_mem br <> []) (Sub_Add addr f qos) rc T' /\ subs_rep br' T' /\
      addrs (br_clients br') = addrs (br_clients br) /\ (br_mem br = [] -> br_mem br' = [])) (set_mem br mem)).
  { intros mem Hmem. apply ends_ret. exists T. split; [by apply spec_oom|]. split; [by destruct Hrep|]. done. }
  apply ends_bind, ends_alloc. intros ok1 mem1 H1.
  destruct ok1; cbn [negb]; [|apply Hfail; intros E; by destruct (H1 E)].
  apply ends_bind, ends_alloc. intros ok2 mem2 H2. cbn [br_mem set_mem] in H2.
  destruct ok2; cbn [negb]; [|apply Hfail; intros E; destruct (H1 E) as [_ E1]; by destruct (H2 E1)].
  apply ends_bind. eapply (ends_mono _ (fun p br' => exists ok id mem, p = (ok, id) /\ br' = set_mem br mem /\
    (br_mem br = [] -> ok = true /\ mem = []))).
  { destruct (BROKER_STR_VALID _).
    - apply ends_bind, ends_alloc. intros ok3 mem3 H3. cbn [br_mem set_mem] in H3. apply ends_ret.
      eexists _, _, _. split; [done|]. split; [done|]. intros E. apply H3. by apply H2, H1.
    - apply ends_ret. eexists _, _, _. split; [done|]. split; [done|]. intros E. split; [done|]. by apply H2, H1. }
  intros [? ?] ? (ok & id & mem & [= -> ->] & -> & H3). destruct ok; cbn [negb];
    [|apply Hfail; intros E; by destruct (H3 E)].
  apply ends_bind, ends_modify, ends_bind, ends_modify, ends_ret.
  exists (<[(addr, f) := qos]> T). split; [by apply spec_new|]. split; [|split].
  - cbn [br_subs br_clients set_mem set_subs br_subs_gen]. rewrite <- (cstr_id f Hf0) at 2.
    eapply subs_rep_put; try done.
    + apply table_ok_cons. cbn [sub_filter sub_client]. rewrite (cstr_id f Hf0). done.
    + rewrite sub_table_cons. cbn [sub_client sub_filter sub_qos]. by rewrite HT.
    + cbn [map sub_client]. intros a [[= ->]|Hin']%elem_of_cons; [done|auto].
    + rewrite (cstr_id f Hf0), Eaddr, owned_insert_new, Z.eqb_refl by done. done.
    + intros a Hne. rewrite (cstr_id f Hf0), owned_insert_new by done.
      rewrite (proj2 (Z.eqb_neq addr a)) by congruence. lia.
  - cbn [br_clients set_mem set_subs set_clients]. by rewrite addrs_put.
  - intros E. cbn. by apply H3.
Qed.

Lemma BrokerSubs_Remove_ok addr f br T :
  subs_rep br T -> addr ∈ addrs (br_clients br) -> filter_ok f ->
  ends (BrokerSubs_Remove addr f) (fun _ br' =>
    subs_rep br' (delete (addr, f) T) /\ addrs (br_clients br') = addrs (br_clients br) /\
    br_mem br' = br_mem br) br.
Proof.
  intros Hrep Haddr [Hfl Hf0]. pose proof Hrep as [Ha Hok HT Hl Hc].
  unfold BrokerSubs_Remove. apply ends_bind, ends_get.
  pose proof (subs_remove_spec (br_subs br) addr f Hok Hfl) as Hrm.
  destruct (subs_remove (br_subs br) addr f) as [subs|].
  2: { apply ends_ret. rewrite delete_id by (rewrite <- HT; by apply sub_table_none). done. }
  destruct Hrm as (H1 & H2 & H3 & H4). rewrite HT in H3, H4.
  apply client_at_some in Haddr as Hat. destruct Hat as [bc Hat].
  apply ends_bind, ends_modify, ends_bind, (ends_deref addr bc); [done|].
  pose proof (client_at_in _ _ _ Hat) as Hin. pose proof (client_at_addr _ _ _ Hat) as Eaddr.
  assert (Hpos : 0 < bc_sub_count (bc_info bc)).
  { rewrite (Hc bc Hin), Eaddr. pose proof (owned_delete T addr f addr H3) as Hd.
    rewrite Z.eqb_refl in Hd. pose proof (Zle_0_nat (size (base.filter (fun kv => kv.1.1 = addr) (delete (addr, f) T)))).
    unfold owned in *. lia. }
  rewrite (proj2 (Z.ltb_lt _ _)) by done. apply ends_modify. split; [|split].
  - cbn [br_subs br_clients set_subs br_subs_gen].
    assert (E : br = set_mem br (br_mem br)) by by destruct br. rewrite E at 1.
    eapply subs_rep_put; try done.
    + intros a Hin'. apply Hl. eapply elem_of_submseteq; [exact Hin'|].
      by apply fmap_submseteq, sublist_submseteq.
    + rewrite (Hc bc Hin), Eaddr, owned_delete, Z.eqb_refl by done. done.
    + intros a Hne. rewrite owned_delete by done. rewrite (proj2 (Z.eqb_neq addr a)) by congruence. lia.
  - cbn [br_clients set_subs set_clients]. by rewrite addrs_put.
  - done.
Qed.

Lemma BrokerSubs_RemoveClient_ok addr br T :
  subs_rep br T -> addr ∈ addrs (br_clients br) ->
  ends (BrokerSubs_RemoveClient addr) (fun _ br' =>
    subs_rep br' (base.filter (fun kv => kv.1.1 <> addr) T) /\
    (Some addr ∉ map sub_client (br_subs br')) /\
    addrs (br_clients br') = addrs (br_clients br) /\ br_mem br' = br_mem br) br.
Proof.
  intros Hrep Haddr. pose proof Hrep as [Ha Hok HT Hl Hc].
  unfold BrokerSubs_RemoveClient, subs_drop_all. apply ends_bind, ends_modify.
  pose proof (subs_drop_spec (of_client addr) (br_subs br) (br_subs_gen br)) as Hd.
  destruct (subs_drop _ _ _) as [subs gen]. destruct Hd as [Esubs Hsub].
  apply client_at_some in Haddr as Hat. destruct Hat as [bc Hat].
  apply ends_bind, (ends_deref addr bc); [done|]. apply ends_modify.
  pose proof (client_at_in _ _ _ Hat) as Hin. pose proof (client_at_addr _ _ _ Hat) as Eaddr.
  split; [|split; [|split]].
  - cbn [br_subs br_clients set_subs br_subs_gen].
    assert (E : br = set_mem br (br_mem br)) by by destruct br. rewrite E at 1.
    eapply subs_rep_put; try done.
    + by eapply table_ok_sublist.
    + rewrite Esubs, sub_table_drop by done. by rewrite HT.
    + intros a Hin'. apply Hl. eapply elem_of_submseteq; [exact Hin'|].
      by apply fmap_submseteq, sublist_submseteq.
    + by rewrite Eaddr, owned_drop, Z.eqb_refl.
    + intros a Hne. rewrite owned_drop. by rewrite (proj2 (Z.eqb_neq addr a)) by congruence.
  - cbn [br_subs set_subs set_clients]. rewrite Esubs.
    intros (s & Es & [Hs _]%list_elem_of_filter)%list_elem_of_fmap.
    unfold of_client in Hs. by rewrite bool_decide_eq_true_2 in Hs.
  - cbn [br_clients set_subs set_clients]. by rewrite addrs_put.
  - done.
Qed.

(** ** Sequences *)

Fixpoint sub_run (evs : list SubEvent) : B Net (list Z) :=
  match evs with
  | [] => mret []
  | ev :: evs => rc ← sub_op ev; rcs ← sub_run evs; mret (rc :: rcs)
  end.

Inductive sub_specs (oom : Prop) : gmap (Z * list Z) Z -> list SubEvent -> list Z -> gmap (Z * list Z) Z -> Prop :=
  | specs_nil T : sub_specs oom T [] [] T
  | specs_cons T ev rc T' evs rcs T'' :
      sub_spec T oom ev rc T' -> sub_specs oom T' evs rcs T'' ->
      sub_specs oom T (ev :: evs) (rc :: rcs) T''.

Lemma sub_spec_oom T (oom oom' : Prop) ev rc T' : (oom -> oom') -> sub_spec T oom ev rc T' -> sub_spec T oom' ev rc T'.
Proof.
  intros Hi []; [apply spec_update|apply spec_full|apply spec_oom|apply spec_new|apply spec_remove|apply spec_end]; auto.
Qed.

Lemma sub_specs_oom (oom oom' : Prop) T evs rcs T' :
  (oom -> oom') -> sub_specs oom T evs rcs T' -> sub_specs oom' T evs rcs T'.
Proof.
  intros Hi. induction 1; [constructor|]. econstructor; [|done]. by eapply sub_spec_oom.
Qed.

Lemma sub_op_ok ev br T :
  subs_rep br T -> ev_addr ev ∈ addrs (br_clients br) -> ev_ok ev ->
  ends (sub_op ev) (fun rc br' => exists T', sub_spec T (br_mem br <> []) ev rc T' /\ subs_rep br' T' /\
    addrs (br_clients br') = addrs (br_clients br) /\ (br_mem br = [] -> br_mem br' = [])) br.
Proof.
  intros Hrep Ha Hev. destruct ev as [addr f qos|addr f|addr]; cbn [sub_op ev_addr ev_ok] in *.
  - by apply BrokerSubs_Add_ok.
  - apply ends_bind. eapply ends_mono; [by apply BrokerSubs_Remove_ok|].
    intros _ br' (H1 & H2 & H3). apply ends_ret. eexists. split; [constructor|]. by rewrite H3.
  - apply ends_bind. eapply ends_mono; [by apply BrokerSubs_RemoveClient_ok|].
    intros _ br' (H1 & _ & H2 & H3). apply ends_ret. eexists. split; [constructor|]. by rewrite H3.
Qed.

Lemma sub_run_ok evs br T :
  subs_rep br T -> Forall (fun ev => ev_addr ev ∈ addrs (br_clients br) /\ ev_ok ev) evs ->
  ends (sub_run evs) (fun rcs br' => exists T', sub_specs (br_mem br <> []) T evs rcs T' /\ subs_rep br' T') br.
Proof.
  revert br T. induction evs as [|ev evs IH]; intros br T Hrep Hevs; cbn [sub_run].
  { apply ends_ret. exists T. split; [constructor|done]. }
  apply list.Forall_cons in Hevs as [[Ha Hev] Hevs].
  apply ends_bind. eapply ends_mono; [by apply sub_op_ok|].
  intros rc br1 (T1 & Hspec & Hrep1 & Ea & Hmem). apply ends_bind.
  eapply ends_mono; [apply (IH br1 T1 Hrep1)|].
  { eapply List.Forall_impl; [|exact Hevs]. intros ev' [H1 H2]. by rewrite Ea. }
  intros rcs br2 (T2 & Hspecs & Hrep2). apply ends_ret. exists T2. split; [|done].
  econstructor; [done|]. eapply sub_specs_oom; [|done]. tauto.
Qed.
End Refinement.

(** ** Properties *)

(** C13: the subscription table implements a finite map from clients and
    filters to the granted QoS. For any sequence of subscriptions,
    unsubscriptions and session ends of connected clients, in whatever order:
    every operation ends; a SUBSCRIBE answers 1 and adds the pair when it is new
    and 0, replacing the QoS, when it is there; it is refused exactly when the
    client has BROKER_MAX_SUBS_PER_CLIENT filters or the allocator fails;
    removal removes that pair, or every pair of the client, and nothing else. In
    every state the table has each pair once, its clients are linked, and each
    client's [sub_count] is the number of its filters. *)
Theorem BrokerSubs_refines {Net} evs (br : Broker Net) T :
  subs_rep br T -> Forall (fun ev => ev_addr ev ∈ addrs (br_clients br) /\ ev_ok ev) evs ->
  exists rcs br' T', sub_run evs br = Ok (rcs, br') /\
    sub_specs (br_mem br <> []) T evs rcs T' /\ subs_rep br' T'.
Proof.
  intros Hrep Hevs. destruct (sub_run_ok evs br T Hrep Hevs) as (rcs & br' & E & T' & H1 & H2).
  by exists rcs, br', T'.
Qed.

Definition ex_broker (mem : heap) (cs : list (BrokerClient unit)) : Broker unit :=
  mkBroker mem 30 cs 0 [] 0 (mkRt [] 0 0) [] [] 0 1 1.

Definition ex_bc (addr : Z) (id : list Z) : BrokerClient unit :=
  mkClient addr (mkInfo 5 (Some id) 4 0 0 1 1 0 0 1 0) (mkWill 0 None None 0 0 0 0) (mkQos2 [] 0)
    (mkOutQ [] 0 0 0)
    (mkLink tt (mkWrite 0 0 0 0 0) [] (mkIO MQTT_PK_BEGIN 0 0 0 0 []) 0 0 0).

Lemma ex_subs_rep mem : subs_rep (ex_broker mem [ex_bc 1 [97]; ex_bc 2 [98]]) ∅.
Proof.
  constructor; [by_eval|by constructor; constructor|done|by intros a []%elem_of_nil|].
  cbn. intros bc [->|[->|[]%elem_of_nil]%elem_of_cons]%elem_of_cons; done.
Qed.

Lemma BrokerSubs_refines_witness :
  let br := ex_broker [] [ex_bc 1 [97]; ex_bc 2 [98]] in
  exists br' T', sub_run [Sub_Add 1 [35] 1; Sub_Add 2 [35] 0; Sub_Add 1 [35] 2; Sub_Remove 2 [35]] br =
      Ok ([1; 1; 0; 0], br') /\ subs_rep br' T'.
Proof.
  destruct (BrokerSubs_refines [Sub_Add 1 [35] 1; Sub_Add 2 [35] 0; Sub_Add 1 [35] 2; Sub_Remove 2 [35]] _ _
              (ex_subs_rep [])) as (rcs & br' & T' & E & _ & H).
  { by repeat (apply List.Forall_cons; [split; [by_eval|split; [by_eval|by repeat constructor]]|]). }
  exists br', T'. split; [|exact H]. vm_compute in E |- *. by injection E as <- <-.
Defined.
