(* ===== verification/BrokerSend.v ===== *)
(** * BrokerSend: the packets the broker sends itself ([mqtt_broker.c])

    [BrokerSend_PingResp], [BrokerSend_SubAck] and [BrokerSend_Disconnect]
    build a packet in the client's [tx_buf] and write it. Writing is total:
    whatever the network does, a write and a drain end without undefined
    behaviour and keep the state of the link valid. *)
From S2P Require Import Prelude PacketDefs Wire FixedHeader Props Frame ReasonCodes PublishResp Control Publish PacketIO BrokerDefs BrokerQos2 OutQueue OutStream OutAlloc.

Section Send.
Context {Net : Type} `{!Sender Net}.
Implicit Types (bc : BrokerClient Net) (l : Link Net).

(** [bs] in [tx_buf], from its start. *)
Definition fill_tx bc (bs : list Z) : result (BrokerClient Net) :=
  tx ← put (lk_tx (bc_link bc)) 0 bs; Ok (with_link bc (set_tx (bc_link bc) tx)).

Definition BrokerSend_PingResp (now : Z) bc : result (Z * BrokerClient Net) :=
  bc ← fill_tx bc [MQTT_PACKET_TYPE_SET MQTT_PACKET_TYPE_PING_RESP; 0];
  BrokerClient_WriteResp now bc 2.

Definition BrokerSend_SubAck (now : Z) bc (packet_id : Z) (return_codes : list Z) : result (Z * BrokerClient Net) :=
  let level := bc_protocol_level (bc_info bc) in
  match return_codes with
  | [] => Ok (MQTT_CODE_ERROR_BAD_ARG, bc)
  | _ =>
    if negb (forallb (fun c => MqttPacket_SubAckReturnCodeValid c level) return_codes)
    then Ok (MQTT_CODE_ERROR_MALFORMED_DATA, bc)
    else
      let remain_len := MQTT_DATA_LEN_SIZE + len return_codes in
      let remain_len := if MQTT_CONNECT_PROTOCOL_LEVEL_5 <=? level then remain_len + 1 else remain_len in
      if len (lk_tx (bc_link bc)) <? 1 + 4 + remain_len then Ok (MQTT_CODE_ERROR_OUT_OF_BUFFER, bc)
      else
        '(n, vbi) ← MqttEncode_Vbi true remain_len;
        '(k, id) ← MqttEncode_Num true packet_id;
        let props := if MQTT_CONNECT_PROTOCOL_LEVEL_5 <=? level then [0] else [] in
        bc ← fill_tx bc (MQTT_PACKET_TYPE_SET MQTT_PACKET_TYPE_SUBSCRIBE_ACK :: vbi ++ id ++ props ++ return_codes);
        BrokerClient_WriteResp now bc (1 + n + k + len props + len return_codes)
  end.

Definition BrokerSend_Disconnect (now : Z) bc (reason_code : Z) : result (Z * BrokerClient Net) :=
  let level := bc_protocol_level (bc_info bc) in
  if level <? MQTT_CONNECT_PROTOCOL_LEVEL_5 then Ok (0, bc)
  else
    match MqttEncode_Disconnect (len (lk_tx (bc_link bc))) (Some (mkDisconnect reason_code [] level)) with
    | UB => UB
    | Err rc => Ok (rc, bc)
    | Ok (rc, bs) =>
      if 0 <? rc then bc ← fill_tx bc bs; BrokerClient_WriteDirect now bc rc else Ok (rc, bc)
    end.
End Send.

Fixpoint BrokerProps_Find (head : list MqttProp) (type : Z) : option MqttProp :=
  match head with
  | [] => None
  | prop :: next => if prop_type prop =? type then Some prop else BrokerProps_Find next type
  end.

(** ** Writing is total *)

Section Total.
Context {Net : Type} `{!Sender Net}.
Implicit Types (bc : BrokerClient Net) (l : Link Net).

Record link_ok l : Prop := {
  lo_pos : 0 <= wr_pos (lk_write l);
  lo_tx : len (lk_tx l) = BROKER_TX_BUF_SZ;
  lo_rx : reader_ok BROKER_RX_BUF_SZ (lk_read l);
  lo_direct : 0 <= direct_pending_len l <= BROKER_TX_BUF_SZ;
  lo_connack : 0 <= connack_pending_len l <= BROKER_TX_BUF_SZ
}.

(** What a write leaves alone: the reader's state and a pending CONNACK. *)
Definition same_reader l l' : Prop :=
  lk_read l' = lk_read l /\ connack_pending_len l' = connack_pending_len l /\ connack_refused l' = connack_refused l.

Lemma same_reader_trans l l' l'' : same_reader l l' -> same_reader l' l'' -> same_reader l l''.
Proof. intros (? & ? & ?) (? & ? & ?). split_and!; congruence. Qed.

Lemma MqttSocket_Write_total w (net : Net) buf n :
  0 <= wr_pos w -> n <= len buf ->
  exists rc w' net', MqttSocket_Write w net buf n = Ok (rc, w', net') /\ 0 <= wr_pos w'.
Proof.
  intros Hp Hn. unfold MqttSocket_Write. destruct (Z.leb_spec n 0); [by eexists _, w, net|].
  destruct (Z.leb_spec n (wr_pos w)); [by eexists _, w, net|]. rewrite slice_ok by lia. cbn [mbind result_bind].
  destruct (net_write net _) as [rc net']. destruct (Z.ltb_spec rc 0); [by eexists _, w, net'|].
  set (k := if n - wr_pos w <? rc then n - wr_pos w else rc). cbv zeta.
  assert (0 <= k) by (unfold k; destruct (Z.ltb_spec (n - wr_pos w) rc); lia).
  destruct (0 <? _); [by eexists _, (set_write w 0 _), net'|].
  eexists _, (set_write w (wr_pos w + k) _), net'. split; [done|]. cbn. lia.
Qed.

Lemma client_write_total now l n :
  link_ok l -> n <= BROKER_TX_BUF_SZ ->
  exists rc l', client_write now l n = Ok (rc, l') /\ link_ok l' /\ same_reader l l' /\
    direct_pending_len l' = direct_pending_len l.
Proof.
  intros [Hp Ht Hr Hd Hc] Hn. unfold client_write, MqttPacket_Write.
  assert (Hw : exists rc w' net', (if (0 <? wr_packet_sz_max (lk_write l)) && (0 <? n) &&
      (wr_packet_sz_max (lk_write l) <? u32 n) then Ok (MQTT_CODE_ERROR_SERVER_PROP, lk_write l, lk_net l)
      else MqttSocket_Write (lk_write l) (lk_net l) (lk_tx l) n) = Ok (rc, w', net') /\ 0 <= wr_pos w').
  { destruct (_ && _ && _); [by eexists _, _, _|]. apply MqttSocket_Write_total; [done|lia]. }
  destruct Hw as (rc & w' & net' & -> & Hp'). cbn [mbind result_bind]. cbv zeta.
  destruct (_ && _); eexists _, _; (split; [done|]); (split; [by constructor|done]).
Qed.

Lemma fill_tx_front bc bs :
  link_ok (bc_link bc) -> len bs <= BROKER_TX_BUF_SZ ->
  exists tx, fill_tx bc bs = Ok (with_link bc (set_tx (bc_link bc) tx)) /\ link_ok (set_tx (bc_link bc) tx) /\
    take (length bs) tx = bs.
Proof.
  intros [Hp Ht Hr Hd Hc] Hl. unfold fill_tx. destruct (put_front (lk_tx (bc_link bc)) bs) as (tx & -> & El & Etx); [lia|].
  exists tx. split; [done|]. split; [|exact Etx]. constructor; try done. cbn. by rewrite El.
Qed.

Lemma fill_tx_total bc bs :
  link_ok (bc_link bc) -> len bs <= BROKER_TX_BUF_SZ ->
  exists tx, fill_tx bc bs = Ok (with_link bc (set_tx (bc_link bc) tx)) /\ link_ok (set_tx (bc_link bc) tx).
Proof. intros Hl Hn. destruct (fill_tx_front bc bs Hl Hn) as (tx & E & Hl' & _). by exists tx. Qed.

(** A CONNACK that is partly written. *)
Definition connack_of bc : Z * Z := (connack_pending_len (bc_link bc), connack_refused (bc_link bc)).

(** The client but for its queue, its buffers and its direct writes. *)
Definition same_client bc bc' : Prop :=
  bc_addr bc' = bc_addr bc /\ bc_info bc' = bc_info bc /\ bc_will bc' = bc_will bc /\ bc_qos2 bc' = bc_qos2 bc /\
  connack_of bc' = connack_of bc.

(** A call that only writes to the client's connection. *)
Definition writes bc (r : result (Z * BrokerClient Net)) : Prop :=
  exists rc bc', r = Ok (rc, bc') /\ same_client bc bc' /\ bc_outq bc' = bc_outq bc /\
    link_ok (bc_link bc') /\ same_reader (bc_link bc) (bc_link bc').

Lemma writes_ret bc rc : link_ok (bc_link bc) -> writes bc (Ok (rc, bc)).
Proof. intros H. by exists rc, bc. Qed.

Lemma WriteDirect_writes now bc n :
  link_ok (bc_link bc) -> n <= BROKER_TX_BUF_SZ -> writes bc (BrokerClient_WriteDirect now bc n).
Proof.
  intros Hl Hn. unfold BrokerClient_WriteDirect. cbv zeta. destruct (Z.leb_spec n 0); [by apply writes_ret|].
  destruct (_ && _); [by apply writes_ret|].
  destruct (client_write_total now (bc_link bc) n Hl Hn) as (rc & l' & -> & [Hp Ht Hr Hd Hc] & (H1 & H2 & H3) & _).
  cbn [mbind result_bind]. eexists _, _. split; [done|]. split; [split_and!; try done; unfold connack_of; cbn; congruence|].
  split; [done|]. split; [|done]. constructor; try done. cbn. destruct (_ =? _); lia.
Qed.

(** What a write makes of the packet [f]: the rest of it, from the position of
    the writer, is handed to the network. All of it is taken; or a part, and
    the write is to be called again for what is left; or the network fails and
    nothing is sent. It is not handed over when the server's limit or the
    position of the writer forbid it. *)
Inductive write_hands (f : list Z) (w : WriteIO) (net : Net) : Z -> WriteIO -> Net -> Prop :=
  | wh_sent r w' net' :
      wr_pos w < len f -> net_write net (drop (Z.to_nat (wr_pos w)) f) = (r, net') ->
      net_sent net' = net_sent net ++ drop (Z.to_nat (wr_pos w)) f -> wr_pos w' = 0 ->
      write_hands f w net (len f) w' net'
  | wh_pending r w' net' :
      net_write net (drop (Z.to_nat (wr_pos w)) f) = (r, net') -> r = MQTT_CODE_CONTINUE \/ 0 <= r ->
      wr_pos w + Z.max 0 r < len f ->
      net_sent net' = net_sent net ++ take (Z.to_nat r) (drop (Z.to_nat (wr_pos w)) f) ->
      wr_pos w' = wr_pos w + Z.max 0 r -> write_hands f w net MQTT_CODE_CONTINUE w' net'
  | wh_failed rc net' :
      wr_pos w < len f -> net_write net (drop (Z.to_nat (wr_pos w)) f) = (rc, net') ->
      rc < 0 -> rc <> MQTT_CODE_CONTINUE -> net_sent net' = net_sent net -> write_hands f w net rc w net'
  | wh_refused rc :
      0 < wr_packet_sz_max w < len f \/ len f <= wr_pos w -> rc < 0 -> rc <> MQTT_CODE_CONTINUE ->
      write_hands f w net rc w net.

(** [MqttSocket_Write] reads the packet from the front of [tx]. *)
Lemma MqttSocket_Write_hands w (net : Net) tx f :
  0 <= wr_pos w -> 0 < len f -> take (length f) tx = f ->
  exists rc w' net', MqttSocket_Write w net tx (len f) = Ok (rc, w', net') /\ write_hands f w net rc w' net'  /\
    wr_keep_alive_sec w' = wr_keep_alive_sec w.
Proof using.
  intros Hp Hf Htx. unfold MqttSocket_Write. rewrite (proj2 (Z.leb_gt (len f) 0)) by lia.
  destruct (Z.leb_spec (len f) (wr_pos w)) as [Hpos|Hpos].
  { eexists _, w, net. split; [done|]. split; [by apply wh_refused; [right|..]|done]. }
  assert (Hlt : len f <= len tx) by (rewrite <- Htx; unfold len; rewrite length_take; lia).
  assert (Hsl : slice tx (wr_pos w) (len f - wr_pos w) = Ok (drop (Z.to_nat (wr_pos w)) f)).
  { rewrite slice_ok by lia. f_equal. rewrite <- Htx at 2. rewrite skipn_firstn_comm. f_equal. unfold len. lia. }
  rewrite Hsl. cbn [mbind result_bind]. set (rest := drop _ f).
  assert (Hr : len rest = len f - wr_pos w) by (unfold rest, len; rewrite length_drop; unfold len in *; lia).
  assert (Hne : rest <> []) by (intros E; rewrite E, len_nil in Hr; lia).
  pose proof (net_write_law net rest Hne) as Hlaw. destruct (net_write net rest) as [r net'] eqn:Ew.
  destruct (Z.ltb_spec r 0) as [Hneg|Hnn].
  { destruct Hlaw as [[_ Hs]|[? _]]; [|lia]. exists r, w, net'. split; [done|]. split; [|done].
    destruct (decide (r = MQTT_CODE_CONTINUE)) as [->|Hc]; [|by apply wh_failed].
    apply (wh_pending _ _ _ MQTT_CODE_CONTINUE); [done|by left|..].
    - change (Z.max 0 MQTT_CODE_CONTINUE) with 0. lia.
    - change (Z.to_nat MQTT_CODE_CONTINUE) with 0%nat. by rewrite take_0, app_nil_r.
    - change (Z.max 0 MQTT_CODE_CONTINUE) with 0. lia. }
  assert (Hle : r <= len rest) by (destruct Hlaw as [[? _]|[? _]]; lia).
  assert (Hs : net_sent net' = net_sent net ++ take (Z.to_nat r) rest).
  { destruct Hlaw as [[H0 Hs]|[_ Hs]]; [|done]. assert (r = 0) as -> by lia. by rewrite take_0, app_nil_r. }
  rewrite (proj2 (Z.ltb_ge (len f - wr_pos w) r)) by lia.
  destruct (Z.ltb_spec (wr_pos w + r) (len f)) as [Hshort|Hall].
  - change (0 <? MQTT_CODE_CONTINUE) with false. eexists _, _, _. split; [reflexivity|]. split; [|done].
    apply (wh_pending _ _ _ r); [done|by right|lia|done|cbn [set_write wr_pos]; lia].
  - rewrite (proj2 (Z.ltb_lt 0 r)) by lia. replace (wr_pos w + r) with (len f) by lia.
    eexists _, _, _. split; [reflexivity|]. split; [|done]. apply (wh_sent _ _ _ r); try done.
    rewrite Hs, firstn_all2; [done|]. unfold len in *. lia.
Qed.

Lemma write_hands_time f w (net : Net) rc w' net' now :
  write_hands f w net rc w' net' -> rc = len f -> 0 < len f -> write_hands f w net rc (set_tx_time w' now) net'.
Proof using.
  intros [r w1 n1 H1 H2 H3 H4|r w1 n1|rc1 n1 ? ? ? ?|rc1 ? ? ?] E Hf; try lia; try (exfalso; change MQTT_CODE_CONTINUE with (-101) in E; lia).
  by apply (wh_sent _ _ _ r).
Qed.

(** [bc'] is [bc] with the packet [f] written from [tx_buf]. *)
Definition packet_handed (f : list Z) l l' : Prop :=
  exists rc, write_hands f (lk_write l) (lk_net l) rc (lk_write l') (lk_net l') /\
    direct_pending_len l' = (if rc =? MQTT_CODE_CONTINUE then len f else 0) /\
    (rc = MQTT_CODE_CONTINUE -> take (length f) (lk_tx l') = f).

Lemma client_write_hands now l f :
  0 <= wr_pos (lk_write l) -> 0 < len f < 4294967296 -> take (length f) (lk_tx l) = f ->
  exists rc l', client_write now l (len f) = Ok (rc, l') /\
    write_hands f (lk_write l) (lk_net l) rc (lk_write l') (lk_net l') /\ lk_tx l' = lk_tx l.
Proof using.
  intros Hp Hf Htx. unfold client_write, MqttPacket_Write, MqttPacket_HandleNetError.
  rewrite (proj2 (Z.ltb_lt 0 (len f))), andb_true_r, u32_small by lia.
  destruct (MqttSocket_Write_hands (lk_write l) (lk_net l) (lk_tx l) f Hp ltac:(lia) Htx) as (rc & w & net & E & Hw & Hk).
  destruct (Z.ltb_spec 0 (wr_packet_sz_max (lk_write l))), (Z.ltb_spec (wr_packet_sz_max (lk_write l)) (len f)); cbn [andb].
  1: { cbn [mbind result_bind]. replace (MQTT_CODE_ERROR_SERVER_PROP =? len f) with false by (symmetry; apply Z.eqb_neq; lia). cbn [andb mbind result_bind]. eexists _, _. split; [reflexivity|]. split; [|done]. apply wh_refused; [left; by split|done..]. }
  all: rewrite E; cbn [mbind result_bind]; destruct (Z.eqb_spec rc (len f)) as [Er|Er]; cbn [andb];
    [destruct (negb _)|]; cbn [mbind result_bind]; eexists _, _; (split; [reflexivity|]);
    cbn [lk_write lk_net lk_tx set_io]; (split; [|done]); try done; apply write_hands_time; done || lia.
Qed.

(** A direct write while nothing is pending. *)
Lemma WriteDirect_hands now bc f :
  0 <= wr_pos (lk_write (bc_link bc)) -> direct_pending_len (bc_link bc) = 0 -> 0 < len f <= BROKER_TX_BUF_SZ ->
  take (length f) (lk_tx (bc_link bc)) = f ->
  exists rc l', BrokerClient_WriteDirect now bc (len f) = Ok (rc, with_link bc l') /\
    write_hands f (lk_write (bc_link bc)) (lk_net (bc_link bc)) rc (lk_write l') (lk_net l') /\
    direct_pending_len l' = (if rc =? MQTT_CODE_CONTINUE then len f else 0) /\ lk_tx l' = lk_tx (bc_link bc).
Proof using.
  intros Hp Hd Hf Htx. unfold BrokerClient_WriteDirect. cbv zeta. rewrite Hd, (proj2 (Z.leb_gt (len f) 0)) by lia.
  cbn [negb Z.eqb andb]. destruct (client_write_hands now (bc_link bc) f Hp ltac:(lia) Htx) as (rc & l & -> & Hw & Et).
  cbn [mbind result_bind]. by eexists rc, _.
Qed.

Lemma WriteResp_writes now bc n :
  link_ok (bc_link bc) -> n <= BROKER_TX_BUF_SZ -> writes bc (BrokerClient_WriteResp now bc n).
Proof.
  intros Hl Hn. destruct (WriteDirect_writes now bc n Hl Hn) as (rc & bc' & E & H).
  unfold BrokerClient_WriteResp. rewrite E. cbn [mbind result_bind].
  destruct (_ || _); by eexists _, bc'.
Qed.

(** A packet is built in [tx_buf], then written. *)
Lemma fill_writes bc bs (k : BrokerClient Net -> result (Z * BrokerClient Net)) :
  link_ok (bc_link bc) -> len bs <= BROKER_TX_BUF_SZ ->
  (forall bc1, link_ok (bc_link bc1) -> writes bc1 (k bc1)) ->
  writes bc (bc ← fill_tx bc bs; k bc).
Proof.
  intros Hl Hbs Hk. destruct (fill_tx_total bc bs Hl Hbs) as (tx & -> & Hl'). cbn [mbind result_bind].
  destruct (Hk (with_link bc (set_tx (bc_link bc) tx)) Hl') as (rc & bc' & -> & Hc & Hq & Hl2 & Hr).
  by exists rc, bc'.
Qed.

Lemma BrokerSend_PingResp_writes now bc : link_ok (bc_link bc) -> writes bc (BrokerSend_PingResp now bc).
Proof. intros Hl. apply fill_writes; [done|done|]. intros bc1 Hl1. by apply WriteResp_writes. Qed.

Lemma BrokerSend_Disconnect_writes now bc rc :
  link_ok (bc_link bc) -> is_byte rc -> writes bc (BrokerSend_Disconnect now bc rc).
Proof.
  intros Hl Hrc. unfold BrokerSend_Disconnect. cbv zeta. destruct (_ <? _); [by apply writes_ret|].
  set (dc := mkDisconnect rc [] _).
  destruct (MqttEncode_Disconnect_answers (len (lk_tx (bc_link bc))) dc) as [[[_ Hr] ->]|(_ & e & _ & ->)];
    [by split; [|constructor]| |by apply writes_ret].
  assert (Hw : len (disc_wire dc) <= BROKER_TX_BUF_SZ).
  { rewrite (lo_tx _ Hl) in Hr. destruct Hr as (_ & _ & Hr). unfold disc_wire.
    rewrite <- (frame_len MQTT_PACKET_TYPE_DISCONNECT 0 0 0) in Hr. exact Hr. }
  destruct (0 <? _); [|by apply writes_ret]. apply fill_writes; [done|done|]. intros bc1 Hl1. by apply WriteDirect_writes.
Qed.

Lemma BrokerSend_SubAck_writes now bc id codes :
  link_ok (bc_link bc) -> 0 <= id < 65536 -> writes bc (BrokerSend_SubAck now bc id codes).
Proof.
  intros Hl Hid. unfold BrokerSend_SubAck. cbv zeta. destruct codes as [|c codes]; [by apply writes_ret|].
  set (rcs := c :: codes). destruct (forallb _ _); cbn [negb]; [|by apply writes_ret].
  rewrite (lo_tx _ Hl). pose proof (len_nonneg rcs).
  set (level5 := MQTT_CONNECT_PROTOCOL_LEVEL_5 <=? _).
  set (n := if level5 then _ else _).
  assert (En : n = 2 + len rcs + len (if level5 then [0] else [])) by (unfold n; destruct level5; cbn [len length]; unfold len; cbn; lia).
  destruct (Z.ltb_spec BROKER_TX_BUF_SZ (1 + 4 + n)); [by apply writes_ret|].
  rewrite MqttEncode_Vbi_eq by (destruct level5; unfold len in *; cbn in *; lia). cbn [mbind result_bind MqttEncode_Num].
  pose proof (vbi_len 4 n ltac:(lia)). apply fill_writes; [done|rewrite !len_cons, !len_app; cbn [when]; rewrite !len_cons, len_nil; lia|].
  intros bc1 Hl1. apply WriteResp_writes; [done|]. lia.
Qed.
End Total.

(** ** Draining is total *)

Section Drains.
Context {Net : Type} `{!Sender Net}.
Implicit Types (bc : BrokerClient Net) (l : Link Net) (d : Drain Net).

(** What becomes of an entry; the link stays valid. *)
Definition drains d (r : result (option Z * option BrokerOutPub * Drain Net)) : Prop :=
  exists ret kept d', r = Ok (ret, kept, d') /\ link_ok (dr_link d') /\ same_reader (dr_link d) (dr_link d').

Lemma drains_ret d ret kept d' :
  link_ok (dr_link d') -> same_reader (dr_link d) (dr_link d') -> drains d (Ok (ret, kept, d')).
Proof. intros. by exists ret, kept, d'. Qed.

Lemma same_reader_refl l : same_reader l l.
Proof. done. Qed.

Lemma link_ok_zero l n : link_ok l -> 0 <= n <= BROKER_TX_BUF_SZ -> link_ok (set_tx l (BROKER_FORCE_ZERO (lk_tx l) n)).
Proof. intros [Hp Ht Hr Hd Hc] Hn. constructor; try done. cbn [lk_tx set_tx]. rewrite BROKER_FORCE_ZERO_len; [done|lia]. Qed.

Lemma link_ok_set_pos l : link_ok l -> link_ok (set_io l (lk_net l) (set_write (lk_write l) 0 (wr_total (lk_write l)))).
Proof. intros [Hp Ht Hr Hd Hc]. by constructor. Qed.

Lemma put_link_ok l f tx : link_ok l -> put (lk_tx l) 0 f = Ok tx -> link_ok (set_tx l tx) /\ len f <= BROKER_TX_BUF_SZ.
Proof.
  intros [Hp Ht Hr Hd Hc] E. assert (Hf : len f <= len (lk_tx l)).
  { unfold put in E. destruct (_ && _) eqn:Eb; [|done]. apply andb_true_iff in Eb as [_ ?%Z.leb_le]. lia. }
  destruct (put_front (lk_tx l) f Hf) as (tx' & E' & El & _). rewrite E in E'. injection E' as <-.
  split; [|lia]. constructor; try done. cbn. by rewrite El.
Qed.

Lemma drain_write_failed_drains cur rc d : link_ok (dr_link d) -> drains d (drain_write_failed cur rc d).
Proof.
  intros Hl. unfold drain_write_failed. cbv zeta. destruct (_ && _); [by apply drains_ret|].
  destruct (_ && _); [|by apply drains_ret]. apply drains_ret; [by apply link_ok_set_pos|done].
Qed.

Lemma drains_mono d d1 r : same_reader (dr_link d) (dr_link d1) -> drains d1 r -> drains d r.
Proof.
  intros Hs (ret & kept & d' & -> & Hl & Hr). exists ret, kept, d'. split_and!; [done..|by eapply same_reader_trans].
Qed.

Lemma drain_publish_drains now cur d : link_ok (dr_link d) -> entry_rep cur -> drains d (drain_publish now cur d).
Proof.
  intros Hl Hrep. unfold drain_publish. cbv zeta.
  assert (Hdrop : forall rc, drains d
    (if negb (dr_pending_len d =? 0) then Ok (Some (if rc <? 0 then rc else MQTT_CODE_ERROR_SYSTEM), Some cur, d)
     else Ok (None, None, dr_unlink (dr_pend d (dr_pending_len d)
                (set_tx (dr_link d) (BROKER_FORCE_ZERO (lk_tx (dr_link d)) (len (lk_tx (dr_link d))))))))).
  { intros rc. destruct (negb _); [by apply drains_ret|]. apply drains_ret; [|done].
    apply link_ok_zero; [done|]. rewrite (lo_tx _ Hl). lia. }
  destruct (publish_frame_cases (len (lk_tx (dr_link d))) cur Hrep) as [(f & m & -> & _ & Hf)|(rc & -> & _)];
    [|apply Hdrop].
  destruct (_ <=? 0); [apply Hdrop|]. destruct (put_front (lk_tx (dr_link d)) f) as (tx & Etx & _); [lia|].
  rewrite Etx. cbn [mbind result_bind]. destruct (put_link_ok _ _ _ Hl Etx) as [Hl1 Hf1].
  destruct (_ && _); [by apply drains_ret|].
  destruct (client_write_total now (set_tx (dr_link d) tx) (len f) Hl1 Hf1) as (wr & l2 & -> & Hl2 & Hr & _).
  cbn [mbind result_bind].
  destruct (wr =? MQTT_CODE_CONTINUE); [by apply drains_ret|].
  assert (Hl3 : link_ok (set_tx l2 (BROKER_FORCE_ZERO (lk_tx l2) (len f)))) by (apply link_ok_zero; [done|lia]).
  destruct (negb (wr =? len f)) eqn:Ew; cbn [negb].
  - apply (drains_mono d (dr_pend d 0 (set_tx l2 (BROKER_FORCE_ZERO (lk_tx l2) (len f)))) _ Hr), drain_write_failed_drains, Hl3.
  - clear Hdrop. destruct (op_qos (set_op_dup cur 0) =? MQTT_QOS_0); by apply drains_ret.
Qed.

Lemma drain_pubrel_drains now cur d :
  link_ok (dr_link d) -> 0 <= op_packet_id cur < 65536 -> drains d (drain_pubrel now cur d).
Proof.
  intros Hl Hid. unfold drain_pubrel. cbv zeta.
  destruct (rel_frame_cases (len (lk_tx (dr_link d))) cur Hid) as [(f & -> & _ & Hf)|(rc & -> & _)];
    [|by apply drains_ret].
  destruct (_ <=? 0); [by apply drains_ret|]. destruct (put_front (lk_tx (dr_link d)) f) as (tx & Etx & _); [lia|].
  rewrite Etx. cbn [mbind result_bind]. destruct (put_link_ok _ _ _ Hl Etx) as [Hl1 Hf1].
  destruct (_ && _); [by apply drains_ret|].
  destruct (client_write_total now (set_tx (dr_link d) tx) (len f) Hl1 Hf1) as (wr & l2 & -> & Hl2 & Hr & _).
  cbn [mbind result_bind]. destruct (wr =? MQTT_CODE_CONTINUE); [by apply drains_ret|].
  destruct (negb _); by apply drains_ret.
Qed.

Lemma entry_rep_id e : entry_rep e -> 0 <= op_packet_id e < 65536.
Proof. intros (H & _). exact H. Qed.

Lemma entry_step_rep cur d kept d' : entry_step cur d kept d' -> entry_rep cur -> forall e, kept = Some e -> entry_rep e.
Proof.
  intros Hs Hrep e. destruct Hs as [dup d' _ _ Hd|d' _ _ _|d' _ _ _ _]; [|done|].
  - intros [= <-]. apply entry_rep_dup; [done|]. destruct Hrep as (_ & _ & _ & H & _).
    destruct Hd as [->|[->|[-> _]]]; [exact H|by split..].
  - intros [= <-]. change (entry_rep (set_op_dup cur 0)). by apply entry_rep_dup.
Qed.

Lemma drain_entry_drains now cur d : link_ok (dr_link d) -> entry_rep cur -> drains d (drain_entry now cur d).
Proof.
  intros Hl Hrep. unfold drain_entry. destruct (decide _); [by apply drain_publish_drains|].
  destruct (_ && _); [|by apply drains_ret]. apply drain_pubrel_drains; [done|]. by apply entry_rep_id.
Qed.

Lemma drain_loop_total now cap q d :
  link_ok (dr_link d) -> Forall entry_rep q ->
  exists rc q' d', drain_loop now cap q d = Ok (rc, q', d') /\ link_ok (dr_link d') /\
    same_reader (dr_link d) (dr_link d') /\ Forall entry_rep q'.
Proof.
  revert d. induction q as [|cur q IH]; intros d Hl Hq; cbn [drain_loop].
  { by eexists _, [], d. }
  destruct (_ && _ && _); [by eexists _, _, d|]. apply list.Forall_cons in Hq as [Hc Hq].
  destruct (drain_entry_drains now cur d Hl Hc) as (ret & kept & d1 & E & Hl1 & Hr1). rewrite E.
  cbn [mbind result_bind].
  assert (Hkeep : forall q', Forall entry_rep q' -> Forall entry_rep (match kept with Some cur => cur :: q' | None => q' end)).
  { intros q' Hq'. pose proof (entry_step_rep _ _ _ _ (drain_entry_step _ _ _ _ _ _ E) Hc) as Hk.
    destruct kept as [e|]; [|done]. constructor; [by apply Hk|done]. }
  destruct ret as [rc|]; [by eexists _, _, d1; split_and!; [..|apply Hkeep]|].
  destruct (IH d1 Hl1 Hq) as (rc & q' & d2 & -> & Hl2 & Hr2 & Hq2). cbn [mbind result_bind].
  eexists _, _, d2. split_and!; [done|done|by eapply same_reader_trans|by apply Hkeep].
Qed.

(** ** Valid clients *)

Record client_ok bc : Prop := {
  co_queue : outq_ok (bc_outq bc);
  co_entries : Forall entry_rep (out_q (bc_outq bc));
  co_qos2 : exists T, qos2_rep (bc_qos2 bc) T;
  co_link : link_ok (bc_link bc)
}.

(** A call for one client ends, keeps the client valid, and changes only its
    queue and its link. *)
Definition keeps {A} bc (r : result (A * BrokerClient Net)) : Prop :=
  exists a bc', r = Ok (a, bc') /\ client_ok bc' /\ same_client bc bc'.

Lemma keeps_writes bc r : client_ok bc -> writes bc r -> keeps bc r.
Proof.
  intros [Hq He Ht _] (rc & bc' & -> & Hs & Eq & Hl & _). pose proof Hs as (_ & _ & _ & E2 & _).
  exists rc, bc'. split; [done|]. split; [|done]. constructor; rewrite ?Eq, ?E2; done.
Qed.

Lemma BrokerClient_DrainOutQueue_total now bc : client_ok bc -> keeps bc (BrokerClient_DrainOutQueue now bc).
Proof.
  intros [Hq He Ht Hl].
  assert (Hd : exists rc bc', BrokerClient_DrainOutQueue now bc = Ok (rc, bc') /\ same_client bc bc' /\
            Forall entry_rep (out_q (bc_outq bc')) /\ link_ok (bc_link bc')).
  { unfold BrokerClient_DrainOutQueue. cbv zeta. destruct (_ || _ || _); [by eexists _, bc|].
    edestruct (drain_loop_total now (effective_cap (bc_client_receive_max (bc_info bc))) (out_q (bc_outq bc))
      (mkDrain (out_q_count (bc_outq bc)) (out_q_inflight (bc_outq bc)) (out_q_pending_len (bc_outq bc)) 0 (bc_link bc)))
      as (rc & q' & d' & -> & Hl' & (_ & H1 & H2) & Hq'); [done|done|]. cbn [mbind result_bind].
    eexists _, _. split; [done|]. split; [|done]. split_and!; try done. unfold connack_of. cbn in *. congruence. }
  destruct Hd as (rc & bc' & E & Hs & He' & Hl'). exists rc, bc'. split; [done|]. split; [|done].
  destruct (BrokerClient_DrainOutQueue_ok now bc rc bc' E Hq) as (Hq' & _).
  constructor; try done. destruct Hs as (_ & _ & _ & -> & _). done.
Qed.

(** The same for a function without a return code. *)
Definition keeps_quietly bc (r : result (BrokerClient Net)) : Prop :=
  exists bc', r = Ok bc' /\ client_ok bc' /\ same_client bc bc'.

Lemma drain_quietly_total now bc bc0 :
  client_ok bc -> same_client bc0 bc -> keeps_quietly bc0 (drain_quietly now bc).
Proof.
  intros Hok (H1 & H2 & H3 & H4 & H5). unfold drain_quietly.
  destruct (BrokerClient_DrainOutQueue_total now bc Hok) as (rc & bc' & -> & Hok' & (G1 & G2 & G3 & G4 & G5)).
  cbn [mbind result_bind]. exists bc'. split; [done|]. split; [done|]. split_and!; congruence.
Qed.

Lemma unlink_client_ok bc before e after :
  client_ok bc -> out_q (bc_outq bc) = before ++ e :: after -> sent e ->
  client_ok (with_outq bc (BrokerClient_UnlinkOutPub (bc_outq bc) before e after)).
Proof.
  intros [Hq He Ht Hl] Eq Hs. destruct (UnlinkOutPub_ok _ _ _ _ Hq Eq Hs) as [Hq' _].
  constructor; [exact Hq'| |exact Ht|exact Hl]. cbn. rewrite Eq in He.
  apply Forall_app in He as [? [_ ?]%list.Forall_cons]. by apply Forall_app.
Qed.

(** An acknowledgement that ends the delivery it finds, if it may. *)
Lemma ack_keeps now bc id expected (keep : BrokerOutPub -> bool) :
  client_ok bc -> expected <> BROKER_OUTQ_QUEUED ->
  keeps_quietly bc (match BrokerClient_FindOutPub (bc_outq bc) id expected with
    | None => Ok bc
    | Some (before, e, after) =>
      if keep e then Ok bc
      else drain_quietly now (with_outq bc (BrokerClient_UnlinkOutPub (bc_outq bc) before e after))
    end).
Proof.
  intros Hok Hne. destruct (BrokerClient_FindOutPub _ _ _) as [[[before e] after]|] eqn:Ef; [|by exists bc].
  apply FindOutPub_spec in Ef as (_ & Eq & _ & Es). destruct (keep e); [by exists bc|].
  apply drain_quietly_total; [|done]. apply unlink_client_ok; [done|done|]. unfold sent. congruence.
Qed.

Lemma BrokerClient_OnPubAck_keeps now bc id : client_ok bc -> keeps_quietly bc (BrokerClient_OnPubAck now bc id).
Proof. intros H. by apply (ack_keeps now bc id BROKER_OUTQ_PUBLISH_SENT (fun _ => false)). Qed.

Lemma BrokerClient_OnPubComp_keeps now bc id : client_ok bc -> keeps_quietly bc (BrokerClient_OnPubComp now bc id).
Proof. intros H. by apply (ack_keeps now bc id BROKER_OUTQ_PUBREL_SENT (fun _ => false)). Qed.

Lemma BrokerClient_OnPubReject_keeps now bc id : client_ok bc -> keeps_quietly bc (BrokerClient_OnPubReject now bc id).
Proof.
  intros H. by apply (ack_keeps now bc id BROKER_OUTQ_PUBLISH_SENT (fun e => negb (op_qos e =? MQTT_QOS_2))).
Qed.

Lemma BrokerClient_OnPubRec_keeps bc id :
  client_ok bc -> client_ok (BrokerClient_OnPubRec bc id).2 /\ same_client bc (BrokerClient_OnPubRec bc id).2.
Proof.
  intros Hok. pose proof (OnPubRec_ok bc id (co_queue _ Hok)) as Hq. destruct Hok as [_ He Ht Hl].
  unfold BrokerClient_OnPubRec in *.
  destruct (BrokerClient_FindOutPub _ _ _) as [[[before e] after]|] eqn:Ef; cbn [snd]; [|by destruct Hq].
  destruct (negb _); cbn [snd]; [by destruct Hq|]. destruct Hq as [Hq _]. split; [|done].
  constructor; [exact Hq| |exact Ht|exact Hl]. cbn.
  apply FindOutPub_spec in Ef as (_ & Eq & _ & _). rewrite Eq in He.
  apply Forall_app in He as [? [H ?]%list.Forall_cons]. apply Forall_app. split; [done|]. by constructor.
Qed.
End Drains.

(** ** Forwarding is total *)

(** A message that can be queued and encoded. *)
Record message_ok (topic : list Z) (payload : option (list Z)) (n : Z) (props : list MqttProp) : Prop := {
  mo_topic : bytes topic;
  mo_len : 0 <= n < 2143289344;
  mo_payload : payload_fits payload n;
  mo_fits : Forall prop_fits props;
  mo_props : Forall prop_rep (map copy_prop props)
}.

Definition outpub_entry (topic : list Z) (payload : option (list Z)) (n : Z) (props : list MqttProp)
    (qos id retain level : Z) : BrokerOutPub :=
  outpub_for (outpub_copy topic payload n props) qos id retain level.

Lemma outpub_entry_rep topic payload n props qos id retain level :
  message_ok topic payload n props -> 0 <= qos <= MQTT_QOS_2 -> 0 <= id < 65536 -> is_byte retain ->
  entry_rep (outpub_entry topic payload n props qos id retain level).
Proof.
  intros [Ht Hn Hp _ Hps] Hq Hid Hr. unfold entry_rep, pub_rep, outpub_entry, outpub_copy, copy_payload.
  unfold payload_fits in Hp. destruct payload as [bs|]; [destruct (Z.ltb_spec 0 n)|]; cbn -[Z.lt Z.le];
    (split_and!; try done; try lia).
  intros b [= <-]. left. rewrite len_take; lia.
Qed.

Section Forward.
Context {Net : Type} `{!Sender Net}.
Implicit Types bc : BrokerClient Net.

Lemma forward_total mem next bc topic payload n props qos retain :
  client_ok bc -> message_ok topic payload n props -> 0 <= next < 65536 ->
  0 <= qos <= MQTT_QOS_2 -> is_byte retain ->
  exists rc mem' next' bc', forward mem next bc topic payload n props qos retain = Ok (rc, mem', next', bc') /\
    client_ok bc' /\ same_client bc bc' /\ bc_link bc' = bc_link bc /\ 0 <= next' < 65536 /\ (mem = [] -> mem' = []) /\
    ((rc < 0 /\ bc' = bc /\ (mem <> [] \/ 65535 <= len (out_q (bc_outq bc)))) \/
     (rc = MQTT_CODE_SUCCESS /\ exists id, (id = 0 /\ qos = MQTT_QOS_0 \/ 1 <= id <= 65535 /\ qos <> MQTT_QOS_0) /\
        out_q (bc_outq bc') =
          out_q (bc_outq bc) ++ [outpub_entry topic payload n props qos id retain (bc_protocol_level (bc_info bc))])).
Proof.
  intros [Hq He Ht Hl] Hmsg Hnext Hqos Hret. pose proof Hmsg as [_ _ Hpay Hfits _].
  destruct (BrokerOutPub_Alloc_copies mem topic payload n props Hpay Hfits) as (e & mem1 & Ea & Hcase & Hmem).
  destruct (forward mem next bc topic payload n props qos retain) as [[[[rc mem'] next'] bc']| |] eqn:E.
  2,3: exfalso; unfold forward in E; rewrite Ea in E; cbn [mbind result_bind] in E;
    destruct e as [e|]; [|done]; destruct (MQTT_QOS_1 <=? qos); cbn [mbind result_bind andb] in E; [|done];
    destruct (BrokerNextPacketIdForQueue_spec next (out_q (bc_outq bc)) Hnext) as (id & nx & Eid & _);
    rewrite Eid in E; cbn [mbind result_bind] in E; by destruct (id =? 0).
  destruct (forward_ok _ _ _ _ _ _ _ _ _ _ _ _ _ E Hnext Hqos Hq) as (Hq' & _ & Hnx & _).
  exists rc, mem', next', bc'. split; [done|]. unfold forward in E. rewrite Ea in E. cbn [mbind result_bind] in E.
  destruct e as [e|].
  2: { injection E as <- <- <- <-. split_and!; try done; try lia. left.
       destruct Hcase as [|[_ ?]]; [done|]. split; [done|]. split; [done|by left]. }
  assert (e = outpub_copy topic payload n props) as -> by (destruct Hcase as [[= ->]|[? _]]; done).
  assert (Hnew : forall id, (id = 0 /\ qos = MQTT_QOS_0 \/ 1 <= id <= 65535 /\ qos <> MQTT_QOS_0) ->
    Forall entry_rep (out_q (bc_outq bc) ++ [outpub_entry topic payload n props qos id retain (bc_protocol_level (bc_info bc))])).
  { intros id Hid. apply Forall_app. split; [done|]. apply Forall_singleton. apply outpub_entry_rep; [done|done|lia|done]. }
  destruct (Z.leb_spec MQTT_QOS_1 qos) as [H1|H1]; cbn [andb] in E.
  - destruct (BrokerNextPacketIdForQueue_spec next (out_q (bc_outq bc)) Hnext) as (id & nx & Eid & Hid).
    rewrite Eid in E. cbn [mbind result_bind] in E.
    destruct (Z.eqb_spec id 0) as [->|Hne].
    { injection E as <- <- <- <-. split_and!; try done; try lia. left. split; [done|]. split; [done|]. right.
      destruct Hid as [(? & _)|(_ & _ & Hall)]; [lia|]. apply ids_pigeonhole in Hall. unfold len in *.
      by rewrite length_map in Hall. }
    destruct Hid as [(Hid & _ & _)|(? & _)]; [|done].
    assert (Hid' : id = 0 /\ qos = MQTT_QOS_0 \/ 1 <= id <= 65535 /\ qos <> MQTT_QOS_0) by lia.
    injection E as <- <- <- <-. split_and!; try done; try lia; [by constructor; [|apply Hnew| |]|].
    right. split; [done|]. by exists id.
  - cbn [mbind result_bind] in E.
    assert (Hid' : 0 = 0 /\ qos = MQTT_QOS_0 \/ 1 <= 0 <= 65535 /\ qos <> MQTT_QOS_0) by lia.
    injection E as <- <- <- <-. split_and!; try done; try lia; [by constructor; [|apply Hnew| |]|].
    right. split; [done|]. by exists 0.
Qed.
End Forward.

(** ** A client to compute with *)

Lemma zeros_ok n : bytes (replicate n 0).
Proof. apply list.Forall_forall. by intros b [-> _]%elem_of_replicate. Qed.

Lemma ex_link_ok script : link_ok (ex_link script BROKER_TX_BUF_SZ).
Proof. constructor; [done|by vm_compute| |done|done]. constructor; [done|by vm_compute|apply zeros_ok|done|done]. Qed.

Lemma ex_client_ok receive_max level script :
  client_ok (ex_client receive_max level BrokerClient_FreeOutQueue (ex_link script BROKER_TX_BUF_SZ)).
Proof. constructor; [apply empty_queue_ok|constructor|exists ∅; apply qos2_rep_empty|apply ex_link_ok]. Qed.
