(* ===== verification/BrokerRetained.v ===== *)
(** * BrokerRetained: retained messages ([mqtt_broker.c])

    The list of retained messages: storing, deleting, expiry, and
    [BrokerRetained_DeliverToClient], which queues the matching ones for a new
    subscription. The list implements a finite map from topics to messages with
    at most [BROKER_MAX_RETAINED] entries. *)
From stdpp Require Import gmap.
From S2P Require Import Prelude PacketDefs Wire FixedHeader Props Frame ReasonCodes PublishResp Control Publish PacketIO Topic BrokerTopic BrokerDefs BrokerQos2 OutQueue OutStream OutAlloc BrokerState BrokerSend.

(** ** Operations *)

Definition set_rm_pending (m : BrokerRetainedMsg) (pending : Z) : BrokerRetainedMsg :=
  mkRetained (rm_topic m) (rm_payload m) (rm_payload_len m) (rm_store_time m) (rm_expiry_sec m) (rm_qos m) pending.

(** The Message Expiry Interval has elapsed. *)
Definition rm_expired (now : Z) (m : BrokerRetainedMsg) : bool :=
  (0 <? rm_expiry_sec m) && (rm_store_time m <=? now) && (rm_expiry_sec m <=? now - rm_store_time m).

(** The loops that drop the messages for which [drop] holds: the rest and
    [retained_count]. *)
Fixpoint retained_drop (drop : BrokerRetainedMsg -> bool) (l : list BrokerRetainedMsg) (count : Z)
    : list BrokerRetainedMsg * Z :=
  match l with
  | [] => ([], count)
  | cur :: next =>
    if drop cur then retained_drop drop next (if 0 <? count then count - 1 else count)
    else let '(next, count) := retained_drop drop next count in (cur :: next, count)
  end.

Definition BrokerRetained_ReapExpired (now : Z) (rt : Retained) : Retained :=
  if 0 <? rt_delivering rt then rt
  else let '(l, count) := retained_drop (rm_expired now) (rt_list rt) (rt_count rt) in
       mkRt l count (rt_delivering rt).

(** The message of [topic], with those before and after it. *)
Fixpoint find_retained (topic : list Z) (l : list BrokerRetainedMsg)
    : option (list BrokerRetainedMsg * BrokerRetainedMsg * list BrokerRetainedMsg) :=
  match l with
  | [] => None
  | cur :: next =>
    if bool_decide (rm_topic cur = topic) then Some ([], cur, next)
    else match find_retained topic next with
         | Some (before, m, after) => Some (cur :: before, m, after)
         | None => None
         end
  end.

Section Retained.
Context {Net : Type} `{!Sender Net}.

Definition set_list (l : list BrokerRetainedMsg) (count : Z) : B Net unit :=
  modify (fun br => set_retained br (mkRt l count (rt_delivering (br_retained br)))).

(** The new payload is staged: whether that succeeded, and the copy. *)
Definition stage_payload (payload : option (list Z)) (payload_len : Z) : B Net (bool * option (list Z)) :=
  match payload with
  | Some bs =>
    if 0 <? payload_len then
      ok ← alloc;
      if (ok : bool) then copy ← of_result (slice bs 0 payload_len); mret (true, Some copy) else mret (false, None)
    else mret (true, None)
  | None => mret (true, None)
  end.

Definition BrokerRetained_Store (now : Z) (topic : list Z) (payload : option (list Z)) (payload_len qos expiry_sec : Z)
    : B Net Z :=
  _ ← modify (fun br => set_retained br (BrokerRetained_ReapExpired now (br_retained br)));
  br ← get;
  let rt := br_retained br in
  let stored copy := mkRetained topic copy payload_len now expiry_sec qos 0 in
  match find_retained topic (rt_list rt) with
  | Some (before, msg, after) =>
    _ ← set_list (before ++ set_rm_pending msg 0 :: after) (rt_count rt);
    '(ok, copy) ← stage_payload payload payload_len;
    if (ok : bool) then _ ← set_list (before ++ stored copy :: after) (rt_count rt); mret MQTT_CODE_SUCCESS
    else mret MQTT_CODE_ERROR_MEMORY
  | None =>
    if BROKER_MAX_RETAINED <=? rt_count rt then mret MQTT_CODE_ERROR_MEMORY
    else
      ok ← alloc;
      if negb ok then mret MQTT_CODE_ERROR_MEMORY
      else
        ok ← alloc;
        if negb ok then mret MQTT_CODE_ERROR_MEMORY
        else
          '(ok, copy) ← stage_payload payload payload_len;
          if (ok : bool) then _ ← set_list (stored copy :: rt_list rt) (rt_count rt + 1); mret MQTT_CODE_SUCCESS
          else mret MQTT_CODE_ERROR_MEMORY
  end.

Definition BrokerRetained_Delete (topic : list Z) : B Net unit :=
  br ← get;
  let rt := br_retained br in
  match find_retained topic (rt_list rt) with
  | None => mret tt
  | Some (before, cur, after) =>
    if 0 <? rt_delivering rt then set_list (before ++ set_rm_pending cur 1 :: after) (rt_count rt)
    else set_list (before ++ after) (if 0 <? rt_count rt then rt_count rt - 1 else rt_count rt)
  end.

Definition BrokerRetained_FreeAll : B Net unit := set_list [] 0.

(** A subscriber whose queue is full is disconnected. *)
Definition quota_close (now addr : Z) : B Net unit :=
  on_client addr (fun bc =>
    '(_, bc) ← BrokerSend_Disconnect now bc MQTT_REASON_QUOTA_EXCEEDED;
    Ok (tt, with_info bc (set_sock (bc_info bc) BROKER_SOCKET_INVALID 0))).

(** One message is queued for the client [addr], without a drain. *)
Definition enqueue_for (addr : Z) (topic : list Z) (payload : option (list Z)) (payload_len : Z)
    (props : list MqttProp) (qos retain : Z) : B Net Z :=
  br ← get;
  bc ← deref addr;
  '(rc, mem, next, bc) ← of_result (forward (br_mem br) (br_next_packet_id br) bc topic payload payload_len props qos retain);
  _ ← modify (fun br => set_packet_id (set_mem br mem) next);
  _ ← store bc;
  mret rc.

(** The loop over the list: the return code, the list and [retained_count] it
    leaves. [delivering] is [retained_delivering]. *)
Fixpoint deliver_loop (now addr delivering : Z) (filter : list Z) (sub_qos : Z) (l : list BrokerRetainedMsg) (count : Z)
    : B Net (Z * list BrokerRetainedMsg * Z) :=
  match l with
  | [] => mret (MQTT_CODE_SUCCESS, [], count)
  | rm :: rm_next =>
    let keep r := let '(rc, next, count) := r in mret (rc, rm :: next, count) in
    if negb (rm_pending_delete rm =? 0) || rm_expired now rm then
      if 1 <? delivering then
        '(rc, next, count) ← deliver_loop now addr delivering filter sub_qos rm_next count;
        mret (rc, set_rm_pending rm 1 :: next, count)
      else deliver_loop now addr delivering filter sub_qos rm_next (if 0 <? count then count - 1 else count)
    else
      m ← of_result (BrokerTopicMatch (Some filter) (Some (rm_topic rm)));
      if (m : bool) then
        let eff_qos := if rm_qos rm <? sub_qos then rm_qos rm else sub_qos in
        bc ← deref addr;
        if BROKER_MAX_QUEUED_MSGS_PER_SUB <=? out_q_count (bc_outq bc) then
          _ ← quota_close now addr;
          keep (MQTT_CODE_ERROR_MEMORY, rm_next, count)
        else
          rc ← enqueue_for addr (rm_topic rm) (if 0 <? rm_payload_len rm then rm_payload rm else None)
                 (rm_payload_len rm) [] eff_qos 1;
          if rc <? 0 then keep (rc, rm_next, count)
          else r ← deliver_loop now addr delivering filter sub_qos rm_next count; keep r
      else r ← deliver_loop now addr delivering filter sub_qos rm_next count; keep r
  end.

Definition pending_delete (m : BrokerRetainedMsg) : bool := negb (rm_pending_delete m =? 0).

Definition BrokerRetained_DeliverToClient (now addr : Z) (filter : list Z) (sub_qos : Z) : B Net Z :=
  br ← get;
  let rt := br_retained br in
  let delivering := rt_delivering rt + 1 in
  _ ← modify (fun br => set_retained br (mkRt (rt_list rt) (rt_count rt) delivering));
  '(rc, l, count) ← deliver_loop now addr delivering filter sub_qos (rt_list rt) (rt_count rt);
  let delivering := if 0 <? delivering then delivering - 1 else delivering in
  let '(l, count) := if delivering =? 0 then retained_drop pending_delete l count else (l, count) in
  _ ← modify (fun br => set_retained br (mkRt l count delivering));
  mret rc.
End Retained.

(** ** The list as a finite map *)

Definition topics (l : list BrokerRetainedMsg) : list (list Z) := map rm_topic l.

Definition ret_table (l : list BrokerRetainedMsg) : gmap (list Z) BrokerRetainedMsg :=
  list_to_map (map (fun m => (rm_topic m, m)) l).

Record retained_msg_ok (m : BrokerRetainedMsg) : Prop := {
  rmo_message : message_ok (rm_topic m) (rm_payload m) (rm_payload_len m) [];
  rmo_qos : 0 <= rm_qos m <= MQTT_QOS_2;
  rmo_pending : rm_pending_delete m = 0
}.

(** No delivery is under way. *)
Record retained_ok (rt : Retained) : Prop := {
  rt_counted : rt_count rt = len (rt_list rt);
  rt_capped : len (rt_list rt) <= BROKER_MAX_RETAINED;
  rt_topics : NoDup (topics (rt_list rt));
  rt_msgs : Forall retained_msg_ok (rt_list rt);
  rt_idle : rt_delivering rt = 0
}.

Lemma topics_fst l : (map (fun m => (rm_topic m, m)) l).*1 = topics l.
Proof. unfold topics. induction l as [|m l IH]; [done|]. cbn. by rewrite <- IH. Qed.

Lemma ret_table_lookup l t m : NoDup (topics l) -> ret_table l !! t = Some m <-> m ∈ l /\ rm_topic m = t.
Proof.
  intros Hn. unfold ret_table. rewrite <- elem_of_list_to_map by by rewrite topics_fst.
  rewrite list_elem_of_fmap. split.
  - intros (m' & [= -> ->] & Hin). done.
  - intros [Hin <-]. by exists m.
Qed.

Lemma ret_table_eq l T :
  NoDup (topics l) -> (forall t m, T !! t = Some m <-> m ∈ l /\ rm_topic m = t) -> ret_table l = T.
Proof.
  intros Hn HT. apply map_eq. intros t. apply option_eq. intros m. by rewrite ret_table_lookup, HT.
Qed.

Lemma ret_table_none l t : (t ∉ topics l) -> ret_table l !! t = None.
Proof. intros H. apply not_elem_of_list_to_map_1. by rewrite topics_fst. Qed.

Lemma ret_table_size l : NoDup (topics l) -> Z.of_nat (size (ret_table l)) = len l.
Proof.
  intros Hn. unfold ret_table, len. rewrite map_size_list_to_map by by rewrite topics_fst. by rewrite length_map.
Qed.

Lemma topics_app a b : topics (a ++ b) = topics a ++ topics b.
Proof. apply map_app. Qed.

Lemma find_retained_spec topic l :
  match find_retained topic l with
  | Some (before, m, after) => l = before ++ m :: after /\ rm_topic m = topic
  | None => topic ∉ topics l
  end.
Proof.
  induction l as [|cur l IH]; [by apply not_elem_of_nil|]. cbn [find_retained].
  destruct (decide (rm_topic cur = topic)) as [E|E]; [by rewrite bool_decide_eq_true_2|].
  rewrite bool_decide_eq_false_2 by done. destruct (find_retained topic l) as [[[b m] a]|].
  - by destruct IH as [-> ?].
  - cbn [topics map]. apply not_elem_of_cons. split; [congruence|exact IH].
Qed.

Lemma retained_drop_spec drop l count :
  count = len l ->
  retained_drop drop l count = (base.filter (fun m => drop m = false) l, len (base.filter (fun m => drop m = false) l)).
Proof.
  revert count. assert (Hgen : forall k count, count = k + len l -> 0 <= k ->
    retained_drop drop l count =
      (base.filter (fun m => drop m = false) l, k + len (base.filter (fun m => drop m = false) l))).
  { induction l as [|m l IH]; intros k count -> Hk; cbn [retained_drop].
    { rewrite filter_nil, !len_nil. done. }
    rewrite filter_cons, len_cons. pose proof (len_nonneg l). destruct (drop m) eqn:E.
    - rewrite (proj2 (Z.ltb_lt 0 _)) by lia. destruct (decide _) as [?|_]; [done|]. apply IH; lia.
    - rewrite (IH (k + 1)) by lia. destruct (decide _) as [_|[]]; [|done]. rewrite len_cons. f_equal. lia. }
  intros count ->. rewrite (Hgen 0) by lia. by rewrite Z.add_0_l.
Qed.

Lemma topics_sublist l l' : l' `sublist_of` l -> topics l' `sublist_of` topics l.
Proof. apply fmap_sublist. Qed.

Lemma retained_ok_sublist l rt :
  retained_ok rt -> l `sublist_of` rt_list rt -> retained_ok (mkRt l (len l) (rt_delivering rt)).
Proof.
  intros [Hc Hl Hn Hm Hd] Hs. constructor; cbn [rt_count rt_list rt_delivering]; [done| | | |done].
  - apply sublist_length in Hs. unfold len in *. lia.
  - eapply sublist_NoDup; [exact Hn|by apply topics_sublist].
  - rewrite list.Forall_forall in *. intros m Hin. apply Hm. eapply elem_of_submseteq; [exact Hin|]. by apply sublist_submseteq.
Qed.

(** What is left of the table after the sweep at [now]. *)
Definition live_table (now : Z) (T : gmap (list Z) BrokerRetainedMsg) : gmap (list Z) BrokerRetainedMsg :=
  base.filter (fun kv => rm_expired now kv.2 = false) T.

Lemma reap_spec now rt :
  retained_ok rt ->
  retained_ok (BrokerRetained_ReapExpired now rt) /\
  ret_table (rt_list (BrokerRetained_ReapExpired now rt)) = live_table now (ret_table (rt_list rt)).
Proof.
  intros Hok. unfold BrokerRetained_ReapExpired. rewrite (rt_idle _ Hok). cbn [Z.ltb Z.compare].
  rewrite retained_drop_spec by apply Hok. cbn [rt_list]. set (l := base.filter _ _).
  assert (Hs : l `sublist_of` rt_list rt) by apply sublist_filter.
  pose proof (retained_ok_sublist l rt Hok Hs) as Hok'. rewrite (rt_idle _ Hok) in Hok'. split; [exact Hok'|].
  apply ret_table_eq; [apply Hok'|]. intros t m. unfold live_table. rewrite map_lookup_filter_Some.
  rewrite ret_table_lookup by apply Hok. unfold l. rewrite list_elem_of_filter. cbn. tauto.
Qed.

(** Replacing and removing the message of a topic. *)
Lemma ret_table_replace before m m' after :
  NoDup (topics (before ++ m :: after)) -> rm_topic m' = rm_topic m ->
  NoDup (topics (before ++ m' :: after)) /\
  ret_table (before ++ m' :: after) = <[rm_topic m := m']> (ret_table (before ++ m :: after)).
Proof.
  intros Hn E. assert (Hn' : NoDup (topics (before ++ m' :: after))).
  { rewrite !topics_app in *. cbn [topics map] in *. by rewrite E. }
  split; [done|]. apply ret_table_eq; [done|]. intros t x. rewrite lookup_insert_Some, ret_table_lookup by done.
  rewrite !elem_of_app, !elem_of_cons. rewrite topics_app in Hn. cbn [topics map] in Hn.
  apply list.NoDup_app in Hn as (_ & Hb & [Ha _]%list.NoDup_cons).
  assert (Hx : forall y, y ∈ before \/ y ∈ after -> rm_topic y <> rm_topic m).
  { intros y [Hy|Hy] Ey.
    - apply (Hb (rm_topic m)); [|by left]. rewrite <- Ey. apply list_elem_of_fmap. by exists y.
    - apply Ha. rewrite <- Ey. apply list_elem_of_fmap. by exists y. }
  split.
  - intros [[<- <-]|(Hne & Hin & <-)]; [split; [by right; left|done]|]. split; [|done].
    destruct Hin as [?|[->|?]]; [by left|done|by right; right].
  - intros [[Hin|[->|Hin]] <-]; [right|left; by rewrite E|right]; (split; [|split; [|done]]);
      try (intros Ex; eapply Hx; [|symmetry; exact Ex]; by (left + right)); [by left|by right; right].
Qed.

Lemma ret_table_remove before m after :
  NoDup (topics (before ++ m :: after)) ->
  ret_table (before ++ after) = delete (rm_topic m) (ret_table (before ++ m :: after)).
Proof.
  intros Hn. assert (Hn' : NoDup (topics (before ++ after))).
  { eapply sublist_NoDup; [exact Hn|]. apply topics_sublist, sublist_app; [done|]. by apply sublist_cons. }
  apply ret_table_eq; [done|]. intros t x. rewrite lookup_delete_Some, ret_table_lookup by done.
  rewrite !elem_of_app, elem_of_cons. rewrite topics_app in Hn. cbn [topics map] in Hn.
  apply list.NoDup_app in Hn as (_ & Hb & [Ha _]%list.NoDup_cons). split.
  - intros (Hne & [?|[->|?]] & <-); [by split; [left|]|done|by split; [right|]].
  - intros [Hin <-]. split; [|split; [|done]].
    + intros Ex. destruct Hin as [Hy|Hy].
      * apply (Hb (rm_topic m)); [|by left]. rewrite Ex. apply list_elem_of_fmap. by exists x.
      * apply Ha. rewrite Ex. apply list_elem_of_fmap. by exists x.
    + destruct Hin; [by left|by right; right].
Qed.

Lemma ret_table_cons m l : (rm_topic m ∉ topics l) -> ret_table (m :: l) = <[rm_topic m := m]> (ret_table l).
Proof. done. Qed.

(** ** The operations implement the map *)

Inductive RetEvent : Set :=
  | Ret_Store (now : Z) (topic : list Z) (payload : option (list Z)) (payload_len qos expiry_sec : Z)
  | Ret_Delete (topic : list Z)
  | Ret_Reap (now : Z).

(** The message [BrokerRetained_Store] keeps. *)
Definition stored_msg (now : Z) (topic : list Z) (payload : option (list Z)) (n qos expiry_sec : Z) : BrokerRetainedMsg :=
  mkRetained topic (copy_payload payload n).1 n now expiry_sec qos 0.

(** The contract, given that an allocation may fail when [oom]. *)
Inductive ret_spec (T : gmap (list Z) BrokerRetainedMsg) (oom : Prop)
    : RetEvent -> Z -> gmap (list Z) BrokerRetainedMsg -> Prop :=
  | rspec_store now topic payload n qos expiry_sec :
      is_Some (live_table now T !! topic) \/ Z.of_nat (size (live_table now T)) < BROKER_MAX_RETAINED ->
      ret_spec T oom (Ret_Store now topic payload n qos expiry_sec) MQTT_CODE_SUCCESS
        (<[topic := stored_msg now topic payload n qos expiry_sec]> (live_table now T))
  | rspec_full now topic payload n qos expiry_sec :
      live_table now T !! topic = None -> Z.of_nat (size (live_table now T)) = BROKER_MAX_RETAINED ->
      ret_spec T oom (Ret_Store now topic payload n qos expiry_sec) MQTT_CODE_ERROR_MEMORY (live_table now T)
  | rspec_oom now topic payload n qos expiry_sec :
      oom ->
      ret_spec T oom (Ret_Store now topic payload n qos expiry_sec) MQTT_CODE_ERROR_MEMORY (live_table now T)
  | rspec_delete topic : ret_spec T oom (Ret_Delete topic) MQTT_CODE_SUCCESS (delete topic T)
  | rspec_reap now : ret_spec T oom (Ret_Reap now) MQTT_CODE_SUCCESS (live_table now T).

Definition ret_ev_ok (ev : RetEvent) : Prop :=
  match ev with
  | Ret_Store _ topic payload n qos _ => message_ok topic payload n [] /\ 0 <= qos <= MQTT_QOS_2
  | _ => True
  end.

Section Refinement.
Context {Net : Type} `{!Sender Net}.
Implicit Types (br : Broker Net) (bc : BrokerClient Net).

Definition ret_op (ev : RetEvent) : B Net Z :=
  match ev with
  | Ret_Store now topic payload n qos expiry_sec => BrokerRetained_Store now topic payload n qos expiry_sec
  | Ret_Delete topic => _ ← BrokerRetained_Delete topic; mret MQTT_CODE_SUCCESS
  | Ret_Reap now =>
      _ ← modify (fun br => set_retained br (BrokerRetained_ReapExpired now (br_retained br)));
      mret MQTT_CODE_SUCCESS
  end.

Record ret_rep br (T : gmap (list Z) BrokerRetainedMsg) : Prop := {
  rr_ok : retained_ok (br_retained br);
  rr_table : ret_table (rt_list (br_retained br)) = T
}.

Lemma stored_msg_ok now topic payload n qos expiry_sec :
  message_ok topic payload n [] -> 0 <= qos <= MQTT_QOS_2 ->
  retained_msg_ok (stored_msg now topic payload n qos expiry_sec).
Proof.
  intros [Ht Hn Hp Hf Hps] Hq. constructor; cbn; [|done|done]. constructor; try done.
  unfold payload_fits, copy_payload in *. destruct payload as [bs|]; [|done].
  destruct (Z.ltb_spec 0 n); cbn; [|done]. rewrite len_take; lia.
Qed.

Lemma stage_payload_ends payload n br :
  payload_fits payload n ->
  ends (stage_payload payload n) (fun r br' => exists ok mem, (ok = true -> r = (true, (copy_payload payload n).1)) /\
    (ok = false -> r.1 = false) /\ br' = set_mem br mem /\ (br_mem br = [] -> ok = true /\ mem = [])) br.
Proof.
  intros Hp. unfold stage_payload, copy_payload, payload_fits in *.
  assert (Hsame : br = set_mem br (br_mem br)) by by destruct br.
  destruct payload as [bs|]; [destruct (Z.ltb_spec 0 n)|]; cbn [fst];
    [|apply ends_ret; by exists true, (br_mem br)..].
  apply ends_bind, ends_alloc. intros ok mem Hm. destruct ok.
  - apply ends_bind. eapply ends_of_result; [apply slice_ok; lia|]. apply ends_ret. by exists true, mem.
  - apply ends_ret. by exists false, mem.
Qed.

(** The frame: an operation on the retained messages changes only them and
    the allocator. *)
Definition retains br (Q : Z -> gmap (list Z) BrokerRetainedMsg -> Prop) (rc : Z) br' : Prop :=
  exists mem T', br' = set_retained (set_mem br mem) (br_retained br') /\ (br_mem br = [] -> mem = []) /\
    Q rc T' /\ ret_rep br' T'.

Lemma BrokerRetained_Store_ok now topic payload n qos expiry_sec br T :
  ret_rep br T -> message_ok topic payload n [] -> 0 <= qos <= MQTT_QOS_2 ->
  ends (BrokerRetained_Store now topic payload n qos expiry_sec)
    (retains br (ret_spec T (br_mem br <> []) (Ret_Store now topic payload n qos expiry_sec))) br.
Proof.
  intros [Hok <-] Hmsg Hqos. unfold BrokerRetained_Store.
  apply ends_bind, ends_modify, ends_bind, ends_get. cbv zeta. cbn [br_retained set_retained].
  destruct (reap_spec now (br_retained br) Hok) as [Hok1 E1].
  set (rt := BrokerRetained_ReapExpired now (br_retained br)) in *.
  set (T := ret_table (rt_list (br_retained br))) in *.
  pose proof (stored_msg_ok now topic payload n qos expiry_sec Hmsg Hqos) as Hnew.
  pose proof Hok1 as [Hc Hl Hn Hm Hd].
  pose proof (find_retained_spec topic (rt_list rt)) as Hf.
  destruct (find_retained topic (rt_list rt)) as [[[before msg] after]|].
  - destruct Hf as [El Et]. rewrite El in Hn, Hl, Hm, Hc, E1. rewrite len_app, len_cons in Hl, Hc.
    assert (Hrep : forall m', rm_topic m' = topic -> retained_msg_ok m' ->
      retained_ok (mkRt (before ++ m' :: after) (rt_count rt) (rt_delivering rt)) /\
      ret_table (before ++ m' :: after) = <[topic := m']> (live_table now T)).
    { intros m' Em Hm'. destruct (ret_table_replace before msg m' after Hn) as [Hn' ->]; [congruence|].
      split; [|by rewrite Et, E1]. constructor; cbn; [rewrite len_app, len_cons; lia|rewrite len_app, len_cons; lia|done| |done].
      apply Forall_app in Hm as [? [_ ?]%list.Forall_cons]. apply Forall_app. split; [done|]. by constructor. }
    apply ends_bind, ends_modify, ends_bind. eapply ends_mono; [apply stage_payload_ends, Hmsg|].
    intros [ok1 copy] br' (ok & mem & Hyes & Hno & -> & Hmem). destruct ok; cbn [fst] in *.
    + injection (Hyes eq_refl) as -> ->. apply ends_bind, ends_modify, ends_ret.
      destruct (Hrep (stored_msg now topic payload n qos expiry_sec) eq_refl Hnew) as [Hok2 E2].
      exists mem. eexists. split; [done|]. split; [by intros E; apply Hmem|]. split; [|split; [exact Hok2|exact E2]].
      apply rspec_store. left. rewrite <- E1, <- Et. exists msg. apply ret_table_lookup; [done|].
      split; [|done]. apply elem_of_app. right. by left.
    + rewrite (Hno eq_refl). apply ends_ret. exists mem, (live_table now T). split; [done|].
      split; [intros E; by destruct (Hmem E)|]. split; [apply rspec_oom; intros E; by destruct (Hmem E)|].
      assert (Hmsg0 : retained_msg_ok msg) by (apply Forall_app in Hm as [_ [? _]%list.Forall_cons]; done).
      assert (Eset : set_rm_pending msg 0 = msg) by (destruct Hmsg0 as [_ _ Hp]; destruct msg; cbn in *; by rewrite Hp).
      rewrite Eset. destruct (Hrep msg Et Hmsg0) as [Hok2 E2]. split; [exact Hok2|].
      cbn [br_retained set_mem set_retained rt_list]. exact E1.
  - assert (Hfail : forall mem, br_mem br <> [] -> ends (mret MQTT_CODE_ERROR_MEMORY)
      (retains br (ret_spec T (br_mem br <> []) (Ret_Store now topic payload n qos expiry_sec)))
      (set_mem (set_retained br rt) mem)).
    { intros mem Hne. apply ends_ret. exists mem, (live_table now T). split; [done|]. split; [done|].
      split; [by apply rspec_oom|]. by split. }
    assert (HN : live_table now T !! topic = None) by (rewrite <- E1; by apply ret_table_none).
    pose proof (ret_table_size _ Hn) as Hs. rewrite E1 in Hs.
    destruct (Z.leb_spec BROKER_MAX_RETAINED (rt_count rt)) as [Hfull|Hroom].
    { apply ends_ret. exists (br_mem br), (live_table now T). split; [by destruct br|]. split; [done|].
      split; [apply rspec_full; [done|lia]|]. by split. }
    apply ends_bind, ends_alloc. intros ok1 mem1 H1.
    destruct ok1; cbn [negb]; [|apply Hfail; intros E; by destruct (H1 E)].
    apply ends_bind, ends_alloc. intros ok2 mem2 H2. cbn [br_mem set_mem] in H2.
    destruct ok2; cbn [negb]; [|apply (Hfail mem2); intros E; destruct (H1 E) as [_ E2]; by destruct (H2 E2)].
    apply ends_bind. eapply ends_mono; [apply stage_payload_ends, Hmsg|].
    intros [ok3 copy] br' (ok & mem & Hyes & Hno & -> & Hmem). cbn [br_mem set_mem] in Hmem. destruct ok; cbn [fst] in *.
    + injection (Hyes eq_refl) as -> ->. apply ends_bind, ends_modify, ends_ret.
      exists mem. eexists. split; [done|]. split; [intros E; by apply Hmem, H2, H1|].
      split; [apply rspec_store; right; lia|]. split.
      * constructor; cbn [br_retained set_mem set_retained rt_count rt_list rt_delivering];
          [rewrite len_cons; lia|rewrite len_cons; lia|by constructor|by constructor|done].
      * cbn [br_retained set_mem set_retained rt_list]. rewrite ret_table_cons by done. by rewrite E1.
    + rewrite (Hno eq_refl). apply (Hfail mem). intros E. destruct (H1 E) as [_ E2]. destruct (H2 E2) as [_ E3].
      by destruct (Hmem E3).
Qed.

Lemma BrokerRetained_Delete_ok topic br T :
  ret_rep br T ->
  ends (BrokerRetained_Delete topic) (fun _ br' => exists rt, br' = set_retained br rt /\ ret_rep br' (delete topic T)) br.
Proof.
  intros [Hok <-]. unfold BrokerRetained_Delete. apply ends_bind, ends_get. cbv zeta.
  pose proof (find_retained_spec topic (rt_list (br_retained br))) as Hf.
  destruct (find_retained _ _) as [[[before m] after]|].
  - destruct Hf as [El <-]. rewrite (rt_idle _ Hok). cbn [Z.ltb Z.compare]. apply ends_modify.
    pose proof Hok as [Hc Hl Hn Hm Hd]. rewrite El in Hc, Hn |- *. rewrite len_app, len_cons in Hc.
    pose proof (len_nonneg before). pose proof (len_nonneg after).
    rewrite (proj2 (Z.ltb_lt 0 _)) by lia. eexists. split; [done|].
    assert (Hs : before ++ after `sublist_of` rt_list (br_retained br))
      by (rewrite El; apply sublist_app; [done|by apply sublist_cons]).
    pose proof (retained_ok_sublist _ _ Hok Hs) as Hok'. split.
    + cbn [br_retained set_retained]. replace (rt_count (br_retained br) - 1) with (len (before ++ after)); [done|].
      rewrite len_app. lia.
    + cbn [br_retained set_retained rt_list]. by apply ret_table_remove.
  - apply ends_ret. exists (br_retained br). split; [by destruct br|]. split; [done|].
    rewrite delete_id; [done|]. by apply ret_table_none.
Qed.

Lemma ret_op_ok ev br T :
  ret_rep br T -> ret_ev_ok ev -> ends (ret_op ev) (retains br (ret_spec T (br_mem br <> []) ev)) br.
Proof.
  intros Hrep Hev. destruct ev as [now topic payload n qos expiry_sec|topic|now]; cbn [ret_op ret_ev_ok] in *.
  - destruct Hev. by apply BrokerRetained_Store_ok.
  - apply ends_bind. eapply ends_mono; [by apply BrokerRetained_Delete_ok|].
    intros _ br' (rt & -> & Hrep'). apply ends_ret. exists (br_mem br), (delete topic T).
    split; [by destruct br|]. split; [done|]. split; [constructor|done].
  - apply ends_bind, ends_modify, ends_ret. destruct Hrep as [Hok <-].
    destruct (reap_spec now _ Hok) as [Hok' E']. exists (br_mem br). eexists. split; [by destruct br|].
    split; [done|]. split; [constructor|]. split; [exact Hok'|exact E'].
Qed.

Fixpoint ret_run (evs : list RetEvent) : B Net (list Z) :=
  match evs with
  | [] => mret []
  | ev :: evs => rc ← ret_op ev; rcs ← ret_run evs; mret (rc :: rcs)
  end.

Inductive ret_specs (oom : Prop) : gmap (list Z) BrokerRetainedMsg -> list RetEvent -> list Z ->
    gmap (list Z) BrokerRetainedMsg -> Prop :=
  | rspecs_nil T : ret_specs oom T [] [] T
  | rspecs_cons T ev rc T' evs rcs T'' :
      ret_spec T oom ev rc T' -> ret_specs oom T' evs rcs T'' -> ret_specs oom T (ev :: evs) (rc :: rcs) T''.

Lemma ret_spec_oom T (oom oom' : Prop) ev rc T' : (oom -> oom') -> ret_spec T oom ev rc T' -> ret_spec T oom' ev rc T'.
Proof. intros Hi []; [apply rspec_store|apply rspec_full|apply rspec_oom|apply rspec_delete|apply rspec_reap]; auto. Qed.

Lemma ret_run_ok evs br T :
  ret_rep br T -> Forall ret_ev_ok evs ->
  ends (ret_run evs) (fun rcs br' => exists T', ret_specs (br_mem br <> []) T evs rcs T' /\ ret_rep br' T') br.
Proof.
  assert (Hgen : forall (oom : Prop) br T, (br_mem br <> [] -> oom) -> ret_rep br T -> Forall ret_ev_ok evs ->
    ends (ret_run evs) (fun rcs br' => exists T', ret_specs oom T evs rcs T' /\ ret_rep br' T') br).
  { induction evs as [|ev evs IH]; intros oom br0 T0 Hoom Hrep Hevs; cbn [ret_run].
    { apply ends_ret. exists T0. split; [constructor|done]. }
    apply list.Forall_cons in Hevs as [Hev Hevs]. apply ends_bind.
    eapply ends_mono; [by apply ret_op_ok|]. intros rc br1 (mem & T1 & E & Hmem & Hspec & Hrep1).
    apply ends_bind. eapply ends_mono; [apply (IH oom br1 T1)|]; [|done|done|].
    - intros Hne. apply Hoom. intros E0. apply Hne. rewrite E. cbn. by apply Hmem.
    - intros rcs br2 (T2 & Hspecs & Hrep2). apply ends_ret. exists T2. split; [|done].
      econstructor; [|done]. by eapply ret_spec_oom. }
  intros. by apply Hgen.
Qed.
End Refinement.

(** ** Delivery to a new subscription *)

(** Whether the broker's matcher accepts; it always answers. *)
Definition matches (filter topic : list Z) : bool :=
  match BrokerTopicMatch (Some filter) (Some topic) with Ok b => b | _ => false end.

Lemma matches_eq filter topic : BrokerTopicMatch (Some filter) (Some topic) = Ok (matches filter topic).
Proof. unfold matches. by destruct (BrokerTopicMatch_total filter topic) as [b ->]. Qed.

(** The messages a subscription to [filter] is to get at [now]. *)
Definition due (now : Z) (filter : list Z) (m : BrokerRetainedMsg) : bool :=
  negb (rm_expired now m) && matches filter (rm_topic m).

(** The entry for one of them. *)
Definition retained_entry (level sub_qos : Z) (m : BrokerRetainedMsg) (id : Z) : BrokerOutPub :=
  outpub_entry (rm_topic m) (if 0 <? rm_payload_len m then rm_payload m else None) (rm_payload_len m) []
    (Z.min (rm_qos m) sub_qos) id 1 level.

Section Delivery.
Context {Net : Type} `{!Sender Net}.
Implicit Types (br : Broker Net) (bc : BrokerClient Net).

(** [bc'] is [bc] with the messages of [ms], in their order, at the end of its
    queue; or only those before one for which there was no room or no memory. *)
Definition delivered (oom : Prop) (sub_qos : Z) (ms : list BrokerRetainedMsg) bc (rc : Z) bc' : Prop :=
  exists sent rest new, ms = sent ++ rest /\
    Forall2 (fun m e => exists id, e = retained_entry (bc_protocol_level (bc_info bc)) sub_qos m id) sent new /\
    out_q (bc_outq bc') = out_q (bc_outq bc) ++ new /\
    ((rc = MQTT_CODE_SUCCESS /\ rest = [] /\ bc_info bc' = bc_info bc) \/
     (rc < 0 /\ rest <> [] /\ ((oom /\ bc_info bc' = bc_info bc) \/ (BROKER_MAX_QUEUED_MSGS_PER_SUB <= out_q_count (bc_outq bc') /\
        bc_info bc' = set_sock (bc_info bc) BROKER_SOCKET_INVALID 0)))).

(** The state with a new [bc], allocator and [next_packet_id]. *)
Definition served br bc (mem : heap) (next : Z) : Broker Net :=
  set_packet_id (set_mem (set_clients br (client_put (br_clients br) bc)) mem) next.

Lemma client_put_same cs bc : client_at cs (bc_addr bc) = Some bc -> client_put cs bc = cs.
Proof.
  induction cs as [|c cs IH]; [done|]. cbn. destruct (Z.eqb_spec (bc_addr c) (bc_addr bc)); [by intros [= ->]|].
  intros H. by rewrite IH.
Qed.

Lemma client_put_put (cs : list (BrokerClient Net)) bc bc' :
  bc_addr bc = bc_addr bc' -> client_put (client_put cs bc) bc' = client_put cs bc'.
Proof.
  intros E. induction cs as [|c cs IH]; [done|]. cbn. rewrite <- E.
  destruct (Z.eqb_spec (bc_addr c) (bc_addr bc)) as [Ec|Ec]; cbn; rewrite <- E; [by rewrite Z.eqb_refl|].
  by rewrite (proj2 (Z.eqb_neq _ _)), IH by done.
Qed.

Lemma served_same br bc : client_at (br_clients br) (bc_addr bc) = Some bc ->
  served br bc (br_mem br) (br_next_packet_id br) = br.
Proof. intros H. unfold served. rewrite client_put_same by done. by destruct br. Qed.

Lemma served_served br bc bc' mem mem' next next' :
  bc_addr bc = bc_addr bc' -> served (served br bc mem next) bc' mem' next' = served br bc' mem' next'.
Proof. intros H. unfold served. cbn. by rewrite client_put_put. Qed.

Lemma served_at br bc0 bc mem next :
  client_at (br_clients br) (bc_addr bc) = Some bc0 ->
  client_at (br_clients (served br bc mem next)) (bc_addr bc) = Some bc.
Proof.
  intros H. cbn. rewrite client_at_put, Z.eqb_refl. rewrite bool_decide_eq_true_2; [done|].
  apply client_at_some. by exists bc0.
Qed.

Lemma client_ok_info bc i : client_ok bc -> client_ok (with_info bc i).
Proof. by intros []. Qed.

Lemma quota_close_ok now addr bc br :
  client_at (br_clients br) addr = Some bc -> client_ok bc ->
  ends (quota_close now addr) (fun _ br' => exists bc', client_ok bc' /\ bc_addr bc' = bc_addr bc /\
    bc_outq bc' = bc_outq bc /\ bc_will bc' = bc_will bc /\ bc_qos2 bc' = bc_qos2 bc /\ connack_of bc' = connack_of bc /\
    bc_info bc' = set_sock (bc_info bc) BROKER_SOCKET_INVALID 0 /\
    br' = served br bc' (br_mem br) (br_next_packet_id br)) br.
Proof.
  intros Hat Hok. unfold quota_close.
  destruct (BrokerSend_Disconnect_writes now bc MQTT_REASON_QUOTA_EXCEEDED (co_link _ Hok)) as (rc & bc1 & E & Hs & Eq & Hl & _);
    [by split|].
  assert (Hok1 : client_ok bc1).
  { destruct Hs as (_ & _ & _ & Hs & _). destruct Hok. constructor; rewrite ?Eq, ?Hs; done. }
  destruct Hs as (H1 & H2 & H3 & H4 & H5).
  eapply ends_on_client; [done|by rewrite E|]. eexists. split; [by apply client_ok_info|]. split_and!; try done.
  cbn. by rewrite H2.
Qed.

Lemma enqueue_for_ok addr topic payload n props qos retain bc br :
  client_at (br_clients br) addr = Some bc -> client_ok bc -> message_ok topic payload n props ->
  0 <= br_next_packet_id br < 65536 -> 0 <= qos <= MQTT_QOS_2 -> is_byte retain ->
  ends (enqueue_for addr topic payload n props qos retain) (fun rc br' => exists bc' mem next,
    br' = served br bc' mem next /\ client_ok bc' /\ same_client bc bc' /\ 0 <= next < 65536 /\
    (br_mem br = [] -> mem = []) /\ bc_link bc' = bc_link bc /\
    ((rc < 0 /\ bc' = bc /\ (br_mem br <> [] \/ 65535 <= len (out_q (bc_outq bc)))) \/
     (rc = MQTT_CODE_SUCCESS /\ exists id, out_q (bc_outq bc') = out_q (bc_outq bc) ++
        [outpub_entry topic payload n props qos id retain (bc_protocol_level (bc_info bc))]))) br.
Proof.
  intros Hat Hok Hmsg Hnext Hqos Hret. unfold enqueue_for.
  apply ends_bind, ends_get, ends_bind, (ends_deref addr bc); [done|].
  destruct (forward_total (br_mem br) (br_next_packet_id br) bc topic payload n props qos retain)
    as (rc & mem & next & bc' & E & Hok' & Hs & Hlk & Hnx & Hmem & Hcase); try done.
  apply ends_bind. eapply ends_of_result; [exact E|]. apply ends_bind, ends_modify, ends_bind, ends_modify, ends_ret.
  exists bc', mem, next. split; [done|]. split_and!; try done; try lia.
  destruct Hcase as [H|(-> & id & _ & H)]; [by left|right]. split; [done|]. by exists id.
Qed.

Lemma delivered_cons oom sub_qos m ms bc bc1 rc bc' id :
  out_q (bc_outq bc1) = out_q (bc_outq bc) ++ [retained_entry (bc_protocol_level (bc_info bc)) sub_qos m id] ->
  bc_info bc1 = bc_info bc -> delivered oom sub_qos ms bc1 rc bc' -> delivered oom sub_qos (m :: ms) bc rc bc'.
Proof.
  intros Eq Ei (sent & rest & new & -> & Hf & Eq' & Hcase). rewrite Ei in Hf, Hcase.
  exists (m :: sent), rest. eexists. split; [done|]. split; [constructor; [by exists id|exact Hf]|].
  split; [|exact Hcase]. rewrite Eq', Eq, <- app_assoc. done.
Qed.

Definition kept_now (now : Z) (m : BrokerRetainedMsg) : bool := negb (rm_expired now m).

(** What the loop leaves: on success the list without what has expired. *)
Definition swept (now : Z) (l : list BrokerRetainedMsg) (rc : Z) (l' : list BrokerRetainedMsg) : Prop :=
  l' `sublist_of` l /\ (forall m, m ∈ l -> rm_expired now m = false -> m ∈ l') /\
  (rc = MQTT_CODE_SUCCESS -> l' = base.filter (fun m => rm_expired now m = false) l).

Lemma swept_keep now m l rc l' : rm_expired now m = false -> swept now l rc l' -> swept now (m :: l) rc (m :: l').
Proof.
  intros E (H1 & H2 & H3). split; [by apply sublist_skip|]. split.
  - intros x [->|Hx]%elem_of_cons Hex; [by left|right; auto].
  - intros Hrc. rewrite filter_cons_True by done. by rewrite H3.
Qed.

Lemma swept_drop now m l rc l' : rm_expired now m = true -> swept now l rc l' -> swept now (m :: l) rc l'.
Proof.
  intros E (H1 & H2 & H3). split; [by apply sublist_cons|]. split.
  - intros x [->|Hx]%elem_of_cons Hex; [congruence|auto].
  - intros Hrc. rewrite filter_cons_False by congruence. by apply H3.
Qed.

Lemma swept_all now l rc : rc < 0 -> swept now l rc l.
Proof. intros H. split; [done|]. split; [done|lia]. Qed.

(** What deliveries leave alone besides. *)
Definition untouched bc : Qos2 * (Z * Z) := (bc_qos2 bc, connack_of bc).

Lemma deliver_loop_ok now addr filter sub_qos l k bc br :
  client_at (br_clients br) addr = Some bc -> client_ok bc -> 0 <= br_next_packet_id br < 65536 ->
  Forall retained_msg_ok l -> 0 <= sub_qos <= MQTT_QOS_2 -> 0 <= k ->
  ends (deliver_loop now addr 1 filter sub_qos l (k + len l)) (fun r br' => exists rc l' bc' mem next,
    r = (rc, l', k + len l') /\ br' = served br bc' mem next /\ client_ok bc' /\ bc_addr bc' = bc_addr bc /\
    bc_will bc' = bc_will bc /\ untouched bc' = untouched bc /\
    0 <= next < 65536 /\ (br_mem br = [] -> mem = []) /\ swept now l rc l' /\
    delivered (br_mem br <> []) sub_qos (base.filter (fun m => due now filter m = true) l) bc rc bc') br.
Proof.
  revert k bc br. induction l as [|m l IH]; intros k bc br Hat Hok Hnext Hl Hsq Hk; cbn [deliver_loop].
  { pose proof (client_at_addr _ _ _ Hat) as Ea. apply ends_ret.
    exists MQTT_CODE_SUCCESS, [], bc, (br_mem br), (br_next_packet_id br).
    split; [done|]. split; [symmetry; apply served_same; by rewrite Ea|]. split_and!; try done; try lia.
    exists [], [], []. split; [done|]. split; [constructor|]. split; [by rewrite app_nil_r|by left]. }
  pose proof (client_at_addr _ _ _ Hat) as Ea. apply list.Forall_cons in Hl as [[Hmsg Hqos Hpd] Hl]. rewrite Hpd. cbn [Z.eqb negb orb].
  pose proof (len_nonneg l). rewrite len_cons.
  assert (Hdue : due now filter m = negb (rm_expired now m) && matches filter (rm_topic m)) by done.
  destruct (rm_expired now m) eqn:Eexp; cbn [negb andb] in Hdue.
  { rewrite filter_cons_False by congruence. cbn [Z.ltb Z.compare Pos.compare Pos.compare_cont].
    rewrite (proj2 (Z.ltb_lt 0 _)) by lia. replace (k + (1 + len l) - 1) with (k + len l) by lia.
    eapply ends_mono; [by apply (IH k bc br)|].
    intros r br' (rc & l' & bc' & mem & next & H1 & H2 & H3 & H4 & H5 & H6 & H7 & H8 & H9 & H10).
    exists rc, l', bc', mem, next. split_and!; try done; try lia. by apply swept_drop. }
  apply ends_bind. eapply ends_of_result; [apply matches_eq|].
  replace (k + (1 + len l)) with (k + 1 + len l) by lia.
  assert (Hskip : forall bc1 br1, client_at (br_clients br1) addr = Some bc1 -> client_ok bc1 ->
    0 <= br_next_packet_id br1 < 65536 -> (br_mem br = [] -> br_mem br1 = []) ->
    ends (r ← deliver_loop now addr 1 filter sub_qos l (k + 1 + len l);
          (let '(rc, next, count) := r in mret (rc, m :: next, count)))
      (fun r br' => exists rc l' bc' mem next,
         r = (rc, l', k + len l') /\ br' = served br1 bc' mem next /\ client_ok bc' /\ bc_addr bc' = bc_addr bc1 /\
         bc_will bc' = bc_will bc1 /\ untouched bc' = untouched bc1 /\
         0 <= next < 65536 /\ (br_mem br = [] -> mem = []) /\ swept now (m :: l) rc l' /\
         delivered (br_mem br <> []) sub_qos (base.filter (fun m => due now filter m = true) l) bc1 rc bc') br1).
  { intros bc1 br1 Hat1 Hok1 Hnext1 Hm1. apply ends_bind.
    eapply ends_mono; [apply (IH (k + 1) bc1 br1 Hat1 Hok1 Hnext1 Hl Hsq ltac:(lia))|].
    intros r br' (rc & l' & bc' & mem & next & -> & H2 & H3 & H4 & H5 & H6 & H7 & H8 & H9 & H10).
    apply ends_ret. exists rc, (m :: l'), bc', mem, next. split; [rewrite len_cons; f_equal; lia|].
    split_and!; try done; try lia; [by intros E; apply H8, Hm1|by apply swept_keep|].
    destruct H10 as (sent & rest & new & D1 & D2 & D3 & D4). exists sent, rest, new. split_and!; try done.
    destruct D4 as [?|(D5 & D6 & [[D7 D8]|D7])]; [by left|right..]; (split; [done|split; [done|]]); [left|by right].
    split; [|done]. intros E. apply D7. by apply Hm1. }
  destruct (matches filter (rm_topic m)).
  2: { rewrite filter_cons_False by congruence. by apply (Hskip bc br). }
  rewrite filter_cons_True by done.
  apply ends_bind, (ends_deref addr bc); [done|].
  assert (Hstop : forall rc bc' mem next, rc < 0 -> client_ok bc' -> bc_addr bc' = bc_addr bc ->
    bc_will bc' = bc_will bc -> untouched bc' = untouched bc -> bc_outq bc' = bc_outq bc -> 0 <= next < 65536 ->
    (br_mem br = [] -> mem = []) ->
    (br_mem br <> [] /\ bc_info bc' = bc_info bc) \/ (BROKER_MAX_QUEUED_MSGS_PER_SUB <= out_q_count (bc_outq bc) /\
      bc_info bc' = set_sock (bc_info bc) BROKER_SOCKET_INVALID 0) ->
    ends (mret (rc, m :: l, k + 1 + len l)) (fun r br' => exists rc l' bc' mem next,
      r = (rc, l', k + len l') /\ br' = served br bc' mem next /\ client_ok bc' /\ bc_addr bc' = bc_addr bc /\
      bc_will bc' = bc_will bc /\ untouched bc' = untouched bc /\
      0 <= next < 65536 /\ (br_mem br = [] -> mem = []) /\ swept now (m :: l) rc l' /\
      delivered (br_mem br <> []) sub_qos (m :: base.filter (fun m => due now filter m = true) l) bc rc bc')
      (served br bc' mem next)).
  { intros rc bc' mem next Hrc Hok' E1 E2 E3 E4 Hn Hm Hwhy. apply ends_ret. exists rc, (m :: l), bc', mem, next.
    split; [rewrite len_cons; f_equal; lia|]. split_and!; try done; try lia; [by apply swept_all|].
    eexists [], _, []. split; [done|]. split; [constructor|]. rewrite E4. split; [by rewrite app_nil_r|].
    right. split; [done|]. split; [done|]. exact Hwhy. }
  destruct (Z.leb_spec BROKER_MAX_QUEUED_MSGS_PER_SUB (out_q_count (bc_outq bc))) as [Hfull|Hroom].
  - apply ends_bind. eapply ends_mono; [by apply quota_close_ok|].
    intros _ br' (bc' & H1 & H2 & H3 & H4 & H5 & H6 & H7 & ->). apply Hstop; try done; [unfold untouched; congruence|right; auto].
  - apply ends_bind.
    assert (Hmsg' : message_ok (rm_topic m) (if 0 <? rm_payload_len m then rm_payload m else None) (rm_payload_len m) []).
    { destruct Hmsg. constructor; try done. by destruct (0 <? rm_payload_len m). }
    replace (if rm_qos m <? sub_qos then rm_qos m else sub_qos) with (Z.min (rm_qos m) sub_qos)
      by (destruct (Z.ltb_spec (rm_qos m) sub_qos); lia).
    eapply ends_mono; [apply (enqueue_for_ok addr (rm_topic m) _ (rm_payload_len m) [] (Z.min (rm_qos m) sub_qos) 1 bc br);
                       try done; lia|].
    intros rc br' (bc' & mem & next & -> & Hok' & (E1 & E2 & E3 & E4 & E5) & Hnx & Hmem & _ & Hcase).
    assert (E6 : untouched bc' = untouched bc) by (unfold untouched; congruence).
    destruct Hcase as [(Hrc & -> & Hwhy)|(-> & id & Eq)].
    + rewrite (proj2 (Z.ltb_lt rc 0)) by done. apply Hstop; try done. left. split; [|done].
      destruct Hwhy as [?|Hlong]; [done|]. rewrite (oq_count _ (co_queue _ Hok)) in Hroom. lia.
    + cbn [Z.ltb Z.compare].
      assert (Hat' : client_at (br_clients (served br bc' mem next)) addr = Some bc').
      { rewrite <- Ea, <- E1. apply (served_at br bc). by rewrite E1, Ea. }
      eapply ends_mono; [by apply (Hskip bc' _ Hat' Hok' Hnx)|].
      intros r br2 (rc & l' & bc2 & mem2 & next2 & H1 & -> & H3 & H4 & H5 & H6 & H7 & H8 & H9 & H10).
      exists rc, l', bc2, mem2, next2. split; [done|]. split; [by apply served_served|].
      split_and!; try done; try lia; try congruence. eapply delivered_cons; [exact Eq|done|done].
Qed.

Lemma drop_pending_none l : Forall retained_msg_ok l -> retained_drop pending_delete l (len l) = (l, len l).
Proof.
  intros H. rewrite retained_drop_spec by done.
  assert (E : base.filter (fun m => pending_delete m = false) l = l).
  { induction H as [|m l [_ _ Hp] _ IH]; [done|]. rewrite filter_cons_True; [by rewrite IH|].
    unfold pending_delete. by rewrite Hp. }
  by rewrite E.
Qed.

Lemma BrokerRetained_DeliverToClient_ok now addr filter sub_qos bc br T :
  client_at (br_clients br) addr = Some bc -> client_ok bc -> 0 <= br_next_packet_id br < 65536 ->
  ret_rep br T -> 0 <= sub_qos <= MQTT_QOS_2 ->
  ends (BrokerRetained_DeliverToClient now addr filter sub_qos) (fun rc br' => exists bc' mem next rt T',
    br' = set_retained (served br bc' mem next) rt /\ client_ok bc' /\ bc_addr bc' = bc_addr bc /\
    bc_will bc' = bc_will bc /\ untouched bc' = untouched bc /\ 0 <= next < 65536 /\ (br_mem br = [] -> mem = []) /\
    ret_rep br' T' /\ T' ⊆ T /\ live_table now T ⊆ T' /\ (rc = MQTT_CODE_SUCCESS -> T' = live_table now T) /\
    delivered (br_mem br <> []) sub_qos
      (base.filter (fun m => due now filter m = true) (rt_list (br_retained br))) bc rc bc') br.
Proof.
  intros Hat Hok Hnext [Hrt <-] Hsq. pose proof Hrt as [Hc Hl Hn Hm Hd].
  unfold BrokerRetained_DeliverToClient. apply ends_bind, ends_get. cbv zeta. rewrite Hd.
  apply ends_bind, ends_modify, ends_bind. change (0 + 1) with 1. rewrite Hc.
  set (br1 := set_retained br _).
  eapply ends_mono; [apply (deliver_loop_ok now addr filter sub_qos (rt_list (br_retained br)) 0 bc br1); done|].
  intros r br2 (rc & l' & bc' & mem & next & -> & -> & H1 & H2 & H3 & H4 & H5 & H6 & (S1 & S2 & S3) & H7).
  pose proof (retained_ok_sublist l' _ Hrt S1) as Hok'. rewrite Hd in Hok'.
  change (0 <? 1) with true. cbv iota. change (1 - 1) with 0. rewrite Z.add_0_l. cbn [Z.eqb].
  rewrite drop_pending_none by apply Hok'. apply ends_bind, ends_modify, ends_ret.
  exists bc', mem, next. eexists. exists (ret_table l'). split; [done|]. split_and!; try done; try lia.
  - apply map_subseteq_spec. intros t m. rewrite !ret_table_lookup by (done || apply Hok'). intros [Hin E]. split; [|done].
    eapply elem_of_submseteq; [exact Hin|]. by apply sublist_submseteq.
  - apply map_subseteq_spec. intros t m. unfold live_table. rewrite map_lookup_filter_Some.
    rewrite !ret_table_lookup by (done || apply Hok'). intros [[Hin E] Hex]. split; [|done]. by apply S2.
  - intros Hrc. apply ret_table_eq; [apply Hok'|]. intros t m. unfold live_table. rewrite map_lookup_filter_Some.
    rewrite ret_table_lookup by done. rewrite (S3 Hrc), list_elem_of_filter. cbn. tauto.
Qed.
End Delivery.

(** ** Properties *)

(** C5: the list of retained messages implements a finite map from topics to
    messages. For any sequence of stores, deletions and sweeps, in whatever
    order: every operation ends; a store drops what has expired, then keeps a
    copy of the message under its topic, replacing the one that was there; it is
    refused, and changes nothing else, exactly when the topic is new and
    BROKER_MAX_RETAINED messages are left or an allocation fails; a deletion
    removes that topic's message and nothing else. The list has each topic once
    and retained_count is its length, at most BROKER_MAX_RETAINED. *)
Theorem BrokerRetained_refines {Net} evs (br : Broker Net) T :
  ret_rep br T -> Forall ret_ev_ok evs ->
  exists rcs br' T', ret_run evs br = Ok (rcs, br') /\ ret_specs (br_mem br <> []) T evs rcs T' /\ ret_rep br' T'.
Proof.
  intros Hrep Hevs. destruct (ret_run_ok evs br T Hrep Hevs) as (rcs & br' & E & T' & H1 & H2).
  by exists rcs, br', T'.
Qed.

Definition ex_retained (mem : heap) (cs : list (BrokerClient ScriptNet)) (rt : Retained) : Broker ScriptNet :=
  mkBroker mem 30 cs 0 [] 0 rt [] [] 0 1 1.

Definition ex_rt : Retained :=
  mkRt [mkRetained [97; 47; 98] (Some [104; 105]) 2 5 10 2 0; mkRetained [99] None 0 5 0 1 0;
        mkRetained [97; 47; 99] (Some [106]) 1 9 0 1 0] 3 0.

Lemma ex_rt_ok : retained_ok ex_rt.
Proof.
  constructor; [done|by_eval|by_eval| |done].
  repeat apply List.Forall_cons; [..|apply List.Forall_nil]; (constructor; [|cbn; lia|done]);
    constructor; cbn -[Z.lt Z.le]; try by_eval; try constructor; try lia; done.
Qed.

Lemma ex_rt_rep mem cs : ret_rep (ex_retained mem cs ex_rt) (ret_table (rt_list ex_rt)).
Proof. by constructor; [apply ex_rt_ok|]. Qed.

Lemma BrokerRetained_refines_witness :
  exists rcs br' T', ret_run [Ret_Store 14 [99] (Some [120; 121]) 2 1 0; Ret_Delete [97; 47; 99]; Ret_Reap 20]
      (ex_retained [] [] ex_rt) = Ok (rcs, br') /\ rcs = [0; 0; 0] /\
    rt_list (br_retained br') = [mkRetained [99] (Some [120; 121]) 2 14 0 1 0] /\ ret_rep br' T'.
Proof.
  destruct (BrokerRetained_refines [Ret_Store 14 [99] (Some [120; 121]) 2 1 0; Ret_Delete [97; 47; 99]; Ret_Reap 20]
              (ex_retained [] [] ex_rt) _ (ex_rt_rep [] []))
    as (rcs & br' & T' & E & _ & H).
  { repeat apply List.Forall_cons; [|done|done|apply List.Forall_nil].
    split; [|lia]. constructor; try by_eval; try constructor; try lia; unfold payload_fits; by_eval. }
  exists rcs, br', T'. split; [exact E|]. vm_compute in E. injection E as <- <-. split; [done|]. split; [done|exact H].
Defined.

(** C6: delivery of retained messages. For a valid client of any state,
    BrokerRetained_DeliverToClient ends and keeps the client and the list
    valid. It appends to the client's queue exactly the messages that have not
    expired and whose topic the filter matches, in the order of the list, each
    with the retain flag, its own payload and the smaller of its QoS and the
    granted one; or a first part of them when the queue is full, and then it
    disconnects the client, or when an allocation fails. It drops expired
    messages only, and on success all of them. *)
Theorem BrokerRetained_DeliverToClient_exact {Net} `{!Sender Net} now addr filter sub_qos bc (br : Broker Net) T :
  client_at (br_clients br) addr = Some bc -> client_ok bc -> 0 <= br_next_packet_id br < 65536 ->
  ret_rep br T -> 0 <= sub_qos <= MQTT_QOS_2 ->
  exists rc bc' mem next rt T',
    BrokerRetained_DeliverToClient now addr filter sub_qos br = Ok (rc, set_retained (served br bc' mem next) rt) /\
    client_ok bc' /\ bc_will bc' = bc_will bc /\ bc_qos2 bc' = bc_qos2 bc /\
    ret_rep (set_retained br rt) T' /\ T' ⊆ T /\ live_table now T ⊆ T' /\
    (rc = MQTT_CODE_SUCCESS -> T' = live_table now T) /\
    delivered (br_mem br <> []) sub_qos
      (base.filter (fun m => due now filter m = true) (rt_list (br_retained br))) bc rc bc'.
Proof.
  intros Hat Hok Hnext Hrep Hsq.
  destruct (BrokerRetained_DeliverToClient_ok now addr filter sub_qos bc br T Hat Hok Hnext Hrep Hsq)
    as (rc & br' & E & bc' & mem & next & rt & T' & -> & H1 & _ & H3 & H4 & _ & _ & [H7 H8] & H9 & H10 & H11 & H12).
  injection H4 as H4 _. exists rc, bc', mem, next, rt, T'. by split_and!.
Qed.

Lemma BrokerRetained_DeliverToClient_exact_witness :
  let bc := ex_client 0 4 BrokerClient_FreeOutQueue (ex_link [] 4096) in
  exists rc br', BrokerRetained_DeliverToClient 16 1 [97; 47; 43] 1 (ex_retained [] [bc] ex_rt) = Ok (rc, br') /\
    rc = MQTT_CODE_SUCCESS /\ map rm_topic (rt_list (br_retained br')) = [[99]; [97; 47; 99]] /\
    map (fun bc => map op_topic (out_q (bc_outq bc))) (br_clients br') = [[[97; 47; 99]]].
Proof.
  intros bc.
  assert (Hok : client_ok bc) by apply ex_client_ok.
  assert (Hrun : match BrokerRetained_DeliverToClient 16 1 [97; 47; 43] 1 (ex_retained [] [bc] ex_rt) with
    | Ok (rc, br') => rc = MQTT_CODE_SUCCESS /\ map rm_topic (rt_list (br_retained br')) = [[99]; [97; 47; 99]] /\
        map (fun bc => map op_topic (out_q (bc_outq bc))) (br_clients br') = [[[97; 47; 99]]]
    | _ => False
    end) by (vm_compute; done).
  destruct (BrokerRetained_DeliverToClient_exact 16 1 [97; 47; 43] 1 bc (ex_retained [] [bc] ex_rt) _ eq_refl Hok
              ltac:(cbn; lia) (ex_rt_rep [] [bc]) ltac:(lia)) as (rc & bc' & mem & next & rt & T' & E & _).
  rewrite E in Hrun. eexists _, _. split; [exact E|exact Hrun].
Defined.
