(* ===== verification/BrokerOrphan.v ===== *)
(** * BrokerOrphan: sessions without a connection ([mqtt_broker.c])

    [BrokerOrphanSession] keeps the outbound queue and the inbound QoS 2
    identifiers of a disconnected client until it comes back, expires or is
    evicted; its subscriptions stay in the table without a client. *)
From S2P Require Import Prelude PacketDefs Wire FixedHeader PacketIO BrokerDefs BrokerQos2 OutQueue OutAlloc BrokerState BrokerSubs.

(** ** The list of orphan sessions *)

(** A node of the list, with the nodes before and after it. *)
Definition Node : Set := list BrokerOrphanSession * BrokerOrphanSession * list BrokerOrphanSession.

Fixpoint find_node (p : BrokerOrphanSession -> bool) (os : list BrokerOrphanSession) : option Node :=
  match os with
  | [] => None
  | cur :: next =>
    if p cur then Some ([], cur, next)
    else match find_node p next with
         | Some (before, o, after) => Some (cur :: before, o, after)
         | None => None
         end
  end.

Definition BrokerOrphan_Find (os : list BrokerOrphanSession) (client_id : list Z) : option Node :=
  find_node (fun cur => bool_decide (o_client_id cur = client_id)) os.

Definition set_o_queue (o : BrokerOrphanSession) (q : OutQ) : BrokerOrphanSession :=
  mkOrphan (o_client_id o) (o_protocol_level o) (o_session_expiry_sec o) (o_orphan_since o) q (o_qos2 o).

Section Sessions.
Context {Net : Type}.
Implicit Types (br : Broker Net) (bc new_bc : BrokerClient Net).

Definition BrokerOrphan_Remove (n : Node) br : Broker Net :=
  let '(before, _, after) := n in
  set_orphans br (before ++ after)
    (if 0 <? br_orphan_count br then br_orphan_count br - 1 else br_orphan_count br).

(** A subscription left behind by the session [client_id]. *)
Definition orphan_sub (client_id : list Z) (s : BrokerSub) : bool :=
  bool_decide (sub_client s = None) && bool_decide (sub_client_id s = Some client_id).

Definition BrokerOrphan_DropFull (n : Node) br : Broker Net :=
  let '(_, o, _) := n in
  let '(subs, gen) := subs_drop (orphan_sub (o_client_id o)) (br_subs br) (br_subs_gen br) in
  BrokerOrphan_Remove n (set_subs br subs gen).

(** The first node with the smallest [orphan_since]. *)
Fixpoint oldest_loop (before os : list BrokerOrphanSession) (oldest : option Node) : option Node :=
  match os with
  | [] => oldest
  | cur :: next =>
    let here := (before, cur, next) in
    oldest_loop (before ++ [cur]) next
      (match oldest with
       | None => Some here
       | Some (b, o, a) => if o_orphan_since cur <? o_orphan_since o then Some here else oldest
       end)
  end.

Definition BrokerOrphan_EvictOldest br : bool * Broker Net :=
  match oldest_loop [] (br_orphans br) None with
  | None => (false, br)
  | Some n => (true, BrokerOrphan_DropFull n br)
  end.

(** [while (orphan_session_count >= BROKER_MAX_PERSIST_SESSIONS)]. *)
Fixpoint evict_loop (fuel : nat) br : result (Broker Net) :=
  match fuel with
  | O => UB
  | S fuel =>
    if BROKER_MAX_PERSIST_SESSIONS <=? br_orphan_count br then
      let '(ok, br) := BrokerOrphan_EvictOldest br in
      if ok then evict_loop fuel br else Ok br
    else Ok br
  end.

(** The queue without a QoS 0 PUBLISH that is partly on the wire: the first
    entry that is not sent. *)
Fixpoint drop_partial (q : list BrokerOutPub) : option (list BrokerOutPub) :=
  match q with
  | [] => None
  | e :: q =>
    if decide (op_state e = BROKER_OUTQ_QUEUED) then
      if op_qos e =? MQTT_QOS_0 then Some q else None
    else match drop_partial q with Some q => Some (e :: q) | None => None end
  end.

Definition set_write_pos (l : Link Net) (pos : Z) : Link Net :=
  set_io l (lk_net l) (set_write (lk_write l) pos (wr_total (lk_write l))).

(** The session of [bc] as it goes to the orphan, and [bc] without it. *)
Definition take_session bc : OutQ * Qos2 * BrokerClient Net :=
  let q := bc_outq bc in
  let dropped := if 0 <? wr_pos (lk_write (bc_link bc)) then drop_partial (out_q q) else None in
  let '(q, link) := match dropped with
                    | Some entries =>
                        (mkOutQ entries (out_q_count q - 1) (out_q_inflight q) (out_q_pending_len q),
                         set_write_pos (bc_link bc) 0)
                    | None => (q, bc_link bc)
                    end in
  (mkOutQ (out_q q) (out_q_count q) (out_q_inflight q) 0, bc_qos2 bc,
   with_qos2 (with_outq (with_link bc link) (mkOutQ [] 0 0 (out_q_pending_len q))) BrokerInboundQos2_Clear).

(** Whether there is an orphan now. *)
Definition BrokerOrphan_Take (now addr : Z) : B Net bool :=
  bc ← deref addr;
  match bc_client_id (bc_info bc) with
  | Some ((_ :: _) as client_id) =>
    br ← get;
    _ ← modify (fun br => match BrokerOrphan_Find (br_orphans br) client_id with
                          | Some n => BrokerOrphan_Remove n br
                          | None => br
                          end);
    br ← get;
    br ← of_result (evict_loop (S (length (br_orphans br))) br);
    _ ← modify (fun _ => br);
    ok ← alloc;
    if negb ok then mret false
    else
      ok ← alloc;
      if negb ok then mret false
      else
        let '(q, qos2, empty_bc) := take_session bc in
        let o := mkOrphan client_id (bc_protocol_level (bc_info bc)) (bc_session_expiry_sec (bc_info bc))
                   now q qos2 in
        _ ← store empty_bc;
        _ ← modify (fun br => set_orphans br (o :: br_orphans br) (br_orphan_count br + 1));
        mret true
  | _ => mret false
  end.

(** The entries of a reclaimed queue, and how many of them are in flight. *)
Definition reclaim_entry (e : BrokerOutPub) : BrokerOutPub :=
  match op_state e with
  | BROKER_OUTQ_PUBLISH_SENT => set_op_dup (set_op_state e BROKER_OUTQ_QUEUED) 1
  | BROKER_OUTQ_PUBREL_SENT => set_op_dup e 1
  | BROKER_OUTQ_QUEUED => e
  end.

Fixpoint reclaim_inflight (q : list BrokerOutPub) : Z :=
  match q with
  | [] => 0
  | e :: q => (if decide (op_state e = BROKER_OUTQ_PUBREL_SENT) then 1 else 0) + reclaim_inflight q
  end.

(** [new_bc] with the session of [o]. *)
Definition reclaim_session new_bc (o : BrokerOrphanSession) : BrokerClient Net :=
  let q := o_outq o in
  let info := if bc_session_expiry_sec (bc_info new_bc) =? NEVER_EXPIRES
              then set_expiry (bc_info new_bc) (o_session_expiry_sec o) else bc_info new_bc in
  with_qos2
    (with_outq (with_info new_bc info)
       (mkOutQ (map reclaim_entry (out_q q)) (out_q_count q) (reclaim_inflight (out_q q))
          (out_q_pending_len (bc_outq new_bc))))
    (o_qos2 o).

Definition BrokerOrphan_Reclaim (addr : Z) : B Net bool :=
  new_bc ← deref addr;
  match bc_client_id (bc_info new_bc) with
  | Some ((_ :: _) as client_id) =>
    br ← get;
    match BrokerOrphan_Find (br_orphans br) client_id with
    | None => mret false
    | Some ((_, o, _) as n) =>
      _ ← store (reclaim_session new_bc o);
      _ ← modify (BrokerOrphan_Remove n);
      mret true
    end
  | _ => mret false
  end.

(** The eviction loop of [BrokerOrphan_Enqueue]: head first, while the queue is
    full. *)
Fixpoint evict_heads (q : list BrokerOutPub) (count inflight : Z) : list BrokerOutPub * Z * Z :=
  match q with
  | [] => ([], count, inflight)
  | head :: next =>
    if BROKER_MAX_OFFLINE_MSGS_PER_SUB <=? count then
      evict_heads next (if 0 <? count then count - 1 else count)
        (if negb (bool_decide (op_state head = BROKER_OUTQ_QUEUED)) && (0 <? inflight)
         then inflight - 1 else inflight)
    else (q, count, inflight)
  end.

(** [BrokerOrphan_Enqueue] on the queue of one orphan; [None] if the message is
    dropped. *)
Definition orphan_enqueue (mem : heap) (next_packet_id now : Z) (level : Z) (q : OutQ) (topic : list Z)
    (payload : option (list Z)) (payload_len qos retain : Z) (props : list MqttProp)
    : result (OutQ * heap * Z) :=
  let '(entries, count, inflight) := evict_heads (out_q q) (out_q_count q) (out_q_inflight q) in
  let q := mkOutQ entries count inflight (out_q_pending_len q) in
  '(e, mem) ← BrokerOutPub_Alloc mem topic payload payload_len props;
  match e with
  | None => Ok (q, mem, next_packet_id)
  | Some e =>
    '(packet_id, next_packet_id) ← BrokerNextPacketIdForQueue next_packet_id entries;
    if packet_id =? 0 then Ok (q, mem, next_packet_id)
    else
      match list.last entries with
      | Some tail =>
        if op_enqueue_seq tail =? 18446744073709551615 then Ok (q, mem, next_packet_id)
        else
          let e := mkOutPub (op_topic e) (op_payload e) (op_payload_len e) qos packet_id retain
                     BROKER_OUTQ_QUEUED (op_retransmit_dup e) now (op_enqueue_seq tail + 1) level (op_props e) in
          Ok (BrokerClient_EnqueueOutPub q e, mem, next_packet_id)
      | None =>
        let e := mkOutPub (op_topic e) (op_payload e) (op_payload_len e) qos packet_id retain
                   BROKER_OUTQ_QUEUED (op_retransmit_dup e) now 1 level (op_props e) in
        Ok (BrokerClient_EnqueueOutPub q e, mem, next_packet_id)
      end
  end.

Definition BrokerOrphan_Enqueue (now : Z) (n : Node) (topic : list Z) (payload : option (list Z))
    (payload_len qos retain : Z) (props : list MqttProp) : B Net unit :=
  if qos =? MQTT_QOS_0 then mret tt
  else
    let '(before, o, after) := n in
    br ← get;
    '(q, mem, next_packet_id) ←
       of_result (orphan_enqueue (br_mem br) (br_next_packet_id br) now (o_protocol_level o) (o_outq o)
                    topic payload payload_len qos retain props);
    modify (fun br => set_packet_id (set_mem (set_orphans br (before ++ set_o_queue o q :: after)
                                                (br_orphan_count br)) mem) next_packet_id).

Definition BrokerOrphan_FreeAll br : Broker Net := set_orphans br [] 0.

(** The Session Expiry Interval has elapsed. *)
Definition orphan_expired (now : Z) (cur : BrokerOrphanSession) : bool :=
  negb (o_session_expiry_sec cur =? NEVER_EXPIRES) && (o_orphan_since cur <=? now) &&
  (o_session_expiry_sec cur <=? now - o_orphan_since cur).

(** [do { ... } while (dropped)]. *)
Fixpoint expire_loop (fuel : nat) (now : Z) br : result (Broker Net) :=
  match fuel with
  | O => UB
  | S fuel =>
    match find_node (orphan_expired now) (br_orphans br) with
    | Some n => expire_loop fuel now (BrokerOrphan_DropFull n br)
    | None => Ok br
    end
  end.

Definition BrokerOrphan_ExpireSweep (now : Z) : B Net unit :=
  br ← get;
  br ← of_result (expire_loop (S (length (br_orphans br))) now br);
  modify (fun _ => br).
End Sessions.

(** ** The list *)

Lemma find_node_spec p os :
  match find_node p os with
  | Some (before, o, after) =>
      os = before ++ o :: after /\ p o = true /\ Forall (fun x => p x = false) before
  | None => Forall (fun x => p x = false) os
  end.
Proof.
  induction os as [|cur os IH]; [constructor|]. cbn [find_node]. destruct (p cur) eqn:E; [by split_and!|].
  destruct (find_node p os) as [[[b o] a]|]; [|by constructor].
  destruct IH as (-> & ? & ?). by split_and!; [| |constructor].
Qed.

Record orphan_ok (o : BrokerOrphanSession) : Prop := {
  oo_id : o_client_id o <> [];
  oo_queue : outq_ok (o_outq o);
  oo_qos2 : exists T, qos2_rep (o_qos2 o) T
}.

(** The list and [orphan_session_count]. *)
Record orphans_ok (os : list BrokerOrphanSession) (n : Z) : Prop := {
  or_count : n = len os;
  or_cap : n <= BROKER_MAX_PERSIST_SESSIONS;
  or_ids : NoDup (map o_client_id os);
  or_each : Forall orphan_ok os
}.

Lemma orphans_remove before o after n :
  orphans_ok (before ++ o :: after) n -> orphans_ok (before ++ after) (n - 1).
Proof.
  intros [Hn Hc Hi He]. rewrite len_app, len_cons in Hn. constructor.
  - rewrite len_app. lia.
  - lia.
  - eapply sublist_NoDup; [exact Hi|]. rewrite !map_app. apply sublist_app; [done|]. by apply sublist_cons.
  - apply Forall_app in He as [? [_ ?]%list.Forall_cons]. by apply Forall_app.
Qed.

Lemma orphans_positive before o after n : orphans_ok (before ++ o :: after) n -> (0 <? n) = true.
Proof.
  intros [Hn _ _ _]. rewrite len_app, len_cons in Hn. pose proof (len_nonneg before).
  pose proof (len_nonneg after). apply Z.ltb_lt. lia.
Qed.

Lemma orphans_push os o n :
  orphans_ok os n -> n < BROKER_MAX_PERSIST_SESSIONS -> orphan_ok o -> o_client_id o ∉ map o_client_id os ->
  orphans_ok (o :: os) (n + 1).
Proof.
  intros [Hn Hc Hi He] Hlt Ho Hid. constructor; [rewrite len_cons; lia|lia|by constructor|by constructor].
Qed.

Lemma orphans_queue before o after n q :
  orphans_ok (before ++ o :: after) n -> outq_ok q ->
  orphans_ok (before ++ set_o_queue o q :: after) n.
Proof.
  intros [Hn Hc Hi He] Hq. constructor; [|done| |].
  - rewrite len_app, len_cons in *. done.
  - rewrite map_app in *. done.
  - apply Forall_app in He as [? [[? ? ?] ?]%list.Forall_cons]. apply Forall_app. split; [done|].
    by constructor.
Qed.

(** The orphan of a client, if there is one. *)
Lemma BrokerOrphan_Find_spec os id :
  match BrokerOrphan_Find os id with
  | Some (before, o, after) =>
      os = before ++ o :: after /\ o_client_id o = id /\ (id ∉ map o_client_id before)
  | None => id ∉ map o_client_id os
  end.
Proof.
  assert (Hout : forall l, Forall (fun x => bool_decide (o_client_id x = id) = false) l -> id ∉ map o_client_id l).
  { intros l Hl (x & E & Hx)%list_elem_of_fmap. rewrite list.Forall_forall in Hl.
    specialize (Hl x Hx). by apply bool_decide_eq_false in Hl. }
  unfold BrokerOrphan_Find. pose proof (find_node_spec (fun cur => bool_decide (o_client_id cur = id)) os) as H.
  destruct (find_node _ os) as [[[b o] a]|]; [|auto].
  destruct H as (-> & Ho%bool_decide_eq_true & Hb). auto.
Qed.

(** [o] is the first of the oldest in [os]. *)
Definition oldest_of (os before : list BrokerOrphanSession) (o : BrokerOrphanSession)
    (after : list BrokerOrphanSession) : Prop :=
  os = before ++ o :: after /\
  Forall (fun x => o_orphan_since o < o_orphan_since x) before /\
  Forall (fun x => o_orphan_since o <= o_orphan_since x) after.

Lemma oldest_loop_spec before os oldest :
  match oldest with
  | None => before = []
  | Some (b, o, a) => exists c, a = c ++ os /\ oldest_of before b o c
  end ->
  match oldest_loop before os oldest with
  | None => before ++ os = []
  | Some (b, o, a) => oldest_of (before ++ os) b o a
  end.
Proof.
  revert before oldest. induction os as [|cur os IH]; intros before oldest H; cbn [oldest_loop].
  { rewrite app_nil_r. destruct oldest as [[[b o] a]|]; [|done]. destruct H as (c & -> & H). by rewrite app_nil_r. }
  specialize (IH (before ++ [cur])). rewrite <- app_assoc in IH. cbn in IH. apply IH.
  destruct oldest as [[[b o] a]|].
  - destruct H as (c & -> & E & Hb & Ha). destruct (Z.ltb_spec (o_orphan_since cur) (o_orphan_since o)) as [Hlt|Hge].
    + exists []. split; [done|]. split; [done|]. split; [|constructor]. rewrite E.
      apply Forall_app. split; [|constructor; [done|]]; eapply List.Forall_impl; try done; cbn; lia.
    + exists (c ++ [cur]). split; [by rewrite <- app_assoc|]. split; [by rewrite E, <- app_assoc|].
      split; [done|]. apply Forall_app. split; [done|]. by apply Forall_singleton.
  - subst before. exists []. split; [done|]. split; [done|]. split; constructor.
Qed.

(** ** The operations on the list *)

Section Operations.
Context {Net : Type}.
Implicit Types (br : Broker Net) (bc : BrokerClient Net).

Definition with_sessions br (subs : list BrokerSub) (gen : Z) (os : list BrokerOrphanSession) (n : Z) : Broker Net :=
  set_orphans (set_subs br subs gen) os n.

(** The subscriptions left when the session [id] is dropped. *)
Definition subs_without (id : list Z) (subs : list BrokerSub) : list BrokerSub :=
  base.filter (fun s => orphan_sub id s = false) subs.

Lemma BrokerOrphan_Remove_eq before o after br :
  orphans_ok (before ++ o :: after) (br_orphan_count br) ->
  BrokerOrphan_Remove (before, o, after) br = set_orphans br (before ++ after) (br_orphan_count br - 1).
Proof. intros H. unfold BrokerOrphan_Remove. by rewrite (orphans_positive _ _ _ _ H). Qed.

Lemma BrokerOrphan_DropFull_eq before o after br :
  orphans_ok (before ++ o :: after) (br_orphan_count br) ->
  exists gen, BrokerOrphan_DropFull (before, o, after) br =
    with_sessions br (subs_without (o_client_id o) (br_subs br)) gen (before ++ after) (br_orphan_count br - 1).
Proof.
  intros H. unfold BrokerOrphan_DropFull.
  pose proof (subs_drop_spec (orphan_sub (o_client_id o)) (br_subs br) (br_subs_gen br)) as Hd.
  destruct (subs_drop _ _ _) as [subs gen]. destruct Hd as [-> _]. exists gen.
  by rewrite BrokerOrphan_Remove_eq.
Qed.

(** The loop evicts at most one session. *)
Lemma evict_loop_spec br :
  orphans_ok (br_orphans br) (br_orphan_count br) ->
  exists subs gen os n, evict_loop (S (length (br_orphans br))) br = Ok (with_sessions br subs gen os n) /\
    orphans_ok os n /\ n < BROKER_MAX_PERSIST_SESSIONS /\ os `sublist_of` br_orphans br /\
    subs `sublist_of` br_subs br /\
    (br_orphan_count br < BROKER_MAX_PERSIST_SESSIONS -> os = br_orphans br /\ subs = br_subs br) /\
    (BROKER_MAX_PERSIST_SESSIONS <= br_orphan_count br ->
       exists b o a, oldest_of (br_orphans br) b o a /\ os = b ++ a /\
         subs = subs_without (o_client_id o) (br_subs br)).
Proof.
  intros Hok. cbn [evict_loop]. destruct (Z.leb_spec BROKER_MAX_PERSIST_SESSIONS (br_orphan_count br)) as [Hfull|Hroom].
  - unfold BrokerOrphan_EvictOldest. pose proof (oldest_loop_spec [] (br_orphans br) (@None Node) eq_refl) as Hold.
    destruct (oldest_loop [] (br_orphans br) None) as [[[b o] a]|].
    2: { cbn in Hold. destruct Hok as [Hn _ _ _]. rewrite Hold in Hn. rewrite len_nil in Hn. lia. }
    pose proof Hold as (Eos & _ & _). cbn [app] in Hold, Eos. pose proof Hok as Hok'. rewrite Eos in Hok'.
    destruct (BrokerOrphan_DropFull_eq b o a br Hok') as [gen ->].
    assert (length (br_orphans br) <> 0%nat) by (rewrite Eos, length_app; cbn; lia).
    destruct (length (br_orphans br)) as [|k]; [done|]. cbn [evict_loop].
    pose proof (or_cap _ _ Hok). change (br_orphan_count (with_sessions br _ _ _ _)) with (br_orphan_count br - 1).
    rewrite (proj2 (Z.leb_gt _ _)) by lia. eexists _, gen, _, _. split; [done|].
    split; [by eapply orphans_remove|]. split; [lia|]. split; [|split; [|split; [lia|intros _; by exists b, o, a]]].
    + rewrite Eos. apply sublist_app; [done|]. by apply sublist_cons.
    + apply sublist_filter.
  - exists (br_subs br), (br_subs_gen br), (br_orphans br), (br_orphan_count br).
    split; [by destruct br|]. split_and!; try done. lia.
Qed.

(** ** Expiry *)

Definition live_orphans (now : Z) (os : list BrokerOrphanSession) : list BrokerOrphanSession :=
  base.filter (fun o => orphan_expired now o = false) os.

(** [s] is a subscription of an expired session. *)
Definition expired_sub (now : Z) (os : list BrokerOrphanSession) (s : BrokerSub) : bool :=
  existsb (fun o => orphan_expired now o && orphan_sub (o_client_id o) s) os.

Definition live_subs (now : Z) (os : list BrokerOrphanSession) (subs : list BrokerSub) : list BrokerSub :=
  base.filter (fun s => expired_sub now os s = false) subs.

Lemma live_orphans_none now os : Forall (fun o => orphan_expired now o = false) os -> live_orphans now os = os.
Proof. induction 1 as [|o os Ho _ IH]; [done|]. unfold live_orphans in *. by rewrite filter_cons_True, IH. Qed.

Lemma live_orphans_drop now before o after :
  orphan_expired now o = true -> live_orphans now (before ++ o :: after) = live_orphans now (before ++ after).
Proof.
  intros H. unfold live_orphans. rewrite !list.filter_app, filter_cons_False; [done|]. rewrite H. congruence.
Qed.

Lemma live_subs_none now os subs :
  Forall (fun o => orphan_expired now o = false) os -> live_subs now os subs = subs.
Proof.
  intros H. assert (Hs : forall s, expired_sub now os s = false).
  { intros s. unfold expired_sub. induction H as [|o os Ho _ IHo]; [done|]. cbn. by rewrite Ho. }
  induction subs as [|s subs IH]; [done|]. unfold live_subs in *. by rewrite filter_cons_True, IH.
Qed.

Lemma live_subs_drop now before o after subs :
  orphan_expired now o = true ->
  live_subs now (before ++ after) (subs_without (o_client_id o) subs) = live_subs now (before ++ o :: after) subs.
Proof.
  intros H. unfold live_subs, subs_without. rewrite list_filter_filter. apply list_filter_iff.
  intros s. unfold expired_sub. rewrite !existsb_app. cbn [existsb]. rewrite H. cbn [andb].
  rewrite !orb_false_iff. tauto.
Qed.

Lemma expire_loop_spec fuel now br :
  (length (br_orphans br) < fuel)%nat -> orphans_ok (br_orphans br) (br_orphan_count br) ->
  exists gen, expire_loop fuel now br =
    Ok (with_sessions br (live_subs now (br_orphans br) (br_subs br)) gen (live_orphans now (br_orphans br))
          (len (live_orphans now (br_orphans br)))) /\
    orphans_ok (live_orphans now (br_orphans br)) (len (live_orphans now (br_orphans br))).
Proof.
  revert br. induction fuel as [|fuel IH]; intros br Hfuel Hok; [lia|]. cbn [expire_loop].
  pose proof (find_node_spec (orphan_expired now) (br_orphans br)) as Hf.
  destruct (find_node _ _) as [[[b o] a]|].
  - destruct Hf as (Eos & Ho & _). pose proof Hok as Hok'. rewrite Eos in Hok'.
    destruct (BrokerOrphan_DropFull_eq b o a br Hok') as [gen ->].
    destruct (IH (with_sessions br (subs_without (o_client_id o) (br_subs br)) gen (b ++ a) (br_orphan_count br - 1)))
      as (gen' & E & Hok2); cbn [br_orphans br_orphan_count br_subs with_sessions set_orphans set_subs] in *.
    { rewrite Eos, length_app in Hfuel. cbn [length] in Hfuel. rewrite length_app. lia. }
    { by eapply orphans_remove. }
    exists gen'. rewrite E, Eos, (live_orphans_drop now b o a) by done. rewrite live_subs_drop by done.
    rewrite <- (live_orphans_drop now b o a) by done.
    rewrite <- (live_orphans_drop now b o a) in Hok2 by done. done.
  - exists (br_subs_gen br). rewrite live_orphans_none, live_subs_none by done.
    destruct Hok as [Hn ? ? ?]. rewrite <- Hn. by destruct br.
Qed.

(** ** Queues *)

Lemma drop_partial_spec q :
  match drop_partial q with
  | Some q' => exists before e after, q = before ++ e :: after /\ q' = before ++ after /\
      Forall sent before /\ op_state e = BROKER_OUTQ_QUEUED /\ op_qos e = MQTT_QOS_0
  | None => forall before e after, q = before ++ e :: after -> Forall sent before ->
      op_state e = BROKER_OUTQ_QUEUED -> op_qos e <> MQTT_QOS_0
  end.
Proof.
  induction q as [|e q IH]; [by intros []|]. cbn [drop_partial].
  destruct (decide (op_state e = BROKER_OUTQ_QUEUED)) as [Hq|Hs].
  - destruct (Z.eqb_spec (op_qos e) MQTT_QOS_0) as [H0|H0].
    + exists [], e, q. by split_and!.
    + intros [|b before] e' after [= <- ->] Hb Hq'; [done|]. by apply list.Forall_cons in Hb as [[] _].
  - destruct (drop_partial q) as [q'|].
    + destruct IH as (b & e' & a & -> & -> & Hb & ? & ?). exists (e :: b), e', a. by split_and!; [..|constructor| |].
    + intros [|b before] e' after [= <- ->] Hb Hq'; [done|]. apply list.Forall_cons in Hb as [_ Hb]. by eapply IH.
Qed.

Lemma outq_ok_drop q before e after n :
  outq_ok q -> out_q q = before ++ e :: after -> op_state e = BROKER_OUTQ_QUEUED ->
  outq_ok (mkOutQ (before ++ after) (out_q_count q - 1) (out_q_inflight q) n).
Proof.
  intros [Hc Hi He Hn] Hq Hs. rewrite Hq in *. constructor; cbn [out_q out_q_count out_q_inflight].
  - rewrite len_app, len_cons in *. lia.
  - rewrite inflight_app, inflight_cons in *. unfold weight in Hi. rewrite Hs in Hi. lia.
  - apply Forall_app in He as [? [_ ?]%list.Forall_cons]. by apply Forall_app.
  - eapply sublist_NoDup; [exact Hn|]. rewrite !ids_app, ids_cons.
    apply sublist_app; [done|]. by apply sublist_inserts_l.
Qed.

Lemma outq_ok_pending q n : outq_ok q -> outq_ok (mkOutQ (out_q q) (out_q_count q) (out_q_inflight q) n).
Proof. by intros [Hc Hi He Hn]. Qed.

(** The messages a session keeps when its connection ends: all but a QoS 0
    PUBLISH that was partly sent. *)
Definition kept_messages bc : list BrokerOutPub :=
  if 0 <? wr_pos (lk_write (bc_link bc)) then
    match drop_partial (out_q (bc_outq bc)) with Some q => q | None => out_q (bc_outq bc) end
  else out_q (bc_outq bc).

Lemma take_session_spec bc :
  let '(q, qos2, bc') := take_session bc in
  out_q q = kept_messages bc /\ qos2 = bc_qos2 bc /\ out_q (bc_outq bc') = [] /\
  bc_qos2 bc' = BrokerInboundQos2_Clear /\ bc_addr bc' = bc_addr bc /\ bc_info bc' = bc_info bc /\
  bc_will bc' = bc_will bc /\ (outq_ok (bc_outq bc) -> outq_ok q /\ outq_ok (bc_outq bc')).
Proof.
  unfold take_session, kept_messages. cbv zeta.
  assert (He : forall n, outq_ok (mkOutQ [] 0 0 n)) by (intros n; apply (outq_ok_pending _ n empty_queue_ok)).
  destruct (0 <? _); [|by split_and!; [..|split; [apply outq_ok_pending|apply He]]].
  pose proof (drop_partial_spec (out_q (bc_outq bc))) as Hd.
  destruct (drop_partial _) as [q'|]; [|by split_and!; [..|split; [apply outq_ok_pending|apply He]]].
  destruct Hd as (b & e & a & Eq & -> & _ & Hs & _). split_and!; [done..|]. intros Hok.
  split; [|apply He]. cbn [out_q out_q_count out_q_inflight]. by eapply outq_ok_drop.
Qed.

(** A reclaimed entry is the same message, to be sent again if it was sent. *)
Lemma reclaim_entry_ok e : outpub_ok e -> outpub_ok (reclaim_entry e).
Proof.
  intros He. pose proof He as [Hq Hi H0 Hr Hd]. unfold reclaim_entry. destruct (op_state e) eqn:Es; [done|..];
    constructor; cbn; try done; try lia; try (by intros E; destruct (H0 E) as (_ & ? & _)).
  by intros _; apply Hr.
Qed.

Lemma reclaim_ids q : ids (map reclaim_entry q) = ids q.
Proof.
  induction q as [|e q IH]; [done|]. cbn [map]. rewrite !ids_cons, IH.
  unfold reclaim_entry. by destruct (op_state e).
Qed.

Lemma reclaim_inflight_spec q : reclaim_inflight q = inflight (map reclaim_entry q).
Proof.
  induction q as [|e q IH]; [done|]. cbn [map reclaim_inflight]. rewrite inflight_cons, IH. f_equal.
  unfold weight, reclaim_entry. destruct (op_state e) eqn:E; cbn; rewrite ?E; by repeat destruct (decide _).
Qed.

Lemma reclaim_outq_ok q n :
  outq_ok q -> outq_ok (mkOutQ (map reclaim_entry (out_q q)) (out_q_count q) (reclaim_inflight (out_q q)) n).
Proof.
  intros [Hc Hi He Hn]. constructor; cbn [out_q out_q_count out_q_inflight].
  - rewrite Hc. unfold len. by rewrite length_map.
  - apply reclaim_inflight_spec.
  - clear -He. induction He; cbn; constructor; [by apply reclaim_entry_ok|done].
  - by rewrite reclaim_ids.
Qed.

(** The head of a full queue is evicted until there is room for one more. *)
Lemma evict_heads_spec q count inflt :
  count = len q -> inflt = inflight q ->
  let '(q', count', inflt') := evict_heads q count inflt in
  (exists gone, q = gone ++ q' /\ (gone = [] \/ len q' = BROKER_MAX_OFFLINE_MSGS_PER_SUB - 1)) /\
  count' = len q' /\ inflt' = inflight q' /\ count' < BROKER_MAX_OFFLINE_MSGS_PER_SUB.
Proof.
  revert count inflt. induction q as [|e q IH]; intros count inflt -> ->; cbn [evict_heads].
  { split_and!; [|done..]. exists []. split; [done|by left]. }
  rewrite len_cons, inflight_cons. pose proof (len_nonneg q). pose proof (inflight_nonneg q).
  destruct (Z.leb_spec BROKER_MAX_OFFLINE_MSGS_PER_SUB (1 + len q)) as [Hfull|Hroom].
  - rewrite (proj2 (Z.ltb_lt 0 _)) by lia. specialize (IH (1 + len q - 1)
      (if negb (bool_decide (op_state e = BROKER_OUTQ_QUEUED)) && (0 <? weight e + inflight q)
       then weight e + inflight q - 1 else weight e + inflight q)).
    destruct (evict_heads q _ _) as [[q' count'] inflt'].
    destruct IH as ((gone & -> & Hg) & -> & -> & Hc); [lia| |].
    { unfold weight. destruct (op_state e); [rewrite bool_decide_eq_true_2 by done; cbn; lia|..];
        rewrite bool_decide_eq_false_2 by done; cbn [negb andb]; rewrite (proj2 (Z.ltb_lt 0 _)) by lia; lia. }
    split_and!; [|done|done|done]. exists (e :: gone). split; [done|]. right.
    destruct Hg as [->|]; [|done]. cbn [app] in Hfull. lia.
  - split_and!; [|rewrite ?len_cons; lia|rewrite inflight_cons; lia|lia]. exists []. split; [done|by left].
Qed.

(** ** Messages for a session without a connection *)

(** The entry [BrokerOrphan_Enqueue] appends after [tail]. *)
Definition orphan_entry (topic : list Z) (payload : option (list Z)) (n qos id retain now level : Z)
    (props : list MqttProp) (tail : option BrokerOutPub) : BrokerOutPub :=
  let '(bs, n) := copy_payload payload n in
  mkOutPub topic bs n qos id retain BROKER_OUTQ_QUEUED 0 now
    (match tail with Some t => op_enqueue_seq t + 1 | None => 1 end) level (map copy_prop props).

Definition seq_exhausted (q : list BrokerOutPub) : Prop :=
  exists tail, list.last q = Some tail /\ op_enqueue_seq tail = 18446744073709551615.

Lemma orphan_enqueue_spec mem next now level q topic payload n qos retain props :
  outq_ok q -> 0 <= next < 65536 -> MQTT_QOS_1 <= qos <= MQTT_QOS_2 ->
  payload_fits payload n -> Forall prop_fits props ->
  exists q' mem' next' gone kept,
    orphan_enqueue mem next now level q topic payload n qos retain props = Ok (q', mem', next') /\
    outq_ok q' /\ 0 <= next' < 65536 /\ out_q_count q' <= BROKER_MAX_OFFLINE_MSGS_PER_SUB /\
    out_q q = gone ++ kept /\ (gone = [] \/ len kept = BROKER_MAX_OFFLINE_MSGS_PER_SUB - 1) /\
    ((out_q q' = kept /\ (mem <> [] \/ seq_exhausted kept)) \/
     exists id, 1 <= id <= 65535 /\ (id ∉ map op_packet_id kept) /\
       out_q q' = kept ++ [orphan_entry topic payload n qos id retain now level props (list.last kept)]) /\
    (mem = [] -> mem' = []).
Proof.
  intros Hok Hnext Hqos Hpay Hprops. pose proof Hok as [Hc Hi He Hn]. unfold orphan_enqueue.
  pose proof (evict_heads_spec (out_q q) _ _ Hc Hi) as Hev.
  destruct (evict_heads _ _ _) as [[kept count] infl]. destruct Hev as ((gone & Eq & Hg) & -> & -> & Hroom).
  assert (Hkept : outq_ok (mkOutQ kept (len kept) (inflight kept) (out_q_pending_len q))).
  { rewrite Eq in He, Hn. constructor; [done|done| |]; cbn [out_q].
    - by apply Forall_app in He as [_ He].
    - rewrite ids_app in Hn. by apply list.NoDup_app in Hn as (_ & _ & Hn). }
  destruct (BrokerOutPub_Alloc_copies mem topic payload n props Hpay Hprops) as (e & mem1 & -> & He1 & Hmem).
  cbn [mbind result_bind]. destruct He1 as [->|[-> Hoom]].
  2: { eexists _, _, _, gone, kept. split_and!; [done|done|lia|lia|cbn; lia|done|done| |done]. left. auto. }
  destruct (BrokerNextPacketIdForQueue_spec next kept Hnext) as (id & next' & -> & Hid).
  cbn [mbind result_bind]. destruct Hid as [(Hid & Hfresh & ->)|(-> & _ & Hall)].
  2: { exfalso. pose proof (ids_pigeonhole (map op_packet_id kept) Hall) as Hp. unfold len in Hp, Hroom.
       rewrite length_map in Hp. lia. }
  rewrite (proj2 (Z.eqb_neq id 0)) by lia.
  assert (Hnx : 0 <= next_id id < 65536).
  { unfold next_id. cbv zeta. pose proof (u16_range (id + 1)). destruct (u16 (id + 1) =? 0); lia. }
  assert (Hnew : forall tail, outq_ok (BrokerClient_EnqueueOutPub
      (mkOutQ kept (len kept) (inflight kept) (out_q_pending_len q))
      (orphan_entry topic payload n qos id retain now level props tail))).
  { intros tail. unfold orphan_entry. destruct (copy_payload payload n). apply EnqueueOutPub_ok; [done| |done|done].
    constructor; cbn; try done; try lia; intros; exfalso; lia. }
  specialize (Hnew (list.last kept)).
  unfold outpub_copy, orphan_entry in *. destruct (copy_payload payload n) as [bs k].
  destruct (list.last kept) as [tail|] eqn:Et; [destruct (Z.eqb_spec (op_enqueue_seq tail) 18446744073709551615)|].
  - eexists _, _, _, gone, kept. split_and!; [done|done|lia|lia|cbn; lia|done|done| |done].
    left. split; [done|]. right. by exists tail.
  - eexists _, _, _, gone, kept. split_and!; [done|exact Hnew|lia|lia|cbn; lia|done|done| |done].
    right. exists id. rewrite Et. split_and!; [lia|lia|done|done].
  - eexists _, _, _, gone, kept. split_and!; [done|exact Hnew|lia|lia|cbn; lia|done|done| |done].
    right. exists id. rewrite Et. split_and!; [lia|lia|done|done].
Qed.
End Operations.

(** ** Properties *)

Definition ex_queue : list BrokerOutPub :=
  [ex_entry 2 5 0 BROKER_OUTQ_PUBREL_SENT []; ex_entry 1 7 0 BROKER_OUTQ_PUBLISH_SENT [104; 105];
   ex_entry 0 0 0 BROKER_OUTQ_QUEUED [120]; ex_entry 1 8 0 BROKER_OUTQ_QUEUED [121]].

Lemma ex_queue_ok : outq_ok (mkOutQ ex_queue 4 2 0).
Proof.
  constructor; [done|done| |by_eval].
  repeat apply List.Forall_cons; [..|apply List.Forall_nil]; constructor; cbn; try done; lia.
Qed.

Lemma expired_sub_spec now os s :
  expired_sub now os s = false <->
  Forall (fun o => orphan_expired now o = true -> orphan_sub (o_client_id o) s = false) os.
Proof.
  unfold expired_sub. induction os as [|o os IH]; [by split; [constructor|]|].
  cbn [existsb]. rewrite orb_false_iff, list.Forall_cons, IH.
  destruct (orphan_expired now o); cbn [andb]; split; intros [H1 H2]; split; auto; done.
Qed.

(** C14: expiry. BrokerOrphan_ExpireSweep ends, and afterwards the orphan list
    is exactly the list of sessions whose Session Expiry Interval is the
    maximum or has not elapsed, in their order; the subscriptions are all but
    those without a client that belong to an expired session; nothing else
    changes. *)
Theorem BrokerOrphan_ExpireSweep_exact {Net} now (br : Broker Net) :
  orphans_ok (br_orphans br) (br_orphan_count br) ->
  exists gen os subs, BrokerOrphan_ExpireSweep now br = Ok (tt, with_sessions br subs gen os (len os)) /\
    os = base.filter (fun o => o_session_expiry_sec o = NEVER_EXPIRES \/ now < o_orphan_since o \/
                               now - o_orphan_since o < o_session_expiry_sec o) (br_orphans br) /\
    subs = base.filter (fun s => Forall (fun o => orphan_expired now o = true ->
                                         orphan_sub (o_client_id o) s = false) (br_orphans br)) (br_subs br) /\
    orphans_ok os (len os).
Proof.
  intros Hok. unfold BrokerOrphan_ExpireSweep.
  destruct (expire_loop_spec (S (length (br_orphans br))) now br ltac:(lia) Hok) as (gen & E & Hos).
  assert (Eos : live_orphans now (br_orphans br) =
    base.filter (fun o => o_session_expiry_sec o = NEVER_EXPIRES \/ now < o_orphan_since o \/
                          now - o_orphan_since o < o_session_expiry_sec o) (br_orphans br)).
  { apply list_filter_iff. intros o. unfold orphan_expired.
    rewrite !andb_false_iff, negb_false_iff, Z.eqb_eq, !Z.leb_gt. tauto. }
  assert (Esubs : live_subs now (br_orphans br) (br_subs br) =
    base.filter (fun s => Forall (fun o => orphan_expired now o = true ->
                                  orphan_sub (o_client_id o) s = false) (br_orphans br)) (br_subs br)).
  { apply list_filter_iff. intros s. apply expired_sub_spec. }
  exists gen. eexists _, _. split_and!; [|exact Eos|exact Esubs|exact Hos].
  unfold get, mbind, B_bind, of_result. by rewrite E.
Qed.

Definition ex_orphan (id : list Z) (sec since : Z) : BrokerOrphanSession :=
  mkOrphan id 5 sec since BrokerClient_FreeOutQueue BrokerInboundQos2_Clear.

Lemma ex_orphan_ok id sec since : id <> [] -> orphan_ok (ex_orphan id sec since).
Proof. intros H. constructor; [done|apply empty_queue_ok|exists ∅; apply qos2_rep_empty]. Qed.

Lemma BrokerOrphan_ExpireSweep_exact_witness :
  let br := with_sessions (ex_broker [] []) [mkSub [35] (Some [97]) None 1; mkSub [35] (Some [98]) None 1] 0
              [ex_orphan [98] 10 5; ex_orphan [97] 10 7; ex_orphan [99] NEVER_EXPIRES 0] 3 in
  exists gen os, BrokerOrphan_ExpireSweep 15 br =
      Ok (tt, with_sessions br [mkSub [35] (Some [97]) None 1] gen os 2) /\
    os = [ex_orphan [97] 10 7; ex_orphan [99] NEVER_EXPIRES 0].
Proof.
  intros br.
  assert (Hok : orphans_ok (br_orphans br) (br_orphan_count br)).
  { constructor; [done|cbn; lia|by_eval|].
    by repeat apply List.Forall_cons; [apply ex_orphan_ok..|apply List.Forall_nil]. }
  destruct (BrokerOrphan_ExpireSweep_exact 15 br Hok) as (gen & os & subs & E & Eos & Esubs & _).
  vm_compute in Eos, Esubs. subst os subs. exists gen. eexists. split; [exact E|done].
Defined.

(** C15: messages at QoS 1 or 2 for a session without a connection.
    BrokerOrphan_Enqueue always ends with a valid queue of at most BROKER_MAX_OFFLINE_MSGS_PER_SUB
    messages. It removes messages only from the head, only as many as make room
    for one in a full queue, and appends a copy of the message at the tail with
    a packet identifier that no message of the queue has; the message is
    dropped only when an allocation fails or the sequence numbers are used up. *)
Theorem BrokerOrphan_Enqueue_fifo mem next now level q topic payload n qos retain props :
  outq_ok q -> 0 <= next < 65536 -> MQTT_QOS_1 <= qos <= MQTT_QOS_2 ->
  payload_fits payload n -> Forall prop_fits props ->
  exists q' mem' next' gone kept,
    orphan_enqueue mem next now level q topic payload n qos retain props = Ok (q', mem', next') /\
    outq_ok q' /\ out_q_count q' <= BROKER_MAX_OFFLINE_MSGS_PER_SUB /\
    out_q q = gone ++ kept /\ (gone = [] \/ len kept = BROKER_MAX_OFFLINE_MSGS_PER_SUB - 1) /\
    ((out_q q' = kept /\ (mem <> [] \/ seq_exhausted kept)) \/
     exists id, 1 <= id <= 65535 /\ (id ∉ map op_packet_id kept) /\
       out_q q' = kept ++ [orphan_entry topic payload n qos id retain now level props (list.last kept)]).
Proof.
  intros Hok Hnext Hqos Hpay Hprops.
  destruct (orphan_enqueue_spec mem next now level q topic payload n qos retain props Hok Hnext Hqos Hpay Hprops)
    as (q' & mem' & next' & gone & kept & E & H1 & _ & H2 & H3 & H4 & H5 & _).
  by exists q', mem', next', gone, kept.
Qed.

Lemma BrokerOrphan_Enqueue_fifo_witness :
  let q := mkOutQ ex_queue 4 2 0 in
  exists q' mem' next', orphan_enqueue [] 7 9 5 q [116] (Some [1; 2; 3]) 2 2 1 [] = Ok (q', mem', next') /\
    outq_ok q' /\
    out_q q' = ex_queue ++ [mkOutPub [116] (Some [1; 2]) 2 2 9 1 BROKER_OUTQ_QUEUED 0 9 1 5 []].
Proof.
  intros q.
  destruct (BrokerOrphan_Enqueue_fifo [] 7 9 5 q [116] (Some [1; 2; 3]) 2 2 1 [])
    as (q' & mem' & next' & gone & kept & E & Hq' & _).
  - exact ex_queue_ok.
  - lia.
  - lia.
  - unfold payload_fits. by_eval.
  - constructor.
  - exists q', mem', next'. split; [exact E|]. split; [exact Hq'|]. vm_compute in E. by injection E as <- _ _.
Defined.
