(* ===== verification/BrokerSession.v ===== *)
(** * BrokerSession: sessions across connections ([mqtt_broker.c])

    The end of a connection, which gives a persistent session to an orphan or
    ends it, and the functions by which a new client takes it over. *)
From stdpp Require Import relations.
From S2P Require Import Prelude PacketDefs Wire FixedHeader PacketIO BrokerDefs BrokerQos2 OutQueue OutAlloc BrokerState BrokerSubs BrokerOrphan.

Section Sessions.
Context {Net : Type}.
Implicit Types (br : Broker Net) (bc new_bc : BrokerClient Net).

(** ** The end of a connection *)

Definition BrokerSubs_OrphanClient (now addr : Z) : B Net unit :=
  br ← get;
  let count := len (base.filter (fun s => of_client addr s = true) (br_subs br)) in
  taken ← BrokerOrphan_Take now addr;
  if negb taken then BrokerSubs_RemoveClient addr
  else if count =? 0 then mret tt
  else modify (fun br =>
         set_subs br (map (fun cur => if of_client addr cur then set_sub_client cur None else cur) (br_subs br))
           (br_subs_gen br)).

Definition BrokerSubs_EndClientSession (addr : Z) : B Net unit :=
  _ ← BrokerSubs_RemoveClient addr;
  bc ← deref addr;
  match bc_client_id (bc_info bc) with
  | Some ((_ :: _) as client_id) =>
      modify (fun br => match BrokerOrphan_Find (br_orphans br) client_id with
                        | Some n => BrokerOrphan_DropFull n br
                        | None => br
                        end)
  | _ => mret tt
  end.

(** The client is unlinked and freed, if it is there. *)
Definition BrokerClient_Remove (addr : Z) : B Net unit :=
  modify (fun br =>
    match client_at (br_clients br) addr with
    | None => br
    | Some _ => set_clients_gen (set_clients br (base.filter (fun c => bc_addr c <> addr) (br_clients br)))
                  (u32 (br_clients_gen br + 1))
    end).
End Sessions.

Section Operations.
Context {Net : Type}.
Implicit Types (br : Broker Net) (bc new_bc : BrokerClient Net).

(** ** The broker's sessions *)

Definition session_ok bc : Prop := outq_ok (bc_outq bc) /\ exists T, qos2_rep (bc_qos2 bc) T.

Record sessions_ok br : Prop := {
  ss_addrs : NoDup (addrs (br_clients br));
  ss_clients : Forall session_ok (br_clients br);
  ss_orphans : orphans_ok (br_orphans br) (br_orphan_count br);
  ss_next : 0 <= br_next_packet_id br < 65536;
  ss_linked : forall a, Some a ∈ map sub_client (br_subs br) -> a ∈ addrs (br_clients br)
}.

Lemma sessions_ok_step br br' :
  sessions_ok br -> addrs (br_clients br') = addrs (br_clients br) -> Forall session_ok (br_clients br') ->
  orphans_ok (br_orphans br') (br_orphan_count br') -> 0 <= br_next_packet_id br' < 65536 ->
  (forall a, Some a ∈ map sub_client (br_subs br') -> Some a ∈ map sub_client (br_subs br)) -> sessions_ok br'.
Proof. intros [Ha _ _ _ Hl] E Hc Ho Hn Hs. constructor; rewrite ?E; auto. Qed.

Lemma clients_sublist subs subs' a :
  subs' `sublist_of` subs -> Some a ∈ map sub_client subs' -> Some a ∈ map sub_client subs.
Proof.
  intros Hs Hin. eapply elem_of_submseteq; [exact Hin|]. by apply fmap_submseteq, sublist_submseteq.
Qed.

Lemma session_ok_at br addr bc : sessions_ok br -> client_at (br_clients br) addr = Some bc -> session_ok bc.
Proof.
  intros Hok H%client_at_in. pose proof (ss_clients _ Hok) as Hc. rewrite list.Forall_forall in Hc. auto.
Qed.

(** The sessions of other clients. *)
Definition others (id : list Z) (os : list BrokerOrphanSession) : list BrokerOrphanSession :=
  base.filter (fun o => o_client_id o <> id) os.

Lemma others_none id os : (id ∉ map o_client_id os) -> others id os = os.
Proof.
  intros H. induction os as [|o os IH]; [done|]. cbn [map] in H. apply not_elem_of_cons in H as [H1 H2].
  unfold others in *. rewrite filter_cons_True by congruence. by rewrite IH.
Qed.

Lemma others_out id os : id ∉ map o_client_id (others id os).
Proof. by intros (o & E & [Ho _]%list_elem_of_filter)%list_elem_of_fmap. Qed.

Lemma others_split before o after :
  NoDup (map o_client_id (before ++ o :: after)) ->
  others (o_client_id o) (before ++ o :: after) = before ++ after.
Proof.
  rewrite map_app. cbn [map]. intros (_ & Hb & [Ha _]%list.NoDup_cons)%list.NoDup_app.
  unfold others. rewrite list.filter_app, filter_cons_False by tauto. f_equal; apply others_none; [|done].
  intros H. apply (Hb _ H). by left.
Qed.

(** Dropping the session [id], if there is one. *)
Lemma remove_existing br id :
  orphans_ok (br_orphans br) (br_orphan_count br) ->
  match BrokerOrphan_Find (br_orphans br) id with Some n => BrokerOrphan_Remove n br | None => br end =
    set_orphans br (others id (br_orphans br)) (len (others id (br_orphans br))) /\
  orphans_ok (others id (br_orphans br)) (len (others id (br_orphans br))).
Proof.
  intros Hok. pose proof (BrokerOrphan_Find_spec (br_orphans br) id) as Hf.
  destruct (BrokerOrphan_Find _ _) as [[[b o] a]|].
  - destruct Hf as (E & <- & _). rewrite E in Hok |- *. rewrite BrokerOrphan_Remove_eq by done.
    rewrite others_split by apply Hok. pose proof (orphans_remove _ _ _ _ Hok) as Hok'.
    pose proof (or_count _ _ Hok') as En. rewrite En in Hok' |- *. done.
  - rewrite others_none by done. pose proof (or_count _ _ Hok) as En. rewrite <- En. by destruct br.
Qed.

(** What becomes of a client's session and of the client. *)
Definition taken (now : Z) (id : list Z) bc : BrokerOrphanSession :=
  let '(q, qos2, _) := take_session bc in
  mkOrphan id (bc_protocol_level (bc_info bc)) (bc_session_expiry_sec (bc_info bc)) now q qos2.

Definition emptied bc : BrokerClient Net := snd (take_session bc).

Lemma taken_ok now id bc : session_ok bc -> id <> [] -> orphan_ok (taken now id bc) /\ session_ok (emptied bc).
Proof.
  intros [Hq [T HT]] Hid. unfold taken, emptied, session_ok. pose proof (take_session_spec bc) as Hs.
  destruct (take_session bc) as [[q qos2] bc']. cbn [snd]. destruct Hs as (_ & -> & _ & -> & _ & _ & _ & Hok).
  destruct (Hok Hq). split; [by constructor; [| |exists T]|]. split; [done|]. exists ∅. apply qos2_rep_empty.
Qed.

Lemma emptied_same bc : bc_addr (emptied bc) = bc_addr bc /\ bc_info (emptied bc) = bc_info bc.
Proof.
  unfold emptied. pose proof (take_session_spec bc) as Hs. destruct (take_session bc) as [[q qos2] bc']. cbn [snd]. tauto.
Qed.

(** [os], [n] and [subs] are what is left of the other sessions when one more
    is to be kept. *)
Record room_for (id : list Z) br (subs : list BrokerSub) (os : list BrokerOrphanSession) (n : Z) : Prop := {
  rf_ok : orphans_ok os n;
  rf_room : n < BROKER_MAX_PERSIST_SESSIONS;
  rf_new : id ∉ map o_client_id os;
  rf_subs : subs `sublist_of` br_subs br;
  rf_os : os `sublist_of` br_orphans br;
  rf_kept : len (others id (br_orphans br)) < BROKER_MAX_PERSIST_SESSIONS ->
    os = others id (br_orphans br) /\ subs = br_subs br
}.

Lemma evict_room br id :
  orphans_ok (br_orphans br) (br_orphan_count br) ->
  let br1 := set_orphans br (others id (br_orphans br)) (len (others id (br_orphans br))) in
  exists subs gen os n, evict_loop (S (length (br_orphans br1))) br1 = Ok (with_sessions br subs gen os n) /\
    room_for id br subs os n.
Proof.
  intros Hok br1. destruct (remove_existing br id Hok) as [_ Hok1].
  destruct (evict_loop_spec br1 Hok1) as (subs & gen & os & n & -> & Hos & Hn & Hsub & Hsubs & Hkept & _).
  exists subs, gen, os, n. split; [done|]. constructor; try done; [|by etrans; [exact Hsub|apply sublist_filter]].
  intros Hin. apply (others_out id (br_orphans br)). eapply elem_of_submseteq; [exact Hin|].
  by apply fmap_submseteq, sublist_submseteq.
Qed.

Lemma BrokerOrphan_Take_ok now addr bc id br :
  sessions_ok br -> client_at (br_clients br) addr = Some bc -> bc_client_id (bc_info bc) = Some id -> id <> [] ->
  ends (BrokerOrphan_Take now addr) (fun ok br' => exists mem subs gen os n, room_for id br subs os n /\
    (br_mem br = [] -> ok = true /\ mem = []) /\
    br' = if ok
          then set_clients (with_sessions (set_mem br mem) subs gen (taken now id bc :: os) (n + 1))
                 (client_put (br_clients br) (emptied bc))
          else with_sessions (set_mem br mem) subs gen os n) br.
Proof.
  intros Hok Hat Eid Hid. unfold BrokerOrphan_Take. apply ends_bind, (ends_deref addr bc); [done|].
  rewrite Eid. destruct id as [|c id]; [done|]. apply ends_bind, ends_get, ends_bind, ends_modify.
  destruct (remove_existing br (c :: id) (ss_orphans _ Hok)) as [-> _]. apply ends_bind, ends_get.
  destruct (evict_room br (c :: id) (ss_orphans _ Hok)) as (subs & gen & os & n & E & Hroom).
  apply ends_bind, (ends_of_result _ _ _ _ E), ends_bind, ends_modify, ends_bind, ends_alloc. intros ok1 mem1 H1.
  destruct ok1; cbn [negb].
  2: { apply ends_ret. exists mem1, subs, gen, os, n. split; [done|]. split; [|done].
       intros Em. by destruct (H1 Em). }
  apply ends_bind, ends_alloc. intros ok2 mem2 H2. cbn [br_mem set_mem] in H2.
  destruct ok2; cbn [negb].
  2: { apply ends_ret. exists mem2, subs, gen, os, n. split; [done|]. split; [|done].
       intros Em. destruct (H1 Em) as [_ Em1]. by destruct (H2 Em1). }
  unfold taken, emptied. destruct (take_session bc) as [[q qos2] bc'].
  apply ends_bind, ends_modify, ends_bind, ends_modify, ends_ret.
  exists mem2, subs, gen, os, n. split; [done|]. split; [|done]. intros Em. split; [done|]. by apply H2, H1.
Qed.

Definition detach (addr : Z) (s : BrokerSub) : BrokerSub :=
  if of_client addr s then set_sub_client s None else s.

Lemma detach_none addr subs : (Some addr ∉ map sub_client subs) -> map (detach addr) subs = subs.
Proof.
  induction subs as [|s subs IH]; [done|]. cbn [map]. intros [H1 H2]%not_elem_of_cons. rewrite (IH H2).
  unfold detach, of_client. by rewrite bool_decide_eq_false_2 by congruence.
Qed.

Lemma detach_out addr subs : Some addr ∉ map sub_client (map (detach addr) subs).
Proof.
  rewrite map_map. intros (s & E & _)%list_elem_of_fmap. unfold detach, of_client in E.
  destruct (decide (sub_client s = Some addr)) as [Es|Es].
  - by rewrite bool_decide_eq_true_2 in E.
  - rewrite bool_decide_eq_false_2 in E by done. congruence.
Qed.

Lemma detach_in addr subs a :
  Some a ∈ map sub_client (map (detach addr) subs) -> Some a ∈ map sub_client subs.
Proof.
  rewrite map_map. intros (s & E & Hs)%list_elem_of_fmap. apply list_elem_of_fmap. exists s. split; [|done].
  unfold detach in E. by destruct (of_client addr s).
Qed.

Lemma RemoveClient_ends addr bc br :
  client_at (br_clients br) addr = Some bc ->
  ends (BrokerSubs_RemoveClient addr) (fun _ br' => exists gen,
    br' = set_clients (set_subs br (base.filter (fun s => of_client addr s = false) (br_subs br)) gen)
            (client_put (br_clients br) (with_info bc (set_sub_count (bc_info bc) 0)))) br.
Proof.
  intros Hat. unfold BrokerSubs_RemoveClient, subs_drop_all. apply ends_bind, ends_modify.
  pose proof (subs_drop_spec (of_client addr) (br_subs br) (br_subs_gen br)) as Hd.
  destruct (subs_drop _ _ _) as [subs gen]. destruct Hd as [-> _].
  apply ends_bind, (ends_deref addr bc); [done|]. apply ends_modify. by exists gen.
Qed.

Lemma drop_client_out addr subs : Some addr ∉ map sub_client (base.filter (fun s => of_client addr s = false) subs).
Proof.
  intros (s & E & [Hs _]%list_elem_of_filter)%list_elem_of_fmap. unfold of_client in Hs.
  by rewrite bool_decide_eq_true_2 in Hs.
Qed.

Lemma drop_client_in addr subs a :
  Some a ∈ map sub_client (base.filter (fun s => of_client addr s = false) subs) -> Some a ∈ map sub_client subs.
Proof. apply clients_sublist, sublist_filter. Qed.

(** The state in which a client no longer owns a subscription. *)
Definition released (addr : Z) br br' : Prop :=
  sessions_ok br' /\ addrs (br_clients br') = addrs (br_clients br) /\ (Some addr ∉ map sub_client (br_subs br')).

Lemma RemoveClient_released addr bc br0 br :
  sessions_ok br -> addrs (br_clients br) = addrs (br_clients br0) -> client_at (br_clients br) addr = Some bc ->
  ends (BrokerSubs_RemoveClient addr) (fun _ => released addr br0) br.
Proof.
  intros Hok E Hat. eapply ends_mono; [by apply RemoveClient_ends|]. intros _ br' [gen ->].
  split; [|split; [rewrite <- E; apply addrs_put|apply drop_client_out]].
  eapply sessions_ok_step; [exact Hok|apply addrs_put| |apply Hok|apply Hok|apply drop_client_in].
  apply Forall_put; [apply Hok|]. by eapply session_ok_at in Hat.
Qed.

(** The state once the session is with an orphan. *)
Lemma orphaned_ok now addr bc id br mem subs gen os n subs' :
  sessions_ok br -> client_at (br_clients br) addr = Some bc -> id <> [] -> room_for id br subs os n ->
  (forall a, Some a ∈ map sub_client subs' -> Some a ∈ map sub_client subs) ->
  sessions_ok (set_clients (with_sessions (set_mem br mem) subs' gen (taken now id bc :: os) (n + 1))
                 (client_put (br_clients br) (emptied bc))).
Proof.
  intros Hok Hat Hid [Hos Hn Hnew Hsubs _ _] Hsub.
  destruct (taken_ok now id bc (session_ok_at _ _ _ Hok Hat) Hid) as [Ht He].
  eapply sessions_ok_step; [exact Hok|apply addrs_put| | |apply Hok|].
  - apply Forall_put; [apply Hok|done].
  - apply orphans_push; try done. unfold taken. by destruct (take_session bc) as [[? ?] ?].
  - intros a Ha. eapply clients_sublist; [exact Hsubs|]. by apply Hsub.
Qed.

Lemma BrokerSubs_OrphanClient_ok now addr bc id br :
  sessions_ok br -> client_at (br_clients br) addr = Some bc -> bc_client_id (bc_info bc) = Some id -> id <> [] ->
  ends (BrokerSubs_OrphanClient now addr) (fun _ br' => released addr br br' /\
    (br_mem br = [] -> exists subs gen os n, room_for id br subs os n /\
       br' = set_clients (with_sessions br (map (detach addr) subs) gen (taken now id bc :: os) (n + 1))
               (client_put (br_clients br) (emptied bc)))) br.
Proof.
  intros Hok Hat Eid Hid. unfold BrokerSubs_OrphanClient. apply ends_bind, ends_get, ends_bind.
  eapply ends_mono; [by eapply BrokerOrphan_Take_ok|].
  intros ok br1 (mem & subs & gen & os & n & Hroom & Hmem & ->). destruct ok; cbn [negb].
  - assert (Hm : br_mem br = [] -> set_mem br mem = br) by (intros E; destruct (Hmem E) as [_ ->]; rewrite <- E; by destruct br).
    assert (Hfin : ends (modify (fun br0 => set_subs br0 (map (detach addr) (br_subs br0)) (br_subs_gen br0)))
      (fun _ br' => released addr br br' /\
         (br_mem br = [] -> exists subs gen os n, room_for id br subs os n /\
            br' = set_clients (with_sessions br (map (detach addr) subs) gen (taken now id bc :: os) (n + 1))
                    (client_put (br_clients br) (emptied bc))))
      (set_clients (with_sessions (set_mem br mem) subs gen (taken now id bc :: os) (n + 1))
         (client_put (br_clients br) (emptied bc)))).
    { apply ends_modify. split.
      - split; [|split; [apply addrs_put|apply detach_out]].
        exact (orphaned_ok now addr bc id br mem subs gen os n _ Hok Hat Hid Hroom (detach_in addr subs)).
      - intros E. exists subs, gen, os, n. split; [done|]. by rewrite (Hm E). }
    destruct (Z.eqb_spec (len (base.filter (fun s => of_client addr s = true) (br_subs br))) 0) as [E0|E0]; [|exact Hfin].
    destruct Hfin as (u & br' & E & H). apply ends_ret. injection E as _ <-.
    assert (Hnone : map (detach addr) subs = subs).
    { apply detach_none. intros Hin. eapply clients_sublist in Hin; [|apply Hroom].
      apply list_elem_of_fmap in Hin as (s & Es & Hs). unfold len in E0.
      assert (Hf : s ∈ base.filter (fun s => of_client addr s = true) (br_subs br)).
      { apply list_elem_of_filter. split; [|done]. unfold of_client. by rewrite bool_decide_eq_true_2. }
      destruct (base.filter _ (br_subs br)); [by apply elem_of_nil in Hf|]. cbn [length] in E0. lia. }
    cbn [br_subs set_clients with_sessions set_orphans set_subs] in H. rewrite Hnone in H. exact H.
  - eapply ends_mono; [eapply (RemoveClient_released addr bc br)|].
    + destruct Hroom as [Hos Hn _ Hsubs _ _]. eapply sessions_ok_step; [exact Hok|done|apply Hok|done|apply Hok|].
      intros a. by apply clients_sublist.
    + done.
    + done.
    + intros ? br' Hrel. split; [done|]. intros E. by destruct (Hmem E).
Qed.

Lemma BrokerSubs_EndClientSession_ok addr bc id br :
  sessions_ok br -> client_at (br_clients br) addr = Some bc -> bc_client_id (bc_info bc) = Some id -> id <> [] ->
  ends (BrokerSubs_EndClientSession addr) (fun _ br' => released addr br br' /\
    br_orphans br' = others id (br_orphans br)) br.
Proof.
  intros Hok Hat Eid Hid. unfold BrokerSubs_EndClientSession. apply ends_bind.
  eapply ends_mono; [eapply ends_conj; [by apply RemoveClient_ends|by eapply RemoveClient_released]|].
  intros _ br1 [[gen E] (Hok1 & Ea & Hout)].
  assert (Hat1 : client_at (br_clients br1) addr = Some (with_info bc (set_sub_count (bc_info bc) 0))).
  { rewrite E. cbn. rewrite client_at_put. cbn. rewrite (client_at_addr _ _ _ Hat), Z.eqb_refl.
    rewrite bool_decide_eq_true_2; [done|]. apply client_at_some. by eexists. }
  assert (Eo : br_orphans br1 = br_orphans br) by by rewrite E.
  apply ends_bind, (ends_deref addr _ _ _ Hat1). cbn [bc_info with_info bc_client_id set_sub_count]. rewrite Eid.
  destruct id as [|c id]; [done|]. apply ends_modify. rewrite <- Eo.
  pose proof (BrokerOrphan_Find_spec (br_orphans br1) (c :: id)) as Hf.
  destruct (BrokerOrphan_Find _ _) as [[[b o] a]|].
  - destruct Hf as (Es & Eo' & _). pose proof (ss_orphans _ Hok1) as Hos. rewrite Es in Hos.
    destruct (BrokerOrphan_DropFull_eq b o a br1 Hos) as [g ->]. split; [split; [|split]|].
    + eapply sessions_ok_step; [exact Hok1|done|apply Hok1|by eapply orphans_remove|apply Hok1|].
      intros x. apply clients_sublist, sublist_filter.
    + done.
    + cbn. intros Hin. apply Hout. eapply clients_sublist; [|exact Hin]. apply sublist_filter.
    + rewrite Es, <- Eo', others_split by apply Hos. done.
  - split; [done|]. by rewrite others_none.
Qed.

(** ** Coming back *)

(** The client [bc] arrives. *)
Definition link_client bc br : Broker Net :=
  set_clients_gen (set_clients br (bc :: br_clients br)) (u32 (br_clients_gen br + 1)).

Lemma link_client_ok bc br :
  sessions_ok br -> (bc_addr bc ∉ addrs (br_clients br)) -> session_ok bc -> sessions_ok (link_client bc br).
Proof.
  intros [Ha Hc Ho Hn Hl] Hnew Hbc. constructor; cbn [br_clients br_orphans br_orphan_count br_next_packet_id
    br_subs link_client set_clients set_clients_gen addrs map]; try done; [by constructor|by constructor|].
  intros a Hin. right. auto.
Qed.

Lemma filter_addrs addr (cs : list (BrokerClient Net)) :
  addrs (base.filter (fun c => bc_addr c <> addr) cs) `sublist_of` addrs cs.
Proof. apply fmap_sublist, sublist_filter. Qed.

Lemma BrokerClient_Remove_ok addr br br0 :
  released addr br0 br -> ends (BrokerClient_Remove addr) (fun _ br' => sessions_ok br' /\
    br_subs br' = br_subs br /\ (addr ∉ addrs (br_clients br'))) br.
Proof.
  intros (Hok & _ & Hout). unfold BrokerClient_Remove. apply ends_modify.
  destruct (client_at (br_clients br) addr) as [bc|] eqn:Hat.
  - split; [|split; [done|]].
    + destruct Hok as [Ha Hc Ho Hn Hl]. constructor; cbn [br_clients br_orphans br_orphan_count br_next_packet_id
        br_subs set_clients set_clients_gen]; try done.
      * eapply sublist_NoDup; [exact Ha|apply filter_addrs].
      * apply list.Forall_forall. intros c [_ Hin]%list_elem_of_filter. rewrite list.Forall_forall in Hc. auto.
      * intros a Hin. specialize (Hl a Hin). apply list_elem_of_fmap in Hl as (c & -> & Hc').
        apply list_elem_of_fmap. exists c. split; [done|]. apply list_elem_of_filter. split; [|done]. intros E. by rewrite E in Hin.
    + intros (c & E & [Hc _]%list_elem_of_filter)%list_elem_of_fmap. congruence.
  - split; [done|]. split; [done|]. intros Hin%client_at_some. rewrite Hat in Hin. by destruct Hin.
Qed.

(** [s] belongs to the session [id]. *)
Definition belongs (cs : list (BrokerClient Net)) (id : list Z) (s : BrokerSub) : bool :=
  match sub_belongs cs id s with Ok b => b | _ => false end.

Definition reassociate cs (id : list Z) (addr : Z) (s : BrokerSub) : BrokerSub :=
  if belongs cs id s then set_sub_client s (Some addr) else s.

Lemma subs_reassociate_spec cs id addr subs :
  (forall a, Some a ∈ map sub_client subs -> a ∈ addrs cs) ->
  subs_reassociate cs id addr subs =
    Ok (map (reassociate cs id addr) subs, len (base.filter (fun s => belongs cs id s = true) subs)).
Proof.
  induction subs as [|s subs IH]; intros Hl; [done|]. cbn [subs_reassociate map].
  rewrite IH by (intros a Ha; apply Hl; cbn; by right).
  assert (Hs : exists b, sub_belongs cs id s = Ok b).
  { unfold sub_belongs. destruct (sub_client s) as [a|] eqn:E; [|by eexists].
    destruct (proj1 (client_at_some cs a)) as [c ->]; [apply Hl; cbn; rewrite E; by left|]. by eexists. }
  destruct Hs as [b Hs]. assert (Hb : belongs cs id s = b) by (unfold belongs; by rewrite Hs).
  rewrite Hs, filter_cons. unfold reassociate at 2. rewrite Hb. cbn [mbind result_bind].
  destruct b; cbn [decide]; [|by destruct (decide _)].
  destruct (decide _) as [_|[]]; [|done]. rewrite len_cons. do 2 f_equal. lia.
Qed.

Lemma reassociate_in cs id addr subs a :
  Some a ∈ map sub_client (map (reassociate cs id addr) subs) -> a = addr \/ Some a ∈ map sub_client subs.
Proof.
  rewrite map_map. intros (s & E & Hs)%list_elem_of_fmap. unfold reassociate in E.
  destruct (belongs cs id s); cbn in E; [left; congruence|]. right. apply list_elem_of_fmap. by exists s.
Qed.

(** The client with [n] more subscriptions. *)
Definition more_subs bc (n : Z) : BrokerClient Net :=
  with_info bc (set_sub_count (bc_info bc) (bc_sub_count (bc_info bc) + n)).

Lemma BrokerSubs_ReassociateClient_ok id addr bc br :
  sessions_ok br -> client_at (br_clients br) addr = Some bc -> id <> [] ->
  ends (BrokerSubs_ReassociateClient id addr) (fun n br' => sessions_ok br' /\
    n = len (base.filter (fun s => belongs (br_clients br) id s = true) (br_subs br)) /\
    br' = set_clients (set_subs br (map (reassociate (br_clients br) id addr) (br_subs br)) (br_subs_gen br))
            (if 0 <? n then client_put (br_clients br) (more_subs bc n) else br_clients br)) br.
Proof.
  intros Hok Hat Hid. unfold BrokerSubs_ReassociateClient. destruct id as [|c id]; [done|].
  apply ends_bind, ends_get, ends_bind. eapply ends_of_result; [apply subs_reassociate_spec, Hok|].
  apply ends_bind, ends_modify.
  set (subs := map _ _). set (n := len _).
  assert (Hin : addr ∈ addrs (br_clients br)) by (apply client_at_some; by eexists).
  assert (Hstep : forall cs, addrs cs = addrs (br_clients br) -> Forall session_ok cs ->
            sessions_ok (set_clients (set_subs br subs (br_subs_gen br)) cs)).
  { intros cs E Hc. destruct Hok as [Ha _ Ho Hn Hl].
    constructor; cbn [br_clients br_orphans br_orphan_count br_next_packet_id br_subs set_clients set_subs];
      rewrite ?E; try done. intros a [->|Hs]%reassociate_in; [done|auto]. }
  destruct (0 <? n) eqn:En.
  - apply ends_bind, (ends_deref addr bc); [done|]. apply ends_bind, ends_modify, ends_ret.
    split; [|split; [done|by rewrite En]]. apply Hstep; [apply addrs_put|]. apply Forall_put; [apply Hok|].
    by eapply session_ok_at in Hat.
  - apply ends_ret. split; [|split; [done|rewrite En; by destruct br]].
    apply (Hstep (br_clients br)); [done|apply Hok].
Qed.

Lemma reclaim_session_ok bc o : orphan_ok o -> session_ok (reclaim_session bc o).
Proof. intros [_ Hq HT]. split; [by apply reclaim_outq_ok|done]. Qed.

Lemma BrokerOrphan_Reclaim_ok addr bc id br :
  sessions_ok br -> client_at (br_clients br) addr = Some bc -> bc_client_id (bc_info bc) = Some id -> id <> [] ->
  ends (BrokerOrphan_Reclaim addr) (fun ok br' => sessions_ok br' /\
    (ok = false -> br' = br /\ (id ∉ map o_client_id (br_orphans br))) /\
    (ok = true -> exists o, o ∈ br_orphans br /\ o_client_id o = id /\
       br' = set_orphans (set_clients br (client_put (br_clients br) (reclaim_session bc o)))
               (others id (br_orphans br)) (br_orphan_count br - 1))) br.
Proof.
  intros Hok Hat Eid Hid. unfold BrokerOrphan_Reclaim. apply ends_bind, (ends_deref addr bc); [done|].
  rewrite Eid. destruct id as [|c id]; [done|]. apply ends_bind, ends_get.
  pose proof (BrokerOrphan_Find_spec (br_orphans br) (c :: id)) as Hf.
  destruct (BrokerOrphan_Find _ _) as [[[b o] a]|]; [|by apply ends_ret].
  destruct Hf as (Es & <- & _). pose proof (ss_orphans _ Hok) as Hos. rewrite Es in Hos.
  apply ends_bind, ends_modify, ends_bind, ends_modify, ends_ret. rewrite BrokerOrphan_Remove_eq by done.
  assert (Ho : orphan_ok o) by (pose proof (or_each _ _ Hos) as H; apply Forall_app in H as [_ [H _]%list.Forall_cons]; done).
  split; [|split; [done|]].
  - eapply sessions_ok_step; [exact Hok|apply addrs_put| |by eapply orphans_remove|apply Hok|done].
    apply Forall_put; [apply Hok|by apply reclaim_session_ok].
  - intros _. exists o. split; [rewrite Es; apply elem_of_app; right; by left|]. split; [done|].
    rewrite Es, others_split by apply Hos. done.
Qed.

Lemma BrokerOrphan_Enqueue_ok now br before o after topic payload n qos retain props :
  sessions_ok br -> br_orphans br = before ++ o :: after -> 0 <= qos <= MQTT_QOS_2 ->
  payload_fits payload n -> Forall prop_fits props ->
  ends (BrokerOrphan_Enqueue now (before, o, after) topic payload n qos retain props) (fun _ => sessions_ok) br.
Proof.
  intros Hok Es Hqos Hpay Hprops. unfold BrokerOrphan_Enqueue.
  destruct (Z.eqb_spec qos MQTT_QOS_0) as [|Hq]; [by apply ends_ret|].
  pose proof (ss_orphans _ Hok) as Hos. rewrite Es in Hos.
  assert (Ho : orphan_ok o) by (pose proof (or_each _ _ Hos) as H; apply Forall_app in H as [_ [H _]%list.Forall_cons]; done).
  apply ends_bind, ends_get, ends_bind.
  edestruct (orphan_enqueue_spec (br_mem br) (br_next_packet_id br) now (o_protocol_level o) (o_outq o)
               topic payload n qos retain props) as (q & mem & next & gone & kept & E & Hoq & Hnx & _);
    [apply Ho|apply Hok|lia|done|done|].
  eapply ends_of_result; [exact E|]. apply ends_modify.
  eapply sessions_ok_step; [exact Hok|done|apply Hok|by apply orphans_queue|done|done].
Qed.

Lemma BrokerOrphan_ExpireSweep_ok now br :
  sessions_ok br -> ends (BrokerOrphan_ExpireSweep now) (fun _ br' => sessions_ok br' /\ exists gen,
    br' = with_sessions br (live_subs now (br_orphans br) (br_subs br)) gen (live_orphans now (br_orphans br))
            (len (live_orphans now (br_orphans br)))) br.
Proof.
  intros Hok. unfold BrokerOrphan_ExpireSweep. apply ends_bind, ends_get.
  destruct (expire_loop_spec (S (length (br_orphans br))) now br) as (gen & E & Hos); [lia|apply Hok|].
  apply ends_bind, (ends_of_result _ _ _ _ E), ends_modify. split; [|by exists gen].
  eapply sessions_ok_step; [exact Hok|done|apply Hok|exact Hos|apply Hok|].
  intros a. apply clients_sublist, sublist_filter.
Qed.

(** ** Steps *)

(** What happens to sessions: a client arrives with an empty session, its
    connection ends and the session is kept or ended, it takes over the
    session's subscriptions and queue, a message is queued for a session
    without a connection, sessions expire. *)
Inductive SessionEvent : Type :=
  | Ses_Connect (bc : BrokerClient Net)
  | Ses_Keep (now addr : Z)
  | Ses_End (addr : Z)
  | Ses_Reassociate (addr : Z)
  | Ses_Reclaim (addr : Z)
  | Ses_Publish (now : Z) (id topic : list Z) (payload : option (list Z)) (payload_len qos retain : Z)
      (props : list MqttProp)
  | Ses_Expire (now : Z).

Definition session_op (ev : SessionEvent) : B Net unit :=
  match ev with
  | Ses_Connect bc => modify (link_client bc)
  | Ses_Keep now addr => _ ← BrokerSubs_OrphanClient now addr; BrokerClient_Remove addr
  | Ses_End addr => _ ← BrokerSubs_EndClientSession addr; BrokerClient_Remove addr
  | Ses_Reassociate addr =>
      bc ← deref addr;
      match bc_client_id (bc_info bc) with
      | Some id => _ ← BrokerSubs_ReassociateClient id addr; mret tt
      | None => mret tt
      end
  | Ses_Reclaim addr => _ ← BrokerOrphan_Reclaim addr; mret tt
  | Ses_Publish now id topic payload n qos retain props =>
      br ← get;
      match BrokerOrphan_Find (br_orphans br) id with
      | Some node => BrokerOrphan_Enqueue now node topic payload n qos retain props
      | None => mret tt
      end
  | Ses_Expire now => BrokerOrphan_ExpireSweep now
  end.

(** The client is linked and has an identifier. *)
Definition identified (addr : Z) br : Prop :=
  exists bc id, client_at (br_clients br) addr = Some bc /\ bc_client_id (bc_info bc) = Some id /\ id <> [].

Definition possible (ev : SessionEvent) br : Prop :=
  match ev with
  | Ses_Connect bc => (bc_addr bc ∉ addrs (br_clients br)) /\ session_ok bc
  | Ses_Keep _ addr | Ses_End addr | Ses_Reassociate addr | Ses_Reclaim addr => identified addr br
  | Ses_Publish _ _ _ payload n qos _ props =>
      0 <= qos <= MQTT_QOS_2 /\ payload_fits payload n /\ Forall prop_fits props
  | Ses_Expire _ => True
  end.

Definition session_step br br' : Prop := exists ev, possible ev br /\ session_op ev br = Ok (tt, br').

Lemma session_op_ok ev br :
  sessions_ok br -> possible ev br -> ends (session_op ev) (fun _ => sessions_ok) br.
Proof.
  intros Hok Hev. destruct ev as [bc|now addr|addr|addr|addr|now id topic payload n qos retain props|now];
    cbn [possible session_op] in *.
  - destruct Hev. by apply ends_modify, link_client_ok.
  - destruct Hev as (bc & id & Hat & Eid & Hid). apply ends_bind.
    eapply ends_mono; [by eapply BrokerSubs_OrphanClient_ok|]. intros _ br1 [Hrel _].
    eapply ends_mono; [by eapply BrokerClient_Remove_ok|]. by intros _ br2 [H _].
  - destruct Hev as (bc & id & Hat & Eid & Hid). apply ends_bind.
    eapply ends_mono; [by eapply BrokerSubs_EndClientSession_ok|]. intros _ br1 [Hrel _].
    eapply ends_mono; [by eapply BrokerClient_Remove_ok|]. by intros _ br2 [H _].
  - destruct Hev as (bc & id & Hat & Eid & Hid). apply ends_bind, (ends_deref addr bc); [done|]. rewrite Eid.
    apply ends_bind. eapply ends_mono; [by eapply BrokerSubs_ReassociateClient_ok|].
    intros n br1 [H _]. by apply ends_ret.
  - destruct Hev as (bc & id & Hat & Eid & Hid). apply ends_bind.
    eapply ends_mono; [by eapply BrokerOrphan_Reclaim_ok|]. intros n br1 [H _]. by apply ends_ret.
  - destruct Hev as (Hqos & Hpay & Hprops). apply ends_bind, ends_get.
    pose proof (BrokerOrphan_Find_spec (br_orphans br) id) as Hf.
    destruct (BrokerOrphan_Find _ _) as [[[b o] a]|]; [|by apply ends_ret]. destruct Hf as (Es & _ & _).
    by apply BrokerOrphan_Enqueue_ok.
  - eapply ends_mono; [by apply BrokerOrphan_ExpireSweep_ok|]. by intros _ br1 [H _].
Qed.

Lemma session_steps_ok br br' : rtc session_step br br' -> sessions_ok br -> sessions_ok br'.
Proof.
  induction 1 as [|br br1 br2 (ev & Hp & E) _ IH]; [done|]. intros Hok. apply IH.
  destruct (session_op_ok ev br Hok Hp) as (u & br1' & E' & H). rewrite E in E'. by injection E' as _ <-.
Qed.

(** ** A session across connections *)

(** The connection of [addr] ends, then [new_bc] arrives and takes the session
    over, as [BrokerHandle_Connect] does. *)
Definition reconnect (now addr : Z) (id : list Z) new_bc : B Net (Z * bool) :=
  _ ← BrokerSubs_OrphanClient now addr;
  _ ← BrokerClient_Remove addr;
  _ ← modify (link_client new_bc);
  n ← BrokerSubs_ReassociateClient id (bc_addr new_bc);
  ok ← BrokerOrphan_Reclaim (bc_addr new_bc);
  mret (n, ok).

(** What the reconnection makes of a subscription. *)
Definition resumed_sub (addr : Z) (id : list Z) (new_addr : Z) (s : BrokerSub) : BrokerSub :=
  if of_client addr s || orphan_sub id s then set_sub_client s (Some new_addr) else s.

(** [addr] is the client of the session [id]. *)
Record owns br (addr : Z) (id : list Z) : Prop := {
  ow_subs : forall s, s ∈ br_subs br -> sub_client s = Some addr -> sub_client_id s = Some id;
  ow_client : forall c, c ∈ br_clients br -> bc_client_id (bc_info c) = Some id -> bc_addr c = addr
}.

Lemma filter_put addr (cs : list (BrokerClient Net)) bc :
  bc_addr bc = addr ->
  base.filter (fun c => bc_addr c <> addr) (client_put cs bc) = base.filter (fun c => bc_addr c <> addr) cs.
Proof.
  intros E. induction cs as [|c cs IH]; [done|]. cbn [client_put].
  destruct (Z.eqb_spec (bc_addr c) (bc_addr bc)) as [Ec|Ec].
  - by rewrite !filter_cons_False by (intros H; apply H; congruence).
  - by rewrite !filter_cons_True, IH by congruence.
Qed.

Lemma client_at_filter addr (cs : list (BrokerClient Net)) a :
  a <> addr -> client_at (base.filter (fun c => bc_addr c <> addr) cs) a = client_at cs a.
Proof.
  intros Ha. induction cs as [|c cs IH]; [done|]. rewrite filter_cons. cbn [client_at].
  destruct (decide (bc_addr c <> addr)) as [Hc|Hc]; cbn [client_at]; [by rewrite IH|].
  rewrite IH. assert (bc_addr c = addr) as -> by (destruct (decide (bc_addr c = addr)); tauto).
  by rewrite (proj2 (Z.eqb_neq _ _)) by congruence.
Qed.

Lemma resumed_spec br addr id new_bc s :
  sessions_ok br -> owns br addr id -> id <> [] -> (bc_addr new_bc ∉ addrs (br_clients br)) -> s ∈ br_subs br ->
  reassociate (new_bc :: base.filter (fun c => bc_addr c <> addr) (br_clients br)) id (bc_addr new_bc) (detach addr s) =
    resumed_sub addr id (bc_addr new_bc) s /\
  belongs (new_bc :: base.filter (fun c => bc_addr c <> addr) (br_clients br)) id (detach addr s) =
    of_client addr s || orphan_sub id s.
Proof.
  intros Hok [Ho Hc] Hid Hnew Hs.
  assert (Hb : belongs (new_bc :: base.filter (fun c => bc_addr c <> addr) (br_clients br)) id (detach addr s) =
               of_client addr s || orphan_sub id s).
  { unfold belongs, sub_belongs, detach, of_client, orphan_sub.
    destruct (decide (sub_client s = Some addr)) as [E|E].
    - rewrite bool_decide_eq_true_2 by done. cbn. rewrite (Ho s Hs E), bool_decide_eq_true_2 by done. by destruct id.
    - rewrite (bool_decide_eq_false_2 (sub_client s = Some addr)) by done. cbn [orb].
      destruct (sub_client s) as [a|] eqn:Ea.
      + rewrite (bool_decide_eq_false_2 (Some a = None)) by done. cbn [andb client_at].
        assert (Hin : a ∈ addrs (br_clients br)).
        { apply (ss_linked _ Hok). apply list_elem_of_fmap. by exists s. }
        destruct (Z.eqb_spec (bc_addr new_bc) a) as [<-|]; [done|]. rewrite client_at_filter by congruence.
        destruct (client_at (br_clients br) a) as [c|] eqn:Hat; [|done].
        apply bool_decide_eq_false_2. intros Ec. apply E. f_equal.
        rewrite <- (Hc c (client_at_in _ _ _ Hat) Ec). symmetry. by eapply client_at_addr.
      + rewrite (bool_decide_eq_true_2 (None = None)) by done. cbn [andb].
        destruct (decide (sub_client_id s = Some id)) as [Es|Es].
        * rewrite Es, bool_decide_eq_true_2 by done. by destruct id.
        * rewrite bool_decide_eq_false_2 by done. by rewrite andb_false_r. }
  split; [|exact Hb]. unfold reassociate, resumed_sub. rewrite Hb. unfold detach.
  destruct (of_client addr s); cbn [orb]; [done|]. by destruct (orphan_sub id s).
Qed.

Lemma resumed_subs br addr id new_bc :
  sessions_ok br -> owns br addr id -> id <> [] -> (bc_addr new_bc ∉ addrs (br_clients br)) ->
  let cs := new_bc :: base.filter (fun c => bc_addr c <> addr) (br_clients br) in
  map (reassociate cs id (bc_addr new_bc)) (map (detach addr) (br_subs br)) =
    map (resumed_sub addr id (bc_addr new_bc)) (br_subs br) /\
  len (base.filter (fun s => belongs cs id s = true) (map (detach addr) (br_subs br))) =
    len (base.filter (fun s => of_client addr s || orphan_sub id s = true) (br_subs br)).
Proof.
  intros Hok Ho Hid Hnew cs.
  assert (H : forall s, s ∈ br_subs br -> reassociate cs id (bc_addr new_bc) (detach addr s) =
      resumed_sub addr id (bc_addr new_bc) s /\ belongs cs id (detach addr s) = of_client addr s || orphan_sub id s)
    by (intros s Hs; by apply resumed_spec).
  induction (br_subs br) as [|s subs IH]; [done|]. destruct (H s ltac:(by left)) as [H1 H2].
  destruct IH as [I1 I2]; [intros s' Hs'; apply H; by right|]. split.
  - cbn [map]. by rewrite H1, I1.
  - cbn [map]. rewrite !filter_cons. rewrite H2.
    destruct (of_client addr s || orphan_sub id s); destruct (decide (_ = true)) as [?|?];
      try done; try (by rewrite !len_cons, I2).
Qed.

Lemma BrokerClient_Remove_eq addr br :
  addr ∈ addrs (br_clients br) ->
  ends (BrokerClient_Remove addr) (fun _ br' =>
    br' = set_clients_gen (set_clients br (base.filter (fun c => bc_addr c <> addr) (br_clients br)))
            (u32 (br_clients_gen br + 1))) br.
Proof.
  intros Hin. unfold BrokerClient_Remove. apply ends_modify.
  apply client_at_some in Hin as [bc ->]. done.
Qed.

Lemma more_subs_0 bc : more_subs bc 0 = bc.
Proof. destruct bc as [a [] ? ? ? ?]. unfold more_subs. cbn. by rewrite Z.add_0_r. Qed.

Lemma taken_id now id bc : o_client_id (taken now id bc) = id.
Proof. unfold taken. by destruct (take_session bc) as [[? ?] ?]. Qed.

(** The second half of [reconnect]: [br] has the session of [o] as an orphan. *)
Lemma resume_ok id new_bc o br :
  sessions_ok br -> br_orphans br = o :: others id (br_orphans br) -> o_client_id o = id -> id <> [] ->
  (bc_addr new_bc ∉ addrs (br_clients br)) -> session_ok new_bc -> bc_client_id (bc_info new_bc) = Some id ->
  let cs := new_bc :: br_clients br in
  let n := len (base.filter (fun s => belongs cs id s = true) (br_subs br)) in
  ends (_ ← modify (link_client new_bc);
        n ← BrokerSubs_ReassociateClient id (bc_addr new_bc);
        ok ← BrokerOrphan_Reclaim (bc_addr new_bc);
        mret (n, ok))
    (fun r br' => r = (n, true) /\ sessions_ok br' /\
       br_clients br' = reclaim_session (more_subs new_bc n) o :: br_clients br /\
       br_subs br' = map (reassociate cs id (bc_addr new_bc)) (br_subs br) /\
       br_orphans br' = others id (br_orphans br)) br.
Proof.
  intros Hok Eos Eo Hid Hnew Hses Enew cs n. apply ends_bind, ends_modify, ends_bind.
  pose proof (link_client_ok new_bc br Hok Hnew Hses) as Hok1.
  assert (Hat1 : client_at (br_clients (link_client new_bc br)) (bc_addr new_bc) = Some new_bc)
    by (cbn; by rewrite Z.eqb_refl).
  eapply ends_mono; [by apply (BrokerSubs_ReassociateClient_ok id _ new_bc)|].
  intros k br2 (Hok2 & Ek & E2). change (k = n) in Ek. subst k.
  assert (Ecs : br_clients br2 = more_subs new_bc n :: br_clients br).
  { rewrite E2. cbn [br_clients set_clients set_subs link_client set_clients_gen client_put].
    destruct (0 <? n) eqn:En.
    - change (bc_addr (more_subs new_bc n)) with (bc_addr new_bc). by rewrite Z.eqb_refl.
    - pose proof (len_nonneg (base.filter (fun s => belongs cs id s = true) (br_subs br))) as Hn.
      fold n in Hn. apply Z.ltb_ge in En. assert (n = 0) as -> by lia. by rewrite more_subs_0. }
  assert (Eor : br_orphans br2 = br_orphans br) by by rewrite E2.
  assert (Hat2 : client_at (br_clients br2) (bc_addr new_bc) = Some (more_subs new_bc n)).
  { rewrite Ecs. cbn [client_at]. change (bc_addr (more_subs new_bc n)) with (bc_addr new_bc). by rewrite Z.eqb_refl. }
  apply ends_bind. eapply ends_mono; [by apply (BrokerOrphan_Reclaim_ok _ _ id br2 Hok2 Hat2)|].
  intros ok br3 (Hok3 & Hno & Hyes). apply ends_ret. destruct ok.
  - destruct (Hyes eq_refl) as (o' & Hin & Eid & E3). split; [done|]. split; [done|].
    rewrite Eor, Eos in Hin. apply elem_of_cons in Hin as [->|Hin].
    2: { destruct (others_out id (br_orphans br)). rewrite <- Eid at 1. apply list_elem_of_fmap. by exists o'. }
    rewrite E3. cbn [br_clients br_subs br_orphans set_orphans set_clients]. split_and!.
    + rewrite Ecs. cbn [client_put]. change (bc_addr (reclaim_session _ _)) with (bc_addr new_bc).
      change (bc_addr (more_subs new_bc n)) with (bc_addr new_bc). by rewrite Z.eqb_refl.
    + by rewrite E2.
    + by rewrite Eor.
  - destruct (Hno eq_refl) as [_ Hout]. destruct Hout. rewrite Eor, Eos. cbn [map]. rewrite Eo. by left.
Qed.

(** What [reconnect] does when nothing is in its way. *)
Lemma reconnect_ok now addr id bc new_bc br :
  sessions_ok br -> br_mem br = [] -> owns br addr id ->
  client_at (br_clients br) addr = Some bc -> bc_client_id (bc_info bc) = Some id -> id <> [] ->
  len (others id (br_orphans br)) < BROKER_MAX_PERSIST_SESSIONS ->
  (bc_addr new_bc ∉ addrs (br_clients br)) -> session_ok new_bc -> bc_client_id (bc_info new_bc) = Some id ->
  let n := len (base.filter (fun s => of_client addr s || orphan_sub id s = true) (br_subs br)) in
  ends (reconnect now addr id new_bc) (fun r br' => r = (n, true) /\ sessions_ok br' /\
    br_clients br' = reclaim_session (more_subs new_bc n) (taken now id bc) ::
      base.filter (fun c => bc_addr c <> addr) (br_clients br) /\
    br_subs br' = map (resumed_sub addr id (bc_addr new_bc)) (br_subs br) /\
    br_orphans br' = others id (br_orphans br)) br.
Proof.
  intros Hok Hmem Ho Hat Eid Hid Hroom Hnew Hses Enew n. unfold reconnect.
  apply ends_bind. eapply ends_mono; [by eapply BrokerSubs_OrphanClient_ok|].
  intros _ br1 [Hrel Hexact]. destruct (Hexact Hmem) as (subs & gen & os & m & [Hos Hm Hout Hsubs _ Hkept] & E1).
  destruct (Hkept Hroom) as [-> ->]. apply ends_bind.
  eapply ends_mono; [eapply ends_conj; [by eapply BrokerClient_Remove_ok|apply BrokerClient_Remove_eq]|].
  { destruct Hrel as (_ & -> & _). apply client_at_some. by eexists. }
  intros _ br2 [(Hok2 & _ & _) E2].
  assert (Ecs : br_clients br2 = base.filter (fun c => bc_addr c <> addr) (br_clients br)).
  { rewrite E2, E1. cbn [br_clients set_clients_gen set_clients]. apply filter_put.
    rewrite (proj1 (emptied_same bc)). by eapply client_at_addr. }
  assert (Esubs : br_subs br2 = map (detach addr) (br_subs br)) by by rewrite E2, E1.
  assert (Eor : br_orphans br2 = taken now id bc :: others id (br_orphans br)) by by rewrite E2, E1.
  assert (Eoth : others id (br_orphans br2) = others id (br_orphans br)).
  { rewrite Eor. unfold others at 1. rewrite filter_cons_False by (rewrite taken_id; tauto).
    apply (others_none id (others id (br_orphans br))), others_out. }
  destruct (resumed_subs br addr id new_bc Hok Ho Hid Hnew) as [Hr Hn].
  eapply ends_mono; [apply (resume_ok id new_bc (taken now id bc) br2 Hok2)|].
  - by rewrite Eoth.
  - apply taken_id.
  - done.
  - rewrite Ecs. intros Hin. apply Hnew. eapply elem_of_submseteq; [exact Hin|].
    apply sublist_submseteq, filter_addrs.
  - done.
  - done.
  - rewrite Ecs, Esubs, Eoth, Hn, Hr. cbn. intros r br3 H. exact H.
Qed.
End Operations.

(** ** Properties *)

(** C3: a session survives its connection. When the client of the session [id]
    disconnects (BrokerSubs_OrphanClient, BrokerClient_Remove) and a client with
    the same identifier arrives and takes the session over
    (BrokerSubs_ReassociateClient, BrokerOrphan_Reclaim), then, if no allocation
    fails and there is room for one more session: the session is present, the
    new client has exactly the old client's queued messages in their order,
    except a QoS 0 message that was partly on the wire, those sent and not
    acknowledged marked for another transmission, a valid queue, the same
    inbound QoS 2 identifiers, and every subscription of the session; no other
    client, subscription or session changes and none refers to the old client. *)
Theorem Session_survives {Net} now addr id (bc new_bc : BrokerClient Net) (br : Broker Net) :
  sessions_ok br -> br_mem br = [] -> owns br addr id ->
  client_at (br_clients br) addr = Some bc -> bc_client_id (bc_info bc) = Some id -> id <> [] ->
  len (others id (br_orphans br)) < BROKER_MAX_PERSIST_SESSIONS ->
  (bc_addr new_bc ∉ addrs (br_clients br)) -> session_ok new_bc -> bc_client_id (bc_info new_bc) = Some id ->
  let n := len (base.filter (fun s => of_client addr s || orphan_sub id s = true) (br_subs br)) in
  exists br' bc', reconnect now addr id new_bc br = Ok ((n, true), br') /\ sessions_ok br' /\
    br_clients br' = bc' :: base.filter (fun c => bc_addr c <> addr) (br_clients br) /\
    bc_addr bc' = bc_addr new_bc /\
    out_q (bc_outq bc') = map reclaim_entry (kept_messages bc) /\ outq_ok (bc_outq bc') /\
    bc_qos2 bc' = bc_qos2 bc /\ bc_sub_count (bc_info bc') = bc_sub_count (bc_info new_bc) + n /\
    br_subs br' = map (resumed_sub addr id (bc_addr new_bc)) (br_subs br) /\
    br_orphans br' = others id (br_orphans br).
Proof.
  intros Hok Hmem Ho Hat Eid Hid Hroom Hnew Hses Enew n.
  destruct (reconnect_ok now addr id bc new_bc br Hok Hmem Ho Hat Eid Hid Hroom Hnew Hses Enew)
    as (r & br' & E & -> & Hok' & Ecs & Esubs & Eor).
  exists br'. eexists. split; [exact E|]. split; [done|]. split; [exact Ecs|].
  pose proof (ss_clients _ Hok') as Hcs. rewrite Ecs in Hcs. apply list.Forall_cons in Hcs as [[Hq _] _].
  unfold taken in *. pose proof (take_session_spec bc) as Hs. destruct (take_session bc) as [[q qos2] bc1].
  destruct Hs as (Eq & -> & _).
  split_and!; [done|cbn; by rewrite Eq|done|done| |done|done].
  cbn. by destruct (_ =? _).
Qed.

(** A client with half a QoS 0 message on the wire. *)
Definition ex_session (addr : Z) (id : list Z) (q : list BrokerOutPub) (inflt pos : Z) : BrokerClient unit :=
  mkClient addr (mkInfo 5 (Some id) 4 0 0 0 1 1 NEVER_EXPIRES 1 0) ex_will (mkQos2 [] 0)
    (mkOutQ q (len q) inflt 0)
    (mkLink tt (mkWrite pos 0 0 0 0) [] (mkIO MQTT_PK_BEGIN 0 0 0 0 []) 0 0 0).

Definition ex_sessions (mem : heap) : Broker unit :=
  mkBroker mem 30 [ex_session 1 [97] ex_queue 2 3] 0 [mkSub [35] (Some [97]) (Some 1) 1] 0 (mkRt [] 0 0) [] [] 0 1 1.

Lemma ex_session_ok : session_ok (ex_session 1 [97] ex_queue 2 3).
Proof.
  split; [exact ex_queue_ok|exists ∅; apply qos2_rep_empty].
Qed.

Lemma ex_sessions_ok mem : sessions_ok (ex_sessions mem).
Proof.
  constructor; [by_eval|apply List.Forall_cons; [apply ex_session_ok|apply List.Forall_nil]| |done|].
  - constructor; [done|done|by constructor|by constructor].
  - cbn. intros a [[= ->]|[]%elem_of_nil]%elem_of_cons. by left.
Qed.

Lemma Session_survives_witness :
  exists br' bc', reconnect 9 1 [97] (ex_session 2 [97] [] 0 0) (ex_sessions []) = Ok ((1, true), br') /\
    br_clients br' = [bc'] /\
    out_q (bc_outq bc') = [ex_entry 2 5 1 BROKER_OUTQ_PUBREL_SENT []; ex_entry 1 7 1 BROKER_OUTQ_QUEUED [104; 105];
                           ex_entry 1 8 0 BROKER_OUTQ_QUEUED [121]] /\
    br_subs br' = [mkSub [35] (Some [97]) (Some 2) 1].
Proof.
  assert (Ho : owns (ex_sessions []) 1 [97]).
  { constructor; cbn.
    - by intros s [->|[]%elem_of_nil]%elem_of_cons.
    - by intros c [->|[]%elem_of_nil]%elem_of_cons. }
  destruct (Session_survives 9 1 [97] (ex_session 1 [97] ex_queue 2 3) (ex_session 2 [97] [] 0 0) _
              (ex_sessions_ok []) eq_refl Ho eq_refl eq_refl ltac:(done) ltac:(by_eval) ltac:(by_eval)
              (conj empty_queue_ok (ex_intro _ ∅ qos2_rep_empty)) eq_refl)
    as (br' & bc' & E & _ & Ecs & _ & Eq & _ & _ & _ & Esubs & _).
  exists br', bc'. split; [exact E|]. split; [exact Ecs|]. split; [exact Eq|exact Esubs].
Defined.

(** C4: sessions stay consistent. From a state in which they are, whatever
    arrives next - clients, ends of connections that keep or end the session,
    take-overs, messages for sessions without a connection, expiry - with
    allocations failing at any point, no operation has undefined behaviour or
    fails to end, and always: no subscription refers to a freed client; the
    orphan list has as many sessions as orphan_session_count says, at most
    BROKER_MAX_PERSIST_SESSIONS, one for an identifier; and the outbound queue
    and QoS 2 identifiers of every client and every orphan are valid. *)
Theorem Sessions_invariant {Net} (br br' : Broker Net) :
  sessions_ok br -> rtc session_step br br' ->
  sessions_ok br' /\ forall ev, possible ev br' -> exists br'', session_op ev br' = Ok (tt, br'').
Proof.
  intros Hok Hsteps. pose proof (session_steps_ok _ _ Hsteps Hok) as Hok'. split; [done|].
  intros ev Hev. destruct (session_op_ok ev br' Hok' Hev) as ([] & br'' & E & _). by exists br''.
Qed.

Lemma Sessions_invariant_witness :
  exists br', rtc session_step (ex_sessions [true; true; false]) br' /\ sessions_ok br' /\
    length (br_orphans br') = 1%nat.
Proof.
  assert (Hs : exists br', rtc session_step (ex_sessions [true; true; false]) br' /\ length (br_orphans br') = 1%nat).
  { eexists. split.
    - eapply rtc_l.
      { exists (Ses_Keep 9 1). split; [by eexists _, [97]|vm_compute; reflexivity]. }
      eapply rtc_l; [|apply rtc_refl]. exists (Ses_Publish 10 [97] [116] None 0 1 0 []).
      split; [cbn; split; [lia|split; [done|constructor]]|vm_compute; reflexivity].
    - vm_compute. reflexivity. }
  destruct Hs as (br' & Hsteps & Hlen). exists br'. split; [exact Hsteps|]. split; [|exact Hlen].
  by apply (Sessions_invariant _ _ (ex_sessions_ok [true; true; false]) Hsteps).
Defined.
