(* ===== verification/BrokerFanout.v ===== *)
(** * BrokerFanout: delivering one message to many clients ([mqtt_broker.c])

    The broker fans a message out in two passes: it collects the subscribers,
    without writing, into a [BrokerFanoutList] that grows by doubling, then
    delivers to one after the other. The second pass is proved for any body:
    deliveries to different clients do not interfere. *)
From S2P Require Import Prelude PacketDefs Wire FixedHeader Props Frame PublishResp Publish PacketIO BrokerDefs BrokerQos2 OutQueue OutStream OutAlloc BrokerState BrokerSend BrokerRetained.

(** ** Operations *)

(** [items] with [count] in use of [cap]; a target is a client and a QoS. *)
Record BrokerFanoutList : Set := mkFanout {
  fl_items : list (Z * Z);
  fl_cap : Z;
  fl_truncated : Z
}.

Definition BrokerFanout_Init (cap : Z) : BrokerFanoutList := mkFanout [] cap 0.

(** [items[count] = ..; count++]. *)
Definition fanout_put (fl : BrokerFanoutList) (client qos : Z) : result BrokerFanoutList :=
  if len (fl_items fl) <? fl_cap fl
  then Ok (mkFanout (fl_items fl ++ [(client, qos)]) (fl_cap fl) (fl_truncated fl)) else UB.

Section Fanout.
Context {Net : Type}.
Implicit Types (br : Broker Net) (bc : BrokerClient Net).

Definition BrokerFanout_Add (fl : BrokerFanoutList) (client qos : Z) : B Net BrokerFanoutList :=
  if negb (fl_truncated fl =? 0) then mret fl
  else if len (fl_items fl) =? fl_cap fl then
    ok ← alloc;
    if negb ok then mret (mkFanout (fl_items fl) (fl_cap fl) 1)
    else of_result (fanout_put (mkFanout (fl_items fl) (fl_cap fl * 2) (fl_truncated fl)) client qos)
  else of_result (fanout_put fl client qos).

Definition BrokerClients_StillLinked br (addr : Z) : bool :=
  existsb (fun c => bc_addr c =? addr) (br_clients br).

(** The second pass: [body] delivers to one client. *)
Fixpoint fanout_deliver (body : Z -> Z -> B Net unit) (clients_gen_snapshot : Z) (targets : list (Z * Z)) : B Net unit :=
  match targets with
  | [] => mret tt
  | (wc, eff_qos) :: targets =>
    br ← get;
    _ ← (if negb (br_clients_gen br =? clients_gen_snapshot) && negb (BrokerClients_StillLinked br wc)
         then mret tt else body wc eff_qos);
    fanout_deliver body clients_gen_snapshot targets
  end.
End Fanout.

(** ** Collecting *)

Record fanout_ok (fl : BrokerFanoutList) : Prop := {
  fo_room : len (fl_items fl) <= fl_cap fl;
  fo_cap : 0 < fl_cap fl
}.

(** [fl] holds the targets [ts], or the first of them if memory ran out. *)
Definition gathered (oom : Prop) (ts : list (Z * Z)) (fl : BrokerFanoutList) : Prop :=
  fanout_ok fl /\ fl_items fl `prefix_of` ts /\
  ((fl_truncated fl = 0 /\ fl_items fl = ts) \/ (fl_truncated fl <> 0 /\ oom)).

Section Collect.
Context {Net : Type}.
Implicit Types (br : Broker Net) (bc : BrokerClient Net).

Lemma gathered_init (oom : Prop) cap : 0 < cap -> gathered oom [] (BrokerFanout_Init cap).
Proof. intros H. split; [constructor; cbn [fl_items fl_cap BrokerFanout_Init]; [rewrite len_nil|]; lia|]. split; [done|by left]. Qed.

Lemma gathered_put (oom : Prop) ts fl client qos :
  gathered oom ts fl -> fl_truncated fl = 0 -> len (fl_items fl) < fl_cap fl ->
  exists fl', fanout_put fl client qos = Ok fl' /\ gathered oom (ts ++ [(client, qos)]) fl'.
Proof.
  intros (Hok & _ & [[Ht <-]|[? _]]) E Hl; [|done]. unfold fanout_put. rewrite (proj2 (Z.ltb_lt _ _)) by done.
  eexists. split; [done|]. split; [constructor; cbn; [rewrite len_app, len_cons, len_nil; lia|by destruct Hok]|].
  split; [done|by left].
Qed.

Lemma BrokerFanout_Add_ok (oom : Prop) ts fl client qos br :
  gathered oom ts fl -> (br_mem br <> [] -> oom) ->
  ends (BrokerFanout_Add fl client qos) (fun fl' br' => exists mem, br' = set_mem br mem /\
    (br_mem br = [] -> mem = []) /\ gathered oom (ts ++ [(client, qos)]) fl') br.
Proof.
  intros Hg Hoom. pose proof Hg as (Hok & Hpre & Hcase). unfold BrokerFanout_Add.
  assert (Esame : br = set_mem br (br_mem br)) by by destruct br.
  destruct (Z.eqb_spec (fl_truncated fl) 0) as [E|E]; cbn [negb].
  - destruct (Z.eqb_spec (len (fl_items fl)) (fl_cap fl)) as [Efull|Efull].
    + apply ends_bind, ends_alloc. intros ok mem Hmem. destruct ok; cbn [negb].
      * destruct (gathered_put oom ts (mkFanout (fl_items fl) (fl_cap fl * 2) (fl_truncated fl)) client qos)
          as (fl' & Eput & Hg').
        { split; [constructor; cbn; pose proof (fo_room _ Hok); pose proof (fo_cap _ Hok); lia|by split]. }
        { done. }
        { cbn. pose proof (fo_cap _ Hok). lia. }
        eapply ends_of_result; [exact Eput|]. exists mem. split; [done|]. split; [by intros ?; apply Hmem|done].
      * apply ends_ret. exists mem. split; [done|]. split; [by intros ?; apply Hmem|].
        split; [by constructor; destruct Hok|]. split; [by apply prefix_app_r|].
        right. split; [done|]. apply Hoom. intros Em. by destruct (Hmem Em).
    + destruct (gathered_put oom ts fl client qos Hg E) as (fl' & Eput & Hg'); [pose proof (fo_room _ Hok); lia|].
      eapply ends_of_result; [exact Eput|]. by exists (br_mem br).
  - apply ends_ret. exists (br_mem br). split; [done|]. split; [done|].
    split; [done|]. split; [by apply prefix_app_r|]. destruct Hcase as [[? _]|?]; [done|by right].
Qed.

Lemma StillLinked_spec br addr : BrokerClients_StillLinked br addr = bool_decide (addr ∈ addrs (br_clients br)).
Proof.
  unfold BrokerClients_StillLinked, addrs. induction (br_clients br) as [|c cs IH]; [done|]. cbn [existsb map].
  rewrite IH. destruct (Z.eqb_spec (bc_addr c) addr) as [<-|E]; cbn [orb].
  - symmetry. apply bool_decide_eq_true_2. by left.
  - apply bool_decide_ext. rewrite elem_of_cons. split; [by right|intros [?|?]; [congruence|done]].
Qed.
End Collect.

(** ** Delivering *)

(** The QoS of the deliveries to one client. *)
Definition due_to (addr : Z) (targets : list (Z * Z)) : list Z :=
  omap (fun t : Z * Z => if t.1 =? addr then Some t.2 else None) targets.

(** A delivery at a QoS may change the receiver by [R]; several, one after the
    other. *)
Inductive deliveries {A} (R : Z -> A -> A -> Prop) : list Z -> A -> A -> Prop :=
  | deliveries_nil a : deliveries R [] a a
  | deliveries_cons q qs a a1 a2 : R q a a1 -> deliveries R qs a1 a2 -> deliveries R (q :: qs) a a2.

Section Deliver.
Context {Net : Type}.
Implicit Types (br : Broker Net) (bc : BrokerClient Net) (cs : list (BrokerClient Net)).

(** What a delivery leaves alone. *)
Definition still bc bc' : Prop :=
  bc_addr bc' = bc_addr bc /\ bc_will bc' = bc_will bc /\ bc_qos2 bc' = bc_qos2 bc /\ connack_of bc' = connack_of bc /\
  (bc_info bc' = bc_info bc \/ bc_info bc' = set_sock (bc_info bc) BROKER_SOCKET_INVALID 0).

Lemma still_refl bc : still bc bc.
Proof. split_and!; try done. by left. Qed.

Lemma still_trans bc bc1 bc2 : still bc bc1 -> still bc1 bc2 -> still bc bc2.
Proof.
  intros (? & ? & ? & ? & Hi) (? & ? & ? & ? & Hi1). split_and!; [congruence..|].
  destruct Hi as [Ei|Ei], Hi1 as [Ei1|Ei1]; rewrite Ei1, Ei; by (left + right).
Qed.

(** All clients after the deliveries to them. *)
Definition delivered_all (R : Z -> BrokerClient Net -> BrokerClient Net -> Prop) (ts : list (Z * Z)) cs cs' : Prop :=
  Forall2 (fun bc bc' => deliveries R (due_to (bc_addr bc) ts) bc bc' /\ still bc bc') cs cs'.

Lemma delivered_all_nil R cs : delivered_all R [] cs cs.
Proof.
  unfold delivered_all. induction cs as [|c cs IH]; constructor; [|done].
  split; [constructor|apply still_refl].
Qed.

Lemma delivered_all_addrs R ts cs cs' : delivered_all R ts cs cs' -> addrs cs' = addrs cs.
Proof.
  induction 1 as [|c c' l l' (_ & Ea & _) _ IH]; [done|]. unfold addrs in *. cbn [map]. by rewrite Ea, IH.
Qed.

(** A target that is none of these clients. *)
Lemma delivered_all_skip R addr q ts cs cs' :
  (addr ∉ addrs cs) -> delivered_all R ts cs cs' -> delivered_all R ((addr, q) :: ts) cs cs'.
Proof.
  intros Hn H. induction H as [|c c' cs cs' [H1 H2] _ IH]; [constructor|].
  cbn [addrs map] in Hn. apply not_elem_of_cons in Hn as [Hne Hn]. constructor; [|by apply IH].
  split; [|done]. unfold due_to. cbn [omap list_omap fst snd]. by rewrite (proj2 (Z.eqb_neq _ _)).
Qed.

Lemma delivered_all_cons R addr q ts cs bc bc1 cs' :
  NoDup (addrs cs) -> client_at cs addr = Some bc -> R q bc bc1 -> still bc bc1 ->
  delivered_all R ts (client_put cs bc1) cs' -> delivered_all R ((addr, q) :: ts) cs cs'.
Proof.
  intros Hn Hat HR Hs. pose proof Hs as (Ea & _). pose proof (client_at_addr _ _ _ Hat) as Ebc.
  revert cs'. induction cs as [|c cs IH]; intros cs' H; [done|].
  cbn [client_at] in Hat. cbn [addrs map] in Hn. apply list.NoDup_cons in Hn as [Hnin Hn].
  cbn [client_put] in H. rewrite Ea, Ebc in H. destruct (Z.eqb_spec (bc_addr c) addr) as [E|E].
  - injection Hat as ->. apply Forall2_cons_inv_l in H as (c' & cs'' & [H1 H1'] & H2 & ->). constructor.
    + split; [|by eapply still_trans]. unfold due_to. cbn [omap list_omap fst snd]. rewrite E, Z.eqb_refl.
      econstructor; [exact HR|]. by rewrite Ea, E in H1.
    + apply delivered_all_skip; [by rewrite <- E|done].
  - apply Forall2_cons_inv_l in H as (c' & cs'' & [H1 H1'] & H2 & ->). constructor; [|by apply IH].
    split; [|done]. unfold due_to. cbn [omap list_omap fst snd]. by rewrite (proj2 (Z.eqb_neq addr (bc_addr c))) by congruence.
Qed.
(** The state with new clients, allocator and [next_packet_id]. *)
Definition with_clients br cs (mem : heap) (next : Z) : Broker Net :=
  set_packet_id (set_mem (set_clients br cs) mem) next.

Lemma with_clients_same br : with_clients br (br_clients br) (br_mem br) (br_next_packet_id br) = br.
Proof. by destruct br. Qed.
End Deliver.

Section Loop.
Context {Net : Type} `{!Sender Net}.
Implicit Types (br : Broker Net) (bc : BrokerClient Net) (cs : list (BrokerClient Net)).

Record fan_ok br : Prop := {
  fk_addrs : NoDup (addrs (br_clients br));
  fk_clients : Forall client_ok (br_clients br);
  fk_next : 0 <= br_next_packet_id br < 65536
}.

(** One client changes. *)
Lemma fan_ok_served br bc mem next :
  fan_ok br -> client_ok bc -> 0 <= next < 65536 -> fan_ok (served br bc mem next).
Proof.
  intros [Ha Hc Hn] Hbc Hnext. constructor; [|by apply Forall_put|done].
  change (NoDup (addrs (client_put (br_clients br) bc))). by rewrite addrs_put.
Qed.

Lemma fan_ok_at br addr bc : fan_ok br -> client_at (br_clients br) addr = Some bc -> client_ok bc.
Proof. intros Hok Hat%client_at_in. pose proof (fk_clients _ Hok) as H. rewrite list.Forall_forall in H. auto. Qed.

(** What [body] does for a target: it changes the client, by [R]. *)
Definition serves (oom : Prop) (R : Z -> BrokerClient Net -> BrokerClient Net -> Prop) (body : Z -> Z -> B Net unit) : Prop :=
  forall addr q bc br,
    client_at (br_clients br) addr = Some bc -> client_ok bc -> 0 <= br_next_packet_id br < 65536 ->
    0 <= q <= MQTT_QOS_2 -> (br_mem br <> [] -> oom) ->
    ends (body addr q) (fun _ br' => exists bc' mem next, br' = served br bc' mem next /\ client_ok bc' /\
      still bc bc' /\ 0 <= next < 65536 /\ (br_mem br = [] -> mem = []) /\ R q bc bc') br.

Lemma fanout_deliver_ok (oom : Prop) R body ts br :
  serves oom R body -> fan_ok br -> Forall (fun t => t.1 ∈ addrs (br_clients br) /\ 0 <= t.2 <= MQTT_QOS_2) ts ->
  (br_mem br <> [] -> oom) ->
  ends (fanout_deliver body (br_clients_gen br) ts) (fun _ br' => exists cs mem next,
    br' = with_clients br cs mem next /\ fan_ok br' /\ (br_mem br = [] -> mem = []) /\
    delivered_all R ts (br_clients br) cs) br.
Proof.
  intros Hbody. revert br. induction ts as [|[addr q] ts IH]; intros br Hok Hts Hoom; cbn [fanout_deliver].
  { apply ends_ret. exists (br_clients br), (br_mem br), (br_next_packet_id br).
    rewrite with_clients_same. split_and!; try done. apply delivered_all_nil. }
  apply list.Forall_cons in Hts as [[Hin Hq] Hts]. cbn [fst snd] in Hin, Hq.
  apply ends_bind, ends_get. rewrite Z.eqb_refl. cbn [negb andb].
  apply client_at_some in Hin as [bc Hat].
  apply ends_bind. eapply ends_mono; [apply (Hbody addr q bc br); try done; [by eapply fan_ok_at|apply Hok]|].
  intros _ br1 (bc1 & mem1 & next1 & -> & Hbc1 & Hs & Hn1 & Hm1 & HR).
  eapply ends_mono; [apply (IH (served br bc1 mem1 next1))|].
  - by apply fan_ok_served.
  - eapply List.Forall_impl; [|exact Hts]. intros [a x] [Ha Hx]. split; [|done].
    change (a ∈ addrs (client_put (br_clients br) bc1)). by rewrite addrs_put.
  - intros Hne. apply Hoom. intros E. by apply Hne, Hm1.
  - intros _ br2 (cs & mem & next & -> & Hok2 & Hm & HD). exists cs, mem, next. split; [done|]. split; [exact Hok2|].
    split; [by intros E; apply Hm, Hm1|]. eapply delivered_all_cons; try done. apply Hok.
Qed.
End Loop.
