(* ===== verification/BrokerWill.v ===== *)
(** * BrokerWill: Will messages ([mqtt_broker.c])

    The Will of a client, published when its connection ends abnormally, at
    once or, with a Will Delay Interval, from the list [pending_wills]. *)
From stdpp Require Import gmap.
From S2P Require Import Prelude PacketDefs Wire FixedHeader Props Frame PublishResp Publish PacketIO Topic BrokerTopic BrokerDefs BrokerQos2 OutQueue OutStream OutAlloc BrokerState BrokerSend BrokerRetained BrokerFanout.

(** ** Operations *)

(** The largest [WOLFMQTT_BROKER_TIME_T], an unsigned long of 64 bits. *)
Abbreviation TIME_MAX := (18446744073709551615)%Z.

Definition no_will : Will := mkWill 0 None None 0 MQTT_QOS_0 0 0.

(** [out_pub] of the direct path. *)
Definition will_message (level : Z) (topic : list Z) (payload : option (list Z)) (payload_len qos : Z) : MqttMessage :=
  mkMessage 0 0 qos 0 0 (Some topic) 0 payload_len (if 0 <? payload_len then payload else None) 0 0 0 0 0 [] level.

Section Will.
Context {Net : Type} `{!Sender Net}.
Implicit Types (br : Broker Net) (bc : BrokerClient Net).

Definition BrokerClient_ClearWill bc : BrokerClient Net := with_will bc no_will.

(** A write of a QoS 0 message past the queue. *)
Definition will_direct (now : Z) (topic : list Z) (payload : option (list Z)) (payload_len eff_qos : Z) bc
    : result (unit * BrokerClient Net) :=
  match MqttEncode_Publish (len (lk_tx (bc_link bc)))
          (will_message (bc_protocol_level (bc_info bc)) topic payload payload_len eff_qos) false with
  | UB => UB
  | Err _ => Ok (tt, bc)
  | Ok (enc_rc, bs, _) =>
    if 0 <? enc_rc then
      bc ← fill_tx bc bs;
      '(wr_rc, bc) ← BrokerClient_WriteDirect now bc enc_rc;
      if negb (wr_rc =? MQTT_CODE_CONTINUE)
      then Ok (tt, with_link bc (set_tx (bc_link bc) (BROKER_FORCE_ZERO (lk_tx (bc_link bc)) enc_rc)))
      else Ok (tt, bc)
    else Ok (tt, bc)
  end.

(** The message goes through the queue: QoS 1 or 2, or a write is in progress. *)
Definition will_routed (eff_qos : Z) bc : bool :=
  (MQTT_QOS_1 <=? eff_qos) || negb (connack_pending_len (bc_link bc) =? 0) ||
  negb (out_q_pending_len (bc_outq bc) =? 0) || negb (direct_pending_len (bc_link bc) =? 0).

Definition drain_client (now addr : Z) : B Net unit :=
  on_client addr (fun bc => '(_, bc) ← BrokerClient_DrainOutQueue now bc; Ok (tt, bc)).

Definition will_deliver (now : Z) (topic : list Z) (payload : option (list Z)) (payload_len wc eff_qos : Z) : B Net unit :=
  bc ← deref wc;
  if will_routed eff_qos bc then
    if BROKER_MAX_QUEUED_MSGS_PER_SUB <=? out_q_count (bc_outq bc) then
      if negb (bc_connected (bc_info bc) =? 0) then quota_close now wc else mret tt
    else
      rc ← enqueue_for wc topic (if 0 <? payload_len then payload else None) payload_len [] eff_qos 0;
      if rc <? 0 then mret tt else drain_client now wc
  else on_client wc (will_direct now topic payload payload_len eff_qos).

(** The first pass over [broker->subs]. *)
Fixpoint will_collect (topic : list Z) (qos : Z) (subs : list BrokerSub) (targets : BrokerFanoutList)
    : B Net BrokerFanoutList :=
  match subs with
  | [] => mret targets
  | sub :: next =>
    targets ← (match sub_client sub with
               | None => mret targets
               | Some addr =>
                 bc ← deref addr;
                 if negb (bc_protocol_level (bc_info bc) =? 0) && BROKER_STR_VALID (Some (sub_filter sub)) then
                   m ← of_result (BrokerTopicMatch (Some (sub_filter sub)) (Some topic));
                   if (m : bool) then BrokerFanout_Add targets addr (if qos <? sub_qos sub then qos else sub_qos sub)
                   else mret targets
                 else mret targets
               end);
    will_collect topic qos next targets
  end.

(** The retain flag of a Will. *)
Definition will_retain_msg (now : Z) (topic : list Z) (payload : option (list Z)) (payload_len qos retain : Z) : B Net unit :=
  if negb (retain =? 0) then
    if payload_len =? 0 then BrokerRetained_Delete topic
    else _ ← BrokerRetained_Store now topic payload payload_len qos 0; mret tt
  else mret tt.

Definition BrokerClient_PublishWillImmediate (now : Z) (topic : list Z) (payload : option (list Z))
    (payload_len qos retain : Z) : B Net unit :=
  _ ← will_retain_msg now topic payload payload_len qos retain;
  br ← get;
  targets ← will_collect topic qos (br_subs br) (BrokerFanout_Init BROKER_FANOUT_STACK_TARGETS);
  br ← get;
  fanout_deliver (will_deliver now topic payload payload_len) (br_clients_gen br) (fl_items targets).

(** The copy of the Will's payload: whether there was memory, and the copy. *)
Definition will_copy (w : Will) : B Net (bool * option (list Z)) :=
  if 0 <? will_payload_len w then
    ok ← alloc;
    if negb ok then mret (false, None)
    else
      match will_payload w with
      | None => of_result UB
      | Some bs => copy ← of_result (slice bs 0 (will_payload_len w)); mret (true, Some copy)
      end
  else mret (true, None).

(** The time at which a Will is due. *)
Definition will_time (now delay_sec session_expiry_sec : Z) : Z :=
  let delay_sec := if negb (session_expiry_sec =? NEVER_EXPIRES) && (session_expiry_sec <? delay_sec)
                   then session_expiry_sec else delay_sec in
  if TIME_MAX - now <? delay_sec then TIME_MAX else now + delay_sec.

Definition BrokerPendingWill_Add (now : Z) bc : B Net Z :=
  br ← get;
  let w := bc_will bc in
  if BROKER_MAX_PENDING_WILLS <=? len (br_wills br) then mret MQTT_CODE_ERROR_MEMORY
  else
    ok ← alloc;
    if negb ok then mret MQTT_CODE_ERROR_MEMORY
    else
      match bc_client_id (bc_info bc), will_topic w with
      | Some client_id, Some topic =>
        ok ← alloc;
        if negb ok then mret MQTT_CODE_ERROR_MEMORY
        else
          ok ← alloc;
          if negb ok then mret MQTT_CODE_ERROR_MEMORY
          else
            '(ok, copy) ← will_copy w;
            if negb ok then mret MQTT_CODE_ERROR_MEMORY
            else
              let pw := mkPendingWill client_id topic copy (if 0 <? will_payload_len w then will_payload_len w else 0)
                          (will_qos w) (will_retain w)
                          (will_time now (will_delay_sec w) (bc_session_expiry_sec (bc_info bc))) in
              _ ← modify (fun br => set_wills br (pw :: br_wills br));
              mret MQTT_CODE_SUCCESS
      | _, _ => of_result UB
      end.

Fixpoint will_cancel (client_id : list Z) (wills : list BrokerPendingWill) : list BrokerPendingWill :=
  match wills with
  | [] => []
  | pw :: next => if bool_decide (pw_client_id pw = client_id) then next else pw :: will_cancel client_id next
  end.

Definition BrokerPendingWill_Cancel (client_id : list Z) : B Net unit :=
  modify (fun br => set_wills br (will_cancel client_id (br_wills br))).

Definition BrokerPendingWill_FreeAll : B Net unit := modify (fun br => set_wills br []).

(** The loop: [before] are the Wills it has kept; a Will stays in the list
    while it is published. *)
Fixpoint process_wills (now : Z) (before wills : list BrokerPendingWill) (activity : Z) : B Net Z :=
  match wills with
  | [] => mret activity
  | pw :: next =>
    if pw_publish_time pw <=? now then
      _ ← BrokerClient_PublishWillImmediate now (pw_topic pw) (pw_payload pw) (pw_payload_len pw) (pw_qos pw) (pw_retain pw);
      _ ← modify (fun br => set_wills br (before ++ next));
      process_wills now before next 1
    else process_wills now (before ++ [pw]) next activity
  end.

Definition BrokerPendingWill_Process (now : Z) : B Net Z :=
  br ← get; process_wills now [] (br_wills br) 0.

Definition BrokerClient_PublishWill (now addr : Z) : B Net unit :=
  bc ← deref addr;
  let w := bc_will bc in
  let clear := on_client addr (fun bc => Ok (tt, BrokerClient_ClearWill bc)) in
  match will_topic w with
  | Some ((_ :: _) as topic) =>
    if has_will w =? 0 then mret tt
    else
      rc ← (if 0 <? will_delay_sec w then BrokerPendingWill_Add now bc else mret MQTT_CODE_ERROR_MEMORY);
      if rc =? MQTT_CODE_SUCCESS then clear
      else
        _ ← BrokerClient_PublishWillImmediate now topic (will_payload w) (will_payload_len w) (will_qos w) (will_retain w);
        clear
  | _ => mret tt
  end.
End Will.

(** ** Subscribers *)

Section Targets.
Context {Net : Type}.
Implicit Types (br : Broker Net) (bc : BrokerClient Net) (cs : list (BrokerClient Net)).

(** The delivery a subscription asks for. *)
Definition will_target cs (topic : list Z) (qos : Z) (sub : BrokerSub) : option (Z * Z) :=
  match sub_client sub with
  | None => None
  | Some addr =>
    match client_at cs addr with
    | Some bc =>
      if negb (bc_protocol_level (bc_info bc) =? 0) && bool_decide (sub_filter sub <> []) && matches (sub_filter sub) topic
      then Some (addr, Z.min qos (sub_qos sub)) else None
    | None => None
    end
  end.

Definition will_targets cs (topic : list Z) (qos : Z) (subs : list BrokerSub) : list (Z * Z) :=
  omap (will_target cs topic qos) subs.

Lemma STR_VALID_nonempty (s : list Z) : BROKER_STR_VALID (Some s) = bool_decide (s <> []).
Proof. by destruct s. Qed.

Lemma min_if a b : (if a <? b then a else b) = Z.min a b.
Proof. destruct (Z.ltb_spec a b); lia. Qed.

Lemma will_targets_ok cs topic qos subs :
  (forall a, Some a ∈ map sub_client subs -> a ∈ addrs cs) -> Forall (fun s => 0 <= sub_qos s <= MQTT_QOS_2) subs ->
  0 <= qos <= MQTT_QOS_2 -> Forall (fun t => t.1 ∈ addrs cs /\ 0 <= t.2 <= MQTT_QOS_2) (will_targets cs topic qos subs).
Proof.
  intros Hl Hs Hq. apply list.Forall_forall. intros t (s & Hin & Et)%list_elem_of_omap.
  rewrite list.Forall_forall in Hs. specialize (Hs s Hin). unfold will_target in Et.
  destruct (sub_client s) as [a|] eqn:Ea; [|done]. destruct (client_at cs a); [|done].
  destruct (_ && _ && _); [|done]. injection Et as <-. cbn [fst snd]. split; [|lia]. apply Hl.
  apply list_elem_of_fmap. by exists s.
Qed.

Lemma will_collect_ok (oom : Prop) topic qos subs ts fl br :
  (forall a, Some a ∈ map sub_client subs -> a ∈ addrs (br_clients br)) ->
  gathered oom ts fl -> (br_mem br <> [] -> oom) ->
  ends (will_collect topic qos subs fl) (fun fl' br' => exists mem, br' = set_mem br mem /\
    (br_mem br = [] -> mem = []) /\ gathered oom (ts ++ will_targets (br_clients br) topic qos subs) fl') br.
Proof.
  revert ts fl br. induction subs as [|s subs IH]; intros ts fl br Hl Hg Hoom; cbn [will_collect].
  { apply ends_ret. exists (br_mem br). split; [by destruct br|]. split; [done|]. by rewrite app_nil_r. }
  assert (Hgo : forall t fl1 mem, will_target (br_clients br) topic qos s = t -> (br_mem br = [] -> mem = []) ->
    gathered oom (ts ++ option_list t) fl1 ->
    ends (will_collect topic qos subs fl1) (fun fl' br' => exists mem, br' = set_mem br mem /\
      (br_mem br = [] -> mem = []) /\ gathered oom (ts ++ will_targets (br_clients br) topic qos (s :: subs)) fl') (set_mem br mem)).
  { intros t fl1 mem Et Hm Hg1. eapply ends_mono; [eapply (IH (ts ++ option_list t))|].
    - intros a Ha. apply Hl. by right.
    - done.
    - intros Hne. apply Hoom. intros E. by apply Hne, Hm.
    - intros fl' br' (mem' & -> & Hm' & Hg'). exists mem'. split; [done|]. split; [by intros E; apply Hm', Hm|].
      unfold will_targets in *. cbn [omap list_omap]. rewrite Et. destruct t; cbn in Hg'; [|by rewrite app_nil_r in Hg'].
      by rewrite <- app_assoc in Hg'. }
  assert (Hskip : will_target (br_clients br) topic qos s = None ->
    ends (will_collect topic qos subs fl) (fun fl' br' => exists mem, br' = set_mem br mem /\
      (br_mem br = [] -> mem = []) /\ gathered oom (ts ++ will_targets (br_clients br) topic qos (s :: subs)) fl') br).
  { intros Et. assert (Esame : set_mem br (br_mem br) = br) by by destruct br.
    pose proof (Hgo None fl (br_mem br) Et (fun E => E)) as H. rewrite Esame in H. apply H. by rewrite app_nil_r. }
  apply ends_bind. unfold will_target in Hgo, Hskip. destruct (sub_client s) as [a|] eqn:Ea.
  2: { apply ends_ret. by apply Hskip. }
  destruct (proj1 (client_at_some (br_clients br) a)) as [bc Hat]; [apply Hl; cbn; rewrite Ea; by left|].
  rewrite Hat in Hgo, Hskip. apply ends_bind, (ends_deref a bc); [done|]. rewrite STR_VALID_nonempty.
  destruct (negb _ && _) eqn:Ev; cbn [andb] in Hgo, Hskip; [|by apply ends_ret, Hskip].
  apply ends_bind. eapply ends_of_result; [apply matches_eq|].
  destruct (matches (sub_filter s) topic); [|by apply ends_ret, Hskip].
  eapply ends_mono; [apply (BrokerFanout_Add_ok oom ts fl a _ br Hg Hoom)|].
  intros fl1 br1 (mem & -> & Hm & Hg1). rewrite min_if in Hg1. by eapply Hgo.
Qed.
End Targets.

(** ** Delivering to one client *)

Section Serve.
Context {Net : Type} `{!Sender Net}.
Implicit Types (br : Broker Net) (bc : BrokerClient Net).
Context (oom : Prop) (now : Z) (topic : list Z) (payload : option (list Z)) (n : Z).

(** The PUBLISH of a Will: the headers, announcing the length of the payload, and
    the payload, of which only what the buffer takes is there. *)
Definition will_packet (level q : Z) (f : list Z) : Prop :=
  let m := will_message level topic payload n q in
  let k := publish_payload_len m false in
  exists body, f = pub_head m k ++ body /\ body `prefix_of` default [] payload /\ len body <= k /\
    len f <= BROKER_TX_BUF_SZ /\ (len (pub_head m k) + k <= BROKER_TX_BUF_SZ -> len body = k).

(** It can be built. *)
Definition will_encodable (level q : Z) : Prop :=
  let m := will_message level topic payload n q in
  pub_ok m /\ pub_room BROKER_TX_BUF_SZ m (publish_payload_len m false).

(** What a delivery at [q] makes of a client. *)
Inductive will_delivery (q : Z) bc bc' : Prop :=
  | wd_queued bc1 id rc :
      will_routed q bc = true -> out_q_count (bc_outq bc) < BROKER_MAX_QUEUED_MSGS_PER_SUB ->
      out_q (bc_outq bc1) = out_q (bc_outq bc) ++
        [outpub_entry topic (if 0 <? n then payload else None) n [] q id 0 (bc_protocol_level (bc_info bc))] ->
      same_client bc bc1 -> bc_link bc1 = bc_link bc -> BrokerClient_DrainOutQueue now bc1 = Ok (rc, bc') ->
      will_delivery q bc bc'
  | wd_lost :
      will_routed q bc = true -> out_q_count (bc_outq bc) < BROKER_MAX_QUEUED_MSGS_PER_SUB -> oom -> bc' = bc ->
      will_delivery q bc bc'
  | wd_full :
      will_routed q bc = true -> BROKER_MAX_QUEUED_MSGS_PER_SUB <= out_q_count (bc_outq bc) ->
      bc_outq bc' = bc_outq bc -> bc_connected (bc_info bc') = 0 ->
      (bc_connected (bc_info bc) = 0 -> bc' = bc) -> will_delivery q bc bc'
  | wd_direct f :
      will_routed q bc = false -> will_encodable (bc_protocol_level (bc_info bc)) q ->
      will_packet (bc_protocol_level (bc_info bc)) q f -> packet_handed f (bc_link bc) (bc_link bc') ->
      bc_outq bc' = bc_outq bc -> will_delivery q bc bc'
  | wd_unsent :
      will_routed q bc = false -> ~ will_encodable (bc_protocol_level (bc_info bc)) q -> bc' = bc ->
      will_delivery q bc bc'.

Lemma ends_drain addr bc br :
  client_at (br_clients br) addr = Some bc -> client_ok bc ->
  ends (drain_client now addr) (fun _ br' => exists rc bc', br' = served br bc' (br_mem br) (br_next_packet_id br) /\
    BrokerClient_DrainOutQueue now bc = Ok (rc, bc') /\ client_ok bc' /\ same_client bc bc') br.
Proof using.
  intros Hat Hok. destruct (BrokerClient_DrainOutQueue_total now bc Hok) as (rc & bc' & E & Hok' & Hs).
  unfold drain_client. eapply ends_on_client; [exact Hat|by rewrite E|]. by exists rc, bc'.
Qed.

Context (Hmsg : message_ok topic payload n []).

Lemma message_ok_if : message_ok topic (if 0 <? n then payload else None) n [].
Proof using Hmsg. destruct Hmsg. constructor; try done. by destruct (0 <? n). Qed.

Lemma will_message_rep level q : 0 <= q <= MQTT_QOS_2 -> pub_rep (will_message level topic payload n q).
Proof using Hmsg.
  intros Hq. destruct Hmsg as [Ht Hn Hp _ _]. unfold pub_rep, will_message. cbn -[Z.lt Z.le].
  split_and!; try done; try lia. unfold payload_fits in Hp. destruct (0 <? n); [|done]. intros b ->. by left.
Qed.

Lemma will_packet_sent level q payload' m' :
  let m := will_message level topic payload n q in
  let k := publish_payload_len m false in
  pub_sent BROKER_TX_BUF_SZ m false k payload' m' -> len (pub_head m k ++ payload') <= BROKER_TX_BUF_SZ ->
  will_packet level q (pub_head m k ++ payload').
Proof using Hmsg.
  cbv zeta. intros (Hnil & Hpre & Hle & _) Hl. exists payload'. cbn zeta in *. split; [done|].
  set (m := will_message _ _ _ _ _) in *. set (k := publish_payload_len m false) in *.
  destruct (Z.ltb_spec 0 k) as [Hk|Hk].
  - destruct (Hpre eq_refl Hk) as (b & Eb & Hb & _ & Hall). split_and!; try done.
    + revert Eb. unfold m, will_message. cbn [msg_buffer]. destruct (0 <? n); [|done]. by intros ->.
    + intros Hroom. apply Hall; [lia|by left].
  - pose proof (len_nonneg payload'). assert (k = 0) as Ek by lia. rewrite (Hnil (or_intror Ek)) in *.
    split_and!; try done. apply prefix_nil.
Qed.

(** The write of a QoS 0 message: the connection is idle. *)
Lemma will_direct_writes q bc :
  client_ok bc -> 0 <= q <= MQTT_QOS_2 -> will_routed q bc = false ->
  exists bc', will_direct now topic payload n q bc = Ok (tt, bc') /\ client_ok bc' /\ same_client bc bc' /\
    will_delivery q bc bc'.
Proof using Hmsg.
  intros Hok Hq Hidle. pose proof (co_link _ Hok) as Hl. unfold will_direct. rewrite (lo_tx _ Hl).
  assert (Hd : direct_pending_len (bc_link bc) = 0).
  { unfold will_routed in Hidle. repeat (apply orb_false_iff in Hidle as [Hidle ?]).
    by apply Z.eqb_eq, negb_false_iff. }
  pose proof (MqttEncode_Publish_settles BROKER_TX_BUF_SZ _ false
    (will_message_rep (bc_protocol_level (bc_info bc)) q Hq)) as [(He & [[rc bs] m] & -> & (p & -> & -> & Hle & Hsent))|(He & rc & _ & ->)].
  2: { exists bc. split_and!; try done. by apply wd_unsent. }
  pose proof (will_packet_sent _ _ _ _ Hsent Hle) as Hpk. revert Hpk Hle. set (f := pub_head _ _ ++ p). intros Hpk Hle.
  assert (Hf : 0 < len f).
  { unfold f, pub_head, header_bytes. rewrite !len_app, !len_cons. pose proof (len_nonneg p).
    match goal with |- context [len (vbi 4 ?k)] => pose proof (len_nonneg (vbi 4 k)) end.
    match goal with |- context [len (pub_vars ?k)] => pose proof (len_nonneg (pub_vars k)) end. lia. }
  rewrite (proj2 (Z.ltb_lt 0 (len f))) by done.
  destruct (fill_tx_front bc f Hl Hle) as (tx & -> & Hl1 & Htx). cbn [mbind result_bind].
  set (bc1 := with_link bc (set_tx (bc_link bc) tx)).
  destruct (WriteDirect_writes now bc1 (len f) Hl1 Hle) as (wr & bc2 & E & (H1 & H2 & H3 & H4 & H5) & Eq & Hl2 & _).
  destruct (WriteDirect_hands now bc1 f (lo_pos _ Hl1) Hd ltac:(lia) Htx) as (wr' & l' & E' & Hw & Hp & Et).
  rewrite E' in E. injection E as -> <-. rewrite E'. cbn [mbind result_bind].
  assert (Hok2 : client_ok (with_link bc1 l')) by (destruct Hok; by constructor).
  destruct (Z.eqb_spec wr MQTT_CODE_CONTINUE) as [->|Hc]; cbn [negb].
  - eexists. split; [done|]. split_and!; try done. apply (wd_direct _ _ _ f); try done.
    eexists. split; [exact Hw|]. split; [done|]. intros _.
    change (take (length f) (lk_tx l') = f). by rewrite Et.
  - eexists. split; [done|]. split; [|split; [done|]].
    + destruct Hok2. constructor; try done. apply link_ok_zero; [done|lia].
    + apply (wd_direct _ _ _ f); try done. exists wr. split; [exact Hw|]. split; [|done]. change (direct_pending_len l' = if wr =? MQTT_CODE_CONTINUE then len f else 0).
      by rewrite (proj2 (Z.eqb_neq _ _) Hc).
Qed.

Lemma same_still bc bc' : same_client bc bc' -> still bc bc'.
Proof using. intros (? & ? & ? & ? & ?). split_and!; try done. by left. Qed.

Lemma will_deliver_serves : serves oom will_delivery (will_deliver now topic payload n).
Proof using Hmsg.
  intros addr q bc br Hat Hok Hnext Hq Hoom. pose proof (client_at_addr _ _ _ Hat) as Ea.
  unfold will_deliver. apply ends_bind, (ends_deref addr bc); [done|].
  assert (Hsame : served br bc (br_mem br) (br_next_packet_id br) = br) by (apply served_same; by rewrite Ea).
  assert (Hstay : forall br0, br0 = br -> will_delivery q bc bc -> ends (mret tt) (fun _ br' => exists bc' mem next,
    br' = served br bc' mem next /\ client_ok bc' /\ still bc bc' /\ 0 <= next < 65536 /\
    (br_mem br = [] -> mem = []) /\ will_delivery q bc bc') br0).
  { intros br0 -> Hd. apply ends_ret. exists bc, (br_mem br), (br_next_packet_id br).
    split_and!; try done; try lia. apply still_refl. }
  destruct (will_routed q bc) eqn:Er.
  2: { destruct (will_direct_writes q bc Hok Hq Er) as (bc' & E & Hok' & Hs & HD).
       eapply ends_on_client; [exact Hat|exact E|]. exists bc', (br_mem br), (br_next_packet_id br).
       split_and!; try done; try lia. by apply same_still. }
  destruct (Z.leb_spec BROKER_MAX_QUEUED_MSGS_PER_SUB (out_q_count (bc_outq bc))) as [Hfull|Hroom].
  - destruct (Z.eqb_spec (bc_connected (bc_info bc)) 0) as [E|E]; cbn [negb]; [by apply Hstay, wd_full|].
    eapply ends_mono; [by apply quota_close_ok|].
    intros _ br' (bc' & H1 & H2 & H3 & H4 & H5 & H7 & H6 & ->).
    exists bc', (br_mem br), (br_next_packet_id br). split_and!; try done; try lia;
      [split_and!; try done; by right|by apply wd_full; rewrite ?H6].
  - apply ends_bind. eapply ends_mono; [apply (enqueue_for_ok addr topic _ n [] q 0 bc br); try done; apply message_ok_if|].
    intros rc br1 (bc1 & mem & next & -> & Hok1 & Hs & Hnx & Hm & Hlk & [(Hrc & -> & Hwhy)|(-> & id & Eq)]).
    + rewrite (proj2 (Z.ltb_lt rc 0)) by done. apply ends_ret. exists bc, mem, next.
      split_and!; try done; try lia; [apply still_refl|]. apply wd_lost; try done.
      destruct Hwhy as [?|Hlong]; [auto|]. rewrite (oq_count _ (co_queue _ Hok)) in Hroom. lia.
    + cbn [Z.ltb Z.compare]. pose proof Hs as (Ea1 & _).
      eapply ends_mono; [apply (ends_drain addr bc1); [|done]|].
      { rewrite <- Ea, <- Ea1. apply (served_at br bc). by rewrite Ea1, Ea. }
      intros _ br2 (rc & bc2 & -> & Ed & Hok2 & Hs2). exists bc2, mem, next. pose proof Hs2 as (Ea2 & _).
      split; [by rewrite served_served by by symmetry|]. split_and!; try done; try lia.
      * eapply still_trans; by apply same_still.
      * by eapply wd_queued.
Qed.
End Serve.

(** ** Publication *)

(** The tables a fan-out reads and changes. *)
Record routes_ok {Net} (br : Broker Net) : Prop := {
  rk_fan : fan_ok br;
  rk_linked : forall a, Some a ∈ map sub_client (br_subs br) -> a ∈ addrs (br_clients br);
  rk_qos : Forall (fun s => 0 <= sub_qos s <= MQTT_QOS_2) (br_subs br);
  rk_retained : retained_ok (br_retained br)
}.

(** What a Will with a retain flag does to the retained messages. *)
Inductive will_retained (T : gmap (list Z) BrokerRetainedMsg) (oom : Prop) (now : Z) (topic : list Z)
    (payload : option (list Z)) (n qos retain : Z) : gmap (list Z) BrokerRetainedMsg -> Prop :=
  | wr_no : retain = 0 -> will_retained T oom now topic payload n qos retain T
  | wr_delete : retain <> 0 -> n = 0 -> will_retained T oom now topic payload n qos retain (delete topic T)
  | wr_store rc T' :
      retain <> 0 -> n <> 0 -> ret_spec T oom (Ret_Store now topic payload n qos 0) rc T' ->
      will_retained T oom now topic payload n qos retain T'.

Section Publish.
Context {Net : Type} `{!Sender Net}.
Implicit Types (br : Broker Net) (bc : BrokerClient Net).

(** [br'] is [br] once the message has been published. *)
Definition will_published (oom : Prop) (now : Z) (topic : list Z) (payload : option (list Z)) (n qos retain : Z) br br' : Prop :=
  exists ts cs mem next rt,
    br' = set_retained (with_clients br cs mem next) rt /\ (br_mem br = [] -> mem = []) /\
    will_retained (ret_table (rt_list (br_retained br))) oom now topic payload n qos retain (ret_table (rt_list rt)) /\
    ts `prefix_of` will_targets (br_clients br) topic qos (br_subs br) /\
    (oom \/ ts = will_targets (br_clients br) topic qos (br_subs br)) /\
    delivered_all (will_delivery oom now topic payload n) ts (br_clients br) cs.

Lemma will_retain_ok (oom : Prop) now topic payload n qos retain br :
  retained_ok (br_retained br) -> message_ok topic payload n [] -> 0 <= qos <= MQTT_QOS_2 -> (br_mem br <> [] -> oom) ->
  ends (will_retain_msg now topic payload n qos retain)
    (fun _ br' => exists mem rt, br' = set_retained (set_mem br mem) rt /\ (br_mem br = [] -> mem = []) /\ retained_ok rt /\
       will_retained (ret_table (rt_list (br_retained br))) oom now topic payload n qos retain (ret_table (rt_list rt))) br.
Proof.
  intros Hrt Hmsg Hq Hoom. unfold will_retain_msg. assert (Hrep : ret_rep br (ret_table (rt_list (br_retained br)))) by by split.
  destruct (Z.eqb_spec retain 0) as [E|E]; cbn [negb].
  { apply ends_ret. exists (br_mem br), (br_retained br). split; [by destruct br|]. split_and!; try done. by apply wr_no. }
  destruct (Z.eqb_spec n 0) as [En|En].
  - eapply ends_mono; [by apply BrokerRetained_Delete_ok|]. intros _ br' (rt & -> & Hok & Et).
    exists (br_mem br), rt. split; [by destruct br|]. split_and!; try done.
    cbn in Et. rewrite Et. by apply wr_delete.
  - apply ends_bind. eapply ends_mono; [by apply BrokerRetained_Store_ok|].
    intros rc br' (mem & T' & Ebr & Hm & Hspec & Hok & Et). apply ends_ret.
    exists mem, (br_retained br'). split_and!; try done. rewrite Et. eapply wr_store; [done|done|].
    by eapply ret_spec_oom.
Qed.

Lemma PublishWillImmediate_ok (oom : Prop) now topic payload n qos retain br :
  routes_ok br -> message_ok topic payload n [] -> 0 <= qos <= MQTT_QOS_2 -> (br_mem br <> [] -> oom) ->
  ends (BrokerClient_PublishWillImmediate now topic payload n qos retain)
    (fun _ br' => will_published oom now topic payload n qos retain br br' /\ routes_ok br') br.
Proof.
  intros [Hfan Hl Hsq Hrt] Hmsg Hq Hoom. unfold BrokerClient_PublishWillImmediate.
  apply ends_bind. eapply ends_mono; [by apply (will_retain_ok oom now topic payload n qos retain)|].
  intros _ br1 (mem1 & rt & -> & Hm1 & Hok1 & Hwr). apply ends_bind, ends_get, ends_bind.
  set (br1 := set_retained (set_mem br mem1) rt).
  eapply ends_mono; [apply (will_collect_ok oom topic qos (br_subs br) [] _ br1 Hl (gathered_init oom 16 ltac:(lia)))|].
  { intros Hne. apply Hoom. intros E. by apply Hne, Hm1. }
  intros fl br2 (mem2 & -> & Hm2 & _ & Hpre & Hall). apply ends_bind, ends_get. cbn [app] in Hpre, Hall.
  pose proof (will_targets_ok (br_clients br) topic qos (br_subs br) Hl Hsq Hq) as Hts.
  assert (Hts' : Forall (fun t => t.1 ∈ addrs (br_clients br) /\ 0 <= t.2 <= MQTT_QOS_2) (fl_items fl)).
  { destruct Hpre as [more E]. change (br_clients br1) with (br_clients br) in E. rewrite E in Hts.
    by apply Forall_app in Hts as [? _]. }
  eapply ends_mono; [apply (fanout_deliver_ok oom _ _ (fl_items fl) (set_mem br1 mem2)
                              (will_deliver_serves oom now topic payload n Hmsg))|].
  - destruct Hfan. by constructor.
  - exact Hts'.
  - intros Hne. apply Hoom. intros E. by apply Hne, Hm2, Hm1.
  - intros _ br3 (cs & mem & next & -> & Hfan3 & Hm3 & HD). split.
    + exists (fl_items fl), cs, mem, next, rt. split_and!; try done.
      * intros E. by apply Hm3, Hm2, Hm1.
      * destruct Hall as [[_ ?]|[_ ?]]; [by right|by left].
    + constructor; [exact Hfan3| |exact Hsq|exact Hok1]. intros a Ha. specialize (Hl a Ha).
      change (a ∈ addrs cs). change (a ∈ addrs (br_clients br)) in Hl.
      by rewrite (delivered_all_addrs _ _ _ _ HD).
Qed.

(** ** Pending Wills *)

Record will_ok (w : Will) (client_id : option (list Z)) : Prop := {
  wo_message topic : will_topic w = Some topic -> message_ok topic (will_payload w) (will_payload_len w) [];
  wo_payload : 0 < will_payload_len w -> is_Some (will_payload w);
  wo_qos : 0 <= will_qos w <= MQTT_QOS_2;
  wo_named : has_will w <> 0 -> is_Some client_id
}.

Record pending_ok (pw : BrokerPendingWill) : Prop := {
  pwo_message : message_ok (pw_topic pw) (pw_payload pw) (pw_payload_len pw) [];
  pwo_qos : 0 <= pw_qos pw <= MQTT_QOS_2
}.

(** The Will of [bc] as it is put off at [now]. *)
Definition pending_will (now : Z) bc (client_id topic : list Z) : BrokerPendingWill :=
  let w := bc_will bc in
  let '(copy, n) := copy_payload (will_payload w) (will_payload_len w) in
  mkPendingWill client_id topic copy n (will_qos w) (will_retain w)
    (will_time now (will_delay_sec w) (bc_session_expiry_sec (bc_info bc))).

Lemma copy_message_ok topic payload n :
  message_ok topic payload n [] -> message_ok topic (copy_payload payload n).1 (copy_payload payload n).2 [].
Proof.
  intros [Ht Hn Hp _ _]. unfold payload_fits, copy_payload in *.
  destruct payload as [bs|]; [|by constructor; cbn; try done; lia].
  destruct (Z.ltb_spec 0 n); constructor; cbn; try done; try lia. rewrite len_take; lia.
Qed.

Lemma pending_will_ok now bc client_id topic :
  will_ok (bc_will bc) (bc_client_id (bc_info bc)) -> will_topic (bc_will bc) = Some topic ->
  pending_ok (pending_will now bc client_id topic).
Proof.
  intros Hw Et. pose proof (copy_message_ok _ _ _ (wo_message _ _ Hw _ Et)) as Hm. unfold pending_will.
  destruct (copy_payload _ _) as [copy n]. constructor; [exact Hm|apply Hw].
Qed.

Lemma will_copy_ok w topic br :
  message_ok topic (will_payload w) (will_payload_len w) [] -> (0 < will_payload_len w -> is_Some (will_payload w)) ->
  ends (will_copy w) (fun r br' => exists mem, br' = set_mem br mem /\ (br_mem br = [] -> r.1 = true /\ mem = []) /\
    (r.1 = true -> r.2 = (copy_payload (will_payload w) (will_payload_len w)).1 /\
       (copy_payload (will_payload w) (will_payload_len w)).2 = (if 0 <? will_payload_len w then will_payload_len w else 0))) br.
Proof.
  intros [_ Hn Hp _ _] Hsome. unfold will_copy, copy_payload, payload_fits in *.
  destruct (Z.ltb_spec 0 (will_payload_len w)) as [Hpos|Hz].
  - destruct (Hsome Hpos) as [bs Eb]. rewrite Eb in Hp |- *. apply ends_bind, ends_alloc. intros ok mem Hm.
    destruct ok; cbn [negb].
    + apply ends_bind. eapply ends_of_result; [apply slice_ok; lia|]. apply ends_ret. exists mem.
      by split_and!.
    + apply ends_ret. exists mem. by split_and!.
  - apply ends_ret. exists (br_mem br). split; [by destruct br|]. split; [done|]. intros _. by destruct (will_payload w).
Qed.

(** [BrokerPendingWill_Add] has put the Will off, or there was no room. *)
Definition will_put_off (now : Z) bc (topic : list Z) br (rc : Z) br' : Prop :=
  exists mem, (br_mem br = [] -> mem = []) /\
  ((rc = MQTT_CODE_SUCCESS /\ len (br_wills br) < BROKER_MAX_PENDING_WILLS /\
    exists client_id, bc_client_id (bc_info bc) = Some client_id /\
      br' = set_wills (set_mem br mem) (pending_will now bc client_id topic :: br_wills br)) \/
   (rc = MQTT_CODE_ERROR_MEMORY /\ br' = set_mem br mem /\
    (br_mem br <> [] \/ BROKER_MAX_PENDING_WILLS <= len (br_wills br)))).

Lemma BrokerPendingWill_Add_ok now bc topic br :
  will_ok (bc_will bc) (bc_client_id (bc_info bc)) -> will_topic (bc_will bc) = Some topic -> has_will (bc_will bc) <> 0 ->
  ends (BrokerPendingWill_Add now bc) (will_put_off now bc topic br) br.
Proof.
  intros Hw Et Hhas. unfold BrokerPendingWill_Add. apply ends_bind, ends_get. cbv zeta.
  destruct (Z.leb_spec BROKER_MAX_PENDING_WILLS (len (br_wills br))) as [Hfull|Hroom].
  { apply ends_ret. exists (br_mem br). split; [done|]. right. split; [done|]. split; [by destruct br|by right]. }
  assert (Hfail : forall mem, (br_mem br = [] -> False) ->
    ends (mret MQTT_CODE_ERROR_MEMORY) (will_put_off now bc topic br) (set_mem br mem)).
  { intros mem Hne. apply ends_ret. exists mem. split; [by intros E|]. right. by split_and!; [..|left]. }
  apply ends_bind, ends_alloc. intros ok1 mem1 H1. destruct ok1; cbn [negb]; [|apply Hfail; intros E; by destruct (H1 E)].
  destruct (wo_named _ _ Hw Hhas) as [client_id Eid]. rewrite Eid, Et.
  apply ends_bind, ends_alloc. intros ok2 mem2 H2. cbn [br_mem set_mem] in H2.
  destruct ok2; cbn [negb]; [|apply (Hfail mem2); intros E; destruct (H1 E) as [_ E1]; by destruct (H2 E1)].
  apply ends_bind, ends_alloc. intros ok3 mem3 H3. cbn [br_mem set_mem] in H3.
  destruct ok3; cbn [negb];
    [|apply (Hfail mem3); intros E; destruct (H1 E) as [_ E1]; destruct (H2 E1) as [_ E2]; by destruct (H3 E2)].
  assert (H123 : br_mem br = [] -> mem3 = []) by (intros E; by apply H3, H2, H1).
  apply ends_bind. eapply ends_mono; [apply (will_copy_ok _ topic); [by apply Hw|apply Hw]|].
  intros [ok copy] br4 (mem4 & -> & H4 & Hcopy). cbn [br_mem set_mem fst snd] in H4, Hcopy.
  destruct ok; cbn [negb]; [|apply (Hfail mem4); intros E; by destruct (H4 (H123 E))].
  destruct (Hcopy eq_refl) as [-> En]. apply ends_bind, ends_modify, ends_ret. exists mem4.
  split; [intros E; by apply H4, H123|]. left. split; [done|]. split; [done|]. exists client_id. split; [done|].
  unfold pending_will. destruct (copy_payload _ _) as [c k]. cbn [fst snd] in *. by rewrite En.
Qed.

Record wills_ok br : Prop := {
  wk_clients : Forall (fun bc => will_ok (bc_will bc) (bc_client_id (bc_info bc))) (br_clients br);
  wk_pending : Forall pending_ok (br_wills br);
  wk_room : len (br_wills br) <= BROKER_MAX_PENDING_WILLS
}.

Lemma set_sock_id i sock connected : bc_client_id (set_sock i sock connected) = bc_client_id i.
Proof. done. Qed.

Lemma still_id bc bc' : still bc bc' -> bc_client_id (bc_info bc') = bc_client_id (bc_info bc).
Proof. by intros (_ & _ & _ & _ & [-> | ->]). Qed.

(** A fan-out changes no Will. *)
Lemma wills_ok_published (oom : Prop) now topic payload n qos retain br br' :
  will_published oom now topic payload n qos retain br br' -> wills_ok br -> wills_ok br'.
Proof.
  intros (ts & cs & mem & next & rt & -> & _ & _ & _ & _ & HD) [Hc Hp Hr]. constructor; try done. cbn.
  clear -HD Hc. induction HD as [|c c' l l' (_ & Hs) _ IH]; [constructor|].
  apply list.Forall_cons in Hc as [Hc Hl]. constructor; [|by apply IH]. rewrite (still_id _ _ Hs).
  by destruct Hs as (_ & -> & _).
Qed.

Lemma wills_ok_set_mem br mem : wills_ok br -> wills_ok (set_mem br mem).
Proof. by intros []. Qed.

Lemma routes_ok_set_mem br mem : routes_ok br -> routes_ok (set_mem br mem).
Proof. intros [[] ? ? ?]. by constructor. Qed.

Lemma routes_ok_set_wills br ws : routes_ok br -> routes_ok (set_wills br ws).
Proof. intros [[] ? ? ?]. by constructor. Qed.

Lemma no_will_ok id : will_ok no_will id.
Proof. by constructor; cbn. Qed.

(** The Will of a client is forgotten. *)
Definition will_cleared (addr : Z) br br' : Prop :=
  exists bc, client_at (br_clients br) addr = Some bc /\
    br' = set_clients br (client_put (br_clients br) (BrokerClient_ClearWill bc)).

Definition clear_will (addr : Z) : B Net unit := on_client addr (fun bc => Ok (tt, BrokerClient_ClearWill bc)).

Lemma routes_ok_put br bc :
  routes_ok br -> client_ok bc -> routes_ok (set_clients br (client_put (br_clients br) bc)).
Proof.
  intros [[Ha Hc Hn] Hl Hq Hr] Hbc. constructor; [constructor| |done|done].
  - change (NoDup (addrs (client_put (br_clients br) bc))). by rewrite addrs_put.
  - by apply Forall_put.
  - done.
  - intros a Ha'. change (a ∈ addrs (client_put (br_clients br) bc)). rewrite addrs_put. by apply Hl.
Qed.

Lemma clear_will_ok addr bc br :
  routes_ok br -> wills_ok br -> client_at (br_clients br) addr = Some bc ->
  ends (clear_will addr) (fun _ br' => will_cleared addr br br' /\ routes_ok br' /\ wills_ok br') br.
Proof.
  intros Hr [Hc Hp Hl] Hat. pose proof (fan_ok_at _ _ _ (rk_fan _ Hr) Hat) as Hok.
  eapply ends_on_client; [exact Hat|done|]. split; [by exists bc|]. split.
  - apply routes_ok_put; [done|]. by destruct Hok.
  - constructor; try done. apply Forall_put; [done|]. apply no_will_ok.
Qed.

(** What becomes of a client's Will. *)
Inductive will_outcome (oom : Prop) (now addr : Z) bc br br' : Prop :=
  | wout_none :
      has_will (bc_will bc) = 0 \/ default [] (will_topic (bc_will bc)) = [] -> br' = br -> will_outcome oom now addr bc br br'
  | wout_put_off topic br1 :
      will_topic (bc_will bc) = Some topic -> has_will (bc_will bc) <> 0 -> 0 < will_delay_sec (bc_will bc) ->
      will_put_off now bc topic br MQTT_CODE_SUCCESS br1 -> will_cleared addr br1 br' -> will_outcome oom now addr bc br br'
  | wout_published topic mem br2 :
      will_topic (bc_will bc) = Some topic -> has_will (bc_will bc) <> 0 -> (br_mem br = [] -> mem = []) ->
      will_delay_sec (bc_will bc) <= 0 \/ oom \/ BROKER_MAX_PENDING_WILLS <= len (br_wills br) ->
      will_published oom now topic (will_payload (bc_will bc)) (will_payload_len (bc_will bc)) (will_qos (bc_will bc))
        (will_retain (bc_will bc)) (set_mem br mem) br2 ->
      will_cleared addr br2 br' -> will_outcome oom now addr bc br br'.

Lemma published_at (oom : Prop) now topic payload n qos retain br br' addr bc :
  will_published oom now topic payload n qos retain br br' -> client_at (br_clients br) addr = Some bc ->
  exists bc', client_at (br_clients br') addr = Some bc' /\ still bc bc'.
Proof.
  intros (ts & cs & mem & next & rt & -> & _ & _ & _ & _ & HD) Hat. cbn. clear -HD Hat.
  induction HD as [|c c' l l' (_ & Hs) _ IH]; [done|]. pose proof Hs as (Ea & _). cbn [client_at] in Hat |- *.
  rewrite Ea. destruct (_ =? _); [injection Hat as ->; by exists c'|by apply IH].
Qed.

Lemma BrokerClient_PublishWill_ok (oom : Prop) now addr bc br :
  routes_ok br -> wills_ok br -> client_at (br_clients br) addr = Some bc -> (br_mem br <> [] -> oom) ->
  ends (BrokerClient_PublishWill now addr) (fun _ br' => will_outcome oom now addr bc br br' /\
    routes_ok br' /\ wills_ok br') br.
Proof.
  intros Hr Hw Hat Hoom. pose proof (wk_clients _ Hw) as Hws. rewrite list.Forall_forall in Hws.
  specialize (Hws bc (client_at_in _ _ _ Hat)). cbn beta in Hws.
  unfold BrokerClient_PublishWill. apply ends_bind, (ends_deref addr bc); [done|]. cbv zeta.
  destruct (will_topic (bc_will bc)) as [[|c topic]|] eqn:Et;
    [apply ends_ret; (split; [apply wout_none; [rewrite Et; by right|done]|done])| |
     apply ends_ret; (split; [apply wout_none; [rewrite Et; by right|done]|done])].
  destruct (Z.eqb_spec (has_will (bc_will bc)) 0) as [E|E];
    [apply ends_ret; (split; [apply wout_none; [by left|done]|done])|].
  assert (Hnow : forall mem, (br_mem br = [] -> mem = []) ->
    will_delay_sec (bc_will bc) <= 0 \/ oom \/ BROKER_MAX_PENDING_WILLS <= len (br_wills br) ->
    ends (_ ← BrokerClient_PublishWillImmediate now (c :: topic) (will_payload (bc_will bc)) (will_payload_len (bc_will bc))
                 (will_qos (bc_will bc)) (will_retain (bc_will bc)); clear_will addr)
      (fun _ br' => will_outcome oom now addr bc br br' /\ routes_ok br' /\ wills_ok br') (set_mem br mem)).
  { intros mem Hm Hwhy. apply ends_bind.
    eapply ends_mono; [apply (PublishWillImmediate_ok oom); [by apply routes_ok_set_mem|by apply Hws|apply Hws|]|].
    { intros Hne. apply Hoom. intros Em. by apply Hne, Hm. }
    intros _ br2 [Hpub Hr2]. destruct (published_at _ _ _ _ _ _ _ _ _ addr bc Hpub Hat) as (bc2 & Hat2 & _).
    pose proof (wills_ok_published _ _ _ _ _ _ _ _ _ Hpub (wills_ok_set_mem _ mem Hw)) as Hw2.
    eapply ends_mono; [by apply (clear_will_ok addr bc2)|]. intros _ br3 (Hcl & Hr3 & Hw3).
    split; [|done]. by eapply wout_published. }
  apply ends_bind. destruct (Z.ltb_spec 0 (will_delay_sec (bc_will bc))) as [Hd|Hd].
  - eapply ends_mono; [by apply (BrokerPendingWill_Add_ok now bc (c :: topic))|].
    intros rc br1 (mem & Hm & [(-> & Hlen & id & Eid & ->)|(-> & -> & Hwhy)]).
    + cbn [Z.eqb].
      pose proof (pending_will_ok now bc id (c :: topic) Hws Et) as Hpw.
      eapply ends_mono; [apply (clear_will_ok addr bc)|].
      * by apply routes_ok_set_wills, routes_ok_set_mem.
      * destruct Hw as [H1 H2 H3]. constructor; [done|by constructor|]. cbn [br_wills set_wills]. rewrite len_cons. lia.
      * done.
      * intros _ br2 (Hcl & Hr2 & Hw2). split; [|done]. eapply wout_put_off; [exact Et|done|done| |exact Hcl].
        exists mem. split; [done|]. left. split; [done|]. split; [done|]. by exists id.
    + apply Hnow; [done|]. right. destruct Hwhy as [?|?]; [left; auto|by right].
  - apply ends_ret. cbn [Z.eqb]. assert (Esame : set_mem br (br_mem br) = br) by by destruct br.
    pose proof (Hnow (br_mem br) (fun E => E) (or_introl Hd)) as H. by rewrite Esame in H.
Qed.

(** ** The sweep over the pending Wills *)

Definition will_due (now : Z) (pw : BrokerPendingWill) : bool := pw_publish_time pw <=? now.

(** Wills are published one after the other; between two publications only
    [pending_wills] changes. *)
Inductive wills_published (oom : Prop) (now : Z) : list BrokerPendingWill -> Broker Net -> Broker Net -> Prop :=
  | wps_nil br : wills_published oom now [] br br
  | wps_cons pw pws br br1 ws br2 :
      will_published oom now (pw_topic pw) (pw_payload pw) (pw_payload_len pw) (pw_qos pw) (pw_retain pw) br br1 ->
      wills_published oom now pws (set_wills br1 ws) br2 -> wills_published oom now (pw :: pws) br br2.

Lemma will_published_frame (oom : Prop) now topic payload n qos retain br br' :
  will_published oom now topic payload n qos retain br br' -> br_wills br' = br_wills br /\ (br_mem br = [] -> br_mem br' = []).
Proof. by intros (ts & cs & mem & next & rt & -> & Hm & _). Qed.

Lemma process_wills_ok (oom : Prop) now before wills activity br :
  routes_ok br -> wills_ok br -> br_wills br = before ++ wills -> (br_mem br <> [] -> oom) ->
  ends (process_wills now before wills activity) (fun a br' =>
    wills_published oom now (base.filter (fun pw => will_due now pw = true) wills) br br' /\
    br_wills br' = before ++ base.filter (fun pw => will_due now pw = false) wills /\
    a = (if existsb (will_due now) wills then 1 else activity) /\ routes_ok br' /\ wills_ok br') br.
Proof.
  revert before activity br. induction wills as [|pw wills IH]; intros before activity br Hr Hw Ew Hoom; cbn [process_wills existsb].
  { apply ends_ret. rewrite !filter_nil. split; [constructor|]. by split_and!. }
  rewrite !filter_cons. fold (will_due now pw). destruct (will_due now pw) eqn:Ed; cbn [orb].
  - destruct (decide (true = true)) as [_|[]]; [|done]. destruct (decide (true = false)) as [?|_]; [done|].
    pose proof (wk_pending _ Hw) as Hp. rewrite Ew in Hp. apply Forall_app in Hp as [Hb [[Hmsg Hq] Hn]%list.Forall_cons].
    apply ends_bind. eapply ends_mono; [by apply (PublishWillImmediate_ok oom)|]. intros _ br1 [Hpub Hr1].
    destruct (will_published_frame _ _ _ _ _ _ _ _ _ Hpub) as [_ Hm].
    pose proof (wills_ok_published _ _ _ _ _ _ _ _ _ Hpub Hw) as [Hc1 _ _].
    apply ends_bind, ends_modify. eapply ends_mono; [apply (IH before 1 (set_wills br1 (before ++ wills)))|].
    + by apply routes_ok_set_wills.
    + constructor; [done|by apply Forall_app|]. pose proof (wk_room _ Hw) as Hl. rewrite Ew, len_app, len_cons in Hl.
      cbn [br_wills set_wills]. rewrite len_app. lia.
    + done.
    + intros Hne. apply Hoom. intros E. by apply Hne, Hm.
    + intros a br2 (H1 & H2 & -> & H3). split; [by econstructor|]. split; [done|]. split; [by destruct (existsb _ wills)|done].
  - destruct (decide (false = true)) as [?|_]; [done|]. destruct (decide (false = false)) as [_|[]]; [|done].
    eapply ends_mono; [apply (IH (before ++ [pw]) activity br); [done|done|by rewrite <- app_assoc|done]|].
    intros a br2 (H1 & H2 & H3). split; [done|]. split; [|done]. by rewrite H2, <- app_assoc.
Qed.
End Publish.

(** ** Properties *)

Section Examples.

Definition ex_member (addr : Z) (id : list Z) (w : Will) : BrokerClient ScriptNet :=
  mkClient addr (mkInfo 3 (Some id) 4 0 0 1 1 1 0 1 0) w (mkQos2 [] 0) BrokerClient_FreeOutQueue
    (ex_link [] BROKER_TX_BUF_SZ).

(** Client 1 subscribes to "a/+"; client 2 has a Will for "a/b". *)
Definition ex_wills (delay : Z) (pending : list BrokerPendingWill) : Broker ScriptNet :=
  mkBroker [] 30 [ex_member 1 [97] no_will; ex_member 2 [98] (mkWill 1 (Some [97; 47; 98]) (Some [120]) 1 1 1 delay)] 2
    [mkSub [97; 47; 43] (Some [97]) (Some 1) 1] 1 (mkRt [] 0 0) pending [] 0 1 1.

Lemma ex_member_ok addr id w : client_ok (ex_member addr id w).
Proof. constructor; [apply empty_queue_ok|constructor|exists ∅; apply qos2_rep_empty|apply ex_link_ok]. Qed.

Lemma ex_message_ok : message_ok [97; 47; 98] (Some [120]) 1 [].
Proof. constructor; cbn -[Z.lt Z.le]; try by_eval; try constructor; lia. Qed.

Lemma ex_wills_routes delay pending : routes_ok (ex_wills delay pending).
Proof.
  constructor; [constructor| | |].
  - by_eval.
  - repeat apply List.Forall_cons; [apply ex_member_ok..|apply List.Forall_nil].
  - cbn. lia.
  - intros a Ha. apply elem_of_cons in Ha as [[= ->]|[]%elem_of_nil]. by left.
  - repeat apply List.Forall_cons; [cbn; lia|apply List.Forall_nil].
  - constructor; [done|by_eval|constructor|constructor|done].
Qed.

(** Client 1 subscribes to "a/b" as well. *)
Definition ex_overlap : Broker ScriptNet :=
  mkBroker [] 30 [ex_member 1 [97] no_will; ex_member 2 [98] no_will] 2
    [mkSub [97; 47; 43] (Some [97]) (Some 1) 1; mkSub [97; 47; 98] (Some [97]) (Some 1) 1] 1 (mkRt [] 0 0) [] [] 0 1 1.

Lemma ex_overlap_routes : routes_ok ex_overlap.
Proof.
  constructor; [constructor| | |].
  - by_eval.
  - repeat apply List.Forall_cons; [apply ex_member_ok..|apply List.Forall_nil].
  - cbn. lia.
  - intros a Ha. repeat apply elem_of_cons in Ha as [[= ->]|Ha]; [by left..|by apply elem_of_nil in Ha].
  - repeat apply List.Forall_cons; [cbn; lia..|apply List.Forall_nil].
  - constructor; [done|by_eval|constructor|constructor|done].
Qed.

Lemma ex_wills_ok delay pending : Forall pending_ok pending -> len pending <= 4 -> wills_ok (ex_wills delay pending).
Proof.
  intros Hp Hl. constructor; [|exact Hp|exact Hl]. repeat apply List.Forall_cons; [apply no_will_ok| |apply List.Forall_nil].
  constructor; cbn -[Z.lt Z.le]; [|by eexists|lia|by eexists]. intros topic [= <-]. apply ex_message_ok.
Qed.
End Examples.

(** C9: publication of a Will. For a broker in any valid state, with failing
    allocations and writes, BrokerClient_PublishWillImmediate ends without
    undefined behaviour. It stores the message as retained, or deletes the
    retained one when it is empty, exactly if the retain flag is set. It
    delivers it once for each matching subscription, in the order of the table,
    to the client of the subscription, so more than once to a client whose
    filters overlap, at the smaller of its QoS and the granted one. At QoS 0 on
    an idle connection the PUBLISH, whose bytes are stated (headers announcing
    the payload, and the payload as far as it fits the send buffer), is handed
    to the network at once: it is sent whole, or in part with the rest pending
    in the buffer, or not at all, as the network answers, and nothing is sent
    if it cannot be encoded. Else the message is queued and the queue is
    drained; a client whose queue is full is disconnected. A client is changed
    by the deliveries to it and by nothing else. Only when an allocation fails
    are deliveries missed. *)
Theorem PublishWillImmediate_exact {Net} `{!Sender Net} now topic payload n qos retain (br : Broker Net) :
  routes_ok br -> message_ok topic payload n [] -> 0 <= qos <= MQTT_QOS_2 ->
  exists br', BrokerClient_PublishWillImmediate now topic payload n qos retain br = Ok (tt, br') /\
    will_published (br_mem br <> []) now topic payload n qos retain br br' /\ routes_ok br'.
Proof.
  intros Hr Hm Hq. destruct (PublishWillImmediate_ok (br_mem br <> []) now topic payload n qos retain br Hr Hm Hq (fun H => H))
    as ([] & br' & E & H). by exists br'.
Qed.

(** Client 1 has two filters for "a/b". The Will goes to it twice: at QoS 2 by
    the queue, as the granted QoS is 1; at QoS 0 straight to the network. *)
Lemma PublishWillImmediate_exact_witness :
  let sent bc := net_sent (lk_net (bc_link bc)) in
  (exists br', BrokerClient_PublishWillImmediate 7 [97; 47; 98] (Some [120]) 1 2 1 ex_overlap = Ok (tt, br') /\
    map rm_topic (rt_list (br_retained br')) = [[97; 47; 98]] /\
    map (fun bc => map op_qos (out_q (bc_outq bc))) (br_clients br') = [[1; 1]; []]) /\
  (exists br', BrokerClient_PublishWillImmediate 7 [97; 47; 98] (Some [120]) 1 0 0 ex_overlap = Ok (tt, br') /\
    map sent (br_clients br') = [[48; 6; 0; 3; 97; 47; 98; 120; 48; 6; 0; 3; 97; 47; 98; 120]; []]).
Proof.
  assert (Hrun : match BrokerClient_PublishWillImmediate 7 [97; 47; 98] (Some [120]) 1 2 1 ex_overlap,
                       BrokerClient_PublishWillImmediate 7 [97; 47; 98] (Some [120]) 1 0 0 ex_overlap with
    | Ok (_, br1), Ok (_, br2) => map rm_topic (rt_list (br_retained br1)) = [[97; 47; 98]] /\
        map (fun bc => map op_qos (out_q (bc_outq bc))) (br_clients br1) = [[1; 1]; []] /\
        map (fun bc => net_sent (lk_net (bc_link bc))) (br_clients br2) =
          [[48; 6; 0; 3; 97; 47; 98; 120; 48; 6; 0; 3; 97; 47; 98; 120]; []]
    | _, _ => False
    end) by (vm_compute; done).
  destruct (PublishWillImmediate_exact 7 [97; 47; 98] (Some [120]) 1 2 1 ex_overlap ex_overlap_routes ex_message_ok
              ltac:(lia)) as (br1 & E1 & _).
  destruct (PublishWillImmediate_exact 7 [97; 47; 98] (Some [120]) 1 0 0 ex_overlap ex_overlap_routes ex_message_ok
              ltac:(lia)) as (br2 & E2 & _).
  rewrite E1, E2 in Hrun. destruct Hrun as (H1 & H2 & H3).
  cbv zeta. split; [exists br1; exact (conj E1 (conj H1 H2))|exists br2; exact (conj E2 H3)].
Defined.

(** C10: a Will is published at most once, and not before it is due. From any
    valid state BrokerClient_PublishWill ends; a client without a Will changes
    nothing; otherwise the client has no Will afterwards, and the Will was put
    off or published. It is put off, with its own copy of topic and payload,
    exactly if it has a delay, fewer than BROKER_MAX_PENDING_WILLS are pending
    and memory suffices; it is then due after the delay, but not later than
    the end of the session, and the sum does not wrap. *)
Theorem BrokerClient_PublishWill_once {Net} `{!Sender Net} now addr bc (br : Broker Net) :
  routes_ok br -> wills_ok br -> client_at (br_clients br) addr = Some bc -> 0 <= now <= TIME_MAX ->
  exists br', BrokerClient_PublishWill now addr br = Ok (tt, br') /\ routes_ok br' /\ wills_ok br' /\
    will_outcome (br_mem br <> []) now addr bc br br' /\
    (0 < will_delay_sec (bc_will bc) < 4294967296 -> 0 <= bc_session_expiry_sec (bc_info bc) ->
     forall client_id topic, pw_publish_time (pending_will now bc client_id topic) =
       Z.min TIME_MAX (now + (if bc_session_expiry_sec (bc_info bc) =? NEVER_EXPIRES then will_delay_sec (bc_will bc)
                              else Z.min (will_delay_sec (bc_will bc)) (bc_session_expiry_sec (bc_info bc))))).
Proof.
  intros Hr Hw Hat Hnow.
  destruct (BrokerClient_PublishWill_ok (br_mem br <> []) now addr bc br Hr Hw Hat (fun H => H)) as ([] & br' & E & Ho & Hr' & Hw').
  exists br'. split_and!; try done. intros Hd He client_id topic. unfold pending_will.
  destruct (copy_payload _ _). cbn [pw_publish_time]. unfold will_time.
  destruct (Z.eqb_spec (bc_session_expiry_sec (bc_info bc)) NEVER_EXPIRES); cbn [negb andb];
    [destruct (Z.ltb_spec (TIME_MAX - now) (will_delay_sec (bc_will bc))); lia|].
  destruct (Z.ltb_spec (bc_session_expiry_sec (bc_info bc)) (will_delay_sec (bc_will bc)));
    match goal with |- context [TIME_MAX - now <? ?d] => destruct (Z.ltb_spec (TIME_MAX - now) d) end; lia.
Qed.

Lemma BrokerClient_PublishWill_once_witness :
  exists br', BrokerClient_PublishWill 7 2 (ex_wills 60 []) = Ok (tt, br') /\
    map pw_publish_time (br_wills br') = [7] /\ map (fun bc => has_will (bc_will bc)) (br_clients br') = [0; 0].
Proof.
  assert (Hrun : match BrokerClient_PublishWill 7 2 (ex_wills 60 []) with
    | Ok (_, br') => map pw_publish_time (br_wills br') = [7] /\ map (fun bc => has_will (bc_will bc)) (br_clients br') = [0; 0]
    | _ => False
    end) by (vm_compute; done).
  destruct (BrokerClient_PublishWill_once 7 2 _ (ex_wills 60 []) (ex_wills_routes 60 [])
              (ex_wills_ok 60 [] ltac:(constructor) ltac:(done)) eq_refl ltac:(lia)) as (br' & E & _).
  rewrite E in Hrun. exists br'. split; [exact E|exact Hrun].
Defined.

(** C11: the sweep over the pending Wills ends. It publishes exactly the Wills
    that are due, each once and in the order of the list, and leaves exactly
    the others; it reports activity exactly if there was one. *)
Theorem BrokerPendingWill_Process_exact {Net} `{!Sender Net} now (br : Broker Net) :
  routes_ok br -> wills_ok br ->
  exists br', BrokerPendingWill_Process now br =
      Ok (if existsb (will_due now) (br_wills br) then 1 else 0, br') /\
    wills_published (br_mem br <> []) now (base.filter (fun pw => will_due now pw = true) (br_wills br)) br br' /\
    br_wills br' = base.filter (fun pw => will_due now pw = false) (br_wills br) /\ routes_ok br' /\ wills_ok br'.
Proof.
  intros Hr Hw.
  destruct (process_wills_ok (br_mem br <> []) now [] (br_wills br) 0 br Hr Hw eq_refl (fun H => H))
    as (a & br' & E & H1 & H2 & -> & H3 & H4). exists br'. by split_and!.
Qed.

Definition ex_pending (t : Z) : BrokerPendingWill := mkPendingWill [99] [97; 47; 98] (Some [120]) 1 1 0 t.

Definition ex_pendings : list BrokerPendingWill := [ex_pending 9; ex_pending 7; ex_pending 3].

Lemma BrokerPendingWill_Process_exact_witness :
  exists br', BrokerPendingWill_Process 7 (ex_wills 0 ex_pendings) = Ok (1, br') /\
    map pw_publish_time (br_wills br') = [9] /\
    map (fun bc => map op_packet_id (out_q (bc_outq bc))) (br_clients br') = [[1; 2]; []].
Proof.
  assert (Hp : Forall pending_ok ex_pendings)
    by (repeat apply List.Forall_cons; [..|apply List.Forall_nil]; (constructor; [apply ex_message_ok|cbn; lia])).
  assert (Hrun : match BrokerPendingWill_Process 7 (ex_wills 0 ex_pendings) with
    | Ok (a, br') => a = 1 /\ map pw_publish_time (br_wills br') = [9] /\
        map (fun bc => map op_packet_id (out_q (bc_outq bc))) (br_clients br') = [[1; 2]; []]
    | _ => False
    end) by (vm_compute; done).
  assert (Hl : len ex_pendings <= 4) by (vm_compute; discriminate).
  destruct (BrokerPendingWill_Process_exact 7 (ex_wills 0 ex_pendings) (ex_wills_routes 0 ex_pendings)
              (ex_wills_ok 0 ex_pendings Hp Hl)) as (br' & E & _).
  rewrite E in Hrun. destruct Hrun as (Ea & Hrun). rewrite Ea in E. exists br'. split; [exact E|exact Hrun].
Defined.
