(* ===== verification/BrokerClose.v ===== *)
(** * BrokerClose: the broker's invariant and the end of a connection ([mqtt_broker.c])

    [broker_ok] is what every operation of the broker keeps. The functions that
    end a connection, [BrokerClient_AbnormalClose] and [BrokerClient_EndConnect],
    and those that finish a write in progress. *)
From stdpp Require Import gmap.
From S2P Require Import Prelude PacketDefs Wire FixedHeader Props Frame PublishResp Publish PacketIO Topic BrokerTopic BrokerDefs BrokerQos2 OutQueue OutStream OutAlloc BrokerState BrokerSubs BrokerSend BrokerRetained BrokerOrphan BrokerSession BrokerFanout BrokerWill.

(** ** Operations *)

Section Close.
Context {Net : Type} `{!Sender Net}.
Implicit Types (br : Broker Net) (bc : BrokerClient Net).

(** The session is kept for its expiry interval, or ends with the connection. *)
Definition end_session (now addr : Z) : B Net unit :=
  bc ← deref addr;
  if bc_session_expiry_sec (bc_info bc) =? 0 then BrokerSubs_EndClientSession addr
  else BrokerSubs_OrphanClient now addr.

Definition BrokerClient_AbnormalClose (now addr : Z) : B Net unit :=
  _ ← BrokerClient_PublishWill now addr;
  _ ← end_session now addr;
  BrokerClient_Remove addr.

Definition BrokerClient_EndConnect (now addr : Z) : B Net unit :=
  bc ← deref addr;
  _ ← (if negb (bc_session_established (bc_info bc) =? 0) then end_session now addr
       else BrokerSubs_RemoveClient addr);
  BrokerClient_Remove addr.

Definition BrokerRcIsFatal (rc : Z) : bool :=
  (rc =? MQTT_CODE_ERROR_NETWORK) || (rc =? MQTT_CODE_ERROR_MALFORMED_DATA) ||
  (rc =? MQTT_CODE_ERROR_PACKET_TYPE) || (rc =? MQTT_CODE_ERROR_PACKET_ID) ||
  (rc =? MQTT_CODE_ERROR_PROPERTY) || (rc =? MQTT_CODE_ERROR_PROPERTY_MISMATCH) ||
  (rc =? MQTT_CODE_ERROR_MEMORY) || (rc =? MQTT_CODE_ERROR_OUT_OF_BUFFER).

(** A change of the client's link. *)
Definition on_link (addr : Z) (f : Link Net -> Link Net) : B Net unit :=
  on_client addr (fun bc => Ok (tt, with_link bc (f (bc_link bc)))).

Definition BrokerClient_ResumeConnAck (now addr : Z) : B Net Z :=
  bc ← deref addr;
  let refused := negb (connack_refused (bc_link bc) =? 0) in
  let n := connack_pending_len (bc_link bc) in
  rc ← on_client addr (fun bc => '(rc, l) ← client_write now (bc_link bc) n; Ok (rc, with_link bc l));
  if rc =? MQTT_CODE_CONTINUE then mret rc
  else if negb (rc =? n) then
    _ ← on_link addr (fun l => set_connack l 0 0);
    _ ← (if refused then BrokerClient_EndConnect now addr else BrokerClient_AbnormalClose now addr);
    mret (if rc <? 0 then rc else MQTT_CODE_ERROR_NETWORK)
  else
    _ ← on_link addr (fun l => set_connack l 0 (connack_refused l));
    if refused then
      _ ← on_link addr (fun l => set_connack l 0 0);
      _ ← BrokerClient_EndConnect now addr;
      mret MQTT_CODE_ERROR_NETWORK
    else
      _ ← on_client addr (fun bc => Ok (tt, with_info bc (set_last_rx (bc_info bc) now)));
      bc ← deref addr;
      _ ← (if 0 <? out_q_count (bc_outq bc) then drain_client now addr else mret tt);
      mret MQTT_CODE_SUCCESS.

Definition BrokerClient_ResumeDirect (now addr : Z) : B Net Z :=
  bc ← deref addr;
  let packet_len := direct_pending_len (bc_link bc) in
  rc ← on_client addr (fun bc => BrokerClient_WriteDirect now bc packet_len);
  if rc =? MQTT_CODE_CONTINUE then mret rc
  else
    _ ← on_link addr (fun l => set_tx l (BROKER_FORCE_ZERO (lk_tx l) packet_len));
    if negb (rc =? packet_len) then
      _ ← BrokerClient_AbnormalClose now addr;
      mret (if rc <? 0 then rc else MQTT_CODE_ERROR_NETWORK)
    else mret MQTT_CODE_SUCCESS.
End Close.

(** ** The invariant *)

Section Invariant.
Context {Net : Type}.
Implicit Types (br : Broker Net) (bc : BrokerClient Net).

(** A valid client: queue, link, QoS 2 identifiers and Will. *)
Record client_inv bc : Prop := {
  ci_client : client_ok bc;
  ci_will : will_ok (bc_will bc) (bc_client_id (bc_info bc))
}.

Definition orphan_inv (o : BrokerOrphanSession) : Prop := Forall entry_rep (out_q (o_outq o)).
Definition sub_inv (s : BrokerSub) : Prop := 0 <= sub_qos s <= MQTT_QOS_2.

Record broker_ok br : Prop := {
  bk_sessions : sessions_ok br;
  bk_clients : Forall client_inv (br_clients br);
  bk_entries : Forall orphan_inv (br_orphans br);
  bk_subs : Forall sub_inv (br_subs br);
  bk_retained : retained_ok (br_retained br);
  bk_pending : Forall pending_ok (br_wills br);
  bk_room : len (br_wills br) <= BROKER_MAX_PENDING_WILLS
}.

(** Its parts, as the fan-out and the Wills see them. *)
Lemma broker_ok_routes br : broker_ok br -> routes_ok br.
Proof.
  intros [[Ha _ _ Hn Hl] Hc _ Hs Hr _ _]. constructor; try done. constructor; try done.
  eapply List.Forall_impl; [|exact Hc]. by intros c [].
Qed.

Lemma broker_ok_wills br : broker_ok br -> wills_ok br.
Proof.
  intros [_ Hc _ _ _ Hp Hr]. constructor; try done. eapply List.Forall_impl; [|exact Hc]. by intros c [].
Qed.

Lemma client_inv_session bc : client_inv bc -> session_ok bc.
Proof. intros [[Hq _ Ht _] _]. by split. Qed.

Lemma broker_ok_at br addr bc : broker_ok br -> client_at (br_clients br) addr = Some bc -> client_inv bc.
Proof.
  intros Hok H%client_at_in. pose proof (bk_clients _ Hok) as Hc. rewrite list.Forall_forall in Hc. auto.
Qed.

(** A change of clients, allocator, cells and identifiers. *)
Lemma broker_ok_clients br br' :
  broker_ok br -> addrs (br_clients br') = addrs (br_clients br) -> Forall client_inv (br_clients br') ->
  br_orphans br' = br_orphans br -> br_orphan_count br' = br_orphan_count br -> 0 <= br_next_packet_id br' < 65536 ->
  br_subs br' = br_subs br -> retained_ok (br_retained br') -> br_wills br' = br_wills br -> broker_ok br'.
Proof.
  intros [Hs _ He Hq _ Hp Hr] Ea Hc Eo En Hn Es Hrt Ew. constructor; rewrite ?Eo, ?Es, ?Ew; try done.
  eapply sessions_ok_step; [exact Hs|done| |rewrite Eo, En; apply Hs|done|by rewrite Es].
  eapply List.Forall_impl; [|exact Hc]. apply client_inv_session.
Qed.

Lemma broker_ok_put br bc :
  broker_ok br -> client_inv bc -> broker_ok (set_clients br (client_put (br_clients br) bc)).
Proof.
  intros Hok Hbc. eapply broker_ok_clients; [exact Hok|apply addrs_put| |done|done|apply Hok|done|apply Hok|done].
  apply Forall_put; [apply Hok|done].
Qed.

(** A refusal is being written when [connack_refused] is set. A client that may
    still send a CONNECT has no Will: it is not connected, its socket is open
    and no refusal is being written. *)
Definition tame bc : Prop :=
  (connack_refused (bc_link bc) <> 0 -> connack_pending_len (bc_link bc) <> 0) /\
  (bc_connected (bc_info bc) <> 0 \/ bc_sock (bc_info bc) < 0 \/ connack_refused (bc_link bc) <> 0 \/
   has_will (bc_will bc) = 0).

(** The identifier and the protocol level. *)
Definition identity (i : ClientInfo) : option (list Z) * Z := (bc_client_id i, bc_protocol_level i).

(** A client keeps its address and its identity, and, unless [loose], stays
    tame. *)
Record abides (loose : Z -> Prop) bc bc' : Prop := {
  ab_addr : bc_addr bc' = bc_addr bc;
  ab_id : identity (bc_info bc') = identity (bc_info bc);
  ab_tame : loose (bc_addr bc) \/ (tame bc -> tame bc')
}.

Definition none_loose (_ : Z) : Prop := False.

Lemma abides_same bc bc' :
  bc_addr bc' = bc_addr bc -> identity (bc_info bc') = identity (bc_info bc) ->
  bc_connected (bc_info bc') = bc_connected (bc_info bc) -> bc_sock (bc_info bc') = bc_sock (bc_info bc) ->
  connack_of bc' = connack_of bc -> has_will (bc_will bc') = has_will (bc_will bc) \/ has_will (bc_will bc') = 0 ->
  abides none_loose bc bc'.
Proof.
  intros Ea Ei Ec Es [= E1 E2] Hw. constructor; [done|done|]. right. unfold tame. rewrite Ec, Es, E1, E2. intros H.
  destruct Hw as [-> | ->]; tauto.
Qed.

Lemma abides_info bc i :
  identity i = identity (bc_info bc) -> bc_connected i = bc_connected (bc_info bc) -> bc_sock i = bc_sock (bc_info bc) ->
  abides none_loose bc (with_info bc i).
Proof. intros. by apply abides_same; [..|left]. Qed.

Lemma abides_refl loose bc : abides loose bc bc.
Proof. constructor; [done|done|by right]. Qed.

Lemma abides_trans loose bc bc1 bc2 : abides loose bc bc1 -> abides loose bc1 bc2 -> abides loose bc bc2.
Proof.
  intros [E1 E2 H] [E1' E2' H']. constructor; [congruence|congruence|]. rewrite E1 in H'.
  destruct H as [H|H]; [by left|]. destruct H' as [H'|H']; [by left|right; auto].
Qed.

Lemma abides_loosen loose bc bc' : abides none_loose bc bc' -> abides loose bc bc'.
Proof. intros [? ? [[]|?]]. constructor; [done|done|by right]. Qed.

Lemma still_abides bc bc' : still bc bc' -> abides none_loose bc bc'.
Proof.
  intros (Ea & Ew & _ & Ec & Hi). constructor; [done|by destruct Hi as [-> | ->]|]. right.
  unfold tame, connack_of in *. injection Ec as -> ->. rewrite Ew.
  destruct Hi as [-> | ->]; [done|]. intros [? _]. split; [done|by right; left].
Qed.

(** What the operations on a connected client keep: the invariant, the clients
    that are linked and the cells of the property pool. *)
Record stays_but (loose : Z -> Prop) br br' : Prop := {
  sy_ok : broker_ok br';
  sy_clients : Forall2 (abides loose) (br_clients br) (br_clients br');
  sy_cells : br_cells br' = br_cells br
}.

Local Abbreviation stays := (stays_but none_loose).

Lemma all_abide_refl loose cs : Forall2 (abides loose) cs cs.
Proof. induction cs; constructor; [apply abides_refl|done]. Qed.

Lemma all_abide_trans loose cs cs1 cs2 :
  Forall2 (abides loose) cs cs1 -> Forall2 (abides loose) cs1 cs2 -> Forall2 (abides loose) cs cs2.
Proof.
  intros H. revert cs2. induction H as [|c c1 cs cs1 Hc _ IH]; intros cs2 H2; [done|].
  apply Forall2_cons_inv_l in H2 as (c2 & cs3 & H2 & H3 & ->). constructor; [by eapply abides_trans|auto].
Qed.

Lemma all_abide_addrs loose cs cs' : Forall2 (abides loose) cs cs' -> addrs cs' = addrs cs.
Proof. induction 1 as [|c c' cs cs' [E _ _] _ IH]; [done|]. unfold addrs in *. cbn. by rewrite E, IH. Qed.

Lemma abides_put loose cs bc bc' :
  client_at cs (bc_addr bc) = Some bc -> abides loose bc bc' -> Forall2 (abides loose) cs (client_put cs bc').
Proof.
  intros Hat Hab. pose proof (ab_addr _ _ _ Hab) as Ea. induction cs as [|c cs IH]; [done|]. cbn in *. rewrite Ea.
  destruct (Z.eqb_spec (bc_addr c) (bc_addr bc)).
  - injection Hat as ->. constructor; [done|apply all_abide_refl].
  - constructor; [apply abides_refl|auto].
Qed.

Lemma all_abide_at loose cs cs' addr bc :
  Forall2 (abides loose) cs cs' -> client_at cs addr = Some bc ->
  exists bc', client_at cs' addr = Some bc' /\ abides loose bc bc'.
Proof.
  induction 1 as [|c c' cs cs' Hc _ IH]; [done|]. cbn. rewrite (ab_addr _ _ _ Hc).
  destruct (_ =? _); [|done]. intros [= <-]. by exists c'.
Qed.

Lemma sy_addrs loose br br' : stays_but loose br br' -> addrs (br_clients br') = addrs (br_clients br).
Proof. intros [_ H _]. by eapply all_abide_addrs. Qed.

Lemma stays_refl br : broker_ok br -> stays br br.
Proof. intros. constructor; [done|apply all_abide_refl|done]. Qed.

Lemma stays_loosen loose br br' : stays br br' -> stays_but loose br br'.
Proof.
  intros [? H ?]. constructor; [done| |done]. eapply List.Forall2_impl; [|exact H]. intros c c'. apply abides_loosen.
Qed.

Lemma stays_trans loose br br1 br2 : stays_but loose br br1 -> stays_but loose br1 br2 -> stays_but loose br br2.
Proof. intros [? ? ?] [? ? ?]. constructor; [done|by eapply all_abide_trans|congruence]. Qed.

(** A change that is not one of clients or cells. *)
Lemma stays_same br br' : broker_ok br' -> br_clients br' = br_clients br -> br_cells br' = br_cells br -> stays br br'.
Proof. intros ? E ?. constructor; [done|rewrite E; apply all_abide_refl|done]. Qed.

(** A change of one client. *)
Lemma stays_put loose br br' bc bc' :
  broker_ok br' -> client_at (br_clients br) (bc_addr bc) = Some bc -> abides loose bc bc' ->
  br_clients br' = client_put (br_clients br) bc' -> br_cells br' = br_cells br -> stays_but loose br br'.
Proof. intros ? ? ? E ?. constructor; [done|rewrite E; by eapply abides_put|done]. Qed.

Lemma stays_at loose br br' addr :
  stays_but loose br br' -> is_Some (client_at (br_clients br) addr) -> is_Some (client_at (br_clients br') addr).
Proof. intros E. by rewrite <- !client_at_some, (sy_addrs _ _ _ E). Qed.

(** An operation on the client [addr]. *)
Definition steady {A} (addr : Z) (m : B Net A) : Prop :=
  forall br, broker_ok br -> is_Some (client_at (br_clients br) addr) -> ends m (fun _ => stays br) br.

Lemma steady_ret {A} addr (a : A) : steady addr (mret a).
Proof. intros br Hok _. by apply ends_ret, stays_refl. Qed.

Lemma steady_bind {A C} addr (m : B Net A) (f : A -> B Net C) :
  steady addr m -> (forall a, steady addr (f a)) -> steady addr (m ≫= f).
Proof.
  intros Hm Hf br Hok Hat. apply ends_bind. eapply ends_mono; [by apply Hm|]. intros a br1 H1.
  eapply ends_mono; [apply Hf; [apply H1|eapply stays_at; [exact H1|exact Hat]]|]. intros c br2. by apply stays_trans.
Qed.

Lemma steady_on_client {A} addr (f : BrokerClient Net -> result (A * BrokerClient Net)) :
  (forall bc, client_inv bc -> exists a bc', f bc = Ok (a, bc') /\ client_inv bc' /\ abides none_loose bc bc') ->
  steady addr (on_client addr f).
Proof.
  intros Hf br Hok [bc Hat]. destruct (Hf bc (broker_ok_at _ _ _ Hok Hat)) as (a & bc' & E & Hi & Hab).
  eapply ends_on_client; [exact Hat|exact E|]. pose proof (client_at_addr _ _ _ Hat) as Ea.
  eapply stays_put; [by apply broker_ok_put| |exact Hab|done|done]. by rewrite Ea.
Qed.

Lemma steady_deref {A} addr (f : BrokerClient Net -> B Net A) :
  (forall bc, client_inv bc -> steady addr (f bc)) -> steady addr (deref addr ≫= f).
Proof.
  intros Hf br Hok [bc Hat]. apply ends_bind, (ends_deref addr bc); [done|].
  apply Hf; [by eapply broker_ok_at|done|by exists bc].
Qed.
End Invariant.

Abbreviation stays := (stays_but none_loose).

Create HintDb steady.
#[export] Hint Resolve steady_ret steady_bind steady_on_client steady_deref : steady.

(** ** The end of a session *)

Section Closing.
Context {Net : Type} `{!Sender Net}.
Implicit Types (br : Broker Net) (bc : BrokerClient Net).

Lemma broker_ok_step br br' :
  broker_ok br -> sessions_ok br' -> Forall client_inv (br_clients br') -> Forall orphan_inv (br_orphans br') ->
  Forall sub_inv (br_subs br') -> br_retained br' = br_retained br -> br_wills br' = br_wills br -> broker_ok br'.
Proof. intros [_ _ _ _ Hr Hp Hm] ? ? ? ? Er Ew. constructor; rewrite ?Er, ?Ew; done. Qed.

(** The client is about to go: it need not stay tame. *)
Definition leaving (addr a : Z) : Prop := a = addr.

(** The client no longer owns a subscription. *)
Definition let_go (addr : Z) br br' : Prop := stays_but (leaving addr) br br' /\ (Some addr ∉ map sub_client (br_subs br')).

(** The client is gone, the others are there. *)
Record parted (addr : Z) br br' : Prop := {
  pt_ok : broker_ok br';
  pt_clients : Forall2 (abides none_loose) (base.filter (fun c => bc_addr c <> addr) (br_clients br)) (br_clients br');
  pt_cells : br_cells br' = br_cells br
}.

Lemma let_go_trans addr br br1 br2 : stays_but (leaving addr) br br1 -> let_go addr br1 br2 -> let_go addr br br2.
Proof. intros H1 [H2 Hs]. split; [by eapply stays_trans|done]. Qed.

Lemma emptied_inv now id bc : client_inv bc -> id <> [] -> client_inv (emptied bc) /\ orphan_inv (taken now id bc).
Proof.
  intros [Hc Hw] Hid. destruct (taken_ok now id bc (client_inv_session bc (Build_client_inv _ Hc Hw)) Hid) as [Ho [Hq HT]].
  unfold taken, emptied, orphan_inv in *. pose proof (take_session_spec bc) as Hs.
  assert (Hlink : link_ok (bc_link (snd (take_session bc)))).
  { pose proof (link_ok_set_pos _ (co_link _ Hc)) as H0. unfold take_session. destruct (0 <? _); [|apply Hc].
    destruct (drop_partial _); [exact H0|apply Hc]. }
  destruct (take_session bc) as [[q qos2] bc']. cbn [snd o_outq] in *.
  destruct Hs as (Eq & _ & Ee & _ & _ & Ei & Ew & _). split.
  - constructor; [|by rewrite Ew, Ei]. constructor; [done|rewrite Ee; constructor|done|done].
  - rewrite Eq. unfold kept_messages. pose proof (drop_partial_spec (out_q (bc_outq bc))) as Hd.
    pose proof (co_entries _ Hc) as He. destruct (0 <? _); [|done]. destruct (drop_partial _); [|done].
    destruct Hd as (b & e & a & E & -> & _). rewrite E in He. apply Forall_app in He as [? [_ ?]%list.Forall_cons].
    by apply Forall_app.
Qed.

Lemma emptied_abides bc : abides none_loose bc (emptied bc).
Proof.
  destruct (emptied_same bc) as [Ea Ei]. pose proof (take_session_spec bc) as Hs. unfold emptied in *.
  assert (Ec : connack_of (take_session bc).2 = connack_of bc).
  { unfold take_session. destruct (0 <? _); [|done]. by destruct (drop_partial _). }
  destruct (take_session bc) as [[q qos2] bc']. cbn [snd] in *. destruct Hs as (_ & _ & _ & _ & _ & _ & Ew & _).
  apply abides_same; rewrite ?Ei, ?Ew; try done. by left.
Qed.

Lemma RemoveClient_lets_go addr br :
  broker_ok br -> is_Some (client_at (br_clients br) addr) -> ends (BrokerSubs_RemoveClient addr) (fun _ => let_go addr br) br.
Proof.
  intros Hok [bc Hat]. pose proof (bk_sessions _ Hok) as Hs.
  eapply ends_mono; [eapply ends_conj; [by eapply RemoveClient_ends|by eapply RemoveClient_released]|].
  intros _ br' [[gen ->] (Hs' & Ea & Hout)]. split; [|done].
  eapply (stays_put _ _ _ bc); [|by rewrite (client_at_addr _ _ _ Hat)| |done|done]; [|by apply abides_loosen, abides_info].
  apply (broker_ok_step br); try done; cbn -[base.filter].
  - apply Forall_put; [apply Hok|]. pose proof (broker_ok_at _ _ _ Hok Hat) as [Hc Hw]. constructor; [by apply client_ok_info|done].
  - apply Hok.
  - eapply Forall_sublist; [apply sublist_filter|apply Hok].
Qed.

(** What the orphaning of a session keeps, whoever the client is. *)
Lemma Take_keeps now addr bc br :
  broker_ok br -> client_at (br_clients br) addr = Some bc ->
  ends (BrokerOrphan_Take now addr) (fun _ br' => stays br br' /\
    forall a, Some a ∈ map sub_client (br_subs br') -> Some a ∈ map sub_client (br_subs br)) br.
Proof.
  intros Hok Hat. pose proof (bk_sessions _ Hok) as Hs. pose proof (broker_ok_at _ _ _ Hok Hat) as Hbc.
  destruct (bc_client_id (bc_info bc)) as [[|c id]|] eqn:Eid.
  1,3: unfold BrokerOrphan_Take; apply ends_bind, (ends_deref addr bc); [done|]; rewrite Eid; apply ends_ret;
    split; [by apply stays_refl|done].
  assert (Hid : c :: id <> []) by done. destruct (emptied_inv now (c :: id) bc Hbc Hid) as [Hec Heo].
  eapply ends_mono; [by eapply BrokerOrphan_Take_ok|].
  intros ok br1 (mem & subs & gen & os & n & Hroom & _ & ->). pose proof Hroom as [Hos Hn Hnew Hsubs Hso Hk].
  assert (Hq : Forall orphan_inv os) by (eapply Forall_sublist; [exact Hso|apply Hok]).
  assert (Hb : Forall sub_inv subs) by (eapply Forall_sublist; [exact Hsubs|apply Hok]).
  destruct ok; (split; [|intros a; cbn; by apply clients_sublist]).
  - eapply (stays_put _ _ _ bc); [|by rewrite (client_at_addr _ _ _ Hat)|apply emptied_abides|done|done]. apply (broker_ok_step br); try done.
    + by apply (orphaned_ok now addr bc (c :: id) br mem subs gen os n subs).
    + apply Forall_put; [apply Hok|done].
    + by constructor.
  - apply stays_same; [|done|done]. apply (broker_ok_step br); try done; [|apply Hok].
    eapply sessions_ok_step; [exact Hs|done|apply Hok|done|apply Hok|]. intros a. by apply clients_sublist.
Qed.

Lemma OrphanClient_lets_go now addr br :
  broker_ok br -> is_Some (client_at (br_clients br) addr) -> ends (BrokerSubs_OrphanClient now addr) (fun _ => let_go addr br) br.
Proof.
  intros Hok Hat. pose proof Hat as [bc Hbc]. unfold BrokerSubs_OrphanClient. apply ends_bind, ends_get, ends_bind.
  eapply ends_mono; [by eapply Take_keeps|]. intros ok br1 [H1 Hsub]. pose proof (sy_ok _ _ _ H1) as Hok1.
  destruct ok; cbn [negb].
  - destruct (Z.eqb_spec (len (base.filter (fun s => of_client addr s = true) (br_subs br))) 0) as [E0|E0].
    + apply ends_ret. split; [by apply stays_loosen|]. intros Hin%Hsub. apply list_elem_of_fmap in Hin as (s & Es & Hin).
      assert (Hf : s ∈ base.filter (fun s => of_client addr s = true) (br_subs br)).
      { apply list_elem_of_filter. split; [|done]. unfold of_client. by rewrite bool_decide_eq_true_2. }
      apply list_elem_of_split in Hf as (a & b & E). rewrite E, len_app, len_cons in E0.
      pose proof (len_nonneg a). pose proof (len_nonneg b). lia.
    + apply ends_modify. fold (detach addr). split; [|apply detach_out]. eapply stays_loosen, stays_trans; [exact H1|].
      apply stays_same; [|done|done]. apply (broker_ok_step br1); try done; [| |apply Hok1|].
      * eapply sessions_ok_step; [apply Hok1|done|apply Hok1|apply Hok1|apply Hok1|]. apply detach_in.
      * apply Hok1.
      * cbn. apply Forall_map. eapply List.Forall_impl; [|apply Hok1]. intros s Hs. unfold detach, compose. by destruct (of_client addr s).
  - eapply ends_mono; [apply RemoveClient_lets_go; [done|by eapply stays_at]|]. intros u br2. by apply let_go_trans, stays_loosen.
Qed.

Lemma EndClientSession_lets_go addr br :
  broker_ok br -> is_Some (client_at (br_clients br) addr) -> ends (BrokerSubs_EndClientSession addr) (fun _ => let_go addr br) br.
Proof.
  intros Hok Hat. unfold BrokerSubs_EndClientSession. apply ends_bind.
  eapply ends_mono; [by apply RemoveClient_lets_go|]. intros u br1 [H1 Hout].
  pose proof (sy_ok _ _ _ H1) as Hok1. destruct (stays_at _ _ _ _ H1 Hat) as [bc Hat1].
  apply ends_bind, (ends_deref addr bc); [done|].
  destruct (bc_client_id (bc_info bc)) as [[|c id]|]; [by apply ends_ret| |by apply ends_ret].
  apply ends_modify. pose proof (BrokerOrphan_Find_spec (br_orphans br1) (c :: id)) as Hf.
  destruct (BrokerOrphan_Find _ _) as [[[b o] a]|]; [|done].
  destruct Hf as (Es & _). pose proof (ss_orphans _ (bk_sessions _ Hok1)) as Hos. rewrite Es in Hos.
  destruct (BrokerOrphan_DropFull_eq b o a br1 Hos) as [g ->].
  split; [|cbn; intros Hin; apply Hout; eapply clients_sublist; [|exact Hin]; apply sublist_filter].
  eapply stays_trans; [exact H1|]. apply stays_loosen, stays_same; [|done|done].
  pose proof (bk_entries _ Hok1) as He. rewrite Es in He. apply Forall_app in He as [He1 [_ He2]%list.Forall_cons].
  apply (broker_ok_step br1); try done; [|apply Hok1|by apply Forall_app|].
  - eapply sessions_ok_step; [apply Hok1|done|apply Hok1|by eapply orphans_remove|apply Hok1|].
    intros x. apply clients_sublist, sublist_filter.
  - eapply Forall_sublist; [apply sublist_filter|apply Hok1].
Qed.

Lemma end_session_lets_go now addr br :
  broker_ok br -> is_Some (client_at (br_clients br) addr) -> ends (end_session now addr) (fun _ => let_go addr br) br.
Proof.
  intros Hok Hat. pose proof Hat as [bc Hbc]. apply ends_bind, (ends_deref addr bc); [done|].
  destruct (_ =? 0); [by apply EndClientSession_lets_go|by apply OrphanClient_lets_go].
Qed.

Lemma all_abide_filter addr (cs cs' : list (BrokerClient Net)) :
  Forall2 (abides (leaving addr)) cs cs' ->
  Forall2 (abides none_loose) (base.filter (fun c => bc_addr c <> addr) cs) (base.filter (fun c => bc_addr c <> addr) cs').
Proof.
  induction 1 as [|c c' cs cs' [Ea Ei Ht] _ IH]; [done|]. destruct (Z.eq_dec (bc_addr c) addr) as [E|Hne].
  - by rewrite !filter_cons_False by (rewrite ?Ea; tauto).
  - rewrite !filter_cons_True by congruence. constructor; [|done]. constructor; [done|done|].
    destruct Ht as [Ht|Ht]; [by destruct Hne|by right].
Qed.

Lemma filter_none addr (cs : list (BrokerClient Net)) : client_at cs addr = None -> base.filter (fun c : BrokerClient Net => bc_addr c <> addr) cs = cs.
Proof.
  induction cs as [|c cs IH]; [done|]. cbn [client_at]. destruct (Z.eqb_spec (bc_addr c) addr) as [|Hne]; [done|].
  intros E. rewrite filter_cons_True by done. by rewrite IH.
Qed.

Lemma Remove_parts addr br0 br :
  let_go addr br0 br -> ends (BrokerClient_Remove addr) (fun _ => parted addr br0) br.
Proof.
  intros [[Hok Ea Ec] Hout].
  assert (Hrel : released addr br br) by (split; [apply Hok|done]).
  pose proof (BrokerClient_Remove_ok addr br br Hrel) as (u & br' & E & Hs & _ & Hgone).
  assert (Eb : br_clients br' = base.filter (fun c => bc_addr c <> addr) (br_clients br) /\ br_cells br' = br_cells br /\
    br_subs br' = br_subs br /\ br_orphans br' = br_orphans br /\
    br_retained br' = br_retained br /\ br_wills br' = br_wills br).
  { injection E as _ <-. destruct (client_at (br_clients br) addr) eqn:Eat; cbn -[base.filter]; [by split_and!|].
    by rewrite filter_none. }
  destruct Eb as (Ea' & Ec' & Es & Eo & Er & Ew). exists u, br'. split; [done|].
  constructor; [|rewrite Ea'; by apply all_abide_filter|congruence].
  apply (broker_ok_step br); rewrite ?Eo, ?Es; try done; try apply Hok. rewrite Ea'.
  eapply Forall_sublist; [apply sublist_filter|apply Hok].
Qed.

(** ** The end of a connection *)

Lemma parted_stays addr br br1 br2 : stays_but (leaving addr) br br1 -> parted addr br1 br2 -> parted addr br br2.
Proof.
  intros [_ E1 E2] [? ? ?]. constructor; [done| |congruence]. eapply all_abide_trans; [by apply all_abide_filter|done].
Qed.

(** The parts together. *)
Lemma broker_ok_of br br' :
  broker_ok br -> routes_ok br' -> wills_ok br' -> br_orphans br' = br_orphans br ->
  br_orphan_count br' = br_orphan_count br -> br_subs br' = br_subs br -> broker_ok br'.
Proof.
  intros Hok [[Ha Hc Hn] Hl Hq Hr] [Hw Hp Hm] Eo En Es. constructor; try done.
  - constructor; try done; [|rewrite Eo, En; apply Hok].
    eapply List.Forall_impl; [|exact Hc]. intros c [Hcq _ HT _]. by split.
  - apply list.Forall_forall. intros c Hin. rewrite list.Forall_forall in Hc, Hw. constructor; auto.
  - rewrite Eo. apply Hok.
Qed.

Lemma will_cleared_abides addr br br' :
  will_cleared addr br br' -> Forall2 (abides none_loose) (br_clients br) (br_clients br').
Proof.
  intros (bc & Hat & ->). apply (abides_put _ _ bc); [by rewrite (client_at_addr _ _ _ Hat)|].
  apply abides_same; try done. by right.
Qed.

Lemma delivered_abides R ts (cs cs' : list (BrokerClient Net)) : delivered_all R ts cs cs' -> Forall2 (abides none_loose) cs cs'.
Proof. intros H. eapply List.Forall2_impl; [|exact H]. intros c c' [_ Hs]. by apply still_abides. Qed.

Lemma will_outcome_frame (oom : Prop) now addr bc br br' :
  will_outcome oom now addr bc br br' ->
  Forall2 (abides none_loose) (br_clients br) (br_clients br') /\ br_cells br' = br_cells br /\ br_orphans br' = br_orphans br /\
  br_orphan_count br' = br_orphan_count br /\ br_subs br' = br_subs br.
Proof.
  intros [_ ->|topic br1 _ _ _ (mem & _ & [(_ & _ & id & _ & ->)|(Hrc & _)]) Hcl|
          topic mem br2 _ _ _ _ (ts & cs & mem' & next & rt & -> & _ & _ & _ & _ & Hd) Hcl];
    [by split; [apply all_abide_refl|]| |done|]; (split; [|by destruct Hcl as (? & _ & ->)]).
  - exact (will_cleared_abides _ _ _ Hcl).
  - eapply all_abide_trans; [exact (delivered_abides _ _ _ _ Hd)|exact (will_cleared_abides _ _ _ Hcl)].
Qed.

Lemma PublishWill_stays now addr : steady addr (BrokerClient_PublishWill now addr).
Proof.
  intros br Hok [bc Hat].
  eapply ends_mono; [apply (BrokerClient_PublishWill_ok (br_mem br <> []) now addr bc br)|]; try done;
    [by apply broker_ok_routes|by apply broker_ok_wills|].
  intros u br' (Hout & Hr & Hw). destruct (will_outcome_frame _ _ _ _ _ _ Hout) as (Ea & Ec & Eo & En & Es).
  constructor; [|done|done]. by apply (broker_ok_of br).
Qed.

Lemma AbnormalClose_parts now addr br :
  broker_ok br -> is_Some (client_at (br_clients br) addr) -> ends (BrokerClient_AbnormalClose now addr) (fun _ => parted addr br) br.
Proof.
  intros Hok Hat. after PublishWill_stays. intros _ br1 H1.
  eapply ends_then; [apply end_session_lets_go; [apply H1|by eapply stays_at]|cbv beta]. intros _ br2 H2.
  eapply Remove_parts, let_go_trans; [by apply stays_loosen|done].
Qed.

Lemma EndConnect_parts now addr br :
  broker_ok br -> is_Some (client_at (br_clients br) addr) -> ends (BrokerClient_EndConnect now addr) (fun _ => parted addr br) br.
Proof.
  intros Hok Hat. pose proof Hat as [bc Hbc]. apply ends_bind, (ends_deref addr bc); [done|].
  eapply (ends_then _ _ (fun _ => let_go addr br)); [|intros _ br1; apply Remove_parts].
  destruct (negb _); [by apply end_session_lets_go|by apply RemoveClient_lets_go].
Qed.

(** ** Unfinished writes *)

(** The client is there, or it is gone and the code says so. *)
Definition goes_on (addr : Z) br (rc : Z) br' : Prop :=
  stays br br' \/ (parted addr br br' /\ rc <> MQTT_CODE_SUCCESS /\ rc <> MQTT_CODE_CONTINUE).

Lemma steady_on_link addr (f : Link Net -> Link Net) :
  (forall l, link_ok l -> link_ok (f l) /\ connack_pending_len (f l) = connack_pending_len l /\
     connack_refused (f l) = connack_refused l) -> steady addr (on_link addr f).
Proof.
  intros Hf. apply steady_on_client. intros bc [[Hq He HT Hl] Hw]. destruct (Hf _ Hl) as (Hl' & E1 & E2).
  eexists _, _. split; [done|]. split; [constructor; [|done]; by constructor|].
  apply abides_same; try done; [|by left]. unfold connack_of. cbn. by rewrite E1, E2.
Qed.

Lemma client_inv_same bc bc' : client_ok bc' -> same_client bc bc' -> client_inv bc -> client_inv bc'.
Proof. intros Hc (_ & Ei & Ew & _) [_ Hw]. constructor; [done|]. by rewrite Ew, Ei. Qed.

Lemma same_abides bc bc' : same_client bc bc' -> abides none_loose bc bc'.
Proof. intros H. by apply still_abides, same_still. Qed.

(** A call for one client. *)
Lemma ends_keeps {A} addr bc br (f : BrokerClient Net -> result (A * BrokerClient Net)) :
  broker_ok br -> client_at (br_clients br) addr = Some bc -> keeps bc (f bc) ->
  ends (on_client addr f) (fun _ br' => stays br br' /\ exists bc', client_at (br_clients br') addr = Some bc' /\ same_client bc bc') br.
Proof.
  intros Hok Hat (a & bc' & E & Hc & Hs). pose proof (client_at_addr _ _ _ Hat) as Ea. pose proof Hs as (Ea' & _).
  eapply ends_on_client; [exact Hat|exact E|]. split.
  - apply (stays_put _ _ _ bc bc'); [|by rewrite Ea|by apply same_abides|done|done].
    apply broker_ok_put; [done|]. eapply client_inv_same; [done|exact Hs|by eapply broker_ok_at].
  - exists bc'. split; [|done]. cbn. rewrite client_at_put, Ea', Ea, Z.eqb_refl, bool_decide_eq_true_2; [done|].
    apply client_at_some. by eexists.
Qed.

Lemma steady_keeps {A} addr (f : BrokerClient Net -> result (A * BrokerClient Net)) :
  (forall bc, client_ok bc -> keeps bc (f bc)) -> steady addr (on_client addr f).
Proof.
  intros Hf br Hok [bc Hat]. eapply ends_mono; [apply (ends_keeps addr bc); [done|done|]|by intros a br' []].
  apply Hf. by destruct (broker_ok_at _ _ _ Hok Hat).
Qed.

Lemma ends_steady {A} addr (m : B Net A) br br0 :
  steady addr m -> stays br0 br -> is_Some (client_at (br_clients br0) addr) -> ends m (fun _ => stays br0) br.
Proof.
  intros Hm H0 Hat. eapply ends_mono; [apply Hm; [apply H0|by eapply stays_at]|]. intros a br'. by apply stays_trans.
Qed.

Lemma drain_client_steady now addr : steady addr (drain_client now addr).
Proof.
  apply steady_keeps. intros bc Hc. destruct (BrokerClient_DrainOutQueue_total now bc Hc) as (rc & bc' & -> & H1 & H2).
  by exists tt, bc'.
Qed.

Lemma client_write_keeps now bc n :
  client_ok bc -> n <= BROKER_TX_BUF_SZ ->
  keeps bc ('(rc, l) ← client_write now (bc_link bc) n; Ok (rc, with_link bc l)).
Proof.
  intros [Hq He HT Hl] Hn. destruct (client_write_total now (bc_link bc) n Hl Hn) as (rc & l' & -> & Hl' & (_ & H1 & H2) & _).
  cbn [mbind result_bind]. eexists _, _. split; [done|]. split; [by constructor|]. split_and!; try done.
  unfold connack_of. cbn. congruence.
Qed.

Lemma WriteDirect_keeps now bc n :
  client_ok bc -> n <= BROKER_TX_BUF_SZ -> keeps bc (BrokerClient_WriteDirect now bc n).
Proof. intros Hc Hn. apply keeps_writes, WriteDirect_writes; [done|apply Hc|done]. Qed.

Lemma link_ok_connack (l : Link Net) n refused : link_ok l -> 0 <= n <= BROKER_TX_BUF_SZ -> link_ok (set_connack l n refused).
Proof. intros [? ? ? ? ?] Hn. by constructor. Qed.

(** The close that the code answers with. *)
Lemma closes_goes_on addr br br1 rc (m : B Net unit) :
  stays_but (leaving addr) br br1 -> ends m (fun _ => parted addr br1) br1 -> rc <> MQTT_CODE_CONTINUE ->
  ends (_ ← m; mret (if rc <? 0 then rc else MQTT_CODE_ERROR_NETWORK)) (goes_on addr br) br1.
Proof.
  intros H1 Hm Hrc. eapply ends_then; [exact Hm|]. intros u br2 H2. apply ends_ret. right.
  split; [by eapply parted_stays|]. destruct (Z.ltb_spec rc 0); lia.
Qed.

(** The CONNACK is no longer pending; the client may not stay tame. *)
Lemma reset_connack addr (r : Link Net -> Z) br :
  broker_ok br -> is_Some (client_at (br_clients br) addr) ->
  ends (on_link addr (fun l => set_connack l 0 (r l))) (fun _ => stays_but (leaving addr) br) br.
Proof.
  intros Hok [bc Hat]. pose proof (client_at_addr _ _ _ Hat) as Ea. pose proof (broker_ok_at _ _ _ Hok Hat) as [[Hq He HT Hl] Hw].
  eapply ends_on_client; [exact Hat|done|].
  apply (stays_put _ _ _ bc (with_link bc (set_connack (bc_link bc) 0 (r (bc_link bc))))); [|by rewrite Ea| |done|done].
  - apply broker_ok_put; [done|]. constructor; [|done]. constructor; try done. by apply link_ok_connack.
  - constructor; [done|done|]. by left.
Qed.

(** The CONNACK of an accepted CONNECT is written. *)
Lemma done_connack addr bc br :
  broker_ok br -> client_at (br_clients br) addr = Some bc -> connack_refused (bc_link bc) = 0 ->
  ends (on_link addr (fun l => set_connack l 0 (connack_refused l))) (fun _ => stays br) br.
Proof.
  intros Hok Hat E0. pose proof (client_at_addr _ _ _ Hat) as Ea. pose proof (broker_ok_at _ _ _ Hok Hat) as [[Hq He HT Hl] Hw].
  eapply ends_on_client; [exact Hat|done|].
  apply (stays_put _ _ _ bc (with_link bc (set_connack (bc_link bc) 0 (connack_refused (bc_link bc))))); [|by rewrite Ea| |done|done].
  - apply broker_ok_put; [done|]. constructor; [|done]. constructor; try done. by apply link_ok_connack.
  - constructor; [done|done|]. right. unfold tame. cbn. tauto.
Qed.

Lemma BrokerClient_ResumeConnAck_ok now addr br :
  broker_ok br -> is_Some (client_at (br_clients br) addr) ->
  ends (BrokerClient_ResumeConnAck now addr) (goes_on addr br) br.
Proof.
  intros Hok Hat. pose proof Hat as [bc Hbc]. unfold BrokerClient_ResumeConnAck.
  apply ends_bind, (ends_deref addr bc); [done|]. cbv zeta. set (n := connack_pending_len (bc_link bc)).
  pose proof (broker_ok_at _ _ _ Hok Hbc) as [Hc _]. pose proof (lo_connack _ (co_link _ Hc)) as Hn. fold n in Hn.
  eapply ends_then; [apply (ends_keeps addr bc); [done|done|apply client_write_keeps; [done|lia]]|cbv beta].
  intros rc br1 (H1 & bc1 & Hat1 & Hs). pose proof (sy_ok _ _ _ H1) as Hok1.
  pose proof (fun r => reset_connack addr r br1 Hok1 ltac:(by exists bc1)) as Hreset.
  destruct (Z.eqb_spec rc MQTT_CODE_CONTINUE); [apply ends_ret; by left|]. destruct (negb (rc =? n)).
  { eapply ends_then; [apply (Hreset (fun _ => 0))|cbv beta]. intros _ br2 H2. pose proof (stays_loosen (leaving addr) _ _ H1) as H1'.
    pose proof (stays_trans _ _ _ _ H1' H2) as H12. apply closes_goes_on; [done| |done].
    pose proof (sy_ok _ _ _ H12). pose proof (stays_at _ _ _ _ H12 Hat).
    destruct (negb _); [by apply EndConnect_parts|by apply AbnormalClose_parts]. }
  destruct (Z.eqb_spec (connack_refused (bc_link bc)) 0) as [E0|E0]; cbn [negb].
  - assert (E1 : connack_refused (bc_link bc1) = 0) by (destruct Hs as (_ & _ & _ & _ & [= _ ->]); done).
    eapply ends_then; [by apply (done_connack addr bc1)|cbv beta]. intros _ br2 H2. pose proof (stays_trans _ _ _ _ H1 H2) as H12.
    eapply (ends_then _ _ (fun _ => stays br)).
    { eapply (ends_steady addr _ _ _ _ H12 Hat). Unshelve. apply steady_on_client. intros c [Hc' Hw']. eexists _, _.
      split; [done|]. split; [constructor; [by apply client_ok_info|done]|by apply abides_info]. }
    intros _ br3 H3. destruct (stays_at _ _ _ _ H3 Hat) as [bc3 Hbc3].
    apply ends_bind, (ends_deref addr bc3); [done|]. eapply (ends_then _ _ (fun _ => stays br)).
    + destruct (0 <? _); [exact (ends_steady addr _ _ _ (drain_client_steady now addr) H3 Hat)|by apply ends_ret].
    + intros _ br4 H4. apply ends_ret. by left.
  - eapply ends_then; [apply (Hreset connack_refused)|cbv beta]. intros _ br2 H2.
    pose proof (stays_trans _ _ _ _ (stays_loosen (leaving addr) _ _ H1) H2) as H12.
    eapply ends_then; [apply reset_connack; [apply H12|by eapply stays_at]|cbv beta]. intros _ br3 H3.
    pose proof (stays_trans _ _ _ _ H12 H3) as H13.
    apply (closes_goes_on addr br br3 MQTT_CODE_ERROR_NETWORK); [done| |done].
    apply EndConnect_parts; [apply H3|by eapply stays_at].
Qed.

Lemma BrokerClient_ResumeDirect_ok now addr br :
  broker_ok br -> is_Some (client_at (br_clients br) addr) ->
  ends (BrokerClient_ResumeDirect now addr) (goes_on addr br) br.
Proof.
  intros Hok Hat. pose proof Hat as [bc Hbc]. unfold BrokerClient_ResumeDirect.
  apply ends_bind, (ends_deref addr bc); [done|]. cbv zeta. set (n := direct_pending_len (bc_link bc)).
  pose proof (broker_ok_at _ _ _ Hok Hbc) as [Hc _]. pose proof (lo_direct _ (co_link _ Hc)) as Hn. fold n in Hn.
  assert (Hw : forall c, client_ok c -> keeps c (BrokerClient_WriteDirect now c n)) by (intros; apply WriteDirect_keeps; [done|lia]).
  after (steady_keeps addr _ Hw). intros rc br1 H1.
  destruct (Z.eqb_spec rc MQTT_CODE_CONTINUE); [apply ends_ret; by left|].
  eapply (ends_then _ _ (fun _ => stays br)).
  { eapply (ends_steady addr _ _ _ _ H1 Hat). Unshelve. apply steady_on_link. intros l Hl. split; [by apply link_ok_zero|done]. }
  intros _ br2 H2. destruct (negb (rc =? n)); [|apply ends_ret; by left].
  apply closes_goes_on; [by apply stays_loosen| |done]. apply AbnormalClose_parts; [apply H2|by eapply stays_at].
Qed.
End Closing.

#[export] Hint Resolve drain_client_steady PublishWill_stays : steady.
