(* ===== verification/BrokerPackets.v ===== *)
(** * BrokerPackets: the handlers of acknowledgements and subscriptions ([mqtt_broker.c])

    [BrokerHandle_PublishRel], [BrokerHandle_PublishRec], the cases of PUBACK and
    PUBCOMP of [BrokerClient_Process], [BrokerHandle_Subscribe] and
    [BrokerHandle_Unsubscribe]: each decodes the packet in the client's
    [rx_buf], changes the client's session, answers, and frees the properties
    it has decoded. *)
From stdpp Require Import gmap.
From S2P Require Import Prelude PacketDefs Wire Topic FixedHeader Props Frame ReasonCodes PublishResp Control Publish Filters Subscribe Unsubscribe PacketIO BrokerTopic BrokerDefs BrokerQos2 OutQueue OutStream OutAlloc BrokerState BrokerSubs BrokerSend BrokerRetained BrokerOrphan BrokerSession BrokerFanout BrokerWill BrokerClose.

Abbreviation MQTT_SUBSCRIBE_RETAIN_HANDLING_1 := (16)%Z.
Abbreviation MQTT_SUBSCRIBE_RETAIN_HANDLING_2 := (32)%Z.

(** ** Operations *)

Section Packets.
Context {Net : Type} `{!Sender Net}.
Implicit Types (br : Broker Net) (bc : BrokerClient Net).

Definition rx_buf bc : list Z := io_rx (lk_read (bc_link bc)).
Definition level_of bc : Z := bc_protocol_level (bc_info bc).

(** A response that has been encoded into [tx_buf] is written. *)
Definition send_encoded (now : Z) bc (encoded : emit) : result (Z * BrokerClient Net) :=
  match encoded with
  | UB => UB
  | Err rc => Ok (rc, bc)
  | Ok (rc, bs) => if 0 <? rc then bc ← fill_tx bc bs; BrokerClient_WriteResp now bc rc else Ok (rc, bc)
  end.

Definition send_resp (now type packet_id reason_code : Z) bc : result (Z * BrokerClient Net) :=
  send_encoded now bc
    (MqttEncode_PublishResp (len (lk_tx (bc_link bc))) type (mkPublishResp packet_id reason_code [] (level_of bc))).

(** A publish response is decoded: the code of [MqttDecode_PublishResp] or what
    [handle] makes of the structure. *)
Definition with_resp (addr rx_len type : Z) (handle : MqttPublishResp -> B Net Z) : B Net Z :=
  bc ← deref addr;
  r ← decode (MqttDecode_PublishResp (rx_buf bc) rx_len type (Some (mkPublishResp 0 0 [] (level_of bc))));
  match r with
  | inl rc => mret rc
  | inr (_, None) => of_result UB
  | inr (_, Some resp) => handle resp
  end.

Definition BrokerHandle_PublishRel (now addr rx_len : Z) : B Net Z :=
  with_resp addr rx_len MQTT_PACKET_TYPE_PUBLISH_REL (fun resp =>
    let packet_id := pr_packet_id resp in
    was_tracked ← on_client addr (fun bc =>
      Ok (BrokerInboundQos2_Contains (bc_qos2 bc) packet_id,
          with_qos2 bc (BrokerInboundQos2_Remove (bc_qos2 bc) packet_id)));
    _ ← free_props (pr_props resp);
    on_client addr (send_resp now MQTT_PACKET_TYPE_PUBLISH_COMP packet_id
      (if (was_tracked : bool) then MQTT_REASON_SUCCESS else MQTT_REASON_PACKET_ID_NOT_FOUND))).

Definition BrokerHandle_PublishRec (now addr rx_len : Z) : B Net Z :=
  with_resp addr rx_len MQTT_PACKET_TYPE_PUBLISH_REC (fun resp =>
    let packet_id := pr_packet_id resp in
    _ ← free_props (pr_props resp);
    bc ← deref addr;
    if (MQTT_CONNECT_PROTOCOL_LEVEL_5 <=? level_of bc) && (128 <=? pr_reason_code resp) then
      _ ← on_client addr (fun bc => bc ← BrokerClient_OnPubReject now bc packet_id; Ok (tt, bc));
      mret MQTT_CODE_SUCCESS
    else
      rc ← on_client addr (fun bc => Ok (BrokerClient_OnPubRec bc packet_id));
      if rc <? 0 then mret MQTT_CODE_ERROR_PACKET_TYPE
      else on_client addr (send_resp now MQTT_PACKET_TYPE_PUBLISH_REL packet_id MQTT_REASON_SUCCESS)).

(** PUBACK and PUBCOMP; [on] is the change of the queue. *)
Definition handle_ack (now addr rx_len type : Z) (on : Z -> BrokerClient Net -> Z -> result (BrokerClient Net)) : B Net Z :=
  with_resp addr rx_len type (fun resp =>
    _ ← on_client addr (fun bc => bc ← on now bc (pr_packet_id resp); Ok (tt, bc));
    _ ← free_props (pr_props resp);
    mret MQTT_CODE_SUCCESS).

(** Whether the retained messages are to be sent: [added] is 1 for a new
    subscription. *)
Definition deliver_retained (level sub_options added : Z) : bool :=
  if MQTT_CONNECT_PROTOCOL_LEVEL_5 <=? level then
    let rh := Z.land sub_options (Z.lor MQTT_SUBSCRIBE_RETAIN_HANDLING_1 MQTT_SUBSCRIBE_RETAIN_HANDLING_2) in
    if rh =? MQTT_SUBSCRIBE_RETAIN_HANDLING_2 then false
    else negb ((rh =? MQTT_SUBSCRIBE_RETAIN_HANDLING_1) && negb (added =? 1))
  else true.

(** One round of the loop: the granted QoS or the failure code; or the code
    with which the handler gives up. The two bytes before the filter in
    [rx_buf] are its length. *)
Definition subscribe_topic (now addr : Z) (t : MqttTopic) : B Net (Z + Z) :=
  bc ← deref addr;
  let level := level_of bc in
  let topic_qos := if WOLFMQTT_MAX_QOS <? topic_qos t then WOLFMQTT_MAX_QOS else topic_qos t in
  match topic_filter t with
  | None => mret (inr MQTT_SUBSCRIBE_ACK_CODE_FAILURE)
  | Some f =>
    sub_rc ← BrokerSubs_Add addr f topic_qos;
    if sub_rc <? 0 then
      mret (inr (if (MQTT_CONNECT_PROTOCOL_LEVEL_5 <=? level) && (sub_rc =? MQTT_CODE_ERROR_MEMORY)
                 then MQTT_REASON_QUOTA_EXCEEDED else MQTT_SUBSCRIBE_ACK_CODE_FAILURE))
    else
      retained_rc ← (if deliver_retained level (topic_sub_options t) sub_rc then
                       ok ← (if BROKER_MAX_FILTER_LEN <=? len f then alloc else mret true);
                       if (ok : bool) then BrokerRetained_DeliverToClient now addr f topic_qos
                       else mret MQTT_CODE_ERROR_MEMORY
                     else mret MQTT_CODE_SUCCESS);
      if retained_rc <? 0 then mret (inl retained_rc) else mret (inr topic_qos)
  end.

Fixpoint subscribe_topics (now addr : Z) (topics : list MqttTopic) : B Net (Z + list Z) :=
  match topics with
  | [] => mret (inr [])
  | t :: topics =>
    code ← subscribe_topic now addr t;
    match code with
    | inl rc => mret (inl rc)
    | inr code =>
      codes ← subscribe_topics now addr topics;
      mret (match codes with inl rc => inl rc | inr codes => inr (code :: codes) end)
    end
  end.

(** The elements the loops visit. *)
Definition used {A} (topic_count : Z) (topics : list A) : list A :=
  take (Z.to_nat (Z.min topic_count MAX_MQTT_TOPICS)) topics.

Definition BrokerHandle_Subscribe (now addr rx_len : Z) : B Net Z :=
  bc ← deref addr;
  r ← decode (MqttDecode_Subscribe (rx_buf bc) rx_len (mkSubscribe 0 0 [] [] (level_of bc)));
  match r with
  | inl rc => mret rc
  | inr (_, sub) =>
    codes ← subscribe_topics now addr (used (sub_topic_count sub) (sub_topics sub));
    rc ← (match codes with
          | inl rc => mret rc
          | inr codes => on_client addr (fun bc => BrokerSend_SubAck now bc (sub_packet_id sub) codes)
          end);
    _ ← free_props (sub_props sub);
    mret rc
  end.

Fixpoint unsubscribe_topics (addr : Z) (topics : list MqttTopic) : B Net unit :=
  match topics with
  | [] => mret tt
  | t :: topics =>
    _ ← (match topic_filter t with None => mret tt | Some f => BrokerSubs_Remove addr f end);
    unsubscribe_topics addr topics
  end.

(** The acknowledgement: at level 5 a reason code for each filter. *)
Definition unsub_ack (level packet_id topic_count : Z) (reasons : list Z) : MqttUnsubscribeAck :=
  if MQTT_CONNECT_PROTOCOL_LEVEL_5 <=? level
  then mkUnsubscribeAck packet_id [] (Some reasons) (u16 topic_count) level
  else mkUnsubscribeAck packet_id [] None 0 level.

Definition BrokerHandle_Unsubscribe (now addr rx_len : Z) : B Net Z :=
  bc ← deref addr;
  r ← decode (MqttDecode_Unsubscribe (rx_buf bc) rx_len
                (mkUnsubscribe 0 0 (replicate (Z.to_nat MAX_MQTT_TOPICS) (mkTopic None 0 0)) [] (level_of bc)));
  match r with
  | inl rc => mret rc
  | inr (_, unsub) =>
    let topics := used (un_topic_count unsub) (un_topics unsub) in
    _ ← unsubscribe_topics addr topics;
    rc ← on_client addr (fun bc =>
      send_encoded now bc
        (MqttEncode_UnsubscribeAck (len (lk_tx (bc_link bc)))
           (unsub_ack (level_of bc) (un_packet_id unsub) (un_topic_count unsub)
              (map (fun _ => MQTT_REASON_SUCCESS) topics))));
    _ ← free_props (un_props unsub);
    mret rc
  end.
End Packets.

(** ** Rules for handlers *)

Section Rules.
Context {Net : Type} `{!Sender Net}.
Implicit Types (br : Broker Net) (bc : BrokerClient Net).

(** [n] cells of the pool are given back; else as [stays]. *)
Record gives (n : nat) br br' : Prop := {
  gv_ok : broker_ok br';
  gv_clients : Forall2 (abides none_loose) (br_clients br) (br_clients br');
  gv_cells : br_cells br' = (br_cells br + n)%nat
}.

Definition giving {A} (n : nat) (addr : Z) (m : B Net A) : Prop :=
  forall br, broker_ok br -> is_Some (client_at (br_clients br) addr) -> ends m (fun _ => gives n br) br.

Lemma giving_steady {A} addr (m : B Net A) : steady addr m -> giving 0 addr m.
Proof.
  intros H br Hok Hat. eapply ends_mono; [by apply H|]. intros a br' [? ? ?]. constructor; [done|done|lia].
Qed.

Lemma steady_giving {A} addr (m : B Net A) : giving 0 addr m -> steady addr m.
Proof.
  intros H br Hok Hat. eapply ends_mono; [by apply H|]. intros a br' [? ? ?]. constructor; [done|done|lia].
Qed.

Lemma giving_bind {A C} n k addr (m : B Net A) (f : A -> B Net C) :
  giving n addr m -> (forall a, giving k addr (f a)) -> giving (n + k) addr (m ≫= f).
Proof.
  intros Hm Hf br Hok Hat. after Hm. intros a br1 [H1 H2 H3]. eapply ends_mono.
  - apply Hf; [done|]. apply client_at_some. rewrite (all_abide_addrs _ _ _ H2). by apply client_at_some.
  - intros c br2 [? ? ?]. constructor; [done|by eapply all_abide_trans|lia].
Qed.

Lemma giving_after {A C} n addr (m : B Net A) (f : A -> B Net C) :
  steady addr m -> (forall a, giving n addr (f a)) -> giving n addr (m ≫= f).
Proof. intros Hm Hf. by apply (giving_bind 0 n); [apply giving_steady|]. Qed.

Lemma giving_deref {A} n addr (f : BrokerClient Net -> B Net A) :
  (forall bc, client_inv bc -> giving n addr (f bc)) -> giving n addr (deref addr ≫= f).
Proof.
  intros Hf br Hok [bc Hat]. apply ends_bind, (ends_deref addr bc); [done|].
  apply Hf; [by eapply broker_ok_at|done|by exists bc].
Qed.

Lemma broker_ok_set_cells br n : broker_ok br -> broker_ok (set_cells br n).
Proof. intros Hok. by eapply broker_ok_clients; [exact Hok|..]; try done; apply Hok. Qed.

Lemma broker_ok_set_mem br mem : broker_ok br -> broker_ok (set_mem br mem).
Proof. intros Hok. by eapply broker_ok_clients; [exact Hok|..]; try done; apply Hok. Qed.

(** The last use of the properties. *)
Lemma giving_free {A} ps addr (m : B Net A) : steady addr m -> giving (length ps) addr (_ ← free_props ps; m).
Proof.
  intros Hm. rewrite <- (Nat.add_0_r (length ps)). apply giving_bind; [|intros _; by apply giving_steady].
  intros br Hok _. apply ends_modify. constructor; [by apply broker_ok_set_cells|apply all_abide_refl|done].
Qed.

(** A decoder that succeeds takes a cell for each property; the rest of the
    handler gives them back. *)
Lemma steady_decode {A C} addr (m : M A) (props : A -> list MqttProp) (P : A -> Prop) (k : Z + A -> B Net C) :
  (forall n, meets n m n (fun a n' => P a /\ n = (n' + length (props a))%nat)) ->
  (forall rc, rc < 0 -> steady addr (k (inl rc))) -> (forall a, P a -> giving (length (props a)) addr (k (inr a))) ->
  steady addr (decode m ≫= k).
Proof.
  intros Hm Herr Hok br Hbr Hat. specialize (Hm (br_cells br)). unfold meets in Hm.
  destruct (m (br_cells br)) as [[a|rc|] n'] eqn:E; [| |done].
  - destruct Hm as [HP En]. apply ends_bind. exists (inr a), (set_cells br n'). split; [unfold decode; by rewrite E|].
    eapply ends_mono; [apply Hok; [done| |done]|].
    + by apply broker_ok_set_cells.
    + intros c br2 [? ? Ec]. cbn in Ec. constructor; [done|done|lia].
  - destruct Hm as [Hrc ->]. apply ends_bind. exists (inl rc), br.
    split; [unfold decode; rewrite E; by destruct br|]. by apply Herr.
Qed.

(** A decoder of what the client has sent. *)
Lemma client_rx_ok bc rx_len : client_inv bc -> rx_len <= BROKER_RX_BUF_SZ -> rx_ok (rx_buf bc) rx_len.
Proof.
  intros [[_ _ _ Hl] _] Hn. destruct (lo_rx _ Hl). unfold rx_ok, rx_buf. split_and!; [done|lia|lia].
Qed.

Lemma link_ok_fill bc bs : link_ok (bc_link bc) -> len bs <= BROKER_TX_BUF_SZ ->
  writes bc (bc ← fill_tx bc bs; BrokerClient_WriteResp 0 bc (len bs)).
Proof. intros Hl Hn. apply fill_writes; [done|done|]. intros bc1 Hl1. by apply WriteResp_writes. Qed.

Lemma send_encoded_writes now bc encoded P bs :
  link_ok (bc_link bc) -> answers encoded P (len bs) bs -> (P -> len bs <= BROKER_TX_BUF_SZ) ->
  writes bc (send_encoded now bc encoded).
Proof.
  intros Hl [[HP ->]|(_ & rc & _ & ->)] Hn; unfold send_encoded; [|by apply writes_ret].
  destruct (0 <? len bs); [|by apply writes_ret]. apply fill_writes; [done|auto|].
  intros bc1 Hl1. apply WriteResp_writes; [done|auto].
Qed.

Lemma send_resp_writes now type id rc bc :
  resp_type type -> link_ok (bc_link bc) -> 0 <= id < 65536 -> is_byte rc -> writes bc (send_resp now type id rc bc).
Proof.
  intros Ht Hl Hid Hrc. unfold send_resp. rewrite (lo_tx _ Hl).
  eapply send_encoded_writes; [done|apply MqttEncode_PublishResp_answers; [done|]|].
  { split; [done|]. split; [done|]. apply List.Forall_nil. }
  intros [_ (_ & _ & H)]. unfold resp_wire. by rewrite <- (frame_len type 0 (fixed_qos type) 0) in H.
Qed.

Lemma steady_writes addr (f : BrokerClient Net -> result (Z * BrokerClient Net)) :
  (forall bc, link_ok (bc_link bc) -> writes bc (f bc)) -> steady addr (on_client addr f).
Proof. intros Hf. apply steady_keeps. intros bc Hc. apply keeps_writes, Hf; [done|apply Hc]. Qed.
End Rules.

(** ** The handlers keep the broker's invariant *)

Section Steady.
Context {Net : Type} `{!Sender Net}.
Implicit Types (br : Broker Net) (bc : BrokerClient Net).

Lemma with_resp_steady addr rx_len type (handle : MqttPublishResp -> B Net Z) :
  type <> MQTT_PACKET_TYPE_PUBLISH -> rx_len <= BROKER_RX_BUF_SZ ->
  (forall resp, 0 < pr_packet_id resp < 65536 -> giving (length (pr_props resp)) addr (handle resp)) ->
  steady addr (with_resp addr rx_len type handle).
Proof.
  intros Ht Hn Hh. apply steady_deref. intros bc Hbc.
  apply (steady_decode addr _ (fun '(_, r) => match r with Some resp => pr_props resp | None => [] end)
           (fun '(_, r) => exists resp, r = Some resp /\ 0 < pr_packet_id resp < 65536)).
  - intros n. eapply meets_mono; [by apply MqttDecode_PublishResp_meets; [apply client_rx_ok|]|].
    intros [rc r] n' (resp & -> & (rem & _ & _ & _ & _ & _ & _ & Hid & _) & Hc). split; [by exists resp|done].
  - intros rc _. apply steady_ret.
  - intros [rc r] (resp & -> & Hid). by apply Hh.
Qed.

Lemma steady_quietly {A} addr (a : A) (f : BrokerClient Net -> result (BrokerClient Net)) :
  (forall bc, client_ok bc -> keeps_quietly bc (f bc)) ->
  steady addr (on_client addr (fun bc => bc ← f bc; Ok (a, bc))).
Proof.
  intros Hf. apply steady_keeps. intros bc Hc. destruct (Hf bc Hc) as (bc' & -> & Hk). by exists a, bc'.
Qed.

Lemma BrokerHandle_PublishRel_steady now addr rx_len :
  rx_len <= BROKER_RX_BUF_SZ -> steady addr (BrokerHandle_PublishRel now addr rx_len).
Proof.
  intros Hn. apply with_resp_steady; [done|done|]. intros resp Hid. apply giving_after.
  - apply steady_on_client. intros bc [[Hq He [T HT] Hl] Hw]. eexists _, _. split; [done|].
    split; [|by apply abides_same; [..|left]].
    constructor; [|done]. constructor; try done. eexists. by apply BrokerInboundQos2_Remove_rep.
  - intros was. apply giving_free, steady_writes. intros bc Hl.
    apply send_resp_writes; [by unfold resp_type; rewrite !elem_of_cons; tauto|done|lia|by destruct was].
Qed.

Lemma BrokerHandle_PublishRec_steady now addr rx_len :
  rx_len <= BROKER_RX_BUF_SZ -> steady addr (BrokerHandle_PublishRec now addr rx_len).
Proof.
  intros Hn. apply with_resp_steady; [done|done|]. intros resp Hid. apply giving_free, steady_deref. intros bc0 _.
  destruct (_ && _).
  - apply steady_bind; [|intros _; apply steady_ret]. apply steady_quietly. intros bc. apply BrokerClient_OnPubReject_keeps.
  - apply steady_bind.
    + apply steady_keeps. intros bc Hc. pose proof (BrokerClient_OnPubRec_keeps bc (pr_packet_id resp) Hc) as H.
      destruct (BrokerClient_OnPubRec bc (pr_packet_id resp)) as [rc bc']. by exists rc, bc'.
    + intros rc. destruct (rc <? 0); [apply steady_ret|]. apply steady_writes. intros bc Hl.
      apply send_resp_writes; [by unfold resp_type; rewrite !elem_of_cons; tauto|done|lia|done].
Qed.

Lemma handle_ack_steady now addr rx_len type (on : Z -> BrokerClient Net -> Z -> result (BrokerClient Net)) :
  rx_len <= BROKER_RX_BUF_SZ -> type <> MQTT_PACKET_TYPE_PUBLISH ->
  (forall bc id, client_ok bc -> keeps_quietly bc (on now bc id)) -> steady addr (handle_ack now addr rx_len type on).
Proof.
  intros Hn Ht Hon. apply with_resp_steady; [done|done|]. intros resp Hid. apply giving_after; [|intros _; apply giving_free, steady_ret].
  apply steady_quietly. intros bc. apply Hon.
Qed.

(** ** Subscriptions *)

Lemma broker_ok_subs br subs gen mem :
  broker_ok br -> Forall sub_inv subs -> (forall a, Some a ∈ map sub_client subs -> a ∈ addrs (br_clients br)) ->
  broker_ok (set_subs (set_mem br mem) subs gen).
Proof.
  intros [[Ha Hc Ho Hn _] ? ? _ ? ? ?] Hs Hl. by constructor.
Qed.

(** A step that changes no client. *)
Definition idle {A} (addr : Z) (m : B Net A) : Prop :=
  forall br, broker_ok br -> is_Some (client_at (br_clients br) addr) ->
    ends m (fun _ br' => broker_ok br' /\ br_clients br' = br_clients br /\ br_cells br' = br_cells br) br.

(** The rest of a function that has read the client's contents [bc]. *)
Definition firm {A} (addr : Z) bc (m : B Net A) : Prop :=
  forall br, broker_ok br -> client_at (br_clients br) addr = Some bc -> ends m (fun _ => stays br) br.

Lemma idle_steady {A} addr (m : B Net A) : idle addr m -> steady addr m.
Proof. intros H br Hok Hat. eapply ends_mono; [by apply H|]. intros a br' (? & ? & ?). by apply stays_same. Qed.

Lemma idle_alloc addr : idle addr (alloc : B Net bool).
Proof.
  intros br Hok _. apply ends_alloc. intros ok mem _. split; [|done].
  by eapply broker_ok_clients; [exact Hok|..]; try done; apply Hok.
Qed.

Lemma steady_alloc addr : steady (Net := Net) addr alloc.
Proof. apply idle_steady, idle_alloc. Qed.

Lemma idle_ret {A} addr (a : A) : idle addr (mret a : B Net A).
Proof. intros br Hok _. by apply ends_ret. Qed.

Lemma idle_bind {A C} addr (m : B Net A) (f : A -> B Net C) :
  idle addr m -> (forall a, idle addr (f a)) -> idle addr (m ≫= f).
Proof.
  intros Hm Hf br Hok Hat. after Hm. intros a br1 (Hok1 & E1 & E2). eapply ends_mono; [apply Hf; [done|by rewrite E1]|].
  intros c br2 (? & ? & ?). split; [done|]. split; congruence.
Qed.

Lemma firm_ret {A} addr bc (a : A) : firm addr bc (mret a).
Proof. intros br Hok _. by apply ends_ret, stays_refl. Qed.

Lemma firm_bind {A C} addr bc (m : B Net A) (f : A -> B Net C) :
  idle addr m -> (forall a, firm addr bc (f a)) -> firm addr bc (m ≫= f).
Proof.
  intros Hm Hf br Hok Hat. eapply ends_then; [apply Hm; [done|by exists bc]|cbv beta]. intros a br1 (Hok1 & E1 & E2).
  eapply ends_mono; [apply Hf; [done|by rewrite E1]|]. intros c br2. apply stays_trans. by apply stays_same.
Qed.

(** The new contents are stored. *)
Lemma firm_store addr bc bc' : client_inv bc' -> abides none_loose bc bc' -> firm addr bc (store bc').
Proof.
  intros Hi Hab br Hok Hat. pose proof (client_at_addr _ _ _ Hat) as Ea. apply ends_modify.
  apply (stays_put _ _ _ bc bc'); [by apply broker_ok_put|by rewrite Ea|done..].
Qed.

Lemma firm_then {A C} addr bc (m : B Net A) (f : A -> B Net C) :
  firm addr bc m -> (forall a, steady addr (f a)) -> firm addr bc (m ≫= f).
Proof.
  intros Hm Hf br Hok Hat. eapply ends_then; [by apply Hm|cbv beta]. intros a br1 H1.
  eapply ends_mono; [apply Hf; [apply H1|eapply stays_at; [exact H1|by exists bc]]|]. intros c br2. by apply stays_trans.
Qed.

Lemma steady_firm {A} addr (f : BrokerClient Net -> B Net A) :
  (forall bc, client_inv bc -> firm addr bc (f bc)) -> steady addr (deref addr ≫= f).
Proof.
  intros Hf br Hok [bc Hat]. apply ends_bind, (ends_deref addr bc); [done|]. apply Hf; [by eapply broker_ok_at|done|done].
Qed.

(** A change of the subscriptions. *)
Lemma idle_subs addr (f : Broker Net -> list BrokerSub) (gen : Broker Net -> Z) :
  (forall br, broker_ok br -> Forall sub_inv (f br) /\
     forall a, Some a ∈ map sub_client (f br) -> a = addr \/ Some a ∈ map sub_client (br_subs br)) ->
  idle addr (modify (fun br => set_subs br (f br) (gen br))).
Proof.
  intros Hf br Hok Hat. apply ends_modify. destruct (Hf br Hok) as [Hs Hl]. split; [|done].
  pose proof Hok as [[Ha Hc Ho Hn Hlk] ? ? _ ? ? ?]. constructor; try done. constructor; try done.
  intros a Hin. destruct (Hl a Hin) as [-> | Hin']; [by apply client_at_some|by apply Hlk].
Qed.

Lemma subs_update_parts subs addr f qos subs' :
  subs_update subs addr f qos = Some subs' -> 0 <= qos <= MQTT_QOS_2 -> Forall sub_inv subs ->
  Forall sub_inv subs' /\ map sub_client subs' = map sub_client subs.
Proof.
  intros E Hq Hs. revert subs' E. induction Hs as [|s subs Hs Hsubs IH]; [done|]. cbn [subs_update]. intros subs'.
  destruct (sub_is addr f s); [intros [= <-]; by split; [constructor|]|].
  destruct (subs_update subs addr f qos) as [next|]; [|done]. intros [= <-].
  destruct (IH next eq_refl) as [H1 H2]. split; [by constructor|cbn; by rewrite H2].
Qed.

Lemma subs_remove_sublist subs addr f subs' : subs_remove subs addr f = Some subs' -> subs' `sublist_of` subs.
Proof.
  revert subs'. induction subs as [|s subs IH]; [done|]. cbn [subs_remove]. intros subs'.
  destruct (sub_is addr f s); [intros [= <-]; by apply sublist_cons|].
  destruct (subs_remove subs addr f) as [next|]; [|done]. intros [= <-]. by apply sublist_skip, IH.
Qed.

Lemma client_inv_info bc i : client_inv bc -> bc_client_id i = bc_client_id (bc_info bc) -> client_inv (with_info bc i).
Proof. intros [Hc Hw] E. constructor; [by apply client_ok_info|]. cbn. by rewrite E. Qed.

Lemma BrokerSubs_Add_steady addr f qos : 0 <= qos <= MQTT_QOS_2 -> steady addr (BrokerSubs_Add (Net := Net) addr f qos).
Proof.
  intros Hq br Hok Hat. unfold BrokerSubs_Add. apply ends_bind, ends_get.
  destruct (subs_update (br_subs br) addr f qos) as [subs|] eqn:E.
  - destruct (subs_update_parts _ _ _ _ _ E Hq (bk_subs _ Hok)) as [Hs Em]. apply ends_bind, ends_modify, ends_ret.
    apply stays_same; [|done|done]. apply (broker_ok_subs br subs (br_subs_gen br) (br_mem br)) in Hok; [by destruct br|done|].
    intros a. rewrite Em. apply Hok.
  - revert br Hok Hat E. cut (steady addr (bc ← deref addr;
      if BROKER_MAX_SUBS_PER_CLIENT <=? bc_sub_count (bc_info bc) then mret MQTT_CODE_ERROR_MEMORY
      else ok ← alloc; if negb ok then mret MQTT_CODE_ERROR_MEMORY
      else ok ← alloc; if negb ok then mret MQTT_CODE_ERROR_MEMORY
      else '(ok, id) ← (if BROKER_STR_VALID (bc_client_id (bc_info bc))
                        then ok ← alloc; mret (ok, bc_client_id (bc_info bc)) else mret (true, None));
           if negb ok then mret MQTT_CODE_ERROR_MEMORY
           else _ ← modify (fun br => set_subs br (mkSub (cstr f) id (Some addr) qos :: br_subs br) (u32 (br_subs_gen br + 1)));
                _ ← store (with_info bc (set_sub_count (bc_info bc) (bc_sub_count (bc_info bc) + 1))); mret 1)).
    { intros H br Hok Hat _. by apply H. }
    apply steady_firm. intros bc Hbc. destruct (_ <=? _); [apply firm_ret|].
    apply firm_bind; [apply idle_alloc|intros ok1]. destruct (negb ok1); [apply firm_ret|].
    apply firm_bind; [apply idle_alloc|intros ok2]. destruct (negb ok2); [apply firm_ret|].
    apply firm_bind; [|intros [ok3 id]; destruct (negb ok3); [apply firm_ret|]].
    { destruct (BROKER_STR_VALID _); [|apply idle_ret].
      apply idle_bind; [apply idle_alloc|intros ok4; apply idle_ret]. }
    apply firm_bind; [|intros _; apply firm_then; [by apply firm_store; [apply client_inv_info|apply abides_info]|intros _; apply steady_ret]].
    apply idle_subs. intros br Hok. split; [constructor; [done|apply Hok]|].
    intros a. cbn. rewrite elem_of_cons. intros [[= ->]|?]; [by left|by right].
Qed.

Lemma BrokerSubs_Remove_steady addr f : steady addr (BrokerSubs_Remove (Net := Net) addr f).
Proof.
  intros br Hok Hat. unfold BrokerSubs_Remove. apply ends_bind, ends_get.
  destruct (subs_remove (br_subs br) addr f) as [subs|] eqn:E; [|apply ends_ret; by apply stays_refl].
  apply subs_remove_sublist in E. pose proof Hat as [bc Hbc]. apply ends_bind, ends_modify, ends_bind, (ends_deref addr bc); [done|].
  assert (Hok1 : broker_ok (set_subs br subs (u32 (br_subs_gen br + 1)))).
  { pose proof Hok as [[Ha Hc Ho Hn Hlk] ? ? Hs ? ? ?]. constructor; try done.
    - constructor; try done. intros a Hin. apply Hlk. by eapply clients_sublist.
    - by eapply Forall_sublist. }
  set (br1 := set_subs br subs _) in *.
  assert (H1 : stays br br1) by by apply stays_same. destruct (0 <? _); [|by apply ends_ret].
  eapply ends_mono; [apply (firm_store addr bc); [|by apply abides_info|done|done]|].
  - apply client_inv_info; [|done]. by eapply broker_ok_at.
  - intros u br2. by apply stays_trans.
Qed.

Lemma DeliverToClient_steady now addr filter qos :
  0 <= qos <= MQTT_QOS_2 -> steady (Net := Net) addr (BrokerRetained_DeliverToClient now addr filter qos).
Proof.
  intros Hq br Hok [bc Hat]. pose proof (broker_ok_at _ _ _ Hok Hat) as [Hc Hw].
  eapply ends_mono; [apply (BrokerRetained_DeliverToClient_ok now addr filter qos bc br (ret_table (rt_list (br_retained br))));
    [done|done|apply Hok|by split; [apply Hok|]|done]|].
  intros rc br' (bc' & mem & next & rt & T' & -> & Hc' & Ea & Ew & Eu & Hnx & _ & Hr & _ & _ & _ & Hd).
  assert (Hst : still bc bc').
  { injection Eu as Eq En Er. split_and!; try done; [unfold connack_of; congruence|].
    destruct Hd as (? & ? & ? & _ & _ & _ & [(_ & _ & ->)|(_ & _ & [[_ ->]|[_ ->]])]); by (left + right). }
  apply (stays_put _ _ _ bc bc'); [|by rewrite (client_at_addr _ _ _ Hat)|by apply still_abides|done|done].
  eapply broker_ok_clients; [exact Hok|apply addrs_put| |done|done|done|done|apply Hr|done].
  apply Forall_put; [apply Hok|]. constructor; [done|]. by rewrite Ew, (still_id _ _ Hst).
Qed.

(** ** SUBSCRIBE and UNSUBSCRIBE *)

Lemma subscribe_topic_steady now addr t :
  0 <= topic_qos t <= MQTT_QOS_2 -> steady (Net := Net) addr (subscribe_topic now addr t).
Proof.
  intros Hq. apply steady_deref. intros bc _. cbv zeta. rewrite (proj2 (Z.ltb_ge WOLFMQTT_MAX_QOS _)) by lia.
  destruct (topic_filter t) as [f|]; [|apply steady_ret].
  apply steady_bind; [by apply BrokerSubs_Add_steady|]. intros sub_rc. destruct (sub_rc <? 0); [apply steady_ret|].
  apply steady_bind; [|intros rrc; destruct (rrc <? 0); apply steady_ret].
  destruct (deliver_retained _ _ _); [|apply steady_ret].
  apply steady_bind; [destruct (_ <=? _); [apply steady_alloc|apply steady_ret]|].
  intros [|]; [by apply DeliverToClient_steady|apply steady_ret].
Qed.

Lemma subscribe_topics_steady now addr ts :
  Forall (fun t => 0 <= topic_qos t <= MQTT_QOS_2) ts -> steady (Net := Net) addr (subscribe_topics now addr ts).
Proof.
  induction 1 as [|t ts Ht _ IH]; cbn [subscribe_topics]; [apply steady_ret|].
  apply steady_bind; [by apply subscribe_topic_steady|]. intros [rc|code]; [apply steady_ret|].
  apply steady_bind; [done|]. intros codes. apply steady_ret.
Qed.

Lemma unsubscribe_topics_steady addr ts : steady (Net := Net) addr (unsubscribe_topics addr ts).
Proof.
  induction ts as [|t ts IH]; cbn [unsubscribe_topics]; [apply steady_ret|].
  apply steady_bind; [|done]. destruct (topic_filter t); [apply BrokerSubs_Remove_steady|apply steady_ret].
Qed.

Lemma used_forall {A} (P : A -> Prop) n l : Forall P l -> Forall P (used n l).
Proof. apply Forall_take. Qed.

Lemma BrokerHandle_Subscribe_steady now addr rx_len :
  rx_len <= BROKER_RX_BUF_SZ -> steady addr (BrokerHandle_Subscribe now addr rx_len).
Proof.
  intros Hn. apply steady_deref. intros bc Hbc.
  apply (steady_decode addr _ (fun '(_, sub) => sub_props sub) (fun '(_, sub) => sub_held sub)).
  - intros n. eapply meets_mono; [by apply MqttDecode_Subscribe_meets, client_rx_ok|].
    intros [rc s] n' (H & _ & _ & _ & Hc). done.
  - intros rc _. apply steady_ret.
  - intros [rc sub] (Hid & _ & (_ & _ & Hts) & _). apply giving_after.
    + apply subscribe_topics_steady, used_forall. eapply List.Forall_impl; [|exact Hts]. cbn.
      intros t [[_ (H & _)] (_ & H0 & _)]. lia.
    + intros codes. apply giving_after; [|intros rc'; apply giving_free, steady_ret].
      destruct codes as [rc'|codes]; [apply steady_ret|]. apply steady_writes. intros bc' Hl.
      apply BrokerSend_SubAck_writes; [done|lia].
Qed.

Lemma used_all {A} n (l : list A) : n = len l -> n <= MAX_MQTT_TOPICS -> used n l = l.
Proof. intros -> H. unfold used. apply take_ge. unfold len in *. lia. Qed.

Lemma unsub_ack_rep level id reasons :
  0 < id < 65536 -> len reasons <= MAX_MQTT_TOPICS -> ua_rep (unsub_ack level id (len reasons) reasons).
Proof.
  intros Hid Hn. pose proof (len_nonneg reasons). unfold unsub_ack. rewrite u16_small by lia.
  destruct (_ <=? _); (split; [cbn; lia|]); (split; [apply List.Forall_nil|]); cbn; split; try lia; [|done].
  intros codes [= <-]. lia.
Qed.

Lemma BrokerHandle_Unsubscribe_steady now addr rx_len :
  rx_len <= BROKER_RX_BUF_SZ -> steady addr (BrokerHandle_Unsubscribe now addr rx_len).
Proof.
  intros Hn. apply steady_deref. intros bc Hbc.
  apply (steady_decode addr _ (fun '(_, u) => un_props u) (fun '(_, u) => un_held u)).
  - intros n. eapply meets_mono; [by apply MqttDecode_Unsubscribe_meets; [apply client_rx_ok|]|].
    intros [rc s] n' (H & _ & _ & _ & Hc). done.
  - intros rc _. apply steady_ret.
  - intros [rc u] (Hid & Hc & (_ & Hm & _) & _). rewrite len_map in Hm.
    apply giving_after; [apply unsubscribe_topics_steady|intros _].
    apply giving_after; [|intros rc'; apply giving_free, steady_ret].
    apply steady_writes. intros bc' Hl. rewrite (lo_tx _ Hl), used_all by lia.
    eapply send_encoded_writes; [done|apply MqttEncode_UnsubscribeAck_answers|].
    + rewrite Hc, <- (len_map (fun _ => MQTT_REASON_SUCCESS) (un_topics u)).
      apply unsub_ack_rep; [lia|by rewrite len_map].
    + intros [_ (_ & _ & H)]. rewrite <- (frame_len MQTT_PACKET_TYPE_UNSUBSCRIBE_ACK 0 0 0) in H.
      unfold ua_wire, ua_body, unsuback_wire in *. by destruct (_ <=? _).
Qed.
End Steady.

(** ** What SUBACK reports *)

Section Codes.
Context {Net : Type} `{!Sender Net}.
Implicit Types (br : Broker Net) (bc : BrokerClient Net).
Context (oom : Prop) (now addr level : Z).

(** The codes of SUBACK and the table of subscriptions after them: a granted
    QoS is in the table, a filter is refused when the client has
    [BROKER_MAX_SUBS_PER_CLIENT] others, or for want of memory. *)
Inductive subscribed : gmap (Z * list Z) Z -> list MqttTopic -> list Z -> gmap (Z * list Z) Z -> Prop :=
  | subd_nil T : subscribed T [] [] T
  | subd_granted T t f ts codes T' :
      topic_filter t = Some f -> is_Some (T !! (addr, f)) \/ owned addr T < BROKER_MAX_SUBS_PER_CLIENT ->
      subscribed (<[(addr, f) := topic_qos t]> T) ts codes T' -> subscribed T (t :: ts) (topic_qos t :: codes) T'
  | subd_refused T t f ts codes T' :
      topic_filter t = Some f -> T !! (addr, f) = None -> BROKER_MAX_SUBS_PER_CLIENT <= owned addr T \/ oom ->
      subscribed T ts codes T' ->
      subscribed T (t :: ts)
        ((if MQTT_CONNECT_PROTOCOL_LEVEL_5 <=? level then MQTT_REASON_QUOTA_EXCEEDED else MQTT_SUBSCRIBE_ACK_CODE_FAILURE) :: codes) T'.

(** The state while topics are subscribed to. *)
Record tabled (T : gmap (Z * list Z) Z) br : Prop := {
  tl_ok : broker_ok br;
  tl_table : subs_rep br T;
  tl_client : exists bc, client_at (br_clients br) addr = Some bc /\ level_of bc = level;
  tl_oom : br_mem br <> [] -> oom
}.

Lemma subs_rep_clients br br' T :
  subs_rep br T -> br_subs br' = br_subs br ->
  Forall2 (fun c c' => bc_addr c' = bc_addr c /\ bc_sub_count (bc_info c') = bc_sub_count (bc_info c)) (br_clients br) (br_clients br') ->
  subs_rep br' T.
Proof using.
  intros [Ha Hok HT Hl Hc] Es Hcs. assert (Ea : addrs (br_clients br') = addrs (br_clients br)).
  { clear -Hcs. unfold addrs. induction Hcs as [|c c' cs cs' [E _] _ IH]; [done|]. cbn. by rewrite E, IH. }
  constructor; rewrite ?Ea, ?Es; try done. intros c' Hin.
  apply list_elem_of_lookup in Hin as [i Hi]. destruct (Forall2_lookup_r _ _ _ _ _ Hcs Hi) as (c & Hi' & E1 & E2).
  rewrite E2, E1. apply Hc. by eapply list_elem_of_lookup_2.
Qed.

Lemma tabled_mem T br mem : tabled T br -> (mem <> [] -> oom) -> tabled T (set_mem br mem).
Proof using.
  intros [Hok Hrep Hc Ho] Hm. constructor; [by apply broker_ok_set_mem| |done|done]. destruct Hrep. by constructor.
Qed.

Lemma tabled_alloc T br : tabled T br -> ends alloc (fun _ => tabled T) br.
Proof using.
  intros Ht. apply ends_alloc. intros ok mem Hm. apply tabled_mem; [done|]. intros Hne. destruct (br_mem br) eqn:E.
  - by destruct (Hm eq_refl).
  - apply Ht. by rewrite E.
Qed.

(** The deliveries of retained messages change no subscription. *)
Lemma tabled_deliver T f qos br :
  0 <= qos <= MQTT_QOS_2 -> tabled T br -> ends (BrokerRetained_DeliverToClient now addr f qos) (fun _ => tabled T) br.
Proof using.
  intros Hq [Hok Hrep (bc & Hat & El) Ho]. pose proof (broker_ok_at _ _ _ Hok Hat) as [Hc Hw].
  eapply ends_mono; [eapply ends_conj; [apply (DeliverToClient_steady now addr f qos Hq br Hok); by exists bc|]|].
  - apply (BrokerRetained_DeliverToClient_ok now addr f qos bc br (ret_table (rt_list (br_retained br)))); try done; [apply Hok|by split; [apply Hok|]].
  - intros rc br' [Hst (bc' & mem & next & rt & T' & -> & _ & Ea & _ & _ & _ & Hm & _ & _ & _ & _ & Hd)].
    assert (Ei : bc_info bc' = bc_info bc \/ bc_info bc' = set_sock (bc_info bc) BROKER_SOCKET_INVALID 0).
    { destruct Hd as (? & ? & ? & _ & _ & _ & [(_ & _ & ->)|(_ & _ & [[_ ->]|[_ ->]])]); by (left + right). }
    constructor; [apply Hst| | |].
    + eapply subs_rep_clients; [exact Hrep|done|]. cbn.
      assert (Hcs : forall cs : list (BrokerClient Net),
        Forall2 (fun c c' => bc_addr c' = bc_addr c /\ bc_sub_count (bc_info c') = bc_sub_count (bc_info c)) cs cs).
      { intros cs. induction cs; [apply Forall2_nil|by apply Forall2_cons]. }
      pose proof (client_at_addr _ _ _ Hat) as Eb. clear -Hcs Ea Ei Hat Eb. revert Hat.
      induction (br_clients br) as [|c cs IH]; cbn; [done|]. rewrite Ea, Eb. destruct (Z.eqb_spec (bc_addr c) addr).
      * intros [= ->]. constructor; [|apply Hcs]. split; [done|]. by destruct Ei as [->| ->].
      * intros Hat. constructor; [done|]. by apply IH.
    + destruct (stays_at _ _ _ addr Hst) as [bc2 Hat2]; [by exists bc|]. exists bc2. split; [done|].
      destruct (all_abide_at _ _ _ _ _ (sy_clients _ _ _ Hst) Hat) as (bc3 & Hat3 & [_ Eid _]). rewrite Hat2 in Hat3. injection Hat3 as <-.
      injection Eid as _ E. unfold level_of in *. congruence.
    + cbn. intros Hne. apply Ho. intros E. apply Hne. by apply Hm.
Qed.

Lemma tabled_add T f qos br :
  0 <= qos <= MQTT_QOS_2 -> filter_ok f -> tabled T br ->
  ends (BrokerSubs_Add addr f qos) (fun rc br' => exists T', sub_spec T oom (Sub_Add addr f qos) rc T' /\ tabled T' br') br.
Proof using.
  intros Hq Hf [Hok Hrep (bc & Hat & El) Ho]. assert (Hin : addr ∈ addrs (br_clients br)) by (apply client_at_some; by exists bc).
  eapply ends_mono; [eapply ends_conj; [apply (BrokerSubs_Add_steady addr f qos Hq br Hok); by exists bc|by apply (BrokerSubs_Add_ok addr f qos br T)]|].
  intros rc br' [Hst (T' & Hs & Hrep' & _ & Hm)]. exists T'. split; [by eapply sub_spec_oom|]. constructor; [apply Hst|done| |].
  - destruct (all_abide_at _ _ _ _ _ (sy_clients _ _ _ Hst) Hat) as (bc' & Hat' & [_ Eid _]). exists bc'. split; [done|].
    injection Eid as _ E. unfold level_of in *. congruence.
  - intros Hne. apply Ho. intros E. apply Hne. by apply Hm.
Qed.

Lemma sub_add_inv T f qos rc T' :
  sub_spec T oom (Sub_Add addr f qos) rc T' ->
  (0 <= rc /\ T' = <[(addr, f) := qos]> T /\ (is_Some (T !! (addr, f)) \/ owned addr T < BROKER_MAX_SUBS_PER_CLIENT)) \/
  (rc = MQTT_CODE_ERROR_MEMORY /\ T' = T /\ T !! (addr, f) = None /\ (BROKER_MAX_SUBS_PER_CLIENT <= owned addr T \/ oom)).
Proof using. inversion 1; subst; [left|right|right|left]; split_and!; try done; by (left + right). Qed.

(** A topic of a decoded SUBSCRIBE. *)
Definition topic_read (t : MqttTopic) : Prop := 0 <= topic_qos t <= MQTT_QOS_2 /\ exists f, topic_filter t = Some f /\ filter_ok f.

Lemma subscribe_topics_ok ts T br :
  Forall topic_read ts -> tabled T br ->
  ends (subscribe_topics now addr ts) (fun r br' => exists T', tabled T' br' /\
    match r with inr codes => subscribed T ts codes T' | inl rc => rc < 0 end) br.
Proof using.
  intros Hts. revert T br. induction Hts as [|t ts (Hq & f & Ef & Hf) _ IH]; intros T br Ht; cbn [subscribe_topics].
  { apply ends_ret. exists T. split; [done|constructor]. }
  eapply (ends_then _ _ (fun r br' => exists T1, tabled T1 br' /\ match r with
      | inl rc => rc < 0
      | inr code => forall codes T', subscribed T1 ts codes T' -> subscribed T (t :: ts) (code :: codes) T'
      end)).
  - unfold subscribe_topic. pose proof (tl_client _ _ Ht) as (bc & Hat & El). apply ends_bind, (ends_deref addr bc); [done|]. cbv zeta.
    rewrite (proj2 (Z.ltb_ge WOLFMQTT_MAX_QOS _)), Ef, El by lia.
    eapply ends_then; [by apply (tabled_add T f (topic_qos t))|cbv beta]. intros sub_rc br1 (T1 & Hs & Ht1).
    apply sub_add_inv in Hs as [(Hrc & HT1 & Hroom)|(-> & -> & Hnew & Hwhy)].
    2: { apply ends_ret. exists T. split; [done|]. cbn [Z.ltb Z.compare Z.eqb]. rewrite andb_true_r. intros codes T' H.
         by apply (subd_refused T t f). }
    rewrite (proj2 (Z.ltb_ge sub_rc 0)) by done.
    assert (Hgranted : forall codes T', subscribed T1 ts codes T' -> subscribed T (t :: ts) (topic_qos t :: codes) T').
    { intros codes T' H. apply (subd_granted T t f); [done|done|by rewrite <- HT1]. }
    clear Hat El Hroom HT1. eapply (ends_then _ _ (fun _ => tabled T1)).
    + destruct (deliver_retained _ _ _); [|by apply ends_ret]. eapply (ends_then _ _ (fun _ => tabled T1)).
      * destruct (_ <=? _); [by apply tabled_alloc|by apply ends_ret].
      * intros [|] br2 H2; [by apply tabled_deliver|by apply ends_ret].
    + intros rrc br2 H2. destruct (Z.ltb_spec rrc 0); apply ends_ret; by exists T1.
  - intros [rc|code] br1 (T1 & Ht1 & H1); [apply ends_ret; by exists T1|].
    eapply ends_then; [by apply (IH T1)|cbv beta]. intros [rc|codes] br2 (T2 & Ht2 & H2); apply ends_ret; exists T2; split; auto.
Qed.
End Codes.

(** ** Properties *)

(** C8: SUBACK reports what the broker did. For a broker in any valid state,
    with failing allocations, the loop of BrokerHandle_Subscribe over the topics
    of a SUBSCRIBE ends without undefined behaviour in a valid state. If it
    answers, then with one code for each topic in their order: the QoS of the
    topic exactly when the filter is in the table of subscriptions with that
    QoS from then on - replacing an older one or as a new entry -, and a failure
    code, Quota exceeded for a v5 client, exactly when the filter is new and the
    client has BROKER_MAX_SUBS_PER_CLIENT others or memory is short, the table
    being unchanged by that topic. The table changes in no other way. *)
Theorem subscribe_topics_truthful {Net} `{!Sender Net} now addr ts bc (br : Broker Net) T :
  broker_ok br -> subs_rep br T -> client_at (br_clients br) addr = Some bc -> Forall topic_read ts ->
  exists r br' T', subscribe_topics now addr ts br = Ok (r, br') /\ broker_ok br' /\ subs_rep br' T' /\
    match r with
    | inr codes => subscribed (br_mem br <> []) addr (level_of bc) T ts codes T'
    | inl rc => rc < 0
    end.
Proof.
  intros Hok Hrep Hat Hts.
  destruct (subscribe_topics_ok (br_mem br <> []) now addr (level_of bc) ts T br Hts) as (r & br' & E & T' & [Hok' Hrep' _ _] & Hr).
  - constructor; [done|done| |done]. by exists bc.
  - by exists r, br', T'.
Qed.

Section Examples.

(** A client that subscribes to "a/+". *)
Definition ex_subscriber : Broker ScriptNet :=
  mkBroker [] 30 [ex_member 1 [97] no_will] 1 [mkSub [97; 47; 43] (Some [97]) (Some 1) 1] 1 (mkRt [] 0 0) [] [] 0 1 1.

Lemma ex_subscriber_ok : broker_ok ex_subscriber /\ subs_rep ex_subscriber {[(1, [97; 47; 43]) := 1]}.
Proof.
  assert (Hm : session_ok (ex_member 1 [97] no_will)) by (destruct (ex_member_ok 1 [97] no_will); by split).
  split.
  - constructor.
    + constructor; [by_eval| |constructor; [done|done|apply NoDup_nil_2|apply List.Forall_nil]|by_eval|].
      * apply List.Forall_cons; [exact Hm|apply List.Forall_nil].
      * intros a Ha. apply elem_of_cons in Ha as [[= ->]|[]%elem_of_nil]. by left.
    + apply List.Forall_cons; [constructor; [apply ex_member_ok|apply no_will_ok]|apply List.Forall_nil].
    + apply List.Forall_nil.
    + apply List.Forall_cons; [unfold sub_inv; cbn; lia|apply List.Forall_nil].
    + by destruct (ex_wills_routes 0 []).
    + apply List.Forall_nil.
    + by_eval.
  - constructor; [by_eval| |by_eval| |].
    + constructor; [apply List.Forall_cons; [|apply List.Forall_nil]|by_eval]. split; [by_eval|by repeat constructor].
    + intros a Ha. apply elem_of_cons in Ha as [[= ->]|[]%elem_of_nil]. by left.
    + intros c Hc. apply elem_of_cons in Hc as [->|[]%elem_of_nil]. by vm_compute.
Qed.
End Examples.

Lemma subscribe_topics_truthful_witness :
  let ts := [mkTopic (Some [97; 47; 43]) 2 0; mkTopic (Some [98]) 0 0] in
  exists br' T', subscribe_topics 5 1 ts ex_subscriber = Ok (inr [2; 0], br') /\ subs_rep br' T' /\
    subscribed (br_mem ex_subscriber <> []) 1 4 {[(1, [97; 47; 43]) := 1]} ts [2; 0] T'.
Proof.
  intros ts. destruct ex_subscriber_ok as [Hok Hrep].
  destruct (subscribe_topics_truthful 5 1 ts (ex_member 1 [97] no_will) ex_subscriber _ Hok Hrep) as (r & br' & T' & E & _ & Hrep' & Hr).
  - reflexivity.
  - repeat (apply List.Forall_cons; [split; [cbn; lia|]; eexists; split; [reflexivity|]; split; [by_eval|by repeat constructor]|]).
    apply List.Forall_nil.
  - assert (r = inr [2; 0]) as -> by (vm_compute in E; by injection E as <- _).
    exists br', T'. split; [exact E|]. split; [exact Hrep'|exact Hr].
Defined.
