(* ===== verification/BrokerPublish.v ===== *)
(** * BrokerPublish: the handler of PUBLISH ([mqtt_broker.c])

    [BrokerHandle_Publish] checks the message, detects QoS 2 duplicates, keeps
    the retained message, queues it for the sessions without a connection,
    delivers it to the connected subscribers and acknowledges it. *)
From stdpp Require Import gmap.
From S2P Require Import Prelude PacketDefs Wire Topic FixedHeader Props Frame ReasonCodes PublishResp Control Publish PacketIO BrokerTopic BrokerDefs BrokerQos2 OutQueue OutStream OutAlloc BrokerState BrokerSubs BrokerSend BrokerRetained BrokerOrphan BrokerSession BrokerFanout BrokerWill BrokerClose BrokerPackets.

(** ** Operations *)

Section Publish.
Context {Net : Type} `{!Sender Net}.
Implicit Types (br : Broker Net) (bc : BrokerClient Net).

(** The sessions without a connection: [o] may be gone. *)
Definition publish_offline (now : Z) (client_id topic : list Z) (payload : option (list Z)) (payload_len eff_qos : Z)
    (props : list MqttProp) : B Net unit :=
  if MQTT_QOS_0 <? eff_qos then
    br ← get;
    match BrokerOrphan_Find (br_orphans br) client_id with
    | Some o => BrokerOrphan_Enqueue now o topic payload payload_len eff_qos 0 props
    | None => mret tt
    end
  else mret tt.

(** The first pass over [broker->subs]. *)
Fixpoint publish_collect (now : Z) (topic : list Z) (payload : option (list Z)) (payload_len qos : Z)
    (props : list MqttProp) (subs : list BrokerSub) (targets : BrokerFanoutList) : B Net BrokerFanoutList :=
  match subs with
  | [] => mret targets
  | sub :: next =>
    let eff_qos := if qos <? sub_qos sub then qos else sub_qos sub in
    let matching := if BROKER_STR_VALID (Some (sub_filter sub))
                    then of_result (BrokerTopicMatch (Some (sub_filter sub)) (Some topic)) else mret false in
    targets ← (match sub_client sub with
               | Some addr =>
                 bc ← deref addr;
                 if negb (bc_protocol_level (bc_info bc) =? 0) && negb (bc_connected (bc_info bc) =? 0) then
                   m ← matching;
                   if (m : bool) then BrokerFanout_Add targets addr eff_qos else mret targets
                 else mret targets
               | None =>
                 match sub_client_id sub with
                 | Some client_id =>
                   m ← matching;
                   if (m : bool) then
                     _ ← publish_offline now client_id topic payload payload_len eff_qos props;
                     mret targets
                   else mret targets
                 | None => mret targets
                 end
               end);
    publish_collect now topic payload payload_len qos props next targets
  end.

(** The delivery to one subscriber. The publisher's own queue is drained after
    its acknowledgement. *)
Definition publish_deliver (now publisher : Z) (topic : list Z) (payload : option (list Z)) (payload_len : Z)
    (props : list MqttProp) (wc eff_qos : Z) : B Net unit :=
  bc ← deref wc;
  if bc_connected (bc_info bc) =? 0 then mret tt
  else if BROKER_MAX_QUEUED_MSGS_PER_SUB <=? out_q_count (bc_outq bc) then quota_close now wc
  else
    rc ← enqueue_for wc topic payload payload_len props eff_qos 0;
    if rc <? 0 then mret tt
    else if wc =? publisher then mret tt
    else drain_client now wc.

Definition publish_fan_out (now publisher : Z) (topic : list Z) (payload : option (list Z)) (payload_len qos : Z)
    (props : list MqttProp) : B Net unit :=
  br ← get;
  targets ← publish_collect now topic payload payload_len qos props (br_subs br)
              (BrokerFanout_Init BROKER_FANOUT_STACK_TARGETS);
  br ← get;
  fanout_deliver (publish_deliver now publisher topic payload payload_len props) (br_clients_gen br) (fl_items targets).

(** The Message Expiry Interval. *)
Definition publish_expiry (props : list MqttProp) : Z :=
  match BrokerProps_Find props MQTT_PROP_MSG_EXPIRY_INTERVAL with Some prop => data_int prop | None => 0 end.

Definition publish_retain (now : Z) (topic : list Z) (pub : MqttMessage) : B Net unit :=
  if negb (msg_retain pub =? 0) then
    if msg_total_len pub =? 0 then BrokerRetained_Delete topic
    else
      match msg_buffer pub with
      | Some payload =>
        _ ← BrokerRetained_Store now topic (Some payload) (msg_total_len pub) (msg_qos pub) (publish_expiry (msg_props pub));
        mret tt
      | None => mret tt
      end
  else mret tt.

(** The acknowledgement; [rc] is the code so far. *)
Definition publish_ack (now addr : Z) (pub : MqttMessage) (rc : Z) : B Net Z :=
  if (msg_qos pub =? MQTT_QOS_1) || (msg_qos pub =? MQTT_QOS_2) then
    on_client addr (send_resp now (if msg_qos pub =? MQTT_QOS_1 then MQTT_PACKET_TYPE_PUBLISH_ACK
                                   else MQTT_PACKET_TYPE_PUBLISH_REC) (msg_packet_id pub) MQTT_REASON_SUCCESS)
  else mret rc.

(** A QoS 2 duplicate is neither retained nor delivered. *)
Definition publish_accepted (now addr rc : Z) (pub : MqttMessage) (duplicate : bool) : B Net Z :=
  topic ← (match msg_topic_name pub with
           | Some name =>
             if 0 <? msg_topic_name_len pub then
               ok ← alloc;
               if (ok : bool) then topic ← of_result (slice name 0 (msg_topic_name_len pub)); mret (inr (Some topic))
               else mret (inl MQTT_CODE_ERROR_MEMORY)
             else mret (inr None)
           | None => mret (inr None)
           end);
  match topic with
  | inl rc => mret rc
  | inr topic =>
    _ ← (match topic with
         | Some topic =>
           if duplicate then mret tt
           else
             _ ← publish_retain now topic pub;
             if match msg_buffer pub with Some _ => true | None => msg_total_len pub =? 0 end
             then publish_fan_out now addr topic (msg_buffer pub) (msg_total_len pub) (msg_qos pub) (msg_props pub)
             else mret tt
         | None => mret tt
         end);
    publish_ack now addr pub rc
  end.

Definition disconnect_with (now addr reason : Z) : B Net Z :=
  on_client addr (fun bc => BrokerSend_Disconnect now bc reason).

(** The handler up to [publish_cleanup]. *)
Definition publish_decoded (now addr rc : Z) (pub : MqttMessage) : B Net Z :=
  bc ← deref addr;
  let v5 := MQTT_CONNECT_PROTOCOL_LEVEL_5 <=? level_of bc in
  if v5 && bool_decide (is_Some (BrokerProps_Find (msg_props pub) MQTT_PROP_SUBSCRIPTION_ID)) then
    _ ← disconnect_with now addr MQTT_REASON_PROTOCOL_ERR; mret MQTT_CODE_ERROR_MALFORMED_DATA
  else if v5 && bool_decide (is_Some (BrokerProps_Find (msg_props pub) MQTT_PROP_TOPIC_ALIAS)) then
    _ ← disconnect_with now addr MQTT_REASON_TOPIC_ALIAS_INVALID; mret MQTT_CODE_ERROR_MALFORMED_DATA
  else if (0 <? msg_total_len pub) && (msg_buffer_len pub <? msg_total_len pub) then mret MQTT_CODE_ERROR_OUT_OF_BUFFER
  else
    verdict ← (if msg_qos pub =? MQTT_QOS_2 then
                 br ← get;
                 let '(verdict, mem, q) := publish_qos2_check (br_mem br) (bc_qos2 bc) (msg_packet_id pub) in
                 _ ← modify (fun br => set_mem br mem);
                 _ ← store (with_qos2 bc q);
                 mret verdict
               else mret Qos2_New);
    match verdict with
    | Qos2_Refused add_rc =>
      _ ← (if v5 then disconnect_with now addr (if add_rc =? MQTT_CODE_ERROR_OUT_OF_BUFFER then MQTT_REASON_QUOTA_EXCEEDED
                                                else MQTT_REASON_SERVER_BUSY)
           else mret 0);
      mret add_rc
    | Qos2_New => publish_accepted now addr rc pub false
    | Qos2_Duplicate => publish_accepted now addr rc pub true
    end.

Definition BrokerHandle_Publish (now addr rx_len : Z) : B Net Z :=
  bc ← deref addr;
  r ← decode (MqttDecode_Publish (rx_buf bc) rx_len (mkMessage 0 0 0 0 0 None 0 0 None 0 0 0 0 0 [] (level_of bc)));
  match r with
  | inl rc => mret rc
  | inr (rc, pub) =>
    rc ← publish_decoded now addr rc pub;
    _ ← free_props (msg_props pub);
    mret rc
  end.
End Publish.

(** ** The messages a decoder yields *)

Lemma norm_str_fits f : str_rep f -> norm_str f = f -> str_fits f /\ str_rep (copy_str f).
Proof.
  intros Hr E. pose proof Hr as (Hl & [d Hd] & Hb). pose proof (field_len f Hr) as Hfl.
  assert (Ep : str_ptr f = Some (field f)) by (rewrite <- E at 1; done).
  unfold str_fits, copy_str. rewrite Ep. split; [lia|].
  destruct (Z.ltb_spec 0 (str_len f)); [|split_and!; [done|done|by eexists|constructor]].
  apply str_rep_some; [rewrite len_take; lia|lia|by apply Forall_take].
Qed.

Lemma no_str_fits : str_fits no_str /\ str_rep (copy_str no_str).
Proof. split; [done|]. split_and!; [done|done|by eexists|constructor]. Qed.

Lemma prop_decoded_copies p : prop_decoded p -> prop_fits p /\ prop_rep (copy_prop p).
Proof.
  intros ((Ht & Hb & Hs & Hi & H1 & H2 & H3) & _ & En).
  assert (Hf : forall f, str_rep f -> norm_str f = f \/ f = no_str -> str_fits f /\ str_rep (copy_str f)).
  { intros f Hr [E| ->]; [by apply norm_str_fits|apply no_str_fits]. }
  assert (Hc : (norm_str (data_str p) = data_str p \/ data_str p = no_str) /\
               (norm_str (data_bin p) = data_bin p \/ data_bin p = no_str) /\
               (norm_str (data_str2 p) = data_str2 p \/ data_str2 p = no_str)).
  { unfold prop_norm, new_prop in En. cbv zeta in En. clear -En.
    destruct (prop_data (prop_type p)); pose proof (f_equal data_str En) as E1;
      pose proof (f_equal data_bin En) as E2; pose proof (f_equal data_str2 En) as E3;
      cbn [data_str data_bin data_str2] in E1, E2, E3; split_and!; solve [by left|by right]. }
  destruct Hc as (C1 & C2 & C3). destruct (Hf _ H1 C1), (Hf _ H2 C2), (Hf _ H3 C3).
  split; [by constructor|]. unfold prop_rep, copy_prop. cbn. tauto.
Qed.

Lemma props_decoded_message topic payload n ps packet :
  bytes topic -> 0 <= n < 2143289344 -> payload_fits payload n -> props_decoded packet ps -> message_ok topic payload n ps.
Proof.
  intros Ht Hn Hp (Hps & _). constructor; try done.
  - eapply List.Forall_impl; [|exact Hps]. intros p Hd. by apply prop_decoded_copies.
  - apply Forall_map. eapply List.Forall_impl; [|exact Hps]. intros p Hd. by apply prop_decoded_copies.
Qed.

(** ** Sessions without a connection *)

(** The QoS of the messages for one session. *)
Definition owed (id : list Z) (ts : list (list Z * Z)) : list Z :=
  omap (fun t : list Z * Z => if bool_decide (t.1 = id) then Some t.2 else None) ts.

Definition queued_all (R : Z -> BrokerOrphanSession -> BrokerOrphanSession -> Prop) (ts : list (list Z * Z))
    (os os' : list BrokerOrphanSession) : Prop :=
  Forall2 (fun o o' => deliveries R (owed (o_client_id o) ts) o o' /\ o_client_id o' = o_client_id o) os os'.

Lemma queued_all_nil R os : queued_all R [] os os.
Proof. unfold queued_all. induction os as [|o os IH]; constructor; [|done]. by split; [constructor|]. Qed.

Lemma queued_all_ids R ts os os' : queued_all R ts os os' -> map o_client_id os' = map o_client_id os.
Proof. induction 1 as [|o o' os os' (_ & E) _ IH]; [done|]. cbn [map]. by rewrite E, IH. Qed.

Lemma queued_all_skip R id q ts os os' :
  (id ∉ map o_client_id os) -> queued_all R ts os os' -> queued_all R ((id, q) :: ts) os os'.
Proof.
  intros Hn H. induction H as [|o o' os os' [H1 H2] _ IH]; [constructor|].
  cbn [map] in Hn. apply not_elem_of_cons in Hn as [Hne Hn]. constructor; [|by apply IH].
  split; [|done]. unfold owed. cbn [omap list_omap fst snd]. by rewrite bool_decide_eq_false_2.
Qed.

Lemma queued_all_cons R q ts before o o1 after os' :
  NoDup (map o_client_id (before ++ o :: after)) -> R q o o1 -> o_client_id o1 = o_client_id o ->
  queued_all R ts (before ++ o1 :: after) os' -> queued_all R ((o_client_id o, q) :: ts) (before ++ o :: after) os'.
Proof.
  rewrite map_app. cbn [map]. intros (_ & Hb & [Ha _]%list.NoDup_cons)%list.NoDup_app HR E H.
  apply Forall2_app_inv_l in H as (l1 & l2 & H1 & H2 & ->). apply Forall2_cons_inv_l in H2 as (o2 & l3 & [H2 H2'] & H3 & ->).
  apply Forall2_app; [|constructor].
  - apply queued_all_skip; [|done]. intros Hin. apply (Hb _ Hin). by left.
  - split; [|congruence]. unfold owed. cbn [omap list_omap fst snd]. rewrite bool_decide_eq_true_2 by done.
    econstructor; [exact HR|]. by rewrite E in H2.
  - by apply queued_all_skip.
Qed.

(** A delivery at [q] queues the message, dropping the oldest of a full queue;
    or it is lost for want of memory or of a sequence number. *)
Definition queued_offline (oom : Prop) (now : Z) (topic : list Z) (payload : option (list Z)) (n : Z)
    (props : list MqttProp) (q : Z) (o o' : BrokerOrphanSession) : Prop :=
  o' = set_o_queue o (o_outq o') /\
  exists gone kept, out_q (o_outq o) = gone ++ kept /\
    (gone = [] \/ len kept = BROKER_MAX_OFFLINE_MSGS_PER_SUB - 1) /\
    ((out_q (o_outq o') = kept /\ (oom \/ seq_exhausted kept)) \/
     exists id, 1 <= id <= 65535 /\ (id ∉ map op_packet_id kept) /\
       out_q (o_outq o') = kept ++ [orphan_entry topic payload n q id 0 now (o_protocol_level o) props (list.last kept)]).

Section Offline.
Context {Net : Type} `{!Sender Net}.
Implicit Types (br : Broker Net) (bc : BrokerClient Net).
Context (oom : Prop) (now : Z) (topic : list Z) (payload : option (list Z)) (n : Z) (props : list MqttProp).
Context (Hmsg : message_ok topic payload n props).

(** The state with new queues of the orphans, allocator and [next_packet_id]. *)
Definition with_orphans br (os : list BrokerOrphanSession) (mem : heap) (next : Z) : Broker Net :=
  set_packet_id (set_mem (set_orphans br os (br_orphan_count br)) mem) next.

Lemma with_orphans_same br : with_orphans br (br_orphans br) (br_mem br) (br_next_packet_id br) = br.
Proof using. by destruct br. Qed.

Lemma orphan_entry_rep q id level tail :
  0 <= q <= MQTT_QOS_2 -> 0 <= id < 65536 -> entry_rep (orphan_entry topic payload n q id 0 now level props tail).
Proof using Hmsg.
  intros Hq Hid. pose proof (outpub_entry_rep topic payload n props q id 0 level Hmsg Hq Hid ltac:(done)) as H.
  unfold outpub_entry, outpub_copy, outpub_for, orphan_entry, entry_rep in *. by destruct (copy_payload payload n).
Qed.

Definition offline_after br (ts : list (list Z * Z)) br' : Prop :=
  exists os mem next, br' = with_orphans br os mem next /\ broker_ok br' /\ (br_mem br = [] -> mem = []) /\
    queued_all (queued_offline oom now topic payload n props) ts (br_orphans br) os.

Lemma offline_none br : broker_ok br -> offline_after br [] br.
Proof using.
  intros Hok. exists (br_orphans br), (br_mem br), (br_next_packet_id br).
  split; [by rewrite with_orphans_same|]. split; [done|]. split; [done|apply queued_all_nil].
Qed.

Lemma publish_offline_ok id eff br :
  broker_ok br -> 0 <= eff <= MQTT_QOS_2 -> (br_mem br <> [] -> oom) ->
  ends (publish_offline now id topic payload n eff props)
    (fun _ => offline_after br (if MQTT_QOS_0 <? eff then [(id, eff)] else [])) br.
Proof using Hmsg.
  intros Hok Heff Hoom. unfold publish_offline.
  destruct (Z.ltb_spec MQTT_QOS_0 eff) as [Hpos|]; [|apply ends_ret; by apply offline_none].
  apply ends_bind, ends_get. pose proof (BrokerOrphan_Find_spec (br_orphans br) id) as Hf.
  destruct (BrokerOrphan_Find _ _) as [[[b o] a]|].
  2: { apply ends_ret. destruct (offline_none br Hok) as (os & mem & next & E & H1 & H2 & H3).
       exists os, mem, next. split_and!; try done. by apply queued_all_skip. }
  destruct Hf as (Es & Eid & _). unfold BrokerOrphan_Enqueue. rewrite (proj2 (Z.eqb_neq eff MQTT_QOS_0)) by lia.
  pose proof (bk_sessions _ Hok) as Hses. pose proof (ss_orphans _ Hses) as Hos. rewrite Es in Hos.
  assert (Ho : orphan_ok o) by (pose proof (or_each _ _ Hos) as H; apply Forall_app in H as [_ [H _]%list.Forall_cons]; done).
  apply ends_bind, ends_get, ends_bind.
  edestruct (orphan_enqueue_spec (br_mem br) (br_next_packet_id br) now (o_protocol_level o) (o_outq o)
               topic payload n eff 0 props) as (q & mem & next & gone & kept & E & Hoq & Hnx & _ & Eq & Hg & Hcase & Hm);
    [apply Ho|apply Hok|lia|apply Hmsg|apply Hmsg|].
  eapply ends_of_result; [exact E|]. apply ends_modify.
  exists (b ++ set_o_queue o q :: a), mem, next. split; [done|].
  pose proof (bk_entries _ Hok) as He. rewrite Es in He. apply Forall_app in He as [He1 [He2 He3]%list.Forall_cons].
  split_and!; [|done|].
  - apply (broker_ok_step br); try done.
    + eapply sessions_ok_step; [exact Hses|done|apply Hok|by apply orphans_queue|done|done].
    + apply Hok.
    + apply Forall_app. split; [done|]. constructor; [|done].
      unfold orphan_inv in *. cbn [o_outq set_o_queue]. rewrite Eq in He2. apply Forall_app in He2 as [_ Hk].
      destruct Hcase as [[-> _]|(pid & Hpid & _ & ->)]; [done|]. apply Forall_app. split; [done|].
      apply list.Forall_singleton. apply orphan_entry_rep; [done|lia].
    + apply Hok.
  - rewrite <- Eid, Es. eapply (queued_all_cons _ eff [] b o (set_o_queue o q) a); [apply Hos| |done|apply queued_all_nil]. split; [done|].
    exists gone, kept. cbn [o_outq set_o_queue]. split_and!; [done|done|]. destruct Hcase as [[-> [Hc|Hc]]|Hc]; [left|left|by right].
    + split; [done|]. left. auto.
    + split; [done|]. by right.
Qed.

(** ** Subscribers *)

Definition sub_matches (sub : BrokerSub) : bool := bool_decide (sub_filter sub <> []) && matches (sub_filter sub) topic.

(** The delivery a subscription asks for: to its connected client, or to the
    session without a connection. *)
Definition live_target (cs : list (BrokerClient Net)) (qos : Z) (sub : BrokerSub) : option (Z * Z) :=
  match sub_client sub with
  | None => None
  | Some addr =>
    match client_at cs addr with
    | Some bc =>
      if negb (bc_protocol_level (bc_info bc) =? 0) && negb (bc_connected (bc_info bc) =? 0) && sub_matches sub
      then Some (addr, Z.min qos (sub_qos sub)) else None
    | None => None
    end
  end.

Definition offline_target (qos : Z) (sub : BrokerSub) : option (list Z * Z) :=
  match sub_client sub, sub_client_id sub with
  | None, Some id => if sub_matches sub && (MQTT_QOS_0 <? Z.min qos (sub_qos sub)) then Some (id, Z.min qos (sub_qos sub)) else None
  | _, _ => None
  end.

Definition live_targets cs (qos : Z) (subs : list BrokerSub) : list (Z * Z) := omap (live_target cs qos) subs.
Definition offline_targets (qos : Z) (subs : list BrokerSub) : list (list Z * Z) := omap (offline_target qos) subs.

Lemma deliveries_app {A} (R : Z -> A -> A -> Prop) qs qs' a a1 a2 :
  deliveries R qs a a1 -> deliveries R qs' a1 a2 -> deliveries R (qs ++ qs') a a2.
Proof using. induction 1 as [|q qs a b c HR _ IH]; [done|]. intros H. econstructor; [exact HR|auto]. Qed.

Lemma queued_all_app R ts ts' os os1 os2 :
  queued_all R ts os os1 -> queued_all R ts' os1 os2 -> queued_all R (ts ++ ts') os os2.
Proof using.
  intros H. revert os2. induction H as [|o o1 os os1 [H1 E1] _ IH]; intros os2 H2.
  - apply Forall2_nil_inv_l in H2 as ->. constructor.
  - apply Forall2_cons_inv_l in H2 as (o2 & os3 & [H2 E2] & H3 & ->). constructor; [|by apply IH].
    split; [|congruence]. unfold owed. rewrite omap_app. eapply deliveries_app; [exact H1|]. by rewrite E1 in H2.
Qed.

Lemma offline_after_trans br ts br1 ts' br2 :
  offline_after br ts br1 -> offline_after br1 ts' br2 -> offline_after br (ts ++ ts') br2.
Proof using.
  intros (os & mem & next & -> & _ & Hm & Hq) (os' & mem' & next' & -> & Hok & Hm' & Hq').
  exists os', mem', next'. split; [done|]. split; [done|]. split; [auto|by eapply queued_all_app].
Qed.

Lemma offline_set_mem br mem : broker_ok br -> (br_mem br = [] -> mem = []) -> offline_after br [] (set_mem br mem).
Proof using.
  intros Hok Hm. exists (br_orphans br), mem, (br_next_packet_id br). split; [by destruct br|]. split; [|by split; [|apply queued_all_nil]].
  by eapply broker_ok_clients; [exact Hok|..]; try done; apply Hok.
Qed.

Lemma matching_ends sub (Q : bool -> Broker Net -> Prop) br :
  Q (sub_matches sub) br ->
  ends (if BROKER_STR_VALID (Some (sub_filter sub))
        then of_result (BrokerTopicMatch (Some (sub_filter sub)) (Some topic)) else mret false) Q br.
Proof using.
  unfold sub_matches. rewrite STR_VALID_nonempty. destruct (bool_decide _); cbn [andb]; [|apply ends_ret].
  apply ends_of_result, matches_eq.
Qed.

Lemma publish_collect_ok qos subs ts fl br :
  broker_ok br -> (forall a, Some a ∈ map sub_client subs -> a ∈ addrs (br_clients br)) -> Forall sub_inv subs ->
  0 <= qos <= MQTT_QOS_2 -> gathered oom ts fl -> (br_mem br <> [] -> oom) ->
  ends (publish_collect now topic payload n qos props subs fl) (fun fl' br' =>
    offline_after br (offline_targets qos subs) br' /\ gathered oom (ts ++ live_targets (br_clients br) qos subs) fl') br.
Proof using Hmsg.
  intros Hok Hl Hs Hq. revert ts fl br Hok Hl. induction Hs as [|sub subs Hsub Hs IH]; intros ts fl br Hok Hl Hg Hoom; cbn [publish_collect].
  { apply ends_ret. unfold live_targets. cbn [omap list_omap]. rewrite app_nil_r. split; [by apply offline_none|done]. }
  cbv zeta. rewrite min_if.
  set (live := match live_target (br_clients br) qos sub with Some t => [t] | None => [] end).
  set (off := match offline_target qos sub with Some t => [t] | None => [] end).
  assert (El : ts ++ live_targets (br_clients br) qos (sub :: subs) = (ts ++ live) ++ live_targets (br_clients br) qos subs).
  { unfold live_targets, live. cbn [omap list_omap]. rewrite <- app_assoc. by destruct (live_target _ _ sub). }
  assert (Eo : offline_targets qos (sub :: subs) = off ++ offline_targets qos subs).
  { unfold offline_targets, off. cbn [omap list_omap]. by destruct (offline_target _ sub). }
  rewrite El, Eo. eapply (ends_then _ _ (fun fl' br' => offline_after br off br' /\ gathered oom (ts ++ live) fl')).
  2: { intros fl' br1 [H1 Hg1]. pose proof H1 as (os & mem & next & Eb & Hok1 & Hm & _).
       assert (Ec : br_clients br1 = br_clients br) by by rewrite Eb.
       eapply ends_mono; [apply (IH (ts ++ live) fl' br1); try done; [by rewrite Ec; intros a Ha; apply Hl; right|]|].
       - rewrite Eb. cbn. intros Hne. apply Hoom. intros E. by apply Hne, Hm.
       - intros fl2 br2 [H2 Hg2]. rewrite Ec in Hg2. split; [by eapply offline_after_trans|done]. }
  unfold live, off, live_target, offline_target. unfold sub_inv in Hsub.
  assert (Hnone : ends (mret fl) (fun fl' br' => offline_after br [] br' /\ gathered oom (ts ++ []) fl') br).
  { apply ends_ret. rewrite app_nil_r. split; [by apply offline_none|done]. }
  destruct (sub_client sub) as [addr|] eqn:Ecl.
  - assert (Hin : addr ∈ addrs (br_clients br)) by (apply Hl; cbn; rewrite Ecl; by left).
    apply client_at_some in Hin as [bc Hat]. rewrite Hat. apply ends_bind, (ends_deref addr bc); [done|].
    destruct (negb _ && negb _); cbn [andb]; [|exact Hnone].
    apply ends_bind, matching_ends. destruct (sub_matches sub); [|exact Hnone].
    eapply ends_mono; [by apply (BrokerFanout_Add_ok oom ts)|].
    intros fl' br' (mem & -> & Hm & Hg'). split; [by apply offline_set_mem|done].
  - destruct (sub_client_id sub) as [id|]; [|exact Hnone].
    apply ends_bind, matching_ends. destruct (sub_matches sub); cbn [andb]; [|exact Hnone].
    eapply ends_then; [apply (publish_offline_ok id (Z.min qos (sub_qos sub)) br Hok); [lia|done]|cbv beta].
    intros _ br' H. apply ends_ret. rewrite app_nil_r. split; [|done]. by destruct (_ <? _).
Qed.

Lemma live_targets_ok cs qos subs :
  Forall sub_inv subs -> 0 <= qos <= MQTT_QOS_2 ->
  Forall (fun t => t.1 ∈ addrs cs /\ 0 <= t.2 <= MQTT_QOS_2) (live_targets cs qos subs).
Proof using.
  intros Hs Hq. apply list.Forall_forall. intros [a q] (sub & Hin & E)%list_elem_of_omap.
  rewrite list.Forall_forall in Hs. specialize (Hs _ Hin). unfold sub_inv, live_target in *.
  destruct (sub_client sub) as [addr|]; [|done]. destruct (client_at cs addr) eqn:Hat; [|done].
  destruct (_ && _ && _); [|done]. injection E as <- <-. cbn [fst snd]. split; [|lia].
  apply client_at_some. by eexists.
Qed.

(** ** Delivery *)

(** What a delivery at [q] makes of a client; [publisher] is the sender. *)
Inductive publish_delivery (publisher q : Z) bc bc' : Prop :=
  | pd_closed : bc_connected (bc_info bc) = 0 -> bc' = bc -> publish_delivery publisher q bc bc'
  | pd_queued bc1 id :
      bc_connected (bc_info bc) <> 0 -> out_q_count (bc_outq bc) < BROKER_MAX_QUEUED_MSGS_PER_SUB ->
      out_q (bc_outq bc1) = out_q (bc_outq bc) ++
        [outpub_entry topic payload n props q id 0 (bc_protocol_level (bc_info bc))] ->
      same_client bc bc1 -> bc_link bc1 = bc_link bc ->
      (if bc_addr bc =? publisher then bc' = bc1 else exists rc, BrokerClient_DrainOutQueue now bc1 = Ok (rc, bc')) ->
      publish_delivery publisher q bc bc'
  | pd_lost :
      bc_connected (bc_info bc) <> 0 -> out_q_count (bc_outq bc) < BROKER_MAX_QUEUED_MSGS_PER_SUB -> oom -> bc' = bc ->
      publish_delivery publisher q bc bc'
  | pd_full :
      bc_connected (bc_info bc) <> 0 -> BROKER_MAX_QUEUED_MSGS_PER_SUB <= out_q_count (bc_outq bc) ->
      bc_outq bc' = bc_outq bc -> bc_connected (bc_info bc') = 0 -> publish_delivery publisher q bc bc'.

Lemma publish_deliver_serves publisher :
  serves oom (publish_delivery publisher) (publish_deliver now publisher topic payload n props).
Proof using Hmsg.
  intros addr q bc br Hat Hok Hnext Hq Hoom. pose proof (client_at_addr _ _ _ Hat) as Ea.
  unfold publish_deliver. apply ends_bind, (ends_deref addr bc); [done|].
  assert (Hstay : publish_delivery publisher q bc bc -> ends (mret tt) (fun _ br' => exists bc' mem next,
    br' = served br bc' mem next /\ client_ok bc' /\ still bc bc' /\ 0 <= next < 65536 /\
    (br_mem br = [] -> mem = []) /\ publish_delivery publisher q bc bc') br).
  { intros Hd. apply ends_ret. exists bc, (br_mem br), (br_next_packet_id br).
    split; [by rewrite served_same by by rewrite Ea|]. split_and!; try done; try lia. apply still_refl. }
  destruct (Z.eqb_spec (bc_connected (bc_info bc)) 0) as [E0|E0]; [by apply Hstay, pd_closed|].
  destruct (Z.leb_spec BROKER_MAX_QUEUED_MSGS_PER_SUB (out_q_count (bc_outq bc))) as [Hfull|Hroom].
  - eapply ends_mono; [by apply quota_close_ok|].
    intros _ br' (bc' & H1 & H2 & H3 & H4 & H5 & H7 & H6 & ->).
    exists bc', (br_mem br), (br_next_packet_id br). split_and!; try done; try lia;
      [split_and!; try done; by right|by apply pd_full; rewrite ?H6].
  - apply ends_bind. eapply ends_mono; [by apply (enqueue_for_ok addr topic payload n props q 0 bc br)|].
    intros rc br1 (bc1 & mem & next & -> & Hok1 & Hs & Hnx & Hm & Hlk & [(Hrc & -> & Hwhy)|(-> & id & Eq)]).
    + rewrite (proj2 (Z.ltb_lt rc 0)) by done. apply ends_ret. exists bc, mem, next.
      split_and!; try done; try lia; [apply still_refl|]. apply pd_lost; try done.
      destruct Hwhy as [?|Hlong]; [auto|]. rewrite (oq_count _ (co_queue _ Hok)) in Hroom. lia.
    + cbn [Z.ltb Z.compare]. pose proof Hs as (Ea1 & _). destruct (Z.eqb_spec addr publisher) as [Ep|Ep].
      { apply ends_ret. exists bc1, mem, next. split_and!; try done; try lia; [by apply same_still|].
        eapply pd_queued; try done. by rewrite (proj2 (Z.eqb_eq _ _)) by congruence. }
      eapply ends_mono; [apply (ends_drain now addr bc1); [|done]|].
      { rewrite <- Ea, <- Ea1. apply (served_at br bc). by rewrite Ea1, Ea. }
      intros _ br2 (rc & bc2 & -> & Ed & Hok2 & Hs2). exists bc2, mem, next. pose proof Hs2 as (Ea2 & _).
      split; [by rewrite served_served by by symmetry|]. split_and!; try done; try lia.
      * eapply still_trans; by apply same_still.
      * eapply pd_queued; try done. rewrite (proj2 (Z.eqb_neq _ _)) by congruence. by exists rc.
Qed.

Lemma fanout_broker_ok R ts br cs mem next :
  broker_ok br -> fan_ok (with_clients br cs mem next) -> delivered_all R ts (br_clients br) cs ->
  broker_ok (with_clients br cs mem next).
Proof using.
  intros Hok [_ Hc Hn] Hd.
  apply (broker_ok_clients br _ Hok); try done; [exact (delivered_all_addrs _ _ _ _ Hd)| |apply Hok].
  cbn [br_clients with_clients set_packet_id set_mem set_clients] in *. pose proof (bk_clients _ Hok) as Hi.
  clear -Hc Hd Hi. induction Hd as [|c c' l l' [_ Hst] _ IH]; [constructor|].
  apply list.Forall_cons in Hc as [Hc Hl], Hi as [[_ Hw] Hi]. constructor; [|by apply IH].
  constructor; [done|]. pose proof Hst as (_ & -> & _). by rewrite (still_id _ _ Hst).
Qed.

(** [br'] is [br] once the message has gone to its subscribers. *)
Definition fanned_out (publisher qos : Z) br br' : Prop :=
  exists os ts cs mem next,
    br' = with_clients (with_orphans br os (br_mem br) (br_next_packet_id br)) cs mem next /\
    (br_mem br = [] -> mem = []) /\
    queued_all (queued_offline oom now topic payload n props) (offline_targets qos (br_subs br)) (br_orphans br) os /\
    ts `prefix_of` live_targets (br_clients br) qos (br_subs br) /\
    (oom \/ ts = live_targets (br_clients br) qos (br_subs br)) /\
    delivered_all (publish_delivery publisher) ts (br_clients br) cs.

Lemma publish_fan_out_ok publisher qos br :
  broker_ok br -> 0 <= qos <= MQTT_QOS_2 -> (br_mem br <> [] -> oom) ->
  ends (publish_fan_out now publisher topic payload n qos props)
    (fun _ br' => fanned_out publisher qos br br' /\ broker_ok br') br.
Proof using Hmsg.
  intros Hok Hq Hoom. unfold publish_fan_out. apply ends_bind, ends_get.
  eapply ends_then; [apply (publish_collect_ok qos (br_subs br) [] (BrokerFanout_Init BROKER_FANOUT_STACK_TARGETS) br);
    [done|apply Hok|apply Hok|done|by apply gathered_init|done]|cbv beta].
  intros fl br1 [(os & mem & next & -> & Hok1 & Hm & Hq1) (_ & Hpre & Hcase)]. cbn [app] in Hpre, Hcase.
  apply ends_bind, ends_get.
  assert (Hts : Forall (fun t => t.1 ∈ addrs (br_clients br) /\ 0 <= t.2 <= MQTT_QOS_2) (fl_items fl)).
  { destruct Hpre as [k Ek]. pose proof (live_targets_ok (br_clients br) qos (br_subs br) (bk_subs _ Hok) Hq) as H.
    rewrite Ek in H. by apply Forall_app in H as [H _]. }
  eapply ends_mono; [apply (fanout_deliver_ok oom (publish_delivery publisher)); [apply publish_deliver_serves|apply broker_ok_routes, Hok1|exact Hts|]|].
  { cbn. intros Hne. apply Hoom. intros E. by apply Hne, Hm. }
  intros _ br2 (cs & mem2 & next2 & -> & Hfan & Hm2 & Hd). split; [|by eapply fanout_broker_ok].
  exists os, (fl_items fl), cs, mem2, next2. split; [done|]. split; [auto|]. split; [done|]. split; [done|].
  split; [|done]. destruct Hcase as [[_ ->]|[_ ?]]; [by right|by left].
Qed.
End Offline.

(** ** The handler keeps the invariant *)

Section Handler.
Context {Net : Type} `{!Sender Net}.
Implicit Types (br : Broker Net) (bc : BrokerClient Net).

Lemma publish_fan_out_steady addr now topic payload n qos props :
  message_ok topic payload n props -> 0 <= qos <= MQTT_QOS_2 ->
  steady addr (publish_fan_out now addr topic payload n qos props).
Proof.
  intros Hmsg Hq br Hok _. eapply ends_mono; [by apply (publish_fan_out_ok (br_mem br <> []) now topic payload n props Hmsg)|].
  intros _ br' [(os & ts & cs & mem & next & -> & _ & _ & _ & _ & Hd) Hok'].
  constructor; [done|exact (delivered_abides _ _ _ _ Hd)|done].
Qed.

Lemma steady_retained addr (m : B Net unit) :
  (forall br, broker_ok br -> ends m (fun _ br' => exists mem rt, br' = set_retained (set_mem br mem) rt /\ retained_ok rt) br) ->
  steady addr m.
Proof.
  intros Hm br Hok _. eapply ends_mono; [by apply Hm|]. intros _ br' (mem & rt & -> & Hrt).
  apply stays_same; [|done|done]. by eapply broker_ok_clients; [exact Hok|..]; try done; apply Hok.
Qed.

Lemma publish_retain_steady addr now topic pub :
  message_ok topic (msg_buffer pub) (msg_total_len pub) [] -> 0 <= msg_qos pub <= MQTT_QOS_2 ->
  steady (Net := Net) addr (publish_retain now topic pub).
Proof.
  intros Hmsg Hq. apply steady_retained. intros br Hok.
  assert (Hrep : ret_rep br (ret_table (rt_list (br_retained br)))) by (split; [apply Hok|done]).
  assert (Hno : ends (mret tt) (fun (_ : unit) br' => exists mem rt, br' = set_retained (set_mem br mem) rt /\ retained_ok rt) br).
  { apply ends_ret. exists (br_mem br), (br_retained br). split; [by destruct br|apply Hok]. }
  unfold publish_retain. destruct (negb _); [|exact Hno].
  destruct (_ =? 0).
  - eapply ends_mono; [by apply (BrokerRetained_Delete_ok topic br)|]. intros _ br' (rt & -> & [Hr _]).
    exists (br_mem br), rt. by destruct br.
  - destruct (msg_buffer pub) as [bs|] eqn:Eb; [|exact Hno].
    eapply ends_then; [by apply (BrokerRetained_Store_ok now topic (Some bs) (msg_total_len pub) (msg_qos pub) _ br)|cbv beta].
    intros rc br' (mem & T' & E & _ & _ & [Hr _]). apply ends_ret. by exists mem, (br_retained br').
Qed.

Lemma publish_ack_steady addr now pub rc :
  (0 < msg_qos pub -> 0 < msg_packet_id pub < 65536) -> steady (Net := Net) addr (publish_ack now addr pub rc).
Proof.
  intros Hid. unfold publish_ack. destruct ((_ =? _) || _) eqn:E; [|apply steady_ret]. apply steady_writes. intros bc Hl.
  apply orb_true_iff in E. rewrite !Z.eqb_eq in E.
  apply send_resp_writes; [|done|lia|done]. unfold resp_type. rewrite !elem_of_cons. destruct (_ =? _); tauto.
Qed.

(** What the handler relies on of the decoded message. *)
Record pub_ok (pub : MqttMessage) : Prop := {
  po_topic name : msg_topic_name pub = Some name -> bytes name /\ msg_topic_name_len pub = len name;
  po_qos : 0 <= msg_qos pub <= MQTT_QOS_2;
  po_id : 0 < msg_qos pub -> 0 < msg_packet_id pub < 65536;
  po_total : 0 <= msg_total_len pub;
  po_held : msg_total_len pub <= msg_buffer_len pub -> msg_total_len pub < 2143289344 /\
    payload_fits (msg_buffer pub) (msg_total_len pub);
  po_props : props_decoded MQTT_PACKET_TYPE_PUBLISH (msg_props pub)
}.

Lemma pub_message pub topic :
  pub_ok pub -> bytes topic -> msg_total_len pub = 0 \/ msg_total_len pub <= msg_buffer_len pub ->
  message_ok topic (msg_buffer pub) (msg_total_len pub) (msg_props pub).
Proof.
  intros [H1 H2 H3 H4 H5 H6] Ht Hc. eapply props_decoded_message; [done|..|exact H6].
  - destruct Hc as [->|Hc]; [lia|]. destruct (H5 Hc). lia.
  - destruct Hc as [->|Hc]; [|by apply H5]. unfold payload_fits. destruct (msg_buffer pub) as [bs|]; [|done]. apply len_nonneg.
Qed.

(** A step whose value is known to satisfy [P]. *)
Lemma steady_value {A C} (P : A -> Prop) addr (m : B Net A) (f : A -> B Net C) :
  (forall br, broker_ok br -> is_Some (client_at (br_clients br) addr) -> ends m (fun a br' => stays br br' /\ P a) br) ->
  (forall a, P a -> steady addr (f a)) -> steady addr (m ≫= f).
Proof.
  intros Hm Hf br Hok Hat. after Hm. intros a br1 [H1 HP].
  eapply ends_mono; [apply Hf; [done|apply H1|by eapply stays_at]|]. intros c br2. by apply stays_trans.
Qed.

Lemma publish_accepted_steady addr now rc pub duplicate :
  pub_ok pub -> msg_total_len pub = 0 \/ msg_total_len pub <= msg_buffer_len pub ->
  steady (Net := Net) addr (publish_accepted now addr rc pub duplicate).
Proof.
  intros Hp Hc. unfold publish_accepted.
  apply (steady_value (fun r => match r with inr (Some topic) => bytes topic | _ => True end)).
  - intros br Hok Hat. destruct (msg_topic_name pub) as [name|] eqn:En; [|by apply ends_ret; split; [apply stays_refl|]].
    destruct (po_topic _ Hp name En) as [Hb El]. destruct (0 <? _); [|by apply ends_ret; split; [apply stays_refl|]].
    eapply ends_then; [by apply (steady_alloc addr)|cbv beta]. intros ok br1 H1. destruct ok; [|by apply ends_ret].
    apply ends_bind. rewrite El. eapply ends_of_result; [apply slice_ok; pose proof (len_nonneg name); lia|].
    apply ends_ret. split; [done|]. by apply Forall_take, Forall_drop.
  - intros [rc'|topic] Ht; [apply steady_ret|].
    apply steady_bind; [|intros _; apply publish_ack_steady, Hp].
    destruct topic as [topic|]; [|apply steady_ret]. destruct duplicate; [apply steady_ret|].
    pose proof (pub_message pub topic Hp Ht Hc) as Hmsg.
    apply steady_bind; [apply publish_retain_steady; [|apply Hp]|].
    { destruct Hmsg as [H1 H2 H3 _ _]. by constructor. }
    intros _. destruct (match msg_buffer pub with Some _ => true | None => _ end); [|apply steady_ret].
    apply publish_fan_out_steady; [done|apply Hp].
Qed.

Lemma disconnect_with_steady addr now reason : is_byte reason -> steady (Net := Net) addr (disconnect_with now addr reason).
Proof. intros Hr. apply steady_writes. intros bc Hl. by apply BrokerSend_Disconnect_writes. Qed.

Lemma publish_decoded_steady addr now rc pub : pub_ok pub -> steady (Net := Net) addr (publish_decoded now addr rc pub).
Proof.
  intros Hp. apply steady_firm. intros bc Hbc. cbv zeta. assert (Hsteady : forall (m : B Net Z), steady addr m -> firm addr bc m)
    by (intros m Hm br Hok Hat; by apply Hm; [|exists bc]).
  destruct (_ && _); [apply Hsteady, steady_bind; [by apply disconnect_with_steady|intros _; apply steady_ret]|].
  destruct (_ && _); [apply Hsteady, steady_bind; [by apply disconnect_with_steady|intros _; apply steady_ret]|].
  destruct ((0 <? msg_total_len pub) && (msg_buffer_len pub <? msg_total_len pub)) eqn:Et; [apply firm_ret|].
  assert (Hc : msg_total_len pub = 0 \/ msg_total_len pub <= msg_buffer_len pub).
  { pose proof (po_total _ Hp). apply andb_false_iff in Et as [?%Z.ltb_ge|?%Z.ltb_ge]; lia. }
  apply firm_then.
  - destruct (Z.eqb_spec (msg_qos pub) MQTT_QOS_2) as [E|E]; [|apply firm_ret].
    intros br Hok Hat. apply ends_bind, ends_get. pose proof Hbc as [[Hq He [T HT] Hl] Hw].
    destruct (publish_qos2_check_rep (br_mem br) _ T (msg_packet_id pub) HT) as (v & mem' & q' & T' & -> & _ & HT'); [pose proof (po_id _ Hp); lia|].
    apply ends_bind, ends_modify.
    eapply ends_then; [apply (firm_store addr bc (with_qos2 bc q'))|cbv beta].
    + constructor; [|done]. constructor; try done. by exists T'.
    + by apply abides_same; [..|left].
    + by apply broker_ok_set_mem.
    + done.
    + intros _ br' [H1 H2 H3]. apply ends_ret. by constructor.
  - intros [| |add_rc]; [by apply publish_accepted_steady|by apply publish_accepted_steady|].
    apply steady_bind; [|intros _; apply steady_ret].
    destruct (_ <=? _); [|apply steady_ret]. apply disconnect_with_steady. by destruct (_ =? _).
Qed.

Lemma BrokerHandle_Publish_steady now addr rx_len :
  rx_len <= BROKER_RX_BUF_SZ -> steady (Net := Net) addr (BrokerHandle_Publish now addr rx_len).
Proof.
  intros Hn. apply steady_deref. intros bc Hbc.
  apply (steady_decode addr _ (fun '(_, pub) => msg_props pub) (fun '(_, pub) => pub_ok pub)).
  - intros n. eapply meets_mono; [by apply MqttDecode_Publish_meets, client_rx_ok|].
    intros [rc pub] n' [Hf Hc]. split; [|done].
    destruct Hf as (topic & payload & Et & Etl & Htb & _ & Eb & Hs & Ebl & Hpl & Hh & -> & Ht0 & Hq & _ & Hid & Hd & _).
    constructor; try done.
    + intros name. rewrite Et. by intros [= <-].
    + rewrite Eb, Ebl. unfold payload_fits. pose proof (len_nonneg (pub_head pub (msg_total_len pub))). lia.
  - intros rc _. apply steady_ret.
  - intros [rc pub] Hp. apply giving_after; [by apply publish_decoded_steady|].
    intros rc'. apply giving_free, steady_ret.
Qed.
End Handler.

(** ** Properties *)

(** C7: routing of a PUBLISH. In any valid state, with failing allocations and
    writes, the fan-out of a message ends without undefined behaviour. It goes
    to exactly the subscriptions whose filter matches the topic and whose
    client is connected, and to the sessions without a connection that have a
    matching subscription above QoS 0, each at the smaller of its QoS and the
    granted one, in the order of the table; nobody else gets it. A connected
    client's queue has exactly the message appended - drained at once, unless
    it is the publisher's own -, or it is disconnected when the queue is full;
    a session's queue has the message appended with a fresh identifier, without
    its oldest entries when it is full. Retained messages, subscriptions,
    pending Wills and property cells stay as they are. Deliveries are missed
    only when an allocation fails. *)
Theorem publish_fan_out_exact {Net} `{!Sender Net} now publisher topic payload n qos props (br : Broker Net) :
  broker_ok br -> message_ok topic payload n props -> 0 <= qos <= MQTT_QOS_2 ->
  exists br', publish_fan_out now publisher topic payload n qos props br = Ok (tt, br') /\ broker_ok br' /\
    fanned_out (br_mem br <> []) now topic payload n props publisher qos br br' /\
    br_retained br' = br_retained br /\ br_subs br' = br_subs br /\ br_wills br' = br_wills br /\ br_cells br' = br_cells br.
Proof.
  intros Hok Hmsg Hq.
  destruct (publish_fan_out_ok (br_mem br <> []) now topic payload n props Hmsg publisher qos br Hok Hq (fun H => H))
    as ([] & br' & E & Hf & Hok'). exists br'. split; [done|]. split; [done|]. split; [exact Hf|].
  by destruct Hf as (os & ts & cs & mem & next & -> & _).
Qed.

Section Examples.

(** A client subscribes to "a/+" at QoS 1, a session without a connection to
    "#" at QoS 2, another client to "b". *)
Definition ex_routes : Broker ScriptNet :=
  mkBroker [] 30 [ex_member 1 [97] no_will; ex_member 2 [98] no_will] 2
    [mkSub [97; 47; 43] (Some [97]) (Some 1) 1; mkSub [35] (Some [99]) None 2; mkSub [98] (Some [98]) (Some 2) 1] 3
    (mkRt [] 0 0) [] [mkOrphan [99] 5 60 0 BrokerClient_FreeOutQueue BrokerInboundQos2_Clear] 1 1 1.

Lemma ex_routes_ok : broker_ok ex_routes.
Proof.
  assert (Hm : forall addr id, session_ok (ex_member addr id no_will)).
  { intros addr id. destruct (ex_member_ok addr id no_will). by split. }
  constructor.
  - constructor.
    + by_eval.
    + repeat (apply List.Forall_cons; [apply Hm|]). apply List.Forall_nil.
    + constructor; [done|done|by_eval|]. apply List.Forall_cons; [|apply List.Forall_nil].
      constructor; [done|apply empty_queue_ok|eexists; apply qos2_rep_empty].
    + by_eval.
    + intros a Ha. repeat (apply elem_of_cons in Ha as [Ha|Ha]; [first [discriminate|injection Ha as ->; by_eval]|]). by apply elem_of_nil in Ha.
  - repeat (apply List.Forall_cons; [constructor; [apply ex_member_ok|apply no_will_ok]|]). apply List.Forall_nil.
  - apply List.Forall_cons; [constructor|apply List.Forall_nil].
  - repeat (apply List.Forall_cons; [unfold sub_inv; cbn; lia|]). apply List.Forall_nil.
  - by destruct (ex_wills_routes 0 []).
  - apply List.Forall_nil.
  - by_eval.
Qed.
End Examples.

Lemma publish_fan_out_exact_witness :
  exists br', publish_fan_out 7 2 [97; 47; 98] (Some [120]) 1 2 [] ex_routes = Ok (tt, br') /\ broker_ok br' /\
    map (fun bc => map op_qos (out_q (bc_outq bc))) (br_clients br') = [[1]; []] /\
    map (fun o => map op_qos (out_q (o_outq o))) (br_orphans br') = [[2]].
Proof.
  destruct (publish_fan_out_exact 7 2 [97; 47; 98] (Some [120]) 1 2 [] ex_routes) as (br' & E & Hok & _).
  - apply ex_routes_ok.
  - apply ex_message_ok.
  - lia.
  - exists br'. split; [exact E|]. split; [exact Hok|]. vm_compute in E. injection E as <-. by split.
Defined.
