(* ===== verification/BrokerConnect.v ===== *)
(** * BrokerConnect: the handler of CONNECT ([mqtt_broker.c])

    [BrokerHandle_Connect] in the order of its code: the protocol level, the
    client identifier, the session fields, the identifier the server assigns,
    the credentials, the size of the Will; then, on a connection that is not
    refused, the session of an earlier connection, the Will, and the CONNACK. *)
From S2P Require Import Prelude PacketDefs Wire Topic FixedHeader Props Frame ReasonCodes Connect ConnectAck PublishResp Publish PacketIO BrokerDefs BrokerAuth BrokerQos2 OutQueue OutStream OutAlloc BrokerState BrokerSubs BrokerSend BrokerRetained BrokerOrphan BrokerSession BrokerFanout BrokerWill BrokerClose BrokerPackets.

(** ** Operations *)

Definition set_client_id (i : ClientInfo) (id : option (list Z)) : ClientInfo :=
  mkInfo (bc_sock i) id (bc_protocol_level i) (bc_keep_alive_sec i) (bc_last_rx i)
    (bc_clean_session i) (bc_connected i) (bc_sub_count i) (bc_session_expiry_sec i)
    (bc_session_established i) (bc_client_receive_max i).
Definition set_session (i : ClientInfo) (level keep_alive now expiry : Z) : ClientInfo :=
  mkInfo (bc_sock i) (bc_client_id i) level keep_alive now
    (bc_clean_session i) (bc_connected i) (bc_sub_count i) expiry
    (bc_session_established i) (bc_client_receive_max i).
Definition set_receive_max (i : ClientInfo) (n : Z) : ClientInfo :=
  mkInfo (bc_sock i) (bc_client_id i) (bc_protocol_level i) (bc_keep_alive_sec i) (bc_last_rx i)
    (bc_clean_session i) (bc_connected i) (bc_sub_count i) (bc_session_expiry_sec i)
    (bc_session_established i) n.
Definition set_clean (i : ClientInfo) (clean : Z) : ClientInfo :=
  mkInfo (bc_sock i) (bc_client_id i) (bc_protocol_level i) (bc_keep_alive_sec i) (bc_last_rx i)
    clean (bc_connected i) (bc_sub_count i) (bc_session_expiry_sec i)
    (bc_session_established i) (bc_client_receive_max i).
Definition set_established (i : ClientInfo) : ClientInfo :=
  mkInfo (bc_sock i) (bc_client_id i) (bc_protocol_level i) (bc_keep_alive_sec i) (bc_last_rx i)
    (bc_clean_session i) (bc_connected i) (bc_sub_count i) (bc_session_expiry_sec i)
    1 (bc_client_receive_max i).

(** The structures the handler clears before it decodes. *)
Definition new_lwt : MqttMessage := mkMessage 0 0 0 0 0 None 0 0 None 0 0 0 0 0 [] 0.
Definition new_connect : MqttConnect := mkConnect 0 0 None 0 0 (Some new_lwt) None None [] 0.

(** The return code for the client's protocol. *)
Definition code_for (mc : MqttConnect) (v5 v4 : Z) : Z :=
  if MQTT_CONNECT_PROTOCOL_LEVEL_5 <=? mc_protocol_level mc then v5 else v4.

(** ["auto-"], and the digits of an assigned identifier. *)
Definition auto_prefix : list Z := [97; 117; 116; 111; 45].

Definition hex_digit (d : Z) : Z := if d <? 10 then 48 + d else 87 + d.

Fixpoint hex_digits (n : nat) (value : Z) (digits : list Z) : list Z :=
  match n with
  | O => digits
  | S n => hex_digits n (Z.shiftr value 4) (hex_digit (Z.land value 15) :: digits)
  end.

Definition auto_id (value : Z) : list Z := auto_prefix ++ hex_digits 8 value [].

(** The properties [MqttDecode_Connect] has taken cells for. *)
Definition connect_props (mc : MqttConnect) : list MqttProp :=
  mc_props mc ++ match mc_lwt_msg mc with Some lwt => msg_props lwt | None => [] end.

Section Connect.
Context {Net : Type} `{!Sender Net}.
Implicit Types (br : Broker Net) (bc : BrokerClient Net).

Definition on_info (addr : Z) (f : ClientInfo -> ClientInfo) : B Net unit :=
  on_client addr (fun bc => Ok (tt, with_info bc (f (bc_info bc)))).

(** The copy of a string; NULL when the allocation fails. *)
Definition BrokerStore_String (src : list Z) : B Net (option (list Z)) :=
  ok ← alloc; mret (if (ok : bool) then Some (cstr src) else None).

Definition BrokerStore_BinarySensitive (src : list Z) : B Net (option (list Z)) :=
  ok ← alloc; mret (if (ok : bool) then Some src else None).

(** The phases that may refuse the connection: [Some] return code, or [None].
    The two bytes before the identifier in [rx_buf] are its length. *)
Definition accept_id (addr : Z) (mc : MqttConnect) : B Net (option Z) :=
  let id := default [] (mc_client_id mc) in
  let id_len := len id in
  stored ← (if 0 <? id_len then
              id ← BrokerStore_String id;
              _ ← on_info addr (fun i => set_client_id i id);
              mret (BROKER_STR_VALID id)
            else mret true);
  if negb stored then mret (Some (code_for mc MQTT_REASON_SERVER_UNAVAILABLE MQTT_CONNECT_ACK_CODE_REFUSED_UNAVAIL))
  else
    bc ← deref addr;
    let stored_id := default [] (bc_client_id (bc_info bc)) in
    if (5 <=? id_len) && BROKER_STR_VALID (bc_client_id (bc_info bc)) && bool_decide (take 5 stored_id = auto_prefix)
    then mret (Some (code_for mc MQTT_REASON_CLIENT_ID_NOT_VALID MQTT_CONNECT_ACK_CODE_REFUSED_ID))
    else if (id_len =? 0) && (mc_clean_session mc =? 0) && (mc_protocol_level mc <? MQTT_CONNECT_PROTOCOL_LEVEL_5)
    then mret (Some MQTT_CONNECT_ACK_CODE_REFUSED_ID)
    else mret None.

Definition default_expiry (mc : MqttConnect) : Z :=
  if MQTT_CONNECT_PROTOCOL_LEVEL_5 <=? mc_protocol_level mc then 0
  else if mc_clean_session mc =? 0 then NEVER_EXPIRES else 0.

Definition accept_fields (now addr : Z) (mc : MqttConnect) : B Net (option Z) :=
  _ ← on_info addr (fun i => set_session i (mc_protocol_level mc) (mc_keep_alive_sec mc) now (default_expiry mc));
  if MQTT_CONNECT_PROTOCOL_LEVEL_5 <=? mc_protocol_level mc then
    let rm_prop := BrokerProps_Find (mc_props mc) MQTT_PROP_RECEIVE_MAX in
    let se_prop := BrokerProps_Find (mc_props mc) MQTT_PROP_SESSION_EXPIRY_INTERVAL in
    match rm_prop, BrokerProps_Find (mc_props mc) MQTT_PROP_AUTH_METHOD with
    | Some (mkProp _ _ 0 _ _ _ _), _ => mret (Some MQTT_REASON_PROTOCOL_ERR)
    | _, Some _ => mret (Some MQTT_REASON_BAD_AUTH_METHOD)
    | _, None =>
      _ ← on_info addr (fun i =>
        let i := match rm_prop with Some p => set_receive_max i (data_short p) | None => i end in
        match se_prop with Some p => set_expiry i (data_int p) | None => i end);
      mret None
    end
  else mret None.

(** The refusal, and whether an identifier was assigned. *)
Definition accept_auto_id (addr : Z) (mc : MqttConnect) : B Net (option Z * bool) :=
  bc ← deref addr;
  if (len (default [] (mc_client_id mc)) =? 0) && negb (BROKER_STR_VALID (bc_client_id (bc_info bc))) then
    br ← get;
    let id_value := br_next_auto_id br in
    let next := u32 (id_value + 1) in
    _ ← modify (fun br => set_auto_id br (if next =? 0 then 1 else next));
    id ← BrokerStore_String (auto_id id_value);
    _ ← on_info addr (fun i => set_client_id i id);
    if negb (BROKER_STR_VALID id)
    then mret (Some (code_for mc MQTT_REASON_SERVER_UNAVAILABLE MQTT_CONNECT_ACK_CODE_REFUSED_UNAVAIL), false)
    else mret (None, true)
  else mret (None, false).

(** The copies of user name and password are read here only. *)
Definition accept_login (auth_user auth_pass : option (list Z)) (addr : Z) (mc : MqttConnect) : B Net (option Z) :=
  _ ← on_info addr (fun i => set_clean i (mc_clean_session mc));
  username ← (match mc_username mc with Some u => BrokerStore_String u | None => mret None end);
  password ← (match mc_password mc with Some p => BrokerStore_BinarySensitive p | None => mret None end);
  auth_ok ← of_result (auth_check auth_user auth_pass username password (len (default [] password)));
  mret (if (auth_ok : bool) then None
        else Some (code_for mc MQTT_REASON_BAD_USER_OR_PASS MQTT_CONNECT_ACK_CODE_REFUSED_BAD_USER_PWD)).

Definition accept_will_size (mc : MqttConnect) : option Z :=
  match mc_lwt_msg mc with
  | Some lwt =>
    if mc_enable_lwt mc =? 0 then None
    else if BROKER_MAX_WILL_PAYLOAD_LEN <? msg_total_len lwt
    then Some (code_for mc MQTT_REASON_PACKET_TOO_LARGE MQTT_CONNECT_ACK_CODE_REFUSED_UNAVAIL)
    else if (MQTT_CONNECT_PROTOCOL_LEVEL_5 <=? mc_protocol_level mc) && (WOLFMQTT_MAX_QOS <? msg_qos lwt)
    then Some MQTT_REASON_QOS_NOT_SUPPORTED
    else None
  | None => None
  end.

(** The checks that come before any change of a session. *)
Definition accept_checks (auth_user auth_pass : option (list Z)) (now addr : Z) (mc : MqttConnect)
    : B Net (option Z * bool) :=
  refused ← accept_id addr mc;
  match refused with
  | Some code => mret (Some code, false)
  | None =>
    refused ← accept_fields now addr mc;
    match refused with
    | Some code => mret (Some code, false)
    | None =>
      '(refused, auto_assigned) ← accept_auto_id addr mc;
      match refused with
      | Some code => mret (Some code, auto_assigned)
      | None =>
        refused ← accept_login auth_user auth_pass addr mc;
        mret (match refused with Some code => Some code | None => accept_will_size mc end, auto_assigned)
      end
    end
  end.

(** A connected client has the same identifier: its session ends, or goes to
    the new connection. Returns Session Present. *)
Definition accept_takeover (now addr old : Z) (client_id : list Z) (mc : MqttConnect) : B Net bool :=
  bc ← deref old;
  _ ← (if bc_protocol_level (bc_info bc) <? MQTT_CONNECT_PROTOCOL_LEVEL_5 then BrokerClient_PublishWill now old
       else
         _ ← on_client old (fun bc => BrokerSend_Disconnect now bc MQTT_REASON_SESSION_TAKEN_OVER);
         clear_will old);
  bc ← deref old;
  session_present ←
    (if (mc_clean_session mc =? 0) && negb (bc_session_expiry_sec (bc_info bc) =? 0) then
       n ← BrokerSubs_ReassociateClient client_id addr;
       old_bc ← deref old;
       moved ← on_client addr (fun bc =>
         let '(moved, _, q) := BrokerInboundQos2_Takeover (bc_info old_bc) (bc_qos2 old_bc) (bc_qos2 bc) in
         Ok (moved, with_qos2 bc q));
       _ ← on_client old (fun bc => Ok (tt, if (moved : bool) then with_qos2 bc BrokerInboundQos2_Clear else bc));
       mret ((0 <? n) || moved)
     else mret false);
  _ ← BrokerSubs_RemoveClient old;
  _ ← BrokerClient_Remove old;
  mret session_present.

Definition accept_session (now addr rc : Z) (mc : MqttConnect) : B Net bool :=
  _ ← on_info addr set_established;
  bc ← deref addr;
  match bc_client_id (bc_info bc) with
  | Some ((_ :: _) as client_id) =>
    if 0 <? rc then
      _ ← BrokerPendingWill_Cancel client_id;
      old ← BrokerClient_FindByClientId client_id addr;
      session_present ←
        (match old with
         | Some old => accept_takeover now addr (bc_addr old) client_id mc
         | None =>
           if mc_clean_session mc =? 0 then n ← BrokerSubs_ReassociateClient client_id addr; mret (0 <? n)
           else mret false
         end);
      if negb (mc_clean_session mc =? 0) then
        _ ← BrokerSubs_RemoveByClientId client_id;
        _ ← modify (fun br => match BrokerOrphan_Find (br_orphans br) client_id with
                              | Some o => BrokerOrphan_Remove o br
                              | None => br
                              end);
        mret session_present
      else
        reclaimed ← BrokerOrphan_Reclaim addr;
        mret (if (reclaimed : bool) then true else session_present)
    else mret false
  | _ => mret false
  end.

Definition will_delay (lwt : MqttMessage) : Z :=
  match BrokerProps_Find (msg_props lwt) MQTT_PROP_WILL_DELAY_INTERVAL with
  | Some prop => if BROKER_MAX_WILL_DELAY_SEC <? data_int prop then BROKER_MAX_WILL_DELAY_SEC else data_int prop
  | None => 0
  end.

Definition accept_will (addr : Z) (mc : MqttConnect) : B Net unit :=
  _ ← clear_will addr;
  match mc_lwt_msg mc with
  | Some lwt =>
    if mc_enable_lwt mc =? 0 then mret tt
    else
      topic ← (match msg_topic_name lwt with
               | Some name =>
                 if 0 <? msg_topic_name_len lwt then
                   name ← of_result (slice name 0 (msg_topic_name_len lwt)); BrokerStore_String name
                 else mret None
               | None => mret None
               end);
      '(payload, wp_len) ←
        (match msg_buffer lwt with
         | Some buffer =>
           if 0 <? msg_total_len lwt then
             let wp_len := u16 (msg_total_len lwt) in
             ok ← alloc;
             if (ok : bool) then payload ← of_result (slice buffer 0 wp_len); mret (Some payload, wp_len)
             else mret (None, 0)
           else mret (None, 0)
         | None => mret (None, 0)
         end);
      on_client addr (fun bc =>
        Ok (tt, with_will bc (mkWill 1 topic payload wp_len
                  (if WOLFMQTT_MAX_QOS <? msg_qos lwt then WOLFMQTT_MAX_QOS else msg_qos lwt)
                  (msg_retain lwt) (will_delay lwt))))
  | None => mret tt
  end.

Definition byte_prop (type value : Z) : MqttProp := mkProp type value 0 0 no_str no_str no_str.
Definition short_prop (type value : Z) : MqttProp := mkProp type 0 value 0 no_str no_str no_str.
Definition str_prop (type : Z) (s : list Z) : MqttProp :=
  mkProp type 0 0 0 (mkStr (u16 (XSTRLEN s)) (Some s)) no_str no_str.

(** [MqttProps_Add] and the property, unless the pool has no cell. *)
Definition more_prop (p : MqttProp) (ps : list MqttProp) : B Net (list MqttProp) :=
  ok ← add_prop; mret (if (ok : bool) then ps ++ [p] else ps).

(** The return code and the properties of the CONNACK. *)
Definition accept_props (addr : Z) (auto_assigned : bool) : B Net (Z * list MqttProp) :=
  bc ← deref addr;
  if MQTT_CONNECT_PROTOCOL_LEVEL_5 <=? bc_protocol_level (bc_info bc) then
    assigned ←
      (if auto_assigned then
         ok ← add_prop;
         if (ok : bool) then
           match bc_client_id (bc_info bc) with
           | Some id => mret (Some [str_prop MQTT_PROP_ASSIGNED_CLIENT_ID id])
           | None => of_result UB
           end
         else _ ← on_info addr (fun i => set_expiry i 0); mret None
       else mret (Some []));
    match assigned with
    | None => mret (MQTT_REASON_SERVER_UNAVAILABLE, [])
    | Some ps =>
      ps ← more_prop (byte_prop MQTT_PROP_RETAIN_AVAIL 1) ps;
      ps ← more_prop (byte_prop MQTT_PROP_WILDCARD_SUB_AVAIL 1) ps;
      ps ← more_prop (short_prop MQTT_PROP_RECEIVE_MAX BROKER_MAX_INBOUND_QOS2) ps;
      mret (MQTT_CONNECT_ACK_CODE_ACCEPTED, ps)
    end
  else mret (MQTT_CONNECT_ACK_CODE_ACCEPTED, []).

(** The CONNACK is encoded and written: the code of the write, and [ack_len]. *)
Definition send_connack (now : Z) (ack : MqttConnectAck) bc : result ((Z * Z) * BrokerClient Net) :=
  match MqttEncode_ConnectAck (len (lk_tx (bc_link bc))) ack with
  | UB => UB
  | Err rc => Ok ((rc, 0), bc)
  | Ok (ack_len, bs) =>
    if 0 <? ack_len then
      bc ← fill_tx bc bs;
      '(rc, l) ← client_write now (bc_link bc) ack_len;
      Ok ((rc, ack_len), with_link bc l)
    else Ok ((ack_len, 0), bc)
  end.

Definition scrub_rx (rx_len : Z) (l : Link Net) : Link Net :=
  let st := lk_read l in
  mkLink (lk_net l) (lk_write l) (lk_tx l)
    (mkIO (pk_stat st) (pk_header_len st) (pk_remain_len st) (rd_pos st) (rd_total st)
       (BROKER_FORCE_ZERO (io_rx st) rx_len))
    (direct_pending_len l) (connack_pending_len l) (connack_refused l).

(** From [send_connack] to the end; [held] are the properties that are freed. *)
Definition accept_reply (now addr rx_len : Z) (ack : MqttConnectAck) (held : list MqttProp) : B Net Z :=
  let ack := if ca_return_code ack =? MQTT_CONNECT_ACK_CODE_ACCEPTED then ack
             else mkConnectAck 0 (ca_return_code ack) (ca_props ack) (ca_protocol_level ack) in
  '(rc, ack_len) ← on_client addr (send_connack now ack);
  _ ← free_props held;
  if negb (ca_return_code ack =? MQTT_CONNECT_ACK_CODE_ACCEPTED) then
    _ ← (if rc =? MQTT_CODE_CONTINUE then on_link addr (fun l => set_connack l ack_len 1) else mret tt);
    mret 0
  else
    _ ← (if rc =? MQTT_CODE_CONTINUE then on_link addr (fun l => set_connack l ack_len (connack_refused l))
         else mret tt);
    bc ← deref addr;
    _ ← (if 0 <? out_q_count (bc_outq bc) then drain_client now addr else mret tt);
    _ ← on_link addr (scrub_rx rx_len);
    mret rc.

Definition BrokerHandle_Connect (auth_user auth_pass : option (list Z)) (now addr rx_len : Z) : B Net Z :=
  bc ← deref addr;
  r ← decode (MqttDecode_Connect (rx_buf bc) rx_len new_connect);
  match r with
  | inl rc => mret rc
  | inr (rc, mc) =>
    let level := mc_protocol_level mc in
    if negb (level =? MQTT_CONNECT_PROTOCOL_LEVEL_4) && negb (level =? MQTT_CONNECT_PROTOCOL_LEVEL_5)
    then accept_reply now addr rx_len (mkConnectAck 0 MQTT_CONNECT_ACK_CODE_REFUSED_PROTO [] MQTT_CONNECT_PROTOCOL_LEVEL_4)
           (connect_props mc)
    else
      '(refused, auto_assigned) ← accept_checks auth_user auth_pass now addr mc;
      match refused with
      | Some code => accept_reply now addr rx_len (mkConnectAck 0 code [] level) (connect_props mc)
      | None =>
        session_present ← accept_session now addr rc mc;
        _ ← accept_will addr mc;
        _ ← free_props (connect_props mc);
        '(code, props) ← accept_props addr auto_assigned;
        accept_reply now addr rx_len
          (mkConnectAck (if (session_present : bool) then MQTT_CONNECT_ACK_FLAG_SESSION_PRESENT else 0) code props level) props
      end
  end.
End Connect.

(** ** Phases that concern the connecting client only *)

Section Local.
Context {Net : Type} `{!Sender Net}.
Implicit Types (br : Broker Net) (bc : BrokerClient Net).

(** Of [br], one client, the allocator, the counter of assigned identifiers and
    the cells of the pool have changed. *)
Definition changed br bc (mem : heap) (auto : Z) (cells : nat) : Broker Net :=
  set_cells (set_auto_id (set_mem (set_clients br (client_put (br_clients br) bc)) mem) auto) cells.

Definition only (addr : Z) br br' : Prop :=
  exists bc mem auto cells, bc_addr bc = addr /\ br' = changed br bc mem auto cells.

Lemma only_same addr bc br mem auto cells :
  client_at (br_clients br) addr = Some bc -> only addr br (set_cells (set_auto_id (set_mem br mem) auto) cells).
Proof.
  intros Hat. exists bc, mem, auto, cells. split; [by eapply client_at_addr|]. unfold changed.
  rewrite client_put_same; [by destruct br|]. by rewrite (client_at_addr _ _ _ Hat).
Qed.

Lemma only_trans addr br br1 br2 : only addr br br1 -> only addr br1 br2 -> only addr br br2.
Proof.
  intros (bc & mem & auto & cells & Ea & ->) (bc' & mem' & auto' & cells' & Ea' & ->).
  exists bc', mem', auto', cells'. split; [done|]. unfold changed. cbn. by rewrite client_put_put by congruence.
Qed.

Lemma only_addrs addr br br' : only addr br br' -> addrs (br_clients br') = addrs (br_clients br).
Proof. intros (bc & mem & auto & cells & _ & ->). apply addrs_put. Qed.

Lemma only_others addr br br' a : only addr br br' -> a <> addr -> client_at (br_clients br') a = client_at (br_clients br) a.
Proof.
  intros (bc & mem & auto & cells & <- & ->) Hne. cbn. rewrite client_at_put.
  by rewrite (proj2 (Z.eqb_neq a _)) by done.
Qed.

Lemma changed_ok br bc mem auto cells : broker_ok br -> client_inv bc -> broker_ok (changed br bc mem auto cells).
Proof.
  intros Hok Hbc. eapply broker_ok_clients; [exact Hok|apply addrs_put| |done|done|apply Hok|done|apply Hok|done].
  apply Forall_put; [apply Hok|done].
Qed.

Lemma changed_at br bc0 bc mem auto cells addr :
  client_at (br_clients br) addr = Some bc0 -> bc_addr bc = addr ->
  client_at (br_clients (changed br bc mem auto cells)) addr = Some bc.
Proof.
  intros Hat Ea. cbn. rewrite client_at_put, Ea, Z.eqb_refl, bool_decide_eq_true_2; [done|].
  apply client_at_some. by exists bc0.
Qed.

(** [m], run for a client with contents [bc] and with [n] free cells, changes
    nothing else; its value, the new contents and the free cells satisfy [Q]. *)
Definition local {A} (addr : Z) bc (n : nat) (m : B Net A) (Q : A -> BrokerClient Net -> nat -> Prop) : Prop :=
  forall br, broker_ok br -> client_at (br_clients br) addr = Some bc -> br_cells br = n ->
    ends m (fun a br' => broker_ok br' /\ only addr br br' /\
      exists bc', client_at (br_clients br') addr = Some bc' /\ Q a bc' (br_cells br')) br.

Lemma local_mono {A} addr bc n (m : B Net A) (Q Q' : A -> BrokerClient Net -> nat -> Prop) :
  local addr bc n m Q -> (forall a bc' n', Q a bc' n' -> Q' a bc' n') -> local addr bc n m Q'.
Proof.
  intros Hm HQ br Hok Hat Hn. eapply ends_mono; [by apply Hm|]. intros a br' (? & ? & bc' & ? & ?).
  split; [done|]. split; [done|]. exists bc'. auto.
Qed.

Lemma local_same {A} addr bc br mem auto cells (Q : A -> BrokerClient Net -> nat -> Prop) a :
  broker_ok br -> client_at (br_clients br) addr = Some bc -> Q a bc cells ->
  let br' := set_cells (set_auto_id (set_mem br mem) auto) cells in
  broker_ok br' /\ only addr br br' /\ exists bc', client_at (br_clients br') addr = Some bc' /\ Q a bc' (br_cells br').
Proof.
  intros Hok Hat HQ. split; [|split; [by eapply only_same|by exists bc]].
  by eapply broker_ok_clients; [exact Hok|..]; try done; apply Hok.
Qed.

Lemma local_ret {A} addr bc n (a : A) (Q : A -> BrokerClient Net -> nat -> Prop) : Q a bc n -> local addr bc n (mret a) Q.
Proof.
  intros HQ br Hok Hat <-. apply ends_ret.
  pose proof (local_same addr bc br (br_mem br) (br_next_auto_id br) (br_cells br) Q a Hok Hat HQ) as H. by destruct br.
Qed.

Lemma local_bind {A C} addr bc n (m : B Net A) (f : A -> B Net C) Q Q' :
  local addr bc n m Q -> (forall a bc' n', Q a bc' n' -> local addr bc' n' (f a) Q') -> local addr bc n (m ≫= f) Q'.
Proof.
  intros Hm Hf br Hok Hat Hn. eapply ends_then; [by apply Hm|]. intros a br1 (Hok1 & H1 & bc1 & Hat1 & HQ).
  eapply ends_mono; [by apply (Hf _ _ _ HQ)|]. intros c br2 (? & H2 & ?). split; [done|]. split; [by eapply only_trans|done].
Qed.

Lemma local_deref {A} addr bc n (f : BrokerClient Net -> B Net A) Q :
  (client_inv bc -> local addr bc n (f bc) Q) -> local addr bc n (deref addr ≫= f) Q.
Proof.
  intros Hf br Hok Hat Hn. apply ends_bind, (ends_deref addr bc); [done|]. apply Hf; [by eapply broker_ok_at|done..].
Qed.

Lemma local_client {A} addr bc n (f : BrokerClient Net -> result (A * BrokerClient Net)) (Q : A -> BrokerClient Net -> nat -> Prop) :
  (client_inv bc -> exists a bc', f bc = Ok (a, bc') /\ client_inv bc' /\ bc_addr bc' = bc_addr bc /\ Q a bc' n) ->
  local addr bc n (on_client addr f) Q.
Proof.
  intros Hf br Hok Hat Hn. destruct (Hf (broker_ok_at _ _ _ Hok Hat)) as (a & bc' & E & Hi & Ea & HQ).
  pose proof (client_at_addr _ _ _ Hat) as Eb.
  assert (Esame : set_clients br (client_put (br_clients br) bc') =
    changed br bc' (br_mem br) (br_next_auto_id br) (br_cells br)) by by destruct br.
  eapply ends_on_client; [exact Hat|exact E|]. rewrite Esame. split; [by apply changed_ok|]. split.
  - eexists bc', _, _, _. split; [congruence|done].
  - exists bc'. split; [by eapply changed_at; [exact Hat|congruence]|]. by rewrite <- Hn in HQ.
Qed.

Lemma local_alloc addr bc n (Q : bool -> BrokerClient Net -> nat -> Prop) : (forall ok, Q ok bc n) -> local addr bc n alloc Q.
Proof.
  intros HQ br Hok Hat <-. apply ends_alloc. intros ok mem _.
  pose proof (local_same addr bc br mem (br_next_auto_id br) (br_cells br) Q ok Hok Hat (HQ ok)) as H. by destruct br.
Qed.

Lemma local_value {A C} addr bc n (r : result A) a (f : A -> B Net C) Q :
  r = Ok a -> local addr bc n (f a) Q -> local addr bc n (of_result r ≫= f) Q.
Proof. intros E Hf br Hok Hat Hn. apply ends_bind. eapply ends_of_result; [exact E|by apply Hf]. Qed.

Lemma local_free addr bc n ps (Q : unit -> BrokerClient Net -> nat -> Prop) :
  Q tt bc (n + length ps)%nat -> local addr bc n (free_props ps) Q.
Proof.
  intros HQ br Hok Hat <-. apply ends_modify.
  pose proof (local_same addr bc br (br_mem br) (br_next_auto_id br) _ Q tt Hok Hat HQ) as H. by destruct br.
Qed.

Lemma local_add_prop addr bc n (Q : bool -> BrokerClient Net -> nat -> Prop) :
  Q false bc n -> (forall k, n = S k -> Q true bc k) -> local addr bc n add_prop Q.
Proof.
  intros H0 H1 br Hok Hat Hn. unfold ends, add_prop. rewrite Hn. destruct n as [|k].
  - exists false, br. split; [done|]. rewrite <- Hn in H0.
    pose proof (local_same addr bc br (br_mem br) (br_next_auto_id br) (br_cells br) Q false Hok Hat H0) as H. by destruct br.
  - exists true, (set_cells br k). split; [done|].
    pose proof (local_same addr bc br (br_mem br) (br_next_auto_id br) k Q true Hok Hat (H1 k eq_refl)) as H. by destruct br.
Qed.

Lemma local_auto {A} addr bc n (f : B Net A) auto Q :
  local addr bc n f Q -> local addr bc n (_ ← modify (fun br => set_auto_id br auto); f) Q.
Proof.
  intros Hf br Hok Hat Hn. apply ends_bind, ends_modify.
  destruct (local_same (A := unit) addr bc br (br_mem br) auto (br_cells br) (fun _ _ _ => True) tt Hok Hat I)
    as (Hok1 & H1 & _).
  assert (Esame : set_cells (set_auto_id (set_mem br (br_mem br)) auto) (br_cells br) =
    set_auto_id br auto) by by destruct br.
  rewrite Esame in Hok1, H1. eapply ends_mono; [by apply Hf|]. intros a br2 (? & H2 & ?).
  split; [done|]. split; [exact (only_trans _ _ _ _ H1 H2)|done].
Qed.
End Local.

(** ** Decoded packets *)

(** What the handler relies on of the decoded CONNECT. *)
Record connect_read (mc : MqttConnect) : Prop := {
  cr_id : exists id, mc_client_id mc = Some id /\ Forall (fun c => c <> 0) id;
  cr_user u : mc_username mc = Some u -> Forall (fun c => c <> 0) u;
  cr_will : mc_enable_lwt mc <> 0 -> exists lwt name buffer, mc_lwt_msg mc = Some lwt /\
    msg_topic_name lwt = Some name /\ msg_topic_name_len lwt = len name /\ bytes name /\ Forall (fun c => c <> 0) name /\
    msg_buffer lwt = Some buffer /\ msg_total_len lwt = len buffer /\ len buffer <= 65535 /\
    0 <= msg_qos lwt <= MQTT_QOS_2
}.

Lemma connect_read_ok mc : connect_held mc -> connect_norm new_connect mc = mc -> connect_read mc.
Proof.
  intros (Hrep & _ & [_ Hid] & _ & _ & Hw & Hu & _) En. constructor.
  - pose proof (f_equal mc_client_id En) as E. cbn in E. eexists. split; [by symmetry|]. by apply utf8_text_nonzero.
  - intros u Eu. pose proof (f_equal mc_username En) as E. cbn in E. destruct (Hu u Eu) as [_ Ht].
    rewrite Eu in E. cbn in E. injection E as E. rewrite <- E. by apply utf8_text_nonzero.
  - intros He. destruct (Hw He) as (lwt & El & (Hn & Hb & [_ Ht] & _ & _ & Hq & Hl & _) & Hne).
    pose proof (f_equal mc_lwt_msg En) as E. cbn [connect_norm mc_lwt_msg new_connect] in E.
    rewrite (proj2 (Z.eqb_neq _ _) He), El in E. injection E as E.
    destruct Hrep as (_ & _ & _ & Hrep & _). destruct (Hrep He lwt El) as (Hbt & Hq0 & Hl0 & Hbl & _).
    pose proof (f_equal msg_topic_name E) as E1. pose proof (f_equal msg_topic_name_len E) as E2.
    pose proof (f_equal msg_buffer E) as E3. pose proof (f_equal msg_total_len E) as E4. cbn in E1, E2, E3, E4.
    eexists _, _, _. split; [exact El|]. split; [by symmetry|]. split; [by symmetry|].
    split; [by apply cstr_bytes|]. split; [by apply utf8_text_nonzero|]. split; [by symmetry|]. split; [by symmetry|].
    split; [lia|lia].
Qed.

Lemma connect_cells_read mc : connect_norm new_connect mc = mc -> connect_cells mc = length (connect_props mc).
Proof.
  intros En. pose proof (f_equal mc_props En) as Ep. pose proof (f_equal mc_lwt_msg En) as El.
  cbn [connect_norm mc_props mc_lwt_msg new_connect] in Ep, El. unfold connect_cells, connect_props, will_cells.
  rewrite length_app. f_equal.
  - destruct (_ =? _); [done|]. by rewrite <- Ep.
  - destruct (mc_enable_lwt mc =? 0); [by rewrite <- El|]. destruct (mc_lwt_msg mc) as [lwt|]; [|done].
    injection El as El. pose proof (f_equal msg_props El) as Eps. cbn in Eps.
    destruct (_ =? _); [done|]. by rewrite <- Eps.
Qed.

(** A buffer of a fixed header holds no CONNECT. *)
Lemma connect_short rx_buf rx_len n :
  rx_ok rx_buf rx_len -> rx_len <= 5 ->
  exists rc, MqttDecode_Connect rx_buf rx_len new_connect n = (Err rc, n).
Proof.
  intros Hrx Hs. pose proof (MqttDecode_Connect_meets rx_buf rx_len new_connect n Hrx) as H. unfold meets in H.
  destruct (MqttDecode_Connect rx_buf rx_len new_connect n) as [[[rc mc]|rc|] n']; [|destruct H as [_ ->]; by exists rc|done].
  destruct H as (_ & _ & (_ & -> & Hle) & _). unfold connect_wire in Hle. rewrite frame_len_eq in Hle.
  unfold connect_body in Hle. rewrite len_app in Hle. change (len (connect_head _ _ _)) with 10 in Hle.
  match type of Hle with 1 + len ?a + (10 + len ?b) <= _ => pose proof (len_nonneg a); pose proof (len_nonneg b) end. lia.
Qed.

(** ** The checks *)

(** A return code that refuses the connection. *)
Definition refusals (mc : MqttConnect) (r : option Z) : Prop :=
  forall code, r = Some code -> 0 < code < 256 /\ MqttPacket_ConnectAckReturnCodeValid code (mc_protocol_level mc) = true.

Lemma code_for_refuses mc v5 v4 :
  0 < v5 < 256 -> MqttPacket_ConnectAckReturnCodeValid v5 MQTT_CONNECT_PROTOCOL_LEVEL_5 = true ->
  0 < v4 <= MQTT_CONNECT_ACK_CODE_REFUSED_NOT_AUTH -> refusals mc (Some (code_for mc v5 v4)).
Proof.
  intros H5 Hv H4 code [= <-]. unfold code_for, MqttPacket_ConnectAckReturnCodeValid in *.
  destruct (MQTT_CONNECT_PROTOCOL_LEVEL_5 <=? mc_protocol_level mc); [by split|]. split; [lia|]. apply Z.leb_le. lia.
Qed.

Lemma v5_refuses mc code :
  MQTT_CONNECT_PROTOCOL_LEVEL_5 <= mc_protocol_level mc -> 0 < code < 256 ->
  MqttPacket_ConnectAckReturnCodeValid code MQTT_CONNECT_PROTOCOL_LEVEL_5 = true -> refusals mc (Some code).
Proof.
  intros Hl Hc Hv c [= <-]. split; [done|]. unfold MqttPacket_ConnectAckReturnCodeValid in *.
  by rewrite (proj2 (Z.leb_le _ _)).
Qed.

Lemma v4_refuses mc code :
  mc_protocol_level mc < MQTT_CONNECT_PROTOCOL_LEVEL_5 -> 0 < code <= MQTT_CONNECT_ACK_CODE_REFUSED_NOT_AUTH ->
  refusals mc (Some code).
Proof.
  intros Hl Hc c [= <-]. split; [lia|]. unfold MqttPacket_ConnectAckReturnCodeValid.
  rewrite (proj2 (Z.leb_gt _ _)) by done. apply Z.leb_le. lia.
Qed.

Lemma refusals_none mc : refusals mc None.
Proof. by intros code. Qed.

Lemma STR_VALID_cstr s : Forall (fun c => c <> 0) s -> 0 < len s -> BROKER_STR_VALID (Some (cstr s)) = true.
Proof. intros Hs Hl. rewrite cstr_id by done. by destruct s. Qed.

Lemma hex_digit_ok d : 0 <= d < 16 -> is_byte (hex_digit d) /\ hex_digit d <> 0.
Proof. intros Hd. unfold hex_digit, is_byte. destruct (d <? 10); lia. Qed.

Lemma hex_digits_ok n value digits :
  bytes digits -> Forall (fun c => c <> 0) digits ->
  bytes (hex_digits n value digits) /\ Forall (fun c => c <> 0) (hex_digits n value digits) /\
  length (hex_digits n value digits) = (n + length digits)%nat.
Proof.
  revert value digits. induction n as [|n IH]; intros value digits Hb Hn; [done|]. cbn [hex_digits].
  destruct (hex_digit_ok (Z.land value 15)) as [H1 H2].
  { change 15 with (Z.ones 4). rewrite Z.land_ones by done. apply Z.mod_pos_bound. lia. }
  destruct (IH (Z.shiftr value 4) (hex_digit (Z.land value 15) :: digits)) as (? & ? & El); [by constructor..|].
  split; [done|]. split; [done|]. rewrite El. cbn. lia.
Qed.

Lemma auto_id_ok value : bytes (auto_id value) /\ Forall (fun c => c <> 0) (auto_id value) /\ len (auto_id value) = 13.
Proof.
  destruct (hex_digits_ok 8 value []) as (Hb & Hn & El); [constructor..|]. unfold auto_id. split; [|split].
  - apply Forall_app. split; [by repeat constructor|done].
  - apply Forall_app. split; [by repeat constructor|done].
  - unfold len. rewrite length_app, El. done.
Qed.

Section Checks.
Context {Net : Type} `{!Sender Net}.
Implicit Types (br : Broker Net) (bc : BrokerClient Net).

(** What a phase makes of the connecting client's session fields. *)
Definition phase {A} (P : A -> ClientInfo -> Prop) (addr : Z) (m : B Net A) bc : Prop :=
  forall n, local addr bc n m (fun a bc' n' => n' = n /\ exists i, bc' = with_info bc i /\ P a i).

Lemma with_info_same bc : with_info bc (bc_info bc) = bc.
Proof. by destruct bc. Qed.

Lemma phase_ret {A} (P : A -> ClientInfo -> Prop) addr bc a : P a (bc_info bc) -> phase P addr (mret a) bc.
Proof. intros HP n. apply local_ret. split; [done|]. exists (bc_info bc). by rewrite with_info_same. Qed.

Lemma phase_bind {A C} (P : A -> ClientInfo -> Prop) (Q : C -> ClientInfo -> Prop) addr bc (m : B Net A) (f : A -> B Net C) :
  phase P addr m bc -> (forall a i, P a i -> phase Q addr (f a) (with_info bc i)) -> phase Q addr (m ≫= f) bc.
Proof.
  intros Hm Hf n. eapply local_bind; [apply Hm|]. intros a bc' n' (-> & i & -> & HP).
  eapply local_mono; [by apply Hf|]. intros c bc' n' (-> & i' & -> & HQ). split; [done|]. by exists i'.
Qed.

Lemma phase_mono {A} (P P' : A -> ClientInfo -> Prop) addr bc (m : B Net A) :
  phase P addr m bc -> (forall a i, P a i -> P' a i) -> phase P' addr m bc.
Proof.
  intros Hm HP n. eapply local_mono; [apply Hm|]. intros a bc' n' (-> & i & -> & H). split; [done|]. exists i. auto.
Qed.

Lemma phase_alloc addr bc : phase (fun _ i => i = bc_info bc) addr alloc bc.
Proof. intros n. apply local_alloc. intros ok. split; [done|]. exists (bc_info bc). by rewrite with_info_same. Qed.

Lemma client_inv_no_will bc i : has_will (bc_will bc) = 0 -> client_inv bc -> client_inv (with_info bc i).
Proof. intros E [Hc [H1 H2 H3 _]]. constructor; [by apply client_ok_info|]. by constructor. Qed.

Lemma phase_info addr bc f : has_will (bc_will bc) = 0 -> phase (fun _ i => i = f (bc_info bc)) addr (on_info addr f) bc.
Proof.
  intros E n. apply local_client. intros Hi. eexists _, _. split; [done|]. split; [by apply client_inv_no_will|].
  split; [done|]. split; [done|]. by eexists.
Qed.

Lemma phase_store addr bc s :
  phase (fun r i => i = bc_info bc /\ (r = None \/ r = Some (cstr s))) addr (BrokerStore_String s) bc.
Proof.
  eapply phase_bind; [apply phase_alloc|]. cbv beta. intros ok i ->. rewrite with_info_same. apply phase_ret.
  split; [done|]. destruct ok; by (left + right).
Qed.

Lemma phase_deref {A} (P : A -> ClientInfo -> Prop) addr bc (f : BrokerClient Net -> B Net A) :
  phase P addr (f bc) bc -> phase P addr (deref addr ≫= f) bc.
Proof. intros Hf n. apply local_deref. intros _. apply Hf. Qed.

Lemma accept_id_ok addr mc bc :
  has_will (bc_will bc) = 0 -> connect_read mc ->
  phase (fun r i => refusals mc r /\
    (r = None -> BROKER_STR_VALID (bc_client_id i) = true \/ len (default [] (mc_client_id mc)) = 0)) addr (accept_id addr mc) bc.
Proof.
  intros Hw [(id & Eid & Hid) _ _]. unfold accept_id. rewrite Eid. change (default [] (Some id)) with id.
  eapply (phase_bind (fun stored i => stored = true -> BROKER_STR_VALID (bc_client_id i) = true \/ len id = 0)).
  - destruct (Z.ltb_spec 0 (len id)) as [Hl|Hl]; [|apply phase_ret; right; pose proof (len_nonneg id); lia].
    eapply phase_bind; [apply phase_store|]. cbv beta. intros r i [-> Hr]. rewrite with_info_same.
    eapply phase_bind; [by apply phase_info|]. cbv beta. intros _ i ->. apply phase_ret. cbn. intros Hv. by left.
  - intros stored i Hs. destruct stored; cbn [negb]; [|by apply phase_ret; split; [by apply code_for_refuses|]].
    apply phase_deref. cbv zeta. cbn [bc_info with_info].
    destruct (_ && _ && _); [by apply phase_ret; split; [by apply code_for_refuses|]|].
    destruct ((_ =? 0) && _ && _) eqn:E; [apply phase_ret; split; [|done]|].
    { apply andb_true_iff in E as [_ E%Z.ltb_lt]. by apply v4_refuses. }
    apply phase_ret. split; [apply refusals_none|]. intros _. by apply Hs.
Qed.

Lemma accept_fields_ok now addr mc bc :
  has_will (bc_will bc) = 0 ->
  phase (fun r i => refusals mc r /\ identity i = (bc_client_id (bc_info bc), mc_protocol_level mc)) addr (accept_fields now addr mc) bc.
Proof.
  intros Hw. unfold accept_fields. eapply phase_bind; [by apply phase_info|]. cbv beta. intros _ i ->.
  set (bc1 := with_info bc _). destruct (Z.leb_spec MQTT_CONNECT_PROTOCOL_LEVEL_5 (mc_protocol_level mc)) as [Hl|]; [|by apply phase_ret; split; [apply refusals_none|]].
  cbv zeta. set (rm := BrokerProps_Find _ MQTT_PROP_RECEIVE_MAX).
  set (am := BrokerProps_Find _ MQTT_PROP_AUTH_METHOD).
  assert (Hno : forall code, 0 < code < 256 -> MqttPacket_ConnectAckReturnCodeValid code MQTT_CONNECT_PROTOCOL_LEVEL_5 = true ->
    phase (fun r i => refusals mc r /\ identity i = (bc_client_id (bc_info bc), mc_protocol_level mc)) addr (mret (Some code)) bc1).
  { intros code Hc Hv. apply phase_ret. split; [by apply v5_refuses|done]. }
  assert (Hyes : phase (fun r i => refusals mc r /\ identity i = (bc_client_id (bc_info bc), mc_protocol_level mc)) addr
    (_ ← on_info addr (fun i =>
        let i := match rm with Some p => set_receive_max i (data_short p) | None => i end in
        match BrokerProps_Find (mc_props mc) MQTT_PROP_SESSION_EXPIRY_INTERVAL with Some p => set_expiry i (data_int p) | None => i end);
      mret None) bc1).
  { eapply phase_bind; [by apply phase_info|]. cbv beta. intros _ i ->. apply phase_ret. split; [apply refusals_none|].
    by destruct rm, (BrokerProps_Find (mc_props mc) MQTT_PROP_SESSION_EXPIRY_INTERVAL). }
  destruct rm as [[? ? [|d|d] ? ? ? ?]|]; [by apply Hno|..]; (destruct am; [by apply Hno|apply Hyes]).
Qed.

Lemma accept_auto_id_ok addr mc bc :
  has_will (bc_will bc) = 0 ->
  BROKER_STR_VALID (bc_client_id (bc_info bc)) = true \/ len (default [] (mc_client_id mc)) = 0 ->
  phase (fun r i => refusals mc r.1 /\ (r.1 = None -> BROKER_STR_VALID (bc_client_id i) = true) /\
    (r.2 = true -> exists value, bc_client_id i = Some (auto_id value)) /\ bc_protocol_level i = bc_protocol_level (bc_info bc)) addr (accept_auto_id addr mc) bc.
Proof.
  intros Hw Hv. unfold accept_auto_id.
  assert (Htail : forall value, phase (fun r i => refusals mc r.1 /\ (r.1 = None -> BROKER_STR_VALID (bc_client_id i) = true) /\
      (r.2 = true -> exists value, bc_client_id i = Some (auto_id value)) /\ bc_protocol_level i = bc_protocol_level (bc_info bc)) addr
      (id ← BrokerStore_String (auto_id value);
       _ ← on_info addr (fun i => set_client_id i id);
       if negb (BROKER_STR_VALID id)
       then mret (Some (code_for mc MQTT_REASON_SERVER_UNAVAILABLE MQTT_CONNECT_ACK_CODE_REFUSED_UNAVAIL), false)
       else mret (None, true)) bc).
  { intros value. eapply phase_bind; [apply phase_store|]. cbv beta. intros r i [-> Hr]. rewrite with_info_same.
    eapply phase_bind; [by apply phase_info|]. cbv beta. intros _ i ->.
    destruct (BROKER_STR_VALID r) eqn:Er; cbn [negb]; apply phase_ret; cbn [fst snd bc_info with_info bc_client_id set_client_id].
    - split; [apply refusals_none|]. split; [done|]. split; [|done]. intros _. exists value. destruct Hr as [->|Hr]; [done|].
      rewrite cstr_id in Hr by apply auto_id_ok. done.
    - split; [by apply code_for_refuses|done]. }
  apply phase_deref. destruct ((_ =? 0) && negb _) eqn:E.
  - intros n br Hok Hat Hn. apply ends_bind, ends_get.
    exact (local_auto addr bc n _ _ _ (Htail (br_next_auto_id br) n) br Hok Hat Hn).
  - apply phase_ret. cbn [fst snd]. split; [apply refusals_none|]. split; [|done]. intros _.
    destruct Hv as [Hv|Hv]; [done|]. rewrite Hv in E. by apply negb_false_iff in E.
Qed.

Context (auth_user auth_pass : option (list Z)).
Context (Hau : forall a, auth_user = Some a -> Forall (fun c => c <> 0) a).
Context (Hap : forall a, auth_pass = Some a -> Forall (fun c => c <> 0) a).

Lemma accept_login_ok addr mc bc :
  has_will (bc_will bc) = 0 -> connect_read mc ->
  phase (fun r i => refusals mc r /\ identity i = identity (bc_info bc) /\
    (r = None -> authorised auth_user auth_pass (mc_username mc) (mc_password mc))) addr
    (accept_login auth_user auth_pass addr mc) bc.
Proof.
  intros Hw [_ Hu _]. unfold accept_login. eapply phase_bind; [by apply phase_info|]. cbv beta. intros _ i ->.
  set (bc1 := with_info bc _).
  eapply (phase_bind (fun u i => i = bc_info bc1 /\ (u = None \/ u = mc_username mc))).
  { destruct (mc_username mc) as [u|] eqn:Eu; [|by apply phase_ret; split; [|left]].
    eapply phase_mono; [apply phase_store|]. cbv beta. intros r i [-> [->| ->]]; (split; [done|]); [by left|].
    right. by rewrite cstr_id by auto. }
  intros username i [-> Eu]. rewrite with_info_same.
  eapply (phase_bind (fun p i => i = bc_info bc1 /\ (p = None \/ p = mc_password mc))).
  { destruct (mc_password mc) as [p|] eqn:Ep; [|by apply phase_ret; split; [|left]].
    eapply phase_bind; [apply phase_alloc|]. cbv beta. intros ok i ->. rewrite with_info_same. apply phase_ret.
    split; [done|]. destruct ok; by (left + right). }
  intros password i [-> Ep]. rewrite with_info_same.
  destruct (auth_check_spec auth_user auth_pass username password) as (b & Eb & Hb); [done|done| |].
  { intros u E. destruct Eu as [->|Eu]; [done|]. apply Hu. congruence. }
  intros n. eapply local_value; [exact Eb|]. revert n.
  change (phase (fun r i => refusals mc r /\ identity i = identity (bc_info bc) /\
    (r = None -> authorised auth_user auth_pass (mc_username mc) (mc_password mc))) addr
    (mret (if b then None else Some (code_for mc MQTT_REASON_BAD_USER_OR_PASS MQTT_CONNECT_ACK_CODE_REFUSED_BAD_USER_PWD))) bc1).
  apply phase_ret. split; [destruct b; [apply refusals_none|by apply code_for_refuses]|]. split; [done|].
  destruct b; [|done]. intros _. destruct (proj1 Hb eq_refl) as [[H1 H2]|(u & p & H1 & H2 & H3 & H4 & H5)]; [by left|].
  right. exists u, p. destruct Eu as [Eu|Eu]; [congruence|]. destruct Ep as [Ep|Ep]; [congruence|].
  split_and!; try congruence; lia.
Qed.

Lemma accept_will_size_ok mc :
  connect_read mc -> refusals mc (accept_will_size mc) /\
  (accept_will_size mc = None -> mc_enable_lwt mc <> 0 -> forall lwt, mc_lwt_msg mc = Some lwt ->
     msg_total_len lwt <= BROKER_MAX_WILL_PAYLOAD_LEN).
Proof.
  intros Hr. unfold accept_will_size. destruct (mc_lwt_msg mc) as [lwt|]; [|by split; [apply refusals_none|]].
  destruct (Z.eqb_spec (mc_enable_lwt mc) 0); [split; [apply refusals_none|done]|].
  destruct (Z.ltb_spec BROKER_MAX_WILL_PAYLOAD_LEN (msg_total_len lwt)); [split; [by apply code_for_refuses|]|].
  { unfold code_for. by destruct (_ <=? _). }
  destruct ((_ <=? _) && _) eqn:E; [split; [|done]|].
  { apply andb_true_iff in E as [E%Z.leb_le _]. by apply v5_refuses. }
  split; [apply refusals_none|]. by intros _ _ lwt' [= <-].
Qed.

(** The checks together: without a refusal the client is authorised and has an
    identifier. *)
Lemma accept_checks_ok now addr mc bc :
  has_will (bc_will bc) = 0 -> connect_read mc ->
  phase (fun r i => refusals mc r.1 /\ (r.1 = None -> BROKER_STR_VALID (bc_client_id i) = true /\
      authorised auth_user auth_pass (mc_username mc) (mc_password mc) /\ accept_will_size mc = None /\
      (r.2 = true -> exists value, bc_client_id i = Some (auto_id value)) /\ bc_protocol_level i = mc_protocol_level mc)) addr
    (accept_checks auth_user auth_pass now addr mc) bc.
Proof.
  intros Hw Hr. unfold accept_checks.
  eapply phase_bind; [by apply accept_id_ok|]. cbv beta. intros [code|] i [Hc Hv]; [by apply phase_ret|].
  eapply phase_bind; [by apply accept_fields_ok|]. cbv beta. intros [code|] i1 [Hc1 E1]; [by apply phase_ret|].
  injection E1 as E1 E1l. cbn in E1, E1l. eapply phase_bind; [apply accept_auto_id_ok; [done|cbn; rewrite E1; by apply Hv]|]. cbv beta.
  intros [[code|] auto] i2 (Hc2 & Hv2 & Ha2 & E2l); [by apply phase_ret|]. cbn [fst snd] in *.
  eapply phase_bind; [by apply accept_login_ok|]. cbv beta. intros [code|] i3 (Hc3 & E3 & H3); [by apply phase_ret|].
  apply phase_ret. cbn [fst snd bc_info with_info] in *. destruct (accept_will_size_ok mc Hr) as [Hs _].
  split; [done|]. injection E3 as E3 E3l. intros E. rewrite E3. split; [by apply Hv2|]. split; [by apply H3|]. split; [done|]. split; [done|congruence].
Qed.
End Checks.

(** ** The CONNACK *)

(** A CONNACK that is always written. *)
Definition connack_fits (ack : MqttConnectAck) : Prop :=
  connack_rep ack /\ connack_ok ack /\ room BROKER_TX_BUF_SZ (connack_body ack).

Lemma small_room body : len body <= 100 -> room BROKER_TX_BUF_SZ body.
Proof.
  intros Hl. pose proof (len_nonneg body). split; [lia|]. split; [done|]. rewrite frame_len_eq.
  pose proof (vbi_len 4 (len body) ltac:(lia)). lia.
Qed.

(** The properties the handler may add, if an identifier [id] was assigned. *)
Definition answer_props (id : list Z) : list MqttProp :=
  [str_prop MQTT_PROP_ASSIGNED_CLIENT_ID id; byte_prop MQTT_PROP_RETAIN_AVAIL 1;
   byte_prop MQTT_PROP_WILDCARD_SUB_AVAIL 1; short_prop MQTT_PROP_RECEIVE_MAX BROKER_MAX_INBOUND_QOS2].

Lemma ascii_text s : Forall (fun c => 1 <= c < 128) s -> utf8_text s.
Proof. induction 1 as [|c s Hc _ IH]; [constructor|]. by apply text_1. Qed.

Lemma hex_digit_ascii d : 0 <= d < 16 -> 1 <= hex_digit d < 128.
Proof. intros Hd. unfold hex_digit. destruct (Z.ltb_spec d 10); lia. Qed.

Lemma hex_digits_ascii n value digits :
  Forall (fun c => 1 <= c < 128) digits -> Forall (fun c => 1 <= c < 128) (hex_digits n value digits).
Proof.
  revert value digits. induction n as [|n IH]; intros value digits Hd; [done|]. cbn [hex_digits]. apply IH.
  constructor; [|done]. apply hex_digit_ascii. change 15 with (Z.ones 4). rewrite Z.land_ones by done. apply Z.mod_pos_bound. lia.
Qed.

Lemma auto_id_text value : utf8_text (auto_id value).
Proof. apply ascii_text, Forall_app. split; [by repeat constructor|]. apply hex_digits_ascii. constructor. Qed.

Lemma answer_props_ok value ps :
  ps `sublist_of` answer_props (auto_id value) ->
  Forall prop_rep ps /\ props_ok MQTT_PACKET_TYPE_CONNECT_ACK ps /\ len (props_wire ps) <= 50.
Proof.
  destruct (auto_id_ok value) as (Hb & Hn & Hl). intros Hs.
  assert (Ef : field (data_str (str_prop MQTT_PROP_ASSIGNED_CLIENT_ID (auto_id value))) = auto_id value).
  { apply field_some. rewrite XSTRLEN_nonzero, Hl by done. done. }
  assert (Hfull : Forall prop_rep (answer_props (auto_id value)) /\
    Forall (prop_ok MQTT_PACKET_TYPE_CONNECT_ACK) (answer_props (auto_id value)) /\ len (props_wire (answer_props (auto_id value))) = 23).
  { split; [|split].
    - pose proof no_str_rep as Hno. repeat apply List.Forall_cons; [..|apply List.Forall_nil]; (split_and!; try done).
      cbn [data_str str_prop]. apply str_rep_some; rewrite ?XSTRLEN_nonzero, ?Hl by done; done.
    - repeat apply List.Forall_cons; [..|apply List.Forall_nil]; (split; [done|]); try done.
      cbn [value_ok prop_data prop_type str_prop]. split; [rewrite Ef; apply auto_id_text|by intros [=]].
    - assert (Ew : prop_wire (str_prop MQTT_PROP_ASSIGNED_CLIENT_ID (auto_id value)) =
        MQTT_PROP_ASSIGNED_CLIENT_ID :: counted (auto_id value)) by (rewrite <- Ef at 2; done).
      unfold props_wire, answer_props. cbn [map concat]. rewrite Ew, !len_app, len_cons. unfold counted.
      rewrite len_app, Hl. done. }
  destruct Hfull as (H1 & H2 & H3). split; [by eapply Forall_sublist|]. split.
  - split; [|split; [by eapply Forall_sublist|]].
    + apply sublist_length in Hs. unfold len. cbn in Hs. lia.
    + unfold singles. apply (fmap_sublist prop_type) in Hs. eapply sublist_NoDup; [|apply sublist_filter].
      eapply sublist_NoDup; [|exact Hs]. by apply (bool_decide_unpack _).
  - assert (Hle : forall l l' : list MqttProp, l `sublist_of` l' -> len (props_wire l) <= len (props_wire l')).
    { induction 1 as [|p l l' _ IH|p l l' _ IH]; [done|..]; unfold props_wire in *; cbn [map concat]; rewrite !len_app;
        pose proof (len_nonneg (prop_wire p)); lia. }
    specialize (Hle _ _ Hs). lia.
Qed.

Lemma empty_props_ok packet : props_ok packet [].
Proof. split; [done|]. split; [constructor|constructor]. Qed.

Lemma refusal_fits mc code : refusals mc (Some code) -> connack_fits (mkConnectAck 0 code [] (mc_protocol_level mc)).
Proof.
  intros Hr. destruct (Hr code eq_refl) as [Hc Hv]. split; [|split].
  - split; [done|]. split; [unfold is_byte; cbn; lia|constructor].
  - split; [by left|]. split; [done|]. intros _. apply empty_props_ok.
  - apply small_room. unfold connack_body. cbn [ca_flags ca_return_code ca_props ca_protocol_level]. rewrite len_app.
    by destruct (_ <=? _).
Qed.

Lemma accepted_fits flags value ps level :
  flags = 0 \/ flags = 1 -> ps `sublist_of` answer_props (auto_id value) -> connack_fits (mkConnectAck flags 0 ps level).
Proof.
  intros Hf Hs. destruct (answer_props_ok value ps Hs) as (Hrep & Hok & Hl). split; [|split].
  - split; [unfold is_byte; cbn; lia|]. by split.
  - split; [destruct Hf as [->| ->]; [by left|by right]|]. split; [|done]. cbn [ca_return_code ca_protocol_level].
    unfold MqttPacket_ConnectAckReturnCodeValid. by destruct (_ <=? _).
  - apply small_room. unfold connack_body. cbn [ca_flags ca_return_code ca_props ca_protocol_level]. rewrite len_app.
    change (len [flags; 0]) with 2. destruct (_ <=? _); [|by cbn]. unfold props_block. rewrite len_app.
    pose proof (vbi_len 4 (len (props_wire ps)) ltac:(lia)). lia.
Qed.

Section Reply.
Context {Net : Type} `{!Sender Net}.
Implicit Types (br : Broker Net) (bc : BrokerClient Net).

(** A refusal that is being written is pending. *)
Definition refusal_pending bc : Prop := connack_refused (bc_link bc) <> 0 -> connack_pending_len (bc_link bc) <> 0.

Lemma more_prop_ok addr bc n p ps :
  local addr bc n (more_prop p ps) (fun ps' bc' n' => bc' = bc /\ (n + length ps = n' + length ps')%nat /\ (ps' = ps \/ ps' = ps ++ [p])).
Proof.
  eapply (local_bind _ _ _ _ _ (fun ok bc' n' => bc' = bc /\ n = (n' + if ok : bool then 1 else 0)%nat)).
  - apply local_add_prop; [split; [done|lia]|]. intros k ->. split; [done|lia].
  - intros ok bc' n' [-> ->]. apply local_ret. split; [done|]. destruct ok; [|by split; [lia|left]].
    split; [rewrite length_app; cbn; lia|by right].
Qed.

Lemma accept_props_ok addr auto bc n :
  (auto = true -> exists value, bc_client_id (bc_info bc) = Some (auto_id value)) ->
  local addr bc n (accept_props addr auto) (fun '(code, ps) bc' n' => n = (n' + length ps)%nat /\ bc_link bc' = bc_link bc /\
    ((code = MQTT_CONNECT_ACK_CODE_ACCEPTED /\ exists value, ps `sublist_of` answer_props (auto_id value)) \/
     (code = MQTT_REASON_SERVER_UNAVAILABLE /\ ps = [] /\ MQTT_CONNECT_PROTOCOL_LEVEL_5 <= bc_protocol_level (bc_info bc)))).
Proof.
  intros Ha. unfold accept_props. apply local_deref. intros Hi.
  destruct (Z.leb_spec MQTT_CONNECT_PROTOCOL_LEVEL_5 (bc_protocol_level (bc_info bc))) as [Hl|Hl].
  2: { apply local_ret. split; [cbn; lia|]. split; [done|]. left. split; [done|]. exists 0. apply sublist_nil_l. }
  eapply (local_bind _ _ _ _ _ (fun a bc' n' => bc_link bc' = bc_link bc /\ n = (n' + length (default [] a))%nat /\
    match a with Some ps => exists value, ps `sublist_of` [str_prop MQTT_PROP_ASSIGNED_CLIENT_ID (auto_id value)] | None => True end)).
  - destruct auto.
    2: { apply local_ret. split; [done|]. split; [cbn; lia|]. exists 0. apply sublist_nil_l. }
    destruct (Ha eq_refl) as [value Ev].
    eapply (local_bind _ _ _ _ _ (fun ok bc' n' => bc' = bc /\ n = (n' + if ok : bool then 1 else 0)%nat)).
    + apply local_add_prop; [split; [done|lia]|]. intros k ->. split; [done|lia].
    + intros ok bc' n' [-> ->]. destruct ok.
      * rewrite Ev. apply local_ret. split; [done|]. split; [done|]. by exists value.
      * eapply (local_bind _ _ _ _ _ (fun _ bc' k => bc_link bc' = bc_link bc /\ k = n')).
        { apply local_client. intros _. eexists _, _. split; [done|]. split; [by apply client_inv_info|done]. }
        intros _ bc' k [E ->]. apply local_ret. split; [done|]. split; [cbn; lia|done].
  - intros [ps|] bc' n1 (El & -> & Hp); [|apply local_ret; split; [cbn; lia|]; split; [done|by right]].
    destruct Hp as [value Hp]. cbn [default from_option] in *.
    eapply local_bind; [apply more_prop_ok|]. cbv beta. intros ps2 bc2 n2 (-> & E2 & H2).
    eapply local_bind; [apply more_prop_ok|]. cbv beta. intros ps3 bc3 n3 (-> & E3 & H3).
    eapply local_bind; [apply more_prop_ok|]. cbv beta. intros ps4 bc4 n4 (-> & E4 & H4).
    apply local_ret. unfold id. split; [lia|]. split; [done|]. left. split; [done|]. exists value.
    assert (Hs : forall (l l' : list MqttProp) a p, l `sublist_of` l' -> a = l \/ a = l ++ [p] -> a `sublist_of` l' ++ [p]).
    { intros l l' a p Hl' [->| ->]; [by apply sublist_inserts_r|by apply sublist_app]. }
    change (answer_props (auto_id value)) with ((([str_prop MQTT_PROP_ASSIGNED_CLIENT_ID (auto_id value)] ++
      [byte_prop MQTT_PROP_RETAIN_AVAIL 1]) ++ [byte_prop MQTT_PROP_WILDCARD_SUB_AVAIL 1]) ++
      [short_prop MQTT_PROP_RECEIVE_MAX BROKER_MAX_INBOUND_QOS2]).
    eapply Hs; [|exact H4]. eapply Hs; [|exact H3]. by eapply Hs; [|exact H2].
Qed.

(** The CONNACK goes to the connection, all of it or a part. *)
Lemma send_connack_ok now ack bc :
  client_inv bc -> connack_fits ack ->
  exists rc n bc', send_connack now ack bc = Ok ((rc, n), bc') /\ client_inv bc' /\ same_client bc bc' /\ 0 < n <= BROKER_TX_BUF_SZ.
Proof.
  intros Hi (Hrep & Hok & Hroom). pose proof (co_link _ (ci_client _ Hi)) as Hl. unfold send_connack. rewrite (lo_tx _ Hl).
  destruct (MqttEncode_ConnectAck_answers BROKER_TX_BUF_SZ ack Hrep) as [[_ ->]|[[] _]]; [|by split].
  assert (Hw : 0 < len (connack_wire ack) <= BROKER_TX_BUF_SZ).
  { destruct Hroom as (_ & _ & Hr). unfold connack_wire. rewrite frame_len. split; [|done].
    rewrite frame_len_eq. pose proof (len_nonneg (connack_body ack)). pose proof (vbi_len 4 (len (connack_body ack)) ltac:(lia)). lia. }
  rewrite (proj2 (Z.ltb_lt _ _)) by lia.
  destruct (fill_tx_total bc (connack_wire ack) Hl) as (tx & -> & Hl1); [lia|]. cbn [mbind result_bind bc_link with_link].
  destruct (client_write_total now _ (len (connack_wire ack)) Hl1) as (rc & l & -> & Hl2 & (_ & E1 & E2) & _); [lia|].
  cbn [mbind result_bind]. eexists _, _, _. split; [done|].
  assert (Hs : same_client bc (with_link (with_link bc (set_tx (bc_link bc) tx)) l)).
  { split_and!; try done. unfold connack_of. cbn in *. congruence. }
  split; [|done]. eapply client_inv_same; [|exact Hs|done]. destruct Hi as [[Hq He HT _] _]. by constructor.
Qed.

Lemma link_ok_scrub (l : Link Net) n : link_ok l -> 0 <= n <= BROKER_RX_BUF_SZ -> link_ok (scrub_rx n l).
Proof.
  intros [Hp Ht Hr Hd Hc] Hn. constructor; try done. destruct Hr as [H1 H2 H3 H4 H5]. constructor; try done; cbn [lk_read scrub_rx io_rx].
  - rewrite BROKER_FORCE_ZERO_len; [done|lia].
  - unfold BROKER_FORCE_ZERO. apply Forall_app. split; [|by apply Forall_drop]. apply zeros_ok.
Qed.

Definition answered (ack : MqttConnectAck) : MqttConnectAck :=
  if ca_return_code ack =? MQTT_CONNECT_ACK_CODE_ACCEPTED then ack
  else mkConnectAck 0 (ca_return_code ack) (ca_props ack) (ca_protocol_level ack).

Lemma answered_code ack : ca_return_code (answered ack) = ca_return_code ack.
Proof. unfold answered. by destruct (_ =? _). Qed.

(** What is pending afterwards is a refusal. *)
Definition only_refusal bc bc' : Prop :=
  connack_pending_len (bc_link bc) = 0 -> connack_pending_len (bc_link bc') <> 0 -> connack_refused (bc_link bc') <> 0.

Lemma accept_reply_ok addr bc n now rx_len ack held :
  connack_fits (answered ack) -> refusal_pending bc -> 0 <= rx_len <= BROKER_RX_BUF_SZ ->
  local addr bc n (accept_reply now addr rx_len ack held) (fun rc bc' n' =>
    n' = (n + length held)%nat /\ refusal_pending bc' /\ (ca_return_code ack <> MQTT_CONNECT_ACK_CODE_ACCEPTED -> rc = 0 /\ only_refusal bc bc')).
Proof.
  intros Hf Hp Hn. unfold accept_reply. fold (answered ack). cbv zeta.
  eapply (local_bind _ _ _ _ _ (fun '(_, ack_len) bc' n' => n' = n /\ connack_of bc' = connack_of bc /\ 0 < ack_len <= BROKER_TX_BUF_SZ)).
  { apply local_client. intros Hi. destruct (send_connack_ok now (answered ack) bc Hi Hf) as (rc & k & bc' & E & Hi' & Hs & Hk).
    eexists _, _. split; [exact E|]. split; [done|]. pose proof Hs as (Ea & _ & _ & _ & Ec). split; [done|]. done. }
  intros [rc ack_len] bc1 n1 (-> & E1 & Hk). assert (Hp1 : refusal_pending bc1)
    by (unfold refusal_pending, connack_of in *; by injection E1 as -> ->).
  eapply (local_bind _ _ _ _ _ (fun _ bc' n' => bc' = bc1 /\ n' = (n + length held)%nat)); [by apply local_free|].
  intros _ bc2 n2 [-> ->]. rewrite answered_code.
  assert (Hset : forall r : Link Net -> Z, local addr bc1 (n + length held) (on_link addr (fun l => set_connack l ack_len (r l)))
    (fun _ bc' n' => n' = (n + length held)%nat /\ refusal_pending bc')).
  { intros r. apply local_client. intros [[Hq He HT Hl] Hw]. eexists _, _. split; [done|]. split; [|split; [done|]].
    - constructor; [|done]. constructor; try done. apply link_ok_connack; [done|lia].
    - split; [done|]. unfold refusal_pending. cbn. lia. }
  assert (Hno : local addr bc1 (n + length held) (mret tt) (fun _ bc' n' => n' = (n + length held)%nat /\ refusal_pending bc'))
    by by apply local_ret.
  destruct (Z.eqb_spec (ca_return_code ack) MQTT_CONNECT_ACK_CODE_ACCEPTED) as [E0|E0]; cbn [negb].
  2: { eapply (local_bind _ _ _ _ _ (fun _ bc' n' => n' = (n + length held)%nat /\ refusal_pending bc' /\ only_refusal bc bc')).
       - destruct (_ =? _).
         + apply local_client. intros [[Hq He HT Hl] Hw]. eexists _, _. split; [done|].
           split; [|split; [done|]; split; [done|]; split; unfold refusal_pending, only_refusal; cbn; lia].
           constructor; [|done]. constructor; try done. apply link_ok_connack; [done|lia].
         + apply local_ret. split; [done|]. split; [done|]. intros Ep Hne. unfold connack_of in E1. congruence.
       - intros _ bc2 n2 (-> & H2 & H3). by apply local_ret. }
  eapply (local_bind _ _ _ _ _ (fun _ bc' n' => n' = (n + length held)%nat /\ refusal_pending bc')).
  { destruct (_ =? _); [apply (Hset connack_refused)|done]. }
  intros _ bc2 n2 [-> H2]. apply local_deref. intros Hi2.
  eapply (local_bind _ _ _ _ _ (fun _ bc' n' => n' = (n + length held)%nat /\ refusal_pending bc')).
  { destruct (0 <? _); [|by apply local_ret]. apply local_client. intros Hi.
    destruct (BrokerClient_DrainOutQueue_total now bc2 (ci_client _ Hi)) as (drc & bc3 & E & Hc3 & Hs3).
    eexists _, _. split; [by rewrite E|]. split; [by eapply client_inv_same|]. pose proof Hs3 as (Ea & _ & _ & _ & Ec).
    split; [done|]. split; [done|]. unfold refusal_pending, connack_of in *. by injection Ec as -> ->. }
  intros _ bc3 n3 [-> H3].
  eapply (local_bind _ _ _ _ _ (fun _ bc' n' => n' = (n + length held)%nat /\ refusal_pending bc')).
  { apply local_client. intros [[Hq He HT Hl] Hw]. eexists _, _. split; [done|]. split; [|done].
    constructor; [|done]. constructor; try done. by apply link_ok_scrub. }
  intros _ bc4 n4 [-> H4]. by apply local_ret.
Qed.
End Reply.
