(* ===== verification/BrokerAccept.v ===== *)
(** * BrokerAccept: the session of a new connection ([mqtt_broker.c])

    What the handler of CONNECT does to the broker: an earlier connection of the
    same client is taken over, its session goes to the new connection or ends,
    the Will is stored and the CONNACK is written. The broker stays valid, and
    a CONNECT without the right credentials changes nothing of it. *)
From S2P Require Import Prelude PacketDefs Wire Topic FixedHeader Props Frame ReasonCodes Connect ConnectAck PublishResp Publish PacketIO BrokerDefs BrokerAuth BrokerQos2 OutQueue OutStream OutAlloc BrokerState BrokerSubs BrokerSend BrokerRetained BrokerOrphan BrokerSession BrokerFanout BrokerWill BrokerClose BrokerPackets BrokerPublish BrokerConnect.

(** ** The operations on sessions *)

Section Sessions.
Context {Net : Type} `{!Sender Net}.
Implicit Types (br : Broker Net) (bc : BrokerClient Net).

(** A subscription of an identifier refers to a linked client or to none. *)
Lemma subs_remove_id_spec (cs : list (BrokerClient Net)) id subs gen :
  (forall a, Some a ∈ map sub_client subs -> a ∈ addrs cs) ->
  exists subs' gen', subs_remove_id cs id subs gen = Ok (subs', gen') /\ subs' `sublist_of` subs.
Proof.
  revert gen. induction subs as [|s subs IH]; intros gen Hl; cbn [subs_remove_id]; [by exists [], gen|].
  assert (Hb : exists b, sub_belongs cs id s = Ok b).
  { unfold sub_belongs. destruct (sub_client s) as [a|] eqn:E; [|by eexists].
    destruct (proj1 (client_at_some cs a)) as [c ->]; [apply Hl; cbn; rewrite E; by left|by eexists]. }
  destruct Hb as [b ->]. cbn [mbind result_bind]. pose proof (fun a H => Hl a (list_elem_of_further _ _ _ H)) as Hl'. destruct b.
  - destruct (IH (u32 (gen + 1)) Hl') as (subs' & gen' & -> & Hs). eexists _, _. split; [done|by apply sublist_cons].
  - destruct (IH gen Hl') as (subs' & gen' & -> & Hs). eexists _, _. split; [done|by apply sublist_skip].
Qed.

Lemma RemoveByClientId_idle addr id : idle (Net := Net) addr (BrokerSubs_RemoveByClientId id).
Proof.
  intros br Hok Hat. unfold BrokerSubs_RemoveByClientId. destruct id as [|c id]; [by apply ends_ret|].
  apply ends_bind, ends_get. pose proof Hok as [[Ha Hc Ho Hn Hlk] ? ? Hs ? ? ?].
  destruct (subs_remove_id_spec (br_clients br) (c :: id) (br_subs br) (br_subs_gen br) Hlk) as (subs & gen & E & Hsub).
  apply ends_bind. eapply ends_of_result; [exact E|]. apply ends_modify. split; [|done].
  constructor; try done; [constructor; try done|by eapply Forall_sublist]. intros a. cbn. intros Hin. apply Hlk. by eapply clients_sublist.
Qed.

Lemma ReassociateClient_steady addr id : steady (Net := Net) addr (BrokerSubs_ReassociateClient id addr).
Proof.
  intros br Hok [bc Hat]. destruct id as [|c id]; [by apply ends_ret, stays_refl|].
  eapply ends_mono; [by apply (BrokerSubs_ReassociateClient_ok (c :: id) addr bc); [apply Hok|..]|].
  intros n br' (Hs & _ & ->). pose proof (broker_ok_at _ _ _ Hok Hat) as Hi.
  assert (Hi' : client_inv (more_subs bc n)) by by apply client_inv_info.
  assert (Hc : Forall client_inv (if 0 <? n then client_put (br_clients br) (more_subs bc n) else br_clients br)).
  { destruct (0 <? n); [apply Forall_put; [apply Hok|done]|apply Hok]. }
  assert (Hok' := fun H => broker_ok_step br _ Hok Hs Hc (bk_entries _ Hok) H eq_refl eq_refl). cbn in Hok'.
  assert (Hsub : Forall sub_inv (map (reassociate (br_clients br) (c :: id) addr) (br_subs br))).
  { apply Forall_map. eapply List.Forall_impl; [|apply Hok]. intros s Hq. unfold reassociate, compose. by destruct (belongs _ _ s). }
  specialize (Hok' Hsub). destruct (0 <? n).
  - apply (stays_put _ _ _ bc (more_subs bc n)); [done|by rewrite (client_at_addr _ _ _ Hat)|by apply abides_info|done|done].
  - by apply stays_same.
Qed.

Lemma reclaim_entry_rep e : entry_rep e -> entry_rep (reclaim_entry e).
Proof. intros He. unfold reclaim_entry. destruct (op_state e); [done|by apply (entry_rep_dup (set_op_state e BROKER_OUTQ_QUEUED))|by apply entry_rep_dup]. Qed.

Lemma reclaim_session_abides bc o : abides none_loose bc (reclaim_session bc o).
Proof. apply abides_same; unfold reclaim_session; cbn; try destruct (_ =? _); try done; by left. Qed.

Lemma Reclaim_steady addr : steady (Net := Net) addr (BrokerOrphan_Reclaim addr).
Proof.
  intros br Hok [bc Hat]. destruct (bc_client_id (bc_info bc)) as [[|c id]|] eqn:Eid.
  1,3: unfold BrokerOrphan_Reclaim; apply ends_bind, (ends_deref addr bc); [done|]; rewrite Eid; by apply ends_ret, stays_refl.
  eapply ends_mono; [by apply (BrokerOrphan_Reclaim_ok addr bc (c :: id)); [apply Hok|..]|].
  intros [|] br' (Hs & Hf & Ht); [|destruct (Hf eq_refl) as [-> _]; by apply stays_refl].
  destruct (Ht eq_refl) as (o & Ho & Eo & ->). pose proof (broker_ok_at _ _ _ Hok Hat) as [Hc Hw].
  apply (stays_put _ _ _ bc (reclaim_session bc o)); [|by rewrite (client_at_addr _ _ _ Hat)|apply reclaim_session_abides|done|done].
  apply (broker_ok_step br); try done; [|eapply Forall_sublist; [apply sublist_filter|apply Hok]|apply Hok].
  apply Forall_put; [apply Hok|]. constructor.
  - pose proof (proj1 (List.Forall_forall _ _) (bk_entries _ Hok) o ltac:(by apply list_elem_of_In)) as He.
    pose proof (proj1 (List.Forall_forall _ _) (or_each _ _ (ss_orphans _ (bk_sessions _ Hok))) o ltac:(by apply list_elem_of_In)) as Hoo.
    destruct (reclaim_session_ok bc o Hoo) as [Hq HT]. constructor; [done| |done|apply Hc].
    cbn. apply Forall_map. eapply List.Forall_impl; [|exact He]. intros e. apply reclaim_entry_rep.
  - cbn. destruct (_ =? _); done.
Qed.

Lemma Cancel_idle addr id : idle (Net := Net) addr (BrokerPendingWill_Cancel id).
Proof.
  intros br Hok Hat. apply ends_modify. split; [|done].
  assert (Hs : will_cancel id (br_wills br) `sublist_of` br_wills br).
  { induction (br_wills br) as [|pw ws IH]; [done|]. cbn. destruct (bool_decide _); [by apply sublist_cons|by apply sublist_skip]. }
  destruct Hok as [[] ? ? ? ? ? ?]. constructor; try done; [by eapply Forall_sublist|].
  cbn. pose proof (sublist_length _ _ Hs). unfold len in *. lia.
Qed.

Lemma discard_idle addr id :
  idle (Net := Net) addr (modify (fun br => match BrokerOrphan_Find (br_orphans br) id with
                              | Some o => BrokerOrphan_Remove o br
                              | None => br
                              end)).
Proof.
  intros br Hok Hat. apply ends_modify. destruct (remove_existing br id (ss_orphans _ (bk_sessions _ Hok))) as [-> Ho].
  split; [|done]. pose proof Hok as [[Ha Hc _ Hn Hlk] ? He ? ? ? ?]. constructor; try done.
  eapply Forall_sublist; [apply sublist_filter|done].
Qed.

Lemma clear_will_steady addr : steady (Net := Net) addr (clear_will addr).
Proof.
  apply steady_on_client. intros bc [Hc Hw]. eexists _, _. split; [done|]. split; [|by apply abides_same; [..|right]].
  constructor; [|apply no_will_ok]. by destruct Hc.
Qed.
End Sessions.

(** ** The take-over *)

Section Takeover.
Context {Net : Type} `{!Sender Net}.
Implicit Types (br : Broker Net) (bc : BrokerClient Net).

(** Some connections are gone, not that of [addr]; the rest are there. *)
Record settles (addr : Z) br br' : Prop := {
  se_ok : broker_ok br';
  se_clients : exists cs, cs `sublist_of` br_clients br /\ Forall2 (abides none_loose) cs (br_clients br');
  se_at bc : client_at (br_clients br) addr = Some bc ->
    exists bc', client_at (br_clients br') addr = Some bc' /\ abides none_loose bc bc';
  se_cells : br_cells br' = br_cells br
}.

Lemma stays_settles addr br br' : stays br br' -> settles addr br br'.
Proof.
  intros [Hok Hc He]. constructor; [done| |by intros bc; apply all_abide_at|done]. by exists (br_clients br).
Qed.

Lemma parted_settles addr old br br' : addr <> old -> parted old br br' -> settles addr br br'.
Proof.
  intros Hne [Hok Hc He]. constructor; [done| | |done].
  - eexists. split; [|exact Hc]. apply sublist_filter.
  - intros bc Hat. eapply all_abide_at; [exact Hc|]. by rewrite client_at_filter.
Qed.

Lemma Forall2_sublist_r {A C} (R : A -> C -> Prop) (l : list A) (k k' : list C) :
  Forall2 R l k -> k' `sublist_of` k -> exists l', l' `sublist_of` l /\ Forall2 R l' k'.
Proof.
  intros H. revert k'. induction H as [|a c l k Hac H IH]; intros k' Hs.
  - apply sublist_nil_r in Hs as ->. by exists [].
  - apply sublist_cons_r in Hs as [Hs|(k2 & -> & Hs)]; destruct (IH _ Hs) as (l' & Hl & HR).
    + exists l'. by split; [apply sublist_cons|].
    + exists (a :: l'). by split; [apply sublist_skip|constructor].
Qed.

Lemma settles_trans addr br br1 br2 : settles addr br br1 -> settles addr br1 br2 -> settles addr br br2.
Proof.
  intros [_ (cs & Hs & Hc) Ha E1] [Hok (cs1 & Hs1 & Hc1) Ha1 E2]. constructor; [done| | |congruence].
  - destruct (Forall2_sublist_r _ _ _ _ Hc Hs1) as (l & Hl & HR). exists l. split; [by etrans|by eapply all_abide_trans].
  - intros bc Hat. destruct (Ha _ Hat) as (bc1 & Hat1 & Hab1). destruct (Ha1 _ Hat1) as (bc2 & Hat2 & Hab2).
    exists bc2. split; [done|by eapply abides_trans].
Qed.

Lemma settles_linked addr br br' :
  settles addr br br' -> is_Some (client_at (br_clients br) addr) -> is_Some (client_at (br_clients br') addr).
Proof. intros Hs [bc Hat]. destruct (se_at _ _ _ Hs _ Hat) as (bc' & ? & _). by eexists. Qed.

(** A phase that settles the client's session. *)
Definition settling {A} (addr : Z) (m : B Net A) : Prop :=
  forall br, broker_ok br -> is_Some (client_at (br_clients br) addr) -> ends m (fun _ => settles addr br) br.

Lemma settling_steady {A} addr (m : B Net A) : steady addr m -> settling addr m.
Proof. intros Hm br Hok Hat. eapply ends_mono; [by apply Hm|]. intros a br'. apply stays_settles. Qed.

Lemma settling_bind {A C} addr (m : B Net A) (f : A -> B Net C) :
  settling addr m -> (forall a, settling addr (f a)) -> settling addr (m ≫= f).
Proof.
  intros Hm Hf br Hok Hat. after Hm. intros a br1 H1. eapply ends_mono; [apply Hf; [apply H1|by eapply settles_linked]|].
  intros c br2. by apply settles_trans.
Qed.

Lemma settling_deref {A} addr (f : BrokerClient Net -> B Net A) :
  (forall bc, client_inv bc -> settling addr (f bc)) -> settling addr (deref addr ≫= f).
Proof.
  intros Hf br Hok [bc Hat]. apply ends_bind, (ends_deref addr bc); [done|]. by apply Hf; [eapply broker_ok_at| |exists bc].
Qed.

(** Steps that concern the old connection, run while both are there. *)
Lemma Disconnect_steady addr now reason :
  is_byte reason -> steady (Net := Net) addr (on_client addr (fun bc => BrokerSend_Disconnect now bc reason)).
Proof. intros Hr. apply steady_writes. intros bc Hl. by apply BrokerSend_Disconnect_writes. Qed.

Lemma takeover_will_steady now old (publish : bool) :
  steady (Net := Net) old (if publish then BrokerClient_PublishWill now old
    else _ ← on_client old (fun bc => BrokerSend_Disconnect now bc MQTT_REASON_SESSION_TAKEN_OVER); clear_will old).
Proof.
  destruct publish; [apply PublishWill_stays|].
  apply steady_bind; [by apply Disconnect_steady|intros _; apply clear_will_steady].
Qed.

(** The inbound QoS 2 identifiers of the old connection. *)
Lemma q2_takeover_cases i q new : (BrokerInboundQos2_Takeover i q new).2 = q \/ (BrokerInboundQos2_Takeover i q new).2 = new.
Proof. unfold BrokerInboundQos2_Takeover. repeat case_match; solve [by left|by right]. Qed.

Lemma takeover_qos2_steady addr (i : ClientInfo) (q : Qos2) :
  (exists T, qos2_rep q T) ->
  steady (Net := Net) addr (on_client addr (fun bc =>
    let '(moved, _, q) := BrokerInboundQos2_Takeover i q (bc_qos2 bc) in Ok (moved, with_qos2 bc q))).
Proof.
  intros [T HT]. apply steady_on_client. intros bc [[Hq He [T0 HT0] Hl] Hw]. 
  pose proof (q2_takeover_cases i q (bc_qos2 bc)) as Hc. destruct (BrokerInboundQos2_Takeover i q (bc_qos2 bc)) as [[moved oq] nq].
  exists moved, (with_qos2 bc nq). split; [done|]. split; [|by apply abides_same; [..|left]].
  constructor; [|done]. constructor; try done. cbn [snd bc_qos2 with_qos2] in *. destruct Hc as [->| ->]; by eexists.
Qed.

Lemma clear_qos2_steady addr (moved : bool) :
  steady (Net := Net) addr (on_client addr (fun bc => Ok (tt, if moved then with_qos2 bc BrokerInboundQos2_Clear else bc))).
Proof.
  apply steady_on_client. intros bc [[Hq He HT Hl] Hw]. eexists _, _. split; [done|]. destruct moved.
  - split; [|by apply abides_same; [..|left]]. constructor; [|done]. constructor; try done. eexists. apply qos2_rep_empty.
  - split; [done|apply abides_refl].
Qed.
End Takeover.

Section Session.
Context {Net : Type} `{!Sender Net}.
Implicit Types (br : Broker Net) (bc : BrokerClient Net).

(** The old connection is gone; the new one has its session or it ended. *)
Lemma accept_takeover_parts now addr old id mc br :
  addr <> old -> broker_ok br -> is_Some (client_at (br_clients br) addr) -> is_Some (client_at (br_clients br) old) ->
  ends (accept_takeover now addr old id mc) (fun _ => parted old br) br.
Proof.
  intros Hne Hok Hat Hold. unfold accept_takeover. pose proof Hold as [bc0 Hbc0].
  apply ends_bind, (ends_deref old bc0); [done|]. eapply ends_then; [by apply (takeover_will_steady now old)|cbv beta]. intros u br1 H1.
  destruct (stays_at _ _ _ _ H1 Hold) as [bc Hbc]. apply ends_bind, (ends_deref old bc); [done|].
  eapply (ends_then _ _ (fun _ => stays br)).
  - destruct (_ && _); [|by apply ends_ret].
    eapply ends_then; [exact (ends_steady addr _ _ _ (ReassociateClient_steady addr id) H1 Hat)|cbv beta]. intros n br2 H2.
    destruct (stays_at _ _ _ _ H2 Hold) as [bc2 Hbc2]. apply ends_bind, (ends_deref old bc2); [done|].
    pose proof (broker_ok_at _ _ _ (sy_ok _ _ _ H2) Hbc2) as [Hc2 _].
    eapply ends_then; [exact (ends_steady addr _ _ _ (takeover_qos2_steady addr (bc_info bc2) _ (co_qos2 _ Hc2)) H2 Hat)|cbv beta].
    intros moved br3 H3.
    eapply ends_then; [exact (ends_steady old _ _ _ (clear_qos2_steady old moved) H3 Hold)|cbv beta]. intros _ br4 H4. by apply ends_ret.
  - intros sp br2 H2. pose proof (stays_at _ _ _ _ H2 Hold) as Hold2.
    eapply ends_then; [apply RemoveClient_lets_go; [apply H2|done]|cbv beta]. intros _ br3 H3.
    eapply ends_then; [by apply (Remove_parts old br2)|cbv beta]. intros _ br4 H4. apply ends_ret.
    eapply parted_stays; [|exact H4]. by apply stays_loosen.
Qed.

Lemma FindByClientId_other id addr br :
  ends (BrokerClient_FindByClientId id addr) (fun r br' => br' = br /\
    forall c, r = Some c -> bc_addr c <> addr /\ c ∈ br_clients br) br.
Proof.
  unfold BrokerClient_FindByClientId. apply ends_bind, ends_get. destruct id; [by apply ends_ret|]. apply ends_ret.
  split; [done|]. intros c [Hin Hc]%find_some. apply andb_true_iff in Hc as [[Ha _]%andb_true_iff _].
  split; [by apply negb_true_iff, Z.eqb_neq in Ha|by apply list_elem_of_In].
Qed.

Lemma established_steady addr : steady (Net := Net) addr (on_info addr set_established).
Proof.
  apply steady_on_client. intros bc [Hc Hw]. eexists _, _. split; [done|].
  split; [constructor; [by apply client_ok_info|done]|by apply abides_info].
Qed.

Lemma takeover_settling now addr id mc (k : bool -> B Net bool) :
  (forall sp, settling addr (k sp)) ->
  settling addr (old ← BrokerClient_FindByClientId id addr;
    session_present ←
      (match old with
       | Some old => accept_takeover now addr (bc_addr old) id mc
       | None =>
         if mc_clean_session mc =? 0 then n ← BrokerSubs_ReassociateClient id addr; mret (0 <? n)
         else mret false
       end);
    k session_present).
Proof.
  intros Hk br Hok Hat. after (FindByClientId_other id addr br). intros old br1 [-> Hold].
  revert br Hok Hat Hold. destruct old as [old|].
  - intros br Hok Hat Hold. destruct (Hold old eq_refl) as [Hne Hin].
    eapply ends_then; [apply accept_takeover_parts; [by apply not_eq_sym|done|done|]|cbv beta].
    { apply client_at_some. unfold addrs. by apply list_elem_of_fmap_2. }
    intros sp br1 H1. apply (parted_settles addr) in H1; [|by apply not_eq_sym].
    eapply ends_mono; [apply Hk; [apply H1|by eapply settles_linked]|]. intros c br2. by apply settles_trans.
  - intros br Hok Hat _. revert br Hok Hat. apply settling_bind; [|done]. apply settling_steady.
    destruct (_ =? _); [|apply steady_ret]. apply steady_bind; [apply ReassociateClient_steady|intros n; apply steady_ret].
Qed.

Lemma accept_session_settles now addr rc mc : settling (Net := Net) addr (accept_session now addr rc mc).
Proof.
  apply settling_bind; [apply settling_steady, established_steady|intros _]. apply settling_deref. intros bc _.
  pose proof (fun (a : bool) => settling_steady (Net := Net) addr _ (steady_ret addr a)) as Hret.
  destruct (bc_client_id (bc_info bc)) as [[|c id]|]; [done| |done]. destruct (0 <? rc); [|done].
  apply settling_bind; [apply settling_steady, idle_steady, Cancel_idle|intros _].
  apply takeover_settling. intros sp. destruct (negb _).
  - apply settling_bind; [apply settling_steady, idle_steady, RemoveByClientId_idle|intros _].
    by apply settling_bind; [apply settling_steady, idle_steady, discard_idle|intros _].
  - apply settling_bind; [apply settling_steady, Reclaim_steady|]. intros ok. by destruct ok.
Qed.
End Session.

(** ** The Will and the answer *)

Section Answer.
Context {Net : Type} `{!Sender Net}.
Implicit Types (br : Broker Net) (bc : BrokerClient Net).

(** The Will that is stored. *)
Lemma new_will_ok topic payload n qos retain delay id :
  (forall t, topic = Some t -> bytes t) -> (0 < n -> exists b, payload = Some b /\ n = len b /\ n <= 65535) -> 0 <= n ->
  0 <= qos <= MQTT_QOS_2 -> is_Some id -> will_ok (mkWill 1 topic payload n qos retain delay) id.
Proof.
  intros Ht Hp Hn Hq Hid. constructor; cbn; try done.
  - intros t E. constructor; cbn; [by apply Ht| | |constructor|constructor].
    + destruct (Z.ltb_spec 0 n) as [H|H]; [destruct (Hp H) as (? & _ & _ & ?)|]; lia.
    + unfold payload_fits. destruct payload as [bs|]; [|done]. pose proof (len_nonneg bs).
      destruct (Z.ltb_spec 0 n) as [H'|H']; [destruct (Hp H') as (b & [= <-] & ? & _)|]; lia.
  - intros H. destruct (Hp H) as (b & -> & _). done.
Qed.

Lemma accept_will_ok addr mc bc n :
  connect_read mc -> is_Some (bc_client_id (bc_info bc)) ->
  local addr bc n (accept_will addr mc) (fun _ bc' n' => n' = n /\ bc_link bc' = bc_link bc /\ bc_info bc' = bc_info bc).
Proof.
  intros Hr Hid. unfold accept_will.
  eapply (local_bind _ _ _ _ _ (fun _ bc' n' => n' = n /\ bc_link bc' = bc_link bc /\ bc_info bc' = bc_info bc)).
  { apply local_client. intros [Hc Hw]. eexists _, _. split; [done|]. split; [|done]. constructor; [by destruct Hc|apply no_will_ok]. }
  intros u bc1 n1 (-> & El & Ei). destruct (mc_lwt_msg mc) as [lwt|] eqn:El'; [|by apply local_ret].
  destruct (Z.eqb_spec (mc_enable_lwt mc) 0) as [E0|E0]; [by apply local_ret|].
  destruct (cr_will _ Hr E0) as (lwt' & name & buffer & E & En & Enl & Hb & Hz & Eb & Et & Hlb & Hq).
  rewrite El' in E. injection E as <-. rewrite En, Eb, Enl, Et.
  eapply (local_bind _ _ _ _ _ (fun topic bc' n' => bc' = bc1 /\ n' = n /\ forall t, topic = Some t -> bytes t)).
  { destruct (0 <? len name); [|by apply local_ret]. rewrite slice_whole. eapply local_value; [done|].
    eapply (local_bind _ _ _ _ _ (fun _ bc' n' => bc' = bc1 /\ n' = n)); [by apply local_alloc|]. intros ok bc2 n2 [-> ->]. apply local_ret.
    split; [done|]. split; [done|]. destruct ok; [|done]. intros t [= <-]. by apply Forall_take. }
  intros topic bc2 n2 (-> & -> & Ht).
  eapply (local_bind _ _ _ _ _ (fun '(payload, k) bc' n' => bc' = bc1 /\ n' = n /\ 0 <= k /\
     (0 < k -> exists b, payload = Some b /\ k = len b /\ k <= 65535))).
  { destruct (Z.ltb_spec 0 (len buffer)) as [Hpos|Hpos]; [|apply local_ret; split_and!; done || lia].
    cbv zeta. rewrite u16_small by lia.
    eapply (local_bind _ _ _ _ _ (fun _ bc' n' => bc' = bc1 /\ n' = n)); [by apply local_alloc|]. intros ok bc2 n2 [-> ->].
    destruct ok; [|apply local_ret; split_and!; done || lia]. rewrite slice_whole. eapply local_value; [done|].
    apply local_ret. split_and!; [done|done|lia|]. intros _. by exists buffer. }
  intros [payload k] bc2 n2 (-> & -> & Hk & Hp). apply local_client. intros [Hc Hw]. eexists _, _. split; [done|].
  split; [|done]. constructor; [by destruct Hc|]. cbn [bc_will with_will bc_info]. rewrite Ei.
  apply new_will_ok; try done. destruct (Z.ltb_spec WOLFMQTT_MAX_QOS (msg_qos lwt)); lia.
Qed.
End Answer.

(** ** The handler *)

Section Handler.
Context {Net : Type} `{!Sender Net}.
Implicit Types (br : Broker Net) (bc : BrokerClient Net).

(** Some connections may be gone; another connection than [addr] that is there
    abides. *)
Definition spared (addr : Z) bc bc' : Prop :=
  bc_addr bc' = bc_addr bc /\ (bc_addr bc = addr \/ abides none_loose bc bc').

Definition spares (addr : Z) br br' : Prop :=
  exists cs, cs `sublist_of` br_clients br /\ Forall2 (spared addr) cs (br_clients br').

Lemma spared_trans addr bc bc1 bc2 : spared addr bc bc1 -> spared addr bc1 bc2 -> spared addr bc bc2.
Proof.
  intros [E1 H1] [E2 H2]. split; [congruence|]. destruct H1 as [?|H1]; [by left|]. destruct H2 as [?|H2]; [left; congruence|].
  right. by eapply abides_trans.
Qed.

Lemma spares_trans addr br br1 br2 : spares addr br br1 -> spares addr br1 br2 -> spares addr br br2.
Proof.
  intros (cs & Hs & Hc) (cs1 & Hs1 & Hc1). destruct (Forall2_sublist_r _ _ _ _ Hc Hs1) as (l & Hl & HR).
  exists l. split; [by etrans|]. clear -HR Hc1. revert Hc1. generalize (br_clients br2). induction HR as [|x y l l' H _ IH]; intros k Hk.
  - by inversion Hk.
  - inversion Hk; subst. constructor; [by eapply spared_trans|by apply IH].
Qed.

Lemma spares_addrs addr br br' : spares addr br br' -> addrs (br_clients br') `sublist_of` addrs (br_clients br).
Proof.
  intros (cs & Hs & Hc). assert (addrs (br_clients br') = addrs cs) as ->.
  { clear Hs. unfold addrs. induction Hc as [|c c' l l' [E _] _ IH]; [done|]. cbn. by rewrite E, IH. }
  by apply fmap_sublist.
Qed.

(** The other connections stay tame. *)
Lemma spares_tame addr br br' :
  spares addr br br' -> Forall (fun c => bc_addr c <> addr -> tame c) (br_clients br) ->
  Forall (fun c => bc_addr c <> addr -> tame c) (br_clients br').
Proof.
  intros (cs & Hs & Hc) Ht. apply (Forall_sublist _ _ _ Hs) in Ht. clear Hs.
  induction Hc as [|c c' l l' [E H] _ IH]; [constructor|]. apply list.Forall_cons in Ht as [Htc Ht].
  constructor; [|by apply IH]. rewrite E. intros Hne. destruct H as [?|[_ _ [[]|H]]]; [done|]. apply H, Htc, Hne.
Qed.

Lemma only_spares addr br br' : only addr br br' -> spares addr br br'.
Proof.
  intros (bc & mem & auto & cells & Ea & ->). exists (br_clients br). split; [done|]. cbn.
  induction (br_clients br) as [|c cs IH]; [constructor|]. cbn. destruct (Z.eqb_spec (bc_addr c) (bc_addr bc)) as [E|E].
  - constructor; [split; [done|left; congruence]|]. clear. induction cs; constructor; [|done]. split; [done|right; apply abides_refl].
  - constructor; [split; [done|right; apply abides_refl]|done].
Qed.

Lemma settles_spares addr br br' : settles addr br br' -> spares addr br br'.
Proof.
  intros [_ (cs & Hs & Hc) _ _]. exists cs. split; [done|]. eapply List.Forall2_impl; [|exact Hc]. intros c c' H.
  split; [apply H|by right].
Qed.

(** [local], when other connections may have gone. *)
Definition accepts {A} (addr : Z) bc (n : nat) (m : B Net A) (Q : A -> BrokerClient Net -> nat -> Prop) : Prop :=
  forall br, broker_ok br -> client_at (br_clients br) addr = Some bc -> br_cells br = n ->
    ends m (fun a br' => broker_ok br' /\ spares addr br br' /\
      exists bc', client_at (br_clients br') addr = Some bc' /\ Q a bc' (br_cells br')) br.

Lemma accepts_bind {A C} addr bc n (m : B Net A) (f : A -> B Net C) Q Q' :
  accepts addr bc n m Q -> (forall a bc' n', Q a bc' n' -> accepts addr bc' n' (f a) Q') -> accepts addr bc n (m ≫= f) Q'.
Proof.
  intros Hm Hf br Hok Hat Hn. eapply ends_then; [by apply Hm|cbv beta]. intros a br1 (Hok1 & Hs1 & bc1 & Hat1 & HQ).
  eapply ends_mono; [by apply (Hf _ _ _ HQ)|]. intros c br2 (Hok2 & Hs2 & H). split; [done|]. split; [by eapply spares_trans|done].
Qed.

Lemma accepts_local {A} addr bc n (m : B Net A) Q : local addr bc n m Q -> accepts addr bc n m Q.
Proof.
  intros Hm br Hok Hat Hn. eapply ends_mono; [by apply Hm|]. intros a br' (? & ? & ?). split; [done|].
  split; [by apply only_spares|done].
Qed.

Lemma accepts_settling {A} addr bc n (m : B Net A) :
  settling addr m -> accepts addr bc n m (fun _ bc' n' => n' = n /\ abides none_loose bc bc').
Proof.
  intros Hm br Hok Hat <-. eapply ends_mono; [apply Hm; [done|by exists bc]|]. intros a br' Hs.
  split; [apply Hs|]. split; [by apply settles_spares|]. destruct (se_at _ _ _ Hs _ Hat) as (bc' & ? & ?). exists bc'.
  split; [done|]. split; [apply Hs|done].
Qed.

(** A decoder takes cells; the client is the same. *)
Lemma decode_ends {A} (m : M A) P br :
  meets (br_cells br) m (br_cells br) P ->
  ends (decode m : B Net (Z + A)) (fun r br' => exists n, br' = set_cells br n /\
    match r with inl rc => rc < 0 /\ n = br_cells br | inr a => P a n end) br.
Proof.
  unfold meets, ends, decode. destruct (m (br_cells br)) as [[a|rc|] n]; [|intros [? ->]|done].
  - intros HP. eexists _, _. split; [done|]. by exists n.
  - eexists _, _. split; [done|]. by eexists.
Qed.

Context (auth_user auth_pass : option (list Z)).
Context (Hau : forall a, auth_user = Some a -> Forall (fun c => c <> 0) a).
Context (Hap : forall a, auth_pass = Some a -> Forall (fun c => c <> 0) a).

Lemma refused_fits mc code :
  refusals mc (Some code) ->
  connack_fits (answered (mkConnectAck 0 code [] (mc_protocol_level mc))) /\ code <> MQTT_CONNECT_ACK_CODE_ACCEPTED.
Proof.
  intros Hr. destruct (Hr code eq_refl) as [Hc _]. unfold answered. cbn [ca_return_code ca_props ca_protocol_level].
  rewrite (proj2 (Z.eqb_neq code _)) by lia. split; [by apply refusal_fits|lia].
Qed.

(** The answer to a decoded CONNECT. *)
Definition connect_decoded (now addr rx_len rc : Z) (mc : MqttConnect) : B Net Z :=
  let level := mc_protocol_level mc in
  if negb (level =? MQTT_CONNECT_PROTOCOL_LEVEL_4) && negb (level =? MQTT_CONNECT_PROTOCOL_LEVEL_5)
  then accept_reply now addr rx_len (mkConnectAck 0 MQTT_CONNECT_ACK_CODE_REFUSED_PROTO [] MQTT_CONNECT_PROTOCOL_LEVEL_4)
         (connect_props mc)
  else
    '(refused, auto_assigned) ← accept_checks auth_user auth_pass now addr mc;
    match refused with
    | Some code => accept_reply now addr rx_len (mkConnectAck 0 code [] level) (connect_props mc)
    | None =>
      session_present ← accept_session now addr rc mc;
      _ ← accept_will addr mc;
      _ ← free_props (connect_props mc);
      '(code, props) ← accept_props addr auto_assigned;
      accept_reply now addr rx_len
        (mkConnectAck (if (session_present : bool) then MQTT_CONNECT_ACK_FLAG_SESSION_PRESENT else 0) code props level) props
    end.

(** The bad protocol level. *)
Lemma refused_proto now addr rx_len mc bc n :
  refusal_pending bc -> 0 <= rx_len <= BROKER_RX_BUF_SZ ->
  local addr bc n (accept_reply now addr rx_len (mkConnectAck 0 MQTT_CONNECT_ACK_CODE_REFUSED_PROTO [] MQTT_CONNECT_PROTOCOL_LEVEL_4)
    (connect_props mc)) (fun rc bc' n' => n' = (n + length (connect_props mc))%nat /\ refusal_pending bc' /\ rc = 0 /\ only_refusal bc bc').
Proof.
  intros Hp Hn. eapply local_mono; [apply accept_reply_ok; [|done|done]|].
  - set (mc4 := mkConnect 0 0 None MQTT_CONNECT_PROTOCOL_LEVEL_4 0 None None None [] 0).
    apply (refused_fits mc4). by apply v4_refuses.
  - intros rc bc' n' (H1 & H2 & H3). split_and!; try done; by apply H3.
Qed.

Lemma connect_refused now addr rx_len rc mc bc n :
  has_will (bc_will bc) = 0 -> connack_refused (bc_link bc) = 0 -> connect_read mc -> 0 <= rx_len <= BROKER_RX_BUF_SZ ->
  ~ authorised auth_user auth_pass (mc_username mc) (mc_password mc) ->
  local addr bc n (connect_decoded now addr rx_len rc mc) (fun rc bc' n' =>
    n' = (n + length (connect_props mc))%nat /\ refusal_pending bc' /\ rc = 0 /\ only_refusal bc bc').
Proof using Hau Hap.
  intros Hw E0 Hr Hn Hno. unfold connect_decoded. cbv zeta. assert (Hp : refusal_pending bc) by (unfold refusal_pending; congruence).
  destruct (_ && _); [by apply refused_proto|].
  eapply local_bind; [by apply accept_checks_ok|cbv beta]. intros [[code|] auto] bc1 n1 (-> & i & -> & Hc & Hyes).
  2: { destruct (Hyes eq_refl) as (_ & Ha & _). done. }
  destruct (refused_fits mc code Hc) as [Hf Hne]. eapply local_mono; [by apply accept_reply_ok|].
  intros c bc' n' (H1 & H2 & H3). split_and!; try done; by apply H3.
Qed.

Lemma connect_accepts now addr rx_len rc mc bc n :
  has_will (bc_will bc) = 0 -> connack_refused (bc_link bc) = 0 -> connect_read mc -> 0 <= rx_len <= BROKER_RX_BUF_SZ ->
  accepts addr bc n (connect_decoded now addr rx_len rc mc) (fun _ bc' n' =>
    n' = (n + length (connect_props mc))%nat /\ refusal_pending bc').
Proof using Hau Hap.
  intros Hw E0 Hr Hn. unfold connect_decoded. cbv zeta. assert (Hp : refusal_pending bc) by (unfold refusal_pending; congruence).
  destruct (_ && _).
  { apply accepts_local. eapply local_mono; [by apply refused_proto|]. by intros c bc' n' (? & ? & _). }
  eapply accepts_bind; [by apply accepts_local, accept_checks_ok|cbv beta]. intros [[code|] auto] bc1 n1 (-> & i & -> & Hc & Hyes).
  { destruct (refused_fits mc code Hc) as [Hf _]. apply accepts_local. eapply local_mono; [by apply accept_reply_ok|].
    by intros c bc' n' (? & ? & _). }
  destruct (Hyes eq_refl) as (Hv & _ & _ & Hauto & Hlev). cbn [fst snd] in *.
  eapply accepts_bind; [apply accepts_settling, accept_session_settles|cbv beta]. intros sp bc1 n1 (-> & Hab).
  assert (Hp1 : refusal_pending bc1).
  { destruct Hab as [_ _ [[]|Ht]]. eapply proj1, Ht. split; [exact Hp|]. right. right. by right. }
  injection (ab_id _ _ _ Hab) as Eid El. cbn in Eid, El.
  eapply accepts_bind; [apply accepts_local, accept_will_ok; [done|]|cbv beta].
  { rewrite Eid. by destruct (bc_client_id i). }
  intros _ bc2 n2 (-> & El2 & Ei2).
  eapply (accepts_bind _ _ _ _ _ (fun _ bc' n' => bc' = bc2 /\ n' = (n + length (connect_props mc))%nat));
    [by apply accepts_local, local_free|].
  intros _ bc3 n3 [-> ->].
  eapply accepts_bind; [apply accepts_local, accept_props_ok|cbv beta].
  { intros Ht. destruct (Hauto Ht) as [value Ev]. exists value. rewrite Ei2. congruence. }
  intros [code ps] bc3 n3 (En & El3 & Hcode). apply accepts_local.
  eapply local_mono; [apply accept_reply_ok; [| |done]|].
  - destruct Hcode as [(-> & value & Hs)|(-> & -> & H5)].
    + apply (accepted_fits _ value); [destruct sp; [by right|by left]|done].
    + apply (refusal_fits mc). apply v5_refuses; [|done|done]. rewrite Ei2, El, Hlev in H5. done.
  - unfold refusal_pending in *. rewrite El3, El2. done.
  - intros c bc' n' (-> & H2 & _). split; [lia|done].
Qed.

Lemma BrokerHandle_Connect_accepts now addr rx_len bc n :
  has_will (bc_will bc) = 0 \/ rx_len <= 5 -> connack_refused (bc_link bc) = 0 -> 0 <= rx_len <= BROKER_RX_BUF_SZ ->
  accepts addr bc n (BrokerHandle_Connect auth_user auth_pass now addr rx_len) (fun _ bc' n' => n' = n /\ refusal_pending bc').
Proof using Hau Hap.
  intros Hw E0 Hn br Hok Hat <-. assert (Hp0 : refusal_pending bc) by (unfold refusal_pending; congruence). unfold BrokerHandle_Connect. apply ends_bind, (ends_deref addr bc); [done|].
  pose proof (client_rx_ok bc rx_len (broker_ok_at _ _ _ Hok Hat) ltac:(lia)) as Hrx.
  assert (Herr : broker_ok (set_cells br (br_cells br)) /\ spares addr br (set_cells br (br_cells br)) /\
    exists bc', client_at (br_clients (set_cells br (br_cells br))) addr = Some bc' /\
      br_cells (set_cells br (br_cells br)) = br_cells br /\ refusal_pending bc').
  { split; [by apply broker_ok_set_cells|]. split; [|by exists bc].
    exists (br_clients br). split; [done|]. cbn. clear. induction (br_clients br); constructor; [|done]. split; [done|right; apply abides_refl]. }
  destruct Hw as [Hw|Hs].
  2: { destruct (connect_short (rx_buf bc) rx_len (br_cells br) Hrx Hs) as [rc E]. apply ends_bind. unfold ends, decode. rewrite E.
       eexists _, _. split; [done|]. cbv beta iota. apply ends_ret. apply Herr. }
  eapply ends_then; [apply decode_ends, (MqttDecode_Connect_meets _ _ new_connect _ Hrx)|cbv beta].
  intros [c|[rc mc]] br1 (n & -> & H); [destruct H as [_ ->]; by apply ends_ret|].
  destruct H as (Hh & Hnorm & Hrec & En). pose proof (connect_read_ok mc Hh Hnorm) as Hr. rewrite (connect_cells_read mc Hnorm) in En.
  eapply ends_mono; [eapply (connect_accepts now addr rx_len rc mc bc n); try done; by apply broker_ok_set_cells|].
  intros a br' (Hok' & Hs' & bc' & Hat' & E & Hp). split; [done|]. split; [exact Hs'|]. exists bc'. split; [done|].
  split; [congruence|done].
Qed.
End Handler.

(** ** Properties *)

(** C2: credentials are checked before anything else happens. In any valid
    state, with failing allocations and a failing network, a CONNECT that was
    decoded and whose user name and password are not the configured ones is
    answered without undefined behaviour and with the return code 0, on which
    the connection is closed. Apart from the connection itself only the
    allocator and the counter of assigned identifiers change: no other client,
    subscription, retained message, pending Will or session without a
    connection does, and no property cell is lost. If a CONNACK is being
    written afterwards, it is a refusal, so that the client is not marked as
    connected. *)
Theorem Connect_unauthorised {Net} `{!Sender Net} auth_user auth_pass now addr rx_len bc (br : Broker Net) rc mc n :
  broker_ok br -> client_at (br_clients br) addr = Some bc ->
  has_will (bc_will bc) = 0 -> connack_refused (bc_link bc) = 0 -> connack_pending_len (bc_link bc) = 0 ->
  (forall a, auth_user = Some a -> Forall (fun c => c <> 0) a) ->
  (forall a, auth_pass = Some a -> Forall (fun c => c <> 0) a) -> 0 <= rx_len <= BROKER_RX_BUF_SZ ->
  MqttDecode_Connect (rx_buf bc) rx_len new_connect (br_cells br) = (Ok (rc, mc), n) ->
  ~ authorised auth_user auth_pass (mc_username mc) (mc_password mc) ->
  exists br' bc', BrokerHandle_Connect auth_user auth_pass now addr rx_len br = Ok (0, br') /\
    broker_ok br' /\ only addr br br' /\ br_cells br' = br_cells br /\ client_at (br_clients br') addr = Some bc' /\
    (connack_pending_len (bc_link bc') <> 0 -> connack_refused (bc_link bc') <> 0).
Proof.
  intros Hok Hat Hw E0 Ep Hau Hap Hn E Hno.
  pose proof (client_rx_ok bc rx_len (broker_ok_at _ _ _ Hok Hat) ltac:(lia)) as Hrx.
  pose proof (MqttDecode_Connect_meets _ _ new_connect (br_cells br) Hrx) as H. unfold meets in H. rewrite E in H.
  destruct H as (Hh & Hnorm & _ & En). rewrite (connect_cells_read mc Hnorm) in En.
  destruct (connect_refused auth_user auth_pass Hau Hap now addr rx_len rc mc bc n Hw E0 (connect_read_ok mc Hh Hnorm) Hn Hno
              (set_cells br n)) as (c & br' & Er & Hok' & Ho & bc' & Hat' & Ec & _ & -> & Hor); [by apply broker_ok_set_cells|done|done|].
  exists br', bc'. split; [|split; [done|]]; [|split; [|split; [congruence|split; [done|auto]]]].
  - unfold BrokerHandle_Connect, mbind, B_bind, deref. rewrite Hat. unfold decode. rewrite E. exact Er.
  - eapply only_trans; [|exact Ho]. pose proof (only_same addr bc br (br_mem br) (br_next_auto_id br) n Hat). by destruct br.
Qed.

Section Examples.

(** A new connection that has sent [packet]. *)
Definition ex_arrival (packet : list Z) : BrokerClient ScriptNet :=
  mkClient 7 (mkInfo 3 None 0 0 0 0 0 0 0 0 0) no_will (mkQos2 [] 0) BrokerClient_FreeOutQueue
    (mkLink (mkScript [] [] []) (mkWrite 0 0 0 0 0) (replicate (Z.to_nat BROKER_TX_BUF_SZ) 0)
       (mkIO MQTT_PK_BEGIN 0 0 0 0 (packet ++ replicate (4096 - length packet) 0)) 0 0 0).

(** It arrives at a broker with a client "c". *)
Definition ex_arrivals (packet : list Z) : Broker ScriptNet :=
  mkBroker [] 30 [ex_arrival packet; ex_member 1 [99] no_will] 0 [mkSub [35] (Some [99]) (Some 1) 1] 1 (mkRt [] 0 0) [] [] 0 1 1.

(** CONNECT of a client "c" with the user name "u" and the password "x". *)
Definition ex_connect_packet : list Z :=
  [16; 19; 0; 4; 77; 81; 84; 84; 4; 194; 0; 60; 0; 1; 99; 0; 1; 117; 0; 1; 120].

Lemma ex_arrival_ok packet : bytes packet -> len packet <= 4096 -> client_ok (ex_arrival packet).
Proof.
  intros Hb Hl. constructor; [apply empty_queue_ok|constructor|exists ∅; apply qos2_rep_empty|].
  destruct (ex_link_ok []) as [Hp Ht Hr Hd Hc]. constructor; [done|done| |cbn; lia|cbn; lia].
  destruct Hr. constructor; cbn; try done; [|apply Forall_app; split; [done|apply zeros_ok]].
  rewrite len_app. unfold len in *. rewrite length_replicate. lia.
Qed.

Lemma ex_arrivals_ok packet : bytes packet -> len packet <= 4096 -> broker_ok (ex_arrivals packet).
Proof.
  intros Hb Hl. pose proof (ex_arrival_ok packet Hb Hl). pose proof (ex_member_ok 1 [99] no_will).
  assert (Hs : forall bc : BrokerClient ScriptNet, client_ok bc -> session_ok bc) by (intros bc [? ? ? ?]; by split).
  constructor; cbn.
  - constructor; cbn.
    + by_eval.
    + apply List.Forall_cons; [by apply Hs|]. apply List.Forall_cons; [by apply Hs|]. apply List.Forall_nil.
    + constructor; [done|done|constructor|constructor].
    + lia.
    + intros a Ha. apply elem_of_cons in Ha as [[= ->]|[]%elem_of_nil]. right. by left.
  - do 2 (apply List.Forall_cons; [constructor; [done|apply no_will_ok]|]). apply List.Forall_nil.
  - constructor.
  - apply List.Forall_cons; [unfold sub_inv; cbn; lia|apply List.Forall_nil].
  - by destruct (ex_wills_routes 0 []).
  - constructor.
  - by cbn.
Qed.
End Examples.

Lemma Connect_unauthorised_witness :
  exists br' bc', BrokerHandle_Connect (Some [117]) (Some [112; 119]) 5 7 21 (ex_arrivals ex_connect_packet) = Ok (0, br') /\
    client_at (br_clients br') 7 = Some bc' /\ outbox (lk_net (bc_link bc')) = [32; 2; 0; 4] /\
    client_at (br_clients br') 1 = Some (ex_member 1 [99] no_will).
Proof.
  destruct (Connect_unauthorised (Some [117]) (Some [112; 119]) 5 7 21 (ex_arrival ex_connect_packet) (ex_arrivals ex_connect_packet)
    21 (mkConnect 60 1 (Some [99]) 4 0 (Some new_lwt) (Some [117]) (Some [120]) [] 1) 30)
    as (br' & bc' & E & _ & Ho & _ & Hat & _).
  - by apply ex_arrivals_ok; [by_eval|].
  - reflexivity.
  - reflexivity.
  - reflexivity.
  - reflexivity.
  - intros a [= <-]. by repeat constructor.
  - intros a [= <-]. by repeat constructor.
  - lia.
  - vm_compute. reflexivity.
  - intros [[_ ?]|(u & p & _ & [= <-] & _ & [= E] & _)]; done.
  - exists br', bc'. split; [exact E|]. split; [exact Hat|]. split.
    + vm_compute in E. injection E as <-. vm_compute in Hat. injection Hat as <-. reflexivity.
    + by rewrite (only_others _ _ _ 1 Ho).
Defined.
