(* ===== verification/BrokerStep.v ===== *)
(** * BrokerStep: the broker's step ([mqtt_broker.c])

    [BrokerClient_Process] reads and handles a packet of one connection,
    [BrokerClient_Add] accepts a connection, [MqttBroker_Step] does both for
    the connections there are and publishes the Wills that are due. The broker
    keeps its invariant from [MqttBroker_Init] on, whatever arrives. *)
From stdpp Require Import relations.
From S2P Require Import Prelude PacketDefs Wire Topic FixedHeader Props Frame ReasonCodes Control Connect ConnectAck PublishResp Publish PacketIO BrokerDefs BrokerAuth BrokerQos2 OutQueue OutStream OutAlloc BrokerState BrokerSubs BrokerSend BrokerRetained BrokerOrphan BrokerSession BrokerFanout BrokerWill BrokerClose BrokerPackets BrokerPublish BrokerConnect BrokerAccept.

Abbreviation FD_SETSIZE := (1024)%Z.

(** ** Operations *)

(** [BrokerPosix_Read] of a socket that is not open. *)
Definition closed_transport (Net : Type) : Reader Net := {| net_read net _ := (MQTT_CODE_ERROR_NETWORK, [], net) |}.

Definition set_connected (i : ClientInfo) : ClientInfo := set_sock i (bc_sock i) 1.

(** What [accept] and the allocator give a new connection: its socket, the
    address of its structure, and what the two buffers happen to contain. *)
Record Arrival (Net : Type) : Type := mkArrival {
  ar_sock : Z;
  ar_addr : Z;
  ar_net : Net;
  ar_tx : list Z;
  ar_rx : list Z
}.
Arguments mkArrival {Net}.
Arguments ar_sock {Net}.
Arguments ar_addr {Net}.
Arguments ar_net {Net}.
Arguments ar_tx {Net}.
Arguments ar_rx {Net}.

Section Step.
Context {Net : Type} `{!Reader Net} `{!Sender Net}.
Implicit Types (br : Broker Net) (bc : BrokerClient Net).

(** [MqttPacket_Read] for the client. *)
Definition client_read bc : result (Z * BrokerClient Net) :=
  let l := bc_link bc in
  '(rc, st, net) ←
    (if bc_sock (bc_info bc) <? 0
     then @MqttPacket_Read Net (closed_transport Net) BROKER_RX_BUF_SZ (lk_read l) (lk_net l)
     else MqttPacket_Read BROKER_RX_BUF_SZ (lk_read l) (lk_net l));
  Ok (rc, with_link bc (mkLink net (lk_write l) (lk_tx l) st (direct_pending_len l) (connack_pending_len l) (connack_refused l))).

(** The connection ends without a session. *)
Definition drop_client (addr : Z) : B Net unit :=
  _ ← BrokerSubs_RemoveClient addr; BrokerClient_Remove addr.

(** Whether the connection has ended, as it has after a fatal code. *)
Definition close_if (fatal : bool) (now addr : Z) : B Net bool :=
  if fatal then _ ← BrokerClient_AbnormalClose now addr; mret true else mret false.

(** A DISCONNECT with properties: whether it is a protocol error. *)
Definition disconnect_decoded (now addr : Z) (disc : MqttDisconnect) : B Net bool :=
  bc ← deref addr;
  let finish :=
    _ ← (if dc_reason_code disc =? MQTT_REASON_DISCONNECT_W_WILL_MSG then BrokerClient_PublishWill now addr
         else clear_will addr);
    _ ← free_props (dc_props disc);
    mret false in
  match BrokerProps_Find (dc_props disc) MQTT_PROP_SESSION_EXPIRY_INTERVAL with
  | Some se_prop =>
    if (bc_session_expiry_sec (bc_info bc) =? 0) && negb (data_int se_prop =? 0)
    then _ ← free_props (dc_props disc); mret true
    else _ ← on_info addr (fun i => set_expiry i (data_int se_prop)); finish
  | None => finish
  end.

Definition handle_disconnect (now addr rx_len : Z) : B Net unit :=
  bc ← deref addr;
  let v5 := MQTT_CONNECT_PROTOCOL_LEVEL_5 <=? level_of bc in
  let remain_len := pk_remain_len (lk_read (bc_link bc)) in
  if negb v5 && negb (remain_len =? 0) then BrokerClient_AbnormalClose now addr
  else
    violation ←
      (if v5 && (0 <? remain_len) then
         r ← decode (MqttDecode_Disconnect (rx_buf bc) rx_len (mkDisconnect 0 [] (level_of bc)));
         match r with
         | inl _ => _ ← clear_will addr; mret false
         | inr (_, disc) => disconnect_decoded now addr disc
         end
       else _ ← clear_will addr; mret false);
    if (violation : bool) then BrokerClient_AbnormalClose now addr
    else _ ← end_session now addr; BrokerClient_Remove addr.

Context (auth_user auth_pass : option (list Z)).

Definition process_connect (now addr rc : Z) : B Net bool :=
  c_rc ← BrokerHandle_Connect auth_user auth_pass now addr rc;
  bc ← deref addr;
  if (c_rc <=? 0) && (connack_pending_len (bc_link bc) =? 0)
  then _ ← BrokerClient_EndConnect now addr; mret true
  else if negb (connack_refused (bc_link bc) =? 0) then mret false
  else _ ← on_info addr set_connected; mret false.

(** The switch over the packet type: whether the connection has ended. *)
Definition dispatch (now addr rc type : Z) : B Net bool :=
  if type =? MQTT_PACKET_TYPE_CONNECT then process_connect now addr rc
  else if type =? MQTT_PACKET_TYPE_PUBLISH then
    p_rc ← BrokerHandle_Publish now addr rc; close_if (BrokerRcIsFatal p_rc) now addr
  else if type =? MQTT_PACKET_TYPE_PUBLISH_ACK then
    ack_rc ← handle_ack now addr rc MQTT_PACKET_TYPE_PUBLISH_ACK BrokerClient_OnPubAck;
    close_if (BrokerRcIsFatal ack_rc) now addr
  else if type =? MQTT_PACKET_TYPE_PUBLISH_REC then
    p_rc ← BrokerHandle_PublishRec now addr rc; close_if (BrokerRcIsFatal p_rc) now addr
  else if type =? MQTT_PACKET_TYPE_PUBLISH_REL then
    p_rc ← BrokerHandle_PublishRel now addr rc; close_if (BrokerRcIsFatal p_rc) now addr
  else if type =? MQTT_PACKET_TYPE_PUBLISH_COMP then
    comp_rc ← handle_ack now addr rc MQTT_PACKET_TYPE_PUBLISH_COMP BrokerClient_OnPubComp;
    close_if (BrokerRcIsFatal comp_rc) now addr
  else if type =? MQTT_PACKET_TYPE_SUBSCRIBE then
    s_rc ← BrokerHandle_Subscribe now addr rc; close_if (BrokerRcIsFatal s_rc) now addr
  else if type =? MQTT_PACKET_TYPE_UNSUBSCRIBE then
    u_rc ← BrokerHandle_Unsubscribe now addr rc; close_if (BrokerRcIsFatal u_rc) now addr
  else if type =? MQTT_PACKET_TYPE_PING_REQ then
    bc ← deref addr;
    if negb (pk_remain_len (lk_read (bc_link bc)) =? 0) then _ ← BrokerClient_AbnormalClose now addr; mret true
    else rc ← on_client addr (BrokerSend_PingResp now); close_if (BrokerRcIsFatal rc) now addr
  else if type =? MQTT_PACKET_TYPE_DISCONNECT then _ ← handle_disconnect now addr rc; mret true
  else _ ← BrokerClient_AbnormalClose now addr; mret true.

(** 1.5 times the keep-alive interval, rounded up. *)
Definition keep_alive_deadline (keep_alive_sec : Z) : Z := (keep_alive_sec * 3 + 1) / 2.

Definition check_timeouts (now addr activity : Z) : B Net Z :=
  bc ← deref addr;
  let i := bc_info bc in
  let l := bc_link bc in
  if negb (connack_pending_len l =? 0) then
    if (bc_last_rx i <=? now) && (BROKER_CONNECT_TIMEOUT_SEC <? now - bc_last_rx i) then
      let refused := negb (connack_refused l =? 0) in
      _ ← on_link addr (fun l => set_connack l 0 (if refused then 0 else connack_refused l));
      _ ← (if refused then BrokerClient_EndConnect now addr else BrokerClient_AbnormalClose now addr);
      mret 0
    else mret activity
  else if 0 <? bc_keep_alive_sec i then
    if (bc_last_rx i <=? now) && (keep_alive_deadline (bc_keep_alive_sec i) <=? now - bc_last_rx i) then
      _ ← (if (connack_pending_len l =? 0) && (direct_pending_len l =? 0) && (out_q_pending_len (bc_outq bc) =? 0)
           then _ ← on_client addr (fun bc => BrokerSend_Disconnect now bc MQTT_REASON_KEEP_ALIVE_TIMEOUT); mret tt
           else mret tt);
      _ ← BrokerClient_AbnormalClose now addr;
      mret 0
    else mret activity
  else if bc_connected i =? 0 then
    if (bc_last_rx i <=? now) && (BROKER_CONNECT_TIMEOUT_SEC <? now - bc_last_rx i)
    then _ ← drop_client addr; mret 0
    else mret activity
  else mret activity.

(** A packet of [rc] bytes, or an error. *)
Definition process_packet (now addr rc activity : Z) : B Net Z :=
  let rc := if (rc =? MQTT_CODE_ERROR_TIMEOUT) || (rc =? MQTT_CODE_CONTINUE) then 0 else rc in
  if rc <? 0 then _ ← BrokerClient_AbnormalClose now addr; mret 0
  else if 0 <? rc then
    bc ← deref addr;
    type_flags ← of_result (rd (rx_buf bc) 0);
    let type := MQTT_PACKET_TYPE_GET type_flags in
    _ ← on_info addr (fun i => set_last_rx i now);
    let connected := negb (bc_connected (bc_info bc) =? 0) in
    if negb (MqttPacket_FixedHeaderFlagsValid type_flags) then
      _ ← (if connected then BrokerClient_AbnormalClose now addr else drop_client addr); mret 0
    else if negb (type =? MQTT_PACKET_TYPE_CONNECT) && negb connected then _ ← drop_client addr; mret 0
    else if (type =? MQTT_PACKET_TYPE_CONNECT) && connected then _ ← BrokerClient_AbnormalClose now addr; mret 0
    else
      ended ← dispatch now addr rc type;
      if (ended : bool) then mret 0 else check_timeouts now addr 1
  else check_timeouts now addr activity.

(** A CONNACK in progress, the queue, the next packet. *)
Definition process_input (now addr activity : Z) : B Net Z :=
  bc ← deref addr;
  if negb (connack_pending_len (bc_link bc) =? 0) then
    rc ← BrokerClient_ResumeConnAck now addr;
    if rc =? MQTT_CODE_SUCCESS then process_packet now addr rc 1
    else if negb (rc =? MQTT_CODE_CONTINUE) then mret 0
    else process_packet now addr rc activity
  else if negb (bc_connected (bc_info bc) =? 0) && (0 <? out_q_count (bc_outq bc)) then
    drain_rc ← on_client addr (BrokerClient_DrainOutQueue now);
    if drain_rc =? MQTT_CODE_CONTINUE then check_timeouts now addr activity
    else if drain_rc <? 0 then _ ← BrokerClient_AbnormalClose now addr; mret 0
    else rc ← on_client addr client_read; process_packet now addr rc (if 0 <? drain_rc then 1 else activity)
  else rc ← on_client addr client_read; process_packet now addr rc activity.

Definition BrokerClient_Process (now addr : Z) : B Net Z :=
  bc ← deref addr;
  if negb (direct_pending_len (bc_link bc) =? 0) then
    rc ← BrokerClient_ResumeDirect now addr;
    if rc =? MQTT_CODE_CONTINUE then check_timeouts now addr 0
    else if negb (rc =? MQTT_CODE_SUCCESS) then mret 0
    else process_input now addr 1
  else process_input now addr 0.

(** The structure of a new connection. *)
Definition new_client (now : Z) (ar : Arrival Net) : BrokerClient Net :=
  mkClient (ar_addr ar) (mkInfo (ar_sock ar) None 0 0 now 0 0 0 0 0 0) no_will (mkQos2 [] 0) BrokerClient_FreeOutQueue
    (mkLink (ar_net ar) (mkWrite 0 0 0 0 0) (ar_tx ar) (mkIO MQTT_PK_BEGIN 0 0 0 0 (ar_rx ar)) 0 0 0).

Definition BrokerClient_Add (now : Z) (ar : Arrival Net) : B Net bool :=
  ok ← alloc;
  if negb ok then mret false
  else
    tx ← alloc;
    rx ← alloc;
    if (tx : bool) && (rx : bool) then
      _ ← modify (fun br => set_clients_gen (set_clients br (new_client now ar :: br_clients br)) (u32 (br_clients_gen br + 1)));
      mret true
    else mret false.

Definition MqttBroker_Init (mem : heap) (cells : nat) : Broker Net :=
  mkBroker mem cells [] 0 [] 0 (mkRt [] 0 0) [] [] 0 1 1.

(** [bc->next]. *)
Fixpoint next_of (cs : list (BrokerClient Net)) (addr : Z) : option Z :=
  match cs with
  | [] => None
  | c :: cs => if bc_addr c =? addr then match cs with [] => None | n :: _ => Some (bc_addr n) end else next_of cs addr
  end.

(** The loop over the clients; it stops when the next one is gone. *)
Fixpoint process_clients (fuel : nat) (now : Z) (bc : option Z) (activity : Z) : B Net Z :=
  match bc with
  | None => mret activity
  | Some addr =>
    match fuel with
    | O => of_result UB
    | S fuel =>
      _ ← deref addr;
      br ← get;
      let next := next_of (br_clients br) addr in
      rc ← BrokerClient_Process now addr;
      br ← get;
      let activity := if 0 <? rc then 1 else activity in
      match next with
      | None => mret activity
      | Some n =>
        match client_at (br_clients br) n with
        | None => mret activity
        | Some _ => process_clients fuel now (Some n) activity
        end
      end
    end
  end.

(** [running], [now] and [last_check] are the broker's [running], the clock and
    [orphan_last_expire_check]; [accepted] is what [accept] returns. *)
Definition MqttBroker_Step (running : bool) (now last_check : Z) (accepted : option (Arrival Net)) : B Net (Z * Z) :=
  if negb running then mret (MQTT_CODE_SUCCESS, last_check)
  else
    last_check ←
      (if (now <? last_check) || (1 <=? now - last_check) then _ ← BrokerOrphan_ExpireSweep now; mret now
       else mret last_check);
    activity ←
      (match accepted with
       | Some ar => if FD_SETSIZE <=? ar_sock ar then mret 0 else _ ← BrokerClient_Add now ar; mret 1
       | None => mret 0
       end);
    br ← get;
    activity ← process_clients (length (br_clients br)) now (option_map bc_addr (head (br_clients br))) activity;
    will_rc ← BrokerPendingWill_Process now;
    let activity := if 0 <? will_rc then 1 else activity in
    mret (if activity =? 0 then MQTT_CODE_CONTINUE else MQTT_CODE_SUCCESS, last_check).
End Step.

(** The handlers of a packet, by the packet. *)
Inductive Handler : Set :=
  | On_Publish | On_PubAck | On_PubRec | On_PubRel | On_PubComp | On_Subscribe | On_Unsubscribe.

Definition handle {Net} `{!Sender Net} (handler : Handler) : Z -> Z -> Z -> B Net Z :=
  match handler with
  | On_Publish => BrokerHandle_Publish
  | On_PubAck => fun now addr rx_len => handle_ack now addr rx_len MQTT_PACKET_TYPE_PUBLISH_ACK BrokerClient_OnPubAck
  | On_PubRec => BrokerHandle_PublishRec
  | On_PubRel => BrokerHandle_PublishRel
  | On_PubComp => fun now addr rx_len => handle_ack now addr rx_len MQTT_PACKET_TYPE_PUBLISH_COMP BrokerClient_OnPubComp
  | On_Subscribe => BrokerHandle_Subscribe
  | On_Unsubscribe => BrokerHandle_Unsubscribe
  end.

Lemma handle_steady {Net} `{!Sender Net} handler now addr rx_len :
  rx_len <= BROKER_RX_BUF_SZ -> steady (Net := Net) addr (handle handler now addr rx_len).
Proof.
  intros Hn. destruct handler; cbn [handle].
  - by apply BrokerHandle_Publish_steady.
  - apply handle_ack_steady; [done|done|]. intros bc id. apply BrokerClient_OnPubAck_keeps.
  - by apply BrokerHandle_PublishRec_steady.
  - by apply BrokerHandle_PublishRel_steady.
  - apply handle_ack_steady; [done|done|]. intros bc id. apply BrokerClient_OnPubComp_keeps.
  - by apply BrokerHandle_Subscribe_steady.
  - by apply BrokerHandle_Unsubscribe_steady.
Qed.

(** ** The invariant between two steps *)

Section Turns.
Context {Net : Type} `{!Reader Net} `{!Bounded Net} `{!Sender Net}.
Implicit Types (br : Broker Net) (bc : BrokerClient Net).

(** A valid broker in which a client without a Will is one that may still send
    CONNECT. *)
Definition ready br : Prop := broker_ok br /\ Forall tame (br_clients br).

(** What a turn does: clients may go, none comes, no cell is lost. *)
Record turned br br' : Prop := {
  tu_ready : ready br';
  tu_addrs : addrs (br_clients br') `sublist_of` addrs (br_clients br);
  tu_cells : br_cells br' = br_cells br
}.

Lemma turned_refl br : ready br -> turned br br.
Proof. by constructor. Qed.

Lemma turned_trans br br1 br2 : turned br br1 -> turned br1 br2 -> turned br br2.
Proof. intros [_ Ha E] [Hr Ha' E']. constructor; [done|by etrans|congruence]. Qed.

Lemma tame_all (cs cs' : list (BrokerClient Net)) : Forall2 (abides none_loose) cs cs' -> Forall tame cs -> Forall tame cs'.
Proof.
  induction 1 as [|c c' cs cs' [_ _ [[]|H]] _ IH]; [done|]. intros [Hc Hcs]%list.Forall_cons. constructor; auto.
Qed.

Lemma stays_turned br br' : stays br br' -> ready br -> turned br br'.
Proof.
  intros H [Hok Ht]. constructor; [|by rewrite (sy_addrs _ _ _ H)|apply H]. split; [apply H|by eapply tame_all; [apply H|]].
Qed.

Lemma parted_turned addr br br' : parted addr br br' -> ready br -> turned br br'.
Proof.
  intros [Hok Hc He] [_ Ht]. constructor; [split; [done|]| |done].
  - eapply tame_all; [exact Hc|]. eapply Forall_sublist; [apply sublist_filter|done].
  - rewrite (all_abide_addrs _ _ _ Hc). apply filter_addrs.
Qed.

Lemma goes_on_turned addr br rc br' : goes_on addr br rc br' -> ready br -> turned br br'.
Proof. intros [H|[H _]]; [by apply stays_turned|by eapply parted_turned]. Qed.

(** A part of a turn: [alive] says for which values the client is still there. *)
Definition turns {A} (alive : A -> Prop) (addr : Z) (m : B Net A) : Prop :=
  forall br, ready br -> is_Some (client_at (br_clients br) addr) ->
    ends m (fun a br' => turned br br' /\ (alive a -> is_Some (client_at (br_clients br') addr))) br.

Definition never {A} (_ : A) : Prop := False.

Lemma turns_ret {A} (alive : A -> Prop) addr (a : A) : turns alive addr (mret a).
Proof. intros br Hr Hat. apply ends_ret. by split; [apply turned_refl|]. Qed.

Lemma turns_steady {A} (alive : A -> Prop) addr (m : B Net A) : steady addr m -> turns alive addr m.
Proof.
  intros Hm br Hr Hat. eapply ends_mono; [apply Hm; [apply Hr|done]|]. intros a br' H. split; [by apply stays_turned|].
  intros _. by apply (stays_at _ _ _ _ H).
Qed.

(** The rest runs if the client is there; if not, nothing is left to do. *)
Lemma turns_bind {A C} (alive : A -> Prop) (alive' : C -> Prop) addr (m : B Net A) (f : A -> B Net C) :
  turns alive addr m -> (forall a, alive a -> turns alive' addr (f a)) ->
  (forall a, alive a \/ exists c, f a = mret c /\ ~ alive' c) -> turns alive' addr (m ≫= f).
Proof.
  intros Hm Hf Hd br Hr Hat. after Hm. intros a br1 [H1 Ha]. destruct (Hd a) as [Hal|(c & -> & Hc)].
  - eapply ends_mono; [apply (Hf a Hal); [apply H1|auto]|]. intros c br2 [H2 H3]. split; [by eapply turned_trans|done].
  - apply ends_ret. by split.
Qed.

Lemma turns_then {A C} (alive' : C -> Prop) addr (m : B Net A) (f : A -> B Net C) :
  steady addr m -> (forall a, turns alive' addr (f a)) -> turns alive' addr (m ≫= f).
Proof.
  intros Hm Hf. apply (turns_bind (fun _ => True)); [by apply turns_steady|by intros a _|by left].
Qed.

Lemma turns_deref {A} (alive : A -> Prop) addr (f : BrokerClient Net -> B Net A) :
  (forall bc, client_inv bc -> turns alive addr (f bc)) -> turns alive addr (deref addr ≫= f).
Proof.
  intros Hf br Hr [bc Hat]. apply ends_bind, (ends_deref addr bc); [done|].
  apply Hf; [eapply broker_ok_at; [apply Hr|done]|done|by exists bc].
Qed.

(** The connection ends. *)
Lemma turns_end {A} (alive : A -> Prop) addr (m : B Net unit) (a : A) :
  (forall br, broker_ok br -> is_Some (client_at (br_clients br) addr) -> ends m (fun _ => parted addr br) br) ->
  ~ alive a -> turns alive addr (_ ← m; mret a).
Proof.
  intros Hm Ha br Hr Hat. eapply ends_then; [apply Hm; [apply Hr|done]|]. intros u br1 H1. apply ends_ret.
  split; [|done]. eapply parted_turned; [exact H1|done].
Qed.

Lemma drop_client_parts addr br :
  broker_ok br -> is_Some (client_at (br_clients br) addr) -> ends (drop_client addr) (fun _ => parted addr br) br.
Proof. intros Hok Hat. after RemoveClient_lets_go. intros u br1 H1. by apply Remove_parts. Qed.

Lemma turns_close {A} (alive : A -> Prop) now addr (a : A) :
  ~ alive a -> turns alive addr (_ ← BrokerClient_AbnormalClose now addr; mret a).
Proof. apply turns_end. intros br. apply AbnormalClose_parts. Qed.

(** The connection ends; the client need not be tame before. *)
Lemma ends_after_leaving {A} (alive : A -> Prop) addr (m : B Net unit) (a : A) br br1 :
  ready br -> stays_but (leaving addr) br br1 -> is_Some (client_at (br_clients br) addr) -> ~ alive a ->
  (forall br, broker_ok br -> is_Some (client_at (br_clients br) addr) -> ends m (fun _ => parted addr br) br) ->
  ends (_ ← m; mret a) (fun a br' => turned br br' /\ (alive a -> is_Some (client_at (br_clients br') addr))) br1.
Proof.
  intros Hr H1 Hat Ha Hm. eapply ends_then; [apply Hm; [apply H1|by apply (stays_at _ _ _ _ H1)]|]. intros u br2 H2. apply ends_ret.
  split; [|done]. eapply parted_turned; [eapply parted_stays; [exact H1|exact H2]|done].
Qed.

Lemma alive_not (b : bool) : b = false \/ b = true.
Proof. destruct b; auto. Qed.
End Turns.

(** ** The parts of a turn *)

Section Process.
Context {Net : Type} `{!Reader Net} `{!Bounded Net} `{!Sender Net}.
Implicit Types (br : Broker Net) (bc : BrokerClient Net).

Lemma check_timeouts_turns now addr activity : turns never addr (check_timeouts (Net := Net) now addr activity).
Proof.
  apply turns_deref. intros bc _. cbv zeta. destruct (negb _).
  - destruct (_ && _); [|apply turns_ret]. intros br Hr Hat. destruct Hr as [Hok Ht].
    eapply ends_then; [by apply (reset_connack addr (fun l => if negb (connack_refused (bc_link bc) =? 0) then 0 else connack_refused l))|].
    intros u br1 H1. apply (ends_after_leaving never addr _ _ br br1); [by split|done|done|by intros []|].
    intros br2 Hok2 Hat2. destruct (negb _); [by apply EndConnect_parts|by apply AbnormalClose_parts].
  - destruct (0 <? _).
    + destruct (_ && _); [|apply turns_ret]. apply turns_then; [|intros _; apply turns_close; by intros []].
      destruct (_ && _); [|apply steady_ret]. apply steady_bind; [by apply Disconnect_steady|intros _; apply steady_ret].
    + destruct (_ =? 0); [|apply turns_ret]. destruct (_ && _); [|apply turns_ret].
      apply turns_end; [|by intros []]. intros br. apply drop_client_parts.
Qed.

(** A client with a keep-alive interval, once its CONNACK is written. *)
Lemma check_timeouts_ends now addr activity bc br :
  broker_ok br -> client_at (br_clients br) addr = Some bc -> connack_pending_len (bc_link bc) = 0 -> 0 < bc_keep_alive_sec (bc_info bc) ->
  ends (check_timeouts now addr activity) (fun r br' =>
    if (bc_last_rx (bc_info bc) <=? now) && (keep_alive_deadline (bc_keep_alive_sec (bc_info bc)) <=? now - bc_last_rx (bc_info bc))
    then r = 0 /\ broker_ok br' /\ addrs (br_clients br') = base.filter (fun a => a <> addr) (addrs (br_clients br))
    else r = activity /\ br' = br) br.
Proof.
  intros Hok Hat Ep Hk. assert (Hat' : is_Some (client_at (br_clients br) addr)) by by exists bc.
  unfold check_timeouts. apply ends_bind, (ends_deref addr bc); [done|]. cbv zeta.
  rewrite Ep, (proj2 (Z.ltb_lt 0 (bc_keep_alive_sec (bc_info bc))) Hk). cbn [Z.eqb negb].
  destruct ((bc_last_rx (bc_info bc) <=? now) && _); [|by apply ends_ret].
  eapply (ends_then _ _ (fun _ => stays br)).
  { assert (Hs : steady addr (_ ← on_client addr (fun bc => BrokerSend_Disconnect now bc MQTT_REASON_KEEP_ALIVE_TIMEOUT); mret tt : B Net unit)).
    { apply steady_bind; [by apply Disconnect_steady|intros _; apply steady_ret]. }
    destruct (_ && _); [by apply Hs|by apply ends_ret, stays_refl]. }
  intros u br1 H1. eapply ends_then; [apply AbnormalClose_parts; [apply H1|by apply (stays_at _ _ _ _ H1)]|].
  intros u' br2 [Hok2 Hc2 _]. apply ends_ret. split; [done|]. split; [done|].
  rewrite (all_abide_addrs _ _ _ Hc2), <- (sy_addrs _ _ _ H1). unfold addrs. clear.
  induction (br_clients br1) as [|c cs IH]; [done|]. rewrite filter_cons. cbn [map]. rewrite filter_cons.
  destruct (decide (bc_addr c <> addr)); cbn [map]; by rewrite IH.
Qed.

(** The read leaves everything but the reader's state; a closed socket gives no
    more than a fixed header. *)
Lemma client_read_ok bc :
  client_inv bc ->
  exists rc l, client_read bc = Ok (rc, with_link bc l) /\ link_ok l /\ rc <= BROKER_RX_BUF_SZ /\
    (bc_sock (bc_info bc) < 0 -> rc <= 5) /\ connack_pending_len l = connack_pending_len (bc_link bc) /\
    connack_refused l = connack_refused (bc_link bc).
Proof.
  intros [[_ _ _ Hl] _]. pose proof (lo_rx _ Hl) as Hrx. unfold client_read.
  assert (Hlink : forall (net : Net) st, reader_ok BROKER_RX_BUF_SZ st -> link_ok (mkLink net (lk_write (bc_link bc)) (lk_tx (bc_link bc)) st
    (direct_pending_len (bc_link bc)) (connack_pending_len (bc_link bc)) (connack_refused (bc_link bc)))).
  { intros net st Hst. destruct Hl. by constructor. }
  destruct (Z.ltb_spec (bc_sock (bc_info bc)) 0) as [Hs|Hs].
  - assert (Hb : @Bounded Net (closed_transport Net)) by (constructor; intros net k Hk; split; [by apply Z.lt_le_incl|constructor]).
    destruct (@MqttPacket_Read_total Net (closed_transport Net) Hb BROKER_RX_BUF_SZ 5 ltac:(lia) ltac:(done) ltac:(lia) ltac:(lia)
      (lk_read (bc_link bc)) (lk_net (bc_link bc)) Hrx) as (rc & st & net & -> & Hst & Hrc).
    cbn [mbind result_bind]. eexists _, _. split; [done|]. split; [by apply Hlink|]. split; [lia|]. by split.
  - destruct (MqttPacket_Read_total BROKER_RX_BUF_SZ BROKER_RX_BUF_SZ ltac:(lia) ltac:(lia) ltac:(lia) ltac:(lia)
      (lk_read (bc_link bc)) (lk_net (bc_link bc)) Hrx) as (rc & st & net & -> & Hst & Hrc).
    cbn [mbind result_bind]. eexists _, _. split; [done|]. split; [by apply Hlink|]. split; [lia|]. split; [lia|done].
Qed.

Lemma disconnect_decoded_giving now addr disc :
  giving (length (dc_props disc)) addr (disconnect_decoded (Net := Net) now addr disc).
Proof.
  apply giving_deref. intros bc _. cbv zeta.
  assert (Hf : giving (length (dc_props disc)) addr
    (_ ← (if dc_reason_code disc =? MQTT_REASON_DISCONNECT_W_WILL_MSG then BrokerClient_PublishWill now addr
          else clear_will addr); _ ← free_props (dc_props disc); mret false : B Net bool)).
  { apply giving_after; [destruct (_ =? _); [apply PublishWill_stays|apply clear_will_steady]|].
    intros _. apply giving_free, steady_ret. }
  destruct (BrokerProps_Find _ _) as [p|]; [|done]. destruct (_ && _); [apply giving_free, steady_ret|].
  apply giving_after; [|done]. apply steady_on_client. intros c [Hc Hw]. eexists _, _. split; [done|].
  split; [constructor; [by apply client_ok_info|done]|by apply abides_info].
Qed.

(** The DISCONNECT ends the connection. *)
Lemma handle_disconnect_turns (alive : bool -> Prop) now addr rx_len :
  rx_len <= BROKER_RX_BUF_SZ -> ~ alive true -> turns alive addr (_ ← handle_disconnect (Net := Net) now addr rx_len; mret true).
Proof.
  intros Hn Ha br Hr Hat. pose proof Hr as [Hok Ht]. pose proof Hat as [bc Hbc].
  cut (ends (handle_disconnect now addr rx_len) (fun _ => parted addr br) br).
  { intros H. eapply ends_then; [exact H|]. intros u br1 H1. apply ends_ret. split; [exact (parted_turned _ _ _ H1 Hr)|done]. }
  unfold handle_disconnect. apply ends_bind, (ends_deref addr bc); [done|]. cbv zeta.
  destruct (_ && _); [by apply AbnormalClose_parts|]. pose proof (broker_ok_at _ _ _ Hok Hbc) as Hi.
  assert (Hclear : steady addr (_ ← clear_will addr; mret false : B Net bool))
    by (apply steady_bind; [apply clear_will_steady|intros _; apply steady_ret]).
  eapply (ends_then _ _ (fun _ => stays br)).
  - destruct (_ && _).
    + apply (steady_decode addr _ (fun '(_, disc) => dc_props disc) (fun _ => True)); [| | |done|done].
      * intros n. eapply meets_mono; [by apply MqttDecode_Disconnect_meets, client_rx_ok|].
        intros [rc disc] n' [_ H]. done.
      * done.
      * intros [rc disc] _. apply disconnect_decoded_giving.
    + by apply Hclear.
  - intros violation br1 H1. pose proof (stays_at _ _ _ _ H1 Hat) as Hat1. pose proof (sy_ok _ _ _ H1) as Hok1. destruct violation.
    + eapply ends_mono; [by apply AbnormalClose_parts|]. intros u br2 H2. eapply parted_stays; [by apply stays_loosen|exact H2].
    + eapply ends_then; [by apply end_session_lets_go|]. intros u br2 H2. eapply ends_mono; [by apply (Remove_parts addr br1)|].
      intros u' br3 H3. eapply parted_stays; [by apply stays_loosen|exact H3].
Qed.

Context (auth_user auth_pass : option (list Z)).
Context (Hau : forall a, auth_user = Some a -> Forall (fun c => c <> 0) a).
Context (Hap : forall a, auth_pass = Some a -> Forall (fun c => c <> 0) a).

Definition open (ended : bool) : Prop := ended = false.

Lemma close_if_turns fatal now addr : turns open addr (close_if (Net := Net) fatal now addr).
Proof. destruct fatal; [by apply turns_close|apply turns_ret]. Qed.

(** What the state of the client must be when CONNECT is handled. *)
Definition may_connect bc (rc : Z) : Prop :=
  (has_will (bc_will bc) = 0 \/ rc <= 5) /\ connack_refused (bc_link bc) = 0.

Lemma tame_except addr (cs : list (BrokerClient Net)) bc :
  NoDup (addrs cs) -> client_at cs addr = Some bc -> Forall (fun c => bc_addr c <> addr -> tame c) cs -> tame bc -> Forall tame cs.
Proof.
  intros Hnd Hat Hc Hb. pose proof (client_at_addr _ _ _ Hat) as Ea. apply List.Forall_forall. intros c Hin%list_elem_of_In.
  destruct (Z.eq_dec (bc_addr c) addr) as [E|E].
  - pose proof (client_in_at _ _ Hnd Hin) as Hc'. rewrite E, Hat in Hc'. by injection Hc' as <-.
  - apply (proj1 (List.Forall_forall _ _) Hc c); [by apply list_elem_of_In|done].
Qed.

Lemma process_connect_ok now addr rc bc br :
  ready br -> client_at (br_clients br) addr = Some bc -> may_connect bc rc -> 0 <= rc <= BROKER_RX_BUF_SZ ->
  ends (process_connect auth_user auth_pass now addr rc)
    (fun a br' => turned br br' /\ (open a -> is_Some (client_at (br_clients br') addr))) br.
Proof using Hau Hap.
  intros [Hok Ht] Hat [Hw E0] Hn. unfold process_connect.
  eapply ends_then; [exact (BrokerHandle_Connect_accepts auth_user auth_pass Hau Hap now addr rc bc (br_cells br) Hw E0 Hn br Hok Hat eq_refl)|cbv beta].
  intros c_rc br1 (Hok1 & Hs & bc1 & Hat1 & Ec & Hp). apply ends_bind, (ends_deref addr bc1); [done|].
  assert (Hothers : Forall (fun c => bc_addr c <> addr -> tame c) (br_clients br1)).
  { eapply spares_tame; [exact Hs|]. eapply List.Forall_impl; [|exact Ht]. auto. }
  assert (Hnd : NoDup (addrs (br_clients br1))) by apply Hok1.
  pose proof (spares_addrs _ _ _ Hs) as Hsub.
  destruct ((c_rc <=? 0) && (connack_pending_len (bc_link bc1) =? 0)).
  - eapply ends_then; [by apply EndConnect_parts|]. intros u br2 [Hok2 Hc2 Ec2]. apply ends_ret. split; [|done].
    constructor; [split; [done|]| |congruence].
    + eapply tame_all; [exact Hc2|]. apply List.Forall_forall. intros c [Hne Hin]%list_elem_of_In%list_elem_of_filter.
      apply (proj1 (List.Forall_forall _ _) Hothers c); [by apply list_elem_of_In|done].
    + rewrite (all_abide_addrs _ _ _ Hc2). etrans; [apply filter_addrs|done].
  - destruct (Z.eqb_spec (connack_refused (bc_link bc1)) 0) as [Er|Er]; cbn [negb].
    + apply ends_bind. eapply ends_on_client; [exact Hat1|done|]. apply ends_ret.
      pose proof (client_at_addr _ _ _ Hat1) as Ea. set (bc2 := with_info bc1 _).
      assert (Hat2 : client_at (client_put (br_clients br1) bc2) addr = Some bc2).
      { rewrite client_at_put. cbn [bc_addr bc2 with_info]. rewrite Ea, Z.eqb_refl, bool_decide_eq_true_2; [done|].
        apply client_at_some. by exists bc1. }
      split; [|intros _; cbn; by rewrite Hat2]. constructor; [split| |done].
      * apply broker_ok_put; [done|]. apply client_inv_info; [by eapply broker_ok_at|done].
      * apply (tame_except addr (client_put (br_clients br1) bc2) bc2); [by rewrite addrs_put|exact Hat2| |].
        -- apply Forall_put; [done|]. by cbn; rewrite Ea.
        -- split; [exact Hp|]. left. by cbn.
      * change (addrs (client_put (br_clients br1) bc2) `sublist_of` addrs (br_clients br)). by rewrite addrs_put.
    + apply ends_ret. split; [|by exists bc1]. constructor; [split; [done|]|done|done].
      eapply tame_except; [done|exact Hat1|done|]. split; [exact Hp|]. right. right. by left.
Qed.

(** A handler whose fatal codes close the connection. *)
Lemma handler_turns now addr (m : B Net Z) :
  steady addr m -> turns open addr (rc ← m; close_if (BrokerRcIsFatal rc) now addr).
Proof. intros Hm. apply turns_then; [done|]. intros rc. apply close_if_turns. Qed.

Lemma dispatch_ok now addr rc type bc br :
  ready br -> client_at (br_clients br) addr = Some bc -> (type = MQTT_PACKET_TYPE_CONNECT -> may_connect bc rc) ->
  0 <= rc <= BROKER_RX_BUF_SZ ->
  ends (dispatch auth_user auth_pass now addr rc type)
    (fun a br' => turned br br' /\ (open a -> is_Some (client_at (br_clients br') addr))) br.
Proof using Hau Hap.
  intros Hr Hat Hc Hn. assert (Hat' : is_Some (client_at (br_clients br) addr)) by by exists bc. unfold dispatch.
  destruct (Z.eqb_spec type MQTT_PACKET_TYPE_CONNECT) as [E|_]; [by apply (process_connect_ok now addr rc bc); auto|].
  assert (Hle : rc <= BROKER_RX_BUF_SZ) by lia. clear Hc Hat bc. revert br Hr Hat'.
  repeat match goal with |- forall br, ready br -> _ -> ends (if ?b then _ else _) _ br => destruct b end.
  1: apply handler_turns, (handle_steady On_Publish), Hle.
  1: apply handler_turns, (handle_steady On_PubAck), Hle.
  1: apply handler_turns, (handle_steady On_PubRec), Hle.
  1: apply handler_turns, (handle_steady On_PubRel), Hle.
  1: apply handler_turns, (handle_steady On_PubComp), Hle.
  1: apply handler_turns, (handle_steady On_Subscribe), Hle.
  1: apply handler_turns, (handle_steady On_Unsubscribe), Hle.
  - apply turns_deref. intros bc _. destruct (negb _); [by apply turns_close|].
    apply handler_turns, steady_writes. intros c. apply BrokerSend_PingResp_writes.
  - by apply handle_disconnect_turns.
  - by apply turns_close.
Qed.

Lemma tame_connects bc rc :
  tame bc -> bc_connected (bc_info bc) = 0 -> connack_pending_len (bc_link bc) = 0 -> (bc_sock (bc_info bc) < 0 -> rc <= 5) ->
  may_connect bc rc.
Proof.
  intros [H1 H2] Ec Ep Hs. assert (Er : connack_refused (bc_link bc) = 0).
  { destruct (Z.eq_dec (connack_refused (bc_link bc)) 0); [done|]. by destruct (H1 n). }
  split; [|done]. destruct H2 as [?|[H2|[?|?]]]; [done|right; auto|done|by left].
Qed.

Lemma last_rx_steady now addr : steady (Net := Net) addr (on_info addr (fun i => set_last_rx i now)).
Proof.
  apply steady_on_client. intros bc [Hc Hw]. eexists _, _. split; [done|].
  split; [constructor; [by apply client_ok_info|done]|by apply abides_info].
Qed.

Lemma process_packet_ok now addr rc activity bc br :
  ready br -> client_at (br_clients br) addr = Some bc -> rc <= BROKER_RX_BUF_SZ ->
  (0 < rc -> connack_pending_len (bc_link bc) = 0) -> (bc_sock (bc_info bc) < 0 -> rc <= 5) ->
  ends (process_packet auth_user auth_pass now addr rc activity) (fun _ => turned br) br.
Proof using Hau Hap.
  intros Hr Hat Hn Hp Hs. assert (Hat' : is_Some (client_at (br_clients br) addr)) by by exists bc. pose proof Hr as [Hok Ht].
  assert (Hover : forall m : B Net Z, turns never addr m -> ends m (fun _ => turned br) br).
  { intros m Hm. eapply ends_mono; [by apply Hm|]. by intros a br' []. }
  unfold process_packet. cbv zeta. set (rc' := if (rc =? MQTT_CODE_ERROR_TIMEOUT) || (rc =? MQTT_CODE_CONTINUE) then 0 else rc).
  destruct (Z.ltb_spec rc' 0); [apply Hover, turns_close; by intros []|].
  destruct (Z.ltb_spec 0 rc') as [Hpos|]; [|apply Hover, check_timeouts_turns].
  assert (rc' = rc) as Erc by (unfold rc' in *; by destruct (_ || _)). rewrite Erc in *. clear rc' Erc.
  apply ends_bind, (ends_deref addr bc); [done|]. pose proof (broker_ok_at _ _ _ Hok Hat) as Hi.
  pose proof (lo_rx _ (co_link _ (ci_client _ Hi))) as Hrx.
  destruct (rd_ok (rx_buf bc) 0) as (b & Eb & _); [unfold rx_buf; rewrite (ro_rx _ _ Hrx); lia|].
  apply ends_bind. eapply ends_of_result; [exact Eb|]. apply ends_bind. eapply ends_on_client; [exact Hat|done|].
  set (bc1 := with_info bc _). set (br1 := set_clients br (client_put (br_clients br) bc1)).
  assert (H1 : stays br br1).
  { apply (stays_put _ _ _ bc bc1); [|by rewrite (client_at_addr _ _ _ Hat)|by apply abides_info|done|done].
    apply broker_ok_put; [done|by apply client_inv_info]. }
  assert (Hat1 : client_at (br_clients br1) addr = Some bc1).
  { cbn. rewrite client_at_put. cbn [bc_addr bc1 with_info]. rewrite (client_at_addr _ _ _ Hat), Z.eqb_refl, bool_decide_eq_true_2; [done|].
    by apply client_at_some. }
  pose proof (stays_turned _ _ H1 Hr) as Hr1.
  assert (Hover1 : forall m : B Net Z, turns never addr m -> ends m (fun _ => turned br) br1).
  { intros m Hm. eapply ends_mono; [apply Hm; [apply Hr1|by exists bc1]|]. intros a br' [H' _]. by eapply turned_trans. }
  assert (Hdrop : turns never addr (_ ← drop_client addr; mret 0 : B Net Z)).
  { apply turns_end; [|by intros []]. intros br'. apply drop_client_parts. }
  assert (Hclose : turns never addr (_ ← BrokerClient_AbnormalClose now addr; mret 0 : B Net Z)) by (apply turns_close; by intros []).
  destruct (negb (MqttPacket_FixedHeaderFlagsValid b)); [apply Hover1; by destruct (negb (_ =? 0))|].
  destruct (negb (_ =? MQTT_PACKET_TYPE_CONNECT) && _) eqn:E1; [by apply Hover1|].
  destruct ((_ =? MQTT_PACKET_TYPE_CONNECT) && _) eqn:E2; [by apply Hover1|].
  eapply ends_then.
  - apply (dispatch_ok now addr rc _ bc1); [apply Hr1|done| |lia]. intros E. rewrite E in E2. cbn in E2.
    apply negb_false_iff, Z.eqb_eq in E2. apply (tame_connects bc1); [|exact E2|by apply Hp|exact Hs].
    pose proof (proj2 (tu_ready _ _ Hr1)) as Ht1. apply (proj1 (List.Forall_forall _ _) Ht1 bc1). apply list_elem_of_In.
    by eapply client_at_in.
  - intros ended br2 [H2 Ha]. destruct ended.
    + apply ends_ret. by eapply turned_trans.
    + eapply ends_mono; [apply (check_timeouts_turns now addr 1); [apply H2|by apply Ha]|]. intros a br' [H' _].
      eapply turned_trans; [exact Hr1|]. by eapply turned_trans.
Qed.

Lemma read_packet_ok now addr activity bc br :
  ready br -> client_at (br_clients br) addr = Some bc -> connack_pending_len (bc_link bc) = 0 ->
  ends (rc ← on_client addr client_read; process_packet auth_user auth_pass now addr rc activity) (fun _ => turned br) br.
Proof using Hau Hap Bounded0.
  intros Hr Hat Hp. pose proof Hr as [Hok Ht]. pose proof (broker_ok_at _ _ _ Hok Hat) as Hi.
  destruct (client_read_ok bc Hi) as (rc & l & E & Hl & Hn & Hs & Ep & Er).
  apply ends_bind. eapply ends_on_client; [exact Hat|exact E|]. set (bc1 := with_link bc l).
  set (br1 := set_clients br (client_put (br_clients br) bc1)).
  assert (H1 : stays br br1).
  { apply (stays_put _ _ _ bc bc1); [|by rewrite (client_at_addr _ _ _ Hat)| |done|done].
    - apply broker_ok_put; [done|]. destruct Hi as [[Hq He HT _] Hw]. constructor; [by constructor|done].
    - apply abides_same; try done; [|by left]. unfold connack_of. cbn. congruence. }
  assert (Hat1 : client_at (br_clients br1) addr = Some bc1).
  { cbn. rewrite client_at_put. cbn [bc_addr bc1 with_link]. rewrite (client_at_addr _ _ _ Hat), Z.eqb_refl, bool_decide_eq_true_2; [done|].
    apply client_at_some. by exists bc. }
  pose proof (stays_turned _ _ H1 Hr) as Hr1.
  eapply ends_mono; [apply (process_packet_ok now addr rc activity bc1); [apply Hr1|done|done| |done]|].
  - intros _. cbn. congruence.
  - intros a br2. by apply turned_trans.
Qed.

Lemma process_input_ok now addr activity br :
  ready br -> is_Some (client_at (br_clients br) addr) ->
  ends (process_input auth_user auth_pass now addr activity) (fun _ => turned br) br.
Proof using Hau Hap Bounded0.
  intros Hr [bc Hat]. pose proof Hr as [Hok Ht]. unfold process_input. apply ends_bind, (ends_deref addr bc); [done|].
  destruct (Z.eqb_spec (connack_pending_len (bc_link bc)) 0) as [Ep|Ep]; cbn [negb].
  - destruct (_ && _); [|by apply (read_packet_ok now addr activity bc)].
    eapply ends_then; [apply (ends_keeps addr bc); [done|done|apply BrokerClient_DrainOutQueue_total, ci_client; by eapply broker_ok_at]|cbv beta].
    intros drain_rc br1 (H1 & bc1 & Hat1 & Hs1). pose proof (stays_turned _ _ H1 Hr) as Hr1.
    assert (Hat1' : is_Some (client_at (br_clients br1) addr)) by by exists bc1.
    destruct (_ =? _).
    { eapply ends_mono; [apply (check_timeouts_turns now addr activity); [apply Hr1|done]|]. intros a br' [H' _]. by eapply turned_trans. }
    destruct (_ <? 0).
    { eapply ends_mono; [apply (turns_close never now addr 0); [by intros []|apply Hr1|done]|]. intros a br' [H' _]. by eapply turned_trans. }
    eapply ends_mono; [apply (read_packet_ok now addr _ bc1); [apply Hr1|done|]|].
    + destruct Hs1 as (_ & _ & _ & _ & [= -> _]). done.
    + intros a br2. by apply turned_trans.
  - eapply ends_then; [apply BrokerClient_ResumeConnAck_ok; [done|by exists bc]|]. intros rc br1 Hg.
    pose proof (goes_on_turned _ _ _ _ Hg Hr) as Hr1.
    assert (Hlive : rc = MQTT_CODE_SUCCESS \/ rc = MQTT_CODE_CONTINUE -> forall activity,
      ends (process_packet auth_user auth_pass now addr rc activity) (fun _ => turned br) br1).
    { intros Hrc activity'. destruct Hg as [H1|(_ & ? & ?)]; [|by destruct Hrc].
      destruct (stays_at _ _ _ addr H1) as [bc1 Hat1]; [by exists bc|].
      eapply ends_mono; [apply (process_packet_ok now addr rc activity' bc1); [apply Hr1|done|destruct Hrc; lia..]|].
      intros a br2. by apply turned_trans. }
    destruct (Z.eqb_spec rc MQTT_CODE_SUCCESS); [by apply Hlive; left|].
    destruct (Z.eqb_spec rc MQTT_CODE_CONTINUE); cbn [negb]; [by apply Hlive; right|by apply ends_ret].
Qed.

Lemma BrokerClient_Process_ok now addr br :
  ready br -> is_Some (client_at (br_clients br) addr) ->
  ends (BrokerClient_Process auth_user auth_pass now addr) (fun _ => turned br) br.
Proof using Hau Hap Bounded0.
  intros Hr Hat. pose proof Hat as [bc Hbc]. pose proof Hr as [Hok _]. unfold BrokerClient_Process.
  apply ends_bind, (ends_deref addr bc); [done|]. destruct (negb _); [|by apply process_input_ok].
  eapply ends_then; [by apply BrokerClient_ResumeDirect_ok|]. intros rc br1 Hg. pose proof (goes_on_turned _ _ _ _ Hg Hr) as Hr1.
  destruct (Z.eqb_spec rc MQTT_CODE_CONTINUE).
  - destruct Hg as [H1|(_ & _ & ?)]; [|done]. pose proof (stays_at _ _ _ _ H1 Hat) as Hat1.
    eapply ends_mono; [apply (check_timeouts_turns now addr 0); [apply Hr1|done]|]. intros a br' [H' _]. by eapply turned_trans.
  - destruct (Z.eqb_spec rc MQTT_CODE_SUCCESS); cbn [negb]; [|by apply ends_ret].
    destruct Hg as [H1|(_ & ? & _)]; [|done]. pose proof (stays_at _ _ _ _ H1 Hat) as Hat1.
    eapply ends_mono; [apply process_input_ok; [apply Hr1|done]|]. intros a br2. by apply turned_trans.
Qed.
End Process.

(** ** The step *)

Section Steps.
Context {Net : Type} `{!Reader Net} `{!Bounded Net} `{!Sender Net}.
Implicit Types (br : Broker Net) (bc : BrokerClient Net).

Lemma next_of_spec (cs : list (BrokerClient Net)) pre addr post :
  NoDup (addrs cs) -> addrs cs = pre ++ addr :: post -> next_of cs addr = head post.
Proof.
  revert pre. induction cs as [|c cs IH]; intros pre Hnd E; [by destruct pre|]. cbn in Hnd. apply list.NoDup_cons in Hnd as [Hc Hnd].
  cbn [next_of]. destruct pre as [|p pre]; injection E as Ea E.
  - rewrite Ea, Z.eqb_refl. change (map bc_addr cs) with (addrs cs) in E. rewrite <- E. by destruct cs.
  - destruct (Z.eqb_spec (bc_addr c) addr) as [Ec|]; [|by apply (IH pre)].
    exfalso. apply Hc. rewrite Ec. unfold addrs in *. rewrite E. apply elem_of_app. right. left.
Qed.

(** What comes after the next client, when some are gone. *)
Lemma sublist_after (l pre post : list Z) n :
  l `sublist_of` pre ++ n :: post -> NoDup (pre ++ n :: post) -> n ∈ l -> exists pre' post', l = pre' ++ n :: post' /\ (length post' <= length post)%nat.
Proof.
  intros Hs Hnd Hn. apply list.NoDup_app in Hnd as (_ & Hpre & [Hpost _]%list.NoDup_cons).
  apply sublist_app_r in Hs as (a & b & -> & Ha & Hb).
  apply elem_of_app in Hn as [Hn|Hn].
  { exfalso. apply (Hpre n); [by eapply elem_of_sublist|left]. }
  apply sublist_cons_r in Hb as [Hb|(b' & -> & Hb)]; [exfalso; by apply Hpost; eapply elem_of_sublist|].
  exists a, b'. split; [done|by apply sublist_length].
Qed.

Lemma Process_Wills_turned now br : ready br -> ends (BrokerPendingWill_Process now) (fun _ => turned br) br.
Proof.
  intros [Hok Ht].
  pose proof (process_wills_ok (br_mem br <> []) now [] (br_wills br) 0 br (broker_ok_routes _ Hok) (broker_ok_wills _ Hok)
    eq_refl (fun H => H)) as Hp. unfold BrokerPendingWill_Process. apply ends_bind, ends_get. eapply ends_mono; [exact Hp|].
  clear Hp.
  intros a br' (Hp & _ & _ & Hr & Hw). cut (Forall2 (abides none_loose) (br_clients br) (br_clients br') /\ br_cells br' = br_cells br /\
    br_orphans br' = br_orphans br /\ br_orphan_count br' = br_orphan_count br /\ br_subs br' = br_subs br).
  { intros (Hc & Ec & Eo & En & Es). constructor; [split| |done].
    - by apply (broker_ok_of br).
    - by eapply tame_all.
    - by rewrite (all_abide_addrs _ _ _ Hc). }
  clear -Hp. induction Hp as [br0|pw pws br0 br1 ws br2 (ts & cs & mem & next & rt & -> & _ & _ & _ & _ & Hd) _ (Hc & IH)].
  - by split; [apply all_abide_refl|].
  - cbn in Hc, IH. split; [eapply all_abide_trans; [exact (delivered_abides _ _ _ _ Hd)|exact Hc]|done].
Qed.

Lemma ExpireSweep_turned now br : ready br -> ends (BrokerOrphan_ExpireSweep now) (fun _ => turned br) br.
Proof.
  intros [Hok Ht]. eapply ends_mono; [apply BrokerOrphan_ExpireSweep_ok, Hok|]. intros u br' [Hs [gen ->]].
  apply stays_turned; [|by split]. apply stays_same; [|done|done]. apply (broker_ok_step br); try done; [apply Hok| |].
  - eapply Forall_sublist; [apply sublist_filter|apply Hok].
  - eapply Forall_sublist; [apply sublist_filter|apply Hok].
Qed.

(** What [accept] and the allocator return is new. *)
Record arrives br (ar : Arrival Net) : Prop := {
  av_addr : ar_addr ar ∉ addrs (br_clients br);
  av_tx : len (ar_tx ar) = BROKER_TX_BUF_SZ;
  av_rx : len (ar_rx ar) = BROKER_RX_BUF_SZ;
  av_bytes : bytes (ar_rx ar)
}.

Lemma new_client_ok now ar br : arrives br ar -> client_inv (new_client now ar) /\ tame (new_client now ar).
Proof.
  intros [Ha Ht Hr Hb]. split; [|split; [done|by right; right; right]]. constructor; [|apply no_will_ok].
  constructor; [apply empty_queue_ok|constructor|eexists; apply qos2_rep_empty|].
  constructor; cbn; try lia. by constructor.
Qed.

(** The state after the allocator has been asked. *)
Lemma ready_mem br mem : ready br -> ready (set_mem br mem).
Proof. intros [Hok Ht]. split; [by apply broker_ok_set_mem|done]. Qed.

Lemma BrokerClient_Add_ok now ar br :
  ready br -> arrives br ar -> ends (BrokerClient_Add now ar) (fun ok br' => ready br' /\ br_cells br' = br_cells br /\
    addrs (br_clients br') = if ok : bool then ar_addr ar :: addrs (br_clients br) else addrs (br_clients br)) br.
Proof.
  intros Hr Har. unfold BrokerClient_Add. apply ends_bind, ends_alloc. intros ok m1 _.
  pose proof (ready_mem br m1 Hr) as Hr1. destruct (negb ok); [by apply ends_ret|].
  apply ends_bind, ends_alloc. intros tx m2 _. apply ends_bind, ends_alloc. intros rx m3 _.
  cbn [set_mem br_mem] in *. set (br3 := set_mem (set_mem (set_mem br m1) m2) m3).
  assert (Hr3 : ready br3) by by repeat apply ready_mem.
  destruct (tx && rx); [|by apply ends_ret]. apply ends_bind, ends_modify, ends_ret. split; [|done].
  destruct (new_client_ok now ar br Har) as [Hi Ht']. destruct Hr3 as [[Hs Hc ? ? ? ? ?] Ht]. split; [constructor; try done|].
  - apply (link_client_ok (new_client now ar) br3); [done|apply Har|by apply client_inv_session].
  - by constructor.
  - by constructor.
Qed.

Context (auth_user auth_pass : option (list Z)).
Context (Hau : forall a, auth_user = Some a -> Forall (fun c => c <> 0) a).
Context (Hap : forall a, auth_pass = Some a -> Forall (fun c => c <> 0) a).

(** Every client after [addr] can be visited with the fuel. *)
Lemma process_clients_ok fuel now addr activity pre post br :
  ready br -> addrs (br_clients br) = pre ++ addr :: post -> (length post < fuel)%nat ->
  ends (process_clients auth_user auth_pass fuel now (Some addr) activity) (fun _ => turned br) br.
Proof using Hau Hap Bounded0.
  revert addr activity pre post br. induction fuel as [|fuel IH]; intros addr activity pre post br Hr E Hf; [lia|].
  cbn [process_clients]. assert (Hat : is_Some (client_at (br_clients br) addr)).
  { apply client_at_some. rewrite E. apply elem_of_app. right. left. }
  pose proof Hat as [bc Hbc]. assert (Hnd : NoDup (addrs (br_clients br))) by apply Hr.
  apply ends_bind, (ends_deref addr bc); [done|]. apply ends_bind, ends_get. rewrite (next_of_spec _ _ _ _ Hnd E). cbv zeta.
  after (BrokerClient_Process_ok auth_user auth_pass Hau Hap now addr br). intros rc br1 H1. apply ends_bind, ends_get.
  destruct post as [|n post]; cbn [head]; [by apply ends_ret|].
  destruct (client_at (br_clients br1) n) as [nbc|] eqn:En; [|by apply ends_ret].
  assert (Hn : n ∈ addrs (br_clients br1)) by (apply client_at_some; by rewrite En).
  pose proof (tu_addrs _ _ H1) as Hs. rewrite E in Hs, Hnd. change (addr :: n :: post) with ([addr] ++ n :: post) in Hs, Hnd.
  rewrite app_assoc in Hs, Hnd. destruct (sublist_after _ _ _ _ Hs Hnd Hn) as (pre' & post' & E' & Hl).
  eapply ends_mono; [apply (IH n _ pre' post' br1); [apply H1|done|cbn in Hf; lia]|]. intros a br2. by apply turned_trans.
Qed.

(** All there is to show about a step. *)
Lemma MqttBroker_Step_ok running now last_check accepted br :
  ready br -> (forall ar, accepted = Some ar -> arrives br ar) ->
  ends (MqttBroker_Step auth_user auth_pass running now last_check accepted)
    (fun r br' => ready br' /\ br_cells br' = br_cells br /\ (r.1 = MQTT_CODE_SUCCESS \/ r.1 = MQTT_CODE_CONTINUE)) br.
Proof using Hau Hap Bounded0.
  intros Hr Har. unfold MqttBroker_Step. destruct running; cbn [negb]; [|apply ends_ret; split; [done|]; split; [done|by left]].
  eapply (ends_then _ _ (fun _ => turned br)).
  { destruct (_ || _); [|by apply ends_ret, turned_refl]. eapply ends_then; [by apply ExpireSweep_turned|]. intros u br1 H1. by apply ends_ret. }
  intros last br1 [Hr1 Hs1 Ec1]. eapply (ends_then _ _ (fun _ br' => ready br' /\ br_cells br' = br_cells br)).
  { destruct accepted as [ar|]; [|by apply ends_ret]. destruct (_ <=? _); [by apply ends_ret|].
    destruct (Har ar eq_refl) as [Hnew ? ? ?]. assert (Har1 : arrives br1 ar).
    { constructor; try done. intros Hin. apply Hnew. by eapply elem_of_sublist. }
    eapply ends_then; [by apply BrokerClient_Add_ok|]. intros ok br2 (Hr2 & Ec2 & _). apply ends_ret. split; [done|congruence]. }
  intros activity br2 [Hr2 Ec2]. apply ends_bind, ends_get. eapply (ends_then _ _ (fun _ => turned br2)).
  { destruct (br_clients br2) as [|c cs] eqn:Ecs; [by apply ends_ret, turned_refl|]. cbn [option_map head].
    apply (process_clients_ok _ _ _ _ [] (addrs cs)); [done|by rewrite Ecs|]. unfold addrs. rewrite length_map. cbn. lia. }
  intros activity' br3 H3. eapply ends_then; [apply Process_Wills_turned, H3|]. intros will_rc br4 H4. apply ends_ret.
  split; [apply H4|]. split; [rewrite (tu_cells _ _ H4), (tu_cells _ _ H3); done|]. cbn. destruct (_ =? 0); [by right|by left].
Qed.
End Steps.

(** ** Runs *)

Section Runs.
Context {Net : Type} `{!Reader Net} `{!Bounded Net} `{!Sender Net}.
Implicit Types (br : Broker Net).
Context (auth_user auth_pass : option (list Z)).

(** One step, at any time, with or without a new connection. *)
Inductive broker_step br br' : Prop :=
  | a_step running now last_check accepted r :
      (forall ar, accepted = Some ar -> arrives br ar) ->
      MqttBroker_Step auth_user auth_pass running now last_check accepted br = Ok (r, br') -> broker_step br br'.

Lemma init_ready mem cells : ready (MqttBroker_Init (Net := Net) mem cells).
Proof.
  split; [|apply List.Forall_nil]. constructor; try apply List.Forall_nil.
  - constructor; cbn; [apply NoDup_nil_2|apply List.Forall_nil| |done|by intros a Ha%elem_of_nil].
    constructor; [done|done|apply NoDup_nil_2|apply List.Forall_nil].
  - constructor; [done|done|apply NoDup_nil_2|apply List.Forall_nil|done].
  - done.
Qed.

Lemma steps_ready mem cells br :
  (forall a, auth_user = Some a -> Forall (fun c => c <> 0) a) -> (forall a, auth_pass = Some a -> Forall (fun c => c <> 0) a) ->
  rtc broker_step (MqttBroker_Init mem cells) br -> ready br /\ br_cells br = cells.
Proof using Bounded0.
  intros Hau Hap H. cut (forall br0, rtc broker_step br0 br -> ready br0 -> ready br /\ br_cells br = br_cells br0).
  { intros Hc. exact (Hc _ H (init_ready mem cells)). }
  clear H. intros br0. induction 1 as [|br0 br1 br2 [running now last_check accepted r Har E] _ IH]; [done|]. intros Hr.
  destruct (MqttBroker_Step_ok auth_user auth_pass Hau Hap running now last_check accepted br0 Hr Har) as (r' & br' & E' & Hr' & Ec & _).
  rewrite E in E'. injection E' as <- <-. destruct (IH Hr') as [? ?]. split; [done|congruence].
Qed.
End Runs.

(** ** Properties *)

(** C1: the broker is safe. From [MqttBroker_Init] on, whatever connections
    arrive, whatever bytes they send, in whatever pieces, however the network
    accepts or fails writes, whenever the clock goes back and whichever
    allocations fail: every MqttBroker_Step ends, without undefined behaviour -
    no access to a freed client, no access outside a buffer -, with
    MQTT_CODE_SUCCESS or MQTT_CODE_CONTINUE. In every state between two steps
    the tables are consistent: the addresses of the linked clients are distinct
    and a subscription refers to a linked client or to none; queues, QoS 2
    identifiers, orphaned sessions, retained messages and pending Wills satisfy
    their invariants; no property cell is lost; and a client that is not
    connected and may still send CONNECT has no Will. *)
Theorem Broker_safe {Net} `{!Reader Net} `{!Bounded Net} `{!Sender Net} auth_user auth_pass mem cells (br : Broker Net) :
  (forall a, auth_user = Some a -> Forall (fun c => c <> 0) a) -> (forall a, auth_pass = Some a -> Forall (fun c => c <> 0) a) ->
  rtc (broker_step auth_user auth_pass) (MqttBroker_Init mem cells) br ->
  broker_ok br /\ Forall tame (br_clients br) /\ br_cells br = cells /\
  forall running now last_check accepted, (forall ar, accepted = Some ar -> arrives br ar) ->
    exists rc last_check' br', MqttBroker_Step auth_user auth_pass running now last_check accepted br = Ok ((rc, last_check'), br') /\
      (rc = MQTT_CODE_SUCCESS \/ rc = MQTT_CODE_CONTINUE).
Proof.
  intros Hau Hap H. destruct (steps_ready auth_user auth_pass mem cells br Hau Hap H) as [Hr Ec]. split; [apply Hr|]. split; [apply Hr|].
  split; [done|]. intros running now last_check accepted Har.
  destruct (MqttBroker_Step_ok auth_user auth_pass Hau Hap running now last_check accepted br Hr Har) as ([rc last] & br' & E & _ & _ & Hrc).
  by exists rc, last, br'.
Qed.

(** C17: handlers keep the broker well-formed. Whatever the receive buffer of a
    linked client contains, however many of its bytes count, and with failing
    allocations and writes, each handler of a packet - PUBLISH, PUBACK, PUBREC,
    PUBREL, PUBCOMP, SUBSCRIBE, UNSUBSCRIBE - ends without undefined behaviour
    in a broker whose tables, queues, identifiers, retained messages and Wills
    are well-formed; every linked client stays linked under its address with its
    identifier and protocol level; and every property cell the decoder took is
    given back. *)
Theorem Handlers_well_formed {Net} `{!Sender Net} handler now addr rx_len (br : Broker Net) :
  broker_ok br -> is_Some (client_at (br_clients br) addr) -> rx_len <= BROKER_RX_BUF_SZ ->
  exists rc br', handle handler now addr rx_len br = Ok (rc, br') /\ broker_ok br' /\
    Forall2 (fun c c' => bc_addr c' = bc_addr c /\ identity (bc_info c') = identity (bc_info c)) (br_clients br) (br_clients br') /\
    br_cells br' = br_cells br.
Proof.
  intros Hok Hat Hn. destruct (handle_steady handler now addr rx_len Hn br Hok Hat) as (rc & br' & E & [Hok' Hc Ec]).
  exists rc, br'. split; [done|]. split; [done|]. split; [|done]. eapply List.Forall2_impl; [|exact Hc]. by intros c c' [].
Qed.

Lemma Handlers_well_formed_witness :
  exists rc br', handle On_Unsubscribe 5 7 6 (ex_arrivals [162; 4; 0; 9; 0; 1]) = Ok (rc, br') /\ broker_ok br' /\ br_cells br' = 30%nat.
Proof.
  destruct (Handlers_well_formed On_Unsubscribe 5 7 6 (ex_arrivals [162; 4; 0; 9; 0; 1])) as (rc & br' & E & Hok & _ & Ec).
  - by apply ex_arrivals_ok; [by_eval|].
  - by eexists.
  - lia.
  - by exists rc, br'.
Defined.

(** C18: keep alive. In any valid state, for a client with a keep-alive interval
    whose CONNACK is written, check_timeouts ends: if at least one and a half
    times the interval has passed since the last packet, it closes the
    connection - the client is no longer linked, every other one is -, and
    otherwise, or when the clock has gone back, it changes nothing. *)
Theorem check_timeouts_exact {Net} `{!Reader Net} `{!Sender Net} now addr activity bc (br : Broker Net) :
  broker_ok br -> client_at (br_clients br) addr = Some bc -> connack_pending_len (bc_link bc) = 0 -> 0 < bc_keep_alive_sec (bc_info bc) ->
  exists r br', check_timeouts now addr activity br = Ok (r, br') /\
    (3 * bc_keep_alive_sec (bc_info bc) <= 2 * (now - bc_last_rx (bc_info bc)) ->
       r = 0 /\ broker_ok br' /\ addrs (br_clients br') = base.filter (fun a => a <> addr) (addrs (br_clients br))) /\
    (2 * (now - bc_last_rx (bc_info bc)) < 3 * bc_keep_alive_sec (bc_info bc) -> r = activity /\ br' = br).
Proof.
  intros Hok Hat Ep Hk. destruct (check_timeouts_ends now addr activity bc br Hok Hat Ep Hk) as (r & br' & E & H).
  exists r, br'. split; [exact E|]. unfold keep_alive_deadline in H.
  pose proof (Z.div_mod (bc_keep_alive_sec (bc_info bc) * 3 + 1) 2 ltac:(lia)). pose proof (Z.mod_pos_bound (bc_keep_alive_sec (bc_info bc) * 3 + 1) 2 ltac:(lia)).
  set (d := (bc_keep_alive_sec (bc_info bc) * 3 + 1) / 2) in *.
  destruct (Z.leb_spec d (now - bc_last_rx (bc_info bc))); rewrite ?andb_true_r, ?andb_false_r in H.
  - rewrite (proj2 (Z.leb_le _ _)) in H by lia. split; [by intros _|lia].
  - split; [lia|by intros _].
Qed.

Lemma check_timeouts_exact_witness :
  let br := set_clients (ex_arrivals []) [with_info (ex_arrival []) (mkInfo 3 None 4 60 100 0 1 0 0 0 0); ex_member 1 [99] no_will] in
  exists br', check_timeouts 190 7 1 br = Ok (0, br') /\ addrs (br_clients br') = [1].
Proof.
  intros br.
  destruct (check_timeouts_exact 190 7 1 (with_info (ex_arrival []) (mkInfo 3 None 4 60 100 0 1 0 0 0 0)) br) as (r & br' & E & H & _).
  - pose proof (ex_arrivals_ok [] ltac:(constructor) ltac:(by_eval)) as Hok.
    eapply broker_ok_clients; [exact Hok|by_eval| |done|done|by_eval|done|apply Hok|done].
    apply List.Forall_cons; [|apply List.Forall_cons; [|apply List.Forall_nil]].
    + constructor; [|apply no_will_ok]. apply client_ok_info. by apply ex_arrival_ok; [constructor|by_eval].
    + constructor; [apply ex_member_ok|apply no_will_ok].
  - reflexivity.
  - reflexivity.
  - by_eval.
  - destruct H as (-> & _ & Ea); [by_eval|]. exists br'. split; [exact E|exact Ea].
Defined.

(** A network that delivers bytes. *)
Record ByteNet : Set := mkByteNet { byte_net : ScriptNet }.

#[export] Instance byte_reader : Reader ByteNet := {|
  net_read net n := let '(rc, bs, s) := script_read (byte_net net) n in (rc, map u8 bs, mkByteNet s)
|}.

#[export] Instance byte_bounded : Bounded ByteNet.
Proof.
  constructor. intros [s] n Hn. cbn. destruct (script_read s n) as [[rc bs] s'] eqn:E. split.
  - rewrite len_map. unfold script_read in E. destruct (script s) as [|k sc].
    + injection E as <- <- <-. unfold len. rewrite length_take. lia.
    + destruct (Z.leb_spec k 0); injection E as <- <- <-; [by apply Z.lt_le_incl|]. unfold len. rewrite length_take. lia.
  - apply Forall_map. apply List.Forall_forall. intros c _. unfold compose, is_byte, u8. pose proof (Z.mod_pos_bound c 256). lia.
Qed.

#[export] Instance byte_sender : Sender ByteNet.
Proof.
  refine {| net_write net bs := let '(rc, s) := script_write (byte_net net) bs in (rc, mkByteNet s);
            net_sent net := outbox (byte_net net) |}.
  intros [s] bs Hne. cbn [byte_net]. pose proof (net_write_law s bs Hne) as H. cbn [net_write net_sent script_sender] in H.
  by destruct (script_write s bs).
Defined.

Section Examples.

(** A connection that sends [bytes] in the pieces of [pieces]. *)
Definition ex_accepted (addr : Z) (pieces bytes : list Z) : Arrival ByteNet :=
  mkArrival 3 addr (mkByteNet (mkScript pieces bytes [])) (replicate 4096 0) (replicate 4096 0).

Definition ex_next (accepted : option (Arrival ByteNet)) (now : Z) (br : Broker ByteNet) : Broker ByteNet :=
  match MqttBroker_Step None None true now 0 accepted br with Ok (_, br) => br | _ => br end.

(** CONNECT of "c", then SUBSCRIBE to "a"; CONNECT of "d", then PUBLISH of "x"
    to "a". *)
Definition ex_first : Arrival ByteNet :=
  ex_accepted 1 [1; 1; 0] [16; 13; 0; 4; 77; 81; 84; 84; 4; 2; 0; 60; 0; 1; 99; 130; 6; 0; 1; 0; 1; 97; 1].
Definition ex_second : Arrival ByteNet :=
  ex_accepted 2 [] [16; 13; 0; 4; 77; 81; 84; 84; 4; 2; 0; 60; 0; 1; 100; 48; 4; 0; 1; 97; 120].

(** The first arrives and has five steps, then the second arrives. *)
Definition ex_before : Broker ByteNet := Nat.iter 5 (ex_next None 5) (ex_next (Some ex_first) 5 (MqttBroker_Init [] 30)).
Definition ex_after : Broker ByteNet := Nat.iter 2 (ex_next None 6) (ex_next (Some ex_second) 6 ex_before).

Lemma ex_next_ok accepted now br :
  ready br -> (forall ar, accepted = Some ar -> arrives br ar) ->
  ready (ex_next accepted now br) /\ broker_step None None br (ex_next accepted now br).
Proof.
  intros Hr Har. destruct (MqttBroker_Step_ok None None ltac:(done) ltac:(done) true now 0 accepted br Hr Har) as (r & br' & E & Hr' & _).
  unfold ex_next. rewrite E. split; [done|]. by eapply a_step.
Qed.

Lemma ex_iter_ok n now br :
  ready br -> let br' := Nat.iter n (ex_next None now) br in ready br' /\ rtc (broker_step None None) br br'.
Proof.
  intros Hr. induction n as [|n [Hr' IH]]; [by split|]. destruct (ex_next_ok None now _ Hr' ltac:(done)) as [Hr'' Hs].
  split; [exact Hr''|]. by eapply rtc_r.
Qed.

Lemma ex_arrives br addr pieces bytes : (addr ∉ addrs (br_clients br)) -> arrives br (ex_accepted addr pieces bytes).
Proof. intros Ha. constructor; [done|by vm_compute|by vm_compute|apply zeros_ok]. Qed.

Lemma ex_before_ok : ready ex_before /\ rtc (broker_step None None) (MqttBroker_Init [] 30) ex_before.
Proof.
  destruct (ex_next_ok (Some ex_first) 5 (MqttBroker_Init [] 30) (init_ready [] 30)) as [Hr Hs].
  { intros ar [= <-]. by apply ex_arrives, not_elem_of_nil. }
  destruct (ex_iter_ok 5 5 _ Hr) as [Hr' Hs']. split; [exact Hr'|]. by eapply rtc_l.
Qed.
End Examples.

Lemma Broker_safe_witness :
  broker_ok ex_after /\ br_cells ex_after = 30%nat /\
  map (fun bc => (bc_client_id (bc_info bc), outbox (byte_net (lk_net (bc_link bc))))) (br_clients ex_after) =
    [(Some [100], [32; 2; 0; 0]); (Some [99], [32; 2; 0; 0; 144; 3; 0; 1; 1; 48; 4; 0; 1; 97; 120])].
Proof.
  destruct (Broker_safe None None [] 30 ex_after) as (Hok & _ & Hc & _); [done|done| |].
  - destruct ex_before_ok as [Hr Hs]. etrans; [exact Hs|]. destruct (ex_next_ok (Some ex_second) 6 ex_before Hr) as [Hr' Hs'].
    { intros ar [= <-]. apply ex_arrives. by_eval. }
    destruct (ex_iter_ok 2 6 _ Hr') as [_ H]. by eapply rtc_l.
  - split; [exact Hok|]. split; [exact Hc|]. vm_compute. reflexivity.
Defined.
