(* ===== verification/SnDefs.v ===== *)
(** * SnDefs: constants and structures of MQTT-SN ([wolfmqtt/mqtt_sn_packet.h])

    The enumerators are abbreviations for their values. A structure has the
    fields the packet encoders and decoders read or write; [stat], [pendResp]
    and the nested responses belong to the client. A pointer is the list of the
    bytes of the object it points at, or [None] when it is NULL. *)
From S2P Require Import Prelude.

(** Message types ([enum _SN_MsgType]). *)
Abbreviation SN_MSG_TYPE_ADVERTISE := (0)%Z.
Abbreviation SN_MSG_TYPE_SEARCHGW := (1)%Z.
Abbreviation SN_MSG_TYPE_GWINFO := (2)%Z.
Abbreviation SN_MSG_TYPE_CONNECT := (4)%Z.
Abbreviation SN_MSG_TYPE_CONNACK := (5)%Z.
Abbreviation SN_MSG_TYPE_WILLTOPICREQ := (6)%Z.
Abbreviation SN_MSG_TYPE_WILLTOPIC := (7)%Z.
Abbreviation SN_MSG_TYPE_WILLMSGREQ := (8)%Z.
Abbreviation SN_MSG_TYPE_WILLMSG := (9)%Z.
Abbreviation SN_MSG_TYPE_REGISTER := (10)%Z.
Abbreviation SN_MSG_TYPE_REGACK := (11)%Z.
Abbreviation SN_MSG_TYPE_PUBLISH := (12)%Z.
Abbreviation SN_MSG_TYPE_PUBACK := (13)%Z.
Abbreviation SN_MSG_TYPE_PUBCOMP := (14)%Z.
Abbreviation SN_MSG_TYPE_PUBREC := (15)%Z.
Abbreviation SN_MSG_TYPE_PUBREL := (16)%Z.
Abbreviation SN_MSG_TYPE_SUBSCRIBE := (18)%Z.
Abbreviation SN_MSG_TYPE_SUBACK := (19)%Z.
Abbreviation SN_MSG_TYPE_UNSUBSCRIBE := (20)%Z.
Abbreviation SN_MSG_TYPE_UNSUBACK := (21)%Z.
Abbreviation SN_MSG_TYPE_PING_REQ := (22)%Z.
Abbreviation SN_MSG_TYPE_PING_RESP := (23)%Z.
Abbreviation SN_MSG_TYPE_DISCONNECT := (24)%Z.
Abbreviation SN_MSG_TYPE_WILLTOPICUPD := (26)%Z.
Abbreviation SN_MSG_TYPE_WILLTOPICRESP := (27)%Z.
Abbreviation SN_MSG_TYPE_WILLMSGUPD := (28)%Z.
Abbreviation SN_MSG_TYPE_WILLMSGRESP := (29)%Z.

(** Topic ID types and flags. *)
Abbreviation SN_TOPIC_ID_TYPE_NORMAL := (0)%Z.
Abbreviation SN_TOPIC_ID_TYPE_PREDEF := (1)%Z.
Abbreviation SN_TOPIC_ID_TYPE_SHORT := (2)%Z.
Abbreviation SN_PACKET_FLAG_TOPICIDTYPE_MASK := (3)%Z.
Abbreviation SN_PACKET_FLAG_CLEANSESSION := (4)%Z.
Abbreviation SN_PACKET_FLAG_WILL := (8)%Z.
Abbreviation SN_PACKET_FLAG_RETAIN := (16)%Z.
Abbreviation SN_PACKET_FLAG_QOS_MASK := (96)%Z.
Abbreviation SN_PACKET_FLAG_QOS_SHIFT := (5)%Z.
Abbreviation SN_PACKET_FLAG_DUPLICATE := (128)%Z.

(** Lengths. *)
Abbreviation SN_PACKET_LEN_IND := (1)%Z.
Abbreviation SN_PACKET_MAX_SMALL_SIZE := (255)%Z.
Abbreviation SN_PACKET_MAX_LEN := (65535)%Z.
Abbreviation SN_CLIENTID_MAX_LEN := (23)%Z.
Abbreviation SIZEOF_SN_GwAddr := (2)%Z.

(** Gateway messages. *)
Record SN_Advertise : Set := mkAdvertise {
  ad_gwId : Z;
  ad_duration : Z
}.
Record SN_GwInfo : Set := mkGwInfo {
  gw_gwId : Z;
  gw_gwAddr : option (list Z)
}.

(** CONNECT and the Will. *)
Record SN_Connect : Set := mkSnConnect {
  sc_keep_alive_sec : Z;
  sc_clean_session : Z;
  sc_client_id : option (list Z);
  sc_protocol_level : Z;
  sc_enable_lwt : Z
}.
Record SN_ConnectAck : Set := mkSnConnectAck { sca_return_code : Z }.
Record SN_Will : Set := mkSnWill {
  sw_qos : Z;
  sw_retain : Z;
  sw_willTopic : option (list Z);
  sw_willMsg : option (list Z);
  sw_willMsgLen : Z
}.

(** REGISTER and REGACK. *)
Record SN_Register : Set := mkRegister {
  rg_topicId : Z;
  rg_packet_id : Z;
  rg_topicName : option (list Z)
}.
Record SN_RegAck : Set := mkRegAck {
  ra_topicId : Z;
  ra_packet_id : Z;
  ra_return_code : Z
}.

(** PUBLISH and its responses. *)
Record SN_Publish : Set := mkSnPublish {
  sp_packet_id : Z;
  sp_qos : Z;
  sp_retain : Z;
  sp_duplicate : Z;
  sp_topic_type : Z;
  sp_topic_name : option (list Z);
  sp_topic_name_len : Z;
  sp_total_len : Z;
  sp_buffer : option (list Z);
  sp_buffer_len : Z;
  sp_buffer_pos : Z
}.
Record SN_PublishResp : Set := mkSnPublishResp {
  spr_packet_id : Z;
  spr_topicId : Z;
  spr_return_code : Z
}.

(** SUBSCRIBE and UNSUBSCRIBE; [topicNameId] is the same in both. *)
Record SN_SubAck : Set := mkSnSubAck {
  ssa_flags : Z;
  ssa_topicId : Z;
  ssa_packet_id : Z;
  ssa_return_code : Z
}.
Record SN_Subscribe : Set := mkSnSubscribe {
  ss_duplicate : Z;
  ss_qos : Z;
  ss_packet_id : Z;
  ss_topic_type : Z;
  ss_topicNameId : option (list Z)
}.
Record SN_UnsubscribeAck : Set := mkSnUnsubscribeAck { sua_packet_id : Z }.
Record SN_Unsubscribe : Set := mkSnUnsubscribe {
  su_duplicate : Z;
  su_qos : Z;
  su_packet_id : Z;
  su_topic_type : Z;
  su_topicNameId : option (list Z)
}.

(** PINGREQ and DISCONNECT. *)
Record SN_PingReq : Set := mkPingReq { pq_clientId : option (list Z) }.
Record SN_Disconnect : Set := mkSnDisconnect { sd_sleepTmr : Z }.
