(* ===== verification/SnEncode.v ===== *)
(** * SnEncode: the MQTT-SN encoders ([mqtt_sn_packet.c])

    Each encoder fixes the length of its packet first and writes it second.
    The theorem shows that the two agree for every packet: the bytes are one
    frame with exactly the announced length. *)
From S2P Require Import Prelude PacketDefs Wire SnDefs.

(** ** Operations *)

(** The length field: one byte, or three. *)
Definition sn_length (total_len : Z) : emit :=
  if total_len <=? SN_PACKET_MAX_SMALL_SIZE then Ok (1, [u8 total_len])
  else Ok (1, [SN_PACKET_LEN_IND]) +++ MqttEncode_Num true (u16 total_len).

(** Packets whose length field grows when they are longer than 255 bytes. *)
Definition sn_grow (total_len : Z) : Z :=
  if SN_PACKET_MAX_SMALL_SIZE <? total_len then total_len + 2 else total_len.

Definition sn_write (tx_buf_len total_len type : Z) (rest : emit) : emit :=
  if (SN_PACKET_MAX_LEN <? total_len) || (tx_buf_len <? total_len) then Err MQTT_CODE_ERROR_OUT_OF_BUFFER
  else
    '(_, bs) ← sn_length total_len +++ Ok (1, [type]) +++ rest;
    Ok (total_len, bs).

(** Packets that are never longer than 255 bytes. *)
Definition sn_write_small (tx_buf_len total_len type : Z) (rest : emit) : emit :=
  if tx_buf_len <? total_len then Err MQTT_CODE_ERROR_OUT_OF_BUFFER
  else
    '(_, bs) ← Ok (1, [u8 total_len]) +++ Ok (1, [type]) +++ rest;
    Ok (total_len, bs).

(** [XMEMCPY] of the first [n] bytes of an object. *)
Definition sn_copy (s : list Z) (n : Z) : emit := bs ← slice s 0 n; Ok (n, bs).

Definition sn_none : emit := Ok (0, []).

Definition SN_Encode_SearchGW (tx_buf_len hops : Z) : emit :=
  let total_len := 3 in
  if tx_buf_len <? total_len then Err MQTT_CODE_ERROR_BAD_ARG
  else Ok (total_len, [total_len; SN_MSG_TYPE_SEARCHGW; hops]).

Definition SN_Encode_Connect (tx_buf_len : Z) (mc_connect : SN_Connect) : emit :=
  match sc_client_id mc_connect with
  | None => Err MQTT_CODE_ERROR_BAD_ARG
  | Some client_id =>
    if sc_protocol_level mc_connect =? 0 then Err MQTT_CODE_ERROR_BAD_ARG
    else
      let id_len := XSTRLEN client_id in
      let id_len := if id_len <=? SN_CLIENTID_MAX_LEN then id_len else SN_CLIENTID_MAX_LEN in
      let total_len := u16 (6 + id_len) in
      let flags := if negb (sc_clean_session mc_connect =? 0) then SN_PACKET_FLAG_CLEANSESSION else 0 in
      let flags := if negb (sc_enable_lwt mc_connect =? 0) then Z.lor flags SN_PACKET_FLAG_WILL else flags in
      sn_write_small tx_buf_len total_len SN_MSG_TYPE_CONNECT
        (Ok (1, [flags]) +++ Ok (1, [sc_protocol_level mc_connect]) +++
         MqttEncode_Num true (sc_keep_alive_sec mc_connect) +++ sn_copy client_id id_len)
  end.

Definition sn_will_flags (w : SN_Will) : Z :=
  Z.lor (Z.land (Z.shiftl (sw_qos w) SN_PACKET_FLAG_QOS_SHIFT) SN_PACKET_FLAG_QOS_MASK)
    (if negb (sw_retain w =? 0) then SN_PACKET_FLAG_RETAIN else 0).

(** [SN_Encode_WillTopic] and [SN_Encode_WillTopicUpdate] differ in the type. *)
Definition sn_will_topic (tx_buf_len type : Z) (willTopic : option SN_Will) : emit :=
  match willTopic with
  | None => sn_write tx_buf_len 2 type sn_none
  | Some w =>
    match sw_willTopic w with
    | None => Err MQTT_CODE_ERROR_BAD_ARG
    | Some topic =>
      let total_len := sn_grow (2 + i32 (XSTRLEN topic) + 1) in
      sn_write tx_buf_len total_len type (Ok (1, [sn_will_flags w]) +++ sn_copy topic (i32 (XSTRLEN topic)))
    end
  end.

Definition SN_Encode_WillTopic (tx_buf_len : Z) (willTopic : option SN_Will) : emit :=
  sn_will_topic tx_buf_len SN_MSG_TYPE_WILLTOPIC willTopic.

Definition SN_Encode_WillTopicUpdate (tx_buf_len : Z) (willTopic : option SN_Will) : emit :=
  sn_will_topic tx_buf_len SN_MSG_TYPE_WILLTOPICUPD willTopic.

(** [SN_Encode_WillMsg] and [SN_Encode_WillMsgUpdate] differ in the type. *)
Definition sn_will_msg (tx_buf_len type : Z) (willMsg : SN_Will) : emit :=
  let msg_len := sw_willMsgLen willMsg in
  match sw_willMsg willMsg with
  | None =>
    if 0 <? msg_len then Err MQTT_CODE_ERROR_BAD_ARG
    else sn_write tx_buf_len (sn_grow (2 + msg_len)) type sn_none
  | Some msg =>
    sn_write tx_buf_len (sn_grow (2 + msg_len)) type (if 0 <? msg_len then sn_copy msg msg_len else sn_none)
  end.

Definition SN_Encode_WillMsg (tx_buf_len : Z) (willMsg : SN_Will) : emit :=
  sn_will_msg tx_buf_len SN_MSG_TYPE_WILLMSG willMsg.

Definition SN_Encode_WillMsgUpdate (tx_buf_len : Z) (willMsg : SN_Will) : emit :=
  sn_will_msg tx_buf_len SN_MSG_TYPE_WILLMSGUPD willMsg.

Definition SN_Encode_Register (tx_buf_len : Z) (regist : SN_Register) : emit :=
  match rg_topicName regist with
  | None => Err MQTT_CODE_ERROR_BAD_ARG
  | Some name =>
    let total_len := sn_grow (i32 (XSTRLEN name) + 6) in
    sn_write tx_buf_len total_len SN_MSG_TYPE_REGISTER
      (MqttEncode_Num true (rg_topicId regist) +++ MqttEncode_Num true (rg_packet_id regist) +++
       sn_copy name (i32 (XSTRLEN name)))
  end.

Definition SN_Encode_RegAck (tx_buf_len : Z) (regack : SN_RegAck) : emit :=
  sn_write_small tx_buf_len 7 SN_MSG_TYPE_REGACK
    (MqttEncode_Num true (ra_topicId regack) +++ MqttEncode_Num true (ra_packet_id regack) +++
     Ok (1, [ra_return_code regack])).

(** The flags of SUBSCRIBE, UNSUBSCRIBE and PUBLISH. *)
Definition sn_flags (duplicate qos retain topic_type : Z) : Z :=
  let flags := if negb (duplicate =? 0) then SN_PACKET_FLAG_DUPLICATE else 0 in
  let flags := Z.lor flags (Z.land SN_PACKET_FLAG_QOS_MASK (Z.shiftl qos SN_PACKET_FLAG_QOS_SHIFT)) in
  let flags := if negb (retain =? 0) then Z.lor flags SN_PACKET_FLAG_RETAIN else flags in
  Z.lor flags (Z.land SN_PACKET_FLAG_TOPICIDTYPE_MASK topic_type).

(** [SN_Encode_Subscribe] and [SN_Encode_Unsubscribe] differ in the type. *)
Definition sn_topic_request (tx_buf_len type duplicate qos packet_id topic_type : Z) (topicNameId : option (list Z)) : emit :=
  match topicNameId with
  | None => Err MQTT_CODE_ERROR_BAD_ARG
  | Some topic =>
    let normal := topic_type =? SN_TOPIC_ID_TYPE_NORMAL in
    let total_len := sn_grow ((if normal then i32 (XSTRLEN topic) else 2) + 5) in
    sn_write tx_buf_len total_len type
      (Ok (1, [sn_flags duplicate qos 0 topic_type]) +++ MqttEncode_Num true packet_id +++
       sn_copy topic (if normal then XSTRLEN topic else 2))
  end.

Definition SN_Encode_Subscribe (tx_buf_len : Z) (s : SN_Subscribe) : emit :=
  sn_topic_request tx_buf_len SN_MSG_TYPE_SUBSCRIBE (ss_duplicate s) (ss_qos s) (ss_packet_id s) (ss_topic_type s) (ss_topicNameId s).

Definition SN_Encode_Unsubscribe (tx_buf_len : Z) (s : SN_Unsubscribe) : emit :=
  sn_topic_request tx_buf_len SN_MSG_TYPE_UNSUBSCRIBE (su_duplicate s) (su_qos s) (su_packet_id s) (su_topic_type s) (su_topicNameId s).

(** A [word16] in memory, in the byte order of the host. *)
Definition host16 (big_endian : bool) (b : list Z) : result Z :=
  b0 ← rd b 0;
  b1 ← rd b 1;
  Ok (if big_endian then b0 * 256 + b1 else b1 * 256 + b0).

Definition sn_publish_topic (big_endian : bool) (publish : SN_Publish) : emit :=
  match sp_topic_name publish with
  | None => Err MQTT_CODE_ERROR_BAD_ARG
  | Some name =>
    if (sp_topic_type publish =? SN_TOPIC_ID_TYPE_SHORT) || (sp_topic_type publish =? SN_TOPIC_ID_TYPE_PREDEF)
    then sn_copy name 2
    else topic_id ← host16 big_endian name; MqttEncode_Num true topic_id
  end.

(** Nothing is copied from a NULL buffer. *)
Definition sn_publish_payload (publish : SN_Publish) : emit :=
  match sp_buffer publish with
  | None => if 0 <? sp_total_len publish then Err MQTT_CODE_ERROR_BAD_ARG else sn_none
  | Some b => sn_copy b (sp_total_len publish)
  end.

Definition SN_Encode_Publish (big_endian : bool) (tx_buf_len : Z) (publish : SN_Publish) : emit :=
  if tx_buf_len <? 0 then Err MQTT_CODE_ERROR_OUT_OF_BUFFER
  else if SN_PACKET_MAX_LEN - 9 <? sp_total_len publish then Err MQTT_CODE_ERROR_OUT_OF_BUFFER
  else
    sn_write (u32 tx_buf_len) (sn_grow (sp_total_len publish + 7)) SN_MSG_TYPE_PUBLISH
      (Ok (1, [sn_flags (sp_duplicate publish) (sp_qos publish) (sp_retain publish) (sp_topic_type publish)]) +++
       sn_publish_topic big_endian publish +++ MqttEncode_Num true (sp_packet_id publish) +++
       sn_publish_payload publish).

Definition SN_Encode_PublishResp (tx_buf_len type : Z) (publish_resp : SN_PublishResp) : emit :=
  let puback := type =? SN_MSG_TYPE_PUBACK in
  sn_write_small tx_buf_len (if puback then 7 else 4) type
    ((if puback then MqttEncode_Num true (spr_topicId publish_resp) else sn_none) +++
     MqttEncode_Num true (spr_packet_id publish_resp) +++
     (if puback then Ok (1, [spr_return_code publish_resp]) else sn_none)).

Definition SN_Encode_Disconnect (tx_buf_len : Z) (disconnect : option SN_Disconnect) : emit :=
  let sleepTmr := match disconnect with Some d => sd_sleepTmr d | None => 0 end in
  sn_write_small tx_buf_len (if 0 <? sleepTmr then 4 else 2) SN_MSG_TYPE_DISCONNECT
    (if 0 <? sleepTmr then MqttEncode_Num true sleepTmr else sn_none).

Definition SN_Encode_Ping (tx_buf_len : Z) (ping : option SN_PingReq) (type : Z) : emit :=
  if negb (type =? SN_MSG_TYPE_PING_REQ) && negb (type =? SN_MSG_TYPE_PING_RESP) then Err MQTT_CODE_ERROR_BAD_ARG
  else
    let clientId := if type =? SN_MSG_TYPE_PING_REQ then ping ≫= pq_clientId else None in
    let clientId_len := match clientId with Some id => i32 (XSTRLEN id) | None => 0 end in
    let clientId_len := if SN_CLIENTID_MAX_LEN <? clientId_len then SN_CLIENTID_MAX_LEN else clientId_len in
    sn_write_small tx_buf_len (2 + clientId_len) type
      (if 0 <? clientId_len then sn_copy (default [] clientId) clientId_len else sn_none).

(** ** Frames *)

(** An MQTT-SN packet: its length, its type and its body. *)
Definition sn_frame (type : Z) (body : list Z) : list Z :=
  if len body + 2 <=? SN_PACKET_MAX_SMALL_SIZE then [len body + 2; type] ++ body
  else [SN_PACKET_LEN_IND] ++ be16 (len body + 4) ++ [type] ++ body.

Definition sn_room (tx_buf_len : Z) (body : list Z) : Prop :=
  len (sn_frame 0 body) <= SN_PACKET_MAX_LEN /\ len (sn_frame 0 body) <= tx_buf_len.

Lemma sn_frame_len type body : len (sn_frame type body) = sn_grow (len body + 2).
Proof. unfold sn_frame, sn_grow. destruct (Z.leb_spec (len body + 2) 255); decide_test; unfold be16; rewrite ?len_app, ?len_cons, ?len_nil; lia. Qed.

Lemma sn_frame_small type body : len body <= 253 -> sn_frame type body = [len body + 2; type] ++ body.
Proof. intros. unfold sn_frame. by decide_test. Qed.

Definition word16 (x : Z) : Prop := 0 <= x < 65536.

(** A computation that only writes. *)
Definition puts (e : emit) (bs : list Z) : Prop := e = Ok (len bs, bs).

Lemma puts_byte b : puts (Ok (1, [b])) [b].
Proof. done. Qed.
Lemma puts_none : puts sn_none [].
Proof. done. Qed.
Lemma puts_num x : word16 x -> puts (MqttEncode_Num true x) (be16 x).
Proof. apply (MqttEncode_Num_eq true). Qed.
Lemma puts_app e1 e2 a b : puts e1 a -> puts e2 b -> puts (e1 +++ e2) (a ++ b).
Proof. unfold puts. intros -> ->. unfold emit_app. cbn [mbind result_bind]. by rewrite len_app. Qed.
Lemma puts_copy s n : 0 <= n <= len s -> puts (sn_copy s n) (take (Z.to_nat n) s).
Proof.
  intros Hn. unfold puts, sn_copy. rewrite slice_ok by lia. cbn [mbind result_bind]. by rewrite len_take.
Qed.
Lemma puts_str s n : n = XSTRLEN s -> puts (sn_copy s n) (cstr s).
Proof. intros ->. apply puts_copy. apply XSTRLEN_bound. Qed.

Create HintDb puts.
#[export] Hint Resolve puts_byte puts_none puts_num puts_app puts_copy puts_str : puts.

Ltac put := eauto 12 with puts.

Lemma sn_write_answers tx_buf_len total_len type rest body :
  puts rest body -> total_len = sn_grow (len body + 2) ->
  answers (sn_write tx_buf_len total_len type rest) (sn_room tx_buf_len body) (len (sn_frame type body)) (sn_frame type body).
Proof.
  intros Hr ->. unfold sn_write, sn_room. rewrite !sn_frame_len. pose proof (len_nonneg body).
  destruct (_ || _) eqn:E.
  { apply answers_err; [lia|]. apply orb_true_iff in E. rewrite !Z.ltb_lt in E. lia. }
  tests. unfold sn_length. unfold sn_grow in *. unfold sn_frame.
  destruct (Z.ltb_spec 255 (len body + 2)); repeat decide_test.
  - rewrite u16_small by lia. rewrite (puts_app _ _ _ _ (puts_byte _) (puts_num (len body + 2 + 2) ltac:(split; lia)) : _ = _).
    assert (Hp : puts (Ok (1, [type]) +++ rest) ([type] ++ body)) by put.
    unfold puts in Hp. unfold emit_app at 1. cbn [mbind result_bind]. rewrite Hp. cbn [mbind result_bind].
    rewrite <- (app_assoc [SN_PACKET_LEN_IND]). replace (len body + 2 + 2) with (len body + 4) by lia. apply answers_ok. lia.
  - rewrite u8_small by lia.
    rewrite (puts_app _ _ _ _ (puts_byte _) (puts_app _ _ _ _ (puts_byte type) Hr) : _ = _). cbn [mbind result_bind].
    apply answers_ok. lia.
Qed.

Lemma sn_write_small_answers tx_buf_len total_len type rest body :
  puts rest body -> total_len = len body + 2 -> len body <= 253 ->
  answers (sn_write_small tx_buf_len total_len type rest) (sn_room tx_buf_len body) (len (sn_frame type body)) (sn_frame type body).
Proof.
  intros Hr -> Hs. unfold sn_write_small, sn_room. rewrite !sn_frame_small by lia. lens. pose proof (len_nonneg body).
  destruct (Z.ltb_spec tx_buf_len (len body + 2)); [apply answers_err; lia|]. rewrite u8_small by lia.
  rewrite (puts_app _ _ _ _ (puts_byte _) (puts_app _ _ _ _ (puts_byte type) Hr) : _ = _). cbn [mbind result_bind].
  eapply answers_eq; [apply answers_ok; lia|lia|done].
Qed.

(** ** All packets a client sends *)

Inductive SnOut : Set :=
  | Out_SearchGW (hops : Z)
  | Out_Connect (c : SN_Connect)
  | Out_WillTopic (w : option SN_Will)
  | Out_WillTopicUpdate (w : option SN_Will)
  | Out_WillMsg (w : SN_Will)
  | Out_WillMsgUpdate (w : SN_Will)
  | Out_Register (r : SN_Register)
  | Out_RegAck (r : SN_RegAck)
  | Out_Subscribe (s : SN_Subscribe)
  | Out_Unsubscribe (s : SN_Unsubscribe)
  | Out_Publish (p : SN_Publish)
  | Out_PublishResp (type : Z) (r : SN_PublishResp)
  | Out_Disconnect (d : option SN_Disconnect)
  | Out_Ping (p : option SN_PingReq) (type : Z).

Section Out.
Context (big_endian : bool).

Definition sn_encode (tx_buf_len : Z) (o : SnOut) : emit :=
  match o with
  | Out_SearchGW hops => SN_Encode_SearchGW tx_buf_len hops
  | Out_Connect c => SN_Encode_Connect tx_buf_len c
  | Out_WillTopic w => SN_Encode_WillTopic tx_buf_len w
  | Out_WillTopicUpdate w => SN_Encode_WillTopicUpdate tx_buf_len w
  | Out_WillMsg w => SN_Encode_WillMsg tx_buf_len w
  | Out_WillMsgUpdate w => SN_Encode_WillMsgUpdate tx_buf_len w
  | Out_Register r => SN_Encode_Register tx_buf_len r
  | Out_RegAck r => SN_Encode_RegAck tx_buf_len r
  | Out_Subscribe s => SN_Encode_Subscribe tx_buf_len s
  | Out_Unsubscribe s => SN_Encode_Unsubscribe tx_buf_len s
  | Out_Publish p => SN_Encode_Publish big_endian tx_buf_len p
  | Out_PublishResp type r => SN_Encode_PublishResp tx_buf_len type r
  | Out_Disconnect d => SN_Encode_Disconnect tx_buf_len d
  | Out_Ping p type => SN_Encode_Ping tx_buf_len p type
  end.

Definition sn_type (o : SnOut) : Z :=
  match o with
  | Out_SearchGW _ => SN_MSG_TYPE_SEARCHGW
  | Out_Connect _ => SN_MSG_TYPE_CONNECT
  | Out_WillTopic _ => SN_MSG_TYPE_WILLTOPIC
  | Out_WillTopicUpdate _ => SN_MSG_TYPE_WILLTOPICUPD
  | Out_WillMsg _ => SN_MSG_TYPE_WILLMSG
  | Out_WillMsgUpdate _ => SN_MSG_TYPE_WILLMSGUPD
  | Out_Register _ => SN_MSG_TYPE_REGISTER
  | Out_RegAck _ => SN_MSG_TYPE_REGACK
  | Out_Subscribe _ => SN_MSG_TYPE_SUBSCRIBE
  | Out_Unsubscribe _ => SN_MSG_TYPE_UNSUBSCRIBE
  | Out_Publish _ => SN_MSG_TYPE_PUBLISH
  | Out_PublishResp type _ => type
  | Out_Disconnect _ => SN_MSG_TYPE_DISCONNECT
  | Out_Ping _ type => type
  end.

(** A client identifier of at most [SN_CLIENTID_MAX_LEN] characters. *)
Definition sn_id (id : list Z) : list Z := take 23 (cstr id).

(** The flags, by their meaning. *)
Definition sn_flag_bits (duplicate qos retain topic_type : Z) : Z :=
  (if duplicate =? 0 then 0 else 128) + qos mod 4 * 32 + (if retain =? 0 then 0 else 16) + topic_type mod 4.

Definition sn_word (name : list Z) : Z :=
  match name with b0 :: b1 :: _ => if big_endian then b0 * 256 + b1 else b1 * 256 + b0 | _ => 0 end.

(** A numeric topic identifier goes out with its high byte first. *)
Definition sn_topic (topic_type : Z) (name : list Z) : list Z :=
  if (topic_type =? SN_TOPIC_ID_TYPE_SHORT) || (topic_type =? SN_TOPIC_ID_TYPE_PREDEF) then take 2 name
  else be16 (sn_word name).

Definition sn_request_body (duplicate qos packet_id topic_type : Z) (topic : list Z) : list Z :=
  [sn_flag_bits duplicate qos 0 topic_type] ++ be16 packet_id ++
  (if topic_type =? SN_TOPIC_ID_TYPE_NORMAL then cstr topic else take 2 topic).

Definition sn_will_body (w : option SN_Will) : list Z :=
  match w with
  | None => []
  | Some w => [sn_flag_bits 0 (sw_qos w) (sw_retain w) 0] ++ cstr (default [] (sw_willTopic w))
  end.

Definition sn_msg_body (w : SN_Will) : list Z := take (Z.to_nat (sw_willMsgLen w)) (default [] (sw_willMsg w)).

Definition sn_body (o : SnOut) : list Z :=
  match o with
  | Out_SearchGW hops => [hops]
  | Out_Connect c =>
    [(if sc_clean_session c =? 0 then 0 else 4) + (if sc_enable_lwt c =? 0 then 0 else 8); sc_protocol_level c] ++
    be16 (sc_keep_alive_sec c) ++ sn_id (default [] (sc_client_id c))
  | Out_WillTopic w | Out_WillTopicUpdate w => sn_will_body w
  | Out_WillMsg w | Out_WillMsgUpdate w => sn_msg_body w
  | Out_Register r => be16 (rg_topicId r) ++ be16 (rg_packet_id r) ++ cstr (default [] (rg_topicName r))
  | Out_RegAck r => be16 (ra_topicId r) ++ be16 (ra_packet_id r) ++ [ra_return_code r]
  | Out_Subscribe s =>
    sn_request_body (ss_duplicate s) (ss_qos s) (ss_packet_id s) (ss_topic_type s) (default [] (ss_topicNameId s))
  | Out_Unsubscribe s =>
    sn_request_body (su_duplicate s) (su_qos s) (su_packet_id s) (su_topic_type s) (default [] (su_topicNameId s))
  | Out_Publish p =>
    [sn_flag_bits (sp_duplicate p) (sp_qos p) (sp_retain p) (sp_topic_type p)] ++
    sn_topic (sp_topic_type p) (default [] (sp_topic_name p)) ++ be16 (sp_packet_id p) ++
    take (Z.to_nat (sp_total_len p)) (default [] (sp_buffer p))
  | Out_PublishResp type r =>
    if type =? SN_MSG_TYPE_PUBACK then be16 (spr_topicId r) ++ be16 (spr_packet_id r) ++ [spr_return_code r]
    else be16 (spr_packet_id r)
  | Out_Disconnect d => match d with Some d => if sd_sleepTmr d =? 0 then [] else be16 (sd_sleepTmr d) | None => [] end
  | Out_Ping p type =>
    if type =? SN_MSG_TYPE_PING_REQ then match p ≫= pq_clientId with Some id => sn_id id | None => [] end else []
  end.

(** The arguments the encoder accepts. *)
Definition sn_valid (o : SnOut) : Prop :=
  match o with
  | Out_Connect c => is_Some (sc_client_id c) /\ sc_protocol_level c <> 0
  | Out_WillTopic w | Out_WillTopicUpdate w => forall w', w = Some w' -> is_Some (sw_willTopic w')
  | Out_WillMsg w | Out_WillMsgUpdate w => sw_willMsgLen w = 0 \/ is_Some (sw_willMsg w)
  | Out_Register r => is_Some (rg_topicName r)
  | Out_Subscribe s => is_Some (ss_topicNameId s)
  | Out_Unsubscribe s => is_Some (su_topicNameId s)
  | Out_Publish p => is_Some (sp_topic_name p) /\ (sp_total_len p = 0 \/ is_Some (sp_buffer p))
  | Out_Ping _ type => type = SN_MSG_TYPE_PING_REQ \/ type = SN_MSG_TYPE_PING_RESP
  | _ => True
  end.

(** A string whose length is an [int], with room for a header. *)
Definition sn_string (s : option (list Z)) : Prop :=
  forall t, s = Some t -> bytes t /\ len t < 2147483632.

(** An object of at least [n] bytes. *)
Definition sn_object (s : option (list Z)) (n : Z) : Prop :=
  forall t, s = Some t -> bytes t /\ n <= len t.

Definition sn_request_rep (qos packet_id topic_type : Z) (topic : option (list Z)) : Prop :=
  is_byte qos /\ word16 packet_id /\ is_byte topic_type /\ sn_string topic /\
  (topic_type <> SN_TOPIC_ID_TYPE_NORMAL -> sn_object topic 2).

Definition sn_will_rep (w : SN_Will) : Prop :=
  is_byte (sw_qos w) /\ sn_string (sw_willTopic w) /\ word16 (sw_willMsgLen w) /\ sn_object (sw_willMsg w) (sw_willMsgLen w).

(** The values the fields of a structure can have; a pointer that is not NULL
    points at as many bytes as the structure says. *)
Definition sn_rep (o : SnOut) : Prop :=
  match o with
  | Out_SearchGW hops => is_byte hops
  | Out_Connect c => word16 (sc_keep_alive_sec c) /\ is_byte (sc_protocol_level c) /\ sn_string (sc_client_id c)
  | Out_WillTopic w | Out_WillTopicUpdate w => forall w', w = Some w' -> sn_will_rep w'
  | Out_WillMsg w | Out_WillMsgUpdate w => sn_will_rep w
  | Out_Register r => word16 (rg_topicId r) /\ word16 (rg_packet_id r) /\ sn_string (rg_topicName r)
  | Out_RegAck r => word16 (ra_topicId r) /\ word16 (ra_packet_id r) /\ is_byte (ra_return_code r)
  | Out_Subscribe s => sn_request_rep (ss_qos s) (ss_packet_id s) (ss_topic_type s) (ss_topicNameId s)
  | Out_Unsubscribe s => sn_request_rep (su_qos s) (su_packet_id s) (su_topic_type s) (su_topicNameId s)
  | Out_Publish p =>
    is_byte (sp_qos p) /\ word16 (sp_packet_id p) /\ is_byte (sp_topic_type p) /\ sn_object (sp_topic_name p) 2 /\
    0 <= sp_total_len p < 4294967296 /\ sn_object (sp_buffer p) (sp_total_len p)
  | Out_PublishResp type r =>
    is_byte type /\ word16 (spr_topicId r) /\ word16 (spr_packet_id r) /\ is_byte (spr_return_code r)
  | Out_Disconnect d => forall d', d = Some d' -> word16 (sd_sleepTmr d')
  | Out_Ping p type => is_byte type /\ sn_string (p ≫= pq_clientId)
  end.
End Out.

(** ** The encoders *)

Lemma answers_given e (P Q : Prop) n bs : P -> answers e Q n bs -> answers e (P /\ Q) n bs.
Proof. intros HP. apply answers_iff. tauto. Qed.

(** The low two bits, in place and where the QoS is. *)
Lemma land_3 x : Z.land 3 x = x mod 4.
Proof. rewrite Z.land_comm. apply (Z.land_ones x 2). lia. Qed.

Lemma land_96 x : Z.land 96 (Z.shiftl x 5) = x mod 4 * 32.
Proof.
  change 96 with (Z.shiftl 3 5). rewrite <- Z.shiftl_land, land_3, Z.shiftl_mul_pow2 by lia. lia.
Qed.

Lemma sn_flags_bits duplicate qos retain topic_type :
  sn_flags duplicate qos retain topic_type = sn_flag_bits duplicate qos retain topic_type.
Proof.
  unfold sn_flags, sn_flag_bits. rewrite land_96, land_3.
  pose proof (Z.mod_pos_bound qos 4 ltac:(lia)). pose proof (Z.mod_pos_bound topic_type 4 ltac:(lia)).
  generalize dependent (qos mod 4). generalize dependent (topic_type mod 4). intros t Ht q Hq.
  assert (q = 0 \/ q = 1 \/ q = 2 \/ q = 3) as Hq' by lia. assert (t = 0 \/ t = 1 \/ t = 2 \/ t = 3) as Ht' by lia.
  by destruct (duplicate =? 0), (retain =? 0), Hq' as [->|[->|[->| ->]]], Ht' as [->|[->|[->| ->]]].
Qed.

Lemma sn_will_flags_bits w : sn_will_flags w = sn_flag_bits 0 (sw_qos w) (sw_retain w) 0.
Proof.
  rewrite <- sn_flags_bits. unfold sn_will_flags, sn_flags. rewrite (Z.land_comm _ 96). change (negb (0 =? 0)) with false. cbv match.
  change (Z.land 3 0) with 0. rewrite Z.lor_0_r, Z.lor_0_l. by destruct (sw_retain w =? 0); cbn [negb]; rewrite ?Z.lor_0_r.
Qed.

Lemma sn_id_take id n :
  n = (if XSTRLEN id <=? SN_CLIENTID_MAX_LEN then XSTRLEN id else SN_CLIENTID_MAX_LEN) ->
  puts (sn_copy id n) (sn_id id) /\ len (sn_id id) = n.
Proof.
  intros ->. pose proof (XSTRLEN_bound id). unfold sn_id, cstr. rewrite take_take.
  destruct (Z.leb_spec (XSTRLEN id) 23).
  - rewrite Nat.min_r by lia. split; [by apply puts_copy|by apply len_take].
  - rewrite Nat.min_l by lia. split; [apply (puts_copy id 23); lia|apply (len_take id 23); lia].
Qed.

(** A string that fits an [int]. *)
Lemma sn_string_len s : len s < 2147483632 -> i32 (XSTRLEN s) = XSTRLEN s /\ len (cstr s) = XSTRLEN s /\ 0 <= XSTRLEN s.
Proof. pose proof (XSTRLEN_bound s). intros. rewrite i32_small, cstr_len by lia. split_and!; lia. Qed.

Lemma sn_will_topic_answers tx_buf_len type w :
  (forall w', w = Some w' -> sn_will_rep w') ->
  answers (sn_will_topic tx_buf_len type w) ((forall w', w = Some w' -> is_Some (sw_willTopic w')) /\ sn_room tx_buf_len (sn_will_body w))
    (len (sn_frame type (sn_will_body w))) (sn_frame type (sn_will_body w)).
Proof.
  intros Hrep. destruct w as [w|]; cbn [sn_will_topic sn_will_body].
  2:{ apply answers_given; [done|]. by apply sn_write_answers; [apply puts_none|]. }
  destruct (Hrep w eq_refl) as (_ & Hs & _). destruct (sw_willTopic w) as [topic|] eqn:E.
  2:{ apply answers_err; [lia|]. intros [H _]. destruct (H w eq_refl) as [? ?]. congruence. }
  destruct (Hs topic eq_refl) as [_ Hl]. destruct (sn_string_len topic Hl) as (-> & Hc & H0). cbn [from_option id].
  apply answers_given; [intros ? [= <-]; by eexists|].
  apply sn_write_answers; [rewrite <- sn_will_flags_bits; put|]. lens. rewrite Hc. f_equal. lia.
Qed.

Lemma sn_will_msg_answers tx_buf_len type w :
  sn_will_rep w ->
  answers (sn_will_msg tx_buf_len type w) ((sw_willMsgLen w = 0 \/ is_Some (sw_willMsg w)) /\ sn_room tx_buf_len (sn_msg_body w))
    (len (sn_frame type (sn_msg_body w))) (sn_frame type (sn_msg_body w)).
Proof.
  intros (_ & _ & [Hn0 Hn] & Hm). unfold sn_will_msg, sn_msg_body. destruct (sw_willMsg w) as [msg|]; cbn [from_option id].
  - destruct (Hm msg eq_refl) as [_ Hl]. pose proof (len_take msg (sw_willMsgLen w) ltac:(lia)) as Ht.
    apply answers_given; [right; by eexists|]. apply sn_write_answers; [|rewrite Ht; f_equal; lia].
    destruct (Z.ltb_spec 0 (sw_willMsgLen w)); [by apply puts_copy|].
    replace (sw_willMsgLen w) with 0 by lia. apply puts_none.
  - destruct (Z.ltb_spec 0 (sw_willMsgLen w)).
    + apply answers_err; [lia|]. intros [[H' | [? ?]] _]; [lia|done].
    + replace (sw_willMsgLen w) with 0 by lia. rewrite take_nil.
      apply answers_given; [by left|]. by apply sn_write_answers; [apply puts_none|].
Qed.

Lemma sn_topic_request_answers tx_buf_len type duplicate qos packet_id topic_type topic :
  sn_request_rep qos packet_id topic_type topic ->
  let body := sn_request_body duplicate qos packet_id topic_type (default [] topic) in
  answers (sn_topic_request tx_buf_len type duplicate qos packet_id topic_type topic) (is_Some topic /\ sn_room tx_buf_len body)
    (len (sn_frame type body)) (sn_frame type body).
Proof.
  intros (_ & Hid & _ & Hs & Ho). cbv zeta. unfold sn_topic_request. destruct topic as [topic|]; cbn [from_option id].
  2:{ apply answers_err; [lia|]. by intros [[? ?] _]. }
  destruct (Hs topic eq_refl) as [_ Hl]. destruct (sn_string_len topic Hl) as (Ei & Hc & H0).
  apply answers_given; [by eexists|].
  unfold sn_request_body. rewrite sn_flags_bits. destruct (Z.eqb_spec topic_type SN_TOPIC_ID_TYPE_NORMAL) as [->|Ht].
  - rewrite Ei. apply sn_write_answers; [put|]. unfold be16. lens. rewrite Hc. f_equal. lia.
  - destruct (Ho Ht topic eq_refl) as [_ H2]. apply sn_write_answers; [|].
    + repeat apply puts_app; [done|by apply puts_num|apply (puts_copy topic 2); lia].
    + pose proof (len_take topic 2 ltac:(lia)) as Hk. change (Z.to_nat 2) with 2%nat in Hk. unfold be16. lens. by rewrite Hk.
Qed.

Lemma SN_Encode_SearchGW_answers tx_buf_len hops :
  answers (SN_Encode_SearchGW tx_buf_len hops) (True /\ sn_room tx_buf_len [hops])
    (len (sn_frame SN_MSG_TYPE_SEARCHGW [hops])) (sn_frame SN_MSG_TYPE_SEARCHGW [hops]).
Proof.
  apply answers_given; [done|]. unfold SN_Encode_SearchGW, sn_room. change (len _) with 3.
  destruct (Z.ltb_spec tx_buf_len 3); [apply answers_err; lia|]. apply answers_ok. lia.
Qed.

Lemma SN_Encode_Connect_answers tx_buf_len c :
  let o := Out_Connect c in sn_rep o ->
  answers (SN_Encode_Connect tx_buf_len c) (sn_valid o /\ sn_room tx_buf_len (sn_body false o))
    (len (sn_frame SN_MSG_TYPE_CONNECT (sn_body false o))) (sn_frame SN_MSG_TYPE_CONNECT (sn_body false o)).
Proof.
  cbn [sn_rep sn_valid sn_body]. intros (Hk & Hp & Hs). unfold SN_Encode_Connect.
  destruct (sc_client_id c) as [cid|]; [|apply answers_err; [lia|by intros [[[? ?] _] _]]].
  destruct (Z.eqb_spec (sc_protocol_level c) 0); [apply answers_err; [lia|by intros [[_ ?] _]]|].
  apply answers_given; [by split; [eexists|]|]. cbn [from_option id]. cbv zeta. pose proof (XSTRLEN_bound cid).
  destruct (sn_id_take cid _ eq_refl) as [Hput Hlen]. set (k := if _ <=? _ then _ else _) in *.
  assert (0 <= k <= 23) by (unfold k; destruct (Z.leb_spec (XSTRLEN cid) 23); lia).
  rewrite u16_small by lia. apply sn_write_small_answers.
  - change ([?a; ?b] ++ ?l) with ([a] ++ [b] ++ l).
    repeat apply puts_app; [|done|by apply puts_num|done].
    by destruct (sc_clean_session c =? 0), (sc_enable_lwt c =? 0).
  - unfold be16. lens. lia.
  - unfold be16. lens. lia.
Qed.

Lemma SN_Encode_Register_answers tx_buf_len r :
  let o := Out_Register r in sn_rep o ->
  answers (SN_Encode_Register tx_buf_len r) (sn_valid o /\ sn_room tx_buf_len (sn_body false o))
    (len (sn_frame SN_MSG_TYPE_REGISTER (sn_body false o))) (sn_frame SN_MSG_TYPE_REGISTER (sn_body false o)).
Proof.
  cbn [sn_rep sn_valid sn_body]. intros (Ht & Hp & Hs). unfold SN_Encode_Register.
  destruct (rg_topicName r) as [name|]; [|apply answers_err; [lia|by intros [[? ?] _]]].
  apply answers_given; [by eexists|]. cbn [from_option id]. destruct (Hs name eq_refl) as [_ Hl].
  destruct (sn_string_len name Hl) as (-> & Hc & _). apply sn_write_answers; [put|].
  unfold be16. lens. rewrite Hc. f_equal. lia.
Qed.

Lemma SN_Encode_RegAck_answers tx_buf_len r :
  let o := Out_RegAck r in sn_rep o ->
  answers (SN_Encode_RegAck tx_buf_len r) (True /\ sn_room tx_buf_len (sn_body false o))
    (len (sn_frame SN_MSG_TYPE_REGACK (sn_body false o))) (sn_frame SN_MSG_TYPE_REGACK (sn_body false o)).
Proof.
  cbn [sn_rep sn_body]. intros (Ht & Hp & Hc). apply answers_given; [done|]. apply sn_write_small_answers; [|done|unfold be16; lens; lia].
  put.
Qed.

Lemma SN_Encode_PublishResp_answers tx_buf_len type r :
  let o := Out_PublishResp type r in sn_rep o ->
  answers (SN_Encode_PublishResp tx_buf_len type r) (True /\ sn_room tx_buf_len (sn_body false o))
    (len (sn_frame type (sn_body false o))) (sn_frame type (sn_body false o)).
Proof.
  cbn [sn_rep sn_body]. intros (_ & Ht & Hp & Hc). apply answers_given; [done|]. unfold SN_Encode_PublishResp.
  destruct (type =? SN_MSG_TYPE_PUBACK); (apply sn_write_small_answers; [|done|unfold be16; lens; lia]).
  - put.
  - replace (be16 (spr_packet_id r)) with ([] ++ be16 (spr_packet_id r) ++ []) by by rewrite app_nil_r. put.
Qed.

Lemma SN_Encode_Disconnect_answers tx_buf_len d :
  let o := Out_Disconnect d in sn_rep o ->
  answers (SN_Encode_Disconnect tx_buf_len d) (True /\ sn_room tx_buf_len (sn_body false o))
    (len (sn_frame SN_MSG_TYPE_DISCONNECT (sn_body false o))) (sn_frame SN_MSG_TYPE_DISCONNECT (sn_body false o)).
Proof.
  cbn [sn_rep sn_body]. intros Hd. apply answers_given; [done|]. unfold SN_Encode_Disconnect. cbv zeta.
  destruct d as [d|]; [|by apply sn_write_small_answers; [apply puts_none|..]].
  destruct (Hd d eq_refl) as [H0 H1]. destruct (Z.eqb_spec (sd_sleepTmr d) 0) as [->|].
  - by apply sn_write_small_answers; [apply puts_none|..].
  - rewrite (proj2 (Z.ltb_lt 0 _)) by lia. apply sn_write_small_answers; [by apply puts_num|done|unfold be16; lens; lia].
Qed.

Lemma SN_Encode_Ping_answers tx_buf_len p type :
  let o := Out_Ping p type in sn_rep o ->
  answers (SN_Encode_Ping tx_buf_len p type) (sn_valid o /\ sn_room tx_buf_len (sn_body false o))
    (len (sn_frame type (sn_body false o))) (sn_frame type (sn_body false o)).
Proof.
  cbn [sn_rep sn_body sn_valid]. intros [_ Hs]. unfold SN_Encode_Ping.
  destruct (negb _ && negb _) eqn:E; tests; [apply answers_err; [lia|tauto]|].
  apply answers_given; [apply andb_false_iff in E; rewrite !negb_false_iff, !Z.eqb_eq in E; exact E|].
  destruct (type =? SN_MSG_TYPE_PING_REQ); [|by apply sn_write_small_answers; [apply puts_none|..]].
  destruct (p ≫= pq_clientId) as [cid|]; [|by apply sn_write_small_answers; [apply puts_none|..]].
  destruct (Hs cid eq_refl) as [_ Hl]. destruct (sn_string_len cid Hl) as (-> & _ & H0). cbn [from_option id].
  destruct (sn_id_take cid (if 23 <? XSTRLEN cid then 23 else XSTRLEN cid)) as [Hput Hlen].
  { destruct (Z.ltb_spec 23 (XSTRLEN cid)), (Z.leb_spec (XSTRLEN cid) 23); lia. }
  cbv zeta. set (n := if _ <? _ then _ else _) in *.
  assert (0 <= n <= 23) by (unfold n; destruct (Z.ltb_spec 23 (XSTRLEN cid)); lia).
  apply sn_write_small_answers; [|lia..]. destruct (Z.ltb_spec 0 n); [done|].
  replace (sn_id cid) with ([] : list Z); [done|]. destruct (sn_id cid); [done|]. lens. pose proof (len_nonneg l). lia.
Qed.

Lemma sn_publish_topic_puts big_endian p name :
  sp_topic_name p = Some name -> bytes name -> 2 <= len name ->
  puts (sn_publish_topic big_endian p) (sn_topic big_endian (sp_topic_type p) name) /\
  len (sn_topic big_endian (sp_topic_type p) name) = 2.
Proof.
  intros E Hb Hl. unfold sn_publish_topic, sn_topic. rewrite E. destruct (_ || _).
  - split; [apply (puts_copy name 2); lia|]. apply (len_take name 2). lia.
  - destruct name as [|b0 [|b1 name]]; [done..|]. split; [|done]. unfold host16.
    change (rd (b0 :: b1 :: name) 0) with (Ok b0). change (rd (b0 :: b1 :: name) 1) with (Ok b1). cbn [mbind result_bind sn_word].
    apply list.Forall_cons in Hb as [[? ?] [[? ?] _]%list.Forall_cons]. apply puts_num. unfold word16. destruct big_endian; lia.
Qed.

(** A packet whose last part cannot be written. *)
Lemma sn_write_fails tx_buf_len total_len type rest P n bs :
  (exists rc, rc < 0 /\ rest = Err rc) -> ~ P -> answers (sn_write tx_buf_len total_len type rest) P n bs.
Proof.
  intros (rc & Hrc & ->) HP. unfold sn_write. destruct (_ || _); [by apply answers_err|].
  unfold sn_length. destruct (_ <=? _); by apply answers_err.
Qed.

Lemma emit_app_fails e1 bs e2 :
  puts e1 bs -> (exists rc, rc < 0 /\ e2 = Err rc) -> exists rc, rc < 0 /\ e1 +++ e2 = Err rc.
Proof. unfold puts. intros -> (rc & ? & ->). by exists rc. Qed.

(** The body of a PUBLISH whose arguments are accepted. *)
Lemma sn_publish_body big_endian p :
  sn_rep (Out_Publish p) -> sn_valid (Out_Publish p) ->
  puts (Ok (1, [sn_flags (sp_duplicate p) (sp_qos p) (sp_retain p) (sp_topic_type p)]) +++ sn_publish_topic big_endian p +++
        MqttEncode_Num true (sp_packet_id p) +++ sn_publish_payload p) (sn_body big_endian (Out_Publish p)) /\
  len (sn_body big_endian (Out_Publish p)) = sp_total_len p + 5.
Proof.
  cbn [sn_rep sn_valid sn_body]. intros (_ & Hid & _ & Hn & Ht & Hb) [[name En] Hbuf]. rewrite En. cbn [from_option id].
  destruct (Hn name En) as [Hbn Hln]. destruct (sn_publish_topic_puts big_endian p name En Hbn Hln) as [Hp1 Hl1].
  assert (Hp2 : puts (sn_publish_payload p) (take (Z.to_nat (sp_total_len p)) (from_option id [] (sp_buffer p))) /\
    len (take (Z.to_nat (sp_total_len p)) (from_option id [] (sp_buffer p))) = sp_total_len p).
  { unfold sn_publish_payload. destruct (sp_buffer p) as [b|]; cbn [from_option id].
    - destruct (Hb b eq_refl) as [_ Hlb]. split; [apply puts_copy; lia|apply len_take; lia].
    - destruct Hbuf as [->|[? ?]]; [|done]. by split. }
  destruct Hp2 as [Hp2 Hl2]. split.
  - rewrite sn_flags_bits. put.
  - unfold be16. rewrite !len_app, Hl1, Hl2. lens. lia.
Qed.

(** A PUBLISH without a topic or without its payload. *)
Lemma sn_publish_refused big_endian p :
  sn_rep (Out_Publish p) -> ~ sn_valid (Out_Publish p) ->
  exists rc, rc < 0 /\
    Ok (1, [sn_flags (sp_duplicate p) (sp_qos p) (sp_retain p) (sp_topic_type p)]) +++ sn_publish_topic big_endian p +++
    MqttEncode_Num true (sp_packet_id p) +++ sn_publish_payload p = Err rc.
Proof.
  cbn [sn_rep sn_valid]. intros (_ & Hid & _ & Hn & Ht & _) Hv. eapply emit_app_fails; [apply puts_byte|].
  destruct (sp_topic_name p) as [name|] eqn:En.
  2:{ unfold sn_publish_topic. rewrite En. eexists. split; [|done]. lia. }
  destruct (Hn name eq_refl) as [Hbn Hln]. eapply emit_app_fails; [by eapply sn_publish_topic_puts|].
  eapply emit_app_fails; [by apply puts_num|]. unfold sn_publish_payload.
  destruct (sp_buffer p); [destruct Hv; split; [|right]; by eexists|].
  destruct (Z.ltb_spec 0 (sp_total_len p)); [eexists; split; [|done]; lia|].
  destruct Hv. split; [by eexists|left; lia].
Qed.

#[export] Instance sn_publish_valid_dec p : Decision (sn_valid (Out_Publish p)).
Proof. cbn [sn_valid]. apply _. Defined.

Lemma SN_Encode_Publish_answers big_endian tx_buf_len p :
  let o := Out_Publish p in sn_rep o -> tx_buf_len < 2147483648 ->
  answers (SN_Encode_Publish big_endian tx_buf_len p) (sn_valid o /\ sn_room tx_buf_len (sn_body big_endian o))
    (len (sn_frame SN_MSG_TYPE_PUBLISH (sn_body big_endian o))) (sn_frame SN_MSG_TYPE_PUBLISH (sn_body big_endian o)).
Proof.
  cbv zeta. intros Hrep Htx. unfold SN_Encode_Publish. set (o := Out_Publish p) in *.
  assert (Ht : 0 <= sp_total_len p < 4294967296) by apply Hrep.
  destruct (Z.ltb_spec tx_buf_len 0).
  { apply answers_err; [lia|]. intros [_ [_ Hr]]. pose proof (len_nonneg (sn_frame 0 (sn_body big_endian o))). lia. }
  destruct (decide (sn_valid o)) as [Hv|Hv].
  2:{ destruct (_ <? _); [apply answers_err; [lia|tauto]|]. apply sn_write_fails; [|tauto]. by apply sn_publish_refused. }
  destruct (sn_publish_body big_endian p Hrep Hv) as [Hp Hl]. fold o in Hp, Hl.
  destruct (Z.ltb_spec (65535 - 9) (sp_total_len p)).
  { apply answers_err; [lia|]. intros [_ [Hr _]]. rewrite sn_frame_len, Hl in Hr. unfold sn_grow in Hr.
    destruct (Z.ltb_spec 255 (sp_total_len p + 5 + 2)); lia. }
  rewrite u32_small by lia. apply answers_given; [done|]. apply sn_write_answers; [exact Hp|]. rewrite Hl. f_equal. lia.
Qed.

Lemma sn_encode_answers big_endian tx_buf_len o :
  sn_rep o -> tx_buf_len < 2147483648 ->
  answers (sn_encode big_endian tx_buf_len o) (sn_valid o /\ sn_room tx_buf_len (sn_body big_endian o))
    (len (sn_frame (sn_type o) (sn_body big_endian o))) (sn_frame (sn_type o) (sn_body big_endian o)).
Proof.
  intros Hrep Htx. destruct o; cbn [sn_encode sn_type].
  - apply SN_Encode_SearchGW_answers.
  - by apply SN_Encode_Connect_answers.
  - by apply sn_will_topic_answers.
  - by apply sn_will_topic_answers.
  - by apply sn_will_msg_answers.
  - by apply sn_will_msg_answers.
  - by apply SN_Encode_Register_answers.
  - by apply SN_Encode_RegAck_answers.
  - by apply sn_topic_request_answers.
  - by apply sn_topic_request_answers.
  - by apply SN_Encode_Publish_answers.
  - by apply SN_Encode_PublishResp_answers.
  - by apply SN_Encode_Disconnect_answers.
  - by apply SN_Encode_Ping_answers.
Qed.

(** A successful call of an encoder. *)
Lemma sn_encode_inv big_endian tx_buf_len o n bs :
  sn_rep o -> tx_buf_len < 2147483648 -> sn_encode big_endian tx_buf_len o = Ok (n, bs) ->
  sn_valid o /\ sn_room tx_buf_len (sn_body big_endian o) /\
  n = len (sn_frame (sn_type o) (sn_body big_endian o)) /\ bs = sn_frame (sn_type o) (sn_body big_endian o).
Proof.
  intros Hrep Htx E. destruct (answers_inv _ _ _ _ _ _ (sn_encode_answers big_endian tx_buf_len o Hrep Htx) E) as ([? ?] & ? & ?).
  by split_and!.
Qed.

(** ** Property *)

(** C38: the MQTT-SN encoders. For every packet a client sends, whatever its
    fields contain, the encoder stays in tx_buf and in the objects it copies
    from. It succeeds exactly if its arguments are there (no NULL name, no
    missing payload) and the packet fits tx_buf and the 16 bits of the length
    field; then the bytes are one frame of the packet's type and body, with the
    short length field up to 255 bytes and the long one beyond, and the
    returned length is the number of bytes written. *)
Theorem SN_Encode_exact big_endian tx_buf_len o :
  sn_rep o -> tx_buf_len < 2147483648 ->
  answers (sn_encode big_endian tx_buf_len o) (sn_valid o /\ sn_room tx_buf_len (sn_body big_endian o))
    (len (sn_frame (sn_type o) (sn_body big_endian o))) (sn_frame (sn_type o) (sn_body big_endian o)).
Proof. apply sn_encode_answers. Qed.

(** REGISTER of "a/b" fits 11 bytes and not 8. *)
Lemma SN_Encode_exact_witness :
  let r := Out_Register (mkRegister 258 7 (Some [97; 47; 98])) in
  sn_encode false 11 r = Ok (9, [9; 10; 1; 2; 0; 7; 97; 47; 98]) /\ exists rc, rc < 0 /\ sn_encode false 8 r = Err rc.
Proof.
  intros r.
  assert (Hr : sn_rep r).
  { split; [by split|]. split; [by split|]. intros ? [= <-]. split; [by_eval|by vm_compute]. }
  destruct (SN_Encode_exact false 11 r Hr ltac:(lia)) as [[_ E]|[H _]].
  2:{ destruct H. split; [by eexists|]. by vm_compute. }
  destruct (SN_Encode_exact false 8 r Hr ltac:(lia)) as [[[_ [_ H]] _]|[_ H]]; [by vm_compute in H|]. split; [exact E|exact H].
Defined.
