(* ===== verification/SnDecode.v ===== *)
(** * SnDecode: the MQTT-SN decoders ([mqtt_sn_packet.c])

    A structure argument may be NULL: it is an [option], and so is what the
    decoder leaves in it. The first [rx_buf_len] bytes of [rx_buf] count. *)
From S2P Require Import Prelude PacketDefs Wire Frame PacketIO SnDefs SnEncode.

(** ** Operations *)

(** The length field: its value and the number of bytes it takes. *)
Definition sn_total (rx_buf : list Z) (rx_buf_len : Z) : result (Z * Z) :=
  total_len ← rd rx_buf 0;
  if total_len =? SN_PACKET_LEN_IND then
    '(total_len, rc) ← MqttDecode_Num rx_buf 1 (u32 (rx_buf_len - 1));
    Ok (total_len, 1 + rc)
  else Ok (total_len, 1).

(** [MqttDecode_Num] at [pos], bounded by the end of the buffer. *)
Definition sn_num (rx_buf : list Z) (rx_buf_len pos : Z) : result Z :=
  '(x, _) ← MqttDecode_Num rx_buf pos (u32 (rx_buf_len - pos));
  Ok x.

(** Where the MsgId is, from the end of the header; -1 if there is none. *)
Definition sn_id_offset (packet_type : Z) : Z :=
  if (packet_type =? SN_MSG_TYPE_REGACK) || (packet_type =? SN_MSG_TYPE_PUBACK) then 2
  else if (packet_type =? SN_MSG_TYPE_PUBCOMP) || (packet_type =? SN_MSG_TYPE_PUBREC) ||
          (packet_type =? SN_MSG_TYPE_PUBREL) || (packet_type =? SN_MSG_TYPE_UNSUBACK) then 0
  else if packet_type =? SN_MSG_TYPE_SUBACK then 3
  else -1.

(** [p_packet_id] is set if it is not NULL. *)
Definition SN_Decode_Header (rx_buf : list Z) (rx_buf_len : Z) (want_id : bool) : result (Z * (Z * option Z)) :=
  if rx_buf_len <? MQTT_PACKET_HEADER_MIN_SIZE then Err MQTT_CODE_ERROR_BAD_ARG
  else
    '(total_len, pos) ← sn_total rx_buf rx_buf_len;
    if rx_buf_len <? total_len then Err MQTT_CODE_ERROR_OUT_OF_BUFFER
    else if total_len <? pos + 1 then Err MQTT_CODE_ERROR_MALFORMED_DATA
    else
      packet_type ← rd rx_buf pos;
      if want_id then
        let consumed := pos + 1 in
        let id_offset := sn_id_offset packet_type in
        if id_offset <? 0 then Ok (total_len, (packet_type, Some 0))
        else
          let id_avail := total_len - consumed - id_offset in
          if id_avail <? MQTT_DATA_LEN_SIZE then Err MQTT_CODE_ERROR_BAD_ARG
          else
            '(id, _) ← MqttDecode_Num rx_buf (consumed + id_offset) (u32 id_avail);
            Ok (total_len, (packet_type, Some id))
      else Ok (total_len, (packet_type, None)).

(** The checks shared by the decoders of packets of [n] bytes. *)
Definition sn_fixed (rx_buf : list Z) (rx_buf_len n type : Z) : result unit :=
  if rx_buf_len <=? 0 then Err MQTT_CODE_ERROR_BAD_ARG
  else
    total_len ← rd rx_buf 0;
    if negb (total_len =? n) then Err MQTT_CODE_ERROR_MALFORMED_DATA
    else if rx_buf_len <? total_len then Err MQTT_CODE_ERROR_OUT_OF_BUFFER
    else
      t ← rd rx_buf 1;
      if negb (t =? type) then Err MQTT_CODE_ERROR_PACKET_TYPE else Ok tt.

Definition SN_Decode_Advertise (rx_buf : list Z) (rx_buf_len : Z) (gw_info : option SN_Advertise) : result (Z * option SN_Advertise) :=
  _ ← sn_fixed rx_buf rx_buf_len 5 SN_MSG_TYPE_ADVERTISE;
  match gw_info with
  | None => Ok (5, None)
  | Some _ =>
    gwId ← rd rx_buf 2;
    duration ← sn_num rx_buf rx_buf_len 3;
    Ok (5, Some (mkAdvertise gwId duration))
  end.

(** [XMEMCPY] into the address of the gateway. *)
Definition SN_Decode_GWInfo (rx_buf : list Z) (rx_buf_len : Z) (gw_info : option SN_GwInfo) : result (Z * option SN_GwInfo) :=
  if rx_buf_len <=? 0 then Err MQTT_CODE_ERROR_BAD_ARG
  else
    '(total_len, pos) ← sn_total rx_buf rx_buf_len;
    if rx_buf_len <? total_len then Err MQTT_CODE_ERROR_OUT_OF_BUFFER
    else if total_len <? pos + 2 then Err MQTT_CODE_ERROR_MALFORMED_DATA
    else
      type ← rd rx_buf pos;
      if negb (type =? SN_MSG_TYPE_GWINFO) then Err MQTT_CODE_ERROR_PACKET_TYPE
      else
        match gw_info with
        | None => Ok (total_len, None)
        | Some gw =>
          gwId ← rd rx_buf (pos + 1);
          let consumed := pos + 2 in
          if consumed <? total_len then
            let addr_len := total_len - consumed in
            let addr_len := if SIZEOF_SN_GwAddr <? addr_len then SIZEOF_SN_GwAddr else addr_len in
            match gw_gwAddr gw with
            | None => Err MQTT_CODE_ERROR_BAD_ARG
            | Some addr =>
              bs ← slice rx_buf consumed addr_len;
              addr ← put addr 0 bs;
              Ok (total_len, Some (mkGwInfo gwId (Some addr)))
            end
          else Ok (total_len, Some (mkGwInfo gwId (gw_gwAddr gw)))
        end.

Definition SN_Decode_WillTopicReq (rx_buf : list Z) (rx_buf_len : Z) : result Z :=
  _ ← sn_fixed rx_buf rx_buf_len 2 SN_MSG_TYPE_WILLTOPICREQ; Ok 2.

Definition SN_Decode_WillMsgReq (rx_buf : list Z) (rx_buf_len : Z) : result Z :=
  _ ← sn_fixed rx_buf rx_buf_len 2 SN_MSG_TYPE_WILLMSGREQ; Ok 2.

Definition SN_Decode_WillTopicResponse (rx_buf : list Z) (rx_buf_len : Z) : result (Z * Z) :=
  _ ← sn_fixed rx_buf rx_buf_len 3 SN_MSG_TYPE_WILLTOPICRESP;
  ret_code ← rd rx_buf 2;
  Ok (3, ret_code).

Definition SN_Decode_WillMsgResponse (rx_buf : list Z) (rx_buf_len : Z) : result (Z * Z) :=
  _ ← sn_fixed rx_buf rx_buf_len 3 SN_MSG_TYPE_WILLMSGRESP;
  ret_code ← rd rx_buf 2;
  Ok (3, ret_code).

Definition SN_Decode_ConnectAck (rx_buf : list Z) (rx_buf_len : Z) (connect_ack : option SN_ConnectAck) : result (Z * option SN_ConnectAck) :=
  _ ← sn_fixed rx_buf rx_buf_len 3 SN_MSG_TYPE_CONNACK;
  match connect_ack with
  | None => Ok (3, None)
  | Some _ => return_code ← rd rx_buf 2; Ok (3, Some (mkSnConnectAck return_code))
  end.

(** The name is terminated in the buffer, which is returned. *)
Definition SN_Decode_Register (rx_buf : list Z) (rx_buf_len : Z) (regist : option SN_Register)
    : result (Z * option SN_Register * list Z) :=
  if rx_buf_len <=? 0 then Err MQTT_CODE_ERROR_BAD_ARG
  else
    '(total_len, pos) ← sn_total rx_buf rx_buf_len;
    if rx_buf_len <=? total_len then Err MQTT_CODE_ERROR_OUT_OF_BUFFER
    else if total_len <? 7 then Err MQTT_CODE_ERROR_MALFORMED_DATA
    else
      type ← rd rx_buf pos;
      if negb (type =? SN_MSG_TYPE_REGISTER) then Err MQTT_CODE_ERROR_PACKET_TYPE
      else
        match regist with
        | None => Ok (total_len, None, rx_buf)
        | Some _ =>
          topicId ← sn_num rx_buf rx_buf_len (pos + 1);
          packet_id ← sn_num rx_buf rx_buf_len (pos + 3);
          let consumed := pos + 5 in
          if total_len <? consumed then Err MQTT_CODE_ERROR_MALFORMED_DATA
          else
            topicName ← slice rx_buf consumed (total_len - consumed);
            rx_buf ← put rx_buf total_len [0];
            Ok (total_len, Some (mkRegister topicId packet_id (Some topicName)), rx_buf)
        end.

Definition SN_Decode_RegAck (rx_buf : list Z) (rx_buf_len : Z) (regack : option SN_RegAck) : result (Z * option SN_RegAck) :=
  _ ← sn_fixed rx_buf rx_buf_len 7 SN_MSG_TYPE_REGACK;
  match regack with
  | None => Ok (7, None)
  | Some _ =>
    topicId ← sn_num rx_buf rx_buf_len 2;
    packet_id ← sn_num rx_buf rx_buf_len 4;
    return_code ← rd rx_buf 6;
    Ok (7, Some (mkRegAck topicId packet_id return_code))
  end.

Definition SN_Decode_SubscribeAck (rx_buf : list Z) (rx_buf_len : Z) (subscribe_ack : option SN_SubAck) : result (Z * option SN_SubAck) :=
  _ ← sn_fixed rx_buf rx_buf_len 8 SN_MSG_TYPE_SUBACK;
  match subscribe_ack with
  | None => Ok (8, None)
  | Some _ =>
    flags ← rd rx_buf 2;
    topicId ← sn_num rx_buf rx_buf_len 3;
    packet_id ← sn_num rx_buf rx_buf_len 5;
    return_code ← rd rx_buf 7;
    Ok (8, Some (mkSnSubAck flags topicId packet_id return_code))
  end.

Definition SN_Decode_Publish (rx_buf : list Z) (rx_buf_len : Z) : result (Z * SN_Publish) :=
  if rx_buf_len <? MQTT_PACKET_HEADER_MIN_SIZE then Err MQTT_CODE_ERROR_BAD_ARG
  else
    '(total_len, pos) ← sn_total rx_buf rx_buf_len;
    if rx_buf_len <? total_len then Err MQTT_CODE_ERROR_OUT_OF_BUFFER
    else if total_len <? 7 then Err MQTT_CODE_ERROR_MALFORMED_DATA
    else
      type ← rd rx_buf pos;
      if negb (type =? SN_MSG_TYPE_PUBLISH) then Err MQTT_CODE_ERROR_PACKET_TYPE
      else
        flags ← rd rx_buf (pos + 1);
        packet_id ← sn_num rx_buf rx_buf_len (pos + 4);
        let qos := Z.shiftr (Z.land flags SN_PACKET_FLAG_QOS_MASK) SN_PACKET_FLAG_QOS_SHIFT in
        if ((qos =? MQTT_QOS_1) || (qos =? MQTT_QOS_2)) && (packet_id =? 0) then Err MQTT_CODE_ERROR_PACKET_ID
        else
          let topic_type := Z.land flags SN_PACKET_FLAG_TOPICIDTYPE_MASK in
          if SN_TOPIC_ID_TYPE_SHORT <? topic_type then Err MQTT_CODE_ERROR_MALFORMED_DATA
          else
            let consumed := pos + 6 in
            if total_len <? consumed then Err MQTT_CODE_ERROR_MALFORMED_DATA
            else
              topic_name ← slice rx_buf (pos + 2) MQTT_DATA_LEN_SIZE;
              buffer ← slice rx_buf consumed (total_len - consumed);
              Ok (total_len,
                  mkSnPublish packet_id qos (Z.land flags SN_PACKET_FLAG_RETAIN) (Z.land flags SN_PACKET_FLAG_DUPLICATE)
                    topic_type (Some topic_name) MQTT_DATA_LEN_SIZE (total_len - consumed) (Some buffer) (total_len - consumed) 0).

(** PUBACK, PUBREC, PUBREL and PUBCOMP; here the length is compared with the
    buffer first. *)
Definition SN_Decode_PublishResp (rx_buf : list Z) (rx_buf_len type : Z) (publish_resp : option SN_PublishResp)
    : result (Z * option SN_PublishResp) :=
  if rx_buf_len <=? 0 then Err MQTT_CODE_ERROR_BAD_ARG
  else
    let puback := type =? SN_MSG_TYPE_PUBACK in
    total_len ← rd rx_buf 0;
    if rx_buf_len <? total_len then Err MQTT_CODE_ERROR_OUT_OF_BUFFER
    else if negb (total_len =? (if puback then 7 else 4)) then Err MQTT_CODE_ERROR_MALFORMED_DATA
    else
      rec_type ← rd rx_buf 1;
      if negb (rec_type =? type) then Err MQTT_CODE_ERROR_PACKET_TYPE
      else
        match publish_resp with
        | None => Ok (total_len, None)
        | Some r =>
          if puback then
            topicId ← sn_num rx_buf rx_buf_len 2;
            packet_id ← sn_num rx_buf rx_buf_len 4;
            return_code ← rd rx_buf 6;
            Ok (total_len, Some (mkSnPublishResp packet_id topicId return_code))
          else
            packet_id ← sn_num rx_buf rx_buf_len 2;
            Ok (total_len, Some (mkSnPublishResp packet_id (spr_topicId r) (spr_return_code r)))
        end.

Definition SN_Decode_UnsubscribeAck (rx_buf : list Z) (rx_buf_len : Z) (unsubscribe_ack : option SN_UnsubscribeAck)
    : result (Z * option SN_UnsubscribeAck) :=
  _ ← sn_fixed rx_buf rx_buf_len 4 SN_MSG_TYPE_UNSUBACK;
  match unsubscribe_ack with
  | None => Ok (4, None)
  | Some _ => packet_id ← sn_num rx_buf rx_buf_len 2; Ok (4, Some (mkSnUnsubscribeAck packet_id))
  end.

Definition SN_Decode_Disconnect (rx_buf : list Z) (rx_buf_len : Z) : result Z :=
  _ ← sn_fixed rx_buf rx_buf_len 2 SN_MSG_TYPE_DISCONNECT; Ok 2.

Definition SN_Decode_Ping (rx_buf : list Z) (rx_buf_len : Z) : result Z :=
  if rx_buf_len <=? 0 then Err MQTT_CODE_ERROR_BAD_ARG
  else
    total_len ← rd rx_buf 0;
    if negb (total_len =? 2) then Err MQTT_CODE_ERROR_MALFORMED_DATA
    else if rx_buf_len <? total_len then Err MQTT_CODE_ERROR_OUT_OF_BUFFER
    else
      type ← rd rx_buf 1;
      if negb (type =? SN_MSG_TYPE_PING_REQ) && negb (type =? SN_MSG_TYPE_PING_RESP) then Err MQTT_CODE_ERROR_PACKET_TYPE
      else Ok total_len.

(** ** Frames in a buffer *)

(** A frame starts the buffer: its length field, of [pos] bytes, says [total]. *)
Definition sn_head (rx_buf : list Z) (pos total : Z) : Prop :=
  (pos = 1 /\ sits rx_buf 0 [total] /\ is_byte total /\ total <> SN_PACKET_LEN_IND) \/
  (pos = 3 /\ sits rx_buf 0 ([SN_PACKET_LEN_IND] ++ be16 total) /\ word16 total).

(** A whole packet has arrived. *)
Definition sn_received (rx_buf : list Z) (rx_buf_len type : Z) (body : list Z) (total : Z) : Prop :=
  exists pos, sn_head rx_buf pos total /\ total = pos + 1 + len body /\ total <= rx_buf_len /\ sits rx_buf pos ([type] ++ body).

(** A whole packet with the short length field. *)
Definition sn_short (rx_buf : list Z) (rx_buf_len type : Z) (body : list Z) (total : Z) : Prop :=
  total = len body + 2 /\ total <= rx_buf_len /\ sits rx_buf 0 ([total; type] ++ body).

(** The call succeeds exactly when something can be found, and finds it. *)
Definition reads {A} (r : result A) (found : A -> Prop) : Prop :=
  (exists a, r = Ok a /\ found a) \/ ((forall a, ~ found a) /\ exists rc, rc < 0 /\ r = Err rc).

Lemma reads_ok {A} (a : A) (found : A -> Prop) : found a -> reads (Ok a) found.
Proof. left. by exists a. Qed.

Lemma reads_err {A} rc (found : A -> Prop) : rc < 0 -> (forall a, ~ found a) -> reads (Err rc) found.
Proof. right. split; [done|]. by exists rc. Qed.

Lemma sits_unique buf i a b : sits buf i a -> sits buf i b -> len a = len b -> a = b.
Proof.
  intros Ha Hb Hl. pose proof (slice_sits _ _ _ _ Ha eq_refl) as E. rewrite (slice_sits _ _ _ _ Hb Hl) in E. by injection E.
Qed.

Lemma sits_byte buf i a b xs ys : sits buf i (a :: xs) -> sits buf i (b :: ys) -> a = b.
Proof. intros Ha Hb. pose proof (rd_sits _ _ _ _ Ha) as E. rewrite (rd_sits _ _ _ _ Hb) in E. by injection E. Qed.

Lemma sits_bytes buf i a : bytes buf -> sits buf i a -> bytes a.
Proof. intros Hb (pre & post & -> & _). apply list.Forall_app in Hb as [_ Hb]. by apply list.Forall_app in Hb as [Hb _]. Qed.

Lemma sn_head_range rx_buf pos total : sn_head rx_buf pos total -> 1 <= pos <= 3 /\ word16 total.
Proof. intros [(-> & _ & ? & _)|(-> & _ & ?)]; unfold word16, is_byte in *; lia. Qed.

Lemma sn_head_unique rx_buf p t p' t' : sn_head rx_buf p t -> sn_head rx_buf p' t' -> p = p' /\ t = t'.
Proof.
  intros [(-> & H & _ & Hn)|(-> & H & Ht)] [(-> & H' & _ & Hn')|(-> & H' & Ht')].
  - split; [done|]. by eapply sits_byte.
  - destruct Hn. by eapply sits_byte.
  - destruct Hn'. by eapply sits_byte.
  - split; [done|]. pose proof (sits_unique _ _ _ _ H H' eq_refl) as E. unfold be16, word16 in *. injection E as E1 E2.
    rewrite (Z.div_mod t 256), (Z.div_mod t' 256) by lia. congruence.
Qed.

(** What the decoder knows about any packet in the buffer. *)
Lemma sn_received_inv rx_buf n pos total type body total' :
  sn_head rx_buf pos total -> sn_received rx_buf n type body total' ->
  total' = total /\ total = pos + 1 + len body /\ total <= n /\ rd rx_buf pos = Ok type /\ sits rx_buf (pos + 1) body.
Proof.
  intros H (pos' & H' & El & Hle & Hs). destruct (sn_head_unique _ _ _ _ _ H H') as [-> ->].
  split_and!; [done|done|done|by eapply rd_sits|by apply sits_cons in Hs as [_ ?]].
Qed.

(** None, if the buffer ends before the packet. *)
Lemma sn_cut rx_buf n pos total type body total' :
  sn_head rx_buf pos total -> (n <? total) = true -> ~ sn_received rx_buf n type body total'.
Proof. intros Hh E%Z.ltb_lt H. apply (sn_received_inv _ _ _ _ _ _ _ Hh) in H. lia. Qed.

(** At most one, if the buffer starts with its length. *)
Lemma sn_received_unique rx_buf n pos total type body body' total' :
  sn_head rx_buf pos total -> sits rx_buf (pos + 1) body -> len body = total - pos - 1 ->
  sn_received rx_buf n type body' total' -> total' = total /\ body' = body.
Proof.
  intros Hh Hs Hl H. apply (sn_received_inv _ _ _ _ _ _ _ Hh) in H as (-> & ? & _ & _ & Hs').
  split; [done|]. eapply sits_unique; [done..|lia].
Qed.

Lemma sn_received_intro rx_buf n pos total type body :
  sn_head rx_buf pos total -> total <= n -> rd rx_buf pos = Ok type -> sits rx_buf (pos + 1) body -> len body = total - (pos + 1) ->
  sn_received rx_buf n type body total.
Proof.
  intros H Hle Ht Hs Hl. exists pos. split_and!; [done|lia|done|]. apply sits_app. split; [by apply sits_rd|done].
Qed.

Lemma sn_short_received rx_buf n type body total :
  bytes rx_buf -> sn_short rx_buf n type body total -> sn_received rx_buf n type body total.
Proof.
  intros Hb (-> & Hle & Hs). change ([?a; ?b] ++ ?l) with (a :: [b] ++ l) in Hs. apply sits_cons in Hs as [H1 H2].
  pose proof (len_nonneg body). exists 1. split_and!; [|lia|done|exact H2]. left. split_and!; [done|done| |lia].
  apply (sits_bytes _ _ _ Hb) in H1. by apply list.Forall_cons in H1 as [? _].
Qed.

(** The bytes that are left after the type. *)
Lemma sn_rest rx_buf n pos total :
  rx_ok rx_buf n -> 0 <= pos -> pos + 1 <= total <= n ->
  exists body, sits rx_buf (pos + 1) body /\ len body = total - (pos + 1) /\ bytes body.
Proof.
  intros (Hb & Hn & _) Hp Ht.
  assert (E : slice rx_buf (pos + 1) (total - (pos + 1)) = Ok (take (Z.to_nat (total - (pos + 1))) (drop (Z.to_nat (pos + 1)) rx_buf)))
    by (apply slice_ok; lia).
  destruct (slice_inv _ _ _ _ E) as (_ & _ & _ & Hl & Hs). eexists. split; [exact Hs|]. split; [done|]. by eapply sits_bytes.
Qed.

Lemma be16_of b0 b1 : is_byte b0 -> is_byte b1 -> [b0; b1] = be16 (b0 * 256 + b1) /\ word16 (b0 * 256 + b1).
Proof. unfold is_byte, word16, be16. intros. split; [|lia]. by rewrite Z.div_add_l, Z.div_small, Z.add_0_r, Z.add_comm, Z.mod_add, Z.mod_small by lia. Qed.

Lemma sn_num_sits rx_buf n pos x :
  rx_ok rx_buf n -> 0 <= pos -> pos + 2 <= n -> word16 x -> sits rx_buf pos (be16 x) -> sn_num rx_buf n pos = Ok x.
Proof.
  intros (_ & Hl & Hn) Hp H2 Hx Hs. unfold sn_num. rewrite u32_small by lia.
  rewrite (MqttDecode_Num_sits rx_buf pos (n - pos) x) by (done || lia). done.
Qed.

Lemma sn_num_ok rx_buf n pos : rx_ok rx_buf n -> 0 <= pos -> pos + 2 <= n -> exists x, sn_num rx_buf n pos = Ok x.
Proof.
  intros (Hb & Hl & Hn) Hp H2. unfold sn_num, MqttDecode_Num. rewrite u32_small by lia. decide_test.
  destruct (rd_ok rx_buf pos ltac:(lia)) as (b0 & -> & _), (rd_ok rx_buf (pos + 1) ltac:(lia)) as (b1 & -> & _). by eexists.
Qed.

Lemma sn_num_yields rx_buf n pos : rx_ok rx_buf n -> 0 <= pos <= n -> yields (sn_num rx_buf n pos) (fun _ => True).
Proof.
  intros Hrx Hp. destruct (Z.le_gt_cases (pos + 2) n) as [H|H].
  - by destruct (sn_num_ok rx_buf n pos Hrx ltac:(lia) H) as (x & ->).
  - unfold sn_num, MqttDecode_Num. destruct Hrx as (_ & _ & ?). rewrite u32_small by lia. by decide_test.
Qed.

Lemma reads_none {A} (r : result A) (found : A -> Prop) : (forall a, ~ found a) -> yields r (fun _ => False) -> reads r found.
Proof. intros Hn. destruct r; [done| |done]. intros H. by apply reads_err. Qed.

(** The length field is read, unless the buffer ends within it. *)
Lemma sn_total_reads rx_buf n :
  rx_ok rx_buf n -> 0 < n -> reads (sn_total rx_buf n) (fun '(total, pos) => sn_head rx_buf pos total /\ pos <= n).
Proof.
  intros (Hb & Hl & Hn) H0. unfold sn_total. destruct (rd_ok rx_buf 0 ltac:(lia)) as (b & Eb & _).
  rewrite Eb. cbn [mbind result_bind]. pose proof (sits_rd _ _ _ Eb) as Hs. pose proof (rd_byte _ _ _ Hb Eb) as Hbb.
  destruct (Z.eqb_spec b SN_PACKET_LEN_IND) as [->|Hne].
  2:{ apply reads_ok. split; [|lia]. by left. }
  rewrite u32_small by lia. destruct (Z.lt_ge_cases (n - 1) 2).
  - unfold MqttDecode_Num. rewrite (proj2 (Z.ltb_lt _ _)) by done. apply reads_err; [lia|].
    intros [total pos] [[(_ & Hs' & _ & Hne)|(-> & _)] Hp]; [|lia]. destruct Hne. by eapply sits_byte.
  - pose proof (MqttDecode_Num_yields rx_buf 1 (n - 1) Hb ltac:(lia) ltac:(lia)) as Hy.
    destruct (rd_ok rx_buf 1 ltac:(lia)) as (b1 & E1 & _). destruct (rd_ok rx_buf 2 ltac:(lia)) as (b2 & E2 & _).
    destruct (MqttDecode_Num rx_buf 1 (n - 1)) as [[x k]|rc|] eqn:E; [|exfalso..].
    + destruct Hy as (-> & _ & Hx & Hs'). apply reads_ok. split; [|lia]. right. split_and!; [done|by apply sits_cons|apply Hx].
    + unfold MqttDecode_Num in E. rewrite (proj2 (Z.ltb_ge _ _)) in E by lia. change (1 + 1) with 2 in E.
      by rewrite E1, E2 in E.
    + done.
Qed.

(** ** Packets of a fixed size *)

(** The checks pass exactly for a packet of that type and size; what follows
    them reads the body. *)
Lemma sn_fixed_reads {A} rx_buf n k type (rest : result A) (found : list Z -> A -> Prop) :
  rx_ok rx_buf n -> 2 <= k < 256 ->
  (forall body, bytes body -> len body = k - 2 -> k <= n -> sits rx_buf 2 body -> exists a, rest = Ok a /\ found body a) ->
  reads (_ ← sn_fixed rx_buf n k type; rest)
    (fun a => exists body, sn_short rx_buf n type body k /\ found body a).
Proof.
  intros Hrx Hk Hrest. unfold sn_fixed. destruct (Z.leb_spec n 0).
  { apply reads_err; [lia|]. intros a (body & (_ & ? & _) & _). lia. }
  destruct Hrx as (Hb & Hl & Hn). destruct (rd_ok rx_buf 0 ltac:(lia)) as (b & Eb & _). rewrite Eb. cbn [mbind result_bind].
  destruct (Z.eqb_spec b k) as [->|Hne]; cbn [negb].
  2:{ apply reads_err; [lia|]. intros a (body & (_ & _ & Hs) & _). apply Hne. apply rd_sits in Hs. congruence. }
  destruct (Z.ltb_spec n k).
  { apply reads_err; [lia|]. intros a (body & (_ & ? & _) & _). lia. }
  destruct (rd_ok rx_buf 1 ltac:(lia)) as (t & Et & _). rewrite Et. cbn [mbind result_bind].
  destruct (Z.eqb_spec t type) as [->|Hne]; cbn [negb].
  2:{ apply reads_err; [lia|]. intros a (body & (_ & _ & Hs) & _). apply Hne.
      change ([k; type] ++ body) with (k :: type :: body) in Hs. apply sits_cons in Hs as [_ Hs].
      apply rd_sits in Hs. change (0 + 1) with 1 in Hs. congruence. }
  destruct (sn_rest rx_buf n 1 k ltac:(done) ltac:(lia) ltac:(lia)) as (body & Hs & Hlb & Hbb).
  destruct (Hrest body Hbb ltac:(lia) ltac:(lia) Hs) as (a & -> & Ha). apply reads_ok. exists body. split; [|done].
  split_and!; [lia|lia|]. change ([k; type] ++ body) with ([k] ++ [type] ++ body).
  apply sits_app. split; [by apply sits_rd|]. apply sits_app. split; [by apply sits_rd|exact Hs].
Qed.

(** The fields of a body, one after the other. *)
Lemma take16 body : bytes body -> 2 <= len body ->
  exists x rest, body = be16 x ++ rest /\ word16 x /\ bytes rest /\ len rest = len body - 2.
Proof.
  intros Hb Hl. destruct body as [|b0 [|b1 rest]]; [by vm_compute in Hl..|].
  apply list.Forall_cons in Hb as [H0 [H1 Hb]%list.Forall_cons]. destruct (be16_of b0 b1 H0 H1) as [E Hx].
  eexists _, rest. split_and!; [by rewrite <- E|done|done|]. lens. lia.
Qed.

Lemma take8 body : bytes body -> 1 <= len body ->
  exists b rest, body = [b] ++ rest /\ is_byte b /\ bytes rest /\ len rest = len body - 1.
Proof.
  intros Hb Hl. destruct body as [|b rest]; [by vm_compute in Hl|]. apply list.Forall_cons in Hb as [H0 Hb].
  exists b, rest. split_and!; [done..|]. lens. lia.
Qed.

Lemma len_0 {A} (l : list A) : len l = 0 -> l = [].
Proof. destruct l; [done|]. rewrite len_cons. pose proof (len_nonneg l). lia. Qed.

Lemma len_be16 x : len (be16 x) = 2.
Proof. done. Qed.

(** What a decoder leaves in an optional structure. *)
Definition opt_found {A} (P : A -> A -> Prop) (x0 x : option A) : Prop :=
  match x0, x with
  | None, None => True
  | Some a0, Some a => P a0 a
  | _, _ => False
  end.

Ltac field16 x :=
  match goal with
  | Hb : bytes ?body, Hl : len ?body = _ |- _ =>
    let rest := fresh "rest" in let Hx := fresh "Hx" in let Hb' := fresh "Hb" in let Hl' := fresh "Hl" in
    destruct (take16 body Hb ltac:(lia)) as (x & rest & -> & Hx & Hb' & Hl'); rewrite Hl in Hl'; clear Hb Hl
  end.
Ltac field8 x :=
  match goal with
  | Hb : bytes ?body, Hl : len ?body = _ |- _ =>
    let rest := fresh "rest" in let Hx := fresh "Hx" in let Hb' := fresh "Hb" in let Hl' := fresh "Hl" in
    destruct (take8 body Hb ltac:(lia)) as (x & rest & -> & Hx & Hb' & Hl'); rewrite Hl in Hl'; clear Hb Hl
  end.
Ltac fields_end :=
  match goal with Hb : bytes ?body, Hl : len ?body = _ |- _ => apply len_0 in Hl as -> end.

(** Run the reads of the goal over the fields that lie in the buffer. *)
Ltac run_reads :=
  repeat match goal with
  | Hrx : rx_ok ?rx ?n, Hs : sits ?rx ?i (be16 ?x ++ _), Hx : word16 ?x |- context [sn_num ?rx ?n ?j] =>
    let Hf := fresh "Hf" in
    apply sits_app in Hs as [Hf Hs]; rewrite len_be16 in Hs;
    replace j with i by lia; rewrite (sn_num_sits rx n i x Hrx ltac:(lia) ltac:(lia) Hx Hf); clear Hf; cbn [mbind result_bind]
  | Hs : sits ?rx ?i ([?b] ++ _) |- context [rd ?rx ?j] =>
    let Hf := fresh "Hf" in
    apply (sits_app rx i [b]) in Hs as [Hf Hs]; change (len [b]) with 1 in Hs;
    replace j with i by lia; rewrite (rd_sits rx i b [] Hf); clear Hf; cbn [mbind result_bind]
  end.

Definition regack_body (r : SN_RegAck) : list Z := be16 (ra_topicId r) ++ be16 (ra_packet_id r) ++ [ra_return_code r].
Definition suback_body (r : SN_SubAck) : list Z :=
  [ssa_flags r] ++ be16 (ssa_topicId r) ++ be16 (ssa_packet_id r) ++ [ssa_return_code r].
Definition advertise_body (r : SN_Advertise) : list Z := [ad_gwId r] ++ be16 (ad_duration r).

(** The contract of a decoder of packets of [k] bytes. *)
Definition fixed_reads {A} (rx_buf : list Z) (n k type : Z) (r : result (Z * option A)) (r0 : option A) (P : list Z -> A -> A -> Prop) : Prop :=
  reads r (fun a => exists body, sn_short rx_buf n type body k /\ (a.1 = k /\ opt_found (P body) r0 a.2)).

Lemma SN_Decode_Advertise_reads rx_buf n r0 :
  rx_ok rx_buf n ->
  fixed_reads rx_buf n 5 SN_MSG_TYPE_ADVERTISE (SN_Decode_Advertise rx_buf n r0) r0 (fun body _ r => body = advertise_body r).
Proof.
  intros Hrx. apply sn_fixed_reads; [done|lia|]. intros body Hb Hl Hn Hs.
  destruct r0 as [r0|]; [|by eexists]. field8 g. field16 d. fields_end. run_reads. eexists. split; [done|]. by rewrite app_nil_r.
Qed.

Lemma SN_Decode_ConnectAck_reads rx_buf n r0 :
  rx_ok rx_buf n ->
  fixed_reads rx_buf n 3 SN_MSG_TYPE_CONNACK (SN_Decode_ConnectAck rx_buf n r0) r0 (fun body _ r => body = [sca_return_code r]).
Proof.
  intros Hrx. apply sn_fixed_reads; [done|lia|]. intros body Hb Hl Hn Hs.
  destruct r0 as [r0|]; [|by eexists]. field8 c. fields_end. run_reads. by eexists.
Qed.

Lemma SN_Decode_RegAck_reads rx_buf n r0 :
  rx_ok rx_buf n ->
  fixed_reads rx_buf n 7 SN_MSG_TYPE_REGACK (SN_Decode_RegAck rx_buf n r0) r0 (fun body _ r => body = regack_body r).
Proof.
  intros Hrx. apply sn_fixed_reads; [done|lia|]. intros body Hb Hl Hn Hs.
  destruct r0 as [r0|]; [|by eexists]. field16 t. field16 i. field8 c. fields_end. run_reads. by eexists.
Qed.

Lemma SN_Decode_SubscribeAck_reads rx_buf n r0 :
  rx_ok rx_buf n ->
  fixed_reads rx_buf n 8 SN_MSG_TYPE_SUBACK (SN_Decode_SubscribeAck rx_buf n r0) r0 (fun body _ r => body = suback_body r).
Proof.
  intros Hrx. apply sn_fixed_reads; [done|lia|]. intros body Hb Hl Hn Hs.
  destruct r0 as [r0|]; [|by eexists]. field8 f. field16 t. field16 i. field8 c. fields_end. run_reads. by eexists.
Qed.

Lemma SN_Decode_UnsubscribeAck_reads rx_buf n r0 :
  rx_ok rx_buf n ->
  fixed_reads rx_buf n 4 SN_MSG_TYPE_UNSUBACK (SN_Decode_UnsubscribeAck rx_buf n r0) r0 (fun body _ r => body = be16 (sua_packet_id r)).
Proof.
  intros Hrx. apply sn_fixed_reads; [done|lia|]. intros body Hb Hl Hn Hs.
  destruct r0 as [r0|]; [|by eexists]. field16 i. fields_end. run_reads. eexists. split; [done|]. by rewrite app_nil_r.
Qed.

(** Packets without a structure. *)
Lemma sn_fixed_empty_reads rx_buf n type :
  rx_ok rx_buf n -> reads (_ ← sn_fixed rx_buf n 2 type; Ok 2) (fun rc => exists body, sn_short rx_buf n type body 2 /\ (rc = 2 /\ body = [])).
Proof. intros Hrx. apply sn_fixed_reads; [done|lia|]. intros body Hb Hl Hn Hs. apply len_0 in Hl as ->. by eexists. Qed.

Lemma sn_fixed_code_reads rx_buf n type :
  rx_ok rx_buf n ->
  reads (_ ← sn_fixed rx_buf n 3 type; ret_code ← rd rx_buf 2; Ok (3, ret_code))
    (fun a => exists body, sn_short rx_buf n type body 3 /\ (a.1 = 3 /\ body = [a.2])).
Proof.
  intros Hrx. apply sn_fixed_reads; [done|lia|]. intros body Hb Hl Hn Hs. field8 c. fields_end. run_reads. by eexists.
Qed.

(** ** Packets of any size *)

Lemma reads_guard {A} (b : bool) rc (r : result A) (found : A -> Prop) :
  rc < 0 -> (b = true -> forall a, ~ found a) -> (b = false -> reads r found) -> reads (if b then Err rc else r) found.
Proof. intros Hrc Ht Hf. destruct b; [by apply reads_err; [|apply Ht]|by apply Hf]. Qed.

Lemma reads_iff {A} (r : result A) (found found' : A -> Prop) : (forall a, found a <-> found' a) -> reads r found -> reads r found'.
Proof.
  intros H [(a & -> & Ha)|[Hn Hr]]; [left; exists a; split; [done|by apply H]|right]. split; [|done]. intros a Ha. by eapply Hn, H.
Qed.

(** Whatever is found lies in a packet that has arrived. *)
Lemma sn_variable_reads {A} rx_buf n (k : Z -> Z -> result A) (found : A -> Prop) :
  rx_ok rx_buf n -> 0 < n ->
  (forall a, found a -> exists type body total, sn_received rx_buf n type body total) ->
  (forall pos total, sn_head rx_buf pos total -> pos <= n -> reads (k total pos) found) ->
  reads ('(total, pos) ← sn_total rx_buf n; k total pos) found.
Proof.
  intros Hrx H0 Hf Hk. destruct (sn_total_reads rx_buf n Hrx H0) as [([total pos] & -> & Hh & Hp)|[Hn (rc & Hrc & ->)]].
  - by apply Hk.
  - apply reads_err; [done|]. intros a (type & body & total & pos & Hh & El & Hle & _)%Hf.
    apply (Hn (total, pos)). split; [done|]. pose proof (len_nonneg body). lia.
Qed.

(** The type and what follows it, once the length is known to be in range. *)
Lemma sn_type_reads {A} rx_buf n pos total (k : Z -> result A) (found : A -> Prop) :
  rx_ok rx_buf n -> sn_head rx_buf pos total -> pos + 1 <= n ->
  (forall type, rd rx_buf pos = Ok type -> reads (k type) found) -> reads (type ← rd rx_buf pos; k type) found.
Proof.
  intros (Hb & Hl & _) Hh Hn Hk. apply sn_head_range in Hh as [? _].
  destruct (rd_ok rx_buf pos ltac:(lia)) as (t & E & _). rewrite E. by apply Hk.
Qed.

(** The packet the decoder is looking at. *)
Lemma sn_packet rx_buf n pos total type :
  rx_ok rx_buf n -> sn_head rx_buf pos total -> pos + 1 <= total <= n -> rd rx_buf pos = Ok type ->
  exists body, sn_received rx_buf n type body total /\ sits rx_buf (pos + 1) body /\ bytes body /\ len body = total - pos - 1.
Proof.
  intros Hrx Hh Ht Et. destruct (sn_rest rx_buf n pos total Hrx ltac:(pose proof (sn_head_range _ _ _ Hh); lia) Ht) as (body & Hs & Hl & Hb).
  exists body. split_and!; [|done..|lia]. eapply sn_received_intro; [done|lia|done..].
Qed.

(** A 16-bit field somewhere in a body. *)
Lemma field_at body off : bytes body -> 0 <= off -> off + 2 <= len body -> exists x, word16 x /\ sits body off (be16 x).
Proof.
  intros Hb H0 Hl. destruct (slice body off 2) as [s|?|] eqn:E; [|rewrite slice_ok in E by lia; done..].
  destruct (slice_inv _ _ _ _ E) as (_ & _ & _ & Hls & Hs). pose proof (sits_bytes _ _ _ Hb Hs) as Hbs.
  destruct (take16 s Hbs ltac:(lia)) as (x & rest & -> & Hx & _ & Hr). rewrite Hls in Hr. apply len_0 in Hr as ->.
  exists x. split; [done|]. by rewrite app_nil_r in Hs.
Qed.

Definition header_found (rx_buf : list Z) (n : Z) (want_id : bool) (a : Z * (Z * option Z)) : Prop :=
  exists body, sn_received rx_buf n a.2.1 body a.1 /\
    if want_id then
      exists id, a.2.2 = Some id /\
        if sn_id_offset a.2.1 <? 0 then id = 0 else word16 id /\ sits body (sn_id_offset a.2.1) (be16 id)
    else a.2.2 = None.

Lemma sn_id_offset_range t : -1 <= sn_id_offset t <= 3.
Proof. unfold sn_id_offset. repeat (destruct (_ || _); [lia|]). destruct (_ =? _); lia. Qed.

Lemma sits_within buf i a j b : sits buf i a -> sits a j b -> sits buf (i + j) b.
Proof.
  intros (pre & post & -> & ->) (pre' & post' & -> & ->). exists (pre ++ pre'), (post' ++ post).
  rewrite len_app, <- !app_assoc. done.
Qed.

Lemma SN_Decode_Header_reads rx_buf n want_id : rx_ok rx_buf n -> reads (SN_Decode_Header rx_buf n want_id) (header_found rx_buf n want_id).
Proof.
  intros Hrx. apply reads_guard; [lia| |].
  { intros E%Z.ltb_lt [rc [ty id]] (body & (pos & Hh & El & Hle & _) & _). cbn [fst snd] in *.
    pose proof (sn_head_range _ _ _ Hh). pose proof (len_nonneg body). lia. }
  intros Hn%Z.ltb_ge. apply sn_variable_reads; [done|lia|intros a (body & H & _); eauto|].
  intros pos total Hh Hp. apply reads_guard; [lia| |].
  { intros E%Z.ltb_lt a (body & H & _). apply (sn_received_inv _ _ _ _ _ _ _ Hh) in H. lia. }
  intros E1%Z.ltb_ge. apply reads_guard; [lia| |].
  { intros E%Z.ltb_lt a (body & H & _). apply (sn_received_inv _ _ _ _ _ _ _ Hh) in H as (_ & ? & _). pose proof (len_nonneg body). lia. }
  intros E2%Z.ltb_ge. apply (sn_type_reads rx_buf n pos total); [done|done|lia|]. intros type Et.
  destruct (sn_packet rx_buf n pos total type Hrx Hh ltac:(lia) Et) as (body & Hr & Hs & Hb & Hl).
  assert (Hu : forall a, header_found rx_buf n want_id a -> a.1 = total /\ a.2.1 = type /\
    (want_id = true -> 0 <= sn_id_offset type -> sn_id_offset type + 2 <= len body)).
  { intros a (body' & H' & Hid). apply (sn_received_inv _ _ _ _ _ _ _ Hh) in H' as (E & El' & _ & Et' & Hs').
    rewrite Et in Et'. injection Et' as Et'. rewrite <- Et' in *. split_and!; [done|done|]. intros -> H0. destruct Hid as (id & _ & Hid).
    rewrite (proj2 (Z.ltb_ge _ _)) in Hid by done. destruct Hid as [_ [_ Hid]%sits_bound]. rewrite len_be16 in Hid. lia. }
  destruct want_id; [|apply reads_ok; by exists body]. cbv zeta. pose proof (sn_id_offset_range type).
  destruct (Z.ltb_spec (sn_id_offset type) 0) as [Hoff|Hoff].
  { apply reads_ok. exists body. split; [done|]. cbn [fst snd]. rewrite (proj2 (Z.ltb_lt _ _)) by done. by eexists. }
  apply reads_guard; [lia| |].
  { intros E%Z.ltb_lt a (_ & _ & Ha)%Hu. pose proof (Ha eq_refl Hoff). lia. }
  intros E3%Z.ltb_ge.
  destruct (field_at body (sn_id_offset type) Hb Hoff ltac:(lia)) as (x & Hx & Hsx).
  pose proof Hrx as (_ & Hlrx & Hn31). pose proof (sn_head_range _ _ _ Hh) as [Hpos _]. rewrite u32_small by lia.
  rewrite (MqttDecode_Num_sits rx_buf (pos + 1 + sn_id_offset type) _ x Hx) by (done || by eapply sits_within).
  apply reads_ok. exists body. split; [done|]. cbn [fst snd]. rewrite (proj2 (Z.ltb_ge _ _)) by done. by exists x.
Qed.

(** The checks shared by the decoders of packets of any size. *)
Lemma sn_typed_reads {A} rx_buf n pos total (g : bool) lo type (k : result A) (found : A -> Prop) :
  rx_ok rx_buf n -> sn_head rx_buf pos total -> pos + 1 <= lo ->
  (forall a, found a -> exists body total', sn_received rx_buf n type body total' /\ lo <= total') ->
  (g = true -> forall a, ~ found a) -> (g = false -> total <= n) ->
  (forall body, sn_received rx_buf n type body total -> sits rx_buf (pos + 1) body -> bytes body -> len body = total - pos - 1 ->
     lo <= total -> g = false -> reads k found) ->
  reads (if g then Err MQTT_CODE_ERROR_OUT_OF_BUFFER
         else if total <? lo then Err MQTT_CODE_ERROR_MALFORMED_DATA
         else t ← rd rx_buf pos; if negb (t =? type) then Err MQTT_CODE_ERROR_PACKET_TYPE else k) found.
Proof.
  intros Hrx Hh Hlo Hf Hg Hg' Hk. apply reads_guard; [lia|done|]. intros Eg.
  apply reads_guard; [lia| |].
  { intros E%Z.ltb_lt a (body & t' & H & Hl)%Hf. apply (sn_received_inv _ _ _ _ _ _ _ Hh) in H as (-> & _). lia. }
  intros E%Z.ltb_ge. pose proof (Hg' Eg) as Hn. apply (sn_type_reads rx_buf n pos total); [done|done|lia|]. intros t Et.
  apply reads_guard; [lia| |].
  { intros Ht%negb_true_iff%Z.eqb_neq a (body & t' & H & Hl)%Hf.
    apply (sn_received_inv _ _ _ _ _ _ _ Hh) in H as (_ & _ & _ & Et' & _). congruence. }
  intros Ht%negb_false_iff%Z.eqb_eq. subst t. destruct (sn_packet rx_buf n pos total type Hrx Hh ltac:(lia) Et) as (body & ? & ? & ? & ?).
  by eapply Hk.
Qed.

(** *** GWINFO *)

(** The address starts with the bytes that came, at most two. *)
Definition gwinfo_found (body : list Z) (g0 g : SN_GwInfo) : Prop :=
  exists addr, body = [gw_gwId g] ++ addr /\
    match gw_gwAddr g0 with
    | None => addr = [] /\ gw_gwAddr g = None
    | Some a0 => gw_gwAddr g = Some (take 2 addr ++ drop (length (take 2 addr)) a0)
    end.

Lemma SN_Decode_GWInfo_reads rx_buf n g0 :
  rx_ok rx_buf n -> (forall g a, g0 = Some g -> gw_gwAddr g = Some a -> 2 <= len a) ->
  reads (SN_Decode_GWInfo rx_buf n g0)
    (fun a => exists body, sn_received rx_buf n SN_MSG_TYPE_GWINFO body a.1 /\ 1 <= len body /\ opt_found (gwinfo_found body) g0 a.2).
Proof.
  intros Hrx Hg. apply reads_guard; [lia| |].
  { intros E%Z.leb_le a (body & (pos & Hh & El & Hle & _) & ? & _). pose proof (sn_head_range _ _ _ Hh). lia. }
  intros Hn%Z.leb_gt. apply sn_variable_reads; [done|lia|intros a (body & H & _); eauto|].
  intros pos total Hh Hp. apply (sn_typed_reads rx_buf n);
    [done|done|lia| |intros E a (body & H & _); by apply (sn_cut _ _ _ _ _ _ _ Hh E H)|apply Z.ltb_ge|].
  { intros a (body & H & H1 & _). exists body, a.1. split; [done|].
    apply (sn_received_inv _ _ _ _ _ _ _ Hh) in H as (-> & ? & _). lia. }
  intros body Hr Hs Hb Hl Hlo _. destruct g0 as [g0|]; [|apply reads_ok; exists body; split_and!; [done|lia|done]].
  destruct (take8 body Hb ltac:(lia)) as (gw & addr & -> & _ & Hba & Hla). rewrite Hl in Hla.
  pose proof Hs as Hs0. apply (sits_app _ _ [gw]) in Hs as [Hgw Ha]. change (len [gw]) with 1 in Ha.
  rewrite (rd_sits _ _ _ _ Hgw). cbn [mbind result_bind]. cbv zeta. destruct (Z.ltb_spec (pos + 2) total).
  2:{ apply reads_ok. exists ([gw] ++ addr). split_and!; [done|lia|]. exists addr. split; [done|].
      rewrite (len_0 addr) by lia. destruct (gw_gwAddr g0) eqn:E; cbn [gw_gwAddr]; rewrite ?E; done. }
  set (k := if _ <? _ then _ else _). assert (Hk : k = len (take 2 addr)).
  { unfold k. destruct (Z.ltb_spec 2 (total - (pos + 2))).
    - symmetry. apply (len_take addr 2). lia.
    - rewrite take_ge; [lia|]. unfold len in *. lia. }
  destruct (gw_gwAddr g0) as [a0|] eqn:E.
  2:{ apply reads_err; [lia|]. intros a (body' & H' & _ & Hf).
      destruct (sn_received_unique _ _ _ _ _ _ _ _ Hh Hs0 ltac:(lia) H') as [_ ->].
      destruct a.2 as [g|]; [|done]. destruct Hf as (addr' & Eb & Hf). rewrite E in Hf. destruct Hf as [-> _].
      rewrite app_nil_r in Eb. injection Eb as _ ->. cbn in Hla. unfold len in Hla. cbn in Hla. lia. }
  pose proof (Hg g0 a0 eq_refl E) as Ha0. pose proof (len_nonneg (take 2 addr)).
  assert (H2 : len (take 2 addr) <= 2) by (unfold len; rewrite length_take; lia).
  rewrite (slice_sits rx_buf (pos + 2) (take 2 addr) k); [|replace (pos + 2) with (pos + 1 + 1) by lia; rewrite <- (take_drop 2 addr) in Ha; by apply sits_app in Ha as [Ha _]|done].
  cbn [mbind result_bind]. unfold put.
  rewrite (proj2 (Z.leb_le (0 + len (take 2 addr)) (len a0))) by lia. cbn [Z.leb Z.compare andb mbind result_bind].
  apply reads_ok. exists ([gw] ++ addr). split_and!; [done|lia|]. exists addr. split; [done|]. rewrite E. cbn [gw_gwAddr].
  rewrite Z.add_0_l. unfold len. by rewrite Nat2Z.id.
Qed.

(** *** REGISTER *)

Definition register_found (body : list Z) (_ r : SN_Register) : Prop :=
  exists name, rg_topicName r = Some name /\ body = be16 (rg_topicId r) ++ be16 (rg_packet_id r) ++ name.

(** The buffer has room for the terminator, which is all that changes in it. *)
Lemma SN_Decode_Register_reads rx_buf n r0 :
  rx_ok rx_buf n ->
  reads (SN_Decode_Register rx_buf n r0)
    (fun '(rc, r, rx') => exists body, sn_received rx_buf n SN_MSG_TYPE_REGISTER body rc /\ 7 <= rc < n /\
       opt_found (register_found body) r0 r /\ (r0 <> None -> 4 <= len body) /\
       match r0 with
       | None => rx' = rx_buf
       | Some _ => put rx_buf rc [0] = Ok rx'
       end).
Proof.
  intros Hrx. apply reads_guard; [lia| |].
  { intros E%Z.leb_le [[rc r] rx'] (body & _ & ? & _). lia. }
  intros Hn%Z.leb_gt. apply sn_variable_reads; [done|lia|intros [[rc r] rx'] (body & H & _); eauto|].
  intros pos total Hh Hp. pose proof (sn_head_range _ _ _ Hh) as [Hpos _]. apply (sn_typed_reads rx_buf n); [done|done|lia| | | |].
  { intros [[rc r] rx'] (body & H & ? & _). exists body, rc. by split; [|lia]. }
  { intros E%Z.leb_le [[rc r] rx'] (body & H & ? & _). apply (sn_received_inv _ _ _ _ _ _ _ Hh) in H. lia. }
  { intros E%Z.leb_gt. lia. }
  intros body Hr Hs Hb Hl Hlo Hlt%Z.leb_gt.
  destruct r0 as [r0|]; [|apply reads_ok; exists body; by split_and!; [|lia|lia|..]].
  destruct (Z.ltb_spec total (pos + 5)) as [Hshort|Hlong].
  - destruct (sn_num_ok rx_buf n (pos + 1) Hrx ltac:(lia) ltac:(lia)) as (t & ->).
    destruct (sn_num_ok rx_buf n (pos + 3) Hrx ltac:(lia) ltac:(lia)) as (i & ->). cbn [mbind result_bind]. cbv zeta. decide_test.
    apply reads_err; [lia|]. intros [[rc r] rx'] (body' & H' & _ & _ & H4 & _).
    destruct (sn_received_unique _ _ _ _ _ _ _ _ Hh Hs Hl H') as [_ ->]. specialize (H4 ltac:(done)). lia.
  - destruct (take16 body Hb ltac:(lia)) as (t & rest & -> & Ht & Hb1 & Hl1).
    destruct (take16 rest Hb1 ltac:(lia)) as (i & name & -> & Hi & Hb2 & Hl2).
    pose proof Hs as Hs0. run_reads. cbv zeta. decide_test.
    rewrite (slice_sits rx_buf (pos + 5) name) by (first [lia|by replace (pos + 5) with (pos + 1 + 2 + 2) by lia]).
    cbn [mbind result_bind]. pose proof Hrx as (_ & Hlr & _).
    assert (E : exists rx', put rx_buf total [0] = Ok rx').
    { unfold put. change (len [0]) with 1. rewrite !(proj2 (Z.leb_le _ _)) by lia. by eexists. }
    destruct E as [rx' E]. rewrite E. cbn [mbind result_bind]. apply reads_ok. exists (be16 t ++ be16 i ++ name).
    split_and!; [done|lia|lia|by exists name|lia|done].
Qed.

(** *** PUBLISH *)

Definition flags_qos (flags : Z) : Z := flags / 32 mod 4.

(** The message in a PUBLISH; the flags keep their places in [retain] and
    [duplicate]. *)
Definition sn_message (flags n0 n1 id : Z) (payload : list Z) : SN_Publish :=
  mkSnPublish id (flags_qos flags) (flags / 16 mod 2 * 16) (flags / 128 * 128) (flags mod 4) (Some [n0; n1]) 2
    (len payload) (Some payload) (len payload) 0.

(** No reserved topic type, and an identifier at QoS 1 and 2. *)
Definition sn_flags_ok (flags id : Z) : Prop :=
  flags mod 4 <> 3 /\ (flags_qos flags = MQTT_QOS_1 \/ flags_qos flags = MQTT_QOS_2 -> id <> 0).

Definition publish_found (body : list Z) (p : SN_Publish) : Prop :=
  exists flags n0 n1 id payload, body = [flags; n0; n1] ++ be16 id ++ payload /\ word16 id /\
    sn_flags_ok flags id /\ p = sn_message flags n0 n1 id payload.

Lemma flags_fields f :
  is_byte f ->
  Z.shiftr (Z.land f SN_PACKET_FLAG_QOS_MASK) SN_PACKET_FLAG_QOS_SHIFT = flags_qos f /\
  Z.land f SN_PACKET_FLAG_RETAIN = f / 16 mod 2 * 16 /\ Z.land f SN_PACKET_FLAG_DUPLICATE = f / 128 * 128 /\
  Z.land f SN_PACKET_FLAG_TOPICIDTYPE_MASK = f mod 4.
Proof.
  intros Hf.
  pose proof (byte_enum (fun f => (Z.shiftr (Z.land f 96) 5 =? f / 32 mod 4) && (Z.land f 16 =? f / 16 mod 2 * 16) &&
    (Z.land f 128 =? f / 128 * 128) && (Z.land f 3 =? f mod 4)) f ltac:(by vm_compute) Hf) as H.
  rewrite !andb_true_iff, !Z.eqb_eq in H. unfold flags_qos. tauto.
Qed.

Lemma be16_inj x y : word16 x -> word16 y -> be16 x = be16 y -> x = y.
Proof. unfold word16, be16. intros Hx Hy [= H1 H2]. rewrite (Z.div_mod x 256), (Z.div_mod y 256) by lia. congruence. Qed.

Lemma publish_found_inv f n0 n1 id payload p :
  word16 id -> publish_found ([f; n0; n1] ++ be16 id ++ payload) p -> sn_flags_ok f id /\ p = sn_message f n0 n1 id payload.
Proof.
  intros Hid (f' & n0' & n1' & id' & payload' & E & Hid' & Hok & ->). injection E as <- <- <- E1 E2 <-.
  assert (id' = id) as -> by (apply be16_inj; [done..|]; unfold be16; congruence). done.
Qed.

Lemma SN_Decode_Publish_reads rx_buf n :
  rx_ok rx_buf n ->
  reads (SN_Decode_Publish rx_buf n)
    (fun a => exists body, sn_received rx_buf n SN_MSG_TYPE_PUBLISH body a.1 /\ publish_found body a.2).
Proof.
  intros Hrx. apply reads_guard; [lia| |].
  { intros E%Z.ltb_lt a (body & (pos & Hh & El & Hle & _) & _). pose proof (sn_head_range _ _ _ Hh). pose proof (len_nonneg body). lia. }
  intros Hn%Z.ltb_ge. apply sn_variable_reads; [done|lia|intros a (body & H & _); eauto|].
  intros pos total Hh Hp. pose proof (sn_head_range _ _ _ Hh) as [Hpos _].
  assert (Hlen : forall body p, publish_found body p -> 5 <= len body).
  { intros body p (f & n0 & n1 & id & payload & -> & _). rewrite !len_app, len_be16. pose proof (len_nonneg payload). change (len [f; n0; n1]) with 3. lia. }
  apply (sn_typed_reads rx_buf n);
    [done|done|lia| |intros E a (body & H & _); by apply (sn_cut _ _ _ _ _ _ _ Hh E H)|apply Z.ltb_ge|].
  { intros a (body & H & Hf). exists body, a.1. split; [done|]. apply Hlen in Hf.
    apply (sn_received_inv _ _ _ _ _ _ _ Hh) in H as (-> & ? & _). lia. }
  intros body Hr Hs Hb Hl Hlo Hle%Z.ltb_ge.
  destruct (take8 body Hb ltac:(lia)) as (f & r1 & -> & Hf & Hb1 & Hl1). pose proof Hs as Hs0.
  apply (sits_app _ _ [f]) in Hs as [Hsf Hs1]. change (len [f]) with 1 in Hs1. rewrite (rd_sits _ _ _ _ Hsf). cbn [mbind result_bind].
  destruct (flags_fields f Hf) as (E1 & E2 & E3 & E4). rewrite E1, E2, E3, E4.
  destruct (Z.lt_ge_cases total (pos + 6)) as [Hshort|Hlong].
  { apply reads_none.
    - intros a (body' & H' & Hf'). destruct (sn_received_unique _ _ _ _ _ _ _ _ Hh Hs0 ltac:(lia) H') as [_ ->].
      apply Hlen in Hf'. lia.
    - apply yields_bind. eapply yields_mono; [apply sn_num_yields; [done|lia]|]. intros id _. cbv zeta.
      destruct (_ && _); [done|]. destruct (_ <? _); [done|]. by decide_test. }
  destruct (take8 r1 Hb1 ltac:(lia)) as (n0 & r2 & -> & _ & Hb2 & Hl2).
  destruct (take8 r2 Hb2 ltac:(lia)) as (n1 & r3 & -> & _ & Hb3 & Hl3).
  destruct (take16 r3 Hb3 ltac:(lia)) as (id & payload & -> & Hid & _ & Hl4).
  assert (Hu : forall a, (exists body, sn_received rx_buf n SN_MSG_TYPE_PUBLISH body a.1 /\ publish_found body a.2) -> sn_flags_ok f id).
  { intros a (body' & H' & Hf'). destruct (sn_received_unique _ _ _ _ _ _ _ _ Hh Hs0 ltac:(lia) H') as [_ ->].
    apply (publish_found_inv f n0 n1 id payload) in Hf'; tauto. }
  pose proof Hs1 as Hsn. apply (sits_app _ _ [n0]) in Hs1 as [_ Hs1]. apply (sits_app _ _ [n1]) in Hs1 as [_ Hs1].
  change (len [_]) with 1 in Hs1. run_reads. cbv zeta.
  apply reads_guard; [lia| |].
  { intros E a Ha%Hu. apply andb_true_iff in E as [E ->%Z.eqb_eq]. apply orb_true_iff in E. rewrite !Z.eqb_eq in E. by apply Ha. }
  intros Eid. apply reads_guard; [lia| |].
  { intros E%Z.ltb_lt a [Ha _]%Hu. pose proof (Z.mod_pos_bound f 4 ltac:(lia)). lia. }
  intros Etop%Z.ltb_ge. decide_test.
  rewrite (slice_sits rx_buf (pos + 2) [n0; n1]); [|replace (pos + 2) with (pos + 1 + 1) by lia; by apply (sits_app _ _ [n0; n1]) in Hsn as [? _]|done].
  rewrite (slice_sits rx_buf (pos + 6) payload); [|replace (pos + 6) with (pos + 1 + 1 + 1 + 1 + 2) by lia; exact Hs1|lia].
  cbn [mbind result_bind]. apply reads_ok. exists ([f] ++ [n0] ++ [n1] ++ be16 id ++ payload). split; [done|].
  exists f, n0, n1, id, payload. split_and!; [done|done| |].
  - split; [lia|]. intros Hq ->. rewrite andb_true_r in Eid. apply orb_false_iff in Eid. rewrite !Z.eqb_neq in Eid. tauto.
  - unfold sn_message. cbn [snd]. by replace (total - (pos + 6)) with (len payload) by lia.
Qed.

(** *** Publish responses and PING *)

(** The codes of errors do not matter. *)
Definition alike {A} (r r' : result A) : Prop :=
  match r, r' with
  | Ok a, Ok b => a = b
  | Err c, Err d => c = d \/ c < 0
  | UB, UB => True
  | _, _ => False
  end.

Lemma reads_alike {A} (r r' : result A) (found : A -> Prop) : alike r r' -> reads r' found -> reads r found.
Proof.
  intros H [(a & -> & Ha)|[Hn (rc & Hrc & ->)]]; destruct r; try done.
  - cbn in H. subst. by apply reads_ok.
  - apply reads_err; [|done]. by destruct H as [->|].
Qed.

Lemma alike_refl {A} (r : result A) : alike r r.
Proof. destruct r; cbn; auto. Qed.

Definition resp_body_found (type : Z) (body : list Z) (r0 r : SN_PublishResp) : Prop :=
  if type =? SN_MSG_TYPE_PUBACK then body = be16 (spr_topicId r) ++ be16 (spr_packet_id r) ++ [spr_return_code r]
  else body = be16 (spr_packet_id r) /\ spr_topicId r = spr_topicId r0 /\ spr_return_code r = spr_return_code r0.

Definition resp_size (type : Z) : Z := if type =? SN_MSG_TYPE_PUBACK then 7 else 4.

Lemma SN_Decode_PublishResp_reads rx_buf n type r0 :
  rx_ok rx_buf n ->
  fixed_reads rx_buf n (resp_size type) type (SN_Decode_PublishResp rx_buf n type r0) r0 (resp_body_found type).
Proof.
  intros Hrx. unfold fixed_reads.
  set (rest := match r0 with
    | None => Ok (resp_size type, None)
    | Some r =>
      if type =? SN_MSG_TYPE_PUBACK then
        topicId ← sn_num rx_buf n 2; packet_id ← sn_num rx_buf n 4; return_code ← rd rx_buf 6;
        Ok (resp_size type, Some (mkSnPublishResp packet_id topicId return_code))
      else
        packet_id ← sn_num rx_buf n 2; Ok (resp_size type, Some (mkSnPublishResp packet_id (spr_topicId r) (spr_return_code r)))
    end).
  apply (reads_alike _ (_ ← sn_fixed rx_buf n (resp_size type) type; rest)).
  - unfold SN_Decode_PublishResp, sn_fixed. destruct (n <=? 0); [by right|]. cbv zeta. fold (resp_size type).
    destruct (rd rx_buf 0) as [t|?|]; cbn [mbind result_bind]; [|by left|done].
    destruct (n <? t); [by destruct (negb _); right|]. destruct (Z.eqb_spec t (resp_size type)) as [->|]; cbn [negb]; [|by right].
    destruct (rd rx_buf 1) as [ty|?|]; cbn [mbind result_bind]; [|by left|done].
    destruct (negb _); [by right|]. apply alike_refl.
  - assert (2 <= resp_size type < 256) by (unfold resp_size; destruct (_ =? _); lia).
    apply sn_fixed_reads; [done|done|]. intros body Hb Hl Hn Hs. unfold rest, resp_body_found, resp_size in *.
    destruct r0 as [r0|]; [|by eexists]. destruct (type =? SN_MSG_TYPE_PUBACK).
    + field16 t. field16 i. field8 c. fields_end. run_reads. by eexists.
    + field16 i. fields_end. run_reads. eexists. split; [done|]. split; [done|]. by rewrite app_nil_r.
Qed.

Lemma SN_Decode_Ping_reads rx_buf n :
  rx_ok rx_buf n ->
  reads (SN_Decode_Ping rx_buf n)
    (fun rc => exists type body, (type = SN_MSG_TYPE_PING_REQ \/ type = SN_MSG_TYPE_PING_RESP) /\
       sn_short rx_buf n type body 2 /\ (rc = 2 /\ body = [])).
Proof.
  intros Hrx. pose proof Hrx as (Hb & Hl & _).
  apply reads_guard; [lia|intros E%Z.leb_le rc (? & ? & _ & (_ & ? & _) & _); lia|]. intros Hn%Z.leb_gt.
  destruct (rd_ok rx_buf 0 ltac:(lia)) as (b & Eb & _). rewrite Eb. cbn [mbind result_bind].
  apply reads_guard; [lia| |].
  { intros E%negb_true_iff%Z.eqb_neq rc (? & ? & _ & (_ & _ & Hs) & _). apply rd_sits in Hs. congruence. }
  intros ->%negb_false_iff%Z.eqb_eq. apply reads_guard; [lia|intros E%Z.ltb_lt rc (? & ? & _ & (_ & ? & _) & _); lia|].
  intros H2%Z.ltb_ge. destruct (rd_ok rx_buf 1 ltac:(lia)) as (t & Et & _). rewrite Et. cbn [mbind result_bind].
  apply reads_guard; [lia| |].
  { intros E rc (t' & body & Ht & (_ & _ & Hs) & _). apply (sits_app _ _ [2]) in Hs as [_ Hs]. apply rd_sits in Hs.
    change (0 + len [2]) with 1 in Hs. rewrite Et in Hs. injection Hs as ->. by destruct Ht as [->| ->]. }
  intros Ht. apply reads_ok. exists t, []. apply andb_false_iff in Ht. rewrite !negb_false_iff, !Z.eqb_eq in Ht.
  split_and!; [done| |done..]. split_and!; [done|lia|]. apply (sits_app _ _ [2]). split; by apply sits_rd.
Qed.

(** ** All packets a client receives *)

(** A call of a decoder, with the structure it is to fill, and what it leaves. *)
Inductive SnIn : Set :=
  | In_Advertise (r : option SN_Advertise)
  | In_GWInfo (r : option SN_GwInfo)
  | In_WillTopicReq
  | In_WillMsgReq
  | In_WillTopicResponse (ret_code : Z)
  | In_WillMsgResponse (ret_code : Z)
  | In_ConnectAck (r : option SN_ConnectAck)
  | In_Register (r : option SN_Register)
  | In_RegAck (r : option SN_RegAck)
  | In_SubscribeAck (r : option SN_SubAck)
  | In_UnsubscribeAck (r : option SN_UnsubscribeAck)
  | In_Publish (p : SN_Publish)
  | In_PublishResp (type : Z) (r : option SN_PublishResp)
  | In_Disconnect
  | In_Ping.

(** The call, without the buffer a REGISTER leaves. *)
Definition sn_decode (rx_buf : list Z) (n : Z) (call : SnIn) : result (Z * SnIn) :=
  match call with
  | In_Advertise r => '(rc, r) ← SN_Decode_Advertise rx_buf n r; Ok (rc, In_Advertise r)
  | In_GWInfo r => '(rc, r) ← SN_Decode_GWInfo rx_buf n r; Ok (rc, In_GWInfo r)
  | In_WillTopicReq => rc ← SN_Decode_WillTopicReq rx_buf n; Ok (rc, In_WillTopicReq)
  | In_WillMsgReq => rc ← SN_Decode_WillMsgReq rx_buf n; Ok (rc, In_WillMsgReq)
  | In_WillTopicResponse _ => '(rc, c) ← SN_Decode_WillTopicResponse rx_buf n; Ok (rc, In_WillTopicResponse c)
  | In_WillMsgResponse _ => '(rc, c) ← SN_Decode_WillMsgResponse rx_buf n; Ok (rc, In_WillMsgResponse c)
  | In_ConnectAck r => '(rc, r) ← SN_Decode_ConnectAck rx_buf n r; Ok (rc, In_ConnectAck r)
  | In_Register r => '(rc, r, _) ← SN_Decode_Register rx_buf n r; Ok (rc, In_Register r)
  | In_RegAck r => '(rc, r) ← SN_Decode_RegAck rx_buf n r; Ok (rc, In_RegAck r)
  | In_SubscribeAck r => '(rc, r) ← SN_Decode_SubscribeAck rx_buf n r; Ok (rc, In_SubscribeAck r)
  | In_UnsubscribeAck r => '(rc, r) ← SN_Decode_UnsubscribeAck rx_buf n r; Ok (rc, In_UnsubscribeAck r)
  | In_Publish _ => '(rc, p) ← SN_Decode_Publish rx_buf n; Ok (rc, In_Publish p)
  | In_PublishResp type r => '(rc, r) ← SN_Decode_PublishResp rx_buf n type r; Ok (rc, In_PublishResp type r)
  | In_Disconnect => rc ← SN_Decode_Disconnect rx_buf n; Ok (rc, In_Disconnect)
  | In_Ping => rc ← SN_Decode_Ping rx_buf n; Ok (rc, In_Ping)
  end.

(** The type the call expects, and the body that gives the result. *)
Definition sn_means (call res : SnIn) (type : Z) (body : list Z) : Prop :=
  match call, res with
  | In_Advertise r0, In_Advertise r =>
    type = SN_MSG_TYPE_ADVERTISE /\ len body = 3 /\ opt_found (fun _ r => body = advertise_body r) r0 r
  | In_GWInfo r0, In_GWInfo r => type = SN_MSG_TYPE_GWINFO /\ 1 <= len body /\ opt_found (gwinfo_found body) r0 r
  | In_WillTopicReq, In_WillTopicReq => type = SN_MSG_TYPE_WILLTOPICREQ /\ body = []
  | In_WillMsgReq, In_WillMsgReq => type = SN_MSG_TYPE_WILLMSGREQ /\ body = []
  | In_WillTopicResponse _, In_WillTopicResponse c => type = SN_MSG_TYPE_WILLTOPICRESP /\ body = [c]
  | In_WillMsgResponse _, In_WillMsgResponse c => type = SN_MSG_TYPE_WILLMSGRESP /\ body = [c]
  | In_ConnectAck r0, In_ConnectAck r =>
    type = SN_MSG_TYPE_CONNACK /\ len body = 1 /\ opt_found (fun _ r => body = [sca_return_code r]) r0 r
  | In_Register r0, In_Register r =>
    type = SN_MSG_TYPE_REGISTER /\ opt_found (register_found body) r0 r /\ (r0 <> None -> 4 <= len body)
  | In_RegAck r0, In_RegAck r => type = SN_MSG_TYPE_REGACK /\ len body = 5 /\ opt_found (fun _ r => body = regack_body r) r0 r
  | In_SubscribeAck r0, In_SubscribeAck r =>
    type = SN_MSG_TYPE_SUBACK /\ len body = 6 /\ opt_found (fun _ r => body = suback_body r) r0 r
  | In_UnsubscribeAck r0, In_UnsubscribeAck r =>
    type = SN_MSG_TYPE_UNSUBACK /\ len body = 2 /\ opt_found (fun _ r => body = be16 (sua_packet_id r)) r0 r
  | In_Publish _, In_Publish p => type = SN_MSG_TYPE_PUBLISH /\ publish_found body p
  | In_PublishResp t r0, In_PublishResp t' r =>
    type = t /\ t' = t /\ len body = resp_size t - 2 /\ opt_found (resp_body_found t body) r0 r
  | In_Disconnect, In_Disconnect => type = SN_MSG_TYPE_DISCONNECT /\ body = []
  | In_Ping, In_Ping => (type = SN_MSG_TYPE_PING_REQ \/ type = SN_MSG_TYPE_PING_RESP) /\ body = []
  | _, _ => False
  end.

(** Which frames the call takes: those of varying size in both forms. *)
Definition sn_takes (rx_buf : list Z) (n : Z) (call : SnIn) (type : Z) (body : list Z) (total : Z) : Prop :=
  match call with
  | In_GWInfo _ | In_Publish _ => sn_received rx_buf n type body total
  | In_Register _ => sn_received rx_buf n type body total /\ 7 <= total < n
  | _ => sn_short rx_buf n type body total
  end.

Definition sn_found (rx_buf : list Z) (n : Z) (call : SnIn) (a : Z * SnIn) : Prop :=
  exists type body, sn_takes rx_buf n call type body a.1 /\ sn_means call a.2 type body.

(** The address of a gateway has two bytes. *)
Definition sn_call_ok (call : SnIn) : Prop :=
  match call with In_GWInfo (Some g) => forall a, gw_gwAddr g = Some a -> 2 <= len a | _ => True end.

Lemma reads_then {A B} (r : result A) (k : A -> result B) (found : A -> Prop) (found' : B -> Prop) :
  reads r found -> (forall a, found a -> exists b, k a = Ok b /\ found' b) -> (forall b, found' b -> exists a, found a) ->
  reads (r ≫= k) found'.
Proof.
  intros [(a & -> & Ha)|[Hn (rc & Hrc & ->)]] H1 H2.
  - destruct (H1 a Ha) as (b & Eb & Hb). cbn [mbind result_bind]. rewrite Eb. by apply reads_ok.
  - apply reads_err; [done|]. intros b (a & Ha)%H2. by apply (Hn a).
Qed.

(** A decoder of packets of [k] bytes as one of the calls. *)
Lemma fixed_call {A} rx_buf n k type (r : result (Z * option A)) r0 P (f : option A -> SnIn) call :
  fixed_reads rx_buf n k type r r0 P ->
  (forall ty body total, sn_takes rx_buf n call ty body total <-> sn_short rx_buf n ty body total) ->
  (forall x ty body, sn_means call (f x) ty body <-> ty = type /\ len body = k - 2 /\ opt_found (P body) r0 x) ->
  (forall res ty body, sn_means call res ty body -> exists x, res = f x) ->
  reads ('(rc, x) ← r; Ok (rc, f x)) (sn_found rx_buf n call).
Proof.
  intros Hr Ht Hm Hx. eapply reads_then; [exact Hr|..].
  - intros [rc x] (body & Hs & E & Ho). cbn [fst snd] in *. eexists. split; [done|]. exists type, body. cbn [fst snd].
    rewrite Ht, Hm, E. destruct Hs as (Ek & Hs). split_and!; [by split|done|lia|done].
  - intros [rc res] (ty & body & Hs & Hmean). cbn [fst snd] in *. destruct (Hx _ _ _ Hmean) as [x ->].
    apply Ht in Hs. apply Hm in Hmean as (-> & Hl & Ho). exists (k, x), body. destruct Hs as (E & Hs).
    replace k with rc by lia. by split_and!.
Qed.

(** A decoder without a structure, of packets with the body [body_of x]. *)
Lemma plain_call {A} rx_buf n k type (r : result A) (out : A -> Z * SnIn) (body_of : A -> list Z) call (f : A -> result (Z * SnIn)) :
  (forall a, f a = Ok (out a)) ->
  reads r (fun a => exists body, sn_short rx_buf n type body k /\ ((out a).1 = k /\ body = body_of a)) ->
  (forall ty body total, sn_takes rx_buf n call ty body total <-> sn_short rx_buf n ty body total) ->
  (forall a ty body, (out a).1 = k -> sn_means call (out a).2 ty body <-> ty = type /\ body = body_of a) ->
  (forall res ty body, sn_means call res ty body -> exists a, out a = (k, res) /\ len body + 2 = k) ->
  reads (r ≫= f) (sn_found rx_buf n call).
Proof.
  intros Hf Hr Ht Hm Hx. eapply reads_then; [exact Hr|..].
  - intros a (body & Hs & E & Eb). eexists. split; [apply Hf|]. exists type, body. rewrite Ht, E. split; [done|]. by apply Hm.
  - intros [rc res] (ty & body & Hs & Hmean). cbn [fst snd] in *. destruct (Hx _ _ _ Hmean) as (a & E & Hl).
    exists a, body. apply Ht in Hs. destruct (Hm a ty body) as [H1 _]; [by rewrite E|]. rewrite E in H1.
    destruct (H1 Hmean) as [-> Hb]. rewrite E. destruct Hs as (Ek & Hs). replace k with rc by lia. by split_and!.
Qed.

Lemma sn_in_reads rx_buf n call :
  rx_ok rx_buf n -> sn_call_ok call -> reads (sn_decode rx_buf n call) (sn_found rx_buf n call).
Proof.
  intros Hrx Hok. destruct call as [r|r| | |c|c|r|r|r|r|r|p|type r| |]; cbn [sn_decode].
  - by eapply fixed_call; [by apply SN_Decode_Advertise_reads|done|done|intros [] ? ? H; try done; eexists].
  - apply reads_then with (found := fun a => exists body, sn_received rx_buf n SN_MSG_TYPE_GWINFO body a.1 /\ 1 <= len body /\
      opt_found (gwinfo_found body) r a.2).
    + apply SN_Decode_GWInfo_reads; [done|]. intros g a -> Ha. by apply (Hok a).
    + intros [rc x] (body & Hs & Hl & Ho). eexists. split; [done|]. by exists SN_MSG_TYPE_GWINFO, body.
    + intros [rc res] (ty & body & Hs & Hm). destruct res; try done. destruct Hm as (-> & Hl & Ho). by exists (rc, r0), body.
  - eapply (plain_call rx_buf n 2 SN_MSG_TYPE_WILLTOPICREQ _ (fun rc => (rc, In_WillTopicReq)) (fun _ => []));
      [done|by apply sn_fixed_empty_reads|done|done|]. intros [] ? ? H; try done. destruct H as [_ ->]. by exists 2.
  - eapply (plain_call rx_buf n 2 SN_MSG_TYPE_WILLMSGREQ _ (fun rc => (rc, In_WillMsgReq)) (fun _ => []));
      [done|by apply sn_fixed_empty_reads|done|done|]. intros [] ? ? H; try done. destruct H as [_ ->]. by exists 2.
  - eapply (plain_call rx_buf n 3 SN_MSG_TYPE_WILLTOPICRESP _ (fun a => (a.1, In_WillTopicResponse a.2)) (fun a => [a.2]));
      [by intros []|by apply sn_fixed_code_reads|done|done|]. intros [] ? ? H; try done. destruct H as [_ ->]. by eexists (3, _).
  - eapply (plain_call rx_buf n 3 SN_MSG_TYPE_WILLMSGRESP _ (fun a => (a.1, In_WillMsgResponse a.2)) (fun a => [a.2]));
      [by intros []|by apply sn_fixed_code_reads|done|done|]. intros [] ? ? H; try done. destruct H as [_ ->]. by eexists (3, _).
  - by eapply fixed_call; [by apply SN_Decode_ConnectAck_reads|done|done|intros [] ? ? H; try done; eexists].
  - eapply reads_then; [by apply SN_Decode_Register_reads|..].
    + intros [[rc x] rx'] (body & Hs & Ht & Ho & H4 & _). eexists. split; [done|]. by exists SN_MSG_TYPE_REGISTER, body.
    + intros [rc res] (ty & body & [Hs Ht] & Hm). destruct res; try done. destruct Hm as (-> & Ho & H4).
      cbn [fst snd] in *.
      assert (E : exists rx', match r with None => rx' = rx_buf | Some _ => put rx_buf rc [0] = Ok rx' end).
      { destruct r; [|by eexists]. destruct Hrx as (_ & ? & _). unfold put. change (len [0]) with 1.
        rewrite !(proj2 (Z.leb_le _ _)) by lia. by eexists. }
      destruct E as [rx' E]. exists (rc, r0, rx'), body. destruct Ht. by split_and!.
  - by eapply fixed_call; [by apply SN_Decode_RegAck_reads|done|done|intros [] ? ? H; try done; eexists].
  - by eapply fixed_call; [by apply SN_Decode_SubscribeAck_reads|done|done|intros [] ? ? H; try done; eexists].
  - by eapply fixed_call; [by apply SN_Decode_UnsubscribeAck_reads|done|done|intros [] ? ? H; try done; eexists].
  - eapply reads_then; [by apply SN_Decode_Publish_reads|..].
    + intros [rc x] (body & Hs & Hf). eexists. split; [done|]. by exists SN_MSG_TYPE_PUBLISH, body.
    + intros [rc res] (ty & body & Hs & Hm). destruct res; try done. destruct Hm as (-> & Hf). by exists (rc, p0), body.
  - eapply fixed_call; [by apply SN_Decode_PublishResp_reads|done| |].
    + intros x ty body. cbn [sn_means]. tauto.
    + intros [] ? ? H; try done. destruct H as (_ & -> & _). by eexists.
  - eapply (plain_call rx_buf n 2 SN_MSG_TYPE_DISCONNECT _ (fun rc => (rc, In_Disconnect)) (fun _ => []));
      [done|by apply sn_fixed_empty_reads|done|done|]. intros [] ? ? H; try done. destruct H as [_ ->]. by exists 2.
  - eapply reads_then; [by apply SN_Decode_Ping_reads|..].
    + intros rc (ty & body & Ht & Hs & -> & ->). eexists. split; [done|]. by exists ty, [].
    + intros [rc res] (ty & body & Hs & Hm). destruct res; try done. destruct Hm as (Ht & ->). exists 2, ty, [].
      cbn [fst sn_takes] in Hs. destruct Hs as (E & Hs). replace rc with 2 in Hs by done. by split_and!.
Qed.
