(* ===== verification/SnCodec.v ===== *)
(** * SnCodec: the properties of the MQTT-SN codec

    The decoders find exactly the packets that are there, and what the
    encoders write is found again. *)
From S2P Require Import Prelude PacketDefs Wire Frame PacketIO SnDefs SnEncode SnDecode.

(** ** Determinism *)

Lemma be16_eq x y : be16 x = be16 y -> x = y.
Proof. unfold be16. intros [= H1 H2]. rewrite (Z.div_mod x 256), (Z.div_mod y 256) by lia. congruence. Qed.

Lemma be16_app x y a b : be16 x ++ a = be16 y ++ b -> x = y /\ a = b.
Proof. intros H. apply app_inj_1 in H as [H1 H2]; [|done]. split; [by apply be16_eq|done]. Qed.

Lemma opt_found_fun {A} (P : A -> A -> Prop) x0 x y :
  (forall a0 a b, P a0 a -> P a0 b -> a = b) -> opt_found P x0 x -> opt_found P x0 y -> x = y.
Proof. intros HP. destruct x0, x, y; try done. intros H1 H2. f_equal. by eapply HP. Qed.

Lemma byte_app (x y : Z) a b : [x] ++ a = [y] ++ b -> x = y /\ a = b.
Proof. by intros [= -> ->]. Qed.

(** Take equal bodies apart, field by field. *)
Ltac same_fields :=
  repeat match goal with
  | H : be16 _ ++ _ = be16 _ ++ _ |- _ => apply be16_app in H as [? H]
  | H : be16 _ = be16 _ |- _ => apply be16_eq in H
  | H : [_] ++ _ = [_] ++ _ |- _ => apply byte_app in H as [? H]
  | H : [_] = [_] |- _ => injection H as H
  end.

Lemma message_fun f n0 n1 id payload p : word16 id -> publish_found ([f; n0; n1] ++ be16 id ++ payload) p -> p = sn_message f n0 n1 id payload.
Proof. intros Hid H. by apply publish_found_inv in H as [_ ?]. Qed.

(** A body means one thing. *)
Lemma sn_means_fun call r1 r2 t1 t2 body : sn_means call r1 t1 body -> sn_means call r2 t2 body -> r1 = r2.
Proof.
  destruct call as [?|?| | |?|?|?|?|?|?|?|?|t ?| |], r1; try done; destruct r2; try done; cbn [sn_means]; intros H1 H2.
  - f_equal. destruct H1 as (_ & _ & H1), H2 as (_ & _ & H2). revert H1 H2. apply opt_found_fun.
    intros _ [a1 a2] [b1 b2] -> H. unfold advertise_body in H. cbn [ad_gwId ad_duration] in H. same_fields. congruence.
  - f_equal. destruct H1 as (_ & _ & H1), H2 as (_ & _ & H2). revert H1 H2. apply opt_found_fun.
    intros [g0 a0] [g a] [h b] (x & -> & Hx) (y & H & Hy). cbn [gw_gwAddr gw_gwId] in *. same_fields. subst y h. f_equal.
    destruct a0; [congruence|]. destruct Hx as [_ ->], Hy as [_ ->]. done.
  - destruct H1 as [_ ->], H2 as [_ H]. same_fields. congruence.
  - destruct H1 as [_ ->], H2 as [_ H]. same_fields. congruence.
  - f_equal. destruct H1 as (_ & _ & H1), H2 as (_ & _ & H2). revert H1 H2. apply opt_found_fun.
    intros _ [a] [b] -> H. cbn [sca_return_code] in H. same_fields. congruence.
  - f_equal. destruct H1 as (_ & H1 & _), H2 as (_ & H2 & _). revert H1 H2. apply opt_found_fun.
    intros _ [a1 a2 a3] [b1 b2 b3] (x & Ha & ->) (y & Hb & H). cbn [rg_topicId rg_packet_id rg_topicName] in *. same_fields. congruence.
  - f_equal. destruct H1 as (_ & _ & H1), H2 as (_ & _ & H2). revert H1 H2. apply opt_found_fun.
    intros _ [a1 a2 a3] [b1 b2 b3] -> H. unfold regack_body in H. cbn [ra_topicId ra_packet_id ra_return_code] in H. same_fields. congruence.
  - f_equal. destruct H1 as (_ & _ & H1), H2 as (_ & _ & H2). revert H1 H2. apply opt_found_fun.
    intros _ [a1 a2 a3 a4] [b1 b2 b3 b4] -> H. unfold suback_body in H.
    cbn [ssa_flags ssa_topicId ssa_packet_id ssa_return_code] in H. same_fields. congruence.
  - f_equal. destruct H1 as (_ & _ & H1), H2 as (_ & _ & H2). revert H1 H2. apply opt_found_fun.
    intros _ [a] [b] -> H. cbn [sua_packet_id] in H. same_fields. congruence.
  - f_equal. destruct H1 as (_ & f & n0 & n1 & id & payload & -> & Hid & _ & ->), H2 as (_ & H2).
    symmetry. by apply message_fun in H2.
  - destruct H1 as (_ & -> & _ & H1), H2 as (_ & -> & _ & H2). f_equal. revert H1 H2. apply opt_found_fun.
    intros s0 [a1 a2 a3] [b1 b2 b3]. unfold resp_body_found. cbn [spr_topicId spr_packet_id spr_return_code].
    destruct (t =? SN_MSG_TYPE_PUBACK).
    + intros -> H. same_fields. congruence.
    + intros (-> & -> & ->) (H & -> & ->). same_fields. congruence.
Qed.

(** ** Round trip *)

(** What the other side finds, and with which call: packets that have a
    decoder. *)
Definition sn_back (big_endian : bool) (o : SnOut) : option SnIn :=
  match o with
  | Out_Register r => Some (In_Register (Some (mkRegister (rg_topicId r) (rg_packet_id r) (Some (cstr (default [] (rg_topicName r)))))))
  | Out_RegAck r => Some (In_RegAck (Some r))
  | Out_Publish p =>
    let payload := take (Z.to_nat (sp_total_len p)) (default [] (sp_buffer p)) in
    Some (In_Publish (mkSnPublish (sp_packet_id p) (sp_qos p mod 4) (if sp_retain p =? 0 then 0 else SN_PACKET_FLAG_RETAIN)
      (if sp_duplicate p =? 0 then 0 else SN_PACKET_FLAG_DUPLICATE) (sp_topic_type p mod 4)
      (Some (sn_topic big_endian (sp_topic_type p) (default [] (sp_topic_name p)))) 2 (len payload) (Some payload) (len payload) 0))
  | Out_PublishResp type r => Some (In_PublishResp type (Some r))
  | Out_Disconnect d => if match d with Some d => sd_sleepTmr d =? 0 | None => true end then Some In_Disconnect else None
  | Out_Ping p type => match (if type =? SN_MSG_TYPE_PING_REQ then p ≫= pq_clientId else None) with None => Some In_Ping | Some _ => None end
  | _ => None
  end.

(** What the decoder asks for beyond what the encoder does. *)
Definition sn_strict (o : SnOut) : Prop :=
  match o with
  | Out_Register r => cstr (default [] (rg_topicName r)) <> []
  | Out_Publish p =>
    sp_topic_type p mod 4 <> 3 /\ (sp_qos p mod 4 = MQTT_QOS_1 \/ sp_qos p mod 4 = MQTT_QOS_2 -> sp_packet_id p <> 0)
  | Out_PublishResp type _ => SN_MSG_TYPE_PUBACK <= type <= SN_MSG_TYPE_PUBREL
  | _ => True
  end.

(** The MsgId the dispatcher sees. *)
Definition sn_msg_id (o : SnOut) : Z :=
  match o with
  | Out_RegAck r => ra_packet_id r
  | Out_PublishResp _ r => spr_packet_id r
  | _ => 0
  end.

Lemma flag_bits_fields duplicate qos retain topic_type :
  let f := sn_flag_bits duplicate qos retain topic_type in
  is_byte f /\ flags_qos f = qos mod 4 /\ f / 16 mod 2 * 16 = (if retain =? 0 then 0 else SN_PACKET_FLAG_RETAIN) /\
  f / 128 * 128 = (if duplicate =? 0 then 0 else SN_PACKET_FLAG_DUPLICATE) /\ f mod 4 = topic_type mod 4.
Proof.
  cbv zeta. unfold sn_flag_bits, flags_qos, is_byte. pose proof (Z.mod_pos_bound qos 4 ltac:(lia)). pose proof (Z.mod_pos_bound topic_type 4 ltac:(lia)).
  generalize dependent (qos mod 4). generalize dependent (topic_type mod 4). intros t Ht q Hq.
  assert (q = 0 \/ q = 1 \/ q = 2 \/ q = 3) as Hq' by lia. assert (t = 0 \/ t = 1 \/ t = 2 \/ t = 3) as Ht' by lia.
  by destruct (duplicate =? 0), (retain =? 0), Hq' as [->|[->|[->| ->]]], Ht' as [->|[->|[->| ->]]].
Qed.

(** The frame an encoder writes is a frame the decoders take. *)
Lemma sn_frame_received rx_buf n type body :
  rx_ok rx_buf n -> sits rx_buf 0 (sn_frame type body) -> len (sn_frame type body) <= n -> len (sn_frame type body) <= SN_PACKET_MAX_LEN ->
  sn_received rx_buf n type body (len (sn_frame type body)).
Proof.
  intros (Hb & _) Hs Hn Hmax. pose proof (len_nonneg body). unfold sn_frame in *. destruct (Z.leb_spec (len body + 2) 255).
  - apply sn_short_received; [done|]. rewrite len_app in *. change (len [_; type]) with 2 in *.
    replace (len body + 2) with (2 + len body) in Hs by lia. split_and!; [lia|lia|done].
  - pose proof Hs as Hs0. rewrite app_assoc in Hs. apply sits_app in Hs as [Hh Hr]. rewrite !len_app in *.
    change (len [SN_PACKET_LEN_IND]) with 1 in *. change (len [type]) with 1 in *. rewrite len_be16 in *.
    exists 3. split_and!; [|lia|lia|exact Hr]. right. replace (1 + (2 + (1 + len body))) with (len body + 4) by lia.
    split_and!; [done|done|unfold word16; lia].
Qed.

Lemma sn_frame_short rx_buf n type body :
  sits rx_buf 0 (sn_frame type body) -> len (sn_frame type body) <= n -> len body <= 253 -> sn_short rx_buf n type body (len (sn_frame type body)).
Proof.
  intros Hs Hn Hl. rewrite sn_frame_small in * by done. rewrite len_app in *. change (len [_; type]) with 2 in *.
  replace (len body + 2) with (2 + len body) in Hs by lia. split_and!; [lia|lia|done].
Qed.

Lemma sn_publish_means big_endian p :
  sn_rep (Out_Publish p) -> sn_valid (Out_Publish p) -> sn_strict (Out_Publish p) ->
  forall res, sn_back big_endian (Out_Publish p) = Some res -> sn_means res res SN_MSG_TYPE_PUBLISH (sn_body big_endian (Out_Publish p)).
Proof.
  cbn [sn_rep sn_valid sn_strict sn_body sn_back]. intros (Hq & Hid & Ht & Hn & _ & _) [[name En] _] [Hs1 Hs2] res [= <-]. split; [done|].
  rewrite En in *. cbn [from_option id]. destruct (Hn name eq_refl) as [Hbn Hln].
  destruct (sn_publish_topic_puts big_endian p name En Hbn Hln) as [_ Hl2].
  destruct (sn_topic big_endian (sp_topic_type p) name) as [|n0 [|n1 [|]]] eqn:Et; [by vm_compute in Hl2..| |unfold len in Hl2; cbn in Hl2; lia].
  destruct (flag_bits_fields (sp_duplicate p) (sp_qos p) (sp_retain p) (sp_topic_type p)) as (_ & F1 & F2 & F3 & F4).
  set (f := sn_flag_bits _ _ _ _) in *. eexists f, n0, n1, (sp_packet_id p), _.
  split_and!; [done|done| |].
  - unfold sn_flags_ok. by rewrite F1, F4.
  - unfold sn_message. by rewrite F1, F2, F3, F4.
Qed.

(** What the decoder finds in the body is the packet that was sent. *)
Lemma sn_back_means big_endian o res :
  sn_rep o -> sn_valid o -> sn_strict o -> sn_back big_endian o = Some res ->
  sn_means res res (sn_type o) (sn_body big_endian o) /\ sn_call_ok res /\
  match res with
  | In_GWInfo _ | In_Publish _ => True
  | In_Register _ => 7 <= len (sn_frame (sn_type o) (sn_body big_endian o))
  | _ => len (sn_body big_endian o) <= 253
  end.
Proof.
  intros Hrep Hv Hst E. destruct o as [|c|w|w|w|w|r|r|r|r|p|type r|d|p type]; try done; cbn [sn_back] in E.
  - injection E as <-. cbn [sn_means sn_type sn_body sn_strict sn_call_ok] in *.
    destruct (cstr (from_option id [] (rg_topicName r))) as [|c name] eqn:Ec; [done|]. pose proof (len_nonneg name).
    split_and!; [done|by eexists|intros _; rewrite !len_app, !len_be16, len_cons; lia|done|].
    rewrite sn_frame_len, !len_app, !len_be16, len_cons. unfold sn_grow. destruct (_ <? _); lia.
  - injection E as <-. by destruct r.
  - split; [by eapply sn_publish_means|]. by injection E as <-.
  - injection E as <-. cbn [sn_means sn_type sn_body sn_call_ok]. unfold resp_size, resp_body_found, opt_found.
    by destruct (type =? SN_MSG_TYPE_PUBACK).
  - destruct d as [d|]; [destruct (Z.eqb_spec (sd_sleepTmr d) 0) as [E0|]; [|done]|]; injection E as <-; [|done].
    cbn [sn_body]. by rewrite E0.
  - cbn [sn_valid sn_body] in *. destruct (type =? SN_MSG_TYPE_PING_REQ); [destruct (p ≫= pq_clientId)|]; try done; by injection E as <-.
Qed.

Lemma sn_short_len rx_buf n type body total : sn_short rx_buf n type body total -> len body <= 253 -> len (sn_frame type body) = total.
Proof. intros (-> & _) H. rewrite sn_frame_small by done. rewrite len_app. change (len [_; type]) with 2. lia. Qed.

(** What is found is unique. *)
Lemma sn_found_fun rx_buf n call a b : bytes rx_buf -> sn_found rx_buf n call a -> sn_found rx_buf n call b -> a = b.
Proof.
  intros Hb. assert (Hrec : forall type body total, sn_takes rx_buf n call type body total -> sn_received rx_buf n type body total).
  { intros type body total H. destruct call; cbn [sn_takes] in H; try (by apply sn_short_received); [done|by destruct H|done]. }
  destruct a as [ra a], b as [rb b]. intros (ta & ba & Ha%Hrec & Hma) (tb & bb & Hb'%Hrec & Hmb). cbn [fst snd] in *.
  destruct Ha as (pos & Hh & El & Hle & Hs). apply sits_app in Hs as [_ Hs]. change (len [ta]) with 1 in Hs.
  destruct (sn_received_unique _ _ _ _ _ _ _ _ Hh Hs ltac:(lia) Hb') as [-> ->]. f_equal. by eapply sn_means_fun.
Qed.

Lemma reads_found rx_buf n call a :
  rx_ok rx_buf n -> sn_call_ok call -> sn_found rx_buf n call a -> sn_decode rx_buf n call = Ok a.
Proof.
  intros Hrx Hok Ha. destruct (sn_in_reads rx_buf n call Hrx Hok) as [(b & -> & Hb)|[Hn _]]; [|by destruct (Hn a)].
  f_equal. eapply sn_found_fun; [apply Hrx|done..].
Qed.

Lemma header_found_fun rx_buf n a b : header_found rx_buf n true a -> header_found rx_buf n true b -> a = b.
Proof.
  destruct a as [ra [ta ia]], b as [rb [tb ib]]. intros (ba & Ha & x & E & Hx) (bb & Hb & y & E' & Hy). cbn [fst snd] in *.
  destruct Ha as (pos & Hh & El & Hle & Hs). pose proof Hs as Hs0. apply sits_app in Hs as [Hta Hs]. change (len [ta]) with 1 in Hs.
  pose proof (sn_received_inv _ _ _ _ _ _ _ Hh Hb) as (_ & _ & _ & Etb & _).
  destruct (sn_received_unique _ _ _ _ _ _ _ _ Hh Hs ltac:(lia) Hb) as [-> ->].
  apply rd_sits in Hta. rewrite Hta in Etb. injection Etb as <-. rewrite E, E'. do 3 f_equal.
  destruct (sn_id_offset ta <? 0); [congruence|]. destruct Hx as [_ Hx], Hy as [_ Hy].
  apply be16_eq. by eapply sits_unique.
Qed.

(** The MsgId lies where the dispatcher looks for it. *)
Lemma sn_msg_id_found big_endian o :
  sn_rep o -> sn_valid o -> sn_strict o ->
  if sn_id_offset (sn_type o) <? 0 then sn_msg_id o = 0
  else word16 (sn_msg_id o) /\ sits (sn_body big_endian o) (sn_id_offset (sn_type o)) (be16 (sn_msg_id o)).
Proof.
  intros Hrep Hv Hst. destruct o as [|c|w|w|w|w|r|r|r|r|p|type r|d|p type]; try done; cbn [sn_rep sn_valid sn_strict sn_type sn_body sn_msg_id] in *.
  - destruct Hrep as (_ & Hid & _). split; [done|]. by exists (be16 (ra_topicId r)), [ra_return_code r].
  - destruct Hrep as (_ & _ & Hid & _).
    assert (type = 13 \/ type = 14 \/ type = 15 \/ type = 16) as [->|[->|[->| ->]]] by lia; (split; [done|]).
    + by exists (be16 (spr_topicId r)), [spr_return_code r].
    + by exists [], [].
    + by exists [], [].
    + by exists [], [].
  - by destruct Hv as [->| ->].
Qed.

(** ** Properties *)

(** C37: the MQTT-SN decoders, on any bytes. Each stays within the bytes that
    were received and the objects it is given - REGISTER, which terminates the
    name in the buffer, included -, ends, and succeeds exactly if the buffer
    starts with a packet of its type whose body has the shape MQTT-SN gives it:
    packets of fixed size in the short form only, GWINFO, PUBLISH and REGISTER
    in both forms, no reserved topic type, and an identifier at QoS 1 and 2. It
    returns the length of that packet and what its body says. *)
Theorem SN_Decode_exact rx_buf n call :
  rx_ok rx_buf n -> sn_call_ok call ->
  (exists a, sn_decode rx_buf n call = Ok a /\ sn_found rx_buf n call a) \/
  ((forall a, ~ sn_found rx_buf n call a) /\ exists rc, rc < 0 /\ sn_decode rx_buf n call = Err rc).
Proof. apply sn_in_reads. Qed.

(** A PUBLISH in the long form, and one that says it is longer than it is. *)
Lemma SN_Decode_exact_witness :
  let rx := [1; 0; 10; 12; 32; 0; 5; 0; 1; 33] in
  (exists a, sn_decode rx 10 (In_Publish (mkSnPublish 0 0 0 0 0 None 0 0 None 0 0)) = Ok a /\ a.1 = 10) /\
  exists rc, rc < 0 /\ sn_decode rx 9 (In_Publish (mkSnPublish 0 0 0 0 0 None 0 0 None 0 0)) = Err rc.
Proof.
  intros rx. set (call := In_Publish _).
  assert (Hb : bytes rx) by by_eval. split.
  - destruct (SN_Decode_exact rx 10 call ltac:(by split_and!) I) as [(a & E & _)|[_ (rc & _ & E)]]; [|by vm_compute in E].
    exists a. split; [exact E|]. vm_compute in E. by injection E as <-.
  - destruct (SN_Decode_exact rx 9 call ltac:(by split_and!) I) as [(a & E & _)|[_ H]]; [by vm_compute in E|exact H].
Defined.

(** C36: MQTT-SN round trip. Whatever an encoder wrote, once received with a byte
    to spare: SN_Decode_Header, by which the client dispatches, returns its
    length, its type and, for an acknowledgement, its MsgId; and the decoder of
    its type, where there is one, finds the packet that was sent - for a
    PUBLISH the flags, the topic with a numeric identifier in network order
    whatever the order of the host, the MsgId and the payload. A decoder asks
    for more than the encoder in three places: a REGISTER has a name, a PUBLISH
    no reserved topic type, and at QoS 1 and 2 an identifier. *)
Theorem SN_roundtrip big_endian tx_buf_len o n bs rx_buf rx_buf_len :
  sn_rep o -> sn_strict o -> tx_buf_len < 2147483648 -> sn_encode big_endian tx_buf_len o = Ok (n, bs) ->
  rx_ok rx_buf rx_buf_len -> sits rx_buf 0 bs -> n < rx_buf_len ->
  SN_Decode_Header rx_buf rx_buf_len true = Ok (n, (sn_type o, Some (sn_msg_id o))) /\
  forall res, sn_back big_endian o = Some res -> sn_decode rx_buf rx_buf_len res = Ok (n, res).
Proof.
  intros Hrep Hst Htx E Hrx Hs Hn.
  destruct (sn_encode_inv big_endian tx_buf_len o n bs Hrep Htx E) as (Hv & [Hmax _] & -> & ->).
  rewrite sn_frame_len, <- (sn_frame_len (sn_type o)) in Hmax.
  pose proof (sn_frame_received _ _ _ _ Hrx Hs ltac:(lia) Hmax) as Hr. split.
  - assert (Hh : header_found rx_buf rx_buf_len true
      (len (sn_frame (sn_type o) (sn_body big_endian o)), (sn_type o, Some (sn_msg_id o)))).
    { eexists. split; [exact Hr|]. eexists. split; [done|]. by apply sn_msg_id_found. }
    destruct (SN_Decode_Header_reads rx_buf rx_buf_len true Hrx) as [(a & -> & Ha)|[Hno _]]; [|by destruct (Hno _ Hh)].
    f_equal. by eapply header_found_fun.
  - intros res Hback. destruct (sn_back_means big_endian o res Hrep Hv Hst Hback) as (Hm & Hok & Hl).
    apply reads_found; [done..|]. exists (sn_type o), (sn_body big_endian o). split; [|done]. cbn [fst].
    destruct res; cbn [sn_takes]; try exact Hr; try (apply sn_frame_short; [done|lia|exact Hl]).
    split; [exact Hr|lia].
Qed.

(** A PUBLISH at QoS 1 to a numeric topic, on a little-endian host. *)
Definition ex_sn_publish : SN_Publish := mkSnPublish 7 1 1 0 0 (Some [5; 0]) 0 2 (Some [104; 105]) 0 0.

Lemma SN_roundtrip_witness :
  let rx := [9; 12; 48; 0; 5; 0; 7; 104; 105; 255] in
  sn_encode false 64 (Out_Publish ex_sn_publish) = Ok (9, take 9 rx) /\
  SN_Decode_Header rx 10 true = Ok (9, (SN_MSG_TYPE_PUBLISH, Some 0)) /\
  exists p, sn_decode rx 10 (In_Publish p) = Ok (9, In_Publish p) /\ sp_topic_name p = Some [0; 5].
Proof.
  intros rx.
  assert (Hrep : sn_rep (Out_Publish ex_sn_publish)).
  { repeat (split; [by vm_compute|]). split; [|split; [by vm_compute|]]; intros t [= <-]; (split; [by_eval|by vm_compute]). }
  assert (E : sn_encode false 64 (Out_Publish ex_sn_publish) = Ok (9, take 9 rx)) by by vm_compute.
  destruct (SN_roundtrip false 64 (Out_Publish ex_sn_publish) 9 (take 9 rx) rx 10 Hrep) as [H1 H2]; try done.
  - split_and!; [by_eval|done|done].
  - by exists [], [255].
  - split; [exact E|]. split; [exact H1|]. eexists. split; [by apply H2|done].
Defined.
