(* ===== verification/SnRead.v ===== *)
(** * SnRead: receiving MQTT-SN packets ([mqtt_sn_packet.c], [mqtt_socket.c])

    [SN_Packet_Read] peeks at the header of a datagram and then reads it whole,
    or, over DTLS, reads the header and then the rest. Both ways are modelled in
    the non-blocking build; the theorems show when a datagram is delivered, and
    which ones block the client for good. *)
From S2P Require Import Prelude PacketDefs Wire Frame PacketIO SnDefs SnEncode SnDecode.

(** ** The network *)

(** [net_peek net n] is the peek callback asked for [n] bytes. *)
Class Peeker (Net : Type) := {
  net_peek : Net -> Z -> Z * list Z * Net
}.

(** ** Operations *)

Section SnRead.
Context {Net : Type} `{!Reader Net} `{!Peeker Net}.

Local Abbreviation outcome := (result (Z * NetIO * Net)).

(** [MqttSocket_Peek(client, rx_buf, buf_len, ..)]. *)
Definition MqttSocket_Peek (st : NetIO) (net : Net) (buf_len : Z) : outcome :=
  if buf_len <=? 0 then Ok (MQTT_CODE_ERROR_BAD_ARG, st, net)
  else if buf_len <=? rd_pos st then Ok (MQTT_CODE_ERROR_OUT_OF_BUFFER, st, net)
  else
    let '(rc, bs, net) := net_peek net buf_len in
    rx ← put (io_rx st) 0 bs;
    Ok (rc, set_read st (if 0 <? rc then 0 else rd_pos st) (rd_total st) rx, net).

(** A part of the header must come whole: [inl] is an early return. *)
Definition sn_whole (n : Z) (r : outcome) : result (Z * NetIO * Net + NetIO * Net) :=
  '(rc, st, net) ← r;
  if rc <? 0 then Ok (inl (MqttPacket_HandleNetError rc, st, net))
  else if negb (rc =? n) then Ok (inl (MqttPacket_HandleNetError MQTT_CODE_ERROR_NETWORK, st, net))
  else Ok (inr (st, net)).

(** [case MQTT_PK_BEGIN]: the announced length and the bytes of the header. *)
Definition sn_read_begin (is_dtls : bool) (rx_buf_len : Z) (st : NetIO) (net : Net)
    : result (Z * NetIO * Net + Z * Z * NetIO * Net) :=
  r ← sn_whole 2 (if is_dtls then MqttSocket_Read st net 0 2 else MqttSocket_Peek st net 2);
  match r with
  | inl out => Ok (inl out)
  | inr (st, net) =>
    let len := 2 in
    b ← rd (io_rx st) 0;
    if b =? SN_PACKET_LEN_IND then
      if rx_buf_len <? len + MQTT_DATA_LEN_SIZE then Ok (inl (MQTT_CODE_ERROR_OUT_OF_BUFFER, st, net))
      else
        r ← (if is_dtls then sn_whole 2 (MqttSocket_Read st net len 2) else sn_whole 4 (MqttSocket_Peek st net 4));
        match r with
        | inl out => Ok (inl out)
        | inr (st, net) =>
          let len := 4 in
          match MqttDecode_Num (io_rx st) 1 (u32 (rx_buf_len - 1)) with
          | UB => UB
          | Err rc => Ok (inl (MqttPacket_HandleNetError rc, st, net))
          | Ok (total_len, _) => Ok (inr (len, total_len, set_lens st len (pk_remain_len st), net))
          end
        end
    else Ok (inr (len, b, set_lens st len (pk_remain_len st), net))
  end.

(** [case MQTT_PK_READ] and the end of the function. *)
Definition sn_read_rest (is_dtls : bool) (rx_buf_len : Z) (st : NetIO) (net : Net) : outcome :=
  let st := set_stat st MQTT_PK_READ in
  let idx := if is_dtls then u16 (pk_header_len st) else 0 in
  let remain_len := pk_remain_len st in
  '(rc, st, net) ← (if 0 <? remain_len then MqttSocket_Read st net idx remain_len else Ok (0, st, net));
  if (0 <? remain_len) && (rc <=? 0) then Ok (MqttPacket_HandleNetError rc, st, net)
  else
    let remain_read := if 0 <? remain_len then rc else 0 in
    let remain_read := if is_dtls then remain_read + pk_header_len st else remain_read in
    Ok (if rx_buf_len <? remain_read then rx_buf_len else remain_read, set_stat st MQTT_PK_BEGIN, net).

(** [case MQTT_PK_READ_HEAD]. *)
Definition sn_read_head (is_dtls : bool) (rx_buf_len len total_len : Z) (st : NetIO) (net : Net) : outcome :=
  let st := set_stat st MQTT_PK_READ_HEAD in
  if is_dtls then
    let st := set_lens st (pk_header_len st) (if len <? total_len then total_len - len else 0) in
    if rx_buf_len <? pk_header_len st then Ok (MQTT_CODE_ERROR_OUT_OF_BUFFER, st, net)
    else
      let room := rx_buf_len - pk_header_len st in
      let st := set_lens st (pk_header_len st) (if room <? pk_remain_len st then room else pk_remain_len st) in
      sn_read_rest is_dtls rx_buf_len st net
  else
    let st := set_lens st (pk_header_len st) (if rx_buf_len <? total_len then rx_buf_len else total_len) in
    sn_read_rest is_dtls rx_buf_len st net.

Definition SN_Packet_Read (is_dtls : bool) (rx_buf_len : Z) (st : NetIO) (net : Net) : outcome :=
  if rx_buf_len <? MQTT_PACKET_HEADER_MIN_SIZE + MQTT_DATA_LEN_SIZE then Ok (MQTT_CODE_ERROR_OUT_OF_BUFFER, st, net)
  else
    match pk_stat st with
    | MQTT_PK_BEGIN =>
      r ← sn_read_begin is_dtls rx_buf_len st net;
      match r with
      | inl out => Ok out
      | inr (len, total_len, st, net) => sn_read_head is_dtls rx_buf_len len total_len st net
      end
    | MQTT_PK_READ_HEAD => sn_read_head is_dtls rx_buf_len 0 0 st net
    | MQTT_PK_READ => sn_read_rest is_dtls rx_buf_len st net
    end.

(** A client that calls it again as long as it returns no packet: the number
    of calls is the fuel. *)
Fixpoint sn_read_packet (calls : nat) (is_dtls : bool) (rx_buf_len : Z) (st : NetIO) (net : Net) : outcome :=
  match calls with
  | O => UB
  | S calls =>
    '(rc, st, net) ← SN_Packet_Read is_dtls rx_buf_len st net;
    if rc <=? 0 then sn_read_packet calls is_dtls rx_buf_len st net else Ok (rc, st, net)
  end.

(** The return codes of a row of calls. *)
Fixpoint sn_read_calls (calls : nat) (is_dtls : bool) (rx_buf_len : Z) (st : NetIO) (net : Net)
    : result (list Z * NetIO * Net) :=
  match calls with
  | O => Ok ([], st, net)
  | S calls =>
    '(rc, st, net) ← SN_Packet_Read is_dtls rx_buf_len st net;
    '(rcs, st, net) ← sn_read_calls calls is_dtls rx_buf_len st net;
    Ok (rc :: rcs, st, net)
  end.
End SnRead.

(** ** Datagrams *)

(** A network of datagrams: a peek leaves the first one where it is, a read
    takes it, whatever part of it was asked for. [net_waits] bounds how often
    the network has nothing to deliver. *)
Class Datagrams (Net : Type) := {
  #[global] dg_reader :: Reader Net;
  #[global] dg_peeker :: Peeker Net;
  net_queue : Net -> list (list Z);
  net_waits : Net -> nat;
  net_peek_law net n d q :
    0 < n -> net_queue net = d :: q ->
    let '(rc, bs, net') := net_peek net n in
    net_queue net' = d :: q /\
    ((rc <= 0 /\ bs = [] /\ (net_waits net' < net_waits net)%nat) \/
     (rc = len bs /\ bs = take (Z.to_nat n) d /\ (net_waits net' <= net_waits net)%nat));
  net_take_law net n d q :
    0 < n -> net_queue net = d :: q ->
    let '(rc, bs, net') := net_read net n in
    (rc <= 0 /\ bs = [] /\ net_queue net' = d :: q /\ (net_waits net' < net_waits net)%nat) \/
    (rc = len bs /\ bs = take (Z.to_nat n) d /\ net_queue net' = q /\ (net_waits net' <= net_waits net)%nat)
}.

(** The length a datagram announces, if its header is whole. *)
Definition sn_announced (d : list Z) : option Z :=
  match d with
  | b0 :: b1 :: rest =>
    if b0 =? SN_PACKET_LEN_IND then
      match rest with b2 :: _ :: _ => Some (b1 * 256 + b2) | _ => None end
    else Some b0
  | _ => None
  end.

(** Between two calls: nothing has been read of the next datagram, or its
    length is known. *)
Definition sn_fresh (n : Z) (st : NetIO) : Prop := rd_pos st = 0 /\ len (io_rx st) = n.
Definition sn_idle (n : Z) (st : NetIO) : Prop := pk_stat st = MQTT_PK_BEGIN /\ sn_fresh n st.
Definition sn_sized (n : Z) (d : list Z) (st : NetIO) : Prop :=
  sn_fresh n st /\
  (pk_stat st = MQTT_PK_BEGIN \/
   pk_stat st = MQTT_PK_READ /\ exists total, sn_announced d = Some total /\ pk_remain_len st = Z.min total n).

Lemma len_min (d : list Z) k : 0 <= k -> len (take (Z.to_nat k) d) = Z.min k (len d).
Proof. intros Hk. unfold len. rewrite length_take. lia. Qed.

(** The callback stores the front of a datagram. *)
Lemma put_datagram rx d k :
  0 <= k <= len rx ->
  exists rx', put rx 0 (take (Z.to_nat k) d) = Ok rx' /\ len rx' = len rx /\
    take (Z.to_nat (Z.min k (len d))) rx' = take (Z.to_nat (Z.min k (len d))) d.
Proof.
  intros Hk. pose proof (len_nonneg d). pose proof (len_min d k ltac:(lia)) as El.
  destruct (put_prefix rx d 0 (take (Z.to_nat k) d)) as (rx' & E & Hl & Ht);
    [lia|done|rewrite drop_0; by eexists (drop (Z.to_nat k) d); rewrite take_drop|lia|lia|].
  exists rx'. by rewrite Z.add_0_l, El in Ht.
Qed.

Lemma put_none rx : put rx 0 [] = Ok rx.
Proof. unfold put. change (len []) with 0. pose proof (len_nonneg rx). by rewrite (proj2 (Z.leb_le (0 + 0) (len rx))) by lia. Qed.

Lemma num_at rx i l b1 b2 :
  rd rx i = Ok b1 -> rd rx (i + 1) = Ok b2 -> is_byte b1 -> is_byte b2 -> 2 <= l ->
  MqttDecode_Num rx i l = Ok (b1 * 256 + b2, 2).
Proof.
  intros E1 E2 H1 H2 Hl. unfold MqttDecode_Num, is_byte in *. decide_test. rewrite E1, E2. cbn [mbind result_bind].
  rewrite Z.shiftl_mul_pow2 by lia. change (2 ^ 8) with 256.
  rewrite (u16_small (_ * _)) by lia. by rewrite u16_small by lia.
Qed.

Section Delivery.
Context {Net : Type} `{!Datagrams Net} (n : Z) (Hn : 4 <= n < 2147483648).
Implicit Types (st : NetIO) (net : Net) (d : list Z) (q : list (list Z)).

Lemma MqttSocket_Peek_datagram st net d q k :
  sn_fresh n st -> 0 < k <= n -> net_queue net = d :: q ->
  exists rc st' net', MqttSocket_Peek st net k = Ok (rc, st', net') /\
    sn_fresh n st' /\ pk_stat st' = pk_stat st /\ net_queue net' = d :: q /\
    ((rc <= 0 /\ (net_waits net' < net_waits net)%nat) \/
     (rc = Z.min k (len d) /\ take (Z.to_nat rc) (io_rx st') = take (Z.to_nat rc) d /\ (net_waits net' <= net_waits net)%nat)).
Proof using.
  intros [Hp Hl] Hk Hq. unfold MqttSocket_Peek. rewrite Hp, !(proj2 (Z.leb_gt _ _)) by lia.
  pose proof (net_peek_law net k d q ltac:(lia) Hq) as Hlaw.
  destruct (net_peek net k) as [[rc bs] net']. destruct Hlaw as [Hq' [(Hrc & -> & Hw)|(-> & -> & Hw)]].
  - rewrite put_none. cbn [mbind result_bind]. eexists _, _, _. split; [done|]. split; [split; cbn; [by destruct (0 <? rc)|done]|].
    split_and!; try done. by left.
  - destruct (put_datagram (io_rx st) d k ltac:(rewrite Hl; lia)) as (rx & -> & Hlr & Ht). cbn [mbind result_bind].
    rewrite len_min by lia. eexists _, _, _. split; [done|].
    split; [split; cbn; [by destruct (0 <? _)|by rewrite Hlr]|]. split_and!; try done. right. done.
Qed.

Lemma MqttSocket_Read_datagram st net d q k :
  sn_fresh n st -> 0 < k <= n -> k <= len d -> net_queue net = d :: q ->
  exists rc st' net', MqttSocket_Read st net 0 k = Ok (rc, st', net') /\
    sn_fresh n st' /\ pk_stat st' = pk_stat st /\ pk_remain_len st' = pk_remain_len st /\
    ((rc < 0 /\ net_queue net' = d :: q /\ (net_waits net' < net_waits net)%nat) \/
     (rc = k /\ take (Z.to_nat k) (io_rx st') = take (Z.to_nat k) d /\ net_queue net' = q /\
      (net_waits net' <= net_waits net)%nat)).
Proof using.
  intros [Hp Hl] Hk Hkd Hq. unfold MqttSocket_Read. rewrite Hp, !(proj2 (Z.leb_gt _ _)), Z.sub_0_r, Z.add_0_l by lia.
  pose proof (net_take_law net k d q ltac:(lia) Hq) as Hlaw.
  destruct (net_read net k) as [[rc bs] net']. destruct Hlaw as [(Hrc & -> & Hq' & Hw)|(-> & -> & Hq' & Hw)].
  - rewrite put_none. cbn [mbind result_bind]. destruct (Z.ltb_spec rc 0).
    + eexists _, _, _. split; [done|]. split; [done|]. split_and!; try done. by left.
    + assert (rc = 0) as -> by lia. rewrite (proj2 (Z.ltb_ge k 0)) by lia. rewrite Z.add_0_l, (proj2 (Z.ltb_lt 0 k)) by lia. cbn [Z.ltb].
      eexists _, _, _. split; [done|]. split; [done|]. split_and!; try done. by left.
  - destruct (put_datagram (io_rx st) d k ltac:(rewrite Hl; lia)) as (rx & -> & Hlr & Ht). cbn [mbind result_bind].
    rewrite len_min, Z.min_l in * by lia. rewrite (proj2 (Z.ltb_ge k 0)), Z.ltb_irrefl, Z.add_0_l, Z.ltb_irrefl, (proj2 (Z.ltb_lt 0 k)) by lia.
    eexists _, _, _. split; [done|]. split; [split; cbn; [done|by rewrite Hlr]|]. split_and!; try done. by right.
Qed.

(** What the first phase finds out. *)
Definition begun net d q (r : Z * NetIO * Net + Z * Z * NetIO * Net) : Prop :=
  match r with
  | inl (rc, st', net') =>
    rc < 0 /\ sn_idle n st' /\ net_queue net' = d :: q /\ (net_waits net' <= net_waits net)%nat /\
    (sn_announced d <> None -> net_waits net' < net_waits net)%nat
  | inr (_, total, st', net') =>
    sn_announced d = Some total /\ sn_fresh n st' /\ net_queue net' = d :: q /\ (net_waits net' <= net_waits net)%nat
  end.

(** A peek at [k] bytes of the header. *)
Lemma sn_whole_peek st net d q k :
  sn_idle n st -> 0 < k <= n -> net_queue net = d :: q ->
  exists r, sn_whole k (MqttSocket_Peek st net k) = Ok r /\
    match r with
    | inl (rc, st', net') =>
      rc < 0 /\ sn_idle n st' /\ net_queue net' = d :: q /\ (net_waits net' <= net_waits net)%nat /\
      ((net_waits net' < net_waits net)%nat \/ len d < k)
    | inr (st', net') =>
      sn_idle n st' /\ net_queue net' = d :: q /\ (net_waits net' <= net_waits net)%nat /\
      k <= len d /\ take (Z.to_nat k) (io_rx st') = take (Z.to_nat k) d
    end.
Proof using.
  intros [Hs Hf] Hk Hq. destruct (MqttSocket_Peek_datagram st net d q k Hf Hk Hq) as (rc & st' & net' & -> & Hf' & Hs' & Hq' & Hcase).
  unfold sn_whole. cbn [mbind result_bind]. assert (Hi : sn_idle n st') by (split; [by rewrite Hs'|done]).
  destruct (Z.ltb_spec rc 0).
  { eexists (inl _). split; [done|]. unfold MqttPacket_HandleNetError. pose proof (len_nonneg d).
    destruct Hcase as [[_ Hw]|(-> & _ & _)]; [|lia]. split_and!; try done; [lia|by left]. }
  destruct (Z.eqb_spec rc k) as [->|Hne]; cbn [negb]; (eexists; split; [done|]; cbn).
  - destruct Hcase as [[? _]|(E & Ht & Hw)]; [lia|]. split_and!; try done. lia.
  - destruct Hcase as [[? Hw]|(-> & Ht & Hw)]; split_and!; try done; [lia|by left|right; lia].
Qed.

Lemma rd_datagram rx d k i b :
  bytes d -> take (Z.to_nat k) rx = take (Z.to_nat k) d -> 0 <= i < k -> d !! Z.to_nat i = Some b -> rd rx i = Ok b /\ is_byte b.
Proof using.
  intros Hd Ht Hi Hb. rewrite (rd_take _ _ k i Ht Hi). unfold rd. rewrite (proj2 (Z.leb_le 0 i)), Hb by lia. split; [done|].
  by eapply Forall_lookup_1.
Qed.

Lemma sn_read_begin_datagram st net d q :
  bytes d -> sn_idle n st -> net_queue net = d :: q ->
  exists r, sn_read_begin false n st net = Ok r /\ begun net d q r.
Proof using Hn.
  intros Hd Hi Hq. unfold sn_read_begin.
  destruct (sn_whole_peek st net d q 2 Hi ltac:(lia) Hq) as (r & -> & Hr). cbn [mbind result_bind].
  destruct r as [[[rc st'] net']|[st' net']].
  { eexists (inl _). split; [done|]. destruct Hr as (? & ? & ? & ? & Hw). split_and!; try done.
    intros Ha. destruct Hw as [?|Hw]; [done|]. destruct d as [|b0 [|b1 rest]]; [done..|]. cbn in Hw. unfold len in Hw. cbn in Hw. lia. }
  destruct Hr as (Hi' & Hq' & Hw & Hl & Ht). destruct d as [|b0 [|b1 rest]]; [done..|].
  destruct (rd_datagram _ _ _ 0 b0 Hd Ht ltac:(lia) eq_refl) as [-> _]. cbn [mbind result_bind].
  destruct (Z.eqb_spec b0 SN_PACKET_LEN_IND) as [E0|E0].
  2: { eexists (inr _). split; [done|]. destruct Hi'. split_and!; try done. cbn. by rewrite (proj2 (Z.eqb_neq _ _)). }
  rewrite (proj2 (Z.ltb_ge n _)) by lia.
  destruct (sn_whole_peek st' net' _ q 4 Hi' ltac:(lia) Hq') as (r & -> & Hr). cbn [mbind result_bind].
  destruct r as [[[rc st2] net2]|[st2 net2]].
  { eexists (inl _). split; [done|]. destruct Hr as (? & ? & ? & Hw2 & Hw3). split_and!; try done; [lia|].
    intros Ha. destruct Hw3 as [?|Hw3]; [lia|]. cbn in Ha. rewrite (proj2 (Z.eqb_eq _ _) E0) in Ha.
    destruct rest as [|b2 [|b3 rest]]; [done..|]. unfold len in Hw3. cbn in Hw3. lia. }
  destruct Hr as ([Hs2 Hf2] & Hq2 & Hw2 & Hl2 & Ht2). destruct rest as [|b2 [|b3 rest]]; [done..|].
  destruct (rd_datagram _ _ _ 1 b1 Hd Ht2 ltac:(lia) eq_refl) as [E1 H1].
  destruct (rd_datagram _ _ _ 2 b2 Hd Ht2 ltac:(lia) eq_refl) as [E2 H2].
  rewrite (num_at _ 1 _ _ _ E1 E2 H1 H2) by (rewrite u32_small; lia).
  eexists (inr _). split; [done|]. split_and!; try done; [|lia]. cbn. by rewrite (proj2 (Z.eqb_eq _ _) E0).
Qed.

(** One call: it delivers, or keeps the datagram and has one interruption less. *)
Definition delivered net d q rc st' net' : Prop :=
  exists total, sn_announced d = Some total /\ rc = Z.min total n /\ sn_idle n st' /\
    take (Z.to_nat rc) (io_rx st') = take (Z.to_nat rc) d /\ net_queue net' = q /\ (net_waits net' <= net_waits net)%nat.
Definition kept net d q rc st' net' : Prop :=
  rc < 0 /\ sn_sized n d st' /\ net_queue net' = d :: q /\ (net_waits net' < net_waits net)%nat.

Lemma sn_read_rest_datagram st net d q total :
  sn_fresh n st -> sn_announced d = Some total -> 0 < total -> pk_remain_len st = Z.min total n -> Z.min total n <= len d ->
  net_queue net = d :: q ->
  exists rc st' net', sn_read_rest false n st net = Ok (rc, st', net') /\ (delivered net d q rc st' net' \/ kept net d q rc st' net').
Proof using Hn.
  intros Hf Ha Ht Er Hl Hq. unfold sn_read_rest. cbn [set_stat pk_remain_len pk_header_len]. rewrite Er.
  rewrite (proj2 (Z.ltb_lt 0 (Z.min total n))) by lia.
  destruct (MqttSocket_Read_datagram (set_stat st MQTT_PK_READ) net d q (Z.min total n) Hf ltac:(lia) Hl Hq)
    as (rc & st' & net' & -> & Hf' & Es & Er' & Hcase). cbn [mbind result_bind andb].
  destruct Hcase as [(Hrc & Hq' & Hw)|(-> & Htk & Hq' & Hw)].
  - rewrite (proj2 (Z.leb_le rc 0)) by lia. eexists _, _, _. split; [done|]. right. split_and!; try done. split; [done|].
    right. split; [done|]. exists total. by rewrite Er'.
  - rewrite (proj2 (Z.leb_gt _ 0)), (proj2 (Z.ltb_ge n _)) by lia. eexists _, _, _. split; [done|]. left. exists total. by split_and!.
Qed.

Lemma SN_Packet_Read_datagram st net d q total :
  bytes d -> sn_sized n d st -> sn_announced d = Some total -> 0 < total -> Z.min total n <= len d -> net_queue net = d :: q ->
  exists rc st' net', SN_Packet_Read false n st net = Ok (rc, st', net') /\ (delivered net d q rc st' net' \/ kept net d q rc st' net').
Proof using Hn.
  intros Hd [Hf Hs] Ha Ht Hl Hq. unfold SN_Packet_Read. rewrite (proj2 (Z.ltb_ge n _)) by lia.
  destruct Hs as [Es|[Es (total' & Ha' & Er)]]; rewrite Es.
  2: { assert (total' = total) as -> by congruence. by apply (sn_read_rest_datagram st net d q total). }
  destruct (sn_read_begin_datagram st net d q Hd (conj Es Hf) Hq) as (r & -> & Hr). cbn [mbind result_bind].
  destruct r as [[[rc st'] net']|[[[l total'] st'] net']].
  - destruct Hr as (? & [? ?] & ? & _ & Hw). eexists _, _, _. split; [done|]. right. split_and!; try done; [|apply Hw; congruence].
    split; [done|by left].
  - destruct Hr as (Ha' & Hf' & Hq' & Hw). assert (total' = total) as -> by congruence. unfold sn_read_head.
    assert (Emin : (if n <? total then n else total) = Z.min total n) by (destruct (Z.ltb_spec n total); lia). rewrite Emin.
    destruct (sn_read_rest_datagram (set_lens (set_stat st' MQTT_PK_READ_HEAD) (pk_header_len st') (Z.min total n)) net' d q total)
      as (rc & st2 & net2 & E & Hcase); try done.
    cbn [pk_header_len set_stat] in *. rewrite E. eexists _, _, _. split; [done|].
    destruct Hcase as [(t & ? & ? & ? & ? & ? & ?)|(? & ? & ? & ?)].
    + left. exists t. split_and!; try done. lia.
    + right. split_and!; try done. lia.
Qed.

Lemma sn_read_packet_datagram calls st net d q total :
  bytes d -> sn_sized n d st -> sn_announced d = Some total -> 0 < total -> Z.min total n <= len d -> net_queue net = d :: q ->
  (net_waits net < calls)%nat ->
  exists st' net', sn_read_packet calls false n st net = Ok (Z.min total n, st', net') /\
    delivered net d q (Z.min total n) st' net'.
Proof using Hn.
  revert st net. induction calls as [|calls IH]; intros st net Hd Hs Ha Ht Hl Hq Hc; [lia|]. cbn [sn_read_packet].
  destruct (SN_Packet_Read_datagram st net d q total Hd Hs Ha Ht Hl Hq) as (rc & st' & net' & -> & Hcase). cbn [mbind result_bind].
  destruct Hcase as [Hdel|(Hrc & Hs' & Hq' & Hw)].
  - pose proof Hdel as (t & Ht' & -> & _). assert (t = total) as -> by congruence. rewrite (proj2 (Z.leb_gt _ 0)) by lia. by eexists _, _.
  - rewrite (proj2 (Z.leb_le rc 0)) by lia.
    destruct (IH st' net' Hd Hs' Ha Ht Hl Hq' ltac:(lia)) as (st2 & net2 & -> & t & ? & ? & ? & ? & ? & ?).
    eexists _, _. split; [done|]. exists t. split_and!; try done. lia.
Qed.

(** A datagram without a whole header, or with length 0. *)
Lemma SN_Packet_Read_blocked st net d q :
  bytes d -> sn_announced d = None \/ sn_announced d = Some 0 -> sn_idle n st -> net_queue net = d :: q ->
  exists rc st' net', SN_Packet_Read false n st net = Ok (rc, st', net') /\ rc <= 0 /\ sn_idle n st' /\ net_queue net' = d :: q.
Proof using Hn.
  intros Hd Hb Hi Hq. unfold SN_Packet_Read. rewrite (proj2 (Z.ltb_ge n _)), (proj1 Hi) by lia.
  destruct (sn_read_begin_datagram st net d q Hd Hi Hq) as (r & -> & Hr). cbn [mbind result_bind].
  destruct r as [[[rc st'] net']|[[[l total'] st'] net']].
  - destruct Hr as (? & ? & ? & _). eexists _, _, _. split; [done|]. split_and!; try done. lia.
  - destruct Hr as (Ha & Hf & Hq' & _). destruct Hb as [Hb|Hb]; [congruence|]. assert (total' = 0) as -> by congruence.
    unfold sn_read_head, sn_read_rest. rewrite (proj2 (Z.ltb_ge n 0)) by lia. cbn [set_lens set_stat pk_remain_len Z.ltb mbind result_bind andb].
    change (0 <? 0) with false. cbn [mbind result_bind andb]. rewrite (proj2 (Z.ltb_ge n 0)) by lia.
    eexists _, _, _. split; [done|]. by split_and!.
Qed.

Lemma sn_read_calls_blocked calls st net d q :
  bytes d -> sn_announced d = None \/ sn_announced d = Some 0 -> sn_idle n st -> net_queue net = d :: q ->
  exists rcs st' net', sn_read_calls calls false n st net = Ok (rcs, st', net') /\
    length rcs = calls /\ Forall (fun rc => rc <= 0) rcs /\ sn_idle n st' /\ net_queue net' = d :: q.
Proof using Hn.
  revert st net. induction calls as [|calls IH]; intros st net Hd Hb Hi Hq; cbn [sn_read_calls]; [by eexists [], _, _|].
  destruct (SN_Packet_Read_blocked st net d q Hd Hb Hi Hq) as (rc & st' & net' & -> & Hrc & Hi' & Hq'). cbn [mbind result_bind].
  destruct (IH st' net' Hd Hb Hi' Hq') as (rcs & st2 & net2 & -> & Hl & HF & ? & ?). cbn [mbind result_bind].
  eexists _, _, _. split; [done|]. split_and!; try done; [cbn; lia|by constructor].
Qed.
End Delivery.

(** ** Reading is total *)

(** A peek callback that stores what it was asked for at most. *)
Class BoundedPeek (Net : Type) `{!Peeker Net} := {
  net_peek_fits (net : Net) n :
    0 < n -> let '(_, bs, _) := net_peek net n in len bs <= n /\ bytes bs
}.

(** The state between two calls, over any network. *)
Definition sn_reader_ok (is_dtls : bool) (n : Z) (st : NetIO) : Prop :=
  reader_ok n st /\
  (pk_stat st = MQTT_PK_READ -> (if is_dtls then pk_header_len st else 0) + pk_remain_len st <= n).

Section AnyNetwork.
Context {Net : Type} `{!Reader Net} `{!Bounded Net} `{!Peeker Net} `{!BoundedPeek Net}.
Context (is_dtls : bool) (n : Z) (Hn : 4 <= n < 2147483648).
Implicit Types (st : NetIO) (net : Net).

(** The state of a call that has not got beyond the header. *)
Definition at_begin st : Prop := reader_ok n st /\ pk_stat st = MQTT_PK_BEGIN.

Lemma MqttSocket_Read_any st net off k :
  reader_ok n st -> 0 <= off -> off + k <= n ->
  exists rc st' net', MqttSocket_Read st net off k = Ok (rc, st', net') /\ reader_ok n st' /\ rc <= Z.max 0 k /\
    pk_stat st' = pk_stat st /\ pk_header_len st' = pk_header_len st /\ pk_remain_len st' = pk_remain_len st.
Proof using Bounded0.
  intros Hst Ho Hk.
  destruct (MqttSocket_Read_total n n ltac:(lia) ltac:(lia) st net off k Hst Ho Hk) as (rc & st' & net' & E & ? & ? & _ & ? & ? & ?).
  by exists rc, st', net'.
Qed.

Lemma MqttSocket_Peek_any st net k :
  reader_ok n st -> k <= n ->
  exists rc st' net', MqttSocket_Peek st net k = Ok (rc, st', net') /\ reader_ok n st' /\ pk_stat st' = pk_stat st.
Proof using BoundedPeek0.
  intros Hst Hk. pose proof Hst as [Hp Hl Hb Hh Hr]. unfold MqttSocket_Peek.
  destruct (Z.leb_spec k 0); [by eexists _, _, _|]. destruct (Z.leb_spec k (rd_pos st)); [by eexists _, _, _|].
  pose proof (net_peek_fits net k ltac:(lia)) as Hfit. destruct (net_peek net k) as [[rc bs] net']. destruct Hfit as [Hfit Hbs].
  destruct (put (io_rx st) 0 bs) as [rx| |] eqn:Ep.
  2,3: unfold put in Ep; rewrite !(proj2 (Z.leb_le _ _)) in Ep by lia; done.
  destruct (put_bytes _ _ _ _ Hb Hbs Ep) as [Hb' Hl']. cbn [mbind result_bind].
  eexists _, _, _. split; [done|]. split; [|done]. constructor; cbn; try done; [by destruct (0 <? rc)|lia].
Qed.

(** A part of the header, read or peeked at. *)
Lemma sn_whole_any k r :
  (exists rc st net, r = Ok (rc, st, net) /\ at_begin st) ->
  exists r', sn_whole (Net := Net) k r = Ok r' /\
    match r' with inl (rc, st', _) => rc < 0 /\ at_begin st' | inr (st', _) => at_begin st' end.
Proof using.
  intros (rc & st & net & -> & Hst). unfold sn_whole. cbn [mbind result_bind]. unfold MqttPacket_HandleNetError.
  destruct (Z.ltb_spec rc 0); [by eexists (inl _)|]. destruct (negb _); [by eexists (inl _)|by eexists (inr _)].
Qed.

Lemma header_part st net off k :
  at_begin st -> 0 <= off -> off + k <= n ->
  exists rc st' net', (if is_dtls then MqttSocket_Read st net off k else MqttSocket_Peek st net (off + k)) = Ok (rc, st', net') /\ at_begin st'.
Proof using Bounded0 BoundedPeek0.
  intros [Hst Es] Ho Hk. destruct is_dtls.
  - destruct (MqttSocket_Read_any st net off k Hst Ho Hk) as (rc & st' & net' & -> & ? & _ & E & _).
    eexists _, _, _. split; [done|]. split; [done|by rewrite E].
  - destruct (MqttSocket_Peek_any st net (off + k) Hst Hk) as (rc & st' & net' & -> & ? & E).
    eexists _, _, _. split; [done|]. split; [done|by rewrite E].
Qed.

Lemma sn_read_begin_any st net :
  at_begin st ->
  exists r, sn_read_begin is_dtls n st net = Ok r /\
    match r with
    | inl (rc, st', _) => rc < 0 /\ at_begin st'
    | inr (_, total, st', _) => at_begin st' /\ 2 <= pk_header_len st' <= 4 /\ 0 <= total
    end.
Proof using Bounded0 BoundedPeek0 Hn.
  intros Hst. unfold sn_read_begin.
  pose proof (header_part st net 0 2 Hst ltac:(lia) ltac:(lia)) as Hpart. rewrite Z.add_0_l in Hpart.
  destruct (sn_whole_any 2 _ Hpart) as (r & -> & Hr). cbn [mbind result_bind].
  destruct r as [[[rc st1] net1]|[st1 net1]]; [by eexists (inl _)|].
  pose proof Hr as [[Hp Hl Hb Hh Hrem] Es]. destruct (rd_ok (io_rx st1) 0 ltac:(lia)) as (b & Eb & _). rewrite Eb. cbn [mbind result_bind].
  pose proof (rd_byte _ _ _ Hb Eb) as Hbb. unfold is_byte in Hbb.
  destruct (b =? SN_PACKET_LEN_IND).
  2: { eexists (inr _). split; [done|]. split; [|cbn; lia]. split; [by apply reader_ok_lens; [split|congruence|done]|done]. }
  rewrite (proj2 (Z.ltb_ge n _)) by lia.
  assert (Hw : exists r', (if is_dtls then sn_whole 2 (MqttSocket_Read st1 net1 2 2) else sn_whole 4 (MqttSocket_Peek st1 net1 4)) = Ok r' /\
    match r' with inl (rc, st', _) => rc < 0 /\ at_begin st' | inr (st', _) => at_begin st' end).
  { clear Hpart. pose proof (header_part st1 net1 2 2 Hr ltac:(lia) ltac:(lia)) as Hpart. by destruct is_dtls; apply sn_whole_any. }
  destruct Hw as (r' & -> & Hr'). cbn [mbind result_bind].
  destruct r' as [[[rc st2] net2]|[st2 net2]]; [by eexists (inl _)|].
  destruct Hr' as [Hok Es2]. rewrite u32_small by lia.
  pose proof (MqttDecode_Num_yields (io_rx st2) 1 (n - 1) (ro_bytes _ _ Hok) ltac:(lia) ltac:(rewrite (ro_rx _ _ Hok); lia)) as Hy.
  destruct (MqttDecode_Num _ _ _) as [[x k]|rc|] eqn:Ex; cbn [yields] in Hy; [|exfalso|done].
  - eexists (inr _). split; [done|]. split; [|cbn; lia]. split; [apply reader_ok_lens; [done|congruence|by destruct Hok]|done].
  - revert Ex. unfold MqttDecode_Num. rewrite (proj2 (Z.ltb_ge (n - 1) _)) by lia.
    destruct (rd_ok (io_rx st2) 1) as (b1 & -> & _); [rewrite (ro_rx _ _ Hok); lia|].
    destruct (rd_ok (io_rx st2) (1 + 1)) as (b2 & -> & _); [rewrite (ro_rx _ _ Hok); lia|]. done.
Qed.

Lemma sn_read_rest_any st net :
  reader_ok n st -> 2 <= pk_header_len st <= 5 -> (if is_dtls then pk_header_len st else 0) + pk_remain_len st <= n ->
  exists rc st' net', sn_read_rest is_dtls n st net = Ok (rc, st', net') /\ sn_reader_ok is_dtls n st' /\ rc <= n.
Proof using Bounded0 Hn.
  intros Hst Hh Hfit. unfold sn_read_rest. cbn [set_stat pk_remain_len pk_header_len].
  assert (Hst1 : reader_ok n (set_stat st MQTT_PK_READ)) by by apply reader_ok_stat. pose proof (ro_remain _ _ Hst).
  assert (Hidx : (if is_dtls then u16 (pk_header_len st) else 0) = if is_dtls then pk_header_len st else 0)
    by (destruct is_dtls; [apply u16_small; lia|done]). rewrite Hidx.
  destruct (Z.ltb_spec 0 (pk_remain_len st)).
  - destruct (MqttSocket_Read_any (set_stat st MQTT_PK_READ) net (if is_dtls then pk_header_len st else 0) (pk_remain_len st) Hst1)
      as (rc & st' & net' & -> & Hst' & Hrc & Es & Eh & Er); [destruct is_dtls; lia|lia|]. cbn [mbind result_bind andb].
    destruct (Z.leb_spec rc 0).
    + eexists _, _, _. split; [done|]. split; [|unfold MqttPacket_HandleNetError; lia]. split; [done|]. intros _. by rewrite Eh, Er.
    + eexists _, _, _. split; [done|]. split; [split; [by apply reader_ok_stat|done]|]. destruct (Z.ltb_spec n (if is_dtls then rc + pk_header_len st' else rc)); lia.
  - cbn [mbind result_bind andb]. eexists _, _, _. split; [done|]. split; [split; [by apply reader_ok_stat|done]|].
    match goal with |- (if ?a <? ?b then _ else _) <= _ => destruct (Z.ltb_spec a b); lia end.
Qed.

Lemma sn_read_head_any st net l total :
  reader_ok n st -> 2 <= pk_header_len st <= 5 -> 0 <= total ->
  exists rc st' net', sn_read_head is_dtls n l total st net = Ok (rc, st', net') /\ sn_reader_ok is_dtls n st' /\ rc <= n.
Proof using Bounded0 Hn.
  intros Hst Hh Ht. unfold sn_read_head. cbn [set_stat set_lens pk_header_len pk_remain_len].
  assert (Hlens : forall r, 0 <= r -> reader_ok n (set_lens (set_stat st MQTT_PK_READ_HEAD) (pk_header_len st) r)).
  { intros r Hr. apply reader_ok_lens; [by apply reader_ok_stat|lia|done]. }
  destruct is_dtls eqn:Edtls.
  - set (r := if l <? total then total - l else 0). assert (0 <= r) by (unfold r; destruct (Z.ltb_spec l total); lia).
    destruct (Z.ltb_spec n (pk_header_len st)).
    { eexists _, _, _. split; [done|]. split; [split; [by apply Hlens|done]|lia]. }
    rewrite <- Edtls. apply sn_read_rest_any; [|done|]; cbn [pk_header_len pk_remain_len set_lens set_stat].
    + by apply Hlens; destruct (Z.ltb_spec (n - pk_header_len st) r); lia.
    + rewrite Edtls. destruct (Z.ltb_spec (n - pk_header_len st) r); lia.
  - rewrite <- Edtls. apply sn_read_rest_any; [|done|]; cbn [pk_header_len pk_remain_len set_lens set_stat].
    + by apply Hlens; destruct (Z.ltb_spec n total); lia.
    + rewrite Edtls. destruct (Z.ltb_spec n total); lia.
Qed.
End AnyNetwork.

(** ** Datagrams with a script

    A negative or zero number in the script is a return code; after the script
    the datagrams are delivered one by one. *)
Record DgramNet : Set := mkDgram { dg_script : list Z; dg_queue : list (list Z) }.

Definition dgram_call (consume : bool) (net : DgramNet) (n : Z) : Z * list Z * DgramNet :=
  match dg_script net with
  | k :: script => (Z.min k 0, [], mkDgram script (dg_queue net))
  | [] =>
    match dg_queue net with
    | [] => (MQTT_CODE_CONTINUE, [], net)
    | d :: q =>
      let bs := map u8 (take (Z.to_nat n) d) in (len bs, bs, if consume then mkDgram [] q else net)
    end
  end.

#[export] Instance dgram_reader : Reader DgramNet := {| net_read := dgram_call true |}.
#[export] Instance dgram_peeker : Peeker DgramNet := {| net_peek := dgram_call false |}.

Definition dgram_bytes (net : DgramNet) : list (list Z) := map (map u8) (dg_queue net).

#[export] Instance dgram_datagrams : Datagrams DgramNet.
Proof.
  refine {| net_queue := dgram_bytes; net_waits net := length (dg_script net) |};
    intros [sc dq] n d q Hn Hq; cbn [net_read net_peek dgram_reader dgram_peeker]; unfold dgram_call; cbn [dg_script dg_queue].
  - destruct sc as [|k sc]; [|split; [done|left; cbn; split_and!; done || lia]].
    destruct dq as [|d0 dq]; [done|]. injection Hq as Hd Hq. split; [unfold dgram_bytes; cbn; congruence|].
    right. split_and!; [done| |cbn; lia]. by rewrite <- Hd, firstn_map.
  - destruct sc as [|k sc]; [|left; cbn; split_and!; done || lia].
    destruct dq as [|d0 dq]; [done|]. injection Hq as Hd Hq. right. split_and!; [done| |done|cbn; lia].
    by rewrite <- Hd, firstn_map.
Defined.

Lemma dgram_call_fits consume net n : 0 < n -> let '(_, bs, _) := dgram_call consume net n in len bs <= n /\ bytes bs.
Proof.
  intros Hn. unfold dgram_call. assert (H0 : len (@nil Z) <= n /\ bytes []) by (split; [by apply Z.lt_le_incl|constructor]).
  destruct (dg_script net); [|done]. destruct (dg_queue net) as [|d q]; [done|]. cbv zeta. split.
  - rewrite len_map, len_min by lia. lia.
  - apply Forall_map. apply List.Forall_forall. intros c _. unfold compose, is_byte, u8. pose proof (Z.mod_pos_bound c 256). lia.
Qed.

#[export] Instance dgram_bounded : Bounded DgramNet.
Proof. constructor. intros net n. apply dgram_call_fits. Qed.
#[export] Instance dgram_bounded_peek : BoundedPeek DgramNet.
Proof. constructor. intros net n. apply dgram_call_fits. Qed.

(** A buffer of [n] bytes and nothing read. *)
Definition ex_sn_reader (n : nat) : NetIO := mkIO MQTT_PK_BEGIN 0 0 0 0 (replicate n 0).

(** ** Properties *)

(** C39: over datagrams, a client that keeps calling [SN_Packet_Read] gets the
    next packet, however often the network has nothing to deliver: if the
    datagram is complete, as many bytes as it announces, or as fit into the
    buffer. It is at the start of the buffer, its length is the return code, the
    next datagrams are untouched and the client is ready for them. One call more
    than there are interruptions is enough. *)
Theorem SN_Packet_Read_delivers {Net} `{!Datagrams Net} rx_buf_len calls st net d q total :
  4 <= rx_buf_len < 2147483648 -> bytes d ->
  sn_announced d = Some total -> 0 < total -> Z.min total rx_buf_len <= len d ->
  sn_idle rx_buf_len st -> net_queue net = d :: q -> (net_waits net < calls)%nat ->
  let n := Z.min total rx_buf_len in
  exists st' net', sn_read_packet calls false rx_buf_len st net = Ok (n, st', net') /\
    take (Z.to_nat n) (io_rx st') = take (Z.to_nat n) d /\ sn_idle rx_buf_len st' /\ net_queue net' = q.
Proof.
  intros Hn Hd Ha Ht Hl [Hs Hf] Hq Hc n.
  destruct (sn_read_packet_datagram rx_buf_len Hn calls st net d q total) as (st' & net' & E & t & ? & ? & ? & ? & ? & _); try done.
  - split; [done|by left].
  - by exists st', net'.
Qed.

(** A DISCONNECT after two interruptions, one between the peek and the read,
    and the next datagram. *)
Lemma SN_Packet_Read_delivers_witness :
  let net := mkDgram [0; -2] [[2; 24]; [2; 23]] in
  exists st' net', sn_read_packet 3 false 8 (ex_sn_reader 8) net = Ok (2, st', net') /\
    take 2 (io_rx st') = [2; 24] /\ sn_idle 8 st' /\ net_queue net' = [[2; 23]].
Proof.
  intros net. refine (SN_Packet_Read_delivers 8 3 (ex_sn_reader 8) net [2; 24] [[2; 23]] 2 _ _ _ _ _ _ _ _); by_eval.
Defined.

(** C40: a datagram with no whole header, or one that announces the length 0,
    blocks the client: however often it calls [SN_Packet_Read], no packet is
    returned and the datagram stays where it is, so that nothing after it is
    ever received. *)
Theorem SN_Packet_Read_stuck {Net} `{!Datagrams Net} rx_buf_len calls st net d q :
  4 <= rx_buf_len < 2147483648 -> bytes d ->
  sn_announced d = None \/ sn_announced d = Some 0 ->
  sn_idle rx_buf_len st -> net_queue net = d :: q ->
  exists rcs st' net', sn_read_calls calls false rx_buf_len st net = Ok (rcs, st', net') /\
    length rcs = calls /\ Forall (fun rc => rc <= 0) rcs /\ sn_idle rx_buf_len st' /\ net_queue net' = d :: q.
Proof. intros Hn. by apply sn_read_calls_blocked. Qed.

(** A datagram that announces no byte, before a PINGRESP. *)
Lemma SN_Packet_Read_stuck_witness :
  let net := mkDgram [] [[0; 23]; [2; 23]] in
  exists rcs st' net', sn_read_calls 5 false 8 (ex_sn_reader 8) net = Ok (rcs, st', net') /\
    length rcs = 5%nat /\ Forall (fun rc => rc <= 0) rcs /\ sn_idle 8 st' /\ net_queue net' = [[0; 23]; [2; 23]].
Proof.
  intros net. refine (SN_Packet_Read_stuck 8 5 (ex_sn_reader 8) net [0; 23] [[2; 23]] _ _ _ _ _); by_eval.
Defined.

(** With any network, over DTLS and over datagrams, and wherever the last
    call stopped, [SN_Packet_Read] reads and writes nothing outside its buffer,
    returns at most the size of the buffer and leaves a state from which it can
    be called again. *)
Theorem SN_Packet_Read_safe {Net} `{!Reader Net} `{!Bounded Net} `{!Peeker Net} `{!BoundedPeek Net} is_dtls rx_buf_len st (net : Net) :
  rx_buf_len < 2147483648 -> sn_reader_ok is_dtls rx_buf_len st ->
  exists rc st' net', SN_Packet_Read is_dtls rx_buf_len st net = Ok (rc, st', net') /\
    sn_reader_ok is_dtls rx_buf_len st' /\ rc <= rx_buf_len.
Proof.
  intros Hn [Hst Hfit]. unfold SN_Packet_Read. destruct (Z.ltb_spec rx_buf_len (MQTT_PACKET_HEADER_MIN_SIZE + MQTT_DATA_LEN_SIZE)).
  { eexists _, _, _. split; [done|]. split; [by split|]. rewrite <- (ro_rx _ _ Hst). pose proof (len_nonneg (io_rx st)). lia. }
  destruct (pk_stat st) eqn:Es.
  - destruct (sn_read_begin_any is_dtls rx_buf_len ltac:(lia) st net (conj Hst Es)) as (r & -> & Hr). cbn [mbind result_bind].
    destruct r as [[[rc st'] net']|[[[l total] st'] net']].
    + destruct Hr as (? & ? & E). eexists _, _, _. split; [done|]. split; [split; [done|by rewrite E]|lia].
    + destruct Hr as ([? ?] & ? & ?). apply sn_read_head_any; try done; lia.
  - apply sn_read_head_any; try done. apply (ro_head _ _ Hst). by rewrite Es.
  - apply sn_read_rest_any; try done; [|by apply Hfit]. apply (ro_head _ _ Hst). by rewrite Es.
Qed.

(** Over DTLS, with a length field of three bytes. *)
Lemma SN_Packet_Read_safe_witness :
  let net := mkDgram [] [[1; 0]; [4; 24]] in
  exists rc st' net', SN_Packet_Read true 8 (ex_sn_reader 8) net = Ok (rc, st', net') /\ sn_reader_ok true 8 st' /\ rc <= 8.
Proof.
  intros net. apply (SN_Packet_Read_safe true 8 (ex_sn_reader 8) net); [done|].
  split; [|done]. constructor; try done; by_eval.
Defined.

(** A datagram that is shorter than it announces is completed with the next
    one: of [5; 12; 0] and [2; 23; 9] the client gets [5; 12; 0; 2; 23]. *)
Example SN_Packet_Read_merges :
  exists st' net', sn_read_calls 2 false 8 (ex_sn_reader 8) (mkDgram [] [[5; 12; 0]; [2; 23; 9]]) = Ok ([MQTT_CODE_CONTINUE; 5], st', net') /\
    take 5 (io_rx st') = [5; 12; 0; 2; 23] /\ dg_queue net' = [].
Proof. eexists _, _. split_and!; vm_compute; reflexivity. Qed.

(** Nothing is peeked at over DTLS. *)
#[local] Instance dtls_peeker : Peeker ScriptNet := {| net_peek net _ := (MQTT_CODE_ERROR_NETWORK, [], net) |}.

(** Over DTLS the header is consumed piece by piece, but the state only says
    so when it is whole: interrupted after the first two bytes of a long length
    field, the next call takes the last two for a new header, and the packet
    after it for the rest. *)
Example SN_Packet_Read_loses_header :
  exists st' net', sn_read_packet (Net := ScriptNet) 3 true 8 (ex_sn_reader 8) (mkScript [2; -101] [1; 0; 4; 24; 2; 23] []) = Ok (4, st', net') /\
    take 4 (io_rx st') = [4; 24; 2; 23].
Proof. eexists _, _. split; vm_compute; reflexivity. Qed.
