(* ===== verification/PersistRecord.v ===== *)
(** * PersistRecord: the records of the persistence layer ([mqtt_broker_persist.c])

    Each record is a header of 12 bytes and a body of fixed-width fields, then
    strings and payloads. This file holds what writes a record and what reads
    its fields, in a build without encryption, and that both agree. *)
From S2P Require Import Prelude PacketDefs Wire FixedHeader PacketIO BrokerDefs.

(** ** Constants *)

Abbreviation WMQB_HDR_LEN := (12)%Z.
Abbreviation WMQB_SESSION_FLAG_EXPIRY_VALID := (1)%Z.
Abbreviation WOLFMQTT_BROKER_PERSIST_SCHEMA_VER := (5)%Z.
Abbreviation WMQB_WRAP_MODE := (0)%Z.
Abbreviation BROKER_PERSIST_NS_META := (1)%Z.
Abbreviation BROKER_PERSIST_NS_SESSION := (2)%Z.
Abbreviation BROKER_PERSIST_NS_SUBS := (3)%Z.
Abbreviation BROKER_PERSIST_NS_RETAINED := (4)%Z.
Abbreviation BROKER_PERSIST_NS_OUTQ := (5)%Z.
Abbreviation WMQB_RETAINED_BODY_MIN := (16)%Z.

(** "WMQB" *)
Definition PERSIST_MAGIC : list Z := [87; 77; 81; 66].

(** ** Integers *)

(** The [n] bytes of [v], the most significant one first. *)
Fixpoint be_bytes (n : nat) (v : Z) : list Z :=
  match n with
  | O => []
  | S n => Z.land (Z.shiftr v (8 * Z.of_nat n)) 255 :: be_bytes n v
  end.

Definition wmqb_w_u16 (v : Z) : list Z := be_bytes 2 v.
Definition wmqb_w_u32 (v : Z) : list Z := be_bytes 4 v.
Definition wmqb_w_u64 (v : Z) : list Z := be_bytes 8 v.

Fixpoint be_read (n : nat) (p : list Z) (off : Z) : result Z :=
  match n with
  | O => Ok 0
  | S n =>
    b ← rd p off;
    v ← be_read n p (off + 1);
    Ok (Z.lor (Z.shiftl b (8 * Z.of_nat n)) v)
  end.

Definition wmqb_r_u16 (p : list Z) (off : Z) : result Z := be_read 2 p off.
Definition wmqb_r_u32 (p : list Z) (off : Z) : result Z := be_read 4 p off.
Definition wmqb_r_u64 (p : list Z) (off : Z) : result Z := be_read 8 p off.

(** ** The header *)

Definition wmqb_write_header (rec_kind body_len : Z) : list Z :=
  PERSIST_MAGIC ++ wmqb_w_u16 WOLFMQTT_BROKER_PERSIST_SCHEMA_VER ++
  [Z.land rec_kind 255; WMQB_WRAP_MODE] ++ wmqb_w_u32 body_len.

(** The length of the body. *)
Definition wmqb_read_header (buf : list Z) (expect_kind : Z) : result Z :=
  if len buf <? WMQB_HDR_LEN then Err MQTT_CODE_ERROR_MALFORMED_DATA
  else
    magic ← slice buf 0 4;
    if bool_decide (magic ≠ PERSIST_MAGIC) then Err MQTT_CODE_ERROR_MALFORMED_DATA
    else
      ver ← wmqb_r_u16 buf 4;
      if negb (ver =? WOLFMQTT_BROKER_PERSIST_SCHEMA_VER) then Err MQTT_CODE_ERROR_BAD_ARG
      else
        kind ← rd buf 6;
        if negb (kind =? Z.land expect_kind 255) then Err MQTT_CODE_ERROR_BAD_ARG
        else
          mode ← rd buf 7;
          if negb (mode =? WMQB_WRAP_MODE) then Err MQTT_CODE_ERROR_BAD_ARG
          else
            body_len ← wmqb_r_u32 buf 8;
            if len buf - WMQB_HDR_LEN <? body_len then Err MQTT_CODE_ERROR_MALFORMED_DATA
            else Ok body_len.

(** ** Writing *)

(** The buffer is allocated for [body_len] bytes; writing more is undefined. *)
Definition wmqb_record (rec_kind body_len : Z) (body : list Z) : result (list Z) :=
  if u32 (WMQB_HDR_LEN + body_len) <? WMQB_HDR_LEN + len body then UB
  else Ok (wmqb_write_header rec_kind body_len ++ body).

(** [(word16)XSTRLEN(s)] and so many of its bytes. *)
Definition wmqb_str (s : list Z) : result (Z * list Z) :=
  let n := u16 (XSTRLEN s) in
  bs ← slice s 0 n;
  Ok (n, bs).

(** The payload. Without a buffer nothing is written where [payload_len] bytes
    are announced. *)
Definition wmqb_payload (payload : option (list Z)) (payload_len : Z) : result (list Z) :=
  if 0 <? payload_len then
    match payload with Some p => slice p 0 payload_len | None => UB end
  else Ok [].

Definition wmqb_session_record (cid : list Z) (cid_len protocol_level session_expiry_sec orphan_since : Z) : result (list Z) :=
  bs ← slice cid 0 cid_len;
  wmqb_record BROKER_PERSIST_NS_SESSION (u32 (16 + cid_len))
    ([protocol_level; WMQB_SESSION_FLAG_EXPIRY_VALID] ++ wmqb_w_u32 session_expiry_sec ++ wmqb_w_u64 orphan_since ++
     wmqb_w_u16 cid_len ++ bs).

(** The subscriptions of [client_id], in the order of the table. *)
Definition sub_of_client (client_id : list Z) (sub : BrokerSub) : bool := bool_decide (sub_client_id sub = Some client_id).

(** First pass: the number of entries, and the size of the body. *)
Fixpoint wmqb_subs_size (client_id : list Z) (subs : list BrokerSub) (count body_len : Z) : Z * Z :=
  match subs with
  | [] => (count, body_len)
  | sub :: subs =>
    if sub_of_client client_id sub
    then wmqb_subs_size client_id subs (u16 (count + 1)) (u32 (body_len + (1 + 1 + 2 + u32 (XSTRLEN (sub_filter sub)))))
    else wmqb_subs_size client_id subs count body_len
  end.

(** Second pass. *)
Fixpoint wmqb_subs_body (client_id : list Z) (subs : list BrokerSub) : result (list Z) :=
  match subs with
  | [] => Ok []
  | sub :: subs =>
    if sub_of_client client_id sub then
      '(flen, filter) ← wmqb_str (sub_filter sub);
      rest ← wmqb_subs_body client_id subs;
      Ok ([u8 (sub_qos sub); 0] ++ wmqb_w_u16 flen ++ filter ++ rest)
    else wmqb_subs_body client_id subs
  end.

Definition wmqb_subs_record (client_id : list Z) (count body_len : Z) (subs : list BrokerSub) : result (list Z) :=
  entries ← wmqb_subs_body client_id subs;
  wmqb_record BROKER_PERSIST_NS_SUBS body_len (wmqb_w_u16 count ++ entries).

Definition wmqb_retained_record (m : BrokerRetainedMsg) : result (list Z) :=
  '(topic_len, topic) ← wmqb_str (rm_topic m);
  payload ← wmqb_payload (rm_payload m) (rm_payload_len m);
  wmqb_record BROKER_PERSIST_NS_RETAINED (u32 (1 + 1 + 8 + 4 + 2 + topic_len + 4 + rm_payload_len m))
    ([u8 (rm_qos m); 0] ++ wmqb_w_u64 (rm_store_time m) ++ wmqb_w_u32 (rm_expiry_sec m) ++ wmqb_w_u16 topic_len ++
     topic ++ wmqb_w_u32 (rm_payload_len m) ++ payload).

(** An entry of a queue as the persistence layer knows it: the state is a byte;
    the v5 properties are not kept. Nothing in this build sets the expiry of an
    entry. *)
Record OutRecord : Set := mkOutRecord {
  or_state : Z;
  or_qos : Z;
  or_retain : Z;
  or_protocol_level : Z;
  or_retransmit_dup : Z;
  or_packet_id : Z;
  or_enq_time : Z;
  or_enqueue_seq : Z;
  or_expiry_sec : Z;
  or_topic : list Z;
  or_payload : option (list Z);
  or_payload_len : Z
}.

Definition outq_state_byte (s : BrokerOutPubState) : Z :=
  match s with BROKER_OUTQ_QUEUED => 0 | BROKER_OUTQ_PUBLISH_SENT => 1 | BROKER_OUTQ_PUBREL_SENT => 2 end.

Definition out_record (e : BrokerOutPub) : OutRecord :=
  mkOutRecord (outq_state_byte (op_state e)) (op_qos e) (op_retain e) (op_protocol_level e) (op_retransmit_dup e) (op_packet_id e)
    (op_enq_time e) (op_enqueue_seq e) 0 (op_topic e) (op_payload e) (op_payload_len e).

Definition wmqb_outq_record (e : OutRecord) : result (list Z) :=
  let topic_len := u16 (XSTRLEN (or_topic e)) in
  topic ← slice (or_topic e) 0 topic_len;
  payload ← wmqb_payload (or_payload e) (or_payload_len e);
  wmqb_record BROKER_PERSIST_NS_OUTQ (u32 (1 + 1 + 1 + 1 + 2 + 2 + 8 + 8 + 4 + 2 + topic_len + 4 + or_payload_len e))
    ([or_state e; u8 (or_qos e); or_retain e; or_protocol_level e; or_retransmit_dup e; 0] ++ wmqb_w_u16 (or_packet_id e) ++
     wmqb_w_u64 (or_enq_time e) ++ wmqb_w_u64 (or_enqueue_seq e) ++ wmqb_w_u32 (or_expiry_sec e) ++ wmqb_w_u16 topic_len ++
     topic ++ wmqb_w_u32 (or_payload_len e) ++ payload).

(** The key of an entry, in a buffer of 256 + 3 bytes. *)
Definition wmqb_outq_build_key (client_id : list Z) (packet_id : Z) : result (list Z) :=
  let cid_len := XSTRLEN client_id in
  if 256 + 3 <? cid_len + 1 + 2 then Err MQTT_CODE_ERROR_OUT_OF_BUFFER
  else
    bs ← slice client_id 0 cid_len;
    Ok (bs ++ [0] ++ wmqb_w_u16 packet_id).

(** ** Reading *)

(** The fields of a session: level, Session Expiry, time and client. *)
Definition wmqb_session_fields (blob : list Z) : result (Z * Z * Z * list Z) :=
  body_len ← wmqb_read_header blob BROKER_PERSIST_NS_SESSION;
  if body_len <? 1 + 1 + 4 + 8 + 2 then Err MQTT_CODE_ERROR_MALFORMED_DATA
  else
    proto_level ← rd blob WMQB_HDR_LEN;
    session_expiry ← wmqb_r_u32 blob (WMQB_HDR_LEN + 2);
    orphan_since ← wmqb_r_u64 blob (WMQB_HDR_LEN + 6);
    cid_len ← wmqb_r_u16 blob (WMQB_HDR_LEN + 14);
    if body_len <? 16 + cid_len then Err MQTT_CODE_ERROR_MALFORMED_DATA
    else
      cid ← slice blob (WMQB_HDR_LEN + 16) cid_len;
      if session_expiry =? 0 then Err MQTT_CODE_ERROR_NOT_FOUND
      else Ok (proto_level, session_expiry, orphan_since, cid).

(** One entry of a list of subscriptions at [p]: QoS, filter, and where the
    next one is. *)
Definition wmqb_sub_entry (blob : list Z) (p end_ : Z) : result (Z * list Z * Z) :=
  if end_ - p <? 4 then Err MQTT_CODE_ERROR_MALFORMED_DATA
  else
    qos ← rd blob p;
    flen ← wmqb_r_u16 blob (p + 2);
    if end_ - (p + 4) <? flen then Err MQTT_CODE_ERROR_MALFORMED_DATA
    else
      filter ← slice blob (p + 4) flen;
      Ok (qos, filter, p + 4 + flen).

(** The fixed part of a retained message: QoS, time, expiry, the length of the
    topic and the end of the body. *)
Definition wmqb_retained_fields (blob : list Z) : result (Z * Z * Z * Z * Z) :=
  body_len ← wmqb_read_header blob BROKER_PERSIST_NS_RETAINED;
  if body_len <? WMQB_RETAINED_BODY_MIN then Err MQTT_CODE_ERROR_MALFORMED_DATA
  else
    qos ← rd blob WMQB_HDR_LEN;
    store_time ← wmqb_r_u64 blob (WMQB_HDR_LEN + 2);
    expiry ← wmqb_r_u32 blob (WMQB_HDR_LEN + 10);
    topic_len ← wmqb_r_u16 blob (WMQB_HDR_LEN + 14);
    if body_len - 16 <? topic_len + 4 then Err MQTT_CODE_ERROR_MALFORMED_DATA
    else Ok (qos, store_time, expiry, topic_len, WMQB_HDR_LEN + body_len).

(** The Message Expiry Interval of a record has elapsed. *)
Definition wmqb_retained_expired (now : Z) (blob : list Z) : result bool :=
  match wmqb_read_header blob BROKER_PERSIST_NS_RETAINED with
  | UB => UB
  | Err _ => Ok false
  | Ok body_len =>
    if body_len <? WMQB_RETAINED_BODY_MIN then Ok false
    else
      store_time ← wmqb_r_u64 blob (WMQB_HDR_LEN + 2);
      expiry ← wmqb_r_u32 blob (WMQB_HDR_LEN + 10);
      if expiry =? 0 then Ok false
      else Ok ((store_time <=? now) && (expiry <=? now - store_time))
  end.

(** The payload at [p], after its length. *)
Definition wmqb_read_payload (blob : list Z) (p end_ : Z) : result (list Z) :=
  payload_len ← wmqb_r_u32 blob p;
  if end_ - (p + 4) <? payload_len then Err MQTT_CODE_ERROR_MALFORMED_DATA
  else slice blob (p + 4) payload_len.

(** The fixed part of a queue entry, the length of its topic and the end of the
    body. *)
Definition wmqb_outq_fields (blob : list Z) : result (OutRecord * Z * Z) :=
  body_len ← wmqb_read_header blob BROKER_PERSIST_NS_OUTQ;
  if body_len <? 30 then Err MQTT_CODE_ERROR_MALFORMED_DATA
  else
    state ← rd blob WMQB_HDR_LEN;
    qos ← rd blob (WMQB_HDR_LEN + 1);
    retain ← rd blob (WMQB_HDR_LEN + 2);
    protocol_level ← rd blob (WMQB_HDR_LEN + 3);
    retransmit_dup ← rd blob (WMQB_HDR_LEN + 4);
    if 1 <? retransmit_dup then Err MQTT_CODE_ERROR_MALFORMED_DATA
    else
      packet_id ← wmqb_r_u16 blob (WMQB_HDR_LEN + 6);
      enq_time ← wmqb_r_u64 blob (WMQB_HDR_LEN + 8);
      enqueue_seq ← wmqb_r_u64 blob (WMQB_HDR_LEN + 16);
      if enqueue_seq =? 0 then Err MQTT_CODE_ERROR_MALFORMED_DATA
      else
        expiry_sec ← wmqb_r_u32 blob (WMQB_HDR_LEN + 24);
        topic_len ← wmqb_r_u16 blob (WMQB_HDR_LEN + 28);
        if body_len - 30 <? topic_len + 4 then Err MQTT_CODE_ERROR_MALFORMED_DATA
        else
          Ok (mkOutRecord state qos retain protocol_level retransmit_dup packet_id enq_time enqueue_seq expiry_sec [] None 0,
              topic_len, WMQB_HDR_LEN + body_len).

Definition set_or_message (e : OutRecord) (topic : list Z) (payload : option (list Z)) (payload_len : Z) : OutRecord :=
  mkOutRecord (or_state e) (or_qos e) (or_retain e) (or_protocol_level e) (or_retransmit_dup e) (or_packet_id e) (or_enq_time e)
    (or_enqueue_seq e) (or_expiry_sec e) topic payload payload_len.

(** The owner in the key of an entry. *)
Definition wmqb_outq_owner (key : list Z) : result (list Z) :=
  if len key <? 3 then Err MQTT_CODE_ERROR_BAD_ARG
  else
    let cid_len := len key - 3 in
    sep ← rd key cid_len;
    if negb (sep =? 0) then Err MQTT_CODE_ERROR_MALFORMED_DATA else slice key 0 cid_len.

(** ** Integers *)

Lemma be_bytes_len n v : len (be_bytes n v) = Z.of_nat n.
Proof. induction n as [|n IH]; [done|]. cbn [be_bytes]. rewrite len_cons, IH. lia. Qed.

Lemma be_bytes_bytes n v : bytes (be_bytes n v).
Proof.
  induction n as [|n IH]; constructor; [|done]. rewrite land_255. unfold is_byte. pose proof (Z.mod_pos_bound (Z.shiftr v (8 * Z.of_nat n)) 256). lia.
Qed.

(** The next byte on top of [8 * n] bits. *)
Lemma join_byte v n : 0 <= n ->
  Z.lor (Z.shiftl (Z.land (Z.shiftr v n) 255) n) (v mod 2 ^ n) = v mod 2 ^ (n + 8).
Proof.
  intros Hn. change 255 with (Z.ones 8). apply Z.bits_inj'. intros i Hi.
  rewrite Z.lor_spec, Z.shiftl_spec, Z.land_spec by lia.
  destruct (Z.ltb_spec i n).
  - rewrite (Z.testbit_neg_r _ (i - n)), (Z.mod_pow2_bits_low _ n i), (Z.mod_pow2_bits_low _ (n + 8) i) by lia. done.
  - rewrite (Z.mod_pow2_bits_high _ n) by lia. rewrite orb_false_r, Z.shiftr_spec by lia. replace (i - n + n) with i by lia.
    destruct (Z.ltb_spec i (n + 8)).
    + rewrite Z.ones_spec_low, Z.mod_pow2_bits_low, andb_true_r by lia. done.
    + rewrite Z.ones_spec_high, Z.mod_pow2_bits_high, andb_false_r by lia. done.
Qed.

Lemma be_read_sits n p off v : sits p off (be_bytes n v) -> be_read n p off = Ok (v mod 2 ^ (8 * Z.of_nat n)).
Proof.
  revert off. induction n as [|n IH]; intros off Hs; [by rewrite Z.mod_1_r|]. cbn [be_bytes be_read] in *.
  rewrite (rd_sits _ _ _ _ Hs). apply sits_cons in Hs as [_ Hs]. rewrite (IH _ Hs). cbn [mbind result_bind].
  rewrite join_byte by lia. do 3 f_equal. lia.
Qed.

(** An integer that fits is read back. *)
Lemma be_read_small n p off v : sits p off (be_bytes n v) -> 0 <= v < 2 ^ (8 * Z.of_nat n) -> be_read n p off = Ok v.
Proof. intros Hs Hv. rewrite (be_read_sits _ _ _ _ Hs). by rewrite Z.mod_small. Qed.

Lemma be_read_total n p off : bytes p -> 0 <= off -> off + Z.of_nat n <= len p ->
  exists v, be_read n p off = Ok v /\ 0 <= v < 2 ^ (8 * Z.of_nat n).
Proof.
  intros Hp. revert off. induction n as [|n IH]; intros off Ho Hl; [by exists 0|]. cbn [be_read].
  destruct (rd_ok p off ltac:(lia)) as (b & Eb & _). rewrite Eb. cbn [mbind result_bind]. pose proof (rd_byte _ _ _ Hp Eb) as Hb. unfold is_byte in Hb.
  destruct (IH (off + 1) ltac:(lia) ltac:(lia)) as (v & -> & Hv). cbn [mbind result_bind]. eexists. split; [done|].
  set (k := 8 * Z.of_nat n) in *. pose proof (Z.pow_pos_nonneg 2 k ltac:(lia) ltac:(lia)).
  assert (Eb' : Z.land (Z.shiftr (b * 2 ^ k + v) k) 255 = b).
  { rewrite land_255, Z.shiftr_div_pow2, Z.add_comm, Z.div_add, Z.div_small, Z.add_0_l by lia. apply Z.mod_small. lia. }
  assert (Ev : (b * 2 ^ k + v) mod 2 ^ k = v) by (rewrite Z.add_comm, Z.mod_add by lia; by apply Z.mod_small).
  assert (E : Z.lor (Z.shiftl b k) v = (b * 2 ^ k + v) mod 2 ^ (k + 8)) by by rewrite <- join_byte, Eb', Ev by lia.
  rewrite E.
  replace (8 * Z.of_nat (S n)) with (k + 8) by lia. apply Z.mod_pos_bound. by apply Z.pow_pos_nonneg; lia.
Qed.

(** ** The header *)

Lemma wmqb_r_u16_sits p off v : sits p off (wmqb_w_u16 v) -> 0 <= v < 65536 -> wmqb_r_u16 p off = Ok v.
Proof. intros Hs Hv. by apply be_read_small. Qed.
Lemma wmqb_r_u32_sits p off v : sits p off (wmqb_w_u32 v) -> 0 <= v < 4294967296 -> wmqb_r_u32 p off = Ok v.
Proof. intros Hs Hv. by apply be_read_small. Qed.
Lemma wmqb_r_u64_sits p off v : sits p off (wmqb_w_u64 v) -> 0 <= v < 18446744073709551616 -> wmqb_r_u64 p off = Ok v.
Proof. intros Hs Hv. by apply be_read_small. Qed.

Lemma w_u16_len v : len (wmqb_w_u16 v) = 2.
Proof. apply be_bytes_len. Qed.
Lemma w_u32_len v : len (wmqb_w_u32 v) = 4.
Proof. apply be_bytes_len. Qed.
Lemma w_u64_len v : len (wmqb_w_u64 v) = 8.
Proof. apply be_bytes_len. Qed.
#[export] Hint Rewrite w_u16_len w_u32_len w_u64_len : lens.

Lemma wmqb_write_header_len kind n : len (wmqb_write_header kind n) = 12.
Proof. unfold wmqb_write_header. by rewrite !len_app, w_u16_len, w_u32_len. Qed.

(** A blob that is a record of the kind [kind] with this body. *)
Definition holds_body (kind : Z) (blob body : list Z) : Prop :=
  len body < 4294967296 /\ exists rest, blob = wmqb_write_header kind (len body) ++ body ++ rest.

Lemma read_header_holds kind blob body :
  0 <= kind < 256 -> holds_body kind blob body -> wmqb_read_header blob kind = Ok (len body) /\ sits blob WMQB_HDR_LEN body.
Proof.
  intros Hk [Hl (rest & ->)]. pose proof (len_nonneg body) as Hn. pose proof (len_nonneg rest) as Hn'.
  assert (Hs : sits (wmqb_write_header kind (len body) ++ body ++ rest) 0
    (PERSIST_MAGIC ++ wmqb_w_u16 WOLFMQTT_BROKER_PERSIST_SCHEMA_VER ++ [Z.land kind 255; WMQB_WRAP_MODE] ++ wmqb_w_u32 (len body) ++ body)).
  { exists [], rest. split; [|done]. unfold wmqb_write_header. by rewrite <- !app_assoc. }
  rewrite !sits_app, !w_u16_len, !w_u32_len in Hs. destruct Hs as (H0 & H4 & H6 & H8 & H12).
  split; [|exact H12]. unfold wmqb_read_header. rewrite !len_app, wmqb_write_header_len, (proj2 (Z.ltb_ge _ _)) by lia.
  rewrite (slice_sits _ _ _ 4 H0) by done. cbn [mbind result_bind]. rewrite bool_decide_eq_false_2 by (intros []; done).
  rewrite (wmqb_r_u16_sits _ 4 _ H4) by lia. cbn [mbind result_bind Z.eqb negb]. change (5 =? 5) with true. cbn [negb].
  rewrite (rd_sits _ 6 _ _ H6). cbn [mbind result_bind]. rewrite Z.eqb_refl. cbn [negb].
  apply sits_cons in H6 as [_ H7]. rewrite (rd_sits _ 7 _ _ H7). cbn [mbind result_bind Z.eqb negb].
  rewrite (wmqb_r_u32_sits _ 8 _ H8) by lia. cbn [mbind result_bind]. by rewrite (proj2 (Z.ltb_ge _ _)) by lia.
Qed.

(** On any bytes the header is read, and the body it announces is there. *)
Lemma read_header_total kind blob :
  bytes blob ->
  match wmqb_read_header blob kind with
  | Ok n => 0 <= n <= len blob - 12
  | Err rc => rc = MQTT_CODE_ERROR_MALFORMED_DATA \/ rc = MQTT_CODE_ERROR_BAD_ARG
  | UB => False
  end.
Proof.
  intros Hb. unfold wmqb_read_header. destruct (Z.ltb_spec (len blob) WMQB_HDR_LEN); [by left|].
  rewrite slice_ok by lia. cbn [mbind result_bind]. destruct (bool_decide _); [by left|].
  destruct (be_read_total 2 blob 4 Hb ltac:(lia) ltac:(lia)) as (v & E & _). unfold wmqb_r_u16. rewrite E. cbn [mbind result_bind].
  destruct (negb _); [by right|].
  destruct (rd_ok blob 6 ltac:(lia)) as (k & -> & _). cbn [mbind result_bind]. destruct (negb _); [by right|].
  destruct (rd_ok blob 7 ltac:(lia)) as (m & -> & _). cbn [mbind result_bind]. destruct (negb _); [by right|].
  destruct (be_read_total 4 blob 8 Hb ltac:(lia) ltac:(lia)) as (n & E' & Hn). unfold wmqb_r_u32. rewrite E'. cbn [mbind result_bind].
  destruct (Z.ltb_spec (len blob - WMQB_HDR_LEN) n); [by left|lia].
Qed.

Lemma wmqb_record_ok kind body n :
  n = len body -> len body < 4294967284 ->
  exists blob, wmqb_record kind (u32 n) body = Ok blob /\ blob = wmqb_write_header kind (len body) ++ body.
Proof.
  intros -> Hl. pose proof (len_nonneg body). unfold wmqb_record. rewrite (u32_small (len body)), u32_small, Z.ltb_irrefl by lia. by eexists.
Qed.

(** ** The readers on any bytes *)

Lemma be_read_yields n p off Q :
  bytes p -> 0 <= off -> off + Z.of_nat n <= len p ->
  (forall v, be_read n p off = Ok v -> 0 <= v < 2 ^ (8 * Z.of_nat n) -> Q v) -> yields (be_read n p off) Q.
Proof. intros Hp Ho Hl HQ. destruct (be_read_total n p off Hp Ho Hl) as (v & E & Hv). rewrite E. by apply HQ. Qed.

Lemma read_header_yields kind blob Q :
  bytes blob -> (forall n, wmqb_read_header blob kind = Ok n -> 0 <= n <= len blob - 12 -> Q n) -> yields (wmqb_read_header blob kind) Q.
Proof.
  intros Hb HQ. pose proof (read_header_total kind blob Hb) as H. destruct (wmqb_read_header blob kind) as [n|rc|]; [by apply HQ| |done].
  by destruct H as [-> | ->].
Qed.

Lemma wmqb_r_u16_yields p off Q :
  bytes p -> 0 <= off -> off + 2 <= len p -> (forall v, wmqb_r_u16 p off = Ok v -> 0 <= v < 65536 -> Q v) -> yields (wmqb_r_u16 p off) Q.
Proof. intros Hp Ho Hl HQ. by apply be_read_yields. Qed.

Lemma wmqb_r_u32_yields p off Q :
  bytes p -> 0 <= off -> off + 4 <= len p -> (forall v, wmqb_r_u32 p off = Ok v -> 0 <= v < 4294967296 -> Q v) -> yields (wmqb_r_u32 p off) Q.
Proof. intros Hp Ho Hl HQ. by apply be_read_yields. Qed.

Lemma wmqb_r_u64_yields p off Q :
  bytes p -> 0 <= off -> off + 8 <= len p -> (forall v, wmqb_r_u64 p off = Ok v -> 0 <= v < 18446744073709551616 -> Q v) -> yields (wmqb_r_u64 p off) Q.
Proof. intros Hp Ho Hl HQ. by apply be_read_yields. Qed.

(** One step through a reader. *)
Ltac step_read :=
  match goal with
  | |- yields (rd _ _ ≫= _) _ => apply yields_bind, rd_yields; [lia|intros]
  | |- yields (wmqb_r_u16 _ _ ≫= _) _ => apply yields_bind, wmqb_r_u16_yields; [done|lia|lia|intros ? ? ?]
  | |- yields (wmqb_r_u32 _ _ ≫= _) _ => apply yields_bind, wmqb_r_u32_yields; [done|lia|lia|intros ? ? ?]
  | |- yields (wmqb_r_u64 _ _ ≫= _) _ => apply yields_bind, wmqb_r_u64_yields; [done|lia|lia|intros ? ? ?]
  | |- yields (slice _ _ _ ≫= _) _ => apply yields_bind, slice_yields; [lia|lia|lia|intros ? ?]
  | |- yields (slice _ _ _) _ => apply slice_yields; [lia|lia|lia|intros ? ?]
  | |- yields (wmqb_read_header _ _ ≫= _) _ => apply yields_bind, read_header_yields; [done|intros ? ? ?]
  | |- yields (if ?a <? ?b then _ else _) _ => destruct (Z.ltb_spec a b); [done|]
  | |- yields (if ?a =? ?b then _ else _) _ => destruct (Z.eqb_spec a b); [done|]
  | |- yields (if negb (?a =? ?b) then _ else _) _ => destruct (Z.eqb_spec a b); [cbn [negb]|done]
  end.

Lemma wmqb_session_fields_yields blob :
  bytes blob -> yields (wmqb_session_fields blob) (fun '(_, expiry, since, cid) => expiry <> 0 /\ 0 <= since).
Proof. intros Hb. unfold wmqb_session_fields. repeat step_read. cbn. split; [done|lia]. Qed.

Lemma wmqb_sub_entry_yields blob p end_ :
  bytes blob -> 0 <= p -> end_ <= len blob ->
  yields (wmqb_sub_entry blob p end_) (fun '(_, _, p') => p + 4 <= p' <= end_).
Proof. intros Hb Hp He. unfold wmqb_sub_entry. repeat step_read. cbn. lia. Qed.

Lemma wmqb_retained_fields_yields blob :
  bytes blob -> yields (wmqb_retained_fields blob) (fun '(_, _, _, topic_len, end_) => 0 <= topic_len /\ 32 + topic_len <= end_ <= len blob).
Proof. intros Hb. unfold wmqb_retained_fields. repeat step_read. cbn. lia. Qed.

Lemma wmqb_read_payload_yields blob p end_ :
  bytes blob -> 0 <= p -> p + 4 <= end_ <= len blob -> yields (wmqb_read_payload blob p end_) (fun _ => True).
Proof. intros Hb Hp He. unfold wmqb_read_payload. by repeat step_read. Qed.

Lemma wmqb_outq_fields_yields blob :
  bytes blob -> yields (wmqb_outq_fields blob) (fun '(_, topic_len, end_) => 0 <= topic_len /\ 46 + topic_len <= end_ <= len blob).
Proof. intros Hb. unfold wmqb_outq_fields. repeat step_read. cbn. lia. Qed.

Lemma wmqb_outq_owner_yields key : yields (wmqb_outq_owner key) (fun cid => len cid = len key - 3).
Proof.
  unfold wmqb_outq_owner. destruct (Z.ltb_spec (len key) 3); [done|]. repeat step_read.
  by destruct (slice_inv _ _ _ _ H1) as (_ & _ & _ & ? & _).
Qed.

Lemma wmqb_retained_expired_yields now blob : bytes blob -> yields (wmqb_retained_expired now blob) (fun _ => True).
Proof.
  intros Hb. unfold wmqb_retained_expired. pose proof (read_header_total BROKER_PERSIST_NS_RETAINED blob Hb) as H.
  destruct (wmqb_read_header _ _) as [n|rc|]; [|done|done]. destruct (Z.ltb_spec n WMQB_RETAINED_BODY_MIN); [done|].
  apply yields_bind, wmqb_r_u64_yields; [done|lia|lia|intros ? _ _]. apply yields_bind, wmqb_r_u32_yields; [done|lia|lia|intros ? _ _].
  by destruct (_ =? 0).
Qed.
