(* ===== verification/PersistStore.v ===== *)
(** * PersistStore: the persistence layer's operations ([mqtt_broker_persist.c])

    What is written to and deleted from the backend while the broker runs, and
    [BrokerPersist_Restore], which rebuilds the tables from it. The backend is
    a set of callbacks: the operations of a class, any of which may fail. *)
From S2P Require Import Prelude PacketDefs Wire FixedHeader PacketIO BrokerDefs BrokerState BrokerSubs PersistRecord.

(** ** The backend *)

(** The hooks of [MqttBrokerPersistHooks], all of them installed. [kv_list] are
    the records [kv_iter] hands to its callback, in its order, and the code it
    returns, whatever the callback answers. *)
Class Backend (KV : Type) := {
  kv_put : KV -> Z -> list Z -> list Z -> Z * KV;
  kv_get : KV -> Z -> list Z -> Z -> Z * list Z;
  kv_del : KV -> Z -> list Z -> Z * KV;
  kv_list : KV -> Z -> list (list Z * list Z) * Z;
  kv_sync : KV -> KV
}.

(** ** The state *)

(** [BrokerOrphanSession] as it is restored: no QoS 2 identifiers. *)
Record POrphan : Set := mkPOrphan {
  po_client_id : list Z;
  po_protocol_level : Z;
  po_session_expiry_sec : Z;
  po_orphan_since : Z;
  po_queue : list OutRecord;
  po_count : Z;
  po_inflight : Z
}.

Definition set_po_queue (o : POrphan) (q : list OutRecord) (count inflight : Z) : POrphan :=
  mkPOrphan (po_client_id o) (po_protocol_level o) (po_session_expiry_sec o) (po_orphan_since o) q count inflight.

(** The part of [MqttBroker] that is restored, the backend and the outcomes of
    allocations to come. *)
Record PBroker (KV : Type) : Type := mkPBroker {
  pb_mem : heap;
  pb_kv : KV;
  pb_orphans : list POrphan;
  pb_orphan_count : Z;
  pb_subs : list BrokerSub;
  pb_subs_gen : Z;
  pb_retained : list BrokerRetainedMsg;
  pb_retained_count : Z;
  pb_next_packet_id : Z;
  pb_persist_restored : Z
}.
Arguments mkPBroker {KV}.
Arguments pb_mem {KV}.
Arguments pb_kv {KV}.
Arguments pb_orphans {KV}.
Arguments pb_orphan_count {KV}.
Arguments pb_subs {KV}.
Arguments pb_subs_gen {KV}.
Arguments pb_retained {KV}.
Arguments pb_retained_count {KV}.
Arguments pb_next_packet_id {KV}.
Arguments pb_persist_restored {KV}.

Definition P (KV A : Type) : Type := PBroker KV -> result (A * PBroker KV).

#[export] Instance P_ret KV : MRet (P KV) := fun A a br => Ok (a, br).
#[export] Instance P_bind KV : MBind (P KV) := fun A C f m br =>
  match m br with Ok (a, br) => f a br | Err rc => Err rc | UB => UB end.

Section Store.
Context {KV : Type} `{!Backend KV}.
Implicit Types (br : PBroker KV).

Definition pget : P KV (PBroker KV) := fun br => Ok (br, br).
Definition pset_mem br (x : heap) : PBroker KV :=
  mkPBroker x (pb_kv br) (pb_orphans br) (pb_orphan_count br) (pb_subs br) (pb_subs_gen br) (pb_retained br) (pb_retained_count br)
    (pb_next_packet_id br) (pb_persist_restored br).
Definition pset_kv br (x : KV) : PBroker KV :=
  mkPBroker (pb_mem br) x (pb_orphans br) (pb_orphan_count br) (pb_subs br) (pb_subs_gen br) (pb_retained br) (pb_retained_count br)
    (pb_next_packet_id br) (pb_persist_restored br).
Definition pset_orphans br (x : list POrphan) (n : Z) : PBroker KV :=
  mkPBroker (pb_mem br) (pb_kv br) x n (pb_subs br) (pb_subs_gen br) (pb_retained br) (pb_retained_count br)
    (pb_next_packet_id br) (pb_persist_restored br).
Definition pset_subs br (x : list BrokerSub) (gen : Z) : PBroker KV :=
  mkPBroker (pb_mem br) (pb_kv br) (pb_orphans br) (pb_orphan_count br) x gen (pb_retained br) (pb_retained_count br)
    (pb_next_packet_id br) (pb_persist_restored br).
Definition pset_retained br (x : list BrokerRetainedMsg) (n : Z) : PBroker KV :=
  mkPBroker (pb_mem br) (pb_kv br) (pb_orphans br) (pb_orphan_count br) (pb_subs br) (pb_subs_gen br) x n
    (pb_next_packet_id br) (pb_persist_restored br).
Definition pset_restored br : PBroker KV :=
  mkPBroker (pb_mem br) (pb_kv br) (pb_orphans br) (pb_orphan_count br) (pb_subs br) (pb_subs_gen br) (pb_retained br)
    (pb_retained_count br) (pb_next_packet_id br) 1.
Definition pset_packet_id br (x : Z) : PBroker KV :=
  mkPBroker (pb_mem br) (pb_kv br) (pb_orphans br) (pb_orphan_count br) (pb_subs br) (pb_subs_gen br) (pb_retained br)
    (pb_retained_count br) x (pb_persist_restored br).
Definition pmodify (f : PBroker KV -> PBroker KV) : P KV unit := fun br => Ok (tt, f br).

Definition palloc : P KV bool := fun br => let '(ok, mem) := malloc (pb_mem br) in Ok (ok, pset_mem br mem).

(** A reader: its error or its value. *)
Definition preads {A} (r : result A) : P KV (Z + A) := fun br =>
  match r with Ok a => Ok (inr a, br) | Err rc => Ok (inl rc, br) | UB => UB end.

(** Two allocations, the second only after the first. *)
Definition palloc2 : P KV bool := ok ← palloc; if (ok : bool) then palloc else mret false.

(** ** Commits *)

Definition wmqb_kv_put_commit (ns : Z) (key blob : list Z) : P KV Z := fun br =>
  let '(rc, kv) := kv_put (pb_kv br) ns key blob in
  Ok (rc, pset_kv br (if rc =? 0 then kv_sync kv else kv)).

Definition wmqb_kv_del_commit (ns : Z) (key : list Z) : P KV Z := fun br =>
  let '(rc, kv) := kv_del (pb_kv br) ns key in
  Ok (rc, pset_kv br (if rc =? 0 then kv_sync kv else kv)).

(** [kv_del] without a commit. *)
Definition kv_delete (ns : Z) (key : list Z) : P KV Z := fun br =>
  let '(rc, kv) := kv_del (pb_kv br) ns key in Ok (rc, pset_kv br kv).

Definition pb_sync br : PBroker KV := pset_kv br (kv_sync (pb_kv br)).

(** [kv_iter]: the callback's answer says whether to stop. *)
Fixpoint iter_records {S : Type} (cb : list Z -> list Z -> S -> P KV (bool * S)) (recs : list (list Z * list Z)) (s : S) : P KV S :=
  match recs with
  | [] => mret s
  | (key, blob) :: recs =>
    '(stop, s) ← cb key blob s;
    if (stop : bool) then mret s else iter_records cb recs s
  end.

Definition wmqb_kv_iter {S : Type} (ns : Z) (cb : list Z -> list Z -> S -> P KV (bool * S)) (s : S) : P KV (Z * S) :=
  br ← pget;
  let '(recs, rc) := kv_list (pb_kv br) ns in
  s ← iter_records cb recs s;
  mret (rc, s).

(** ** While the broker runs *)

(** A record is built in a buffer of its size and put. *)
Definition put_record (ns : Z) (key : list Z) (record : result (list Z)) : P KV Z :=
  ok ← palloc;
  if (ok : bool) then
    r ← preads record;
    match r with inl rc => mret rc | inr blob => wmqb_kv_put_commit ns key blob end
  else mret MQTT_CODE_ERROR_MEMORY.

Definition wmqb_put_session_record (cid : list Z) (cid_len protocol_level session_expiry_sec orphan_since : Z) : P KV Z :=
  put_record BROKER_PERSIST_NS_SESSION (take (Z.to_nat cid_len) cid)
    (wmqb_session_record cid cid_len protocol_level session_expiry_sec orphan_since).

(** Nothing is kept of a client without an identifier or with Session Expiry 0. *)
Definition BrokerPersist_PutSession (c : ClientInfo) : P KV Z :=
  match bc_client_id c with
  | Some ((_ :: _) as cid) =>
    if bc_session_expiry_sec c =? 0 then mret 0
    else wmqb_put_session_record cid (u16 (XSTRLEN cid)) (bc_protocol_level c) (bc_session_expiry_sec c) 0
  | _ => mret 0
  end.

Definition BrokerPersist_PutOrphanSession (client_id : list Z) (protocol_level session_expiry_sec orphan_since : Z) : P KV Z :=
  match client_id with
  | [] => mret 0
  | _ => wmqb_put_session_record client_id (u16 (XSTRLEN client_id)) protocol_level session_expiry_sec orphan_since
  end.

(** A key of [(word16)XSTRLEN(s)] bytes. *)
Definition str_key (s : list Z) : list Z := take (Z.to_nat (u16 (XSTRLEN s))) s.

Definition BrokerPersist_DelSession (client_id : list Z) : P KV Z :=
  wmqb_kv_del_commit BROKER_PERSIST_NS_SESSION (str_key client_id).

Definition BrokerPersist_DelSubs (client_id : list Z) : P KV Z :=
  wmqb_kv_del_commit BROKER_PERSIST_NS_SUBS (str_key client_id).

Definition BrokerPersist_PutSubs (client_id : list Z) : P KV Z :=
  match client_id with
  | [] => mret 0
  | _ =>
    if 65535 <? XSTRLEN client_id then mret MQTT_CODE_ERROR_OUT_OF_BUFFER
    else
      br ← pget;
      let '(count, body_len) := wmqb_subs_size client_id (pb_subs br) 0 2 in
      if count =? 0 then wmqb_kv_del_commit BROKER_PERSIST_NS_SUBS (str_key client_id)
      else put_record BROKER_PERSIST_NS_SUBS (str_key client_id) (wmqb_subs_record client_id count body_len (pb_subs br))
  end.

Definition BrokerPersist_PutRetained (m : BrokerRetainedMsg) : P KV Z :=
  match rm_topic m with
  | [] => mret 0
  | topic => put_record BROKER_PERSIST_NS_RETAINED (str_key topic) (wmqb_retained_record m)
  end.

Definition BrokerPersist_DelRetained (topic : list Z) : P KV Z :=
  wmqb_kv_del_commit BROKER_PERSIST_NS_RETAINED (str_key topic).

Definition BrokerPersist_PutOutPub (client_id : list Z) (p_e : BrokerOutPub) : P KV Z :=
  if op_qos p_e =? MQTT_QOS_0 then mret 0
  else if op_enqueue_seq p_e =? 0 then mret MQTT_CODE_ERROR_BAD_ARG
  else if 1 <? op_retransmit_dup p_e then mret MQTT_CODE_ERROR_BAD_ARG
  else
    k ← preads (wmqb_outq_build_key client_id (op_packet_id p_e));
    match k with
    | inl rc => mret rc
    | inr key => put_record BROKER_PERSIST_NS_OUTQ key (wmqb_outq_record (out_record p_e))
    end.

Definition BrokerPersist_DelOutPub (client_id : list Z) (packet_id : Z) : P KV Z :=
  k ← preads (wmqb_outq_build_key client_id packet_id);
  match k with
  | inl rc => mret rc
  | inr key => wmqb_kv_del_commit BROKER_PERSIST_NS_OUTQ key
  end.

(** The key of an entry of [cid]: its bytes, and a zero byte. *)
Definition outq_key_of (cid key : list Z) : bool :=
  (len cid + 1 <=? len key) && bool_decide (take (length cid) key = cid) && bool_decide (key !! length cid = Some 0).

(** Collects the keys of a queue; stops when memory runs out. *)
Definition wmqb_delq_iter_cb (cid key _ : list Z) (head : list (list Z)) : P KV (bool * list (list Z)) :=
  if outq_key_of cid key then
    ok ← palloc2;
    mret (if (ok : bool) then (false, key :: head) else (true, head))
  else mret (false, head).

(** Deletes each of the collected keys: how many were deleted. *)
Fixpoint delete_keys (ns : Z) (keys : list (list Z)) (deleted : Z) : P KV Z :=
  match keys with
  | [] => mret deleted
  | key :: keys =>
    rc ← kv_delete ns key;
    delete_keys ns keys (if rc =? 0 then deleted + 1 else deleted)
  end.

Definition BrokerPersist_DelOutQueue (client_id : list Z) : P KV Z :=
  '(_, head) ← wmqb_kv_iter BROKER_PERSIST_NS_OUTQ (wmqb_delq_iter_cb (str_key client_id)) [];
  deleted ← delete_keys BROKER_PERSIST_NS_OUTQ head 0;
  _ ← pmodify pb_sync;
  mret deleted.

(** [BrokerOrphan_DropFull] of [mqtt_broker.c] with persistence. *)
Definition orphan_bound (client_id : list Z) (s : BrokerSub) : bool :=
  bool_decide (sub_client s = None) && bool_decide (sub_client_id s = Some client_id).

Definition drop_full (before : list POrphan) (o : POrphan) (after : list POrphan) : P KV unit :=
  _ ← BrokerPersist_DelSubs (po_client_id o);
  _ ← BrokerPersist_DelSession (po_client_id o);
  _ ← BrokerPersist_DelOutQueue (po_client_id o);
  pmodify (fun br =>
    let '(subs, gen) := subs_drop (orphan_bound (po_client_id o)) (pb_subs br) (pb_subs_gen br) in
    pset_orphans (pset_subs br subs gen) (before ++ after)
      (if 0 <? pb_orphan_count br then pb_orphan_count br - 1 else pb_orphan_count br)).
End Store.
