(* ===== verification/PersistRestore.v ===== *)
(** * PersistRestore: [BrokerPersist_Restore] ([mqtt_broker_persist.c])

    The start of a broker on what an earlier one left in the backend: the check
    of the META record, sessions first, then retained messages, subscriptions
    and queues, and the sweep of what has expired. *)
From S2P Require Import Prelude PacketDefs Wire FixedHeader PacketIO BrokerDefs BrokerState BrokerSubs PersistRecord PersistStore.

Abbreviation WMQB_RETAINED_PURGE_BUF := (256)%Z.
Abbreviation WMQB_RETAINED_PURGE_PASSES := (32)%nat.
Abbreviation NO_EXPIRY := (4294967295)%Z.

Section Restore.
Context {KV : Type} `{!Backend KV}.
Implicit Types (br : PBroker KV).

(** ** META *)

Definition META_KEY : list Z := [0].

(** The return code, and whether there is a record. *)
Definition wmqb_meta_check : P KV (Z * bool) :=
  br ← pget;
  let '(rc, buf) := kv_get (pb_kv br) BROKER_PERSIST_NS_META META_KEY (WMQB_HDR_LEN + 4) in
  if rc =? MQTT_CODE_ERROR_NOT_FOUND then mret (0, false)
  else if rc =? MQTT_CODE_ERROR_OUT_OF_BUFFER then mret (MQTT_CODE_ERROR_MALFORMED_DATA, false)
  else if negb (rc =? 0) then mret (rc, false)
  else if len buf <? WMQB_HDR_LEN + 4 then mret (MQTT_CODE_ERROR_MALFORMED_DATA, false)
  else
    r ← preads (wmqb_read_header buf BROKER_PERSIST_NS_META);
    mret (match r with inl rc => rc | inr _ => 0 end, true).

Definition meta_record : list Z := wmqb_write_header BROKER_PERSIST_NS_META 4 ++ wmqb_w_u32 WOLFMQTT_BROKER_PERSIST_SCHEMA_VER.

Definition wmqb_meta_write : P KV Z := wmqb_kv_put_commit BROKER_PERSIST_NS_META META_KEY meta_record.

(** ** Sessions *)

Definition wmqb_restore_create_orphan (now : Z) (client_id : list Z) (protocol_level session_expiry_sec orphan_since : Z) : P KV bool :=
  match client_id with
  | [] => mret false
  | _ =>
    br ← pget;
    if BROKER_MAX_PERSIST_SESSIONS <=? pb_orphan_count br then mret false
    else
      ok ← palloc2;
      if (ok : bool) then
        let o := mkPOrphan (cstr client_id) protocol_level session_expiry_sec (if negb (orphan_since =? 0) then orphan_since else now)
                   [] 0 0 in
        _ ← pmodify (fun br => pset_orphans br (o :: pb_orphans br) (pb_orphan_count br + 1));
        mret true
      else mret false
  end.

(** The orphan of a client, with the ones before and after it. *)
Fixpoint wmqb_restore_find_orphan (client_id : list Z) (os : list POrphan) : option (list POrphan * POrphan * list POrphan) :=
  match os with
  | [] => None
  | cur :: next =>
    if bool_decide (po_client_id cur = client_id) then Some ([], cur, next)
    else
      '(before, o, after) ← wmqb_restore_find_orphan client_id next;
      Some (cur :: before, o, after)
  end.

Definition wmqb_decode_and_insert_session (now : Z) (blob : list Z) : P KV Z :=
  r ← preads (wmqb_session_fields blob);
  match r with
  | inl rc => mret rc
  | inr (proto_level, session_expiry, orphan_since, cid) =>
    ok ← wmqb_restore_create_orphan now cid proto_level session_expiry orphan_since;
    mret (if (ok : bool) then 0 else MQTT_CODE_ERROR_MEMORY)
  end.

(** The key is the record's own identifier, without a zero byte. *)
Definition wmqb_session_key_is_client_id (key blob : list Z) : result bool :=
  if (len key =? 0) || (len key =? 65535) then Ok false
  else
    match wmqb_read_header blob BROKER_PERSIST_NS_SESSION with
    | UB => UB
    | Err _ => Ok false
    | Ok body_len =>
      if body_len <? 16 then Ok false
      else
        cid_len ← wmqb_r_u16 blob (WMQB_HDR_LEN + 14);
        if negb (cid_len =? len key) || (body_len <? 16 + cid_len) then Ok false
        else
          cid ← slice blob (WMQB_HDR_LEN + 16) cid_len;
          Ok (bool_decide (cid = key) && forallb (fun c => negb (c =? 0)) key)
    end.

(** [wmqb_restore_ctx]: loaded, skipped, and the ended sessions: their keys and
    whether one of their messages could not be deleted. *)
Record RestoreCtx : Set := mkCtx {
  rc_loaded : Z;
  rc_skipped : Z;
  rc_ended : list (list Z * bool);
  rc_ended_count : Z
}.

Definition ctx_count (c : RestoreCtx) (rc : Z) : RestoreCtx :=
  if rc =? 0 then mkCtx (rc_loaded c + 1) (rc_skipped c) (rc_ended c) (rc_ended_count c)
  else mkCtx (rc_loaded c) (rc_skipped c + 1) (rc_ended c) (rc_ended_count c).

Definition wmqb_iter_session_cb (now : Z) (key blob : list Z) (c : RestoreCtx) : P KV (bool * RestoreCtx) :=
  rc ← wmqb_decode_and_insert_session now blob;
  let c := ctx_count c rc in
  if (rc =? MQTT_CODE_ERROR_NOT_FOUND) && (rc_ended_count c <? BROKER_MAX_PERSIST_SESSIONS) then
    own ← preads (wmqb_session_key_is_client_id key blob);
    match own with
    | inr true =>
      ok ← palloc2;
      mret (false, if (ok : bool) then mkCtx (rc_loaded c) (rc_skipped c) ((key, false) :: rc_ended c) (rc_ended_count c + 1) else c)
    | _ => mret (false, c)
    end
  else mret (false, c).

(** ** Sessions that ended before the restart *)

(** The first ended session that owns a key. *)
Definition owner_of (ended : list (list Z * bool)) (key : list Z) : option (list Z) :=
  match List.find (fun e => outq_key_of e.1 key) ended with Some e => Some e.1 | None => None end.

(** The collected keys with their owners, and whether memory ran out. *)
Definition wmqb_ended_outq_iter_cb (ended : list (list Z * bool)) (key _ : list Z) (s : list (list Z * list Z) * bool)
    : P KV (bool * (list (list Z * list Z) * bool)) :=
  match owner_of ended key with
  | None => mret (false, s)
  | Some owner =>
    ok ← palloc2;
    mret (if (ok : bool) then (false, ((key, owner) :: s.1, s.2)) else (true, (s.1, true)))
  end.

(** [owner->outq_err = 1]. *)
Fixpoint mark_owner (owner : list Z) (ended : list (list Z * bool)) : list (list Z * bool) :=
  match ended with
  | [] => []
  | e :: ended => if bool_decide (e.1 = owner) then (e.1, true) :: ended else e :: mark_owner owner ended
  end.

Fixpoint delete_owned (nodes : list (list Z * list Z)) (ended : list (list Z * bool)) : P KV (list (list Z * bool)) :=
  match nodes with
  | [] => mret ended
  | (key, owner) :: nodes =>
    rc ← kv_delete BROKER_PERSIST_NS_OUTQ key;
    delete_owned nodes (if rc =? 0 then ended else mark_owner owner ended)
  end.

(** SUBS, and last SESSION, of each session whose messages are gone. *)
Fixpoint drop_ended_records (outq_fatal : bool) (ended : list (list Z * bool)) : P KV unit :=
  match ended with
  | [] => mret tt
  | (key, outq_err) :: ended =>
    _ ← (if outq_fatal || outq_err then mret tt
         else
           ok ← palloc;
           if (ok : bool) then
             rc ← BrokerPersist_DelSubs key;
             if rc =? 0 then _ ← wmqb_kv_del_commit BROKER_PERSIST_NS_SESSION key; mret tt else mret tt
           else mret tt);
    drop_ended_records outq_fatal ended
  end.

Definition wmqb_restore_drop_ended (head : list (list Z * bool)) : P KV unit :=
  match head with
  | [] => mret tt
  | _ =>
    '(rc, (nodes, oom)) ← wmqb_kv_iter BROKER_PERSIST_NS_OUTQ (wmqb_ended_outq_iter_cb head) ([], false);
    ended ← delete_owned nodes head;
    _ ← pmodify pb_sync;
    drop_ended_records (negb (rc =? 0) || (oom : bool)) ended
  end.

(** ** Retained messages *)

Definition insert_retained (blob : list Z) (qos store_time expiry topic_len end_ : Z) : P KV Z :=
  ok ← palloc2;
  if (ok : bool) then
    topic ← preads (slice blob (WMQB_HDR_LEN + 16) topic_len);
    payload ← preads (wmqb_read_payload blob (WMQB_HDR_LEN + 16 + topic_len) end_);
    match topic, payload with
    | inr topic, inr payload =>
      ok ← (if 0 <? len payload then palloc else mret true);
      if (ok : bool) then
        let m := mkRetained (cstr topic) (if 0 <? len payload then Some payload else None) (len payload) store_time expiry qos 0 in
        _ ← pmodify (fun br => pset_retained br (m :: pb_retained br) (pb_retained_count br + 1));
        mret 0
      else mret MQTT_CODE_ERROR_MEMORY
    | inl rc, _ | _, inl rc => mret rc
    end
  else mret MQTT_CODE_ERROR_MEMORY.

Definition wmqb_decode_and_insert_retained (now : Z) (blob : list Z) : P KV Z :=
  r ← preads (wmqb_retained_fields blob);
  match r with
  | inl rc => mret rc
  | inr (qos, store_time, expiry, topic_len, end_) =>
    expired ← preads (wmqb_retained_expired now blob);
    match expired with
    | inr false =>
      br ← pget;
      if BROKER_MAX_RETAINED <=? pb_retained_count br then mret 1
      else insert_retained blob qos store_time expiry topic_len end_
    | _ => mret 1
    end
  end.

Definition wmqb_iter_retained_cb (now : Z) (_ blob : list Z) (c : RestoreCtx) : P KV (bool * RestoreCtx) :=
  rc ← wmqb_decode_and_insert_retained now blob;
  mret (false, ctx_count c rc).

(** [wmqb_retained_purge_ctx]: the used part of the buffer, the keys in it, and
    whether a key did not fit. *)
Record PurgeCtx : Set := mkPurge {
  pg_buf : list Z;
  pg_count : Z;
  pg_more : bool
}.

Definition wmqb_purge_expired_retained_cb (now : Z) (key blob : list Z) (c : PurgeCtx) : P KV (bool * PurgeCtx) :=
  expired ← preads (wmqb_retained_expired now blob);
  match expired with
  | inr true =>
    if len key =? 0 then mret (false, c)
    else if WMQB_RETAINED_PURGE_BUF <? len key + 2 then mret (false, c)
    else if WMQB_RETAINED_PURGE_BUF <? len (pg_buf c) + 2 + len key then mret (true, mkPurge (pg_buf c) (pg_count c) true)
    else mret (false, mkPurge (pg_buf c ++ wmqb_w_u16 (len key) ++ key) (pg_count c + 1) (pg_more c))
  | _ => mret (false, c)
  end.

(** The staged keys from [off] on: how many were deleted. *)
Fixpoint purge_staged (fuel : nat) (buf : list Z) (off deleted : Z) : P KV Z :=
  match fuel with
  | O => fun _ => UB
  | S fuel =>
    if off + 2 <=? len buf then
      klen ← preads (wmqb_r_u16 buf off);
      match klen with
      | inl rc => mret rc
      | inr klen =>
        key ← preads (slice buf (off + 2) klen);
        match key with
        | inl rc => mret rc
        | inr key =>
          rc ← kv_delete BROKER_PERSIST_NS_RETAINED key;
          purge_staged fuel buf (off + 2 + klen) (if rc =? 0 then deleted + 1 else deleted)
        end
      end
    else mret deleted
  end.

Fixpoint wmqb_restore_purge_expired_retained (passes : nat) (now : Z) : P KV unit :=
  match passes with
  | O => mret tt
  | S passes =>
    '(rc, c) ← wmqb_kv_iter BROKER_PERSIST_NS_RETAINED (wmqb_purge_expired_retained_cb now) (mkPurge [] 0 false);
    if negb (rc =? 0) || (pg_count c =? 0) then mret tt
    else
      deleted ← purge_staged (S (length (pg_buf c))) (pg_buf c) 0 0;
      _ ← pmodify pb_sync;
      if negb (pg_more c) || (deleted =? 0) then mret tt else wmqb_restore_purge_expired_retained passes now
  end.

(** ** Subscriptions *)

(** The entries of a record from [p] on, in their order; [inl] is the code of
    the roll-back, which leaves nothing behind. *)
Fixpoint subs_entries (count : nat) (key blob : list Z) (p end_ : Z) : P KV (Z + list BrokerSub) :=
  match count with
  | O => mret (inr [])
  | S count =>
    r ← preads (wmqb_sub_entry blob p end_);
    match r with
    | inl rc => mret (inl rc)
    | inr (qos, filter, p) =>
      ok ← palloc2;
      ok ← (if (ok : bool) then palloc else mret false);
      if (ok : bool) then
        rest ← subs_entries count key blob p end_;
        match rest with
        | inl rc => mret (inl rc)
        | inr rest => mret (inr (mkSub (cstr filter) (Some (cstr key)) None qos :: rest))
        end
      else mret (inl MQTT_CODE_ERROR_MEMORY)
    end
  end.

Definition wmqb_decode_and_insert_subs (key blob : list Z) : P KV Z :=
  r ← preads (wmqb_read_header blob BROKER_PERSIST_NS_SUBS);
  match r with
  | inl rc => mret rc
  | inr body_len =>
    if len key =? 0 then mret MQTT_CODE_ERROR_BAD_ARG
    else
      br ← pget;
      match wmqb_restore_find_orphan key (pb_orphans br) with
      | None => mret MQTT_CODE_ERROR_NOT_FOUND
      | Some _ =>
        if body_len <? 2 then mret MQTT_CODE_ERROR_MALFORMED_DATA
        else
          count ← preads (wmqb_r_u16 blob WMQB_HDR_LEN);
          match count with
          | inl rc => mret rc
          | inr count =>
            r ← subs_entries (Z.to_nat count) key blob (WMQB_HDR_LEN + 2) (WMQB_HDR_LEN + body_len);
            match r with
            | inl rc => mret rc
            | inr subs => _ ← pmodify (fun br => pset_subs br (subs ++ pb_subs br) (pb_subs_gen br)); mret 0
            end
          end
      end
  end.

Definition wmqb_iter_subs_cb (key blob : list Z) (c : RestoreCtx) : P KV (bool * RestoreCtx) :=
  rc ← wmqb_decode_and_insert_subs key blob;
  mret (false, ctx_count c rc).

(** ** Queues *)

(** Before the first entry with a sequence number that is not smaller. *)
Fixpoint insert_by_seq (e : OutRecord) (q : list OutRecord) : list OutRecord :=
  match q with
  | [] => [e]
  | iter :: q => if or_enqueue_seq iter <? or_enqueue_seq e then iter :: insert_by_seq e q else e :: iter :: q
  end.

Definition or_inflight (e : OutRecord) : bool := (or_state e =? 1) || (or_state e =? 2).

Definition queue_insert (e : OutRecord) (o : POrphan) : POrphan :=
  set_po_queue o (insert_by_seq e (po_queue o)) (po_count o + 1) (if or_inflight e then po_inflight o + 1 else po_inflight o).

Definition insert_outq (before : list POrphan) (o : POrphan) (after : list POrphan) (e : OutRecord) (blob : list Z)
    (topic_len end_ : Z) : P KV Z :=
  ok ← palloc2;
  if (ok : bool) then
    topic ← preads (slice blob (WMQB_HDR_LEN + 30) topic_len);
    payload ← preads (wmqb_read_payload blob (WMQB_HDR_LEN + 30 + topic_len) end_);
    match topic, payload with
    | inr topic, inr payload =>
      ok ← (if 0 <? len payload then palloc else mret true);
      if (ok : bool) then
        let e := set_or_message e (cstr topic) (if 0 <? len payload then Some payload else None) (len payload) in
        _ ← pmodify (fun br => pset_orphans br (before ++ queue_insert e o :: after) (pb_orphan_count br));
        mret 0
      else mret MQTT_CODE_ERROR_MEMORY
    | inl rc, _ | _, inl rc => mret rc
    end
  else mret MQTT_CODE_ERROR_MEMORY.

Definition wmqb_decode_and_insert_outq (key blob : list Z) : P KV Z :=
  owner ← preads (wmqb_outq_owner key);
  match owner with
  | inl rc => mret rc
  | inr cid =>
    r ← preads (wmqb_outq_fields blob);
    match r with
    | inl rc => mret rc
    | inr (e, topic_len, end_) =>
      br ← pget;
      match wmqb_restore_find_orphan cid (pb_orphans br) with
      | None => mret MQTT_CODE_ERROR_NOT_FOUND
      | Some (before, o, after) => insert_outq before o after e blob topic_len end_
      end
    end
  end.

Definition wmqb_iter_outq_cb (key blob : list Z) (c : RestoreCtx) : P KV (bool * RestoreCtx) :=
  rc ← wmqb_decode_and_insert_outq key blob;
  mret (false, ctx_count c rc).

(** ** The sweep of expired sessions *)

Definition po_expired (now : Z) (o : POrphan) : bool :=
  negb (po_session_expiry_sec o =? NO_EXPIRY) && (po_orphan_since o <=? now) && (po_session_expiry_sec o <=? now - po_orphan_since o).

(** [before] are the sessions the loop has kept. *)
Fixpoint expiry_sweep (now : Z) (before os : list POrphan) : P KV unit :=
  match os with
  | [] => mret tt
  | cur :: next =>
    if po_expired now cur then _ ← drop_full before cur next; expiry_sweep now before next
    else expiry_sweep now (before ++ [cur]) next
  end.

Definition wmqb_restore_expiry_sweep (now : Z) : P KV unit := br ← pget; expiry_sweep now [] (pb_orphans br).

(** ** Wipe *)

Definition wmqb_wipe_iter_cb (key _ : list Z) (head : list (list Z)) : P KV (bool * list (list Z)) :=
  ok ← palloc2;
  mret (if (ok : bool) then (false, key :: head) else (true, head)).

Definition wmqb_wipe_ns (ns : Z) : P KV Z :=
  '(_, head) ← wmqb_kv_iter ns wmqb_wipe_iter_cb [];
  deleted ← delete_keys ns head 0;
  _ ← pmodify pb_sync;
  mret deleted.

Definition wmqb_wipe_all : P KV Z :=
  a ← wmqb_wipe_ns BROKER_PERSIST_NS_META;
  b ← wmqb_wipe_ns BROKER_PERSIST_NS_SESSION;
  c ← wmqb_wipe_ns BROKER_PERSIST_NS_SUBS;
  d ← wmqb_wipe_ns BROKER_PERSIST_NS_RETAINED;
  e ← wmqb_wipe_ns BROKER_PERSIST_NS_OUTQ;
  mret (a + b + c + d + e).

(** ** Restore *)

(** [BrokerSubs_FreeAll], [BrokerOrphan_FreeAll] and [BrokerRetained_FreeAll]. *)
Definition BrokerPersist_RestoreRollback br : PBroker KV :=
  let '(subs, gen) := subs_drop (fun _ => true) (pb_subs br) (pb_subs_gen br) in
  pset_packet_id (pset_retained (pset_orphans (pset_subs br subs gen) [] 0) [] 0) 1.

(** META is written, and the broker is restored. *)
Definition stamp_meta : P KV Z :=
  rc ← wmqb_meta_write;
  _ ← (if rc =? 0 then pmodify pset_restored else mret tt);
  mret rc.

(** One namespace: a failing iterator rolls everything back. *)
Definition restore_ns (ns : Z) (cb : list Z -> list Z -> RestoreCtx -> P KV (bool * RestoreCtx))
    (k : RestoreCtx -> P KV Z) : P KV Z :=
  '(rc, c) ← wmqb_kv_iter ns cb (mkCtx 0 0 [] 0);
  if negb (rc =? 0) then _ ← pmodify BrokerPersist_RestoreRollback; mret rc else k c.

Definition restore_tables (now : Z) : P KV Z :=
  restore_ns BROKER_PERSIST_NS_SESSION (wmqb_iter_session_cb now) (fun c =>
  _ ← wmqb_restore_drop_ended (rc_ended c);
  _ ← wmqb_restore_purge_expired_retained WMQB_RETAINED_PURGE_PASSES now;
  restore_ns BROKER_PERSIST_NS_RETAINED (wmqb_iter_retained_cb now) (fun _ =>
  restore_ns BROKER_PERSIST_NS_SUBS wmqb_iter_subs_cb (fun _ =>
  restore_ns BROKER_PERSIST_NS_OUTQ wmqb_iter_outq_cb (fun _ =>
  _ ← wmqb_restore_expiry_sweep now;
  _ ← pmodify pset_restored;
  mret 0)))).

Definition BrokerPersist_Restore (now : Z) : P KV Z :=
  br ← pget;
  if negb (pb_persist_restored br =? 0) then mret 0
  else
    '(rc, meta_present) ← wmqb_meta_check;
    if (rc =? MQTT_CODE_ERROR_MALFORMED_DATA) || (rc =? MQTT_CODE_ERROR_BAD_ARG) then
      _ ← wmqb_wipe_all;
      stamp_meta
    else if negb (rc =? 0) then mret rc
    else if negb (meta_present : bool) then stamp_meta
    else restore_tables now.
End Restore.
