(* ===== verification/PersistSafe.v ===== *)
(** * PersistSafe: restoring from anything

    Whatever a backend holds and whichever call or allocation fails,
    [BrokerPersist_Restore] ends and leaves well-formed tables. *)
From stdpp Require Import sorting.
From S2P Require Import Prelude PacketDefs Wire FixedHeader PacketIO BrokerDefs BrokerState BrokerSubs PersistRecord PersistStore PersistRestore.

(** A backend that hands out bytes. *)
Class BytesBackend (KV : Type) `{!Backend KV} := {
  kv_list_bytes (kv : KV) ns : Forall (fun r => bytes r.1 /\ bytes r.2) (kv_list kv ns).1;
  kv_get_bytes (kv : KV) ns key cap : bytes (kv_get kv ns key cap).2
}.

(** ** Computations that end *)

Section Ends.
Context {KV : Type}.
Implicit Types (br : PBroker KV).

Definition pends {A} (m : P KV A) (Q : A -> PBroker KV -> Prop) br : Prop := exists a br', m br = Ok (a, br') /\ Q a br'.

Lemma pends_ret {A} (a : A) (Q : A -> PBroker KV -> Prop) br : Q a br -> pends (mret a) Q br.
Proof. intros HQ. by exists a, br. Qed.

Lemma pends_bind {A C} (m : P KV A) (f : A -> P KV C) Q br : pends m (fun a => pends (f a) Q) br -> pends (m ≫= f) Q br.
Proof. intros (a & br1 & E1 & c & br2 & E2 & HQ). exists c, br2. split; [|done]. unfold mbind, P_bind. by rewrite E1. Qed.

Lemma pends_mono {A} (m : P KV A) (Q Q' : A -> PBroker KV -> Prop) br : pends m Q br -> (forall a br', Q a br' -> Q' a br') -> pends m Q' br.
Proof. intros (a & br' & E & HQ) H. exists a, br'. auto. Qed.

Lemma pends_then {A C} (m : P KV A) (f : A -> P KV C) (R : A -> PBroker KV -> Prop) Q br :
  pends m R br -> (forall a br', R a br' -> pends (f a) Q br') -> pends (m ≫= f) Q br.
Proof. intros Hm Hf. apply pends_bind. eapply pends_mono; eauto. Qed.

Lemma pends_get (Q : PBroker KV -> PBroker KV -> Prop) br : Q br br -> pends pget Q br.
Proof. intros HQ. by exists br, br. Qed.
Lemma pends_modify f (Q : unit -> PBroker KV -> Prop) br : Q tt (f br) -> pends (pmodify f) Q br.
Proof. intros HQ. by exists tt, (f br). Qed.

Lemma pends_reads {A} (r : result A) (T : A -> Prop) (Q : Z + A -> PBroker KV -> Prop) br :
  yields r T -> (forall rc, rc < 0 -> Q (inl rc) br) -> (forall a, r = Ok a -> T a -> Q (inr a) br) -> pends (preads r) Q br.
Proof.
  intros Hy He Ho. unfold pends, preads. destruct r as [a|rc|]; [| |done]; (eexists _, _; split; [done|]).
  - by apply Ho.
  - by apply He.
Qed.

(** One step of a computation whose result is known. *)
Lemma bind_run {A C} (m : P KV A) (f : A -> P KV C) br a br1 x : m br = Ok (a, br1) -> f a br1 = x -> (m ≫= f) br = x.
Proof. intros E <-. unfold mbind, P_bind. by rewrite E. Qed.

Lemma reads_run {A C} (r : result A) (f : Z + A -> P KV C) br a x : r = Ok a -> f (inr a) br = x -> (y ← preads r; f y) br = x.
Proof. intros E <-. unfold mbind, P_bind, preads. by rewrite E. Qed.

(** What the persistence layer does not change when it only talks to the
    backend. *)
Definition tables br := (pb_orphans br, pb_orphan_count br, (pb_subs br, pb_subs_gen br), (pb_retained br, pb_retained_count br),
  (pb_next_packet_id br, pb_persist_restored br)).

Definition quiet {A} (m : P KV A) : Prop := forall br, pends m (fun _ br' => tables br' = tables br) br.

Lemma quiet_ret {A} (a : A) : quiet (mret a).
Proof. intros br. by apply pends_ret. Qed.

Lemma quiet_bind {A C} (m : P KV A) (f : A -> P KV C) : quiet m -> (forall a, quiet (f a)) -> quiet (m ≫= f).
Proof.
  intros Hm Hf br. eapply pends_then; [apply Hm|]. intros a br' E. eapply pends_mono; [apply Hf|]. cbn. intros. congruence.
Qed.

Lemma quiet_alloc : quiet palloc.
Proof. intros br. unfold palloc, pends. destruct (malloc (pb_mem br)) as [ok mem]. by eexists _, _. Qed.

Lemma quiet_alloc2 : quiet palloc2.
Proof. apply quiet_bind; [apply quiet_alloc|]. intros []; [apply quiet_alloc|apply quiet_ret]. Qed.

Lemma quiet_sync `{!Backend KV} : quiet (pmodify pb_sync).
Proof. intros br. exists tt, (pb_sync br). by split. Qed.

Lemma quiet_get_bind {C} (f : PBroker KV -> P KV C) : (forall b, quiet (f b)) -> quiet (br ← pget; f br).
Proof. intros Hf br. apply pends_bind, pends_get. apply Hf. Qed.

Context `{!Backend KV}.

Lemma quiet_delete ns key : quiet (kv_delete ns key).
Proof. intros br. unfold kv_delete, pends. destruct (kv_del _ _ _) as [rc kv]. by eexists _, _. Qed.
Lemma quiet_del_commit ns key : quiet (wmqb_kv_del_commit ns key).
Proof. intros br. unfold wmqb_kv_del_commit, pends. destruct (kv_del _ _ _) as [rc kv]. by eexists _, _. Qed.
Lemma quiet_put_commit ns key blob : quiet (wmqb_kv_put_commit ns key blob).
Proof. intros br. unfold wmqb_kv_put_commit, pends. destruct (kv_put _ _ _ _) as [rc kv]. by eexists _, _. Qed.

Lemma quiet_iter {S} (cb : list Z -> list Z -> S -> P KV (bool * S)) recs s : (forall key blob s, quiet (cb key blob s)) -> quiet (iter_records cb recs s).
Proof.
  intros Hcb. revert s. induction recs as [|[key blob] recs IH]; intros s; [apply quiet_ret|]. cbn [iter_records].
  apply quiet_bind; [apply Hcb|]. intros [[] s']; [apply quiet_ret|apply IH].
Qed.

Lemma quiet_kv_iter {S} ns (cb : list Z -> list Z -> S -> P KV (bool * S)) s : (forall key blob s, quiet (cb key blob s)) -> quiet (wmqb_kv_iter ns cb s).
Proof.
  intros Hcb. apply quiet_get_bind. intros b. destruct (kv_list (pb_kv b) ns) as [recs rc].
  apply quiet_bind; [by apply quiet_iter|]. intros s'. apply quiet_ret.
Qed.

Lemma quiet_delete_keys ns keys d : quiet (delete_keys ns keys d).
Proof.
  revert d. induction keys as [|key keys IH]; intros d; [apply quiet_ret|]. cbn [delete_keys].
  apply quiet_bind; [apply quiet_delete|]. intros rc. apply IH.
Qed.

Create HintDb quiet.
Hint Resolve quiet_ret quiet_alloc quiet_alloc2 quiet_sync quiet_delete quiet_del_commit quiet_put_commit quiet_delete_keys : quiet.

Lemma quiet_DelOutQueue id : quiet (BrokerPersist_DelOutQueue id).
Proof.
  apply quiet_bind; [apply quiet_kv_iter|].
  - intros key blob head. unfold wmqb_delq_iter_cb. destruct (outq_key_of _ _); [|auto with quiet]. apply quiet_bind; auto with quiet.
  - intros [rc head]. apply quiet_bind; [auto with quiet|]. intros deleted. apply quiet_bind; auto with quiet.
Qed.

Lemma quiet_wipe_ns ns : quiet (wmqb_wipe_ns ns).
Proof.
  apply quiet_bind; [apply quiet_kv_iter|].
  - intros key blob head. unfold wmqb_wipe_iter_cb. apply quiet_bind; auto with quiet.
  - intros [rc head]. apply quiet_bind; [auto with quiet|]. intros deleted. apply quiet_bind; auto with quiet.
Qed.

Lemma quiet_wipe_all : quiet wmqb_wipe_all.
Proof. unfold wmqb_wipe_all. repeat (apply quiet_bind; [apply quiet_wipe_ns|intros ?]). auto with quiet. Qed.

Lemma quiet_drop_ended_records fatal ended : quiet (drop_ended_records fatal ended).
Proof.
  induction ended as [|[key err] ended IH]; [apply quiet_ret|]. cbn [drop_ended_records].
  apply quiet_bind; [|intros _; exact IH]. destruct (fatal || err); [auto with quiet|].
  apply quiet_bind; [auto with quiet|]. intros []; [|auto with quiet].
  apply quiet_bind; [unfold BrokerPersist_DelSubs; auto with quiet|]. intros rc. destruct (rc =? 0); [|auto with quiet].
  apply quiet_bind; auto with quiet.
Qed.

Lemma quiet_drop_ended head : quiet (wmqb_restore_drop_ended head).
Proof.
  unfold wmqb_restore_drop_ended. destruct head as [|e head]; [apply quiet_ret|]. apply quiet_bind; [apply quiet_kv_iter|].
  - intros key blob s. unfold wmqb_ended_outq_iter_cb. destruct (owner_of _ _); [|auto with quiet]. apply quiet_bind; [auto with quiet|].
    intros []; auto with quiet.
  - intros [rc [nodes oom]]. apply quiet_bind.
    + generalize (e :: head). induction nodes as [|[key owner] nodes IH]; intros ended; [apply quiet_ret|]. cbn [delete_owned].
      apply quiet_bind; [auto with quiet|]. intros rc'. apply IH.
    + intros ended. apply quiet_bind; [auto with quiet|]. intros _. apply quiet_drop_ended_records.
Qed.
End Ends.

(** ** The staging buffer of the purge *)

Section Safe.
Context {KV : Type} `{!Backend KV} `{!BytesBackend KV} (now : Z).
Implicit Types (br : PBroker KV).

(** The keys in the buffer. *)
Definition staged (keys : list (list Z)) : list Z := concat (map (fun k => wmqb_w_u16 (len k) ++ k) keys).
Definition purge_ok (c : PurgeCtx) : Prop :=
  exists keys, pg_buf c = staged keys /\ Forall (fun k => len k <= 254) keys.

Lemma staged_app a b : staged (a ++ b) = staged a ++ staged b.
Proof. unfold staged. by rewrite map_app, concat_app. Qed.

Lemma quiet_purge_staged fuel keys pre d :
  Forall (fun k => len k <= 254) keys -> (length (staged keys) < fuel)%nat ->
  quiet (purge_staged (KV := KV) fuel (pre ++ staged keys) (len pre) d).
Proof using.
  revert keys pre d. induction fuel as [|fuel IH]; intros keys pre d Hk Hf; [lia|]. cbn [purge_staged].
  destruct keys as [|k keys].
  { rewrite len_app. change (len (staged [])) with 0. rewrite (proj2 (Z.leb_gt _ _)) by lia. apply quiet_ret. }
  inversion_clear Hk. pose proof (len_nonneg k). pose proof (len_nonneg (staged keys)).
  change (staged (k :: keys)) with ((wmqb_w_u16 (len k) ++ k) ++ staged keys) in *.
  assert (Hs : sits (pre ++ (wmqb_w_u16 (len k) ++ k) ++ staged keys) (len pre) (wmqb_w_u16 (len k) ++ k)) by apply sits_intro.
  rewrite sits_app, w_u16_len in Hs. destruct Hs as [Hs1 Hs2].
  rewrite (proj2 (Z.leb_le _ _)) by (rewrite !len_app, w_u16_len; lia).
  rewrite (wmqb_r_u16_sits _ _ _ Hs1) by lia.
  intros br. apply pends_bind. eexists _, _. split; [done|]. cbv beta match.
  rewrite (slice_sits _ _ _ _ Hs2) by done. apply pends_bind. eexists _, _. split; [done|]. cbv beta match.
  eapply pends_then; [apply quiet_delete|]. intros rc br1 E1.
  specialize (IH keys (pre ++ wmqb_w_u16 (len k) ++ k) (if rc =? 0 then d + 1 else d) ltac:(done)).
  rewrite !len_app, w_u16_len in IH. rewrite <- !app_assoc in *.
  replace (len pre + 2 + len k) with (len pre + (2 + len k)) by lia.
  eapply pends_mono; [apply IH|].
  - rewrite !length_app in Hf. unfold wmqb_w_u16 in Hf. cbn [be_bytes length] in Hf. lia.
  - cbn. intros. congruence.
Qed.

(** What the records of a namespace are. *)
Definition rec_bytes (r : list Z * list Z) : Prop := bytes r.1 /\ bytes r.2.

Lemma iter_records_inv {S : Type} (cb : list Z -> list Z -> S -> P KV (bool * S)) recs s (I : S -> PBroker KV -> Prop) br :
  (forall key blob s br, rec_bytes (key, blob) -> I s br -> pends (cb key blob s) (fun a br' => I a.2 br') br) ->
  Forall rec_bytes recs -> I s br -> pends (iter_records cb recs s) I br.
Proof using.
  intros Hcb Hr. revert s br. induction recs as [|[key blob] recs IH]; intros s br HI; [by apply pends_ret|]. cbn [iter_records].
  inversion_clear Hr. eapply pends_then; [by apply Hcb|]. intros [stop s'] br' HI'. destruct stop; [by apply pends_ret|by apply IH].
Qed.

Lemma kv_iter_inv {S : Type} ns (cb : list Z -> list Z -> S -> P KV (bool * S)) s (I : S -> PBroker KV -> Prop) br :
  (forall key blob s br, rec_bytes (key, blob) -> I s br -> pends (cb key blob s) (fun a br' => I a.2 br') br) ->
  I s br -> pends (wmqb_kv_iter ns cb s) (fun a br' => I a.2 br') br.
Proof using BytesBackend0.
  intros Hcb HI. unfold wmqb_kv_iter. apply pends_bind, pends_get. pose proof (kv_list_bytes (pb_kv br) ns) as Hb.
  destruct (kv_list (pb_kv br) ns) as [recs rc]. eapply pends_then; [by apply (iter_records_inv cb recs s I)|].
  intros s' br' HI'. by apply pends_ret.
Qed.

Lemma purge_cb_inv key blob c br :
  rec_bytes (key, blob) -> purge_ok c ->
  pends (wmqb_purge_expired_retained_cb now key blob c) (fun a br' => purge_ok a.2 /\ tables br' = tables br) br.
Proof using.
  intros (_ & Hb) Hc. unfold wmqb_purge_expired_retained_cb.
  eapply pends_then; [apply (pends_reads _ (fun _ => True) (fun r br' => br' = br)); [by apply wmqb_retained_expired_yields|done|done]|].
  intros [rc|[]] ? ->; [by apply pends_ret| |by apply pends_ret].
  destruct (_ =? 0); [by apply pends_ret|]. destruct (Z.ltb_spec WMQB_RETAINED_PURGE_BUF (len key + 2)); [by apply pends_ret|].
  destruct (_ <? _); [by apply pends_ret|]. apply pends_ret. split; [|done].
  destruct Hc as (keys & E & Hk). exists (keys ++ [key]). cbn. split; [|apply Forall_app; split; [done|constructor; [lia|constructor]]].
  rewrite staged_app, E. unfold staged at 3. cbn. by rewrite app_nil_r.
Qed.

Lemma quiet_purge passes : quiet (KV := KV) (wmqb_restore_purge_expired_retained passes now).
Proof using BytesBackend0.
  induction passes as [|passes IH]; [apply quiet_ret|]. cbn [wmqb_restore_purge_expired_retained]. intros br.
  eapply pends_then.
  { apply (kv_iter_inv _ _ _ (fun c br' => purge_ok c /\ tables br' = tables br)); [|split; [by exists []|done]].
    intros key blob c br1 Hr [Hc E]. eapply pends_mono; [by apply purge_cb_inv|]. cbn. intros a br2 [? ?]. split; [done|congruence]. }
  intros [rc c] br1 [(keys & Ek & Hk) E]. cbn [snd] in *. destruct (_ || _); [by apply pends_ret|].
  assert (Hq : quiet (deleted ← purge_staged (S (length (pg_buf c))) (pg_buf c) 0 0;
    _ ← pmodify pb_sync; if negb (pg_more c) || (deleted =? 0) then mret tt else wmqb_restore_purge_expired_retained passes now)).
  { apply quiet_bind; [rewrite Ek; apply (quiet_purge_staged _ keys []); [done|lia]|]. intros deleted.
    apply quiet_bind; [apply quiet_sync|]. intros _. destruct (_ || _); [apply quiet_ret|exact IH]. }
  eapply pends_mono; [apply Hq|]. cbn. intros. congruence.
Qed.
End Safe.

(** ** Well-formed tables *)

Definition seq_le (a b : OutRecord) : Prop := or_enqueue_seq a <= or_enqueue_seq b.
Definition inflights (q : list OutRecord) : Z := len (base.filter (fun e => or_inflight e = true) q).

(** A restored session: its identifier is a C string, and its queue is in the
    order of the sequence numbers. *)
Record po_ok (o : POrphan) : Prop := {
  po_text : Forall (fun c => c <> 0) (po_client_id o);
  po_sorted : StronglySorted seq_le (po_queue o);
  po_counted : po_count o = len (po_queue o);
  po_inflights : po_inflight o = inflights (po_queue o)
}.

(** A subscription of a session without a connection. *)
Definition sub_bound (os : list POrphan) (s : BrokerSub) : Prop :=
  sub_client s = None /\ exists id, sub_client_id s = Some id /\ id ∈ map po_client_id os.

Record tables_ok {KV} (br : PBroker KV) : Prop := {
  to_count : pb_orphan_count br = len (pb_orphans br);
  to_cap : pb_orphan_count br <= BROKER_MAX_PERSIST_SESSIONS;
  to_orphans : Forall po_ok (pb_orphans br);
  to_subs : Forall (sub_bound (pb_orphans br)) (pb_subs br);
  to_retained : pb_retained_count br = len (pb_retained br);
  to_retained_cap : pb_retained_count br <= BROKER_MAX_RETAINED
}.

Lemma tables_ok_eq {KV} (br br' : PBroker KV) : tables br' = tables br -> tables_ok br -> tables_ok br'.
Proof. intros E []. unfold tables in E. injection E as E1 E2 E3 E4 E5 E6 E7 E8. constructor; congruence. Qed.

Lemma cstr_nonzero s : Forall (fun c => c <> 0) (cstr s).
Proof.
  unfold cstr. induction s as [|c s IH]; [by rewrite take_nil|]. cbn [XSTRLEN]. destruct (Z.eqb_spec c 0); [constructor|].
  pose proof (XSTRLEN_bound s). rewrite Z2Nat.inj_add by lia. by constructor.
Qed.

Lemma insert_by_seq_perm e q : insert_by_seq e q ≡ₚ e :: q.
Proof.
  induction q as [|i q IH]; [done|]. cbn [insert_by_seq]. destruct (_ <? _); [|done]. rewrite IH. apply Permutation_swap.
Qed.

Lemma insert_by_seq_sorted e q : StronglySorted seq_le q -> StronglySorted seq_le (insert_by_seq e q).
Proof.
  intros Hs. induction Hs as [|i q Hs IH Hi]; cbn [insert_by_seq]; [by repeat constructor|].
  destruct (Z.ltb_spec (or_enqueue_seq i) (or_enqueue_seq e)).
  - constructor; [done|]. rewrite insert_by_seq_perm. constructor; [unfold seq_le; lia|done].
  - constructor; [by constructor|]. constructor; [unfold seq_le; lia|].
    eapply list.Forall_impl; [exact Hi|]. unfold seq_le. cbn. intros. lia.
Qed.

Lemma inflights_cons e q : inflights (e :: q) = (if or_inflight e then 1 else 0) + inflights q.
Proof. unfold inflights. rewrite filter_cons. destruct (or_inflight e); [by rewrite decide_True, len_cons by done|by rewrite decide_False by done]. Qed.

Lemma inflights_perm q q' : q ≡ₚ q' -> inflights q = inflights q'.
Proof. intros E. unfold inflights, len. by rewrite E. Qed.

Lemma queue_insert_ok e o : po_ok o -> po_ok (queue_insert e o).
Proof.
  intros [Ht Hs Hc Hi]. constructor; cbn.
  - done.
  - by apply insert_by_seq_sorted.
  - unfold len. rewrite insert_by_seq_perm, Hc. unfold len. cbn [length]. lia.
  - rewrite (inflights_perm _ _ (insert_by_seq_perm e (po_queue o))), inflights_cons, Hi. destruct (or_inflight e); lia.
Qed.

Lemma find_orphan_spec id os :
  match wmqb_restore_find_orphan id os with
  | Some (before, o, after) => os = before ++ o :: after /\ po_client_id o = id /\ id ∉ map po_client_id before
  | None => id ∉ map po_client_id os
  end.
Proof.
  induction os as [|cur os IH]; [by apply not_elem_of_nil|]. cbn [wmqb_restore_find_orphan map].
  destruct (bool_decide_reflect (po_client_id cur = id)) as [E|E].
  - split_and!; [done|done|by apply not_elem_of_nil].
  - destruct (wmqb_restore_find_orphan id os) as [[[before o] after]|]; cbn [mbind option_bind].
    + destruct IH as (-> & ? & ?). split_and!; [done|done|]. cbn. by apply not_elem_of_cons.
    + by apply not_elem_of_cons.
Qed.

Lemma sub_bound_ids os os' s : map po_client_id os = map po_client_id os' -> sub_bound os s -> sub_bound os' s.
Proof. unfold sub_bound. by intros ->. Qed.

Section Callbacks.
Context {KV : Type} `{!Backend KV} `{!BytesBackend KV} (now : Z).
Implicit Types (br : PBroker KV).

(** A step that keeps the tables well-formed. *)
Definition keeps {A} (m : P KV A) : Prop :=
  forall br, tables_ok br -> pends m (fun _ br' => tables_ok br' /\ pb_persist_restored br' = pb_persist_restored br) br.

Lemma keeps_quiet {A} (m : P KV A) : quiet m -> keeps m.
Proof using.
  intros Hm br Ht. eapply pends_mono; [apply Hm|]. cbn. intros _ br' E. split; [by eapply tables_ok_eq|]. unfold tables in E. congruence.
Qed.

Lemma keeps_bind {A C} (m : P KV A) (f : A -> P KV C) : keeps m -> (forall a, keeps (f a)) -> keeps (m ≫= f).
Proof using.
  intros Hm Hf br Ht. eapply pends_then; [by apply Hm|]. intros a br' [Ht' E]. eapply pends_mono; [by apply Hf|]. cbn. intros ? ? [? ?].
  split; [done|congruence].
Qed.

Lemma keeps_ret {A} (a : A) : keeps (mret a).
Proof using. apply keeps_quiet, quiet_ret. Qed.

Lemma keeps_reads {A C} (r : result A) (T : A -> Prop) (f : Z + A -> P KV C) :
  yields r T -> (forall rc, keeps (f (inl rc))) -> (forall a, T a -> keeps (f (inr a))) -> keeps (x ← preads r; f x).
Proof using.
  intros Hy He Ho br Ht. apply pends_bind. eapply pends_reads; [exact Hy|intros rc _; by apply He|intros a _ Ha; by apply Ho].
Qed.

Lemma keeps_get {C} (f : PBroker KV -> P KV C) :
  (forall br, tables_ok br -> pends (f br) (fun _ br' => tables_ok br' /\ pb_persist_restored br' = pb_persist_restored br) br) ->
  keeps (br ← pget; f br).
Proof using. intros Hf br Ht. apply pends_bind, pends_get. by apply Hf. Qed.

Lemma keeps_alloc {C} (m : P KV bool) (f : bool -> P KV C) : quiet m -> keeps (f true) -> keeps (f false) -> keeps (ok ← m; f ok).
Proof using. intros Hm H1 H2. apply keeps_bind; [by apply keeps_quiet|]. by intros []. Qed.

(** What is done with what was read from the tables before. *)
Lemma pends_quiet_then {A C} (m : P KV A) (f : A -> P KV C) Q br :
  quiet m -> (forall a br', tables br' = tables br -> pends (f a) Q br') -> pends (m ≫= f) Q br.
Proof using. intros Hm Hf. eapply pends_then; [apply Hm|]. cbn. auto. Qed.

Lemma create_orphan_keeps cid level expiry since : keeps (wmqb_restore_create_orphan now cid level expiry since).
Proof using.
  unfold wmqb_restore_create_orphan. destruct cid as [|c cid]; [apply keeps_ret|]. apply keeps_get. intros br Ht.
  destruct (Z.leb_spec BROKER_MAX_PERSIST_SESSIONS (pb_orphan_count br)); [by apply pends_ret|].
  apply pends_quiet_then; [apply quiet_alloc2|]. intros ok br1 E. assert (Ht1 : tables_ok br1) by by eapply tables_ok_eq.
  unfold tables in E. injection E as E1 E2 E3 E4 E5 E6 E7 E8.
  destruct ok; [|apply pends_ret; split; [done|congruence]].
  apply pends_bind, pends_modify, pends_ret. split; [|cbn; congruence]. destruct Ht1 as [Hn Hc Ho Hs Hr Hrc]. constructor; cbn.
  - rewrite len_cons. lia.
  - lia.
  - constructor; [|done]. constructor; [apply cstr_nonzero|constructor|done|done].
  - eapply list.Forall_impl; [exact Hs|]. intros s (? & id & ? & ?). split; [done|]. exists id. split; [done|]. cbn. by apply elem_of_cons; right.
  - done.
  - done.
Qed.

Lemma insert_session_keeps blob : bytes blob -> keeps (wmqb_decode_and_insert_session now blob).
Proof using.
  intros Hb. eapply keeps_reads; [by apply wmqb_session_fields_yields|intros; apply keeps_ret|].
  intros [[[l e] s] cid] _. apply keeps_bind; [apply create_orphan_keeps|]. intros ok. apply keeps_ret.
Qed.

Lemma session_key_yields key blob : bytes blob -> yields (wmqb_session_key_is_client_id key blob) (fun _ => True).
Proof using.
  intros Hb. unfold wmqb_session_key_is_client_id. destruct (_ || _); [done|].
  pose proof (read_header_total BROKER_PERSIST_NS_SESSION blob Hb) as H. destruct (wmqb_read_header _ _) as [n|rc|]; [|done|done].
  destruct (Z.ltb_spec n 16); [done|]. apply yields_bind, wmqb_r_u16_yields; [done|lia|lia|]. intros cid_len _ Hl.
  destruct (_ || _) eqn:E; [done|]. tests. apply yields_bind, slice_yields; [lia|lia|lia|]. done.
Qed.

Lemma session_cb_keeps key blob c : bytes blob -> keeps (wmqb_iter_session_cb now key blob c).
Proof using.
  intros Hb. apply keeps_bind; [by apply insert_session_keeps|]. intros rc. cbv zeta. destruct (_ && _); [|apply keeps_ret].
  eapply keeps_reads; [by apply session_key_yields|intros; apply keeps_ret|]. intros [] _; [|apply keeps_ret].
  apply keeps_alloc; [apply quiet_alloc2|apply keeps_ret..].
Qed.

Lemma insert_retained_keeps blob : bytes blob -> keeps (wmqb_decode_and_insert_retained now blob).
Proof using.
  intros Hb. eapply keeps_reads; [by apply wmqb_retained_fields_yields|intros; apply keeps_ret|].
  intros [[[[q st] e] tl] end_] [Htl Hend]. eapply keeps_reads; [by apply wmqb_retained_expired_yields|intros; apply keeps_ret|].
  intros [] _; [apply keeps_ret|]. apply keeps_get. intros br Ht.
  destruct (Z.leb_spec BROKER_MAX_RETAINED (pb_retained_count br)); [by apply pends_ret|].
  unfold insert_retained. apply pends_quiet_then; [apply quiet_alloc2|]. intros ok br1 E1.
  assert (Hkeep : forall br2 (rc : Z), tables br2 = tables br ->
    pends (mret rc) (fun _ br' => tables_ok br' /\ pb_persist_restored br' = pb_persist_restored br) br2).
  { intros br2 rc E2. apply pends_ret. split; [by eapply tables_ok_eq|]. unfold tables in E2. congruence. }
  destruct ok; [|by apply Hkeep]. apply pends_bind.
  eapply pends_reads; [apply (slice_yields _ _ _ (fun _ => True)); [lia|lia|lia|done]| |]; [intros rc _|intros topic _ _];
    (apply pends_bind; eapply pends_reads; [by apply wmqb_read_payload_yields; [|lia|lia]| |]); [intros; by apply Hkeep..|].
  intros payload _ _. apply pends_quiet_then; [destruct (0 <? _); [apply quiet_alloc|apply quiet_ret]|]. intros ok br2 E2.
  assert (Et : tables br2 = tables br) by congruence. destruct ok; [|by apply Hkeep].
  assert (Ht2 : tables_ok br2) by by eapply tables_ok_eq. unfold tables in Et. injection Et as ? ? ? ? ? ? ? ?.
  apply pends_bind, pends_modify, pends_ret. split; [|done]. destruct Ht2 as [Hn Hc Ho Hs Hr Hrc]. constructor; cbn; try done.
  - rewrite len_cons. lia.
  - lia.
Qed.

(** The steps after a read of the tables that only talk to the backend. *)
Lemma unchanged_ok br br' rc : tables_ok br -> tables br' = tables br ->
  pends (mret rc) (fun (_ : Z) br' => tables_ok br' /\ pb_persist_restored br' = pb_persist_restored br) br'.
Proof using.
  intros Ht E. apply pends_ret. split; [by eapply tables_ok_eq|]. unfold tables in E. congruence.
Qed.

(** The entries of a record: nothing is inserted while they are read. *)
Lemma subs_entries_ends count key blob p end_ br :
  bytes blob -> 0 <= p -> end_ <= len blob ->
  pends (subs_entries count key blob p end_)
    (fun r br' => tables br' = tables br /\
                  match r with inr subs => Forall (fun s => sub_client s = None /\ sub_client_id s = Some (cstr key)) subs | inl _ => True end) br.
Proof using.
  intros Hb. revert p br. induction count as [|count IH]; intros p br Hp He; [by apply pends_ret|]. cbn [subs_entries].
  apply pends_bind. eapply pends_reads; [by apply wmqb_sub_entry_yields|intros; by apply pends_ret|].
  intros [[qos filter] p'] _ Hp'. apply pends_quiet_then; [apply quiet_alloc2|]. intros ok br1 E1.
  apply pends_quiet_then; [destruct ok; [apply quiet_alloc|apply quiet_ret]|]. intros ok' br2 E2.
  destruct ok'; [|apply pends_ret; split; [congruence|done]].
  eapply pends_then; [apply IH; lia|]. intros [rc|rest] br3 [E3 Hr]; apply pends_ret; (split; [congruence|]); [done|].
  by constructor.
Qed.

Lemma insert_subs_keeps key blob : bytes blob -> keeps (wmqb_decode_and_insert_subs key blob).
Proof using.
  intros Hb. eapply keeps_reads; [apply (read_header_yields _ _ (fun n => 0 <= n <= len blob - 12)); [done|auto]|intros; apply keeps_ret|].
  cbv beta. intros body_len Hn. destruct (_ =? 0); [apply keeps_ret|]. apply keeps_get. intros br Ht.
  pose proof (find_orphan_spec key (pb_orphans br)) as Hf. destruct (wmqb_restore_find_orphan _ _) as [[[before o] after]|]; [|by apply unchanged_ok].
  destruct Hf as (Eo & Ek & _). destruct (Z.ltb_spec body_len 2); [by apply unchanged_ok|].
  apply pends_bind. eapply pends_reads; [apply (wmqb_r_u16_yields _ _ (fun _ => True)); [done|lia|lia|done]|intros; by apply unchanged_ok|].
  intros count _ _. eapply pends_then; [by apply subs_entries_ends; [|lia|lia]|]. intros [rc|subs] br1 [E Hs]; [by apply unchanged_ok|].
  apply pends_bind, pends_modify, pends_ret. assert (Ht1 : tables_ok br1) by by eapply tables_ok_eq.
  unfold tables in E. injection E as E1 E2 E3 E4 E5 E6 E7 E8. split; [|done].
  destruct Ht1 as [Hc Hcap Ho Hb1 Hr Hrc]. constructor; cbn; try done.
  apply Forall_app. split; [|done]. eapply list.Forall_impl; [exact Hs|]. cbn. intros s [Hs1 Hs2]. split; [done|].
  exists (cstr key). split; [done|]. rewrite E1, Eo, map_app. apply elem_of_app. right. cbn.
  rewrite <- Ek, cstr_id; [apply elem_of_cons; by left|].
  rewrite E1, Eo in Ho. apply Forall_app in Ho as [_ Ho]. inversion_clear Ho. by apply po_text.
Qed.

Lemma insert_outq_keeps key blob : bytes blob -> keeps (wmqb_decode_and_insert_outq key blob).
Proof using.
  intros Hb. eapply keeps_reads; [apply wmqb_outq_owner_yields|intros; apply keeps_ret|]. intros cid _.
  eapply keeps_reads; [by apply wmqb_outq_fields_yields|intros; apply keeps_ret|]. intros [[e topic_len] end_] [Htl Hend].
  apply keeps_get. intros br Ht. pose proof (find_orphan_spec cid (pb_orphans br)) as Hf.
  destruct (wmqb_restore_find_orphan _ _) as [[[before o] after]|]; [|by apply unchanged_ok]. destruct Hf as (Eo & _ & _).
  unfold insert_outq. apply pends_quiet_then; [apply quiet_alloc2|]. intros ok br1 E1. destruct ok; [|by apply unchanged_ok].
  apply pends_bind.
  eapply pends_reads; [apply (slice_yields _ _ _ (fun _ => True)); [lia|lia|lia|done]| |]; [intros rc _|intros topic _ _];
    (apply pends_bind; eapply pends_reads; [by apply wmqb_read_payload_yields; [|lia|lia]| |]); [intros; by apply unchanged_ok..|].
  intros payload _ _. apply pends_quiet_then; [destruct (0 <? _); [apply quiet_alloc|apply quiet_ret]|]. intros ok br2 E2.
  assert (Et : tables br2 = tables br) by congruence. destruct ok; [|by apply unchanged_ok].
  assert (Ht2 : tables_ok br2) by by eapply tables_ok_eq. unfold tables in Et. injection Et as F1 F2 F3 F4 F5 F6 F7 F8.
  apply pends_bind, pends_modify, pends_ret. split; [|done]. destruct Ht2 as [Hn Hc Ho Hs Hr Hrc].
  rewrite F1, Eo in Hn, Ho, Hs. constructor; cbn; try done.
  - by rewrite Hn, !len_app, !len_cons.
  - apply Forall_app in Ho as [Ho1 Ho2]. inversion_clear Ho2. apply Forall_app. split; [done|]. constructor; [by apply queue_insert_ok|done].
  - eapply list.Forall_impl; [exact Hs|]. intros s. apply sub_bound_ids. by rewrite !map_app.
Qed.

Lemma sub_bound_dropped before o after s :
  sub_bound (before ++ o :: after) s -> orphan_bound (po_client_id o) s = false -> sub_bound (before ++ after) s.
Proof using.
  intros (Hc & id & Hi & Hin) Hd. split; [done|]. exists id. split; [done|].
  unfold orphan_bound in Hd. rewrite Hc, Hi in Hd. rewrite map_app in *. apply elem_of_app in Hin as [?|Hin]; apply elem_of_app; [by left|right].
  cbn in Hin. apply elem_of_cons in Hin as [->|?]; [|done]. exfalso. by rewrite !bool_decide_eq_true_2 in Hd.
Qed.

(** A dropped session takes its subscriptions with it. *)
Lemma drop_full_keeps before o after br :
  tables_ok br -> pb_orphans br = before ++ o :: after ->
  pends (drop_full before o after) (fun _ br' => (tables_ok br' /\ pb_persist_restored br' = pb_persist_restored br) /\
                                              pb_orphans br' = before ++ after) br.
Proof using.
  intros Ht Eo. unfold drop_full. apply pends_quiet_then; [apply quiet_del_commit|]. intros ? br1 E1.
  apply pends_quiet_then; [apply quiet_del_commit|]. intros ? br2 E2. apply pends_quiet_then; [apply quiet_DelOutQueue|]. intros ? br3 E3.
  apply pends_modify. assert (Et : tables br3 = tables br) by congruence. assert (Ht3 : tables_ok br3) by by eapply tables_ok_eq.
  unfold tables in Et. injection Et as F1 F2 F3 F4 F5 F6 F7 F8.
  pose proof (subs_drop_spec (orphan_bound (po_client_id o)) (pb_subs br3) (pb_subs_gen br3)) as Hd.
  destruct (subs_drop _ _ _) as [subs gen]. destruct Hd as [-> _]. split; [|done]. split; [|done].
  destruct Ht3 as [Hn Hc Ho Hs Hr Hrc]. rewrite F1, Eo in Hn, Ho, Hs. rewrite len_app, len_cons in Hn.
  pose proof (len_nonneg before). pose proof (len_nonneg after). apply Forall_app in Ho as [Ho1 Ho2]. inversion_clear Ho2.
  constructor; cbn; try done.
  - rewrite (proj2 (Z.ltb_lt _ _)) by lia. rewrite len_app. lia.
  - rewrite (proj2 (Z.ltb_lt _ _)) by lia. lia.
  - by apply Forall_app.
  - apply Forall_forall. intros s Hin. apply list_elem_of_In, list_elem_of_filter in Hin as [Hd Hin].
    rewrite List.Forall_forall in Hs. eapply sub_bound_dropped; [by apply Hs, list_elem_of_In|done].
Qed.

Lemma expiry_sweep_keeps os before br :
  tables_ok br -> pb_orphans br = before ++ os ->
  pends (expiry_sweep now before os) (fun _ br' => tables_ok br' /\ pb_persist_restored br' = pb_persist_restored br) br.
Proof using.
  revert before br. induction os as [|o os IH]; intros before br Ht Eo; [by apply pends_ret|]. cbn [expiry_sweep].
  destruct (po_expired now o).
  - eapply pends_then; [by apply drop_full_keeps|]. intros _ br1 [[Ht1 E1] Eo1]. eapply pends_mono; [by apply IH|]. cbn. intros _ br2 [? ?].
    split; [done|congruence].
  - apply IH; [done|]. by rewrite <- app_assoc.
Qed.

Lemma sweep_keeps : keeps (wmqb_restore_expiry_sweep now).
Proof using. apply keeps_get. intros br Ht. by apply expiry_sweep_keeps. Qed.

(** ** Restore *)

Lemma quiet_meta_check : quiet (wmqb_meta_check (KV := KV)).
Proof using BytesBackend0.
  apply quiet_get_bind. intros b. pose proof (kv_get_bytes (pb_kv b) BROKER_PERSIST_NS_META META_KEY (WMQB_HDR_LEN + 4)) as Hb.
  destruct (kv_get _ _ _ _) as [rc buf]. repeat (destruct (_ : bool); [apply quiet_ret|]). intros br. apply pends_bind.
  eapply pends_reads; [by apply (read_header_yields _ _ (fun _ => True))|intros; by apply pends_ret|intros; by apply pends_ret].
Qed.

Definition no_tables br : Prop := pb_orphans br = [] /\ pb_subs br = [] /\ pb_retained br = [].

(** A return: the tables are well-formed, the code is 0 when the broker is
    restored, and empty tables come with any other. *)
Definition returned (rc : Z) br : Prop :=
  tables_ok br /\ (rc = 0 <-> pb_persist_restored br = 1) /\ (rc <> 0 -> no_tables br).

Lemma restore_ns_returns ns cb k br :
  (forall key blob c, bytes key -> bytes blob -> keeps (cb key blob c)) ->
  (forall c br, tables_ok br -> pb_persist_restored br = 0 -> pends (k c) returned br) ->
  tables_ok br -> pb_persist_restored br = 0 -> pends (restore_ns ns cb k) returned br.
Proof using BytesBackend0.
  intros Hcb Hk Ht Hr. unfold restore_ns. eapply pends_then.
  { apply (kv_iter_inv _ _ _ (fun _ br' => tables_ok br' /\ pb_persist_restored br' = 0)); [|done].
    intros key blob c br1 [? ?] [Ht1 Hr1]. eapply pends_mono; [by apply Hcb|]. cbn. intros _ br2 [? ?]. split; [done|congruence]. }
  intros [rc c] br1 [Ht1 Hr1]. destruct (Z.eqb_spec rc 0); [by apply Hk|]. cbn [negb]. apply pends_bind, pends_modify, pends_ret.
  unfold BrokerPersist_RestoreRollback. pose proof (subs_drop_spec (fun _ => true) (pb_subs br1) (pb_subs_gen br1)) as Hd.
  destruct (subs_drop _ _ _) as [subs gen]. destruct Hd as [Es _].
  assert (subs = []) as ->.
  { destruct subs as [|s subs]; [done|]. assert (Hin : s ∈ s :: subs) by (apply elem_of_cons; by left). rewrite Es in Hin.
    by apply list_elem_of_filter in Hin as [? _]. }
  split_and!; [by constructor|split; [done|cbn; lia]|done].
Qed.

Lemma restore_tables_returns br : tables_ok br -> pb_persist_restored br = 0 -> pends (restore_tables now) returned br.
Proof using BytesBackend0.
  apply restore_ns_returns; [intros; by apply session_cb_keeps|]. intros c br1 Ht1 Hr1.
  apply pends_quiet_then; [apply quiet_drop_ended|]. intros _ br2 E2. apply pends_quiet_then; [apply quiet_purge|]. intros _ br3 E3.
  assert (Et : tables br3 = tables br1) by congruence. assert (Ht3 : tables_ok br3) by by eapply tables_ok_eq.
  unfold tables in Et. injection Et as _ _ _ _ _ _ _ Er.
  apply restore_ns_returns; [intros; apply keeps_bind; [by apply insert_retained_keeps|intros; apply keeps_ret]|clear - BytesBackend0; intros _ br Ht Hr|done|congruence].
  apply restore_ns_returns; [intros; apply keeps_bind; [by apply insert_subs_keeps|intros; apply keeps_ret]|clear br Ht Hr; intros _ br Ht Hr|done..].
  apply restore_ns_returns; [intros; apply keeps_bind; [by apply insert_outq_keeps|intros; apply keeps_ret]|clear br Ht Hr; intros _ br Ht Hr|done..].
  eapply pends_then; [by apply sweep_keeps|]. intros _ br' [Ht' Hr']. apply pends_bind, pends_modify, pends_ret.
  split_and!; [destruct Ht'; by constructor|done|done].
Qed.

Lemma stamp_meta_returns br : tables_ok br -> no_tables br -> pb_persist_restored br = 0 -> pends (stamp_meta (KV := KV)) returned br.
Proof using.
  intros Ht Hn Hr. unfold stamp_meta. apply pends_quiet_then; [apply quiet_put_commit|]. intros rc br1 E.
  assert (Ht1 : tables_ok br1) by by eapply tables_ok_eq. unfold tables in E. injection E as ? ? ? ? ? ? ? ?.
  unfold no_tables in Hn. destruct (Z.eqb_spec rc 0) as [->|].
  - apply pends_bind, pends_modify, pends_ret. split_and!; [destruct Ht1; by constructor|done|done].
  - apply pends_bind, pends_ret, pends_ret. split_and!; [done|split; [done|congruence]|]. intros _. unfold no_tables. intuition congruence.
Qed.

(** A broker that has not restored anything yet. *)
Record pristine br : Prop := {
  pr_tables : no_tables br;
  pr_orphan_count : pb_orphan_count br = 0;
  pr_retained_count : pb_retained_count br = 0;
  pr_restored : pb_persist_restored br = 0
}.

(** C34: Restoring is safe whatever the backend holds. A backend may hand out
    any bytes, fail in any call, and allocations may fail anywhere:
    [BrokerPersist_Restore] then reads nothing outside a record and returns.
    The tables are well-formed (each queue in the order of its sequence numbers
    and counted, each subscription of a session that was restored, no more
    sessions and messages than the caps). It returns 0 exactly when the broker
    is restored; after any other code the tables are empty. *)
Theorem Restore_safe br :
  pristine br ->
  exists rc br', BrokerPersist_Restore now br = Ok (rc, br') /\ tables_ok br' /\
    (rc = 0 <-> pb_persist_restored br' = 1) /\ (rc <> 0 -> no_tables br').
Proof using BytesBackend0.
  intros [(Ho & Hs & Hm) Hoc Hrc Hr].
  assert (Ht : tables_ok br) by (constructor; rewrite ?Ho, ?Hs, ?Hm, ?Hoc, ?Hrc; done).
  enough (H : pends (BrokerPersist_Restore now) returned br) by done.
  unfold BrokerPersist_Restore. apply pends_bind, pends_get. rewrite Hr. cbn [Z.eqb negb].
  apply pends_quiet_then; [apply quiet_meta_check|]. intros [rc present] br1 E1.
  assert (Ht1 : tables_ok br1) by by eapply tables_ok_eq.
  assert (Hn1 : no_tables br1) by (unfold tables in E1; unfold no_tables; split_and!; congruence).
  assert (Hr1 : pb_persist_restored br1 = 0) by (unfold tables in E1; congruence).
  destruct (_ || _).
  { apply pends_quiet_then; [apply quiet_wipe_all|]. intros n br2 E2.
    apply stamp_meta_returns; [by eapply tables_ok_eq| |]; unfold tables in E2; [|congruence].
    destruct Hn1 as (? & ? & ?). unfold no_tables; split_and!; congruence. }
  destruct (Z.eqb_spec rc 0) as [->|]; cbn [negb].
  - destruct present; [by apply restore_tables_returns|by apply stamp_meta_returns].
  - apply pends_ret. split_and!; [done|split; [done|lia]|done].
Qed.
End Callbacks.

(** ** A backend in memory *)

(** The records with their namespaces, the latest first. *)
Definition MemStore : Set := list (Z * (list Byte.byte * list Byte.byte)).

Definition byte_of (z : Z) : Byte.byte := match Byte.of_N (Z.to_N (z mod 256)) with Some b => b | None => Byte.x00 end.
Definition of_byte (b : Byte.byte) : Z := Z.of_N (Byte.to_N b).

Definition mem_is (ns : Z) (key : list Z) (r : Z * (list Byte.byte * list Byte.byte)) : bool :=
  (r.1 =? ns) && bool_decide (map of_byte r.2.1 = key).

#[export] Instance MemStore_backend : Backend MemStore := {
  kv_put kv ns key blob := (0, (ns, (map byte_of key, map byte_of blob)) :: base.filter (fun r => mem_is ns key r = false) kv);
  kv_get kv ns key cap :=
    match List.find (mem_is ns key) kv with
    | None => (MQTT_CODE_ERROR_NOT_FOUND, [])
    | Some (_, (_, blob)) => if cap <? len blob then (MQTT_CODE_ERROR_OUT_OF_BUFFER, []) else (0, map of_byte blob)
    end;
  kv_del kv ns key :=
    (if existsb (mem_is ns key) kv then 0 else MQTT_CODE_ERROR_NOT_FOUND, base.filter (fun r => mem_is ns key r = false) kv);
  kv_list kv ns := (map (fun r => (map of_byte r.2.1, map of_byte r.2.2)) (base.filter (fun r => r.1 = ns) kv), 0);
  kv_sync kv := kv
}.

Lemma of_byte_bytes bs : bytes (map of_byte bs).
Proof. apply Forall_map, Forall_true. intros []; by split. Qed.

#[export] Instance MemStore_bytes : BytesBackend MemStore.
Proof.
  split.
  - intros kv ns. cbn. apply Forall_map, Forall_true. intros r. split; apply of_byte_bytes.
  - intros kv ns key cap. cbn. destruct (List.find _ _) as [[? [? blob]]|]; [|constructor]. destruct (_ <? _); [constructor|apply of_byte_bytes].
Qed.

(** A broker that starts on a store. *)
Definition starting (kv : MemStore) : PBroker MemStore := mkPBroker [] kv [] 0 [] 0 [] 0 1 0.

Definition mem_record (ns : Z) (key blob : list Z) : Z * (list Byte.byte * list Byte.byte) := (ns, (map byte_of key, map byte_of blob)).

(** A store with the session "a" and records that are damaged in several ways. *)
Definition damaged_store : MemStore :=
  [mem_record BROKER_PERSIST_NS_META META_KEY meta_record;
   mem_record BROKER_PERSIST_NS_SESSION [97] (wmqb_write_header BROKER_PERSIST_NS_SESSION 17 ++ [4; 1; 0; 0; 0; 60] ++ wmqb_w_u64 1000 ++ [0; 1; 97]);
   mem_record BROKER_PERSIST_NS_SESSION [98] (wmqb_write_header BROKER_PERSIST_NS_SESSION 17 ++ [4; 1; 0; 0; 0; 60] ++ wmqb_w_u64 1000 ++ [0; 9; 98]);
   mem_record BROKER_PERSIST_NS_SUBS [97] (wmqb_write_header BROKER_PERSIST_NS_SUBS 9 ++ [0; 2; 1; 0; 0; 1; 120; 1; 0]);
   mem_record BROKER_PERSIST_NS_RETAINED [120] [1; 2; 3];
   mem_record BROKER_PERSIST_NS_OUTQ [97; 0; 0; 1] (wmqb_write_header BROKER_PERSIST_NS_OUTQ 40 ++ [9])].

Lemma Restore_safe_witness :
  exists br', BrokerPersist_Restore 1010 (starting damaged_store) = Ok (0, br') /\ tables_ok br' /\
    map po_client_id (pb_orphans br') = [[97]] /\ pb_subs br' = [].
Proof.
  destruct (Restore_safe 1010 (starting damaged_store)) as (rc & br' & E & Ht & _); [by constructor|].
  exists br'. split_and!; [|done|..]; vm_compute in E; injection E as <- <-; reflexivity.
Defined.
