(* ===== verification/PersistCodec.v ===== *)
(** * PersistCodec: what is written to a record is read back

    For each kind of record, the reader applied to what the writer built gives
    the values that were written ([mqtt_broker_persist.c]). *)
From S2P Require Import Prelude PacketDefs Wire FixedHeader PacketIO BrokerDefs PersistRecord.

#[local] Arguments wmqb_w_u16 : simpl never.
#[local] Arguments wmqb_w_u32 : simpl never.
#[local] Arguments wmqb_w_u64 : simpl never.
#[local] Arguments wmqb_read_payload : simpl never.
#[local] Arguments wmqb_retained_expired : simpl never.
#[local] Arguments wmqb_r_u32 : simpl never.
#[local] Arguments app : simpl never.

(** ** What a record can hold *)

(** A topic, filter or identifier: a C string whose length fits 16 bits. *)
Definition text_fits (s : list Z) : Prop := Forall (fun c => c <> 0) s /\ len s <= 65535.

(** A payload and its length: no buffer is kept for nothing. *)
Definition payload_fits (payload : option (list Z)) (payload_len : Z) : Prop :=
  match payload with Some p => len p = payload_len /\ 0 < payload_len | None => payload_len = 0 end /\ payload_len < 4294900000.

Lemma text_len s : text_fits s -> XSTRLEN s = len s /\ u16 (XSTRLEN s) = len s /\ 0 <= len s <= 65535.
Proof.
  intros [Ht Hl]. rewrite XSTRLEN_nonzero by done. pose proof (len_nonneg s). split_and!; [done|apply u16_small; lia|lia|done].
Qed.

Lemma text_cstr s : text_fits s -> cstr s = s.
Proof. intros [Ht _]. by apply cstr_id. Qed.

Lemma wmqb_str_ok s : text_fits s -> wmqb_str s = Ok (len s, s).
Proof. intros Hs. unfold wmqb_str. destruct (text_len s Hs) as (_ & -> & _). by rewrite slice_whole. Qed.

(** The bytes of a payload. *)
Lemma wmqb_payload_ok payload n :
  payload_fits payload n -> 0 <= n /\ wmqb_payload payload n = Ok (default [] payload) /\ len (default [] payload) = n /\
    (if 0 <? n then Some (default [] payload) else None) = payload.
Proof.
  unfold payload_fits, wmqb_payload. destruct payload as [p|]; cbn [from_option].
  - intros [[<- Hp] _]. rewrite (proj2 (Z.ltb_lt _ _)) by done. split_and!; [lia|apply slice_whole|done|done].
  - intros [-> _]. by split_and!.
Qed.

(** A record that was written: its header is accepted, and the body is there. *)
Lemma wmqb_record_holds kind body n :
  0 <= kind < 256 -> n = len body -> n < 4294967284 ->
  exists blob, wmqb_record kind (u32 n) body = Ok blob /\ wmqb_read_header blob kind = Ok n /\ sits blob WMQB_HDR_LEN body.
Proof.
  intros Hk -> Hn. destruct (wmqb_record_ok kind body (len body) eq_refl Hn) as (blob & E & ->).
  eexists. split; [exact E|]. apply read_header_holds; [done|]. split; [lia|]. exists []. by rewrite app_nil_r.
Qed.

(** Splits a hypothesis on a body into its fields. *)
Ltac fields H := rewrite !sits_app, ?w_u16_len, ?w_u32_len, ?w_u64_len, ?len_cons, ?(@len_nil Z) in H; rewrite <- ?Z.add_assoc in H.

Lemma rd_sits_at buf i j bs b : sits buf i bs -> bs !! Z.to_nat (j - i) = Some b -> i <= j -> rd buf j = Ok b.
Proof.
  intros Hs Hb Hj. rewrite <- (take_drop (Z.to_nat (j - i)) bs), sits_app in Hs. destruct Hs as [_ Hs].
  apply lookup_lt_Some in Hb as Hl. erewrite drop_S in Hs by exact Hb. rewrite len_take in Hs by (unfold len; lia).
  replace j with (i + (j - i)) by lia. by eapply rd_sits.
Qed.

Lemma sits_at buf i j bs : sits buf i bs -> i = j -> sits buf j bs.
Proof. by intros ? <-. Qed.

(** Reads the next field with a hypothesis on the body. *)
Ltac read_field :=
  match goal with
  | H : sits ?b ?i (wmqb_w_u16 ?v) |- context [wmqb_r_u16 ?b ?o ≫= _] => rewrite (wmqb_r_u16_sits b o v) by first [lia | eapply sits_at; [exact H|lia]]
  | H : sits ?b ?i (wmqb_w_u32 ?v) |- context [wmqb_r_u32 ?b ?o ≫= _] => rewrite (wmqb_r_u32_sits b o v) by first [lia | eapply sits_at; [exact H|lia]]
  | H : sits ?b ?i (wmqb_w_u64 ?v) |- context [wmqb_r_u64 ?b ?o ≫= _] => rewrite (wmqb_r_u64_sits b o v) by first [lia | eapply sits_at; [exact H|lia]]
  | H : sits ?b ?i ?s |- context [slice ?b ?o ?n ≫= _] => rewrite (slice_sits b o s n) by first [lia | eapply sits_at; [exact H|lia]]
  | H : sits ?b ?i (?x :: ?l) |- context [rd ?b ?i ≫= _] => rewrite (rd_sits b i x l H)
  | H : sits ?b ?i (?x :: ?l) |- context [rd ?b ?o ≫= _] => erewrite (rd_sits_at b i o (x :: l)) by first [exact H | reflexivity | lia]
  | |- context [if ?a <? ?b then _ else _] => rewrite (proj2 (Z.ltb_ge a b)) by lia
  | |- context [if ?a =? ?b then _ else _] => rewrite (proj2 (Z.eqb_neq a b)) by lia
  end; cbn [mbind result_bind].

(** ** Sessions *)

Lemma session_record_reads cid level expiry since :
  len cid <= 65535 -> 0 < expiry < 4294967296 -> 0 <= since < 18446744073709551616 ->
  exists blob, wmqb_session_record cid (len cid) level expiry since = Ok blob /\
    wmqb_session_fields blob = Ok (level, expiry, since, cid).
Proof.
  intros Hl He Hs. pose proof (len_nonneg cid). unfold wmqb_session_record. rewrite slice_whole. cbn [mbind result_bind].
  edestruct (wmqb_record_holds BROKER_PERSIST_NS_SESSION) as (blob & E & Eh & Hb); [| | |exists blob; split; [exact E|]];
    [done|rewrite !len_app, w_u32_len, w_u64_len, w_u16_len, !len_cons, len_nil; lia|lia|].
  fields Hb. destruct Hb as (Hb0 & Hb2 & Hb6 & Hb14 & Hb16). unfold wmqb_session_fields. rewrite Eh. cbn [mbind result_bind].
  repeat read_field. done.
Qed.

(** ** Retained messages *)

Definition retained_expired (now store_time expiry : Z) : bool :=
  negb (expiry =? 0) && (store_time <=? now) && (expiry <=? now - store_time).

(** A retained message that can be kept. *)
Record retained_fits (m : BrokerRetainedMsg) : Prop := {
  rf_topic : text_fits (rm_topic m);
  rf_payload : payload_fits (rm_payload m) (rm_payload_len m);
  rf_qos : 0 <= rm_qos m < 256;
  rf_store_time : 0 <= rm_store_time m < 18446744073709551616;
  rf_expiry : 0 <= rm_expiry_sec m < 4294967296
}.

Lemma retained_record_reads m now :
  retained_fits m ->
  exists blob end_, wmqb_retained_record m = Ok blob /\
    wmqb_retained_fields blob = Ok (rm_qos m, rm_store_time m, rm_expiry_sec m, len (rm_topic m), end_) /\
    wmqb_retained_expired now blob = Ok (retained_expired now (rm_store_time m) (rm_expiry_sec m)) /\
    slice blob (WMQB_HDR_LEN + 16) (len (rm_topic m)) = Ok (rm_topic m) /\
    wmqb_read_payload blob (WMQB_HDR_LEN + 16 + len (rm_topic m)) end_ = Ok (default [] (rm_payload m)).
Proof.
  destruct m as [topic payload n st ex qos pd]. intros [Ht Hp Hq Hs He]; cbn in *.
  destruct (text_len _ Ht) as (_ & _ & Hl). destruct (wmqb_payload_ok _ _ Hp) as (Hn0 & Ep & Elen & _). destruct Hp as [_ Hn].
  unfold wmqb_retained_record. cbn. rewrite wmqb_str_ok by done. cbn [mbind result_bind]. rewrite Ep. cbn [mbind result_bind].
  edestruct (wmqb_record_holds BROKER_PERSIST_NS_RETAINED) as (blob & E & Eh & Hb); [| | |exists blob; eexists; split; [exact E|]];
    [done|rewrite !len_app, !w_u32_len, w_u64_len, w_u16_len, !len_cons, len_nil, Elen; lia|lia|].
  rewrite u8_small in Hb by done. fields Hb. destruct Hb as (Hb0 & Hb2 & Hb10 & Hb14 & Hb16 & Hb20 & Hbp). split_and!.
  - unfold wmqb_retained_fields. rewrite Eh. cbn [mbind result_bind]. repeat read_field. done.
  - unfold wmqb_retained_expired, retained_expired. rewrite Eh, (proj2 (Z.ltb_ge _ _)) by lia. repeat read_field. by destruct (ex =? 0).
  - by apply slice_sits; [eapply sits_at; [exact Hb16|lia]|].
  - unfold wmqb_read_payload. repeat read_field. apply slice_sits; [eapply sits_at; [exact Hbp|lia]|lia].
Qed.

(** ** Queue entries *)

(** An entry of a queue that can be kept. *)
Record out_fits (e : OutRecord) : Prop := {
  of_topic : text_fits (or_topic e);
  of_payload : payload_fits (or_payload e) (or_payload_len e);
  of_qos : 0 <= or_qos e < 256;
  of_dup : 0 <= or_retransmit_dup e <= 1;
  of_packet_id : 0 <= or_packet_id e < 65536;
  of_enq_time : 0 <= or_enq_time e < 18446744073709551616;
  of_seq : 0 < or_enqueue_seq e < 18446744073709551616;
  of_expiry : 0 <= or_expiry_sec e < 4294967296
}.

Lemma outq_record_reads e :
  out_fits e ->
  exists blob end_ e0, wmqb_outq_record e = Ok blob /\
    wmqb_outq_fields blob = Ok (e0, len (or_topic e), end_) /\
    slice blob (WMQB_HDR_LEN + 30) (len (or_topic e)) = Ok (or_topic e) /\
    wmqb_read_payload blob (WMQB_HDR_LEN + 30 + len (or_topic e)) end_ = Ok (default [] (or_payload e)) /\
    set_or_message e0 (or_topic e) (or_payload e) (or_payload_len e) = e.
Proof.
  destruct e as [state qos retain level dup pid t seq ex topic payload n]. intros [Ht Hp Hq Hd Hi He Hs Hx]; cbn in *.
  destruct (text_len _ Ht) as (Et & Eu & Hl). destruct (wmqb_payload_ok _ _ Hp) as (Hn0 & Ep & Elen & _). destruct Hp as [_ Hn].
  unfold wmqb_outq_record. cbn. rewrite Eu, slice_whole. cbn [mbind result_bind]. rewrite Ep. cbn [mbind result_bind].
  edestruct (wmqb_record_holds BROKER_PERSIST_NS_OUTQ) as (blob & E & Eh & Hb); [| | |exists blob; eexists _, _; split; [exact E|]];
    [done|rewrite !len_app, !w_u32_len, !w_u64_len, !w_u16_len, !len_cons, len_nil, Elen; lia|lia|].
  rewrite u8_small in Hb by done. fields Hb. destruct Hb as (Hb0 & Hb6 & Hb8 & Hb16 & Hb24 & Hb28 & Hb30 & Hb34 & Hbp). split_and!.
  - unfold wmqb_outq_fields. rewrite Eh. cbn [mbind result_bind]. repeat read_field. reflexivity.
  - by apply slice_sits; [eapply sits_at; [exact Hb30|lia]|].
  - unfold wmqb_read_payload. repeat read_field. apply slice_sits; [eapply sits_at; [exact Hbp|lia]|lia].
  - done.
Qed.

(** The key of an entry gives its owner. *)
Lemma outq_key_reads id pid :
  Forall (fun c => c <> 0) id -> len id <= 256 -> exists key, wmqb_outq_build_key id pid = Ok key /\ wmqb_outq_owner key = Ok id.
Proof.
  intros Ht Hl. pose proof (len_nonneg id). unfold wmqb_outq_build_key. rewrite XSTRLEN_nonzero by done.
  rewrite (proj2 (Z.ltb_ge _ _)), slice_whole by lia. cbn [mbind result_bind]. eexists. split; [done|].
  assert (Hs : sits (id ++ [0] ++ wmqb_w_u16 pid) 0 (id ++ [0] ++ wmqb_w_u16 pid)) by (exists [], []; by rewrite app_nil_r).
  assert (El : len (id ++ [0] ++ wmqb_w_u16 pid) = len id + 3) by by rewrite !len_app, w_u16_len.
  fields Hs. destruct Hs as (Hs0 & Hs1 & _). unfold wmqb_outq_owner. rewrite El, (proj2 (Z.ltb_ge _ _)) by lia.
  erewrite rd_sits by (eapply sits_at; [exact Hs1|lia]). cbn [mbind result_bind Z.eqb negb]. by apply slice_sits; [|lia].
Qed.

(** ** Subscriptions *)

(** A subscription that can be kept. *)
Definition sub_fits (s : BrokerSub) : Prop := text_fits (sub_filter s) /\ 0 <= sub_qos s < 256.

(** The subscriptions of a client, in the order of the table. *)
Definition subs_of (id : list Z) (subs : list BrokerSub) : list BrokerSub := base.filter (fun s => sub_of_client id s = true) subs.

Definition entry_bytes (s : BrokerSub) : list Z := [sub_qos s; 0] ++ wmqb_w_u16 (len (sub_filter s)) ++ sub_filter s.
Definition entries_bytes (subs : list BrokerSub) : list Z := concat (map entry_bytes subs).

Lemma entry_bytes_len s : len (entry_bytes s) = 4 + len (sub_filter s).
Proof. unfold entry_bytes. rewrite !len_app, w_u16_len, !len_cons, len_nil. lia. Qed.

Lemma subs_of_cons id s subs : subs_of id (s :: subs) = if sub_of_client id s then s :: subs_of id subs else subs_of id subs.
Proof. unfold subs_of. rewrite filter_cons. destruct (sub_of_client id s); [by rewrite decide_True|by rewrite decide_False]. Qed.

Lemma entries_len subs : Forall sub_fits subs -> len (entries_bytes subs) <= len subs * 65539.
Proof.
  induction 1 as [|s subs [[_ Hl] _] _ IH]; [done|]. unfold entries_bytes in *. cbn [map concat]. rewrite len_app, entry_bytes_len, len_cons. lia.
Qed.

Lemma subs_body_ok id subs : Forall sub_fits subs -> wmqb_subs_body id subs = Ok (entries_bytes (subs_of id subs)).
Proof.
  induction 1 as [|s subs [Ht Hq] _ IH]; [done|]. cbn [wmqb_subs_body]. rewrite subs_of_cons. destruct (sub_of_client id s); [|done].
  rewrite wmqb_str_ok, IH by done. cbn [mbind result_bind]. rewrite u8_small by done. unfold entries_bytes. cbn [map concat].
  unfold entry_bytes at 2. by rewrite <- !app_assoc.
Qed.

Lemma subs_size_ok id subs count n :
  Forall sub_fits subs -> 0 <= count -> 0 <= n -> count + len (subs_of id subs) <= 65535 ->
  n + len (entries_bytes (subs_of id subs)) < 4294967296 ->
  wmqb_subs_size id subs count n = (count + len (subs_of id subs), n + len (entries_bytes (subs_of id subs))).
Proof.
  intros Hs. revert count n. induction Hs as [|s subs [Ht Hq] _ IH]; intros count n Hc Hn Hcl Hnl.
  { cbn. by rewrite !Z.add_0_r. }
  cbn [wmqb_subs_size]. rewrite subs_of_cons in *. destruct (sub_of_client id s); [|by apply IH].
  unfold entries_bytes in *. cbn [map concat] in *. rewrite len_app, entry_bytes_len, len_cons in *.
  destruct (text_len _ Ht) as (-> & _ & Hl). pose proof (len_nonneg (subs_of id subs)).
  pose proof (len_nonneg (concat (map entry_bytes (subs_of id subs)))).
  rewrite (u32_small (len _)), u16_small, u32_small, IH by lia. f_equal; lia.
Qed.

Lemma sub_entry_reads blob p end_ s :
  sub_fits s -> sits blob p (entry_bytes s) -> p + len (entry_bytes s) <= end_ ->
  wmqb_sub_entry blob p end_ = Ok (sub_qos s, sub_filter s, p + len (entry_bytes s)).
Proof.
  intros [Ht Hq] Hb He. destruct (text_len _ Ht) as (_ & _ & Hl). rewrite entry_bytes_len in *. unfold entry_bytes in Hb.
  fields Hb. destruct Hb as (Hb0 & Hb2 & Hb4). unfold wmqb_sub_entry. repeat read_field. do 2 f_equal. lia.
Qed.

Lemma subs_record_reads id subs :
  Forall sub_fits subs -> len (subs_of id subs) <= 65000 ->
  let '(count, body_len) := wmqb_subs_size id subs 0 2 in
  exists blob, wmqb_subs_record id count body_len subs = Ok blob /\
    wmqb_read_header blob BROKER_PERSIST_NS_SUBS = Ok (2 + len (entries_bytes (subs_of id subs))) /\
    wmqb_r_u16 blob WMQB_HDR_LEN = Ok (len (subs_of id subs)) /\
    sits blob (WMQB_HDR_LEN + 2) (entries_bytes (subs_of id subs)).
Proof.
  intros Hs Hl. assert (Hm : Forall sub_fits (subs_of id subs)) by by eapply Forall_sublist; [apply sublist_filter|].
  pose proof (entries_len _ Hm) as He. pose proof (len_nonneg (subs_of id subs)). pose proof (len_nonneg (entries_bytes (subs_of id subs))).
  rewrite subs_size_ok by first [done | lia]. rewrite Z.add_0_l. unfold wmqb_subs_record. rewrite subs_body_ok by done. cbn [mbind result_bind].
  rewrite <- (u32_small (2 + _)) by lia.
  edestruct (wmqb_record_holds BROKER_PERSIST_NS_SUBS) as (blob & E & Eh & Hb); [| | |exists blob; split; [exact E|]];
    [done|rewrite len_app, w_u16_len; reflexivity|lia|].
  rewrite u32_small by lia. fields Hb. destruct Hb as [Hb0 Hb2]. split_and!; [done|apply wmqb_r_u16_sits; [done|lia]|done].
Qed.
