(* ===== verification/PersistRoundtrip.v ===== *)
(** * PersistRoundtrip: a restart gives back what was stored

    The records of the sessions, subscriptions, queues and retained messages of
    a broker, in any order, are restored to the same tables. *)
From stdpp Require Import sorting.
From S2P Require Import Prelude PacketDefs Wire FixedHeader PacketIO BrokerDefs BrokerState BrokerSubs PersistRecord PersistStore PersistRestore PersistSafe PersistCodec.

(** ** What a backend holds *)

Definition session_entry (o : POrphan) (r : list Z * list Z) : Prop :=
  r.1 = str_key (po_client_id o) /\
  wmqb_session_record (po_client_id o) (u16 (XSTRLEN (po_client_id o))) (po_protocol_level o) (po_session_expiry_sec o) (po_orphan_since o)
  = Ok r.2.

Definition subs_entry (subs : list BrokerSub) (o : POrphan) (r : list Z * list Z) : Prop :=
  r.1 = str_key (po_client_id o) /\
  let '(count, body_len) := wmqb_subs_size (po_client_id o) subs 0 2 in
  wmqb_subs_record (po_client_id o) count body_len subs = Ok r.2.

Definition retained_entry (m : BrokerRetainedMsg) (r : list Z * list Z) : Prop :=
  r.1 = str_key (rm_topic m) /\ wmqb_retained_record m = Ok r.2.

Definition outq_entry (x : POrphan * OutRecord) (r : list Z * list Z) : Prop :=
  wmqb_outq_build_key (po_client_id x.1) (or_packet_id x.2) = Ok r.1 /\ wmqb_outq_record x.2 = Ok r.2.

(** The records of a namespace are those of [xs], in some order. *)
Definition lists `{Backend KV} {X} (kv : KV) (ns : Z) (entry : X -> list Z * list Z -> Prop) (xs : list X) : Prop :=
  exists ys recs, kv_list kv ns = (recs, 0) /\ ys ≡ₚ xs /\ Forall2 entry ys recs.

(** The messages of the queues, with their sessions. *)
Definition queued (os : list POrphan) : list (POrphan * OutRecord) := flat_map (fun o => map (pair o) (po_queue o)) os.

(** Sessions that have subscriptions. *)
Definition subscribed (subs : list BrokerSub) (os : list POrphan) : list POrphan :=
  base.filter (fun o => subs_of (po_client_id o) subs <> []) os.

(** The backend holds the records of these tables, and no other record. *)
Record holds `{Backend KV} (kv : KV) (os : list POrphan) (subs : list BrokerSub) (ms : list BrokerRetainedMsg) : Prop := {
  ho_meta : kv_get kv BROKER_PERSIST_NS_META META_KEY (WMQB_HDR_LEN + 4) = (0, meta_record);
  ho_sessions : lists kv BROKER_PERSIST_NS_SESSION session_entry os;
  ho_subs : lists kv BROKER_PERSIST_NS_SUBS (subs_entry subs) (subscribed subs os);
  ho_retained : lists kv BROKER_PERSIST_NS_RETAINED retained_entry ms;
  ho_queues : lists kv BROKER_PERSIST_NS_OUTQ outq_entry (queued os)
}.

(** ** What can be kept *)

Definition seq_lt (a b : OutRecord) : Prop := or_enqueue_seq a < or_enqueue_seq b.

(** A session: a client that was connected when the record was written starts
    its Session Expiry Interval at the restart. *)
Definition restarted (now : Z) (o : POrphan) : POrphan :=
  mkPOrphan (po_client_id o) (po_protocol_level o) (po_session_expiry_sec o)
    (if negb (po_orphan_since o =? 0) then po_orphan_since o else now) (po_queue o) (po_count o) (po_inflight o).

Record session_fits (now : Z) (o : POrphan) : Prop := {
  sf_id : Forall (fun c => c <> 0) (po_client_id o);
  sf_len : 0 < len (po_client_id o) <= 256;
  sf_expiry : 0 < po_session_expiry_sec o < 4294967296;
  sf_since : 0 <= po_orphan_since o < 18446744073709551616;
  sf_queue : Forall out_fits (po_queue o);
  sf_order : StronglySorted seq_lt (po_queue o);
  sf_count : po_count o = len (po_queue o);
  sf_inflight : po_inflight o = inflights (po_queue o);
  sf_alive : po_expired now (restarted now o) = false
}.

(** Tables that fit the backend and the caps, with nothing expired. *)
Record tables_fit (now : Z) (os : list POrphan) (subs : list BrokerSub) (ms : list BrokerRetainedMsg) : Prop := {
  tf_sessions : Forall (session_fits now) os;
  tf_unique : NoDup (map po_client_id os);
  tf_cap : len os <= BROKER_MAX_PERSIST_SESSIONS;
  tf_subs : Forall sub_fits subs;
  tf_subs_cap : forall id, len (subs_of id subs) <= 65000;
  tf_retained : Forall (fun m => retained_fits m /\ rm_pending_delete m = 0 /\
                                 retained_expired now (rm_store_time m) (rm_expiry_sec m) = false) ms;
  tf_retained_cap : len ms <= BROKER_MAX_RETAINED
}.

(** A subscription that waits for its client. *)
Definition detached (s : BrokerSub) : BrokerSub := mkSub (sub_filter s) (sub_client_id s) None (sub_qos s).

(** ** Iterating *)

Section Roundtrip.
Context {KV : Type} `{!Backend KV} (now : Z).
Implicit Types (br : PBroker KV).

(** The callback is called on each record, with what came before it done. *)
Lemma iter_all {X S} (entry : X -> list Z * list Z -> Prop) (cb : list Z -> list Z -> S -> P KV (bool * S))
    (Inv : list X -> S -> PBroker KV -> Prop) ys recs s br :
  Forall2 entry ys recs ->
  (forall pre x post r s br, ys = pre ++ x :: post -> entry x r -> Inv pre s br ->
     exists s' br', cb r.1 r.2 s br = Ok ((false, s'), br') /\ Inv (pre ++ [x]) s' br') ->
  Inv [] s br -> pends (iter_records cb recs s) (Inv ys) br.
Proof using.
  intros H2 Hcb HI. assert (Hg : forall pre post recs s br, ys = pre ++ post -> Forall2 entry post recs -> Inv pre s br ->
    pends (iter_records cb recs s) (Inv ys) br).
  { clear recs s br H2 HI. intros pre post. revert pre. induction post as [|x post IH]; intros pre recs s br Hy H2 HI.
    - inversion H2. apply pends_ret. by rewrite app_nil_r in Hy; subst.
    - inversion H2 as [|? [k b] ? recs' Hx Hr]; subst recs. destruct (Hcb pre x post (k, b) s br Hy Hx HI) as (s' & br' & E & HI').
      cbn [iter_records]. apply pends_bind. eexists _, _. split; [exact E|]. cbv beta match.
      eapply IH; [|exact Hr|exact HI']. by rewrite Hy, <- app_assoc. }
  by eapply (Hg [] ys).
Qed.

Lemma kv_iter_all {X S} ns (entry : X -> list Z * list Z -> Prop) xs (cb : list Z -> list Z -> S -> P KV (bool * S))
    (Inv : list X -> S -> PBroker KV -> Prop) s br (Q : Z * S -> PBroker KV -> Prop) :
  lists (pb_kv br) ns entry xs ->
  (forall ys pre x post r s br, ys ≡ₚ xs -> ys = pre ++ x :: post -> entry x r -> Inv pre s br ->
     exists s' br', cb r.1 r.2 s br = Ok ((false, s'), br') /\ Inv (pre ++ [x]) s' br') ->
  Inv [] s br -> (forall ys s' br', ys ≡ₚ xs -> Inv ys s' br' -> Q (0, s') br') -> pends (wmqb_kv_iter ns cb s) Q br.
Proof using.
  intros (ys & recs & El & Hp & H2) Hcb HI HQ. unfold wmqb_kv_iter. apply pends_bind, pends_get. rewrite El.
  eapply pends_then; [eapply (iter_all entry cb Inv ys); [exact H2| |exact HI]|].
  - intros. by eapply Hcb.
  - intros s' br' HI'. apply pends_ret. by eapply HQ.
Qed.

(** ** The steps *)

Context (kv : KV) (gen pid : Z).

(** Tables, when every allocation succeeds. *)
Definition tab (os : list POrphan) (subs : list BrokerSub) (ms : list BrokerRetainedMsg) : PBroker KV :=
  mkPBroker [] kv os (len os) subs gen ms (len ms) pid 0.

(** A session before its messages are restored. *)
Definition fresh (o : POrphan) : POrphan := set_po_queue (restarted now o) [] 0 0.

Lemma session_run o r c os subs ms :
  session_fits now o -> session_entry o r -> len os < BROKER_MAX_PERSIST_SESSIONS ->
  wmqb_iter_session_cb now r.1 r.2 c (tab os subs ms) = Ok ((false, ctx_count c 0), tab (fresh o :: os) subs ms).
Proof using.
  intros [Ht Hl He Hs _ _ _ _ _] [_ Hr] Hcap. destruct o as [id level expiry since q n k]; cbn in *.
  rewrite XSTRLEN_nonzero, u16_small in Hr by (done || lia).
  destruct (session_record_reads id level expiry since) as (blob & Eb & Ef); [lia|done..|]. rewrite Hr in Eb. injection Eb as ->.
  unfold wmqb_iter_session_cb. eapply bind_run.
  { unfold wmqb_decode_and_insert_session. eapply reads_run; [exact Ef|]. cbv beta match. eapply (bind_run _ _ _ true); [|reflexivity].
    unfold wmqb_restore_create_orphan. destruct id as [|c0 id]; [by destruct Hl|]. eapply bind_run; [reflexivity|].
    cbn [pb_orphan_count tab]. rewrite (proj2 (Z.leb_gt _ _)) by done.
    eapply bind_run; [reflexivity|]. cbv beta match zeta. eapply bind_run; reflexivity. }
  cbv zeta. cbn [Z.eqb andb negb]. unfold mret, P_ret. do 3 f_equal. unfold tab, fresh, restarted, pset_orphans, pset_mem. cbn. rewrite cstr_id by done.
  f_equal. rewrite len_cons. lia.
Qed.

Lemma retained_run m r c os subs ms :
  retained_fits m -> rm_pending_delete m = 0 -> retained_expired now (rm_store_time m) (rm_expiry_sec m) = false ->
  retained_entry m r -> len ms < BROKER_MAX_RETAINED ->
  wmqb_iter_retained_cb now r.1 r.2 c (tab os subs ms) = Ok ((false, ctx_count c 0), tab os subs (m :: ms)).
Proof using.
  intros Hf Hpd Hx [_ Hr] Hcap. destruct (retained_record_reads m now Hf) as (blob & end_ & Eb & Ef & Ex & Et & Ep).
  rewrite Hr in Eb. injection Eb as ->. rewrite Hx in Ex. destruct Hf as [Ht Hp _ _ _].
  destruct (wmqb_payload_ok _ _ Hp) as (Hn0 & _ & El & Epl). pose proof (text_cstr _ Ht) as Ec.
  unfold wmqb_iter_retained_cb. eapply bind_run; [|reflexivity]. unfold wmqb_decode_and_insert_retained.
  eapply reads_run; [exact Ef|]. cbv beta match. eapply reads_run; [exact Ex|]. cbv beta match. eapply bind_run; [reflexivity|].
  cbn [pb_retained_count tab]. rewrite (proj2 (Z.leb_gt _ _)) by done. unfold insert_retained. eapply bind_run; [reflexivity|]. cbv beta match.
  eapply reads_run; [exact Et|]. eapply reads_run; [exact Ep|]. cbv beta match.
  eapply (bind_run _ _ _ true (tab os subs ms)); [rewrite El; clear Epl; destruct (0 <? rm_payload_len m); reflexivity|]. cbv beta match zeta. eapply bind_run; [reflexivity|].
  unfold mret, P_ret. do 2 f_equal. rewrite Ec, El, Epl. unfold tab, pset_retained. cbn. f_equal.
  - destruct m; cbn in *. by subst.
  - rewrite len_cons. lia.
Qed.

Lemma str_key_id s : Forall (fun c => c <> 0) s -> len s <= 65535 -> str_key s = s.
Proof using.
  intros Ht Hl. destruct (text_len s) as (_ & E & _); [by split|]. unfold str_key. rewrite E. unfold len. by rewrite Nat2Z.id, firstn_all.
Qed.

Lemma subs_entries_run id blob end_ xs p os subs ms :
  Forall sub_fits xs -> Forall (fun s => sub_client_id s = Some id) xs -> Forall (fun c => c <> 0) id ->
  sits blob p (entries_bytes xs) -> p + len (entries_bytes xs) <= end_ ->
  subs_entries (length xs) id blob p end_ (tab os subs ms) = Ok (inr (map detached xs), tab os subs ms).
Proof using.
  intros Hf Hi Ht. revert p. induction Hf as [|s xs Hs Hf IH]; intros p Hb He; [reflexivity|]. inversion_clear Hi as [|? ? Es Hi'].
  unfold entries_bytes in *. cbn [map concat] in *. rewrite len_app in He. apply sits_app in Hb as [Hb1 Hb2].
  pose proof (len_nonneg (concat (map entry_bytes xs))). cbn [length subs_entries].
  eapply reads_run; [apply sub_entry_reads; [done|done|lia]|]. cbv beta match.
  eapply (bind_run _ _ _ true); [reflexivity|]. eapply (bind_run _ _ _ true (tab os subs ms)); [reflexivity|]. cbv beta match.
  eapply bind_run; [apply IH; [done|done|lia]|]. cbv beta match. unfold mret, P_ret. do 3 f_equal. unfold detached at 2.
  rewrite Es. by rewrite (text_cstr _ (proj1 Hs)), (cstr_id id).
Qed.

Lemma find_orphan_at id before o after :
  po_client_id o = id -> id ∉ map po_client_id before -> wmqb_restore_find_orphan id (before ++ o :: after) = Some (before, o, after).
Proof using.
  intros Ho. induction before as [|b before IH]; intros Hn; cbn [app wmqb_restore_find_orphan].
  - by rewrite bool_decide_eq_true_2.
  - cbn in Hn. apply not_elem_of_cons in Hn as [Hb Hn]. by rewrite bool_decide_eq_false_2, (IH Hn) by done.
Qed.

Lemma subs_run subs0 o r c os subs ms :
  Forall sub_fits subs0 -> len (subs_of (po_client_id o) subs0) <= 65000 -> session_fits now o -> subs_entry subs0 o r ->
  po_client_id o ∈ map po_client_id os ->
  wmqb_iter_subs_cb r.1 r.2 c (tab os subs ms) =
    Ok ((false, ctx_count c 0), tab os (map detached (subs_of (po_client_id o) subs0) ++ subs) ms).
Proof using.
  intros Hs Hcap [Ht Hl _ _ _ _ _ _ _] [-> Hr] Hin. pose proof (subs_record_reads (po_client_id o) subs0 Hs Hcap) as Hb.
  destruct (wmqb_subs_size _ _ _ _) as [count n]. destruct Hb as (blob & Eb & Eh & Ec & Hb). rewrite Hr in Eb. injection Eb as ->.
  rewrite str_key_id by (done || lia). unfold wmqb_iter_subs_cb. eapply bind_run; [|reflexivity]. unfold wmqb_decode_and_insert_subs.
  eapply reads_run; [exact Eh|]. cbv beta match. rewrite (proj2 (Z.eqb_neq _ _)) by lia. eapply bind_run; [reflexivity|]. cbn [pb_orphans tab].
  pose proof (find_orphan_spec (po_client_id o) os) as Hf. destruct (wmqb_restore_find_orphan _ _) as [[[? ?] ?]|]; [|done].
  pose proof (len_nonneg (entries_bytes (subs_of (po_client_id o) subs0))). rewrite (proj2 (Z.ltb_ge _ _)) by lia.
  eapply reads_run; [exact Ec|]. cbv beta match. unfold len at 1. rewrite Nat2Z.id. eapply bind_run.
  { apply subs_entries_run; [..|exact Hb|lia]; [|apply Forall_forall|done].
    - eapply Forall_sublist; [apply sublist_filter|done].
    - intros s Hin'. apply list_elem_of_In, list_elem_of_filter in Hin' as [E _]. unfold sub_of_client in E. by apply bool_decide_eq_true in E. }
  reflexivity.
Qed.

Lemma outq_run o e r c before o' after subs ms :
  session_fits now o -> out_fits e -> outq_entry (o, e) r -> po_client_id o' = po_client_id o ->
  po_client_id o ∉ map po_client_id before ->
  wmqb_iter_outq_cb r.1 r.2 c (tab (before ++ o' :: after) subs ms) =
    Ok ((false, ctx_count c 0), tab (before ++ queue_insert e o' :: after) subs ms).
Proof using.
  intros [Ht Hl _ _ _ _ _ _ _] He [Hk Hr] Ei Hn. cbn in Hk, Hr.
  destruct (outq_key_reads (po_client_id o) (or_packet_id e)) as (key & Ek & Eo); [done|lia|]. rewrite Hk in Ek. injection Ek as ->.
  destruct (outq_record_reads e He) as (blob & end_ & e0 & Eb & Ef & Etp & Epl & Ee). rewrite Hr in Eb. injection Eb as ->.
  pose proof (text_cstr _ (of_topic _ He)) as Ect. destruct (wmqb_payload_ok _ _ (of_payload _ He)) as (_ & _ & El & Ep).
  unfold wmqb_iter_outq_cb. eapply bind_run; [|reflexivity]. unfold wmqb_decode_and_insert_outq.
  eapply reads_run; [exact Eo|]. cbv beta match. eapply reads_run; [exact Ef|]. cbv beta match. eapply bind_run; [reflexivity|]. cbn [pb_orphans tab].
  rewrite (find_orphan_at _ _ _ _ Ei Hn). unfold insert_outq. eapply bind_run; [reflexivity|]. cbv beta match.
  eapply reads_run; [exact Etp|]. eapply reads_run; [exact Epl|]. cbv beta match.
  eapply (bind_run _ _ _ true (tab (before ++ o' :: after) subs ms)).
  { rewrite El. clear Ep. destruct (0 <? or_payload_len e); reflexivity. }
  cbv beta match zeta. eapply bind_run; [reflexivity|]. unfold mret, P_ret. do 2 f_equal. rewrite Ect, El, Ep, Ee.
  unfold tab, pset_orphans. cbn. f_equal. by rewrite !len_app, !len_cons.
Qed.

(** ** Queues *)

(** The messages of a session among [xs]. *)
Definition mine (o : POrphan) (xs : list (POrphan * OutRecord)) : list OutRecord :=
  map snd (base.filter (fun x => po_client_id x.1 = po_client_id o) xs).

(** A session with the messages restored so far. *)
Definition filled (xs : list (POrphan * OutRecord)) (o : POrphan) : POrphan :=
  fold_left (fun o e => queue_insert e o) (mine o xs) (fresh o).

Lemma mine_app o xs ys : mine o (xs ++ ys) = mine o xs ++ mine o ys.
Proof using. unfold mine. by rewrite list.filter_app, map_app. Qed.

Lemma mine_one o x : mine o [x] = if bool_decide (po_client_id x.1 = po_client_id o) then [x.2] else [].
Proof using. unfold mine. rewrite filter_cons. case_bool_decide; [by rewrite decide_True|by rewrite decide_False]. Qed.

Lemma mine_perm o xs ys : xs ≡ₚ ys -> mine o xs ≡ₚ mine o ys.
Proof using. unfold mine. by intros ->. Qed.

Lemma filled_snoc xs x o :
  filled (xs ++ [x]) o = if bool_decide (po_client_id x.1 = po_client_id o) then queue_insert x.2 (filled xs o) else filled xs o.
Proof using. unfold filled. rewrite mine_app, mine_one, fold_left_app. by case_bool_decide. Qed.

Lemma fold_queue es o :
  let o' := fold_left (fun o e => queue_insert e o) es o in
  po_queue o' ≡ₚ es ++ po_queue o /\ (po_ok o -> po_ok o') /\
  po_client_id o' = po_client_id o /\ po_protocol_level o' = po_protocol_level o /\
  po_session_expiry_sec o' = po_session_expiry_sec o /\ po_orphan_since o' = po_orphan_since o.
Proof using.
  revert o. induction es as [|e es IH]; intros o; [done|]. cbn [fold_left]. destruct (IH (queue_insert e o)) as (Hp & Hk & Hf). split_and!; [|auto using queue_insert_ok|apply Hf..].
  etransitivity; [exact Hp|]. cbn. rewrite insert_by_seq_perm. by rewrite Permutation_middle.
Qed.

Lemma filled_id xs o : po_client_id (filled xs o) = po_client_id o.
Proof using. apply (fold_queue (mine o xs) (fresh o)). Qed.

(** A queue is determined by its messages: their sequence numbers differ. *)
Lemma sorted_queue q q' : StronglySorted seq_lt q -> StronglySorted seq_le q' -> q' ≡ₚ q -> q' = q.
Proof using.
  intros Hs Hs' Hp. apply (StronglySorted_unique_strong seq_le); [|done| |done].
  - intros x y Hx Hy Hxy Hyx. rewrite Hp in Hx. assert (E : or_enqueue_seq x = or_enqueue_seq y) by (unfold seq_le in *; lia). clear -Hs Hx Hy E.
    induction Hs as [|z q Hs IH Hz]; [by apply not_elem_of_nil in Hx|]. rewrite list.Forall_forall in Hz. unfold seq_lt in Hz.
    apply elem_of_cons in Hx as [->|Hx]; apply elem_of_cons in Hy as [->|Hy]; [done| | |by apply IH].
    + specialize (Hz _ Hy). lia.
    + specialize (Hz _ Hx). lia.
  - clear -Hs. induction Hs as [|z q Hs IH Hz]; constructor; [done|]. eapply list.Forall_impl; [exact Hz|]. unfold seq_lt, seq_le. cbn. intros. lia.
Qed.

Lemma queued_cons o os : queued (o :: os) = map (pair o) (po_queue o) ++ queued os.
Proof using. done. Qed.

Lemma mine_other o o' q : po_client_id o' <> po_client_id o -> mine o (map (pair o') q) = [].
Proof using.
  intros Hne. induction q as [|e q IH]; [done|]. cbn [map]. change ((o', e) :: map (pair o') q) with ([(o', e)] ++ map (pair o') q).
  by rewrite mine_app, mine_one, IH, bool_decide_eq_false_2.
Qed.

Lemma mine_own o q : mine o (map (pair o) q) = q.
Proof using.
  induction q as [|e q IH]; [done|]. cbn [map]. change ((o, e) :: map (pair o) q) with ([(o, e)] ++ map (pair o) q).
  by rewrite mine_app, mine_one, IH, bool_decide_eq_true_2.
Qed.

Lemma mine_absent o os : po_client_id o ∉ map po_client_id os -> mine o (queued os) = [].
Proof using.
  induction os as [|o' os IH]; intros Hn; [done|]. cbn [map] in Hn. apply not_elem_of_cons in Hn as [Hne Hn].
  rewrite queued_cons, mine_app, (IH Hn), app_nil_r. apply mine_other. congruence.
Qed.

Lemma mine_queued o os : NoDup (map po_client_id os) -> o ∈ os -> mine o (queued os) = po_queue o.
Proof using.
  induction os as [|o' os IH]; intros Hnd Hin; [by apply not_elem_of_nil in Hin|]. cbn [map] in Hnd. apply list.NoDup_cons in Hnd as [Hn Hnd].
  rewrite queued_cons, mine_app. apply elem_of_cons in Hin as [<-|Hin].
  - by rewrite mine_absent, app_nil_r, mine_own.
  - rewrite IH, mine_other by first [done | intros E; apply Hn; rewrite E; apply list_elem_of_In, in_map, list_elem_of_In, Hin]. done.
Qed.

(** With all its messages a session is the one that was stored. *)
Lemma filled_all ys os o :
  ys ≡ₚ queued os -> NoDup (map po_client_id os) -> o ∈ os -> session_fits now o -> filled ys o = restarted now o.
Proof using.
  intros Hy Hnd Hin Hf. pose proof (fold_queue (mine o ys) (fresh o)) as (Hp & Hk & E1 & E2 & E3 & E4). change (fold_left _ _ _) with (filled ys o) in *.
  destruct Hk as [_ Hs Hc Hi]; [constructor; [apply Hf|constructor|done|done]|].
  cbn [fresh set_po_queue po_queue] in Hp. rewrite app_nil_r, (mine_perm _ _ _ Hy), mine_queued in Hp by done.
  apply sorted_queue in Hp; [|apply Hf|done]. rewrite Hp in Hc, Hi. unfold restarted. rewrite (sf_count _ _ Hf), (sf_inflight _ _ Hf).
  destruct (filled ys o) as [id l x t q n k]. cbn in *. by subst.
Qed.

(** ** The phases *)

Lemma restore_ns_all {X} ns (entry : X -> list Z * list Z -> Prop) xs cb (Inv : list X -> RestoreCtx -> PBroker KV -> Prop) k br
    (Q : Z -> PBroker KV -> Prop) :
  lists (pb_kv br) ns entry xs ->
  (forall ys pre x post r c br, ys ≡ₚ xs -> ys = pre ++ x :: post -> entry x r -> Inv pre c br ->
     exists c' br', cb r.1 r.2 c br = Ok ((false, c'), br') /\ Inv (pre ++ [x]) c' br') ->
  Inv [] (mkCtx 0 0 [] 0) br -> (forall ys c br', ys ≡ₚ xs -> Inv ys c br' -> pends (k c) Q br') ->
  pends (restore_ns ns cb k) Q br.
Proof using.
  intros Hl Hcb HI Hk. unfold restore_ns. apply pends_bind. eapply kv_iter_all; [exact Hl|exact Hcb|exact HI|].
  intros ys c br' Hy HI'. cbn. by eapply Hk.
Qed.

Lemma in_split_perm {X} (ys xs pre post : list X) x : ys ≡ₚ xs -> ys = pre ++ x :: post -> x ∈ xs /\ len pre < len xs.
Proof using.
  intros Hp ->. split; [rewrite <- Hp; apply elem_of_app; right; apply elem_of_cons; by left|].
  unfold len. rewrite <- Hp, length_app. cbn [length]. lia.
Qed.

Context (os : list POrphan) (subs : list BrokerSub) (ms : list BrokerRetainedMsg).
Hypothesis Hfit : tables_fit now os subs ms.

Lemma fits o : o ∈ os -> session_fits now o.
Proof using Hfit. intros Hin. pose proof (tf_sessions _ _ _ _ Hfit) as H. rewrite list.Forall_forall in H. by apply H. Qed.

Lemma sessions_phase k Q :
  lists kv BROKER_PERSIST_NS_SESSION session_entry os ->
  (forall os1 c, os1 ≡ₚ os -> rc_ended c = [] -> pends (k c) Q (tab (map fresh os1) [] [])) ->
  pends (restore_ns BROKER_PERSIST_NS_SESSION (wmqb_iter_session_cb now) k) Q (tab [] [] []).
Proof using Hfit.
  intros Hl Hk.
  eapply (restore_ns_all _ session_entry os _ (fun pre c br => rc_ended c = [] /\ br = tab (map fresh (rev pre)) [] [])); [exact Hl| |done|].
  - intros ys pre o post r c br Hy Hpre Hr [Hc ->]. destruct (in_split_perm _ _ _ _ _ Hy Hpre) as [Hin Hlt].
    eexists _, _. split; [apply session_run; [by apply fits|done|]|by rewrite rev_app_distr].
    pose proof (tf_cap _ _ _ _ Hfit). unfold len in *. rewrite length_map, length_rev. lia.
  - intros ys c br Hy [Hc ->]. apply Hk; [|done]. by rewrite <- Hy, <- Permutation_rev.
Qed.

Lemma retained_fit m : m ∈ ms -> retained_fits m /\ rm_pending_delete m = 0 /\
  retained_expired now (rm_store_time m) (rm_expiry_sec m) = false.
Proof using Hfit. intros Hin. pose proof (tf_retained _ _ _ _ Hfit) as H. rewrite list.Forall_forall in H. by apply H. Qed.

(** Nothing is purged. *)
Lemma purge_phase {A} (k : P KV A) Q os1 :
  lists kv BROKER_PERSIST_NS_RETAINED retained_entry ms -> pends k Q (tab os1 [] []) ->
  pends (_ ← wmqb_restore_purge_expired_retained WMQB_RETAINED_PURGE_PASSES now; k) Q (tab os1 [] []).
Proof using Hfit.
  intros Hl Hk. apply pends_bind. cbn [wmqb_restore_purge_expired_retained]. apply pends_bind.
  eapply (kv_iter_all _ retained_entry ms _ (fun _ c br => c = mkPurge [] 0 false /\ br = tab os1 [] [])); [exact Hl| |done|].
  - intros ys pre m post r c br Hy Hpre [_ Hr] [-> ->]. destruct (in_split_perm _ _ _ _ _ Hy Hpre) as [Hin _].
    destruct (retained_fit m Hin) as (Hf & _ & Hx). destruct (retained_record_reads m now Hf) as (blob & end_ & Eb & _ & Ex & _).
    rewrite Hr in Eb. injection Eb as ->. rewrite Hx in Ex. eexists _, _. split; [|done].
    unfold wmqb_purge_expired_retained_cb. eapply reads_run; [exact Ex|reflexivity].
  - intros ys c br _ [-> ->]. by apply pends_ret.
Qed.

Lemma retained_phase k Q os1 :
  lists kv BROKER_PERSIST_NS_RETAINED retained_entry ms ->
  (forall ms1 c, ms1 ≡ₚ ms -> pends (k c) Q (tab os1 [] ms1)) ->
  pends (restore_ns BROKER_PERSIST_NS_RETAINED (wmqb_iter_retained_cb now) k) Q (tab os1 [] []).
Proof using Hfit.
  intros Hl Hk. eapply (restore_ns_all _ retained_entry ms _ (fun pre c br => br = tab os1 [] (rev pre))); [exact Hl| |done|].
  - intros ys pre m post r c br Hy Hpre Hr ->. destruct (in_split_perm _ _ _ _ _ Hy Hpre) as [Hin Hlt].
    destruct (retained_fit m Hin) as (Hf & Hp & Hx). eexists _, _. split; [apply retained_run; [done..|]|by rewrite rev_app_distr].
    pose proof (tf_retained_cap _ _ _ _ Hfit). unfold len in *. rewrite length_rev. lia.
  - intros ys c br Hy ->. apply Hk. by rewrite <- Hy, <- Permutation_rev.
Qed.

(** The subscriptions of some sessions. *)
Definition restored_subs (ys : list POrphan) : list BrokerSub := concat (map (fun o => map detached (subs_of (po_client_id o) subs)) ys).

Lemma subs_phase k Q os1 ms1 :
  lists kv BROKER_PERSIST_NS_SUBS (subs_entry subs) (subscribed subs os) -> os1 ≡ₚ os ->
  (forall ys c, ys ≡ₚ subscribed subs os -> pends (k c) Q (tab (map fresh os1) (restored_subs ys) ms1)) ->
  pends (restore_ns BROKER_PERSIST_NS_SUBS wmqb_iter_subs_cb k) Q (tab (map fresh os1) [] ms1).
Proof using Hfit.
  intros Hl Ho Hk.
  eapply (restore_ns_all _ (subs_entry subs) (subscribed subs os) _ (fun pre c br => br = tab (map fresh os1) (restored_subs (rev pre)) ms1));
    [exact Hl| |done|].
  - intros ys pre o post r c br Hy Hpre Hr ->. destruct (in_split_perm _ _ _ _ _ Hy Hpre) as [Hin _].
    apply list_elem_of_filter in Hin as [_ Hin]. eexists _, _. split; [|by rewrite rev_app_distr].
    apply subs_run; [apply Hfit|apply Hfit|by apply fits|done|].
    rewrite map_map. rewrite <- Ho in Hin. apply list_elem_of_In, (in_map po_client_id), list_elem_of_In, Hin.
  - intros ys c br Hy ->. apply Hk. by rewrite <- Hy, <- Permutation_rev.
Qed.

Lemma filled_other pre x os1 : po_client_id x.1 ∉ map po_client_id os1 -> map (filled (pre ++ [x])) os1 = map (filled pre) os1.
Proof using.
  intros Hn. apply map_ext_in. intros o Ho. rewrite filled_snoc. rewrite bool_decide_eq_false_2; [done|]. intros E. apply Hn. rewrite E.
  by apply list_elem_of_In, in_map.
Qed.

Lemma queues_phase k Q os1 subs1 ms1 :
  lists kv BROKER_PERSIST_NS_OUTQ outq_entry (queued os) -> os1 ≡ₚ os ->
  (forall c, pends (k c) Q (tab (map (restarted now) os1) subs1 ms1)) ->
  pends (restore_ns BROKER_PERSIST_NS_OUTQ wmqb_iter_outq_cb k) Q (tab (map fresh os1) subs1 ms1).
Proof using Hfit.
  intros Hl Ho Hk. pose proof (tf_unique _ _ _ _ Hfit) as Hnd.
  eapply (restore_ns_all _ outq_entry (queued os) _ (fun pre c br => br = tab (map (filled pre) os1) subs1 ms1)); [exact Hl| |done|].
  - intros ys pre [o e] post r c br Hy Hpre Hr ->. destruct (in_split_perm _ _ _ _ _ Hy Hpre) as [Hin _].
    apply list_elem_of_In, in_flat_map in Hin as (o' & Ho' & He). apply in_map_iff in He as (e' & [= -> ->] & He).
    apply list_elem_of_In in Ho'. pose proof (fits o Ho') as Hf.
    assert (Hof : out_fits e) by (pose proof (sf_queue _ _ Hf) as H; rewrite List.Forall_forall in H; by apply H).
    rewrite <- Ho in Ho'. apply list_elem_of_split in Ho' as (l1 & l2 & ->).
    assert (Hn : po_client_id o ∉ map po_client_id l1 ++ map po_client_id l2).
    { rewrite <- Ho, map_app in Hnd. cbn [map] in Hnd. rewrite <- Permutation_middle in Hnd. by apply list.NoDup_cons in Hnd as [? _]. }
    apply not_elem_of_app in Hn as [Hn1 Hn2]. rewrite !map_app. cbn [map]. eexists _, _. split.
    + apply (outq_run o e); [done|done|done|apply filled_id|]. rewrite map_map. erewrite map_ext; [exact Hn1|]. intros. apply filled_id.
    + rewrite (filled_other _ _ l1), (filled_other _ _ l2), filled_snoc, bool_decide_eq_true_2 by done. done.
  - intros ys c br Hy ->. erewrite map_ext_in; [apply Hk|]. intros o Hin. apply list_elem_of_In in Hin. rewrite Ho in Hin.
    eapply filled_all; [exact Hy|done|done|by apply fits].
Qed.

Lemma sweep_phase os1 subs1 ms1 :
  Forall (fun o => po_expired now o = false) os1 -> wmqb_restore_expiry_sweep now (tab os1 subs1 ms1) = Ok (tt, tab os1 subs1 ms1).
Proof using.
  intros Ha. unfold wmqb_restore_expiry_sweep. eapply bind_run; [reflexivity|]. cbn [pb_orphans tab].
  assert (H : forall before br, expiry_sweep now before os1 br = Ok (tt, br)); [|done].
  induction Ha as [|o os1 Hx Ha IH]; intros before br; [done|]. cbn [expiry_sweep]. by rewrite Hx, IH.
Qed.

(** ** The subscriptions of one session *)

Lemma subs_of_app id a b : subs_of id (a ++ b) = subs_of id a ++ subs_of id b.
Proof using. unfold subs_of. apply list.filter_app. Qed.

Lemma subs_of_ids id : Forall (fun s => sub_client_id s = Some id) (subs_of id subs).
Proof using.
  apply list.Forall_forall. intros s Hin. apply list_elem_of_filter in Hin as [E _]. unfold sub_of_client in E. by apply bool_decide_eq_true in E.
Qed.

Lemma subs_of_detached id id' xs :
  Forall (fun s => sub_client_id s = Some id') xs -> subs_of id (map detached xs) = if bool_decide (id' = id) then map detached xs else [].
Proof using.
  induction 1 as [|s xs E _ IH]; [by case_bool_decide|]. cbn [map]. rewrite subs_of_cons, IH. unfold sub_of_client. cbn [detached sub_client_id].
  rewrite E. by repeat case_bool_decide; simplify_eq.
Qed.

Lemma restored_absent id ys : id ∉ map po_client_id ys -> subs_of id (restored_subs ys) = [].
Proof using.
  induction ys as [|o ys IH]; intros Hn; [done|]. cbn [map] in Hn. apply not_elem_of_cons in Hn as [Hne Hn].
  unfold restored_subs in *. cbn [map concat]. by rewrite subs_of_app, (subs_of_detached _ _ _ (subs_of_ids _)), bool_decide_eq_false_2, IH.
Qed.

Lemma restored_own o ys : NoDup (map po_client_id ys) -> o ∈ ys -> subs_of (po_client_id o) (restored_subs ys) = map detached (subs_of (po_client_id o) subs).
Proof using.
  induction ys as [|o' ys IH]; intros Hnd Hin; [by apply not_elem_of_nil in Hin|]. cbn [map] in Hnd. apply list.NoDup_cons in Hnd as [Hn Hnd].
  pose proof (restored_absent (po_client_id o') ys Hn) as Habs. unfold restored_subs in *. cbn [map concat].
  rewrite subs_of_app, (subs_of_detached _ _ _ (subs_of_ids _)). apply elem_of_cons in Hin as [<-|Hin].
  - by rewrite bool_decide_eq_true_2, Habs, app_nil_r.
  - rewrite bool_decide_eq_false_2, IH; [done..|]. intros E. apply Hn. rewrite E. by apply list_elem_of_In, in_map, list_elem_of_In.
Qed.

Lemma restored_subs_ok ys :
  ys ≡ₚ subscribed subs os ->
  Forall (sub_bound os) (restored_subs ys) /\
  forall o, o ∈ os -> subs_of (po_client_id o) (restored_subs ys) = map detached (subs_of (po_client_id o) subs).
Proof using Hfit.
  intros Hy. assert (Hin : forall o, o ∈ ys <-> subs_of (po_client_id o) subs <> [] /\ o ∈ os) by (intros o; rewrite Hy; unfold subscribed; by rewrite list_elem_of_filter).
  assert (Hnd : NoDup (map po_client_id ys)).
  { rewrite Hy. eapply sublist_NoDup; [apply Hfit|]. apply (fmap_sublist po_client_id), sublist_filter. }
  split.
  - apply Forall_concat, Forall_map, list.Forall_forall. intros o Ho. apply Hin in Ho as [_ Ho]. apply Forall_map.
    eapply list.Forall_impl; [apply subs_of_ids|]. cbn. intros s E. split; [done|]. exists (po_client_id o). split; [done|].
    by apply list_elem_of_In, in_map, list_elem_of_In.
  - intros o Ho. destruct (decide (subs_of (po_client_id o) subs = [])) as [E|Hne]; [|apply restored_own; [done|by apply Hin]].
    rewrite restored_absent, E; [done|]. intros Hid. apply list_elem_of_In, in_map_iff in Hid as (o' & Eid & Ho'). apply list_elem_of_In in Ho'.
    apply Hin in Ho' as [Hne _]. by rewrite Eid in Hne.
Qed.
End Roundtrip.

(** The tables after a restart. *)
Record restored {KV : Type} (now : Z) (os : list POrphan) (subs : list BrokerSub) (ms : list BrokerRetainedMsg) (br : PBroker KV) : Prop := {
  re_done : pb_persist_restored br = 1;
  re_sessions : pb_orphans br ≡ₚ map (restarted now) os;
  re_retained : pb_retained br ≡ₚ ms;
  re_bound : Forall (sub_bound os) (pb_subs br);
  re_subs : forall o, o ∈ os -> subs_of (po_client_id o) (pb_subs br) = map detached (subs_of (po_client_id o) subs)
}.

(** C33: A restart loses nothing. When the backend holds the records that the
    broker writes for some sessions, subscriptions, queued messages and retained
    messages, listed in any order, and these fit the broker's limits and have
    not expired ([tables_fit]), [BrokerPersist_Restore] returns 0 and leaves the
    backend as it was: the tables hold these sessions, each with its queue in
    the order in which it was built, its subscriptions in their order and no
    others, and these retained messages. *)
Theorem Restore_roundtrip {KV : Type} `{!Backend KV} now (br : PBroker KV) os subs ms :
  pristine br -> pb_mem br = [] -> holds (pb_kv br) os subs ms -> tables_fit now os subs ms ->
  exists br', BrokerPersist_Restore now br = Ok (0, br') /\ pb_kv br' = pb_kv br /\ restored now os subs ms br'.
Proof.
  intros [(Ho & Hs & Hm) Hoc Hrc Hr] Hmem [Hmeta Hse Hsu Hre Hou] Hfit. destruct br as [mem kv os0 n subs0 gen ms0 k pid r].
  cbn in *. subst. change (mkPBroker _ _ _ _ _ _ _ _ _ _) with (tab kv gen pid [] [] []).
  enough (pends (BrokerPersist_Restore now) (fun rc br' => rc = 0 /\ pb_kv br' = kv /\ restored now os subs ms br') (tab kv gen pid [] [] []))
    as (rc & br' & E & -> & H) by (exists br'; by split).
  unfold BrokerPersist_Restore. apply pends_bind, pends_get. cbn [pb_persist_restored tab Z.eqb negb].
  apply pends_bind. exists (0, true), (tab kv gen pid [] [] []). split.
  { unfold wmqb_meta_check, mbind, P_bind, pget. cbn [pb_kv tab]. rewrite Hmeta. reflexivity. }
  cbv beta match. unfold restore_tables. eapply (sessions_phase now kv gen pid os subs ms); [done..|]. intros os1 c Eo Hc. rewrite Hc.
  apply pends_bind, pends_ret. apply (purge_phase now kv gen pid os subs ms); [done..|].
  eapply (retained_phase now kv gen pid os subs ms); [done..|]. intros ms1 c1 Em.
  eapply (subs_phase now kv gen pid os subs ms); [done..|]. intros ys c2 Ey.
  eapply (queues_phase now kv gen pid os subs ms); [done..|]. intros c3. destruct (restored_subs_ok now os subs ms Hfit ys Ey) as [Hb Hsub].
  apply pends_bind. eexists _, _. split.
  { apply sweep_phase. apply Forall_map. rewrite Eo. eapply list.Forall_impl; [apply Hfit|]. intros o Hf. apply Hf. }
  apply pends_bind, pends_modify, pends_ret. split_and!; [done..|]. constructor; cbn; [done|by rewrite Eo|done..].
Qed.

(** ** An example *)

(** What a broker writes: sessions "a" and "b", the subscriptions of "a", two
    messages for it, the later one first, and a retained message. *)
Definition demo_m1 : BrokerOutPub := mkOutPub [120] (Some [1; 2]) 2 1 7 0 BROKER_OUTQ_PUBLISH_SENT 0 1000 3 4 [].
Definition demo_m2 : BrokerOutPub := mkOutPub [121] None 0 2 8 0 BROKER_OUTQ_QUEUED 0 1001 5 4 [].
Definition demo_subs : list BrokerSub := [mkSub [121] (Some [97]) (Some 1) 2; mkSub [120] (Some [97]) (Some 1) 1].
Definition demo_retained : BrokerRetainedMsg := mkRetained [122] (Some [9]) 1 900 0 1 0.
Definition demo_os : list POrphan :=
  [mkPOrphan [97] 4 60 1000 [out_record demo_m1; out_record demo_m2] 2 1; mkPOrphan [98] 5 NO_EXPIRY 0 [] 0 0].

Definition demo_writes : P MemStore Z :=
  _ ← wmqb_meta_write;
  _ ← BrokerPersist_PutOrphanSession [97] 4 60 1000;
  _ ← BrokerPersist_PutOrphanSession [98] 5 NO_EXPIRY 0;
  _ ← BrokerPersist_PutSubs [97];
  _ ← BrokerPersist_PutOutPub [97] demo_m2;
  _ ← BrokerPersist_PutOutPub [97] demo_m1;
  BrokerPersist_PutRetained demo_retained.

Definition demo_store : MemStore := Eval vm_compute in
  match demo_writes (mkPBroker [] [] [] 0 demo_subs 0 [] 0 1 1) with Ok (_, br) => pb_kv br | _ => [] end.

(** The records of a store are found in it. *)
Ltac listed ys :=
  exists ys; eexists; split; [vm_compute; reflexivity|]; split;
  [first [reflexivity | apply Permutation_swap]|repeat constructor; vm_compute; reflexivity].

Lemma demo_holds : holds demo_store demo_os demo_subs [demo_retained].
Proof.
  split; [vm_compute; reflexivity|..].
  - listed (rev demo_os).
  - assert (subscribed demo_subs demo_os = take 1 demo_os) as -> by (vm_compute; reflexivity). listed (take 1 demo_os).
  - listed [demo_retained].
  - listed (queued demo_os).
Qed.

Lemma demo_fits : tables_fit 1010 demo_os demo_subs [demo_retained].
Proof.
  split.
  - repeat constructor; (done || by vm_compute).
  - apply list.NoDup_cons; split; [by intros [?|?%not_elem_of_nil]%elem_of_cons|apply NoDup_singleton].
  - done.
  - repeat constructor; (done || by vm_compute).
  - intros id. pose proof (len_nonneg demo_subs). transitivity (len demo_subs); [|done]. unfold len, subs_of. apply inj_le, length_filter.
  - repeat constructor; (done || by vm_compute).
  - done.
Qed.

Lemma Restore_roundtrip_witness :
  exists br', BrokerPersist_Restore 1010 (starting demo_store) = Ok (0, br') /\
    pb_kv br' = demo_store /\ restored 1010 demo_os demo_subs [demo_retained] br' /\ length (pb_subs br') = 2%nat.
Proof.
  destruct (Restore_roundtrip 1010 (starting demo_store) demo_os demo_subs [demo_retained]) as (br' & E & Ek & Hr);
    [by constructor|done|exact demo_holds|exact demo_fits|].
  exists br'. split_and!; [exact E|exact Ek|exact Hr|]. vm_compute in E. by injection E as <-.
Defined.
