(* ===== verification/PersistErase.v ===== *)
(** * PersistErase: a session that ends leaves nothing behind

    What [BrokerOrphan_DropFull] deletes from a backend that deletes what it is
    told to: the records of that session, and none of another one. *)
From S2P Require Import Prelude PacketDefs Wire FixedHeader PacketIO BrokerDefs BrokerState BrokerSubs PersistRecord PersistStore PersistSafe PersistCodec.

(** The records of a namespace. *)
Definition records `{Backend KV} (kv : KV) (ns : Z) : list (list Z * list Z) := (kv_list kv ns).1.

(** A backend that deletes: [kv_del] removes the record with a key, [sync]
    removes none. *)
Class DeletingBackend (KV : Type) `{!Backend KV} := {
  kv_del_records (kv : KV) ns key ns' :
    records (kv_del kv ns key).2 ns' = if bool_decide (ns' = ns) then base.filter (fun r => r.1 <> key) (records kv ns') else records kv ns';
  kv_sync_records (kv : KV) ns : records (kv_sync kv) ns = records kv ns
}.

(** The record with [key] is one of the session [id]. *)
Definition session_record (id : list Z) (ns : Z) (key : list Z) : bool :=
  if (ns =? BROKER_PERSIST_NS_SESSION) || (ns =? BROKER_PERSIST_NS_SUBS) then bool_decide (key = id)
  else if ns =? BROKER_PERSIST_NS_OUTQ then outq_key_of id key
  else false.

Lemma filter_ext_in {A} (P1 P2 : A -> Prop) `{!forall x, Decision (P1 x), !forall x, Decision (P2 x)} (l : list A) :
  (forall x, x ∈ l -> P1 x <-> P2 x) -> base.filter P1 l = base.filter P2 l.
Proof.
  induction l as [|x l IH]; intros Hx; [done|]. rewrite !filter_cons. rewrite IH by (intros y Hy; apply Hx; apply elem_of_cons; by right).
  apply decide_ext, Hx, elem_of_cons. by left.
Qed.

Lemma filter_id {A} (P : A -> Prop) `{!forall x, Decision (P x)} (l : list A) : (forall x, P x) -> base.filter P l = l.
Proof. intros Hx. induction l as [|x l IH]; [done|]. by rewrite filter_cons, decide_True, IH. Qed.

Section Erase.
Context {KV : Type} `{!Backend KV} `{!DeletingBackend KV}.
Implicit Types (br : PBroker KV).

(** A computation that only removes records, those with [drop]; the rest of the
    state and the outcomes of allocations stay. *)
Definition erases {A} (drop : Z -> list Z -> bool) (m : P KV A) : Prop :=
  forall br, pb_mem br = [] ->
    pends m (fun _ br' => tables br' = tables br /\ pb_mem br' = [] /\
      forall ns, records (pb_kv br') ns = base.filter (fun r => drop ns r.1 = false) (records (pb_kv br) ns)) br.

Lemma erases_bind {A C} d1 d2 (m : P KV A) (f : A -> P KV C) :
  erases d1 m -> (forall a, erases d2 (f a)) -> erases (fun ns key => d1 ns key || d2 ns key) (m ≫= f).
Proof using.
  intros Hm Hf br Hb. eapply pends_then; [by apply Hm|]. intros a br1 (E1 & Hb1 & Hr1). eapply pends_mono; [by apply Hf|].
  intros c br2 (E2 & Hb2 & Hr2). split_and!; [congruence|done|]. intros ns. rewrite Hr2, Hr1, list_filter_filter. apply list_filter_iff.
  intros r. rewrite orb_false_iff. tauto.
Qed.

Lemma erases_ext {A} d d' (m : P KV A) : (forall ns key, d ns key = d' ns key) -> erases d m -> erases d' m.
Proof using.
  intros E Hm br Hb. eapply pends_mono; [by apply Hm|]. intros a br' (E' & Hb' & Hr). split_and!; [done..|]. intros ns. rewrite Hr.
  apply list_filter_iff. intros r. by rewrite E.
Qed.

Lemma erases_ret {A} (a : A) : erases (fun _ _ => false) (mret a).
Proof using.
  intros br Hb. apply pends_ret. split_and!; [done..|]. intros ns. symmetry. by apply filter_id.
Qed.

Definition is_key (ns : Z) (key : list Z) (ns' : Z) (key' : list Z) : bool := (ns' =? ns) && bool_decide (key' = key).

Lemma deleted_records kv ns key ns' :
  records (kv_del kv ns key).2 ns' = base.filter (fun r => is_key ns key ns' r.1 = false) (records kv ns').
Proof using DeletingBackend0.
  rewrite kv_del_records. unfold is_key. case_bool_decide as E.
  - subst. rewrite Z.eqb_refl. apply list_filter_iff. intros r. cbn. by rewrite bool_decide_eq_false.
  - rewrite (proj2 (Z.eqb_neq _ _)) by done. symmetry. by apply filter_id.
Qed.

Lemma erases_del_commit ns key : erases (is_key ns key) (wmqb_kv_del_commit ns key).
Proof using DeletingBackend0.
  intros br Hb. pose proof (deleted_records (pb_kv br) ns key) as H. unfold wmqb_kv_del_commit, pends. destruct (kv_del _ _ _) as [rc kv].
  eexists _, _. split; [done|]. split_and!; [done..|]. intros ns'. cbn. rewrite <- H. destruct (rc =? 0); [apply kv_sync_records|done].
Qed.

Lemma erases_delete ns key : erases (is_key ns key) (kv_delete ns key).
Proof using DeletingBackend0.
  intros br Hb. pose proof (deleted_records (pb_kv br) ns key) as H. unfold kv_delete, pends. destruct (kv_del _ _ _) as [rc kv].
  eexists _, _. split; [done|]. by split_and!.
Qed.

Lemma erases_sync : erases (fun _ _ => false) (pmodify pb_sync).
Proof using DeletingBackend0.
  intros br Hb. apply pends_modify. split_and!; [done..|]. intros ns. cbn. rewrite kv_sync_records. symmetry. by apply filter_id.
Qed.

Lemma erases_keys ns keys d : erases (fun ns' key => (ns' =? ns) && bool_decide (key ∈ keys)) (delete_keys ns keys d).
Proof using DeletingBackend0.
  revert d. induction keys as [|k keys IH]; intros d.
  - eapply erases_ext; [|apply erases_ret]. intros. cbn. by rewrite bool_decide_eq_false_2, andb_false_r by apply not_elem_of_nil.
  - cbn [delete_keys]. eapply erases_ext; [|apply erases_bind; [apply erases_delete|intros rc; apply IH]].
    intros ns' key. unfold is_key. destruct (ns' =? ns); [|done]. cbn. rewrite <- bool_decide_or. apply bool_decide_ext. symmetry. apply elem_of_cons.
Qed.

(** The keys that are collected. *)
Lemma delq_collects id recs head br :
  pb_mem br = [] ->
  iter_records (wmqb_delq_iter_cb id) recs head br
  = Ok (rev (map fst (base.filter (fun r => outq_key_of id r.1 = true) recs)) ++ head, pset_mem br []).
Proof using.
  destruct br as [mem kv os n subs gen ms k pid r]. cbn [pb_mem]. intros ->. set (br := mkPBroker _ _ _ _ _ _ _ _ _ _).
  change (pset_mem br []) with br.
  revert head. induction recs as [|[key blob] recs IH]; intros head; [done|]. cbn [iter_records]. rewrite filter_cons. cbn [fst].
  destruct (outq_key_of id key) eqn:E.
  - rewrite decide_True by done. cbn [map rev]. rewrite <- app_assoc.
    eapply (bind_run _ _ _ (false, key :: head) br); [|apply IH]. unfold wmqb_delq_iter_cb. rewrite E. by eapply (bind_run _ _ _ true).
  - rewrite decide_False by done. eapply (bind_run _ _ _ (false, head) br); [|apply IH]. unfold wmqb_delq_iter_cb. by rewrite E.
Qed.

Lemma erases_DelOutQueue id :
  str_key id = id -> erases (fun ns key => (ns =? BROKER_PERSIST_NS_OUTQ) && outq_key_of id key) (BrokerPersist_DelOutQueue id).
Proof using DeletingBackend0.
  intros Hid br Hb. unfold BrokerPersist_DelOutQueue, wmqb_kv_iter. rewrite Hid. apply pends_bind. apply pends_bind, pends_get.
  destruct (kv_list (pb_kv br) BROKER_PERSIST_NS_OUTQ) as [recs rc] eqn:El.
  apply pends_bind. eexists _, _. split; [by apply delq_collects|]. apply pends_ret. rewrite app_nil_r.
  set (keys := rev _).
  assert (Hm : erases (fun ns key => (ns =? BROKER_PERSIST_NS_OUTQ) && bool_decide (key ∈ keys) || (false || false))
    (deleted ← delete_keys BROKER_PERSIST_NS_OUTQ keys 0; _ ← pmodify pb_sync; mret deleted)).
  { eapply erases_bind; [apply erases_keys|]. intros d. apply (erases_bind (fun _ _ => false)); [apply erases_sync|]. intros _. apply erases_ret. }
  eapply pends_mono; [by apply Hm|]. intros d br' (E & Hb' & Hr). split_and!; [by rewrite E|done|]. intros ns. rewrite Hr. cbn.
  apply filter_ext_in. intros r Hin. destruct (Z.eqb_spec ns BROKER_PERSIST_NS_OUTQ) as [->|]; [|done]. cbn. rewrite orb_false_r.
  unfold records in Hin. rewrite El in Hin. cbn in Hin.
  assert (Hk : bool_decide (r.1 ∈ keys) = outq_key_of id r.1); [|by rewrite Hk].
  unfold keys. case_bool_decide as Hr'.
  - apply list_elem_of_In, in_rev, in_map_iff in Hr' as (r' & <- & Hr'). apply list_elem_of_In, list_elem_of_filter in Hr' as [? _]. done.
  - destruct (outq_key_of id r.1) eqn:Ek; [|done]. exfalso. apply Hr', list_elem_of_In. rewrite <- in_rev. apply in_map, list_elem_of_In, list_elem_of_filter. done.
Qed.


(** The key of an entry tells its session apart from every other. *)
Lemma outq_key_owner id id' pid key :
  Forall (fun c => c <> 0) id -> Forall (fun c => c <> 0) id' -> wmqb_outq_build_key id' pid = Ok key ->
  outq_key_of id key = bool_decide (id' = id).
Proof using.
  intros Ht Ht'. unfold wmqb_outq_build_key. rewrite XSTRLEN_nonzero by done. destruct (_ <? _); [done|].
  rewrite slice_whole. cbn [mbind result_bind]. intros [= <-]. unfold outq_key_of. revert id Ht. induction Ht' as [|c id' Hc Ht' IH]; intros id Ht.
  - destruct id as [|c id]; [by rewrite !bool_decide_eq_true_2|]. inversion_clear Ht.
    rewrite (bool_decide_eq_false_2 (_ = c :: id)), (bool_decide_eq_false_2 ([] = _)), andb_false_r by first [done | cbn; congruence]. done.
  - destruct id as [|d id].
    + rewrite (bool_decide_eq_false_2 (_ = Some 0)), andb_false_r by (cbn; congruence). done.
    + inversion_clear Ht. specialize (IH id ltac:(done)). cbn [app length take lookup list_lookup]. rewrite !len_cons.
      destruct (decide (c = d)) as [->|Hne].
      * rewrite (bool_decide_ext (d :: id' = d :: id) (id' = id)) by (split; congruence).
        rewrite (bool_decide_ext (d :: take _ _ = d :: id) (take (length id) (id' ++ [0] ++ wmqb_w_u16 pid) = id)) by (split; cbn; congruence).
        rewrite <- IH. do 2 f_equal. apply eq_iff_eq_true. rewrite !Z.leb_le. cbn. lia.
      * rewrite (bool_decide_eq_false_2 (c :: _ = d :: _)) by congruence. rewrite (bool_decide_eq_false_2 (c :: id' = _)) by congruence.
        by rewrite andb_false_r.
Qed.
End Erase.

(** C35: A session that is dropped leaves nothing behind and takes nothing with
    it. On a backend that deletes what it is told to, [BrokerOrphan_DropFull]
    deletes exactly the SESSION and SUBS records and the queue entries of that
    session; an entry that was written for another client, even one whose
    identifier begins with the same characters, is not among them. The session
    and its waiting subscriptions are removed from the tables. *)
Theorem DropFull_erases {KV : Type} `{!Backend KV, !DeletingBackend KV} before o after (br : PBroker KV) :
  pb_mem br = [] -> pb_orphans br = before ++ o :: after -> text_fits (po_client_id o) ->
  (exists br', drop_full before o after br = Ok (tt, br') /\ pb_orphans br' = before ++ after /\
    pb_subs br' = base.filter (fun s => orphan_bound (po_client_id o) s = false) (pb_subs br) /\
    (forall ns, records (pb_kv br') ns = base.filter (fun r => session_record (po_client_id o) ns r.1 = false) (records (pb_kv br) ns))) /\
  (forall id pid key, Forall (fun c => c <> 0) id -> wmqb_outq_build_key id pid = Ok key ->
    session_record (po_client_id o) BROKER_PERSIST_NS_OUTQ key = bool_decide (id = po_client_id o)).
Proof.
  intros Hmem Ho Ht. pose proof (proj1 Ht) as Hnz. split; [|intros; by eapply outq_key_owner].
  assert (Hid : str_key (po_client_id o) = po_client_id o).
  { unfold str_key. destruct (text_len _ Ht) as (_ & -> & _). unfold len. by rewrite Nat2Z.id, firstn_all. }
  assert (He : erases (session_record (po_client_id o))
    (_ ← BrokerPersist_DelSubs (po_client_id o); _ ← BrokerPersist_DelSession (po_client_id o); BrokerPersist_DelOutQueue (po_client_id o))).
  { eapply erases_ext; [|eapply erases_bind; [apply erases_del_commit|intros _; eapply erases_bind; [apply erases_del_commit|intros _; by apply erases_DelOutQueue]]].
    intros ns key. unfold session_record, is_key. rewrite Hid. 
    destruct (Z.eqb_spec ns BROKER_PERSIST_NS_SESSION) as [->|]; [by rewrite orb_false_r|].
    destruct (Z.eqb_spec ns BROKER_PERSIST_NS_SUBS) as [->|]; [by rewrite orb_false_r|]. by destruct (_ =? _). }
  destruct (He br Hmem) as (d & br1 & E & Et & _ & Hr). unfold tables in Et. injection Et as E1 E2 E3 E4 E5 E6 E7 E8.
  unfold drop_full, mbind, P_bind in *. destruct (BrokerPersist_DelSubs _ br) as [[? br2]| |]; [|done..].
  destruct (BrokerPersist_DelSession _ br2) as [[? br3]| |]; [|done..]. rewrite E. unfold pmodify.
  pose proof (subs_drop_spec (orphan_bound (po_client_id o)) (pb_subs br1) (pb_subs_gen br1)) as Hs.
  destruct (subs_drop _ _ _) as [subs gen]. destruct Hs as [-> _]. eexists. split; [done|]. cbn. split_and!; [done|by rewrite E3|exact Hr].
Qed.

(** ** The backend in memory *)

#[export] Instance MemStore_deletes : DeletingBackend MemStore.
Proof.
  split; [|done]. intros kv ns key ns'. unfold records. cbn. unfold MemStore in *.
  induction kv as [|[n [k b]] kv IH]; [by case_bool_decide|].
  rewrite !filter_cons. unfold mem_is in *. cbn [fst snd]. destruct (Z.eqb_spec n ns) as [->|Hne]; cbn [andb].
  - destruct (bool_decide_reflect (map of_byte k = key)) as [Ek|Ek]; [rewrite decide_False by done|rewrite decide_True, filter_cons by done]; cbn [fst];
      destruct (decide (ns = ns')) as [->|Hn].
    + rewrite bool_decide_eq_true_2 in * by done. cbn [map fst snd]. rewrite filter_cons. cbn [fst]. by rewrite decide_False by tauto.
    + exact IH.
    + rewrite bool_decide_eq_true_2 in * by done. cbn [map fst snd]. rewrite filter_cons. cbn [fst]. rewrite decide_True by done. by f_equal.
    + exact IH.
  - rewrite decide_True, filter_cons by done. cbn [fst]. destruct (decide (n = ns')) as [->|Hn]; [|exact IH].
    rewrite bool_decide_eq_false_2 in * by done. cbn [map fst snd]. by f_equal.
Qed.

(** Sessions "a" and "ab", each with one message. *)
Definition two_sessions : MemStore :=
  [mem_record BROKER_PERSIST_NS_SESSION [97] [1]; mem_record BROKER_PERSIST_NS_SESSION [97; 98] [2];
   mem_record BROKER_PERSIST_NS_SUBS [97] [3]; mem_record BROKER_PERSIST_NS_OUTQ [97; 0; 0; 1] [4];
   mem_record BROKER_PERSIST_NS_OUTQ [97; 98; 0; 0; 1] [5]].

Lemma DropFull_erases_witness :
  let o := mkPOrphan [97] 4 60 0 [] 0 0 in
  exists br', drop_full [] o [] (mkPBroker [] two_sessions [o] 1 [] 0 [] 0 1 1) = Ok (tt, br') /\
    records (pb_kv br') BROKER_PERSIST_NS_SESSION = [([97; 98], [2])] /\ records (pb_kv br') BROKER_PERSIST_NS_OUTQ = [([97; 98; 0; 0; 1], [5])].
Proof.
  intros o. destruct (DropFull_erases [] o [] (mkPBroker [] two_sessions [o] 1 [] 0 [] 0 1 1)) as [(br' & E & _ & _ & Hr) _];
    [done|done|split; [by repeat constructor|by vm_compute]|].
  exists br'. split; [exact E|]. rewrite !Hr. split; vm_compute; reflexivity.
Defined.
