(* ===== verification/Slots.v ===== *)
(** * Slots: arrays of slots searched by a key

    The client keeps its outbound packet identifiers, its retained messages and
    its inbound QoS 2 identifiers in arrays whose free entries have the key 0.
    Here is what they share: such an array implements a finite map with as many
    entries as it has slots. *)
From stdpp Require Import gmap.
From S2P Require Import Prelude.

Lemma alter_insert {A} (f : A -> A) (t : list A) i s : t !! i = Some s -> alter f i t = <[i := f s]> t.
Proof.
  intros Hs. rewrite list_insert_alter. apply list_alter_ext; [|done]. intros x Hx. congruence.
Qed.

Section Slots.
Context {A : Type} (key : A -> Z).
Implicit Types (t : list A) (s : A).

(** The first slot with the key [id]; the key 0 asks for a free slot. *)
Definition slot_find t (id : Z) : option nat := fst <$> list_find (fun s => key s = id) t.

Definition in_use t : list A := filter (fun s => key s <> 0) t.

(** No key is held twice. *)
Definition slots_wf t : Prop := NoDup (key <$> in_use t).

Definition slot_map t : gmap Z A := list_to_map ((fun s => (key s, s)) <$> in_use t).

Lemma used_app t1 t2 : in_use (t1 ++ t2) = in_use t1 ++ in_use t2.
Proof. apply list.filter_app. Qed.

Lemma used_cons s t : in_use (s :: t) = in_use [s] ++ in_use t.
Proof. change (s :: t) with ([s] ++ t). apply used_app. Qed.

Lemma used_one s : key s <> 0 -> in_use [s] = [s].
Proof. intros H. unfold in_use. by rewrite filter_cons_True. Qed.

Lemma used_free s : key s = 0 -> in_use [s] = [].
Proof. intros H. unfold in_use. rewrite filter_cons_False; [done|]. by intros ?. Qed.

Lemma used_length t : (length (in_use t) <= length t)%nat.
Proof. apply length_filter. Qed.

Lemma slot_find_Some t id i :
  slot_find t id = Some i ->
  exists s t1 t2, t = t1 ++ s :: t2 /\ i = length t1 /\ t !! i = Some s /\ key s = id /\
    Forall (fun s => key s <> id) t1.
Proof.
  unfold slot_find. destruct (list_find _ t) as [[j s]|] eqn:E; cbn; [|done]. intros [= <-].
  apply list_find_Some in E as (Hl & Hk & Hlt). exists s, (take j t), (drop (S j) t).
  assert (length (take j t) = j) by (rewrite length_take; apply lookup_lt_Some in Hl; lia).
  repeat split; [by rewrite take_drop_middle|done..|].
  apply list.Forall_forall. intros s' [j' Hj']%list_elem_of_lookup.
  apply lookup_take_Some in Hj' as [Hj' ?]. by eapply Hlt.
Qed.

Lemma slot_find_None t id : slot_find t id = None <-> Forall (fun s => key s <> id) t.
Proof.
  unfold slot_find. destruct (list_find _ t) as [[j s]|] eqn:E; cbn.
  - apply list_find_Some in E as (Hl & Hk & _). split; [done|].
    intros H. by apply (Forall_lookup_1 _ _ _ _ H Hl) in Hk.
  - by apply list_find_None in E.
Qed.

Lemma no_free_full t : slot_find t 0 = None -> in_use t = t.
Proof.
  rewrite slot_find_None. induction 1 as [|s t Hs _ IH]; [done|].
  by rewrite used_cons, used_one, IH.
Qed.

(** Replacing a slot. *)
Lemma used_insert t1 s t2 s' :
  in_use (<[length t1 := s']> (t1 ++ s :: t2)) ≡ₚ in_use [s'] ++ in_use (t1 ++ t2).
Proof.
  rewrite list.insert_app_r_alt, Nat.sub_diag by done. cbn [insert list_insert].
  rewrite !used_app, used_cons. solve_Permutation.
Qed.

Lemma used_split t1 s t2 : in_use (t1 ++ s :: t2) ≡ₚ in_use [s] ++ in_use (t1 ++ t2).
Proof. rewrite !used_app, used_cons. solve_Permutation. Qed.

Lemma slots_wf_perm t t' : in_use t ≡ₚ in_use t' -> slots_wf t <-> slots_wf t'.
Proof. intros H. unfold slots_wf. by rewrite H. Qed.

Lemma slot_map_perm t t' : slots_wf t -> in_use t ≡ₚ in_use t' -> slot_map t = slot_map t'.
Proof.
  intros Hw H. unfold slot_map. apply list_to_map_proper; [|by rewrite H].
  rewrite <- list_fmap_compose. exact Hw.
Qed.

Lemma slots_wf_keys t : slots_wf t <-> NoDup (fst <$> ((fun s => (key s, s)) <$> in_use t)).
Proof. unfold slots_wf. by rewrite <- list_fmap_compose. Qed.

Lemma slot_map_size t : slots_wf t -> size (slot_map t) = length (in_use t).
Proof.
  intros Hw. unfold slot_map. rewrite map_size_list_to_map by by apply slots_wf_keys.
  by rewrite length_fmap.
Qed.

Lemma slot_map_bound t : slots_wf t -> (size (slot_map t) <= length t)%nat.
Proof. intros Hw. rewrite slot_map_size by done. apply used_length. Qed.

Lemma slot_map_lookup t id s :
  slots_wf t -> slot_map t !! id = Some s <-> id <> 0 /\ key s = id /\ s ∈ t.
Proof.
  intros Hw. unfold slot_map. rewrite <- elem_of_list_to_map by by apply slots_wf_keys.
  rewrite list_elem_of_fmap. split.
  - intros (s' & [= -> ->] & Hs). apply list_elem_of_filter in Hs as [? ?]. done.
  - intros (Hid & <- & Hs). exists s. split; [done|]. apply list_elem_of_filter. done.
Qed.

Lemma slot_find_lookup t id i s :
  slots_wf t -> id <> 0 -> slot_find t id = Some i -> t !! i = Some s -> slot_map t !! id = Some s.
Proof.
  intros Hw Hid (s' & t1 & t2 & _ & _ & Hl & Hk & _)%slot_find_Some Hs.
  rewrite Hl in Hs. injection Hs as <-. apply slot_map_lookup; [done|].
  split; [done|]. split; [done|]. by eapply list_elem_of_lookup_2.
Qed.

Lemma slot_find_absent t id : slots_wf t -> slot_find t id = None -> slot_map t !! id = None.
Proof.
  intros Hw H%slot_find_None. destruct (slot_map t !! id) as [s|] eqn:E; [|done].
  apply slot_map_lookup in E as (_ & Hk & Hs); [|done].
  rewrite list.Forall_forall in H. by apply H in Hs.
Qed.

Lemma slot_find_present t id s :
  slots_wf t -> slot_map t !! id = Some s -> exists i, slot_find t id = Some i /\ t !! i = Some s.
Proof.
  intros Hw Hs. assert (Hid : id <> 0) by by apply slot_map_lookup in Hs as (? & _).
  destruct (slot_find t id) as [i|] eqn:E; [|by rewrite slot_find_absent in Hs].
  exists i. split; [done|]. pose proof E as (s' & t1 & t2 & _ & _ & Hl & _)%slot_find_Some.
  pose proof (slot_find_lookup _ _ _ _ Hw Hid E Hl). congruence.
Qed.

(** A table without a free slot holds as many keys as it has slots. *)
Lemma slot_full t : slots_wf t -> slot_find t 0 = None <-> (size (slot_map t) = length t)%nat.
Proof.
  intros Hw. split.
  - intros H. rewrite slot_map_size, no_free_full; done.
  - rewrite slot_map_size by done. intros H. destruct (slot_find t 0) as [i|] eqn:E; [|done]. exfalso.
    apply slot_find_Some in E as (s & t1 & t2 & -> & _ & _ & Hk & _).
    rewrite used_split, (used_free s Hk), length_app in H. cbn in H.
    pose proof (used_length (t1 ++ t2)). rewrite !length_app in *. cbn in *. lia.
Qed.

Lemma slot_room t : slots_wf t -> (size (slot_map t) < length t)%nat <-> is_Some (slot_find t 0).
Proof.
  intros Hw. pose proof (slot_map_bound t Hw). pose proof (slot_full t Hw) as Hf.
  destruct (slot_find t 0); [|rewrite (proj1 Hf) by done]; (split; [try done; lia|]).
  - intros _. destruct (decide (size (slot_map t) = length t)) as [E|E]; [by apply Hf in E|lia].
  - by intros [? ?].
Qed.

(** A free slot is taken. *)
Lemma slot_put t i s' :
  slots_wf t -> slot_find t 0 = Some i -> key s' <> 0 -> slot_map t !! key s' = None ->
  slots_wf (<[i := s']> t) /\ slot_map (<[i := s']> t) = <[key s' := s']> (slot_map t).
Proof.
  intros Hw Hf Hk Hn. pose proof Hf as (s & t1 & t2 & Ht & -> & _ & H0 & _)%slot_find_Some.
  assert (Hp : in_use (<[length t1 := s']> t) ≡ₚ s' :: in_use t).
  { rewrite Ht, used_insert, (used_one s' Hk), used_split, (used_free s H0). done. }
  assert (Hn' : key s' ∉ (key <$> in_use t)).
  { intros (s'' & Hk'' & [_ Hin]%list_elem_of_filter)%list_elem_of_fmap.
    assert (slot_map t !! key s' = Some s'') by (apply slot_map_lookup; [done|]; by rewrite <- Hk'').
    congruence. }
  assert (Hw' : slots_wf (<[length t1 := s']> t)).
  { unfold slots_wf. rewrite Hp, fmap_cons. by apply list.NoDup_cons. }
  split; [done|]. unfold slot_map.
  rewrite (list_to_map_proper ((fun s => (key s, s)) <$> in_use (<[length t1 := s']> t))
             ((fun s => (key s, s)) <$> (s' :: in_use t))); [done|by apply slots_wf_keys|by rewrite Hp].
Qed.

(** The slot of a key is written or given back. *)
Lemma slot_split t id i :
  slots_wf t -> slot_find t id = Some i -> id <> 0 ->
  exists s t1 t2, t = t1 ++ s :: t2 /\ i = length t1 /\ t !! i = Some s /\ key s = id /\
    (id ∉ (key <$> in_use (t1 ++ t2))) /\ slots_wf (t1 ++ t2) /\
    slot_map t = <[id := s]> (slot_map (t1 ++ t2)) /\ slot_map (t1 ++ t2) !! id = None.
Proof.
  intros Hw (s & t1 & t2 & -> & -> & Hl & Hk & _)%slot_find_Some Hid. exists s, t1, t2.
  assert (Hp : in_use (t1 ++ s :: t2) ≡ₚ s :: in_use (t1 ++ t2)).
  { rewrite used_split, used_one; [done|congruence]. }
  unfold slots_wf in Hw. rewrite Hp, fmap_cons, Hk in Hw. apply list.NoDup_cons in Hw as [Hn Hw].
  assert (Hm : slot_map (t1 ++ t2) !! id = None).
  { destruct (slot_map (t1 ++ t2) !! id) as [s'|] eqn:E; [|done].
    apply slot_map_lookup in E as (_ & Hk' & Hin); [|exact Hw]. destruct Hn.
    apply list_elem_of_fmap. exists s'. split; [done|]. apply list_elem_of_filter. split; [congruence|done]. }
  split_and!; [done|done|done|done|done|done| |done]. unfold slot_map at 1.
  rewrite (list_to_map_proper ((fun s => (key s, s)) <$> in_use (t1 ++ s :: t2))
             ((fun s => (key s, s)) <$> (s :: in_use (t1 ++ t2)))); [cbn; by rewrite Hk| |by rewrite Hp].
  apply slots_wf_keys. unfold slots_wf. rewrite Hp, fmap_cons, Hk. by apply list.NoDup_cons.
Qed.

Lemma slot_write t id i s' :
  slots_wf t -> slot_find t id = Some i -> id <> 0 -> key s' = id ->
  slots_wf (<[i := s']> t) /\ slot_map (<[i := s']> t) = <[id := s']> (slot_map t).
Proof.
  intros Hw Hf Hid Hk.
  destruct (slot_split _ _ _ Hw Hf Hid) as (s & t1 & t2 & -> & -> & _ & _ & Hn & Hw' & Hm & Hm0).
  assert (Hp : in_use (<[length t1 := s']> (t1 ++ s :: t2)) ≡ₚ s' :: in_use (t1 ++ t2)).
  { rewrite used_insert, used_one; [done|congruence]. }
  assert (Hw'' : slots_wf (<[length t1 := s']> (t1 ++ s :: t2))).
  { unfold slots_wf. rewrite Hp, fmap_cons, Hk. by apply list.NoDup_cons. }
  split; [done|]. rewrite Hm, insert_insert_eq. unfold slot_map at 1.
  rewrite (list_to_map_proper _ ((fun s => (key s, s)) <$> (s' :: in_use (t1 ++ t2)))); [cbn; by rewrite Hk| |by rewrite Hp].
  by apply slots_wf_keys.
Qed.

Lemma slot_clear t id i s' :
  slots_wf t -> slot_find t id = Some i -> id <> 0 -> key s' = 0 ->
  slots_wf (<[i := s']> t) /\ slot_map (<[i := s']> t) = delete id (slot_map t).
Proof.
  intros Hw Hf Hid Hk.
  destruct (slot_split _ _ _ Hw Hf Hid) as (s & t1 & t2 & -> & -> & _ & _ & Hn & Hw' & Hm & Hm0).
  assert (Hp : in_use (<[length t1 := s']> (t1 ++ s :: t2)) ≡ₚ in_use (t1 ++ t2)).
  { by rewrite used_insert, used_free. }
  rewrite Hm, delete_insert_id by done. split; [by apply (slots_wf_perm _ _ Hp)|].
  apply slot_map_perm; [by apply (slots_wf_perm _ _ Hp)|done].
Qed.

(** All slots given back. *)
Lemma slot_none t : Forall (fun s => key s = 0) t -> slots_wf t /\ slot_map t = ∅.
Proof.
  intros H. assert (Hu : in_use t = []).
  { induction H as [|s t Hs _ IH]; [done|]. by rewrite used_cons, used_free, IH. }
  unfold slots_wf, slot_map. rewrite Hu. split; [constructor|done].
Qed.
(** Every slot is given back or rewritten in place. *)
Lemma used_map (f : A -> A) t :
  (forall s, key (f s) = key s \/ key (f s) = 0) -> (key <$> in_use (map f t)) `sublist_of` (key <$> in_use t).
Proof.
  intros Hf. induction t as [|s t IH]; [done|]. cbn [map].
  rewrite used_cons, (used_cons s), !fmap_app. destruct (decide (key (f s) = 0)) as [E|E].
  - rewrite (used_free _ E). by apply sublist_inserts_l.
  - destruct (Hf s) as [Hk|Hk]; [|done]. rewrite !used_one by congruence. cbn. rewrite Hk.
    by apply sublist_skip.
Qed.

Lemma slot_map_map (f : A -> A) t :
  (forall s, key (f s) = key s \/ key (f s) = 0) -> slots_wf t ->
  slots_wf (map f t) /\
  slot_map (map f t) = omap (fun s => if decide (key (f s) = 0) then None else Some (f s)) (slot_map t).
Proof.
  intros Hf Hw.
  assert (Hw' : slots_wf (map f t)) by (eapply sublist_NoDup; [exact Hw|by apply used_map]).
  split; [done|]. apply map_eq. intros id. rewrite lookup_omap. apply option_eq. intros s'.
  rewrite slot_map_lookup by done. rewrite bind_Some. split.
  - intros (Hid & Hk & (s & -> & Hs)%list_elem_of_fmap). exists s.
    destruct (Hf s) as [E|E]; [|congruence]. rewrite slot_map_lookup by done.
    rewrite decide_False by congruence. rewrite <- E. done.
  - intros (s & (Hid & Hk & Hs)%slot_map_lookup & E); [|done]. destruct (decide _) as [|Hn]; [done|].
    injection E as <-. destruct (Hf s) as [E|E]; [|done]. split_and!; [done|congruence|].
    by apply list_elem_of_fmap_2.
Qed.
End Slots.
