(* ===== verification/ClientTables.v ===== *)
(** * ClientTables: what the client remembers of its exchanges ([mqtt_client.c])

    The outbound packet identifiers that await an acknowledgement,
    [MqttClient_SendId*]; the retained messages, [MqttClient_Replay_*]; the
    inbound QoS 2 identifiers, [MqttClient_RecvQos2_*]; the units of the
    server's Receive Maximum, [MqttClient_RecvQuota*]; and the ClientId that
    owns all that. The first two together implement a pair of finite maps. *)
From stdpp Require Import gmap.
From S2P Require Import Prelude PacketDefs Wire Slots.

(** ** The tables ([mqtt_client.h]) *)

Abbreviation MQTT_MAX_RECV_QOS2 := 16%nat.
Abbreviation MQTT_MAX_SEND_INFLIGHT := 16%nat.
Abbreviation MQTT_MAX_REPLAY_MSGS := 4%nat.
Abbreviation MQTT_MAX_SESSION_CLIENT_ID := (64)%Z.

(** The address of a message object: NULL, an object of the application, or an
    entry of the client's own [replay]. *)
Inductive MqttOwner : Set := OWNER_NULL | OWNER_MSG (addr : Z) | OWNER_REPLAY (i : nat).

#[export] Instance MqttOwner_eq_dec : EqDecision MqttOwner.
Proof. solve_decision. Defined.

Record MqttSendId : Set := mkSendId { si_packet_id : Z; si_owner : MqttOwner; si_ack_type : Z }.

Record MqttReplayMsg : Set := mkReplay {
  rp_packet_id : Z;
  rp_payload_len : Z;
  rp_topic : option (list Z);
  rp_payload : option (list Z);
  rp_qos : Z;
  rp_retain : Z;
  rp_pubrelSent : Z;
  rp_haveCopy : Z
}.

#[export] Instance MqttSendId_eq_dec : EqDecision MqttSendId.
Proof. solve_decision. Defined.
#[export] Instance MqttReplayMsg_eq_dec : EqDecision MqttReplayMsg.
Proof. solve_decision. Defined.

(** What the server has asked for. *)
Record MqttServerLimits : Set := mkLimits {
  packet_sz_max : Z;
  max_qos : Z;
  retain_avail : Z;
  keep_alive_sec : Z;
  keep_alive_from_server : Z;
  server_recv_max : Z;
  server_recv_max_negotiated : Z;
  topic_alias_max : Z
}.

(** The fields of [struct _MqttClient] that outlive a packet. *)
Record MqttClient : Set := mkClient {
  cl_flags : Z;
  cl_protocol_level : Z;
  cl_limits : MqttServerLimits;
  cl_recv_qos2_pending : list Z;
  cl_session_client_id : list Z;
  cl_session_client_id_len : Z;
  cl_send_inflight : list MqttSendId;
  cl_replay : list MqttReplayMsg;
  cl_replayIdx : Z
}.

Definition with_limits (l : MqttServerLimits) (cl : MqttClient) : MqttClient :=
  mkClient (cl_flags cl) (cl_protocol_level cl) l (cl_recv_qos2_pending cl) (cl_session_client_id cl)
    (cl_session_client_id_len cl) (cl_send_inflight cl) (cl_replay cl) (cl_replayIdx cl).
Definition with_recv_qos2 (pending : list Z) (cl : MqttClient) : MqttClient :=
  mkClient (cl_flags cl) (cl_protocol_level cl) (cl_limits cl) pending (cl_session_client_id cl)
    (cl_session_client_id_len cl) (cl_send_inflight cl) (cl_replay cl) (cl_replayIdx cl).
Definition with_session (id : list Z) (n : Z) (cl : MqttClient) : MqttClient :=
  mkClient (cl_flags cl) (cl_protocol_level cl) (cl_limits cl) (cl_recv_qos2_pending cl) id n
    (cl_send_inflight cl) (cl_replay cl) (cl_replayIdx cl).
Definition with_send (t : list MqttSendId) (cl : MqttClient) : MqttClient :=
  mkClient (cl_flags cl) (cl_protocol_level cl) (cl_limits cl) (cl_recv_qos2_pending cl)
    (cl_session_client_id cl) (cl_session_client_id_len cl) t (cl_replay cl) (cl_replayIdx cl).
Definition with_replay (r : list MqttReplayMsg) (i : Z) (cl : MqttClient) : MqttClient :=
  mkClient (cl_flags cl) (cl_protocol_level cl) (cl_limits cl) (cl_recv_qos2_pending cl)
    (cl_session_client_id cl) (cl_session_client_id_len cl) (cl_send_inflight cl) r i.

(** [XMEMSET(.., 0, ..)]. *)
Definition zero_send : MqttSendId := mkSendId 0 OWNER_NULL MQTT_PACKET_TYPE_RESERVED.
Definition zero_replay : MqttReplayMsg := mkReplay 0 0 None None 0 0 0 0.

(** ** The Receive Maximum *)

(** Whether a unit is held for the publish, the units left, [recvQuotaHeld]. *)
Definition MqttClient_RecvQuotaReserve (recv_max held : Z) : bool * Z * Z :=
  if negb (held =? 0) then (true, recv_max, held)
  else if 0 <? recv_max then (true, recv_max - 1, 1)
  else (false, recv_max, held).

Definition MqttClient_RecvQuotaRelease (recv_max negotiated held : Z) : Z * Z :=
  if negb (held =? 0) then (if recv_max <? negotiated then recv_max + 1 else recv_max, 0)
  else (recv_max, held).

(** ** The Session's ClientId *)

Definition MqttClient_SessionIdMatches (cl : MqttClient) (client_id : option (list Z)) : result bool :=
  match client_id with
  | Some client_id =>
    if cl_session_client_id_len cl =? 0 then Ok false
    else if negb (XSTRLEN client_id =? cl_session_client_id_len cl) then Ok false
    else
      a ← slice (cl_session_client_id cl) 0 (XSTRLEN client_id);
      b ← slice client_id 0 (XSTRLEN client_id);
      Ok (bool_decide (a = b))
  | None => Ok false
  end.

Definition MqttClient_SessionIdRecord (cl : MqttClient) (client_id : option (list Z)) : result MqttClient :=
  match client_id with
  | Some client_id =>
    let n := XSTRLEN client_id in
    if (n =? 0) || (MQTT_MAX_SESSION_CLIENT_ID <? n) then Ok (with_session (cl_session_client_id cl) 0 cl)
    else
      bs ← slice client_id 0 n;
      if len (cl_session_client_id cl) <? n then UB
      else Ok (with_session (bs ++ drop (Z.to_nat n) (cl_session_client_id cl)) (u16 n) cl)
  | None => Ok (with_session (cl_session_client_id cl) 0 cl)
  end.

(** ** Inbound QoS 2 identifiers *)

Definition MqttClient_RecvQos2_Contains (pending : list Z) (packet_id : Z) : bool :=
  if packet_id =? 0 then false else bool_decide (is_Some (slot_find id pending packet_id)).

Definition MqttClient_RecvQos2_HasFreeSlot (pending : list Z) : bool :=
  bool_decide (is_Some (slot_find id pending 0)).

Definition MqttClient_RecvQos2_Add (pending : list Z) (packet_id : Z) : list Z :=
  if (packet_id =? 0) || MqttClient_RecvQos2_Contains pending packet_id then pending
  else match slot_find id pending 0 with Some i => <[i := packet_id]> pending | None => pending end.

Definition MqttClient_RecvQos2_Remove (pending : list Z) (packet_id : Z) : list Z :=
  if packet_id =? 0 then pending
  else match slot_find id pending packet_id with Some i => <[i := 0]> pending | None => pending end.

(** ** Retained messages *)

Abbreviation MqttClient_Replay_Find := (slot_find rp_packet_id).

(** The copy of topic and payload; [ok_topic] and [ok_payload] are the outcomes
    of the two allocations. *)
Definition replay_copy (publish : MqttMessage) (topic : list Z) (ok_topic ok_payload : bool) : result MqttReplayMsg :=
  let slot := mkReplay (msg_packet_id publish) 0 None None (u8 (msg_qos publish)) (msg_retain publish) 0 0 in
  let short := match msg_buffer publish with
               | Some _ => msg_buffer_len publish <? msg_total_len publish
               | None => true
               end in
  if (0 <? msg_total_len publish) && short then Ok slot
  else if bool_decide (msg_props publish <> []) then Ok slot
  else if negb ok_topic then Ok slot
  else
    let name := cstr topic in
    if 0 <? msg_total_len publish then
      if negb ok_payload then Ok slot
      else
        bs ← match msg_buffer publish with Some b => slice b 0 (msg_total_len publish) | None => UB end;
        Ok (mkReplay (msg_packet_id publish) (msg_total_len publish) (Some name) (Some bs)
              (u8 (msg_qos publish)) (msg_retain publish) 0 1)
    else
      Ok (mkReplay (msg_packet_id publish) (msg_total_len publish) (Some name) None
            (u8 (msg_qos publish)) (msg_retain publish) 0 1).

Definition MqttClient_Replay_Add (pool : list MqttReplayMsg) (publish : MqttMessage) (ok_topic ok_payload : bool)
    : result (list MqttReplayMsg) :=
  match msg_topic_name publish with
  | Some topic =>
    if msg_packet_id publish =? 0 then Ok pool
    else
      match (match MqttClient_Replay_Find pool (msg_packet_id publish) with
             | Some i => Some i
             | None => MqttClient_Replay_Find pool 0
             end) with
      | Some i => slot ← replay_copy publish topic ok_topic ok_payload; Ok (<[i := slot]> pool)
      | None => Ok pool
      end
  | None => Ok pool
  end.

Definition set_pubrelSent (slot : MqttReplayMsg) : MqttReplayMsg :=
  mkReplay (rp_packet_id slot) (rp_payload_len slot) (rp_topic slot) (rp_payload slot) (rp_qos slot)
    (rp_retain slot) 1 (rp_haveCopy slot).

Definition MqttClient_Replay_PubRelSent (pool : list MqttReplayMsg) (packet_id : Z) : list MqttReplayMsg :=
  if packet_id =? 0 then pool
  else
    match MqttClient_Replay_Find pool packet_id with
    | Some i => alter set_pubrelSent i pool
    | None =>
      match MqttClient_Replay_Find pool 0 with
      | Some i => <[i := set_pubrelSent (mkReplay packet_id 0 None None MQTT_QOS_2 0 0 0)]> pool
      | None => pool
      end
    end.

Definition MqttClient_Replay_Remove (pool : list MqttReplayMsg) (packet_id : Z) : list MqttReplayMsg :=
  if packet_id =? 0 then pool
  else
    match MqttClient_Replay_Find pool packet_id with
    | Some i => <[i := zero_replay]> pool
    | None => pool
    end.

(** With [replayIdx]: no replay is pending. *)
Definition MqttClient_Replay_Reset (cl : MqttClient) : MqttClient :=
  with_replay (replicate (length (cl_replay cl)) zero_replay) (Z.of_nat MQTT_MAX_REPLAY_MSGS) cl.

(** ** Outbound packet identifiers *)

Abbreviation MqttClient_SendIds_Find := (slot_find si_packet_id).

Definition MqttClient_SendIdReserve (t : list MqttSendId) (packet_id : Z) (owner : MqttOwner)
    (isRetransmit ack_type : Z) : Z * list MqttSendId :=
  if packet_id =? 0 then (MQTT_CODE_SUCCESS, t)
  else
    match MqttClient_SendIds_Find t packet_id with
    | Some i =>
      if isRetransmit =? 0 then (MQTT_CODE_ERROR_PACKET_ID, t)
      else (MQTT_CODE_SUCCESS, alter (fun s => mkSendId (si_packet_id s) owner (u8 ack_type)) i t)
    | None =>
      match MqttClient_SendIds_Find t 0 with
      | Some i => (MQTT_CODE_SUCCESS, <[i := mkSendId packet_id owner (u8 ack_type)]> t)
      | None => (MQTT_CODE_SUCCESS, t)
      end
    end.

(** The tests under which a wrong acknowledgement leaves the exchange alone. *)
Definition wrong_ack (held ack_type : Z) : bool :=
  negb (ack_type =? MQTT_PACKET_TYPE_RESERVED) && negb (held =? MQTT_PACKET_TYPE_RESERVED) &&
  negb (held =? u8 ack_type).

(** The retained message goes with the identifier. *)
Definition MqttClient_SendIdRelease (t : list MqttSendId) (pool : list MqttReplayMsg) (packet_id ack_type : Z)
    : list MqttSendId * list MqttReplayMsg :=
  if packet_id =? 0 then (t, pool)
  else
    match MqttClient_SendIds_Find t packet_id with
    | Some i =>
      if match t !! i with Some s => wrong_ack (si_ack_type s) ack_type | None => false end then (t, pool)
      else (<[i := zero_send]> t, MqttClient_Replay_Remove pool packet_id)
    | None => (t, pool)
    end.

Definition owned_by (owner : MqttOwner) (s : MqttSendId) : bool :=
  negb (si_packet_id s =? 0) && bool_decide (si_owner s = owner).

Definition MqttClient_SendIdReleaseOwner (t : list MqttSendId) (owner : MqttOwner) : list MqttSendId :=
  if bool_decide (owner = OWNER_NULL) then t
  else map (fun s => if owned_by owner s then zero_send else s) t.

Definition MqttClient_SendIdDisown (t : list MqttSendId) (owner : MqttOwner) : list MqttSendId :=
  if bool_decide (owner = OWNER_NULL) then t
  else map (fun s => if owned_by owner s then mkSendId (si_packet_id s) OWNER_NULL (si_ack_type s) else s) t.

Definition MqttClient_SendIdsReset (t : list MqttSendId) : list MqttSendId := map (fun _ => zero_send) t.

(** ** The two tables as finite maps *)

(** An exchange under way: who started it and the packet that will end it. *)
Abbreviation exchange := (MqttOwner * Z)%type.

Definition exchange_of (s : MqttSendId) : exchange := (si_owner s, si_ack_type s).

Record TableSpec : Type := mkTableSpec {
  inflight : gmap Z exchange;
  retained : gmap Z MqttReplayMsg
}.

Abbreviation Tables := (list MqttSendId * list MqttReplayMsg)%type.

Definition tables_wf (T : Tables) : Prop :=
  length T.1 = MQTT_MAX_SEND_INFLIGHT /\ length T.2 = MQTT_MAX_REPLAY_MSGS /\
  slots_wf si_packet_id T.1 /\ slots_wf rp_packet_id T.2.

Definition table_spec (T : Tables) : TableSpec :=
  mkTableSpec (exchange_of <$> slot_map si_packet_id T.1) (slot_map rp_packet_id T.2).

Inductive TableOp : Type :=
  | SendIdReserve (packet_id : Z) (owner : MqttOwner) (isRetransmit ack_type : Z)
  | SendIdRelease (packet_id ack_type : Z)
  | SendIdReleaseOwner (owner : MqttOwner)
  | SendIdDisown (owner : MqttOwner)
  | SendIdsReset
  | Replay_Add (publish : MqttMessage) (ok_topic ok_payload : bool)
  | Replay_PubRelSent (packet_id : Z)
  | Replay_Remove (packet_id : Z).

Definition table_step (T : Tables) (op : TableOp) : result (Z * Tables) :=
  let '(t, pool) := T in
  match op with
  | SendIdReserve packet_id owner isRetransmit ack_type =>
    let '(rc, t) := MqttClient_SendIdReserve t packet_id owner isRetransmit ack_type in Ok (rc, (t, pool))
  | SendIdRelease packet_id ack_type => Ok (0, MqttClient_SendIdRelease t pool packet_id ack_type)
  | SendIdReleaseOwner owner => Ok (0, (MqttClient_SendIdReleaseOwner t owner, pool))
  | SendIdDisown owner => Ok (0, (MqttClient_SendIdDisown t owner, pool))
  | SendIdsReset => Ok (0, (MqttClient_SendIdsReset t, pool))
  | Replay_Add publish ok_topic ok_payload =>
    pool ← MqttClient_Replay_Add pool publish ok_topic ok_payload; Ok (0, (t, pool))
  | Replay_PubRelSent packet_id => Ok (0, (t, MqttClient_Replay_PubRelSent pool packet_id))
  | Replay_Remove packet_id => Ok (0, (t, MqttClient_Replay_Remove pool packet_id))
  end.

(** What each operation promises. An identifier that awaits its acknowledgement
    is refused to a new packet; only its own acknowledgement, or none in
    particular, ends an exchange; beyond the capacities nothing is recorded. *)
Definition spec_reserve (S : gmap Z exchange) (packet_id : Z) (owner : MqttOwner) (isRetransmit ack_type : Z)
    : Z * gmap Z exchange :=
  if packet_id =? 0 then (MQTT_CODE_SUCCESS, S)
  else
    match S !! packet_id with
    | Some _ =>
      if isRetransmit =? 0 then (MQTT_CODE_ERROR_PACKET_ID, S)
      else (MQTT_CODE_SUCCESS, <[packet_id := (owner, u8 ack_type)]> S)
    | None =>
      (MQTT_CODE_SUCCESS,
       if bool_decide (size S < MQTT_MAX_SEND_INFLIGHT)%nat then <[packet_id := (owner, u8 ack_type)]> S else S)
    end.

Definition spec_release (A : TableSpec) (packet_id ack_type : Z) : TableSpec :=
  match inflight A !! packet_id with
  | Some (_, held) =>
    if wrong_ack held ack_type then A
    else mkTableSpec (delete packet_id (inflight A)) (delete packet_id (retained A))
  | None => A
  end.

(** There is room for a message: its identifier has a slot or one is free. *)
Definition has_room (R : gmap Z MqttReplayMsg) (packet_id : Z) : bool :=
  negb (packet_id =? 0) &&
  (bool_decide (is_Some (R !! packet_id)) || bool_decide (size R < MQTT_MAX_REPLAY_MSGS)%nat).

Definition spec_pubrel (R : gmap Z MqttReplayMsg) (packet_id : Z) : gmap Z MqttReplayMsg :=
  if has_room R packet_id
  then <[packet_id := set_pubrelSent (default (mkReplay packet_id 0 None None MQTT_QOS_2 0 0 0) (R !! packet_id))]> R
  else R.

Definition spec_step (A : TableSpec) (op : TableOp) : result (Z * TableSpec) :=
  let '(mkTableSpec X R) := A in
  match op with
  | SendIdReserve packet_id owner isRetransmit ack_type =>
    let '(rc, X) := spec_reserve X packet_id owner isRetransmit ack_type in Ok (rc, mkTableSpec X R)
  | SendIdRelease packet_id ack_type => Ok (0, spec_release A packet_id ack_type)
  | SendIdReleaseOwner owner =>
    Ok (0, mkTableSpec (if bool_decide (owner = OWNER_NULL) then X
                        else omap (fun e : exchange => if bool_decide (e.1 = owner) then None else Some e) X) R)
  | SendIdDisown owner =>
    Ok (0, mkTableSpec ((fun e : exchange => if bool_decide (e.1 = owner) then (OWNER_NULL, e.2) else e) <$> X) R)
  | SendIdsReset => Ok (0, mkTableSpec ∅ R)
  | Replay_Add publish ok_topic ok_payload =>
    match msg_topic_name publish with
    | Some topic =>
      if has_room R (msg_packet_id publish) then
        slot ← replay_copy publish topic ok_topic ok_payload;
        Ok (0, mkTableSpec X (<[msg_packet_id publish := slot]> R))
      else Ok (0, A)
    | None => Ok (0, A)
    end
  | Replay_PubRelSent packet_id => Ok (0, mkTableSpec X (spec_pubrel R packet_id))
  | Replay_Remove packet_id => Ok (0, mkTableSpec X (delete packet_id R))
  end.

Fixpoint table_run (T : Tables) (ops : list TableOp) : result (list Z * Tables) :=
  match ops with
  | [] => Ok ([], T)
  | op :: ops => '(rc, T) ← table_step T op; '(rcs, T) ← table_run T ops; Ok (rc :: rcs, T)
  end.

Fixpoint spec_run (A : TableSpec) (ops : list TableOp) : result (list Z * TableSpec) :=
  match ops with
  | [] => Ok ([], A)
  | op :: ops => '(rc, A) ← spec_step A op; '(rcs, A) ← spec_run A ops; Ok (rc :: rcs, A)
  end.

(** ** Refinement *)

Lemma no_zero {A} (key : A -> Z) t : slots_wf key t -> slot_map key t !! 0 = None.
Proof.
  intros Hw. destruct (slot_map key t !! 0) as [s|] eqn:E; [|done].
  by apply slot_map_lookup in E as [? _].
Qed.

Lemma inflight_lookup t id i s :
  slots_wf si_packet_id t -> id <> 0 -> MqttClient_SendIds_Find t id = Some i -> t !! i = Some s ->
  (exchange_of <$> slot_map si_packet_id t) !! id = Some (exchange_of s).
Proof. intros. rewrite lookup_fmap. by erewrite slot_find_lookup. Qed.

Lemma inflight_absent t id :
  slots_wf si_packet_id t -> MqttClient_SendIds_Find t id = None ->
  (exchange_of <$> slot_map si_packet_id t) !! id = None.
Proof. intros. rewrite lookup_fmap. by rewrite slot_find_absent. Qed.

Lemma inflight_bound T :
  tables_wf T -> (size (inflight (table_spec T)) <= MQTT_MAX_SEND_INFLIGHT)%nat /\
                 (size (retained (table_spec T)) <= MQTT_MAX_REPLAY_MSGS)%nat.
Proof.
  destruct T as [t pool]. intros (<- & <- & Ht & Hp). cbn [table_spec inflight retained fst snd] in *.
  rewrite map_size_fmap. split; by apply slot_map_bound.
Qed.

Lemma SendIdReserve_spec t packet_id owner isRetransmit ack_type :
  length t = MQTT_MAX_SEND_INFLIGHT -> slots_wf si_packet_id t ->
  let '(rc, t') := MqttClient_SendIdReserve t packet_id owner isRetransmit ack_type in
  length t' = MQTT_MAX_SEND_INFLIGHT /\ slots_wf si_packet_id t' /\
  spec_reserve (exchange_of <$> slot_map si_packet_id t) packet_id owner isRetransmit ack_type =
    (rc, exchange_of <$> slot_map si_packet_id t').
Proof.
  intros Hl Hw. unfold MqttClient_SendIdReserve, spec_reserve.
  destruct (Z.eqb_spec packet_id 0) as [->|Hid]; [done|].
  destruct (MqttClient_SendIds_Find t packet_id) as [i|] eqn:E.
  - pose proof E as (s & _ & _ & _ & _ & Hs & Hk & _)%slot_find_Some.
    rewrite (inflight_lookup _ _ _ _ Hw Hid E Hs).
    destruct (isRetransmit =? 0); [done|]. rewrite (alter_insert _ _ _ _ Hs), length_insert.
    destruct (slot_write si_packet_id t packet_id i (mkSendId (si_packet_id s) owner (u8 ack_type))) as [Hw' ->]; [done..|].
    rewrite fmap_insert. done.
  - rewrite (inflight_absent _ _ Hw E), map_size_fmap, <- Hl.
    destruct (MqttClient_SendIds_Find t 0) as [i|] eqn:E0.
    + rewrite bool_decide_eq_true_2 by by apply slot_room. rewrite length_insert.
      destruct (slot_put si_packet_id t i (mkSendId packet_id owner (u8 ack_type))) as [Hw' ->]; try done.
      { by apply slot_find_absent. }
      by rewrite fmap_insert.
    + rewrite bool_decide_eq_false_2; [done|]. rewrite slot_room by done. rewrite E0. by intros [? ?].
Qed.

Lemma Replay_Remove_spec pool packet_id :
  slots_wf rp_packet_id pool ->
  let pool' := MqttClient_Replay_Remove pool packet_id in
  length pool' = length pool /\ slots_wf rp_packet_id pool' /\
  slot_map rp_packet_id pool' = delete packet_id (slot_map rp_packet_id pool).
Proof.
  intros Hw. unfold MqttClient_Replay_Remove. destruct (Z.eqb_spec packet_id 0) as [->|Hid].
  { by rewrite delete_id by by apply no_zero. }
  destruct (MqttClient_Replay_Find pool packet_id) as [i|] eqn:E.
  - rewrite length_insert. by destruct (slot_clear rp_packet_id pool packet_id i zero_replay) as [? ->].
  - by rewrite delete_id by by apply slot_find_absent.
Qed.

Lemma SendIdRelease_spec t pool packet_id ack_type :
  tables_wf (t, pool) ->
  let T := MqttClient_SendIdRelease t pool packet_id ack_type in
  tables_wf T /\ table_spec T = spec_release (table_spec (t, pool)) packet_id ack_type.
Proof.
  intros (Hl & Hlp & Hw & Hwp). unfold MqttClient_SendIdRelease, spec_release, table_spec.
  cbn [fst snd inflight retained] in *. destruct (Z.eqb_spec packet_id 0) as [->|Hid].
  { rewrite lookup_fmap, no_zero by done. done. }
  destruct (MqttClient_SendIds_Find t packet_id) as [i|] eqn:E; [|by rewrite inflight_absent].
  pose proof E as (s & _ & _ & _ & _ & Hs & Hk & _)%slot_find_Some.
  rewrite (inflight_lookup _ _ _ _ Hw Hid E Hs), Hs. cbn [exchange_of].
  destruct (wrong_ack _ _); [done|]. cbn [fst snd].
  destruct (slot_clear si_packet_id t packet_id i zero_send) as [Hw' ->]; [done..|].
  destruct (Replay_Remove_spec pool packet_id Hwp) as (Hl' & Hwp' & ->).
  rewrite fmap_delete. split; [|done]. unfold tables_wf. cbn [fst snd]. split_and!; [by rewrite length_insert|by rewrite Hl'|done..].
Qed.

Lemma owned_by_spec owner s :
  owner <> OWNER_NULL -> si_packet_id s <> 0 -> owned_by owner s = bool_decide (si_owner s = owner).
Proof. intros _ Hs. unfold owned_by. by rewrite (proj2 (Z.eqb_neq _ _) Hs). Qed.

Lemma lookup_used {A} (key : A -> Z) t id s : slots_wf key t -> slot_map key t !! id = Some s -> key s <> 0.
Proof. intros Hw (Hid & <- & _)%slot_map_lookup; done. Qed.

Lemma SendIdReleaseOwner_spec t owner :
  slots_wf si_packet_id t ->
  let t' := MqttClient_SendIdReleaseOwner t owner in
  length t' = length t /\ slots_wf si_packet_id t' /\
  exchange_of <$> slot_map si_packet_id t' =
    if bool_decide (owner = OWNER_NULL) then exchange_of <$> slot_map si_packet_id t
    else omap (fun e : exchange => if bool_decide (e.1 = owner) then None else Some e)
           (exchange_of <$> slot_map si_packet_id t).
Proof.
  intros Hw. unfold MqttClient_SendIdReleaseOwner. case_bool_decide as Ho; [done|].
  destruct (slot_map_map si_packet_id (fun s => if owned_by owner s then zero_send else s) t) as [Hw' ->]; [|done|].
  { intros s. destruct (owned_by owner s); auto. }
  rewrite length_map. split_and!; [done..|]. apply map_eq. intros id.
  rewrite lookup_fmap, !lookup_omap, lookup_fmap.
  destruct (slot_map si_packet_id t !! id) as [s|] eqn:E; [|done]. cbn.
  pose proof (lookup_used _ _ _ _ Hw E) as Hs. rewrite owned_by_spec by done.
  case_bool_decide; [by rewrite decide_True|by rewrite decide_False].
Qed.

Lemma SendIdDisown_spec t owner :
  slots_wf si_packet_id t ->
  let t' := MqttClient_SendIdDisown t owner in
  length t' = length t /\ slots_wf si_packet_id t' /\
  exchange_of <$> slot_map si_packet_id t' =
    (fun e : exchange => if bool_decide (e.1 = owner) then (OWNER_NULL, e.2) else e) <$>
      (exchange_of <$> slot_map si_packet_id t).
Proof.
  intros Hw. unfold MqttClient_SendIdDisown. case_bool_decide as Ho.
  { subst owner. split_and!; [done..|]. rewrite <- map_fmap_compose. apply map_fmap_ext. intros id s _.
    unfold compose. destruct s as [? o ?]. cbn. by case_bool_decide; [subst|]. }
  set (f := fun s : MqttSendId => _).
  destruct (slot_map_map si_packet_id f t) as [Hw' ->]; [|done|].
  { intros s. unfold f. destruct (owned_by owner s); auto. }
  rewrite length_map. split_and!; [done..|]. apply map_eq. intros id.
  rewrite !lookup_fmap, lookup_omap.
  destruct (slot_map si_packet_id t !! id) as [s|] eqn:E; [|done]. cbn.
  pose proof (lookup_used _ _ _ _ Hw E) as Hs. unfold f. rewrite owned_by_spec by done.
  case_bool_decide; cbn; by rewrite decide_False.
Qed.

Lemma SendIdsReset_spec t :
  let t' := MqttClient_SendIdsReset t in
  length t' = length t /\ slots_wf si_packet_id t' /\ exchange_of <$> slot_map si_packet_id t' = ∅.
Proof.
  unfold MqttClient_SendIdsReset. rewrite length_map.
  destruct (slot_none si_packet_id (map (fun _ => zero_send) t)) as [Hw ->].
  { apply list.Forall_forall. intros s (? & -> & _)%list_elem_of_fmap. done. }
  by rewrite fmap_empty.
Qed.

(** The slot of a retained message, or a free one. *)
Lemma Replay_put pool packet_id slot :
  length pool = MQTT_MAX_REPLAY_MSGS -> slots_wf rp_packet_id pool -> packet_id <> 0 -> rp_packet_id slot = packet_id ->
  match (match MqttClient_Replay_Find pool packet_id with
         | Some i => Some i
         | None => MqttClient_Replay_Find pool 0
         end) with
  | Some i =>
    has_room (slot_map rp_packet_id pool) packet_id = true /\
    slots_wf rp_packet_id (<[i := slot]> pool) /\
    slot_map rp_packet_id (<[i := slot]> pool) = <[packet_id := slot]> (slot_map rp_packet_id pool)
  | None => has_room (slot_map rp_packet_id pool) packet_id = false
  end.
Proof.
  intros Hl Hw Hid Hk. unfold has_room. rewrite (proj2 (Z.eqb_neq _ _) Hid). cbn [negb andb].
  destruct (MqttClient_Replay_Find pool packet_id) as [i|] eqn:E.
  - pose proof E as (s & _ & _ & _ & _ & Hs & _ & _)%slot_find_Some.
    rewrite (slot_find_lookup _ _ _ _ _ Hw Hid E Hs). rewrite bool_decide_eq_true_2 by done.
    split; [done|]. by apply slot_write.
  - rewrite (slot_find_absent _ _ _ Hw E). rewrite bool_decide_eq_false_2 by by intros [? ?].
    cbn [orb]. rewrite <- Hl. destruct (MqttClient_Replay_Find pool 0) as [i|] eqn:E0.
    + rewrite bool_decide_eq_true_2 by by apply slot_room. split; [done|]. rewrite <- Hk in *.
      apply slot_put; try done. by apply slot_find_absent.
    + apply bool_decide_eq_false_2. rewrite slot_room by done. rewrite E0. by intros [? ?].
Qed.

Lemma replay_copy_id publish topic ok1 ok2 slot :
  replay_copy publish topic ok1 ok2 = Ok slot -> rp_packet_id slot = msg_packet_id publish.
Proof.
  unfold replay_copy. repeat case_match; try (by intros [= <-]).
  - destruct (slice _ _ _); cbn; [|done..]. by intros [= <-].
Qed.

Lemma Replay_PubRelSent_spec pool packet_id :
  length pool = MQTT_MAX_REPLAY_MSGS -> slots_wf rp_packet_id pool ->
  let pool' := MqttClient_Replay_PubRelSent pool packet_id in
  length pool' = length pool /\ slots_wf rp_packet_id pool' /\
  slot_map rp_packet_id pool' = spec_pubrel (slot_map rp_packet_id pool) packet_id.
Proof.
  intros Hl Hw. unfold MqttClient_Replay_PubRelSent, spec_pubrel.
  destruct (Z.eqb_spec packet_id 0) as [->|Hid]; [done|].
  set (s0 := mkReplay _ _ _ _ _ _ _ _).
  pose proof (Replay_put pool packet_id
    (set_pubrelSent (default s0 (slot_map rp_packet_id pool !! packet_id))) Hl Hw Hid) as Hput.
  destruct (MqttClient_Replay_Find pool packet_id) as [i|] eqn:E.
  - pose proof E as (s & _ & _ & _ & _ & Hs & Hk & _)%slot_find_Some.
    rewrite (slot_find_lookup _ _ _ _ _ Hw Hid E Hs) in *. cbn [default from_option id] in *.
    destruct Hput as (-> & Hw' & Hm); [done|]. rewrite (alter_insert _ _ _ _ Hs), length_insert. done.
  - rewrite (slot_find_absent _ _ _ Hw E) in *. cbn [default] in *.
    destruct (MqttClient_Replay_Find pool 0) as [i|]; [|by rewrite Hput].
    destruct Hput as (-> & Hw' & Hm); [done|]. by rewrite length_insert.
Qed.

(** One operation on the arrays is the operation on the maps. *)
Lemma table_step_spec T op :
  tables_wf T ->
  match table_step T op with
  | Ok (rc, T') => tables_wf T' /\ spec_step (table_spec T) op = Ok (rc, table_spec T')
  | Err rc => spec_step (table_spec T) op = Err rc
  | UB => spec_step (table_spec T) op = UB
  end.
Proof.
  destruct T as [t pool]. intros Hwf. pose proof Hwf as (Hl & Hlp & Hw & Hwp).
  unfold table_spec in *. unfold tables_wf in *. cbn [fst snd] in *.
  destruct op as [id owner rt ack|id ack|owner|owner| |publish ok1 ok2|id|id]; cbn [table_step spec_step].
  - pose proof (SendIdReserve_spec t id owner rt ack Hl Hw) as H.
    destruct (MqttClient_SendIdReserve _ _ _ _ _) as [rc t']. destruct H as (Hl' & Hw' & ->). done.
  - pose proof (SendIdRelease_spec t pool id ack Hwf) as [H1 H2].
    split; [exact H1|]. by f_equal; f_equal.
  - destruct (SendIdReleaseOwner_spec t owner Hw) as (Hl' & Hw' & Hm). cbn [fst snd]. rewrite Hm, Hl'. done.
  - destruct (SendIdDisown_spec t owner Hw) as (Hl' & Hw' & Hm). cbn [fst snd]. rewrite Hm, Hl'. done.
  - destruct (SendIdsReset_spec t) as (Hl' & Hw' & Hm). cbn [fst snd]. rewrite Hm, Hl'. done.
  - unfold MqttClient_Replay_Add. destruct (msg_topic_name publish) as [topic|]; [|done].
    destruct (Z.eqb_spec (msg_packet_id publish) 0) as [E|Hid]; [by rewrite E|].
    pose proof (Replay_put pool (msg_packet_id publish)) as Hput.
    destruct (match MqttClient_Replay_Find pool (msg_packet_id publish) with Some i => Some i | None => _ end) as [i|].
    + pose proof (fun slot => Hput slot Hlp Hwp Hid) as Hput'.
      destruct (Hput' (mkReplay (msg_packet_id publish) 0 None None 0 0 0 0)) as [-> _]; [done|].
      destruct (replay_copy publish topic ok1 ok2) as [slot|rc|] eqn:Ec; cbn [mbind result_bind fst snd]; [|done..].
      destruct (Hput' slot) as (_ & Hw' & ->); [by eapply replay_copy_id|]. by rewrite length_insert.
    + by rewrite (Hput (mkReplay (msg_packet_id publish) 0 None None 0 0 0 0) Hlp Hwp Hid eq_refl).
  - destruct (Replay_PubRelSent_spec pool id Hlp Hwp) as (Hl' & Hw' & Hm). cbn [fst snd]. rewrite Hm, Hl'. done.
  - destruct (Replay_Remove_spec pool id Hwp) as (Hl' & Hw' & Hm). cbn [fst snd]. rewrite Hm, Hl'. done.
Qed.

Lemma table_run_spec ops T :
  tables_wf T ->
  spec_run (table_spec T) ops = ('(rcs, T') ← table_run T ops; Ok (rcs, table_spec T')) /\
  (forall rcs T', table_run T ops = Ok (rcs, T') -> tables_wf T').
Proof.
  revert T. induction ops as [|op ops IH]; intros T Hw; cbn [table_run spec_run].
  { split; [done|]. by intros rcs T' [= _ <-]. }
  pose proof (table_step_spec T op Hw) as Hs. destruct (table_step T op) as [[rc T']|rc|]; [|by rewrite Hs..].
  destruct Hs as [Hw' ->]. cbn [mbind result_bind]. destruct (IH T' Hw') as [-> Hr]. split.
  - destruct (table_run T' ops) as [[rcs T'']|rc'|]; done.
  - intros rcs T''. destruct (table_run T' ops) as [[rcs' T3]|rc'|]; cbn; [|done..].
    intros [= _ <-]. by eapply Hr.
Qed.

(** The tables of a client that has just been initialised. *)
Definition tables0 : Tables :=
  (replicate MQTT_MAX_SEND_INFLIGHT zero_send, replicate MQTT_MAX_REPLAY_MSGS zero_replay).

Lemma tables0_wf : tables_wf tables0.
Proof.
  split_and!; [done..| |]; (eapply proj1, slot_none, list.Forall_replicate; done).
Qed.

(** The arrays of in-flight identifiers and of retained messages implement
    two finite maps: any sequence of operations on them, the failures of the
    two allocations included, returns what the operations on the maps return
    and ends in arrays that stand for the maps the sequence ends in. There an
    identifier that awaits its acknowledgement is refused to a new packet,
    only the acknowledgement the exchange waits for ends it and takes the
    retained message with it, and a table that is full records nothing. *)
Theorem ClientTables_refine ops T :
  tables_wf T ->
  spec_run (table_spec T) ops = ('(rcs, T') ← table_run T ops; Ok (rcs, table_spec T')) /\
  (forall rcs T', table_run T ops = Ok (rcs, T') ->
     tables_wf T' /\ (size (inflight (table_spec T')) <= MQTT_MAX_SEND_INFLIGHT)%nat /\
     (size (retained (table_spec T')) <= MQTT_MAX_REPLAY_MSGS)%nat).
Proof.
  intros Hw. destruct (table_run_spec ops T Hw) as [H1 H2]. split; [done|].
  intros rcs T' Hr. pose proof (H2 _ _ Hr) as Hw'. split; [done|]. by apply inflight_bound.
Qed.

(** A QoS 2 message with a payload. *)
Definition ex_qos2 : MqttMessage :=
  mkMessage 7 0 2 0 0 (Some [97]) 1 2 (Some [104; 105]) 2 0 0 0 0 [] 4.

(** The identifier 7 is reserved, refused, not released by a PUBACK, and
    released with its message by its PUBCOMP. *)
Definition ex_ops : list TableOp :=
  [SendIdReserve 7 (OWNER_MSG 1) 0 MQTT_PACKET_TYPE_PUBLISH_COMP; Replay_Add ex_qos2 true true;
   SendIdReserve 7 (OWNER_MSG 2) 0 MQTT_PACKET_TYPE_SUBSCRIBE_ACK;
   SendIdRelease 7 MQTT_PACKET_TYPE_PUBLISH_ACK; Replay_PubRelSent 7;
   SendIdRelease 7 MQTT_PACKET_TYPE_PUBLISH_COMP;
   SendIdReserve 7 (OWNER_MSG 2) 0 MQTT_PACKET_TYPE_SUBSCRIBE_ACK].

Lemma ClientTables_refine_witness :
  exists T', table_run tables0 ex_ops = Ok ([0; 0; MQTT_CODE_ERROR_PACKET_ID; 0; 0; 0; 0], T') /\
    spec_run (table_spec tables0) ex_ops =
      Ok ([0; 0; MQTT_CODE_ERROR_PACKET_ID; 0; 0; 0; 0], table_spec T') /\
    (size (inflight (table_spec T')) <= MQTT_MAX_SEND_INFLIGHT)%nat.
Proof.
  destruct (ClientTables_refine ex_ops tables0 tables0_wf) as [H1 H2].
  destruct (table_run tables0 ex_ops) as [[rcs T']|rc|] eqn:E; [|by vm_compute in E..].
  exists T'. assert (rcs = [0; 0; MQTT_CODE_ERROR_PACKET_ID; 0; 0; 0; 0]) as -> by (vm_compute in E; congruence).
  split; [done|]. split; [exact H1|]. by apply (H2 _ _ eq_refl).
Defined.

(** An identifier the table had no room for is not found by its
    acknowledgement, which leaves all as it is: its message stays retained.
    Here sixteen subscriptions are under way when a QoS 1 message is sent and
    acknowledged; the client replays it after the next CONNECT all the same. *)
Theorem SendIdRelease_untracked :
  (forall t pool packet_id ack_type, tables_wf (t, pool) ->
     inflight (table_spec (t, pool)) !! packet_id = None ->
     MqttClient_SendIdRelease t pool packet_id ack_type = (t, pool)) /\
  (let subs := (fun id => SendIdReserve (Z.of_nat id) (OWNER_MSG 0) 0 MQTT_PACKET_TYPE_SUBSCRIBE_ACK) <$> seq 100 16 in
   let publish := [SendIdReserve 7 (OWNER_MSG 1) 0 MQTT_PACKET_TYPE_PUBLISH_ACK; Replay_Add ex_qos2 true true;
                   SendIdRelease 7 MQTT_PACKET_TYPE_PUBLISH_ACK] in
   (exists rcs T', table_run tables0 (subs ++ publish) = Ok (rcs, T') /\
      is_Some (retained (table_spec T') !! 7)) /\
   (exists rcs T', table_run tables0 publish = Ok (rcs, T') /\ retained (table_spec T') = ∅)).
Proof.
  split.
  - intros t pool id ack (_ & _ & Hw & _) Hn. unfold MqttClient_SendIdRelease. case_match; [done|].
    destruct (MqttClient_SendIds_Find t id) as [i|] eqn:E; [|done]. exfalso.
    pose proof E as (s & _ & _ & _ & _ & Hs & _)%slot_find_Some. cbn [table_spec inflight fst] in Hn.
    erewrite inflight_lookup in Hn; [done|done|by apply Z.eqb_neq|exact E|exact Hs].
  - cbv zeta. split; (eexists _, _; split; [vm_compute; reflexivity|]; vm_compute; eauto).
Qed.

(** ** The units of the Receive Maximum *)

(** What messages do with their units: [CancelMessage] forgets the unit. *)
Inductive QuotaOp : Set := QuotaReserve (i : nat) | QuotaRelease (i : nat) | QuotaForget (i : nat).

(** [recvQuotaHeld] of all messages. *)
Definition quota_step (negotiated : Z) (Q : Z * list Z) (op : QuotaOp) : Z * list Z :=
  let '(recv_max, held) := Q in
  match op with
  | QuotaReserve i =>
    match held !! i with
    | Some h => let '(_, recv_max, h) := MqttClient_RecvQuotaReserve recv_max h in (recv_max, <[i := h]> held)
    | None => Q
    end
  | QuotaRelease i =>
    match held !! i with
    | Some h => let '(recv_max, h) := MqttClient_RecvQuotaRelease recv_max negotiated h in (recv_max, <[i := h]> held)
    | None => Q
    end
  | QuotaForget i => (recv_max, <[i := 0]> held)
  end.

Definition units (held : list Z) : Z := foldr Z.add 0 held.

Lemma units_insert held i h x : held !! i = Some h -> units (<[i := x]> held) = units held - h + x.
Proof.
  revert i. induction held as [|y held IH]; intros [|i] Hi; try done; cbn in *; [injection Hi as ->; lia|].
  unfold units in *. rewrite IH by done. lia.
Qed.

Definition quota_ok (negotiated : Z) (Q : Z * list Z) : Prop :=
  0 <= Q.1 /\ Forall (fun h => h = 0 \/ h = 1) Q.2 /\ Q.1 + units Q.2 <= negotiated.

Lemma units_nonneg held : Forall (fun h => h = 0 \/ h = 1) held -> 0 <= units held.
Proof. unfold units. induction 1 as [|? ? [-> | ->]]; cbn in *; lia. Qed.

Lemma units_lower held i h : Forall (fun h => h = 0 \/ h = 1) held -> held !! i = Some h -> h <= units held.
Proof.
  intros Hf Hi. pose proof (units_nonneg (<[i := 0]> held)) as H. rewrite (units_insert _ _ _ _ Hi) in H.
  specialize (H (Forall_insert _ _ _ _ Hf (or_introl eq_refl))). lia.
Qed.

Lemma quota_step_ok negotiated Q op :
  quota_ok negotiated Q -> let Q' := quota_step negotiated Q op in
  quota_ok negotiated Q' /\ Q'.1 + units Q'.2 <= Q.1 + units Q.2 /\
  ((forall i, op <> QuotaForget i) -> Q'.1 + units Q'.2 = Q.1 + units Q.2).
Proof.
  destruct Q as [m held]. intros (Hm & Hf & Hs). unfold quota_ok. cbn [fst snd] in *.
  assert (Hb : forall i h, held !! i = Some h -> (h = 0 \/ h = 1) /\ h <= units held).
  { intros i h Hi. split; [exact (Forall_lookup_1 _ _ _ _ Hf Hi)|by eapply units_lower]. }
  destruct op as [i|i|i]; cbn [quota_step].
  - destruct (held !! i) as [h|] eqn:Hi; [|done]. destruct (Hb i h Hi) as [Hh Hl]. unfold MqttClient_RecvQuotaReserve.
    destruct (Z.eqb_spec h 0); [destruct (Z.ltb_spec 0 m)|]; cbn [negb fst snd]; rewrite (units_insert _ _ _ _ Hi);
      (split; [split; [lia|split; [by apply Forall_insert; auto|lia]]|lia]).
  - destruct (held !! i) as [h|] eqn:Hi; [|done]. destruct (Hb i h Hi) as [Hh Hl]. unfold MqttClient_RecvQuotaRelease.
    destruct (Z.eqb_spec h 0); [|destruct (Z.ltb_spec m negotiated); [|lia]]; cbn [negb fst snd];
      rewrite (units_insert _ _ _ _ Hi);
      (split; [split; [lia|split; [by apply Forall_insert; auto|lia]]|lia]).
  - cbn [fst snd]. assert (Hu : units (<[i := 0]> held) <= units held).
    { destruct (held !! i) as [h|] eqn:Hi; [rewrite (units_insert _ _ _ _ Hi); destruct (Hb i h Hi); lia|].
      rewrite list_insert_ge; [done|]. by apply lookup_ge_None. }
    split; [split; [done|split; [by apply Forall_insert; auto|lia]]|]. split; [lia|]. intros Hn. by destruct (Hn i).
Qed.

(** The units of the Receive Maximum are never in two hands. However messages
    take a unit, give it back, and forget it when they are cancelled on the
    wire, the units left and those held are never more than the server allows;
    without a cancellation none is lost. *)
Theorem RecvQuota_balance negotiated ops Q :
  quota_ok negotiated Q ->
  let Q' := foldl (quota_step negotiated) Q ops in
  quota_ok negotiated Q' /\ units Q'.2 <= negotiated /\
  (Forall (fun op => forall i, op <> QuotaForget i) ops -> Q'.1 + units Q'.2 = Q.1 + units Q.2).
Proof.
  revert Q. induction ops as [|op ops IH]; intros Q HQ; cbn [foldl].
  { split; [done|]. destruct HQ as (? & ? & ?). split; [lia|done]. }
  destruct (quota_step_ok negotiated Q op HQ) as (H & _ & He). destruct (IH _ H) as (H1 & H2 & H3).
  split; [done|]. split; [done|]. intros [Ho Hr]%list.Forall_cons. rewrite H3 by done. by apply He.
Qed.

(** A Receive Maximum of 2 and three messages: the third is sent when the
    first has been acknowledged. *)
Lemma RecvQuota_balance_witness :
  let Q := foldl (quota_step 2) (2, [0; 0; 0]) [QuotaReserve 0; QuotaReserve 1; QuotaReserve 2; QuotaRelease 0; QuotaReserve 2] in
  Q = (0, [0; 1; 1]) /\ Q.1 + units Q.2 = 2.
Proof.
  split; [reflexivity|].
  destruct (RecvQuota_balance 2 [QuotaReserve 0; QuotaReserve 1; QuotaReserve 2; QuotaRelease 0; QuotaReserve 2] (2, [0; 0; 0]))
    as (_ & _ & H); [|apply H; by repeat constructor].
  split; [done|]. split; [repeat constructor|done].
Defined.

(** ** The Session's ClientId *)

Lemma cstr_slice s : slice s 0 (XSTRLEN s) = Ok (cstr s).
Proof. pose proof (XSTRLEN_bound s). rewrite slice_ok by lia. by rewrite drop_0. Qed.

Definition client_session_ok (cl : MqttClient) : Prop :=
  len (cl_session_client_id cl) = MQTT_MAX_SESSION_CLIENT_ID /\
  0 <= cl_session_client_id_len cl <= MQTT_MAX_SESSION_CLIENT_ID.

(** The ClientId the recorded state belongs to. *)
Definition session_of (cl : MqttClient) : option (list Z) :=
  if cl_session_client_id_len cl =? 0 then None
  else Some (take (Z.to_nat (cl_session_client_id_len cl)) (cl_session_client_id cl)).

Lemma SessionIdMatches_spec cl client_id :
  client_session_ok cl ->
  decides (MqttClient_SessionIdMatches cl client_id)
    (exists s, client_id = Some s /\ session_of cl = Some (cstr s)).
Proof.
  intros [Hl Hn]. unfold MqttClient_SessionIdMatches, session_of.
  destruct client_id as [s|]; [|apply decides_false; by intros (? & ? & _)].
  destruct (Z.eqb_spec (cl_session_client_id_len cl) 0) as [E|E]; [apply decides_false; by intros (? & _ & ?)|].
  pose proof (XSTRLEN_bound s). destruct (Z.eqb_spec (XSTRLEN s) (cl_session_client_id_len cl)) as [Es|Es]; cbn [negb].
  - rewrite cstr_slice, slice_ok, drop_0, Es by lia. cbn [mbind result_bind].
    eexists. split; [done|]. rewrite bool_decide_eq_true. split; [intros E1; exists s; by rewrite E1|].
    by intros (s' & [= <-] & [= ->]).
  - apply decides_false. intros (s' & [= <-] & [= Et]). destruct Es.
    rewrite <- (cstr_len s), <- Et. apply len_take. lia.
Qed.

Lemma SessionIdRecord_spec cl client_id :
  client_session_ok cl ->
  exists cl', MqttClient_SessionIdRecord cl client_id = Ok cl' /\ client_session_ok cl' /\
    cl' = with_session (cl_session_client_id cl') (cl_session_client_id_len cl') cl /\
    session_of cl' = (s ← client_id;
                      if (0 <? len (cstr s)) && (len (cstr s) <=? MQTT_MAX_SESSION_CLIENT_ID)
                      then Some (cstr s) else None).
Proof.
  intros [Hl Hn]. unfold MqttClient_SessionIdRecord. destruct client_id as [s|].
  2: { eexists. split; [done|]. by repeat split. }
  cbn [mbind option_bind]. rewrite cstr_len. pose proof (XSTRLEN_bound s).
  destruct (Z.eqb_spec (XSTRLEN s) 0) as [E|E]; cbn [orb].
  { rewrite E. eexists. split; [done|]. by repeat split. }
  destruct (Z.ltb_spec MQTT_MAX_SESSION_CLIENT_ID (XSTRLEN s)).
  { rewrite (proj2 (Z.leb_gt _ _)), andb_false_r by done. eexists. split; [done|]. by repeat split. }
  rewrite cstr_slice. cbn [mbind result_bind].
  rewrite (proj2 (Z.ltb_ge (len (cl_session_client_id cl)) (XSTRLEN s))) by lia. rewrite u16_small by lia.
  rewrite (proj2 (Z.ltb_lt _ _)), (proj2 (Z.leb_le _ _)) by lia. cbn [andb].
  eexists. split; [done|]. pose proof (cstr_len s) as Hc.
  assert (Hd : length (cstr s) = Z.to_nat (XSTRLEN s)) by (unfold len in Hc; lia).
  split_and!; [|done|].
  - unfold client_session_ok, with_session. cbn [cl_session_client_id cl_session_client_id_len].
    rewrite len_app, Hc. unfold len in *. rewrite length_drop. lia.
  - unfold session_of, with_session. cbn [cl_session_client_id cl_session_client_id_len].
    rewrite (proj2 (Z.eqb_neq _ _) E), <- Hd. by rewrite take_app_length.
Qed.

(** ** Inbound QoS 2 identifiers as a set *)

Definition pending_wf (pending : list Z) : Prop :=
  length pending = MQTT_MAX_RECV_QOS2 /\ slots_wf id pending.

Definition pending_set (pending : list Z) : gset Z := dom (slot_map id pending).

Lemma RecvQos2_Contains_spec pending packet_id :
  pending_wf pending ->
  MqttClient_RecvQos2_Contains pending packet_id = bool_decide (packet_id ∈ pending_set pending).
Proof.
  intros [_ Hw]. unfold MqttClient_RecvQos2_Contains, pending_set.
  destruct (Z.eqb_spec packet_id 0) as [->|Hid].
  - symmetry. apply bool_decide_eq_false_2. rewrite not_elem_of_dom. by apply no_zero.
  - apply bool_decide_ext. rewrite elem_of_dom.
    destruct (slot_find id pending packet_id) as [i|] eqn:E.
    + pose proof E as (s & _ & _ & _ & _ & Hs & _)%slot_find_Some.
      by rewrite (slot_find_lookup _ _ _ _ _ Hw Hid E Hs).
    + by rewrite (slot_find_absent _ _ _ Hw E).
Qed.

Lemma RecvQos2_HasFreeSlot_spec pending :
  pending_wf pending ->
  MqttClient_RecvQos2_HasFreeSlot pending = bool_decide (size (pending_set pending) < MQTT_MAX_RECV_QOS2)%nat.
Proof.
  intros [Hl Hw]. unfold MqttClient_RecvQos2_HasFreeSlot, pending_set.
  apply bool_decide_ext. rewrite size_dom, <- Hl. symmetry. by apply slot_room.
Qed.

Lemma RecvQos2_Add_spec pending packet_id :
  pending_wf pending ->
  let pending' := MqttClient_RecvQos2_Add pending packet_id in
  pending_wf pending' /\
  pending_set pending' =
    if bool_decide (packet_id <> 0 /\ (size (pending_set pending) < MQTT_MAX_RECV_QOS2)%nat)
    then {[packet_id]} ∪ pending_set pending else pending_set pending.
Proof.
  intros Hwf. pose proof Hwf as [Hl Hw]. unfold MqttClient_RecvQos2_Add.
  rewrite RecvQos2_Contains_spec by done.
  destruct (Z.eqb_spec packet_id 0) as [E|Hid]; cbn [orb].
  { rewrite bool_decide_eq_false_2; [done|]. by intros [? _]. }
  case_bool_decide as Hin.
  { split; [done|]. case_bool_decide; [|done]. set_solver. }
  pose proof (RecvQos2_HasFreeSlot_spec pending Hwf) as Hroom. unfold MqttClient_RecvQos2_HasFreeSlot in Hroom.
  destruct (slot_find id pending 0) as [i|] eqn:E.
  - rewrite bool_decide_eq_true_2 in Hroom by done. symmetry in Hroom. apply bool_decide_eq_true in Hroom.
    rewrite bool_decide_eq_true_2 by done. unfold pending_wf, pending_set in *.
    destruct (slot_put id pending i packet_id Hw E Hid) as [Hw' Hm]; [by apply not_elem_of_dom|].
    rewrite length_insert. split; [done|]. unfold id in Hm at 2. rewrite Hm. by rewrite dom_insert_L.
  - rewrite bool_decide_eq_false_2 in Hroom by by intros [? ?]. symmetry in Hroom.
    apply bool_decide_eq_false in Hroom. rewrite bool_decide_eq_false_2; [done|]. by intros [_ ?].
Qed.

Lemma RecvQos2_Remove_spec pending packet_id :
  pending_wf pending ->
  let pending' := MqttClient_RecvQos2_Remove pending packet_id in
  pending_wf pending' /\ pending_set pending' = pending_set pending ∖ {[packet_id]}.
Proof.
  intros Hwf. pose proof Hwf as [Hl Hw]. unfold MqttClient_RecvQos2_Remove, pending_set.
  destruct (Z.eqb_spec packet_id 0) as [->|Hid].
  { split; [done|]. assert (0 ∉ dom (slot_map id pending)) by by (apply not_elem_of_dom, no_zero). set_solver. }
  destruct (slot_find id pending packet_id) as [i|] eqn:E.
  - destruct (slot_clear id pending packet_id i 0 Hw E Hid) as [Hw' Hm]; [done|].
    unfold pending_wf. rewrite length_insert. split; [done|]. by rewrite Hm, dom_delete_L.
  - split; [done|]. assert (packet_id ∉ dom (slot_map id pending)) by by (apply not_elem_of_dom, slot_find_absent).
    set_solver.
Qed.
