(* ===== verification/ClientPublish.v ===== *)
(** * ClientPublish: how the client sends a PUBLISH ([mqtt_client.c])

    [MqttPublishMsg] up to the wait for the acknowledgement, with what it calls:
    [MqttClient_CheckConnectSent], [MqttClient_Publish_WritePayload] and
    [MqttClient_CancelMessage]. The function is entered again while it returns
    [MQTT_CODE_CONTINUE] or [MQTT_CODE_PUB_CONTINUE]; [stat.write] says where it
    was. The payload comes from the caller's buffer, not from a callback. *)
From stdpp Require Import gmap.
From S2P Require Import Prelude PacketDefs Wire Topic FixedHeader Props Frame Publish PacketIO Slots ClientTables.

(** ** The state of a send *)

(** [enum MqttMsgState]. *)
Inductive MqttMsgState : Set :=
  | MQTT_MSG_BEGIN | MQTT_MSG_WAIT | MQTT_MSG_AUTH | MQTT_MSG_HEADER
  | MQTT_MSG_PAYLOAD | MQTT_MSG_PAYLOAD2 | MQTT_MSG_ACK.

#[export] Instance MqttMsgState_eq_dec : EqDecision MqttMsgState.
Proof. solve_decision. Defined.

(** [client->write], the bytes of [tx_buf] it covers, and [last_tx_time]. *)
Record MqttSk : Set := mkSk {
  sk_pos : Z;
  sk_total : Z;
  sk_len : Z;
  sk_isActive : bool;
  sk_tx : list Z;
  sk_last_tx_time : Z
}.

(** The client, a message object at [ps_addr] and the network. *)
Record PubState (Net : Type) : Type := mkPub {
  ps_client : MqttClient;
  ps_addr : Z;
  ps_write : MqttMsgState;
  ps_held : Z;
  ps_msg : MqttMessage;
  ps_sk : MqttSk;
  ps_net : Net
}.
Arguments mkPub {Net} _ _ _ _ _ _ _.
Arguments ps_client {Net} _.
Arguments ps_addr {Net} _.
Arguments ps_write {Net} _.
Arguments ps_held {Net} _.
Arguments ps_msg {Net} _.
Arguments ps_sk {Net} _.
Arguments ps_net {Net} _.

Abbreviation MQTT_CLIENT_FLAG_CONNECT_SENT := (32)%Z.
Abbreviation MQTT_CLIENT_FLAG_DISCONNECT_SENT := (64)%Z.

Definition MqttClient_CheckConnectSent (cl : MqttClient) : Z :=
  if Z.land (cl_flags cl) MQTT_CLIENT_FLAG_CONNECT_SENT =? 0 then MQTT_CODE_ERROR_STAT
  else if negb (Z.land (cl_flags cl) MQTT_CLIENT_FLAG_DISCONNECT_SENT =? 0) then MQTT_CODE_ERROR_STAT
  else MQTT_CODE_SUCCESS.

Definition set_recv_max (recv_max : Z) (l : MqttServerLimits) : MqttServerLimits :=
  mkLimits (packet_sz_max l) (max_qos l) (retain_avail l) (keep_alive_sec l) (keep_alive_from_server l)
    recv_max (server_recv_max_negotiated l) (topic_alias_max l).

(** The Topic Alias and the Subscription Identifier of an outgoing PUBLISH. *)
Fixpoint publish_props_check (topic_alias_max : Z) (props : list MqttProp) : Z :=
  match props with
  | [] => MQTT_CODE_SUCCESS
  | prop :: props =>
    if prop_type prop =? MQTT_PROP_TOPIC_ALIAS then
      if (data_short prop =? 0) || (topic_alias_max <? data_short prop) then MQTT_CODE_ERROR_SERVER_PROP
      else publish_props_check topic_alias_max props
    else if prop_type prop =? MQTT_PROP_SUBSCRIPTION_ID then MQTT_CODE_ERROR_BAD_ARG
    else publish_props_check topic_alias_max props
  end.

Definition set_level (level : Z) (m : MqttMessage) : MqttMessage :=
  mkMessage (msg_packet_id m) (msg_type m) (msg_qos m) (msg_retain m) (msg_duplicate m) (msg_topic_name m)
    (msg_topic_name_len m) (msg_total_len m) (msg_buffer m) (msg_buffer_len m) (msg_buffer_pos m)
    (msg_buffer_new m) (msg_intBuf_len m) (msg_intBuf_pos m) (msg_props m) level.

Definition set_buffer_pos (pos : Z) (m : MqttMessage) : MqttMessage :=
  mkMessage (msg_packet_id m) (msg_type m) (msg_qos m) (msg_retain m) (msg_duplicate m) (msg_topic_name m)
    (msg_topic_name_len m) (msg_total_len m) (msg_buffer m) (msg_buffer_len m) pos
    (msg_buffer_new m) (msg_intBuf_len m) (msg_intBuf_pos m) (msg_props m) (msg_protocol_level m).

(** The packet that ends the exchange of a PUBLISH. *)
Definition publish_ack_type (m : MqttMessage) : Z :=
  if msg_qos m =? MQTT_QOS_2 then MQTT_PACKET_TYPE_PUBLISH_COMP else MQTT_PACKET_TYPE_PUBLISH_ACK.

(** The checks against what the server has announced. *)
Definition publish_check (cl : MqttClient) (m : MqttMessage) : Z :=
  let rc := MqttClient_CheckConnectSent cl in
  if negb (rc =? MQTT_CODE_SUCCESS) then rc
  else if (max_qos (cl_limits cl) <? msg_qos m) || (negb (msg_retain m =? 0) && (retain_avail (cl_limits cl) =? 0))
  then MQTT_CODE_ERROR_SERVER_PROP
  else if MQTT_CONNECT_PROTOCOL_LEVEL_5 <=? cl_protocol_level cl
  then publish_props_check (topic_alias_max (cl_limits cl)) (msg_props m)
  else MQTT_CODE_SUCCESS.

(** The whole packet and the server's Maximum Packet Size; [rc] is what the
    encoder returned. *)
Definition publish_too_big (l : MqttServerLimits) (m : MqttMessage) (rc : Z) : bool :=
  (0 <? packet_sz_max l) &&
  ((packet_sz_max l <? msg_total_len m) ||
   (u32 (packet_sz_max l - msg_total_len m) <? u32 (rc - msg_intBuf_len m))).

Section Publish.
Context {Net : Type} `{!Sender Net}.
Implicit Types (st : PubState Net).

Definition with_client (cl : MqttClient) st : PubState Net :=
  mkPub cl (ps_addr st) (ps_write st) (ps_held st) (ps_msg st) (ps_sk st) (ps_net st).
Definition with_stat (w : MqttMsgState) st : PubState Net :=
  mkPub (ps_client st) (ps_addr st) w (ps_held st) (ps_msg st) (ps_sk st) (ps_net st).
Definition with_held (held : Z) st : PubState Net :=
  mkPub (ps_client st) (ps_addr st) (ps_write st) held (ps_msg st) (ps_sk st) (ps_net st).
Definition with_msg (m : MqttMessage) st : PubState Net :=
  mkPub (ps_client st) (ps_addr st) (ps_write st) (ps_held st) m (ps_sk st) (ps_net st).
Definition with_sk (sk : MqttSk) st : PubState Net :=
  mkPub (ps_client st) (ps_addr st) (ps_write st) (ps_held st) (ps_msg st) sk (ps_net st).

Definition MqttWriteStart st : Z * PubState Net :=
  let sk := ps_sk st in
  if sk_isActive sk then (MQTT_CODE_CONTINUE, st)
  else (MQTT_CODE_SUCCESS,
        with_sk (mkSk (sk_pos sk) (sk_total sk) (sk_len sk) true (sk_tx sk) (sk_last_tx_time sk)) st).

Definition MqttWriteStop st : PubState Net :=
  with_sk (mkSk 0 0 0 false (sk_tx (ps_sk st)) (sk_last_tx_time (ps_sk st))) st.

Definition set_chunk (n : Z) (bs : list Z) st : PubState Net :=
  let sk := ps_sk st in
  with_sk (mkSk (sk_pos sk) (sk_total sk) n (sk_isActive sk) bs (sk_last_tx_time sk)) st.

(** [MqttPacket_Write(client, client->tx_buf, client->write.len)]. *)
Definition packet_write (now : Z) st : result (Z * PubState Net) :=
  let sk := ps_sk st in
  let l := cl_limits (ps_client st) in
  '(rc, w, net) ← MqttPacket_Write now
     (mkWrite (sk_pos sk) (sk_total sk) (packet_sz_max l) (keep_alive_sec l) (sk_last_tx_time sk))
     (ps_net st) (sk_tx sk) (sk_len sk);
  Ok (rc, mkPub (ps_client st) (ps_addr st) (ps_write st) (ps_held st) (ps_msg st)
            (mkSk (wr_pos w) (wr_total w) (sk_len sk) (sk_isActive sk) (sk_tx sk) (wr_last_tx_time w)) net).

Definition MqttClient_RestoreRecvQuota st : PubState Net :=
  let cl := ps_client st in
  let l := cl_limits cl in
  let '(recv_max, held) :=
    MqttClient_RecvQuotaRelease (server_recv_max l) (server_recv_max_negotiated l) (ps_held st) in
  with_held held (with_client (with_limits (set_recv_max recv_max l) cl) st).

(** The message object is given up: its identifier stays taken if the packet
    has left, but the object owns it no longer. *)
Definition MqttClient_CancelMessage st : PubState Net :=
  let cl := ps_client st in
  let owner := OWNER_MSG (ps_addr st) in
  let t := if bool_decide (ps_write st = MQTT_MSG_WAIT)
           then MqttClient_SendIdDisown (cl_send_inflight cl) owner
           else MqttClient_SendIdReleaseOwner (cl_send_inflight cl) owner in
  with_held 0 (with_stat MQTT_MSG_BEGIN (with_client (with_send t cl) st)).

(** The identifier of a packet that has been sent in part. *)
Definition reclaim_id st : PubState Net :=
  let cl := ps_client st in
  let '(_, t) := MqttClient_SendIdReserve (cl_send_inflight cl) (msg_packet_id (ps_msg st))
                   (OWNER_MSG (ps_addr st)) 1 (publish_ack_type (ps_msg st)) in
  with_client (with_send t cl) st.

Definition reserve_quota st : bool * PubState Net :=
  let cl := ps_client st in
  let l := cl_limits cl in
  if (MQTT_CONNECT_PROTOCOL_LEVEL_5 <=? cl_protocol_level cl) && (MQTT_QOS_0 <? msg_qos (ps_msg st)) then
    let '(ok, recv_max, held) := MqttClient_RecvQuotaReserve (server_recv_max l) (ps_held st) in
    (ok, with_held held (with_client (with_limits (set_recv_max recv_max l) cl) st))
  else (true, st).

(** [case MQTT_MSG_BEGIN]. The result is a code that is returned at once, or
    none when the next case follows. *)
Definition publish_begin (tx_buf_len : Z) (ok_topic ok_payload : bool) st : result (option Z * PubState Net) :=
  let '(rc, st) := MqttWriteStart st in
  if negb (rc =? MQTT_CODE_SUCCESS) then Ok (Some rc, st)
  else
    let '(reserved, st) := reserve_quota st in
    if negb reserved then Ok (Some MQTT_CODE_ERROR_SERVER_PROP, MqttWriteStop st)
    else
      let abandon rc st := Ok (Some rc, MqttClient_RestoreRecvQuota (MqttWriteStop st)) in
      match MqttEncode_Publish tx_buf_len (ps_msg st) false with
      | UB => UB
      | Err rc => abandon rc st
      | Ok (rc, bs, m) =>
        let st := with_msg m st in
        if rc <=? 0 then abandon rc st
        else if publish_too_big (cl_limits (ps_client st)) m rc then abandon MQTT_CODE_ERROR_SERVER_PROP st
        else
          let st := set_chunk rc bs st in
          if MQTT_QOS_0 <? msg_qos m then
            let cl := ps_client st in
            let '(rc, t) := MqttClient_SendIdReserve (cl_send_inflight cl) (msg_packet_id m)
                              (OWNER_MSG (ps_addr st)) (msg_duplicate m) (publish_ack_type m) in
            if negb (rc =? MQTT_CODE_SUCCESS) then abandon rc st
            else
              pool ← MqttClient_Replay_Add (cl_replay cl) m ok_topic ok_payload;
              Ok (None, with_stat MQTT_MSG_HEADER
                          (with_client (with_replay pool (cl_replayIdx cl) (with_send t cl)) st))
          else Ok (None, with_stat MQTT_MSG_HEADER st)
      end.

(** [case MQTT_MSG_HEADER]. *)
Definition publish_header (now : Z) st : result (option Z * PubState Net) :=
  let xfer := sk_len (ps_sk st) in
  '(rc, st) ← packet_write now st;
  if rc =? MQTT_CODE_CONTINUE then Ok (Some rc, st)
  else
    let wrote := if rc =? xfer then xfer else sk_pos (ps_sk st) in
    let st := set_chunk 0 (sk_tx (ps_sk st)) st in
    if negb (rc =? xfer) then
      let st := MqttClient_CancelMessage (MqttClient_RestoreRecvQuota (MqttWriteStop st)) in
      if 0 <? wrote then Ok (Some rc, reclaim_id st)
      else
        let cl := ps_client st in
        Ok (Some rc, with_client (with_replay (MqttClient_Replay_Remove (cl_replay cl) (msg_packet_id (ps_msg st)))
                                    (cl_replayIdx cl) cl) st)
    else Ok (None, with_stat MQTT_MSG_PAYLOAD st).

(** The part of the payload that the next write takes, or what the last write
    left in [tx_buf] when no payload went out with the headers. *)
Definition next_chunk (tx_buf_len : Z) st : result (PubState Net) :=
  let m := ps_msg st in
  if 0 <? msg_buffer_pos m then
    let n := i32 (msg_total_len m - msg_buffer_pos m) in
    let n := if tx_buf_len <? n then tx_buf_len else n in
    bs ← match msg_buffer m with Some b => slice b (msg_buffer_pos m) n | None => UB end;
    Ok (set_chunk n bs st)
  else Ok st.

(** [MqttClient_Publish_WritePayload] without a callback, in the non-blocking
    build. *)
Definition MqttClient_Publish_WritePayload (tx_buf_len now : Z) st : result (Z * PubState Net) :=
  let m := ps_msg st in
  if msg_buffer_pos m <? msg_total_len m then
    st ← next_chunk tx_buf_len st;
    '(rc, st) ← packet_write now st;
    if rc <? 0 then Ok (rc, st)
    else
      let m := ps_msg st in
      let pos := u32 (msg_buffer_pos m + sk_len (ps_sk st)) in
      let st := with_msg (set_buffer_pos pos m) st in
      if pos <? msg_buffer_len m then Ok (MQTT_CODE_PUB_CONTINUE, st)
      else
        let pos := u32 (pos + msg_intBuf_pos m) in
        let st := with_msg (set_buffer_pos pos m) st in
        if pos <? msg_total_len m then
          let n := i32 (msg_total_len m - pos) in
          let n := if tx_buf_len <? n then tx_buf_len else n in
          Ok (MQTT_CODE_PUB_CONTINUE, set_chunk n (sk_tx (ps_sk st)) st)
        else Ok (rc, st)
  else Ok (MQTT_CODE_SUCCESS, st).

(** The end of the function. *)
Definition publish_end (rc : Z) st : Z * PubState Net :=
  let st := if negb (rc =? MQTT_CODE_PUB_CONTINUE) && negb (rc =? MQTT_CODE_CONTINUE)
            then with_stat MQTT_MSG_BEGIN st else st in
  (if 0 <? rc then MQTT_CODE_SUCCESS else rc, st).

(** [case MQTT_MSG_PAYLOAD]; no code means that the acknowledgement is awaited. *)
Definition publish_payload_case (tx_buf_len now : Z) st : result (option Z * PubState Net) :=
  '(rc, st) ← MqttClient_Publish_WritePayload tx_buf_len now st;
  if (rc =? MQTT_CODE_CONTINUE) || (rc =? MQTT_CODE_PUB_CONTINUE) then Ok (Some rc, st)
  else
    let st := MqttWriteStop st in
    if rc <? 0 then
      let '(rc, st) := publish_end rc (reclaim_id (MqttClient_CancelMessage (MqttClient_RestoreRecvQuota st))) in
      Ok (Some rc, st)
    else if msg_qos (ps_msg st) =? MQTT_QOS_0 then
      let '(rc, st) := publish_end rc st in Ok (Some rc, st)
    else Ok (None, with_stat MQTT_MSG_WAIT st).

(** The cases from [MQTT_MSG_HEADER] on. *)
Definition publish_cases (tx_buf_len now : Z) st : result (option Z * PubState Net) :=
  '(rc, st) ← (if bool_decide (ps_write st = MQTT_MSG_HEADER) then publish_header now st else Ok (None, st));
  match rc with
  | Some rc => Ok (Some rc, st)
  | None =>
    if bool_decide (ps_write st = MQTT_MSG_PAYLOAD) then publish_payload_case tx_buf_len now st
    else if bool_decide (ps_write st = MQTT_MSG_WAIT) then Ok (None, st)
    else let '(rc, st) := publish_end MQTT_CODE_ERROR_STAT st in Ok (Some rc, st)
  end.

(** [MqttPublishMsg] with no callback, as far as [MQTT_MSG_WAIT]. *)
Definition MqttPublishMsg (tx_buf_len now : Z) (ok_topic ok_payload : bool) st : result (option Z * PubState Net) :=
  let rc := MqttClient_CheckConnectSent (ps_client st) in
  if negb (rc =? MQTT_CODE_SUCCESS) then Ok (Some rc, st)
  else
    let st := with_msg (set_level (cl_protocol_level (ps_client st)) (ps_msg st)) st in
    let rc := publish_check (ps_client st) (ps_msg st) in
    if negb (rc =? MQTT_CODE_SUCCESS) then Ok (Some rc, st)
    else
      '(rc, st) ← (if bool_decide (ps_write st = MQTT_MSG_BEGIN)
                   then publish_begin tx_buf_len ok_topic ok_payload st else Ok (None, st));
      match rc with
      | Some rc => Ok (Some rc, st)
      | None => publish_cases tx_buf_len now st
      end.

(** ** Sending *)

(** [pos] bytes of [buf], which is in [tx_buf], have been sent after [base]. *)
Definition sk_sending (base buf : list Z) st : Prop :=
  sk_tx (ps_sk st) = buf /\ sk_len (ps_sk st) = len buf /\ 0 <= sk_pos (ps_sk st) < len buf /\
  net_sent (ps_net st) = base ++ take (Z.to_nat (sk_pos (ps_sk st))) buf.

(** Only [client->write] and the network differ. *)
Definition same_send st st' : Prop :=
  ps_client st' = ps_client st /\ ps_addr st' = ps_addr st /\ ps_write st' = ps_write st /\
  ps_held st' = ps_held st /\ ps_msg st' = ps_msg st /\ sk_isActive (ps_sk st') = sk_isActive (ps_sk st) /\
  sk_tx (ps_sk st') = sk_tx (ps_sk st) /\ sk_len (ps_sk st') = sk_len (ps_sk st).

Lemma packet_write_step now base buf st :
  sk_sending base buf st -> len buf < 2147483648 ->
  0 <= packet_sz_max (cl_limits (ps_client st)) ->
  (0 < packet_sz_max (cl_limits (ps_client st)) -> len buf <= packet_sz_max (cl_limits (ps_client st))) ->
  exists rc st', packet_write now st = Ok (rc, st') /\ same_send st st' /\
    ((rc < 0 /\ sk_sending base buf st') \/
     (rc = len buf /\ sk_pos (ps_sk st') = 0 /\ net_sent (ps_net st') = base ++ buf)).
Proof using.
  intros (Htx & Hl & Hp & Hs) Hlen Hmax Hfit. unfold packet_write. cbv zeta. rewrite Htx, Hl.
  set (w := mkWrite _ _ _ _ _).
  pose proof (MqttPacket_Write_step now base buf w (ps_net st)) as Hw. unfold w in Hw at 1.
  specialize (Hw (conj Hp Hs) Hmax Hlen).
  rewrite (proj2 (andb_false_iff _ _)) in Hw.
  2: { cbn [w wr_packet_sz_max]. rewrite !Z.ltb_ge. lia. }
  destruct Hw as (rc & w' & net' & -> & _ & Hcase). cbn [mbind result_bind].
  eexists _, _. split; [done|]. split; [done|]. unfold sk_sending. cbn [ps_sk ps_net sk_tx sk_len sk_pos].
  destruct Hcase as [(Hrc & _ & [Hp' Hs'] & _)|(-> & Hp' & Hs' & _)]; [left|right]; done.
Qed.
End Publish.

(** ** The encoder and the fields of the message *)

(** What the encoder leaves of a message: everything but how much of the
    payload the packet holds. *)
Definition encoded_from (m m' : MqttMessage) : Prop :=
  msg_packet_id m' = msg_packet_id m /\ msg_qos m' = msg_qos m /\ msg_retain m' = msg_retain m /\
  msg_duplicate m' = msg_duplicate m /\ msg_topic_name m' = msg_topic_name m /\
  msg_total_len m' = msg_total_len m /\ msg_buffer m' = msg_buffer m /\ msg_props m' = msg_props m /\
  msg_protocol_level m' = msg_protocol_level m /\ msg_intBuf_pos m' = 0 /\
  (msg_buffer_len m' = msg_buffer_len m \/ msg_buffer_len m = 0 /\ msg_buffer_len m' = msg_total_len m) /\
  (0 < publish_payload_len m false -> msg_buffer_len m = 0 -> msg_buffer_len m' = msg_total_len m) /\
  (publish_payload_len m false <= 0 -> msg_buffer_pos m' = msg_buffer_pos m).

Lemma MqttEncode_Publish_fields tx_buf_len m rc bs m' :
  MqttEncode_Publish tx_buf_len m false = Ok (rc, bs, m') -> encoded_from m m'.
Proof.
  unfold MqttEncode_Publish. destruct (MQTT_QOS_2 <? msg_qos m); [done|].
  destruct (publish_variable_len m) as [[vl pl]|?|]; cbn [mbind result_bind]; [|done..].
  destruct (_ && _ && _); [done|].
  destruct (MqttEncode_FixedHeader _ _ _ _ _ _) as [[hl hdr]|?|]; cbn [mbind result_bind]; [|done..].
  destruct (tx_buf_len <? hl + vl); [done|].
  destruct (publish_variable m pl) as [[? var]|?|]; cbn [mbind result_bind]; [|done..].
  unfold publish_payload. set (n := publish_payload_len m false).
  destruct (Z.ltb_spec 0 n) as [Hn|Hn].
  - set (k := if _ && _ then _ else _).
    destruct (match msg_buffer m with Some _ => _ | None => _ end) as [p|?|]; cbn [mbind result_bind]; [|done..].
    intros [= _ _ <-]. unfold encoded_from. cbn. destruct (Z.eqb_spec (msg_buffer_len m) 0) as [E|E];
      split_and!; auto; lia.
  - cbn [mbind result_bind]. intros [= _ _ <-]. unfold encoded_from. cbn. split_and!; auto. fold n. lia.
Qed.

(** What the headers leave of [tx_buf] is not left empty. *)
Lemma MqttEncode_Publish_chunk tx_buf_len m rc bs m' :
  MqttEncode_Publish tx_buf_len m false = Ok (rc, bs, m') -> 0 < publish_payload_len m false ->
  0 <= msg_buffer_len m -> 0 < tx_buf_len - (rc - msg_intBuf_len m') -> 0 < msg_intBuf_len m'.
Proof.
  unfold MqttEncode_Publish. destruct (MQTT_QOS_2 <? msg_qos m); [done|].
  destruct (publish_variable_len m) as [[vl pl]|?|]; cbn [mbind result_bind]; [|done..].
  destruct (_ && _ && _); [done|].
  destruct (MqttEncode_FixedHeader _ _ _ _ _ _) as [[hl hdr]|?|]; cbn [mbind result_bind]; [|done..].
  destruct (tx_buf_len <? hl + vl); [done|].
  destruct (publish_variable m pl) as [[? var]|?|]; cbn [mbind result_bind]; [|done..].
  unfold publish_payload. intros E Hn Hb. rewrite (proj2 (Z.ltb_lt 0 _) Hn) in E. revert E.
  set (n := publish_payload_len m false) in *. set (k := if _ && _ then _ else _).
  destruct (match msg_buffer m with Some _ => _ | None => _ end) as [p|?|]; cbn [mbind result_bind]; [|done..].
  intros [= <- _ <-]. cbn [msg_intBuf_len]. intros Hr. unfold k.
  destruct (Z.ltb_spec (tx_buf_len - (hl + vl)) n), (Z.ltb_spec 0 (msg_buffer_len m)); cbn [andb];
    try case_match; tests; lia.
Qed.

(** ** A PUBLISH on its way *)

Section Send.
Context {Net : Type} `{!Sender Net} (tx_buf_len : Z) (base b pkt : list Z).
Implicit Types (st : PubState Net).

(** The payload bytes that have been handed to the network with complete
    writes. *)
Definition payload_done (m : MqttMessage) : Z := Z.min (msg_buffer_pos m) (msg_total_len m).

Definition send_point (m : MqttMessage) : Z := len (pub_head m (msg_total_len m)) + payload_done m.

(** Where [stat.write] and [client->write] say it is: the headers are being
    written with the first part of the payload, a later part is, or all has
    been. *)
Inductive sending_at st : Prop :=
  | at_header :
    ps_write st = MQTT_MSG_HEADER ->
    sk_sending base (take (Z.to_nat (send_point (ps_msg st))) pkt) st -> sending_at st
  | at_payload :
    ps_write st = MQTT_MSG_PAYLOAD -> msg_buffer_pos (ps_msg st) < msg_total_len (ps_msg st) ->
    0 <= sk_pos (ps_sk st) < Z.min tx_buf_len (msg_total_len (ps_msg st) - msg_buffer_pos (ps_msg st)) ->
    net_sent (ps_net st) = base ++ take (Z.to_nat (send_point (ps_msg st) + sk_pos (ps_sk st))) pkt ->
    sending_at st
  | at_end :
    ps_write st = MQTT_MSG_PAYLOAD -> msg_total_len (ps_msg st) <= msg_buffer_pos (ps_msg st) ->
    net_sent (ps_net st) = base ++ pkt -> sending_at st.

Record pub_sending st : Prop := {
  snd_conn : MqttClient_CheckConnectSent (ps_client st) = MQTT_CODE_SUCCESS;
  snd_check : publish_check (ps_client st) (ps_msg st) = MQTT_CODE_SUCCESS;
  snd_level : msg_protocol_level (ps_msg st) = cl_protocol_level (ps_client st);
  snd_max : 0 <= packet_sz_max (cl_limits (ps_client st));
  snd_fits : 0 < packet_sz_max (cl_limits (ps_client st)) -> len pkt <= packet_sz_max (cl_limits (ps_client st));
  snd_tx : 0 < tx_buf_len < 2147483648;
  snd_pkt : pkt = pub_head (ps_msg st) (msg_total_len (ps_msg st)) ++
                  take (Z.to_nat (msg_total_len (ps_msg st))) b;
  snd_len : len pkt < 2147483648;
  snd_buf : 0 < msg_total_len (ps_msg st) ->
            msg_buffer (ps_msg st) = Some b /\ msg_total_len (ps_msg st) <= len b /\
            0 < msg_buffer_pos (ps_msg st) <= msg_total_len (ps_msg st) /\
            msg_total_len (ps_msg st) <= msg_buffer_len (ps_msg st);
  snd_pos : 0 <= msg_total_len (ps_msg st) < 2147483648 /\ 0 <= msg_buffer_pos (ps_msg st) /\
            msg_intBuf_pos (ps_msg st) = 0;
  snd_at : sending_at st
}.

(** What a call may leave: the send goes on; it is complete and the
    acknowledgement is awaited, or, at QoS 0, the message is done; or it is
    given up with part of the packet sent. *)
Definition send_outcome st (r : option Z) st' : Prop :=
  match r with
  | None =>
    msg_qos (ps_msg st) <> MQTT_QOS_0 /\ ps_write st' = MQTT_MSG_WAIT /\
    sk_isActive (ps_sk st') = false /\ net_sent (ps_net st') = base ++ pkt
  | Some rc =>
    ((rc = MQTT_CODE_CONTINUE \/ rc = MQTT_CODE_PUB_CONTINUE) /\ pub_sending st' /\
     msg_qos (ps_msg st') = msg_qos (ps_msg st)) \/
    (rc = MQTT_CODE_SUCCESS /\ msg_qos (ps_msg st) = MQTT_QOS_0 /\ ps_write st' = MQTT_MSG_BEGIN /\
     sk_isActive (ps_sk st') = false /\ net_sent (ps_net st') = base ++ pkt) \/
    (rc < 0 /\ ps_write st' = MQTT_MSG_BEGIN /\ sk_isActive (ps_sk st') = false /\
     exists k, 0 <= k < len pkt /\ net_sent (ps_net st') = base ++ take (Z.to_nat k) pkt)
  end.

Lemma pkt_split st :
  pub_sending st ->
  len pkt = len (pub_head (ps_msg st) (msg_total_len (ps_msg st))) + msg_total_len (ps_msg st).
Proof using.
  intros H. rewrite (snd_pkt st H), len_app at 1. f_equal. pose proof (snd_pos st H).
  destruct (Z.eq_dec (msg_total_len (ps_msg st)) 0) as [E|E]; [by rewrite E|].
  apply len_take. destruct (snd_buf st H); lia.
Qed.

Lemma send_point_bounds st :
  pub_sending st -> 0 <= send_point (ps_msg st) <= len pkt.
Proof using.
  intros H. pose proof (pkt_split st H). pose proof (snd_pos st H) as (? & ? & _).
  pose proof (len_nonneg (pub_head (ps_msg st) (msg_total_len (ps_msg st)))).
  unfold send_point, payload_done. lia.
Qed.

(** The bytes of the packet from [send_point] on are those of the payload. *)
Lemma pkt_chunk st n :
  pub_sending st -> msg_buffer_pos (ps_msg st) < msg_total_len (ps_msg st) ->
  0 <= n <= msg_total_len (ps_msg st) - msg_buffer_pos (ps_msg st) ->
  take (Z.to_nat (send_point (ps_msg st) + n)) pkt =
    take (Z.to_nat (send_point (ps_msg st))) pkt ++
    take (Z.to_nat n) (drop (Z.to_nat (msg_buffer_pos (ps_msg st))) b).
Proof using.
  intros H Hlt Hn. pose proof (snd_pos st H) as (Ht & Hp & _). destruct (snd_buf st H) as (_ & Hlb & _ & _); [lia|].
  pose proof (send_point_bounds st H). rewrite Z2Nat.inj_add by lia. rewrite <- take_take_drop. f_equal.
  rewrite (snd_pkt st H) at 1. unfold send_point, payload_done. rewrite Z.min_l by lia.
  pose proof (len_nonneg (pub_head (ps_msg st) (msg_total_len (ps_msg st)))).
  rewrite Z2Nat.inj_add by lia.
  replace (Z.to_nat (len (pub_head (ps_msg st) (msg_total_len (ps_msg st)))))
    with (length (pub_head (ps_msg st) (msg_total_len (ps_msg st)))) by (unfold len; lia).
  rewrite drop_app_add.
  replace (Z.to_nat (msg_total_len (ps_msg st)))
    with (Z.to_nat (msg_buffer_pos (ps_msg st)) +
          Z.to_nat (msg_total_len (ps_msg st) - msg_buffer_pos (ps_msg st)))%nat by lia.
  rewrite <- take_drop_commute, take_take. f_equal. lia.
Qed.

(** A state that differs in nothing the checks look at. *)
Definition same_message st st' : Prop :=
  ps_client st' = ps_client st /\
  ps_msg st' = set_buffer_pos (msg_buffer_pos (ps_msg st')) (ps_msg st).

Lemma sending_moves st st' :
  pub_sending st -> same_message st st' ->
  0 <= msg_buffer_pos (ps_msg st') ->
  (0 < msg_total_len (ps_msg st) -> 0 < msg_buffer_pos (ps_msg st') <= msg_total_len (ps_msg st)) ->
  sending_at st' -> pub_sending st'.
Proof using.
  intros [H1 H2 H3 H4 H5 H6 H7 H8 H9 H10 _] [Hc Hm] Hp Hb Hat.
  constructor; rewrite ?Hc; try done; rewrite Hm; cbn [set_buffer_pos]; try done.
  intros Ht. destruct (H9 Ht) as (? & ? & _ & ?). auto.
  split_and!; [apply H10..|done|apply H10].
Qed.

Lemma publish_level_same st : pub_sending st -> set_level (cl_protocol_level (ps_client st)) (ps_msg st) = ps_msg st.
Proof using. intros H. rewrite <- (snd_level st H). by destruct (ps_msg st). Qed.

(** The chunk that [next_chunk] puts into [tx_buf]. *)
Lemma next_chunk_ok st :
  pub_sending st -> msg_buffer_pos (ps_msg st) < msg_total_len (ps_msg st) ->
  let n := Z.min tx_buf_len (msg_total_len (ps_msg st) - msg_buffer_pos (ps_msg st)) in
  let bs := take (Z.to_nat n) (drop (Z.to_nat (msg_buffer_pos (ps_msg st))) b) in
  next_chunk tx_buf_len st = Ok (set_chunk n bs st) /\ len bs = n /\ 0 < n.
Proof using.
  intros H Hlt. pose proof (snd_pos st H) as (Ht & Hp & _). pose proof (snd_tx st H).
  destruct (snd_buf st H) as (Hb & Hlb & Hp' & _); [lia|]. cbv zeta.
  unfold next_chunk. rewrite (proj2 (Z.ltb_lt 0 _)) by lia. rewrite i32_small, Hb by lia.
  set (n := if tx_buf_len <? _ then _ else _).
  assert (Hn : n = Z.min tx_buf_len (msg_total_len (ps_msg st) - msg_buffer_pos (ps_msg st)))
    by (unfold n; destruct (Z.ltb_spec tx_buf_len (msg_total_len (ps_msg st) - msg_buffer_pos (ps_msg st))); lia).
  rewrite <- Hn, slice_ok by lia. split; [done|]. split; [|lia].
  apply len_take. unfold len in *. rewrite length_drop. lia.
Qed.

Lemma end_success st st' rc :
  0 <= rc -> ps_msg st' = ps_msg st \/ same_message st st' -> ps_write st' = MQTT_MSG_PAYLOAD ->
  net_sent (ps_net st') = base ++ pkt ->
  exists r st2, (if msg_qos (ps_msg (MqttWriteStop st')) =? MQTT_QOS_0
    then let '(rc, st) := publish_end rc (MqttWriteStop st') in Ok (Some rc, st)
    else Ok (None, with_stat MQTT_MSG_WAIT (MqttWriteStop st'))) = Ok (r, st2) /\ send_outcome st r st2.
Proof using.
  intros Hrc Hm Hw Hs. assert (Hq : msg_qos (ps_msg st') = msg_qos (ps_msg st)).
  { destruct Hm as [->|[_ ->]]; done. }
  cbn [MqttWriteStop with_sk ps_msg]. rewrite Hq. destruct (Z.eqb_spec (msg_qos (ps_msg st)) MQTT_QOS_0) as [E|E].
  - unfold publish_end. rewrite !(proj2 (Z.eqb_neq rc _)) by lia. cbn [negb andb].
    eexists _, _. split; [done|]. right. left. split_and!; try done.
    destruct (Z.ltb_spec 0 rc); [done|lia].
  - eexists _, _. split; [done|]. by split_and!.
Qed.

Lemma WritePayload_ok now st :
  pub_sending st -> ps_write st = MQTT_MSG_PAYLOAD ->
  exists rc st', MqttClient_Publish_WritePayload tx_buf_len now st = Ok (rc, st') /\
    same_message st st' /\ ps_write st' = MQTT_MSG_PAYLOAD /\
    ((rc < 0 /\ pub_sending st' /\
      (rc = MQTT_CODE_PUB_CONTINUE \/
       exists k, 0 <= k < len pkt /\ net_sent (ps_net st') = base ++ take (Z.to_nat k) pkt)) \/
     (0 <= rc /\ net_sent (ps_net st') = base ++ pkt)).
Proof using.
  intros H Hw. unfold MqttClient_Publish_WritePayload. cbv zeta.
  pose proof (snd_pos st H) as (Ht & Hp & Hi). pose proof (snd_tx st H) as Htx.
  destruct (Z.ltb_spec (msg_buffer_pos (ps_msg st)) (msg_total_len (ps_msg st))) as [Hlt|Hge].
  2: { exists MQTT_CODE_SUCCESS, st. split; [done|]. split; [split; [done|by destruct (ps_msg st)]|].
       split; [done|]. right. split; [done|]. destruct (snd_at st H); [congruence|lia|done]. }
  destruct (next_chunk_ok st H Hlt) as (-> & Hn & Hn0). cbn [mbind result_bind].
  set (n := Z.min _ _) in *. set (bs := take _ _) in *.
  destruct (snd_buf st H) as (Hb & Hlb & Hp' & Hbl); [lia|].
  assert (Hc : forall k, 0 <= k <= n -> take (Z.to_nat (send_point (ps_msg st) + k)) pkt =
    take (Z.to_nat (send_point (ps_msg st))) pkt ++ take (Z.to_nat k) bs).
  { intros k Hk. rewrite pkt_chunk by (done || lia). f_equal. unfold bs. rewrite take_take. f_equal. lia. }
  pose proof (send_point_bounds st H) as Hsp. pose proof (pkt_split st H) as Hps.
  assert (Hspt : send_point (ps_msg st) + n <= len pkt).
  { unfold send_point, payload_done in *. lia. }
  destruct (packet_write_step now (base ++ take (Z.to_nat (send_point (ps_msg st))) pkt) bs (set_chunk n bs st))
    as (rc & st' & -> & Hsame & Hcase); [| |apply (snd_max st H)|cbn [set_chunk with_sk ps_client]; intros Hm; pose proof (snd_fits st H Hm); lia|].
  { unfold sk_sending. cbn [set_chunk with_sk ps_sk sk_tx sk_len sk_pos ps_net]. rewrite Hn.
    destruct (snd_at st H) as [|_ _ Hsk Hs|]; [congruence| |lia].
    split_and!; [done|done|lia|lia|]. rewrite Hs, <- app_assoc. f_equal. apply Hc. lia. }
  { pose proof (snd_len st H). lia. }
  destruct Hsame as (Sc & Sa & Sw & Sh & Sm & Sact & Stx & Sl).
  cbn [set_chunk with_sk ps_client ps_addr ps_write ps_held ps_msg ps_sk sk_isActive sk_tx sk_len] in *.
  cbn [mbind result_bind]. destruct Hcase as [(Hrc & Htx' & Hl' & Hpos & Hs)|(-> & Hpos & Hs)].
  - rewrite (proj2 (Z.ltb_lt rc 0)) by lia. exists rc, st'. split; [done|].
    assert (Hs' : net_sent (ps_net st') = base ++ take (Z.to_nat (send_point (ps_msg st) + sk_pos (ps_sk st'))) pkt).
    { rewrite Hs, Hc, app_assoc by lia. done. }
    split; [split; [done|rewrite Sm; by destruct (ps_msg st)]|]. split; [by rewrite Sw|]. left. split; [done|]. split.
    + apply (sending_moves st); [done|split; [done|rewrite Sm; by destruct (ps_msg st)]|by rewrite Sm|by rewrite Sm|].
      apply at_payload; rewrite ?Sm; try done; [by rewrite Sw|]. fold n. lia.
    + right. exists (send_point (ps_msg st) + sk_pos (ps_sk st')). split; [lia|done].
  - rewrite Hn, (proj2 (Z.ltb_ge n 0)) by lia. rewrite Sm, Sl.
    assert (E1 : u32 (msg_buffer_pos (ps_msg st) + n) = msg_buffer_pos (ps_msg st) + n) by (apply u32_small; lia).
    cbn [set_buffer_pos with_msg ps_msg msg_buffer_len msg_intBuf_pos msg_total_len]. rewrite !E1, Hi, !Z.add_0_r, !E1.
    set (p := msg_buffer_pos (ps_msg st) + n) in *.
    assert (Hs' : net_sent (ps_net st') = base ++ take (Z.to_nat (send_point (set_buffer_pos p (ps_msg st)))) pkt).
    { rewrite Hs, <- app_assoc. f_equal.
      replace (send_point (set_buffer_pos p (ps_msg st))) with (send_point (ps_msg st) + n).
      - rewrite Hc by lia. f_equal. rewrite <- Hn. unfold len. by rewrite Nat2Z.id, firstn_all.
      - unfold send_point, payload_done in *. cbn [set_buffer_pos msg_buffer_pos msg_total_len].
        change (pub_head (set_buffer_pos p (ps_msg st))) with (pub_head (ps_msg st)). lia. }
    assert (Hfull : msg_total_len (ps_msg st) <= p -> net_sent (ps_net st') = base ++ pkt).
    { intros Hf. rewrite Hs'. f_equal. apply firstn_all2. unfold send_point, payload_done.
      cbn [set_buffer_pos msg_buffer_pos msg_total_len].
      change (pub_head (set_buffer_pos p (ps_msg st))) with (pub_head (ps_msg st)). unfold len in *. lia. }
    assert (Hon : forall sk, sk_pos sk = 0 -> pub_sending
      (mkPub (ps_client st') (ps_addr st') (ps_write st') (ps_held st') (set_buffer_pos p (ps_msg st)) sk (ps_net st'))).
    { intros sk Hsk. apply (sending_moves st); [done|by split|cbn; lia|cbn; lia|].
      destruct (Z.lt_ge_cases p (msg_total_len (ps_msg st))).
      - apply at_payload; cbn [ps_write ps_msg ps_sk ps_net]; [by rewrite Sw|done|cbn; lia|].
        by rewrite Hsk, Z.add_0_r.
      - apply at_end; cbn [ps_write ps_msg ps_sk ps_net]; [by rewrite Sw|done|auto]. }
    destruct (Z.ltb_spec p (msg_buffer_len (ps_msg st))) as [Hb1|Hb1].
    { eexists _, _. split; [done|]. split; [by split|]. split; [by cbn; rewrite Sw|]. left.
      split; [done|]. split; [by apply Hon|by left]. }
    rewrite (proj2 (Z.ltb_ge p _)) by lia. eexists _, _. split; [done|]. split; [by split|].
    split; [by cbn; rewrite Sw|]. right. split; [lia|]. apply Hfull. lia.
Qed.

(** ** What gives a message up leaves the network alone *)

Lemma give_up_send st :
  let st' := reclaim_id (MqttClient_CancelMessage (MqttClient_RestoreRecvQuota (MqttWriteStop st))) in
  ps_net st' = ps_net st /\ ps_write st' = MQTT_MSG_BEGIN /\ sk_isActive (ps_sk st') = false.
Proof using.
  cbv zeta. unfold reclaim_id, MqttClient_CancelMessage, MqttClient_RestoreRecvQuota.
  destruct (MqttClient_RecvQuotaRelease _ _ _) as [rm h]. cbn. by destruct (MqttClient_SendIdReserve _ _ _ _ _).
Qed.

Lemma payload_case_ok now st :
  pub_sending st -> ps_write st = MQTT_MSG_PAYLOAD ->
  exists r st', publish_payload_case tx_buf_len now st = Ok (r, st') /\ send_outcome st r st'.
Proof using.
  intros H Hw. unfold publish_payload_case.
  destruct (WritePayload_ok now st H Hw) as (rc & st' & -> & Hm & Hw' & Hcase). cbn [mbind result_bind].
  destruct ((rc =? MQTT_CODE_CONTINUE) || (rc =? MQTT_CODE_PUB_CONTINUE)) eqn:Ec.
  { eexists _, _. split; [done|]. left. rewrite orb_true_iff, !Z.eqb_eq in Ec. split; [done|].
    split; [|by destruct Hm as [_ ->]]. destruct Hcase as [(_ & ? & _)|[? _]]; [done|lia]. }
  rewrite orb_false_iff, !Z.eqb_neq in Ec. destruct Hcase as [(Hrc & _ & [?|(k & Hk & Hs)])|[Hrc Hs]]; [lia| |].
  - rewrite (proj2 (Z.ltb_lt rc 0)) by lia. pose proof (give_up_send st') as (Hn & Hb & Ha). cbv zeta in *.
    unfold publish_end. rewrite !(proj2 (Z.eqb_neq rc _)) by lia. cbn [negb andb].
    eexists _, _. split; [done|]. right. right. rewrite (proj2 (Z.ltb_ge 0 rc)) by lia.
    cbn [with_stat ps_write ps_net ps_sk]. rewrite Hn. split_and!; [done|done|done|by exists k].
  - rewrite (proj2 (Z.ltb_ge rc 0)) by lia. by apply end_success; [|right|..].
Qed.

Lemma header_case_ok now st :
  pub_sending st -> ps_write st = MQTT_MSG_HEADER ->
  exists r st', publish_header now st = Ok (r, st') /\
    match r with
    | Some rc => send_outcome st (Some rc) st'
    | None => pub_sending st' /\ same_message st st' /\ ps_write st' = MQTT_MSG_PAYLOAD
    end.
Proof using.
  intros H Hw. unfold publish_header. pose proof (send_point_bounds st H) as Hb. pose proof (pkt_split st H) as Hps.
  destruct (snd_at st H) as [_ Hsk|Hw2|Hw2]; [|congruence..].
  set (bs := take _ pkt) in *.
  assert (Hbs : len bs = send_point (ps_msg st)) by (by apply len_take).
  destruct (packet_write_step now base bs st Hsk) as (rc & st' & -> & Hsame & Hcase);
    [pose proof (snd_len st H); lia|apply (snd_max st H)|intros Hm; pose proof (snd_fits st H Hm); lia|].
  destruct Hsame as (Sc & Sa & Sw & Sh & Sm & Sact & Stx & Sl). destruct Hsk as (Htx & Hl & Hp & _).
  cbn [mbind result_bind]. destruct Hcase as [(Hrc & Hsk')|(-> & Hpos & Hs)].
  - assert (Hk : exists k, 0 <= k < len pkt /\ net_sent (ps_net st') = base ++ take (Z.to_nat k) pkt).
    { destruct Hsk' as (_ & _ & Hp' & Hs'). exists (sk_pos (ps_sk st')). split; [lia|].
      rewrite Hs'. unfold bs. rewrite take_take. do 2 f_equal. lia. }
    destruct (Z.eqb_spec rc MQTT_CODE_CONTINUE) as [E|E].
    { eexists _, _. split; [done|]. left. split; [by left|]. split; [|by rewrite Sm].
      apply (sending_moves st); rewrite ?Sm; [done|split; [done|rewrite Sm; by destruct (ps_msg st)]|apply (snd_pos st H)| |].
      - intros Ht. by apply (snd_buf st H).
      - apply at_header; rewrite ?Sm; [by rewrite Sw|done]. }
    rewrite (proj2 (Z.eqb_neq rc (sk_len (ps_sk st)))) by lia. cbn [negb].
    destruct (Z.ltb_spec 0 (sk_pos (ps_sk st'))).
    + eexists _, _. split; [done|]. right. right.
      pose proof (give_up_send (set_chunk 0 (sk_tx (ps_sk st')) st')) as (Hn & Hb' & Ha). cbv zeta in *. rewrite Hn. done.
    + eexists _, _. split; [done|]. right. right. unfold MqttClient_CancelMessage, MqttClient_RestoreRecvQuota.
      destruct (MqttClient_RecvQuotaRelease _ _ _) as [rm h]. cbn. done.
  - rewrite Hl, Z.eqb_refl. rewrite (proj2 (Z.eqb_neq _ _)) by lia. cbn [negb].
    eexists _, _. split; [done|]. cbn [with_stat ps_write].
    assert (Hsm : same_message st (with_stat MQTT_MSG_PAYLOAD (set_chunk 0 (sk_tx (ps_sk st')) st'))).
    { split; [done|]. cbn. rewrite Sm. by destruct (ps_msg st). }
    split; [|done]. apply (sending_moves st); [done|done|cbn; rewrite Sm; apply (snd_pos st H)| |].
    { intros Ht. cbn. rewrite Sm. by apply (snd_buf st H). }
    destruct (Z.lt_ge_cases (msg_buffer_pos (ps_msg st)) (msg_total_len (ps_msg st))) as [Hlt|Hge].
    + apply at_payload; cbn [with_stat set_chunk with_sk ps_write ps_msg ps_sk ps_net sk_pos]; rewrite ?Sm, ?Hpos; try done.
      * pose proof (snd_tx st H). lia.
      * by rewrite Z.add_0_r.
    + apply at_end; cbn [with_stat set_chunk with_sk ps_write ps_msg ps_net]; rewrite ?Sm; try done.
      rewrite Hs. f_equal. apply firstn_all2. unfold send_point, payload_done in *. unfold len in *. lia.
Qed.
(** One call: however the network takes the bytes, it leaves the packet on its
    way, complete, or given up. *)
Lemma publish_cases_ok now st :
  pub_sending st -> exists r st', publish_cases tx_buf_len now st = Ok (r, st') /\ send_outcome st r st'.
Proof using.
  intros H. unfold publish_cases.
  assert (Hpay : forall st1, pub_sending st1 -> same_message st st1 -> ps_write st1 = MQTT_MSG_PAYLOAD ->
    exists r st', (if bool_decide (ps_write st1 = MQTT_MSG_PAYLOAD) then publish_payload_case tx_buf_len now st1
      else if bool_decide (ps_write st1 = MQTT_MSG_WAIT) then Ok (None, st1)
      else let '(rc, st) := publish_end MQTT_CODE_ERROR_STAT st1 in Ok (Some rc, st)) = Ok (r, st') /\ send_outcome st r st').
  { intros st1 H1 [_ Hm] Hw. rewrite bool_decide_eq_true_2 by done.
    destruct (payload_case_ok now st1 H1 Hw) as (r & st' & E & Ho). exists r, st'. split; [done|].
    assert (Eq : msg_qos (ps_msg st1) = msg_qos (ps_msg st)) by (rewrite Hm; done).
    unfold send_outcome in *. by rewrite Eq in Ho. }
  destruct (decide (ps_write st = MQTT_MSG_HEADER)) as [Hw|Hw].
  - rewrite bool_decide_eq_true_2 by done.
    destruct (header_case_ok now st H Hw) as ([rc|] & st1 & -> & Ho); cbn [mbind result_bind]; [by eexists _, _|].
    destruct Ho as (H1 & Hm & Hw1). by apply Hpay.
  - rewrite bool_decide_eq_false_2 by done. cbn [mbind result_bind]. apply Hpay; [done|split; [done|by destruct (ps_msg st)]|].
    destruct (snd_at st H); [congruence|done..].
Qed.

Lemma with_level_same st : pub_sending st -> with_msg (set_level (cl_protocol_level (ps_client st)) (ps_msg st)) st = st.
Proof using. intros H. rewrite publish_level_same by done. by destruct st. Qed.

Lemma MqttPublishMsg_again now ok_topic ok_payload st :
  pub_sending st ->
  exists r st', MqttPublishMsg tx_buf_len now ok_topic ok_payload st = Ok (r, st') /\ send_outcome st r st'.
Proof using.
  intros H. unfold MqttPublishMsg. rewrite (snd_conn st H), (with_level_same st H), (snd_check st H).
  cbn [negb Z.eqb]. rewrite bool_decide_eq_false_2 by (destruct (snd_at st H); congruence).
  cbn [mbind result_bind]. by apply publish_cases_ok.
Qed.

(** What has been sent is a part of the packet. *)
Lemma sending_part st :
  pub_sending st -> exists k, 0 <= k <= len pkt /\ net_sent (ps_net st) = base ++ take (Z.to_nat k) pkt.
Proof using.
  intros H. pose proof (send_point_bounds st H). pose proof (pkt_split st H). pose proof (snd_pos st H).
  destruct (snd_at st H) as [_ (_ & _ & Hp & Hs)|_ Hlt Hp Hs|_ _ Hs].
  - assert (Hl : len (take (Z.to_nat (send_point (ps_msg st))) pkt) = send_point (ps_msg st)) by (apply len_take; lia).
    exists (sk_pos (ps_sk st)). split; [lia|]. rewrite Hs, take_take. do 2 f_equal. lia.
  - exists (send_point (ps_msg st) + sk_pos (ps_sk st)). split; [unfold send_point, payload_done in *; lia|done].
  - exists (len pkt). split; [pose proof (len_nonneg pkt); lia|]. rewrite Hs. unfold len. by rewrite Nat2Z.id, firstn_all.
Qed.
End Send.

(** ** The start *)

Section Begin.
Context {Net : Type} `{!Sender Net} (tx_buf_len : Z).
Implicit Types (st : PubState Net).

(** What the server allows and the client can keep track of. *)
Definition begin_ok st : Prop :=
  let cl := ps_client st in
  let m := ps_msg st in
  (MQTT_CONNECT_PROTOCOL_LEVEL_5 <= cl_protocol_level cl -> 0 < msg_qos m ->
     ps_held st <> 0 \/ 0 < server_recv_max (cl_limits cl)) /\
  (pub_ok m /\ pub_room tx_buf_len m (publish_payload_len m false)) /\
  (0 < packet_sz_max (cl_limits cl) ->
     len (pub_head m (publish_payload_len m false)) + msg_total_len m <= packet_sz_max (cl_limits cl)) /\
  (0 < msg_qos m -> msg_duplicate m <> 0 \/
     slot_map si_packet_id (cl_send_inflight cl) !! msg_packet_id m = None).

(** A message that is about to be sent. *)
Record begin_wf st : Prop := {
  bg_write : ps_write st = MQTT_MSG_BEGIN;
  bg_idle : sk_isActive (ps_sk st) = false /\ sk_pos (ps_sk st) = 0;
  bg_rep : pub_rep (ps_msg st);
  bg_quota : 0 <= server_recv_max (cl_limits (ps_client st)) <=
             server_recv_max_negotiated (cl_limits (ps_client st));
  bg_max : 0 <= packet_sz_max (cl_limits (ps_client st)) < 4294967296;
  bg_tx : tx_buf_len < 2147483648;
  bg_tables : tables_wf (cl_send_inflight (ps_client st), cl_replay (ps_client st))
}.

(** A message that is not sent leaves no trace in the client, the unit it had
    taken included. *)
Definition unsent st st' : Prop :=
  ps_net st' = ps_net st /\ ps_write st' = MQTT_MSG_BEGIN /\ sk_isActive (ps_sk st') = false /\
  (ps_held st = 0 -> ps_client st' = ps_client st /\ ps_held st' = 0).

(** A message that is sent has its unit, its identifier and its copy, and its
    headers with the first part of its payload are in [tx_buf]. *)
Definition publish_begun st st' : Prop :=
  let cl := ps_client st in
  let m := ps_msg st in
  let n := publish_payload_len m false in
  ps_net st' = ps_net st /\ ps_addr st' = ps_addr st /\ ps_write st' = MQTT_MSG_HEADER /\
  sk_isActive (ps_sk st') = true /\ sk_pos (ps_sk st') = 0 /\
  (exists payload, sk_tx (ps_sk st') = pub_head m n ++ payload /\
     sk_len (ps_sk st') = len (pub_head m n ++ payload) /\ len (pub_head m n ++ payload) <= tx_buf_len /\
     pub_sent tx_buf_len m false n payload (ps_msg st')) /\
  encoded_from m (ps_msg st') /\
  (0 < n -> len (pub_head m n) < tx_buf_len -> 0 < msg_intBuf_len (ps_msg st')) /\
  let takes := (MQTT_CONNECT_PROTOCOL_LEVEL_5 <=? cl_protocol_level cl) && (MQTT_QOS_0 <? msg_qos m) && (ps_held st =? 0) in
  ps_held st' = (if takes then 1 else ps_held st) /\
  exists t pool,
    ps_client st' = with_replay pool (cl_replayIdx cl) (with_send t
      (with_limits (set_recv_max (server_recv_max (cl_limits cl) - if takes then 1 else 0) (cl_limits cl)) cl)) /\
    (if MQTT_QOS_0 <? msg_qos m
     then exists ok_topic ok_payload,
       table_run (cl_send_inflight cl, cl_replay cl)
         [SendIdReserve (msg_packet_id m) (OWNER_MSG (ps_addr st)) (msg_duplicate m) (publish_ack_type m);
          Replay_Add (ps_msg st') ok_topic ok_payload] = Ok ([0; 0], (t, pool))
     else t = cl_send_inflight cl /\ pool = cl_replay cl).

Lemma set_recv_max_same l : set_recv_max (server_recv_max l) l = l.
Proof using. by destruct l. Qed.
Lemma with_limits_same cl : with_limits (cl_limits cl) cl = cl.
Proof using. by destruct cl. Qed.
Lemma with_replay_same cl : with_replay (cl_replay cl) (cl_replayIdx cl) cl = cl.
Proof using. by destruct cl. Qed.

(** Taking a unit and giving it back. *)
Lemma quota_returned st st2 :
  0 <= server_recv_max (cl_limits (ps_client st)) <= server_recv_max_negotiated (cl_limits (ps_client st)) ->
  let '(ok, st1) := reserve_quota st in
  ok = true -> ps_client st2 = ps_client st1 -> ps_held st2 = ps_held st1 ->
  ps_net st2 = ps_net st -> ps_write st2 = MQTT_MSG_BEGIN ->
  unsent st (MqttClient_RestoreRecvQuota (MqttWriteStop st2)).
Proof using.
  intros Hq. unfold reserve_quota, MqttClient_RecvQuotaReserve, unsent, MqttClient_RestoreRecvQuota,
    MqttClient_RecvQuotaRelease. cbn [MqttWriteStop with_sk ps_client ps_held].
  destruct (_ && _).
  - destruct (Z.eqb_spec (ps_held st) 0) as [E|E]; cbn [negb].
    + destruct (Z.ltb_spec 0 (server_recv_max (cl_limits (ps_client st)))) as [Hr|Hr]; [|done].
      cbn. intros _ -> -> Hn Hw. cbn. rewrite (proj2 (Z.ltb_lt _ _)) by lia. cbn. split_and!; [done..|].
      intros _. split; [|done].
      replace (server_recv_max (cl_limits (ps_client st)) - 1 + 1) with (server_recv_max (cl_limits (ps_client st))) by lia.
      by destruct (ps_client st) as [? ? [] ? ? ? ? ? ?].
    + cbn. intros _ -> -> Hn Hw. cbn. rewrite (proj2 (Z.eqb_neq _ _)) by done. cbn. by split_and!.
  - intros _ -> -> Hn Hw. destruct (Z.eqb_spec (ps_held st) 0) as [E|E]; cbn [negb]; cbn; (split_and!; [done..|]); [|done].
    intros _. by rewrite set_recv_max_same, with_limits_same.
Qed.

Lemma reserve_quota_ok st :
  0 <= server_recv_max (cl_limits (ps_client st)) ->
  let cl := ps_client st in
  let reserves := (MQTT_CONNECT_PROTOCOL_LEVEL_5 <=? cl_protocol_level cl) && (MQTT_QOS_0 <? msg_qos (ps_msg st)) in
  let '(ok, st1) := reserve_quota st in
  (ok = true <-> (MQTT_CONNECT_PROTOCOL_LEVEL_5 <= cl_protocol_level cl -> 0 < msg_qos (ps_msg st) ->
                  ps_held st <> 0 \/ 0 < server_recv_max (cl_limits cl))) /\
  (ok = false -> st1 = st) /\
  (ok = true -> exists l, ps_client st1 = with_limits l cl /\
     l = set_recv_max (server_recv_max (cl_limits cl) - (if reserves && (ps_held st =? 0) then 1 else 0)) (cl_limits cl) /\
     st1 = with_held (if reserves && (ps_held st =? 0) then 1 else ps_held st) (with_client (with_limits l cl) st)).
Proof using.
  intros Hr. cbv zeta. unfold reserve_quota, MqttClient_RecvQuotaReserve.
  destruct (_ && _) eqn:E; cbn [andb].
  - apply andb_true_iff in E as [E1 E2]. tests. destruct (Z.eqb_spec (ps_held st) 0) as [Eh|Eh]; cbn [negb].
    + destruct (Z.ltb_spec 0 (server_recv_max (cl_limits (ps_client st)))) as [Hp|Hp].
      * split; [split; [auto|done]|]. split; [done|]. intros _. eexists. split_and!; done.
      * split; [split; [done|intros H; destruct H; [lia|lia|done|lia]]|].
        split; [|done]. intros _. rewrite set_recv_max_same, with_limits_same. by destruct st.
    + split; [split; [auto|done]|]. split; [done|]. intros _. eexists. split_and!; [done| |].
      * by rewrite Z.sub_0_r.
      * done.
  - split; [split; [|done]|].
    + intros _ H1 H2. apply andb_false_iff in E as [E|E]; tests; lia.
    + split; [done|]. intros _. exists (cl_limits (ps_client st)).
      rewrite Z.sub_0_r, set_recv_max_same, with_limits_same. split_and!; [done|done|by destruct st].
Qed.

Lemma pub_head_pos m n : 0 < len (pub_head m n).
Proof using.
  unfold pub_head, header_bytes. rewrite len_app, len_cons. pose proof (len_nonneg (vbi 4 (len (pub_vars m) + n))).
  pose proof (len_nonneg (pub_vars m)). lia.
Qed.

Lemma replay_copy_ok m m' topic ok1 ok2 :
  pub_rep m -> encoded_from m m' -> exists slot, replay_copy m' topic ok1 ok2 = Ok slot.
Proof using.
  intros (_ & _ & _ & _ & _ & Ht & _ & _ & Hb) (_ & _ & _ & _ & _ & Htl & Hbuf & _ & _ & _ & Hbl & _).
  unfold replay_copy. destruct (_ && _) eqn:Es; [by eexists|].
  case_bool_decide; [by eexists|]. destruct ok1; cbn [negb]; [|by eexists].
  destruct (Z.ltb_spec 0 (msg_total_len m')) as [Hpos|]; [|by eexists].
  destruct ok2; cbn [negb]; [|by eexists]. cbn [andb] in Es. rewrite Hbuf in *.
  destruct (msg_buffer m) as [b|]; [|done]. tests. rewrite slice_ok; [by eexists|lia..|].
  destruct (Hb b eq_refl); destruct Hbl as [Hbl|[Hbl1 Hbl2]]; lia.
Qed.

Lemma Replay_Add_ok pool m m' ok1 ok2 :
  pub_rep m -> encoded_from m m' -> exists pool', MqttClient_Replay_Add pool m' ok1 ok2 = Ok pool'.
Proof using.
  intros Hr He. unfold MqttClient_Replay_Add. destruct (msg_topic_name m') as [topic|]; [|by eexists].
  destruct (_ =? 0); [by eexists|]. destruct (match MqttClient_Replay_Find _ _ with Some i => _ | None => _ end); [|by eexists].
  destruct (replay_copy_ok m m' topic ok1 ok2 Hr He) as [slot ->]. by eexists.
Qed.

(** The test of the packet's size. *)
Lemma too_big_spec l m m' payload rc :
  0 <= packet_sz_max l < 4294967296 -> pub_rep m -> tx_buf_len < 2147483648 ->
  let n := publish_payload_len m false in
  rc = len (pub_head m n ++ payload) -> rc <= tx_buf_len -> msg_intBuf_len m' = len payload ->
  msg_total_len m' = msg_total_len m ->
  publish_too_big l m' rc = false <-> (0 < packet_sz_max l -> len (pub_head m n) + msg_total_len m <= packet_sz_max l).
Proof using.
  intros Hm (_ & _ & _ & _ & _ & Ht & _) Htx n -> Hrc Hi Htl. unfold publish_too_big. rewrite Hi, Htl, len_app in *.
  pose proof (len_nonneg (pub_head m n)). pose proof (len_nonneg payload).
  replace (len (pub_head m n) + len payload - len payload) with (len (pub_head m n)) by lia.
  rewrite (u32_small (len (pub_head m n))) by lia.
  destruct (Z.ltb_spec 0 (packet_sz_max l)); cbn [andb]; [|split; [lia|done]].
  rewrite orb_false_iff, !Z.ltb_ge. split.
  - intros [Hx1 Hx2]. rewrite u32_small in Hx2 by lia. lia.
  - intros Hle. specialize (Hle ltac:(lia)). rewrite u32_small by lia. lia.
Qed.

Lemma SendIdReserve_free t id owner rt ack :
  length t = MQTT_MAX_SEND_INFLIGHT -> slots_wf si_packet_id t -> id <> 0 ->
  let '(rc, t') := MqttClient_SendIdReserve t id owner rt ack in
  (rc = 0 /\ (rt <> 0 \/ slot_map si_packet_id t !! id = None)) \/
  (rc = MQTT_CODE_ERROR_PACKET_ID /\ ~ (rt <> 0 \/ slot_map si_packet_id t !! id = None) /\ t' = t).
Proof using.
  intros Hl Hw Hid. unfold MqttClient_SendIdReserve. rewrite (proj2 (Z.eqb_neq _ _) Hid).
  destruct (MqttClient_SendIds_Find t id) as [i|] eqn:E.
  - pose proof E as (s & _ & _ & _ & _ & Hs & _)%slot_find_Some.
    rewrite (slot_find_lookup _ _ _ _ _ Hw Hid E Hs).
    destruct (Z.eqb_spec rt 0); [right|left]; (split; [done|]); [|by left]. split; [|done]. by intros [?|?].
  - rewrite (slot_find_absent _ _ _ Hw E). destruct (MqttClient_SendIds_Find t 0); left; auto.
Qed.

Lemma publish_begin_ok ok1 ok2 st :
  begin_wf st ->
  exists r st', publish_begin tx_buf_len ok1 ok2 st = Ok (r, st') /\
    ((begin_ok st /\ r = None /\ publish_begun st st') \/
     (~ begin_ok st /\ exists rc, rc < 0 /\ r = Some rc /\ unsent st st')).
Proof using.
  intros [Hw [Hi Hp0] Hrep Hq Hmax Htx Htab]. unfold publish_begin, MqttWriteStart. rewrite Hi. cbn [negb Z.eqb].
  set (st0 := with_sk _ st).
  pose proof (fun st2 => quota_returned st0 st2 Hq) as Hret. pose proof (reserve_quota_ok st0 (proj1 Hq)) as Hres.
  destruct (reserve_quota st0) as [ok st1]. destruct Hres as (Hok & Hno & Hyes).
  change (ps_client st0) with (ps_client st) in *. change (ps_msg st0) with (ps_msg st) in *.
  change (ps_held st0) with (ps_held st) in *.
  destruct ok; cbn [negb].
  2: { rewrite (Hno eq_refl). eexists _, _. split; [done|]. right. split.
       - intros (H1 & _). by apply Hok in H1.
       - eexists. split; [|split; [done|]]; [lia|]. by split_and!. }
  destruct (Hyes eq_refl) as (l & Hcl & Hl & Hst1). clear Hno Hyes. apply proj1 in Hok. specialize (Hok eq_refl).
  assert (Hm1 : ps_msg st1 = ps_msg st) by by rewrite Hst1.
  assert (Hn1 : ps_net st1 = ps_net st) by by rewrite Hst1.
  assert (Hw1 : ps_write st1 = MQTT_MSG_BEGIN) by (rewrite Hst1; done).
  assert (Hun : forall rc st2, rc < 0 -> ps_client st2 = ps_client st1 -> ps_held st2 = ps_held st1 ->
    ps_net st2 = ps_net st -> ps_write st2 = MQTT_MSG_BEGIN ->
    exists rc0, rc0 < 0 /\ Some rc = Some rc0 /\ unsent st (MqttClient_RestoreRecvQuota (MqttWriteStop st2))).
  { intros rc st2 Hrc Hc Hh Hn Hb. exists rc. split; [done|]. split; [done|].
    destruct (Hret st2 eq_refl Hc Hh Hn Hb) as (? & ? & ? & H0). split_and!; try done. }
  rewrite Hm1. pose proof (MqttEncode_Publish_settles tx_buf_len (ps_msg st) false Hrep) as Henc. cbv zeta in Henc.
  unfold begin_ok. destruct Henc as [(Hpok & ([[rc bs] m'] & Ee & payload & -> & Hrc & Hle & Hsent))|(Hbad & rc & Hrc & ->)].
  2: { eexists _, _. split; [done|]. right. split; [intros (_ & Hp & _); by destruct Hbad|]. by apply Hun. }
  rewrite Ee. pose proof (MqttEncode_Publish_fields _ _ _ _ _ Ee) as Hf.
  rewrite (proj2 (Z.leb_gt rc 0)) by (rewrite Hrc, len_app; pose proof (len_nonneg payload);
    pose proof (pub_head_pos (ps_msg st) (publish_payload_len (ps_msg st) false)); lia).
  pose proof Hsent as (_ & _ & _ & Hib & _ & _ & Htl).
  pose proof (too_big_spec (cl_limits (ps_client st)) (ps_msg st) m' payload rc Hmax Hrep Htx Hrc Hle Hib Htl) as Hbig.
  cbn [with_msg ps_client].
  replace (publish_too_big (cl_limits (ps_client st1)) m' rc) with (publish_too_big (cl_limits (ps_client st)) m' rc)
    by (rewrite Hcl, Hl; done).
  destruct (publish_too_big _ _ _).
  { eexists _, _. split; [done|]. right. split; [|by apply Hun]. intros (_ & _ & H3 & _). by apply Hbig in H3. }
  apply proj1 in Hbig. specialize (Hbig eq_refl).
  destruct Hf as (F1 & F2 & F3 & F4 & F5 & F6 & F7 & F8 & F9 & F10 & F11 & F12 & F13).
  set (st3 := set_chunk _ _ _). assert (Hc3 : ps_client st3 = ps_client st1) by done.
  rewrite F2. pose proof Htab as (Ht1 & Ht2 & Ht3 & Ht4). cbn [fst snd] in *.
  assert (Hbeg : forall st' t pool, ps_net st' = ps_net st3 -> ps_addr st' = ps_addr st3 -> ps_write st' = MQTT_MSG_HEADER ->
    ps_sk st' = ps_sk st3 -> ps_msg st' = m' -> ps_held st' = ps_held st3 ->
    ps_client st' = with_replay pool (cl_replayIdx (ps_client st)) (with_send t (with_limits l (ps_client st))) ->
    (if MQTT_QOS_0 <? msg_qos (ps_msg st)
     then exists ok_topic ok_payload,
       table_run (cl_send_inflight (ps_client st), cl_replay (ps_client st))
         [SendIdReserve (msg_packet_id (ps_msg st)) (OWNER_MSG (ps_addr st)) (msg_duplicate (ps_msg st)) (publish_ack_type (ps_msg st));
          Replay_Add m' ok_topic ok_payload] = Ok ([0; 0], (t, pool))
     else t = cl_send_inflight (ps_client st) /\ pool = cl_replay (ps_client st)) -> publish_begun st st').
  { intros st' t pool B1 B2 B3 B4 B5 B6 B7 B8. unfold publish_begun. rewrite B1, B2, B3, B4, B5, B6, B7. unfold st3. rewrite Hst1.
    split_and!; try done.
    - exists payload. split_and!; [done|exact Hrc|by rewrite <- Hrc|done].
    - intros Hpl Hroom. apply (MqttEncode_Publish_chunk _ _ _ _ _ Ee Hpl); [apply Hrep|].
      rewrite Hrc, Hib, len_app. lia.
    - exists t, pool. by rewrite <- Hl. }
  destruct (Z.ltb_spec MQTT_QOS_0 (msg_qos (ps_msg st))) as [Hqos|Hqos].
  2: { eexists _, _. split; [done|]. left.
       split; [refine (conj Hok (conj Hpok (conj Hbig _))); intros; exfalso; lia|]. split; [done|].
       by apply (Hbeg _ (cl_send_inflight (ps_client st)) (cl_replay (ps_client st))). }
  rewrite Hc3.
  assert (Hid : msg_packet_id (ps_msg st) <> 0) by (apply Hpok; lia).
  rewrite Hcl, F1. cbn [with_limits cl_send_inflight cl_replay cl_replayIdx].
  pose proof (SendIdReserve_free (cl_send_inflight (ps_client st)) (msg_packet_id (ps_msg st)) (OWNER_MSG (ps_addr st3))
    (msg_duplicate m') (publish_ack_type m') Ht1 Ht3 Hid) as Hfree.
  destruct (MqttClient_SendIdReserve _ _ _ _ _) as [rc2 t'] eqn:Er. destruct Hfree as [(-> & Hfree)|(-> & Hfree & ->)].
  - cbn [negb Z.eqb].
    destruct (Replay_Add_ok (cl_replay (ps_client st)) (ps_msg st) m' ok1 ok2 Hrep) as [pool' Hpool]; [by split_and!|].
    rewrite Hpool. cbn [mbind result_bind]. eexists _, _. split; [done|]. left. rewrite F4 in *.
    split; [exact (conj Hok (conj Hpok (conj Hbig (fun _ => Hfree))))|]. split; [done|].
    apply (Hbeg _ t' pool'); try done. exists ok1, ok2.
    cbn [table_run table_step]. unfold st3 in Er. rewrite Hst1 in Er. unfold publish_ack_type in *. rewrite F2 in Er.
    cbn [set_chunk with_sk with_msg with_held with_client ps_addr st0] in Er. rewrite Er.
    cbn [mbind result_bind]. cbn. rewrite Hpool. done.
  - change (negb (MQTT_CODE_ERROR_PACKET_ID =? MQTT_CODE_SUCCESS)) with true. cbn [negb]. eexists _, _. split; [done|].
    right. split; [|by apply Hun]. intros (_ & _ & _ & H4). destruct Hfree. rewrite F4. apply H4. lia.
Qed.
End Begin.

(** ** Calls until the packet has left *)

Section Calls.
Context {Net : Type} `{!Sender Net} (tx_buf_len : Z) (b : list Z).
Implicit Types (st : PubState Net).

(** The application calls again while the message is under way, by its
    [stat.write]: one call for each element of [nows]. *)
Fixpoint publish_calls (nows : list Z) (ok_topic ok_payload : bool) st : result (option Z * PubState Net) :=
  match nows with
  | [] => Ok (Some MQTT_CODE_CONTINUE, st)
  | now :: nows =>
    '(r, st) ← MqttPublishMsg tx_buf_len now ok_topic ok_payload st;
    match r with
    | Some rc =>
      if bool_decide (ps_write st = MQTT_MSG_BEGIN) then Ok (Some rc, st)
      else publish_calls nows ok_topic ok_payload st
    | None => Ok (None, st)
    end
  end.

(** A message that can be sent: the client is connected, the server allows it,
    its identifier is free, and its payload, if it has one, is whole in the
    buffer [b] and starts in the first packet part. *)
Record send_ready st : Prop := {
  rd_begin : begin_wf tx_buf_len st;
  rd_conn : MqttClient_CheckConnectSent (ps_client st) = MQTT_CODE_SUCCESS;
  rd_level : msg_protocol_level (ps_msg st) = cl_protocol_level (ps_client st);
  rd_check : publish_check (ps_client st) (ps_msg st) = MQTT_CODE_SUCCESS;
  rd_ok : begin_ok tx_buf_len st;
  rd_pos : 0 <= msg_buffer_pos (ps_msg st);
  rd_len : len (pub_head (ps_msg st) (msg_total_len (ps_msg st))) + msg_total_len (ps_msg st) < 2147483648;
  rd_payload : 0 < msg_total_len (ps_msg st) ->
    msg_buffer (ps_msg st) = Some b /\ msg_total_len (ps_msg st) <= len b /\
    (msg_buffer_len (ps_msg st) = 0 \/ msg_total_len (ps_msg st) <= msg_buffer_len (ps_msg st)) /\
    len (pub_head (ps_msg st) (msg_total_len (ps_msg st))) < tx_buf_len
}.

(** Its packet. *)
Definition publish_wire (m : MqttMessage) : list Z :=
  pub_head m (msg_total_len m) ++ take (Z.to_nat (msg_total_len m)) b.

Lemma pub_head_encoded m m' n : encoded_from m m' -> pub_head m' n = pub_head m n.
Proof using.
  intros (F1 & F2 & F3 & F4 & F5 & F6 & F7 & F8 & F9 & _). unfold pub_head, pub_vars, pub_topic.
  by rewrite F1, F2, F3, F4, F5, F8, F9.
Qed.

Lemma ready_payload_len st :
  send_ready st -> publish_payload_len (ps_msg st) false = msg_total_len (ps_msg st).
Proof using.
  intros H. pose proof (bg_rep _ _ (rd_begin st H)) as Hrep. rewrite publish_payload_len_eq by done.
  destruct (msg_buffer (ps_msg st)) eqn:E; [done|]. destruct Hrep as (_ & _ & _ & _ & _ & Ht & _).
  destruct (Z.eq_dec (msg_total_len (ps_msg st)) 0) as [|Hne]; [done|].
  destruct (rd_payload st H) as (Hb & _); [lia|congruence].
Qed.

Lemma publish_wire_len st :
  send_ready st -> len (publish_wire (ps_msg st)) =
    len (pub_head (ps_msg st) (msg_total_len (ps_msg st))) + msg_total_len (ps_msg st).
Proof using.
  intros H. unfold publish_wire. rewrite len_app. f_equal.
  pose proof (bg_rep _ _ (rd_begin st H)) as (_ & _ & _ & _ & _ & Ht & _).
  destruct (Z.eq_dec (msg_total_len (ps_msg st)) 0) as [E|E]; [by rewrite E|].
  apply len_take. destruct (rd_payload st H) as (_ & Hl & _); lia.
Qed.

(** The part of the payload that the headers are sent with. *)
Lemma begun_chunk st st' payload :
  send_ready st -> let m := ps_msg st in
  pub_sent tx_buf_len m false (msg_total_len m) payload (ps_msg st') -> encoded_from m (ps_msg st') ->
  0 < msg_total_len m -> 0 < msg_intBuf_len (ps_msg st') ->
  payload = take (Z.to_nat (msg_buffer_pos (ps_msg st'))) b /\ msg_buffer_pos (ps_msg st') = len payload /\
  0 < msg_buffer_pos (ps_msg st') <= msg_total_len m /\ msg_total_len m <= msg_buffer_len (ps_msg st').
Proof using.
  cbv zeta. intros H (_ & Hpre & Hle & Hint & _) (_ & _ & _ & _ & _ & _ & _ & _ & _ & _ & Hbl & Hbl0 & _) Ht Hpos.
  destruct (rd_payload st H Ht) as (Eb & Hlb & Hb & _).
  destruct (Hpre eq_refl Ht) as (b' & Eb' & [more Ep] & Hbp & _). rewrite Eb in Eb'. injection Eb' as <-.
  rewrite Hbp. split_and!; [|done|lia|lia|].
  - rewrite Ep. unfold len. by rewrite Nat2Z.id, take_app_length.
  - rewrite ready_payload_len in Hbl0 by done. destruct Hb as [Hb|Hb]; [rewrite Hbl0 by done; lia|].
    destruct Hbl as [->|[? ->]]; lia.
Qed.

Lemma begun_sending st st' :
  send_ready st -> publish_begun tx_buf_len st st' ->
  pub_sending tx_buf_len (net_sent (ps_net st)) b (publish_wire (ps_msg st)) st'.
Proof using.
  intros H (Hn & _ & Hw & _ & Hp0 & (payload & Htx & Hsl & Hle & Hsent) & He & Hchunk & _ & t & pool & Hcl & _).
  pose proof (publish_wire_len st H) as Hpl. pose proof (rd_begin st H) as [_ _ Hrep _ Hmax Htxl _].
  pose proof Hrep as (_ & _ & _ & _ & _ & Ht & _).
  pose proof He as (F1 & F2 & F3 & F4 & F5 & F6 & F7 & F8 & F9 & F10 & _ & _ & F13).
  rewrite ready_payload_len in * by done. pose proof (pub_head_pos (ps_msg st) (msg_total_len (ps_msg st))) as Hhp.
  pose proof (len_nonneg payload) as Hpay.
  assert (Hwhole : payload = take (Z.to_nat (payload_done (ps_msg st'))) b /\ len payload = payload_done (ps_msg st') /\
    0 <= msg_buffer_pos (ps_msg st') /\
    (0 < msg_total_len (ps_msg st) -> 0 < msg_buffer_pos (ps_msg st') <= msg_total_len (ps_msg st) /\
       msg_total_len (ps_msg st) <= msg_buffer_len (ps_msg st'))).
  { unfold payload_done. rewrite F6. destruct (Z.eq_dec (msg_total_len (ps_msg st)) 0) as [E|E].
    - rewrite F13 by lia. pose proof (rd_pos st H). destruct Hsent as (Hnil & _). rewrite E, Z.min_r by lia.
      rewrite (Hnil (or_intror E)). split_and!; done || lia.
    - assert (Hpos : 0 < msg_total_len (ps_msg st)) by lia. destruct (rd_payload st H Hpos) as (_ & _ & _ & Hroom).
      destruct (begun_chunk st st' payload H Hsent He Hpos (Hchunk Hpos Hroom)) as (E1 & E2 & E3 & E4).
      rewrite Z.min_l by lia. split_and!; done || lia. }
  destruct Hwhole as (Epay & Elen & Hbp & Hbuf).
  constructor; rewrite ?Hcl, ?F6; cbn [with_replay with_send with_limits cl_limits cl_protocol_level].
  - exact (rd_conn st H).
  - pose proof (rd_check st H) as Hc. unfold publish_check in *. rewrite F2, F3, F8. exact Hc.
  - rewrite F9. apply (rd_level st H).
  - apply Hmax.
  - intros Hps. rewrite Hpl. pose proof (rd_ok st H) as (_ & _ & Hf & _). rewrite ready_payload_len in Hf by done. by apply Hf.
  - pose proof (len_app (pub_head (ps_msg st) (msg_total_len (ps_msg st))) payload). lia.
  - by rewrite (pub_head_encoded _ _ _ He).
  - rewrite Hpl. apply (rd_len st H).
  - intros Hpos. rewrite F7. destruct (rd_payload st H Hpos) as (Eb & Hlb & _). by split_and!; [..|apply Hbuf|apply Hbuf|apply Hbuf].
  - split_and!; try done; lia.
  - apply at_header; [done|]. unfold send_point. rewrite F6, (pub_head_encoded _ _ _ He).
    assert (Ebs : take (Z.to_nat (len (pub_head (ps_msg st) (msg_total_len (ps_msg st))) + payload_done (ps_msg st')))
                    (publish_wire (ps_msg st)) = pub_head (ps_msg st) (msg_total_len (ps_msg st)) ++ payload).
    { unfold publish_wire. rewrite Z2Nat.inj_add by lia. unfold len at 1. rewrite Nat2Z.id, take_app_add.
      f_equal. rewrite Epay at 1. rewrite take_take. f_equal. unfold payload_done. rewrite F6. lia. }
    rewrite Ebs. split_and!; [done|done|lia| |]; rewrite ?Hp0, ?Hsl, ?len_app; [lia|].
    by rewrite Hn, take_0, app_nil_r.
Qed.
(** ** All calls together *)

(** What a row of calls has done to the message [st]: the headers with its
    whole payload have been sent, once, and the acknowledgement is awaited, or
    at QoS 0 the message is done; or a part has been sent, and the message is
    on its way or given up. *)
Definition publish_sent st (r : option Z) st' : Prop :=
  let pkt := publish_wire (ps_msg st) in
  match r with
  | None =>
    msg_qos (ps_msg st) <> MQTT_QOS_0 /\ ps_write st' = MQTT_MSG_WAIT /\ sk_isActive (ps_sk st') = false /\
    net_sent (ps_net st') = net_sent (ps_net st) ++ pkt
  | Some rc =>
    (rc = MQTT_CODE_CONTINUE /\
     exists k, 0 <= k <= len pkt /\ net_sent (ps_net st') = net_sent (ps_net st) ++ take (Z.to_nat k) pkt) \/
    (rc = MQTT_CODE_SUCCESS /\ msg_qos (ps_msg st) = MQTT_QOS_0 /\ ps_write st' = MQTT_MSG_BEGIN /\
     sk_isActive (ps_sk st') = false /\ net_sent (ps_net st') = net_sent (ps_net st) ++ pkt) \/
    (rc < 0 /\ ps_write st' = MQTT_MSG_BEGIN /\ sk_isActive (ps_sk st') = false /\
     exists k, 0 <= k < len pkt /\ net_sent (ps_net st') = net_sent (ps_net st) ++ take (Z.to_nat k) pkt)
  end.

Lemma publish_calls_outcome (more : PubState Net -> result (option Z * PubState Net)) st0 st r st' :
  (forall st, pub_sending tx_buf_len (net_sent (ps_net st0)) b (publish_wire (ps_msg st0)) st ->
     msg_qos (ps_msg st) = msg_qos (ps_msg st0) -> exists r st', more st = Ok (r, st') /\ publish_sent st0 r st') ->
  msg_qos (ps_msg st) = msg_qos (ps_msg st0) ->
  send_outcome tx_buf_len (net_sent (ps_net st0)) b (publish_wire (ps_msg st0)) st r st' ->
  exists r' st2, match r with
    | Some rc => if bool_decide (ps_write st' = MQTT_MSG_BEGIN) then Ok (Some rc, st') else more st'
    | None => Ok (None, st')
    end = Ok (r', st2) /\ publish_sent st0 r' st2.
Proof using.
  intros Hmore Hq Ho. destruct r as [rc|]; cbn [send_outcome] in Ho.
  2: { rewrite Hq in Ho. eexists _, _. split; [done|]. exact Ho. }
  destruct Ho as [(Hrc & Hs & Hq')|[(-> & H1 & H2)|(Hrc & H2 & H3 & Hk)]].
  - rewrite bool_decide_eq_false_2 by (destruct (snd_at _ _ _ _ _ Hs); congruence). apply Hmore; [done|congruence].
  - rewrite bool_decide_eq_true_2 by apply H2. eexists _, _. split; [done|]. right. left. rewrite Hq in H1. done.
  - rewrite bool_decide_eq_true_2 by done. eexists _, _. split; [done|]. right. by right.
Qed.

Lemma publish_calls_sending nows ok1 ok2 st0 st :
  pub_sending tx_buf_len (net_sent (ps_net st0)) b (publish_wire (ps_msg st0)) st -> msg_qos (ps_msg st) = msg_qos (ps_msg st0) ->
  exists r st', publish_calls nows ok1 ok2 st = Ok (r, st') /\ publish_sent st0 r st'.
Proof using.
  revert st. induction nows as [|now nows IH]; intros st H Hq; cbn [publish_calls].
  { eexists _, _. split; [done|]. left. split; [done|]. by eapply sending_part. }
  destruct (MqttPublishMsg_again _ _ _ _ now ok1 ok2 st H) as (r & st' & -> & Ho). cbn [mbind result_bind].
  apply (publish_calls_outcome (publish_calls nows ok1 ok2) st0 st); [|done..]. apply IH.
Qed.

Lemma publish_calls_ok now nows ok1 ok2 st :
  send_ready st -> exists r st', publish_calls (now :: nows) ok1 ok2 st = Ok (r, st') /\ publish_sent st r st'.
Proof using.
  intros H. cbn [publish_calls]. unfold MqttPublishMsg. rewrite (rd_conn st H). cbn [negb Z.eqb].
  assert (El : with_msg (set_level (cl_protocol_level (ps_client st)) (ps_msg st)) st = st).
  { rewrite <- (rd_level st H). by destruct st as [? ? ? ? [] ? ?]. }
  rewrite El, (rd_check st H). cbn [negb Z.eqb]. pose proof (rd_begin st H) as Hb.
  rewrite bool_decide_eq_true_2 by apply (bg_write _ _ Hb).
  destruct (publish_begin_ok tx_buf_len ok1 ok2 st Hb) as (r & st1 & -> & [(_ & -> & Hbeg)|(Hno & _)]);
    [|by destruct Hno; apply (rd_ok st H)].
  cbn [mbind result_bind]. pose proof (begun_sending st st1 H Hbeg) as Hs.
  assert (Hq : msg_qos (ps_msg st1) = msg_qos (ps_msg st)) by apply Hbeg.
  destruct (publish_cases_ok _ _ _ _ now st1 Hs) as (r & st' & -> & Ho). cbn [mbind result_bind].
  apply (publish_calls_outcome (publish_calls nows ok1 ok2) st st1); [|done..].
  intros st2 H2 Hq2. by apply publish_calls_sending.
Qed.
End Calls.

(** ** Examples *)

Section Examples.

(** A connected MQTT v5 client with a Receive Maximum of [units]; the server has
    announced no other limit. *)
Definition ex_pub_client (units : Z) (T : Tables) : MqttClient :=
  mkClient MQTT_CLIENT_FLAG_CONNECT_SENT 5 (mkLimits 0 2 1 60 0 units 10 0) (replicate MQTT_MAX_RECV_QOS2 0)
    (replicate 64 0) 0 (fst T) (snd T) 4.

(** "hello" on "t" at QoS 1 with identifier 7. *)
Definition ex_pub_msg : MqttMessage :=
  mkMessage 7 0 1 0 0 (Some [116]) 0 5 (Some [104; 101; 108; 108; 111]) 5 0 0 0 0 [] 5.

Definition ex_pub_state (units : Z) (script : list Z) : PubState ScriptNet :=
  mkPub (ex_pub_client units tables0) 1 MQTT_MSG_BEGIN 0 ex_pub_msg (mkSk 0 0 0 false [] 0) (mkScript script [] []).

Lemma ex_pub_rep : pub_rep ex_pub_msg.
Proof. split_and!; try by_eval. intros b [= <-]. by left. Qed.

Lemma ex_pub_begin units script : 0 <= units <= 10 -> begin_wf 10 (ex_pub_state units script).
Proof.
  intros Hu. constructor; [done|done|exact ex_pub_rep|exact Hu|cbn; lia|done|exact tables0_wf].
Qed.

Lemma ex_pub_ready script : send_ready 10 [104; 101; 108; 108; 111] (ex_pub_state 1 script).
Proof.
  constructor; try done; [by apply ex_pub_begin; lia|..].
  - pose proof (MqttEncode_Publish_settles 10 ex_pub_msg false ex_pub_rep) as [[Hok _]|[_ (rc & _ & E)]]; [|by vm_compute in E].
    split; [intros _ _; by right|]. split; [exact Hok|]. split; [done|]. intros _. by right.
  - intros _. split_and!; [done|by_eval|by right|by_eval].
Qed.
End Examples.

(** ** Properties *)

(** A PUBLISH is sent once and whole. The application calls [MqttPublishMsg]
    again while the message is under way, the client is connected, the server
    allows the message and its identifier is free: however the network cuts the
    bytes, and however small the send buffer, if it takes the headers and a byte
    of the payload, at every stop the bytes sent are a prefix of the packet; when
    the acknowledgement is awaited, or a QoS 0 message is reported as sent, they
    are the headers and the whole payload; and a message that is given up was
    not sent whole and leaves the write state idle. *)
Theorem MqttPublishMsg_sends {Net} `{!Sender Net} tx_buf_len b now nows ok_topic ok_payload (st : PubState Net) :
  send_ready tx_buf_len b st ->
  exists r st', publish_calls tx_buf_len (now :: nows) ok_topic ok_payload st = Ok (r, st') /\ publish_sent b st r st'.
Proof. apply publish_calls_ok. Qed.

(** Four calls for 13 bytes over a buffer of 10 and an interrupted network. *)
Lemma MqttPublishMsg_sends_witness :
  exists st', publish_calls 10 [0; 0; 0; 0] true true (ex_pub_state 1 [4; MQTT_CODE_CONTINUE; 9; 1]) = Ok (None, st') /\
    ps_write st' = MQTT_MSG_WAIT /\
    net_sent (ps_net st') = publish_wire [104; 101; 108; 108; 111] ex_pub_msg /\
    publish_wire [104; 101; 108; 108; 111] ex_pub_msg = [50; 11; 0; 1; 116; 0; 7; 0; 104; 101; 108; 108; 111].
Proof.
  destruct (MqttPublishMsg_sends 10 [104; 101; 108; 108; 111] 0 [0; 0; 0] true true _ (ex_pub_ready [4; MQTT_CODE_CONTINUE; 9; 1]))
    as (r & st' & E & H).
  assert (r = None) as -> by (vm_compute in E; by injection E as <- _).
  destruct H as (_ & Hw & _ & Hs). exists st'. split; [exact E|]. split; [exact Hw|]. split; [exact Hs|by vm_compute].
Defined.

(** A PUBLISH is refused without a trace, or begun. For a message at its start
    whose client is connected and that passes the checks against the server's
    limits, the first call begins it exactly if a unit of the Receive Maximum is
    left, its fields are valid and its headers fit the send buffer, the whole
    packet is not larger than the server's Maximum Packet Size, and its
    identifier awaits no acknowledgement or it is a re-send. Then it holds its
    unit, its identifier and its retained copy, and the headers with the first
    part of its payload are in the send buffer. Else nothing is sent, the code
    is negative, and the client is as it was: the unit taken is given back. *)
Theorem publish_begin_exact {Net} `{!Sender Net} tx_buf_len ok_topic ok_payload (st : PubState Net) :
  begin_wf tx_buf_len st ->
  exists r st', publish_begin tx_buf_len ok_topic ok_payload st = Ok (r, st') /\
    ((begin_ok tx_buf_len st /\ r = None /\ publish_begun tx_buf_len st st') \/
     (~ begin_ok tx_buf_len st /\ exists rc, rc < 0 /\ r = Some rc /\ unsent st st')).
Proof. apply publish_begin_ok. Qed.

(** No unit is left. *)
Lemma publish_begin_exact_witness :
  exists st', publish_begin 10 true true (ex_pub_state 0 []) = Ok (Some MQTT_CODE_ERROR_SERVER_PROP, st') /\
    unsent (ex_pub_state 0 []) st'.
Proof.
  destruct (publish_begin_exact 10 true true _ (ex_pub_begin 0 [] ltac:(lia))) as (r & st' & E & [(Hok & _)|(_ & rc & _ & -> & H)]).
  - destruct Hok as (Hu & _). destruct Hu as [Hu|Hu]; [cbn; lia|cbn; lia|by destruct Hu|by cbn in Hu].
  - exists st'. split; [|exact H]. rewrite E. vm_compute in E. by injection E as <- <-.
Defined.

(** Headers that fill the send buffer. A PUBLISH whose headers are exactly as
    long as the send buffer is publish_begun, its headers are sent, and then
    [MqttClient_Publish_WritePayload], which has no part of the payload in the
    buffer yet, writes 0 bytes: [MqttPacket_Write] refuses that and the message
    is given up behind the headers that announce its payload. With one byte
    more, or one less, it is sent or refused. *)
Theorem WritePayload_empty_chunk :
  let call tx := MqttPublishMsg tx 0 true true (ex_pub_state 1 []) in
  (exists st', call 8 = Ok (Some MQTT_CODE_ERROR_BAD_ARG, st') /\
     net_sent (ps_net st') = [50; 11; 0; 1; 116; 0; 7; 0] /\ ps_write st' = MQTT_MSG_BEGIN) /\
  (exists st', call 7 = Ok (Some MQTT_CODE_ERROR_OUT_OF_BUFFER, st') /\ net_sent (ps_net st') = []) /\
  (exists st', call 9 = Ok (None, st') /\
     net_sent (ps_net st') = [50; 11; 0; 1; 116; 0; 7; 0; 104; 101; 108; 108; 111]).
Proof. split_and!; eexists; vm_compute; split_and!; reflexivity. Qed.

(** A QoS 0 message has no Packet Identifier, but the paths of a failed write
    use its field. When part of it was sent, the identifier is claimed for an
    acknowledgement that will never come, and a QoS 1 message is refused it;
    when nothing was sent, the retained copy of the message that is under way
    with that identifier is dropped, and is not replayed. *)
Theorem PublishMsg_qos0_identifier :
  let msg qos := mkMessage 7 0 qos 0 0 (Some [116]) 0 5 (Some [104; 101; 108; 108; 111]) 5 0 0 0 0 [] 5 in
  let start addr qos script T := mkPub (ex_pub_client 1 T) addr MQTT_MSG_BEGIN 0 (msg qos) (mkSk 0 0 0 false [] 0) (mkScript script [] []) in
  let tables st := (cl_send_inflight (ps_client st), cl_replay (ps_client st)) in
  (exists st st', MqttPublishMsg 64 0 true true (start 1 0 [4; MQTT_CODE_ERROR_NETWORK] tables0) = Ok (Some MQTT_CODE_CONTINUE, st) /\
     MqttPublishMsg 64 0 true true st = Ok (Some MQTT_CODE_ERROR_NETWORK, st') /\
     inflight (table_spec (tables st')) !! 7 = Some (OWNER_MSG 1, MQTT_PACKET_TYPE_PUBLISH_ACK) /\
     exists st2, MqttPublishMsg 64 0 true true (start 2 1 [] (tables st')) = Ok (Some MQTT_CODE_ERROR_PACKET_ID, st2)) /\
  (exists st st', MqttPublishMsg 64 0 true true (start 1 1 [] tables0) = Ok (None, st) /\
     is_Some (retained (table_spec (tables st)) !! 7) /\
     MqttPublishMsg 64 0 true true (start 2 0 [MQTT_CODE_ERROR_NETWORK] (tables st)) = Ok (Some MQTT_CODE_ERROR_NETWORK, st') /\
     is_Some (inflight (table_spec (tables st')) !! 7) /\ retained (table_spec (tables st')) = ∅).
Proof.
  cbv zeta. split.
  - eexists _, _. split; [vm_compute; reflexivity|]. split; [vm_compute; reflexivity|]. split; [by vm_compute|].
    eexists. vm_compute. reflexivity.
  - eexists _, _. split; [vm_compute; reflexivity|]. split; [vm_compute; by eexists|]. split; [vm_compute; reflexivity|].
    split; [vm_compute; by eexists|by vm_compute].
Qed.

(** A re-send that does not leave. The original was sent and is not
    acknowledged; the network fails before the first byte of its re-send, and
    the client gives up both the identifier and the retained copy, as if the
    message had never been sent: a new message may take the identifier, and
    the next CONNECT replays nothing. *)
Theorem PublishMsg_resend_lost :
  let msg dup := mkMessage 7 0 1 0 dup (Some [116]) 0 5 (Some [104; 101; 108; 108; 111]) 5 0 0 0 0 [] 5 in
  let start dup script T := mkPub (ex_pub_client 1 T) 1 MQTT_MSG_BEGIN 0 (msg dup) (mkSk 0 0 0 false [] 0) (mkScript script [] []) in
  let tables st := (cl_send_inflight (ps_client st), cl_replay (ps_client st)) in
  exists st st', MqttPublishMsg 64 0 true true (start 0 [] tables0) = Ok (None, st) /\
    is_Some (inflight (table_spec (tables st)) !! 7) /\ is_Some (retained (table_spec (tables st)) !! 7) /\
    MqttPublishMsg 64 0 true true (start 1 [MQTT_CODE_ERROR_NETWORK] (tables st)) = Ok (Some MQTT_CODE_ERROR_NETWORK, st') /\
    table_spec (tables st') = table_spec tables0.
Proof.
  cbv zeta. eexists _, _. split; [vm_compute; reflexivity|]. split; [vm_compute; by eexists|].
  split; [vm_compute; by eexists|]. split; [vm_compute; reflexivity|by vm_compute].
Qed.
